(* ===== verification/_CoqProject ===== *)
-Q . S2P
Prelude.v
GoLib.v
Json.v
Network.v
SkipGoTypes.v
Config.v
Database.v
World.v
Prices.v
Oracle.v
GasMonitor.v
Keys.v
TxExecutor.v
Settlements.v
Hyperlane.v
Interfaces.v
RelayerRunner.v
OrderSettler.v
OrderQueue.v
QueueSpec.v
Fulfillment.v
TxVerifier.v
SkipGo.v
FundRebalancer.v
TransferMonitor.v
EvmBridge.v
CosmosBridge.v
ClientManager.v
HyperlaneClients.v
Stack.v
CliReports.v
CliOrders.v
Workers.v
System.v
Sha256.v
Anchor.v
Borsh.v
MessageTransmitter.v
TokenMessengerMinter.v
Keccak.v
Abigen.v
UsdcBinding.v
GatewayBinding.v
HyperlaneBindings.v
Metrics.v
Signers.v
Startup.v
EvmRpc.v
CliSetup.v
Supervision.v
