(* ===== verification/Prelude.v ===== *)
(** * A verification of the Skip Go Fast solver

    The solver watches fast-transfer orders on EVM chains, fills them on a Cosmos
    chain, settles its fills in batches, relays the settlement and timeout messages
    over Hyperlane back to the source chains, and keeps its USDC balanced between
    chains.  The components run as goroutines that share one SQLite database and
    talk to chains and services through interfaces; the clients behind the
    interfaces build, sign, send and read what goes over the network.

    ** How the program is modelled

    - Pure code is a Rocq function.  Code that can fail returns [result] ([Ok], [Err]
      with the wrapped error, [Panic] for a Go panic); nil pointers are [None], maps
      are [gmap]s, strings are [string]s, bytes are [byte]s, machine integers are
      [Z] with their wrap-around written out ([u64], [u32], [i64]), [big.Int] is [Z],
      [big.Float] and [float64] are binary floats with their rounding, and a JSON
      text is its tree.
    - Effectful code is a computation in the state monad [M (World E)]: the world
      holds the database, the maps the components and the clients keep in memory, the
      hidden state of the environment and a ghost trace of all calls outside with
      their answers.
    - There are two layers with one kind of world.  The components make the calls of
      the interfaces they are written against ([cctp.BridgeClient],
      [hyperlane.Client], [skipgo.SkipGoClient], ...).  The clients that implement
      these interfaces make the calls of the lower boundary, [Net]: nodes, contract
      bindings, HTTP, signing, files and environment variables.
    - A call is a [request] answered by an arbitrary environment [Env E], which may
      fail at any call; so are the clock, the scheduler, the SQL driver and the
      iteration order of Go maps.  The theorems hold for every environment.
      Third-party code that computes is a parameter: cryptography ([Crypto],
      [KeyLib]), [common.HexToAddress], the decimal of a gas price, the parser of
      coins, the JSON encoder of a Cosmos transaction; and so are the libraries under
      the bindings, the signers, the metrics and the start, as classes with laws
      ([BoundContract], [CosmosSdk], [Prometheus], [Migrate], [EthClient]).
    - A loop of a goroutine is modelled by one round (a tick, an order, an event) or
      run over a script of the events it receives.  Goroutines of an errgroup run one
      after the other in an arbitrary order; the goroutines that search the log run
      at their start or at the end.  The order queue, whose point is its
      interleaving, is a step relation over critical sections and channel operations;
      the workers it serves are cut at their accesses to the database and the chains and
      interleaved with it ([Workers], [System]).  A round of another component is one
      step there: these are single loops, and what a round does between two of its own
      accesses is not interleaved with the others.
    - A deferred function runs on a panic, too, where the code has one ([on_panic]).
    - Logging is left out.  The metrics are modelled on their own ([Metrics]); the
      components are modelled without their calls of them.

    ** Files

    - [Prelude]: errors, results, the monad with its loops and retries, the program
      logic ([wp] for one run, [frame] for relations every run keeps) and its tactics.
    - [GoLib], [Json]: the parts of the Go standard library the program uses.
    - [Network]: the data and the calls of the clients' lower boundary.
    - [SkipGoTypes]: the data of shared/clients/skipgo with its JSON decoders.
    - [Config]: shared/config/config.go, the schema, its validation and the reader.
    - [Database]: db/types.go and db/gen/db, the six tables, every query, the
      constraints of the schema as an invariant.
    - [World]: requests and answers, the world, [db.InTx], the tactics that walk a
      program ([solve_io], [wp_steps]) and the simulated environments of witnesses.

    The clients:
    - [Prices]: shared/clients/coingecko and the rate-limited HTTP client.
    - [Oracle]: shared/oracle/tx_price_oracle.go.
    - [Keys]: shared/keys and the creation of signers of shared/signing; [Signers]: the
      signers themselves, the signature of a Cosmos transaction, LogSolverAddresses.
    - [TxExecutor]: the transaction builder of shared/signing/evm, the connection
      managers of shared/evmrpc, shared/tmrpc and shared/cosmosgrpc, and the
      executors of shared/txexecutor.
    - [SkipGo]: the calls of shared/clients/skipgo/client.go.
    - [EvmBridge], [CosmosBridge]: shared/bridges/cctp.
    - [ClientManager]: shared/clientmanager.
    - [HyperlaneClients]: hyperlane/client.go, hyperlane/ethereum, hyperlane/cosmos.

    The components:
    - [GasMonitor]: gasmonitor/gasmonitor.go.
    - [Settlements]: ordersettler/types/settlements.go, batches of settlements.
    - [Hyperlane]: hyperlane/types, checkpoint_fetcher.go and relayer.go.
    - [Interfaces]: the Relayer interface, as a class with laws; the settler and the
      fulfiller are proved against it and [RelayerRunner] discharges it.
    - [RelayerRunner]: hyperlane/relayer_runner.go.
    - [OrderSettler]: ordersettler/ordersettler.go and detector.go.
    - [OrderQueue]: orderfulfiller/orderqueue/orderqueue.go; [QueueSpec]: the abstract
      scheduler it implements.
    - [Fulfillment]: orderfulfiller/orderfulfiller.go and order_fulfillment_handler;
      [Workers]: its goroutines step by step, and why the queue gives an order to one
      worker at a time.
    - [TxVerifier]: txverifier/txverifier.go.
    - [FundRebalancer]: fundrebalancer/fundrebalancer.go and transfermonitor.go.
    - [TransferMonitor]: transfermonitor/transfermonitor.go and the order decoding of
      shared/contracts/fast_transfer_gateway/utils.go.
    - [System]: cmd/solver/main.go, the goroutines of the fulfiller, their queue and the
      rounds of the other components interleaved.

    - [Startup]: the start of cmd/solver/main.go, db/connect, and the errgroup that runs
      the workers.
    - [Supervision]: the goroutines of the transfer monitor and the rebalancer around
      their rounds.
    - [Metrics]: shared/metrics/metrics.go.

    The two layers together, and the tools:
    - [Stack]: the clients answer the components' requests, as main.go wires them.
    - [CliReports], [CliOrders]: the commands of cmd/solvercli/cmd; [CliSetup]: their
      set-up, from the flags on.

    The Solana bindings of CCTP (shared/svm/contracts/cctp; no component calls them yet):
    - [Sha256]: the hash behind Anchor's identifiers.
    - [Anchor]: the encoder library and the account metas as classes with laws, the
      instruction builder and instructions.go, over any program; [Borsh]: a concrete
      library that satisfies the laws.
    - [MessageTransmitter], [TokenMessengerMinter]: the structs, tables of accounts,
      identifiers and variants of the two programs.

    The Ethereum bindings (shared/contracts):
    - [Keccak]: the hash behind selectors and topics.
    - [Abigen]: what abigen generates for a method and an event, over any contract: calls
      and their conversions, iterators and watches with the goroutine that feeds them.
    - [UsdcBinding], [GatewayBinding], [HyperlaneBindings]: the ABIs, methods and events of
      the nine contracts.
    - [EvmRpc]: shared/evmrpc/rpcquerier.go and ws_client.go over these, and the HTTP
      transports of shared/http and shared/utils.

    ** What is proved

    - Money leaves only when it may: a fill passes every guard and is sent at most
      once per order; a timeout only for an expired order; a settlement only for due
      batches, recorded in full or not at all; a relay only once, within its fee cap
      and with a quorum; a rebalance never moves more than a chain needs and is
      accounted for; the command-line flags are respected; with any number of concurrent fill
      workers a fill or timeout on record is never sent again, as long as the workers are
      in time for the queue's requeue delay (and a run shows that this is needed).
    - The clients send once: an executor, a fill, a batch settlement and a relay have
      at most one transaction accepted per call, retries included, and it is the one
      their arguments and the node's answers describe; a Skip Go call is one exchange.
    - End to end: over the real clients, filling an order gets at most one transaction
      accepted by the nodes, after every guard, and that one fills this order on the
      configured gateway under the recorded hash; settling a batch gets at most one
      accepted, which settles exactly this batch and repays the solver, and it is recorded
      under its hash or the database is unchanged; a transaction is recorded as
      successful or failed only when a node of its chain reported so for its hash.
    - The command line tool sends only what it may: settle-orders only batches of orders
      that the configured solver filled and that are unsettled, each once; submit-transfer one order, approved and
      mined before, with the data of its flags; the reports send nothing and their
      totals are the sums of what the chains and services answered.
    - Statuses follow evidence: orders, settlements, submitted transactions, transfers
      and rebalances change status only on the answers that justify it, and the
      clients' answers are what the node, the contract or the service said.
    - Progress: when the network answers, one round of the verifier leaves no
      transaction pending; the paged query of fills ends and returns all of them.
    - Nothing is lost or forged: polling skips no block, every log found is recorded,
      decoding inverts encoding, batching is a partition that preserves value, rows
      are never deleted and final transfers never change, however the workers and the
      rounds of the components interleave.
    - The queue implements an abstract scheduler: it deduplicates, is first in first
      out and keeps its requeue delay.
    - The Solana bindings: an instruction that validates is decoded from its data and
      accounts unchanged, and every identifier in the source is the hash Anchor defines.
    - The Ethereum bindings: they cover their ABIs, the selectors and topics they name are
      the hashes of the signatures, and no call panics on what a contract answers; an
      iterator ends, and delivers all logs in order unless [Error] says otherwise, however
      the goroutines interleave.
    - Around the components: the workers start only on a valid configuration and a migrated
      database, and nothing is sent before; the process ends when all workers have, with
      the first error; a signed Cosmos transaction is the one that was given, with a
      signature that verifies; the logged addresses are those of the signers; no metric
      call panics, and each records its value under the labels of its metric.
    - Arithmetic: the fee check in basis points is exact, the floating-point profit
      margin is within one unit of the exact one, gas limits add exactly a fifth, a
      fee in uusdc is the exact quotient, the chunks of a search cover its range in
      [uint64].
    - Where the code does not do what it means to, the theorem says what it does: an
      order removed by a reorganisation is abandoned and filled; a fill worker that is held
      up for longer than the requeue delay sends a fill that is on record; a failed gas
      estimate panics the executor; a failed search counts as an empty one; a relay
      error never abandons a transfer; a conflict on submission returns the id 0; the
      settlements report panics on a settled order and the inventory report always; a
      completed settlement can be reset; a checkpoint is not compared with its
      validator; an expensive gas token has no fee; the failure of one chain's websocket
      silently ends the monitoring of all chains; a flag for the key of the key file has
      no effect; a prompt at the end of its input never returns.

    ** Bounds

    The recursions are structural.  [TransferMonitor.chunks] has a bound of 102
    iterations: one poll spans at most 100000 blocks in chunks of 1000
    ([chunks_cover_poll]).  [CosmosBridge.fills_pages] takes fuel for its pages, and
    [OrderFillsByFiller_complete] shows how much is enough.  Retries are bounded as in
    the code (five attempts).

    ** Not modelled

    The constructors and raw wrappers of the Ethereum bindings and Close of an iterator
    (they only forward to go-ethereum), the pretty printing of Solana instructions, the
    metrics server, logging, parsing the command line, the Postgres connection of
    shared/database (nothing calls it), mocks and examples.  Context
    cancellation appears as an error of a call.  Two data races are not modelled: the
    shared error variable of the log search and the map of the gas monitor. *)
From stdpp Require Export base list strings gmap fin_maps sorting.
From Stdlib Require Export ZArith Lia.

#[global] Open Scope Z_scope.

(** ** Errors *)

(** The package-level error values and error types of the program that some
    caller inspects with [errors.Is], [errors.As] or a type assertion. *)
Inductive sentinel :=
  | SqlErrNoRows
  | ErrRelayTooExpensive
  | ErrMessageAlreadyDelivered
  | ErrNotEnoughSignaturesFound
  | ErrCouldNotDetermineRelayFee
  | ErrCheckpointDoesNotExist
  | ErrTxResultNotFound (TxHash : string)
  | ErrOrderFillEventNotFound (OrderID : string).

#[export] Instance sentinel_eq_dec : EqDecision sentinel.
Proof. solve_decision. Defined.

(** A Go error value: a sentinel, a fresh message ([errors.New], [fmt.Errorf]
    without [%w]), or a message wrapped around another error
    ([fmt.Errorf("...: %w", err)]; [prefix] is the text before the wrapped
    error). *)
Inductive error :=
  | ErrSentinel (s : sentinel)
  | ErrNew (msg : string)
  | ErrWrap (prefix : string) (e : error).

#[export] Instance error_eq_dec : EqDecision error.
Proof. solve_decision. Defined.

Definition sentinel_msg (s : sentinel) : string :=
  match s with
  | SqlErrNoRows => "sql: no rows in result set"
  | ErrRelayTooExpensive => "relay is too expensive"
  | ErrMessageAlreadyDelivered => "message has already been delivered"
  | ErrNotEnoughSignaturesFound =>
      "number of signatures found in multisig signed checkpoint is below expected threshold"
  | ErrCouldNotDetermineRelayFee => "could not determine relay fee"
  | ErrCheckpointDoesNotExist => "checkpoint does not exist"
  | ErrTxResultNotFound h => "tx result not found for tx: " +:+ h
  | ErrOrderFillEventNotFound o => "order fill event not found for order: " +:+ o
  end.

(** [err.Error()] *)
Fixpoint error_msg (e : error) : string :=
  match e with
  | ErrSentinel s => sentinel_msg s
  | ErrNew m => m
  | ErrWrap p e' => p +:+ error_msg e'
  end.

(** [errors.Is(err, s)] *)
Fixpoint errors_is (e : error) (s : sentinel) : bool :=
  match e with
  | ErrSentinel s' => bool_decide (s' = s)
  | ErrNew _ => false
  | ErrWrap _ e' => errors_is e' s
  end.

(** [errors.As(err, &cctp.ErrTxResultNotFound{})] *)
Fixpoint errors_as_tx_result_not_found (e : error) : bool :=
  match e with
  | ErrSentinel (ErrTxResultNotFound _) => true
  | ErrSentinel _ | ErrNew _ => false
  | ErrWrap _ e' => errors_as_tx_result_not_found e'
  end.

(** [_, ok := err.(cctp.ErrOrderFillEventNotFound)]: looks at the outermost
    error only. *)
Definition is_order_fill_event_not_found (e : error) : bool :=
  match e with
  | ErrSentinel (ErrOrderFillEventNotFound _) => true
  | _ => false
  end.

(** ** Results and the state monad *)

(** The outcome of a Go call: a value, a returned error, or a run-time panic
    (nil dereference, index out of range, division by zero). *)
Inductive result (A : Type) :=
  | Ok (a : A)
  | Err (e : error)
  | Panic (why : string).
Arguments Ok {A} a.
Arguments Err {A} e.
Arguments Panic {A} why.

Definition result_map {A B} (f : A → B) (r : result A) : result B :=
  match r with Ok a => Ok (f a) | Err e => Err e | Panic p => Panic p end.

Definition result_bind {A B} (f : A → result B) (r : result A) : result B :=
  match r with Ok a => f a | Err e => Err e | Panic p => Panic p end.
Notation rbind r f := (result_bind f r).

(** [if err != nil { return fmt.Errorf(prefix + "%w", err) }] *)
Definition result_wrap {A} (prefix : string) (r : result A) : result A :=
  match r with Err e => Err (ErrWrap prefix e) | _ => r end.

Lemma result_bind_ok {A B} (f : A → result B) r b :
  result_bind f r = Ok b → ∃ a, r = Ok a ∧ f a = Ok b.
Proof. destruct r; naive_solver. Qed.

Lemma result_wrap_ok {A} p (r : result A) a : result_wrap p r = Ok a ↔ r = Ok a.
Proof. by destruct r. Qed.

(** A computation over a state [S]. *)
Definition M (S A : Type) : Type := S → result A * S.

#[export] Instance M_ret S : MRet (M S) := λ A a s, (Ok a, s).
#[export] Instance M_bind S : MBind (M S) := λ A B f m s,
  match m s with
  | (Ok a, s') => f a s'
  | (Err e, s') => (Err e, s')
  | (Panic p, s') => (Panic p, s')
  end.

Section combinators.
Context {S : Type}.

Definition throw {A} (e : error) : M S A := λ s, (Err e, s).
Definition go_panic {A} (why : string) : M S A := λ s, (Panic why, s).
Definition get : M S S := λ s, (Ok s, s).
Definition modify (f : S → S) : M S unit := λ s, (Ok tt, f s).

(** [x, err := m]: the error becomes a value, a panic still unwinds. *)
Definition attempt {A} (m : M S A) : M S (error + A) := λ s,
  match m s with
  | (Ok a, s') => (Ok (inr a), s')
  | (Err e, s') => (Ok (inl e), s')
  | (Panic p, s') => (Panic p, s')
  end.

(** [if err != nil { return fmt.Errorf(prefix + "%w", err) }] *)
Definition wrap_err {A} (prefix : string) (m : M S A) : M S A := λ s,
  match m s with
  | (Err e, s') => (Err (ErrWrap prefix e), s')
  | rs => rs
  end.

(** A deferred function that runs when [m] panics; the panic goes on after it. *)
Definition on_panic {A} (deferred : M S unit) (m : M S A) : M S A := λ s,
  match m s with
  | (Panic p, s') => (Panic p, (deferred s').2)
  | rs => rs
  end.

Definition lift_result {A} (r : result A) : M S A := λ s, (r, s).

(** [v, ok := f(); if !ok { return errors.New(msg) }] *)
Definition or_throw {A} (o : option A) (msg : string) : M S A :=
  match o with
  | Some a => mret a
  | None => throw (ErrNew msg)
  end.

(** [for _, x := range l { body }] where the body may [return err]. *)
Fixpoint for_each {A} (l : list A) (body : A → M S unit) : M S unit :=
  match l with
  | [] => mret tt
  | x :: l' => _ ← body x; for_each l' body
  end.

End combinators.

(** How a loop body ends: go on with the accumulator, [break] out of the loop
    with it, or [return] a value from the enclosing function. *)
Inductive ctl (A R : Type) :=
  | Next (a : A)
  | Break (a : A)
  | Return (r : R).
Arguments Next {A R} a.
Arguments Break {A R} a.
Arguments Return {A R} r.

Fixpoint loop {S A X R} (l : list X) (acc : A) (body : A → X → M S (ctl A R)) :
    M S (A + R) :=
  match l with
  | [] => mret (inl acc)
  | x :: l' =>
      c ← body acc x;
      match c with
      | Next acc' => loop l' acc' body
      | Break acc' => mret (inl acc')
      | Return r => mret (inr r)
      end
  end.

(** [for _, x := range l { acc = body(acc, x) }] with early error returns. *)
Fixpoint fold_m {S A X} (body : A → X → M S A) (acc : A) (l : list X) : M S A :=
  match l with
  | [] => mret acc
  | x :: l' => acc' ← body acc x; fold_m body acc' l'
  end.

(** [for i := 0; i < n; i++ { if v, err := m(); err == nil { return v } ... }]:
    the first success wins; [None] when all [n] attempts failed. *)
Fixpoint retry {S A} (n : nat) (m : M S A) : M S (option A) :=
  match n with
  | O => mret None
  | Datatypes.S n' =>
      r ← attempt m;
      match r with
      | inr a => mret (Some a)
      | inl _ => retry n' m
      end
  end.

(** The same, keeping the error of the last attempt; [n] retries after the first
    attempt. *)
Fixpoint retry_last {S A} (n : nat) (m : M S A) : M S (error + A) :=
  r ← attempt m;
  match r, n with
  | inl _, Datatypes.S n' => retry_last n' m
  | _, _ => mret r
  end.

(** ** Program logic *)

(** [wp m Q s]: running [m] from [s] ends in an outcome and a state related by
    [Q]. *)
Definition wp {S A} (m : M S A) (Q : result A → S → Prop) (s : S) : Prop :=
  Q (m s).1 (m s).2.

Section wp.
Context {S : Type}.

Lemma wp_run {A} (m : M S A) Q s r s' : m s = (r, s') → wp m Q s → Q r s'.
Proof. unfold wp. by intros ->. Qed.

Lemma wp_intro {A} (m : M S A) (Q : result A → S → Prop) s :
  (∀ r s', m s = (r, s') → Q r s') → wp m Q s.
Proof. unfold wp. destruct (m s) eqn:E; eauto. Qed.

Lemma wp_ret {A} (a : A) Q (s : S) : Q (Ok a) s → wp (mret a) Q s.
Proof. done. Qed.

Lemma wp_throw {A} e (Q : result A → S → Prop) s : Q (Err e) s → wp (throw e) Q s.
Proof. done. Qed.

Lemma wp_panic {A} p (Q : result A → S → Prop) s : Q (Panic p) s → wp (go_panic p) Q s.
Proof. done. Qed.

Lemma wp_bind {A B} (m : M S A) (f : A → M S B) Q s :
  wp m (λ r s', match r with
                | Ok a => wp (f a) Q s'
                | Err e => Q (Err e) s'
                | Panic p => Q (Panic p) s'
                end) s →
  wp (m ≫= f) Q s.
Proof. unfold wp, mbind, M_bind. by destruct (m s) as [[] ?]. Qed.

Lemma wp_attempt {A} (m : M S A) Q s :
  wp m (λ r s', match r with
                | Ok a => Q (Ok (inr a)) s'
                | Err e => Q (Ok (inl e)) s'
                | Panic p => Q (Panic p) s'
                end) s →
  wp (attempt m) Q s.
Proof. unfold wp, attempt. by destruct (m s) as [[] ?]. Qed.

Lemma wp_wrap_err {A} p (m : M S A) Q s :
  wp m (λ r s', match r with
                | Err e => Q (Err (ErrWrap p e)) s'
                | _ => Q r s'
                end) s →
  wp (wrap_err p m) Q s.
Proof. unfold wp, wrap_err. by destruct (m s) as [[] ?]. Qed.

Lemma wp_on_panic {A} deferred (m : M S A) Q s :
  wp m (λ r s', match r with
                | Panic p => wp deferred (λ _, Q (Panic p)) s'
                | _ => Q r s'
                end) s →
  wp (on_panic deferred m) Q s.
Proof. unfold wp, on_panic. by destruct (m s) as [[] ?]. Qed.

Lemma wp_mono {A} (m : M S A) (Q Q' : result A → S → Prop) s :
  (∀ r s', Q r s' → Q' r s') → wp m Q s → wp m Q' s.
Proof. unfold wp. eauto. Qed.

(** Loop invariant rule for [for_each]: [I done s] holds when the elements of
    [done] have been processed. *)
Lemma wp_for_each {A} (I : list A → S → Prop) (l : list A) body
    (Q : result unit → S → Prop) s :
  I [] s →
  (∀ pre x post s, l = pre ++ x :: post → I pre s →
     wp (body x) (λ r s', match r with
                          | Ok _ => I (pre ++ [x]) s'
                          | Err e => Q (Err e) s'
                          | Panic p => Q (Panic p) s'
                          end) s) →
  (∀ s, I l s → Q (Ok tt) s) →
  wp (for_each l body) Q s.
Proof.
  intros Hinit Hbody Hend.
  enough (∀ post pre s, l = pre ++ post → I pre s → wp (for_each post body) Q s) as H
    by (apply (H l []); auto).
  clear Hinit s.
  induction post as [|x post IH]; intros pre s Hl HI; simpl.
  - apply wp_ret, Hend. by rewrite Hl, app_nil_r.
  - apply wp_bind. eapply wp_mono; [|by eapply Hbody].
    intros [] s'; [|done..]. intros HI'.
    eapply IH; [|done]. by rewrite Hl, <-app_assoc.
Qed.

(** The same for [loop]: the invariant also speaks of the accumulator; [break]
    and [return] leave the loop. *)
Lemma wp_loop {A X B} (I : list X → A → S → Prop) (l : list X) (acc : A)
    (body : A → X → M S (ctl A B)) (Q : result (A + B) → S → Prop) s :
  I [] acc s →
  (∀ pre x post a s, l = pre ++ x :: post → I pre a s →
     wp (body a x) (λ r s', match r with
                            | Ok (Next a') => I (pre ++ [x]) a' s'
                            | Ok (Break a') => Q (Ok (inl a')) s'
                            | Ok (Return v) => Q (Ok (inr v)) s'
                            | Err e => Q (Err e) s'
                            | Panic p => Q (Panic p) s'
                            end) s) →
  (∀ a s, I l a s → Q (Ok (inl a)) s) →
  wp (loop l acc body) Q s.
Proof.
  intros Hinit Hbody Hend.
  enough (∀ post pre a s, l = pre ++ post → I pre a s → wp (loop post a body) Q s) as H
    by (apply (H l []); auto).
  clear Hinit s acc.
  induction post as [|x post IH]; intros pre a s Hl HI; simpl.
  - apply wp_ret, Hend. by rewrite Hl, app_nil_r.
  - apply wp_bind. eapply wp_mono; [|by eapply Hbody].
    intros [[a'|a'|v]|e|p] s' HQ; try apply wp_ret; [|done..].
    eapply IH; [|done]. by rewrite Hl, <-app_assoc.
Qed.

Lemma wp_fold_m {A X} (I : list X → A → S → Prop) (body : A → X → M S A) (acc : A) (l : list X)
    (Q : result A → S → Prop) s :
  I [] acc s →
  (∀ pre x post a s, l = pre ++ x :: post → I pre a s →
     wp (body a x) (λ r s', match r with
                            | Ok a' => I (pre ++ [x]) a' s'
                            | Err e => Q (Err e) s'
                            | Panic p => Q (Panic p) s'
                            end) s) →
  (∀ a s, I l a s → Q (Ok a) s) →
  wp (fold_m body acc l) Q s.
Proof.
  intros Hinit Hbody Hend.
  enough (∀ post pre a s, l = pre ++ post → I pre a s → wp (fold_m body a post) Q s) as H
    by (apply (H l []); auto).
  clear Hinit s acc.
  induction post as [|x post IH]; intros pre a s Hl HI; simpl.
  - apply wp_ret, Hend. by rewrite Hl, app_nil_r.
  - apply wp_bind. eapply wp_mono; [|by eapply Hbody].
    intros [a'|e|p] s' HQ; [|done..]. eapply IH; [|done]. by rewrite Hl, <-app_assoc.
Qed.

(** What a frame says of one run. *)
Lemma wp_conseq {A} (R : S → S → Prop) (m : M S A) (Q : result A → S → Prop) s :
  R s (m s).2 → (∀ r s', m s = (r, s') → R s s' → Q r s') → wp m Q s.
Proof. intros HR HQ. apply wp_intro. intros r s' Hm. apply HQ; [done|]. by rewrite Hm in HR. Qed.
End wp.

(** [frame R m]: whatever the outcome, the state before and after [m] are
    related by [R].  For a preorder [R] this composes along the program text. *)
Definition frame {S A} (R : S → S → Prop) (m : M S A) : Prop := ∀ s, R s (m s).2.

Create HintDb frame discriminated.

Lemma frame_and {S A} (R R' : S → S → Prop) (m : M S A) :
  frame R m → frame R' m → frame (λ s s', R s s' ∧ R' s s') m.
Proof. intros HR HR' s. by split. Qed.

Section frame.
Context {S : Type} (R : S → S → Prop) `{HR : !PreOrder R}.

Lemma frame_ret {A} (a : A) : frame R (mret a : M S A).
Proof. intros s. reflexivity. Qed.
Lemma frame_throw {A} e : frame R (throw e : M S A).
Proof. intros s. reflexivity. Qed.
Lemma frame_panic {A} p : frame R (go_panic p : M S A).
Proof. intros s. reflexivity. Qed.
Lemma frame_get : frame R (get : M S S).
Proof. intros s. reflexivity. Qed.
Lemma frame_lift_result {A} (r : result A) : frame R (lift_result r).
Proof. intros s. reflexivity. Qed.
Lemma frame_or_throw {A} (o : option A) msg : frame R (or_throw o msg).
Proof. destruct o; intros s; reflexivity. Qed.

Lemma frame_bind {A B} (m : M S A) (f : A → M S B) :
  frame R m → (∀ a, frame R (f a)) → frame R (m ≫= f).
Proof.
  intros Hm Hf s. unfold mbind, M_bind.
  specialize (Hm s). destruct (m s) as [[a|e|p] s']; simpl in *; [|done..].
  etransitivity; [exact Hm|apply Hf].
Qed.

Lemma frame_attempt {A} (m : M S A) : frame R m → frame R (attempt m).
Proof. intros Hm s. specialize (Hm s). unfold attempt. by destruct (m s) as [[] ?]. Qed.

Lemma frame_wrap_err {A} p (m : M S A) : frame R m → frame R (wrap_err p m).
Proof. intros Hm s. specialize (Hm s). unfold wrap_err. by destruct (m s) as [[] ?]. Qed.

Lemma frame_on_panic {A} deferred (m : M S A) :
  frame R deferred → frame R m → frame R (on_panic deferred m).
Proof.
  intros Hd Hm s. specialize (Hm s). unfold on_panic. destruct (m s) as [[] s']; [done..|].
  etransitivity; [exact Hm|apply Hd].
Qed.

Lemma frame_for_each {A} (l : list A) body :
  (∀ x, frame R (body x)) → frame R (for_each l body).
Proof.
  intros Hb. induction l; simpl; [apply frame_ret|]. apply frame_bind; auto.
Qed.

Lemma frame_loop {A X B} (l : list X) (acc : A) (body : A → X → M S (ctl A B)) :
  (∀ a x, frame R (body a x)) → frame R (loop l acc body).
Proof.
  intros Hb. revert acc. induction l; intros acc; simpl; [apply frame_ret|].
  apply frame_bind; [auto|]. intros []; auto using frame_ret.
Qed.

Lemma frame_fold_m {A X} (body : A → X → M S A) acc l :
  (∀ a x, frame R (body a x)) → frame R (fold_m body acc l).
Proof.
  intros Hb. revert acc. induction l; intros acc; simpl; [apply frame_ret|].
  apply frame_bind; auto.
Qed.

(** ... knowing the elements. *)
Lemma frame_fold_m_elem {A X} (body : A → X → M S A) acc l :
  (∀ a x, x ∈ l → frame R (body a x)) → frame R (fold_m body acc l).
Proof.
  revert acc. induction l as [|x l IH]; intros acc Hb; simpl; [apply frame_ret|].
  apply frame_bind; [apply Hb; by left|]. intros a. apply IH. intros a' y Hy. apply Hb. by right.
Qed.

Lemma frame_for_each_elem {A} (l : list A) body :
  (∀ x, x ∈ l → frame R (body x)) → frame R (for_each l body).
Proof.
  induction l as [|x l IH]; intros Hb; simpl; [apply frame_ret|].
  apply frame_bind; [apply Hb; by left|]. intros _. apply IH. intros y Hy. apply Hb. by right.
Qed.

Lemma frame_retry {A} n (m : M S A) : frame R m → frame R (retry n m).
Proof.
  intros Hm. induction n; simpl; [apply frame_ret|].
  apply frame_bind; [by apply frame_attempt|]. intros []; auto using frame_ret.
Qed.

Lemma frame_retry_last {A} n (m : M S A) : frame R m → frame R (retry_last n m).
Proof.
  intros Hm. induction n; simpl; (apply frame_bind; [by apply frame_attempt|]);
    intros []; auto using frame_ret.
Qed.
End frame.

#[export] Hint Resolve frame_ret frame_throw frame_panic frame_get frame_lift_result
  frame_or_throw frame_bind frame_attempt frame_wrap_err frame_on_panic frame_for_each frame_loop
  frame_fold_m frame_retry frame_retry_last : frame.
#[export] Hint Extern 0 (PreOrder _) => typeclasses eauto : frame.

(** ** Inversion of runs *)

Section inversion.
Context {S : Type}.

Lemma bind_inv {A B} (m : M S A) (f : A → M S B) s r s' :
  (m ≫= f) s = (r, s') →
  (∃ a s1, m s = (Ok a, s1) ∧ f a s1 = (r, s')) ∨
  (∃ e, m s = (Err e, s') ∧ r = Err e) ∨
  (∃ p, m s = (Panic p, s') ∧ r = Panic p).
Proof.
  unfold mbind, M_bind. destruct (m s) as [[a|e|p] s1]; naive_solver.
Qed.

Lemma bind_ok_inv {A B} (m : M S A) (f : A → M S B) s b s' :
  (m ≫= f) s = (Ok b, s') → ∃ a s1, m s = (Ok a, s1) ∧ f a s1 = (Ok b, s').
Proof. unfold mbind, M_bind. destruct (m s) as [[a|e|p] s1]; naive_solver. Qed.

Lemma attempt_inv {A} (m : M S A) s r s' :
  attempt m s = (r, s') →
  (∃ a, r = Ok (inr a) ∧ m s = (Ok a, s')) ∨
  (∃ e, r = Ok (inl e) ∧ m s = (Err e, s')) ∨
  (∃ p, r = Panic p ∧ m s = (Panic p, s')).
Proof. unfold attempt. destruct (m s) as [[] ?]; naive_solver. Qed.

Lemma wrap_err_ok_inv {A} p (m : M S A) s a s' :
  wrap_err p m s = (Ok a, s') → m s = (Ok a, s').
Proof. unfold wrap_err. destruct (m s) as [[] ?]; naive_solver. Qed.

Lemma bind_ok {A B} (m : M S A) (f : A → M S B) s a s1 :
  m s = (Ok a, s1) → (m ≫= f) s = f a s1.
Proof. unfold mbind, M_bind. by intros ->. Qed.

Lemma bind_err {A B} (m : M S A) (f : A → M S B) s e s1 :
  m s = (Err e, s1) → (m ≫= f) s = (Err e, s1).
Proof. unfold mbind, M_bind. by intros ->. Qed.

Lemma wrap_err_ok {A} p (m : M S A) s a s1 :
  m s = (Ok a, s1) → wrap_err p m s = (Ok a, s1).
Proof. unfold wrap_err. by intros ->. Qed.

Lemma bind_lift_ok {A B} (a : A) (f : A → M S B) : (lift_result (Ok a) ≫= f) = f a.
Proof. reflexivity. Qed.

Lemma for_each_app {A} (l1 l2 : list A) (body : A → M S unit) s :
  for_each l1 body s = (Ok tt, (for_each l1 body s).2) →
  for_each (l1 ++ l2) body s = for_each l2 body (for_each l1 body s).2.
Proof.
  revert s. induction l1 as [|x l1 IH]; intros s H; simpl in *; [done|].
  unfold mbind, M_bind in *. destruct (body x s) as [[[]|e|p] s1]; simpl in *; naive_solver.
Qed.
End inversion.
