(* ===== verification/GoLib.v ===== *)
(** * GoLib: the parts of Go and of its standard library the program uses

    Machine integers with their wrap-around, [math/big] integers and floats,
    [strconv], [strings], [encoding/hex], [encoding/binary] and [time], as
    executable definitions, with the round-trip and bound lemmas the components
    rely on. *)
From Stdlib Require Import Strings.Byte DecimalString DecimalN DecimalPos.
From Stdlib Require Import Ascii.
From Stdlib Require String.
From S2P Require Import Prelude.

(** ** Machine integers *)

Definition u64 (z : Z) : Z := z mod 2 ^ 64.
Definition u32 (z : Z) : Z := z mod 2 ^ 32.
Definition i64 (z : Z) : Z := (z + 2 ^ 63) mod 2 ^ 64 - 2 ^ 63.

Lemma u64_id z : 0 ≤ z < 2 ^ 64 → u64 z = z.
Proof. intros. by apply Z.mod_small. Qed.
Lemma u64_bounds z : 0 ≤ u64 z < 2 ^ 64.
Proof. by apply Z.mod_pos_bound. Qed.
Lemma i64_id z : - 2 ^ 63 ≤ z < 2 ^ 63 → i64 z = z.
Proof. intros. unfold i64. rewrite Z.mod_small; lia. Qed.
Lemma u32_bounds z : 0 ≤ u32 z < 2 ^ 32.
Proof. by apply Z.mod_pos_bound. Qed.
Lemma i64_le z : 0 ≤ z → i64 z ≤ z.
Proof. intros. unfold i64. pose proof (Z.mod_le (z + 2 ^ 63) (2 ^ 64)). lia. Qed.
Lemma u64_i64 z : u64 (i64 z) = u64 z.
Proof.
  unfold u64, i64. rewrite Zminus_mod_idemp_l. f_equal. lia.
Qed.

(** ** time *)

(** A [time.Time] is its distance in nanoseconds from the Unix epoch; a
    [time.Duration] is a signed 64-bit number of nanoseconds. *)
Definition Time := Z.
Definition Duration := Z.
Definition Nanosecond : Duration := 1.
Definition Second : Duration := 1000000000.
Definition Minute : Duration := 60 * Second.
Definition Hour : Duration := 60 * Minute.

(** The zero [time.Time] (1 January of year 1, UTC). *)
Definition zero_time : Time := - 62135596800 * Second.

(** [t.Sub(u)] saturates at the ends of the [Duration] range. *)
Definition time_sub (t u : Time) : Duration :=
  Z.max (- 2 ^ 63) (Z.min (2 ^ 63 - 1) (t - u)).

(** [time.Since(t)], at time [now]. *)
Definition time_since (now t : Time) : Duration := time_sub now t.

(** SQLite's CURRENT_TIMESTAMP has a resolution of one second. *)
Definition current_timestamp (now : Time) : Time := now / Second * Second.

(** ** math/big integers *)

Definition parse_digits (s : string) : option Z :=
  d ← NilZero.uint_of_string s; Some (Z.of_N (N.of_uint d)).

(** [new(big.Int).SetString(s, 10)] *)
Definition bigint_SetString (s : string) : option Z :=
  match s with
  | String "+"%char s' => parse_digits s'
  | String "-"%char s' => d ← parse_digits s'; Some (- d)
  | _ => parse_digits s
  end.

(** [new(big.Int).SetString(s, 0)]: the base is that of the prefix ([0b], [0o] or [0],
    [0x]), 10 without one, and underscores may separate the digits and the prefix. *)
Definition digit_value (c : ascii) : option Z :=
  let n := Z.of_nat (nat_of_ascii c) in
  if (48 <=? n) && (n <=? 57) then Some (n - 48)
  else if (97 <=? n) && (n <=? 122) then Some (n - 87)
  else if (65 <=? n) && (n <=? 90) then Some (n - 55)
  else None.

(** The class of the previous character: none yet, a digit or prefix, a separator. *)
Inductive scan_prev := ScanStart | ScanDigit | ScanSep.

Fixpoint scan_digits (base : Z) (prev : scan_prev) (count : nat) (acc : Z) (s : string) :
    option (nat * Z) :=
  match s with
  | EmptyString => match prev with ScanSep => None | _ => Some (count, acc) end
  | String "_"%char s' =>
      match prev with ScanDigit => scan_digits base ScanSep count acc s' | _ => None end
  | String c s' =>
      d ← digit_value c;
      if d <? base then scan_digits base ScanDigit (S count) (acc * base + d) s' else None
  end.

Definition scan_prefixed (base : Z) (s : string) : option Z :=
  '(count, z) ← scan_digits base ScanDigit 0 0 s;
  if (count =? 0)%nat then None else Some z.

Definition scan_base0 (s : string) : option Z :=
  match s with
  | String "0"%char EmptyString => Some 0
  | String "0"%char (String ("b"%char | "B"%char) s') => scan_prefixed 2 s'
  | String "0"%char (String ("o"%char | "O"%char) s') => scan_prefixed 8 s'
  | String "0"%char (String ("x"%char | "X"%char) s') => scan_prefixed 16 s'
  | String "0"%char s' => snd <$> scan_digits 8 ScanDigit 0 0 s'
  | _ =>
      '(count, z) ← scan_digits 10 ScanStart 0 0 s;
      if (count =? 0)%nat then None else Some z
  end.

Definition bigint_SetString_base0 (s : string) : option Z :=
  match s with
  | String "+"%char s' => scan_base0 s'
  | String "-"%char s' => z ← scan_base0 s'; Some (- z)
  | _ => scan_base0 s
  end.

Example base0_prefixes :
  bigint_SetString_base0 <$> ["99700000"; "0"; "010"; "0x1F"; "0b101"; "-1_000"; "+0o17"; "0_7"]
  = [Some 99700000; Some 0; Some 8; Some 31; Some 5; Some (-1000); Some 15; Some 7].
Proof. reflexivity. Qed.

Example base0_malformed :
  bigint_SetString_base0 <$> [""; "08"; "0x"; "_1"; "1__0"; "1_"; "1.5"; "a"; "- 1"]
  = replicate 9 None.
Proof. reflexivity. Qed.

(** [x.String()] *)
Definition bigint_String (z : Z) : string :=
  match z with
  | Zneg p => String "-"%char (NilZero.string_of_uint (N.to_uint (Npos p)))
  | _ => NilZero.string_of_uint (N.to_uint (Z.to_N z))
  end.

(** [x.Div(x, y)]: Euclidean division; the callers' panic on [y = 0] is written
    where they call it. *)
Definition bigint_Div (x y : Z) : Z := Z.sgn y * (x / Z.abs y).

(** [x.Int64()] and [x.Uint64()] *)
Definition bigint_Int64 (z : Z) : Z := i64 z.
Definition bigint_Uint64 (z : Z) : Z := u64 (Z.abs z).

Lemma parse_digits_print (n : N) :
  parse_digits (NilZero.string_of_uint (N.to_uint n)) = Some (Z.of_N n).
Proof.
  unfold parse_digits. rewrite NilZero.usu.
  - simpl. by rewrite DecimalN.Unsigned.of_to.
  - destruct n as [|p]; [done|]. simpl.
    intros H. by apply (DecimalPos.Unsigned.to_uint_nonnil p).
Qed.

(** The printed form of a natural number starts with a digit, so it is not
    mistaken for a signed one. *)
Lemma print_digits_head d c s :
  NilZero.string_of_uint d = String c s → (c ≠ "+"%char) ∧ (c ≠ "-"%char).
Proof. destruct d; simpl; intros [= <- <-]; done. Qed.

Lemma bigint_SetString_digits d :
  bigint_SetString (NilZero.string_of_uint d) = parse_digits (NilZero.string_of_uint d).
Proof.
  destruct (NilZero.string_of_uint d) as [|c s] eqn:E; [done|].
  apply print_digits_head in E as [Hp Hm]. unfold bigint_SetString.
  destruct c as [[] [] [] [] [] [] [] []]; done.
Qed.

Lemma bigint_SetString_String z : bigint_SetString (bigint_String z) = Some z.
Proof.
  destruct z as [|p|p]; [done|..]; unfold bigint_String.
  - by rewrite bigint_SetString_digits, parse_digits_print.
  - unfold bigint_SetString. rewrite parse_digits_print. done.
Qed.

Lemma bigint_String_inj z1 z2 : bigint_String z1 = bigint_String z2 → z1 = z2.
Proof.
  intros H. apply (f_equal bigint_SetString) in H.
  rewrite !bigint_SetString_String in H. congruence.
Qed.

Lemma bigint_Div_pos x y : 0 < y → bigint_Div x y = x / y.
Proof. intros. unfold bigint_Div. rewrite Z.sgn_pos, Z.abs_eq; lia. Qed.

(** ** strconv *)

Definition dquote : string := String (Ascii.ascii_of_nat 34) EmptyString.

Definition num_error (fn s why : string) : error :=
  ErrNew ("strconv." +:+ fn +:+ ": parsing " +:+ dquote +:+ s +:+ dquote +:+ ": " +:+ why).

(** [strconv.ParseUint(s, 10, 64)] *)
Definition strconv_ParseUint (s : string) : result Z :=
  match parse_digits s with
  | None => Err (num_error "ParseUint" s "invalid syntax")
  | Some z => if z <? 2 ^ 64 then Ok z
              else Err (num_error "ParseUint" s "value out of range")
  end.

(** [strconv.Itoa] *)
Definition strconv_Itoa (z : Z) : string := bigint_String z.

Lemma strconv_ParseUint_print z :
  0 ≤ z < 2 ^ 64 → strconv_ParseUint (bigint_String z) = Ok z.
Proof.
  intros Hz. unfold strconv_ParseUint.
  replace (bigint_String z) with (NilZero.string_of_uint (N.to_uint (Z.to_N z)))
    by (destruct z; [done|done|lia]).
  rewrite parse_digits_print, Z2N.id by lia.
  destruct (Z.ltb_spec z (2 ^ 64)); [done|lia].
Qed.

Lemma strconv_ParseUint_bounds s z : strconv_ParseUint s = Ok z → 0 ≤ z < 2 ^ 64.
Proof.
  unfold strconv_ParseUint, parse_digits.
  destruct (NilZero.uint_of_string s); simpl; [|done].
  case_match eqn:E; intros [= <-]. lia.
Qed.

(** Both parsers agree on what [ParseUint] accepts. *)
Lemma strconv_ParseUint_SetString s z : strconv_ParseUint s = Ok z → bigint_SetString s = Some z.
Proof.
  unfold strconv_ParseUint, bigint_SetString.
  destruct s as [|[[] [] [] [] [] [] [] []] s]; try (by repeat case_match; intros; simplify_eq);
    unfold parse_digits; simpl; by destruct (NilEmpty.uint_of_string s).
Qed.

(** ** strings *)

(** [strings.Contains(s, sub)] *)
Definition strings_Contains (s sub : string) : bool :=
  match String.index 0 sub s with Some _ => true | None => false end.

(** [strings.HasPrefix(s, p)] *)
Definition strings_HasPrefix (s p : string) : bool := String.prefix p s.

(** [strings.TrimPrefix(s, p)] *)
Definition strings_TrimPrefix (s p : string) : string :=
  if String.prefix p s
  then String.substring (String.length p) (String.length s - String.length p) s
  else s.

(** [strings.EqualFold], on the ASCII strings (hex addresses) it is used for. *)
Definition lower_ascii (c : Ascii.ascii) : Ascii.ascii :=
  let n := Ascii.nat_of_ascii c in
  if ((65 <=? n) && (n <=? 90))%nat then Ascii.ascii_of_nat (n + 32) else c.

Fixpoint strings_EqualFold (s t : string) : bool :=
  match s, t with
  | EmptyString, EmptyString => true
  | String a s', String b t' =>
      Ascii.eqb (lower_ascii a) (lower_ascii b) && strings_EqualFold s' t'
  | _, _ => false
  end.

Lemma strings_EqualFold_refl s : strings_EqualFold s s = true.
Proof. induction s; simpl; [done|]. by rewrite Ascii.eqb_refl. Qed.

(** ** Bytes: encoding/hex and encoding/binary *)

Definition byte_to_Z (b : byte) : Z := Z.of_N (Byte.to_N b).
Definition Z_to_byte (z : Z) : byte :=
  match Byte.of_N (Z.to_N (z mod 256)) with Some b => b | None => x00 end.

Lemma byte_to_Z_bounds b : 0 ≤ byte_to_Z b < 256.
Proof. unfold byte_to_Z. pose proof (Byte.to_N_bounded b). lia. Qed.

Lemma Z_to_byte_to_Z b : Z_to_byte (byte_to_Z b) = b.
Proof.
  unfold Z_to_byte. rewrite Z.mod_small by apply byte_to_Z_bounds.
  unfold byte_to_Z. by rewrite N2Z.id, Byte.of_to_N.
Qed.

Lemma byte_to_Z_to_byte z : byte_to_Z (Z_to_byte z) = z mod 256.
Proof.
  unfold Z_to_byte. pose proof (Z.mod_pos_bound z 256 ltac:(lia)) as Hb.
  destruct (Byte.of_N (Z.to_N (z mod 256))) as [b|] eqn:E.
  - unfold byte_to_Z. apply Byte.to_of_N_iff in E. rewrite E. lia.
  - apply Byte.of_N_None_iff in E. lia.
Qed.

(** [binary.Write(w, binary.BigEndian, x)] for an [n]-byte unsigned [x]. *)
Fixpoint be_encode (n : nat) (z : Z) : list byte :=
  match n with
  | O => []
  | S n' => Z_to_byte (z / 256 ^ Z.of_nat n') :: be_encode n' z
  end.

(** [new(big.Int).SetBytes(bs)] *)
Definition be_decode (bs : list byte) : Z :=
  fold_left (λ acc b, 256 * acc + byte_to_Z b) bs 0.

Lemma length_be_encode n z : length (be_encode n z) = n.
Proof. induction n; simpl; congruence. Qed.

Lemma be_decode_acc bs acc :
  fold_left (λ acc b, 256 * acc + byte_to_Z b) bs acc =
  acc * 256 ^ Z.of_nat (length bs) + be_decode bs.
Proof.
  unfold be_decode. revert acc. induction bs as [|b bs IH]; intros acc.
  - simpl. lia.
  - cbn [fold_left length]. rewrite IH, (IH (256 * 0 + _)), Nat2Z.inj_succ, Z.pow_succ_r by lia. ring.
Qed.

Lemma be_decode_cons b bs :
  be_decode (b :: bs) = byte_to_Z b * 256 ^ Z.of_nat (length bs) + be_decode bs.
Proof. unfold be_decode at 1. cbn [fold_left]. rewrite be_decode_acc. by f_equal. Qed.

Lemma be_decode_app bs1 bs2 :
  be_decode (bs1 ++ bs2) = be_decode bs1 * 256 ^ Z.of_nat (length bs2) + be_decode bs2.
Proof. unfold be_decode at 1. rewrite fold_left_app. apply be_decode_acc. Qed.

Lemma be_decode_bounds bs : 0 ≤ be_decode bs < 256 ^ Z.of_nat (length bs).
Proof.
  induction bs as [|b bs IH]; [done|].
  rewrite be_decode_cons. cbn [length]. rewrite Nat2Z.inj_succ, Z.pow_succ_r by lia.
  pose proof (byte_to_Z_bounds b). nia.
Qed.

Lemma be_decode_encode n z : be_decode (be_encode n z) = z mod 256 ^ Z.of_nat n.
Proof.
  induction n as [|n IH]; simpl be_encode.
  - by rewrite Z.mod_1_r.
  - rewrite be_decode_cons, length_be_encode, IH, byte_to_Z_to_byte.
    rewrite Nat2Z.inj_succ, Z.pow_succ_r by lia.
    rewrite (Z.mul_comm 256), Z.rem_mul_r by lia. ring.
Qed.

Lemma be_encode_mod n z : be_encode n (z mod 256 ^ Z.of_nat n) = be_encode n z.
Proof.
  enough (∀ m, (n ≤ m)%nat → be_encode n (z mod 256 ^ Z.of_nat m) = be_encode n z) by auto.
  induction n as [|n IH]; intros m Hm; simpl; [done|].
  rewrite IH by lia. f_equal.
  replace (Z.of_nat m) with (Z.of_nat n + Z.of_nat (m - n)) by lia.
  unfold Z_to_byte.
  rewrite Z.pow_add_r by lia.
  rewrite Z.rem_mul_r by lia.
  rewrite (Z.mul_comm (256 ^ Z.of_nat n) (_ mod _)), Z.div_add by lia.
  rewrite Z.div_small by (apply Z.mod_pos_bound; lia). rewrite Z.add_0_l.
  destruct (m - n)%nat as [|k] eqn:Ek; [lia|].
  rewrite Nat2Z.inj_succ, Z.pow_succ_r by lia.
  rewrite Z.mod_mod_divide; [done|]. exists (256 ^ Z.of_nat k). ring.
Qed.

Lemma be_encode_decode bs : be_encode (length bs) (be_decode bs) = bs.
Proof.
  induction bs as [|b bs IH]; [done|].
  cbn [length be_encode]. rewrite be_decode_cons. f_equal.
  - rewrite Z.add_comm, Z.div_add by lia.
    rewrite Z.div_small by apply be_decode_bounds. apply Z_to_byte_to_Z.
  - rewrite <-(be_encode_mod (length bs) (_ + _)).
    rewrite Z.add_comm, Z.mod_add by lia.
    by rewrite Z.mod_small by apply be_decode_bounds.
Qed.

Definition hex_digit (n : Z) : ascii :=
  match String.get (Z.to_nat n) "0123456789abcdef" with Some c => c | None => "0"%char end.

Definition from_hex_char (c : ascii) : option Z :=
  let n := Z.of_nat (nat_of_ascii c) in
  if (48 <=? n) && (n <=? 57) then Some (n - 48)
  else if (97 <=? n) && (n <=? 102) then Some (n - 87)
  else if (65 <=? n) && (n <=? 70) then Some (n - 55)
  else None.

(** [hex.EncodeToString(bs)] *)
Fixpoint hex_EncodeToString (bs : list byte) : string :=
  match bs with
  | [] => EmptyString
  | b :: bs' =>
      String (hex_digit (byte_to_Z b / 16))
        (String (hex_digit (byte_to_Z b mod 16)) (hex_EncodeToString bs'))
  end.

Definition hex_invalid_byte (c : ascii) : error :=
  let n := Z.of_nat (nat_of_ascii c) in
  ErrNew ("encoding/hex: invalid byte: U+00" +:+
          String (hex_digit (n / 16)) (String (hex_digit (n mod 16)) EmptyString)).

(** [hex.DecodeString(s)]; on an error the callers discard the prefix that was
    decoded. *)
Fixpoint hex_DecodeString (s : string) : result (list byte) :=
  match s with
  | EmptyString => Ok []
  | String c EmptyString =>
      match from_hex_char c with
      | None => Err (hex_invalid_byte c)
      | Some _ => Err (ErrNew "encoding/hex: odd length hex string")
      end
  | String c (String d s') =>
      match from_hex_char c, from_hex_char d with
      | None, _ => Err (hex_invalid_byte c)
      | Some _, None => Err (hex_invalid_byte d)
      | Some a, Some b =>
          match hex_DecodeString s' with
          | Ok bs => Ok (Z_to_byte (16 * a + b) :: bs)
          | r => r
          end
      end
  end.

Lemma from_hex_digit_byte b :
  from_hex_char (hex_digit (byte_to_Z b / 16)) = Some (byte_to_Z b / 16) ∧
  from_hex_char (hex_digit (byte_to_Z b mod 16)) = Some (byte_to_Z b mod 16).
Proof. by destruct b; vm_compute. Qed.

Lemma hex_DecodeString_Encode bs : hex_DecodeString (hex_EncodeToString bs) = Ok bs.
Proof.
  induction bs as [|b bs IH]; [done|].
  simpl. destruct (from_hex_digit_byte b) as [-> ->]. rewrite IH.
  rewrite <-Z.div_mod by lia. by rewrite Z_to_byte_to_Z.
Qed.

Lemma hex_DecodeString_length s bs :
  hex_DecodeString s = Ok bs → String.length s = (2 * length bs)%nat.
Proof.
  enough (∀ n s bs, (String.length s ≤ n)%nat → hex_DecodeString s = Ok bs →
            String.length s = (2 * length bs)%nat) by eauto.
  clear s bs. intros n. induction n as [|n IH]; intros [|c [|d s]] bs Hn H; simpl in *;
    try (by injection H as <-); try lia.
  - by destruct (from_hex_char c).
  - destruct (from_hex_char c), (from_hex_char d); try done.
    destruct (hex_DecodeString s) eqn:E; try done. injection H as <-.
    simpl. rewrite (IH s a); [lia|lia|done].
Qed.

(** ** math/big floats *)

(** A finite [big.Float]: the value [bf_mant * 2 ^ bf_exp].  The operations
    below round to nearest even at the receiver's precision [prec], as the
    package does. *)
Record bigfloat := BF { bf_mant : Z; bf_exp : Z }.

Definition bf_num (x : bigfloat) : Z :=
  if 0 <=? bf_exp x then bf_mant x * 2 ^ bf_exp x else bf_mant x.
Definition bf_den (x : bigfloat) : Z :=
  if 0 <=? bf_exp x then 1 else 2 ^ (- bf_exp x).

(** The integer nearest to [n / d] ([d > 0], [n ≥ 0]), ties to even. *)
Definition round_half_even (n d : Z) : Z :=
  let q := n / d in
  let r := n mod d in
  if 2 * r <? d then q
  else if d <? 2 * r then q + 1
  else if Z.even q then q else q + 1.

(** [n / d] scaled by [2 ^ - e], as a fraction. *)
Definition scaled (n d e : Z) : Z * Z :=
  if 0 <=? e then (n, d * 2 ^ e) else (n * 2 ^ (- e), d).

(** The [prec]-bit float nearest to [n / d] ([d > 0]). *)
Definition bf_round (prec n d : Z) : bigfloat :=
  if n =? 0 then BF 0 0
  else
    let a := Z.abs n in
    let e0 := Z.log2 a - Z.log2 d - prec in
    let '(n0, d0) := scaled a d e0 in
    let e := if 2 ^ prec * d0 <=? n0 then e0 + 1 else e0 in
    let '(n1, d1) := scaled a d e in
    BF (Z.sgn n * round_half_even n1 d1) e.

(** [big.NewFloat(float64(z))] for an integer [z]; [new(big.Float).SetInt(z)],
    which is exact; [x.Quo(x, y)]; [x.Mul(x, y)]; [x.Int(nil)], which truncates
    towards zero. *)
Definition bf_NewFloat (z : Z) : bigfloat := bf_round 53 z 1.
Definition bf_SetInt (z : Z) : bigfloat := BF z 0.
Definition bf_Quo (prec : Z) (x y : bigfloat) : bigfloat :=
  bf_round prec (Z.sgn (bf_num y) * bf_num x * bf_den y) (bf_den x * Z.abs (bf_num y)).
Definition bf_Mul (prec : Z) (x y : bigfloat) : bigfloat :=
  bf_round prec (bf_num x * bf_num y) (bf_den x * bf_den y).
Definition bf_Int (x : bigfloat) : Z := Z.quot (bf_num x) (bf_den x).

Lemma bf_den_pos x : 0 < bf_den x.
Proof. unfold bf_den. destruct (Z.leb_spec 0 (bf_exp x)); [lia|]. apply Z.pow_pos_nonneg; lia. Qed.

Lemma round_half_even_spec n d :
  0 < d → 2 * Z.abs (round_half_even n d * d - n) ≤ d.
Proof.
  intros Hd. unfold round_half_even.
  pose proof (Z.div_mod n d ltac:(lia)). pose proof (Z.mod_pos_bound n d Hd).
  repeat case_match; lia.
Qed.

Lemma scaled_pos n d e : 0 < n → 0 < d → 0 < (scaled n d e).1 ∧ 0 < (scaled n d e).2.
Proof.
  intros. unfold scaled.
  destruct (Z.leb_spec 0 e); simpl; split; try apply Z.mul_pos_pos; try apply Z.pow_pos_nonneg; lia.
Qed.

(** Raising the exponent by one halves the scaled fraction. *)
Lemma scaled_succ n d e :
  (scaled n d (e + 1)).1 * 2 * (scaled n d e).2 = (scaled n d e).1 * (scaled n d (e + 1)).2.
Proof.
  unfold scaled.
  destruct (Z.leb_spec 0 e), (Z.leb_spec 0 (e + 1)); simpl; try lia.
  - rewrite Z.pow_add_r by lia. ring.
  - replace e with (-1) by lia. simpl. lia.
  - replace (- e) with (- (e + 1) + 1) by lia. rewrite Z.pow_add_r by lia. ring.
Qed.

(** With the first guess of the exponent the scaled fraction lies in
    [(2 ^ (prec - 1), 2 ^ (prec + 1))]. *)
Lemma scaled_guess prec a d :
  0 < prec → 0 < a → 0 < d →
  let e0 := Z.log2 a - Z.log2 d - prec in
  2 ^ (prec - 1) * (scaled a d e0).2 ≤ (scaled a d e0).1 ∧
  (scaled a d e0).1 < 2 ^ (prec + 1) * (scaled a d e0).2.
Proof.
  intros Hp Ha Hd e0.
  pose proof (Z.log2_spec a Ha) as [Ha1 Ha2]. pose proof (Z.log2_spec d Hd) as [Hd1 Hd2].
  pose proof (Z.log2_nonneg a). pose proof (Z.log2_nonneg d).
  rewrite Z.pow_succ_r in Ha2, Hd2 by lia.
  unfold scaled. destruct (Z.leb_spec 0 e0); simpl.
  - assert (2 ^ Z.log2 a = 2 ^ prec * 2 ^ Z.log2 d * 2 ^ e0) as Hl.
    { rewrite <-!Z.pow_add_r by lia. f_equal. lia. }
    rewrite Z.pow_add_r by lia.
    replace prec with (prec - 1 + 1) in Hl by lia. rewrite Z.pow_add_r in Hl by lia.
    replace (2 ^ prec) with (2 ^ (prec - 1) * 2 ^ 1) by (rewrite <-Z.pow_add_r by lia; f_equal; lia).
    assert (0 < 2 ^ e0) by lia. assert (0 < 2 ^ (prec - 1)) by lia. nia.
  - assert (2 ^ Z.log2 a * 2 ^ (- e0) = 2 ^ prec * 2 ^ Z.log2 d) as Hl.
    { rewrite <-!Z.pow_add_r by lia. f_equal. lia. }
    rewrite Z.pow_add_r by lia.
    replace (2 ^ prec) with (2 ^ (prec - 1) * 2 ^ 1) in *
      by (rewrite <-Z.pow_add_r by lia; f_equal; lia).
    assert (0 < 2 ^ (- e0)) by lia. assert (0 < 2 ^ (prec - 1)) by lia. nia.
Qed.

(** The mantissa of a rounded float has exactly [prec] bits before rounding. *)
Lemma bf_round_normal prec n d :
  0 < prec → 0 < d → n ≠ 0 →
  ∃ e n1 d1, bf_round prec n d = BF (Z.sgn n * round_half_even n1 d1) e ∧
    scaled (Z.abs n) d e = (n1, d1) ∧ 0 < d1 ∧ 2 ^ (prec - 1) * d1 ≤ n1 < 2 ^ prec * d1.
Proof.
  intros Hp Hd Hn. unfold bf_round. rewrite (proj2 (Z.eqb_neq n 0)) by done.
  assert (0 < Z.abs n) as Ha by lia.
  pose proof (scaled_guess prec (Z.abs n) d Hp Ha Hd) as Hg. cbv zeta in Hg.
  set (e0 := Z.log2 (Z.abs n) - Z.log2 d - prec) in *.
  pose proof (scaled_succ (Z.abs n) d e0) as Hs.
  pose proof (scaled_pos (Z.abs n) d e0 Ha Hd) as [_ Hd0].
  pose proof (scaled_pos (Z.abs n) d (e0 + 1) Ha Hd) as [_ Hd1].
  destruct (scaled (Z.abs n) d e0) as [n0 d0] eqn:E0. cbn [fst snd] in *.
  destruct (Z.leb_spec (2 ^ prec * d0) n0) as [Hge|Hlt].
  - destruct (scaled (Z.abs n) d (e0 + 1)) as [n1 d1] eqn:E1. cbn [fst snd] in *.
    exists (e0 + 1), n1, d1. split; [done|]. split; [done|]. split; [done|].
    rewrite Z.pow_add_r in Hg by lia.
    replace (2 ^ prec) with (2 ^ (prec - 1) * 2 ^ 1) in *
      by (rewrite <-Z.pow_add_r by lia; f_equal; lia).
    assert (0 < 2 ^ (prec - 1)) by lia. nia.
  - exists e0, n0, d0. rewrite E0. split; [done|]. split; [done|]. split; [done|]. lia.
Qed.

(** Rounding to [prec] bits has relative error at most [2 ^ - prec]. *)
Lemma bf_round_error prec n d :
  0 < prec → 0 < d →
  2 ^ prec * Z.abs (bf_num (bf_round prec n d) * d - n * bf_den (bf_round prec n d)) ≤
  Z.abs n * bf_den (bf_round prec n d).
Proof.
  intros Hp Hd. destruct (decide (n = 0)) as [->|Hn].
  { unfold bf_round, bf_num, bf_den. simpl. lia. }
  destruct (bf_round_normal prec n d Hp Hd Hn) as (e&n1&d1&->&E1&Hd1&Hlow&_).
  pose proof (round_half_even_spec n1 d1 Hd1) as Hr.
  set (m := round_half_even n1 d1) in *. clearbody m.
  assert (2 ^ prec = 2 * 2 ^ (prec - 1)) as ->
    by (rewrite <-Z.pow_succ_r by lia; f_equal; lia).
  assert (0 < 2 ^ (prec - 1)) by lia.
  assert (2 * 2 ^ (prec - 1) * Z.abs (m * d1 - n1) ≤ n1) as Herr by nia.
  unfold bf_num, bf_den, scaled in *. cbn [bf_exp bf_mant].
  destruct (Z.leb_spec 0 e); injection E1 as <- <-.
  - replace (Z.sgn n * m * 2 ^ e * d - n * 1) with (Z.sgn n * (m * (d * 2 ^ e) - Z.abs n))
      by (pose proof (Z.abs_sgn n); nia).
    rewrite Z.abs_mul. destruct (Z.sgn_spec n) as [[? ->]|[[? ?]|[? ->]]]; lia.
  - replace (Z.sgn n * m * d - n * 2 ^ (- e)) with (Z.sgn n * (m * d - Z.abs n * 2 ^ (- e)))
      by (pose proof (Z.abs_sgn n); nia).
    rewrite Z.abs_mul. destruct (Z.sgn_spec n) as [[? ->]|[[? ?]|[? ->]]]; lia.
Qed.

Lemma round_half_even_unique n d m : 0 < d → 2 * Z.abs (m * d - n) < d → round_half_even n d = m.
Proof.
  intros Hd Hm. pose proof (round_half_even_spec n d Hd).
  set (r := round_half_even n d) in *. clearbody r.
  assert (- d < (r - m) * d < d) by lia. assert (-1 < r - m < 1) by nia. lia.
Qed.

(** A value very near an integer of [prec] bits rounds to that integer. *)
Lemma bf_round_integer prec n d K :
  0 < prec → 0 < d → 0 < n < 2 ^ prec * d → 2 ^ (prec + 1) * Z.abs (K * d - n) < n →
  bf_num (bf_round prec n d) = K * bf_den (bf_round prec n d).
Proof.
  intros Hp Hd Hn HK.
  destruct (bf_round_normal prec n d Hp Hd ltac:(lia)) as (e&n1&d1&->&E1&Hd1&Hlow&Hup).
  rewrite Z.sgn_pos, Z.mul_1_l by lia. rewrite Z.abs_eq in E1 by lia.
  assert (2 ^ prec = 2 * 2 ^ (prec - 1)) as Hpp
    by (rewrite <-Z.pow_succ_r by lia; f_equal; lia).
  assert (0 < 2 ^ (prec - 1)) by lia.
  assert (e ≤ 0) as He.
  { destruct (Z.le_gt_cases e 0) as [|He]; [done|]. exfalso. unfold scaled in E1.
    rewrite (proj2 (Z.leb_le 0 e)) in E1 by lia. injection E1 as <- <-.
    assert (2 ^ 1 ≤ 2 ^ e) by (apply Z.pow_le_mono_r; lia). nia. }
  assert (n1 = n * 2 ^ (- e) ∧ d1 = d) as [-> ->].
  { unfold scaled in E1. destruct (Z.leb_spec 0 e); injection E1 as <- <-; [|done].
    replace e with 0 by lia. simpl. lia. }
  assert (0 < 2 ^ (- e)) as Hpos by (apply Z.pow_pos_nonneg; lia).
  rewrite (round_half_even_unique _ _ (K * 2 ^ (- e))); [|done|].
  - unfold bf_num, bf_den. cbn [bf_mant bf_exp].
    destruct (Z.leb_spec 0 e); [replace e with 0 by lia; simpl; lia|done].
  - replace (K * 2 ^ (- e) * d - n * 2 ^ (- e)) with (2 ^ (- e) * (K * d - n)) by ring.
    rewrite Z.abs_mul, (Z.abs_eq (2 ^ (- e))) by lia.
    rewrite Z.pow_add_r in HK by lia.
    assert (2 ^ prec * 2 * (2 ^ (- e) * Z.abs (K * d - n)) < 2 ^ prec * d) by nia. nia.
Qed.

(** [x] is [n / d] up to a relative error of [k] units of [2 ^ -53]. *)
Definition approx (k : Z) (x : bigfloat) (n d : Z) : Prop :=
  2 ^ 53 * Z.abs (bf_num x * d - n * bf_den x) ≤ k * n * bf_den x.

Lemma approx_round n d : 0 ≤ n → 0 < d → approx 1 (bf_round 53 n d) n d.
Proof.
  intros. unfold approx. pose proof (bf_round_error 53 n d ltac:(lia) ltac:(lia)) as He.
  rewrite (Z.abs_eq n) in He by lia. lia.
Qed.

Lemma approx_bounds k x n d :
  0 ≤ n → 0 < d → 0 ≤ k ≤ 2 ^ 53 → approx k x n d →
  0 ≤ bf_num x ∧ bf_num x * d ≤ 2 * (n * bf_den x).
Proof.
  unfold approx. intros Hn Hd Hk Ha. pose proof (bf_den_pos x).
  assert (0 ≤ n * bf_den x) by nia.
  assert (k * n * bf_den x ≤ 2 ^ 53 * (n * bf_den x)) by nia.
  split; [|lia]. assert (0 ≤ bf_num x * d) by lia. nia.
Qed.

(** One more rounded operation adds two units. *)
Lemma approx_step k x n d p q :
  0 ≤ n → 0 < d → 0 ≤ k ≤ 2 ^ 53 → 0 ≤ p → 0 < q → approx k x n d →
  approx (k + 2) (bf_round 53 (bf_num x * p) (bf_den x * q)) (n * p) (d * q).
Proof.
  intros Hn Hd Hk Hp Hq Hx. pose proof (approx_bounds k x n d Hn Hd Hk Hx) as [Hpos Hup].
  pose proof (bf_den_pos x) as Hxd.
  assert (0 ≤ bf_num x * p) as Hxp by nia. assert (0 < bf_den x * q) as Hxq by nia.
  pose proof (approx_round _ _ Hxp Hxq) as Hy. unfold approx in *.
  set (y := bf_round 53 (bf_num x * p) (bf_den x * q)) in *. clearbody y.
  pose proof (bf_den_pos y) as Hyd.
  set (A := bf_num y * (bf_den x * q) - bf_num x * p * bf_den y) in *.
  set (B := bf_num x * d - n * bf_den x) in *.
  assert (bf_den x * (bf_num y * (d * q) - n * p * bf_den y)
          = d * A + p * bf_den y * B) as Hsplit by (unfold A, B; ring).
  assert (0 ≤ p * bf_den y) by nia.
  assert (2 ^ 53 * Z.abs (d * A) ≤ d * (bf_num x * p * bf_den y)) as H1
    by (rewrite Z.abs_mul, (Z.abs_eq d) by lia; nia).
  assert (2 ^ 53 * Z.abs (p * bf_den y * B) ≤ p * bf_den y * (k * n * bf_den x)) as H2
    by (rewrite Z.abs_mul, (Z.abs_eq (p * bf_den y)) by lia; nia).
  assert (d * (bf_num x * p * bf_den y) ≤ p * bf_den y * (2 * (n * bf_den x))) as H3 by nia.
  assert (2 ^ 53 * (bf_den x * Z.abs (bf_num y * (d * q) - n * p * bf_den y)) ≤
          bf_den x * ((k + 2) * (n * p) * bf_den y)) as H4.
  { rewrite <-(Z.abs_eq (bf_den x)) at 1 by lia. rewrite <-Z.abs_mul, Hsplit. lia. }
  apply (Z.mul_le_mono_pos_l _ _ (bf_den x)); lia.
Qed.

Lemma approx_scale k x n d c : 0 < c → approx k x (n * c) (d * c) → approx k x n d.
Proof.
  unfold approx. intros Hc.
  replace (bf_num x * (d * c) - n * c * bf_den x) with (c * (bf_num x * d - n * bf_den x)) by ring.
  rewrite Z.abs_mul, (Z.abs_eq c) by lia. nia.
Qed.

(** ** encoding/base64 *)

Definition base64_char (n : Z) : ascii :=
  match String.get (Z.to_nat n) "ABCDEFGHIJKLMNOPQRSTUVWXYZabcdefghijklmnopqrstuvwxyz0123456789+/" with
  | Some c => c | None => "A"%char
  end.

Definition ascii_Z (c : ascii) : Z := Z.of_nat (nat_of_ascii c).

(** [base64.StdEncoding.EncodeToString] *)
Fixpoint base64_EncodeToString (s : string) : string :=
  match s with
  | EmptyString => EmptyString
  | String a EmptyString =>
      let v := ascii_Z a in
      String (base64_char (v / 4)) (String (base64_char (v mod 4 * 16)) "==")
  | String a (String b EmptyString) =>
      let v := ascii_Z a * 256 + ascii_Z b in
      String (base64_char (v / 1024)) (String (base64_char (v / 16 mod 64))
        (String (base64_char (v mod 16 * 4)) "="))
  | String a (String b (String c s')) =>
      let v := (ascii_Z a * 256 + ascii_Z b) * 256 + ascii_Z c in
      String (base64_char (v / 262144)) (String (base64_char (v / 4096 mod 64))
        (String (base64_char (v / 64 mod 64)) (String (base64_char (v mod 64))
          (base64_EncodeToString s'))))
  end.

Example base64_fooba : base64_EncodeToString "fooba" = "Zm9vYmE=".
Proof. reflexivity. Qed.

(** ** Float conversions *)

(** [float64(z)], [x * y] on float64s, [math.Ceil(x)] and truncation, as integers;
    [float_1_2] is the constant 1.2. *)
Definition float64_of_int (z : Z) : bigfloat := bf_round 53 z 1.
Definition float64_mul (x y : bigfloat) : bigfloat := bf_Mul 53 x y.
Definition bf_ceil (x : bigfloat) : Z := - (- bf_num x / bf_den x).
Definition float_1_2 : bigfloat := bf_round 53 12 10.

(** 1.2 times an integer, as the float64 code computes it. *)
Definition times_1_2 (g : Z) : bigfloat := float64_mul (float64_of_int g) float_1_2.

Lemma float64_of_int_exact g :
  0 < g < 2 ^ 53 → bf_num (float64_of_int g) = g * bf_den (float64_of_int g).
Proof. intros Hg. apply (bf_round_integer 53 g 1 g); try lia. Qed.

Definition float_1_2_mant : Z := 5404319552844595.

(** The product is [6 g / 5] exactly when that is an integer, else within a fifth of
    it. *)
Lemma times_1_2_spec g :
  0 < g < 2 ^ 49 → let y := times_1_2 g in
  (g mod 5 = 0 → 5 * bf_num y = 6 * g * bf_den y) ∧
  Z.abs (5 * bf_num y - 6 * g * bf_den y) < bf_den y.
Proof.
  intros Hg y. pose proof (float64_of_int_exact g ltac:(lia)) as Hx.
  pose proof (bf_den_pos (float64_of_int g)) as Hxd. set (x := float64_of_int g) in *.
  assert (y = bf_round 53 (g * bf_den x * float_1_2_mant) (bf_den x * 2 ^ 52)) as Hy.
  { unfold y, times_1_2, float64_mul, bf_Mul. fold x. by rewrite Hx. }
  clearbody x y. set (n := g * bf_den x * float_1_2_mant) in *.
  assert (n = bf_den x * (g * float_1_2_mant)) as Hn by (unfold n; ring).
  set (d := bf_den x * 2 ^ 52) in *.
  pose proof (bf_den_pos y) as Hyd. unfold float_1_2_mant in *.
  split.
  - intros H5. apply Z.mod_divide in H5 as [k ->]; [|done].
    pose proof (bf_round_integer 53 n d (6 * k)) as Hr. rewrite <-Hy in Hr.
    rewrite Hr; [ring|lia|nia|nia|].
    replace (6 * k * d - n) with (bf_den x * k) by (unfold n, d; ring).
    rewrite Z.abs_eq by nia. nia.
  - pose proof (bf_round_error 53 n d ltac:(lia) ltac:(nia)) as He. rewrite <-Hy in He.
    rewrite (Z.abs_eq n) in He by nia.
    assert (bf_num y * d - n * bf_den y =
      bf_den x * (bf_num y * 2 ^ 52 - g * 5404319552844595 * bf_den y)) as Hf by (unfold n, d; ring).
    rewrite Hf, Z.abs_mul, (Z.abs_eq (bf_den x)) in He by lia.
    assert (2 ^ 53 * Z.abs (bf_num y * 2 ^ 52 - g * 5404319552844595 * bf_den y) ≤
      g * 5404319552844595 * bf_den y) as He' by nia.
    assert (0 < g * bf_den y < 2 ^ 49 * bf_den y) by nia. lia.
Qed.

Lemma bf_ceil_times_1_2 g : 0 ≤ g < 2 ^ 49 → bf_ceil (times_1_2 g) = - (- (6 * g) / 5).
Proof.
  intros Hg. destruct (decide (g = 0)) as [->|Hg0]; [by vm_compute|].
  destruct (times_1_2_spec g ltac:(lia)) as [Hm Ha]. set (y := times_1_2 g) in *. clearbody y.
  pose proof (bf_den_pos y) as Hd. unfold bf_ceil. f_equal.
  symmetry. apply Z.div_unique_pos with (r := - bf_num y - (- (6 * g) / 5) * bf_den y); [|ring].
  pose proof (Z.div_mod (- (6 * g)) 5 ltac:(lia)) as Hdm.
  pose proof (Z.mod_pos_bound (- (6 * g)) 5 ltac:(lia)) as Hb.
  destruct (decide (g mod 5 = 0)) as [H5|H5].
  - specialize (Hm H5). apply Z.mod_divide in H5 as [k ->]; [|done].
    replace (- (6 * (k * 5))) with (- (6 * k) * 5) in * by ring. rewrite Z.div_mul by lia. nia.
  - assert ((- (6 * g)) mod 5 ≠ 0) as Hne.
    { intros Hz%Z.mod_divide; [|done]. apply H5, Z.mod_divide; [done|].
      destruct Hz as [k Hk]. exists (- k - g). lia. }
    set (q := - (6 * g) / 5) in *. clearbody q. nia.
Qed.

Lemma bf_Int_times_1_2 g : 0 ≤ g < 2 ^ 49 → bf_Int (times_1_2 g) = 6 * g / 5.
Proof.
  intros Hg. destruct (decide (g = 0)) as [->|Hg0]; [by vm_compute|].
  destruct (times_1_2_spec g ltac:(lia)) as [Hm Ha]. set (y := times_1_2 g) in *. clearbody y.
  pose proof (bf_den_pos y) as Hd. unfold bf_Int. rewrite Z.quot_div_nonneg by nia.
  symmetry. apply Z.div_unique_pos with (r := bf_num y - (6 * g / 5) * bf_den y); [|ring].
  pose proof (Z.div_mod (6 * g) 5 ltac:(lia)) as Hdm.
  pose proof (Z.mod_pos_bound (6 * g) 5 ltac:(lia)) as Hb.
  destruct (decide (g mod 5 = 0)) as [H5|H5].
  - specialize (Hm H5). apply Z.mod_divide in H5 as [k ->]; [|done].
    replace (6 * (k * 5)) with (6 * k * 5) in * by ring. rewrite Z.div_mul by lia. nia.
  - assert ((6 * g) mod 5 ≠ 0) as Hne.
    { intros Hz%Z.mod_divide; [|done]. apply H5, Z.mod_divide; [done|].
      destruct Hz as [k Hk]. exists (k - g). lia. }
    set (q := 6 * g / 5) in *. clearbody q. nia.
Qed.
