(* ===== verification/Json.v ===== *)
(** * Json: the values [encoding/json] reads and writes

    A JSON text is kept as its syntax tree; numbers keep their literal, because Go
    decodes them by the type of the target ([strconv.ParseUint] for a [uint32],
    [strconv.ParseFloat] for a [float64]).  A decoder is a function from trees to
    an optional value, [None] when the tree does not fit the Go type; an absent
    field and [null] give the zero value, an object key matches a field up to case,
    and the last of several matching keys counts. *)
From Stdlib Require Import Ascii.
From Stdlib Require String.
From S2P Require Import Prelude GoLib.

Inductive Json :=
  | JNull
  | JBool (b : bool)
  | JNum (literal : string)
  | JStr (s : string)
  | JArr (items : list Json)
  | JObj (fields : list (string * Json)).

Definition Decoder (A : Type) : Type := Json → option A.

(** What [json.Unmarshal] returns for a tree of the wrong type. *)
Definition json_type_error : error := ErrNew "json: cannot unmarshal value into Go value".

(** [json.Unmarshal(data, &v)] *)
Definition json_Unmarshal {A} (d : Decoder A) (j : Json) : result A :=
  match d j with Some a => Ok a | None => Err json_type_error end.

(** ** Numbers *)

(** The text before and after the first character that satisfies [p]. *)
Fixpoint split_first (p : ascii → bool) (s : string) : string * option string :=
  match s with
  | EmptyString => (EmptyString, None)
  | String c s' =>
      if p c then (EmptyString, Some s')
      else let '(a, b) := split_first p s' in (String c a, b)
  end.

(** The value [n / d] of the literal of a decimal number: an optional sign, digits,
    an optional fraction, an optional exponent. *)
Definition parse_decimal (lit : string) : option (Z * Z) :=
  let '(neg, body) :=
    match lit with String "-"%char s => (true, s) | _ => (false, lit) end in
  let '(num, e) := split_first (λ c, Ascii.eqb c "e" || Ascii.eqb c "E") body in
  let '(int, frac) := split_first (Ascii.eqb ".") num in
  i ← parse_digits int;
  f ← (match frac with None => Some 0 | Some fs => parse_digits fs end);
  x ← (match e with None => Some 0 | Some es => bigint_SetString es end);
  let places := match frac with None => 0 | Some fs => Z.of_nat (String.length fs) end in
  let m := i * 10 ^ places + f in
  let m := if (neg : bool) then - m else m in
  let p := x - places in
  Some (if 0 <=? p then (m * 10 ^ p, 1) else (m, 10 ^ (- p))).

(** The float64 nearest to [n / d]: 53 bits, no finer than [2 ^ -1074], [None]
    beyond the largest finite one. *)
Definition float64_of (n d : Z) : option bigfloat :=
  let x := bf_round 53 n d in
  let x := if bf_exp x <? -1074
           then BF (Z.sgn n * round_half_even (Z.abs n * 2 ^ 1074) d) (-1074) else x in
  if 2 ^ 1024 * bf_den x <=? Z.abs (bf_num x) then None else Some x.

(** [strconv.ParseFloat(lit, 64)], on the literals of JSON numbers. *)
Definition parse_float64 (lit : string) : option bigfloat :=
  '(n, d) ← parse_decimal lit; float64_of n d.

(** ** Decoders *)

Definition dec_string : Decoder string := λ j,
  match j with JStr s => Some s | JNull => Some "" | _ => None end.

Definition dec_bool : Decoder bool := λ j,
  match j with JBool b => Some b | JNull => Some false | _ => None end.

Definition dec_float64 : Decoder bigfloat := λ j,
  match j with JNum lit => parse_float64 lit | JNull => Some (BF 0 0) | _ => None end.

(** An unsigned integer of [w] bits. *)
Definition dec_uint (w : Z) : Decoder Z := λ j,
  match j with
  | JNum lit => match parse_digits lit with
                | Some z => if z <? 2 ^ w then Some z else None
                | None => None
                end
  | JNull => Some 0
  | _ => None
  end.

(** An [int]: 64 bits, signed. *)
Definition dec_int : Decoder Z := λ j,
  match j with
  | JNum lit => match bigint_SetString lit with
                | Some z => if (- 2 ^ 63 <=? z) && (z <? 2 ^ 63) then Some z else None
                | None => None
                end
  | JNull => Some 0
  | _ => None
  end.

(** [[]T] *)
Definition dec_list {A} (d : Decoder A) : Decoder (list A) := λ j,
  match j with JArr l => mapM d l | JNull => Some [] | _ => None end.

(** [*T] *)
Definition dec_ptr {A} (d : Decoder A) : Decoder (option A) := λ j,
  match j with JNull => Some None | _ => Some <$> d j end.

(** [any] *)
Definition dec_any : Decoder Json := λ j, Some j.

(** [map[string]T] *)
Definition dec_map {A} (d : Decoder A) : Decoder (gmap string A) := λ j,
  match j with
  | JObj fs =>
      foldl (λ acc kv, m ← acc; v ← d kv.2; Some (<[kv.1 := v]> m)) (Some ∅) fs
  | JNull => Some ∅
  | _ => None
  end.

(** The fields of a struct. *)
Definition dec_fields (j : Json) : option (list (string * Json)) :=
  match j with JObj fs => Some fs | JNull => Some [] | _ => None end.

(** One field, tagged [name], of type [A]. *)
Definition dec_field {A} (fs : list (string * Json)) (name : string) (d : Decoder A) : option A :=
  d (foldl (λ acc kv, if strings_EqualFold kv.1 name then kv.2 else acc) JNull fs).

(** ** Lemmas *)

Lemma dec_uint_bounds w j z : 0 ≤ w → dec_uint w j = Some z → 0 ≤ z < 2 ^ w.
Proof.
  intros Hw. destruct j; simpl; try done; [intros [= <-]; lia|].
  unfold parse_digits. destruct (DecimalString.NilZero.uint_of_string literal); simpl; [|done].
  case_match eqn:E; intros [= <-]. lia.
Qed.

Lemma dec_uint_print w z :
  0 ≤ z < 2 ^ w → dec_uint w (JNum (bigint_String z)) = Some z.
Proof.
  intros Hz. simpl.
  replace (bigint_String z) with (DecimalString.NilZero.string_of_uint (N.to_uint (Z.to_N z)))
    by (destruct z; [done|done|lia]).
  rewrite parse_digits_print, Z2N.id by lia. by rewrite (proj2 (Z.ltb_lt _ _)) by lia.
Qed.

Lemma dec_list_length {A} (d : Decoder A) l xs :
  dec_list d (JArr l) = Some xs → length xs = length l.
Proof. simpl. intros Hm. symmetry. by eapply length_mapM. Qed.

Lemma dec_list_print {A} (d : Decoder A) (e : A → Json) l :
  (∀ a, d (e a) = Some a) → dec_list d (JArr (e <$> l)) = Some l.
Proof.
  intros He. by apply mapM_fmap_Some.
Qed.

Example parse_price : parse_float64 "3512.25" = Some (bf_round 53 351225 100).
Proof. by vm_compute. Qed.
Example parse_exponent : parse_decimal "-1.5e-3" = Some (-15, 10000).
Proof. by vm_compute. Qed.
