(* ===== verification/Network.v ===== *)
(** * Network: what the clients talk to

    The components are written against client interfaces; the clients themselves
    (bridge clients, Hyperlane clients, transaction executors, the price oracle, the
    HTTP clients) are written against nodes, contracts and services.  This file has
    the data and the calls of that lower boundary: third-party client libraries,
    contract bindings, signing, files and environment variables.

    An EVM address or hash is carried as the text it was made from
    ([common.HexToAddress] and [common.HexToHash] are applied at the boundary); a
    request or response body in JSON is carried as its tree ([Json]). *)
From Stdlib Require Import Strings.Byte.
From S2P Require Import Prelude GoLib Json.

(** ** net/http *)

Record HttpRequest := mkHttpRequest {
  hr_Method : string;
  hr_URL : string;
  hr_Query : list (string * string);
  hr_Body : option Json
}.

(** [Body]: the text with its tree, or the error that reading or parsing it
    returns. *)
Record HttpResponse := mkHttpResponse {
  hs_StatusCode : Z;
  hs_RetryAfter : string;
  hs_Body : error + (string * Json)
}.

(** ** go-ethereum *)

(** [types.DynamicFeeTx]; a nil number or address is [None].  [eth_Type] is
    [tx.Type()], 2 for a dynamic fee transaction. *)
Record EthTx := mkEthTx {
  eth_Type : Z;
  eth_ChainID : option Z;
  eth_Nonce : Z;
  eth_GasTipCap : option Z;
  eth_GasFeeCap : option Z;
  eth_Gas : Z;
  eth_To : option string;
  eth_Value : option Z;
  eth_Data : list byte
}.

(** A signed transaction: its two encodings. *)
Record SignedEthTx := mkSignedEthTx { ste_Binary : list byte; ste_Json : string }.

(** [types.Receipt] *)
Record Receipt := mkReceipt {
  rcpt_Status : Z;
  rcpt_EffectiveGasPrice : option Z;
  rcpt_GasUsed : Z;
  (* the topics of each log, in hex *)
  rcpt_Logs : list (list string)
}.

(** The answer of the gateway contract's [settlementDetails]. *)
Record SettlementDetails := mkSettlementDetails {
  sd_Nonce : option Z;
  sd_DestinationDomain : Z;
  sd_Amount : option Z
}.

(** ** Cosmos SDK and CometBFT *)

Record Coin := mkCoin { coin_Denom : string; coin_Amount : Z }.

(** [wasmtypes.MsgExecuteContract] *)
Record MsgExecuteContract := mkMsgExecuteContract {
  mec_Sender : string;
  mec_Contract : string;
  mec_Msg : Json;
  mec_Funds : list Coin
}.

(** The account number and sequence the executor reads of an account. *)
Record Account := mkAccount { acc_Number : Z; acc_Sequence : Z }.

(** What the transaction builder holds: messages, fee and gas limit. *)
Record CosmosTxBody := mkCosmosTxBody {
  ctb_Msgs : list MsgExecuteContract;
  ctb_Fee : option Coin;
  ctb_GasLimit : Z
}.

(** The answer of an ABCI query. *)
Record AbciResponse (A : Type) := mkAbciResponse {
  abci_Code : Z;
  abci_Codespace : string;
  abci_Log : string;
  (* the value, or the error that unmarshalling it returns *)
  abci_Value : error + A
}.
Arguments mkAbciResponse {A} _ _ _ _.
Arguments abci_Code {A} _.
Arguments abci_Codespace {A} _.
Arguments abci_Log {A} _.
Arguments abci_Value {A} _.

(** [coretypes.ResultBroadcastTx] *)
Record ResultBroadcastTx := mkResultBroadcastTx {
  rb_Code : Z;
  rb_Codespace : string;
  rb_Log : string;
  rb_Hash : list byte
}.

(** An ABCI event: its type and its attributes. *)
Record AbciEvent := mkAbciEvent {
  ev_Type : string;
  ev_Attributes : list (string * string)
}.

(** [coretypes.ResultTx]: the hash, the result and the bytes of the transaction.
    The bytes are kept as what decoding them gives: [inl] the decoder's error,
    [inr None] a transaction that is no [sdk.FeeTx], else its fee coins. *)
Record ResultTx := mkResultTx {
  rt_Hash : string;
  rt_Code : Z;
  rt_Codespace : string;
  rt_Log : string;
  rt_Events : list AbciEvent;
  rt_Fee : error + option (list Coin)
}.

(** A smart query of a wasm contract: raw text or a tree. *)
Definition WasmQuery : Type := string + Json.

(** ** Calls *)

Inductive net_request :=
  (* the process *)
  | Sleep (d : Duration)
  | Getenv (name : string)
  | ReadFile (path : string)
  (* HTTP *)
  | LimiterWait
  | HttpDo (req : HttpRequest)
  (* an EVM node *)
  | EthDial (endpoint : string)
  | TmDial (endpoint : string)
  | EthSubscribe (endpoint : string)
  | EthPendingNonceAt (chainID address : string)
  | EthEstimateGas (chainID from to : string) (value : Z) (data : list byte)
  | EthSuggestGasTipCap (chainID : string)
  | EthHeader (chainID : string)
  | EthSendTransaction (chainID : string) (raw : list byte)
  | EthTransactionReceipt (chainID txHash : string)
  | EthBalanceAt (chainID : string) (address : list byte)
  | EthCodeAt (chainID address : string)
  | SignEthTx (chainID : string) (tx : EthTx)
  (* contracts on an EVM chain *)
  | BindContract (chainID address : string)
  | UsdcBalanceOf (chainID contract account : string)
  | GwOrderStatuses (chainID gateway : string) (orderID : list byte)
  | GwSettlementDetails (chainID gateway : string) (orderID : list byte) (block : option Z)
  | GwFilterOrderRefunded (chainID gateway : string) (orderID : list byte)
  | GwFilterOrderSubmitted (chainID gateway : string) (orderID : list byte)
  | EthChainID (chainID : string)
  | UsdcApprove (chainID contract : string) (from : list byte) (spender : string) (amount : Z)
  | WaitMined (chainID txHash : string)
  | GwSubmitOrder (chainID gateway : string) (from sender recipient : list byte)
      (amountIn amountOut destinationDomain timeoutTimestamp : Z) (data : list byte)
  | MbDelivered (chainID mailbox : string) (messageID : list byte)
  | MbRecipientIsm (chainID mailbox recipient : string)
  | MbProcess (chainID mailbox from : string) (metadata message : list byte)
  | MbPackProcess (metadata message : list byte)
  | IsmModuleType (chainID ism : string)
  | IsmValidatorsAndThreshold (chainID ism message : string)
  (* a Cosmos node *)
  | GrpcDial (endpoint : string) (tls : bool)
  | CosmosSign (chainID : string) (tx : CosmosTxBody) (account : Account)
  | CosmosSimulate (chainID : string) (tx : list byte)
  | BroadcastTxSync (chainID : string) (tx : list byte)
  | QueryAccount (chainID address : string)
  | QueryBalance (chainID address denom : string)
  | TmTx (chainID : string) (hash : list byte)
  | TmTxSearch (chainID query : string)
  | TmHeader (chainID : string) (height : option Z)
  | SmartContractState (chainID contract : string) (query : WasmQuery).

Definition net_response (r : net_request) : Type :=
  match r with
  | Sleep _ => unit
  | Getenv _ => string
  | ReadFile _ => string
  | LimiterWait => unit
  | HttpDo _ => HttpResponse
  | EthDial _ | TmDial _ | EthSubscribe _ => unit
  | EthPendingNonceAt _ _ => Z
  | EthEstimateGas _ _ _ _ _ => Z
  | EthSuggestGasTipCap _ => Z
  (* the number and the base fee of the latest block *)
  | EthHeader _ => Z * option Z
  (* the hash *)
  | EthSendTransaction _ _ => string
  | EthTransactionReceipt _ _ => option Receipt
  | EthBalanceAt _ _ => Z
  | EthCodeAt _ _ => list byte
  | SignEthTx _ _ => SignedEthTx
  | BindContract _ _ => unit
  | UsdcBalanceOf _ _ _ => Z
  | GwOrderStatuses _ _ _ => Z
  | GwSettlementDetails _ _ _ _ => SettlementDetails
  (* what the iterator yields: the transaction hash of each event *)
  | GwFilterOrderRefunded _ _ _ => list (option string)
  (* ... the encoded order of each event *)
  | GwFilterOrderSubmitted _ _ _ => list (option (list byte))
  | EthChainID _ => Z
  (* the hash of the transaction the binding signed and sent *)
  | UsdcApprove _ _ _ _ _ | GwSubmitOrder _ _ _ _ _ _ _ _ _ _ => string
  | WaitMined _ _ => Receipt
  | MbDelivered _ _ _ => bool
  | MbRecipientIsm _ _ _ => string
  (* data, value and destination of the transaction that was not sent *)
  | MbProcess _ _ _ _ _ => list byte * Z * string
  | MbPackProcess _ _ => list byte
  | IsmModuleType _ _ => Z
  | IsmValidatorsAndThreshold _ _ _ => list string * Z
  | GrpcDial _ _ => unit
  | CosmosSign _ _ _ => list byte
  (* the gas used *)
  | CosmosSimulate _ _ => Z
  | BroadcastTxSync _ _ => ResultBroadcastTx
  | QueryAccount _ _ => AbciResponse Account
  | QueryBalance _ _ _ => AbciResponse Z
  | TmTx _ _ => ResultTx
  (* the total count and the page of transactions *)
  | TmTxSearch _ _ => Z * list ResultTx
  (* the height and the time of the block *)
  | TmHeader _ _ => Z * Time
  (* the data, [None] for nil, or the error that parsing it returns; the error of
     the call itself carries the values of the block height header too *)
  | SmartContractState _ _ _ =>
      list string * (error + option (error + Json))
  end.
