(* ===== verification/SkipGoTypes.v ===== *)
(** * SkipGoTypes: the data of shared/clients/skipgo/client.go

    The records of the Skip Go API with their JSON decoders, which follow the
    [json] tags of the Go structs: an absent field is the zero value, a field of the
    wrong type makes the whole response undecodable, whether the solver reads that
    field or not.  A pointer is an [option]; [Operations] is passed from the route
    to the message request unread, so its absence (a nil slice) is kept. *)
From S2P Require Import Prelude GoLib Json.

(** ** Balances *)

Record ChainRequest := mkChainRequest { cq_Address : string; cq_Denoms : list string }.
Definition BalancesRequest : Type := gmap string ChainRequest.

Record DenomDetail := mkDenomDetail {
  dd_Amount : string;
  dd_Decimals : Z;
  dd_FormattedAmount : string;
  dd_Price : string;
  dd_ValueUSD : string
}.
Record ChainResponse := mkChainResponse {
  cr_Address : string;
  cr_Denoms : gmap string DenomDetail
}.
Definition BalancesResponse : Type := gmap string ChainResponse.

(** ** Routes *)

Record RouteResponse := mkRouteResponse {
  rr_AmountIn : string;
  rr_AmountOut : string;
  rr_SourceAssetDenom : string;
  rr_SourceAssetChainID : string;
  rr_DestAssetDenom : string;
  rr_DestAssetChainID : string;
  rr_Operations : option (list Json);
  rr_ChainIDs : list string;
  rr_RequiredChainAddresses : list string;
  rr_DoesSwap : bool;
  rr_EstimatedAmountOut : string;
  rr_TxsRequired : Z;
  rr_USDAmountIn : string;
  rr_USDAmountOut : string;
  rr_SwapPriceImpactPercent : string
}.

(** ** Transactions *)

Record ERC20Approval := mkERC20Approval {
  ap_TokenContract : string;
  ap_Spender : string;
  ap_Amount : string
}.

Record EVMTx := mkEVMTx {
  etx_ChainID : string;
  etx_To : string;
  etx_Value : string;
  etx_Data : string;
  etx_SignerAddress : string;
  etx_RequiredERC20Approvals : list ERC20Approval
}.

Record CosmosMessage := mkCosmosMessage { cm_Msg : string; cm_MsgTypeURL : string }.

Record CosmosTx := mkCosmosTx {
  ctx_ChainID : string;
  ctx_Path : list string;
  ctx_SignerAddress : string;
  ctx_Msgs : list CosmosMessage
}.

Record Tx := mkTx {
  tx_EVMTx : option EVMTx;
  tx_CosmosTx : option CosmosTx;
  tx_OperationsIndices : list Z
}.

(** ** Status *)

Record StatusTrackingTx := mkStatusTrackingTx {
  sx_ChainID : string;
  sx_ExplorerLink : string;
  sx_TxHash : string
}.

Record PacketTxs := mkPacketTxs {
  pt_SendTx : option StatusTrackingTx;
  pt_ReceiveTx : option StatusTrackingTx;
  pt_AcknowledgeTx : option StatusTrackingTx;
  pt_TimeoutTx : option StatusTrackingTx;
  pt_Error : option string
}.

Record IBCTransfer := mkIBCTransfer {
  ibc_FromChainID : string;
  ibc_ToChainID : string;
  ibc_State : string;
  ibc_PacketTxs : PacketTxs
}.

Record SendTokenTxs := mkSendTokenTxs {
  stt_SendTx : option StatusTrackingTx;
  stt_ConfirmTx : option StatusTrackingTx;
  stt_ExecuteTx : option StatusTrackingTx;
  stt_Error : option string
}.

Record AxelarTransfer := mkAxelarTransfer {
  ax_FromChainID : string;
  ax_ToChainID : string;
  ax_Type : string;
  ax_State : string;
  ax_Txs : SendTokenTxs;
  ax_AxelarScanLink : string
}.

Record GenericTransfer := mkGenericTransfer {
  gt_ToChain : string;
  gt_FromChain : string;
  gt_State : string;
  gt_SendTx : StatusTrackingTx;
  gt_ReceiveTx : StatusTrackingTx
}.

Record TransferSequence := mkTransferSequence {
  ts_IBCTransfer : option IBCTransfer;
  ts_AxelarTransfer : option AxelarTransfer;
  ts_CCTPTransfer : option GenericTransfer;
  ts_HyperlaneTransfer : option GenericTransfer;
  ts_OpinitTransfer : option GenericTransfer
}.

Record TransferAssetRelease := mkTransferAssetRelease {
  tar_ChainID : string;
  tar_Denom : string;
  tar_Released : bool
}.

Record Transfer := mkTransfer {
  tr_State : string;
  tr_TransferSequence : list TransferSequence;
  tr_NextBlockingTransfer : option TransferSequence;
  tr_TransferAssetRelease : TransferAssetRelease;
  tr_Error : option string
}.

(** ** Decoders *)

(** A struct: the fields the body of the decoder asks for, by tag. *)
Definition struct {A} (body : (∀ X, string → Decoder X → option X) → option A) : Decoder A := λ j,
  fs ← dec_fields j; body (λ X name d, dec_field fs name d).

Definition dec_DenomDetail : Decoder DenomDetail := struct (λ field,
  amount ← field _ "amount" dec_string;
  decimals ← field _ "decimals" (dec_uint 8);
  formatted ← field _ "formatted_amount" dec_string;
  price ← field _ "price" dec_string;
  value ← field _ "value_usd" dec_string;
  Some (mkDenomDetail amount decimals formatted price value)).

Definition dec_ChainResponse : Decoder ChainResponse := struct (λ field,
  address ← field _ "address" dec_string;
  denoms ← field _ "denoms" (dec_map dec_DenomDetail);
  Some (mkChainResponse address denoms)).

Definition dec_BalancesResponse : Decoder BalancesResponse := struct (λ field,
  field _ "chains" (dec_map dec_ChainResponse)).

Definition dec_RouteResponse : Decoder RouteResponse := struct (λ field,
  amountIn ← field _ "amount_in" dec_string;
  amountOut ← field _ "amount_out" dec_string;
  sourceDenom ← field _ "source_asset_denom" dec_string;
  sourceChain ← field _ "source_asset_chain_id" dec_string;
  destDenom ← field _ "dest_asset_denom" dec_string;
  destChain ← field _ "dest_asset_chain_id" dec_string;
  operations ← field _ "operations" (dec_ptr (dec_list dec_any));
  chainIDs ← field _ "chain_ids" (dec_list dec_string);
  required ← field _ "required_chain_addresses" (dec_list dec_string);
  doesSwap ← field _ "does_swap" dec_bool;
  estimated ← field _ "estimated_amount_out" dec_string;
  txsRequired ← field _ "txs_required" dec_int;
  usdIn ← field _ "usd_amount_in" dec_string;
  usdOut ← field _ "usd_amount_out" dec_string;
  impact ← field _ "swap_price_impact_percent" dec_string;
  Some (mkRouteResponse amountIn amountOut sourceDenom sourceChain destDenom destChain operations
          chainIDs required doesSwap estimated txsRequired usdIn usdOut impact)).

Definition dec_ERC20Approval : Decoder ERC20Approval := struct (λ field,
  token ← field _ "token_contract" dec_string;
  spender ← field _ "spender" dec_string;
  amount ← field _ "amount" dec_string;
  Some (mkERC20Approval token spender amount)).

Definition dec_EVMTx : Decoder EVMTx := struct (λ field,
  chainID ← field _ "chain_id" dec_string;
  to ← field _ "to" dec_string;
  value ← field _ "value" dec_string;
  data ← field _ "data" dec_string;
  signer ← field _ "signer_address" dec_string;
  approvals ← field _ "required_erc20_approvals" (dec_list dec_ERC20Approval);
  Some (mkEVMTx chainID to value data signer approvals)).

Definition dec_CosmosMessage : Decoder CosmosMessage := struct (λ field,
  msg ← field _ "msg" dec_string;
  url ← field _ "msg_type_url" dec_string;
  Some (mkCosmosMessage msg url)).

Definition dec_CosmosTx : Decoder CosmosTx := struct (λ field,
  chainID ← field _ "chain_id" dec_string;
  path ← field _ "path" (dec_list dec_string);
  signer ← field _ "signer_address" dec_string;
  msgs ← field _ "msgs" (dec_list dec_CosmosMessage);
  Some (mkCosmosTx chainID path signer msgs)).

Definition dec_Tx : Decoder Tx := struct (λ field,
  evm ← field _ "evm_tx" (dec_ptr dec_EVMTx);
  cosmos ← field _ "cosmos_tx" (dec_ptr dec_CosmosTx);
  indices ← field _ "operations_indices" (dec_list dec_int);
  Some (mkTx evm cosmos indices)).

Definition dec_StatusTrackingTx : Decoder StatusTrackingTx := struct (λ field,
  chainID ← field _ "chain_id" dec_string;
  link ← field _ "explorer_link" dec_string;
  txHash ← field _ "tx_hash" dec_string;
  Some (mkStatusTrackingTx chainID link txHash)).

Definition dec_PacketTxs : Decoder PacketTxs := struct (λ field,
  send ← field _ "send_tx" (dec_ptr dec_StatusTrackingTx);
  receive ← field _ "receive_tx" (dec_ptr dec_StatusTrackingTx);
  ack ← field _ "acknowledge_tx" (dec_ptr dec_StatusTrackingTx);
  timeout ← field _ "timeout_tx" (dec_ptr dec_StatusTrackingTx);
  error ← field _ "error" (dec_ptr dec_string);
  Some (mkPacketTxs send receive ack timeout error)).

Definition dec_IBCTransfer : Decoder IBCTransfer := struct (λ field,
  from ← field _ "from_chain_id" dec_string;
  to ← field _ "to_chain_id" dec_string;
  state ← field _ "state" dec_string;
  packets ← field _ "packet_txs" dec_PacketTxs;
  Some (mkIBCTransfer from to state packets)).

Definition dec_SendTokenTxs : Decoder SendTokenTxs := struct (λ field,
  send ← field _ "send_tx" (dec_ptr dec_StatusTrackingTx);
  confirm ← field _ "confirm_tx" (dec_ptr dec_StatusTrackingTx);
  execute ← field _ "execute_tx" (dec_ptr dec_StatusTrackingTx);
  error ← field _ "error" (dec_ptr dec_string);
  Some (mkSendTokenTxs send confirm execute error)).

Definition dec_AxelarTransfer : Decoder AxelarTransfer := struct (λ field,
  from ← field _ "from_chain_id" dec_string;
  to ← field _ "to_chain_id" dec_string;
  type ← field _ "type" dec_string;
  state ← field _ "state" dec_string;
  txs ← field _ "txs" dec_SendTokenTxs;
  link ← field _ "axelar_scan_link" dec_string;
  Some (mkAxelarTransfer from to type state txs link)).

Definition dec_GenericTransfer : Decoder GenericTransfer := struct (λ field,
  to ← field _ "to_chain" dec_string;
  from ← field _ "from_chain" dec_string;
  state ← field _ "state" dec_string;
  send ← field _ "send_tx" dec_StatusTrackingTx;
  receive ← field _ "receive_tx" dec_StatusTrackingTx;
  Some (mkGenericTransfer to from state send receive)).

Definition dec_TransferSequence : Decoder TransferSequence := struct (λ field,
  ibc ← field _ "ibc_transfer" (dec_ptr dec_IBCTransfer);
  axelar ← field _ "axelar_transfer" (dec_ptr dec_AxelarTransfer);
  cctp ← field _ "cctp_transfer" (dec_ptr dec_GenericTransfer);
  hyperlane ← field _ "hyperlane_transfer" (dec_ptr dec_GenericTransfer);
  opinit ← field _ "opinit_transfer" (dec_ptr dec_GenericTransfer);
  Some (mkTransferSequence ibc axelar cctp hyperlane opinit)).

Definition dec_TransferAssetRelease : Decoder TransferAssetRelease := struct (λ field,
  chainID ← field _ "chain_id" dec_string;
  denom ← field _ "denom" dec_string;
  released ← field _ "released" dec_bool;
  Some (mkTransferAssetRelease chainID denom released)).

Definition dec_Transfer : Decoder Transfer := struct (λ field,
  state ← field _ "state" dec_string;
  sequence ← field _ "transfer_sequence" (dec_list dec_TransferSequence);
  next ← field _ "next_blocking_transfer" (dec_ptr dec_TransferSequence);
  release ← field _ "transfer_asset_release" dec_TransferAssetRelease;
  error ← field _ "error" (dec_ptr dec_string);
  Some (mkTransfer state sequence next release error)).

(** [StatusResponse.Transfers] *)
Definition dec_StatusResponse : Decoder (list Transfer) := struct (λ field,
  field _ "transfers" (dec_list dec_Transfer)).
