(* ===== verification/Config.v ===== *)
(** * Config: shared/config/config.go

    The configuration schema, its validation and the indexed reader.  Go maps
    are [gmap]s; a nil pointer is [None]; reading through a nil pointer is a
    [Panic].  The order in which Go ranges over a map is an argument
    ([entries], any permutation of the map's bindings). *)
From S2P Require Import Prelude GoLib.

(** ** Schema *)

Definition ChainType := string.
Definition ChainType_COSMOS : ChainType := "cosmos".
Definition ChainType_EVM : ChainType := "evm".

Definition ChainEnvironment := string.

Record FundRebalancerConfig := mkFundRebalancerConfig {
  TargetAmount : string;
  MinAllowedAmount : string;
  MaxRebalancingGasCostUUSDC : string;
  ProfitabilityTimeout : Duration;
  TransferCostCapUUSDC : string
}.

Record RelayerConfig := mkRelayerConfig {
  ValidatorAnnounceContractAddress : string;
  MerkleHookContractAddress : string;
  MailboxAddress : string;
  ProfitableRelayTimeout : option Duration;
  RelayCostCapUUSDC : string
}.

Record SignerGasBalanceConfig := mkSignerGasBalanceConfig {
  WarningThresholdWei : string;
  CriticalThresholdWei : string
}.

Record CosmosConfig := mkCosmosConfig {
  cosmos_RPC : string;
  cosmos_RPCBasicAuthVar : string;
  cosmos_GRPC : string;
  cosmos_GRPCTLSEnabled : bool;
  cosmos_AddressPrefix : string;
  cosmos_SignerGasBalance : SignerGasBalanceConfig;
  cosmos_GasPrice : bigfloat;
  cosmos_GasDenom : string;
  cosmos_MinFillSize : option Z;
  cosmos_MaxFillSize : option Z
}.

Record EVMConfig := mkEVMConfig {
  evm_MinGasTipCap : option Z;
  evm_RPC : string;
  evm_WSEndpoint : string;
  evm_RPCBasicAuthVar : string;
  evm_SignerGasBalance : SignerGasBalanceConfig;
  evm_SolverAddress : string
}.

Record ChainConfig := mkChainConfig {
  ChainName : string;
  ChainID : string;
  Type_ : ChainType;
  Environment : ChainEnvironment;
  Cosmos : option CosmosConfig;
  EVM : option EVMConfig;
  GasTokenSymbol : string;
  GasTokenDecimals : Z;
  GasTokenCoingeckoID : string;
  NumBlockConfirmationsBeforeFill : Z;
  HyperlaneDomain : string;
  QuickStartNumBlocksBack : Z;
  FastTransferContractAddress : string;
  SolverAddress : string;
  USDCDenom : string;
  Relayer : RelayerConfig;
  MinFeeBps : Z;
  BatchUUSDCSettleUpThreshold : string;
  MinProfitMarginBPS : Z;
  SettlementRebatchTimeout : Duration
}.

Record Config := mkConfig {
  Chains : gmap string ChainConfig;
  FundRebalancer : option (gmap string FundRebalancerConfig)
}.

(** ** Redaction *)

(** cmd/solver/main.go logs the configuration without the endpoints and the names of
    the variables that hold their credentials. *)
Definition redacted : string := "[redacted]".

Definition redact_cosmos (c : CosmosConfig) : CosmosConfig := {|
  cosmos_RPC := redacted; cosmos_RPCBasicAuthVar := redacted; cosmos_GRPC := redacted;
  cosmos_GRPCTLSEnabled := cosmos_GRPCTLSEnabled c; cosmos_AddressPrefix := cosmos_AddressPrefix c;
  cosmos_SignerGasBalance := cosmos_SignerGasBalance c; cosmos_GasPrice := cosmos_GasPrice c;
  cosmos_GasDenom := cosmos_GasDenom c; cosmos_MinFillSize := cosmos_MinFillSize c;
  cosmos_MaxFillSize := cosmos_MaxFillSize c |}.

Definition redact_evm (c : EVMConfig) : EVMConfig := {|
  evm_MinGasTipCap := evm_MinGasTipCap c; evm_RPC := redacted; evm_WSEndpoint := redacted;
  evm_RPCBasicAuthVar := redacted; evm_SignerGasBalance := evm_SignerGasBalance c;
  evm_SolverAddress := evm_SolverAddress c |}.

Definition with_clients (cosmos : option CosmosConfig) (evm : option EVMConfig) (c : ChainConfig) :
    ChainConfig := {|
  ChainName := ChainName c; ChainID := ChainID c; Type_ := Type_ c; Environment := Environment c;
  Cosmos := cosmos; EVM := evm; GasTokenSymbol := GasTokenSymbol c;
  GasTokenDecimals := GasTokenDecimals c; GasTokenCoingeckoID := GasTokenCoingeckoID c;
  NumBlockConfirmationsBeforeFill := NumBlockConfirmationsBeforeFill c;
  HyperlaneDomain := HyperlaneDomain c; QuickStartNumBlocksBack := QuickStartNumBlocksBack c;
  FastTransferContractAddress := FastTransferContractAddress c; SolverAddress := SolverAddress c;
  USDCDenom := USDCDenom c; Relayer := Relayer c; MinFeeBps := MinFeeBps c;
  BatchUUSDCSettleUpThreshold := BatchUUSDCSettleUpThreshold c;
  MinProfitMarginBPS := MinProfitMarginBPS c;
  SettlementRebatchTimeout := SettlementRebatchTimeout c |}.

Definition redact_chain (c : ChainConfig) : ChainConfig :=
  with_clients (redact_cosmos <$> Cosmos c) (redact_evm <$> EVM c) c.

Definition redactConfig (cfg : Config) : Config :=
  mkConfig (redact_chain <$> Chains cfg) (FundRebalancer cfg).

(** ** Validation *)

Definition required (b : bool) (field : string) : option error :=
  if b then None else Some (ErrNew field).

Definition nonempty (s : string) : bool := negb (s =? "")%string.

(** The first failing check, in program order. *)
Fixpoint first_error (checks : list (option error)) : option error :=
  match checks with
  | [] => None
  | Some e :: _ => Some e
  | None :: rest => first_error rest
  end.

Definition is_some {A} (o : option A) : bool := match o with Some _ => true | None => false end.

Definition validateCosmosConfig (config : CosmosConfig) (relayerConfig : RelayerConfig) :
    option error :=
  first_error [
    required (nonempty (cosmos_RPC config)) "cosmos.rpc is required";
    required (nonempty (cosmos_GRPC config)) "cosmos.grpc is required";
    required (nonempty (cosmos_AddressPrefix config)) "cosmos.address_prefix is required";
    required (negb (bf_mant (cosmos_GasPrice config) =? 0)) "cosmos.gas_price is required";
    required (nonempty (cosmos_GasDenom config)) "cosmos.gas_denom is required";
    required (is_some (cosmos_MinFillSize config)) "cosmos.min_fill_size is required";
    required (is_some (cosmos_MaxFillSize config)) "cosmos.max_fill_size is required";
    required (match cosmos_MaxFillSize config, cosmos_MinFillSize config with
              | Some mx, Some mn => negb (mx <? mn)
              | _, _ => true
              end) "cosmos.max_fill_size must be greater than cosmos.min_fill_size";
    required (nonempty (WarningThresholdWei (cosmos_SignerGasBalance config)))
      "cosmos.signer_gas_balance.warning_threshold_wei is required";
    required (nonempty (CriticalThresholdWei (cosmos_SignerGasBalance config)))
      "cosmos.signer_gas_balance.critical_threshold_wei is required";
    required (nonempty (ValidatorAnnounceContractAddress relayerConfig))
      "relayer.validator_announce_contract_address is required";
    required (nonempty (MerkleHookContractAddress relayerConfig))
      "relayer.merkle_hook_contract_address is required" ].

Definition validateEVMConfig (config : EVMConfig) : option error :=
  first_error [
    required (nonempty (evm_RPC config)) "evm.rpc is required";
    required (negb (nonempty (evm_WSEndpoint config))
              || strings_HasPrefix (evm_WSEndpoint config) "ws://"
              || strings_HasPrefix (evm_WSEndpoint config) "wss://")
      "evm.ws must start with ws:// or wss://";
    required (nonempty (WarningThresholdWei (evm_SignerGasBalance config)))
      "evm.signer_gas_balance.warning_threshold_wei is required";
    required (nonempty (CriticalThresholdWei (evm_SignerGasBalance config)))
      "evm.signer_gas_balance.critical_threshold_wei is required" ].

Definition ValidateChainConfig (chain : ChainConfig) : option error :=
  first_error [
    required (nonempty (ChainName chain)) "chain_name is required";
    required (nonempty (ChainID chain)) "chain_id is required";
    required (nonempty (Type_ chain)) "type is required";
    required (nonempty (Environment chain)) "environment is required";
    required (nonempty (GasTokenSymbol chain)) "gas_token_symbol is required";
    required (negb (GasTokenDecimals chain =? 0)) "gas_token_decimals is required";
    required (negb (NumBlockConfirmationsBeforeFill chain =? 0))
      "num_block_confirmations_before_fill is required";
    required (nonempty (HyperlaneDomain chain)) "hyperlane_domain is required";
    required (negb (QuickStartNumBlocksBack chain =? 0)) "quick_start_num_blocks_back is required";
    required (nonempty (FastTransferContractAddress chain))
      "fast_transfer_contract_address is required";
    required (nonempty (SolverAddress chain)) "solver_address is required";
    required (nonempty (USDCDenom chain)) "usdc_denom is required";
    required (negb (MinFeeBps chain <? MinProfitMarginBPS chain))
      "min_profit_margin_bps can not be > min_fee_bps";
    required (is_some (ProfitableRelayTimeout (Relayer chain)))
      "relayer.profitable_relay_timeout is required";
    required (nonempty (RelayCostCapUUSDC (Relayer chain)))
      "relayer.relay_cost_cap_u_usdc is required";
    required (nonempty (MailboxAddress (Relayer chain))) "relayer.mailbox_address is required";
    if (Type_ chain =? ChainType_COSMOS)%string then
      match Cosmos chain with
      | None => Some (ErrNew "cosmos config is required for cosmos chain type")
      | Some c => validateCosmosConfig c (Relayer chain)
      end
    else if (Type_ chain =? ChainType_EVM)%string then
      first_error [
        required (nonempty (BatchUUSDCSettleUpThreshold chain))
          "batch_uusdc_settle_up_threshold is required";
        required (negb (MinFeeBps chain =? 0)) "min_fee_bps is required";
        required (negb (MinProfitMarginBPS chain =? 0)) "min_profit_margin_bps is required";
        match EVM chain with
        | None => Some (ErrNew "evm config is required for evm chain type")
        | Some c => validateEVMConfig c
        end ]
    else Some (ErrNew ("invalid chain type: " +:+ Type_ chain)) ].

(** The validation loop of [LoadConfig], after the YAML has been decoded. *)
Definition LoadConfig_validate (config : Config) (entries : list (string * ChainConfig)) :
    result Config :=
  match first_error
          ((λ '(chainID, chainConfig),
              match ValidateChainConfig chainConfig with
              | Some e => Some (ErrWrap ("invalid configuration for chain " +:+ chainID +:+ ": ") e)
              | None => None
              end) <$> entries) with
  | Some e => Err e
  | None => Ok config
  end.

(** ** Reader *)

Record configReader := mkConfigReader {
  config : Config;
  chainIDIndex : gmap string ChainConfig
}.

(** [createIndexes]: every chain is filed under its own [ChainID], in the order
    the map of chains is ranged over. *)
Definition createIndexes (entries : list (string * ChainConfig)) : gmap string ChainConfig :=
  foldl (λ idx '(_, chain), <[ChainID chain := chain]> idx) ∅ entries.

Definition NewConfigReader (cfg : Config) (entries : list (string * ChainConfig)) : configReader :=
  {| config := cfg; chainIDIndex := createIndexes entries |}.

Definition chain_not_found (chainID : string) : error :=
  ErrNew ("chain id " +:+ chainID +:+ " not found").

Definition GetChainConfig (r : configReader) (chainID : string) : result ChainConfig :=
  match chainIDIndex r !! chainID with
  | Some chain => Ok chain
  | None => Err (chain_not_found chainID)
  end.

Definition GetChainEnvironment (r : configReader) (chainID : string) : result ChainEnvironment :=
  match chainIDIndex r !! chainID with
  | Some chain => Ok (Environment chain)
  | None => Err (chain_not_found chainID)
  end.

Definition GetRPCEndpoint (r : configReader) (chainID : string) : result string :=
  match chainIDIndex r !! chainID with
  | None => Err (chain_not_found chainID)
  | Some chain =>
      if (Type_ chain =? ChainType_COSMOS)%string then
        match Cosmos chain with Some c => Ok (cosmos_RPC c) | None => Panic "nil dereference" end
      else if (Type_ chain =? ChainType_EVM)%string then
        match EVM chain with Some c => Ok (evm_RPC c) | None => Panic "nil dereference" end
      else Err (ErrNew "unknown chain type")
  end.

(** [GetBasicAuth]; [lookupEnv] is the process environment. *)
Definition GetBasicAuth (lookupEnv : string → option string) (r : configReader)
    (chainID : string) : result (option string) :=
  match chainIDIndex r !! chainID with
  | None => Err (chain_not_found chainID)
  | Some chain =>
      if (Type_ chain =? ChainType_COSMOS)%string then
        match Cosmos chain with
        | Some c => Ok (lookupEnv (cosmos_RPCBasicAuthVar c))
        | None => Panic "nil dereference"
        end
      else if (Type_ chain =? ChainType_EVM)%string then
        match EVM chain with
        | Some c => Ok (lookupEnv (evm_RPCBasicAuthVar c))
        | None => Panic "nil dereference"
        end
      else Ok (lookupEnv "")
  end.

(** [GetAllChainConfigsOfType] ranges over the map of chains in the order
    [entries]; it never fails. *)
Definition GetAllChainConfigsOfType (entries : list (string * ChainConfig))
    (chainType : ChainType) : list ChainConfig :=
  filter (λ chain, Type_ chain = chainType) entries.*2.

Definition GetGatewayContractAddress (r : configReader) (chainID : string) : result string :=
  match chainIDIndex r !! chainID with
  | None => Err (chain_not_found chainID)
  | Some chain =>
      if (Type_ chain =? ChainType_COSMOS)%string then Ok (FastTransferContractAddress chain)
      else if (Type_ chain =? ChainType_EVM)%string then Ok (FastTransferContractAddress chain)
      else Err (ErrNew "unknown chain type")
  end.

(** [GetChainIDByHyperlaneDomain] over the index ranged in the order
    [entries]: the first chain with that domain. *)
Definition GetChainIDByHyperlaneDomain (entries : list (string * ChainConfig))
    (domain : string) : result string :=
  match list_find (λ '(_, cfg), HyperlaneDomain cfg = domain) entries with
  | Some (_, (chainID, _)) => Ok chainID
  | None => Err (ErrNew ("no chain found for Hyperlane domain " +:+ domain))
  end.

Definition GetUSDCDenom (r : configReader) (chainID : string) : result string :=
  match chainIDIndex r !! chainID with
  | Some chain => Ok (USDCDenom chain)
  | None => Err (chain_not_found chainID)
  end.

Definition GetFundRebalancingConfig (r : configReader) (chainID : string) :
    result FundRebalancerConfig :=
  match FundRebalancer (config r) ≫= (.!! chainID) with
  | Some c => Ok c
  | None => Err (ErrNew ("chain id " +:+ chainID +:+ " fund rebalancing config not found"))
  end.

Definition GetWSEndpoint (r : configReader) (chainID : string) : result string :=
  match chainIDIndex r !! chainID with
  | None => Err (chain_not_found chainID)
  | Some chain =>
      match (Type_ chain =? ChainType_EVM)%string, EVM chain with
      | true, Some c => Ok (evm_WSEndpoint c)
      | _, _ => Err (ErrNew ("websocket endpoint not configured for chain " +:+ chainID))
      end
  end.

Definition parse_thresholds (g : SignerGasBalanceConfig) : result (Z * Z) :=
  match bigint_SetString (WarningThresholdWei g), bigint_SetString (CriticalThresholdWei g) with
  | Some w, Some c => Ok (w, c)
  | _, _ => Err (ErrNew "failed to parse gas balance threshold amount")
  end.

Definition GetGasAlertThresholds (r : configReader) (chainID : string) : result (Z * Z) :=
  match GetChainConfig r chainID with
  | Err e => Err e
  | Panic p => Panic p
  | Ok chain =>
      if (Type_ chain =? ChainType_COSMOS)%string then
        match Cosmos chain with
        | Some c => parse_thresholds (cosmos_SignerGasBalance c)
        | None => Panic "nil dereference"
        end
      else if (Type_ chain =? ChainType_EVM)%string then
        match EVM chain with
        | Some c => parse_thresholds (evm_SignerGasBalance c)
        | None => Panic "nil dereference"
        end
      else Err (ErrNew "unknown chain type")
  end.

(** ** What redaction guarantees *)

Definition set_cosmos_endpoints (rpc grpc auth : string) (c : CosmosConfig) : CosmosConfig :=
  mkCosmosConfig rpc auth grpc (cosmos_GRPCTLSEnabled c) (cosmos_AddressPrefix c)
    (cosmos_SignerGasBalance c) (cosmos_GasPrice c) (cosmos_GasDenom c) (cosmos_MinFillSize c)
    (cosmos_MaxFillSize c).
Definition set_evm_endpoints (rpc ws auth : string) (c : EVMConfig) : EVMConfig :=
  mkEVMConfig (evm_MinGasTipCap c) rpc ws auth (evm_SignerGasBalance c) (evm_SolverAddress c).

(** The logged configuration does not depend on the endpoints or the credentials: they
    may be replaced in every chain, each by its own, without a change of the log; and
    redaction changes nothing else, so redacting the log again changes nothing. *)
Theorem redactConfig_hides cfg (rpc grpc ws auth : string → string) :
  redactConfig (mkConfig (map_imap (λ id c, Some (with_clients
      (set_cosmos_endpoints (rpc id) (grpc id) (auth id) <$> Cosmos c)
      (set_evm_endpoints (rpc id) (ws id) (auth id) <$> EVM c) c)) (Chains cfg))
    (FundRebalancer cfg)) = redactConfig cfg ∧
  redactConfig (redactConfig cfg) = redactConfig cfg.
Proof.
  unfold redactConfig. cbn [Chains FundRebalancer]. split; f_equal; apply map_eq; intros id.
  - rewrite !lookup_fmap, map_lookup_imap. destruct (Chains cfg !! id) as [c|]; simpl; [|done].
    f_equal. unfold redact_chain, with_clients. simpl. by destruct (Cosmos c), (EVM c).
  - rewrite !lookup_fmap. destruct (Chains cfg !! id) as [c|]; simpl; [|done].
    f_equal. unfold redact_chain, with_clients. simpl. by destruct (Cosmos c), (EVM c).
Qed.

(** ** What validation guarantees *)

Lemma required_None b f : required b f = None ↔ b = true.
Proof. destruct b; simpl; naive_solver. Qed.

Lemma first_error_None l : first_error l = None ↔ Forall (.= None) l.
Proof.
  induction l as [|[e|] l IH]; simpl.
  - split; [constructor|done].
  - split; [done|]. by inversion 1.
  - rewrite IH. split; [by constructor|by inversion 1].
Qed.

(** A chain that passed validation: the part its type selects is present, the
    fill sizes are set and ordered, the profit margin does not exceed the fee,
    and the relay timeout is set. *)
Record valid_chain (c : ChainConfig) : Prop := {
  vc_id : ChainID c ≠ "";
  vc_margin : MinProfitMarginBPS c ≤ MinFeeBps c;
  vc_timeout : is_Some (ProfitableRelayTimeout (Relayer c));
  vc_type : (Type_ c = ChainType_COSMOS ∧
               ∃ cc mn mx, Cosmos c = Some cc ∧ cosmos_MinFillSize cc = Some mn ∧
                           cosmos_MaxFillSize cc = Some mx ∧ mn ≤ mx)
            ∨ (Type_ c = ChainType_EVM ∧ is_Some (EVM c) ∧ MinFeeBps c ≠ 0)
}.

Lemma validateCosmosConfig_fill_sizes cc rc :
  validateCosmosConfig cc rc = None →
  ∃ mn mx, cosmos_MinFillSize cc = Some mn ∧ cosmos_MaxFillSize cc = Some mx ∧ mn ≤ mx.
Proof.
  unfold validateCosmosConfig. rewrite first_error_None.
  rewrite !Forall_cons, !required_None. intros (_&_&_&_&_&Hmn&Hmx&Hle&_).
  destruct (cosmos_MinFillSize cc) as [mn|], (cosmos_MaxFillSize cc) as [mx|]; try done.
  exists mn, mx. destruct (Z.ltb_spec mx mn); done.
Qed.

Lemma nonempty_true s : nonempty s = true ↔ s ≠ "".
Proof. unfold nonempty. destruct (String.eqb_spec s ""); naive_solver. Qed.

Lemma negb_eqb_0 z : negb (z =? 0) = true ↔ z ≠ 0.
Proof. destruct (Z.eqb_spec z 0); naive_solver. Qed.

Lemma validated_chain (c : ChainConfig) :
  ValidateChainConfig c = None → valid_chain c.
Proof.
  unfold ValidateChainConfig. rewrite first_error_None.
  rewrite !Forall_cons, !required_None.
  intros (_&Hid&_&_&_&_&_&_&_&_&_&_&Hm&Ht&_&_&Hty&_).
  split.
  - by apply nonempty_true.
  - destruct (Z.ltb_spec (MinFeeBps c) (MinProfitMarginBPS c)); done.
  - destruct (ProfitableRelayTimeout (Relayer c)); done.
  - destruct (String.eqb_spec (Type_ c) ChainType_COSMOS) as [Hc|_].
    + left. split; [done|]. destruct (Cosmos c) as [cc|]; [|done].
      apply validateCosmosConfig_fill_sizes in Hty as (mn&mx&?). eauto.
    + destruct (String.eqb_spec (Type_ c) ChainType_EVM) as [He|_]; [|done].
      right. rewrite first_error_None, !Forall_cons, !required_None in Hty.
      destruct Hty as (_&Hfee&_&Hevm&_). split; [done|].
      split; [destruct (EVM c); done|by apply negb_eqb_0].
Qed.

(** A chain configuration that [ValidateChainConfig] accepts has the part its
    type selects, ordered fill sizes, a margin within the fee and a relay
    timeout. *)
Theorem ValidateChainConfig_sound (c : ChainConfig) :
  ValidateChainConfig c = None → valid_chain c.
Proof. apply validated_chain. Qed.

(** ** The index *)

(** Every binding of the chain map is filed under the chain's own id. *)
Definition keys_match (m : gmap string ChainConfig) : Prop :=
  map_Forall (λ k c, ChainID c = k) m.

Lemma createIndexes_snoc entries k c :
  createIndexes (entries ++ [(k, c)]) = <[ChainID c := c]> (createIndexes entries).
Proof. unfold createIndexes. by rewrite foldl_app. Qed.

Lemma createIndexes_list_to_map entries :
  NoDup entries.*1 → Forall (λ kc, ChainID kc.2 = kc.1) entries →
  createIndexes entries = list_to_map entries.
Proof.
  induction entries as [|[k c] entries IH] using rev_ind; intros Hnd Hf; [done|].
  rewrite (list_to_map_proper (M := gmap string) (entries ++ [(k, c)]) ((k, c) :: entries))
    by (done || by rewrite <-Permutation_cons_append).
  rewrite fmap_app in Hnd. apply NoDup_app in Hnd as (Hnd & _ & _).
  apply Forall_app in Hf as [Hf Hk]. inversion_clear Hk as [|?? Hk' _]. simpl in Hk'.
  rewrite createIndexes_snoc, IH, Hk' by done. done.
Qed.

(** Whatever order the map is ranged in, the index of a configuration whose
    keys match the chain ids is the map itself. *)
Theorem NewConfigReader_index (cfg : Config) (entries : list (string * ChainConfig)) :
  entries ≡ₚ map_to_list (Chains cfg) → keys_match (Chains cfg) →
  chainIDIndex (NewConfigReader cfg entries) = Chains cfg.
Proof.
  intros Hp Hk. apply map_eq. intros k. simpl.
  assert (NoDup entries.*1) as Hnd.
  { rewrite Hp. apply NoDup_fst_map_to_list. }
  rewrite createIndexes_list_to_map; [|done|].
  - rewrite (list_to_map_proper entries (map_to_list (Chains cfg))) by done.
    by rewrite list_to_map_to_list.
  - rewrite Hp. apply Forall_forall. intros [k' c] Hin%elem_of_map_to_list.
    by apply (Hk k' c).
Qed.

Definition no_panic {A} (r : result A) : Prop := match r with Panic _ => False | _ => True end.

(** On validated chains the reader's getters never dereference a nil pointer. *)
Theorem config_getters_no_panic (r : configReader) lookupEnv (chainID : string) :
  map_Forall (λ _ c, ValidateChainConfig c = None) (chainIDIndex r) →
  no_panic (GetRPCEndpoint r chainID) ∧
  no_panic (GetBasicAuth lookupEnv r chainID) ∧
  no_panic (GetGasAlertThresholds r chainID).
Proof.
  intros Hv. unfold GetRPCEndpoint, GetBasicAuth, GetGasAlertThresholds, GetChainConfig.
  destruct (chainIDIndex r !! chainID) as [c|] eqn:E; [|done].
  apply Hv, validated_chain, vc_type in E as
    [[-> (cc&?&?&->&_)]|[-> [[ec ->] _]]]; simpl; unfold parse_thresholds;
    repeat split; repeat case_match; done.
Qed.

(** ** A sample configuration: one source chain, one destination chain *)

Definition sample_relayer : RelayerConfig := {|
  ValidatorAnnounceContractAddress := "0xva";
  MerkleHookContractAddress := "0xmh";
  MailboxAddress := "0xmb";
  ProfitableRelayTimeout := Some (5 * Minute);
  RelayCostCapUUSDC := "3000000" |}.

Definition sample_gas : SignerGasBalanceConfig :=
  {| WarningThresholdWei := "1000"; CriticalThresholdWei := "100" |}.

Definition sample_osmosis : ChainConfig := {|
  ChainName := "osmosis"; ChainID := "osmosis-1"; Type_ := ChainType_COSMOS;
  Environment := "mainnet";
  Cosmos := Some {|
    cosmos_RPC := "rpc"; cosmos_RPCBasicAuthVar := ""; cosmos_GRPC := "grpc";
    cosmos_GRPCTLSEnabled := true; cosmos_AddressPrefix := "osmo";
    cosmos_SignerGasBalance := sample_gas; cosmos_GasPrice := BF 1 (-5);
    cosmos_GasDenom := "uosmo"; cosmos_MinFillSize := Some 1000000;
    cosmos_MaxFillSize := Some 5000000000 |};
  EVM := None; GasTokenSymbol := "OSMO"; GasTokenDecimals := 6;
  GasTokenCoingeckoID := "osmosis"; NumBlockConfirmationsBeforeFill := 1;
  HyperlaneDomain := "875"; QuickStartNumBlocksBack := 1000;
  FastTransferContractAddress := "osmo1gateway"; SolverAddress := "osmo1solver";
  USDCDenom := "ibc/usdc"; Relayer := sample_relayer; MinFeeBps := 0;
  BatchUUSDCSettleUpThreshold := ""; MinProfitMarginBPS := 0;
  SettlementRebatchTimeout := 0 |}.

Definition sample_arbitrum : ChainConfig := {|
  ChainName := "arbitrum"; ChainID := "42161"; Type_ := ChainType_EVM;
  Environment := "mainnet"; Cosmos := None;
  EVM := Some {|
    evm_MinGasTipCap := None; evm_RPC := "rpc"; evm_WSEndpoint := "wss://rpc";
    evm_RPCBasicAuthVar := ""; evm_SignerGasBalance := sample_gas;
    evm_SolverAddress := "0xsolver" |};
  GasTokenSymbol := "ETH"; GasTokenDecimals := 18; GasTokenCoingeckoID := "ethereum";
  NumBlockConfirmationsBeforeFill := 20; HyperlaneDomain := "42161";
  QuickStartNumBlocksBack := 1000; FastTransferContractAddress := "0xgateway";
  SolverAddress := "0xsolver"; USDCDenom := "0xusdc"; Relayer := sample_relayer;
  MinFeeBps := 20; BatchUUSDCSettleUpThreshold := "5000000000";
  MinProfitMarginBPS := 15; SettlementRebatchTimeout := Hour |}.

Definition sample_rebalancer : gmap string FundRebalancerConfig :=
  {[ "osmosis-1" := {| TargetAmount := "1000"; MinAllowedAmount := "500";
                       MaxRebalancingGasCostUUSDC := ""; ProfitabilityTimeout := Hour;
                       TransferCostCapUUSDC := "200" |};
     "42161" := {| TargetAmount := "300"; MinAllowedAmount := "100";
                   MaxRebalancingGasCostUUSDC := "50"; ProfitabilityTimeout := Hour;
                   TransferCostCapUUSDC := "200" |} ]}.

Definition sample_config : Config := {|
  Chains := {[ "osmosis-1" := sample_osmosis; "42161" := sample_arbitrum ]};
  FundRebalancer := Some sample_rebalancer |}.

Definition sample_reader : configReader :=
  NewConfigReader sample_config (map_to_list (Chains sample_config)).

Lemma ValidateChainConfig_sound_witness : valid_chain sample_osmosis.
Proof. apply ValidateChainConfig_sound. vm_compute. reflexivity. Defined.

Lemma NewConfigReader_index_witness :
  chainIDIndex sample_reader = Chains sample_config.
Proof.
  apply NewConfigReader_index; [reflexivity|].
  apply map_Forall_to_list. vm_compute. repeat constructor.
Defined.

Lemma config_getters_no_panic_witness :
  no_panic (GetRPCEndpoint sample_reader "osmosis-1").
Proof.
  apply (config_getters_no_panic sample_reader (λ _, None) "osmosis-1").
  apply map_Forall_to_list. vm_compute. repeat constructor.
Defined.
