(* ===== verification/Database.v ===== *)
(** * Database: db/types.go, db/gen/db and the schema of db/migrations

    The six SQLite tables as lists of rows in [id] order, and every query of
    [db.Queries] as a function on them.  A nullable column is an [option].  The
    queries take the statement's time (for CURRENT_TIMESTAMP defaults) and a gap
    for the AUTOINCREMENT counter (SQLite promises increasing, not consecutive,
    ids).  UNIQUE and CHECK constraints of the migrations are written out: a
    violated constraint is an error, ON CONFLICT DO NOTHING returns no row, and a
    [:one] query with no row returns [sql.ErrNoRows]. *)
From Stdlib Require Import Strings.Byte.
From S2P Require Import Prelude GoLib.

(** ** Status and type constants (db/types.go) *)

Definition OrderStatusPending : string := "PENDING".
Definition OrderStatusFilled : string := "FILLED".
Definition OrderStatusExpiredPendingRefund : string := "EXPIRED_PENDING_REFUND".
Definition OrderStatusRefunded : string := "REFUNDED".
Definition OrderStatusAbandoned : string := "ABANDONED".

Definition SettlementStatusPending : string := "PENDING".
Definition SettlementStatusSettlementInitiated : string := "SETTLEMENT_INITIATED".
Definition SettlementStatusComplete : string := "COMPLETE".
Definition SettlementStatusFailed : string := "FAILED".

Definition TxStatusPending : string := "PENDING".
Definition TxStatusSuccess : string := "SUCCESS".
Definition TxStatusFailed : string := "FAILED".
Definition TxStatusAbandoned : string := "ABANDONED".

Definition TxTypeOrderFill : string := "ORDER_FILL".
Definition TxTypeSettlement : string := "SETTLEMENT".
Definition TxTypeHyperlaneMessageDelivery : string := "HYPERLANE_MESSAGE_DELIVERY".
Definition TxTypeInitiateTimeout : string := "INITIATE_TIMEOUT".
Definition TxTypeERC20Approval : string := "ERC20_APPROVAL".
Definition TxTypeFundRebalnance : string := "FUND_REBALANCE".

Definition RebalanceTransferStatusAbandoned : string := "ABANDONED".
Definition RebalanceTransferStatusPending : string := "PENDING".
Definition RebalanceTransferStatusSuccess : string := "SUCCESS".
Definition RebalanceTransferStatusFailed : string := "FAILED".

Definition TransferStatusPending : string := "PENDING".
Definition TransferStatusSuccess : string := "SUCCESS".
Definition TransferStatusAbandoned : string := "ABANDONED".
Definition TransferStatusCancelled : string := "CANCELLED".

(** ** Rows (db/gen/db/models.go) *)

Record HyperlaneTransfer := mkHyperlaneTransfer {
  ht_ID : Z;
  ht_CreatedAt : Time;
  ht_UpdatedAt : Time;
  ht_SourceChainID : string;
  ht_DestinationChainID : string;
  ht_MessageID : string;
  ht_MessageSentTx : string;
  ht_TransferStatus : string;
  ht_TransferStatusMessage : option string;
  ht_MaxTxFeeUusdc : option string
}.

Record Order := mkOrder {
  o_ID : Z;
  o_CreatedAt : Time;
  o_UpdatedAt : Time;
  o_SourceChainID : string;
  o_DestinationChainID : string;
  o_SourceChainGatewayContractAddress : string;
  o_Sender : list byte;
  o_Recipient : list byte;
  o_AmountIn : string;
  o_AmountOut : string;
  o_Nonce : Z;
  o_OrderID : string;
  o_TimeoutTimestamp : Time;
  o_OrderCreationTx : string;
  o_OrderCreationTxBlockHeight : Z;
  o_Data : option string;
  o_Filler : option string;
  o_FillTx : option string;
  o_RefundTx : option string;
  o_OrderStatus : string;
  o_OrderStatusMessage : option string
}.

Record OrderSettlement := mkOrderSettlement {
  os_ID : Z;
  os_CreatedAt : Time;
  os_UpdatedAt : Time;
  os_SourceChainID : string;
  os_DestinationChainID : string;
  os_SourceChainGatewayContractAddress : string;
  os_Amount : string;
  os_Profit : string;
  os_OrderID : string;
  os_InitiateSettlementTx : option string;
  os_CompleteSettlementTx : option string;
  os_SettlementStatus : string;
  os_SettlementStatusMessage : option string;
  os_HyperlaneTransferID : option Z;
  os_InitiateSettlementTxTime : option Time
}.

Record RebalanceTransfer := mkRebalanceTransfer {
  rt_ID : Z;
  rt_CreatedAt : Time;
  rt_UpdatedAt : Time;
  rt_TxHash : string;
  rt_SourceChainID : string;
  rt_DestinationChainID : string;
  rt_Amount : string;
  rt_Status : string
}.

Record SubmittedTx := mkSubmittedTx {
  st_ID : Z;
  st_CreatedAt : Time;
  st_UpdatedAt : Time;
  st_OrderID : option Z;
  st_OrderSettlementID : option Z;
  st_HyperlaneTransferID : option Z;
  st_ChainID : string;
  st_TxHash : string;
  st_RawTx : string;
  st_TxType : string;
  st_TxStatus : string;
  st_TxStatusMessage : option string;
  st_TxCostUusdc : option string;
  st_RebalanceTransferID : option Z
}.

Record TransferMonitorMetadatum := mkTransferMonitorMetadatum {
  tm_ID : Z;
  tm_CreatedAt : Time;
  tm_UpdatedAt : Time;
  tm_ChainID : string;
  tm_HeightLastSeen : Z
}.

Record Database := mkDatabase {
  orders : list Order;
  order_settlements : list OrderSettlement;
  submitted_txs : list SubmittedTx;
  hyperlane_transfers : list HyperlaneTransfer;
  rebalance_transfers : list RebalanceTransfer;
  transfer_monitor_metadata : list TransferMonitorMetadatum
}.

Definition empty_db : Database := mkDatabase [] [] [] [] [] [].

Definition with_orders (f : list Order → list Order) (d : Database) : Database :=
  mkDatabase (f (orders d)) (order_settlements d) (submitted_txs d) (hyperlane_transfers d)
    (rebalance_transfers d) (transfer_monitor_metadata d).
Definition with_order_settlements f (d : Database) : Database :=
  mkDatabase (orders d) (f (order_settlements d)) (submitted_txs d) (hyperlane_transfers d)
    (rebalance_transfers d) (transfer_monitor_metadata d).
Definition with_submitted_txs f (d : Database) : Database :=
  mkDatabase (orders d) (order_settlements d) (f (submitted_txs d)) (hyperlane_transfers d)
    (rebalance_transfers d) (transfer_monitor_metadata d).
Definition with_hyperlane_transfers f (d : Database) : Database :=
  mkDatabase (orders d) (order_settlements d) (submitted_txs d) (f (hyperlane_transfers d))
    (rebalance_transfers d) (transfer_monitor_metadata d).
Definition with_rebalance_transfers f (d : Database) : Database :=
  mkDatabase (orders d) (order_settlements d) (submitted_txs d) (hyperlane_transfers d)
    (f (rebalance_transfers d)) (transfer_monitor_metadata d).
Definition with_transfer_monitor_metadata f (d : Database) : Database :=
  mkDatabase (orders d) (order_settlements d) (submitted_txs d) (hyperlane_transfers d)
    (rebalance_transfers d) (f (transfer_monitor_metadata d)).

(** ** Statements *)

(** The context a statement runs in: the time, and the AUTOINCREMENT gap. *)
Record stmt := mkStmt { stmt_now : Time; stmt_gap : nat }.

Definition stmt_ts (c : stmt) : Time := current_timestamp (stmt_now c).

(** A query: an outcome and the database after it. *)
Definition query (A : Type) : Type := stmt → Database → result A * Database.

Definition max_id {R} (id : R → Z) (t : list R) : Z :=
  foldr (λ r m, Z.max (id r) m) 0 t.

Definition next_id {R} (id : R → Z) (c : stmt) (t : list R) : Z :=
  max_id id t + 1 + Z.of_nat (stmt_gap c).

(** UPDATE ... WHERE p: the rows after, and the rows it returns. *)
Definition update_rows {R} (p : R → bool) (f : R → R) (t : list R) : list R :=
  (λ r, if p r then f r else r) <$> t.
Definition returned_rows {R} (p : R → bool) (f : R → R) (t : list R) : list R :=
  f <$> List.filter p t.

(** A [:one] query: the first row, or [sql.ErrNoRows]. *)
Definition one_row {R} (rows : list R) : result R :=
  match rows with
  | r :: _ => Ok r
  | [] => Err (ErrSentinel SqlErrNoRows)
  end.

(** INSERT ... ON CONFLICT DO NOTHING RETURNING *: appends the row unless a row
    with its UNIQUE key exists. *)
Definition insert_or_nothing {R} (same_key : R → R → bool) (r : R) (t : list R) :
    result R * list R :=
  if existsb (same_key r) t then (Err (ErrSentinel SqlErrNoRows), t) else (Ok r, t ++ [r]).

(** [column = ?] on a nullable column: NULL equals nothing. *)
Definition null_eqb {A} `{EqDecision A} (x y : option A) : bool :=
  match x, y with
  | Some a, Some b => bool_decide (a = b)
  | _, _ => false
  end.

(** ** orders *)

Definition order_key (o : Order) : string * string * string :=
  (o_SourceChainID o, o_SourceChainGatewayContractAddress o, o_OrderID o).

Definition same_order_key (a b : Order) : bool := bool_decide (order_key a = order_key b).

(** WHERE source_chain_id = ? AND order_id = ? AND gateway = ? *)
Definition order_at (SourceChainID OrderID Gateway : string) (o : Order) : bool :=
  bool_decide (order_key o = (SourceChainID, Gateway, OrderID)).

Record InsertOrderParams := mkInsertOrderParams {
  iop_SourceChainID : string;
  iop_DestinationChainID : string;
  iop_SourceChainGatewayContractAddress : string;
  iop_Sender : list byte;
  iop_Recipient : list byte;
  iop_AmountIn : string;
  iop_AmountOut : string;
  iop_Nonce : Z;
  iop_Data : option string;
  iop_OrderCreationTx : string;
  iop_OrderCreationTxBlockHeight : Z;
  iop_OrderID : string;
  iop_OrderStatus : string;
  iop_TimeoutTimestamp : Time
}.

Definition order_row (c : stmt) (id : Z) (arg : InsertOrderParams) : Order :=
  mkOrder id (stmt_ts c) (stmt_ts c)
    (iop_SourceChainID arg) (iop_DestinationChainID arg)
    (iop_SourceChainGatewayContractAddress arg) (iop_Sender arg) (iop_Recipient arg)
    (iop_AmountIn arg) (iop_AmountOut arg) (iop_Nonce arg) (iop_OrderID arg)
    (iop_TimeoutTimestamp arg) (iop_OrderCreationTx arg) (iop_OrderCreationTxBlockHeight arg)
    (iop_Data arg) None None None (iop_OrderStatus arg) None.

Definition InsertOrder (arg : InsertOrderParams) : query Order := λ c d,
  let '(r, t) := insert_or_nothing same_order_key
                   (order_row c (next_id o_ID c (orders d)) arg) (orders d) in
  (r, with_orders (λ _, t) d).

Definition GetAllOrdersWithOrderStatus (orderStatus : string) : query (list Order) := λ c d,
  (Ok (List.filter (λ o, bool_decide (o_OrderStatus o = orderStatus)) (orders d)), d).

Definition GetOrderByOrderID (orderID : string) : query Order := λ c d,
  (one_row (List.filter (λ o, bool_decide (o_OrderID o = orderID)) (orders d)), d).

(** The fields the UPDATE statements of the table set. *)
Definition order_set (now : Time) (filler fillTx refundTx : option string) (status : string)
    (msg : option string) (o : Order) : Order :=
  mkOrder (o_ID o) (o_CreatedAt o) now (o_SourceChainID o) (o_DestinationChainID o)
    (o_SourceChainGatewayContractAddress o) (o_Sender o) (o_Recipient o) (o_AmountIn o)
    (o_AmountOut o) (o_Nonce o) (o_OrderID o) (o_TimeoutTimestamp o) (o_OrderCreationTx o)
    (o_OrderCreationTxBlockHeight o) (o_Data o) filler fillTx refundTx status msg.

Definition update_order (SourceChainID OrderID Gateway : string) (f : Order → Order) :
    Database → result Order * Database := λ d,
  let p := order_at SourceChainID OrderID Gateway in
  (one_row (returned_rows p f (orders d)), with_orders (update_rows p f) d).

Definition SetFillTx (FillTx Filler : option string) (OrderStatus : string)
    (SourceChainID OrderID Gateway : string) : query Order := λ c,
  update_order SourceChainID OrderID Gateway (λ o,
    order_set (stmt_ts c) Filler FillTx (o_RefundTx o) OrderStatus (o_OrderStatusMessage o) o).

Definition SetOrderStatus (OrderStatus : string) (OrderStatusMessage : option string)
    (SourceChainID OrderID Gateway : string) : query Order := λ c,
  update_order SourceChainID OrderID Gateway (λ o,
    order_set (stmt_ts c) (o_Filler o) (o_FillTx o) (o_RefundTx o) OrderStatus
      OrderStatusMessage o).

Definition SetRefundTx (RefundTx : option string) (OrderStatus : string)
    (SourceChainID OrderID Gateway : string) : query Order := λ c,
  update_order SourceChainID OrderID Gateway (λ o,
    order_set (stmt_ts c) (o_Filler o) (o_FillTx o) RefundTx OrderStatus
      (o_OrderStatusMessage o) o).

(** ** order_settlements *)

Definition settlement_key (s : OrderSettlement) : string * string * string :=
  (os_SourceChainID s, os_SourceChainGatewayContractAddress s, os_OrderID s).

Definition same_settlement_key (a b : OrderSettlement) : bool :=
  bool_decide (settlement_key a = settlement_key b).

Definition settlement_at (SourceChainID OrderID Gateway : string) (s : OrderSettlement) : bool :=
  bool_decide (settlement_key s = (SourceChainID, Gateway, OrderID)).

Definition InsertOrderSettlement
    (SourceChainID DestinationChainID Gateway Amount Profit OrderID SettlementStatus : string) :
    query OrderSettlement := λ c d,
  let '(r, t) := insert_or_nothing same_settlement_key
      (mkOrderSettlement (next_id os_ID c (order_settlements d)) (stmt_ts c) (stmt_ts c)
         SourceChainID DestinationChainID Gateway Amount Profit OrderID None None
         SettlementStatus None None None)
      (order_settlements d) in
  (r, with_order_settlements (λ _, t) d).

Definition GetAllOrderSettlementsWithSettlementStatus (settlementStatus : string) :
    query (list OrderSettlement) := λ c d,
  (Ok (List.filter (λ s, bool_decide (os_SettlementStatus s = settlementStatus))
         (order_settlements d)), d).

Definition GetOrderSettlement (SourceChainID Gateway OrderID : string) :
    query OrderSettlement := λ c d,
  (one_row (List.filter (settlement_at SourceChainID OrderID Gateway) (order_settlements d)), d).

(** The fields the UPDATE statements of the table set. *)
Definition settlement_set (now : Time) (initiateTx completeTx : option string) (status : string)
    (msg : option string) (transferID : option Z) (initiateTime : option Time)
    (s : OrderSettlement) : OrderSettlement :=
  mkOrderSettlement (os_ID s) (os_CreatedAt s) now (os_SourceChainID s) (os_DestinationChainID s)
    (os_SourceChainGatewayContractAddress s) (os_Amount s) (os_Profit s) (os_OrderID s)
    initiateTx completeTx status msg transferID initiateTime.

Definition update_settlement (SourceChainID OrderID Gateway : string)
    (f : OrderSettlement → OrderSettlement) : Database → result OrderSettlement * Database := λ d,
  let p := settlement_at SourceChainID OrderID Gateway in
  (one_row (returned_rows p f (order_settlements d)), with_order_settlements (update_rows p f) d).

Definition SetInitiateSettlementTx (InitiateSettlementTx : option string)
    (SourceChainID OrderID Gateway : string) : query OrderSettlement := λ c,
  update_settlement SourceChainID OrderID Gateway (λ s,
    settlement_set (stmt_ts c) InitiateSettlementTx (os_CompleteSettlementTx s)
      (os_SettlementStatus s) (os_SettlementStatusMessage s) (os_HyperlaneTransferID s)
      (Some (stmt_ts c)) s).

Definition SetCompleteSettlementTx (CompleteSettlementTx : option string)
    (SourceChainID OrderID Gateway : string) : query OrderSettlement := λ c,
  update_settlement SourceChainID OrderID Gateway (λ s,
    settlement_set (stmt_ts c) (os_InitiateSettlementTx s) CompleteSettlementTx
      (os_SettlementStatus s) (os_SettlementStatusMessage s) (os_HyperlaneTransferID s)
      (os_InitiateSettlementTxTime s) s).

Definition SetSettlementStatus (SettlementStatus : string)
    (SettlementStatusMessage : option string) (SourceChainID OrderID Gateway : string) :
    query OrderSettlement := λ c,
  update_settlement SourceChainID OrderID Gateway (λ s,
    settlement_set (stmt_ts c) (os_InitiateSettlementTx s) (os_CompleteSettlementTx s)
      SettlementStatus SettlementStatusMessage (os_HyperlaneTransferID s)
      (os_InitiateSettlementTxTime s) s).

Definition SetHyperlaneTransferID (HyperlaneTransferID : option Z)
    (SourceChainID OrderID Gateway : string) : query OrderSettlement := λ c,
  update_settlement SourceChainID OrderID Gateway (λ s,
    settlement_set (stmt_ts c) (os_InitiateSettlementTx s) (os_CompleteSettlementTx s)
      (os_SettlementStatus s) (os_SettlementStatusMessage s) HyperlaneTransferID
      (os_InitiateSettlementTxTime s) s).

Definition initiated_by (DestinationChainID : string) (InitiateSettlementTx : option string)
    (s : OrderSettlement) : bool :=
  bool_decide (os_DestinationChainID s = DestinationChainID)
  && null_eqb (os_InitiateSettlementTx s) InitiateSettlementTx.

Definition ClearInitiateSettlement (SettlementStatus DestinationChainID : string)
    (InitiateSettlementTx : option string) : query (list OrderSettlement) := λ c d,
  let p := initiated_by DestinationChainID InitiateSettlementTx in
  let f s := settlement_set (stmt_ts c) None (os_CompleteSettlementTx s) SettlementStatus
               (os_SettlementStatusMessage s) None None s in
  (Ok (returned_rows p f (order_settlements d)), with_order_settlements (update_rows p f) d).

(** ** submitted_txs *)

(** The two partial UNIQUE indices: rows of a settlement are unique per
    (settlement, chain, hash), all others per (chain, hash). *)
Definition same_submitted_key (a b : SubmittedTx) : bool :=
  match st_OrderSettlementID a, st_OrderSettlementID b with
  | Some i, Some j =>
      bool_decide (i = j) && bool_decide (st_ChainID a = st_ChainID b)
      && bool_decide (st_TxHash a = st_TxHash b)
  | None, None =>
      bool_decide (st_ChainID a = st_ChainID b) && bool_decide (st_TxHash a = st_TxHash b)
  | _, _ => false
  end.

Record InsertSubmittedTxParams := mkInsertSubmittedTxParams {
  istp_OrderID : option Z;
  istp_OrderSettlementID : option Z;
  istp_HyperlaneTransferID : option Z;
  istp_RebalanceTransferID : option Z;
  istp_ChainID : string;
  istp_TxHash : string;
  istp_RawTx : string;
  istp_TxType : string;
  istp_TxStatus : string
}.

Definition submitted_row (c : stmt) (id : Z) (arg : InsertSubmittedTxParams) : SubmittedTx :=
  mkSubmittedTx id (stmt_ts c) (stmt_ts c)
    (istp_OrderID arg) (istp_OrderSettlementID arg) (istp_HyperlaneTransferID arg)
    (istp_ChainID arg) (istp_TxHash arg) (istp_RawTx arg) (istp_TxType arg) (istp_TxStatus arg)
    None None (istp_RebalanceTransferID arg).

(** No ON CONFLICT clause: a duplicate is an error. *)
Definition InsertSubmittedTx (arg : InsertSubmittedTxParams) : query SubmittedTx := λ c d,
  let r := submitted_row c (next_id st_ID c (submitted_txs d)) arg in
  if existsb (same_submitted_key r) (submitted_txs d)
  then (Err (ErrNew "UNIQUE constraint failed: submitted_txs"), d)
  else (Ok r, with_submitted_txs (λ t, t ++ [r]) d).

Definition GetAllSubmittedTxs : query (list SubmittedTx) := λ c d, (Ok (submitted_txs d), d).

Definition GetSubmittedTxsByHyperlaneTransferId (hyperlaneTransferID : option Z) :
    query (list SubmittedTx) := λ c d,
  (Ok (List.filter (λ t, null_eqb (st_HyperlaneTransferID t) hyperlaneTransferID)
         (submitted_txs d)), d).

Definition GetSubmittedTxsByOrderIdAndType (OrderID : option Z) (TxType : string) :
    query (list SubmittedTx) := λ c d,
  (Ok (List.filter (λ t, null_eqb (st_OrderID t) OrderID && bool_decide (st_TxType t = TxType))
         (submitted_txs d)), d).

Definition GetSubmittedTxsWithStatus (txStatus : string) : query (list SubmittedTx) := λ c d,
  (Ok (List.filter (λ t, bool_decide (st_TxStatus t = txStatus)) (submitted_txs d)), d).

(** INNER JOIN orders ON submitted_txs.order_id = orders.id *)
Definition GetSubmittedTxsByOrderStatusAndType (OrderStatus TxType : string) :
    query (list SubmittedTx) := λ c d,
  (Ok (t ← submitted_txs d;
       _ ← List.filter (λ o, null_eqb (st_OrderID t) (Some (o_ID o))
                             && bool_decide (o_OrderStatus o = OrderStatus)
                             && bool_decide (st_TxType t = TxType)) (orders d);
       [t]), d).

(** The fields the UPDATE statement of the table sets. *)
Definition submitted_set (now : Time) (status : string) (msg cost : option string)
    (t : SubmittedTx) : SubmittedTx :=
  mkSubmittedTx (st_ID t) (st_CreatedAt t) now (st_OrderID t) (st_OrderSettlementID t)
    (st_HyperlaneTransferID t) (st_ChainID t) (st_TxHash t) (st_RawTx t) (st_TxType t) status msg
    cost (st_RebalanceTransferID t).

Definition SetSubmittedTxStatus (TxStatus : string) (TxStatusMessage TxCostUusdc : option string)
    (TxHash ChainID : string) : query SubmittedTx := λ c d,
  let p t := bool_decide (st_TxHash t = TxHash) && bool_decide (st_ChainID t = ChainID) in
  let f := submitted_set (stmt_ts c) TxStatus TxStatusMessage TxCostUusdc in
  (one_row (returned_rows p f (submitted_txs d)), with_submitted_txs (update_rows p f) d).

(** ** hyperlane_transfers *)

Definition transfer_key (h : HyperlaneTransfer) : string * string * string :=
  (ht_SourceChainID h, ht_DestinationChainID h, ht_MessageID h).

Definition same_transfer_key (a b : HyperlaneTransfer) : bool :=
  bool_decide (transfer_key a = transfer_key b).

Definition transfer_at (SourceChainID DestinationChainID MessageID : string)
    (h : HyperlaneTransfer) : bool :=
  bool_decide (transfer_key h = (SourceChainID, DestinationChainID, MessageID)).

Definition InsertHyperlaneTransfer
    (SourceChainID DestinationChainID MessageID MessageSentTx TransferStatus : string)
    (MaxTxFeeUusdc : option string) : query HyperlaneTransfer := λ c d,
  let '(r, t) := insert_or_nothing same_transfer_key
      (mkHyperlaneTransfer (next_id ht_ID c (hyperlane_transfers d)) (stmt_ts c) (stmt_ts c)
         SourceChainID DestinationChainID MessageID MessageSentTx TransferStatus None
         MaxTxFeeUusdc)
      (hyperlane_transfers d) in
  (r, with_hyperlane_transfers (λ _, t) d).

Definition GetAllHyperlaneTransfersWithTransferStatus (transferStatus : string) :
    query (list HyperlaneTransfer) := λ c d,
  (Ok (List.filter (λ h, bool_decide (ht_TransferStatus h = transferStatus))
         (hyperlane_transfers d)), d).

Definition sent_in (MessageSentTx SourceChainID : string) (h : HyperlaneTransfer) : bool :=
  bool_decide (ht_MessageSentTx h = MessageSentTx)
  && bool_decide (ht_SourceChainID h = SourceChainID).

Definition GetHyperlaneTransferByMessageSentTx (MessageSentTx SourceChainID : string) :
    query HyperlaneTransfer := λ c d,
  (one_row (List.filter (sent_in MessageSentTx SourceChainID) (hyperlane_transfers d)), d).

Definition set_message_status (now : Time) (TransferStatus : string)
    (TransferStatusMessage : option string) (h : HyperlaneTransfer) : HyperlaneTransfer :=
  mkHyperlaneTransfer (ht_ID h) (ht_CreatedAt h) now (ht_SourceChainID h)
    (ht_DestinationChainID h) (ht_MessageID h) (ht_MessageSentTx h) TransferStatus
    TransferStatusMessage (ht_MaxTxFeeUusdc h).

Definition SetMessageStatus (TransferStatus : string) (TransferStatusMessage : option string)
    (SourceChainID DestinationChainID MessageID : string) : query HyperlaneTransfer := λ c d,
  let p := transfer_at SourceChainID DestinationChainID MessageID in
  let f := set_message_status (stmt_ts c) TransferStatus TransferStatusMessage in
  (one_row (returned_rows p f (hyperlane_transfers d)),
   with_hyperlane_transfers (update_rows p f) d).

(** ** rebalance_transfers *)

(** CHECK (status IN ('PENDING', 'SUCCESS', 'FAILED', 'ABANDONED')) *)
Definition rebalance_status_ok (s : string) : bool :=
  existsb (λ x, bool_decide (s = x))
    [RebalanceTransferStatusPending; RebalanceTransferStatusSuccess;
     RebalanceTransferStatusFailed; RebalanceTransferStatusAbandoned].

Definition InsertRebalanceTransfer (TxHash SourceChainID DestinationChainID Amount : string) :
    query Z := λ c d,
  let id := next_id rt_ID c (rebalance_transfers d) in
  let r := mkRebalanceTransfer id (stmt_ts c) (stmt_ts c) TxHash SourceChainID
             DestinationChainID Amount RebalanceTransferStatusPending in
  (Ok id, with_rebalance_transfers (λ t, t ++ [r]) d).

Definition pending_rebalance (r : RebalanceTransfer) : bool :=
  bool_decide (rt_Status r = RebalanceTransferStatusPending).

Definition GetAllPendingRebalanceTransfers : query (list RebalanceTransfer) := λ c d,
  (Ok (List.filter pending_rebalance (rebalance_transfers d)), d).

Definition GetPendingRebalanceTransfersToChain (destinationChainID : string) :
    query (list RebalanceTransfer) := λ c d,
  (Ok (List.filter (λ r, bool_decide (rt_DestinationChainID r = destinationChainID)
                         && pending_rebalance r) (rebalance_transfers d)), d).

(** The fields the UPDATE statement of the table sets. *)
Definition rebalance_set (now : Time) (status : string) (r : RebalanceTransfer) :
    RebalanceTransfer :=
  mkRebalanceTransfer (rt_ID r) (rt_CreatedAt r) now (rt_TxHash r) (rt_SourceChainID r)
    (rt_DestinationChainID r) (rt_Amount r) status.

(** An [:exec] query: no row to update is no error; a status outside the CHECK
    list fails on the first row it would be written to. *)
Definition UpdateTransferStatus (Status : string) (ID : Z) : query unit := λ c d,
  let p r := bool_decide (rt_ID r = ID) in
  let f := rebalance_set (stmt_ts c) Status in
  if existsb p (rebalance_transfers d) && negb (rebalance_status_ok Status)
  then (Err (ErrNew "CHECK constraint failed: status IN ('PENDING', 'SUCCESS', 'FAILED', 'ABANDONED')"), d)
  else (Ok tt, with_rebalance_transfers (update_rows p f) d).

(** ** transfer_monitor_metadata *)

Definition monitored_chain (chainID : string) (m : TransferMonitorMetadatum) : bool :=
  bool_decide (tm_ChainID m = chainID).

Definition GetTransferMonitorMetadata (chainID : string) : query TransferMonitorMetadatum := λ c d,
  (one_row (List.filter (monitored_chain chainID) (transfer_monitor_metadata d)), d).

Definition monitor_set (now : Time) (height : Z) (m : TransferMonitorMetadatum) :
    TransferMonitorMetadatum :=
  mkTransferMonitorMetadatum (tm_ID m) (tm_CreatedAt m) now (tm_ChainID m) height.

Definition InsertTransferMonitorMetadata (ChainID : string) (HeightLastSeen : Z) :
    query TransferMonitorMetadatum := λ c d,
  let p := monitored_chain ChainID in
  let f := monitor_set (stmt_ts c) HeightLastSeen in
  let t := transfer_monitor_metadata d in
  if existsb p t
  then (one_row (returned_rows p f t), with_transfer_monitor_metadata (update_rows p f) d)
  else let r := mkTransferMonitorMetadatum (next_id tm_ID c t) (stmt_ts c) (stmt_ts c) ChainID
                  HeightLastSeen in
       (Ok r, with_transfer_monitor_metadata (λ t, t ++ [r]) d).

(** ** Well-formed tables *)

(** What the schema promises of a table: a primary key, when two rows violate a
    UNIQUE constraint, and the columns no UPDATE writes ([row_base] blanks the
    others). *)
Class Table (R : Type) := {
  row_id : R → Z;
  row_conflict : R → R → bool;
  row_base : R → R
}.
#[export] Instance Table_Order : Table Order :=
  {| row_id := o_ID; row_conflict := same_order_key;
     row_base := order_set 0 None None None "" None |}.
#[export] Instance Table_OrderSettlement : Table OrderSettlement :=
  {| row_id := os_ID; row_conflict := same_settlement_key;
     row_base := settlement_set 0 None None "" None None None |}.
#[export] Instance Table_SubmittedTx : Table SubmittedTx :=
  {| row_id := st_ID; row_conflict := same_submitted_key;
     row_base := submitted_set 0 "" None None |}.
#[export] Instance Table_HyperlaneTransfer : Table HyperlaneTransfer :=
  {| row_id := ht_ID; row_conflict := same_transfer_key;
     row_base := set_message_status 0 "" None |}.
#[export] Instance Table_RebalanceTransfer : Table RebalanceTransfer :=
  {| row_id := rt_ID; row_conflict := λ _ _, false;
     row_base := rebalance_set 0 "" |}.
#[export] Instance Table_TransferMonitorMetadatum : Table TransferMonitorMetadatum :=
  {| row_id := tm_ID; row_conflict := λ a b, bool_decide (tm_ChainID a = tm_ChainID b);
     row_base := monitor_set 0 0 |}.

Section table.
Context {R : Type} `{!Table R}.

(** Positive, strictly increasing ids and no two conflicting rows. *)
Definition table_wf (t : list R) : Prop :=
  Forall (λ r, 0 < row_id r) t ∧
  StronglySorted (λ a b, row_id a < row_id b ∧ row_conflict b a = false) t.

(** [t'] keeps every row of [t], in place, up to the columns an UPDATE may
    write. *)
Definition same_identity (a b : R) : Prop :=
  row_id a = row_id b ∧ (∀ r, row_conflict a r = row_conflict b r) ∧
  (∀ r, row_conflict r a = row_conflict r b) ∧ row_base a = row_base b.

Definition table_le (t t' : list R) : Prop :=
  ∃ kept new, t' = kept ++ new ∧ Forall2 same_identity t kept.

#[export] Instance same_identity_equiv : Equivalence same_identity.
Proof.
  unfold same_identity. split.
  - by intros a.
  - intros a b (?&?&?&?); split_and!; auto.
  - intros a b c (?&?&?&?) (?&?&?&?); split_and!; [congruence|..|congruence]; intros r;
      etransitivity; eauto.
Qed.

#[export] Instance table_le_preorder : PreOrder table_le.
Proof.
  split.
  - intros t. exists t, []. by rewrite app_nil_r.
  - intros t1 t2 t3 (k1&n1&->&H1) (k2&n2&->&H2).
    apply Forall2_app_inv_l in H2 as (k3&k4&Hk3&?&->).
    exists k3, (k4 ++ n2). rewrite app_assoc. split; [done|]. by etransitivity.
Qed.

Lemma max_id_le (t : list R) r : r ∈ t → row_id r ≤ max_id row_id t.
Proof.
  induction 1 as [r t|r r' t _ IH]; unfold max_id in *; simpl; lia.
Qed.

Lemma max_id_nonneg (t : list R) : 0 ≤ max_id row_id t.
Proof. induction t; unfold max_id in *; simpl; lia. Qed.

Lemma existsb_false_Forall {A} (p : A → bool) l :
  existsb p l = false → Forall (λ x, p x = false) l.
Proof. induction l; simpl; intros H; constructor; destruct (p a); naive_solver. Qed.

Lemma existsb_eq {A} (p q : A → bool) l : (∀ x, p x = q x) → existsb p l = existsb q l.
Proof. intros Hpq. induction l; simpl; [done|]. by rewrite Hpq, IHl. Qed.

Lemma table_wf_insert c (t : list R) r :
  table_wf t → row_id r = next_id row_id c t → existsb (row_conflict r) t = false →
  table_wf (t ++ [r]).
Proof.
  intros [Hpos Hs] Hid Hnew. unfold next_id in Hid. split.
  - apply Forall_app; split; [done|]. constructor; [|done].
    rewrite Hid. pose proof (max_id_nonneg t). lia.
  - apply existsb_false_Forall in Hnew.
    assert (∀ x, x ∈ t → row_id x < row_id r) as Hlt.
    { intros x Hx%max_id_le. lia. }
    clear Hpos Hid. induction t as [|x t IH]; simpl; [repeat constructor|].
    inversion Hs; subst. inversion Hnew; subst. constructor.
    + apply IH; auto. intros y Hy. apply Hlt. by right.
    + apply Forall_app. split; [done|]. constructor; [|done]. split; [|done].
      apply Hlt. by left.
Qed.

Lemma table_le_insert (t : list R) r : table_le t (t ++ [r]).
Proof. by exists t, [r]. Qed.

Lemma update_rows_identity (p : R → bool) f (t : list R) :
  (∀ r, p r = true → same_identity r (f r)) → Forall2 same_identity t (update_rows p f t).
Proof.
  intros Hf. induction t; simpl; constructor; auto.
  destruct (p a) eqn:Hp; [auto|done].
Qed.

Lemma table_wf_identity (t t' : list R) : Forall2 same_identity t t' → table_wf t → table_wf t'.
Proof.
  intros Ht [Hpos Hs]. split.
  - clear Hs. induction Ht as [|a b t t' [Hid _] _ IH]; inversion Hpos; constructor; auto. lia.
  - clear Hpos. induction Ht as [|a b t t' Hab Ht IH]; [constructor|].
    inversion Hs as [|? ? Hs' Ha]; subst. constructor; [auto|].
    clear IH Hs Hs'. induction Ht as [|x y t t' Hxy Ht IH]; [constructor|].
    inversion Ha as [|? ? [Hlt Hc] Ha']; subst. constructor; [|auto].
    destruct Hab as (?&?&Hab&_), Hxy as (?&Hxy&_). split; [lia|].
    by rewrite <-Hab, <-Hxy.
Qed.

Lemma table_wf_update (p : R → bool) f (t : list R) :
  (∀ r, p r = true → same_identity r (f r)) → table_wf t → table_wf (update_rows p f t).
Proof. intros Hf. by apply table_wf_identity, update_rows_identity. Qed.

Lemma table_le_update (p : R → bool) f (t : list R) :
  (∀ r, p r = true → same_identity r (f r)) → table_le t (update_rows p f t).
Proof.
  intros Hf. exists (update_rows p f t), []. rewrite app_nil_r.
  split; [done|by apply update_rows_identity].
Qed.

(** Two rows of a well-formed table with the same id are the same row. *)
Lemma table_wf_id_inj (t : list R) a b :
  table_wf t → a ∈ t → b ∈ t → row_id a = row_id b → a = b.
Proof.
  intros [_ Hs]. induction Hs as [|x t Hs IH Hx]; [by intros ?%not_elem_of_nil|].
  rewrite Forall_forall in Hx.
  intros [->|Ha]%elem_of_cons [->|Hb]%elem_of_cons Hid; auto.
  - apply Hx in Hb. lia.
  - apply Hx in Ha. lia.
Qed.

Lemma table_wf_key_inj (t : list R) a b :
  (∀ x y, row_conflict x y = row_conflict y x) →
  table_wf t → a ∈ t → b ∈ t → row_conflict a b = true → a = b.
Proof.
  intros Hsym [_ Hs]. induction Hs as [|x t Hs IH Hx]; [by intros ?%not_elem_of_nil|].
  rewrite Forall_forall in Hx.
  intros [->|Ha]%elem_of_cons [->|Hb]%elem_of_cons Hid; auto.
  - apply Hx in Hb as [_ Hb]. rewrite Hsym in Hid. congruence.
  - apply Hx in Ha as [_ Ha]. congruence.
Qed.
End table.

Definition db_wf (d : Database) : Prop :=
  table_wf (orders d) ∧ table_wf (order_settlements d) ∧ table_wf (submitted_txs d) ∧
  table_wf (hyperlane_transfers d) ∧ table_wf (rebalance_transfers d) ∧
  table_wf (transfer_monitor_metadata d) ∧
  Forall (λ r, rebalance_status_ok (rt_Status r) = true) (rebalance_transfers d).

(** No query deletes a row or rewrites the identity of one. *)
Definition db_le (d d' : Database) : Prop :=
  table_le (orders d) (orders d') ∧ table_le (order_settlements d) (order_settlements d') ∧
  table_le (submitted_txs d) (submitted_txs d') ∧
  table_le (hyperlane_transfers d) (hyperlane_transfers d') ∧
  table_le (rebalance_transfers d) (rebalance_transfers d') ∧
  table_le (transfer_monitor_metadata d) (transfer_monitor_metadata d').

#[export] Instance db_le_preorder : PreOrder db_le.
Proof.
  split; [by intros d|].
  intros d1 d2 d3 (?&?&?&?&?&?) (?&?&?&?&?&?). unfold db_le.
  split_and!; by etransitivity.
Qed.

(** ** The interface of db.Queries *)

(** The methods of the generated [Querier] interface. *)
Inductive db_query : ∀ A, query A → Prop :=
  | Q_InsertOrder arg : db_query _ (InsertOrder arg)
  | Q_GetAllOrdersWithOrderStatus s : db_query _ (GetAllOrdersWithOrderStatus s)
  | Q_GetOrderByOrderID i : db_query _ (GetOrderByOrderID i)
  | Q_SetFillTx t f s src i g : db_query _ (SetFillTx t f s src i g)
  | Q_SetOrderStatus s m src i g : db_query _ (SetOrderStatus s m src i g)
  | Q_SetRefundTx t s src i g : db_query _ (SetRefundTx t s src i g)
  | Q_InsertOrderSettlement src dst g a p i s :
      db_query _ (InsertOrderSettlement src dst g a p i s)
  | Q_GetAllOrderSettlementsWithSettlementStatus s :
      db_query _ (GetAllOrderSettlementsWithSettlementStatus s)
  | Q_GetOrderSettlement src g i : db_query _ (GetOrderSettlement src g i)
  | Q_SetInitiateSettlementTx t src i g : db_query _ (SetInitiateSettlementTx t src i g)
  | Q_SetCompleteSettlementTx t src i g : db_query _ (SetCompleteSettlementTx t src i g)
  | Q_SetSettlementStatus s m src i g : db_query _ (SetSettlementStatus s m src i g)
  | Q_SetHyperlaneTransferID h src i g : db_query _ (SetHyperlaneTransferID h src i g)
  | Q_ClearInitiateSettlement s dst t : db_query _ (ClearInitiateSettlement s dst t)
  | Q_InsertSubmittedTx arg : db_query _ (InsertSubmittedTx arg)
  | Q_GetAllSubmittedTxs : db_query _ GetAllSubmittedTxs
  | Q_GetSubmittedTxsByHyperlaneTransferId h :
      db_query _ (GetSubmittedTxsByHyperlaneTransferId h)
  | Q_GetSubmittedTxsByOrderIdAndType o t : db_query _ (GetSubmittedTxsByOrderIdAndType o t)
  | Q_GetSubmittedTxsByOrderStatusAndType s t :
      db_query _ (GetSubmittedTxsByOrderStatusAndType s t)
  | Q_GetSubmittedTxsWithStatus s : db_query _ (GetSubmittedTxsWithStatus s)
  | Q_SetSubmittedTxStatus s m u h i : db_query _ (SetSubmittedTxStatus s m u h i)
  | Q_InsertHyperlaneTransfer src dst m t s f :
      db_query _ (InsertHyperlaneTransfer src dst m t s f)
  | Q_GetAllHyperlaneTransfersWithTransferStatus s :
      db_query _ (GetAllHyperlaneTransfersWithTransferStatus s)
  | Q_GetHyperlaneTransferByMessageSentTx t src :
      db_query _ (GetHyperlaneTransferByMessageSentTx t src)
  | Q_SetMessageStatus s m src dst i : db_query _ (SetMessageStatus s m src dst i)
  | Q_InsertRebalanceTransfer t src dst a : db_query _ (InsertRebalanceTransfer t src dst a)
  | Q_GetAllPendingRebalanceTransfers : db_query _ GetAllPendingRebalanceTransfers
  | Q_GetPendingRebalanceTransfersToChain dst :
      db_query _ (GetPendingRebalanceTransfersToChain dst)
  | Q_UpdateTransferStatus s i : db_query _ (UpdateTransferStatus s i)
  | Q_GetTransferMonitorMetadata i : db_query _ (GetTransferMonitorMetadata i)
  | Q_InsertTransferMonitorMetadata i h : db_query _ (InsertTransferMonitorMetadata i h).
Arguments db_query {A} q.

Lemma insert_or_nothing_wf {R} `{!Table R} c (t : list R) r :
  row_id r = next_id row_id c t → table_wf t →
  table_wf (insert_or_nothing row_conflict r t).2 ∧
  table_le t (insert_or_nothing row_conflict r t).2.
Proof.
  intros Hid Ht. unfold insert_or_nothing. destruct (existsb _ t) eqn:He; simpl.
  - by split.
  - split; [by eapply table_wf_insert|apply table_le_insert].
Qed.

Lemma rebalance_status_update p (f : RebalanceTransfer → RebalanceTransfer) s t :
  (∀ r, rt_Status (f r) = s) → rebalance_status_ok s = true →
  Forall (λ r, rebalance_status_ok (rt_Status r) = true) t →
  Forall (λ r, rebalance_status_ok (rt_Status r) = true) (update_rows p f t).
Proof.
  intros Hf Hs. induction 1; simpl; constructor; auto.
  destruct (p x); [by rewrite Hf|done].
Qed.

(** An update whose WHERE clause matches no row changes nothing. *)
Lemma update_rows_none {R} (p : R → bool) f t : existsb p t = false → update_rows p f t = t.
Proof.
  induction t as [|r t IH]; simpl; [done|]. intros [Hr Ht]%orb_false_iff.
  unfold update_rows in *. simpl. rewrite Hr, IH; done.
Qed.

(** Closes [db_wf]/[db_le] goals table by table. *)
Local Ltac db_tables :=
  unfold db_wf, db_le in *; destruct_and?; simpl in *;
  split_and!; try done; try reflexivity;
  first [ eapply table_wf_update; [|done]; intros; by split_and!
        | eapply table_le_update; intros; by split_and!
        | eapply table_wf_insert; [done|reflexivity|assumption]
        | apply table_le_insert
        | idtac ].

(** A step of the database: it keeps the invariant and extends the tables. *)
Definition db_ok_step (d d' : Database) : Prop := db_wf d → db_wf d' ∧ db_le d d'.

(** INSERT ... ON CONFLICT DO NOTHING on any of the tables. *)
Local Ltac db_insert c :=
  match goal with
  | |- context [insert_or_nothing ?k ?r ?t] =>
      let Hins := fresh in
      assert (table_wf (insert_or_nothing k r t).2 ∧ table_le t (insert_or_nothing k r t).2)
        as Hins by (refine (insert_or_nothing_wf c t r _ _); [reflexivity|unfold db_wf in *; naive_solver]);
      destruct (insert_or_nothing k r t), Hins; simpl in *
  end; split; db_tables.

Lemma InsertSubmittedTx_step arg c d : db_ok_step d (InsertSubmittedTx arg c d).2.
Proof.
  intros Hd. unfold InsertSubmittedTx.
  destruct (existsb _ (submitted_txs d)) eqn:He; simpl; [by split|split; db_tables].
Qed.

Lemma InsertRebalanceTransfer_step t src dst a c d :
  db_ok_step d (InsertRebalanceTransfer t src dst a c d).2.
Proof.
  intros Hd. split; db_tables.
  - eapply (table_wf_insert c); [done|reflexivity|].
    clear. by induction (rebalance_transfers d).
  - apply Forall_app; split; [done|]. by repeat constructor.
Qed.

Lemma UpdateTransferStatus_step s i c d : db_ok_step d (UpdateTransferStatus s i c d).2.
Proof.
  intros Hd. unfold UpdateTransferStatus.
  destruct (existsb _ (rebalance_transfers d)) eqn:He; simpl;
    [destruct (rebalance_status_ok s) eqn:Hs; simpl; [|by split]|].
  - split; db_tables.
    eapply rebalance_status_update; [|exact Hs|done]. reflexivity.
  - unfold with_rebalance_transfers. rewrite update_rows_none by done. by destruct d.
Qed.

Lemma InsertTransferMonitorMetadata_step i h c d :
  db_ok_step d (InsertTransferMonitorMetadata i h c d).2.
Proof.
  intros Hd. unfold InsertTransferMonitorMetadata.
  destruct (existsb _ (transfer_monitor_metadata d)) eqn:He; simpl; [split; db_tables|].
  split; db_tables. eapply table_wf_insert; [done|reflexivity|].
  rewrite <-He. apply existsb_eq. intros m. apply bool_decide_ext. simpl. naive_solver.
Qed.

Lemma query_step {A} (q : query A) : db_query q → ∀ c d, db_ok_step d (q c d).2.
Proof.
  destruct 1; intros c d;
    eauto using InsertSubmittedTx_step, InsertRebalanceTransfer_step, UpdateTransferStatus_step,
      InsertTransferMonitorMetadata_step.
  all: intros Hd; simpl; try (by split).
  all: try (split; db_tables; fail).
  - unfold InsertOrder. db_insert c.
  - unfold InsertOrderSettlement. db_insert c.
  - unfold InsertHyperlaneTransfer. db_insert c.
Qed.

(** ** Reachable databases *)

(** A history of the database: the queries the program ran on the empty schema,
    each with its statement context, whatever order the components ran them in. *)
Inductive reachable : Database → Prop :=
  | reachable_empty : reachable empty_db
  | reachable_query {A} (q : query A) c d :
      reachable d → db_query q → reachable (q c d).2.

Lemma empty_db_wf : db_wf empty_db.
Proof. unfold db_wf, table_wf. simpl. split_and!; constructor. Qed.

Lemma reachable_wf d : reachable d → db_wf d.
Proof. induction 1; [apply empty_db_wf|by eapply query_step]. Qed.

Lemma update_rows_elem {R} (p : R → bool) f t r :
  r ∈ t → p r = true → f r ∈ update_rows p f t.
Proof.
  intros Hr Hp. unfold update_rows. apply list_elem_of_fmap. exists r. by rewrite Hp.
Qed.

(** A key of a well-formed table selects at most one row. *)
Lemma filter_unique {R} `{!Table R} (p : R → bool) (t : list R) r :
  (∀ x y, row_conflict x y = row_conflict y x) →
  (∀ x y, p x = true → p y = true → row_conflict x y = true) →
  table_wf t → r ∈ t → p r = true → List.filter p t = [r].
Proof.
  intros Hsym Hp [_ Hs] Hr Hpr. induction Hs as [|x t Hs IH Hx]; [by apply not_elem_of_nil in Hr|].
  rewrite Forall_forall in Hx. simpl. apply elem_of_cons in Hr as [->|Hr].
  - rewrite Hpr. f_equal. clear IH Hs. induction t as [|y t IH]; [done|]. simpl.
    destruct (p y) eqn:Hy; [|apply IH; intros z Hz; apply Hx; by right].
    destruct (Hx y) as [_ Hxy]; [by left|]. rewrite Hp in Hxy; done.
  - destruct (p x) eqn:Hpx; [|by apply IH].
    destruct (Hx r Hr) as [_ Hxy]. rewrite Hp in Hxy; done.
Qed.

Lemma same_order_key_sym a b : same_order_key a b = same_order_key b a.
Proof. apply bool_decide_ext. naive_solver. Qed.
Lemma same_settlement_key_sym a b : same_settlement_key a b = same_settlement_key b a.
Proof. apply bool_decide_ext. naive_solver. Qed.
Lemma same_transfer_key_sym a b : same_transfer_key a b = same_transfer_key b a.
Proof. apply bool_decide_ext. naive_solver. Qed.

Lemma orders_filter_key d o :
  db_wf d → o ∈ orders d →
  List.filter (order_at (o_SourceChainID o) (o_OrderID o)
                 (o_SourceChainGatewayContractAddress o)) (orders d) = [o].
Proof.
  intros (Ht&_) Ho. refine (filter_unique _ _ o same_order_key_sym _ Ht Ho _).
  - intros x y Hx%bool_decide_eq_true Hy%bool_decide_eq_true.
    apply bool_decide_eq_true. by rewrite Hx, Hy.
  - by apply bool_decide_eq_true.
Qed.

Lemma settlements_filter_key d s :
  db_wf d → s ∈ order_settlements d →
  List.filter (settlement_at (os_SourceChainID s) (os_OrderID s)
                 (os_SourceChainGatewayContractAddress s)) (order_settlements d) = [s].
Proof.
  intros (_&Ht&_) Ho. refine (filter_unique _ _ s same_settlement_key_sym _ Ht Ho _).
  - intros x y Hx%bool_decide_eq_true Hy%bool_decide_eq_true.
    apply bool_decide_eq_true. by rewrite Hx, Hy.
  - by apply bool_decide_eq_true.
Qed.

Lemma transfers_filter_key d h :
  db_wf d → h ∈ hyperlane_transfers d →
  List.filter (transfer_at (ht_SourceChainID h) (ht_DestinationChainID h) (ht_MessageID h))
    (hyperlane_transfers d) = [h].
Proof.
  intros (_&_&_&Ht&_) Hh. refine (filter_unique _ _ h same_transfer_key_sym _ Ht Hh _).
  - intros x y Hx%bool_decide_eq_true Hy%bool_decide_eq_true.
    apply bool_decide_eq_true. by rewrite Hx, Hy.
  - by apply bool_decide_eq_true.
Qed.

(** A row that a [:one] query returns is in the table and matches. *)
Lemma one_row_ok {R} (rows : list R) r : one_row rows = Ok r → ∃ rest, rows = r :: rest.
Proof. destruct rows; simpl; naive_solver. Qed.

Lemma one_row_filter {R} (p : R → bool) t r :
  one_row (List.filter p t) = Ok r → r ∈ t ∧ p r = true.
Proof.
  intros (rest&Hf)%one_row_ok. assert (In r (List.filter p t)) as Hin by (rewrite Hf; by left).
  apply List.filter_In in Hin as [Hin ?]. split; [|done]. by apply list_elem_of_In.
Qed.

(** An UPDATE of a settlement by key finds it and returns the updated row. *)
Lemma update_settlement_ok d s f :
  db_wf d → s ∈ order_settlements d →
  (update_settlement (os_SourceChainID s) (os_OrderID s)
     (os_SourceChainGatewayContractAddress s) f d).1 = Ok (f s).
Proof.
  intros Hd Hs. unfold update_settlement, returned_rows. by rewrite settlements_filter_key.
Qed.

Lemma update_order_ok d o f :
  db_wf d → o ∈ orders d →
  (update_order (o_SourceChainID o) (o_OrderID o)
     (o_SourceChainGatewayContractAddress o) f d).1 = Ok (f o).
Proof.
  intros Hd Ho. unfold update_order, returned_rows. by rewrite orders_filter_key.
Qed.

(** An UPDATE of an order by key either updates its row or finds none. *)
Lemma update_order_cases src oid gw f d :
  (∃ o, (update_order src oid gw f d).1 = Ok o ∧
        (update_order src oid gw f d).2 = with_orders (update_rows (order_at src oid gw) f) d) ∨
  (∃ e, (update_order src oid gw f d).1 = Err e ∧ (update_order src oid gw f d).2 = d).
Proof.
  unfold update_order, returned_rows. simpl.
  destruct (List.filter (order_at src oid gw) (orders d)) as [|o l] eqn:Hf; simpl.
  - right. eexists. split; [done|]. unfold with_orders. rewrite update_rows_none; [by destruct d|].
    clear -Hf. induction (orders d) as [|o l IH]; [done|]. simpl in *.
    destruct (order_at src oid gw o); [done|]. by apply IH.
  - left. by eexists.
Qed.

(** An INSERT of an order appends a row with its key or finds one. *)
Lemma InsertOrder_cases arg c d :
  let key := (iop_SourceChainID arg, iop_SourceChainGatewayContractAddress arg,
              iop_OrderID arg) in
  (∃ row, (InsertOrder arg c d).1 = Ok row ∧ order_key row = key ∧
     (InsertOrder arg c d).2 = with_orders (λ t, t ++ [row]) d) ∨
  (∃ row, (InsertOrder arg c d).1 = Err (ErrSentinel SqlErrNoRows) ∧
     (InsertOrder arg c d).2 = d ∧ row ∈ orders d ∧ order_key row = key).
Proof.
  intros key. unfold InsertOrder, insert_or_nothing.
  destruct (existsb _ (orders d)) eqn:He; simpl.
  - right. apply existsb_exists in He as (row&Hin&Hkey%bool_decide_eq_true).
    exists row. split_and!; [done|by destruct d|by apply list_elem_of_In|].
    rewrite <-Hkey. done.
  - left. eexists. split_and!; [done|done|]. by destruct d.
Qed.

(** A successful INSERT of a submitted transaction appends its row. *)
Lemma InsertSubmittedTx_ok arg c d r :
  (InsertSubmittedTx arg c d).1 = Ok r →
  r = submitted_row c (next_id st_ID c (submitted_txs d)) arg ∧
  (InsertSubmittedTx arg c d).2 = with_submitted_txs (λ t, t ++ [r]) d.
Proof. unfold InsertSubmittedTx. destruct (existsb _ _); simpl; [done|]. by intros [= <-]. Qed.

(** ** Properties *)

(** Whatever queries the components of the solver run, in whatever order and
    with whatever statement times: the ids of every table are positive and
    strictly increasing, no two rows of a table agree on its UNIQUE columns, and
    every rebalance transfer has one of the four statuses of the CHECK
    constraint. *)
Theorem reachable_db_wf d : reachable d → db_wf d.
Proof. apply reachable_wf. Qed.

Lemma reachable_db_wf_witness :
  db_wf (InsertRebalanceTransfer "0xabc" "1" "osmosis-1" "5" (mkStmt 7 0)
           (InsertTransferMonitorMetadata "1" 10 (mkStmt 0 0) empty_db).2).2.
Proof.
  apply reachable_db_wf. apply reachable_query; [|constructor].
  apply reachable_query; constructor.
Defined.

(** No query of the program loses history: every row stays in its place with the
    same id and the same UNIQUE columns; only rows with fresh keys are added. *)
Theorem query_keeps_history {A} (q : query A) c d :
  db_query q → db_wf d → db_le d (q c d).2.
Proof. intros Hq Hd. by apply query_step. Qed.

Lemma query_keeps_history_witness :
  db_le (InsertTransferMonitorMetadata "1" 10 (mkStmt 0 0) empty_db).2
    (InsertTransferMonitorMetadata "1" 12 (mkStmt 9 0)
       (InsertTransferMonitorMetadata "1" 10 (mkStmt 0 0) empty_db).2).2.
Proof.
  apply query_keeps_history; [constructor|].
  apply reachable_wf. apply reachable_query; constructor.
Defined.

(** InsertOrderSettlement is insert-once: with a fresh (chain, gateway, order)
    key it adds the settlement it returns and GetOrderSettlement reads it back;
    with a key that exists it returns sql.ErrNoRows, leaves the database as it
    was, and GetOrderSettlement returns the older settlement. *)
Theorem InsertOrderSettlement_roundtrip src dst gw amount profit oid st c c' d :
  db_wf d →
  let '(r, d') := InsertOrderSettlement src dst gw amount profit oid st c d in
  match r with
  | Ok s =>
      (GetOrderSettlement src gw oid c d).1 = Err (ErrSentinel SqlErrNoRows) ∧
      order_settlements d' = order_settlements d ++ [s] ∧
      (GetOrderSettlement src gw oid c' d').1 = Ok s ∧
      os_Amount s = amount ∧ os_Profit s = profit ∧ os_SettlementStatus s = st
  | Err e =>
      e = ErrSentinel SqlErrNoRows ∧ d' = d ∧
      ∃ s, (GetOrderSettlement src gw oid c' d').1 = Ok s
  | Panic _ => False
  end.
Proof.
  intros Hd. unfold InsertOrderSettlement, insert_or_nothing.
  set (r := mkOrderSettlement _ _ _ _ _ _ _ _ _ _ _ _ _ _ _).
  assert (∀ x, same_settlement_key r x = settlement_at src oid gw x) as Hkey.
  { intros x. apply bool_decide_ext. unfold settlement_key at 1. simpl. naive_solver. }
  rewrite (existsb_eq _ _ _ Hkey). destruct (existsb _ _) eqn:He.
  - split_and!; [done|by destruct d|]. apply existsb_exists in He as (s&Hs%list_elem_of_In&Hat).
    apply bool_decide_eq_true in Hat. injection Hat as <- <- <-.
    exists s. unfold GetOrderSettlement. simpl. by rewrite settlements_filter_key.
  - apply existsb_false_Forall in He.
    assert (List.filter (settlement_at src oid gw) (order_settlements d) = []) as Hnone.
    { clear -He. induction He as [|x t Hx _ IH]; [done|]. simpl. by rewrite Hx. }
    unfold GetOrderSettlement. simpl. rewrite List.filter_app, Hnone. simpl.
    replace (settlement_at src oid gw r) with true; [done|].
    symmetry. by apply bool_decide_eq_true.
Qed.

Lemma InsertOrderSettlement_roundtrip_witness :
  db_wf empty_db ∧
  let '(r, d') := InsertOrderSettlement "1" "osmosis-1" "0xgw" "100" "1" "id" "PENDING"
                    (mkStmt 0 0) empty_db in
  (GetOrderSettlement "1" "0xgw" "id" (mkStmt 5 0) d').1 = r.
Proof.
  split; [apply empty_db_wf|].
  pose proof (InsertOrderSettlement_roundtrip "1" "osmosis-1" "0xgw" "100" "1" "id" "PENDING"
                (mkStmt 0 0) (mkStmt 5 0) empty_db empty_db_wf) as H.
  destruct (InsertOrderSettlement _ _ _ _ _ _ _ _ _) as [[s|e|p] d'] eqn:E; [|discriminate E..].
  apply H.
Defined.
