(* ===== verification/World.v ===== *)
(** * World: the state the components run in and everything outside the program

    The components share the database and talk to the outside (chains, the Skip Go
    API, the clock, the scheduler).  What is outside is one type of [request]s with
    the type of the [response] to each: the methods of the interfaces the components
    are written against ([cctp.BridgeClient], [hyperlane.Client],
    [skipgo.SkipGoClient], [evmrpc], the transaction executors, the price oracle),
    plus the clock, the database driver and the iteration order of Go maps.  An
    [Env] is any function that answers requests with a value or an error from a
    hidden state; every theorem of the components holds for every [Env].

    The world also carries a ghost trace: the requests made so far with their
    answers, in order.  Theorems about what the program does on chain (fills,
    settlements, relays) are statements about this trace. *)
From Stdlib Require Import Strings.Byte.
From S2P Require Import Prelude GoLib Database Json Network SkipGoTypes.

(** ** Data exchanged with the outside *)

(** shared/bridges/cctp *)
Record Fill := mkFill { fill_OrderID : string; fill_SourceDomain : Z }.

Record OrderFillEvent := mkOrderFillEvent {
  ofe_Filler : string;
  ofe_FillAmount : Z;
  ofe_TxHash : string
}.

(** [TxFailure.String()]; a [*TxFailure] is the optional message. *)
Definition TxFailure_String (message : string) : string := "tx failed: " +:+ message.

(** hyperlane/types *)
Record ValidatorStorageLocation := mkValidatorStorageLocation {
  vsl_Validator : string;
  vsl_StorageLocation : string
}.

Record Checkpoint := mkCheckpoint {
  MerkleTreeHookAddress : string;
  MailboxDomain : Z;
  Root : string;
  Index : Z
}.

Record CheckpointWithMessageID := mkCheckpointWithMessageID {
  cwm_Checkpoint : Checkpoint;
  cwm_MessageID : string
}.

Record Signature := mkSignature { sig_R : string; sig_S : string; sig_V : byte }.

Record SignedCheckpoint := mkSignedCheckpoint {
  Value : CheckpointWithMessageID;
  sc_Signature : Signature;
  SerializedSignature : string
}.

Record MailboxDispatchEvent := mkMailboxDispatchEvent {
  de_Recipient : string;
  de_Message : string;
  de_DestinationDomain : string;
  de_SenderMailbox : string;
  de_Sender : string;
  de_MessageID : string
}.

Record MailboxMerkleHookPostDispatchEvent := mkMailboxMerkleHookPostDispatchEvent {
  mh_MessageID : string;
  mh_Index : Z
}.

(** shared/contracts/fast_transfer_gateway: an OrderSubmitted log. *)
Record OrderSubmittedLog := mkOrderSubmittedLog {
  log_TxHash : string;
  log_BlockNumber : Z;
  log_OrderID : list byte;
  log_Order : list byte
}.

(** ** Requests *)

Inductive request :=
  (* the runtime *)
  | TimeNow
  | MapOrder
  | RunsNow
  | DbStmt
  | DbBegin
  | DbCommit
  (* clientmanager.GetClient and cctp.BridgeClient, on a chain *)
  | GetClient (chainID : string)
  | BlockHeight (chainID : string)
  | Balance (chainID address denom : string)
  | FillOrderTx (chainID : string) (order : Order) (gateway : string)
  | InitiateTimeoutTx (chainID : string) (order : Order) (gateway : string)
  | InitiateBatchSettlement (chainID : string) (batch : list OrderSettlement)
  | GetTxResult (chainID txHash : string)
  | IsSettlementComplete (chainID gateway orderID : string)
  | OrderFillsByFiller (chainID gateway filler : string)
  | QueryOrderFillEvent (chainID gateway orderID : string)
  | OrderExists (chainID gateway orderID : string) (blockNumber : Z)
  | IsOrderRefunded (chainID gateway orderID : string)
  | OrderStatusOnChain (chainID gateway orderID : string)
  (* hyperlane.Client, on a domain, and the checkpoint fetchers *)
  | HasBeenDelivered (domain messageID : string)
  | IsContract (domain address : string)
  | ValidatorsAndThreshold (domain recipient message : string)
  | ValidatorStorageLocations (domain : string) (validators : list string)
  | GetHyperlaneDispatch (domain originChainID txHash : string)
  | QuoteProcessUUSDC (domain : string) (message metadata : list byte)
  | Process (domain : string) (message metadata : list byte)
  | FetchLocalCheckpoint (path file : string)
  | FetchS3Checkpoint (url file : string)
  (* skipgo.SkipGoClient *)
  | SkipBalance (request : BalancesRequest)
  | SkipRoute (fromDenom fromChain toDenom toChain : string) (amount : Z)
  | SkipMsgs (fromDenom fromChain fromAddr toDenom toChain toAddr : string)
      (amount amountOut : Z) (addresses : list string) (operations : option (list Json))
  | SkipTrackTx (txHash chainID : string)
  | SkipStatus (txHash chainID : string)
  (* evmrpc, the EVM transaction executor and signers, the price oracle *)
  | EvmGetClient (chainID : string)
  | EvmUSDCBalance (chainID denom address : string)
  | EvmAllowance (chainID token owner spender : string)
  | EvmEstimateGas (chainID from to value : string) (data : list byte)
  | EvmSuggestGasPrice (chainID : string)
  | NewSigner (chainID : string)
  | PackApprove (spender : string) (amount : Z)
  | ExecuteTx (chainID signerAddress : string) (data : list byte) (value to : string)
  | GasCostUUSDC (txFee : option Z) (chainID : string)
  | TxFeeUUSDC (gas gasFeeCap chainID : Z)
  (* the gateway contract's event log *)
  | EthGetClient (chainID : string)
  | HeaderByNumber (chainID : string)
  | NewGateway (chainID gateway : string)
  | FilterOrderSubmitted (chainID gateway : string) (start end_ : Z)
  | WsGetClient (chainID : string)
  | SubscribeNewHead (chainID : string)
  | SubscribeFilterLogs (chainID gateway : string)
  (* tmrpc *)
  | TmGetClient (chainID : string)
  | TmLatestBlockHeight (chainID : string)
  | SignerGasTokenBalance (chainID : string)
  (* the boundary of the clients *)
  | Net (r : net_request).

Definition response (r : request) : Type :=
  match r with
  | TimeNow => Time
  | MapOrder => list nat
  (* whether a goroutine started now runs before its creator goes on *)
  | RunsNow => bool
  | DbStmt => stmt
  | DbBegin | DbCommit => unit
  | GetClient _ => unit
  | BlockHeight _ => Z
  | Balance _ _ _ => Z
  | FillOrderTx _ _ _ | InitiateTimeoutTx _ _ _ => string * string
  | InitiateBatchSettlement _ _ => string * string
  (* the gas cost (nil when unknown) and the failure message of a failed tx *)
  | GetTxResult _ _ => option Z * option string
  | IsSettlementComplete _ _ _ => bool
  | OrderFillsByFiller _ _ _ => list Fill
  | QueryOrderFillEvent _ _ _ => option OrderFillEvent * Time
  | OrderExists _ _ _ _ => bool * option Z
  | IsOrderRefunded _ _ _ => bool * string
  | OrderStatusOnChain _ _ _ => Z
  | HasBeenDelivered _ _ => bool
  | IsContract _ _ => bool
  | ValidatorsAndThreshold _ _ _ => list string * Z
  | ValidatorStorageLocations _ _ => list ValidatorStorageLocation
  | GetHyperlaneDispatch _ _ _ => MailboxDispatchEvent * MailboxMerkleHookPostDispatchEvent
  | QuoteProcessUUSDC _ _ _ => Z
  | Process _ _ _ => list byte * string
  | FetchLocalCheckpoint _ _ | FetchS3Checkpoint _ _ => SignedCheckpoint
  | SkipBalance _ => BalancesResponse
  | SkipRoute _ _ _ _ _ => RouteResponse
  | SkipMsgs _ _ _ _ _ _ _ _ _ _ => list Tx
  | SkipTrackTx _ _ => string
  | SkipStatus _ _ => list Transfer
  | EvmGetClient _ => unit
  | EvmUSDCBalance _ _ _ => Z
  | EvmAllowance _ _ _ _ => Z
  | EvmEstimateGas _ _ _ _ _ => Z
  | EvmSuggestGasPrice _ => Z
  | NewSigner _ => unit
  | PackApprove _ _ => list byte
  | ExecuteTx _ _ _ _ _ => string * string
  | GasCostUUSDC _ _ => Z
  | TxFeeUUSDC _ _ _ => Z
  | EthGetClient _ => unit
  | HeaderByNumber _ => Z
  | NewGateway _ _ => unit
  (* the logs the iterator yields, and the error it stops at, if any *)
  | FilterOrderSubmitted _ _ _ _ => list OrderSubmittedLog * option error
  | WsGetClient _ | SubscribeNewHead _ | SubscribeFilterLogs _ _ => unit
  | TmGetClient _ => unit
  | TmLatestBlockHeight _ => Z
  | SignerGasTokenBalance _ => option Z
  | Net r => net_response r
  end.

(** An environment: answers to requests, from a hidden state [E]. *)
Class Env (E : Type) := env_answer : ∀ r : request, E → (error + response r) * E.

(** A request with the answer it got. *)
Definition event : Type := { r : request & (error + response r)%type }.

(** The state of the clients: [CachedPriceClient.cache] (price and time of each
    key), the gas monitor's [lastBalanceCheck], [lastSubmissionTime] of the two
    transaction executors, the chains the client managers have a client for, and
    [HyperlaneClient.ismAddress] per domain, and the chains the Cosmos executor's
    Tendermint and gRPC managers have a connection for. *)
Record Clients := mkClients {
  priceCache : gmap string (bigfloat * Time);
  lastBalanceCheck : gmap string Time;
  evmLastSubmissionTime : Time;
  cosmosLastSubmissionTime : Time;
  bridgeClients : gset string;
  wsClients : gset string;
  evmClients : gset string;
  ismAddress : gmap string string;
  tmClients : gset string;
  grpcClients : gset string
}.

Definition no_clients : Clients := mkClients ∅ ∅ zero_time zero_time ∅ ∅ ∅ ∅ ∅ ∅.

(** The maps the components keep in memory: [OrderSettler.ordersSeen],
    [FundRebalancer.profitabilityFailures] (the time of the first failure),
    [TransferMonitor.didQuickStart], and the clients' own state. *)
Record Memory := mkMemory {
  ordersSeen : gset string;
  profitabilityFailures : gmap string Time;
  didQuickStart : gset string;
  clients : Clients
}.

Definition empty_memory : Memory := mkMemory ∅ ∅ ∅ no_clients.

Definition set_clients (f : Clients → Clients) (m : Memory) : Memory :=
  mkMemory (ordersSeen m) (profitabilityFailures m) (didQuickStart m) (f (clients m)).

Record World (E : Type) := mkWorld {
  w_db : Database;
  w_mem : Memory;
  w_env : E;
  w_trace : list event
}.
Arguments mkWorld {E} _ _ _ _.
Arguments w_db {E} _.
Arguments w_mem {E} _.
Arguments w_env {E} _.
Arguments w_trace {E} _.

Section world.
Context {E : Type} `{Env E}.

Notation IO := (M (World E)).

(** One call to the outside. *)
Definition ask (r : request) : IO (response r) := λ w,
  let '(a, e) := env_answer r (w_env w) in
  (match a with inl err => Err err | inr v => Ok v end,
   mkWorld (w_db w) (w_mem w) e (w_trace w ++ [existT r a])).

Definition set_db (d : Database) (w : World E) : World E :=
  mkWorld d (w_mem w) (w_env w) (w_trace w).

Definition set_mem (m : Memory) (w : World E) : World E :=
  mkWorld (w_db w) m (w_env w) (w_trace w).

(** Reading and writing the components' maps. *)
Definition get_mem : IO Memory := λ w, (Ok (w_mem w), w).
Definition update_mem (f : Memory → Memory) : IO unit := λ w, (Ok tt, set_mem (f (w_mem w)) w).

(** One query.  The driver may fail (locked file, cancelled context) before the
    statement takes effect, with an error that is none of the program's sentinels;
    otherwise the statement runs at the time the driver says. *)
Definition run_query {A} (q : query A) (c : stmt) : IO A := λ w,
  let '(r, d) := q c (w_db w) in (r, set_db d w).
Definition db_exec {A} (q : query A) : IO A :=
  a ← attempt (ask DbStmt);
  match a with
  | inl err => throw (ErrNew (error_msg err))
  | inr c => run_query q c
  end.

(** db.InTx: on an error of the body, or when the commit fails, the database is
    what it was before; the calls the body made outside stay made. *)
Definition in_tx {A} (body : IO A) : IO A := λ w,
    match wrap_err "executing transaction: " body w with
    | (Ok a, w1) =>
        match wrap_err "committing transaction: " (ask DbCommit) w1 with
        | (Ok _, w2) => (Ok a, w2)
        | (Err e, w2) => (Err e, set_db (w_db w) w2)
        | (Panic p, w2) => (Panic p, set_db (w_db w) w2)
        end
    | (Err e, w1) => (Err e, set_db (w_db w) w1)
    | (Panic p, w1) => (Panic p, set_db (w_db w) w1)
    end.
Definition InTx {A} (body : IO A) : IO A :=
  _ ← wrap_err "beginning tx: " (ask DbBegin); in_tx body.

(** [time.Now()] does not fail. *)
Definition time_now : IO Time :=
  a ← attempt (ask TimeNow);
  mret (match a with inr t => t | inl _ => zero_time end).

(** [time.Since(t)] *)
Definition time_Since (t : Time) : IO Duration :=
  now ← time_now; mret (time_since now t).

(** ** Go map iteration and goroutine order *)

(** Takes elements of [l] in the order the numbers say (each modulo what is
    left), then the rest: any permutation of [l], depending on the numbers. *)
Fixpoint permute {A} (ks : list nat) (l : list A) : list A :=
  match ks with
  | [] => l
  | k :: ks' =>
      match l !! (k mod length l)%nat with
      | Some x => x :: permute ks' (delete (k mod length l)%nat l)
      | None => l
      end
  end.

(** [for k, v := range m]: Go visits the entries in an unspecified order. *)
Definition range {A} (l : list A) : IO (list A) :=
  a ← attempt (ask MapOrder);
  mret (match a with inr ks => permute ks l | inl _ => l end).
End world.

(** ** Permutation lemmas *)

Lemma permute_Permutation {A} ks (l : list A) : permute ks l ≡ₚ l.
Proof.
  revert l. induction ks as [|k ks IH]; intros l; simpl; [done|].
  destruct (l !! (k mod length l)%nat) as [x|] eqn:Hx; [|done].
  rewrite IH. symmetry. by apply delete_Permutation.
Qed.

(** Every order is possible. *)
Lemma permute_surjective {A} (l l' : list A) : l ≡ₚ l' → ∃ ks, permute ks l = l'.
Proof.
  revert l. induction l' as [|x l' IH]; intros l Hl.
  - exists []. by apply Permutation_nil_r in Hl.
  - assert (x ∈ l) as Hx by (rewrite Hl; by left).
    apply list_elem_of_lookup in Hx as [k Hk].
    destruct (IH (delete k l)) as [ks Hks].
    { apply (inj (x ::.)). rewrite <-Hl. symmetry. by apply delete_Permutation. }
    exists (k :: ks). simpl. apply lookup_lt_Some in Hk as Hlt.
    rewrite Nat.mod_small by done. by rewrite Hk, Hks.
Qed.

(** ** What a computation may do *)

Section frames.
Context {E : Type} `{Env E}.
Implicit Types w : World E.

(** The requests made between two worlds all satisfy [P]. *)
Definition emits (P : request → Prop) (w w' : World E) : Prop :=
  ∃ new : list event, w_trace w' = w_trace w ++ new ∧ Forall (λ ev, P (projT1 ev)) new.

(** The databases of two worlds are related by [R]. *)
Definition db_rel (R : Database → Database → Prop) (w w' : World E) : Prop :=
  R (w_db w) (w_db w').

(** The components' memories of two worlds are related by [R]. *)
Definition mem_rel (R : Memory → Memory → Prop) (w w' : World E) : Prop :=
  R (w_mem w) (w_mem w').

#[export] Instance mem_rel_preorder R `{!PreOrder R} : PreOrder (mem_rel R).
Proof.
  split; [by intros w; unfold mem_rel|].
  intros w1 w2 w3 ??. unfold mem_rel in *. by etransitivity.
Qed.

#[export] Instance emits_preorder P : PreOrder (emits P).
Proof.
  split.
  - intros w. exists []. by rewrite app_nil_r.
  - intros w1 w2 w3 (n1&Hw2&?) (n2&Hw3&?). exists (n1 ++ n2).
    rewrite Hw3, Hw2, app_assoc. split; [done|]. by apply Forall_app.
Qed.

#[export] Instance db_rel_preorder R `{!PreOrder R} : PreOrder (db_rel R).
Proof.
  split; [by intros w; unfold db_rel|].
  intros w1 w2 w3 ??. unfold db_rel in *. by etransitivity.
Qed.

#[export] Instance db_ok_step_preorder : PreOrder db_ok_step.
Proof.
  split; [by intros d Hd|].
  intros d1 d2 d3 H1 H2 Hd. destruct (H1 Hd) as [Hd2 ?]. destruct (H2 Hd2).
  split; [done|by etransitivity].
Qed.

(** The requests a computation may make. *)
Lemma emits_ask (P : request → Prop) r : P r → frame (emits P) (ask r).
Proof.
  intros Hr w. unfold ask. destruct (env_answer r (w_env w)) as [a e]. simpl.
  exists [existT r a]. split; [done|]. by repeat constructor.
Qed.

Lemma emits_db_exec P {A} (q : query A) : P DbStmt → frame (emits P) (db_exec q).
Proof.
  intros HP. apply frame_bind;
    [typeclasses eauto|apply frame_attempt; exact (emits_ask P DbStmt HP)|].
  intros [err|c] w; [reflexivity|].
  unfold run_query. destruct (q c (w_db w)) as [r d]. simpl. by exists []; rewrite app_nil_r.
Qed.

Lemma emits_InTx P {A} (m : M (World E) A) :
  P DbBegin → P DbCommit → frame (emits P) m → frame (emits P) (InTx m).
Proof.
  intros HB HC Hm. apply frame_bind; [typeclasses eauto|..].
  { apply frame_wrap_err. exact (emits_ask P DbBegin HB). }
  intros _ w. unfold in_tx. specialize (Hm w). unfold wrap_err.
  destruct (m w) as [[a|e|p] w1]; simpl in *; [|done..].
  pose proof (emits_ask P DbCommit HC w1) as Hc.
  destruct (ask DbCommit w1) as [[u|e|p] w2]; simpl in *; by (etransitivity; [exact Hm|]).
Qed.

Lemma emits_time_now (P : request → Prop) : P TimeNow → frame (emits P) time_now.
Proof.
  intros HP. apply frame_bind;
    [typeclasses eauto|apply frame_attempt; exact (emits_ask P TimeNow HP)|].
  intros. apply frame_ret, _.
Qed.

Lemma emits_range (P : request → Prop) {A} (l : list A) :
  P MapOrder → frame (emits P) (range l).
Proof.
  intros HP. apply frame_bind;
    [typeclasses eauto|apply frame_attempt; exact (emits_ask P MapOrder HP)|].
  intros. apply frame_ret, _.
Qed.

Lemma emits_get_mem P : frame (emits P) get_mem.
Proof. intros w. reflexivity. Qed.
Lemma emits_update_mem P f : frame (emits P) (update_mem f).
Proof. intros w. by exists []; rewrite app_nil_r. Qed.

(** The database steps a computation may make. *)
Section db_rel.
Context (R : Database → Database → Prop) `{HR : !PreOrder R}.

Lemma db_rel_ask r : frame (db_rel R) (ask r).
Proof.
  intros w. unfold ask, db_rel. destruct (env_answer r (w_env w)). simpl. reflexivity.
Qed.

Lemma db_rel_exec {A} (q : query A) : (∀ c d, R d (q c d).2) → frame (db_rel R) (db_exec q).
Proof.
  intros Hq. apply frame_bind; [typeclasses eauto|apply frame_attempt; exact (db_rel_ask DbStmt)|].
  intros [err|c] w; [unfold db_rel; simpl; reflexivity|].
  unfold run_query, db_rel. specialize (Hq c (w_db w)). by destruct (q c (w_db w)).
Qed.

Lemma db_rel_InTx {A} (m : M (World E) A) : frame (db_rel R) m → frame (db_rel R) (InTx m).
Proof.
  intros Hm. apply frame_bind; [typeclasses eauto|..].
  { apply frame_wrap_err. exact (db_rel_ask DbBegin). }
  intros _ w. unfold in_tx. specialize (Hm w). unfold wrap_err.
  destruct (m w) as [[a|e|p] w1]; simpl in *; [|unfold db_rel; simpl; reflexivity..].
  pose proof (db_rel_ask DbCommit w1) as Hc.
  destruct (ask DbCommit w1) as [[u|e|p] w2]; simpl in *;
    [by etransitivity; [exact Hm|]|unfold db_rel; simpl; reflexivity..].
Qed.

Lemma db_rel_get_mem : frame (db_rel R) get_mem.
Proof. intros w. reflexivity. Qed.
Lemma db_rel_update_mem f : frame (db_rel R) (update_mem f).
Proof. intros w. unfold db_rel. simpl. reflexivity. Qed.

Lemma db_rel_time_now : frame (db_rel R) time_now.
Proof.
  apply frame_bind; [typeclasses eauto|apply frame_attempt; exact (db_rel_ask TimeNow)|].
  intros. apply frame_ret, _.
Qed.

Lemma db_rel_range {A} (l : list A) : frame (db_rel R) (range l).
Proof.
  apply frame_bind; [typeclasses eauto|apply frame_attempt; exact (db_rel_ask MapOrder)|].
  intros. apply frame_ret, _.
Qed.
End db_rel.

(** The memory steps a computation may make. *)
Lemma mem_rel_ask R `{!PreOrder R} r : frame (mem_rel R) (ask r).
Proof.
  intros w. unfold ask, mem_rel. destruct (env_answer r (w_env w)). simpl. reflexivity.
Qed.

Lemma mem_rel_time_now R `{!PreOrder R} : frame (mem_rel R) time_now.
Proof.
  apply frame_bind; [typeclasses eauto|apply frame_attempt; exact (mem_rel_ask R TimeNow)|].
  intros. apply frame_ret, _.
Qed.

Lemma mem_rel_get_mem R `{!PreOrder R} : frame (mem_rel R) get_mem.
Proof. intros w. unfold mem_rel. simpl. reflexivity. Qed.

Lemma mem_rel_update_mem (R : Memory → Memory → Prop) f :
  (∀ m, R m (f m)) → frame (mem_rel R) (update_mem f).
Proof. intros Hf w. apply Hf. Qed.

(** The queries of the program keep the database well formed and its history. *)
Lemma db_ok_exec {A} (q : query A) : db_query q → frame (db_rel db_ok_step) (db_exec q).
Proof. intros Hq. apply db_rel_exec; [typeclasses eauto|]. by apply query_step. Qed.
End frames.

#[export] Hint Resolve emits_db_exec emits_InTx emits_time_now emits_range
  emits_get_mem emits_update_mem mem_rel_time_now mem_rel_get_mem db_rel_get_mem db_rel_update_mem db_rel_InTx db_rel_time_now db_rel_range db_ok_exec : frame.
#[export] Hint Extern 0 (frame (emits ?P) (ask ?r)) => refine (emits_ask P r _) : frame.
#[export] Hint Extern 0 (frame (db_rel ?R) (ask ?r)) => refine (db_rel_ask R r) : frame.
#[export] Hint Constructors db_query : frame.

(** Proves [frame R m] by walking the text of [m]: program constructs by the
    rules of the prelude, calls by the rules above (leaving the conditions on
    requests and on database steps), the operations of other components by the
    hints of [frame], and case analysis on whatever the program branches on. *)
Ltac solve_io :=
  repeat first
    [ progress intros
    | assumption
    | lazymatch goal with
      | |- frame (emits ?P) (ask ?r) => refine (emits_ask P r _)
      | |- frame (db_rel ?R) (ask ?r) => refine (db_rel_ask R r)
      | |- frame (mem_rel ?R) (ask ?r) => refine (mem_rel_ask R r)
      | |- frame (emits ?P) (db_exec ?q) => refine (emits_db_exec P q _)
      | |- frame (emits ?P) time_now => refine (emits_time_now P _)
      | |- frame (emits ?P) (range ?l) => refine (emits_range P l _)
      | |- frame (emits ?P) (InTx ?m) => refine (emits_InTx P m _ _ _)
      end
    | solve [auto 2 with frame nocore]
    | lazymatch goal with
      | |- frame _ (mbind _ _) => apply frame_bind; [try typeclasses eauto|..]
      | |- frame _ (attempt _) => apply frame_attempt
      | |- frame _ (wrap_err _ _) => apply frame_wrap_err
      | |- frame _ (on_panic _ _) => apply frame_on_panic; [try typeclasses eauto|..]
      | |- frame _ (for_each _ _) => apply frame_for_each; [try typeclasses eauto|]
      | |- frame _ (loop _ _ _) => apply frame_loop; [try typeclasses eauto|]
      | |- frame _ (fold_m _ _ _) => apply frame_fold_m; [try typeclasses eauto|]
      | |- frame _ (retry_last _ _) => apply frame_retry_last; [try typeclasses eauto|]
      | |- frame _ (retry _ _) => apply frame_retry; [try typeclasses eauto|]
      | |- frame (db_rel _) (InTx _) => apply db_rel_InTx; [try typeclasses eauto|]
      | |- frame _ (match ?x with _ => _ end) => destruct x
      | |- frame _ (let '(_, _) := ?x in _) => destruct x
      end ].

(** ** Weakest preconditions of the primitives *)

Section wp_prims.
Context {E : Type} `{Env E}.
Implicit Types w : World E.

(** The world after a call. *)
Definition after (r : request) (a : error + response r) (e : E) (w : World E) : World E :=
  mkWorld (w_db w) (w_mem w) e (w_trace w ++ [existT r a]).

Lemma wp_ask r Q w :
  (∀ a e, env_answer r (w_env w) = (a, e) →
     Q (match a with inl err => Err err | inr v => Ok v end) (after r a e w)) →
  wp (ask r) Q w.
Proof.
  intros HQ. unfold wp, ask, after in *. destruct (env_answer r (w_env w)) as [a e] eqn:Ha.
  by apply HQ.
Qed.

Lemma wp_db_exec {A} (q : query A) Q w :
  (∀ err e, Q (Err (ErrNew (error_msg err))) (after DbStmt (inl err) e w)) →
  (∀ c e, Q (q c (w_db w)).1 (set_db (q c (w_db w)).2 (after DbStmt (inr c) e w))) →
  wp (db_exec q) Q w.
Proof.
  intros Herr Hok. apply wp_bind, wp_attempt. refine (wp_ask DbStmt _ w _).
  intros [err|c] e _; [apply Herr|].
  unfold wp, run_query. simpl. specialize (Hok c e). by destruct (q c (w_db w)).
Qed.

Lemma wp_time_now Q w :
  (∀ t a e, Q (Ok t) (after TimeNow a e w)) → wp time_now Q w.
Proof.
  intros HQ. apply wp_bind, wp_attempt. refine (wp_ask TimeNow _ w _). intros [err|t] e _; apply wp_ret; apply HQ.
Qed.

(** ... remembering the answer. *)
Definition clock_reading (a : error + Time) : Time :=
  match a with inr t => t | inl _ => zero_time end.

Lemma wp_time_now_answer Q w :
  (∀ a e, Q (Ok (clock_reading a)) (after TimeNow a e w)) → wp time_now Q w.
Proof.
  intros HQ. apply wp_bind, wp_attempt. refine (wp_ask TimeNow _ w _).
  intros [err|t] e _; apply wp_ret; [apply (HQ (inl err))|apply (HQ (inr t))].
Qed.

Lemma wp_range {A} (l : list A) Q w :
  (∀ l' a e, l' ≡ₚ l → Q (Ok l') (after MapOrder a e w)) → wp (range l) Q w.
Proof.
  intros HQ. apply wp_bind, wp_attempt. refine (wp_ask MapOrder _ w _).
  intros [err|ks] e _; apply wp_ret; apply HQ; [done|apply permute_Permutation].
Qed.

(** A transaction: either the body succeeded and its changes are kept, or the
    database is the one before. *)
Lemma wp_InTx {A} (m : M (World E) A) (Q : result A → World E → Prop) w :
  (∀ err w', w_db w' = w_db w → Q (Err err) w') →
  (∀ a e,
     let w0 := after DbBegin a e w in
     wp m (λ r w1,
       match r with
       | Ok v => ∀ a' e', Q (Ok v) (after DbCommit a' e' w1)
       | Err _ => True
       | Panic p => Q (Panic p) (set_db (w_db w) w1)
       end) w0) →
  wp (InTx m) Q w.
Proof.
  intros Herr Hbody. apply wp_bind, wp_wrap_err. refine (wp_ask DbBegin _ w _). intros [err|u] e _; [by apply Herr|].
  specialize (Hbody (inr u) e). cbv zeta in Hbody.
  assert (w_db (after DbBegin (inr u) e w) = w_db w) as Hdb by done.
  revert Hbody Hdb. generalize (after DbBegin (inr u) e w). clear u e. intros w0 Hbody Hdb.
  unfold wp, in_tx, wrap_err in *. rewrite Hdb.
  destruct (m w0) as [[v|err|p] w1]; simpl in *; [|by apply Herr|exact Hbody].
  unfold ask. destruct (env_answer DbCommit (w_env w1)) as [[err|[]] e']; simpl; [by apply Herr|].
  apply (Hbody (inr ())).
Qed.
End wp_prims.

Section wp_frames.
Context {E : Type} `{Env E}.
Implicit Types w : World E.

(** A computation that leaves the database alone. *)
Lemma wp_same_db {A} (m : M (World E) A) (Q : result A → World E → Prop) w :
  frame (db_rel eq) m → (∀ r w', w_db w' = w_db w → Q r w') → wp m Q w.
Proof.
  intros Hm HQ. apply wp_intro. intros r w' Hrun. apply HQ. specialize (Hm w).
  rewrite Hrun in Hm. by unfold db_rel in Hm.
Qed.

(** ... and only makes requests of [P]. *)
Lemma wp_quiet P {A} (m : M (World E) A) (Q : result A → World E → Prop) w :
  frame (db_rel eq) m → frame (emits P) m →
  (∀ r w', w_db w' = w_db w → emits P w w' → Q r w') → wp m Q w.
Proof.
  intros Hm He HQ. apply wp_intro. intros r w' Hrun. specialize (Hm w). specialize (He w).
  rewrite Hrun in Hm, He. apply HQ; [by unfold db_rel in Hm|done].
Qed.

Lemma emits_after (P : request → Prop) w w1 r a e :
  emits P w w1 → P r → emits P w (after r a e w1).
Proof.
  intros (new&Ht&Hnew) Hr. exists (new ++ [existT r a]). simpl. rewrite Ht, app_assoc.
  split; [done|]. apply Forall_app. split; [done|]. by constructor.
Qed.

Lemma emits_set_db (P : request → Prop) w w1 d : emits P w w1 → emits P w (set_db d w1).
Proof. done. Qed.

(** After a statement. *)
Lemma emits_stmt (P : request → Prop) w w1 c e d :
  emits P w w1 → P DbStmt → emits P w (set_db d (after DbStmt (inr c) e w1)).
Proof. intros. by apply emits_set_db, emits_after. Qed.
End wp_frames.

(** ** What was asked *)

(** The request was made, with this answer, between [w] and [w']. *)
Definition asked {E} (w w' : World E) (ev : event) : Prop :=
  ∃ new, w_trace w' = w_trace w ++ new ∧ ev ∈ new.

Section asked.
Context {E : Type}.
Implicit Types w : World E.

Lemma asked_here P w w1 r a e : emits P w w1 → asked w (after r a e w1) (existT r a).
Proof.
  intros (new&Ht&_). exists (new ++ [existT r a]). simpl. rewrite Ht, app_assoc.
  split; [done|]. apply elem_of_app. right. by left.
Qed.

Lemma asked_later P w w1 w2 ev : asked w w1 ev → emits P w1 w2 → asked w w2 ev.
Proof.
  intros (new&Ht&?) (new'&Ht'&_). exists (new ++ new'). rewrite Ht', Ht, app_assoc.
  split; [done|]. apply elem_of_app. by left.
Qed.

Lemma asked_earlier P w0 w1 w2 ev : emits P w0 w1 → asked w1 w2 ev → asked w0 w2 ev.
Proof.
  intros (new'&Ht'&_) (new&Ht&?). exists (new' ++ new). rewrite Ht, Ht', app_assoc.
  split; [done|]. apply elem_of_app. by right.
Qed.

(** One request [r] among requests of [P]. *)
Lemma sent_between P w w1 w' r a post :
  emits P w w1 → w_trace w' = (w_trace w1 ++ [existT r a]) ++ post →
  Forall (λ ev : event, P (projT1 ev)) post →
  ∃ pre, w_trace w1 = w_trace w ++ pre ∧ w_trace w' = w_trace w ++ pre ++ existT r a :: post ∧
    Forall (λ ev : event, P (projT1 ev)) (pre ++ post).
Proof.
  intros (pre&Ht&Hpre) Ht' Hpost. exists pre. split; [done|].
  split; [by rewrite Ht', Ht, <-!app_assoc|by apply Forall_app].
Qed.

Lemma asked_new w w' new ev : asked w w' ev → w_trace w' = w_trace w ++ new → ev ∈ new.
Proof. intros (new'&Ht&?) Ht'. rewrite Ht in Ht'. by apply app_inv_head in Ht' as <-. Qed.
End asked.

(** The requests made between two worlds, with their answers, all satisfy [P]. *)
Definition emits_ev {E} (P : event → Prop) (w w' : World E) : Prop :=
  ∃ new : list event, w_trace w' = w_trace w ++ new ∧ Forall P new.

Section emits_ev.
Context {E : Type} (P : event → Prop).
Implicit Types w : World E.

#[export] Instance emits_ev_preorder : PreOrder (@emits_ev E P).
Proof.
  split.
  - intros w. exists []. by rewrite app_nil_r.
  - intros w1 w2 w3 (n1&Hw2&?) (n2&Hw3&?). exists (n1 ++ n2).
    rewrite Hw3, Hw2, app_assoc. split; [done|]. by apply Forall_app.
Qed.

Lemma emits_ev_after w w1 r a e :
  emits_ev P w w1 → P (existT r a) → emits_ev P w (after r a e w1).
Proof.
  intros (new&Ht&Hnew) Hr. exists (new ++ [existT r a]). simpl. rewrite Ht, app_assoc.
  split; [done|]. apply Forall_app. split; [done|]. by constructor.
Qed.

Lemma emits_ev_weaken (Q : request → Prop) w w' :
  (∀ r a, Q r → P (existT r a)) → emits Q w w' → emits_ev P w w'.
Proof.
  intros HQ (new&Ht&Hnew). exists new. split; [done|].
  eapply Forall_impl; [exact Hnew|]. intros [r a] ?. by apply HQ.
Qed.

Lemma emits_ev_asked w w' ev : emits_ev P w w' → asked w w' ev → P ev.
Proof.
  intros (new&Ht&Hnew) Ha. eapply Forall_forall; [exact Hnew|]. by eapply asked_new.
Qed.

(** Computations that make only such calls. *)
Lemma frame_emits_ev_ask `{Env E} r :
  (∀ a, P (existT r a)) → frame (emits_ev P) (ask r : M (World E) _).
Proof.
  intros Hr w. unfold ask. destruct (env_answer r (w_env w)) as [a e]. simpl.
  exists [existT r a]. split; [done|]. by repeat constructor.
Qed.
End emits_ev.

Ltac solve_emits_ev :=
  repeat lazymatch goal with
  | |- emits_ev ?P ?w ?w => reflexivity
  | |- emits_ev ?P ?w (set_db ?d ?w1) => change (emits_ev P w w1)
  | |- emits_ev ?P ?w (set_mem ?m ?w1) => change (emits_ev P w w1)
  | |- emits_ev ?P ?w (after ?r ?a ?e ?w1) => refine (emits_ev_after P w w1 r a e _ _)
  end; try done.

(** ** Guards on the trace *)

(** Every request [r] of the trace was made when what came before it satisfied
    [G _ r]. *)
Definition guarded (G : list event → request → Prop) (l : list event) : Prop :=
  ∀ pre ev post, l = pre ++ ev :: post → G pre (projT1 ev).

Section guarded.
Context (G : list event → request → Prop).

Lemma guarded_nil : guarded G [].
Proof. intros pre ev post Hl. by destruct pre. Qed.

Lemma guarded_snoc l ev : guarded G l → G l (projT1 ev) → guarded G (l ++ [ev]).
Proof.
  intros Hl Hev pre ev' post Heq. destruct post as [|x post _] using rev_ind.
  - apply app_inj_tail in Heq as [-> ->]. done.
  - rewrite app_comm_cons, app_assoc in Heq. apply app_inj_tail in Heq as [Heq _].
    by eapply Hl.
Qed.

(** Requests that need no guard. *)
Lemma guarded_app l l' :
  guarded G l → Forall (λ ev, ∀ pre, G pre (projT1 ev)) l' → guarded G (l ++ l').
Proof.
  intros Hl Hl'. induction l' as [|ev l' IH] using rev_ind; [by rewrite app_nil_r|].
  apply Forall_app in Hl' as [? Hev]. inversion Hev; subst.
  rewrite app_assoc. apply guarded_snoc; auto.
Qed.
End guarded.

(** Runs the monad's constructs and case analyses of a [wp] goal; stops at calls. *)
Ltac wp_step :=
  lazymatch goal with
  | |- wp (mbind _ _) _ _ => apply wp_bind
  | |- wp (wrap_err _ _) _ _ => apply wp_wrap_err
  | |- wp (attempt _) _ _ => apply wp_attempt
  | |- wp (on_panic _ _) _ _ => apply wp_on_panic
  | |- wp (mret _) _ _ => apply wp_ret
  | |- wp (throw _) _ _ => apply wp_throw
  | |- wp (go_panic _) _ _ => apply wp_panic
  | |- wp (ask ?r) ?Q ?w => refine (wp_ask r Q w _); intros [?|?] ? ?
  | |- wp (db_exec ?q) _ _ => apply wp_db_exec; intros
  | |- wp time_now _ _ => apply wp_time_now; intros
  | |- wp (range _) _ _ => apply wp_range; intros
  | |- wp (lift_result ?r) ?Q ?w => change (Q r w)
  | |- wp get_mem ?Q ?w => change (Q (Ok (w_mem w)) w)
  | |- wp (update_mem ?f) ?Q ?w => change (Q (Ok tt) (set_mem (f (w_mem w)) w))
  | |- wp (or_throw ?o _) _ _ => destruct o eqn:?; simpl or_throw
  | |- wp (match ?x with _ => _ end) _ _ => destruct x eqn:?
  | |- wp (let '(_, _) := ?x in _) _ _ => destruct x eqn:?
  | |- match ?x with _ => _ end => destruct x eqn:?
  end; cbn beta iota.

Ltac wp_steps := cbn beta iota; repeat wp_step.

(** The same, remembering what the clock answered. *)
Ltac wp_clock :=
  cbn beta iota; repeat first
    [ lazymatch goal with |- wp time_now _ _ => apply wp_time_now_answer; intros ? ? end
    | wp_step ].

(** From a run [m w = (r, w')] to the [wp] of what the goal says of [r] and [w']. *)
Ltac run_wp H :=
  lazymatch type of H with
  | ?m ?w = (?r, ?w') =>
      let r' := fresh "r" in
      let Hr := fresh "Hr" in
      remember r as r' eqn:Hr in H; revert Hr; pattern r', w';
      refine (wp_run m _ w r' w' H _); clear H
  end.

(** Splits off the requests a run of calls made since [w]. *)
Ltac trace_new :=
  eexists; split; [simpl w_trace; rewrite <-?app_assoc; simpl; reflexivity|].

(** Proves that a run of calls made only requests of [P]. *)
Ltac solve_emits :=
  repeat lazymatch goal with
  | |- emits ?P ?w ?w => reflexivity
  | |- emits ?P ?w (set_db ?d ?w1) => apply (emits_set_db P w w1 d)
  | |- emits ?P ?w (set_mem ?m ?w1) => change (emits P w w1)
  | |- emits ?P ?w (after ?r ?a ?e ?w1) => refine (emits_after P w w1 r a e _ _)
  end; try done.

(** Finds a request among those of a run of calls. *)
Ltac solve_asked :=
  lazymatch goal with
  | |- asked ?w (set_db ?d ?w1) ?ev => change (asked w w1 ev); solve_asked
  | |- asked ?w (set_mem ?d ?w1) ?ev => change (asked w w1 ev); solve_asked
  | |- asked ?w (after ?r ?a ?e ?w1) ?ev =>
      first [ refine (asked_here (λ _, True) w w1 r a e _); by solve_emits
            | refine (asked_later (λ _, True) w w1 _ ev _ _); [solve_asked|by solve_emits] ]
  | |- asked _ _ _ => eassumption
  end.

(** Finds an event in the trace of a run of calls. *)
Ltac trace_elem :=
  simpl w_trace;
  repeat first
    [ apply elem_of_app; right; apply list_elem_of_singleton; reflexivity
    | apply elem_of_app; left ].

(** ** A simulated environment *)

(** Stateless answers: the clock stands at zero, database statements run, maps
    are visited in list order; what is not a runtime request goes to [f]. *)
Definition sim_env (f : ∀ r, error + response r) : Env unit := λ r e,
  (match r as r return error + response r with
   | TimeNow => inr 0
   | MapOrder => inr []
   | RunsNow => inr true
   | DbStmt => inr (mkStmt 0 0)
   | DbBegin => inr tt
   | DbCommit => inr tt
   | r => f r
   end, e).

Definition offline : ∀ r, error + response r := λ _, inl (ErrNew "connection refused").

Definition sim_world (d : Database) : World unit := mkWorld d empty_memory tt [].
