(* ===== verification/Prices.v ===== *)
(** * Prices: token prices over HTTP

    shared/clients/utils/rate_limited_http_client.go ([RateLimitedHTTPClient_Do]),
    shared/clients/coingecko/client.go ([CoingeckoClient]) and
    shared/clients/coingecko/price_client.go (the cache in front of it, whose state
    is [priceCache] of the world's memory).  A [PriceClient] is what the oracle is
    written against. *)
From Stdlib Require Import Ascii.
From Stdlib Require String.
From S2P Require Import Prelude GoLib Json Network Database World.

(** ** The rate-limited HTTP client *)

(** [strconv.Atoi] *)
Definition strconv_Atoi (s : string) : result Z :=
  match bigint_SetString s with
  | None => Err (num_error "Atoi" s "invalid syntax")
  | Some z => if (- 2 ^ 63 <=? z) && (z <? 2 ^ 63) then Ok z
              else Err (num_error "Atoi" s "value out of range")
  end.

(** The interval between requests and the burst of the limiter. *)
Definition DefaultRateLimitedHTTPClient (requestsPerMinute : Z) : Duration * Z :=
  let rpm := if requestsPerMinute =? 0 then 10 else requestsPerMinute in
  (Z.quot Minute rpm, Z.quot rpm 2).

Section http.
Context {E : Type} `{Env E}.
Notation IO := (M (World E)).

Definition RateLimitedHTTPClient_Do (req : HttpRequest) : IO HttpResponse :=
  _ ← ask (Net LimiterWait);
  res ← ask (Net (HttpDo req));
  if hs_StatusCode res =? 429 then
    match strconv_Atoi (hs_RetryAfter res) with
    | Ok retryAfter =>
        _ ← attempt (ask (Net (Sleep (i64 (retryAfter * Second)))));
        ask (Net (HttpDo req))
    | _ => mret res
    end
  else mret res.
End http.

(** ** The CoinGecko client *)

Record CoingeckoClient := mkCoingeckoClient { cg_baseURL : string; cg_apiKey : string }.

(** [map[string]struct{ USD float64 `json:"usd"` }] *)
Definition dec_usd : Decoder bigfloat := λ j, fs ← dec_fields j; dec_field fs "usd" dec_float64.
Definition dec_simple_prices : Decoder (gmap string bigfloat) := dec_map dec_usd.

(** [HistoricalPriceResponse] *)
Definition dec_historical : Decoder (gmap string bigfloat) := λ j,
  fs ← dec_fields j;
  dec_field fs "market_data" (λ md, fs' ← dec_fields md; dec_field fs' "current_price" (dec_map dec_float64)).

Definition price_missing (coingeckoID text : string) : error :=
  ErrNew ("failed to return price for coingeckoId " +:+ coingeckoID +:+ ", response " +:+ text).

Section coingecko.
Context {E : Type} `{Env E}.
Notation IO := (M (World E)).

Definition api_key (c : CoingeckoClient) : list (string * string) :=
  if String.eqb (cg_apiKey c) "" then [] else [("x_cg_pro_api_key", cg_apiKey c)].

(** The request, the status check and the decoding both getters share. *)
Definition get_json {A} (d : Decoder A) (req : HttpRequest) : IO (string * A) :=
  res ← RateLimitedHTTPClient_Do req;
  if negb (hs_StatusCode res =? 200) then throw (ErrNew "error requesting resource from server")
  else
    match hs_Body res with
    | inl err => throw err
    | inr (text, j) => a ← lift_result (json_Unmarshal d j); mret (text, a)
    end.

Definition CoingeckoClient_GetSimplePrice (c : CoingeckoClient) (coingeckoID currency : string) :
    IO bigfloat :=
  '(text, prices) ← get_json dec_simple_prices
    (mkHttpRequest "GET" (cg_baseURL c +:+ "/simple/price")
       ([("ids", coingeckoID); ("vs_currencies", currency)] ++ api_key c) None);
  match prices !! coingeckoID with
  | None => throw (price_missing coingeckoID text)
  | Some usd => mret usd
  end.

(** [date] is the date in the format the service wants. *)
Definition CoingeckoClient_GetHistoricalPrice (c : CoingeckoClient)
    (coingeckoID currency date : string) : IO bigfloat :=
  '(text, prices) ← get_json dec_historical
    (mkHttpRequest "GET" (cg_baseURL c +:+ "/coins/" +:+ coingeckoID +:+ "/history")
       ([("date", date)] ++ api_key c) None);
  match prices !! currency with
  | None => throw (price_missing coingeckoID text)
  | Some price => mret price
  end.
End coingecko.

(** ** The cache *)

(** [strings.ReplaceAll(s, "/", "//")] *)
Fixpoint double_slashes (s : string) : string :=
  match s with
  | EmptyString => EmptyString
  | String c s' =>
      if Ascii.eqb c "/" then String "/" (String "/" (double_slashes s'))
      else String c (double_slashes s')
  end.

Definition cacheKey (coingeckoID currency : string) : string :=
  double_slashes coingeckoID +:+ "/" +:+ double_slashes currency.

Definition cache_price (key : string) (p : bigfloat) (t : Time) : Clients → Clients := λ c,
  mkClients (<[key := (p, t)]> (priceCache c)) (lastBalanceCheck c) (evmLastSubmissionTime c)
    (cosmosLastSubmissionTime c) (bridgeClients c) (wsClients c) (evmClients c) (ismAddress c)
    (tmClients c) (grpcClients c).

Section cache.
Context {E : Type} `{Env E}.
Notation IO := (M (World E)).

(** The interface [coingecko.PriceClient]. *)
Definition PriceClient : Type := string → string → IO bigfloat.

Definition NoOpPriceClient : PriceClient := λ _ _, mret (BF 0 0).

Definition CachedPriceClient_GetSimplePrice (internalClient : PriceClient)
    (cacheRefreshInterval : Duration) : PriceClient := λ coingeckoID currency,
  let key := cacheKey coingeckoID currency in
  mem ← get_mem;
  let cached := priceCache (clients mem) !! key in
  stale ← (match cached with
           | None => mret true
           | Some (_, lastUpdated) =>
               since ← time_Since lastUpdated; mret (cacheRefreshInterval <? since)
           end);
  match cached, stale with
  | Some (price, _), false => mret price
  | _, _ =>
      price ← internalClient coingeckoID currency;
      now ← time_now;
      _ ← update_mem (set_clients (cache_price key price now));
      mret price
  end.
End cache.

(** ** Theorems *)

Section http_theorems.
Context {E : Type} `{Env E}.
Implicit Types w : World E.

(** What one call does, in order: the limiter refuses; or the request is sent once;
    or, after an answer 429 that names a delay, once more after that delay. *)
Inductive http_script (req : HttpRequest) : list event → Prop :=
  | http_refused a : http_script req [existT (Net LimiterWait) a]
  | http_once a res :
      (∀ v, res = inr v → hs_StatusCode v = 429 → ¬ ∃ n, strconv_Atoi (hs_RetryAfter v) = Ok n) →
      http_script req [existT (Net LimiterWait) a; existT (Net (HttpDo req)) res]
  | http_retried a v n b res :
      hs_StatusCode v = 429 → strconv_Atoi (hs_RetryAfter v) = Ok n →
      http_script req [existT (Net LimiterWait) a; existT (Net (HttpDo req)) (inr v);
        existT (Net (Sleep (i64 (n * Second)))) b; existT (Net (HttpDo req)) res].

(** A call waits for the limiter, sends the request, and sends it once more when
    the answer was 429 with a readable delay, after that delay; it never sends it a
    third time. *)
Theorem RateLimitedHTTPClient_Do_bounded (req : HttpRequest) w r w' :
  RateLimitedHTTPClient_Do req w = (r, w') →
  w_db w' = w_db w ∧ w_mem w' = w_mem w ∧
  ∃ new, w_trace w' = w_trace w ++ new ∧ http_script req new.
Proof.
  intros Hrun. run_wp Hrun. unfold RateLimitedHTTPClient_Do. wp_steps; intros <-;
    (split; [done|]); (split; [done|]); trace_new;
    try (eapply http_retried; [by apply Z.eqb_eq|eassumption]); constructor;
    intros ? [= <-] Hst; try (intros [n ?]; congruence).
  by apply Z.eqb_neq in Heqb.
Qed.

(** Every price the cache returns is an answer of the inner client for this key:
    one it stored at most the refresh interval ago by the clock, without calling the
    inner client, or one just fetched and stored with the time.  A failed fetch
    leaves the cache as it was. *)
Theorem CachedPriceClient_spec (inner : PriceClient) interval id currency w r w' :
  frame (mem_rel eq) (inner id currency) →
  CachedPriceClient_GetSimplePrice inner interval id currency w = (r, w') →
  let key := cacheKey id currency in
  let cache := λ w : World E, priceCache (clients (w_mem w)) in
  match r with
  | Ok p =>
      (∃ t a, cache w !! key = Some (p, t) ∧ time_since (clock_reading a) t ≤ interval ∧
         asked w w' (existT TimeNow a) ∧ w_mem w' = w_mem w ∧ emits (.= TimeNow) w w') ∨
      (∃ w1 w2 a, emits (.= TimeNow) w w1 ∧ inner id currency w1 = (Ok p, w2) ∧
         asked w2 w' (existT TimeNow a) ∧ emits (.= TimeNow) w2 w' ∧
         cache w' = <[key := (p, clock_reading a)]> (cache w))
  | _ => w_mem w' = w_mem w
  end.
Proof.
  intros Hframe Hrun key cache. revert Hrun. unfold CachedPriceClient_GetSimplePrice. fold key.
  assert (∀ w0, w_mem w0 = w_mem w → emits (.= TimeNow) w w0 →
    wp (price ← inner id currency; now ← time_now;
        _ ← update_mem (set_clients (cache_price key price now)); mret price)
      (λ r w', match r with
       | Ok p => ∃ w1 w2 a, emits (.= TimeNow) w w1 ∧ inner id currency w1 = (Ok p, w2) ∧
           asked w2 w' (existT TimeNow a) ∧ emits (.= TimeNow) w2 w' ∧
           cache w' = <[key := (p, clock_reading a)]> (cache w)
       | _ => w_mem w' = w_mem w
       end) w0) as Hmiss.
  { intros w0 Hmem Hw0. apply wp_bind, wp_intro. intros r0 w2 Hin.
    pose proof (Hframe w0) as Hf. rewrite Hin in Hf. unfold mem_rel in Hf. simpl in Hf. rewrite Hmem in Hf.
    destruct r0 as [p|e|p]; [|by symmetry..].
    apply wp_bind, wp_time_now_answer. intros a e. wp_steps.
    exists w0, w2, a. split; [done|]. split; [done|]. split; [solve_asked|].
    split; [by solve_emits|]. unfold cache. simpl. by rewrite <-Hf. }
  intros Hrun. unfold time_Since in Hrun. run_wp Hrun. apply wp_bind. wp_step.
  fold (cache w). destruct (cache w !! key) as [[p t]|] eqn:Hc; apply wp_bind.
  - apply wp_bind, wp_bind, wp_time_now_answer. intros a e. do 2 apply wp_ret.
    destruct (Z.ltb_spec interval (time_since (clock_reading a) t)).
    + eapply wp_mono; [|apply (Hmiss (after TimeNow a e w)); [done|by solve_emits]].
      intros r1 w0 HQ <-. destruct r1; [right|..]; exact HQ.
    + wp_steps. intros <-. left. exists t, a. split_and!; [done|lia|solve_asked|done|by solve_emits].
  - apply wp_ret. eapply wp_mono; [|apply (Hmiss w); [done|reflexivity]].
    intros r1 w0 HQ <-. destruct r1; [right|..]; exact HQ.
Qed.
End http_theorems.

(** ** Cache keys *)

Fixpoint no_slash (s : string) : bool :=
  match s with
  | EmptyString => true
  | String c s' => negb (Ascii.eqb c "/") && no_slash s'
  end.

(** The first "/" of the key of an id without "/" separates it from the currency. *)
Lemma split_cacheKey id currency :
  no_slash id = true →
  split_first (λ c, Ascii.eqb c "/") (cacheKey id currency) = (id, Some (double_slashes currency)).
Proof.
  unfold cacheKey. induction id as [|c id IH]; [done|]. simpl.
  rewrite andb_true_iff, negb_true_iff. intros [Hc Hid]. rewrite Hc. simpl. rewrite Hc.
  by rewrite IH.
Qed.

Lemma double_slashes_inj s t : double_slashes s = double_slashes t → s = t.
Proof.
  revert t. induction s as [|c s IH]; intros [|d t]; simpl; [done|repeat case_match; done..|].
  destruct (Ascii.eqb_spec c "/") as [->|Hc], (Ascii.eqb_spec d "/") as [->|Hd];
    intros Heq; simplify_eq; f_equal; auto.
Qed.

(** Tokens whose ids have no "/" never share a cache entry. *)
Theorem cacheKey_injective id1 cur1 id2 cur2 :
  no_slash id1 = true → no_slash id2 = true →
  cacheKey id1 cur1 = cacheKey id2 cur2 → id1 = id2 ∧ cur1 = cur2.
Proof.
  intros H1 H2 Heq. pose proof (split_cacheKey id1 cur1 H1) as Hs.
  rewrite Heq, split_cacheKey in Hs by done. simplify_eq.
  split; [done|]. by apply double_slashes_inj.
Qed.

(** Doubling the separator is no escaping: with "/" in an id two tokens may share
    an entry. *)
Example cacheKey_collision : cacheKey "a/" "b" = cacheKey "a" "/b".
Proof. reflexivity. Qed.

Lemma cacheKey_injective_witness :
  cacheKey "osmosis" "usd" = cacheKey "osmosis" "usd" → "osmosis" = "osmosis" ∧ "usd" = "usd".
Proof. intros Heq. by apply cacheKey_injective. Defined.
