(* ===== verification/Oracle.v ===== *)
(** * Oracle: what a transaction costs in uusdc

    shared/oracle/tx_price_oracle.go.  The price of the gas token is a float64 in
    USD; the oracle multiplies it by 10^6 as a [big.Float], prints the product with
    [String()] and parses the text as an integer.  [bf_String] is that printing
    ([Text('g', 10)]), so the theorems say for which prices the conversion is exact
    and for which it fails. *)
From Stdlib Require Import Ascii.
From Stdlib Require String.
From S2P Require Import Prelude GoLib Config Json Network Database World Prices.

(** ** Printing a [big.Float] *)

(** The number of decimal digits of [q > 0]. *)
Fixpoint count_digits (fuel : nat) (q : Z) : Z :=
  match fuel with
  | O => 0
  | S f => if q <? 10 then 1 else 1 + count_digits f (q / 10)
  end.
Definition num_digits (q : Z) : Z := count_digits (S (Z.to_nat (Z.log2 q))) q.

(** The exponent [e] with [10 ^ (e - 1) <= n / d < 10 ^ e], for [n, d > 0]. *)
Definition dec_exponent (n d : Z) : Z :=
  if d <=? n then num_digits (n / d) else 1 - num_digits ((d - 1) / n).

(** [n / d] rounded to ten significant digits, ties to even: [(m, e)] stands for
    [m * 10 ^ (e - 10)] with [10 ^ 9 <= m < 10 ^ 10]. *)
Definition round_decimal (n d : Z) : Z * Z :=
  let e := dec_exponent n d in
  let m := if e <=? 10 then round_half_even (n * 10 ^ (10 - e)) d
           else round_half_even n (d * 10 ^ (e - 10)) in
  if m =? 10 ^ 10 then (10 ^ 9, e + 1) else (m, e).

(** The digits of [m] without trailing zeros. *)
Fixpoint trim_zeros (k : nat) (m : Z) : Z :=
  match k with
  | O => 0
  | S k' => if m mod 10 =? 0 then trim_zeros k' (m / 10) else Z.of_nat k
  end.

(** [z] in decimal, padded with zeros to [k] digits. *)
Fixpoint zeros (k : nat) : string :=
  match k with O => EmptyString | S k' => String "0" (zeros k') end.
Definition pad (k z : Z) : string :=
  let s := bigint_String z in zeros (Z.to_nat k - String.length s) +:+ s.

(** [%f] with [k] decimals, of [m * 10 ^ (e - 10)] with [e <= 10]. *)
Definition fmt_f (m e k : Z) : string :=
  let int := bigint_String (m / 10 ^ (10 - e)) in
  if k =? 0 then int
  else int +:+ "." +:+ pad k (m mod 10 ^ (10 - e) / 10 ^ (10 - e - k)).

(** [%e] with the [len] digits of [m], at least one. *)
Definition fmt_e (m e len : Z) : string :=
  let x := e - 1 in
  let digits := bigint_String (m / 10 ^ (10 - len)) in
  let mant := match digits with
              | EmptyString => EmptyString
              | String c EmptyString => digits
              | String c rest => String c (String "." rest)
              end in
  mant +:+ (if x <? 0 then "e-" else "e+") +:+ pad 2 (Z.abs x).

(** [x.String()], which is [x.Text('g', 10)]. *)
Definition bf_String (x : bigfloat) : string :=
  let n := bf_num x in
  if n =? 0 then "0"
  else
    let '(m, e) := round_decimal (Z.abs n) (bf_den x) in
    let len := trim_zeros 10 m in
    let sign := if n <? 0 then "-" else "" in
    let eprec := if (len <? 10) && (e <=? len) then len else 10 in
    if (e - 1 <? -4) || (eprec <=? e - 1) then sign +:+ fmt_e m e len
    else sign +:+ fmt_f m e (if e <? 10 then Z.max (len - e) 0 else 0).

(** ** The oracle *)

Definition coingeckoUSDCurrency : string := "usd".
Definition UUSDC_PER_USD : Z := 1000000.
Definition DynamicFeeTxType : Z := 2.

Section oracle.
Context {E : Type}.
Notation IO := (M (World E)).
Context (reader : configReader) (coingecko : PriceClient (E := E)).

(** [new(big.Float).Mul(big.NewFloat(price), new(big.Float).SetInt64(1000000))]: the
    product has the larger precision, that of [SetInt64]. *)
Definition price_uusdc (price : bigfloat) : bigfloat :=
  bf_Mul 64 price (bf_SetInt UUSDC_PER_USD).

Definition Oracle_GasCostUUSDC (txFee : option Z) (chainID : string) : IO Z :=
  chainConfig ← wrap_err ("getting config for chain " +:+ chainID +:+ ": ")
    (lift_result (GetChainConfig reader chainID));
  let id := GasTokenCoingeckoID chainConfig in
  gasTokenPriceUSD ← wrap_err ("getting CoinGecko price of " +:+ id +:+ " in USD: ")
    (coingecko id coingeckoUSDCurrency);
  let smallestGasTokenConversion := 10 ^ GasTokenDecimals chainConfig in
  let text := bf_String (price_uusdc gasTokenPriceUSD) in
  gasTokenPriceUUSDCInt ← or_throw (bigint_SetString text)
    ("converting " +:+ id +:+ " price in uusdc " +:+ text +:+ " to *big.Int");
  match txFee with
  | None => go_panic "nil dereference: txFee"
  | Some fee => mret (bigint_Div (gasTokenPriceUUSDCInt * fee) smallestGasTokenConversion)
  end.

(** [ChainId()] of the transaction printed: "<nil>" for a nil number. *)
Definition chain_id_string (id : option Z) : string :=
  match id with Some z => bigint_String z | None => "<nil>" end.

Definition Oracle_TxFeeUUSDC (tx : EthTx) : IO Z :=
  if negb (eth_Type tx =? DynamicFeeTxType) then
    throw (ErrNew ("tx type must be dynamic fee tx, got " +:+ bigint_String (eth_Type tx)))
  else
    match eth_GasFeeCap tx with
    | None => throw (ErrNew "tx's gas fee cap must be set")
    | Some estimatedPricePerGas =>
        let txFee := estimatedPricePerGas * i64 (eth_Gas tx) in
        Oracle_GasCostUUSDC (Some txFee) (chain_id_string (eth_ChainID tx))
    end.
End oracle.

(** ** Ten significant digits *)

Lemma count_digits_spec fuel q :
  0 < q < 2 ^ Z.of_nat fuel →
  1 ≤ count_digits fuel q ∧ 10 ^ (count_digits fuel q - 1) ≤ q < 10 ^ count_digits fuel q.
Proof.
  revert q. induction fuel as [|f IH]; intros q Hq; [simpl in Hq; lia|].
  cbn [count_digits]. destruct (Z.ltb_spec q 10); [simpl; lia|].
  rewrite Nat2Z.inj_succ, Z.pow_succ_r in Hq by lia.
  assert (0 < q / 10 < 2 ^ Z.of_nat f) as Hq' by (split; [apply Z.div_str_pos|apply Z.div_lt_upper_bound]; lia).
  destruct (IH _ Hq') as (H1&H2&H3). set (k := count_digits f (q / 10)) in *. clearbody k.
  replace (1 + k - 1) with (1 + (k - 1)) by lia. rewrite !Z.pow_add_r by lia.
  pose proof (Z.div_mod q 10). pose proof (Z.mod_pos_bound q 10). lia.
Qed.

Lemma num_digits_spec q :
  0 < q → 1 ≤ num_digits q ∧ 10 ^ (num_digits q - 1) ≤ q < 10 ^ num_digits q.
Proof.
  intros Hq. apply count_digits_spec. rewrite Nat2Z.inj_succ, Z2Nat.id by apply Z.log2_nonneg.
  pose proof (Z.log2_spec q Hq). lia.
Qed.

(** Scaled by its exponent, a value below [10 ^ 10] has ten digits. *)
Lemma dec_exponent_scaled n d :
  0 < n < 10 ^ 10 * d → let e := dec_exponent n d in
  e ≤ 10 ∧ 10 ^ 9 * d ≤ n * 10 ^ (10 - e) < 10 ^ 10 * d.
Proof.
  intros Hn e. unfold e, dec_exponent. destruct (Z.leb_spec d n) as [Hd|Hd].
  - assert (0 < n / d) as Hq by (apply Z.div_str_pos; lia).
    destruct (num_digits_spec _ Hq) as (H1&H2&H3).
    pose proof (Z.div_mod n d). pose proof (Z.mod_pos_bound n d).
    set (k := num_digits (n / d)) in *. clearbody k.
    assert (k ≤ 10) as Hk.
    { destruct (Z.le_gt_cases k 10) as [|Hk]; [done|].
      assert (10 ^ 10 ≤ 10 ^ (k - 1)) by (apply Z.pow_le_mono_r; lia).
      assert (10 ^ 10 * d ≤ n / d * d) by (apply Z.mul_le_mono_nonneg_r; lia). lia. }
    split; [done|].
    assert (10 ^ 9 = 10 ^ (k - 1) * 10 ^ (10 - k)) as ->
      by (rewrite <-Z.pow_add_r by lia; f_equal; lia).
    assert (10 ^ 10 = 10 ^ k * 10 ^ (10 - k)) as ->
      by (rewrite <-Z.pow_add_r by lia; f_equal; lia).
    assert (0 < 10 ^ (10 - k)) by (apply Z.pow_pos_nonneg; lia).
    assert (10 ^ (k - 1) * d ≤ n) by nia. assert (n < 10 ^ k * d) by nia. nia.
  - assert (0 < (d - 1) / n) as Hq by (apply Z.div_str_pos; lia).
    destruct (num_digits_spec _ Hq) as (H1&H2&H3).
    pose proof (Z.div_mod (d - 1) n). pose proof (Z.mod_pos_bound (d - 1) n).
    set (k := num_digits ((d - 1) / n)) in *. clearbody k. split; [lia|].
    replace (10 - (1 - k)) with (9 + k) by lia. rewrite (Z.pow_add_r 10 9 k) by lia.
    assert (10 ^ k = 10 * 10 ^ (k - 1)) as Hk
      by (rewrite <-Z.pow_succ_r by lia; f_equal; lia).
    assert (n * 10 ^ (k - 1) < d) by nia. assert (d ≤ n * 10 ^ k) by nia. nia.
Qed.

(** A value within one part in [2 ^ 50] of an integer [K] below [10 ^ 10] rounds to
    [K]. *)
Lemma round_decimal_near n d K :
  0 < K < 10 ^ 10 → 0 < d → 2 ^ 50 * Z.abs (n - K * d) ≤ K * d →
  let '(m, e) := round_decimal n d in 1 ≤ e ≤ 10 ∧ m = K * 10 ^ (10 - e).
Proof.
  intros HK Hd Hnear. unfold round_decimal.
  assert (0 < n < 10 ^ 10 * d) as Hn by nia.
  destruct (dec_exponent_scaled n d Hn) as (He&Hlo&Hhi). set (e := dec_exponent n d) in *. clearbody e.
  rewrite (proj2 (Z.leb_le e 10)) by done.
  assert (0 < 10 ^ (10 - e)) as Hs by (apply Z.pow_pos_nonneg; lia).
  set (s := 10 ^ (10 - e)) in *.
  rewrite (round_half_even_unique (n * s) d (K * s)); [|done|].
  2: { replace (K * s * d - n * s) with (- (s * (n - K * d))) by ring.
       rewrite Z.abs_opp, Z.abs_mul, (Z.abs_eq s) by lia. nia. }
  assert (K * s ≤ 10 ^ 10) as Hle.
  { assert (2 ^ 50 * (K * s * d) ≤ (2 ^ 50 + 1) * (n * s) + K * d * s) by nia. nia. }
  assert (0 ≤ e) as He0.
  { destruct (Z.le_gt_cases 0 e); [done|].
    assert (10 ^ 11 ≤ s) by (apply Z.pow_le_mono_r; lia). nia. }
  assert (10 ^ e * s = 10 ^ 10) as Hes by (unfold s; rewrite <-Z.pow_add_r by lia; f_equal; lia).
  destruct (Z.eqb_spec (K * s) (10 ^ 10)) as [Heq|Hne].
  - assert (K = 10 ^ e) as -> by nia.
    assert (e < 10) by (apply (Z.pow_lt_mono_r_iff 10); lia).
    split; [lia|]. rewrite <-Z.pow_add_r by lia. f_equal. lia.
  - split; [|done]. split; [|done].
    destruct (Z.le_gt_cases 1 e); [done|]. replace e with 0 in * by lia. nia.
Qed.

Lemma trim_zeros_le k m : trim_zeros k m ≤ Z.of_nat k.
Proof. revert m. induction k as [|k IH]; intros m; cbn; [lia|]. case_match; [|lia]. specialize (IH (m / 10)). lia. Qed.

(** A multiple of [10 ^ (k - j)] has at most [j] digits before its zeros. *)
Lemma trim_zeros_multiple k q j :
  0 ≤ j ≤ Z.of_nat k → trim_zeros k (q * 10 ^ (Z.of_nat k - j)) ≤ j.
Proof.
  revert j. induction k as [|k IH]; intros j Hj; cbn [trim_zeros]; [lia|].
  destruct (decide (j = Z.of_nat (S k))) as [->|Hne]; [apply (trim_zeros_le (S k))|].
  replace (Z.of_nat (S k) - j) with (1 + (Z.of_nat k - j)) by lia.
  rewrite Z.pow_add_r by lia. replace (q * (10 ^ 1 * 10 ^ (Z.of_nat k - j)))
    with (q * 10 ^ (Z.of_nat k - j) * 10) by ring.
  rewrite Z.mod_mul, Z.div_mul by lia. cbn. apply IH. lia.
Qed.

(** ** Which prices convert *)

(** The product of the float nearest to [K / 10 ^ 6] and [10 ^ 6] is within one part
    in [2 ^ 52] of [K]. *)
Lemma price_uusdc_near K :
  0 < K → let z := price_uusdc (bf_round 53 K UUSDC_PER_USD) in
  2 ^ 52 * Z.abs (bf_num z - K * bf_den z) ≤ K * bf_den z.
Proof.
  intros HK z. set (p := bf_round 53 K UUSDC_PER_USD) in *.
  pose proof (bf_round_error 53 K UUSDC_PER_USD ltac:(lia) ltac:(done)) as Hp. fold p in Hp.
  pose proof (bf_den_pos p) as Hpd. pose proof (bf_den_pos z) as Hzd.
  pose proof (bf_round_error 64 (bf_num p * UUSDC_PER_USD) (bf_den p) ltac:(lia) Hpd) as Hz.
  assert (z = bf_round 64 (bf_num p * UUSDC_PER_USD) (bf_den p)) as Hzeq.
  { unfold z, price_uusdc, bf_Mul. f_equal; apply Z.mul_1_r. }
  rewrite <-Hzeq in Hz. clearbody p z. unfold UUSDC_PER_USD in *.
  rewrite (Z.abs_eq K) in Hp by lia. set (a := bf_num p * 1000000) in *. clearbody a.
  assert (0 ≤ a ≤ 2 * (K * bf_den p)) as Ha by nia. rewrite (Z.abs_eq a) in Hz by lia.
  assert (bf_den p * Z.abs (bf_num z - K * bf_den z) ≤
    Z.abs (bf_num z * bf_den p - a * bf_den z) + bf_den z * Z.abs (a - K * bf_den p)) as Htri.
  { pose proof (Z.abs_mul (bf_den p) (bf_num z - K * bf_den z)) as H1.
    pose proof (Z.abs_mul (bf_den z) (a - K * bf_den p)) as H2.
    rewrite (Z.abs_eq (bf_den p)) in H1 by lia. rewrite (Z.abs_eq (bf_den z)) in H2 by lia. lia. }
  assert (2 ^ 53 * (bf_den z * Z.abs (a - K * bf_den p)) ≤ K * bf_den p * bf_den z) by nia.
  assert (2 ^ 53 * Z.abs (bf_num z * bf_den p - a * bf_den z) ≤ K * bf_den p * bf_den z) by nia.
  assert (bf_den p * (2 ^ 52 * Z.abs (bf_num z - K * bf_den z)) ≤ bf_den p * (K * bf_den z)) by nia.
  nia.
Qed.

(** Prices below 10,000 USD with at most six decimals print as the integer they are
    in uusdc. *)
Lemma bf_String_price K :
  0 ≤ K < 10 ^ 10 → bf_String (price_uusdc (bf_round 53 K UUSDC_PER_USD)) = bigint_String K.
Proof.
  intros HK. destruct (decide (K = 0)) as [->|HK0]; [done|].
  pose proof (price_uusdc_near K ltac:(lia)) as Hnear. cbv zeta in Hnear.
  set (z := price_uusdc _) in *. pose proof (bf_den_pos z) as Hd. clearbody z.
  assert (0 < bf_num z) as Hn by nia.
  unfold bf_String. rewrite (proj2 (Z.eqb_neq _ 0)), (proj2 (Z.ltb_ge _ 0)), Z.abs_eq by lia.
  pose proof (round_decimal_near (bf_num z) (bf_den z) K ltac:(lia) Hd ltac:(lia)) as Hr.
  destruct (round_decimal (bf_num z) (bf_den z)) as [m e]. destruct Hr as [He ->].
  pose proof (trim_zeros_multiple 10 K e ltac:(lia)) as Ht. change (Z.of_nat 10) with 10 in Ht.
  set (len := trim_zeros 10 _) in *. clearbody len.
  assert (((e - 1 <? -4) || ((if (len <? 10) && (e <=? len) then len else 10) <=? e - 1)) = false)
    as -> by (destruct (Z.ltb_spec len 10), (Z.leb_spec e len); simpl; lia).
  assert ((if e <? 10 then Z.max (len - e) 0 else 0) = 0) as -> by (case_match; lia).
  unfold fmt_f. simpl. by rewrite Z.div_mul by (apply Z.pow_nonzero; lia).
Qed.

(** ** Texts that are no integer *)

Fixpoint has_char (c : ascii) (s : string) : bool :=
  match s with
  | EmptyString => false
  | String c' s' => Ascii.eqb c' c || has_char c s'
  end.

Lemma has_char_app c s t : has_char c (s +:+ t) = has_char c s || has_char c t.
Proof. induction s as [|c' s IH]; [done|]. simpl. by rewrite IH, orb_assoc. Qed.

Lemma uint_of_string_has_e s :
  has_char "e" s = true → DecimalString.NilEmpty.uint_of_string s = None.
Proof.
  induction s as [|c s IH]; [done|]. simpl. rewrite orb_true_iff.
  intros [->%Ascii.eqb_eq|Hs]; [by destruct (DecimalString.NilEmpty.uint_of_string s)|].
  by rewrite IH.
Qed.

Lemma parse_digits_has_e s : has_char "e" s = true → parse_digits s = None.
Proof.
  intros Hs. unfold parse_digits. destruct s as [|c s]; [done|].
  unfold DecimalString.NilZero.uint_of_string. by rewrite uint_of_string_has_e.
Qed.

Lemma bigint_SetString_has_e s : has_char "e" s = true → bigint_SetString s = None.
Proof.
  intros Hs. pose proof (parse_digits_has_e s Hs) as Hp.
  destruct s as [|[[] [] [] [] [] [] [] []] s]; try exact Hp;
    unfold bigint_SetString; by rewrite parse_digits_has_e.
Qed.

(** From [10 ^ 10] on a float prints with an exponent. *)
Lemma bf_String_large z :
  10 ^ 10 * bf_den z ≤ bf_num z → has_char "e" (bf_String z) = true.
Proof.
  intros Hz. pose proof (bf_den_pos z) as Hd. unfold bf_String.
  rewrite (proj2 (Z.eqb_neq _ 0)), (proj2 (Z.ltb_ge _ 0)), Z.abs_eq by lia.
  destruct (round_decimal (bf_num z) (bf_den z)) as [m e] eqn:Hr.
  assert (11 ≤ e) as He.
  { revert Hr. unfold round_decimal. assert (11 ≤ dec_exponent (bf_num z) (bf_den z)) as He.
    { unfold dec_exponent. rewrite (proj2 (Z.leb_le _ _)) by lia.
      assert (10 ^ 10 ≤ bf_num z / bf_den z) as Hq by (apply Z.div_le_lower_bound; lia).
      destruct (num_digits_spec (bf_num z / bf_den z) ltac:(lia)) as (?&_&Hk).
      assert (10 < num_digits (bf_num z / bf_den z)); [|lia].
      apply (Z.pow_lt_mono_r_iff 10); lia. }
    set (e0 := dec_exponent _ _) in *. clearbody e0. repeat case_match; intros [= <- <-]; lia. }
  pose proof (trim_zeros_le 10 m) as Hl. set (len := trim_zeros 10 m) in *. clearbody len.
  replace ((len <? 10) && (e <=? len)) with false
    by (rewrite (proj2 (Z.leb_gt e len)) by lia; by rewrite andb_false_r).
  rewrite (proj2 (Z.leb_le 10 (e - 1))), orb_true_r by lia.
  unfold fmt_e. rewrite !has_char_app. destruct (e - 1 <? 0); simpl has_char; by rewrite ?orb_true_r.
Qed.

Lemma price_uusdc_large K :
  10 ^ 10 ≤ K → let z := price_uusdc (bf_round 53 K UUSDC_PER_USD) in
  10 ^ 10 * bf_den z ≤ bf_num z.
Proof.
  intros HK z. destruct (decide (K = 10 ^ 10)) as [->|Hne]; [by vm_compute|].
  pose proof (price_uusdc_near K ltac:(lia)) as Hnear. cbv zeta in Hnear. fold z in Hnear.
  pose proof (bf_den_pos z) as Hd. clearbody z.
  assert ((10 ^ 10 + 1) * bf_den z ≤ K * bf_den z) by (apply Z.mul_le_mono_nonneg_r; lia). lia.
Qed.

(** ** The cost of a transaction *)

Section theorems.
Context {E : Type}.
Implicit Types w : World E.
Context (reader : configReader) (coingecko : PriceClient (E := E)).

(** C29. For a price of [K] uusdc (a USD price below 10,000 with at most six decimals, as
    the float64 nearest to it) a dynamic fee transaction costs exactly its gas limit
    times its fee cap, times [K], divided by the token's unit and rounded down. *)
Theorem TxFeeUUSDC_exact (tx : EthTx) chainID cfg cap K w w' :
  eth_Type tx = DynamicFeeTxType → eth_ChainID tx = Some chainID →
  eth_GasFeeCap tx = Some cap → 0 ≤ eth_Gas tx < 2 ^ 63 →
  GetChainConfig reader (bigint_String chainID) = Ok cfg → 0 ≤ GasTokenDecimals cfg →
  0 ≤ K < 10 ^ 10 →
  coingecko (GasTokenCoingeckoID cfg) "usd" w = (Ok (bf_round 53 K UUSDC_PER_USD), w') →
  Oracle_TxFeeUUSDC reader coingecko tx w =
    (Ok (K * (cap * eth_Gas tx) / 10 ^ GasTokenDecimals cfg), w').
Proof.
  intros Ht Hc Hcap Hgas Hcfg Hdec HK Hp. unfold Oracle_TxFeeUUSDC.
  rewrite Ht, Hc, Hcap. simpl. unfold Oracle_GasCostUUSDC. rewrite Hcfg.
  unfold mbind, M_bind, wrap_err, lift_result. unfold coingeckoUSDCurrency. rewrite Hp.
  rewrite bf_String_price, bigint_SetString_String by done. simpl.
  rewrite i64_id, bigint_Div_pos by (try apply Z.pow_pos_nonneg; lia). done.
Qed.

(** A gas token worth 10,000 USD or more has no cost: printing its price switches to
    exponent notation, which does not parse as an integer. *)
Theorem GasCostUUSDC_expensive_token (fee : option Z) chainID cfg K w w' :
  GetChainConfig reader chainID = Ok cfg → 10 ^ 10 ≤ K →
  coingecko (GasTokenCoingeckoID cfg) "usd" w = (Ok (bf_round 53 K UUSDC_PER_USD), w') →
  ∃ msg, Oracle_GasCostUUSDC reader coingecko fee chainID w = (Err (ErrNew msg), w').
Proof.
  intros Hcfg HK Hp. unfold Oracle_GasCostUUSDC. rewrite Hcfg.
  unfold mbind, M_bind, wrap_err, lift_result, coingeckoUSDCurrency. rewrite Hp.
  rewrite bigint_SetString_has_e by (by apply bf_String_large, price_uusdc_large).
  by eexists.
Qed.
End theorems.

(** ** Examples *)

(** A service that quotes every token at [price]. *)
Definition price_service (price : string) : Env unit := sim_env (λ r,
  match r as r return error + response r with
  | Net LimiterWait => inr tt
  | Net (HttpDo req) =>
      inr (mkHttpResponse 200 "" (inr ("", JObj [("ethereum", JObj [("usd", JNum price)])])))
  | r => offline r
  end).

Definition sample_coingecko : CoingeckoClient := mkCoingeckoClient "https://api" "key".

Definition sample_tx : EthTx :=
  mkEthTx 2 (Some 42161) 7 (Some 100000000) (Some 300000000) 240000 (Some "0xmailbox") (Some 0) [].

Definition sample_fee (price : string) : result Z :=
  (Oracle_TxFeeUUSDC sample_reader
     (CoingeckoClient_GetSimplePrice (H := price_service price) sample_coingecko)
     sample_tx (sim_world empty_db)).1.

(** Two decimals convert; more than ten significant digits or 10,000 USD do not. *)
Example fee_two_decimals : sample_fee "3512.25" = Ok 252882.
Proof. by vm_compute. Qed.
Example fee_many_decimals : ∃ e, sample_fee "0.4567891" = Err e.
Proof. eexists. by vm_compute. Qed.
Example fee_bitcoin : ∃ e, sample_fee "64999.5" = Err e.
Proof. eexists. by vm_compute. Qed.

Lemma TxFeeUUSDC_exact_witness :
  sample_fee "3512.25" = Ok (3512250000 * (300000000 * 240000) / 10 ^ 18).
Proof.
  unfold sample_fee.
  erewrite (TxFeeUUSDC_exact sample_reader _ sample_tx 42161
    sample_arbitrum 300000000 3512250000); [reflexivity|try reflexivity..|]; vm_compute; done.
Defined.

Lemma GasCostUUSDC_expensive_token_witness :
  ∃ msg w', Oracle_GasCostUUSDC sample_reader
    (CoingeckoClient_GetSimplePrice (H := price_service "64999.5") sample_coingecko)
    (Some 1) "42161" (sim_world empty_db) = (Err (ErrNew msg), w').
Proof.
  edestruct (GasCostUUSDC_expensive_token sample_reader
    (CoingeckoClient_GetSimplePrice (H := price_service "64999.5") sample_coingecko) (Some 1)
    "42161" sample_arbitrum 64999500000) as [msg Hm]; [reflexivity|done|vm_compute; reflexivity|].
  eauto.
Defined.
