(* ===== verification/GasMonitor.v ===== *)
(** * GasMonitor: watching the signers' gas balances

    gasmonitor/gasmonitor.go.  [monitorGasBalance] is one check of one chain; the
    loops receive events (a tick, a new header, a broken subscription, the end of the
    context) and are run over a script of them.  The package-level map
    [lastBalanceCheck] is part of the world's memory.  What a check exports (the
    metric and the error log) is its result. *)
From S2P Require Import Prelude GoLib Config Json Network Database World.

Definition balanceCheckCooldown : Duration := Hour.

(** What a check exports: nothing during the cooldown, else the balance with its
    thresholds and whether it is logged as low. *)
Inductive gas_outcome :=
  | GasSkipped
  | GasReported (chainID : string) (balance warning critical : Z) (low : bool).

(** What the loops receive. *)
Inductive gm_event := GmTick | GmHeader | GmSubErr | GmDone.

Definition note_balance_check (chainID : string) (t : Time) : Clients → Clients := λ c,
  mkClients (priceCache c) (<[chainID := t]> (lastBalanceCheck c)) (evmLastSubmissionTime c)
    (cosmosLastSubmissionTime c) (bridgeClients c) (wsClients c) (evmClients c) (ismAddress c)
    (tmClients c) (grpcClients c).

Section gasmonitor.
Context {E : Type} `{Env E}.
Notation IO := (M (World E)).
Context (reader : configReader).

(** Whether the last check of the chain is less than the cooldown ago. *)
Definition in_cooldown (chainID : string) : IO bool :=
  mem ← get_mem;
  match lastBalanceCheck (clients mem) !! chainID with
  | None => mret false
  | Some lastCheck => since ← time_Since lastCheck; mret (since <? balanceCheckCooldown)
  end.

(** [balance, err := chainClient.SignerGasTokenBalance(ctx)] and the time of the
    check, which is kept also when the call failed. *)
Definition check_balance (chainID : string) : IO (error + option Z) :=
  balance ← attempt (ask (SignerGasTokenBalance chainID));
  now ← time_now;
  _ ← update_mem (set_clients (note_balance_check chainID now));
  mret balance.

Definition monitorGasBalance (chainID : string) : IO gas_outcome :=
  skip ← in_cooldown chainID;
  if skip : bool then mret GasSkipped
  else
    checked ← check_balance chainID;
    match checked with
    | inl err => throw err
    | inr balance =>
        chainConfig ← lift_result (GetChainConfig reader chainID);
        '(warning, critical) ← lift_result (GetGasAlertThresholds reader chainID);
        match balance with
        | None => throw (ErrNew ("gas balance or alert thresholds are nil for chain " +:+ chainID))
        | Some b => mret (GasReported chainID b warning critical (b <? critical))
        end
    end.

(** An error of a check is logged. *)
Definition monitor_logged (chainID : string) : IO (list gas_outcome) :=
  r ← attempt (monitorGasBalance chainID);
  mret (match r with inl _ => [] | inr o => [o] end).

(** One tick of [startRPCMonitor]: the chains in turn; a client that cannot be
    created ends the monitor. *)
Definition rpc_tick (chains : list ChainConfig) : IO (list gas_outcome) :=
  fold_m (λ acc chain,
    _ ← ask (GetClient (ChainID chain));
    o ← monitor_logged (ChainID chain);
    mret (acc ++ o)) [] chains.

(** The outcomes so far, and whether the loop returned. *)
Fixpoint startRPCMonitor (chains : list ChainConfig) (events : list gm_event) :
    IO (list gas_outcome * bool) :=
  match events with
  | [] => mret ([], false)
  | GmDone :: _ => mret ([], true)
  | GmTick :: rest =>
      o ← rpc_tick chains;
      '(os, fin) ← startRPCMonitor chains rest;
      mret (o ++ os, fin)
  | _ :: rest => startRPCMonitor chains rest
  end.

Definition monitorChainRPC (chain : ChainConfig) (events : list gm_event) :
    IO (list gas_outcome * bool) := startRPCMonitor [chain] events.

(** The loop of [monitorChainWebSocket] once subscribed. *)
Fixpoint ws_loop (chain : ChainConfig) (events : list gm_event) :
    IO (list gas_outcome * bool) :=
  match events with
  | [] => mret ([], false)
  | GmDone :: _ => mret ([], true)
  | GmSubErr :: rest => monitorChainRPC chain rest
  | GmHeader :: rest =>
      client ← attempt (ask (GetClient (ChainID chain)));
      o ← (match client with
           | inl _ => mret []
           | inr _ => monitor_logged (ChainID chain)
           end);
      '(os, fin) ← ws_loop chain rest;
      mret (o ++ os, fin)
  | GmTick :: rest => ws_loop chain rest
  end.

(** Whatever the dial or the subscription fails with, the chain is polled. *)
Definition monitorChainWebSocket (chain : ChainConfig) (events : list gm_event) :
    IO (list gas_outcome * bool) :=
  if negb (Type_ chain =? ChainType_EVM)%string then monitorChainRPC chain events
  else
    wsEndpoint ← wrap_err "error getting websocket endpoint: "
      (lift_result (GetWSEndpoint reader (ChainID chain)));
    dialed ← attempt (ask (Net (EthDial wsEndpoint)));
    match dialed with
    | inl _ => monitorChainRPC chain events
    | inr _ =>
        sub ← attempt (ask (Net (EthSubscribe wsEndpoint)));
        match sub with
        | inl _ => monitorChainRPC chain events
        | inr _ => ws_loop chain events
        end
    end.

(** The chains [Start] monitors: the EVM chains, then the Cosmos chains, each in an
    order of the map. *)
Definition monitored_chains : IO (list ChainConfig) :=
  evm ← range (map_to_list (Chains (config reader)));
  cosmos ← range (map_to_list (Chains (config reader)));
  mret (GetAllChainConfigsOfType evm ChainType_EVM ++
        GetAllChainConfigsOfType cosmos ChainType_COSMOS).

(** [Start]: with web sockets one goroutine per chain, run one after the other over
    their own events, the first error ending the group; else one loop over all. *)
Definition Start (useWebSocket : bool) (events : string → list gm_event) :
    IO (list gas_outcome) :=
  chains ← monitored_chains;
  if useWebSocket then
    fold_m (λ acc chain,
      '(os, _) ← monitorChainWebSocket chain (events (ChainID chain)); mret (acc ++ os)) [] chains
  else '(os, _) ← startRPCMonitor chains (events ""); mret os.
End gasmonitor.

(** ** The cooldown, over the trace *)

(** What the trace says of the last check of chain [c]: the clock reading that
    followed the last balance query, and whether that reading is still to come. *)
Definition check_step (c : string) (s : option Time * bool) (ev : event) : option Time * bool :=
  match projT1 ev as r return (error + response r) → option Time * bool with
  | SignerGasTokenBalance c' => λ _, if String.eqb c' c then (s.1, true) else s
  | TimeNow => λ a, if s.2 then (Some (clock_reading a), false) else s
  | _ => λ _, s
  end (projT2 ev).
Definition checks (c : string) (l : list event) : option Time * bool :=
  foldl (check_step c) (None, false) l.

(** A query of the balance on [c] is made first, or when the clock has just been
    read at least the cooldown after the previous check. *)
Definition balance_guard (c : string) (pre : list event) (r : request) : Prop :=
  r = SignerGasTokenBalance c →
  match (checks c pre).1 with
  | None => True
  | Some t => ∃ pre' a, pre = pre' ++ [existT TimeNow a] ∧
                balanceCheckCooldown ≤ time_since (clock_reading a) t
  end.

(** The map agrees with the trace, and every query so far was guarded. *)
Definition gas_inv {E} (c : string) (w : World E) : Prop :=
  checks c (w_trace w) = (lastBalanceCheck (clients (w_mem w)) !! c, false) ∧
  guarded (balance_guard c) (w_trace w).

Definition gas_step {E} (c : string) (w w' : World E) : Prop := gas_inv c w → gas_inv c w'.

#[export] Instance gas_step_preorder {E} c : PreOrder (@gas_step E c).
Proof. split; [intros w; by unfold gas_step|]. unfold gas_step. intros w1 w2 w3; auto. Qed.

Section cooldown.
Context {E : Type} `{Env E}.
Implicit Types w : World E.
Context (reader : configReader) (c : string).

Lemma checks_snoc l ev : checks c (l ++ [ev]) = check_step c (checks c l) ev.
Proof. unfold checks. by rewrite foldl_app. Qed.

(** Calls that are neither a balance query nor matter to the map. *)
Lemma gas_step_ask r :
  r ≠ SignerGasTokenBalance c → frame (gas_step c) (ask r : M (World E) _).
Proof.
  intros Hr w. unfold gas_step, gas_inv. intros [Hc Hg]. unfold ask. destruct (env_answer r (w_env w)) as [a e]. simpl.
  split; simpl.
  - rewrite checks_snoc, Hc. unfold check_step. destruct r; simpl; try done.
    destruct (String.eqb_spec chainID c) as [->|]; [by destruct Hr|done].
  - apply guarded_snoc; [done|]. intros Heq. by destruct Hr.
Qed.

Lemma gas_step_time_now : frame (gas_step c) (time_now : M (World E) _).
Proof.
  apply frame_bind; [typeclasses eauto|apply frame_attempt, (gas_step_ask TimeNow); done|].
  intros. apply frame_ret, _.
Qed.

Lemma gas_step_range {A} (l : list A) : frame (gas_step c) (range l : M (World E) _).
Proof.
  apply frame_bind; [typeclasses eauto|apply frame_attempt, (gas_step_ask MapOrder); done|].
  intros. apply frame_ret, _.
Qed.

(** A query, the clock and the note keep the invariant when the query is allowed. *)
Lemma gas_inv_checked chainID w a e b e' :
  gas_inv c w → (chainID = c → balance_guard c (w_trace w) (SignerGasTokenBalance c)) →
  let w' := after TimeNow b e' (after (SignerGasTokenBalance chainID) a e w) in
  gas_inv c (set_mem (set_clients (note_balance_check chainID (clock_reading b)) (w_mem w')) w').
Proof.
  intros [Hc Hg] Hguard w'. unfold gas_inv, w', after. cbn [w_trace w_mem set_mem]. split.
  - rewrite !checks_snoc, Hc. cbn. destruct (String.eqb_spec chainID c) as [->|Hne]; cbn.
    + by rewrite lookup_insert_eq.
    + by rewrite lookup_insert_ne.
  - apply guarded_snoc; [apply guarded_snoc; [done|]|done]. cbn.
    intros Heq. injection Heq as ->. by apply Hguard.
Qed.

Lemma gas_check_balance chainID w :
  gas_inv c w → (chainID = c → balance_guard c (w_trace w) (SignerGasTokenBalance c)) →
  wp (check_balance chainID) (λ _, gas_inv c) w.
Proof.
  intros Hinv Hguard. apply wp_bind, wp_attempt. refine (wp_ask _ _ w _). intros a e _.
  destruct a; apply wp_bind, wp_time_now_answer; intros b e'; wp_steps;
    by apply gas_inv_checked.
Qed.

(** Either the chain is in its cooldown, or a query is allowed now. *)
Lemma gas_in_cooldown chainID w :
  gas_inv c w →
  wp (in_cooldown chainID) (λ r w', gas_inv c w' ∧ (r = Ok false → chainID = c →
    balance_guard c (w_trace w') (SignerGasTokenBalance c))) w.
Proof.
  intros Hinv. unfold in_cooldown, time_Since. apply wp_bind. wp_step.
  destruct (lastBalanceCheck (clients (w_mem w)) !! chainID) as [t|] eqn:Hl.
  - apply wp_bind, wp_bind, wp_time_now_answer. intros a e. wp_steps.
    split; [|intros [= Hlt] -> _].
    + destruct Hinv as [Hc Hg].
      unfold gas_inv, after. cbn [w_trace w_mem]. split; [by rewrite checks_snoc, Hc|].
      by apply guarded_snoc.
    + destruct Hinv as [Hc _]. unfold after. cbn [w_trace]. rewrite checks_snoc, Hc, Hl. cbn.
      exists (w_trace w), a. split; [done|]. by apply Z.ltb_ge.
  - apply wp_ret. split; [done|]. intros _ -> _. destruct Hinv as [Hc _]. by rewrite Hc, Hl.
Qed.

Lemma gas_step_monitorGasBalance chainID :
  frame (gas_step c) (monitorGasBalance reader chainID : M (World E) _).
Proof.
  intros w Hinv. change (wp (monitorGasBalance reader chainID) (λ _, gas_inv c) w).
  apply wp_bind. eapply wp_mono; [|by apply gas_in_cooldown].
  intros [skip|err|p] w1 [Hw1 Hguard]; [|done..]. destruct skip; [by apply wp_ret|].
  apply wp_bind. eapply wp_mono; [|apply gas_check_balance; auto].
  intros [checked|err|p] w2 Hw2; [|done..]. wp_steps; done.
Qed.

Lemma gas_step_monitor_logged chainID :
  frame (gas_step c) (monitor_logged reader chainID : M (World E) _).
Proof.
  apply frame_bind; [typeclasses eauto|apply frame_attempt, gas_step_monitorGasBalance|].
  intros. apply frame_ret, _.
Qed.
#[local] Hint Resolve gas_step_monitor_logged gas_step_time_now gas_step_range : frame.
#[local] Hint Extern 0 (frame (gas_step _) _) =>
  lazymatch goal with |- frame (gas_step _) (ask ?r) => refine (gas_step_ask r _); done end : frame.

Lemma gas_step_startRPCMonitor chains events :
  frame (gas_step c) (startRPCMonitor reader chains events : M (World E) _).
Proof. induction events as [|[] events IH]; simpl; unfold rpc_tick; solve_io. Qed.
#[local] Hint Resolve gas_step_startRPCMonitor : frame.

Lemma gas_step_monitorChainWebSocket chain events :
  frame (gas_step c) (monitorChainWebSocket reader chain events : M (World E) _).
Proof.
  assert (frame (gas_step c) (ws_loop reader chain events : M (World E) _)) as Hloop.
  { induction events as [|[] events IH]; simpl; unfold monitorChainRPC; solve_io. }
  unfold monitorChainWebSocket, monitorChainRPC. solve_io.
Qed.
#[local] Hint Resolve gas_step_monitorChainWebSocket : frame.

(** Whatever events the monitor receives and whatever answers it gets, two queries of
    a chain's gas balance are at least the cooldown apart: before each query but the
    first the clock was read, at least an hour after the time noted for the last
    one. *)
Theorem gas_checks_spaced useWebSocket events w r w' :
  w_trace w = [] → lastBalanceCheck (clients (w_mem w)) = ∅ →
  Start reader useWebSocket events w = (r, w') → guarded (balance_guard c) (w_trace w').
Proof.
  intros Ht Hm Hrun.
  assert (frame (gas_step c) (Start reader useWebSocket events : M (World E) _)) as Hf.
  { unfold Start, monitored_chains. solve_io. }
  specialize (Hf w). rewrite Hrun in Hf. apply Hf. unfold gas_inv. rewrite Ht, Hm.
  split; [done|apply guarded_nil].
Qed.
End cooldown.

(** ** What a check reports *)

Section report.
Context {E : Type} `{Env E}.
Implicit Types w : World E.
Context (reader : configReader).

Lemma ltb_bool_decide a b : (a <? b) = bool_decide (a < b).
Proof. destruct (Z.ltb_spec a b); symmetry; [by apply bool_decide_true|apply bool_decide_false; lia]. Qed.

(** A report carries the balance the node answered with and the thresholds of the
    configuration, and is logged as low exactly below the critical one; a skipped
    check asks the node nothing. *)
Theorem monitorGasBalance_report chainID w o w' :
  monitorGasBalance reader chainID w = (Ok o, w') →
  match o with
  | GasSkipped => emits (.= TimeNow) w w' ∧ w_mem w' = w_mem w
  | GasReported c b warning critical low =>
      c = chainID ∧ asked w w' (existT (SignerGasTokenBalance chainID) (inr (Some b))) ∧
      GetGasAlertThresholds reader chainID = Ok (warning, critical) ∧ low = bool_decide (b < critical)
  end.
Proof.
  intros Hrun. run_wp Hrun.
  unfold monitorGasBalance, in_cooldown, check_balance, time_Since.
  wp_steps; intros [= <-]; try (split; [by solve_emits|done]);
    (split; [done|]); (split; [solve_asked|]); (split; [done|]); apply ltb_bool_decide.
Qed.

(** A node that cannot be reached: the failed check counts against the cooldown, and
    the monitor goes on with the next chain. *)
Lemma check_balance_noted chainID w r w' :
  check_balance chainID w = (r, w') →
  is_Some (lastBalanceCheck (clients (w_mem w')) !! chainID).
Proof.
  intros Hrun. run_wp Hrun. unfold check_balance. wp_steps; intros _; cbn;
    by rewrite lookup_insert_eq.
Qed.
End report.

(** ** Examples *)

(** Nodes whose signer has 50 units of gas, at a clock that stands still. *)
Definition poor_node : Env unit := sim_env (λ r,
  match r as r return error + response r with
  | GetClient _ => inr tt
  | SignerGasTokenBalance _ => inr (Some 50)
  | r => offline r
  end).

(** Two ticks: one report per chain, then silence. *)
Example gas_two_ticks :
  (startRPCMonitor (H := poor_node) sample_reader [sample_arbitrum; sample_osmosis]
     [GmTick; GmTick; GmDone] (sim_world empty_db)).1 =
  Ok ([GasReported "42161" 50 1000 100 true; GasReported "osmosis-1" 50 1000 100 true;
       GasSkipped; GasSkipped], true).
Proof. by vm_compute. Qed.

Lemma gas_checks_spaced_witness :
  guarded (balance_guard "42161")
    (w_trace (Start (H := poor_node) sample_reader false (λ _, [GmTick; GmTick])
       (sim_world empty_db)).2).
Proof.
  eapply (gas_checks_spaced (H := poor_node) sample_reader "42161" false (λ _, [GmTick; GmTick])
    (sim_world empty_db)); [reflexivity|reflexivity|apply surjective_pairing].
Defined.

Lemma monitorGasBalance_report_witness :
  GetGasAlertThresholds sample_reader "42161" = Ok (1000, 100).
Proof.
  pose proof (monitorGasBalance_report (H := poor_node) sample_reader "42161" (sim_world empty_db)
    (GasReported "42161" 50 1000 100 true) _ eq_refl) as (_&_&Ht&_). exact Ht.
Defined.
