(* ===== verification/Keys.v ===== *)
(** * Keys: key stores and signers

    shared/keys (loading the private keys) and shared/signing (the signers made from
    them).  The curve arithmetic, bech32, AES-GCM and the JSON parser are parameters
    of the model ([KeyLib]): what the code does with their answers is modelled. *)
From Stdlib Require Import Strings.Byte Ascii.
From Stdlib Require String.
From S2P Require Import Prelude GoLib Config Json Network Database World.

(** The libraries the code calls. *)
Class KeyLib := {
  (* the tree of a JSON text *)
  json_tree : string → error + Json;
  (* secp256k1.PrivKey.UnmarshalAmino, then PubKey().Address() *)
  cosmos_key : list byte → error + list byte;
  (* crypto.HexToECDSA, then crypto.PubkeyToAddress *)
  evm_key : string → error + list byte;
  (* bech32.ConvertAndEncode *)
  bech32_encode : string → list byte → error + string;
  (* aes.NewCipher and cipher.NewGCM fail on a key of the wrong size *)
  gcm_check : list byte → option error;
  (* gcm.Open *)
  gcm_open : list byte → list byte → list byte → error + string
}.

Definition lift_sum {S A} (r : error + A) : M S A :=
  match r with inl e => throw e | inr a => mret a end.

(** ** shared/keys *)

Definition KeyStore : Type := gmap string string.

Definition KeyStoreTypePlaintextFile : string := "plaintext-file".
Definition KeyStoreTypeEncryptedFile : string := "encrypted-file".
Definition KeyStoreTypeEnv : string := "env".

(** [gcm.NonceSize()] *)
Definition gcm_NonceSize : nat := 12.

(** [s[:n]] and [s[n:]]; out of range panics. *)
Definition slice_to {S} (s : string) (n : nat) : M S string :=
  if (n <=? String.length s)%nat then mret (String.substring 0 n s)
  else go_panic "slice bounds out of range".
Definition slice_from {S} (s : string) (n : nat) : M S string :=
  if (n <=? String.length s)%nat then mret (String.substring n (String.length s - n) s)
  else go_panic "slice bounds out of range".

(** [map[string]map[string]string], of which the field "private_key" is kept; an
    entry without it has the empty key. *)
Definition dec_keys : Decoder KeyStore := λ j,
  match dec_map (dec_map dec_string) j with
  | Some m =>
      Some ((λ fields : gmap string string, default "" (fields !! "private_key")) <$> m)
  | None => None
  end.

Section keys.
Context `{KeyLib} {E : Type} `{Env E}.
Notation IO := (M (World E)).

(** [json.Unmarshal([]byte(text), &rawKeysMap)] and the loop that follows it *)
Definition parse_keys (text : string) : IO KeyStore :=
  j ← lift_sum (json_tree text);
  lift_result (json_Unmarshal dec_keys j).

Definition LoadKeyStoreFromPlaintextFile (keysPath : string) : IO KeyStore :=
  text ← ask (Net (ReadFile keysPath)); parse_keys text.

(** [os.Getenv] does not fail: an unset variable is empty. *)
Definition os_Getenv (name : string) : IO string :=
  a ← attempt (ask (Net (Getenv name)));
  mret (match a with inr s => s | inl _ => "" end).

Definition LoadKeyStoreFromEnv : IO KeyStore :=
  keysEnv ← os_Getenv "SOLVER_KEYS";
  if (keysEnv =? "")%string then mret ∅ else parse_keys keysEnv.

Definition LoadKeyStoreFromEncryptedFile (keysPath : string) : IO KeyStore :=
  aesKeyHex ← os_Getenv "AES_KEY_HEX";
  if (aesKeyHex =? "")%string then mret ∅
  else
    passphrase ← lift_result (hex_DecodeString aesKeyHex);
    match gcm_check passphrase with
    | Some err => throw err
    | None =>
        text ← ask (Net (ReadFile keysPath));
        nonce ← slice_to text (gcm_NonceSize * 2);
        ciphertext ← slice_from text (gcm_NonceSize * 2);
        nonceBytes ← lift_result (hex_DecodeString nonce);
        ciphertextBytes ← lift_result (hex_DecodeString ciphertext);
        decrypted ← lift_sum (gcm_open passphrase nonceBytes ciphertextBytes);
        parse_keys decrypted
    end.

Definition GetKeyStore (keyStoreType keyFilePath : string) : IO KeyStore :=
  if (keyStoreType =? KeyStoreTypePlaintextFile)%string then
    if (keyFilePath =? "")%string then throw (ErrNew "key file path is required")
    else LoadKeyStoreFromPlaintextFile keyFilePath
  else if (keyStoreType =? KeyStoreTypeEncryptedFile)%string then
    if (keyFilePath =? "")%string then throw (ErrNew "key file path is required")
    else
      aes ← os_Getenv "AES_KEY_HEX";
      if (aes =? "")%string then throw (ErrNew "must set AES_KEY_HEX environment variable")
      else LoadKeyStoreFromEncryptedFile keyFilePath
  else if (keyStoreType =? KeyStoreTypeEnv)%string then LoadKeyStoreFromEnv
  else throw (ErrNew "key store type must be one of [plaintext-file encrypted-file env]").
End keys.

(** [if privateKeyStr[:2] == "0x" { privateKeyStr = privateKeyStr[2:] }]: a key of
    fewer than two characters panics. *)
Definition strip_0x (key : string) : result string :=
  match key with
  | String a (String b rest) =>
      if Ascii.eqb a "0" && Ascii.eqb b "x" then Ok rest else Ok key
  | _ => Panic "slice bounds out of range"
  end.

(** ** shared/signing *)

(** A signer with its address; the Cosmos signer also keeps the bech32 form. *)
Inductive Signer :=
  | LocalCosmosSigner (address : list byte) (signerAddress : string)
  | LocalEthereumSigner (address : list byte)
  | NopSigner.

Definition signer_Address (s : Signer) : list byte :=
  match s with
  | LocalCosmosSigner a _ => a
  | LocalEthereumSigner a => a
  | NopSigner => []
  end.

Definition of_sum {A} (r : error + A) : result A :=
  match r with inl e => Err e | inr a => Ok a end.

Section signing.
Context `{KeyLib} (reader : configReader).

(** [chainCfg.Cosmos.AddressPrefix] *)
Definition address_prefix (c : ChainConfig) : result string :=
  match Cosmos c with
  | Some cc => Ok (cosmos_AddressPrefix cc)
  | None => Panic "nil dereference"
  end.

Definition newCosmosSigner (chainID : string) (keys : KeyStore) : result Signer :=
  match keys !! chainID with
  | None => Err (ErrNew ("private key not found for chainID " +:+ chainID))
  | Some key =>
      rbind (strip_0x key) (λ hexKey,
      rbind (hex_DecodeString hexKey) (λ bytes,
      rbind (of_sum (cosmos_key bytes)) (λ address,
      rbind (GetChainConfig reader chainID) (λ chainCfg,
      rbind (address_prefix chainCfg) (λ prefix,
      rbind (result_wrap "converting address to bech32: " (of_sum (bech32_encode prefix address)))
        (λ bech32, Ok (LocalCosmosSigner address bech32)))))))
  end.

Definition newEVMSigner (chainID : string) (keys : KeyStore) : result Signer :=
  match keys !! chainID with
  | None => Err (ErrNew ("solver private key not found for chainID " +:+ chainID))
  | Some key =>
      rbind (strip_0x key) (λ hexKey,
      rbind (result_wrap "converting private key to esdsa key: " (of_sum (evm_key hexKey)))
        (λ address, Ok (LocalEthereumSigner address)))
  end.

Definition signing_NewSigner (chainID : string) (keys : KeyStore) : result Signer :=
  match GetChainConfig reader chainID with
  | Ok chainConfig =>
      if (Type_ chainConfig =? ChainType_COSMOS)%string then newCosmosSigner chainID keys
      else if (Type_ chainConfig =? ChainType_EVM)%string then newEVMSigner chainID keys
      else Err (ErrNew ("no signer available for chain type: " +:+ Type_ chainConfig))
  | Err e => Err (ErrWrap ("getting chain config for " +:+ chainID +:+ ": ") e)
  | Panic p => Panic p
  end.
End signing.

(** [LocalEthereumSigner.Sign] on a pointer to a transaction: a nil pointer passes
    the type assertion and is dereferenced by [SignTx]. *)
Definition LocalEthereumSigner_Sign {E} `{Env E} (chainID : string) (tx : option EthTx) :
    M (World E) SignedEthTx :=
  match bigint_SetString chainID with
  | None => throw (ErrNew "invalid chain ID")
  | Some _ =>
      match tx with
      | None => go_panic "nil dereference: SignTx"
      | Some t => ask (Net (SignEthTx chainID t))
      end
  end.

(** ** Theorems *)

Lemma hex_DecodeString_no_panic s p : hex_DecodeString s ≠ Panic p.
Proof.
  enough (∀ n s, (String.length s ≤ n)%nat → hex_DecodeString s ≠ Panic p) by eauto. clear s.
  intros n. induction n as [|n IH]; intros [|c [|d s]] Hn; simpl in *; try done; try lia;
    repeat case_match; try done. intros [= ->]. by eapply (IH s); [lia|].
Qed.

(** The signer made for a configured chain is one of its type, whatever the keys; it
    panics only on a key shorter than two characters. *)
Theorem NewSigner_type `{KeyLib} reader chainID keys cfg :
  GetChainConfig reader chainID = Ok cfg → valid_chain cfg →
  match signing_NewSigner reader chainID keys with
  | Ok (LocalCosmosSigner _ _) => Type_ cfg = ChainType_COSMOS
  | Ok (LocalEthereumSigner _) => Type_ cfg = ChainType_EVM
  | Ok NopSigner => False
  | Err _ => True
  | Panic _ => ∃ key, keys !! chainID = Some key ∧ (String.length key < 2)%nat
  end.
Proof.
  intros Hcfg Hv. unfold signing_NewSigner. rewrite Hcfg.
  assert (∀ key, match strip_0x key with Panic _ => (String.length key < 2)%nat | _ => True end) as Hs.
  { intros [|a [|b key]]; simpl; [lia..|]. by destruct (Ascii.eqb a "0" && Ascii.eqb b "x"). }
  destruct (vc_type _ Hv) as [[Ht (cc&_&_&Hc&_)]|[Ht _]]; rewrite Ht; simpl.
  - unfold newCosmosSigner. destruct (keys !! chainID) as [key|]; [|done].
    specialize (Hs key). destruct (strip_0x key) as [k|e|p]; simpl; [|done|eauto].
    destruct (hex_DecodeString k) as [bs|e|p] eqn:Hhex; simpl; [|done|by apply hex_DecodeString_no_panic in Hhex].
    destruct (cosmos_key bs); simpl; [done|]. rewrite Hcfg. simpl. unfold address_prefix. rewrite Hc. simpl.
    by destruct (bech32_encode _ _).
  - unfold newEVMSigner. destruct (keys !! chainID) as [key|]; [|done].
    specialize (Hs key). destruct (strip_0x key) as [k|e|p]; simpl; [|done|eauto].
    by destruct (evm_key k).
Qed.

(** ** Examples *)

(** Libraries that accept every key and number it by its length. *)
#[local] Instance toy_keys : KeyLib := {|
  json_tree := λ _, inr (JObj [("42161", JObj [("private_key", JStr "0xab")]);
                               ("osmosis-1", JObj [("address", JStr "osmo1")])]);
  cosmos_key := λ bs, inr bs;
  evm_key := λ s, inr [];
  bech32_encode := λ p bs, inr (p +:+ "1" +:+ hex_EncodeToString bs);
  gcm_check := λ _, None;
  gcm_open := λ _ _ _, inl (ErrNew "cipher: message authentication failed") |}.

Definition key_file : Env unit := sim_env (λ r,
  match r as r return error + response r with
  | Net (ReadFile _) => inr "keys"
  | r => offline r
  end).

(** An entry without a private key is loaded as the empty key, on which making a
    signer panics. *)
Example empty_key_panics :
  ∃ keys, (GetKeyStore (H0 := key_file) "plaintext-file" "keys.json" (sim_world empty_db)).1 = Ok keys ∧
    ∃ p, signing_NewSigner sample_reader "osmosis-1" keys = Panic p.
Proof. eexists. split; [by vm_compute|]. eexists. by vm_compute. Qed.

Lemma NewSigner_type_witness :
  match signing_NewSigner sample_reader "42161" {[ "42161" := "0xab" ]} with
  | Ok (LocalEthereumSigner _) => Type_ sample_arbitrum = ChainType_EVM
  | _ => True
  end.
Proof.
  assert (valid_chain sample_arbitrum) as Hv.
  { apply validated_chain. vm_compute. reflexivity. }
  pose proof (NewSigner_type sample_reader "42161" {[ "42161" := "0xab" ]} sample_arbitrum
    ltac:(vm_compute; reflexivity) Hv) as H.
  revert H. destruct (signing_NewSigner sample_reader "42161" {[ "42161" := "0xab" ]}) as [[]| |]; auto.
Defined.
