(* ===== verification/TxExecutor.v ===== *)
(** * TxExecutor: building, signing and sending transactions

    shared/signing/evm/evm_transaction.go (the transaction builder and its options),
    shared/evmrpc/manager.go and shared/txexecutor (the serialized executors of EVM
    and Cosmos transactions).  The lock of an executor is held for a whole call, so
    a call is one computation; [lastSubmissionTime] of each executor is part of the
    world's memory. *)
From Stdlib Require Import Strings.Byte.
From S2P Require Import Prelude GoLib Config Json Network Database World Keys.

Definition Millisecond : Duration := 1000000.

(** 500 ms, for both default executors. *)
Definition txSubmissionDelay : Duration := 500 * Millisecond.

(** ** The transaction builder *)

Definition empty_tx : EthTx := mkEthTx 2 None 0 None None 0 None None [].

Definition set_Data data tx := mkEthTx (eth_Type tx) (eth_ChainID tx) (eth_Nonce tx)
  (eth_GasTipCap tx) (eth_GasFeeCap tx) (eth_Gas tx) (eth_To tx) (eth_Value tx) data.
Definition set_To to tx := mkEthTx (eth_Type tx) (eth_ChainID tx) (eth_Nonce tx)
  (eth_GasTipCap tx) (eth_GasFeeCap tx) (eth_Gas tx) (Some to) (eth_Value tx) (eth_Data tx).
Definition set_Value v tx := mkEthTx (eth_Type tx) (eth_ChainID tx) (eth_Nonce tx)
  (eth_GasTipCap tx) (eth_GasFeeCap tx) (eth_Gas tx) (eth_To tx) (Some v) (eth_Data tx).
Definition set_ChainID id tx := mkEthTx (eth_Type tx) (Some id) (eth_Nonce tx)
  (eth_GasTipCap tx) (eth_GasFeeCap tx) (eth_Gas tx) (eth_To tx) (eth_Value tx) (eth_Data tx).
Definition set_Nonce n tx := mkEthTx (eth_Type tx) (eth_ChainID tx) n
  (eth_GasTipCap tx) (eth_GasFeeCap tx) (eth_Gas tx) (eth_To tx) (eth_Value tx) (eth_Data tx).
Definition set_Gas g tx := mkEthTx (eth_Type tx) (eth_ChainID tx) (eth_Nonce tx)
  (eth_GasTipCap tx) (eth_GasFeeCap tx) g (eth_To tx) (eth_Value tx) (eth_Data tx).
Definition set_GasTipCap t tx := mkEthTx (eth_Type tx) (eth_ChainID tx) (eth_Nonce tx)
  (Some t) (eth_GasFeeCap tx) (eth_Gas tx) (eth_To tx) (eth_Value tx) (eth_Data tx).
Definition set_GasFeeCap f tx := mkEthTx (eth_Type tx) (eth_ChainID tx) (eth_Nonce tx)
  (eth_GasTipCap tx) (Some f) (eth_Gas tx) (eth_To tx) (eth_Value tx) (eth_Data tx).

(** The error of a value that is no number: the parsed value shadows the text, so
    the message prints a nil number. *)
Definition bad_value : error := ErrNew "could not convert value <nil> to *big.Int".

Section builder.
Context {E : Type} `{Env E}.
Notation IO := (M (World E)).
(** The chain of the RPC client the builder was made with. *)
Context (rpc : string).

Definition TxBuildOption : Type := EthTx → IO EthTx.

Definition WithData (data : list byte) : TxBuildOption := λ tx, mret (set_Data data tx).
Definition WithTo (address : string) : TxBuildOption := λ tx, mret (set_To address tx).
Definition WithValue (value : string) : TxBuildOption := λ tx,
  match bigint_SetString value with
  | None => throw bad_value
  | Some v => mret (set_Value v tx)
  end.
Definition WithChainID (chainID : string) : TxBuildOption := λ tx,
  match bigint_SetString chainID with
  | None => throw (ErrNew ("could not convert chain id " +:+ chainID +:+ " to *big.Int"))
  | Some id => mret (set_ChainID id tx)
  end.
Definition WithNonceOfSigner (address : string) : TxBuildOption := λ tx,
  nonce ← wrap_err ("fetching next nonce for " +:+ address +:+ ": ")
    (ask (Net (EthPendingNonceAt rpc address)));
  mret (set_Nonce nonce tx).
Definition WithNonce (nonce : Z) : TxBuildOption := λ tx, mret (set_Nonce nonce tx).

Definition EstimateGasForTx (from to value : string) (data : list byte) : IO Z :=
  match bigint_SetString value with
  | None => throw (ErrNew ("could not convert value " +:+ value +:+ " to *big.Int"))
  | Some v => wrap_err "estimating gas limit: " (ask (Net (EthEstimateGas rpc from to v data)))
  end.

(** [uint64(math.Ceil(float64(gasLimit) * 1.2))] *)
Definition padded_gas (gasLimit : Z) : Z := u64 (bf_ceil (times_1_2 gasLimit)).

Definition WithEstimatedGasLimit (from to value : string) (data : list byte) : TxBuildOption := λ tx,
  match bigint_SetString value with
  | None => throw bad_value
  | Some v =>
      gasLimit ← wrap_err "estimating gas limit: " (ask (Net (EthEstimateGas rpc from to v data)));
      mret (set_Gas (padded_gas gasLimit) tx)
  end.

(** The suggested tip, raised to the configured minimum. *)
Definition floor_tip (minGasTipCap : option Z) (tipCap : Z) : Z :=
  match minGasTipCap with
  | Some m => if tipCap <? m then m else tipCap
  | None => tipCap
  end.

Definition WithEstimatedGasTipCap (minGasTipCap : option Z) : TxBuildOption := λ tx,
  tipCap ← wrap_err "getting suggested gas tip cap: " (ask (Net (EthSuggestGasTipCap rpc)));
  mret (set_GasTipCap (floor_tip minGasTipCap tipCap) tx).

(** [new(big.Float).SetInt(baseFee)] times [jitter], truncated; the precision is that
    of [SetInt], at least 64 bits. *)
Definition jittered (jitter : bigfloat) (baseFee : Z) : Z :=
  bf_Int (bf_Mul (Z.max 64 (Z.log2 baseFee + 1)) (bf_SetInt baseFee) jitter).

Definition WithEstimatedGasFeeCap (minGasTipCap : option Z) (jitter : bigfloat) : TxBuildOption := λ tx,
  tx ← (match eth_GasTipCap tx with
        | None => wrap_err "getting estimated gas tip cap: " (WithEstimatedGasTipCap minGasTipCap tx)
        | Some _ => mret tx
        end);
  head ← wrap_err "getting latest block header: " (ask (Net (EthHeader rpc)));
  match head.2 with
  | None => go_panic "nil dereference: BaseFee"
  | Some baseFee =>
      match eth_GasTipCap tx with
      | None => go_panic "nil dereference: GasTipCap"
      | Some tip => mret (set_GasFeeCap (tip + jittered jitter baseFee) tx)
      end
  end.

Definition TxBuilder_Build (opts : list TxBuildOption) : IO EthTx :=
  fold_m (λ tx opt, wrap_err "building tx: " (opt tx)) empty_tx opts.
End builder.

(** ** The client manager of evmrpc *)

Definition add_evm_client (chainID : string) : Clients → Clients := λ c,
  mkClients (priceCache c) (lastBalanceCheck c) (evmLastSubmissionTime c)
    (cosmosLastSubmissionTime c) (bridgeClients c) (wsClients c) ({[ chainID ]} ∪ evmClients c) (ismAddress c)
    (tmClients c) (grpcClients c).
Definition set_evm_submission (t : Time) : Clients → Clients := λ c,
  mkClients (priceCache c) (lastBalanceCheck c) t
    (cosmosLastSubmissionTime c) (bridgeClients c) (wsClients c) (evmClients c) (ismAddress c)
    (tmClients c) (grpcClients c).
Definition set_cosmos_submission (t : Time) : Clients → Clients := λ c,
  mkClients (priceCache c) (lastBalanceCheck c) (evmLastSubmissionTime c)
    t (bridgeClients c) (wsClients c) (evmClients c) (ismAddress c)
    (tmClients c) (grpcClients c).

Definition add_tm_client (chainID : string) : Clients → Clients := λ c,
  mkClients (priceCache c) (lastBalanceCheck c) (evmLastSubmissionTime c)
    (cosmosLastSubmissionTime c) (bridgeClients c) (wsClients c) (evmClients c) (ismAddress c)
    ({[ chainID ]} ∪ tmClients c) (grpcClients c).
Definition add_grpc_client (chainID : string) : Clients → Clients := λ c,
  mkClients (priceCache c) (lastBalanceCheck c) (evmLastSubmissionTime c)
    (cosmosLastSubmissionTime c) (bridgeClients c) (wsClients c) (evmClients c) (ismAddress c)
    (tmClients c) ({[ chainID ]} ∪ grpcClients c).

Section executors.
Context {E : Type} `{Env E}.
Notation IO := (M (World E)).
Context (reader : configReader) (lookupEnv : string → option string).

Definition EVMRPC_GetClient (chainID : string) : IO unit :=
  mem ← get_mem;
  if bool_decide (chainID ∈ evmClients (clients mem)) then mret tt
  else
    rpc ← lift_result (GetRPCEndpoint reader chainID);
    _ ← lift_result (GetBasicAuth lookupEnv reader chainID);
    _ ← ask (Net (EthDial rpc));
    update_mem (set_clients (add_evm_client chainID)).

(** [chainRPCImpl.GetUSDCBalance] *)
Definition EVMRPC_GetUSDCBalance (chainID contractAddress account : string) : IO Z :=
  _ ← wrap_err "creating usdc contract binding: " (ask (Net (BindContract chainID contractAddress)));
  wrap_err ("getting balance from usdc erc20 contract for account " +:+ account +:+ ": ")
    (ask (Net (UsdcBalanceOf chainID contractAddress account))).

(** [chainRPCImpl.GetERC20Transfers]: the parties of the transfers in the logs of a
    receipt; indexing a log with too few topics panics. *)
Record ERC20Transfer := mkERC20Transfer { erc20_Source : string; erc20_Dest : string }.

Definition transferSignature : string :=
  "0xddf252ad1be2c89b69c2b068fc378daa952ba7f163c4a11628f55a4df523b3ef".

(** ["0x" + topic[len(topic)-40:]] *)
Definition topic_address (topic : string) : result string :=
  if (String.length topic <? 40)%nat then Panic "slice bounds out of range"
  else Ok ("0x" +:+ String.substring (String.length topic - 40) 40 topic).

Definition log_transfer (topics : list string) : result (option ERC20Transfer) :=
  match topics with
  | [] => Panic "index out of range"
  | logSignature :: rest =>
      if (logSignature =? transferSignature)%string then
        match rest with
        | source :: dest :: _ =>
            rbind (topic_address source) (λ s, rbind (topic_address dest) (λ d,
              Ok (Some (mkERC20Transfer s d))))
        | _ => Panic "index out of range"
        end
      else Ok None
  end.

Definition EVMRPC_GetERC20Transfers (chainID txHash : string) : IO (list ERC20Transfer) :=
  receipt ← ask (Net (EthTransactionReceipt chainID txHash));
  match receipt with
  | None => go_panic "nil dereference"
  | Some receipt =>
      fold_m (λ transfers topics,
        r ← lift_result (log_transfer topics);
        mret match r with Some t => transfers ++ [t] | None => transfers end) []
        (rcpt_Logs receipt)
  end.

(** *** tmrpc and cosmosgrpc *)

Definition DefaultTendermintRPCClient (chainID : string) : IO unit :=
  rpc ← lift_result (GetRPCEndpoint reader chainID);
  _ ← lift_result (GetBasicAuth lookupEnv reader chainID);
  ask (Net (TmDial rpc)).

Definition TM_GetClient (chainID : string) : IO unit :=
  mem ← get_mem;
  if bool_decide (chainID ∈ tmClients (clients mem)) then mret tt
  else
    _ ← DefaultTendermintRPCClient chainID;
    update_mem (set_clients (add_tm_client chainID)).

(** Without TLS, whatever the chain's configuration says. *)
Definition DefaultCosmosGRPCCLientConn (chainID : string) : IO unit :=
  chainConfig ← wrap_err ("getting config for chain " +:+ chainID +:+ ": ")
    (lift_result (GetChainConfig reader chainID));
  match Cosmos chainConfig with
  | None => go_panic "nil dereference: Cosmos"
  | Some cosmos => ask (Net (GrpcDial (cosmos_GRPC cosmos) false))
  end.

Definition GRPC_GetClient (chainID : string) : IO unit :=
  mem ← get_mem;
  if bool_decide (chainID ∈ grpcClients (clients mem)) then mret tt
  else
    _ ← DefaultCosmosGRPCCLientConn chainID;
    update_mem (set_clients (add_grpc_client chainID)).

(** [select] on [time.After(time.Until(last.Add(delay)))] and the context. *)
Definition wait_turn (last : Time) : IO unit :=
  now ← time_now;
  ask (Net (Sleep (time_sub (last + txSubmissionDelay) now))).

(** *** EVM *)

(** [signing.Signer]: what a signer returns for a transaction, which may be nil. *)
Definition EVMSigner : Type := string → option EthTx → IO SignedEthTx.

(** [SerializedEVMTxExecutor.ExecuteTx] under the lock, up to [Build], whose error is
    kept. *)
Definition evm_build (chainID signerAddress : string) (data : list byte) (value to : string) :
    IO (error + EthTx) :=
  mem ← get_mem;
  _ ← wait_turn (evmLastSubmissionTime (clients mem));
  chainCfg ← lift_result (GetChainConfig reader chainID);
  match EVM chainCfg with
  | None => throw (ErrNew ("EVM chain config is null for chain id " +:+ chainID))
  | Some evm =>
      let minGasTipCap := evm_MinGasTipCap evm in
      nonce ← ask (Net (EthPendingNonceAt chainID signerAddress));
      attempt (TxBuilder_Build
        [ WithData data; WithValue value; WithTo to; WithChainID chainID; WithNonce nonce;
          WithEstimatedGasLimit chainID signerAddress to value data;
          WithEstimatedGasTipCap chainID minGasTipCap;
          WithEstimatedGasFeeCap chainID minGasTipCap (bf_NewFloat 2) ])
  end.

(** The end of it, with a signed transaction. *)
Definition evm_send (chainID : string) (signedTx : SignedEthTx) : IO (string * string) :=
  txHash ← ask (Net (EthSendTransaction chainID (ste_Binary signedTx)));
  mret (txHash, base64_EncodeToString (ste_Json signedTx)).

Definition note_evm_submission : IO unit :=
  now ← time_now; update_mem (set_clients (set_evm_submission now)).

(** The deferred function notes the time when the variable [err] is nil at the end of
    the call, by a return or by a panic: [err] is nil while the transaction is built,
    it is the error of [Build] while the signer runs, and nil again once the signer
    returned (the error of [Build] is overwritten by that of [Sign], which is handed a
    nil transaction then). *)
Definition EVM_ExecuteTx (signer : EVMSigner) (chainID signerAddress : string) (data : list byte)
    (value to : string) : IO (string * string) :=
  _ ← EVMRPC_GetClient chainID;
  built ← on_panic note_evm_submission (evm_build chainID signerAddress data value to);
  signedTx ← match built with
             | inr tx => on_panic note_evm_submission (signer chainID (Some tx))
             | inl _ => signer chainID None
             end;
  r ← on_panic note_evm_submission (evm_send chainID signedTx);
  _ ← note_evm_submission;
  mret r.

(** *** Cosmos *)

(** [strconv.FormatFloat] and [math.LegacyNewDecFromStr] of the gas price, as a
    number of [10 ^ -18]: parameters. *)
Context (gas_price_dec : bigfloat → error + Z).

Definition abciError (codespace : string) (code : Z) (log : string) : error :=
  ErrNew (codespace +:+ " error, code: " +:+ bigint_String code +:+ ", log: " +:+ log).

Definition queryAccount (chainID address : string) : IO Account :=
  resp ← wrap_err "account query failed: " (ask (Net (QueryAccount chainID address)));
  if negb (abci_Code resp =? 0) then
    throw (abciError (abci_Codespace resp) (abci_Code resp) (abci_Log resp))
  else wrap_err "account query failed: " (lift_sum (abci_Value resp)).

(** [uint64(float64(gasUsed) * 1.2)] *)
Definition simulated_gas (gasUsed : Z) : Z := u64 (bf_Int (times_1_2 gasUsed)).

Definition estimateGasUsed (chainID : string) (tx : CosmosTxBody) (account : Account) : IO Z :=
  _ ← GRPC_GetClient chainID;
  txBytes ← ask (Net (CosmosSign chainID tx account));
  gasUsed ← ask (Net (CosmosSimulate chainID txBytes));
  mret (simulated_gas gasUsed).

(** [gasPriceDec.Mul(gasEstimateDec).Ceil().RoundInt()]: exact in 18 decimals. *)
Definition fee_amount (priceDec gas : Z) : Z := - (- (priceDec * i64 gas) / 10 ^ 18).

(** [types.NewCoins(types.NewCoin(denom, amount))]: a negative amount panics, a zero
    coin is dropped. *)
Definition fee_coin (denom : string) (amount : Z) : result (option Coin) :=
  if amount <? 0 then Panic "negative coin amount"
  else if amount =? 0 then Ok None else Ok (Some (mkCoin denom amount)).

(** The part after the wait, where every error is the one the deferred function
    sees. *)
Definition cosmos_submit (chainID signerAddress : string)
    (msgs : list MsgExecuteContract) (gasPrice : bigfloat) (gasDenom : string) :
    IO (ResultBroadcastTx * CosmosTxBody) :=
  let tx := mkCosmosTxBody msgs None 0 in
  account ← queryAccount chainID signerAddress;
  gasEstimate ← estimateGasUsed chainID tx account;
  gasPriceDec ← lift_sum (gas_price_dec gasPrice);
  fee ← lift_result (fee_coin gasDenom (fee_amount gasPriceDec gasEstimate));
  let tx := mkCosmosTxBody msgs fee gasEstimate in
  signedTx ← ask (Net (CosmosSign chainID tx account));
  res ← ask (Net (BroadcastTxSync chainID signedTx));
  mret (res, tx).

Definition note_cosmos_submission : IO unit :=
  now ← time_now; update_mem (set_clients (set_cosmos_submission now)).

(** [SerializedCosmosTxExecutor.ExecuteTx].  A cancelled wait returns the context's
    error without storing it in [err], so the deferred function notes a submission
    then too; and so it does when the call panics, since every other error is returned
    at once. *)
Definition Cosmos_ExecuteTx (chainID signerAddress : string)
    (msgs : list MsgExecuteContract) (gasPrice : bigfloat) (gasDenom : string) :
    IO (ResultBroadcastTx * CosmosTxBody) :=
  _ ← TM_GetClient chainID;
  mem ← get_mem;
  waited ← attempt (wait_turn (cosmosLastSubmissionTime (clients mem)));
  match waited with
  | inl err => _ ← note_cosmos_submission; throw err
  | inr _ =>
      r ← on_panic note_cosmos_submission
        (cosmos_submit chainID signerAddress msgs gasPrice gasDenom);
      _ ← note_cosmos_submission;
      mret r
  end.
End executors.

(** ** Transfers in a receipt *)

(** A transfer log as the ERC-20 standard has it: the signature and two addresses, each
    padded to 32 bytes. *)
Definition transfer_log (source dest : string) : list string :=
  [transferSignature; "0x000000000000000000000000" +:+ source; "0x000000000000000000000000" +:+ dest].

Lemma substring_all s : String.substring 0 (String.length s) s = s.
Proof. induction s as [|c s IH]; simpl; [done|]. by rewrite IH. Qed.

Lemma string_length_app p s :
  String.length (p +:+ s) = (String.length p + String.length s)%nat.
Proof. induction p as [|c p IH]; simpl; [done|]. by rewrite IH. Qed.

Lemma substring_suffix p s :
  String.substring (String.length (p +:+ s) - String.length s) (String.length s) (p +:+ s) = s.
Proof.
  rewrite string_length_app.
  rewrite Nat.add_sub. induction p as [|c p IH]; simpl; [apply substring_all|exact IH].
Qed.

(** Reading a transfer gives its parties back. *)
Lemma log_transfer_roundtrip source dest :
  String.length source = 40%nat → String.length dest = 40%nat →
  log_transfer (transfer_log source dest) = Ok (Some (mkERC20Transfer ("0x" +:+ source) ("0x" +:+ dest))).
Proof.
  assert (∀ a, String.length a = 40%nat →
    topic_address ("0x000000000000000000000000" +:+ a) = Ok ("0x" +:+ a)) as Ht.
  { intros a Ha. unfold topic_address. set (t := _ +:+ a).
    assert (String.length t = 66)%nat as Hl by (unfold t; by rewrite string_length_app, Ha).
    pose proof (substring_suffix "0x000000000000000000000000" a) as Hsub. fold t in Hsub.
    rewrite Hl, Ha in *. cbn [Nat.ltb Nat.leb]. by rewrite Hsub. }
  intros Hs Hd. unfold log_transfer, transfer_log. rewrite String.eqb_refl. by rewrite !Ht.
Qed.

(** ** Gas, exactly *)

(** C30. The float64 code adds exactly a fifth to the node's estimate, rounded up for an
    EVM gas limit and down for a Cosmos one, for every estimate below [2 ^ 49]. *)
Theorem gas_limits_exact g :
  0 ≤ g < 2 ^ 49 →
  padded_gas g = - (- (6 * g) / 5) ∧ simulated_gas g = 6 * g / 5.
Proof.
  intros Hg. unfold padded_gas, simulated_gas.
  rewrite bf_ceil_times_1_2, bf_Int_times_1_2 by done.
  assert (0 ≤ 6 * g / 5 < 2 ^ 64) by (split; [apply Z.div_pos|apply Z.div_lt_upper_bound]; lia).
  assert (0 ≤ - (- (6 * g) / 5) < 2 ^ 64).
  { pose proof (Z.div_mod (- (6 * g)) 5). pose proof (Z.mod_pos_bound (- (6 * g)) 5). lia. }
  by rewrite !u64_id.
Qed.

Lemma jittered_2 b : 0 ≤ b < 2 ^ 63 → jittered (bf_NewFloat 2) b = 2 * b.
Proof.
  intros Hb. unfold jittered. assert (Z.max 64 (Z.log2 b + 1) = 64) as ->.
  { assert (Z.log2 b < 63); [|lia]. destruct (decide (b = 0)) as [->|]; [done|].
    apply Z.log2_lt_pow2; lia. }
  destruct (decide (b = 0)) as [->|Hne]; [done|].
  unfold bf_Mul. set (x := bf_round 64 _ _).
  assert (bf_num x = 2 * b * bf_den x) as Hx.
  { assert (bf_num (bf_NewFloat 2) = 2 ^ 52 ∧ bf_den (bf_NewFloat 2) = 2 ^ 51) as [Hn Hd] by done.
    assert (bf_num (bf_SetInt b) = b ∧ bf_den (bf_SetInt b) = 1) as [Hn' Hd']
      by (unfold bf_num, bf_den; simpl; lia).
    unfold x. rewrite Hn, Hd, Hn', Hd'. apply (bf_round_integer 64); lia. }
  unfold bf_Int. pose proof (bf_den_pos x). rewrite Hx, Z.quot_mul by lia. done.
Qed.

(** ** EVM executor *)

(** The transaction a call builds from the node's answers. *)
Definition executor_tx (id nonce v gas tip base : Z) (minTip : option Z) (to : string)
    (data : list byte) : EthTx :=
  let tipCap := floor_tip minTip tip in
  mkEthTx 2 (Some id) nonce (Some tipCap) (Some (tipCap + jittered (bf_NewFloat 2) base))
    (padded_gas gas) (Some to) (Some v) data.

Section evm_theorems.
Context {E : Type} `{Env E}.
Implicit Types w : World E.
Context (reader : configReader) (lookupEnv : string → option string).

Definition evm_last (w : World E) : Time := evmLastSubmissionTime (clients (w_mem w)).

(** What a call may do before it waits. *)
Lemma EVMRPC_GetClient_quiet chainID w :
  wp (EVMRPC_GetClient reader lookupEnv chainID) (λ _ w',
    evm_last w' = evm_last w ∧ emits (λ r, ∃ url, r = Net (EthDial url)) w w') w.
Proof.
  unfold EVMRPC_GetClient. wp_steps; (split; [done|]); solve_emits; eauto.
Qed.

(** With the tip set before it, the fee cap is the tip plus the doubled base fee. *)
Lemma WithEstimatedGasFeeCap_tip rpc m j tx tip :
  eth_GasTipCap tx = Some tip →
  WithEstimatedGasFeeCap rpc m j tx =
    (head ← wrap_err "getting latest block header: " (ask (Net (EthHeader rpc)));
     match head.2 with
     | None => go_panic "nil dereference: BaseFee"
     | Some baseFee => mret (set_GasFeeCap (tip + jittered j baseFee) tx)
     end : M (World E) EthTx).
Proof. destruct tx; simpl; intros ->. reflexivity. Qed.

(** Not a transaction the node accepted. *)
Definition unsent (ev : event) : Prop :=
  match projT1 ev as r return error + response r → Prop with
  | Net r => match r as r return error + net_response r → Prop with
             | EthSendTransaction _ _ => λ a, match a with inl _ => True | inr _ => False end
             | _ => λ _, True
             end
  | _ => λ _, True
  end (projT2 ev).

(** Not a refused gas estimate. *)
Definition estimated (ev : event) : Prop :=
  match projT1 ev as r return error + response r → Prop with
  | Net r => match r as r return error + net_response r → Prop with
             | EthEstimateGas _ _ _ _ _ => λ a, match a with inl _ => False | inr _ => True end
             | _ => λ _, True
             end
  | _ => λ _, True
  end (projT2 ev).

(** What the executor relies on: a signer sends nothing itself and leaves the memory
    of the clients alone. *)
Class SignerLaws (signer : EVMSigner (E := E)) : Prop := {
  sign_unsent chainID tx : frame (emits_ev unsent) (signer chainID tx);
  sign_mem chainID tx : frame (mem_rel eq) (signer chainID tx)
}.

#[export] Instance LocalEthereumSigner_laws : SignerLaws LocalEthereumSigner_Sign.
Proof.
  split; intros chainID tx w; unfold LocalEthereumSigner_Sign.
  - change (wp (LocalEthereumSigner_Sign chainID tx) (λ _ w', emits_ev unsent w w') w).
    unfold LocalEthereumSigner_Sign. wp_steps; by solve_emits_ev.
  - change (wp (LocalEthereumSigner_Sign chainID tx) (λ _ w', mem_rel eq w w') w).
    unfold LocalEthereumSigner_Sign. by wp_steps.
Qed.

(** Waiting for the turn of a call and its nonce. *)
Definition takes_nonce (w0 : World E) chainID from (nonce : Z) (clock1 : error + Time) : list event :=
  [ existT TimeNow clock1;
    existT (Net (Sleep (time_sub (evm_last w0 + txSubmissionDelay) (clock_reading clock1)))) (inr tt);
    existT (Net (EthPendingNonceAt chainID from)) (inr nonce) ].

(** What [Build] made of the node's answers: the transaction with this data, nonce, gas,
    tip and base fee; or nothing, and no transaction was sent on the way. *)
Definition assembled chainID from to (data : list byte) value minTip (nonce : Z) (evs : list event)
    (built : option EthTx) : Prop :=
  match built with
  | Some tx => ∃ id v gas tip num base,
      bigint_SetString chainID = Some id ∧ bigint_SetString value = Some v ∧
      tx = executor_tx id nonce v gas tip base minTip to data ∧
      evs = [ existT (Net (EthEstimateGas chainID from to v data)) (inr gas);
              existT (Net (EthSuggestGasTipCap chainID)) (inr tip);
              existT (Net (EthHeader chainID)) (inr (num, Some base)) ]
  | None => Forall unsent evs
  end.

Lemma wp_evm_build chainID from data value to w :
  wp (evm_build reader chainID from data value to) (λ r w', evm_last w' = evm_last w ∧
    emits_ev unsent w w' ∧
    ∀ built, r = Ok built → ∃ cfg evm nonce c1 evs,
      GetChainConfig reader chainID = Ok cfg ∧ EVM cfg = Some evm ∧
      w_trace w' = w_trace w ++ takes_nonce w chainID from nonce c1 ++ evs ∧
      assembled chainID from to data value (evm_MinGasTipCap evm) nonce evs
        (match built with inr tx => Some tx | inl _ => None end)) w.
Proof.
  unfold evm_build, wait_turn, TxBuilder_Build, WithData, WithTo, WithValue, WithChainID,
    WithNonce, WithEstimatedGasLimit, WithEstimatedGasTipCap.
  cbn [fold_m]. wp_clock.
  all: try (erewrite WithEstimatedGasFeeCap_tip by reflexivity; wp_clock).
  all: (split_and!; [done|by solve_emits_ev|]); intros built [= <-].
  all: match goal with x : response (Net (Sleep _)) |- _ => destruct x end.
  all: do 5 eexists; (split_and!; [reflexivity|eassumption| |]).
  all: try (cbn; rewrite <-!app_assoc; reflexivity).
  all: try by repeat constructor.
  match goal with x : response (Net (EthHeader _)), Hb : _.2 = Some _ |- _ =>
    destruct x as [num base]; cbn in Hb; subst base end.
  do 6 eexists. by split_and!.
Qed.

(** The time was noted at the end. *)
Definition notes w w' : Prop :=
  ∃ pre c, w_trace w' = w_trace w ++ pre ++ [existT TimeNow c] ∧ evm_last w' = clock_reading c.

(** A call that succeeds. *)
Definition executed (signer : EVMSigner (E := E)) chainID from to data value w w' hash raw : Prop :=
  ∃ cfg evm nonce c1 evs built pre signed w1 w2 c2,
    GetChainConfig reader chainID = Ok cfg ∧ EVM cfg = Some evm ∧
    Forall (λ ev : event, ∃ url, projT1 ev = Net (EthDial url)) pre ∧
    assembled chainID from to data value (evm_MinGasTipCap evm) nonce evs built ∧
    w_trace w1 = w_trace w ++ pre ++ takes_nonce w chainID from nonce c1 ++ evs ∧
    signer chainID built w1 = (Ok signed, w2) ∧ emits_ev unsent w1 w2 ∧
    raw = base64_EncodeToString (ste_Json signed) ∧
    w_trace w' = w_trace w2 ++ [ existT (Net (EthSendTransaction chainID (ste_Binary signed))) (inr hash);
                                 existT TimeNow c2 ] ∧
    evm_last w' = clock_reading c2.

(** What a call does: it succeeds; it returns an error, and nothing is sent or noted; or it
    panics, nothing is sent, and the time is noted all the same, unless the signer panicked
    on a failed build, or the call had not started. *)
Definition execute_post signer chainID from to data value (r : result (string * string)) w w' : Prop :=
  match r with
  | Ok (hash, raw) => executed signer chainID from to data value w w' hash raw
  | Err _ => emits_ev unsent w w' ∧ evm_last w' = evm_last w
  | Panic p => emits_ev unsent w w' ∧
      (notes w w' ∨ evm_last w' = evm_last w ∧
         ((∃ w1, signer chainID None w1 = (Panic p, w')) ∨
          EVMRPC_GetClient reader lookupEnv chainID w = (Panic p, w')))
  end.

Lemma wp_note_evm w w1 p signer chainID from to data value :
  emits_ev unsent w w1 →
  wp note_evm_submission (λ _ w',
    execute_post signer chainID from to data value (Panic p) w w') w1.
Proof.
  intros (new&Ht&Hnew). unfold note_evm_submission. wp_clock. split.
  - exists (new ++ [existT TimeNow a]). cbn. rewrite Ht, app_assoc. split; [done|].
    apply Forall_app. split; [done|]. by repeat constructor.
  - left. exists new, a. cbn. by rewrite Ht, app_assoc.
Qed.

(** From the signed transaction on. *)
Lemma wp_evm_send signer chainID from to data value cfg evm nonce c1 evs built pre signed w w1 w2 :
  GetChainConfig reader chainID = Ok cfg → EVM cfg = Some evm →
  Forall (λ ev : event, ∃ url, projT1 ev = Net (EthDial url)) pre →
  assembled chainID from to data value (evm_MinGasTipCap evm) nonce evs built →
  w_trace w1 = w_trace w ++ pre ++ takes_nonce w chainID from nonce c1 ++ evs →
  signer chainID built w1 = (Ok signed, w2) → emits_ev unsent w1 w2 → emits_ev unsent w w2 →
  evm_last w2 = evm_last w →
  wp (r ← on_panic note_evm_submission (evm_send chainID signed); _ ← note_evm_submission; mret r)
    (λ r w', execute_post signer chainID from to data value r w w') w2.
Proof.
  intros Hcfg Hevm Hpre Has Ht1 Hsign Hem12 Hem2 Hlast.
  unfold evm_send, note_evm_submission. wp_clock.
  - split; [by solve_emits_ev|exact Hlast].
  - exists cfg, evm, nonce, c1, evs, built, pre, signed, w1, w2, a.
    split_and!; try done. cbn. by rewrite <-app_assoc.
Qed.

Lemma wp_EVM_ExecuteTx signer `{!SignerLaws signer} chainID from data value to w :
  wp (EVM_ExecuteTx reader lookupEnv signer chainID from data value to)
    (λ r w', execute_post signer chainID from to data value r w w') w.
Proof.
  unfold EVM_ExecuteTx. apply wp_bind, wp_intro. intros r0 w0 Hclient.
  destruct (wp_run _ _ _ _ _ Hclient (EVMRPC_GetClient_quiet chainID w)) as [Hlast0 Hem0].
  assert (emits_ev unsent w w0) as Hun0.
  { eapply emits_ev_weaken; [|exact Hem0]. by intros q a [url ->]. }
  destruct r0 as [[]|e|p]; [|by split|split; [done|]; right; eauto].
  destruct Hem0 as (pre&Ht0&Hpre).
  apply wp_bind, wp_on_panic. eapply wp_mono; [|apply wp_evm_build].
  intros r1 w1 (Hlast1&Hem1&Hbuilt). assert (emits_ev unsent w w1) as Hun1 by (by etransitivity).
  destruct r1 as [built|e|p]; [|split; [done|congruence]|by apply wp_note_evm].
  destruct (Hbuilt built eq_refl) as (cfg&evm&nonce&c1&evs&Hcfg&Hevm&Ht1&Has). clear Hbuilt.
  assert (w_trace w1 = w_trace w ++ pre ++ takes_nonce w chainID from nonce c1 ++ evs) as Ht.
  { rewrite Ht1, Ht0, <-app_assoc. unfold takes_nonce. by rewrite Hlast0. }
  apply wp_bind.
  assert (∀ tx rs w2, signer chainID tx w1 = (rs, w2) →
    emits_ev unsent w1 w2 ∧ emits_ev unsent w w2 ∧ evm_last w2 = evm_last w) as Hsigned.
  { intros tx rs w2 Hs. pose proof (sign_unsent chainID tx w1) as He.
    pose proof (sign_mem chainID tx w1) as Hm. rewrite Hs in He, Hm. simpl in He, Hm.
    split_and!; [done|by etransitivity|]. unfold mem_rel in Hm. unfold evm_last in *. congruence. }
  destruct built as [err|tx]; [|apply wp_on_panic]; apply wp_intro; intros rs w2 Hs;
    destruct (Hsigned _ _ _ Hs) as (Hem12&Hem2&Hlast2); destruct rs as [signed|e|p].
  1,4: by eapply wp_evm_send.
  1,3: by split.
  - split; [done|]. right. split; [done|]. left. by exists w1.
  - by apply wp_note_evm.
Qed.

(** The local signer refuses a nil transaction, so the one sent is the one built. *)
Definition sends (w0 : World E) chainID from to data minTip id v nonce gas tip base
    (clock1 clock2 : error + Time) (num : Z) signed hash : list event :=
  takes_nonce w0 chainID from nonce clock1 ++
  [ existT (Net (EthEstimateGas chainID from to v data)) (inr gas);
    existT (Net (EthSuggestGasTipCap chainID)) (inr tip);
    existT (Net (EthHeader chainID)) (inr (num, Some base));
    existT (Net (SignEthTx chainID (executor_tx id nonce v gas tip base minTip to data))) (inr signed);
    existT (Net (EthSendTransaction chainID (ste_Binary signed))) (inr hash);
    existT TimeNow clock2 ].

Lemma LocalEthereumSigner_signs chainID built w w' signed :
  LocalEthereumSigner_Sign chainID built w = (Ok signed, w') →
  ∃ tx, built = Some tx ∧ w_trace w' = w_trace w ++ [existT (Net (SignEthTx chainID tx)) (inr signed)].
Proof.
  intros Hrun. run_wp Hrun. unfold LocalEthereumSigner_Sign. wp_steps; try done.
  intros [= ->]. eauto.
Qed.

Lemma EVM_ExecuteTx_run chainID from data value to w r w' :
  EVM_ExecuteTx reader lookupEnv LocalEthereumSigner_Sign chainID from data value to w = (r, w') →
  match r with
  | Ok (hash, raw) =>
      ∃ cfg evm id v nonce gas tip num base signed c1 c2 pre,
        GetChainConfig reader chainID = Ok cfg ∧ EVM cfg = Some evm ∧
        bigint_SetString chainID = Some id ∧ bigint_SetString value = Some v ∧
        raw = base64_EncodeToString (ste_Json signed) ∧
        w_trace w' = w_trace w ++ pre ++
          sends w chainID from to data (evm_MinGasTipCap evm) id v nonce gas tip base c1 c2 num signed hash ∧
        Forall (λ ev : event, ∃ url, projT1 ev = Net (EthDial url)) pre ∧
        evm_last w' = clock_reading c2
  | _ => emits_ev unsent w w'
  end.
Proof.
  intros Hrun.
  pose proof (wp_run _ _ _ _ _ Hrun (wp_EVM_ExecuteTx LocalEthereumSigner_Sign _ _ _ _ _ w)) as Hpost.
  destruct r as [[hash raw]|e|p]; simpl in Hpost; [|apply Hpost..].
  destruct Hpost as (cfg&evm&nonce&c1&evs&built&pre&signed&w1&w2&c2&Hcfg&Hevm&Hpre&Has&Ht1&Hsign&_&Hraw&Ht'&Hlast).
  apply LocalEthereumSigner_signs in Hsign as (tx&->&Ht2).
  destruct Has as (id&v&gas&tip&num&base&Hid&Hv&->&->).
  exists cfg, evm, id, v, nonce, gas, tip, num, base, signed, c1, c2, pre.
  split_and!; try done. rewrite Ht', Ht2, Ht1, <-!app_assoc. reflexivity.
Qed.

(** One transaction was accepted since [w]: these bytes, with this hash. *)
Definition sent_one w w' chainID bytes hash : Prop :=
  ∃ pre post,
    w_trace w' = w_trace w ++ pre ++ existT (Net (EthSendTransaction chainID bytes)) (inr hash) :: post ∧
    Forall unsent (pre ++ post).

Lemma sent_one_earlier w w1 w2 chainID bytes hash :
  emits_ev unsent w w1 → sent_one w1 w2 chainID bytes hash → sent_one w w2 chainID bytes hash.
Proof.
  intros (new&Hw1&Hnew) (pre&post&Hw2&Hall). exists (new ++ pre), post.
  split; [by rewrite Hw2, Hw1, <-!app_assoc|]. rewrite <-app_assoc. by apply Forall_app.
Qed.

Lemma sends_sent_one w w' chainID from to data minTip id v nonce gas tip base c1 c2 num signed hash pre :
  w_trace w' = w_trace w ++ pre ++
    sends w chainID from to data minTip id v nonce gas tip base c1 c2 num signed hash →
  Forall (λ ev : event, ∃ url, projT1 ev = Net (EthDial url)) pre →
  sent_one w w' chainID (ste_Binary signed) hash.
Proof.
  intros Ht Hpre.
  set (script := sends w chainID from to data minTip id v nonce gas tip base c1 c2 num signed hash) in Ht.
  exists (pre ++ take 7 script), (drop 8 script). split.
  - rewrite Ht, <-app_assoc. reflexivity.
  - rewrite <-app_assoc. apply Forall_app. split; [|by repeat constructor].
    eapply Forall_impl; [exact Hpre|]. by intros [r a] [url ?]; simpl in *; subst.
Qed.

(** C17. Whatever signer it is given (one that sends nothing itself), a call that succeeds
    waited until half a second after the last submission, asked the node for the nonce,
    and built the transaction that the node's gas, tip and base fee make, or failed to;
    the signer signed what was built, and exactly its answer was sent, once, and the time
    noted.  A call that returns an error has no transaction accepted and notes nothing.  A
    call that panics has none accepted either, and the deferred function notes the time
    all the same, unless the signer panicked on a failed build (or connecting did, before
    the call took its turn). *)
Theorem EVM_ExecuteTx_sends_once signer `{!SignerLaws signer} chainID from data value to w r w' :
  EVM_ExecuteTx reader lookupEnv signer chainID from data value to w = (r, w') →
  match r with
  | Ok (hash, raw) => executed signer chainID from to data value w w' hash raw
  | Err _ => emits_ev unsent w w' ∧ evm_last w' = evm_last w
  | Panic p => emits_ev unsent w w' ∧
      (notes w w' ∨ evm_last w' = evm_last w ∧
         ((∃ w1, signer chainID None w1 = (Panic p, w')) ∨
          EVMRPC_GetClient reader lookupEnv chainID w = (Panic p, w')))
  end.
Proof.
  intros Hrun. exact (wp_run _ _ _ _ _ Hrun (wp_EVM_ExecuteTx signer chainID from data value to w)).
Qed.

(** When the node refuses to estimate the gas (the call would revert, say), the call
    panics with the local signer: the failed build leaves a nil transaction, which is
    signed all the same. *)
Theorem EVM_ExecuteTx_estimate_failure_panics chainID from data value to v err w r w' :
  EVM_ExecuteTx reader lookupEnv LocalEthereumSigner_Sign chainID from data value to w = (r, w') →
  asked w w' (existT (Net (EthEstimateGas chainID from to v data)) (inl err)) →
  ∃ p, r = Panic p.
Proof.
  intros Hrun. run_wp Hrun. unfold EVM_ExecuteTx. apply wp_bind.
  eapply wp_mono; [|apply EVMRPC_GetClient_quiet].
  intros r1 w1 [Hlast Hpre].
  assert (emits_ev estimated w w1) as Hun.
  { eapply emits_ev_weaken; [|exact Hpre]. by intros q a [url ->]. }
  destruct r1 as [u|e|p]; [|by intros <- Ha%(emits_ev_asked estimated)..].
  unfold evm_build, evm_send, note_evm_submission, wait_turn, TxBuilder_Build, WithData, WithTo,
    WithValue, WithChainID, WithNonce, WithEstimatedGasLimit, WithEstimatedGasTipCap,
    LocalEthereumSigner_Sign.
  cbn [fold_m]. wp_clock.
  all: try (erewrite WithEstimatedGasFeeCap_tip by reflexivity; wp_clock).
  all: intros <-; try (by eauto); intros Ha%(emits_ev_asked estimated); by solve_emits_ev.
Qed.
End evm_theorems.

(** ** Cosmos executor *)

Section cosmos_theorems.
Context {E : Type} `{Env E}.
Implicit Types w : World E.
Context (reader : configReader) (lookupEnv : string → option string).
Context (gas_price_dec : bigfloat → error + Z).

Definition cosmos_last (w : World E) : Time := cosmosLastSubmissionTime (clients (w_mem w)).

(** Not a transaction the node answered. *)
Definition unbroadcast (ev : event) : Prop :=
  match projT1 ev as r return error + response r → Prop with
  | Net r => match r as r return error + net_response r → Prop with
             | BroadcastTxSync _ _ => λ a, match a with inl _ => True | inr _ => False end
             | _ => λ _, True
             end
  | _ => λ _, True
  end (projT2 ev).

(** The fee is the least amount that pays for the gas. *)
Lemma fee_coin_least denom price gas c :
  fee_coin denom (fee_amount price gas) = Ok c →
  let fee := match c with Some c => coin_Amount c | None => 0 end in
  10 ^ 18 * (fee - 1) < price * i64 gas ≤ 10 ^ 18 * fee.
Proof.
  unfold fee_coin. set (a := fee_amount price gas).
  assert (10 ^ 18 * (a - 1) < price * i64 gas ≤ 10 ^ 18 * a) as Ha.
  { unfold a, fee_amount. set (x := price * i64 gas). clearbody x.
    pose proof (Z.div_mod (- x) (10 ^ 18)). pose proof (Z.mod_pos_bound (- x) (10 ^ 18)). lia. }
  clearbody a. destruct (Z.ltb_spec a 0); [done|].
  destruct (Z.eqb_spec a 0); intros [= <-]; simpl; lia.
Qed.

(** The connections of the executor's managers. *)
Definition connects (r : request) : Prop :=
  ∃ url, r = Net (TmDial url) ∨ r = Net (GrpcDial url false).

(** What a call does once its clients are there: it waits and asks for the account,
    and, connected, signs, simulates, signs and broadcasts. *)
Definition takes_turn (w0 : World E) chainID from resp (c1 : error + Time) : list event :=
  [ existT TimeNow c1;
    existT (Net (Sleep (time_sub (cosmos_last w0 + txSubmissionDelay) (clock_reading c1)))) (inr tt);
    existT (Net (QueryAccount chainID from)) (inr resp) ].

Definition broadcasts chainID msgs (account : Account) simBytes gasUsed tx bytes
    (c2 : error + Time) res : list event :=
  [ existT (Net (CosmosSign chainID (mkCosmosTxBody msgs None 0) account)) (inr simBytes);
    existT (Net (CosmosSimulate chainID simBytes)) (inr gasUsed);
    existT (Net (CosmosSign chainID tx account)) (inr bytes);
    existT (Net (BroadcastTxSync chainID bytes)) (inr res);
    existT TimeNow c2 ].

Lemma TM_GetClient_quiet chainID w :
  wp (TM_GetClient reader lookupEnv chainID) (λ _ w',
    cosmos_last w' = cosmos_last w ∧ emits connects w w') w.
Proof.
  unfold TM_GetClient, DefaultTendermintRPCClient.
  wp_steps; (split; [done|]); solve_emits; unfold connects; eauto.
Qed.

Lemma GRPC_GetClient_quiet chainID w :
  wp (GRPC_GetClient reader chainID) (λ _ w', emits connects w w') w.
Proof.
  unfold GRPC_GetClient, DefaultCosmosGRPCCLientConn.
  wp_steps; solve_emits; unfold connects; eauto.
Qed.

Lemma connects_unbroadcast w w' : emits connects w w' → emits_ev unbroadcast w w'.
Proof. apply emits_ev_weaken. by intros r a [url [->| ->]]. Qed.

(** A successful call: its answers [res] and [tx], and what it did on the way. *)
Definition broadcast_once chainID from msgs gasPrice w w' (res : ResultBroadcastTx) tx : Prop :=
  ∃ resp account simBytes gasUsed bytes c1 c2 price pre mid,
    abci_Code resp = 0 ∧ abci_Value resp = inr account ∧
    w_trace w' = w_trace w ++ pre ++ takes_turn w chainID from resp c1 ++ mid ++
      broadcasts chainID msgs account simBytes gasUsed tx bytes c2 res ∧
    Forall (λ ev : event, connects (projT1 ev)) (pre ++ mid) ∧
    cosmos_last w' = clock_reading c2 ∧
    ctb_Msgs tx = msgs ∧ ctb_GasLimit tx = simulated_gas gasUsed ∧
    gas_price_dec gasPrice = inr price ∧
    let fee := match ctb_Fee tx with Some c => coin_Amount c | None => 0 end in
    10 ^ 18 * (fee - 1) < price * i64 (ctb_GasLimit tx) ≤ 10 ^ 18 * fee.

(** The part after the account query: connect, simulate, sign, broadcast. *)
Lemma Cosmos_ExecuteTx_run chainID from msgs gasPrice denom w r w' :
  Cosmos_ExecuteTx reader lookupEnv gas_price_dec chainID from msgs gasPrice denom w = (r, w') →
  match r with
  | Ok (res, tx) => broadcast_once chainID from msgs gasPrice w w' res tx
  | _ => emits_ev unbroadcast w w'
  end.
Proof.
  intros Hrun. run_wp Hrun. unfold Cosmos_ExecuteTx. apply wp_bind.
  eapply wp_mono; [|apply TM_GetClient_quiet]. intros r1 w1 [Hlast Hpre].
  pose proof (connects_unbroadcast _ _ Hpre) as Hun1.
  destruct r1 as [u|e|p]; [|intros <-; exact Hun1..]. destruct Hpre as (pre&Ht1&Hpre).
  unfold wait_turn, note_cosmos_submission, cosmos_submit, queryAccount, lift_sum.
  wp_clock; try (intros <-; by solve_emits_ev).
  unfold estimateGasUsed. apply wp_bind.
  match goal with |- wp _ _ ?ww => set (w2 := ww) end.
  assert (emits_ev unbroadcast w w2) as Hun2 by (unfold w2; by solve_emits_ev).
  match goal with x : response (Net (Sleep _)) |- _ => destruct x end.
  assert (w_trace w2 = w_trace w ++ pre ++ takes_turn w chainID from r2 a) as Ht2.
  { unfold w2, takes_turn. cbn. rewrite Ht1, <-!app_assoc, <-Hlast. reflexivity. }
  clearbody w2. eapply wp_mono; [|apply GRPC_GetClient_quiet]. intros r3 w3 Hmid.
  assert (emits_ev unbroadcast w w3) as Hun3.
  { etransitivity; [exact Hun2|by apply connects_unbroadcast]. }
  destruct r3 as [u3|e3|p3]; [|intros <-; exact Hun3|wp_clock; intros <-; by solve_emits_ev]. destruct Hmid as (mid&Ht3&Hmid).
  unfold lift_sum. wp_clock; intros <-; try (by solve_emits_ev).
  do 8 eexists. exists pre, mid. split_and!.
  3: { cbn. unfold broadcasts. rewrite Ht3, Ht2, <-!app_assoc. reflexivity. }
  all: try done.
  all: try (by apply Z.eqb_eq, negb_false_iff).
  all: try (by apply Forall_app).
  all: cbn; by eapply fee_coin_least.
Qed.

(** A call that succeeds waited for its turn, simulated the messages and broadcast
    once a transaction with the simulated gas as its limit and with the least fee, in
    whole units, that pays the gas price; its answer may still be a rejection of the
    node.  A call that fails has broadcast nothing. *)
Theorem Cosmos_ExecuteTx_broadcasts_once chainID from msgs gasPrice denom w r w' :
  Cosmos_ExecuteTx reader lookupEnv gas_price_dec chainID from msgs gasPrice denom w = (r, w') →
  match r with
  | Ok (res, tx) => broadcast_once chainID from msgs gasPrice w w' res tx
  | _ => emits_ev unbroadcast w w'
  end.
Proof. apply Cosmos_ExecuteTx_run. Qed.
End cosmos_theorems.

(** ** Examples *)

(** An EVM node that accepts transactions but may refuse to estimate gas or know no base
    fee, and a Cosmos node. *)
Definition node_at (baseFee : option Z) (estimate : error + Z) : Env unit := sim_env (λ r,
  match r as r return error + response r with
  | Net n =>
      match n as n return error + net_response n with
      | Sleep _ | EthDial _ | TmDial _ | GrpcDial _ _ => inr tt
      | EthPendingNonceAt _ _ => inr 7
      | EthEstimateGas _ _ _ _ _ => estimate
      | EthSuggestGasTipCap _ => inr 2
      | EthHeader _ => inr (100, baseFee)
      | SignEthTx _ _ => inr (mkSignedEthTx [x01] "{}")
      | EthSendTransaction _ _ => inr "0xhash"
      | QueryAccount _ _ => inr (mkAbciResponse 0 "" "" (inr (mkAccount 5 9)))
      | CosmosSign _ _ _ => inr [x02]
      | CosmosSimulate _ _ => inr 100001
      | BroadcastTxSync _ _ => inr (mkResultBroadcastTx 0 "" "" [xab])
      | n => inl (ErrNew "connection refused")
      end
  | r => offline r
  end).

Definition node : error + Z → Env unit := node_at (Some 30).

Definition sample_execute (estimate : error + Z) : result (string * string) * World unit :=
  EVM_ExecuteTx (H := node estimate) sample_reader (λ _, None)
    (LocalEthereumSigner_Sign (H := node estimate)) "42161" "0xsolver" [x00] "0" "0xmailbox"
    (sim_world empty_db).

Example execute_hash : (sample_execute (inr 100000)).1 = Ok ("0xhash", "e30=").
Proof. by vm_compute. Qed.

Example padded_100000 : padded_gas 100000 = 120000 ∧ simulated_gas 100001 = 120001.
Proof. by vm_compute. Qed.

Lemma gas_limits_exact_witness : padded_gas 100001 = 120002 ∧ simulated_gas 100001 = 120001.
Proof. apply (gas_limits_exact 100001). lia. Defined.

(** A signer that returns a transaction whatever it is given, as the mock of the tests. *)
Definition mock_signer {E} : EVMSigner (E := E) := λ _ _, mret (mkSignedEthTx [x01] "{}").

#[export] Instance mock_signer_laws {E} : SignerLaws (E := E) mock_signer.
Proof. split; intros chainID tx w; reflexivity. Qed.

(** The value is no number, so nothing is built; the signer's transaction is sent. *)
Definition mock_execute : result (string * string) * World unit :=
  EVM_ExecuteTx (H := node (inr 0)) sample_reader (λ _, None) mock_signer "42161" "signerAddress" []
    "value" "to" (sim_world empty_db).

Lemma EVM_ExecuteTx_sends_once_witness :
  mock_execute.1 = Ok ("0xhash", "e30=")%string ∧
  executed sample_reader mock_signer "42161" "signerAddress" "to" [] "value"
    (sim_world empty_db) mock_execute.2 "0xhash" "e30=".
Proof.
  assert (mock_execute = (Ok ("0xhash", "e30=")%string, mock_execute.2)) as Hrun
    by (vm_compute; reflexivity).
  split; [by rewrite Hrun|].
  exact (EVM_ExecuteTx_sends_once (H := node (inr 0)) sample_reader (λ _, None) mock_signer "42161"
           "signerAddress" [] "value" "to" _ _ _ Hrun).
Defined.

(** A header without a base fee: the call panics, and the submission time is noted. *)
Example nil_base_fee :
  let run := EVM_ExecuteTx (H := node_at None (inr 0)) sample_reader (λ _, None) mock_signer "42161"
               "0xsolver" [] "0" "0xmailbox" (sim_world empty_db) in
  run.1 = Panic "nil dereference: BaseFee" ∧
  evm_last (sim_world empty_db) = zero_time ∧ evm_last run.2 = 0.
Proof. vm_compute. auto. Qed.

Lemma EVM_ExecuteTx_estimate_failure_panics_witness :
  ∃ p, (sample_execute (inl (ErrNew "execution reverted"))).1 = Panic p.
Proof.
  set (run := sample_execute (inl (ErrNew "execution reverted"))).
  apply (EVM_ExecuteTx_estimate_failure_panics (H := node (inl (ErrNew "execution reverted")))
    sample_reader (λ _, None) "42161" "0xsolver" [x00] "0" "0xmailbox" 0 (ErrNew "execution reverted")
    (sim_world empty_db) run.1 run.2).
  - apply surjective_pairing.
  - exists (w_trace run.2). split; [reflexivity|]. vm_compute. repeat first [left|right].
Defined.

Definition sample_broadcast :=
  Cosmos_ExecuteTx (H := node (inr 0)) sample_reader (λ _, None) (λ _, inr (10 ^ 17)) "osmosis-1" "osmo1solver" []
    (BF 1 0) "uosmo" (sim_world empty_db).

Lemma Cosmos_ExecuteTx_broadcasts_once_witness :
  ∃ res tx, sample_broadcast.1 = Ok (res, tx) ∧ ctb_GasLimit tx = 120001 ∧
    ctb_Fee tx = Some (mkCoin "uosmo" 12001) ∧ ctb_Msgs tx = [].
Proof.
  assert (sample_broadcast = (Ok (mkResultBroadcastTx 0 "" "" [xab],
    mkCosmosTxBody [] (Some (mkCoin "uosmo" 12001)) 120001), sample_broadcast.2)) as Hrun
    by (vm_compute; reflexivity).
  pose proof Hrun as Hrun'. rewrite Hrun.
  apply (Cosmos_ExecuteTx_broadcasts_once (H := node (inr 0))) in Hrun'
    as (resp&account&simBytes&gasUsed&bytes&c1&c2&price&pre&mid&_&_&_&_&_&Hm&_).
  do 2 eexists. split_and!; [reflexivity|reflexivity|reflexivity|exact Hm].
Defined.
