(* ===== verification/Settlements.v ===== *)
(** * Settlements: ordersettler/types/settlements.go

    Settlement batches: grouping settlements by (source, destination) chain or by
    initiation transaction, and the totals of a batch. *)
From Stdlib Require Import Strings.Byte.
From S2P Require Import Prelude GoLib Config Database World.

(** A slice of settlements that share their chains. *)
Definition SettlementBatch : Type := list OrderSettlement.

(** ** Grouping *)

Section group.
Context {A K : Type} `{Countable K}.

(** [for _, x := range l { m[k] = append(m[k], x) }], skipping the elements
    without a key. *)
Definition group (key : A → option K) (l : list A) : gmap K (list A) :=
  foldl (λ m x, match key x with
                | Some k => <[k := default [] (m !! k) ++ [x]]> m
                | None => m
                end) ∅ l.
End group.

Definition chains_key (s : OrderSettlement) : option (string * string) :=
  Some (os_SourceChainID s, os_DestinationChainID s).

Section batches.
Context {E : Type} `{Env E}.
Notation IO := (M (World E)).

Definition IntoSettlementBatchesByChains (settlements : list OrderSettlement) :
    IO (list SettlementBatch) :=
  range (map_to_list (group chains_key settlements)).*2.

Definition IntoSettlementBatchesByHash (settlements : list OrderSettlement) :
    IO (list SettlementBatch) :=
  range (map_to_list (group os_InitiateSettlementTx settlements)).*2.
End batches.

(** ** Batch accessors *)

Definition OrderIDs (b : SettlementBatch) : list string := os_OrderID <$> b.

(** [b[0]] of an empty batch is a run-time panic. *)
Definition batch_head (b : SettlementBatch) : result OrderSettlement :=
  match b with
  | s :: _ => Ok s
  | [] => Panic "index out of range [0] with length 0"
  end.

Definition batch_SourceChainID (b : SettlementBatch) : result string :=
  result_map os_SourceChainID (batch_head b).

Definition batch_DestinationChainID (b : SettlementBatch) : result string :=
  result_map os_DestinationChainID (batch_head b).

Definition SourceChainConfig (cfg : configReader) (b : SettlementBatch) : result ChainConfig :=
  result_bind (λ id,
    result_wrap ("getting chain config for chain " +:+ id +:+ ": ") (GetChainConfig cfg id))
    (batch_SourceChainID b).

Definition DestinationChainConfig (cfg : configReader) (b : SettlementBatch) :
    result ChainConfig :=
  result_bind (λ id,
    result_wrap ("getting chain config for chain " +:+ id +:+ ": ") (GetChainConfig cfg id))
    (batch_DestinationChainID b).

Definition DestinationGatewayContractAddress (cfg : configReader) (b : SettlementBatch) :
    result string :=
  result_bind (λ id,
    result_wrap ("getting gateway contract address for destination chain " +:+ id +:+ ": ")
      (GetGatewayContractAddress cfg id))
    (batch_DestinationChainID b).

(** [HexToAddress] and [BytesToHash] are go-ethereum's: parameters. *)
Definition RepaymentAddress (HexToAddress : string → list byte)
    (BytesToHash : list byte → list byte) (cfg : configReader) (b : SettlementBatch) :
    result (list byte) :=
  result_bind (λ sourceChainConfig,
    if (Type_ sourceChainConfig =? ChainType_EVM)%string then
      if (SolverAddress sourceChainConfig =? "")%string then
        Err (ErrNew ("solver address not set for chain " +:+ ChainID sourceChainConfig))
      else Ok (BytesToHash (HexToAddress (SolverAddress sourceChainConfig)))
    else Err (ErrNew ("unsupported destination chain type " +:+ Type_ sourceChainConfig
                      +:+ " for settlement")))
    (result_wrap "getting source chain config: " (SourceChainConfig cfg b)).

(** [sum := 0; for ... { value, ok := SetString(amount); if !ok { return err }; sum += value }] *)
Definition sum_amounts (field : OrderSettlement → string) (what : string) (b : SettlementBatch) :
    result Z :=
  foldl (λ acc s, result_bind (λ sum,
           match bigint_SetString (field s) with
           | Some value => Ok (sum + value)
           | None => Err (ErrNew ("converting settlement " +:+ what +:+ " " +:+ field s
                                  +:+ " to *big.Int"))
           end) acc) (Ok 0) b.

Definition TotalValue (b : SettlementBatch) : result Z := sum_amounts os_Amount "amount" b.
Definition TotalProfit (b : SettlementBatch) : result Z := sum_amounts os_Profit "profit" b.

(** ** Lemmas *)

Section group_lemmas.
Context {A K : Type} `{Countable K}.
Implicit Types l : list A.

Definition in_group (key : A → option K) (k : K) (x : A) : Prop := key x = Some k.
#[export] Instance in_group_dec key k x : Decision (in_group key k x).
Proof. unfold in_group. apply _. Defined.

Lemma group_snoc (key : A → option K) l x :
  group key (l ++ [x]) =
  match key x with
  | Some k => <[k := default [] (group key l !! k) ++ [x]]> (group key l)
  | None => group key l
  end.
Proof. unfold group. by rewrite foldl_app. Qed.

(** The entry of a key is the sublist of the elements with that key, if any. *)
Lemma group_lookup (key : A → option K) l k :
  group key l !! k =
  match filter (in_group key k) l with
  | [] => None
  | b => Some b
  end.
Proof.
  induction l as [|x l IH] using rev_ind; [done|].
  rewrite group_snoc, filter_app, filter_cons, filter_nil.
  destruct (key x) as [k'|] eqn:Hx.
  - destruct (decide (k' = k)) as [->|Hne].
    + rewrite lookup_insert_eq, IH. rewrite decide_True by exact Hx.
      by destruct (filter (in_group key k) l).
    + rewrite lookup_insert_ne, IH by done. rewrite decide_False by (unfold in_group; naive_solver).
      by rewrite app_nil_r.
  - rewrite IH, decide_False by (unfold in_group; naive_solver). by rewrite app_nil_r.
Qed.

Lemma group_Some (key : A → option K) l k b :
  group key l !! k = Some b → b = filter (in_group key k) l ∧ b ≠ [].
Proof. rewrite group_lookup. destruct (filter _ l) eqn:?; naive_solver. Qed.

(** The groups partition the elements that have a key. *)
Lemma group_partition (key : A → option K) l :
  concat (map_to_list (group key l)).*2 ≡ₚ filter (λ x, is_Some (key x)) l.
Proof.
  induction l as [|x l IH] using rev_ind; [done|].
  rewrite group_snoc, filter_app, filter_cons, filter_nil.
  destruct (key x) as [k|] eqn:Hx.
  - rewrite decide_True by done. rewrite <-IH. clear IH.
    destruct (group key l !! k) as [b|] eqn:Hk; simpl.
    + rewrite <-(insert_delete_id _ _ _ Hk) at 2.
      rewrite <-insert_delete_eq.
      rewrite !map_to_list_insert by apply lookup_delete_eq. simpl. solve_Permutation.
    + rewrite map_to_list_insert by done. simpl. solve_Permutation.
  - rewrite decide_False by (intros [??]; congruence). by rewrite app_nil_r.
Qed.
End group_lemmas.

Definition sum_list_Z (l : list Z) : Z := foldr Z.add 0 l.

Lemma sum_list_Z_app l1 l2 : sum_list_Z (l1 ++ l2) = sum_list_Z l1 + sum_list_Z l2.
Proof. induction l1; simpl; lia. Qed.

#[export] Instance sum_list_Z_Permutation : Proper ((≡ₚ) ==> (=)) sum_list_Z.
Proof. induction 1; simpl; lia. Qed.

(** What the sum loop computes, as a specification: the sum of the parsed
    amounts when all of them parse, otherwise an error naming the first that
    does not. *)
Lemma sum_amounts_acc (field : OrderSettlement → string) what b acc :
  foldl (λ acc s, result_bind (λ sum,
           match bigint_SetString (field s) with
           | Some value => Ok (sum + value)
           | None => Err (ErrNew ("converting settlement " +:+ what +:+ " " +:+ field s
                                  +:+ " to *big.Int"))
           end) acc) (Ok acc) b =
  match list_find (λ s, bigint_SetString (field s) = None) b with
  | Some (_, s) => Err (ErrNew ("converting settlement " +:+ what +:+ " " +:+ field s
                                +:+ " to *big.Int"))
  | None => Ok (acc + sum_list_Z (omap (λ s, bigint_SetString (field s)) b))
  end.
Proof.
  revert acc. induction b as [|s b IH]; intros acc; simpl; [f_equal; lia|].
  destruct (decide (bigint_SetString (field s) = None)) as [Hz|[z Hz]%not_eq_None_Some];
    rewrite Hz; simpl.
  - clear IH. induction b as [|s' b IH]; simpl; [done|]. exact IH.
  - rewrite IH. destruct (list_find _ b) as [[??]|]; simpl; [done|]. rewrite ?Hz. f_equal. apply eq_sym, Z.add_assoc.
Qed.

Lemma sum_amounts_ok field what b v :
  sum_amounts field what b = Ok v ↔
  ∃ zs, mapM (λ s, bigint_SetString (field s)) b = Some zs ∧ v = sum_list_Z zs.
Proof.
  unfold sum_amounts. rewrite sum_amounts_acc. setoid_rewrite mapM_Some.
  destruct (list_find _ b) as [[i s]|] eqn:Hf; split.
  - done.
  - apply list_find_Some in Hf as (Hs&Hnone&_). intros (zs&Hzs&_).
    eapply Forall2_lookup_l in Hzs as (z&_&Hz); [|exact Hs]. congruence.
  - intros [= <-]. apply list_find_None in Hf. exists (omap (λ s, bigint_SetString (field s)) b).
    split; [|lia]. induction Hf as [|s b [z Hz]%not_eq_None_Some _ IH]; simpl; [constructor|].
    rewrite Hz. by constructor.
  - intros (zs&Hzs&->). clear Hf. f_equal. induction Hzs as [|s z b zs Hz _ IH]; simpl; [done|].
    rewrite Hz. simpl. rewrite <-IH. reflexivity.
Qed.

Lemma sum_amounts_app field what b1 b2 v1 v2 :
  sum_amounts field what b1 = Ok v1 → sum_amounts field what b2 = Ok v2 →
  sum_amounts field what (b1 ++ b2) = Ok (v1 + v2).
Proof.
  rewrite !sum_amounts_ok. intros (z1&H1&->) (z2&H2&->). exists (z1 ++ z2).
  split; [|by rewrite sum_list_Z_app]. apply mapM_Some. apply Forall2_app; by apply mapM_Some.
Qed.

Lemma sum_amounts_Permutation field what b1 b2 v :
  b1 ≡ₚ b2 → sum_amounts field what b1 = Ok v → sum_amounts field what b2 = Ok v.
Proof.
  intros Hb. rewrite !sum_amounts_ok. intros (zs&H1%mapM_Some&->).
  destruct (Permutation_Forall2 Hb H1) as (zs'&Hzs&H2).
  exists zs'. split; [by apply mapM_Some|]. by rewrite Hzs.
Qed.

Lemma sum_amounts_app_inv field what b1 b2 v :
  sum_amounts field what (b1 ++ b2) = Ok v →
  ∃ v1 v2, sum_amounts field what b1 = Ok v1 ∧ sum_amounts field what b2 = Ok v2 ∧ v = v1 + v2.
Proof.
  setoid_rewrite sum_amounts_ok. intros (zs&H1%mapM_Some&->).
  apply Forall2_app_inv_l in H1 as (z1&z2&?&?&->).
  exists (sum_list_Z z1), (sum_list_Z z2). rewrite sum_list_Z_app.
  split_and!; [exists z1|exists z2|done]; by rewrite mapM_Some.
Qed.

Section batch_lemmas.
Context {E : Type} `{Env E}.
Implicit Types w : World E.

(** A range over a map of groups: a permutation of the groups. *)
Lemma range_ok {A} (l : list A) w : ∃ l', (range l w).1 = Ok l' ∧ l' ≡ₚ l.
Proof.
  apply (wp_range l (λ r w', ∃ l', r = Ok l' ∧ l' ≡ₚ l)). eauto.
Qed.

(** The batches of a grouping: nonempty, each the sublist of its key. *)
Lemma groups_elem {A K} `{Countable K} (key : A → option K) l (bs : list (list A)) b :
  bs ≡ₚ (map_to_list (group key l)).*2 → b ∈ bs →
  b ≠ [] ∧ ∃ k, b = filter (in_group key k) l.
Proof.
  intros ->. rewrite list_elem_of_fmap. intros ([k b']&->&Hb). simpl.
  apply elem_of_map_to_list, group_Some in Hb as [-> ?]. eauto.
Qed.

Lemma groups_concat {A K} `{Countable K} (key : A → option K) l (bs : list (list A)) :
  bs ≡ₚ (map_to_list (group key l)).*2 → concat bs ≡ₚ filter (λ x, is_Some (key x)) l.
Proof.
  intros Hbs. rewrite <-group_partition.
  clear -Hbs. induction Hbs; simpl; [done|by f_equiv|solve_Permutation|by etransitivity].
Qed.

Lemma filter_chains_key (l : list OrderSettlement) : filter (λ x, is_Some (chains_key x)) l = l.
Proof. induction l as [|x l IH]; [done|]. rewrite filter_cons, decide_True by done. by f_equal. Qed.
End batch_lemmas.

(** The batches by chains, as a postcondition. *)
Definition batches_by_chains (l : list OrderSettlement) (bs : list SettlementBatch) : Prop :=
  concat bs ≡ₚ l ∧
  ∀ b s, b ∈ bs → s ∈ b →
    b = filter (λ x, os_SourceChainID x = os_SourceChainID s ∧
                     os_DestinationChainID x = os_DestinationChainID s) l ∧
    batch_SourceChainID b = Ok (os_SourceChainID s) ∧
    batch_DestinationChainID b = Ok (os_DestinationChainID s).

Lemma group_batches_by_chains l bs :
  bs ≡ₚ (map_to_list (group chains_key l)).*2 →
  batches_by_chains l bs ∧ [] ∉ bs.
Proof.
  intros Hbs. split; [split|].
  { by rewrite (groups_concat _ _ _ Hbs), filter_chains_key. }
  2:{ intros Hnil. by destruct (groups_elem _ _ _ _ Hbs Hnil). }
  intros b s Hb Hs. destruct (groups_elem _ _ _ _ Hbs Hb) as (Hne&k&Hbk).
  assert (∀ x, x ∈ b → k = (os_SourceChainID x, os_DestinationChainID x)) as Hk.
  { intros x. rewrite Hbk, list_elem_of_filter. intros [Hx _].
    unfold in_group, chains_key in Hx. congruence. }
  pose proof (Hk s Hs) as Hks. split.
  - rewrite Hbk. apply list_filter_iff. intros x. unfold in_group, chains_key.
    rewrite Hks. split; [by intros [= ? ?]|by intros [-> ->]].
  - destruct b as [|x b]; [done|]. unfold batch_SourceChainID, batch_DestinationChainID. simpl.
    specialize (Hk x ltac:(by left)). rewrite Hks in Hk. injection Hk as -> ->. done.
Qed.

(** ** Properties *)

(** Batching by chains is a partition: the call always succeeds, together the
    batches hold exactly the given settlements, no batch is empty, and a batch
    with settlement [s] consists of all settlements with the source and
    destination of [s], in their original order, whatever order Go's map
    iteration picks.  In particular SourceChainID and DestinationChainID, which
    read the first element, describe every element of the batch. *)
Theorem IntoSettlementBatchesByChains_partition {E} `{Env E} (l : list OrderSettlement)
    (w : World E) :
  ∃ bs, (IntoSettlementBatchesByChains l w).1 = Ok bs ∧ batches_by_chains l bs ∧ [] ∉ bs.
Proof.
  destruct (range_ok (map_to_list (group chains_key l)).*2 w) as (bs&Hr&Hbs).
  exists bs. split; [done|]. by apply group_batches_by_chains.
Qed.

(** Batching by initiation transaction: the batches hold exactly the
    settlements that have one, and a batch with settlement [s] consists of all
    settlements initiated by the transaction of [s]. *)
Theorem IntoSettlementBatchesByHash_partition {E} `{Env E} (l : list OrderSettlement)
    (w : World E) :
  ∃ bs, (IntoSettlementBatchesByHash l w).1 = Ok bs ∧
    concat bs ≡ₚ filter (λ s, is_Some (os_InitiateSettlementTx s)) l ∧
    ∀ b, b ∈ bs → ∃ hash, b ≠ [] ∧
      b = filter (λ x, os_InitiateSettlementTx x = Some hash) l.
Proof.
  destruct (range_ok (map_to_list (group os_InitiateSettlementTx l)).*2 w) as (bs&Hr&Hbs).
  exists bs. split; [done|]. split; [by rewrite (groups_concat _ _ _ Hbs)|].
  intros b Hb. destruct (groups_elem _ _ _ _ Hbs Hb) as (Hne&k&Hbk).
  exists k. split; [done|]. rewrite Hbk. by apply list_filter_iff.
Qed.

(** Batching loses no value: when the amounts of the settlements parse, every
    batch has a TotalValue and the totals of the batches add up to the total of
    the settlements. *)
Theorem batching_preserves_value {E} `{Env E} (l : list OrderSettlement) (w : World E) v :
  TotalValue l = Ok v →
  ∃ bs totals, (IntoSettlementBatchesByChains l w).1 = Ok bs ∧
    Forall2 (λ b t, TotalValue b = Ok t) bs totals ∧ sum_list_Z totals = v.
Proof.
  intros Hv. destruct (range_ok (map_to_list (group chains_key l)).*2 w) as (bs&Hr&Hbs).
  apply groups_concat in Hbs. rewrite filter_chains_key in Hbs.
  assert (TotalValue (concat bs) = Ok v) as Hc
    by (eapply sum_amounts_Permutation; [symmetry; exact Hbs|exact Hv]).
  cut (∃ totals, Forall2 (λ b t, TotalValue b = Ok t) bs totals ∧ sum_list_Z totals = v).
  { intros (totals&?&?). by exists bs, totals. }
  clear Hr Hbs Hv. revert v Hc. induction bs as [|b bs IH]; intros v Hc; simpl in *.
  { exists []. injection Hc as <-. by split; [constructor|]. }
  apply sum_amounts_app_inv in Hc as (v1&v2&H1&H2&->).
  destruct (IH _ H2) as (ts&?&<-). exists (v1 :: ts). by split; [constructor|].
Qed.

Definition sample_settlement (id : Z) (src dst amount profit oid : string)
    (tx : option string) : OrderSettlement :=
  mkOrderSettlement id 0 0 src dst "0xgateway" amount profit oid tx None "PENDING" None None None.

Definition sample_settlements : list OrderSettlement :=
  [ sample_settlement 1 "1" "osmosis-1" "100" "3" "a" None;
    sample_settlement 2 "42161" "osmosis-1" "50" "2" "b" None;
    sample_settlement 3 "1" "osmosis-1" "25" "1" "c" None ].

Lemma batching_preserves_value_witness :
  TotalValue sample_settlements = Ok 175 ∧
  ∃ bs totals,
    (@IntoSettlementBatchesByChains unit (sim_env offline) sample_settlements
       (sim_world empty_db)).1 = Ok bs ∧
    Forall2 (λ b t, TotalValue b = Ok t) bs totals ∧ sum_list_Z totals = 175.
Proof.
  split; [reflexivity|].
  apply (batching_preserves_value (E := unit) (H := sim_env offline)). reflexivity.
Defined.
