(* ===== verification/Hyperlane.v ===== *)
(** * Hyperlane: hyperlane/types/types.go, checkpoint_fetcher.go and relayer.go

    The byte formats of signed checkpoints and message metadata, the checkpoint
    fetchers, and the relayer: collecting a quorum of validator signatures and
    delivering a dispatched message when the delivery is not too expensive.

    The cryptography (go-ethereum's Keccak256, secp256k1.RecoverPubkey and
    crypto.VerifySignature) is a parameter, the class [Crypto]. *)
From Stdlib Require Import Strings.Byte Strings.Ascii.
From S2P Require Import Prelude GoLib Config Database World.

Class Crypto := {
  Keccak256 : list byte → list byte;
  secp256k1_RecoverPubkey : list byte → list byte → result (list byte);
  VerifySignature : list byte → list byte → list byte → bool
}.

(** [hex.DecodeString(strings.TrimPrefix(s, "0x"))] *)
Definition hex0x (s : string) : result (list byte) := hex_DecodeString (strings_TrimPrefix s "0x").

(** [fmt.Sprintf("%v", l)] *)
Definition fmt_strings (l : list string) : string := "[" +:+ String.concat " " l +:+ "]".

(** ** Checkpoints and signatures (hyperlane/types/types.go) *)

Definition hyperlane_tag : list byte := String.list_byte_of_string "HYPERLANE".

Section types.
Context `{Crypto}.

Definition DomainHash (c : Checkpoint) : result (list byte) :=
  rbind (result_wrap "hex decoding merkle tree hook address: " (hex0x (MerkleTreeHookAddress c)))
    (λ merkle, Ok (Keccak256 (be_encode 4 (MailboxDomain c) ++ merkle ++ hyperlane_tag))).

Definition Digest (c : SignedCheckpoint) : result (list byte) :=
  let cp := cwm_Checkpoint (Value c) in
  rbind (result_wrap "computing domain hash of checkpoint: " (DomainHash cp)) (λ domainHash,
  rbind (result_wrap "hex decoding checkpoint root: " (hex0x (Root cp))) (λ root,
  rbind (result_wrap "hex decoding checkpoint messaggeID: " (hex0x (cwm_MessageID (Value c))))
    (λ messageID,
  Ok (Keccak256 (domainHash ++ root ++ be_encode 4 (Index cp) ++ messageID))))).
End types.

Definition RSBytes (s : Signature) : result (list byte) :=
  rbind (result_wrap "hex decoding signature R value: " (hex0x (sig_R s))) (λ r,
  rbind (result_wrap "hex decoding signature S value: " (hex0x (sig_S s))) (λ s,
  Ok (r ++ s))).

Definition Signature_Bytes (s : Signature) : result (list byte) :=
  rbind (result_wrap "getting R S bytes of signature: " (RSBytes s)) (λ rs, Ok (rs ++ [sig_V s])).

(** The recovery id is 27 or 28 on the wire; [v - 27] is a byte subtraction, safe
    after the check. *)
Definition RecoverPubKey `{Crypto} (s : Signature) (digest : list byte) : result (list byte) :=
  rbind (Signature_Bytes s) (λ signatureBytes,
  if negb (length signatureBytes =? 65)%nat then
    Err (ErrNew ("invalid signature length: " +:+ strconv_Itoa (Z.of_nat (length signatureBytes))))
  else
    match signatureBytes !! 64%nat with
    | None => Panic "index out of range [64]"
    | Some v =>
        if byte_to_Z v <? 27 then
          Err (ErrNew ("invalid recovery id: " +:+ strconv_Itoa (byte_to_Z v)))
        else secp256k1_RecoverPubkey digest
               (<[64%nat := Z_to_byte (byte_to_Z v - 27)]> signatureBytes)
    end).

Record MultiSigSignedCheckpoint := mkMultiSigSignedCheckpoint {
  ms_Checkpoint : CheckpointWithMessageID;
  ms_Signatures : list Signature
}.

Definition MERKLE_TREE_ADDRESS_LEN : nat := 32.
Definition SIGNED_CHECKPOINT_ROOT_LEN : nat := 32.
Definition VALIDATOR_SIGNATURE_LENGTH : nat := 65.

Definition invalid_length (what : string) (expected got : nat) : error :=
  ErrNew ("invalid length for " +:+ what +:+ ", expected " +:+ strconv_Itoa (Z.of_nat expected)
          +:+ ", got " +:+ strconv_Itoa (Z.of_nat got)).

(** The loop that appends the signatures. *)
Fixpoint write_signatures (metadata : list byte) (signatures : list Signature) :
    result (list byte) :=
  match signatures with
  | [] => Ok metadata
  | signature :: rest =>
      rbind (result_wrap "converting signature to bytes: " (Signature_Bytes signature)) (λ sigBytes,
      if negb (length sigBytes =? VALIDATOR_SIGNATURE_LENGTH)%nat
      then Err (invalid_length "signature" VALIDATOR_SIGNATURE_LENGTH (length sigBytes))
      else write_signatures (metadata ++ sigBytes) rest)
  end.

Definition ToMetadata (c : MultiSigSignedCheckpoint) : result (list byte) :=
  let cp := cwm_Checkpoint (ms_Checkpoint c) in
  rbind (result_wrap "decoding hex merkle tree checkpoint address: "
           (hex0x (MerkleTreeHookAddress cp))) (λ hook,
  if negb (length hook =? MERKLE_TREE_ADDRESS_LEN)%nat
  then Err (invalid_length "merkle tree contract addr" MERKLE_TREE_ADDRESS_LEN (length hook))
  else
  rbind (result_wrap "decoding hex checkpoint root: " (hex0x (Root cp))) (λ root,
  if negb (length root =? SIGNED_CHECKPOINT_ROOT_LEN)%nat
  then Err (invalid_length "signed checkpoint root" SIGNED_CHECKPOINT_ROOT_LEN (length root))
  else write_signatures (hook ++ root ++ be_encode 4 (Index cp)) (ms_Signatures c))).

(** ** Checkpoint fetchers (hyperlane/checkpoint_fetcher.go) *)

Inductive CheckpointFetcher :=
  | LocalFileFetcher (path validator : string)
  | S3Fetcher (url validator : string).

Definition fetcher_Validator (f : CheckpointFetcher) : string :=
  match f with LocalFileFetcher _ v | S3Fetcher _ v => v end.

Definition checkpointFilePathLocalStorage (index : Z) : string :=
  strconv_Itoa index +:+ "_with_id.json".

Definition checkpointFilePathS3 (index : Z) : string :=
  "checkpoint_" +:+ strconv_Itoa index +:+ "_with_id.json".

(** [strings.Split(s, "/")] *)
Fixpoint split_slash (s : string) : list string :=
  match s with
  | EmptyString => [EmptyString]
  | String c s' =>
      if Ascii.eqb c "/"%char then EmptyString :: split_slash s'
      else match split_slash s' with
           | [] => [String c EmptyString]
           | x :: xs => String c x :: xs
           end
  end.

Definition NewS3Fetcher (storageLocation validator : string) : result CheckpointFetcher :=
  match split_slash (strings_TrimPrefix storageLocation "s3://") with
  | bucket :: region :: rest =>
      let url := "https://" +:+ bucket +:+ ".s3." +:+ region +:+ ".amazonaws.com" in
      Ok (S3Fetcher (match rest with
                     | [] => url
                     | _ => url +:+ "/" +:+ String.concat "/" rest
                     end) validator)
  | _ => Err (ErrNew ("invalid s3 storage location " +:+ storageLocation))
  end.

Definition NewCheckpointFetcherFromStorageLocation (storageLocation validator : string) :
    result CheckpointFetcher :=
  if strings_HasPrefix storageLocation "file://" then
    Ok (LocalFileFetcher (strings_TrimPrefix storageLocation "file://") validator)
  else if strings_HasPrefix storageLocation "s3://" then NewS3Fetcher storageLocation validator
  else Err (ErrNew ("no fetcher type found for storage location " +:+ storageLocation)).

(** The S3 validators strip zeros from R and S, so they are cut out of the
    serialized signature; a Go slice past the end of the string panics. *)
Definition fix_s3_signature (c : SignedCheckpoint) : result SignedCheckpoint :=
  let ser := strings_TrimPrefix (SerializedSignature c) "0x" in
  if (String.length ser <? 64)%nat then Panic "slice bounds out of range [:64]"
  else if (String.length ser <? 128)%nat then Panic "slice bounds out of range [:128]"
  else Ok (mkSignedCheckpoint (Value c)
             (mkSignature (String.substring 0 64 ser) (String.substring 64 64 ser)
                (sig_V (sc_Signature c)))
             (SerializedSignature c)).

Section relayer.
Context {E : Type} `{Env E} `{Crypto}.
Notation IO := (M (World E)).
Context (cfg : configReader).
(** The configured overrides of validators' storage locations. *)
Context (storageLocationOverrides : gmap string string).

(** [fetcher.Checkpoint(ctx, index)] *)
Definition fetcher_Checkpoint (f : CheckpointFetcher) (index : Z) : IO SignedCheckpoint :=
  match f with
  | LocalFileFetcher path _ => ask (FetchLocalCheckpoint path (checkpointFilePathLocalStorage index))
  | S3Fetcher url _ =>
      c ← ask (FetchS3Checkpoint url (checkpointFilePathS3 index));
      lift_result (fix_s3_signature c)
  end.

(** ** Relayer (hyperlane/relayer.go) *)

Definition zero_multisig : MultiSigSignedCheckpoint :=
  mkMultiSigSignedCheckpoint (mkCheckpointWithMessageID (mkCheckpoint "" 0 "" 0) "") [].

(** The checkpoints per root, and the multisig checkpoint found so far. *)
Definition quorum_state : Type := gmap string (list SignedCheckpoint) * MultiSigSignedCheckpoint.

(** The loop body of [checkpointAtIndex]. *)
Definition collect_checkpoint (index threshold : Z) (st : quorum_state)
    (fetcher : CheckpointFetcher) : IO (ctl quorum_state unit) :=
  let '(perRoot, multiSig) := st in
  r ← attempt (fetcher_Checkpoint fetcher index);
  match r with
  | inl err =>
      if errors_is err ErrCheckpointDoesNotExist then mret (Next st)
      else throw (ErrWrap ("fetching checkpoint at index " +:+ strconv_Itoa index +:+ ": ") err)
  | inr signedCheckpoint =>
      let cp := cwm_Checkpoint (Value signedCheckpoint) in
      if negb (Index cp =? index) then mret (Next st)
      else
        digest ← wrap_err "hex decoding checkpoint root: " (lift_result (Digest signedCheckpoint));
        pubkey ← wrap_err "recovering pubkey from signature: "
                   (lift_result (RecoverPubKey (sc_Signature signedCheckpoint) digest));
        signature ← wrap_err "converting checkpoint signature to bytes: "
                      (lift_result (RSBytes (sc_Signature signedCheckpoint)));
        if negb (VerifySignature pubkey digest signature) then mret (Next st)
        else
          let root := Root cp in
          let votes := default [] (perRoot !! root) ++ [signedCheckpoint] in
          let perRoot' := <[root := votes]> perRoot in
          if threshold <=? Z.of_nat (length votes) then
            mret (Break (perRoot', mkMultiSigSignedCheckpoint (Value signedCheckpoint)
                                     (ms_Signatures multiSig ++ (sc_Signature <$> votes))))
          else mret (Next (perRoot', multiSig))
  end.

Definition checkpointAtIndex (index : Z) (checkpointFetchers : list CheckpointFetcher)
    (threshold : Z) (messageID : string) : IO MultiSigSignedCheckpoint :=
  r ← loop checkpointFetchers (∅, zero_multisig) (collect_checkpoint index threshold);
  match r with
  | inl (_, multiSig) =>
      let c := ms_Checkpoint multiSig in
      if Z.of_nat (length (ms_Signatures multiSig)) <? threshold then
        throw (ErrSentinel ErrNotEnoughSignaturesFound)
      else if negb (strings_TrimPrefix (cwm_MessageID c) "0x"
                    =? strings_TrimPrefix messageID "0x")%string then
        throw (ErrNew ("mismatch message id in checkpoint and dipsatch message. dispatch has "
                       +:+ messageID +:+ " and checkpoint has " +:+ cwm_MessageID c))
      else if negb (Index (cwm_Checkpoint c) =? index) then
        throw (ErrNew ("mismatch index in checkpoint and merkle root post dispatch. merkle root post dispatch has "
                       +:+ strconv_Itoa index +:+ " and checkpoint has "
                       +:+ strconv_Itoa (Index (cwm_Checkpoint c))))
      else mret multiSig
  | inr tt => throw (ErrNew "unreachable")
  end.

Definition isRelayFeeLessThanMax (domain : string) (message metadata : list byte)
    (maxTxFeeUUSDC : Z) : IO bool :=
  r ← attempt (ask (QuoteProcessUUSDC domain message metadata));
  match r with
  | inl err =>
      if strings_Contains (error_msg err) "execution reverted"
      then throw (ErrSentinel ErrCouldNotDetermineRelayFee)
      else throw (ErrWrap "quoting process call in uusdc: " err)
  | inr txFeeUUSDC =>
      if txFeeUUSDC <=? 0 then mret false else mret (txFeeUUSDC <=? maxTxFeeUUSDC)
  end.

(** The loop that builds the fetchers. *)
Definition make_fetchers (locations : list ValidatorStorageLocation) :
    IO (list CheckpointFetcher) :=
  r ← loop locations [] (λ (fetchers : list CheckpointFetcher) loc,
    let validator := vsl_Validator loc in
    let storageLocation := default (vsl_StorageLocation loc)
                             (storageLocationOverrides !! validator) in
    fetcher ← wrap_err ("creating checkpoint fetcher from storage location " +:+ storageLocation
                        +:+ " for validator " +:+ validator +:+ ": ")
                (lift_result (NewCheckpointFetcherFromStorageLocation storageLocation validator));
    mret (Next (fetchers ++ [fetcher]) : ctl (list CheckpointFetcher) unit));
  match r with
  | inl fetchers => mret fetchers
  | inr tt => throw (ErrNew "unreachable")
  end.

Definition guard_fee (domain : string) (message metadata : list byte)
    (maxTxFeeUUSDC : option Z) : IO unit :=
  match maxTxFeeUUSDC with
  | None => mret tt
  | Some max =>
      ok ← wrap_err ("checking if relay to domain " +:+ domain +:+ " is profitable: ")
             (isRelayFeeLessThanMax domain message metadata max);
      if ok : bool then mret tt else throw (ErrSentinel ErrRelayTooExpensive)
  end.

Definition Relay (originChainID initiateTxHash : string) (maxTxFeeUUSDC : option Z) :
    IO (string * string * string) :=
  originChainConfig ← wrap_err ("getting chain config for chainID " +:+ originChainID +:+ ": ")
    (lift_result (GetChainConfig cfg originChainID));
  d ← wrap_err "parsing tx results: "
    (ask (GetHyperlaneDispatch (HyperlaneDomain originChainConfig) originChainID initiateTxHash));
  let '(dispatch, merkleHookPostDispatch) := d : MailboxDispatchEvent * _ in
  let domain := de_DestinationDomain dispatch in
  entries ← range (map_to_list (chainIDIndex cfg));
  destinationChainID ← wrap_err ("getting destination chainID by hyperlane domain " +:+ domain
                                 +:+ ": ")
    (lift_result (GetChainIDByHyperlaneDomain entries domain));
  _ ← wrap_err ("getting destination chain config for chainID " +:+ destinationChainID +:+ ": ")
    (lift_result (GetChainConfig cfg destinationChainID));
  delivered ← wrap_err ("checking if message with id " +:+ de_MessageID dispatch
                        +:+ " has been delivered: ")
    (ask (HasBeenDelivered domain (de_MessageID dispatch)));
  if delivered : bool then throw (ErrSentinel ErrMessageAlreadyDelivered) else
  isContract ← wrap_err ("checking if recipient " +:+ de_Recipient dispatch +:+ " is a contract: ")
    (ask (IsContract domain (de_Recipient dispatch)));
  if negb isContract then
    throw (ErrNew ("recipient " +:+ de_Recipient dispatch +:+ " is not a contract")) else
  vt ← wrap_err ("getting validators and quorum threshold from doamin " +:+ domain
                 +:+ " for recipient " +:+ de_Recipient dispatch +:+ ": ")
    (ask (ValidatorsAndThreshold domain (de_Recipient dispatch) (de_Message dispatch)));
  let '(validators, threshold) := vt : list string * Z in
  if (length validators =? 0)%nat then
    throw (ErrNew "no validator set received from multisig ism") else
  locations ← wrap_err ("getting validator storage locations on domain "
                        +:+ HyperlaneDomain originChainConfig +:+ " for validators "
                        +:+ fmt_strings validators +:+ ": ")
    (ask (ValidatorStorageLocations (HyperlaneDomain originChainConfig) validators));
  checkpointFetchers ← make_fetchers locations;
  quorumCheckpoint ← wrap_err ("getting checkpoint at index "
                               +:+ strconv_Itoa (mh_Index merkleHookPostDispatch) +:+ ": ")
    (checkpointAtIndex (mh_Index merkleHookPostDispatch) checkpointFetchers threshold
       (de_MessageID dispatch));
  metadata ← wrap_err "creating message metadata from multisig checkpoint: "
    (lift_result (ToMetadata quorumCheckpoint));
  message ← wrap_err "hex decoding dispatch message to bytes: "
    (lift_result (hex_DecodeString (de_Message dispatch)));
  _ ← guard_fee domain message metadata maxTxFeeUUSDC;
  p ← wrap_err ("processing message on domain " +:+ domain +:+ ": ")
    (ask (Process domain message metadata));
  let '(hash, rawTx) := p : list byte * string in
  mret (hex_EncodeToString hash, destinationChainID, rawTx).
End relayer.

(** ** Lemmas *)

Lemma write_signatures_ok metadata sigs bs :
  write_signatures metadata sigs = Ok bs →
  ∃ chunks, bs = metadata ++ concat chunks ∧
    Forall2 (λ s c, Signature_Bytes s = Ok c ∧ length c = VALIDATOR_SIGNATURE_LENGTH) sigs chunks.
Proof.
  revert metadata. induction sigs as [|s sigs IH]; intros metadata Hw; simpl in Hw.
  { injection Hw as <-. exists []. by rewrite app_nil_r. }
  apply result_bind_ok in Hw as (c&Hc%result_wrap_ok&Hw).
  destruct (Nat.eqb_spec (length c) VALIDATOR_SIGNATURE_LENGTH) as [Hlen|]; [|done].
  apply IH in Hw as (chunks&->&Hchunks). exists (c :: chunks).
  simpl. rewrite app_assoc. split; [done|]. by constructor.
Qed.

Lemma length_concat_uniform {A} n (chunks : list (list A)) :
  Forall (λ c, length c = n) chunks → length (concat chunks) = (n * length chunks)%nat.
Proof. induction 1; simpl; [lia|]. rewrite length_app. lia. Qed.

(** The [i]-th chunk of a list of chunks of one length. *)
Lemma concat_chunk {A} n (chunks : list (list A)) i c :
  Forall (λ c, length c = n) chunks → chunks !! i = Some c →
  take n (drop (n * i) (concat chunks)) = c.
Proof.
  intros Hall. revert i. induction Hall as [|x l Hx _ IH]; intros [|i] Hi; simplify_eq/=.
  - rewrite Nat.mul_0_r, drop_0. by rewrite take_app_length.
  - rewrite Nat.mul_succ_r, Nat.add_comm.
    rewrite <-drop_drop, drop_app_length. by apply IH.
Qed.

Section quorum.
Context {E : Type} `{Env E} `{Crypto}.
Implicit Types w : World E.

(** The checkpoint [sc] is what the storage location of [f] answered. *)
Definition fetched (index : Z) w (f : CheckpointFetcher) (sc : SignedCheckpoint) : Prop :=
  match f with
  | LocalFileFetcher path _ =>
      existT (FetchLocalCheckpoint path (checkpointFilePathLocalStorage index)) (inr sc)
        ∈ w_trace w
  | S3Fetcher url _ =>
      ∃ raw, existT (FetchS3Checkpoint url (checkpointFilePathS3 index)) (inr raw) ∈ w_trace w ∧
             fix_s3_signature raw = Ok sc
  end.

(** The checks a checkpoint passes before it counts for [root]. *)
Definition valid_vote (index : Z) (root : string) (sc : SignedCheckpoint) : Prop :=
  Index (cwm_Checkpoint (Value sc)) = index ∧ Root (cwm_Checkpoint (Value sc)) = root ∧
  ∃ digest pubkey signature,
    Digest sc = Ok digest ∧ RecoverPubKey (sc_Signature sc) digest = Ok pubkey ∧
    RSBytes (sc_Signature sc) = Ok signature ∧ VerifySignature pubkey digest signature = true.

(** The votes for [root] among the fetchers [pre]: at most one of each. *)
Definition votes_of (index : Z) (root : string) w (pre : list CheckpointFetcher)
    (votes : list SignedCheckpoint) : Prop :=
  Forall (valid_vote index root) votes ∧
  ∃ fs, fs `sublist_of` pre ∧ Forall2 (fetched index w) fs votes.

Definition grows w w' : Prop := ∃ new, w_trace w' = w_trace w ++ new.

Lemma fetched_grows index w w' f sc : grows w w' → fetched index w f sc → fetched index w' f sc.
Proof.
  intros [new Hnew]. destruct f; simpl; rewrite Hnew; [set_solver|].
  intros (raw&?&?). exists raw. set_solver.
Qed.

Lemma votes_of_step index root w w' pre f votes :
  grows w w' → votes_of index root w pre votes → votes_of index root w' (pre ++ [f]) votes.
Proof.
  intros Hg (Hv&fs&Hsub&Hf). split; [done|]. exists fs. split.
  - by apply sublist_inserts_r.
  - eapply Forall2_impl; [exact Hf|]. intros. by eapply fetched_grows.
Qed.

Lemma votes_of_snoc index root w w' pre f votes sc :
  grows w w' → votes_of index root w pre votes → fetched index w' f sc →
  valid_vote index root sc → votes_of index root w' (pre ++ [f]) (votes ++ [sc]).
Proof.
  intros Hg (Hv&fs&Hsub&Hf) Hsc Hvalid. split.
  - apply Forall_app. split; [done|]. by constructor.
  - exists (fs ++ [f]). split; [by apply sublist_app|].
    apply Forall2_app; [|by constructor].
    eapply Forall2_impl; [exact Hf|]. intros. by eapply fetched_grows.
Qed.

Lemma wp_fetcher_Checkpoint f index w (Q : result SignedCheckpoint → World E → Prop) :
  (∀ r w', grows w w' → (∀ sc, r = Ok sc → fetched index w' f sc) → Q r w') →
  wp (fetcher_Checkpoint f index) Q w.
Proof.
  intros HQ. destruct f as [path v|url v]; simpl.
  - refine (wp_ask (FetchLocalCheckpoint _ _) _ _ _).
    intros [err|sc] e _; (apply HQ; [by eexists|]); [done|].
    intros sc' [= <-]. simpl. set_solver.
  - apply wp_bind. refine (wp_ask (FetchS3Checkpoint _ _) _ _ _).
    intros [err|raw] e _; (apply HQ; [by eexists|]); [done|].
    intros sc Hsc. exists raw. split; [|done]. simpl. set_solver.
Qed.

(** The invariant of the quorum loop. *)
Definition quorum_inv (index threshold : Z) (pre : list CheckpointFetcher) (st : quorum_state)
    w : Prop :=
  st.2 = zero_multisig ∧
  ∀ root votes, st.1 !! root = Some votes → votes_of index root w pre votes.

Lemma quorum_inv_step index threshold pre f st w w' :
  grows w w' → quorum_inv index threshold pre st w →
  quorum_inv index threshold (pre ++ [f]) st w'.
Proof. intros Hg [? Hv]. split; [done|]. intros. eapply votes_of_step; eauto. Qed.

(** A checkpoint that reached the threshold. *)
Definition is_quorum (index threshold : Z) (fetchers : list CheckpointFetcher) w
    (c : MultiSigSignedCheckpoint) : Prop :=
  ∃ votes sc, votes_of index (Root (cwm_Checkpoint (ms_Checkpoint c))) w fetchers votes ∧
    threshold ≤ Z.of_nat (length votes) ∧ ms_Signatures c = sc_Signature <$> votes ∧
    sc ∈ votes ∧ ms_Checkpoint c = Value sc.

Lemma wp_collect_checkpoint index threshold pre f post st w :
  quorum_inv index threshold pre st w →
  wp (collect_checkpoint index threshold st f)
    (λ r w', match r with
             | Ok (Next st') => quorum_inv index threshold (pre ++ [f]) st' w'
             | Ok (Break st') => is_quorum index threshold (pre ++ f :: post) w' st'.2
             | Ok (Return _) => False
             | _ => True
             end) w.
Proof.
  intros Hinv. destruct st as [perRoot ms]. unfold collect_checkpoint.
  apply wp_bind, wp_attempt, wp_fetcher_Checkpoint. intros r w' Hg Hfetched.
  pose proof (quorum_inv_step _ _ _ f _ _ _ Hg Hinv) as Hstep.
  destruct r as [sc|err|p]; [|by wp_steps|done]. specialize (Hfetched sc eq_refl).
  destruct (Z.eqb_spec (Index (cwm_Checkpoint (Value sc))) index) as [Hi|]; [|by apply wp_ret].
  cbn [negb]. wp_steps; try done. all: cbn [fst snd].
  all: assert (valid_vote index (Root (cwm_Checkpoint (Value sc))) sc) as Hvalid
    by (split; [done|]; split; [done|]; by do 3 eexists; split_and!;
        [eassumption..|apply negb_false_iff]).
  all: assert (votes_of index (Root (cwm_Checkpoint (Value sc))) w' (pre ++ [f])
            (default [] (perRoot !! Root (cwm_Checkpoint (Value sc))) ++ [sc])) as Hvotes.
  1,3: destruct Hinv as [_ Hinv]; eapply votes_of_snoc; [done| |done..];
    destruct (perRoot !! Root _) as [votes|] eqn:Hr; [by apply Hinv|];
    split; [constructor|]; exists []; split; [apply sublist_nil_l|constructor].
  - destruct Hinv as [Hms _]. simpl in Hms. subst ms. 
    exists (default [] (perRoot !! Root (cwm_Checkpoint (Value sc))) ++ [sc]), sc.
    split_and!; [|by apply Z.leb_le|done|set_solver|done].
    destruct Hvotes as (?&fs&Hfs&?). split; [done|]. exists fs. split; [|done].
    etransitivity; [exact Hfs|]. replace (pre ++ f :: post) with ((pre ++ [f]) ++ post)
      by (by rewrite <-app_assoc). by apply sublist_inserts_r.
  - destruct Hstep as [? Hstep]. split; [done|]. intros root votes. simpl.
    rewrite lookup_insert_Some. intros [[<- <-]|[_ Hl]]; [done|by apply Hstep].
Qed.

Lemma wp_checkpointAtIndex index fetchers threshold messageID w
    (Q : result MultiSigSignedCheckpoint → World E → Prop) :
  0 < threshold →
  (∀ e w', Q (Err e) w') → (∀ p w', Q (Panic p) w') →
  (∀ c w', is_quorum index threshold fetchers w' c →
     strings_TrimPrefix (cwm_MessageID (ms_Checkpoint c)) "0x"
       = strings_TrimPrefix messageID "0x" →
     Index (cwm_Checkpoint (ms_Checkpoint c)) = index → Q (Ok c) w') →
  wp (checkpointAtIndex index fetchers threshold messageID) Q w.
Proof.
  intros Hpos Herr Hpanic Hok. unfold checkpointAtIndex. apply wp_bind.
  apply (wp_loop (quorum_inv index threshold)).
  - split; [done|]. intros root votes Hl. simpl in Hl. by rewrite lookup_empty in Hl.
  - intros pre f post st w1 Hl Hinv.
    eapply wp_mono; [|by eapply (wp_collect_checkpoint _ _ _ _ post)].
    intros [[st'|st'|[]]|e|p] w2 HQ; auto; [|by destruct HQ]. destruct st' as [perRoot' c]. simpl in HQ.
    rewrite <-Hl in HQ. wp_steps; auto. apply Hok; [done|..].
    + by apply String.eqb_eq, negb_false_iff.
    + by apply Z.eqb_eq, negb_false_iff.
  - intros [perRoot c] w1 [Hc _]. simpl in Hc. subst c.
    cbv zeta. cbn [zero_multisig ms_Signatures length Z.of_nat].
    destruct (Z.ltb_spec (Z.of_nat 0) threshold); [by apply wp_throw|lia].
Qed.
End quorum.

(** ** Properties *)

(** C10. A checkpoint that [checkpointAtIndex] returns is backed by a quorum: at
    least [threshold] of the fetchers, each counted once, answered with a
    checkpoint for this index and this root whose signature verifies under the
    key recovered from it; the returned signatures are exactly theirs, the
    returned value is one of theirs, and it carries the dispatched message id. *)
Theorem checkpointAtIndex_quorum {E} `{Env E} `{Crypto} index fetchers threshold messageID
    (w w' : World E) c :
  0 < threshold →
  checkpointAtIndex index fetchers threshold messageID w = (Ok c, w') →
  is_quorum index threshold fetchers w' c ∧
  strings_TrimPrefix (cwm_MessageID (ms_Checkpoint c)) "0x" = strings_TrimPrefix messageID "0x" ∧
  Index (cwm_Checkpoint (ms_Checkpoint c)) = index.
Proof.
  intros Hpos Hrun.
  set (Q := λ (r : result MultiSigSignedCheckpoint) (w' : World E), ∀ c, r = Ok c →
    is_quorum index threshold fetchers w' c ∧
    strings_TrimPrefix (cwm_MessageID (ms_Checkpoint c)) "0x"
      = strings_TrimPrefix messageID "0x" ∧
    Index (cwm_Checkpoint (ms_Checkpoint c)) = index).
  refine (wp_run _ Q _ _ _ Hrun _ c eq_refl).
  apply wp_checkpointAtIndex; unfold Q; naive_solver.
Qed.

(** The metadata handed to the destination ISM has the documented layout: the 32
    bytes of the merkle tree hook, the 32 bytes of the checkpoint root, the
    big-endian index in 4 bytes, then the 65 bytes of each signature, in order,
    and nothing else. *)
Theorem ToMetadata_layout (c : MultiSigSignedCheckpoint) (bs : list byte) :
  ToMetadata c = Ok bs →
  let cp := cwm_Checkpoint (ms_Checkpoint c) in
  length bs = (68 + 65 * length (ms_Signatures c))%nat ∧
  hex0x (MerkleTreeHookAddress cp) = Ok (take 32 bs) ∧
  hex0x (Root cp) = Ok (take 32 (drop 32 bs)) ∧
  be_decode (take 4 (drop 64 bs)) = u32 (Index cp) ∧
  ∀ i s, ms_Signatures c !! i = Some s → Signature_Bytes s = Ok (take 65 (drop (68 + 65 * i) bs)).
Proof.
  unfold ToMetadata. intros Hm.
  apply result_bind_ok in Hm as (hook&Hhook%result_wrap_ok&Hm).
  destruct (Nat.eqb_spec (length hook) MERKLE_TREE_ADDRESS_LEN) as [Hlh|]; [|done].
  apply result_bind_ok in Hm as (root&Hroot%result_wrap_ok&Hm).
  destruct (Nat.eqb_spec (length root) SIGNED_CHECKPOINT_ROOT_LEN) as [Hlr|]; [|done].
  unfold MERKLE_TREE_ADDRESS_LEN, SIGNED_CHECKPOINT_ROOT_LEN in *. cbn [negb] in Hm.
  apply write_signatures_ok in Hm as (chunks&->&Hchunks). cbv zeta.
  pose proof (length_be_encode 4 (Index (cwm_Checkpoint (ms_Checkpoint c)))) as Hli.
  pose proof (be_decode_encode 4 (Index (cwm_Checkpoint (ms_Checkpoint c)))) as Hdi.
  revert Hli Hdi. generalize (be_encode 4 (Index (cwm_Checkpoint (ms_Checkpoint c)))).
  intros idx Hli Hdi.
  pose proof (Forall2_length _ _ _ Hchunks) as Hlen.
  assert (Forall (λ c, length c = 65%nat) chunks) as Hall.
  { clear -Hchunks. induction Hchunks as [|? ? ? ? [? ?]]; by constructor. }
  rewrite <-!(assoc_L (++)). split_and!.
  - rewrite !length_app, (length_concat_uniform 65) by done. rewrite Hlen. lia.
  - rewrite take_app_le, take_ge by lia. done.
  - rewrite <-Hlh at 2. rewrite drop_app_length. rewrite take_app_le, take_ge by lia. done.
  - replace 64%nat with (length hook + length root)%nat by lia.
    rewrite <-drop_drop, !drop_app_length. rewrite take_app_le, take_ge by lia.
    rewrite Hdi. done.
  - intros i s Hs. destruct (Forall2_lookup_l _ _ _ _ _ Hchunks Hs) as (ch&Hch&Hb&_).
    rewrite Hb. f_equal. symmetry.
    replace (68 + 65 * i)%nat with (length hook + (length root + (length idx + 65 * i)))%nat by lia.
    rewrite <-!drop_drop, !drop_app_length. by apply concat_chunk.
Qed.

Section relay.
Context {E : Type} `{Env E} `{Crypto}.
Implicit Types w : World E.

Definition is_process (r : request) : bool := match r with Process _ _ _ => true | _ => false end.
Definition not_process (r : request) : Prop := is_process r = false.

(** A checkpoint of the dispatched message at its index, with [threshold] signatures. *)
Definition checkpoint_for (dispatch : MailboxDispatchEvent) (merkle : MailboxMerkleHookPostDispatchEvent)
    (threshold : Z) (c : MultiSigSignedCheckpoint) : Prop :=
  threshold ≤ Z.of_nat (length (ms_Signatures c)) ∧
  strings_TrimPrefix (cwm_MessageID (ms_Checkpoint c)) "0x"
    = strings_TrimPrefix (de_MessageID dispatch) "0x" ∧
  Index (cwm_Checkpoint (ms_Checkpoint c)) = mh_Index merkle.

Context (cfg : configReader) (originChainID initiateTxHash : string).

(** When a delivery may be made: it carries the message that the transaction
    dispatched, to the domain it was dispatched to; the destination said that this
    message is not delivered and that its recipient is a contract; the metadata is
    that of a checkpoint of this message at its index in the merkle tree, with as many
    signatures as the recipient's module asks for; and the quoted cost of this very
    delivery is positive and within the cap. *)
Definition relay_guard (maxTxFeeUUSDC : option Z) (pre : list event) (r : request) : Prop :=
  match r with
  | Process d m md =>
      ∃ origin dispatch merkle validators threshold c,
        GetChainConfig cfg originChainID = Ok origin ∧
        existT (GetHyperlaneDispatch (HyperlaneDomain origin) originChainID initiateTxHash)
          (inr (dispatch, merkle)) ∈ pre ∧
        d = de_DestinationDomain dispatch ∧ hex_DecodeString (de_Message dispatch) = Ok m ∧
        existT (HasBeenDelivered d (de_MessageID dispatch)) (inr false) ∈ pre ∧
        existT (IsContract d (de_Recipient dispatch)) (inr true) ∈ pre ∧
        existT (ValidatorsAndThreshold d (de_Recipient dispatch) (de_Message dispatch))
          (inr (validators, threshold)) ∈ pre ∧ validators ≠ [] ∧
        ToMetadata c = Ok md ∧ checkpoint_for dispatch merkle threshold c ∧
        (∀ max, maxTxFeeUUSDC = Some max →
           ∃ fee, existT (QuoteProcessUUSDC d m md) (inr fee) ∈ pre ∧ 0 < fee ≤ max)
  | _ => True
  end.

(** What a relay does to the world: guarded, at most one delivery, no change of
    the database. *)
Definition relay_post (max : option Z) w w' : Prop :=
  w_db w' = w_db w ∧
  ∃ new, w_trace w' = w_trace w ++ new ∧ guarded (relay_guard max) new ∧
    (length (List.filter (λ ev, is_process (projT1 ev)) new) ≤ 1)%nat.

Lemma not_process_guard max pre r : not_process r → relay_guard max pre r.
Proof. by destruct r. Qed.

(** Before the delivery: no delivery yet. *)
Definition relay_before w w' (new : list event) : Prop :=
  w_db w' = w_db w ∧ w_trace w' = w_trace w ++ new ∧ Forall (λ ev, not_process (projT1 ev)) new.

Lemma relay_before_refl w : relay_before w w [].
Proof. split_and!; [done|by rewrite app_nil_r|constructor]. Qed.

Lemma relay_before_ask w w1 new r a e :
  relay_before w w1 new → not_process r → relay_before w (after r a e w1) (new ++ [existT r a]).
Proof.
  intros (?&Ht&?) Hr. split_and!; [done|by simpl; rewrite Ht, app_assoc|].
  apply Forall_app. split; [done|]. by constructor.
Qed.

Lemma relay_before_emits w w1 w2 new :
  relay_before w w1 new → w_db w2 = w_db w1 → emits not_process w1 w2 →
  ∃ new', relay_before w w2 (new ++ new').
Proof.
  intros (?&Ht&?) Hdb (new'&Ht'&?). exists new'. split_and!; [congruence| |by apply Forall_app].
  by rewrite Ht', Ht, app_assoc.
Qed.

Lemma relay_before_count new :
  Forall (λ ev : event, not_process (projT1 ev)) new →
  List.filter (λ ev : event, is_process (projT1 ev)) new = [].
Proof. induction 1 as [|ev l Hev _ IH]; [done|]. simpl. by rewrite Hev. Qed.

Lemma relay_before_guarded max new :
  Forall (λ ev : event, not_process (projT1 ev)) new → guarded (relay_guard max) new.
Proof.
  intros Hnew. apply (guarded_app _ [] new); [apply guarded_nil|].
  eapply Forall_impl; [exact Hnew|]. intros ev Hev pre. by apply not_process_guard.
Qed.

Lemma relay_exit max w w' new : relay_before w w' new → relay_post max w w'.
Proof.
  intros (?&?&?). split; [done|]. exists new. split_and!; [done|by apply relay_before_guarded|].
  rewrite relay_before_count by done. simpl. lia.
Qed.

Lemma relay_deliver max w w1 new d m md a e :
  relay_before w w1 new → relay_guard max new (Process d m md) →
  relay_post max w (after (Process d m md) a e w1).
Proof.
  intros (?&Ht&Hnew) HG. split; [done|]. exists (new ++ [existT (Process d m md) a]).
  split_and!; [by simpl; rewrite Ht, app_assoc|apply guarded_snoc; [|done]|].
  - by apply relay_before_guarded.
  - rewrite List.filter_app, relay_before_count by done. simpl. lia.
Qed.

Lemma fetcher_frames (P : request → Prop) f index :
  (∀ p x, P (FetchLocalCheckpoint p x)) → (∀ u x, P (FetchS3Checkpoint u x)) →
  frame (emits (E := E) P) (fetcher_Checkpoint f index).
Proof. intros. destruct f; simpl; solve_io; auto. Qed.

Lemma fetcher_db f index : frame (db_rel (E := E) eq) (fetcher_Checkpoint f index).
Proof. destruct f; simpl; solve_io. Qed.

Lemma checkpointAtIndex_emits index fs threshold id :
  frame (emits (E := E) not_process) (checkpointAtIndex index fs threshold id).
Proof.
  unfold checkpointAtIndex, collect_checkpoint. solve_io.
  by apply fetcher_frames.
Qed.

Lemma checkpointAtIndex_db index fs threshold id :
  frame (db_rel (E := E) eq) (checkpointAtIndex index fs threshold id).
Proof. unfold checkpointAtIndex, collect_checkpoint. solve_io. apply fetcher_db. Qed.

Lemma make_fetchers_emits overrides locs :
  frame (emits (E := E) not_process) (make_fetchers overrides locs).
Proof. unfold make_fetchers. solve_io. Qed.

Lemma make_fetchers_db overrides locs :
  frame (db_rel (E := E) eq) (make_fetchers overrides locs).
Proof. unfold make_fetchers. solve_io. Qed.

(** The checks on the checkpoint that is returned, whatever the threshold. *)
Lemma checkpointAtIndex_checked dispatch merkle fs threshold w w' c :
  checkpointAtIndex (mh_Index merkle) fs threshold (de_MessageID dispatch) w = (Ok c, w') →
  checkpoint_for dispatch merkle threshold c.
Proof.
  unfold checkpointAtIndex, mbind, M_bind. intros Hrun.
  destruct (loop _ _ _ w) as [[[[perRoot c']|[]]|err|p] w1]; try discriminate Hrun.
  destruct (Z.ltb_spec (Z.of_nat (length (ms_Signatures c'))) threshold); [discriminate|].
  destruct (String.eqb_spec (strings_TrimPrefix (cwm_MessageID (ms_Checkpoint c')) "0x")
    (strings_TrimPrefix (de_MessageID dispatch) "0x")); [|discriminate].
  destruct (Z.eqb_spec (Index (cwm_Checkpoint (ms_Checkpoint c'))) (mh_Index merkle)); [|discriminate].
  injection Hrun as <- _. by split_and!.
Qed.

(** A call without deliveries inside a relay. *)
Lemma wp_relay_call {A} (m : M (World E) A) w w1 new (Q : result A → World E → Prop) :
  relay_before w w1 new → frame (emits not_process) m → frame (db_rel eq) m →
  (∀ r w2 new', m w1 = (r, w2) → relay_before w w2 (new ++ new') → Q r w2) → wp m Q w1.
Proof.
  intros Hb He Hd HQ. apply wp_intro. intros r w2 Hm. specialize (He w1). specialize (Hd w1).
  rewrite Hm in He, Hd. destruct (relay_before_emits w w1 w2 new Hb) as [new' ?]; [|done|eauto].
  by unfold db_rel in Hd.
Qed.

(** The part of [Relay] that decides on the fee and delivers. *)
Lemma wp_guard_fee d m md max w w1 new (Q : result unit → World E → Prop) :
  relay_before w w1 new →
  (∀ e w2 new', relay_before w w2 (new ++ new') → Q (Err e) w2) →
  (∀ w2 new', relay_before w w2 (new ++ new') →
     (∀ mx, max = Some mx → ∃ fee,
        existT (QuoteProcessUUSDC d m md) (inr fee) ∈ new ++ new' ∧ 0 < fee ≤ mx) →
     Q (Ok tt) w2) →
  wp (guard_fee d m md max) Q w1.
Proof.
  intros Hb Herr Hok. unfold guard_fee, isRelayFeeLessThanMax.
  destruct max as [mx|]; wp_steps;
    try (eapply Herr; by apply relay_before_ask).
  - apply Hok with [existT (QuoteProcessUUSDC d m md) (inr r)]; [by apply relay_before_ask|].
    intros mx' [= <-]. exists r. split; [set_solver|]. simpl in r. lia.
  - apply Hok with []; [by rewrite app_nil_r|done].
Qed.

(** The calls of the straight-line part are no deliveries. *)
Local Ltac relay_asks :=
  lazymatch goal with
  | |- relay_before _ (after ?r ?a ?e _) _ =>
      refine (relay_before_ask _ _ _ r a e _ eq_refl); relay_asks
  | _ => eassumption
  end.
Local Ltac relay_done := eapply relay_exit; relay_asks.

Lemma wp_Relay overrides max w :
  wp (Relay cfg overrides originChainID initiateTxHash max) (λ _ w', relay_post max w w') w.
Proof.
  unfold Relay. pose proof (relay_before_refl w) as Hb.
  wp_steps; try relay_done.
  eapply wp_relay_call; [relay_asks|apply make_fetchers_emits|apply make_fetchers_db|].
  intros r' w2 new2 _ Hb2. wp_steps; try relay_done.
  eapply wp_relay_call; [relay_asks|apply checkpointAtIndex_emits|apply checkpointAtIndex_db|].
  intros r'' w3 new3 Hck Hb3. wp_steps; try relay_done.
  apply checkpointAtIndex_checked in Hck.
  eapply wp_guard_fee; [relay_asks|intros; relay_done|].
  intros w4 new4 Hb4 Hfee. destruct r1; [|done]. wp_steps.
  all: (eapply (relay_deliver _ _ _ _ _ _ _ (inl _)) || eapply (relay_deliver _ _ _ _ _ _ _ (inr _)));
    [relay_asks|]; exists a, m, m0, l, z, a4;
    (split_and!; [done| |done|done| | | | |done|done|exact Hfee]); try set_solver.
  all: intros ->; discriminate.
Qed.
End relay.

(** C9. A relay is guarded: whatever the outcome, the database is untouched, at most
    one delivery transaction is sent, and the one that is sent delivers the message
    that the initiating transaction dispatched, to the domain it was dispatched to,
    after the destination chain answered that this very message is not delivered yet
    and that its recipient is a contract; its metadata encodes a checkpoint with this
    message's id and index and at least as many signatures as the recipient's module
    asks for; and, when a cap is given, the cost of exactly this delivery was quoted as
    positive and at most the cap. *)
Theorem Relay_guarded {E} `{Env E} `{Crypto} cfg overrides originChainID initiateTxHash max
    (w : World E) :
  relay_post cfg originChainID initiateTxHash max w
    (Relay cfg overrides originChainID initiateTxHash max w).2.
Proof. apply wp_Relay. Qed.

(** The same storage location, whoever announced it. *)
Definition same_location (f f' : CheckpointFetcher) : Prop :=
  match f, f' with
  | LocalFileFetcher p _, LocalFileFetcher p' _ => p = p'
  | S3Fetcher u _, S3Fetcher u' _ => u = u'
  | _, _ => False
  end.

(** The validator set plays no part in accepting signatures: a signature is
    verified against the key recovered from that same signature, so replacing
    the validators of the fetchers by any others gives the same run. *)
Theorem checkpointAtIndex_ignores_validators {E} `{Env E} `{Crypto} index fetchers fetchers'
    threshold messageID (w : World E) :
  Forall2 same_location fetchers fetchers' →
  checkpointAtIndex index fetchers threshold messageID w =
  checkpointAtIndex index fetchers' threshold messageID w.
Proof.
  intros Hf. unfold checkpointAtIndex, mbind, M_bind.
  enough (∀ st w, loop fetchers st (collect_checkpoint index threshold) w =
                  loop fetchers' st (collect_checkpoint index threshold) w) as -> by done.
  clear w. induction Hf as [|f f' l l' Hff' _ IH]; intros [perRoot ms] w; [done|].
  assert (fetcher_Checkpoint f index = fetcher_Checkpoint (E := E) f' index) as Hfetch
    by (destruct f, f'; simpl in *; by subst).
  simpl. unfold mbind, M_bind, collect_checkpoint. rewrite Hfetch.
  unfold mbind, M_bind. destruct (attempt _ w) as [[[err|sc]|e|p] w']; [|..|done|done].
  - by destruct (errors_is err _); simpl.
  - destruct (negb (Index _ =? index)); simpl; [done|].
    destruct (wrap_err _ _ w') as [[]?]; [|done..]. destruct (wrap_err _ _ _) as [[]?]; [|done..].
    destruct (wrap_err _ _ _) as [[]?]; [|done..]. destruct (negb _); simpl; [done|].
    by destruct (threshold <=? _); simpl.
Qed.

(** Concrete data for the witnesses. *)
Definition toy_crypto : Crypto := {|
  Keccak256 := λ bs, take 32 bs;
  secp256k1_RecoverPubkey := λ digest sig, Ok (take 33 sig);
  VerifySignature := λ pubkey digest sig, (length pubkey =? 33)%nat
|}.

Definition hex32 : string := hex_EncodeToString (be_encode 32 7).
Definition sample_checkpoint : SignedCheckpoint :=
  mkSignedCheckpoint
    (mkCheckpointWithMessageID (mkCheckpoint ("0x" +:+ hex32) 875 ("0x" +:+ hex32) 41)
       ("0x" +:+ hex32))
    (mkSignature ("0x" +:+ hex32) ("0x" +:+ hex32) (Z_to_byte 28)) "".
Definition sample_multisig : MultiSigSignedCheckpoint :=
  mkMultiSigSignedCheckpoint (Value sample_checkpoint)
    [sc_Signature sample_checkpoint; sc_Signature sample_checkpoint].

Definition checkpoint_env : Env unit := sim_env (λ r,
  match r as r return error + response r with
  | FetchLocalCheckpoint p _ =>
      if (p =? "/missing")%string then inl (ErrSentinel ErrCheckpointDoesNotExist)
      else inr sample_checkpoint
  | r => offline r
  end).
Definition sample_fetchers : list CheckpointFetcher :=
  [LocalFileFetcher "/v1" "0x01"; LocalFileFetcher "/missing" "0x02";
   LocalFileFetcher "/v3" "0x03"].

Lemma ToMetadata_layout_witness :
  ∃ bs, ToMetadata sample_multisig = Ok bs ∧ length bs = 198%nat.
Proof.
  destruct (ToMetadata sample_multisig) as [bs|e|p] eqn:Hm; [|vm_compute in Hm; discriminate..].
  exists bs. split; [done|]. apply (ToMetadata_layout sample_multisig bs Hm).
Defined.

Lemma checkpointAtIndex_quorum_witness :
  ∃ c w', @checkpointAtIndex unit checkpoint_env toy_crypto 41 sample_fetchers 2 hex32
            (sim_world empty_db) = (Ok c, w') ∧ is_quorum (H0 := toy_crypto) 41 2 sample_fetchers w' c.
Proof.
  destruct (@checkpointAtIndex unit checkpoint_env toy_crypto 41 sample_fetchers 2 hex32
              (sim_world empty_db)) as [[c|e|p] w'] eqn:Hrun;
    [|vm_compute in Hrun; discriminate..].
  exists c, w'. split; [done|].
  apply (checkpointAtIndex_quorum (E := unit) (H := checkpoint_env) (H0 := toy_crypto)
           41 sample_fetchers 2 hex32 (sim_world empty_db) w' c); [lia|exact Hrun].
Defined.

Lemma checkpointAtIndex_ignores_validators_witness :
  @checkpointAtIndex unit checkpoint_env toy_crypto 41 sample_fetchers 2 hex32
    (sim_world empty_db) =
  @checkpointAtIndex unit checkpoint_env toy_crypto 41
    [LocalFileFetcher "/v1" "nobody"; LocalFileFetcher "/missing" "nobody";
     LocalFileFetcher "/v3" "nobody"] 2 hex32 (sim_world empty_db).
Proof.
  apply (checkpointAtIndex_ignores_validators (E := unit) (H := checkpoint_env)
           (H0 := toy_crypto)).
  by repeat constructor.
Defined.
