(* ===== verification/Interfaces.v ===== *)
(** * Interfaces: what one component promises to another

    The [Relayer] interface of ordersettler/ordersettler.go and of the order
    fulfillment handler: submitting a transaction to be relayed and cancelling a
    relay.  Clients are proved against [RelayService] and [RelayServiceLaws]; the
    relayer runner discharges them. *)
From S2P Require Import Prelude GoLib Database World.

Class RelayService (E : Type) := {
  relay_SubmitTxToRelay : string → string → option Z → M (World E) Z;
  relay_CancelRelay : string → string → M (World E) bool
}.

(** Only the table of hyperlane transfers changes. *)
Definition only_transfers (d d' : Database) : Prop :=
  orders d' = orders d ∧ order_settlements d' = order_settlements d ∧
  submitted_txs d' = submitted_txs d ∧ rebalance_transfers d' = rebalance_transfers d ∧
  transfer_monitor_metadata d' = transfer_monitor_metadata d.

#[export] Instance only_transfers_preorder : PreOrder only_transfers.
Proof.
  split; [by intros d|]. unfold only_transfers. intros d1 d2 d3 (?&?&?&?&?) (?&?&?&?&?).
  split_and!; congruence.
Qed.

(** Requests that send a transaction, or that go below the interfaces. *)
Definition sends_tx (r : request) : bool :=
  match r with
  | FillOrderTx _ _ _ | InitiateTimeoutTx _ _ _ | InitiateBatchSettlement _ _
  | Process _ _ _ | ExecuteTx _ _ _ _ _ | Net _ => true
  | _ => false
  end.
Definition read_only (r : request) : Prop := sends_tx r = false.

Class RelayServiceLaws (E : Type) `{!Env E, !RelayService E} := {
  relay_submit_ok txHash chain fee :
    frame (db_rel db_ok_step) (relay_SubmitTxToRelay txHash chain fee);
  relay_cancel_ok chain txHash : frame (db_rel db_ok_step) (relay_CancelRelay chain txHash);
  relay_submit_only txHash chain fee :
    frame (db_rel only_transfers) (relay_SubmitTxToRelay txHash chain fee);
  relay_cancel_only chain txHash :
    frame (db_rel only_transfers) (relay_CancelRelay chain txHash);
  relay_submit_reads txHash chain fee :
    frame (emits read_only) (relay_SubmitTxToRelay txHash chain fee);
  relay_cancel_reads chain txHash : frame (emits read_only) (relay_CancelRelay chain txHash)
}.

#[export] Hint Extern 0 (frame _ (relay_SubmitTxToRelay _ _ _)) =>
  first [apply relay_submit_ok | apply relay_submit_only | apply relay_submit_reads] : frame.
#[export] Hint Extern 0 (frame _ (relay_CancelRelay _ _)) =>
  first [apply relay_cancel_ok | apply relay_cancel_only | apply relay_cancel_reads] : frame.
