(* ===== verification/RelayerRunner.v ===== *)
(** * RelayerRunner: hyperlane/relayer_runner.go

    The queue of hyperlane transfers: submitting a transaction to be relayed,
    cancelling a relay, the cost cap of a relay, and one tick of the loop that
    checks the pending transfers and relays them.  Every operation that holds the
    runner's mutex is one atomic computation of the model. *)
From Stdlib Require Import Strings.Byte.
From S2P Require Import Prelude GoLib Config Database World Interfaces Hyperlane.

Section runner.
Context {E : Type} `{Env E} `{Crypto}.
Notation IO := (M (World E)).
Context (cfg : configReader) (storageLocationOverrides : gmap string string).

Definition updateTransferStatusIfPending (chainID transactionHash status statusMessage : string) :
    IO HyperlaneTransfer :=
  hyperlaneTransfer ← db_exec (GetHyperlaneTransferByMessageSentTx transactionHash chainID);
  if bool_decide (ht_TransferStatus hyperlaneTransfer = TransferStatusPending) then
    db_exec (SetMessageStatus status
               (if (statusMessage =? "")%string then None else Some statusMessage)
               (ht_SourceChainID hyperlaneTransfer) (ht_DestinationChainID hyperlaneTransfer)
               (ht_MessageID hyperlaneTransfer))
  else mret hyperlaneTransfer.

Definition CancelRelay (chainID transactionHash : string) : IO bool :=
  transfer ← updateTransferStatusIfPending chainID transactionHash TransferStatusCancelled "";
  mret (bool_decide (ht_TransferStatus transfer = TransferStatusCancelled)).

Definition getRelayCostCap (destinationChainID : string) (maxTxFeeUUSDC : option Z)
    (createdAt : Time) : IO Z :=
  destinationChainConfig ← wrap_err "getting destination chain config: "
    (lift_result (GetChainConfig cfg destinationChainID));
  let relayer := Relayer destinationChainConfig in
  relayCostCapUUSDC ← or_throw (bigint_SetString (RelayCostCapUUSDC relayer))
    ("converting transfer destination chain " +:+ destinationChainID +:+ " relay cost cap "
     +:+ RelayCostCapUUSDC relayer +:+ " in uusdc to *big.Int");
  match maxTxFeeUUSDC with
  | None => mret relayCostCapUUSDC
  | Some maxTxFee =>
      match ProfitableRelayTimeout relayer with
      | Some timeout =>
          now ← time_now;
          if createdAt + timeout <? now then
            if relayCostCapUUSDC <? maxTxFee then mret maxTxFee else mret relayCostCapUUSDC
          else mret maxTxFee
      | None => mret maxTxFee
      end
  end.

Definition TxAlreadySubmitted (txHash sourceChainID : string) : IO (option HyperlaneTransfer) :=
  r ← attempt (db_exec (GetHyperlaneTransferByMessageSentTx txHash sourceChainID));
  match r with
  | inr hyperlaneTransfer => mret (Some hyperlaneTransfer)
  | inl err =>
      if errors_is err SqlErrNoRows then mret None
      else throw (ErrWrap ("getting hyperlane transfers by message sent tx " +:+ txHash +:+ ": ")
                    err)
  end.

(** On a conflict InsertHyperlaneTransfer returns the zero row, whose id is 0. *)
Definition SubmitTxToRelay (txHash sourceChainID : string) (maxTxFeeUUSDC : option Z) : IO Z :=
  alreadySubmitted ← wrap_err ("checking if tx " +:+ txHash +:+ " has already been submitted: ")
    (TxAlreadySubmitted txHash sourceChainID);
  match alreadySubmitted with
  | Some hyperlaneTransfer => mret (ht_ID hyperlaneTransfer)
  | None =>
      sourceChainConfig ← wrap_err ("getting source chain config for chainID " +:+ sourceChainID
                                    +:+ ": ")
        (lift_result (GetChainConfig cfg sourceChainID));
      d ← wrap_err "parsing tx results: "
        (ask (GetHyperlaneDispatch (HyperlaneDomain sourceChainConfig) sourceChainID txHash));
      let dispatch := (d : MailboxDispatchEvent * _).1 in
      let domain := de_DestinationDomain dispatch in
      entries ← range (map_to_list (chainIDIndex cfg));
      destinationChainID ← wrap_err ("getting destination chainID by hyperlane domain "
                                     +:+ domain +:+ ": ")
        (lift_result (GetChainIDByHyperlaneDomain entries domain));
      now ← time_now;
      costCap ← wrap_err ("getting relay cost cap for hyperlane relay from " +:+ sourceChainID
                          +:+ " to " +:+ destinationChainID +:+ ": ")
        (getRelayCostCap destinationChainID maxTxFeeUUSDC now);
      r ← attempt (db_exec (InsertHyperlaneTransfer sourceChainID destinationChainID
                              (de_MessageID dispatch) txHash TransferStatusPending
                              (Some (bigint_String costCap))));
      match r with
      | inr hyperlaneTransfer => mret (ht_ID hyperlaneTransfer)
      | inl err =>
          if errors_is err SqlErrNoRows then mret 0
          else throw (ErrWrap "inserting hyperlane transfer: " err)
      end
  end.

Definition relayTransfer (transfer : HyperlaneTransfer) : IO (string * string * string) :=
  maxRelayTxFeeUUSDC ←
    match ht_MaxTxFeeUusdc transfer with
    | Some s =>
        fee ← or_throw (bigint_SetString s) ("converting max tx fee uusdc " +:+ s +:+ " to *big.Int");
        mret (Some fee)
    | None => mret None
    end;
  costCap ← wrap_err ("getting relay cost cap for transfer from " +:+ ht_SourceChainID transfer
                      +:+ " to " +:+ ht_DestinationChainID transfer +:+ ": ")
    (getRelayCostCap (ht_DestinationChainID transfer) maxRelayTxFeeUUSDC (ht_CreatedAt transfer));
  transferFromDB ← db_exec (GetHyperlaneTransferByMessageSentTx (ht_MessageSentTx transfer)
                              (ht_SourceChainID transfer));
  if negb (bool_decide (ht_TransferStatus transferFromDB = TransferStatusPending)) then
    throw (ErrNew "transfer is not pending")
  else
    wrap_err ("relaying pending hyperlane transfer with tx hash " +:+ ht_MessageSentTx transfer
              +:+ " from chainID " +:+ ht_SourceChainID transfer +:+ ": ")
      (Relay cfg storageLocationOverrides (ht_SourceChainID transfer) (ht_MessageSentTx transfer)
         (Some costCap)).

Definition mostRecentTx (txs : list SubmittedTx) : result SubmittedTx :=
  match txs with
  | [] => Panic "index out of range [0] with length 0"
  | tx0 :: _ =>
      Ok (foldl (λ recentTx tx, if st_CreatedAt recentTx <? st_CreatedAt tx then tx else recentTx)
            tx0 txs)
  end.

Definition checkHyperlaneTransferStatus (transfer : HyperlaneTransfer) : IO bool :=
  destinationChainConfig ← wrap_err ("getting destination chain config for chainID "
                                     +:+ ht_DestinationChainID transfer +:+ ": ")
    (lift_result (GetChainConfig cfg (ht_DestinationChainID transfer)));
  delivered ← wrap_err ("checking if message with id " +:+ ht_MessageID transfer
                        +:+ " has been delivered: ")
    (ask (HasBeenDelivered (HyperlaneDomain destinationChainConfig) (ht_MessageID transfer)));
  if delivered : bool then
    _ ← wrap_err "setting message status to success: "
      (updateTransferStatusIfPending (ht_SourceChainID transfer) (ht_MessageSentTx transfer)
         TransferStatusSuccess "");
    mret false
  else
    txs ← wrap_err ("getting submitted txs by hyperlane transfer id "
                    +:+ strconv_Itoa (ht_ID transfer) +:+ ": ")
      (db_exec (GetSubmittedTxsByHyperlaneTransferId (Some (ht_ID transfer))));
    match txs with
    | [] => mret true
    | _ =>
        lastAttempt ← lift_result (mostRecentTx txs);
        mret (bool_decide (st_TxStatus lastAttempt = TxStatusAbandoned))
    end.

(** The switch on the error of a relay. *)
Definition on_relay_error (transfer : HyperlaneTransfer) (err : error) : IO unit :=
  if errors_is err ErrRelayTooExpensive then mret tt
  else if errors_is err ErrCouldNotDetermineRelayFee then mret tt
  else if errors_is err ErrNotEnoughSignaturesFound then mret tt
  else if strings_Contains (error_msg err) "execution reverted" then
    _ ← attempt (updateTransferStatusIfPending (ht_MessageSentTx transfer)
                   (ht_SourceChainID transfer) TransferStatusAbandoned (error_msg err));
    mret tt
  else mret tt.

(** The loop body of [Run] for one pending transfer. *)
Definition run_transfer (transfer : HyperlaneTransfer) : IO unit :=
  shouldRelay ← attempt (checkHyperlaneTransferStatus transfer);
  match shouldRelay with
  | inl _ | inr false => mret tt
  | inr true =>
      r ← attempt (relayTransfer transfer);
      match r with
      | inl err => on_relay_error transfer err
      | inr (destinationTxHash, destinationChainID, rawTx) =>
          _ ← attempt (db_exec (InsertSubmittedTx
                (mkInsertSubmittedTxParams None None (Some (ht_ID transfer)) None
                   destinationChainID destinationTxHash rawTx TxTypeHyperlaneMessageDelivery
                   TxStatusPending)));
          mret tt
      end
  end.

(** One tick of [Run]. *)
Definition runner_tick : IO unit :=
  transfers ← wrap_err "getting pending hyperlane transfers: "
    (db_exec (GetAllHyperlaneTransfersWithTransferStatus TransferStatusPending));
  for_each transfers run_transfer.
End runner.

(** ** Transfers are final *)

(** Of two rows of hyperlane_transfers, the second is a later version of the
    first: same identity, and untouched once it is no longer pending. *)
Definition later_transfer (h h' : HyperlaneTransfer) : Prop :=
  same_identity h h' ∧ (ht_TransferStatus h ≠ TransferStatusPending → h' = h).

#[export] Instance later_transfer_preorder : PreOrder later_transfer.
Proof.
  split; [by intros h|]. intros h1 h2 h3 [? H12] [? H23]. split; [by etransitivity|].
  intros Hne. specialize (H12 Hne). subst h2. auto.
Qed.

Definition transfers_step (d d' : Database) : Prop :=
  db_wf d → db_wf d' ∧
  ∃ kept new, hyperlane_transfers d' = kept ++ new ∧
    Forall2 later_transfer (hyperlane_transfers d) kept.

#[export] Instance transfers_step_preorder : PreOrder transfers_step.
Proof.
  split.
  - intros d Hd. split; [done|]. exists (hyperlane_transfers d), []. by rewrite app_nil_r.
  - intros d1 d2 d3 H1 H2 Hd. destruct (H1 Hd) as (Hd2&k1&n1&Ht1&Hk1).
    destruct (H2 Hd2) as (Hd3&k2&n2&Ht2&Hk2). split; [done|].
    rewrite Ht1 in Hk2. apply Forall2_app_inv_l in Hk2 as (k3&k4&Hk3&_&->).
    exists k3, (k4 ++ n2). rewrite Ht2, app_assoc. split; [done|]. by etransitivity.
Qed.

(** A query of the program that leaves the table alone. *)
Lemma transfers_step_same {A} (q : query A) c d :
  db_query q → hyperlane_transfers (q c d).2 = hyperlane_transfers d →
  transfers_step d (q c d).2.
Proof.
  intros Hq Heq Hd. split; [by apply query_step|]. rewrite Heq.
  exists (hyperlane_transfers d), []. by rewrite app_nil_r.
Qed.

Lemma transfers_step_insert src dst m t s f c d :
  transfers_step d (InsertHyperlaneTransfer src dst m t s f c d).2.
Proof.
  intros Hd. split; [apply query_step; [constructor|done]|].
  unfold InsertHyperlaneTransfer, insert_or_nothing.
  destruct (existsb _ _); simpl; [exists (hyperlane_transfers d), []; by rewrite app_nil_r|].
  by eexists _, [_].
Qed.

(** Setting the status of a pending row, found by its key. *)
Lemma transfers_step_pending s m c d h :
  h ∈ hyperlane_transfers d → ht_TransferStatus h = TransferStatusPending →
  transfers_step d (SetMessageStatus s m (ht_SourceChainID h) (ht_DestinationChainID h)
                      (ht_MessageID h) c d).2.
Proof.
  intros Hh Hp Hd. split; [apply query_step; [constructor|done]|]. simpl.
  eexists _, []. rewrite app_nil_r. split; [done|]. unfold update_rows.
  apply Forall2_fmap_r, Forall_Forall2_diag, Forall_forall. intros x Hx. simpl.
  destruct (transfer_at _ _ _ x) eqn:Hat; [|done].
  apply bool_decide_eq_true in Hat. split; [done|]. intros Hne. exfalso. apply Hne.
  assert (x = h) as ->; [|done].
  destruct Hd as (_&_&_&Ht&_).
  refine (table_wf_key_inj (R := HyperlaneTransfer) _ _ _ same_transfer_key_sym Ht Hx Hh _).
  by apply bool_decide_eq_true.
Qed.

Section final.
Context {E : Type} `{Env E} `{Crypto}.
Context (cfg : configReader) (overrides : gmap string string).
Implicit Types w : World E.

Lemma transfers_step_exec {A} (q : query A) :
  db_query q → (∀ c d, hyperlane_transfers (q c d).2 = hyperlane_transfers d) →
  frame (db_rel (E := E) transfers_step) (db_exec q).
Proof. intros. apply db_rel_exec; [apply _|]. intros. by apply transfers_step_same. Qed.

Lemma updateTransferStatusIfPending_final chain tx status msg :
  frame (db_rel (E := E) transfers_step) (updateTransferStatusIfPending chain tx status msg).
Proof.
  intros w. change (wp (updateTransferStatusIfPending chain tx status msg)
                      (λ _ w', transfers_step (w_db w) (w_db w')) w).
  unfold updateTransferStatusIfPending. apply wp_bind, wp_db_exec; [done|].
  intros c e. simpl. destruct (one_row _) as [h|err|p] eqn:Hrow; [|done..].
  apply one_row_filter in Hrow as [Hh _].
  case_bool_decide as Hp; [|by apply wp_ret].
  apply wp_db_exec; [done|]. intros c' e'. simpl. by apply (transfers_step_pending _ _ c').
Qed.

Lemma Relay_db a b max : frame (db_rel (E := E) eq) (Relay cfg overrides a b max).
Proof. intros w. symmetry. apply (wp_Relay cfg a b overrides max w). Qed.

Lemma db_rel_eq (R : Database → Database → Prop) `{!PreOrder R} {A} (m : M (World E) A) :
  frame (db_rel eq) m → frame (db_rel R) m.
Proof. intros Hm w. unfold db_rel in *. by rewrite <-(Hm w). Qed.

Lemma getRelayCostCap_frame (R : World E → World E → Prop) `{!PreOrder R} dst max t :
  frame R time_now → frame R (getRelayCostCap cfg dst max t).
Proof. intros. unfold getRelayCostCap. solve_io. Qed.

Lemma CancelRelay_final chain tx : frame (db_rel (E := E) transfers_step) (CancelRelay chain tx).
Proof. unfold CancelRelay. solve_io. apply updateTransferStatusIfPending_final. Qed.

Lemma SubmitTxToRelay_final tx chain fee :
  frame (db_rel (E := E) transfers_step) (SubmitTxToRelay cfg tx chain fee).
Proof.
  unfold SubmitTxToRelay, TxAlreadySubmitted. solve_io.
  - by apply transfers_step_exec; [constructor|].
  - apply getRelayCostCap_frame; [apply _|]. apply db_rel_time_now, _.
  - apply db_rel_exec; [apply _|]. intros. apply transfers_step_insert.
Qed.

Lemma run_transfer_final h :
  frame (db_rel (E := E) transfers_step) (run_transfer cfg overrides h).
Proof.
  unfold run_transfer, checkHyperlaneTransferStatus, relayTransfer, on_relay_error. solve_io.
  all: first
    [ apply updateTransferStatusIfPending_final
    | apply getRelayCostCap_frame; [apply _|apply db_rel_time_now, _]
    | apply db_rel_eq; [apply _|apply Relay_db]
    | apply transfers_step_exec; [constructor|]; intros; simpl; try done;
      unfold InsertSubmittedTx; by destruct (existsb _ _) ].
Qed.

Lemma runner_tick_final : frame (db_rel (E := E) transfers_step) (runner_tick cfg overrides).
Proof.
  unfold runner_tick. solve_io; [|apply run_transfer_final].
  by apply transfers_step_exec; [constructor|].
Qed.
End final.

(** ** The runner as a relay service *)

Section service.
Context {E : Type} `{Env E} `{Crypto}.
Context (cfg : configReader).
Implicit Types w : World E.

#[export] Instance runner_RelayService : RelayService E := {|
  relay_SubmitTxToRelay := SubmitTxToRelay cfg;
  relay_CancelRelay := CancelRelay
|}.

Lemma updateTransferStatusIfPending_ok chain tx status msg :
  frame (db_rel (E := E) db_ok_step) (updateTransferStatusIfPending chain tx status msg).
Proof. unfold updateTransferStatusIfPending. solve_io. Qed.

Lemma updateTransferStatusIfPending_only chain tx status msg :
  frame (db_rel (E := E) only_transfers) (updateTransferStatusIfPending chain tx status msg).
Proof.
  unfold updateTransferStatusIfPending. solve_io; by (apply db_rel_exec; [apply _|]).
Qed.

Lemma updateTransferStatusIfPending_reads chain tx status msg :
  frame (emits (E := E) read_only) (updateTransferStatusIfPending chain tx status msg).
Proof. unfold updateTransferStatusIfPending. by solve_io. Qed.

Lemma SubmitTxToRelay_ok tx chain fee :
  frame (db_rel (E := E) db_ok_step) (SubmitTxToRelay cfg tx chain fee).
Proof.
  unfold SubmitTxToRelay, TxAlreadySubmitted. solve_io.
  apply getRelayCostCap_frame; [apply _|apply db_rel_time_now, _].
Qed.

Lemma SubmitTxToRelay_only tx chain fee :
  frame (db_rel (E := E) only_transfers) (SubmitTxToRelay cfg tx chain fee).
Proof.
  unfold SubmitTxToRelay, TxAlreadySubmitted. solve_io.
  - by apply db_rel_exec; [apply _|].
  - apply getRelayCostCap_frame; [apply _|apply db_rel_time_now, _].
  - apply db_rel_exec; [apply _|]. intros c d. unfold InsertHyperlaneTransfer.
    by destruct (insert_or_nothing _ _ _).
Qed.

Lemma SubmitTxToRelay_reads tx chain fee :
  frame (emits (E := E) read_only) (SubmitTxToRelay cfg tx chain fee).
Proof.
  unfold SubmitTxToRelay, TxAlreadySubmitted. solve_io; try done.
  apply getRelayCostCap_frame; [apply _|by apply emits_time_now].
Qed.

#[export] Instance runner_RelayServiceLaws : RelayServiceLaws E.
Proof.
  split; intros; simpl; auto using SubmitTxToRelay_ok, SubmitTxToRelay_only, SubmitTxToRelay_reads.
  all: unfold CancelRelay; solve_io; auto using updateTransferStatusIfPending_ok,
    updateTransferStatusIfPending_only, updateTransferStatusIfPending_reads.
Qed.
End service.

(** ** Properties *)

(** The operations of the runner, from the outside. *)
Inductive runner_op {E} `{Env E} `{Crypto} (cfg : configReader)
    (overrides : gmap string string) : World E → World E → Prop :=
  | op_submit tx chain fee w : runner_op cfg overrides w (SubmitTxToRelay cfg tx chain fee w).2
  | op_cancel chain tx w : runner_op cfg overrides w (CancelRelay chain tx w).2
  | op_tick w : runner_op cfg overrides w (runner_tick cfg overrides w).2.

(** C31. A transfer that is no longer pending is final: no sequence of submissions,
    cancellations and ticks of the runner, however it ends, changes its row in
    any column. *)
Theorem runner_transfers_final {E} `{Env E} `{Crypto} cfg overrides (w w' : World E) i h :
  db_wf (w_db w) → rtc (runner_op cfg overrides) w w' →
  hyperlane_transfers (w_db w) !! i = Some h → ht_TransferStatus h ≠ TransferStatusPending →
  hyperlane_transfers (w_db w') !! i = Some h.
Proof.
  intros Hwf Hops Hi Hne.
  assert (transfers_step (w_db w) (w_db w')) as Hstep.
  { clear Hwf Hi. induction Hops as [|w w1 w2 Hop _ IH]; [reflexivity|].
    etransitivity; [|exact IH]. destruct Hop.
    - apply SubmitTxToRelay_final.
    - apply CancelRelay_final.
    - apply runner_tick_final. }
  destruct (Hstep Hwf) as (_&kept&new&->&Hkept).
  destruct (Forall2_lookup_l _ _ _ _ _ Hkept Hi) as (h'&Hh'&_&Heq).
  apply lookup_app_l_Some. by rewrite Hh', Heq.
Qed.

(** The cost cap of a relay, on every branch: the configured cap when the caller
    gave none; the caller's maximum while the relay is not timed out (or no
    timeout is configured); after the timeout the larger of the two.  So the cap
    is never below what the caller allowed, and never above the larger of the
    two. *)
Theorem getRelayCostCap_spec {E} `{Env E} cfg dst max createdAt (w : World E) v w' :
  getRelayCostCap cfg dst max createdAt w = (Ok v, w') →
  ∃ c cap, GetChainConfig cfg dst = Ok c ∧
    bigint_SetString (RelayCostCapUUSDC (Relayer c)) = Some cap ∧ w_db w' = w_db w ∧
    match max with
    | None => v = cap
    | Some m =>
        match ProfitableRelayTimeout (Relayer c) with
        | None => v = m
        | Some timeout => ∃ now, v = (if createdAt + timeout <? now then Z.max m cap else m)
        end
    end.
Proof.
  intros Hrun. run_wp Hrun. unfold getRelayCostCap.
  wp_steps; try done; intros [= <-]; eexists _, _; (split_and!; [done..|]);
    try match goal with Ht : ProfitableRelayTimeout _ = _ |- _ => rewrite Ht end; try done;
    match goal with Hb : (createdAt + _ <? ?now) = _ |- _ => exists now; rewrite Hb end; lia.
Qed.

Section properties.
Context {E : Type} `{Env E} `{Crypto}.
Context (cfg : configReader) (overrides : gmap string string).
Implicit Types w : World E.

(** The row that the queries by message-sent transaction find. *)
Definition transfer_of_tx (d : Database) (tx chain : string) : option HyperlaneTransfer :=
  head (List.filter (sent_in tx chain) (hyperlane_transfers d)).

Lemma GetHyperlaneTransferByMessageSentTx_row tx chain c d :
  (GetHyperlaneTransferByMessageSentTx tx chain c d).1 =
  match transfer_of_tx d tx chain with
  | Some h => Ok h
  | None => Err (ErrSentinel SqlErrNoRows)
  end.
Proof. unfold transfer_of_tx. simpl. by destruct (List.filter _ _). Qed.

(** An existing transfer is returned and nothing is changed. *)
Lemma wp_SubmitTxToRelay_again tx chain fee w h :
  transfer_of_tx (w_db w) tx chain = Some h →
  wp (SubmitTxToRelay cfg tx chain fee)
    (λ r w', w_db w' = w_db w ∧ ∀ id, r = Ok id → id = ht_ID h) w.
Proof.
  intros Hh. unfold SubmitTxToRelay, TxAlreadySubmitted.
  apply wp_bind, wp_wrap_err, wp_bind, wp_attempt, wp_db_exec; [by intros|].
  intros c e. rewrite GetHyperlaneTransferByMessageSentTx_row, Hh.
  apply wp_ret, wp_ret. split; [done|]. by intros id [= <-].
Qed.

Lemma transfer_of_tx_insert src dst m tx st f c d h :
  transfer_of_tx d tx src = None →
  (InsertHyperlaneTransfer src dst m tx st f c d).1 = Ok h →
  transfer_of_tx (InsertHyperlaneTransfer src dst m tx st f c d).2 tx src = Some h.
Proof.
  unfold transfer_of_tx, InsertHyperlaneTransfer, insert_or_nothing.
  destruct (existsb _ _); simpl; [done|]. intros Hnone [= <-].
  rewrite List.filter_app. destruct (List.filter _ (hyperlane_transfers d)); [|done].
  simpl. unfold sent_in. simpl. by rewrite !bool_decide_eq_true_2.
Qed.

(** A submission that adds a row. *)
Lemma wp_SubmitTxToRelay_new tx chain fee w :
  db_wf (w_db w) →
  wp (SubmitTxToRelay cfg tx chain fee)
    (λ r w', ∀ id, r = Ok id → id ≠ 0 →
       ∃ h, transfer_of_tx (w_db w') tx chain = Some h ∧ ht_ID h = id) w.
Proof.
  intros Hwf. unfold SubmitTxToRelay, TxAlreadySubmitted.
  apply wp_bind, wp_wrap_err, wp_bind, wp_attempt, wp_db_exec; [by intros|].
  intros c e. rewrite GetHyperlaneTransferByMessageSentTx_row.
  destruct (transfer_of_tx (w_db w) tx chain) as [h|] eqn:Hh; apply wp_ret.
  { apply wp_ret. intros id [= <-] _. by exists h. }
  wp_steps; try done.
  apply wp_same_db; [apply getRelayCostCap_frame; [apply _|apply db_rel_time_now, _]|].
  intros r1 w1 Hw1. wp_steps; try done.
  - intros id [= <-] _. simpl in Hw1.
    match goal with Hi : _.1 = Ok ?h |- _ => exists h; split; [|done];
      apply transfer_of_tx_insert; [by rewrite Hw1|exact Hi] end.
  - by intros id [= <-].
Qed.

(** Submitting is idempotent: once a submission of a transaction has returned
    the id of its transfer, every later submission that succeeds while the
    transfer table is unchanged returns the same id, whatever fee it asks for,
    and changes nothing. *)
Theorem SubmitTxToRelay_idempotent tx chain fee fee' w1 w1' w2 w2' id id' :
  db_wf (w_db w1) →
  SubmitTxToRelay cfg tx chain fee w1 = (Ok id, w1') → id ≠ 0 →
  hyperlane_transfers (w_db w2) = hyperlane_transfers (w_db w1') →
  SubmitTxToRelay cfg tx chain fee' w2 = (Ok id', w2') →
  id' = id ∧ w_db w2' = w_db w2.
Proof.
  intros Hwf H1 Hid Hsame H2.
  destruct (wp_run _ _ _ _ _ H1 (wp_SubmitTxToRelay_new tx chain fee w1 Hwf) id eq_refl Hid)
    as (h&Hh&<-).
  assert (transfer_of_tx (w_db w2) tx chain = Some h) as Hh2
    by (unfold transfer_of_tx in *; by rewrite Hsame).
  destruct (wp_run _ _ _ _ _ H2 (wp_SubmitTxToRelay_again tx chain fee' w2 h Hh2)) as [Hdb Hres].
  by rewrite (Hres id' eq_refl).
Qed.

(** A conflict on the message id loses the transfer's id: when the message of a
    new transaction already has a row, the submission succeeds with id 0, which
    is no row's id, and the transaction has no transfer. *)
Theorem SubmitTxToRelay_conflict_id tx chain fee w w' id :
  db_wf (w_db w) → transfer_of_tx (w_db w) tx chain = None →
  SubmitTxToRelay cfg tx chain fee w = (Ok id, w') →
  w_db w' = w_db w → id = 0 ∧ transfer_of_tx (w_db w') tx chain = None ∧
    ∀ h, h ∈ hyperlane_transfers (w_db w') → ht_ID h ≠ id.
Proof.
  intros Hwf Hnone Hrun Hdb. rewrite Hdb. cut (id = 0).
  { intros ->. split_and!; [done..|]. intros h Hh. destruct Hwf as (_&_&_&[Hpos _]&_).
    rewrite Forall_forall in Hpos. specialize (Hpos h Hh). simpl in Hpos. lia. }
  destruct (decide (id = 0)) as [|Hid]; [done|].
  destruct (wp_run _ _ _ _ _ Hrun (wp_SubmitTxToRelay_new tx chain fee w Hwf) id eq_refl Hid)
    as (h&Hh&_). congruence.
Qed.

(** Cancelling: afterwards the answer says whether the transfer of the
    transaction is cancelled, a pending transfer is cancelled by the call, and a
    transfer in any other state is left as it was. *)
Theorem CancelRelay_spec chain tx w b w' h :
  db_wf (w_db w) → transfer_of_tx (w_db w) tx chain = Some h →
  CancelRelay chain tx w = (Ok b, w') →
  if bool_decide (ht_TransferStatus h = TransferStatusPending)
  then b = true ∧ ∃ now, set_message_status now TransferStatusCancelled None h
                           ∈ hyperlane_transfers (w_db w')
  else b = bool_decide (ht_TransferStatus h = TransferStatusCancelled) ∧ w_db w' = w_db w.
Proof.
  intros Hwf Hh Hrun. run_wp Hrun. unfold CancelRelay, updateTransferStatusIfPending.
  assert (h ∈ hyperlane_transfers (w_db w)) as Hin.
  { unfold transfer_of_tx in Hh. destruct (List.filter _ _) as [|h' l] eqn:Hf; [done|].
    apply (one_row_filter (sent_in tx chain)). rewrite Hf. simpl in *. congruence. }
  apply wp_bind, wp_bind, wp_db_exec; [by intros|]. intros c e.
  rewrite GetHyperlaneTransferByMessageSentTx_row, Hh.
  case_bool_decide as Hp; [|by wp_steps; intros [= <-]].
  apply wp_db_exec; [by intros|]. intros c' e'. simpl.
  unfold returned_rows. rewrite transfers_filter_key by done. simpl. apply wp_ret.
  intros [= <-]. split; [done|]. exists (stmt_ts c').
  apply (update_rows_elem _ (set_message_status (stmt_ts c') TransferStatusCancelled None));
    [done|]. by apply bool_decide_eq_true.
Qed.

(** C32. A cancelled relay stays cancelled on chain: relaying a transfer whose row is
    not pending sends no transaction and changes nothing, whatever is outside. *)
Theorem relayTransfer_only_pending t w h r w' :
  transfer_of_tx (w_db w) (ht_MessageSentTx t) (ht_SourceChainID t) = Some h →
  ht_TransferStatus h ≠ TransferStatusPending →
  relayTransfer cfg overrides t w = (r, w') →
  (∀ v, r ≠ Ok v) ∧ w_db w' = w_db w ∧ emits read_only w w'.
Proof.
  intros Hh Hne Hrun. run_wp Hrun. unfold relayTransfer. apply wp_bind.
  assert (wp (match ht_MaxTxFeeUusdc t with
              | Some s => fee ← or_throw (bigint_SetString s)
                                  ("converting max tx fee uusdc " +:+ s +:+ " to *big.Int");
                          mret (Some fee)
              | None => mret None
              end) (λ r1 w1, w1 = w) w) as Hfee by (by wp_steps).
  eapply wp_mono; [|exact Hfee]. intros r1 w1 ->.
  destruct r1 as [fee|err|p]; [|by intros <-; split_and!..].
  apply wp_bind, wp_wrap_err. apply (wp_quiet read_only).
  { apply getRelayCostCap_frame; [apply _|apply db_rel_time_now, _]. }
  { apply getRelayCostCap_frame; [apply _|by apply emits_time_now]. }
  intros r2 w2 Hw2 Hem. destruct r2 as [cap|err|p]; [|by intros <-; split_and!..].
  apply wp_bind, wp_db_exec.
  { intros err e <-. split_and!; [done..|]. by apply emits_after. }
  intros c e. rewrite GetHyperlaneTransferByMessageSentTx_row, Hw2, Hh.
  rewrite bool_decide_eq_false_2 by done. cbn [negb]. apply wp_throw. intros <-.
  split_and!; [done|done|]. apply (emits_after _ _ _ DbStmt (inr c) e Hem). done.
Qed.

(** The error switch of the loop never abandons a transfer: it calls the status
    update with the transaction hash as the chain and the chain as the hash, so
    as long as no transfer's source chain is named like that hash, a relay whose
    execution reverted leaves the database as it was. *)
Theorem on_relay_error_keeps_pending t err w :
  (∀ h, h ∈ hyperlane_transfers (w_db w) → ht_SourceChainID h ≠ ht_MessageSentTx t) →
  w_db (on_relay_error t err w).2 = w_db w.
Proof.
  intros Hne. change (wp (on_relay_error t err) (λ _ w', w_db w' = w_db w) w).
  unfold on_relay_error. wp_steps; try done.
  unfold updateTransferStatusIfPending. apply wp_bind, wp_db_exec; [done|].
  intros c e. rewrite GetHyperlaneTransferByMessageSentTx_row.
  destruct (transfer_of_tx _ _ _) as [h|] eqn:Hh; [|done]. exfalso.
  unfold transfer_of_tx in Hh. destruct (List.filter _ _) as [|h' l] eqn:Hf; [done|].
  assert (one_row (List.filter (sent_in (ht_SourceChainID t) (ht_MessageSentTx t))
            (hyperlane_transfers (w_db w))) = Ok h') as Hrow by (by rewrite Hf).
  apply one_row_filter in Hrow as [Hin Hs]. apply (Hne h' Hin).
  unfold sent_in in Hs. apply andb_true_iff in Hs as [_ Hs]. by apply bool_decide_eq_true in Hs.
Qed.

(** Picking the last delivery attempt: one of the given transactions, none of
    them newer, and the first of the newest. *)
Theorem mostRecentTx_spec txs tx :
  mostRecentTx txs = Ok tx →
  ∃ l1 l2, txs = l1 ++ tx :: l2 ∧
    Forall (λ t, st_CreatedAt t < st_CreatedAt tx) l1 ∧
    Forall (λ t, st_CreatedAt t ≤ st_CreatedAt tx) l2.
Proof.
  destruct txs as [|tx0 rest]; [done|]. unfold mostRecentTx. intros [= <-]. simpl.
  rewrite Z.ltb_irrefl.
  enough (∀ rest pre a post, 
    Forall (λ t, st_CreatedAt t < st_CreatedAt a) pre →
    Forall (λ t, st_CreatedAt t ≤ st_CreatedAt a) post →
    let m := foldl (λ recentTx tx, if st_CreatedAt recentTx <? st_CreatedAt tx
                                   then tx else recentTx) a rest in
    ∃ l1 l2, pre ++ a :: post ++ rest = l1 ++ m :: l2 ∧
      Forall (λ t, st_CreatedAt t < st_CreatedAt m) l1 ∧
      Forall (λ t, st_CreatedAt t ≤ st_CreatedAt m) l2) as Hgen.
  { apply (Hgen rest [] tx0 []); constructor. }
  clear. induction rest as [|x rest IH]; intros pre a post Hpre Hpost; simpl.
  { exists pre, post. by rewrite app_nil_r. }
  destruct (Z.ltb_spec (st_CreatedAt a) (st_CreatedAt x)) as [Hlt|Hge].
  - destruct (IH (pre ++ a :: post) x []) as (l1&l2&Heq&?&?); [|constructor|].
    + apply Forall_app. split; [|constructor; [done|]]; eapply Forall_impl; eauto; simpl; lia.
    + exists l1, l2. split_and!; [|done..]. rewrite <-Heq, <-app_assoc. done.
  - destruct (IH pre a (post ++ [x])) as (l1&l2&Heq&?&?); [done| |].
    + apply Forall_app. split; [done|]. by repeat constructor.
    + exists l1, l2. split_and!; [|done..]. rewrite <-Heq, <-!app_assoc. done.
Qed.

(** The delivery attempts recorded for a transfer. *)
Definition attempts (d : Database) (t : HyperlaneTransfer) : list SubmittedTx :=
  List.filter (λ tx, null_eqb (st_HyperlaneTransferID tx) (Some (ht_ID t))) (submitted_txs d).

(** Deciding whether to relay: a delivered message is not relayed again; one that
    is not delivered is relayed exactly when there is no delivery attempt yet or
    the most recent attempt was abandoned, and then nothing is written. *)
Theorem checkHyperlaneTransferStatus_spec t w b w' :
  checkHyperlaneTransferStatus cfg t w = (Ok b, w') →
  ∃ domain (delivered : bool),
    existT (HasBeenDelivered domain (ht_MessageID t)) (inr delivered) ∈ w_trace w' ∧
    if delivered then b = false
    else w_db w' = w_db w ∧
         b = match mostRecentTx (attempts (w_db w) t) with
             | Ok last => bool_decide (st_TxStatus last = TxStatusAbandoned)
             | _ => true
             end.
Proof.
  intros Hrun. run_wp Hrun. unfold checkHyperlaneTransferStatus.
  apply wp_bind, wp_wrap_err. destruct (GetChainConfig cfg _) as [c|err|p]; [|by intros..].
  cbn beta iota. apply wp_bind, wp_wrap_err.
  refine (wp_ask (HasBeenDelivered _ _) _ _ _). intros [err|delivered] e _; [by intros|].
  simpl in delivered. destruct delivered.
  - apply wp_bind, wp_wrap_err. apply (wp_conseq (emits (λ _, True))).
    { unfold updateTransferStatusIfPending. by apply (frame_bind (emits (λ _, True)));
        solve_io. }
    intros r1 w1 _ (new&Ht&_). destruct r1 as [h|err|p]; [|by intros..].
    apply wp_ret. intros [= <-]. exists (HyperlaneDomain c), true. split; [|done].
    rewrite Ht. simpl. set_solver.
  - apply wp_bind, wp_wrap_err, wp_db_exec; [by intros|]. intros c' e'. simpl.
    fold (attempts (w_db w) t). destruct (attempts (w_db w) t) as [|tx txs] eqn:Ha.
    + apply wp_ret. intros [= <-]. exists (HyperlaneDomain c), false. split; [set_solver|done].
    + apply wp_bind. change (lift_result (mostRecentTx (tx :: txs))) with
        (lift_result (S := World E) (mostRecentTx (tx :: txs))).
      unfold wp at 1. simpl. apply wp_ret. intros [= <-].
      exists (HyperlaneDomain c), false. split; [set_solver|done].
Qed.
End properties.

(** ** Witnesses *)

(** A pending transfer, a cancelled one, and one abandoned attempt to deliver the
    pending one. *)
Definition runner_db : Database :=
  let d1 := (InsertHyperlaneTransfer "osmosis-1" "42161" "m1" "0xt1" TransferStatusPending
               (Some "700") (mkStmt 0 0) empty_db).2 in
  let d2 := (InsertHyperlaneTransfer "osmosis-1" "42161" "m2" "0xt2" TransferStatusCancelled
               None (mkStmt 0 0) d1).2 in
  (InsertSubmittedTx (mkInsertSubmittedTxParams None None (Some 1) None "42161" "0xd1" "raw"
     TxTypeHyperlaneMessageDelivery TxStatusAbandoned) (mkStmt 9000000000 0) d2).2.

Lemma runner_db_wf : db_wf runner_db.
Proof. apply reachable_wf. repeat (apply reachable_query; [|constructor]). constructor. Qed.

(** A destination where nothing is delivered; dispatches go to Arbitrum. *)
Definition runner_env : Env unit := sim_env (λ r,
  match r as r return error + response r with
  | HasBeenDelivered _ _ => inr false
  | GetHyperlaneDispatch _ _ tx =>
      inr (mkMailboxDispatchEvent "0xr" "00" "42161" "0xmb" "0xs" ("id-" +:+ tx),
           mkMailboxMerkleHookPostDispatchEvent ("id-" +:+ tx) 41)
  | r => offline r
  end).

Definition pending_row : HyperlaneTransfer :=
  mkHyperlaneTransfer 1 0 0 "osmosis-1" "42161" "m1" "0xt1" TransferStatusPending None
    (Some "700").
Definition cancelled_row : HyperlaneTransfer :=
  mkHyperlaneTransfer 2 0 0 "osmosis-1" "42161" "m2" "0xt2" TransferStatusCancelled None None.

Definition runner_world : World unit := sim_world runner_db.

Lemma runner_transfers_final_witness :
  hyperlane_transfers (w_db (@runner_tick unit runner_env toy_crypto sample_reader ∅
    (@CancelRelay unit runner_env "osmosis-1" "0xt2" runner_world).2).2) !! 1%nat
  = Some cancelled_row.
Proof.
  apply (@runner_transfers_final unit runner_env toy_crypto sample_reader ∅ runner_world _ 1
           cancelled_row); [apply runner_db_wf| |reflexivity|discriminate].
  eapply rtc_l; [apply op_cancel|]. eapply rtc_l; [apply op_tick|]. apply rtc_refl.
Defined.

Lemma getRelayCostCap_spec_witness :
  ∃ v w', @getRelayCostCap unit runner_env sample_reader "42161" (Some 700) (- Hour) runner_world
            = (Ok v, w') ∧ v = 3000000 ∧ w_db w' = runner_db.
Proof.
  eexists _, _. split; [vm_compute; reflexivity|].
  destruct (@getRelayCostCap_spec unit runner_env sample_reader "42161" (Some 700) (- Hour)
              runner_world 3000000 _ ltac:(vm_compute; reflexivity)) as (c&cap&_&_&Hdb&_).
  split; [reflexivity|exact Hdb].
Defined.

Lemma SubmitTxToRelay_idempotent_witness :
  ∃ w1 w2, @SubmitTxToRelay unit runner_env sample_reader "0xt3" "osmosis-1" None runner_world
             = (Ok 3, w1) ∧
           @SubmitTxToRelay unit runner_env sample_reader "0xt3" "osmosis-1" (Some 5) w1
             = (Ok 3, w2) ∧ w_db w2 = w_db w1.
Proof.
  destruct (@SubmitTxToRelay unit runner_env sample_reader "0xt3" "osmosis-1" None runner_world)
    as [r1 w1] eqn:H1.
  destruct (@SubmitTxToRelay unit runner_env sample_reader "0xt3" "osmosis-1" (Some 5) w1)
    as [r2 w2] eqn:H2.
  assert (r1 = Ok 3) as -> by (vm_compute in H1; congruence).
  assert (r2 = Ok 3) as -> by (vm_compute in H1; injection H1 as <-; vm_compute in H2; congruence).
  exists w1, w2. split; [reflexivity|]. split; [exact H2|].
  eapply (@SubmitTxToRelay_idempotent unit runner_env sample_reader "0xt3" "osmosis-1" None
            (Some 5) runner_world w1 w1 w2 3 3);
    [apply runner_db_wf|exact H1|discriminate|reflexivity|exact H2].
Defined.

Lemma CancelRelay_spec_witness :
  ∃ w', @CancelRelay unit runner_env "osmosis-1" "0xt1" runner_world = (Ok true, w') ∧
    ∃ now, set_message_status now TransferStatusCancelled None pending_row
             ∈ hyperlane_transfers (w_db w').
Proof.
  destruct (@CancelRelay unit runner_env "osmosis-1" "0xt1" runner_world) as [r w'] eqn:Hrun.
  assert (r = Ok true) as -> by (vm_compute in Hrun; congruence).
  exists w'. split; [reflexivity|].
  apply (@CancelRelay_spec unit runner_env "osmosis-1" "0xt1" runner_world true w' pending_row);
    [apply runner_db_wf|reflexivity|exact Hrun].
Defined.

Lemma relayTransfer_only_pending_witness :
  emits read_only runner_world
    (@relayTransfer unit runner_env toy_crypto sample_reader ∅ cancelled_row runner_world).2.
Proof.
  eapply (@relayTransfer_only_pending unit runner_env toy_crypto sample_reader ∅ cancelled_row
           runner_world cancelled_row); [reflexivity|discriminate|].
  apply surjective_pairing.
Defined.

Lemma on_relay_error_keeps_pending_witness :
  w_db (@on_relay_error unit runner_env pending_row (ErrNew "execution reverted")
          runner_world).2 = runner_db.
Proof.
  apply (@on_relay_error_keeps_pending unit runner_env pending_row
           (ErrNew "execution reverted") runner_world).
  intros h Hh. apply list_elem_of_In in Hh. destruct Hh as [<-|[<-|[]]]; discriminate.
Defined.

Lemma checkHyperlaneTransferStatus_spec_witness :
  ∃ w', @checkHyperlaneTransferStatus unit runner_env sample_reader pending_row runner_world
          = (Ok true, w') ∧
    ∃ domain delivered,
      existT (HasBeenDelivered domain "m1") (inr delivered) ∈ w_trace w'.
Proof.
  destruct (@checkHyperlaneTransferStatus unit runner_env sample_reader pending_row runner_world)
    as [r w'] eqn:Hrun.
  assert (r = Ok true) as -> by (vm_compute in Hrun; congruence).
  exists w'. split; [reflexivity|].
  destruct (@checkHyperlaneTransferStatus_spec unit runner_env sample_reader pending_row
              runner_world true w' Hrun) as (d&b&Hin&_). exists d, b. exact Hin.
Defined.

Lemma mostRecentTx_spec_witness :
  ∃ tx, mostRecentTx (submitted_txs runner_db) = Ok tx ∧
    ∃ l1 l2, submitted_txs runner_db = l1 ++ tx :: l2.
Proof.
  eexists. split; [reflexivity|].
  destruct (mostRecentTx_spec (submitted_txs runner_db) _ eq_refl) as (l1&l2&H&_).
  exists l1, l2. exact H.
Defined.

(** The message of "0xt9" was already recorded for another transaction. *)
Definition conflict_db : Database :=
  (InsertHyperlaneTransfer "osmosis-1" "42161" "id-0xt9" "0xt8" TransferStatusPending None
     (mkStmt 0 0) empty_db).2.

Lemma SubmitTxToRelay_conflict_id_witness :
  ∃ w', @SubmitTxToRelay unit runner_env sample_reader "0xt9" "osmosis-1" None
          (sim_world conflict_db) = (Ok 0, w') ∧
    ∀ h, h ∈ hyperlane_transfers (w_db w') → ht_ID h ≠ 0.
Proof.
  destruct (@SubmitTxToRelay unit runner_env sample_reader "0xt9" "osmosis-1" None
              (sim_world conflict_db)) as [r w'] eqn:Hrun.
  assert (r = Ok 0) as -> by (vm_compute in Hrun; congruence).
  exists w'. split; [reflexivity|].
  apply (@SubmitTxToRelay_conflict_id unit runner_env sample_reader "0xt9" "osmosis-1" None
           (sim_world conflict_db) w' 0).
  - apply reachable_wf. repeat (apply reachable_query; [|constructor]). constructor.
  - reflexivity.
  - exact Hrun.
  - vm_compute in Hrun. injection Hrun as <-. reflexivity.
Defined.
