(* ===== verification/OrderSettler.v ===== *)
(** * OrderSettler: ordersettler/ordersettler.go and ordersettler/detector.go

    Detecting fills of the solver that are not settled yet, initiating batch
    settlements on the destination chain, submitting them to be relayed, cancelling
    relays that can be rebatched, and verifying settlements on the source chain.
    The goroutines of an errgroup are run one after the other in an arbitrary
    order. *)
From Stdlib Require Import Strings.Byte.
From S2P Require Import Prelude GoLib Config Database World Settlements Interfaces.

Record PendingSettlement := mkPendingSettlement {
  ps_SourceChainID : string;
  ps_DestinationChainID : string;
  ps_OrderID : string;
  ps_Amount : Z;
  ps_Profit : Z
}.

(** fast_transfer_gateway/constants.go *)
Definition GatewayOrderStatusUnfilled : Z := 0.
Definition GatewayOrderStatusFilled : Z := 1.
Definition GatewayOrderStatusRefunded : Z := 2.

Definition mark_seen (orderID : string) (m : Memory) : Memory :=
  mkMemory ({[ orderID ]} ∪ ordersSeen m) (profitabilityFailures m) (didQuickStart m) (clients m).

(** What [%w] prints for a nil error. *)
Definition nil_error_text : string := "%!w(<nil>)".

(** ** Profit margin *)

(** [minProfitMarginBPS / 10000 * totalValue] in big.Float arithmetic (53 bits of
    precision, from [big.NewFloat]), truncated. *)
Definition value_margin (bps totalValue : Z) : Z :=
  let minProfitMarginBPS := bf_NewFloat bps in
  let minProfitMarginDec := bf_Quo 53 minProfitMarginBPS (bf_NewFloat 10000) in
  let valueMargin := bf_Mul 53 minProfitMarginDec (bf_SetInt totalValue) in
  bf_Int valueMargin.

Definition maxBatchTxFeeUUSDC (cfg : configReader) (batch : SettlementBatch) : result Z :=
  rbind (result_wrap "calculating profit for batch: " (TotalProfit batch)) (λ profit,
  rbind (result_wrap "calculating total value for batch: " (TotalValue batch)) (λ totalValue,
  rbind (batch_SourceChainID batch) (λ sourceChainID,
  rbind (result_wrap ("getting chain config for settlement payout chain " +:+ sourceChainID
                      +:+ ": ") (GetChainConfig cfg sourceChainID)) (λ payoutChainConfig,
  Ok (profit - value_margin (MinProfitMarginBPS payoutChainConfig) totalValue))))).

(** The settlements whose batch is worth settling. *)
Definition ShouldInitiateSettlement (cfg : configReader) (batch : SettlementBatch) : result bool :=
  rbind (result_wrap "getting settlement batch total value: " (TotalValue batch)) (λ value,
  rbind (batch_SourceChainID batch) (λ sourceChainID,
  rbind (result_wrap ("getting source chain config for chainID " +:+ sourceChainID +:+ ": ")
           (GetChainConfig cfg sourceChainID)) (λ sourceChainConfig,
  match bigint_SetString (BatchUUSDCSettleUpThreshold sourceChainConfig) with
  | None => Err (ErrNew ("could not convert batch uusdc settle up threshold "
                         +:+ BatchUUSDCSettleUpThreshold sourceChainConfig +:+ " for chainID "
                         +:+ sourceChainID +:+ " to *big.Int: " +:+ nil_error_text))
  | Some settlementThreshold => Ok (settlementThreshold <=? value)
  end))).

Section settler.
Context {E : Type} `{Env E, !RelayService E}.
Notation IO := (M (World E)).
Context (cfg : configReader).

(** ** Detector *)

(** The map of orders already seen that a caller passes: the settler its own, which is
    in memory, the command line tool a nil map, which cannot be written. *)
Definition mark_and_skip (hasSeen : bool) (orderID : string) (pending : list PendingSettlement) :
    IO (list PendingSettlement) :=
  if hasSeen then _ ← update_mem (mark_seen orderID); mret pending
  else go_panic "assignment to entry in nil map".

(** The loop body for one fill found on the destination chain [chain]. *)
Definition detect_fill (hasSeen : bool) (chain : ChainConfig) (pending : list PendingSettlement) (fill : Fill) :
    IO (list PendingSettlement) :=
  let orderID := fill_OrderID fill in
  mem ← get_mem;
  if hasSeen && bool_decide (orderID ∈ ordersSeen mem) then mret pending else
  entries ← range (map_to_list (chainIDIndex cfg));
  match GetChainIDByHyperlaneDomain entries (strconv_Itoa (fill_SourceDomain fill)) with
  | Panic p => go_panic p
  | Err _ => mark_and_skip hasSeen orderID pending
  | Ok sourceChainID =>
      sourceGatewayAddress ← wrap_err "getting source gateway address: "
        (lift_result (GetGatewayContractAddress cfg sourceChainID));
      _ ← wrap_err ("getting client for chainID " +:+ sourceChainID +:+ ": ")
        (ask (GetClient sourceChainID));
      height ← wrap_err ("fetching current block height on chain " +:+ sourceChainID +:+ ": ")
        (ask (BlockHeight sourceChainID));
      ex ← wrap_err ("checking if order " +:+ orderID +:+ " exists on chainID " +:+ sourceChainID
                     +:+ ": ")
        (ask (OrderExists sourceChainID sourceGatewayAddress orderID (i64 height)));
      let '(exists_, amount) := ex : bool * option Z in
      if negb exists_ then mark_and_skip hasSeen orderID pending else
      status ← wrap_err ("getting order " +:+ orderID +:+ " status on chainID " +:+ sourceChainID
                         +:+ ": ")
        (ask (OrderStatusOnChain sourceChainID sourceGatewayAddress orderID));
      if negb (status =? GatewayOrderStatusUnfilled) then mark_and_skip hasSeen orderID pending else
      r ← attempt (ask (QueryOrderFillEvent (ChainID chain) (FastTransferContractAddress chain)
                          orderID));
      match r with
      | inl err =>
          if is_order_fill_event_not_found err then mret pending
          else throw (ErrWrap ("querying for order fill event on destination chain at address "
                               +:+ FastTransferContractAddress chain +:+ " for order id "
                               +:+ orderID +:+ ": ") err)
      | inr (Some orderFillEvent, _) =>
          match amount with
          | None => go_panic "invalid memory address or nil pointer dereference"
          | Some amount =>
              mret (pending ++ [mkPendingSettlement sourceChainID (ChainID chain) orderID amount
                                  (amount - ofe_FillAmount orderFillEvent)])
          end
      | inr (None, _) => go_panic "invalid memory address or nil pointer dereference"
      end
  end.

Definition detect_chain (hasSeen : bool) (pending : list PendingSettlement) (chain : ChainConfig) :
    IO (list PendingSettlement) :=
  _ ← wrap_err "failed to get client: " (ask (GetClient (ChainID chain)));
  fills ← wrap_err "getting order fills: "
    (ask (OrderFillsByFiller (ChainID chain) (FastTransferContractAddress chain)
            (SolverAddress chain)));
  fold_m (detect_fill hasSeen chain) pending fills.

Definition DetectPendingSettlements (hasSeen : bool) : IO (list PendingSettlement) :=
  entries ← range (map_to_list (Chains (config cfg)));
  fold_m (detect_chain hasSeen) [] (GetAllChainConfigsOfType entries ChainType_COSMOS).

(** ** Creating settlements *)

Definition create_settlement (settlement : PendingSettlement) : IO unit :=
  sourceChainConfig ← wrap_err "getting source chain config: "
    (lift_result (GetChainConfig cfg (ps_SourceChainID settlement)));
  r ← attempt (db_exec (InsertOrderSettlement (ps_SourceChainID settlement)
        (ps_DestinationChainID settlement) (FastTransferContractAddress sourceChainConfig)
        (bigint_String (ps_Amount settlement)) (bigint_String (ps_Profit settlement))
        (ps_OrderID settlement) SettlementStatusPending));
  match r with
  | inl err =>
      if errors_is err SqlErrNoRows then update_mem (mark_seen (ps_OrderID settlement))
      else throw (ErrWrap "failed to insert settlement: " err)
  | inr _ => update_mem (mark_seen (ps_OrderID settlement))
  end.

Definition createPendingSettlements : IO unit :=
  pendingSettlements ← wrap_err "detecting pending settlements: "
    (DetectPendingSettlements true);
  for_each pendingSettlements create_settlement.

(** ** Initiating settlements *)

Definition PendingSettlementBatches : IO (list SettlementBatch) :=
  pendingSettlements ← wrap_err "getting orders pending settlement: "
    (db_exec (GetAllOrderSettlementsWithSettlementStatus SettlementStatusPending));
  IntoSettlementBatchesByChains
    (List.filter (λ s, negb (is_some (os_InitiateSettlementTx s))) pendingSettlements).

(** The transaction that records an initiated batch. *)
Definition record_batch (txHash rawTx : string) (batch : SettlementBatch) : IO unit :=
  _ ← for_each batch (λ settlement,
        _ ← wrap_err ("setting initiate settlement tx for settlement from source chain "
                      +:+ os_SourceChainID settlement +:+ " with order id "
                      +:+ os_OrderID settlement +:+ ": ")
              (db_exec (SetInitiateSettlementTx (Some txHash) (os_SourceChainID settlement)
                          (os_OrderID settlement)
                          (os_SourceChainGatewayContractAddress settlement)));
        mret tt);
  first ← lift_result (batch_head batch);
  chain ← lift_result (batch_DestinationChainID batch);
  _ ← wrap_err ("inserting raw tx for settlement with hash " +:+ txHash +:+ ": ")
        (db_exec (InsertSubmittedTx (mkInsertSubmittedTxParams None (Some (os_ID first)) None None
                    chain txHash rawTx TxTypeSettlement TxStatusPending)));
  mret tt.

Definition SettleBatch (batch : SettlementBatch) : IO string :=
  chain ← lift_result (batch_DestinationChainID batch);
  _ ← wrap_err "getting destination bridge client: " (ask (GetClient chain));
  r ← wrap_err ("initiating batch settlement on chain " +:+ chain +:+ ": ")
        (ask (InitiateBatchSettlement chain batch));
  let '(txHash, rawTx) := r : string * string in
  if (rawTx =? "")%string then throw (ErrNew "empty batch settlement transaction") else
  _ ← wrap_err "recording batch settlement result: " (InTx (record_batch txHash rawTx batch));
  mret txHash.

(** The goroutine of one batch: the hashes so far and the first error. *)
Definition settle_task (st : list string * option error) (task : nat * SettlementBatch) :
    IO (list string * option error) :=
  let '(hashes, firstErr) := st in
  let '(i, batch) := task in
  source ← lift_result (batch_SourceChainID batch);
  dest ← lift_result (batch_DestinationChainID batch);
  r ← attempt (wrap_err ("settling batch from source chain " +:+ source
                         +:+ " to destination chain " +:+ dest +:+ ": ") (SettleBatch batch));
  match r with
  | inr hash => mret (<[i := hash]> hashes, firstErr)
  | inl err => mret (hashes, match firstErr with Some e => Some e | None => Some err end)
  end.

Definition SettleBatches (batches : list SettlementBatch) : IO (list string) :=
  tasks ← range (imap pair batches);
  r ← fold_m settle_task (replicate (length batches) ""%string, None) tasks;
  match r with
  | (_, Some err) => throw err
  | (hashes, None) => mret hashes
  end.

Definition settleOrders : IO unit :=
  batches ← wrap_err "getting orders to settle: " PendingSettlementBatches;
  toSettle ← fold_m (λ toSettle batch,
      source ← lift_result (batch_SourceChainID batch);
      dest ← lift_result (batch_DestinationChainID batch);
      shouldSettle ← wrap_err ("checking if order settlement should be initiated for batch from source chain "
                               +:+ source +:+ " to destination chain " +:+ dest +:+ ": ")
                       (lift_result (ShouldInitiateSettlement cfg batch));
      mret (if shouldSettle : bool then toSettle ++ [batch] else toSettle)) [] batches;
  if (length toSettle =? 0)%nat then mret tt else
  _ ← wrap_err "initiating order settlements: " (SettleBatches toSettle);
  mret tt.

(** ** Relaying settlements *)

(** The [err] of the loop is a new variable, so the final error wraps nil. *)
Definition relaySettlement (txHash initiationChainID payoutChainID : string) (maxTxFeeUUSDC : Z) :
    IO Z :=
  r ← retry 5 (relay_SubmitTxToRelay txHash initiationChainID (Some maxTxFeeUUSDC));
  match r with
  | Some ID => mret ID
  | None => throw (ErrNew ("submitting settlement tx hash " +:+ txHash
                           +:+ " to be relayed from chain " +:+ initiationChainID +:+ " to chain "
                           +:+ payoutChainID +:+ ": " +:+ nil_error_text))
  end.

Definition relayBatch (txHash : string) (batch : SettlementBatch) : IO Z :=
  initiationChainID ← lift_result (batch_DestinationChainID batch);
  payoutChainID ← lift_result (batch_SourceChainID batch);
  maxTxFeeUUSDC ← wrap_err ("calculating max batch (hash: " +:+ txHash +:+ ") tx fee in uusdc: ")
    (lift_result (maxBatchTxFeeUUSDC cfg batch));
  relaySettlement txHash initiationChainID payoutChainID maxTxFeeUUSDC.

Definition submit_batch_for_relay (batch : SettlementBatch) : IO unit :=
  first ← lift_result (batch_head batch);
  let hash := default ""%string (os_InitiateSettlementTx first) in
  r ← attempt (relayBatch hash batch);
  match r with
  | inl _ => mret tt
  | inr ID =>
      for_each batch (λ settlement,
        _ ← db_exec (SetHyperlaneTransferID (Some ID) (os_SourceChainID settlement)
                       (os_OrderID settlement) (os_SourceChainGatewayContractAddress settlement));
        mret tt)
  end.

Definition submitInitiatedSettlementsForRelay : IO unit :=
  initiatedSettlements ← wrap_err "getting initiated order settlements: "
    (db_exec (GetAllOrderSettlementsWithSettlementStatus SettlementStatusSettlementInitiated));
  batches ← IntoSettlementBatchesByHash initiatedSettlements;
  for_each batches submit_batch_for_relay.

(** ** Cancelling relays *)

(** Of the pending and the initiated settlements: per destination chain, the ones
    with a relay under way, and the ones not initiated yet. *)
Definition relaying_by_chain (pending initiated : list OrderSettlement) :
    gmap string (list OrderSettlement) :=
  group (λ s, if is_some (os_HyperlaneTransferID s) then Some (os_DestinationChainID s) else None)
    (List.filter (λ s, is_some (os_InitiateSettlementTx s)) pending ++ initiated).
Definition uninitiated_by_chain (pending : list OrderSettlement) :
    gmap string (list OrderSettlement) :=
  group (λ s, if is_some (os_InitiateSettlementTx s) then None else Some (os_DestinationChainID s))
    pending.

Definition cancel_settlement (settlement : OrderSettlement) : IO unit :=
  chainCfg ← wrap_err ("getting chain config for settlement destination chain "
                       +:+ os_DestinationChainID settlement +:+ ": ")
    (lift_result (GetChainConfig cfg (os_SourceChainID settlement)));
  if negb (0 <? SettlementRebatchTimeout chainCfg) then mret tt else
  age ← time_Since (default zero_time (os_InitiateSettlementTxTime settlement));
  if negb (SettlementRebatchTimeout chainCfg <? age) then mret tt else
  let tx := default ""%string (os_InitiateSettlementTx settlement) in
  ok ← wrap_err ("failed to cancel relay for settlement tx " +:+ tx +:+ " on chain "
                 +:+ os_DestinationChainID settlement +:+ ": ")
    (relay_CancelRelay (os_DestinationChainID settlement) tx);
  if ok : bool then
    _ ← db_exec (ClearInitiateSettlement SettlementStatusPending
                   (os_DestinationChainID settlement) (os_InitiateSettlementTx settlement));
    mret tt
  else mret tt.

Definition cancelSettlementRelays : IO unit :=
  pendingSettlements ← wrap_err "getting orders pending settlement: "
    (db_exec (GetAllOrderSettlementsWithSettlementStatus SettlementStatusPending));
  initiatedSettlements ← wrap_err "getting orders pending settlement: "
    (db_exec (GetAllOrderSettlementsWithSettlementStatus SettlementStatusSettlementInitiated));
  let uninitiated := uninitiated_by_chain pendingSettlements in
  entries ← range (map_to_list (relaying_by_chain pendingSettlements initiatedSettlements));
  let settlementsToCancel :=
    concat (List.filter (λ e, is_some (uninitiated !! e.1)) entries).*2 in
  for_each settlementsToCancel cancel_settlement.

(** ** Verifying settlements *)

Definition set_status (settlement : OrderSettlement) (status : string) (msg : option string) :
    IO OrderSettlement :=
  db_exec (SetSettlementStatus status msg (os_SourceChainID settlement) (os_OrderID settlement)
             (os_SourceChainGatewayContractAddress settlement)).

(** The check of the initiation transaction of a pending settlement. *)
Definition verify_initiation (settlement : OrderSettlement) (txHash : string) : IO unit :=
  r ← attempt (ask (GetTxResult (os_DestinationChainID settlement) txHash));
  match r with
  | inl err =>
      let msg := error_msg err in
      if strings_Contains msg "tx" && strings_Contains msg "not found"
         && strings_Contains msg txHash
      then throw (ErrNew "transaction not yet indexed. will retry fetching next interval")
      else throw (ErrWrap "failed to fetch message received event: " err)
  | inr (gasCost, Some failure) =>
      _ ← wrap_err "failed to set relay status to failed: "
        (set_status settlement SettlementStatusFailed (Some (TxFailure_String failure)));
      match gasCost with
      | None => throw (ErrNew "gas cost is nil")
      | Some _ => throw (ErrNew ("failed to fetch message received event: "
                                 +:+ TxFailure_String failure))
      end
  | inr (_, None) =>
      _ ← wrap_err "failed to set relay status to complete: "
        (set_status settlement SettlementStatusSettlementInitiated None);
      mret tt
  end.

(** The check on the source chain. *)
Definition verify_completion (settlement : OrderSettlement) : IO unit :=
  complete ← wrap_err "failed to check if settlement is complete: "
    (ask (IsSettlementComplete (os_SourceChainID settlement)
            (os_SourceChainGatewayContractAddress settlement) (os_OrderID settlement)));
  if complete : bool then
    _ ← wrap_err "failed to set relay status to complete: "
      (set_status settlement SettlementStatusComplete None);
    mret tt
  else throw (ErrNew "settlement is not complete").

Definition verifyOrderSettlement (settlement : OrderSettlement) : IO unit :=
  _ ← wrap_err "failed to get client: " (ask (GetClient (os_SourceChainID settlement)));
  _ ← wrap_err "failed to get client: " (ask (GetClient (os_DestinationChainID settlement)));
  match os_InitiateSettlementTx settlement with
  | None => throw (ErrNew "message received txHash is null")
  | Some txHash =>
      _ ← (if bool_decide (os_SettlementStatus settlement = SettlementStatusPending)
           then verify_initiation settlement txHash else mret tt);
      verify_completion settlement
  end.

Definition IncompleteSettlements : IO (list OrderSettlement) :=
  pendingSettlements ← wrap_err "getting pending settlements: "
    (db_exec (GetAllOrderSettlementsWithSettlementStatus SettlementStatusPending));
  initiatedSettlements ← wrap_err "getting initiated settlements: "
    (db_exec (GetAllOrderSettlementsWithSettlementStatus SettlementStatusSettlementInitiated));
  mret (pendingSettlements ++ initiatedSettlements).

Definition verifyOrderSettlements : IO unit :=
  incompleteSettlements ← wrap_err "getting incomplete settlements: " IncompleteSettlements;
  for_each incompleteSettlements (λ settlement,
    if is_some (os_InitiateSettlementTx settlement) then
      _ ← attempt (verifyOrderSettlement settlement); mret tt
    else mret tt).

(** One iteration of [Run]. *)
Definition settler_tick : IO unit :=
  _ ← attempt submitInitiatedSettlementsForRelay;
  r ← attempt createPendingSettlements;
  match r with
  | inl _ => mret tt
  | inr _ =>
      _ ← attempt cancelSettlementRelays;
      _ ← attempt settleOrders;
      _ ← attempt verifyOrderSettlements;
      mret tt
  end.
End settler.

(** ** Lemmas: the profit margin *)

Lemma NewFloat_10000 : bf_num (bf_NewFloat 10000) = 10000 * 2 ^ 39 ∧ bf_den (bf_NewFloat 10000) = 2 ^ 39.
Proof. split; vm_compute; reflexivity. Qed.

Lemma value_margin_approx bps v :
  0 ≤ bps → 0 ≤ v →
  approx 5 (bf_Mul 53 (bf_Quo 53 (bf_NewFloat bps) (bf_NewFloat 10000)) (bf_SetInt v))
    (bps * v) 10000.
Proof.
  intros Hb Hv. destruct NewFloat_10000 as [Hn Hd].
  pose proof (approx_round bps 1 ltac:(lia) ltac:(lia)) as H0. fold (bf_NewFloat bps) in H0.
  pose proof (approx_step 1 _ bps 1 (2 ^ 39) (10000 * 2 ^ 39) ltac:(lia) ltac:(lia) ltac:(lia)
                ltac:(lia) ltac:(lia) H0) as H1.
  unfold bf_Quo. rewrite Hn, Hd.
  replace (Z.sgn (10000 * 2 ^ 39) * bf_num (bf_NewFloat bps) * 2 ^ 39)
    with (bf_num (bf_NewFloat bps) * 2 ^ 39) by (change (Z.sgn _) with 1; lia).
  replace (Z.abs (10000 * 2 ^ 39)) with (10000 * 2 ^ 39) by lia.
  rewrite (Z.mul_assoc 1) in H1. apply approx_scale in H1; [|lia].
  set (x := bf_round 53 _ _) in *. clearbody x.
  pose proof (approx_step 3 x bps 10000 v 1 ltac:(lia) ltac:(lia) ltac:(lia) ltac:(lia)
                ltac:(lia) H1) as H2.
  unfold bf_Mul. change (bf_num (bf_SetInt v)) with (v * 1).
  change (bf_den (bf_SetInt v)) with 1. rewrite (Z.mul_1_r v). exact H2.
Qed.

(** The margin in floating point is the integer margin, or one less when the
    exact margin is a whole number. *)
Lemma value_margin_floor bps v :
  0 ≤ bps → 0 ≤ v → bps * v < 10000 * 2 ^ 37 →
  bps * v / 10000 - 1 ≤ value_margin bps v ≤ bps * v / 10000 ∧
  ((bps * v) mod 10000 ≠ 0 → value_margin bps v = bps * v / 10000).
Proof.
  intros Hb Hv Hlt. pose proof (value_margin_approx bps v Hb Hv) as Ha.
  unfold value_margin. set (y := bf_Mul _ _ _) in *. clearbody y.
  assert (0 ≤ bps * v) as Hn by nia.
  destruct (approx_bounds 5 y (bps * v) 10000) as [Hy _]; [lia..|done|].
  unfold approx in Ha. set (n := bps * v) in *. clearbody n. clear bps v Hb Hv.
  pose proof (bf_den_pos y) as Hd. unfold bf_Int. rewrite Z.quot_div_nonneg by lia.
  assert (Z.abs (bf_num y * 10000 - n * bf_den y) < bf_den y) as Hclose by nia.
  pose proof (Z.div_mod (bf_num y) (bf_den y) ltac:(lia)) as Hdm.
  pose proof (Z.mod_pos_bound (bf_num y) (bf_den y) Hd) as Hmod.
  set (m := bf_num y / bf_den y) in *. set (r := bf_num y mod bf_den y) in *.
  clearbody m r. rewrite Hdm in Hclose. clear Hdm Ha.
  assert (10000 * m ≤ n) by nia. assert (n ≤ 10000 * (m + 1)) by nia.
  pose proof (Z.div_mod n 10000 ltac:(lia)). pose proof (Z.mod_pos_bound n 10000 ltac:(lia)).
  split; [lia|]. intros. lia.
Qed.

(** ** Lemmas: frames *)

Section frames.
Context {E : Type} `{Env E, !RelayService E, !RelayServiceLaws E}.
Context (cfg : configReader).
Implicit Types w : World E.

Lemma detect_frame hasSeen (R : World E → World E → Prop) `{!PreOrder R} :
  (∀ r, sends_tx r = false → frame R (ask r)) → (∀ f, frame R (update_mem f)) →
  (∀ A (l : list A), frame R (range l)) → frame R get_mem →
  frame R (DetectPendingSettlements cfg hasSeen).
Proof.
  intros Hask Hmem Hrange Hget.
  unfold DetectPendingSettlements, detect_chain, detect_fill, mark_and_skip. solve_io.
  all: try (by apply Hask); auto.
Qed.

Lemma detect_db hasSeen R `{!PreOrder R} :
  frame (db_rel (E := E) R) (DetectPendingSettlements cfg hasSeen).
Proof.
  apply detect_frame; [apply _|..]; intros.
  - exact (db_rel_ask R r).
  - apply db_rel_update_mem, _.
  - apply db_rel_range, _.
  - apply db_rel_get_mem, _.
Qed.

(** All operations of the settler unfold to calls, queries and relay requests. *)
Local Ltac settler_io :=
  unfold settler_tick, submitInitiatedSettlementsForRelay, submit_batch_for_relay, relayBatch,
    relaySettlement, createPendingSettlements, create_settlement, cancelSettlementRelays,
    cancel_settlement, settleOrders, PendingSettlementBatches, SettleBatches, settle_task,
    SettleBatch, record_batch, verifyOrderSettlements, IncompleteSettlements,
    verifyOrderSettlement, verify_initiation, verify_completion, set_status, IntoSettlementBatchesByHash,
    IntoSettlementBatchesByChains, time_Since; solve_io.

Lemma settler_tick_db_ok : frame (db_rel (E := E) db_ok_step) (settler_tick cfg).
Proof. settler_io. apply detect_db, _. Qed.

(** The settler only writes settlements, submitted transactions and (through the
    relayer) transfers. *)
Definition settler_tables (d d' : Database) : Prop :=
  orders d' = orders d ∧ rebalance_transfers d' = rebalance_transfers d ∧
  transfer_monitor_metadata d' = transfer_monitor_metadata d.

#[export] Instance settler_tables_preorder : PreOrder settler_tables.
Proof.
  split; [by intros d|]. unfold settler_tables. intros d1 d2 d3 (?&?&?) (?&?&?).
  split_and!; congruence.
Qed.

Lemma db_rel_weaken (R R' : Database → Database → Prop) {A} (m : M (World E) A) :
  (∀ d d', R d d' → R' d d') → frame (db_rel R) m → frame (db_rel R') m.
Proof. intros HR Hm w. apply HR, Hm. Qed.

Lemma only_transfers_settler d d' : only_transfers d d' → settler_tables d d'.
Proof. by intros (?&?&?&?&?). Qed.

Lemma settler_tick_tables : frame (db_rel (E := E) settler_tables) (settler_tick cfg).
Proof.
  settler_io.
  all: first
    [ apply detect_db, _
    | apply (db_rel_weaken only_transfers); [apply only_transfers_settler|solve [auto with frame]]
    | apply db_rel_exec; [apply _|]; intros c d;
      first [ done
            | unfold InsertOrderSettlement; by destruct (insert_or_nothing _ _ _)
            | unfold InsertSubmittedTx; by destruct (existsb _ _) ] ].
Qed.
End frames.

(** ** Lemmas: recording a batch *)

(** The row after its initiation transaction was recorded: only the transaction,
    its time and the update time differ. *)
Definition initiated (txHash : string) (r r' : OrderSettlement) : Prop :=
  ∃ now, r' = settlement_set now (Some txHash) (os_CompleteSettlementTx r)
                (os_SettlementStatus r) (os_SettlementStatusMessage r) (os_HyperlaneTransferID r)
                (Some now) r.

Definition in_batch (batch : SettlementBatch) (r : OrderSettlement) : Prop :=
  settlement_key r ∈ settlement_key <$> batch.
#[export] Instance in_batch_dec batch r : Decision (in_batch batch r).
Proof. unfold in_batch. apply _. Defined.

(** The settlements after the rows of [batch] were initiated by [txHash]. *)
Definition batch_rows (txHash : string) (batch : SettlementBatch)
    (t t' : list OrderSettlement) : Prop :=
  Forall2 (λ r r', if bool_decide (in_batch batch r) then initiated txHash r r' else r' = r) t t'.

Lemma batch_rows_nil txHash t : batch_rows txHash [] t t.
Proof.
  apply Forall_Forall2_diag, Forall_forall. intros r _. rewrite bool_decide_eq_false_2; [done|].
  unfold in_batch. by intros ?%not_elem_of_nil.
Qed.

Lemma batch_rows_snoc txHash pre s c t t' :
  batch_rows txHash pre t t' →
  batch_rows txHash (pre ++ [s]) t
    (update_rows (settlement_at (os_SourceChainID s) (os_OrderID s)
                    (os_SourceChainGatewayContractAddress s))
       (λ x, settlement_set (stmt_ts c) (Some txHash) (os_CompleteSettlementTx x)
               (os_SettlementStatus x) (os_SettlementStatusMessage x) (os_HyperlaneTransferID x)
               (Some (stmt_ts c)) x) t').
Proof.
  intros Ht. unfold update_rows, batch_rows. apply Forall2_fmap_r.
  eapply Forall2_impl; [exact Ht|]. intros r r' Hr. cbn beta in Hr |- *.
  assert (settlement_key r' = settlement_key r) as Hkey
    by (destruct (bool_decide (in_batch pre r)); [destruct Hr as [? ->]|subst]; done).
  assert (in_batch (pre ++ [s]) r ↔ in_batch pre r ∨ settlement_key r = settlement_key s) as Hin
    by (unfold in_batch; rewrite fmap_app, elem_of_app; simpl; by rewrite list_elem_of_singleton).
  unfold compose, settlement_at. rewrite Hkey.
  destruct (decide (settlement_key r = settlement_key s)) as [Heq|Hne].
  - rewrite (bool_decide_eq_true_2 (settlement_key r = _)) by (rewrite Heq; done).
    rewrite (bool_decide_eq_true_2 (in_batch (pre ++ [s]) r)) by (by apply Hin; right).
    exists (stmt_ts c).
    destruct (bool_decide (in_batch pre r)); [destruct Hr as [? ->]|subst]; done.
  - rewrite (bool_decide_eq_false_2 (settlement_key r = _)) by done.
    rewrite (bool_decide_ext _ (in_batch pre r)); [done|].
    rewrite Hin. split; [by intros [?|?]|by left].
Qed.

(** The database after an initiated batch was recorded. *)
Definition batch_recorded (txHash rawTx : string) (batch : SettlementBatch) (d d' : Database) :
    Prop :=
  batch_rows txHash batch (order_settlements d) (order_settlements d') ∧
  (∃ first tx, head batch = Some first ∧ submitted_txs d' = submitted_txs d ++ [tx] ∧
     st_OrderSettlementID tx = Some (os_ID first) ∧
     st_ChainID tx = os_DestinationChainID first ∧ st_TxHash tx = txHash ∧
     st_RawTx tx = rawTx ∧ st_TxType tx = TxTypeSettlement ∧ st_TxStatus tx = TxStatusPending) ∧
  orders d' = orders d ∧ hyperlane_transfers d' = hyperlane_transfers d ∧
  rebalance_transfers d' = rebalance_transfers d ∧
  transfer_monitor_metadata d' = transfer_monitor_metadata d.

Section batch.
Context {E : Type} `{Env E}.
Implicit Types w : World E.

Lemma wp_record_batch txHash rawTx batch w :
  wp (record_batch txHash rawTx batch)
    (λ r w', match r with
             | Ok _ => batch_recorded txHash rawTx batch (w_db w) (w_db w')
             | _ => True
             end ∧ emits (λ r, r = DbStmt) w w') w.
Proof.
  unfold record_batch. apply wp_bind.
  set (I := λ pre w1, emits (E := E) (λ r, r = DbStmt) w w1 ∧
    batch_rows txHash pre (order_settlements (w_db w)) (order_settlements (w_db w1)) ∧
    submitted_txs (w_db w1) = submitted_txs (w_db w) ∧ orders (w_db w1) = orders (w_db w) ∧
    hyperlane_transfers (w_db w1) = hyperlane_transfers (w_db w) ∧
    rebalance_transfers (w_db w1) = rebalance_transfers (w_db w) ∧
    transfer_monitor_metadata (w_db w1) = transfer_monitor_metadata (w_db w)).
  apply (wp_for_each I).
  - unfold I. split_and!; try done. apply batch_rows_nil.
  - intros pre s post w1 _ (Hem&Hrows&?&?&?&?&?).
    apply wp_bind, wp_wrap_err, wp_db_exec.
    { intros err e. split; [done|]. by apply emits_after. }
    intros c e. destruct (SetInitiateSettlementTx _ _ _ _ c _).1 as [r|err|p].
    + apply wp_ret. unfold I. simpl. split_and!; try done.
      * by apply emits_stmt.
      * by apply batch_rows_snoc.
    + split; [done|]. by apply emits_stmt.
    + split; [done|]. by apply emits_stmt.
  - intros w1 (Hem&Hrows&Hst&?&?&?&?). apply wp_bind.
    destruct batch as [|first batch]; [by split|]. apply wp_bind, wp_bind, wp_wrap_err, wp_db_exec.
    { intros err e. split; [done|]. by apply emits_after. }
    intros c e. unfold InsertSubmittedTx. destruct (existsb _ _); cbn [fst snd].
    { split; [done|]. by apply emits_stmt. }
    apply wp_ret. split; [|by apply emits_stmt].
    unfold batch_recorded. simpl. split_and!; try done.
    exists first. eexists. split_and!; [done|by rewrite Hst|reflexivity..].
Qed.

Lemma SettleBatch_run batch w r w' :
  SettleBatch batch w = (r, w') →
  match r with
  | Ok txHash => ∃ chain rawTx,
      batch_DestinationChainID batch = Ok chain ∧
      existT (InitiateBatchSettlement chain batch) (inr (txHash, rawTx)) ∈ w_trace w' ∧
      rawTx ≠ ""%string ∧ batch_recorded txHash rawTx batch (w_db w) (w_db w')
  | _ => w_db w' = w_db w
  end.
Proof.
  intros Hrun. apply (wp_run _ (λ r w', match r with
    | Ok txHash => ∃ chain rawTx,
        batch_DestinationChainID batch = Ok chain ∧
        existT (InitiateBatchSettlement chain batch) (inr (txHash, rawTx)) ∈ w_trace w' ∧
        rawTx ≠ ""%string ∧ batch_recorded txHash rawTx batch (w_db w) (w_db w')
    | _ => w_db w' = w_db w
    end) _ _ _ Hrun).
  clear Hrun r w'. unfold SettleBatch. wp_steps; try done.
  apply wp_InTx; [by intros|]. intros a0 e1. cbv zeta.
  eapply wp_mono; [|apply wp_record_batch]. intros r' w' [Hrec (new&Ht&_)].
  destruct r' as [[]|err|p]; [|done|done]. intros a1 e2. apply wp_ret.
  eexists _, _. split_and!; [done| |by apply String.eqb_neq|exact Hrec].
  simpl. rewrite Ht. simpl. set_solver.
Qed.

(** The requests of a run that settles [batch]: at most one initiates a settlement, of
    this batch on its destination chain, and the hash returned is the answer to it. *)
Definition sends_batch (batch : SettlementBatch) (r : result string) w w' : Prop :=
  emits read_only w w' ∧ (∀ h, r ≠ Ok h) ∨
  ∃ pre chain a post,
    w_trace w' = w_trace w ++ pre ++ existT (InitiateBatchSettlement chain batch) a :: post ∧
    Forall (λ ev : event, read_only (projT1 ev)) (pre ++ post) ∧
    batch_DestinationChainID batch = Ok chain ∧
    ∀ h, r = Ok h → ∃ raw, a = inr (h, raw).

Lemma sends_batch_intro batch r w pre chain a w2 w' :
  w_trace w2 = w_trace w ++ pre ++ [existT (InitiateBatchSettlement chain batch) a] →
  Forall (λ ev : event, read_only (projT1 ev)) pre → emits read_only w2 w' →
  batch_DestinationChainID batch = Ok chain → (∀ h, r = Ok h → ∃ raw, a = inr (h, raw)) →
  sends_batch batch r w w'.
Proof.
  intros Ht2 Hpre (post&Ht&Hpost) Hchain Hr. right. exists pre, chain, a, post. split_and!; [|by apply Forall_app|done..].
  by rewrite Ht, Ht2, <-!(assoc_L app).
Qed.

Lemma record_reads txHash rawTx batch :
  frame (emits (E := E) read_only) (InTx (record_batch txHash rawTx batch)).
Proof. unfold record_batch. by solve_io. Qed.

Lemma wp_SettleBatch_sends batch w :
  wp (SettleBatch batch) (λ r w', sends_batch batch r w w') w.
Proof.
  unfold SettleBatch. apply wp_bind. wp_step.
  destruct (batch_DestinationChainID batch) as [chain|e|p] eqn:Hchain; [|by left; split..].
  apply wp_bind, wp_wrap_err. refine (wp_ask (GetClient chain) _ w _). intros a1 e1 _.
  assert (emits (E := E) read_only w (after (GetClient chain) a1 e1 w)) as Hq1
    by (eexists; split; [reflexivity|by constructor]).
  destruct a1 as [e|[]]; [by left; split|].
  apply wp_bind, wp_wrap_err. refine (wp_ask (InitiateBatchSettlement chain batch) _ _ _).
  intros a2 e2 _.
  assert (∀ r w3, emits read_only (after (InitiateBatchSettlement chain batch) a2 e2
      (after (GetClient chain) (inr ()) e1 w)) w3 →
    (∀ h, r = Ok h → ∃ raw, a2 = inr (h, raw)) → sends_batch batch r w w3) as Hend.
  { intros r w3 Hq Hr. eapply (sends_batch_intro _ _ _ [existT (GetClient chain) (inr ())]);
      [|by constructor|exact Hq|done|done].
    simpl. by rewrite <-(assoc_L app). }
  destruct a2 as [e|[txHash rawTx]]; [by apply Hend|].
  destruct (rawTx =? "")%string; [by apply wp_throw, Hend|].
  apply wp_bind, wp_wrap_err, wp_intro. intros r3 w3 Hrun.
  pose proof (f_equal snd Hrun) as Hw3. simpl in Hw3. subst w3.
  destruct r3 as [[]|e|p]; [apply wp_ret|..]; (apply Hend; [apply record_reads|]); try done.
  intros h [= <-]. by exists rawTx.
Qed.
End batch.

(** ** Properties *)

(** C3. Initiating a batch is all or nothing: when [SettleBatch] returns a hash, the
    destination chain of the batch accepted exactly this batch under that hash,
    every settlement of the batch (and no other row) is marked as initiated by
    it, and one pending settlement transaction is recorded; when it fails in any
    way, the database is what it was. *)
Theorem SettleBatch_atomic {E} `{Env E} (batch : SettlementBatch) (w : World E) r w' :
  SettleBatch batch w = (r, w') →
  match r with
  | Ok txHash => ∃ chain rawTx,
      batch_DestinationChainID batch = Ok chain ∧
      existT (InitiateBatchSettlement chain batch) (inr (txHash, rawTx)) ∈ w_trace w' ∧
      rawTx ≠ ""%string ∧ batch_recorded txHash rawTx batch (w_db w) (w_db w')
  | _ => w_db w' = w_db w
  end.
Proof. apply SettleBatch_run. Qed.

(** C33. The cap on the fee of a settlement's relay keeps the configured margin: for
    margins and batch values in the range below (up to 137 thousand USDC of
    margin), the cap the code computes in floating point is the batch's profit
    minus the integer margin, except that it may be one uusdc higher when the
    exact margin is a whole number. *)
Theorem maxBatchTxFeeUUSDC_margin cfg batch fee :
  maxBatchTxFeeUUSDC cfg batch = Ok fee →
  ∃ profit value chain c,
    TotalProfit batch = Ok profit ∧ TotalValue batch = Ok value ∧
    batch_SourceChainID batch = Ok chain ∧ GetChainConfig cfg chain = Ok c ∧
    let scaled := MinProfitMarginBPS c * value in
    (0 ≤ MinProfitMarginBPS c → 0 ≤ value → scaled < 10000 * 2 ^ 37 →
     profit - scaled / 10000 ≤ fee ≤ profit - scaled / 10000 + 1 ∧
     (scaled mod 10000 ≠ 0 → fee = profit - scaled / 10000)).
Proof.
  unfold maxBatchTxFeeUUSDC. intros Hfee.
  apply result_bind_ok in Hfee as (profit&Hp%result_wrap_ok&Hfee).
  apply result_bind_ok in Hfee as (value&Hv%result_wrap_ok&Hfee).
  apply result_bind_ok in Hfee as (chain&Hchain&Hfee).
  apply result_bind_ok in Hfee as (c&Hc%result_wrap_ok&[= <-]).
  exists profit, value, chain, c. split_and!; [done..|]. cbv zeta. intros Hb H0 Hlt.
  destruct (value_margin_floor _ _ Hb H0 Hlt) as [? Heq].
  split; [lia|]. intros Hm. by rewrite Heq.
Qed.

(** ** Settling only what is due *)

(** A batch that may be settled on [chain]: uninitiated pending rows of the
    database with one source and with destination [chain], whose value reaches
    the threshold of the source chain. *)
Definition batch_due (cfg : configReader) (d : Database) (chain : string)
    (batch : SettlementBatch) : Prop :=
  batch ≠ [] ∧
  (∃ source c threshold value,
     GetChainConfig cfg source = Ok c ∧
     bigint_SetString (BatchUUSDCSettleUpThreshold c) = Some threshold ∧
     TotalValue batch = Ok value ∧ threshold ≤ value ∧
     ∀ s, s ∈ batch → s ∈ order_settlements d ∧ os_SettlementStatus s = SettlementStatusPending ∧
       os_InitiateSettlementTx s = None ∧ os_SourceChainID s = source ∧
       os_DestinationChainID s = chain).

Definition settles_due (cfg : configReader) (d : Database) (r : request) : Prop :=
  match r with
  | InitiateBatchSettlement chain batch => batch_due cfg d chain batch
  | _ => sends_tx r = false
  end.

Lemma ShouldInitiateSettlement_true cfg batch :
  ShouldInitiateSettlement cfg batch = Ok true →
  ∃ source c threshold value,
    batch_SourceChainID batch = Ok source ∧ GetChainConfig cfg source = Ok c ∧
    bigint_SetString (BatchUUSDCSettleUpThreshold c) = Some threshold ∧
    TotalValue batch = Ok value ∧ threshold ≤ value.
Proof.
  unfold ShouldInitiateSettlement. intros Hs.
  apply result_bind_ok in Hs as (value&Hv%result_wrap_ok&Hs).
  apply result_bind_ok in Hs as (source&Hsrc&Hs).
  apply result_bind_ok in Hs as (c&Hc%result_wrap_ok&Hs).
  destruct (bigint_SetString _) as [threshold|] eqn:Ht; [|done].
  injection Hs as Hle%Z.leb_le. by exists source, c, threshold, value.
Qed.

Section settling.
Context {E : Type} `{Env E}.
Context (cfg : configReader).
Implicit Types w : World E.

Lemma wp_PendingSettlementBatches w (Q : result (list SettlementBatch) → World E → Prop) :
  (∀ r w', w_db w' = w_db w → emits read_only w w' → (∀ bs, r = Ok bs →
     [] ∉ bs ∧ batches_by_chains
       (List.filter (λ s, negb (is_some (os_InitiateSettlementTx s)))
          (List.filter (λ s, bool_decide (os_SettlementStatus s = SettlementStatusPending))
             (order_settlements (w_db w)))) bs) → Q r w') →
  wp PendingSettlementBatches Q w.
Proof.
  intros HQ. unfold PendingSettlementBatches, IntoSettlementBatchesByChains.
  apply wp_bind, wp_wrap_err, wp_db_exec.
  { intros err e. apply HQ; [done|by apply emits_after|done]. }
  intros c e. cbn [fst snd GetAllOrderSettlementsWithSettlementStatus].
  apply wp_range. intros l' a e' Hl'. apply HQ; [done| |].
  - apply (emits_after _ _ _ MapOrder a e'); [|done]. by apply emits_stmt.
  - intros bs [= <-]. by apply group_batches_by_chains in Hl' as [? ?].
Qed.

Lemma emits_SettleBatch d chain batch :
  batch_DestinationChainID batch = Ok chain → batch_due cfg d chain batch →
  frame (emits (E := E) (settles_due cfg d)) (SettleBatch batch).
Proof.
  intros Hchain Hdue. unfold SettleBatch, record_batch. rewrite Hchain, bind_lift_ok.
  by solve_io.
Qed.

Lemma emits_SettleBatches d batches :
  (∀ b chain, b ∈ batches → batch_DestinationChainID b = Ok chain → batch_due cfg d chain b) →
  frame (emits (E := E) (settles_due cfg d)) (SettleBatches batches).
Proof.
  intros Hdue w. change (wp (SettleBatches batches) (λ _ w', emits (settles_due cfg d) w w') w).
  unfold SettleBatches. apply wp_bind, wp_range. intros tasks a e Htasks.
  assert (emits (settles_due cfg d) w (after MapOrder a e w)) as Hem by (by apply emits_after).
  apply wp_bind. apply (wp_conseq (emits (settles_due cfg d))).
  { apply frame_fold_m_elem; [apply _|]. intros [hashes err] [i b] Hb.
    rewrite Htasks in Hb. apply elem_of_lookup_imap in Hb as (j&b'&[= -> ->]&Hb').
    apply list_elem_of_lookup_2 in Hb'. unfold settle_task.
    apply frame_bind; [apply _|solve_io|]. intros source.
    destruct (batch_DestinationChainID b') as [chain|err'|p] eqn:Hc;
      [rewrite bind_lift_ok|intros w0; reflexivity..].
    solve_io. eapply emits_SettleBatch; eauto. }
  intros r w' _ Hem'. wp_steps; by etransitivity.
Qed.

(** What a tick may settle: [settleOrders] initiates a settlement only for
    nonempty batches of pending, uninitiated settlements of the database, all
    from one source and to the chain it is initiated on, whose total value
    reaches the configured threshold of their source chain. *)
Lemma wp_settleOrders w :
  wp (settleOrders cfg) (λ _ w', emits (settles_due cfg (w_db w)) w w') w.
Proof.
  unfold settleOrders. apply wp_bind, wp_wrap_err, wp_PendingSettlementBatches.
  intros r w1 Hdb Hem Hbs.
  assert (emits (settles_due cfg (w_db w)) w w1) as Hem1.
  { destruct Hem as (new&Ht&Hnew). exists new. split; [done|].
    eapply Forall_impl; [exact Hnew|]. intros [[] ?]; done. }
  clear Hem. destruct r as [bs|err|p]; [|done..]. destruct (Hbs bs eq_refl) as [Hnil [_ Hb]].
  apply wp_bind.
  set (I := λ (pre : list SettlementBatch) (toSettle : list SettlementBatch) (w2 : World E),
    w2 = w1 ∧ ∀ b, b ∈ toSettle → b ∈ bs ∧ ShouldInitiateSettlement cfg b = Ok true).
  apply (wp_fold_m I).
  - split; [done|]. by intros b ?%not_elem_of_nil.
  - intros pre b post toSettle w2 Hl [-> HI]. wp_steps; try done.
    match goal with |- I _ (if ?x then _ else _) _ => destruct x end; [|by split].
    split; [done|]. intros b' [Hin|Hin%list_elem_of_singleton]%elem_of_app; [by apply HI|subst b'].
    split; [|done]. rewrite Hl. set_solver.
  - intros toSettle w2 [-> HI]. destruct (length toSettle =? 0)%nat; [by apply wp_ret|].
    apply wp_bind, wp_wrap_err. apply (wp_conseq (emits (settles_due cfg (w_db w)))).
    { apply emits_SettleBatches. intros b chain Hin Hchain.
      destruct (HI b Hin) as [Hbin (source&c&thr&v&Hsrc&?&?&?&?)%ShouldInitiateSettlement_true].
      split; [by intros ->|]. exists source, c, thr, v. split_and!; try done.
      intros s Hs. destruct (Hb b s Hbin Hs) as (Hbeq&Hsrc'&Hdst').
      rewrite Hbeq in Hs. apply list_elem_of_filter in Hs as [_ Hs].
      apply list_elem_of_In, List.filter_In in Hs as [Hs Hni].
      apply List.filter_In in Hs as [Hs Hp].
      apply bool_decide_eq_true in Hp. apply list_elem_of_In in Hs.
      split_and!; [done|done| |congruence|congruence].
      by destruct (os_InitiateSettlementTx s). }
    intros r w3 _ Hem3. wp_steps; by etransitivity.
Qed.
End settling.

(** C24. What a tick may settle: [settleOrders] initiates settlements only for
    nonempty batches of pending, uninitiated settlements of the database, all
    from one source chain and to the chain it initiates them on, whose total
    value reaches the configured threshold of their source chain; it sends no
    other transaction. *)
Theorem settleOrders_due {E} `{Env E} cfg (w : World E) :
  emits (settles_due cfg (w_db w)) w (settleOrders cfg w).2.
Proof. apply wp_settleOrders. Qed.

(** ** What the detector finds *)

Section detector.
Context {E : Type} `{Env E}.
Context (cfg : configReader).
Implicit Types w : World E.

(** The evidence for a pending settlement in the trace: the order exists on its
    source chain with this amount and is unfilled there, the destination chain
    has a fill event for it, and the profit is what the fill left. *)
Definition detected (seen : gset string) w (p : PendingSettlement) : Prop :=
  ps_OrderID p ∉ seen ∧
  ∃ gateway height fillGateway ev time,
    existT (OrderExists (ps_SourceChainID p) gateway (ps_OrderID p) height)
      (inr (true, Some (ps_Amount p))) ∈ w_trace w ∧
    existT (OrderStatusOnChain (ps_SourceChainID p) gateway (ps_OrderID p))
      (inr GatewayOrderStatusUnfilled) ∈ w_trace w ∧
    existT (QueryOrderFillEvent (ps_DestinationChainID p) fillGateway (ps_OrderID p))
      (inr (Some ev, time)) ∈ w_trace w ∧
    ps_Profit p = ps_Amount p - ofe_FillAmount ev.

(** The world moves on: the trace grows, orders stay seen, the database stays. *)
Definition detect_step w w' : Prop :=
  emits read_only w w' ∧ ordersSeen (w_mem w) ⊆ ordersSeen (w_mem w') ∧ w_db w' = w_db w.

#[export] Instance detect_step_preorder : PreOrder detect_step.
Proof.
  split; [by intros w|]. intros w1 w2 w3 (?&?&?) (?&?&?).
  split_and!; [by etransitivity|set_solver|congruence].
Qed.

Lemma detect_step_after w w1 r a e :
  detect_step w w1 → sends_tx r = false → detect_step w (after r a e w1).
Proof. intros (?&?&?) Hr. split_and!; [by apply emits_after|done..]. Qed.

Lemma detected_step seen w w' p : detect_step w w' → detected seen w p → detected seen w' p.
Proof.
  intros ((new&Ht&_)&_&_) (Hseen&g&h&fg&ev&t&H1&H2&H3&Hp). split; [done|].
  exists g, h, fg, ev, t. rewrite Ht. split_and!; [apply elem_of_app; by left..|done].
Qed.

Local Ltac detect_asks :=
  lazymatch goal with
  | |- detect_step _ (after ?r ?a ?e _) =>
      refine (detect_step_after _ _ r a e _ eq_refl); detect_asks
  | _ => reflexivity
  end.

Lemma mark_seen_step w w1 orderID :
  detect_step w w1 → detect_step w (set_mem (mark_seen orderID (w_mem w1)) w1).
Proof. intros (Hem&Hs&Hdb). split_and!; [exact Hem|simpl; set_solver|done]. Qed.

Context (hasSeen : bool).

(** The orders that are skipped: none under a nil map. *)
Definition seen_orders w : gset string := if hasSeen then ordersSeen (w_mem w) else ∅.

(** One fill: either nothing is added, or the evidence is there. *)
Lemma wp_detect_fill chain pending fill w :
  wp (detect_fill cfg hasSeen chain pending fill)
    (λ r w', detect_step w w' ∧ ∀ ps, r = Ok ps →
       ps = pending ∨ ∃ p, ps = pending ++ [p] ∧ detected (seen_orders w) w' p) w.
Proof.
  unfold detect_fill, mark_and_skip, seen_orders. destruct hasSeen; cbn [andb]; wp_steps.
  all: try (split; [detect_asks|by intros ps [= <-]; left]).
  all: try (split; [detect_asks|by intros ps ?]).
  all: try (split; [apply mark_seen_step; detect_asks|by intros ps [= <-]; left]).
  all: split; [detect_asks|]; intros ps [= <-]; right; eexists; (split; [done|]).
  all: split; [first [by apply not_elem_of_empty|by match goal with Hs : bool_decide _ = false |- _ =>
                        apply bool_decide_eq_false in Hs end]|].
  all: destruct b; [|done].
  all: match goal with Hs : negb (_ =? _) = false |- _ =>
    apply negb_false_iff, Z.eqb_eq in Hs; simpl in Hs; subst end.
  all: simpl; do 5 eexists; split_and!; [trace_elem..|reflexivity].
Qed.

(** Everything found so far is backed by the trace. *)
Definition all_detected w w' (ps : list PendingSettlement) : Prop :=
  detect_step w w' ∧ ∀ p, p ∈ ps → detected (seen_orders w) w' p.

Lemma wp_detect_fill_all chain pending fill w w1 :
  all_detected w w1 pending →
  wp (detect_fill cfg hasSeen chain pending fill)
    (λ r w', detect_step w w' ∧ ∀ ps, r = Ok ps → all_detected w w' ps) w1.
Proof.
  intros [Hstep Hps]. eapply wp_mono; [|apply wp_detect_fill].
  intros r w' [Hw' Hr]. assert (detect_step w w') as Hww' by (by etransitivity).
  split; [done|]. intros ps Hok. split; [done|]. intros p Hp.
  assert (p ∈ pending → detected (seen_orders w) w' p) as Hold
    by (intros; by eapply detected_step, Hps).
  destruct (Hr ps Hok) as [->|(q&->&Hnew&Hq)]; [by apply Hold|].
  apply elem_of_app in Hp as [Hp|Hp%list_elem_of_singleton]; [by apply Hold|]. subst p.
  split; [|exact Hq]. destruct Hstep as (_&Hseen&_).
  unfold seen_orders in *. destruct hasSeen; set_solver +Hnew Hseen.
Qed.

Lemma wp_detect_chain pending chain w w1 :
  all_detected w w1 pending →
  wp (detect_chain cfg hasSeen pending chain)
    (λ r w', detect_step w w' ∧ ∀ ps, r = Ok ps → all_detected w w' ps) w1.
Proof.
  intros Hall. unfold detect_chain. wp_steps.
  1,2: split; [by repeat apply detect_step_after; [apply Hall|..]|done].
  apply (wp_fold_m (λ _ ps w', all_detected w w' ps)).
  - destruct Hall as [Hstep Hps].
    assert (∀ w2, detect_step w1 w2 → all_detected w w2 pending) as Hmono.
    { intros w2 Hw2. split; [by etransitivity|]. intros p Hp. by eapply detected_step, Hps. }
    apply Hmono. detect_asks.
  - intros _ fill _ ps w2 _ Hall2. eapply wp_mono; [|by apply wp_detect_fill_all].
    intros [ps'|e'|p'] w' [Hw' Hr]; [by apply Hr|done..].
  - intros ps w2 Hall2. split; [apply Hall2|]. by intros ? [= <-].
Qed.

Lemma wp_DetectPendingSettlements w :
  wp (DetectPendingSettlements cfg hasSeen)
    (λ r w', detect_step w w' ∧ ∀ ps, r = Ok ps → all_detected w w' ps) w.
Proof.
  unfold DetectPendingSettlements. wp_steps.
  apply (wp_fold_m (λ _ ps w', all_detected w w' ps)).
  - split; [detect_asks|]. by intros p ?%not_elem_of_nil.
  - intros _ chain _ ps w1 _ Hall. eapply wp_mono; [|by apply wp_detect_chain].
    intros [ps'|err|p'] w' [Hw' Hr]; [by apply Hr|done..].
  - intros ps w1 Hall. split; [apply Hall|]. by intros ? [= <-].
Qed.
End detector.

Lemma DetectPendingSettlements_run {E} `{Env E} cfg hasSeen (w w' : World E) r :
  DetectPendingSettlements cfg hasSeen w = (r, w') →
  emits read_only w w' ∧ w_db w' = w_db w ∧
  ∀ ps p, r = Ok ps → p ∈ ps → detected (seen_orders hasSeen w) w' p.
Proof.
  intros Hrun. destruct (wp_run _ _ _ _ _ Hrun (wp_DetectPendingSettlements cfg hasSeen w))
    as [(Hem&_&Hdb) Hr].
  split_and!; [done..|]. intros ps p Hok. by apply (Hr ps Hok).
Qed.

(** C25. The detector is sound: it sends no transaction and leaves the database
    alone; every pending settlement it returns is of an order the caller had
    not seen, which the source chain said to exist with this amount and to be
    unfilled, with a fill event on the destination chain; its profit is the
    amount less what was filled. *)
Theorem DetectPendingSettlements_sound {E} `{Env E} cfg hasSeen (w w' : World E) r :
  DetectPendingSettlements cfg hasSeen w = (r, w') →
  emits read_only w w' ∧ w_db w' = w_db w ∧
  ∀ ps p, r = Ok ps → p ∈ ps → detected (seen_orders hasSeen w) w' p.
Proof. apply DetectPendingSettlements_run. Qed.

(** ** What verification may change *)

Section verify.
Context {E : Type} `{Env E}.
Context (s : OrderSettlement).
Implicit Types w : World E.

(** The answer of a chain that justifies a status. *)
Definition status_evidence (tr : list event) (status : string) : Prop :=
  (status = SettlementStatusComplete ∧
   existT (IsSettlementComplete (os_SourceChainID s) (os_SourceChainGatewayContractAddress s)
             (os_OrderID s)) (inr true) ∈ tr) ∨
  (∃ txHash gas failure, os_InitiateSettlementTx s = Some txHash ∧
     existT (GetTxResult (os_DestinationChainID s) txHash) (inr (gas, failure)) ∈ tr ∧
     status = match failure with
              | None => SettlementStatusSettlementInitiated
              | Some _ => SettlementStatusFailed
              end).

(** A row after verification: as it was, or the row of [s] with a status the
    trace justifies and nothing but the status, its message and the update time
    changed. *)
Definition verified_row (tr : list event) (r r' : OrderSettlement) : Prop :=
  r' = r ∨
  (settlement_key r = settlement_key s ∧
   ∃ now status msg, status_evidence tr status ∧
     r' = settlement_set now (os_InitiateSettlementTx r) (os_CompleteSettlementTx r) status msg
            (os_HyperlaneTransferID r) (os_InitiateSettlementTxTime r) r).

Definition verify_step w w' : Prop :=
  emits read_only w w' ∧
  Forall2 (verified_row (w_trace w')) (order_settlements (w_db w)) (order_settlements (w_db w')) ∧
  w_db w' = with_order_settlements (λ _, order_settlements (w_db w')) (w_db w).

Lemma status_evidence_mono tr tr' status :
  (∀ ev, ev ∈ tr → ev ∈ tr') → status_evidence tr status → status_evidence tr' status.
Proof.
  intros Hsub [[? ?]|(h&g&f&?&?&?)]; [left; by auto|right; exists h, g, f; auto].
Qed.

Lemma verified_row_mono tr tr' r r' :
  (∀ ev, ev ∈ tr → ev ∈ tr') → verified_row tr r r' → verified_row tr' r r'.
Proof.
  intros Hsub [?|(Hk&now&st&msg&Hev&?)]; [by left|right]. split; [done|].
  exists now, st, msg. split; [by eapply status_evidence_mono|done].
Qed.

#[local] Instance verified_row_trans tr : Transitive (verified_row tr).
Proof.
  intros r1 r2 r3 [->|(Hk&n&st&m&He&->)]; [done|]. intros [->|(Hk'&n'&st'&m'&He'&->)]; right;
    (split; [exact Hk|]); [by exists n, st, m|by exists n', st', m'].
Qed.

#[export] Instance verify_step_preorder : PreOrder verify_step.
Proof.
  split.
  - intros w. split_and!; [reflexivity| |by destruct w as [[]]].
    apply Forall_Forall2_diag, Forall_forall. by left.
  - intros w1 w2 w3 (Hem&Hr&Hdb) (Hem'&Hr'&Hdb'). split_and!; [by etransitivity| |].
    + destruct Hem' as (new&Ht&_).
      etransitivity; [eapply Forall2_impl; [exact Hr|]|exact Hr'].
      intros r r'. apply verified_row_mono. rewrite Ht. intros ev ?. apply elem_of_app. by left.
    + rewrite Hdb', Hdb. by destruct (w_db w1).
Qed.

Lemma verify_step_after w r a e : sends_tx r = false → verify_step w (after r a e w).
Proof.
  intros Hr. split_and!; [by apply emits_after| |simpl; by destruct (w_db w)].
  apply Forall_Forall2_diag, Forall_forall. by left.
Qed.

(** Setting a justified status. *)
Lemma wp_set_status status msg w :
  status_evidence (w_trace w) status →
  wp (set_status s status msg)
    (λ r w', verify_step w w' ∧ ∀ row, r = Ok row →
       ∃ row', row' ∈ order_settlements (w_db w') ∧ settlement_key row' = settlement_key s ∧
         os_SettlementStatus row' = status) w.
Proof.
  intros Hev. apply wp_db_exec; [intros; split; [by apply verify_step_after|done]|].
  intros c e. set (d := w_db w). split.
  - split_and!; [by apply emits_stmt| |simpl; unfold d; destruct (w_db w); reflexivity].
    simpl. apply Forall2_fmap_r, Forall_Forall2_diag, Forall_forall. intros r _.
    unfold compose. match goal with |- context [settlement_at ?a ?b ?c r] => destruct (settlement_at a b c r) eqn:Hr end; [|by left]. right.
    apply bool_decide_eq_true in Hr. split; [done|]. eexists _, _, _. split; [|done].
    eapply status_evidence_mono, Hev. intros ev ?. simpl. apply elem_of_app. by left.
  - intros row Hrow. simpl in Hrow. unfold update_settlement in Hrow. simpl in Hrow.
    apply one_row_ok in Hrow as [rest Hrow]. unfold returned_rows in Hrow.
    destruct (List.filter _ _) as [|r0 l] eqn:Hf; [done|].
    assert (In r0 (List.filter (settlement_at (os_SourceChainID s) (os_OrderID s)
              (os_SourceChainGatewayContractAddress s)) (order_settlements d))) as Hin
      by (rewrite Hf; by left).
    apply List.filter_In in Hin as [Hin%list_elem_of_In Hat].
    eexists. split; [simpl; by apply update_rows_elem, Hat|].
    apply bool_decide_eq_true in Hat. by split.
Qed.

Local Ltac verify_asks :=
  repeat lazymatch goal with
  | |- verify_step _ (after ?r ?a ?e ?w1) =>
      transitivity w1; [|exact (verify_step_after w1 r a e eq_refl)]
  | |- verify_step ?w ?w => reflexivity
  end; try done.

Lemma wp_verify_initiation txHash w :
  os_InitiateSettlementTx s = Some txHash →
  wp (verify_initiation s txHash) (λ _ w', verify_step w w') w.
Proof.
  intros Htx. unfold verify_initiation. wp_steps; try by verify_asks.
  all: eapply wp_mono; [|apply wp_set_status; right; eexists _, _, _;
    split_and!; [exact Htx|trace_elem|reflexivity]].
  all: intros r' w' [Hstep _]; destruct r'; wp_steps.
  all: (etransitivity; [|exact Hstep]); verify_asks.
Qed.

(** The row of [s] is COMPLETE. *)
Definition completed (d : Database) : Prop :=
  ∃ row, row ∈ order_settlements d ∧ settlement_key row = settlement_key s ∧
    os_SettlementStatus row = SettlementStatusComplete.

Lemma wp_verify_completion w :
  wp (verify_completion s)
    (λ r w', verify_step w w' ∧ (r = Ok tt → completed (w_db w'))) w.
Proof.
  unfold verify_completion. wp_steps; try (split; [by verify_asks|done]).
  eapply wp_mono; [|apply wp_set_status; left; split; [done|trace_elem]].
  intros r2 w2 [Hstep Hrow].
  assert (verify_step w w2) by (etransitivity; [|exact Hstep]; verify_asks).
  destruct r2 as [row|err|p]; wp_steps; split; try done. intros _. by apply (Hrow row).
Qed.

Lemma wp_verifyOrderSettlement w :
  wp (verifyOrderSettlement s)
    (λ r w', verify_step w w' ∧ (r = Ok tt → completed (w_db w'))) w.
Proof.
  assert (∀ w1, verify_step w w1 →
    wp (verify_completion s)
      (λ r w', verify_step w w' ∧ (r = Ok tt → completed (w_db w'))) w1) as Hrest.
  { intros w1 Hw1. eapply wp_mono; [|apply wp_verify_completion].
    intros r w' [? ?]. split; [by etransitivity|done]. }
  unfold verifyOrderSettlement. wp_steps; try (split; [by verify_asks|done]).
  - eapply wp_mono; [|by apply wp_verify_initiation]. intros r2 w2 Hstep.
    assert (verify_step w w2) by (etransitivity; [|exact Hstep]; verify_asks).
    destruct r2 as [[]|err|p]; [by apply Hrest|by split..].
  - apply Hrest. verify_asks.
Qed.
End verify.

(** C26. Verification changes a settlement only on evidence: one pass over a
    settlement [s] sends no transaction and touches no row but the one of [s],
    of which it changes only the status (with its message); the status becomes
    COMPLETE only after the source chain answered that the settlement is
    complete, SETTLEMENT_INITIATED only after the destination chain reported its
    initiation transaction as successful, FAILED only after it reported it as
    failed.  When it returns without an error, the row of [s] is COMPLETE. *)
Theorem verifyOrderSettlement_evidence {E} `{Env E} (s : OrderSettlement) (w w' : World E) r :
  verifyOrderSettlement s w = (r, w') →
  verify_step s w w' ∧
  (r = Ok tt → completed s (w_db w')).
Proof. intros Hrun. exact (wp_run _ _ _ _ _ Hrun (wp_verifyOrderSettlement s w)). Qed.

(** ** The whole settler *)

(** One iteration of the settler, whatever the chains, the relayer behind
    [RelayService] and the driver do: a well-formed database stays well formed
    and keeps its rows and their identities, and the orders, the rebalance
    transfers and the monitored heights are not touched. *)
Theorem settler_tick_invariant {E} `{Env E, !RelayService E, !RelayServiceLaws E} cfg
    (w : World E) :
  let w' := (settler_tick cfg w).2 in
  db_wf (w_db w) → db_wf (w_db w') ∧ db_le (w_db w) (w_db w') ∧ settler_tables (w_db w) (w_db w').
Proof.
  intros w' Hwf. destruct (settler_tick_db_ok cfg w Hwf). split_and!; [done..|].
  apply settler_tick_tables.
Qed.

(** Cancelling a batch forgets its initiation in every row initiated by the same
    transaction on the same chain, whatever the status of the row: a settlement
    that is already COMPLETE goes back to PENDING and uninitiated.  All other
    rows stay. *)
Theorem ClearInitiateSettlement_rows status dst tx c d :
  Forall2 (λ r r',
      if bool_decide (os_DestinationChainID r = dst ∧ os_InitiateSettlementTx r = Some tx)
      then os_SettlementStatus r' = status ∧ os_InitiateSettlementTx r' = None ∧
           os_HyperlaneTransferID r' = None ∧ settlement_key r' = settlement_key r
      else r' = r)
    (order_settlements d)
    (order_settlements (ClearInitiateSettlement status dst (Some tx) c d).2).
Proof.
  simpl. apply Forall2_fmap_r, Forall_Forall2_diag, Forall_forall. intros r _. unfold compose.
  unfold initiated_by, null_eqb.
  destruct (decide (os_DestinationChainID r = dst ∧ os_InitiateSettlementTx r = Some tx))
    as [[Hd Ht]|Hne].
  - rewrite (bool_decide_eq_true_2 (_ ∧ _)) by done.
    rewrite Ht, !bool_decide_eq_true_2 by done. done.
  - rewrite (bool_decide_eq_false_2 (_ ∧ _)) by done.
    destruct (os_InitiateSettlementTx r) as [tx'|] eqn:Ht; [|by rewrite andb_false_r].
    destruct (bool_decide (os_DestinationChainID r = dst)) eqn:Hd; simpl; [|done].
    rewrite bool_decide_eq_false_2; [done|]. intros ->. apply Hne.
    apply bool_decide_eq_true in Hd. done.
Qed.

(** ** Witnesses *)

(** Osmosis reports one fill, of an order of 6000 USDC on Arbitrum. *)
Definition settler_env : Env unit := sim_env (λ r,
  match r as r return error + response r with
  | GetClient _ => inr tt
  | BlockHeight _ => inr 1000
  | OrderFillsByFiller _ _ _ => inr [mkFill "aa" 42161]
  | OrderExists _ _ _ _ => inr (true, Some 6000000000)
  | OrderStatusOnChain _ _ _ => inr 0
  | QueryOrderFillEvent _ _ _ => inr (Some (mkOrderFillEvent "osmo1solver" 5990000000 "0xf"), 0)
  | InitiateBatchSettlement _ _ => inr ("0xsettle", "raw")
  | GetTxResult _ _ => inr (Some 20, None)
  | IsSettlementComplete _ _ _ => inr true
  | r => offline r
  end)%string.

Definition settler_world : World unit := sim_world empty_db.

Lemma DetectPendingSettlements_sound_witness :
  ∃ w' p, @DetectPendingSettlements unit settler_env sample_reader true settler_world = (Ok [p], w') ∧
    ps_Profit p = 10000000 ∧ detected (E := unit) ∅ w' p.
Proof.
  destruct (@DetectPendingSettlements unit settler_env sample_reader true settler_world) as [r w'] eqn:Hr.
  destruct (@DetectPendingSettlements_sound unit settler_env _ _ _ _ _ Hr) as (_&_&Hps).
  assert (r = Ok [mkPendingSettlement "42161" "osmosis-1" "aa" 6000000000 10000000])
    as -> by (vm_compute in Hr; congruence).
  eexists w', _. split; [reflexivity|]. split; [reflexivity|].
  eapply Hps; [reflexivity|]. apply list_elem_of_singleton. reflexivity.
Defined.

(** The database once the fill was recorded. *)
Definition settler_db : Database :=
  (InsertOrderSettlement "42161" "osmosis-1" "0xgateway" "6000000000" "10000000" "aa"
     SettlementStatusPending (mkStmt 0 0) empty_db).2.
Definition settler_row : OrderSettlement :=
  sample_settlement 1 "42161" "osmosis-1" "6000000000" "10000000" "aa" None.

Lemma SettleBatch_atomic_witness :
  ∃ w', @SettleBatch unit settler_env [settler_row] (sim_world settler_db)
          = (Ok "0xsettle"%string, w') ∧
    batch_recorded "0xsettle" "raw" [settler_row] settler_db (w_db w').
Proof.
  destruct (@SettleBatch unit settler_env [settler_row] (sim_world settler_db)) as [r w'] eqn:Hr.
  pose proof (@SettleBatch_atomic unit settler_env [settler_row] (sim_world settler_db) r w' Hr)
    as Hs.
  assert (r = Ok "0xsettle"%string) as -> by (vm_compute in Hr; congruence).
  exists w'. split; [reflexivity|]. destruct Hs as (chain&rawTx&_&_&_&Hrec).
  assert (rawTx = "raw"%string) as ->; [|exact Hrec].
  destruct Hrec as (_&(f&tx&_&Htx&_&_&_&Hraw&_)&_).
  vm_compute in Hr. injection Hr as <-. simpl in Htx. injection Htx as <-. rewrite <-Hraw.
  reflexivity.
Defined.

Lemma maxBatchTxFeeUUSDC_margin_witness :
  maxBatchTxFeeUUSDC sample_reader [settler_row] = Ok 1000000 ∧
  ∃ profit value, TotalProfit [settler_row] = Ok profit ∧ TotalValue [settler_row] = Ok value ∧
    profit - 15 * value / 10000 = 1000000.
Proof.
  assert (maxBatchTxFeeUUSDC sample_reader [settler_row] = Ok 1000000) as Hfee
    by (vm_compute; reflexivity).
  split; [exact Hfee|].
  destruct (maxBatchTxFeeUUSDC_margin sample_reader [settler_row] 1000000 Hfee)
    as (profit&value&chain&c&Hp&Hv&_).
  exists profit, value. vm_compute in Hp, Hv. injection Hp as <-. injection Hv as <-.
  split; [reflexivity|]. split; reflexivity.
Defined.

(** A settlement initiated by "0xsettle". *)
Definition initiated_world : World unit :=
  (@SettleBatch unit settler_env [settler_row] (sim_world settler_db)).2.
Definition initiated_row : OrderSettlement :=
  mkOrderSettlement 1 0 0 "42161" "osmosis-1" "0xgateway" "6000000000" "10000000" "aa"
    (Some "0xsettle") None SettlementStatusPending None None (Some 0).

Lemma verifyOrderSettlement_evidence_witness :
  ∃ w', @verifyOrderSettlement unit settler_env initiated_row initiated_world = (Ok tt, w') ∧
    completed initiated_row (w_db w').
Proof.
  destruct (@verifyOrderSettlement unit settler_env initiated_row initiated_world)
    as [r w'] eqn:Hr.
  destruct (@verifyOrderSettlement_evidence unit settler_env _ _ _ _ Hr) as [_ Hc].
  assert (r = Ok tt) as -> by (vm_compute in Hr; congruence).
  exists w'. split; [reflexivity|]. apply Hc. reflexivity.
Defined.

(** A relayer that is down. *)
Definition relay_down : RelayService unit := {|
  relay_SubmitTxToRelay _ _ _ := throw (ErrNew "relayer down");
  relay_CancelRelay _ _ := throw (ErrNew "relayer down") |}.
Lemma relay_down_laws : @RelayServiceLaws unit settler_env relay_down.
Proof. split; intros; intros w; reflexivity. Qed.

(** A tick that finds the fill, settles it and verifies it. *)
Lemma settler_tick_invariant_witness :
  let w' := (@settler_tick unit settler_env relay_down sample_reader settler_world).2 in
  os_SettlementStatus <$> order_settlements (w_db w') = [SettlementStatusComplete] ∧
  db_wf (w_db w') ∧ orders (w_db w') = [].
Proof.
  split; [vm_compute; reflexivity|].
  destruct (@settler_tick_invariant unit settler_env relay_down relay_down_laws sample_reader
              settler_world empty_db_wf) as (Hwf&_&Ho&_).
  split; [exact Hwf|exact Ho].
Defined.
