(* ===== verification/OrderQueue.v ===== *)
(** * OrderQueue: orderfulfiller/orderqueue/orderqueue.go

    The deduplicating queue between the dispatcher and the fill workers.  The
    state is the struct's two maps and its channel, with the goroutines [PopOrder]
    started and where each of them stands; a step is one critical section, one
    channel operation, or the passing of time, so that every interleaving of the
    dispatcher, the workers and the cleanup is a run of the step relation. *)
From S2P Require Import Prelude GoLib Database.

(** Where a goroutine of [PopOrder] stands: waiting on [orderChan], holding an
    order nobody received from [out] yet, or past the handover and not yet in its
    critical section. *)
Inductive popper :=
  | Waiting
  | Holding (order : Order)
  | Delivered (order : Order).

Record OrderQueue := mkOrderQueue {
  orderRequeueTime : gmap Z Time;
  ordersInQueue : gset Z;
  orderChan : list Order;
  poppers : list popper;
  clock : Time
}.

Section queue.
Context (requeueDelay : Duration) (queueCapacity : nat).

Definition NewOrderQueue (now : Time) : OrderQueue := mkOrderQueue ∅ ∅ [] [] now.

(** [QueueOrder], called when the clock shows [clock q]. *)
Definition QueueOrder (order : Order) (q : OrderQueue) : bool * OrderQueue :=
  let id := o_ID order in
  if bool_decide (id ∈ ordersInQueue q) then (false, q) else
  if match orderRequeueTime q !! id with Some t => clock q <? t | None => false end
  then (false, q) else
  if (length (orderChan q) <? queueCapacity)%nat
  then (true, mkOrderQueue (orderRequeueTime q) ({[ id ]} ∪ ordersInQueue q)
                (orderChan q ++ [order]) (poppers q) (clock q))
  else (false, q).

(** The critical section at the end of [PopOrder]. *)
Definition pop_done (order : Order) (q : OrderQueue) : OrderQueue :=
  mkOrderQueue (<[o_ID order := clock q + requeueDelay]> (orderRequeueTime q))
    (ordersInQueue q ∖ {[ o_ID order ]}) (orderChan q) (poppers q) (clock q).

(** One pass of [startCleanup]; [at_ id] is what [time.Now()] returned for the
    entry of [id]. *)
Definition cleanup (at_ : Z → Time) (q : OrderQueue) : OrderQueue :=
  mkOrderQueue (filter (λ e, ¬ e.2 < at_ e.1) (orderRequeueTime q)) (ordersInQueue q)
    (orderChan q) (poppers q) (clock q).

Definition with_poppers (l : list popper) (q : OrderQueue) : OrderQueue :=
  mkOrderQueue (orderRequeueTime q) (ordersInQueue q) (orderChan q) l (clock q).
Definition with_chan (l : list Order) (q : OrderQueue) : OrderQueue :=
  mkOrderQueue (orderRequeueTime q) (ordersInQueue q) l (poppers q) (clock q).
Definition with_clock (t : Time) (q : OrderQueue) : OrderQueue :=
  mkOrderQueue (orderRequeueTime q) (ordersInQueue q) (orderChan q) (poppers q) t.

(** What a run shows. *)
Inductive queue_event :=
  | EvQueued (t : Time) (order : Order)
  | EvReceived (order : Order)
  | EvDelivered (order : Order)
  | EvDone (t : Time) (order : Order).

(** The steps of the dispatcher, the pop goroutines, the cleanup and the clock. *)
Inductive queue_step : OrderQueue → list queue_event → OrderQueue → Prop :=
  | step_queue order q q' :
      QueueOrder order q = (true, q') → queue_step q [EvQueued (clock q) order] q'
  | step_reject order q q' :
      QueueOrder order q = (false, q') → queue_step q [] q'
  | step_pop q :
      queue_step q [] (with_poppers (poppers q ++ [Waiting]) q)
  | step_receive q l1 l2 order rest :
      poppers q = l1 ++ Waiting :: l2 → orderChan q = order :: rest →
      queue_step q [EvReceived order]
        (with_chan rest (with_poppers (l1 ++ Holding order :: l2) q))
  | step_deliver q l1 l2 order :
      poppers q = l1 ++ Holding order :: l2 →
      queue_step q [EvDelivered order] (with_poppers (l1 ++ Delivered order :: l2) q)
  | step_done q l1 l2 order :
      poppers q = l1 ++ Delivered order :: l2 →
      queue_step q [EvDone (clock q) order] (pop_done order (with_poppers (l1 ++ l2) q))
  | step_cleanup q at_ t :
      (∀ id, clock q ≤ at_ id ≤ t) → queue_step q [] (with_clock t (cleanup at_ q))
  | step_time q t :
      clock q ≤ t → queue_step q [] (with_clock t q).

(** Runs from a new queue, with what they showed (oldest first). *)
Inductive queue_run (now : Time) : list queue_event → OrderQueue → Prop :=
  | run_new : queue_run now [] (NewOrderQueue now)
  | run_step h q evs q' :
      queue_run now h q → queue_step q evs q' → queue_run now (h ++ evs) q'.

(** ** Invariants *)

Definition popper_order (p : popper) : list Order :=
  match p with Waiting => [] | Holding o | Delivered o => [o] end.

(** The orders between [QueueOrder] and the end of their [PopOrder]. *)
Definition outstanding (q : OrderQueue) : list Order :=
  orderChan q ++ concat (popper_order <$> poppers q).

Definition queued_event (e : queue_event) : list Order :=
  match e with EvQueued _ o => [o] | _ => [] end.
Definition received_event (e : queue_event) : list Order :=
  match e with EvReceived o => [o] | _ => [] end.
Definition done_event (e : queue_event) : list Order :=
  match e with EvDone _ o => [o] | _ => [] end.

(** The bookkeeping of the struct: the map [ordersInQueue] holds exactly the ids
    of the outstanding orders, no id is outstanding twice, and the channel is
    within its capacity. *)
Definition queue_inv (q : OrderQueue) : Prop :=
  NoDup (o_ID <$> outstanding q) ∧
  (∀ id, id ∈ ordersInQueue q ↔ id ∈ o_ID <$> outstanding q) ∧
  (length (orderChan q) ≤ queueCapacity)%nat.

Lemma popper_orders_mid l1 p l2 :
  concat (popper_order <$> l1 ++ p :: l2)
  ≡ₚ popper_order p ++ concat (popper_order <$> l1 ++ l2).
Proof.
  rewrite !fmap_app, fmap_cons, !concat_app. simpl.
  rewrite !(assoc (++)). f_equiv. apply Permutation_app_comm.
Qed.

Lemma QueueOrder_true order q q' :
  QueueOrder order q = (true, q') →
  o_ID order ∉ ordersInQueue q ∧ (length (orderChan q) < queueCapacity)%nat ∧
  (∀ t, orderRequeueTime q !! o_ID order = Some t → t ≤ clock q) ∧
  q' = mkOrderQueue (orderRequeueTime q) ({[ o_ID order ]} ∪ ordersInQueue q)
         (orderChan q ++ [order]) (poppers q) (clock q).
Proof.
  unfold QueueOrder. case_bool_decide; [done|].
  destruct (orderRequeueTime q !! o_ID order) as [t|] eqn:Ht.
  - destruct (Z.ltb_spec (clock q) t); [done|]. case_match eqn:Hl; intros [= <-].
    apply Nat.ltb_lt in Hl. split_and!; [done..|by intros ? [= <-]|done].
  - case_match eqn:Hl; intros [= <-]. apply Nat.ltb_lt in Hl. by split_and!.
Qed.

Lemma QueueOrder_false order q q' : QueueOrder order q = (false, q') → q' = q.
Proof. unfold QueueOrder. repeat case_match; by intros [= <-]. Qed.

(** How a step changes what is outstanding. *)
Lemma step_outstanding q evs q' :
  queue_step q evs q' →
  outstanding q' ++ concat (done_event <$> evs)
  ≡ₚ outstanding q ++ concat (queued_event <$> evs).
Proof.
  destruct 1 as [o q q' Hq|o q q' Hq|q|q l1 l2 o rest Hp Hc|q l1 l2 o Hp|q l1 l2 o Hp| |];
    simpl; rewrite ?app_nil_r; unfold outstanding; simpl.
  - apply QueueOrder_true in Hq as (_&_&_&->). simpl. rewrite <-!(assoc (++)).
    f_equiv. apply Permutation_app_comm.
  - by apply QueueOrder_false in Hq as ->.
  - rewrite fmap_app, concat_app. simpl. by rewrite app_nil_r.
  - rewrite Hp, Hc, !popper_orders_mid. simpl. by rewrite Permutation_middle.
  - by rewrite Hp, !popper_orders_mid.
  - rewrite Hp, popper_orders_mid. simpl. rewrite <-!(assoc (++)). f_equiv.
    symmetry. apply Permutation_cons_append.
  - done.
  - done.
Qed.

Lemma step_inv q evs q' : queue_step q evs q' → queue_inv q → queue_inv q'.
Proof.
  intros Hstep (Hnd&Hin&Hcap). pose proof (step_outstanding _ _ _ Hstep) as Hout.
  unfold queue_inv.
  destruct Hstep as [o q q' Hq|o q q' Hq|q|q l1 l2 o rest Hp Hc|q l1 l2 o Hp|q l1 l2 o Hp| |];
    simpl in Hout; rewrite ?app_nil_r in Hout.
  - apply QueueOrder_true in Hq as (Hno&Hlen&_&->). rewrite Hout.
    rewrite fmap_app. simpl. split_and!.
    + apply NoDup_app. split_and!; [done| |apply NoDup_singleton].
      intros id Hid ->%list_elem_of_singleton. by apply Hno, Hin.
    + intros id. rewrite elem_of_union, elem_of_singleton, Hin, Hout, fmap_app, elem_of_app.
      simpl. rewrite list_elem_of_singleton. tauto.
    + simpl. rewrite length_app. simpl. lia.
  - by apply QueueOrder_false in Hq as ->.
  - rewrite Hout. split_and!; [done| |done]. intros id. rewrite Hout. apply Hin.
  - rewrite Hout. split_and!; [done| |].
    + intros id. rewrite Hout. apply Hin.
    + simpl. rewrite Hc in Hcap. simpl in Hcap. lia.
  - rewrite Hout. split_and!; [done| |done]. intros id. rewrite Hout. apply Hin.
  - rewrite <-Hout in Hnd. rewrite fmap_app in Hnd. apply NoDup_app in Hnd as (Hnd&Hdis&_).
    split_and!; [done| |done]. intros id. simpl.
    rewrite elem_of_difference, elem_of_singleton, Hin, <-Hout, fmap_app, elem_of_app. simpl.
    rewrite list_elem_of_singleton. split; [tauto|]. intros Hid. split; [by left|].
    intros ->. by apply (Hdis (o_ID o)), list_elem_of_singleton.
  - done.
  - done.
Qed.

Lemma new_inv now : queue_inv (NewOrderQueue now).
Proof.
  unfold queue_inv, outstanding. simpl. split_and!; [constructor| |lia].
  intros id. split; intros Hid; set_solver.
Qed.

Lemma run_inv now h q : queue_run now h q → queue_inv q.
Proof. induction 1; [apply new_inv|by eapply step_inv]. Qed.

(** *** What a run shows *)

Lemma concat_fmap_app {A B} (f : A → list B) l1 l2 :
  concat (f <$> l1 ++ l2) = concat (f <$> l1) ++ concat (f <$> l2).
Proof. by rewrite fmap_app, concat_app. Qed.

Lemma run_fifo now h q :
  queue_run now h q → concat (queued_event <$> h) = concat (received_event <$> h) ++ orderChan q.
Proof.
  induction 1 as [|h q evs q' _ IH Hstep]; [done|]. rewrite !concat_fmap_app, IH.
  destruct Hstep as [o q q' Hq|o q q' Hq|q|q l1 l2 o rest Hp Hc|q l1 l2 o Hp|q l1 l2 o Hp| |];
    simpl; rewrite ?app_nil_r; try done.
  - apply QueueOrder_true in Hq as (_&_&_&->). simpl. by rewrite app_assoc.
  - by apply QueueOrder_false in Hq as ->.
  - by rewrite Hc, <-app_assoc.
Qed.

Lemma run_balance now h q :
  queue_run now h q →
  concat (queued_event <$> h) ≡ₚ outstanding q ++ concat (done_event <$> h).
Proof.
  induction 1 as [|h q evs q' _ IH Hstep]; [done|]. rewrite !concat_fmap_app, IH.
  pose proof (step_outstanding _ _ _ Hstep) as Hout.
  rewrite (Permutation_app_comm (outstanding q)), <-(assoc (++)), <-Hout.
  rewrite (Permutation_app_comm (concat (done_event <$> h)) (_ ++ _)), <-(assoc (++)).
  f_equiv. apply Permutation_app_comm.
Qed.

(** Every order that is done is locked out until its requeue time, and that time
    is remembered until it has passed. *)
Definition locked_out (h : list queue_event) (q : OrderQueue) : Prop :=
  ∀ t o, EvDone t o ∈ h →
    t ≤ clock q ∧
    (t + requeueDelay ≤ clock q ∨
     ∃ t', orderRequeueTime q !! o_ID o = Some t' ∧ t + requeueDelay ≤ t').

Lemma step_locked_out h q evs q' :
  queue_step q evs q' → locked_out h q → locked_out (h ++ evs) q'.
Proof.
  intros Hstep Hl.
  destruct Hstep as [o q q' Hq|o q q' Hq|q|q l1 l2 o rest Hp Hc|q l1 l2 o Hp|q l1 l2 o Hp
    |q at_ t' Hat|q t' Ht]; intros t o' [Hin|Hin]%elem_of_app;
    try (by apply not_elem_of_nil in Hin);
    try (by apply list_elem_of_singleton in Hin);
    try (destruct (Hl t o' Hin) as [Hle Hor]).
  - apply QueueOrder_true in Hq as (_&_&_&->). by split.
  - apply QueueOrder_false in Hq as ->. by split.
  - by split.
  - by split.
  - by split.
  - simpl. split; [done|]. destruct (decide (o_ID o' = o_ID o)) as [->|Hne].
    + right. eexists. rewrite lookup_insert_eq. split; [done|lia].
    + by rewrite lookup_insert_ne by done.
  - apply list_elem_of_singleton in Hin as [= -> ->]. simpl. split; [lia|]. right.
    eexists. rewrite lookup_insert_eq. split; [done|lia].
  - specialize (Hat (o_ID o')) as Hid. simpl. split; [lia|].
    destruct Hor as [?|(t''&Hlk&?)]; [left; lia|].
    destruct (decide (t'' < at_ (o_ID o'))); [left; lia|right].
    exists t''. split; [|done]. by apply map_lookup_filter_Some.
  - simpl. split; [lia|]. destruct Hor as [?|?]; [left; lia|by right].
Qed.

Lemma run_locked_out now h q : queue_run now h q → locked_out h q.
Proof.
  induction 1; [intros t o Hin; by apply not_elem_of_nil in Hin|by eapply step_locked_out].
Qed.

(** In a history, an order is queued only after the delay since it was done. *)
Definition delays_kept (h : list queue_event) : Prop :=
  ∀ h1 t1 o1 h2 t2 o2 h3,
    h = h1 ++ EvDone t1 o1 :: h2 ++ EvQueued t2 o2 :: h3 →
    o_ID o1 = o_ID o2 → t1 + requeueDelay ≤ t2.

Lemma run_delays_kept now h q : queue_run now h q → delays_kept h.
Proof.
  induction 1 as [|h q evs q' Hrun IH Hstep]; [by intros [] ??????|].
  intros h1 t1 o1 h2 t2 o2 h3 Hh Hid.
  destruct evs as [|ev [|]]; [| |by inversion Hstep].
  { rewrite app_nil_r in Hh. by eapply IH. }
  rewrite app_comm_cons, app_assoc in Hh.
  destruct h3 as [|x h3 _] using rev_ind.
  - apply app_inj_tail in Hh as [Hh ->].
    assert (EvDone t1 o1 ∈ h) as Hdone by (rewrite Hh; set_solver).
    apply (run_locked_out _ _ _ Hrun) in Hdone as [_ Hor].
    inversion Hstep as [o ? ? Hq| | | | | | |]; subst.
    apply QueueOrder_true in Hq as (_&_&Hreq&_).
    destruct Hor as [?|(t'&Hlk&?)]; [done|]. rewrite Hid in Hlk.
    specialize (Hreq _ Hlk). lia.
  - rewrite app_comm_cons, app_assoc in Hh. apply app_inj_tail in Hh as [Hh _].
    rewrite <-app_assoc in Hh. simpl in Hh. by eapply IH.
Qed.
End queue.

(** ** Properties *)

(** Under every interleaving of the dispatcher, the pop goroutines and the
    cleanup: no order is in the queue or held by a pop goroutine twice, the map
    [ordersInQueue] holds exactly the ids of those orders, and the channel never
    exceeds its capacity. *)
Theorem queue_bookkeeping delay cap now h q :
  queue_run delay cap now h q → queue_inv cap q.
Proof. apply run_inv. Qed.

(** The queue is first in, first out: the orders received by the pop goroutines
    so far, followed by the channel, are the orders queued so far, in order. *)
Theorem queue_fifo delay cap now h q :
  queue_run delay cap now h q →
  concat (queued_event <$> h) = concat (received_event <$> h) ++ orderChan q.
Proof. apply run_fifo. Qed.

(** An order that left the queue at [t1] is not queued again before
    [t1 + requeueDelay], whatever the cleanup forgot in between. *)
Theorem queue_requeue_delay delay cap now h q h1 t1 o1 h2 t2 o2 h3 :
  queue_run delay cap now h q →
  h = h1 ++ EvDone t1 o1 :: h2 ++ EvQueued t2 o2 :: h3 →
  o_ID o1 = o_ID o2 → t1 + delay ≤ t2.
Proof. intros Hrun. apply (run_delays_kept _ _ _ _ _ Hrun). Qed.

(** C11. Deduplication: under every interleaving, at any time an order was queued as
    often as a pop goroutine handed it over, or once more; an order that waits or is
    being handed over is not queued a second time. *)
Theorem queue_dedupe delay cap now h q id :
  queue_run delay cap now h q →
  let times f := length (filter (λ o, o_ID o = id) (concat (f <$> h))) in
  (times done_event ≤ times queued_event ≤ times done_event + 1)%nat.
Proof.
  intros Hrun. cbv beta zeta. rewrite (run_balance _ _ _ _ _ Hrun), filter_app, length_app.
  destruct (run_inv _ _ _ _ _ Hrun) as (Hnd&_).
  assert (length (filter (λ o, o_ID o = id) (outstanding q)) ≤ 1)%nat; [|lia].
  revert Hnd. generalize (outstanding q). intros l Hnd.
  induction l as [|o l IH]; simpl; [lia|]. inversion Hnd as [|? ? Hno Hnd']; subst.
  rewrite filter_cons. case_decide as Ho; [|by apply IH]. simpl.
  destruct (filter _ l) as [|o' l'] eqn:Hf; [simpl; lia|].
  assert (o' ∈ filter (λ o, o_ID o = id) l) as [Hid Hin]%list_elem_of_filter
    by (rewrite Hf; by left).
  destruct Hno. rewrite Ho, <-Hid. by apply list_elem_of_fmap_2.
Qed.

(** ** Witness *)

(** An order is queued, popped, and queued again after the delay; the clock
    reaches 45 s. *)
Definition queue_order : Order :=
  mkOrder 7 0 0 "42161" "osmosis-1" "0xgateway" [] [] "100" "98" 0 "aa" 0 "0xc" 1 None None None
    None OrderStatusPending None.

Definition queue_history : list queue_event :=
  [EvQueued 0 queue_order; EvReceived queue_order; EvDelivered queue_order;
   EvDone 0 queue_order; EvQueued (45 * Second) queue_order].

Definition queue_state : OrderQueue :=
  mkOrderQueue {[ 7 := 30 * Second ]} {[ 7 ]} [queue_order] [] (45 * Second).

Lemma queue_sample_run : queue_run (30 * Second) 100 0 queue_history queue_state.
Proof.
  set (q1 := (QueueOrder 100 queue_order (NewOrderQueue 0)).2).
  set (q2 := with_poppers ([] ++ [Waiting]) q1).
  set (q3 := with_chan [] (with_poppers ([] ++ Holding queue_order :: []) q2)).
  set (q4 := with_poppers ([] ++ Delivered queue_order :: []) q3).
  set (q5 := pop_done (30 * Second) queue_order (with_poppers ([] ++ []) q4)).
  set (q6 := with_clock (45 * Second) q5).
  assert (queue_run (30 * Second) 100 0 ([] ++ [EvQueued 0 queue_order]) q1) as R1
    by (eapply run_step; [apply run_new|by apply (step_queue _ _ queue_order (NewOrderQueue 0))]).
  assert (queue_run (30 * Second) 100 0 ([EvQueued 0 queue_order] ++ []) q2) as R2
    by (eapply run_step; [exact R1|by apply (step_pop _ _ q1)]).
  pose proof (run_step _ _ _ _ _ _ _ R2 (step_receive _ _ q2 [] [] queue_order [] eq_refl eq_refl))
    as R3.
  pose proof (run_step _ _ _ _ _ _ _ R3 (step_deliver _ _ q3 [] [] queue_order eq_refl)) as R4.
  pose proof (run_step _ _ _ _ _ _ _ R4 (step_done _ _ q4 [] [] queue_order eq_refl)) as R5.
  pose proof (run_step _ _ _ _ _ _ _ R5 (step_time _ _ q5 (45 * Second) ltac:(vm_compute; done)))
    as R6.
  pose proof (run_step _ _ _ _ _ _ _ R6 (step_queue (30 * Second) 100 queue_order q6 queue_state
    ltac:(vm_compute; reflexivity)))
    as R7.
  exact R7.
Qed.

Lemma queue_bookkeeping_witness : queue_inv 100 queue_state.
Proof. exact (queue_bookkeeping _ _ _ _ _ queue_sample_run). Defined.

Lemma queue_fifo_witness :
  concat (queued_event <$> queue_history) = [queue_order; queue_order].
Proof. rewrite (queue_fifo _ _ _ _ _ queue_sample_run). reflexivity. Defined.

Lemma queue_requeue_delay_witness : 0 + 30 * Second ≤ 45 * Second.
Proof.
  apply (queue_requeue_delay _ _ _ _ _
           [EvQueued 0 queue_order; EvReceived queue_order; EvDelivered queue_order] 0 queue_order
           [] (45 * Second) queue_order [] queue_sample_run); reflexivity.
Defined.

Lemma queue_dedupe_witness :
  (length (filter (λ o, o_ID o = 7%Z) (concat (done_event <$> queue_history))) ≤ 2)%nat.
Proof.
  destruct (queue_dedupe _ _ _ _ _ 7 queue_sample_run) as [Hle _]. exact Hle.
Defined.
