(* ===== verification/QueueSpec.v ===== *)
(** * QueueSpec: what the order queue promises

    The abstract contract of orderfulfiller/orderqueue/orderqueue.go for the
    dispatcher and the fill workers: a scheduler that knows which orders are being
    handled and from when an order may be handled again.  It has no channel, no
    goroutines and no cleanup, and forgets nothing.  The queue of [OrderQueue]
    implements it: every run of the queue is a run of the scheduler with the same
    admissions and releases, and [QueueOrder] accepts an order exactly when the
    scheduler may admit it and the channel has room. *)
From S2P Require Import Prelude GoLib Database OrderQueue.

Record Scheduler := mkScheduler {
  busy : gmap Z Order;
  not_before : gmap Z Time;
  now_ : Time
}.

Inductive sched_event :=
  | Admit (t : Time) (order : Order)
  | Release (t : Time) (order : Order).

Definition may_admit (s : Scheduler) (order : Order) : Prop :=
  busy s !! o_ID order = None ∧
  ∀ t, not_before s !! o_ID order = Some t → t ≤ now_ s.

Section scheduler.
Context (delay : Duration).

Inductive sched_step : Scheduler → list sched_event → Scheduler → Prop :=
  | sched_admit s order :
      may_admit s order →
      sched_step s [Admit (now_ s) order]
        (mkScheduler (<[o_ID order := order]> (busy s)) (not_before s) (now_ s))
  | sched_release s order :
      busy s !! o_ID order = Some order →
      sched_step s [Release (now_ s) order]
        (mkScheduler (delete (o_ID order) (busy s))
           (<[o_ID order := now_ s + delay]> (not_before s)) (now_ s))
  | sched_tick s t :
      now_ s ≤ t → sched_step s [] (mkScheduler (busy s) (not_before s) t).

(** Runs from an idle scheduler. *)
Inductive sched_run (start : Time) : list sched_event → Scheduler → Prop :=
  | sched_new : sched_run start [] (mkScheduler ∅ ∅ start)
  | sched_more h s evs s' :
      sched_run start h s → sched_step s evs s' → sched_run start (h ++ evs) s'.
End scheduler.

(** What the scheduler sees of a step of the queue. *)
Definition visible (e : queue_event) : list sched_event :=
  match e with
  | EvQueued t o => [Admit t o]
  | EvDone t o => [Release t o]
  | EvReceived _ | EvDelivered _ => []
  end.

(** The orders of the scheduler are those in the channel or at a pop goroutine; the
    queue's requeue times are the scheduler's, less some that have passed. *)
Record refines (q : OrderQueue) (s : Scheduler) : Prop := {
  ref_clock : now_ s = clock q;
  ref_busy id o : busy s !! id = Some o ↔ o ∈ outstanding q ∧ o_ID o = id;
  ref_times id t : orderRequeueTime q !! id = Some t → not_before s !! id = Some t;
  ref_passed id t :
    not_before s !! id = Some t → orderRequeueTime q !! id = Some t ∨ t ≤ clock q
}.

Section refinement.
Context (delay : Duration) (cap : nat).

Lemma refines_new start : refines (NewOrderQueue start) (mkScheduler ∅ ∅ start).
Proof.
  split; [done| |done|done]. intros id o. simpl. rewrite lookup_empty.
  split; [done|]. by intros [?%not_elem_of_nil _].
Qed.

(** An order is free for the scheduler when it is not among the orders in queue. *)
Lemma refines_free q s order :
  queue_inv cap q → refines q s →
  o_ID order ∉ ordersInQueue q ↔ busy s !! o_ID order = None.
Proof.
  intros (_&Hin&_) Href. rewrite Hin, eq_None_not_Some. split; intros Hno.
  - intros [o [Ho Hid]%(ref_busy _ _ Href)]. apply Hno. rewrite <-Hid.
    by apply list_elem_of_fmap_2.
  - intros (o&Hid&Ho)%list_elem_of_fmap. apply Hno. exists o.
    by apply (ref_busy _ _ Href).
Qed.

Lemma refines_not_before q s order :
  refines q s →
  (∀ t, orderRequeueTime q !! o_ID order = Some t → t ≤ clock q) ↔
  (∀ t, not_before s !! o_ID order = Some t → t ≤ now_ s).
Proof.
  intros Href. rewrite (ref_clock _ _ Href). split; intros Ht t Hlk.
  - destruct (ref_passed _ _ Href _ _ Hlk); [by apply Ht|done].
  - by apply Ht, (ref_times _ _ Href).
Qed.

Lemma QueueOrder_accepts q order :
  (QueueOrder cap order q).1 = true ↔
  o_ID order ∉ ordersInQueue q ∧
  (∀ t, orderRequeueTime q !! o_ID order = Some t → t ≤ clock q) ∧
  (length (orderChan q) < cap)%nat.
Proof.
  split.
  - destruct (QueueOrder cap order q) as [b q'] eqn:Hq. simpl. intros ->.
    by apply QueueOrder_true in Hq as (?&?&?&_).
  - intros (Hno&Ht&Hlen). unfold QueueOrder. rewrite bool_decide_eq_false_2 by done.
    apply Nat.ltb_lt in Hlen as ->.
    destruct (orderRequeueTime q !! o_ID order) as [t|]; [|done].
    specialize (Ht t eq_refl). destruct (Z.ltb_spec (clock q) t); [lia|done].
Qed.

Lemma QueueOrder_may_admit q s order :
  queue_inv cap q → refines q s →
  (QueueOrder cap order q).1 = true ↔ may_admit s order ∧ (length (orderChan q) < cap)%nat.
Proof.
  intros Hinv Href. rewrite QueueOrder_accepts. unfold may_admit.
  rewrite (refines_free _ _ _ Hinv Href), (refines_not_before _ _ _ Href). tauto.
Qed.

(** Changing what the scheduler does not see. *)
Lemma refines_hidden q q' s :
  refines q s → outstanding q' ≡ₚ outstanding q →
  orderRequeueTime q' = orderRequeueTime q → clock q' = clock q → refines q' s.
Proof.
  intros Href Hout Ht Hc. split; rewrite ?Ht, ?Hc; try apply Href.
  intros id o. rewrite Hout. apply Href.
Qed.

Lemma refines_admit q s order q' :
  queue_inv cap q → refines q s → QueueOrder cap order q = (true, q') →
  may_admit s order ∧
  refines q' (mkScheduler (<[o_ID order := order]> (busy s)) (not_before s) (now_ s)).
Proof.
  intros Hinv Href Hq. assert (may_admit s order) as Hmay.
  { eapply QueueOrder_may_admit; [done..|]. by rewrite Hq. }
  split; [done|]. pose proof (step_outstanding delay cap _ _ _ (step_queue _ _ _ _ _ Hq)) as Hout.
  simpl in Hout. rewrite app_nil_r in Hout. apply QueueOrder_true in Hq as (_&_&_&->).
  split; [apply Href| |apply Href|apply Href]. intros id o. simpl.
  rewrite Hout, elem_of_app, list_elem_of_singleton, lookup_insert_Some, (ref_busy _ _ Href).
  destruct Hmay as [Hfree _]. split; [naive_solver|]. intros [[Ho|<-] Hid]; [|by left].
  right. split; [|done]. intros Heq. subst.
  assert (busy s !! o_ID order = Some o) as Hsome by (apply (ref_busy _ _ Href); by rewrite Heq).
  by rewrite Hfree in Hsome.
Qed.

Lemma refines_release q s order l1 l2 :
  queue_inv cap q → refines q s → poppers q = l1 ++ Delivered order :: l2 →
  busy s !! o_ID order = Some order ∧
  refines (pop_done delay order (with_poppers (l1 ++ l2) q))
    (mkScheduler (delete (o_ID order) (busy s))
       (<[o_ID order := now_ s + delay]> (not_before s)) (now_ s)).
Proof.
  intros (Hnd&_) Href Hp.
  pose proof (step_outstanding delay cap _ _ _ (step_done _ _ q l1 l2 order Hp)) as Hout.
  simpl in Hout. rewrite app_nil_r in Hout. rewrite <-Hout, fmap_app in Hnd.
  apply NoDup_app in Hnd as (_&Hdis&_).
  split; [apply (ref_busy _ _ Href); rewrite <-Hout; split; [set_solver|done]|].
  split; [apply Href| | |].
  - intros id o. simpl. rewrite lookup_delete_Some, (ref_busy _ _ Href), <-Hout, elem_of_app,
      list_elem_of_singleton.
    split; [naive_solver|]. intros [Ho Hid]. split; [|by split; [left|]].
    intros <-. apply (Hdis (o_ID o)); [by apply list_elem_of_fmap_2|].
    rewrite Hid. simpl. by apply list_elem_of_singleton.
  - intros id t. simpl. rewrite (ref_clock _ _ Href), !lookup_insert_Some.
    intros [?|[? Hlk]]; [by left|right]. split; [done|by apply Href].
  - intros id t. simpl. rewrite (ref_clock _ _ Href), !lookup_insert_Some.
    intros [?|[? Hlk]]; [by left; left|].
    destruct (ref_passed _ _ Href _ _ Hlk); [by left; right|by right].
Qed.

(** One step of the queue is at most one step of the scheduler. *)
Lemma step_refines q evs q' s :
  queue_inv cap q → refines q s → queue_step delay cap q evs q' →
  ∃ s', refines q' s' ∧
    (s' = s ∧ concat (visible <$> evs) = [] ∨ sched_step delay s (concat (visible <$> evs)) s').
Proof.
  intros Hinv Href Hstep. pose proof (step_outstanding _ _ _ _ _ Hstep) as Hout.
  destruct Hstep as [o q q' Hq|o q q' Hq|q|q l1 l2 o rest Hp Hc|q l1 l2 o Hp|q l1 l2 o Hp
    |q at_ t Hat|q t Ht]; simpl in Hout |- *; rewrite ?app_nil_r in Hout.
  - destruct (refines_admit _ _ _ _ Hinv Href Hq). eexists. split; [done|right].
    rewrite <-(ref_clock _ _ Href). by constructor.
  - apply QueueOrder_false in Hq as ->. exists s. by split; [|left].
  - exists s. split; [by eapply refines_hidden|by left].
  - exists s. split; [by eapply refines_hidden|by left].
  - exists s. split; [by eapply refines_hidden|by left].
  - destruct (refines_release _ _ _ _ _ Hinv Href Hp). eexists. split; [done|right].
    rewrite <-(ref_clock _ _ Href). by constructor.
  - exists (mkScheduler (busy s) (not_before s) t).
    assert (clock q ≤ t) as Hle by (specialize (Hat 0); lia). split.
    + split; [done|apply Href| |]; simpl.
      * intros id u [Hlk _]%map_lookup_filter_Some. by apply Href.
      * intros id u Hlk. rewrite map_lookup_filter_Some. simpl. specialize (Hat id).
        destruct (ref_passed _ _ Href _ _ Hlk); [|right; lia].
        destruct (decide (u < at_ id)); [right; lia|by left].
    + right. constructor. by rewrite (ref_clock _ _ Href).
  - exists (mkScheduler (busy s) (not_before s) t). split.
    + split; [done|apply Href|apply Href|]. simpl. intros id u Hlk.
      destruct (ref_passed _ _ Href _ _ Hlk); [by left|right; lia].
    + right. constructor. by rewrite (ref_clock _ _ Href).
Qed.

Lemma run_refines start h q :
  queue_run delay cap start h q →
  ∃ s, sched_run delay start (concat (visible <$> h)) s ∧ refines q s.
Proof.
  induction 1 as [|h q evs q' Hrun (s&Hs&Href) Hstep].
  - eexists. split; [constructor|apply refines_new].
  - destruct (step_refines _ _ _ _ (run_inv _ _ _ _ _ Hrun) Href Hstep) as (s'&Href'&Hor).
    exists s'. split; [|done]. rewrite concat_fmap_app.
    destruct Hor as [[-> ->]|Hsched]; [by rewrite app_nil_r|by econstructor].
Qed.
End refinement.

(** ** Properties *)

(** C7. The queue implements the scheduler.  Every run of the queue, under any
    interleaving of the dispatcher, the pop goroutines and the cleanup, is a run of
    the abstract scheduler with the same admissions and releases at the same times;
    in the state it reaches, [QueueOrder] accepts an order exactly when the scheduler
    may admit it and the channel has room. *)
Theorem queue_refines_scheduler delay cap start h q :
  queue_run delay cap start h q →
  ∃ s, sched_run delay start (concat (visible <$> h)) s ∧ refines q s ∧
    ∀ order, (QueueOrder cap order q).1 = true ↔
             may_admit s order ∧ (length (orderChan q) < cap)%nat.
Proof.
  intros Hrun. destruct (run_refines _ _ _ _ _ Hrun) as (s&Hs&Href).
  exists s. split_and!; [done..|]. intros order.
  apply QueueOrder_may_admit; [by eapply run_inv|done].
Qed.

(** The sample run of [OrderQueue]: at the end the order is busy again. *)
Lemma queue_refines_scheduler_witness :
  ∃ s, sched_run (30 * Second) 0
         [Admit 0 queue_order; Release 0 queue_order; Admit (45 * Second) queue_order] s ∧
       refines queue_state s.
Proof.
  destruct (queue_refines_scheduler _ _ _ _ _ queue_sample_run) as (s&Hs&Href&_).
  exists s. by split.
Defined.
