(* ===== verification/Fulfillment.v ===== *)
(** * Fulfillment: orderfulfiller/order_fulfillment_handler and orderfulfiller.go

    Deciding the status of an order from both chains, filling it on its
    destination chain when every guard passes, and initiating the timeout of
    expired orders.  Each goroutine's iteration (a fill worker handling an order, a
    pass of the timeout worker) is one computation; metrics and logging are left
    out. *)
From Stdlib Require Import Strings.Byte.
From S2P Require Import Prelude GoLib Config Database World Interfaces OrderQueue.

Definition nil_dereference : string := "invalid memory address or nil pointer dereference".

(** ** Guards *)

Definition isOrderExpired (expirationTs : Time) (order : Order) : bool :=
  o_TimeoutTimestamp order <? expirationTs.

(** Whether the fee is at least [minFeeBps] of the amount in, and the difference
    in basis points. *)
Definition IsWithinBpsRange (minFeeBps : Z) (amountIn amountOut : string) : result (bool * Z) :=
  match bigint_SetString amountIn with
  | None => Err (ErrNew ("converting amount in " +:+ amountIn +:+ " to *big.Int"))
  | Some in_ =>
  match bigint_SetString amountOut with
  | None => Err (ErrNew ("converting amount out " +:+ amountOut +:+ " to *big.Int"))
  | Some out =>
      let minAcceptableFeeScaled := minFeeBps * in_ in
      let feeAmount := in_ - out in
      let feeAmountScaled := feeAmount * 10000 in
      if in_ =? 0 then Panic "division by zero" else
      let actualBps := bigint_Int64 (bigint_Div feeAmountScaled in_) in
      let bpsDiff := i64 (minFeeBps - actualBps) in
      Ok (minAcceptableFeeScaled <=? feeAmountScaled, bpsDiff)
  end end.

(** The outcome of the size check: within the limits, or the reason not to fill. *)
Definition transfer_size (destinationChainConfig : ChainConfig) (orderFill : Order) :
    result (option string) :=
  match bigint_SetString (o_AmountIn orderFill) with
  | None => Err (ErrNew ("could not convert order amount in " +:+ o_AmountIn orderFill
                         +:+ " to *big.Int"))
  | Some amountIn =>
      match Cosmos destinationChainConfig with
      | None => Panic nil_dereference
      | Some cosmos =>
          match cosmos_MinFillSize cosmos, cosmos_MaxFillSize cosmos with
          | None, _ => Panic nil_dereference
          | Some minFillSize, max =>
              if amountIn <? minFillSize then
                Ok (Some ("transfer amount is below configured min fill size for chain "
                          +:+ o_DestinationChainID orderFill))
              else match max with
              | None => Panic nil_dereference
              | Some maxFillSize =>
                  if maxFillSize <? amountIn then
                    Ok (Some ("transfer amount exceeds configured max fill size for chain"
                              +:+ o_DestinationChainID orderFill))
                  else Ok None
              end
          end
      end
  end.

Section handler.
Context {E : Type} `{Env E, !RelayService E}.
Notation IO := (M (World E)).
Context (cfg : configReader).

(** [SetOrderStatus] on an order. *)
Definition set_order_status (order : Order) (status : string) (msg : option string) : IO Order :=
  db_exec (SetOrderStatus status msg (o_SourceChainID order) (o_OrderID order)
             (o_SourceChainGatewayContractAddress order)).

Definition abandon (order : Order) (reason : string) : IO unit :=
  _ ← wrap_err "failed to set fill status to abandoned: "
    (set_order_status order OrderStatusAbandoned (Some reason));
  mret tt.

Definition UpdateFulfillmentStatus (order : Order) : IO string :=
  _ ← wrap_err "failed to get client: " (ask (GetClient (o_SourceChainID order)));
  _ ← wrap_err "failed to get client: " (ask (GetClient (o_DestinationChainID order)));
  gateway ← wrap_err ("getting gateway contract address for destination chainID "
                      +:+ o_DestinationChainID order +:+ ": ")
    (lift_result (GetGatewayContractAddress cfg (o_DestinationChainID order)));
  r ← wrap_err ("querying for order fill event on chainID " +:+ o_DestinationChainID order
                +:+ " at contract " +:+ gateway +:+ " for order " +:+ o_OrderID order +:+ ": ")
    (ask (QueryOrderFillEvent (o_DestinationChainID order) gateway (o_OrderID order)));
  match r : option OrderFillEvent * Time with
  | (Some orderFillEvent, _) =>
      _ ← db_exec (SetFillTx (Some (ofe_TxHash orderFillEvent)) (Some (ofe_Filler orderFillEvent))
                     OrderStatusFilled (o_SourceChainID order) (o_OrderID order)
                     (o_SourceChainGatewayContractAddress order));
      mret OrderStatusFilled
  | (None, timestamp) =>
      if negb (isOrderExpired timestamp order) then mret OrderStatusPending else
      refund ← wrap_err ("querying orderID " +:+ o_OrderID order +:+ " has been refunded on chainID "
                         +:+ o_SourceChainID order +:+ ": ")
        (ask (IsOrderRefunded (o_SourceChainID order) (o_SourceChainGatewayContractAddress order)
                (o_OrderID order)));
      let '(isRefunded, refundTxHash) := refund : bool * string in
      if isRefunded then
        _ ← wrap_err ("setting refund tx for orderID " +:+ o_OrderID order +:+ ": ")
          (db_exec (SetRefundTx (Some refundTxHash) OrderStatusRefunded (o_SourceChainID order)
                      (o_OrderID order) (o_SourceChainGatewayContractAddress order)));
        mret OrderStatusRefunded
      else
        _ ← set_order_status order OrderStatusExpiredPendingRefund None;
        mret OrderStatusExpiredPendingRefund
  end.

Definition checkTransferSize (destinationChainConfig : ChainConfig) (order : Order) : IO bool :=
  size ← lift_result (transfer_size destinationChainConfig order);
  match size with
  | None => mret true
  | Some abandonmentReason => _ ← abandon order abandonmentReason; mret false
  end.

Definition checkFeeAmount (order : Order) : IO bool :=
  sourceChain ← wrap_err ("getting config for chainID " +:+ o_SourceChainID order +:+ ": ")
    (lift_result (GetChainConfig cfg (o_SourceChainID order)));
  r ← wrap_err ("checking if order fee for orderID " +:+ o_OrderID order
                +:+ " is within min bps range: ")
    (lift_result (IsWithinBpsRange (MinFeeBps sourceChain) (o_AmountIn order)
                    (o_AmountOut order)));
  let '(isWithinBpsRange, bpsDiff) := r : bool * Z in
  if isWithinBpsRange then mret true else
  _ ← abandon order ("solver fee for order below configured min fee bps of "
                     +:+ strconv_Itoa (MinFeeBps sourceChain));
  mret false.

Definition checkOrderAssetBalance (destinationChainConfig : ChainConfig) (order : Order) : IO bool :=
  balance ← ask (Balance (o_DestinationChainID order) (SolverAddress destinationChainConfig)
                   (USDCDenom destinationChainConfig));
  transferAmount ← lift_result (strconv_ParseUint (o_AmountOut order));
  mret (transferAmount <=? balance).

(** The confirmations a fill waits for, in machine integers: [int64] addition,
    then the conversion to [uint64]. *)
Definition confirmation_height (sourceChainConfig : ChainConfig) (order : Order) : Z :=
  u64 (i64 (o_OrderCreationTxBlockHeight order
            + NumBlockConfirmationsBeforeFill sourceChainConfig)).

(** Note the result when the order does not exist: the order is abandoned and the
    check passes. *)
Definition checkBlockConfirmations (sourceChainConfig : ChainConfig) (order : Order) : IO bool :=
  height ← wrap_err "failed to get block height: " (ask (BlockHeight (o_SourceChainID order)));
  if height <? confirmation_height sourceChainConfig order then mret false else
  ex ← ask (OrderExists (o_SourceChainID order) (o_SourceChainGatewayContractAddress order)
              (o_OrderID order) (o_OrderCreationTxBlockHeight order));
  let '(exists_, _) := ex : bool * option Z in
  _ ← (if exists_ then mret tt else abandon order "reorged");
  mret true.

(** ** Filling *)

Definition submitted_order_tx (order : Order) (txHash rawTx type : string) : InsertSubmittedTxParams :=
  mkInsertSubmittedTxParams (Some (o_ID order)) None None None (o_DestinationChainID order) txHash
    rawTx type TxStatusPending.

(** Sending the fill and recording it. *)
Definition send_fill (order : Order) (gateway : string) : IO string :=
  r ← wrap_err ("filling order on destination chain at address " +:+ gateway +:+ ": ")
    (ask (FillOrderTx (o_DestinationChainID order) order gateway));
  let '(txHash, rawTx) := r : string * string in
  _ ← wrap_err "failed to insert raw tx "
    (db_exec (InsertSubmittedTx (submitted_order_tx order txHash rawTx TxTypeOrderFill)));
  mret txHash.

Definition FillOrder (order : Order) : IO string :=
  _ ← wrap_err "failed to get client: " (ask (GetClient (o_SourceChainID order)));
  _ ← wrap_err "failed to get client: " (ask (GetClient (o_DestinationChainID order)));
  sourceChainConfig ← lift_result (GetChainConfig cfg (o_SourceChainID order));
  destinationChainConfig ← lift_result (GetChainConfig cfg (o_DestinationChainID order));
  gateway ← lift_result (GetGatewayContractAddress cfg (o_DestinationChainID order));
  withinTransferLimits ← wrap_err ("checking transfer size for order " +:+ o_OrderID order +:+ ": ")
    (checkTransferSize destinationChainConfig order);
  if negb withinTransferLimits then mret ""%string else
  acceptableFee ← wrap_err ("checking fee amount for order " +:+ o_OrderID order +:+ ": ")
    (checkFeeAmount order);
  if negb acceptableFee then mret ""%string else
  adequateBalance ← wrap_err "failed to check balance: "
    (checkOrderAssetBalance destinationChainConfig order);
  if negb adequateBalance then throw (ErrNew "insufficient balance") else
  submittedTxs ← wrap_err "failed to get submitted txs: "
    (db_exec (GetSubmittedTxsByOrderIdAndType (Some (o_ID order)) TxTypeOrderFill));
  if (0 <? length submittedTxs)%nat then mret ""%string else
  confirmed ← wrap_err "failed to check block confirmations: "
    (checkBlockConfirmations sourceChainConfig order);
  if negb confirmed then mret ""%string else
  send_fill order gateway.

(** ** Timeouts *)

(** Sending the timeout and recording it. *)
Definition send_timeout (order : Order) (gateway : string) : IO string :=
  r ← wrap_err "initiating timeout: "
    (ask (InitiateTimeoutTx (o_DestinationChainID order) order gateway));
  let '(txHash, rawTx) := r : string * string in
  if (txHash =? "")%string then
    throw (ErrNew ("empty tx hash after submitting order for timeout to address " +:+ gateway))
  else
  _ ← wrap_err "failed to insert raw tx "
    (db_exec (InsertSubmittedTx (submitted_order_tx order txHash rawTx TxTypeInitiateTimeout)));
  mret txHash.

Definition InitiateTimeout (order : Order) : IO string :=
  _ ← wrap_err "failed to get client: " (ask (GetClient (o_DestinationChainID order)));
  gateway ← lift_result (GetGatewayContractAddress cfg (o_DestinationChainID order));
  submittedTxs ← wrap_err "failed to get submitted txs: "
    (db_exec (GetSubmittedTxsByOrderIdAndType (Some (o_ID order)) TxTypeInitiateTimeout));
  match submittedTxs with
  | _ :: _ :: _ =>
      throw (ErrNew ("got more " +:+ strconv_Itoa (Z.of_nat (length submittedTxs))
                     +:+ " submitted tx's for order "
                     +:+ default ""%string (o_OrderStatusMessage order) +:+ " with type "
                     +:+ TxTypeInitiateTimeout +:+ ", expected only 1"))
  | [tx] => mret (st_TxHash tx)
  | [] => send_timeout order gateway
  end.

(** Five attempts. *)
Definition SubmitTimeoutForRelay (order : Order) (txHash : string) : IO unit :=
  r ← retry_last 4 (relay_SubmitTxToRelay txHash (o_DestinationChainID order) None);
  match r with
  | inr _ => mret tt
  | inl err =>
      throw (ErrWrap ("submitting settlement tx hash " +:+ txHash +:+ " to be relayed from chain "
                      +:+ o_DestinationChainID order +:+ " to chain " +:+ o_SourceChainID order
                      +:+ ": ") err)
  end.

(** ** Workers *)

(** One iteration of the dispatcher. *)
Definition dispatch_tick (queueCapacity : nat) (q : OrderQueue) : IO OrderQueue :=
  r ← attempt (db_exec (GetAllOrdersWithOrderStatus OrderStatusPending));
  mret match r with
       | inl _ => q
       | inr orders => foldl (λ q order, (QueueOrder queueCapacity order q).2) q orders
       end.

(** A fill worker handling an order it popped. *)
Definition fill_worker (shouldFillOrders : bool) (order : Order) : IO unit :=
  r ← attempt (UpdateFulfillmentStatus order);
  match r with
  | inl _ => mret tt
  | inr fulfillmentStatus =>
      if (fulfillmentStatus =? OrderStatusPending)%string && shouldFillOrders
      then _ ← attempt (FillOrder order); mret tt
      else mret tt
  end.

Definition timeout_order (shouldRefundOrders : bool) (order : Order) : IO unit :=
  r ← attempt (UpdateFulfillmentStatus order);
  match r with
  | inl _ => mret tt
  | inr fulfillmentStatus =>
      if negb shouldRefundOrders || negb (fulfillmentStatus =? OrderStatusExpiredPendingRefund)%string
      then mret tt else
      t ← attempt (InitiateTimeout order);
      match t with
      | inl _ => mret tt
      | inr txHash => _ ← attempt (SubmitTimeoutForRelay order txHash); mret tt
      end
  end.

(** A pass of the timeout worker. *)
Definition timeout_tick (shouldRefundOrders : bool) : IO unit :=
  r ← attempt (db_exec (GetAllOrdersWithOrderStatus OrderStatusExpiredPendingRefund));
  match r with
  | inl _ => mret tt
  | inr orders => for_each orders (timeout_order shouldRefundOrders)
  end.
End handler.

(** ** Lemmas: the fee check *)

(** The check by cross multiplication and the basis points it reports agree. *)
Lemma bps_le minFee in_ fee : 0 < in_ → minFee * in_ ≤ fee * 10000 ↔ minFee ≤ fee * 10000 / in_.
Proof.
  intros Hin. split.
  - intros Hle. apply Z.div_le_lower_bound; lia.
  - intros Hle. pose proof (Z.mul_div_le (fee * 10000) in_ Hin). nia.
Qed.

(** ** Lemmas: filling *)

(** What is checked before an order is filled: the configured limits on its size
    and its fee, and, in the answers [asked] since the start, a balance of the
    solver that covers the amount out, a block height with enough confirmations,
    and that the source chain was asked for the order. *)
Definition fill_guards (cfg : configReader) (order : Order) (d : Database) (asked : list event) :
    Prop :=
  ∃ src dst cosmos minFill maxFill amountIn amountOut,
    GetChainConfig cfg (o_SourceChainID order) = Ok src ∧
    GetChainConfig cfg (o_DestinationChainID order) = Ok dst ∧
    Cosmos dst = Some cosmos ∧ cosmos_MinFillSize cosmos = Some minFill ∧
    cosmos_MaxFillSize cosmos = Some maxFill ∧
    bigint_SetString (o_AmountIn order) = Some amountIn ∧
    bigint_SetString (o_AmountOut order) = Some amountOut ∧
    minFill ≤ amountIn ≤ maxFill ∧
    MinFeeBps src * amountIn ≤ (amountIn - amountOut) * 10000 ∧
    (∃ balance, amountOut ≤ balance ∧
       existT (Balance (o_DestinationChainID order) (SolverAddress dst) (USDCDenom dst))
         (inr balance) ∈ asked) ∧
    (∃ height, confirmation_height src order ≤ height ∧
       existT (BlockHeight (o_SourceChainID order)) (inr height) ∈ asked) ∧
    (∃ answer,
       existT (OrderExists (o_SourceChainID order) (o_SourceChainGatewayContractAddress order)
                 (o_OrderID order) (o_OrderCreationTxBlockHeight order)) (inr answer) ∈ asked) ∧
    (∀ tx, tx ∈ submitted_txs d → st_OrderID tx = Some (o_ID order) →
       st_TxType tx ≠ TxTypeOrderFill).

(** A run that sends at most one transaction, the fill of [order], and that one
    after its guards. *)
Definition fills_at_most_once {E} (cfg : configReader) (order : Order) (w w' : World E) : Prop :=
  emits read_only w w' ∨
  ∃ pre gateway a post,
    w_trace w' = w_trace w ++ pre
                 ++ existT (FillOrderTx (o_DestinationChainID order) order gateway) a :: post ∧
    Forall (λ ev, read_only (projT1 ev)) (pre ++ post) ∧
    GetGatewayContractAddress cfg (o_DestinationChainID order) = Ok gateway ∧
    fill_guards cfg order (w_db w) pre.

(** The fill is recorded: the answer to it is the last submitted transaction. *)
Definition fill_recorded (order : Order) (txHash : string) (d d' : Database) : Prop :=
  ∃ tx, submitted_txs d' = submitted_txs d ++ [tx] ∧ st_OrderID tx = Some (o_ID order) ∧
    st_ChainID tx = o_DestinationChainID order ∧ st_TxHash tx = txHash ∧
    st_TxType tx = TxTypeOrderFill ∧ st_TxStatus tx = TxStatusPending.

Section fill_lemmas.
Context {E : Type} `{Env E}.
Context (cfg : configReader) (order : Order).
Implicit Types w : World E.

Lemma wp_checkTransferSize dst w :
  wp (checkTransferSize dst order)
    (λ r w', emits read_only w w' ∧ submitted_txs (w_db w') = submitted_txs (w_db w) ∧
       (r = Ok true → ∃ cosmos minFill maxFill amountIn,
          Cosmos dst = Some cosmos ∧ cosmos_MinFillSize cosmos = Some minFill ∧
          cosmos_MaxFillSize cosmos = Some maxFill ∧
          bigint_SetString (o_AmountIn order) = Some amountIn ∧ minFill ≤ amountIn ≤ maxFill)) w.
Proof.
  unfold checkTransferSize, transfer_size, abandon, set_order_status. wp_steps; cbn [fst snd].
  all: try (split_and!; [by solve_emits|done|done]).
  all: split_and!; [by solve_emits|done|]; intros; simplify_eq/=.
  all: repeat case_match; simplify_eq.
  do 4 eexists. split_and!; try done; lia.
Qed.

Lemma wp_checkFeeAmount w :
  wp (checkFeeAmount cfg order)
    (λ r w', emits read_only w w' ∧ submitted_txs (w_db w') = submitted_txs (w_db w) ∧
       (r = Ok true → ∃ src amountIn amountOut,
          GetChainConfig cfg (o_SourceChainID order) = Ok src ∧
          bigint_SetString (o_AmountIn order) = Some amountIn ∧
          bigint_SetString (o_AmountOut order) = Some amountOut ∧
          MinFeeBps src * amountIn ≤ (amountIn - amountOut) * 10000)) w.
Proof.
  unfold checkFeeAmount, IsWithinBpsRange, abandon, set_order_status. wp_steps; cbn [fst snd].
  all: try (split_and!; [by solve_emits|done|done]).
  all: split_and!; [by solve_emits|done|]; intros; simplify_eq/=.
  all: repeat case_match; simplify_eq.
  do 3 eexists. split_and!; try done. by apply Z.leb_le.
Qed.

Lemma wp_checkOrderAssetBalance dst w :
  wp (checkOrderAssetBalance dst order)
    (λ r w', emits read_only w w' ∧ w_db w' = w_db w ∧
       (r = Ok true → ∃ balance amountOut,
          bigint_SetString (o_AmountOut order) = Some amountOut ∧ amountOut ≤ balance ∧
          asked w w' (existT (Balance (o_DestinationChainID order) (SolverAddress dst)
                                (USDCDenom dst)) (inr balance)))) w.
Proof.
  unfold checkOrderAssetBalance. wp_steps; (split_and!; [by solve_emits|done|intros]); try done.
  simplify_eq/=. eexists _, _. split_and!; [by apply strconv_ParseUint_SetString|by apply Z.leb_le|].
  solve_asked.
Qed.

Lemma wp_checkBlockConfirmations src w :
  wp (checkBlockConfirmations src order)
    (λ r w', emits read_only w w' ∧ submitted_txs (w_db w') = submitted_txs (w_db w) ∧
       (r = Ok true →
          (∃ height, confirmation_height src order ≤ height ∧
             asked w w' (existT (BlockHeight (o_SourceChainID order)) (inr height))) ∧
          ∃ answer, asked w w' (existT (OrderExists (o_SourceChainID order)
            (o_SourceChainGatewayContractAddress order) (o_OrderID order)
            (o_OrderCreationTxBlockHeight order)) (inr answer)))) w.
Proof.
  unfold checkBlockConfirmations, abandon, set_order_status.
  wp_steps; (split_and!; [by solve_emits|done|intros]); try done.
  all: split; [eexists; split; [by apply Z.ltb_ge|]|eexists].
  all: solve_asked.
Qed.

(** What a run of [FillOrder] does. *)
Definition fill_post (r : result string) w w' : Prop :=
  fills_at_most_once cfg order w w' ∧
  ∀ h, r = Ok h → emits read_only w w' ∨
    (fill_recorded order h (w_db w) (w_db w') ∧
     ∃ gateway rawTx,
       asked w w' (existT (FillOrderTx (o_DestinationChainID order) order gateway)
                     (inr (h, rawTx)))).

Lemma fill_post_quiet r w w' : emits read_only w w' → fill_post r w w'.
Proof. intros Hem. split; [by left|]. intros. by left. Qed.

(** Sending the fill once the guards have passed. *)
Lemma wp_send_fill gateway w w1 :
  emits read_only w w1 → submitted_txs (w_db w1) = submitted_txs (w_db w) →
  GetGatewayContractAddress cfg (o_DestinationChainID order) = Ok gateway →
  (∀ pre, w_trace w1 = w_trace w ++ pre → fill_guards cfg order (w_db w) pre) →
  wp (send_fill order gateway) (λ r w', fill_post r w w') w1.
Proof.
  intros Hem Htx Hg Hguards.
  assert (∀ a post w', w_trace w' = (w_trace w1
      ++ [existT (FillOrderTx (o_DestinationChainID order) order gateway) a]) ++ post →
      Forall (λ ev, read_only (projT1 ev)) post → fills_at_most_once cfg order w w') as Hsent.
  { intros a post w' Hw' Hpost. right.
    destruct (sent_between _ _ _ _ _ _ _ Hem Hw' Hpost) as (pre&Hpre&?&?).
    exists pre, gateway, a, post. split_and!; auto. }
  unfold send_fill. wp_steps.
  - split; [|done]. eapply (Hsent _ []); [rewrite app_nil_r; reflexivity|done].
  - split; [|done]. eapply (Hsent _ [_]); [reflexivity|by repeat constructor].
  - match goal with Hi : (InsertSubmittedTx _ _ _).1 = Ok _ |- _ =>
      apply InsertSubmittedTx_ok in Hi as [-> ->] end.
    split; [eapply (Hsent _ [_]); [reflexivity|by repeat constructor]|].
    intros h [= <-]. right. split.
    + eexists. simpl. rewrite Htx. split_and!; reflexivity.
    + eexists _, _. refine (asked_earlier read_only _ _ _ _ Hem _). solve_asked.
  - split; [|done]. eapply (Hsent _ [_]); [reflexivity|by repeat constructor].
  - split; [|done]. eapply (Hsent _ [_]); [reflexivity|by repeat constructor].
Qed.

Lemma wp_FillOrder w : wp (FillOrder cfg order) (λ r w', fill_post r w w') w.
Proof.
  unfold FillOrder. wp_steps; try (by apply fill_post_quiet; solve_emits).
  eapply wp_mono; [|apply wp_checkTransferSize]. intros r1 w1 (Hem1&Htx1&Hsize).
  match type of Hem1 with emits _ ?w0 _ =>
    assert (emits read_only w w0) as Hem0 by solve_emits end.
  assert (emits read_only w w1) as Hw1 by (by etransitivity).
  destruct r1 as [[]|err|p]; try (by try apply wp_ret; apply fill_post_quiet). specialize (Hsize eq_refl).
  cbn [negb]. wp_steps. eapply wp_mono; [|apply wp_checkFeeAmount]. intros r2 w2 (Hem2&Htx2&Hfee).
  assert (emits read_only w w2) as Hw2 by (by etransitivity).
  destruct r2 as [[]|err|p]; try (by try apply wp_ret; apply fill_post_quiet). specialize (Hfee eq_refl).
  cbn [negb]. wp_steps. eapply wp_mono; [|apply wp_checkOrderAssetBalance]. intros r3 w3 (Hem3&Hdb3&Hbal).
  assert (emits read_only w w3) as Hw3 by (by etransitivity).
  destruct r3 as [[]|err|p]; try (by try apply wp_ret; apply fill_post_quiet). specialize (Hbal eq_refl).
  cbn [negb]. wp_steps; try (by apply fill_post_quiet; solve_emits).
  eapply wp_mono; [|apply wp_checkBlockConfirmations]. intros r4 w4 (Hem4&Htx4&Hconf).
  match type of Hem4 with emits _ ?w0 _ =>
    assert (emits read_only w3 w0) as Hem3' by solve_emits end.
  assert (emits read_only w w4) as Hw4 by (etransitivity; [exact Hw3|by etransitivity]).
  destruct r4 as [[]|err|p]; try (by try apply wp_ret; apply fill_post_quiet).
  destruct (Hconf eq_refl) as [(height&Hh&Hasked1) (answer&Hasked2)]. clear Hconf.
  cbn [negb]. wp_steps. apply wp_send_fill; [done| |done|].
  { rewrite Htx4. simpl. by rewrite Hdb3, Htx2, Htx1. }
  intros pre Hpre.
  destruct Hsize as (cosmos&minFill&maxFill&amountIn&?&?&?&Hin&?).
  destruct Hfee as (src&in2&amountOut&?&Hin2&Hout&?).
  destruct Hbal as (balance&out2&Hout2&?&Hasked0). simplify_eq.
  assert (a = src) as -> by congruence.
  unfold fill_guards. do 7 eexists. split_and!; try eassumption; try reflexivity; try lia.
  - eexists. split; [eassumption|]. eapply asked_new, Hpre.
    refine (asked_later read_only _ w3 _ _ (asked_earlier read_only _ _ _ _ Hw2 Hasked0) _).
    by etransitivity.
  - eexists. split; [exact Hh|]. eapply asked_new, Hpre.
    refine (asked_earlier read_only _ _ _ _ _ Hasked1). exact (transitivity Hw3 Hem3').
  - eexists. eapply asked_new, Hpre.
    refine (asked_earlier read_only _ _ _ _ _ Hasked2). exact (transitivity Hw3 Hem3').
  - intros tx Htx Hid Hty. simplify_eq/=.
    match goal with Hl : (0 <? length ?l)%nat = false |- _ =>
      assert (l = []) as Hnil by (apply nil_length_inv; apply Nat.ltb_ge in Hl; lia) end.
    rewrite Hdb3, Htx2, Htx1 in Hnil. simpl in Hnil.
    eapply (in_nil (a := tx)). rewrite <-Hnil. apply List.filter_In.
    split; [by apply list_elem_of_In|]. rewrite Hid, Hty. simpl.
    by rewrite bool_decide_eq_true_2.
Qed.
End fill_lemmas.

(** ** Lemmas: the status of an order *)

Definition at_order (order : Order) : Order → bool :=
  order_at (o_SourceChainID order) (o_OrderID order) (o_SourceChainGatewayContractAddress order).

Section status.
Context {E : Type} `{Env E}.
Context (cfg : configReader) (order : Order).
Implicit Types w : World E.

(** The fill event the destination chain reported, with its block time. *)
Definition fill_event w w' (ev : option OrderFillEvent) (t : Time) : Prop :=
  ∃ gateway, asked w w' (existT (QueryOrderFillEvent (o_DestinationChainID order) gateway
                                   (o_OrderID order)) (inr (ev, t))).
Definition refund_answer w w' (refunded : bool) (tx : string) : Prop :=
  asked w w' (existT (IsOrderRefunded (o_SourceChainID order)
    (o_SourceChainGatewayContractAddress order) (o_OrderID order)) (inr (refunded, tx))).

(** Why an order has a status, and what its row becomes at time [now]. *)
Inductive fulfillment w w' : string → (Time → Order → Order) → Prop :=
  | ff_filled ev t :
      fill_event w w' (Some ev) t →
      fulfillment w w' OrderStatusFilled (λ now o,
        order_set now (Some (ofe_Filler ev)) (Some (ofe_TxHash ev)) (o_RefundTx o)
          OrderStatusFilled (o_OrderStatusMessage o) o)
  | ff_pending t :
      fill_event w w' None t → t ≤ o_TimeoutTimestamp order →
      fulfillment w w' OrderStatusPending (λ _ o, o)
  | ff_refunded t tx :
      fill_event w w' None t → o_TimeoutTimestamp order < t → refund_answer w w' true tx →
      fulfillment w w' OrderStatusRefunded (λ now o,
        order_set now (o_Filler o) (o_FillTx o) (Some tx) OrderStatusRefunded
          (o_OrderStatusMessage o) o)
  | ff_expired t tx :
      fill_event w w' None t → o_TimeoutTimestamp order < t → refund_answer w w' false tx →
      fulfillment w w' OrderStatusExpiredPendingRefund (λ now o,
        order_set now (o_Filler o) (o_FillTx o) (o_RefundTx o) OrderStatusExpiredPendingRefund
          None o).

Definition status_post (r : result string) w w' : Prop :=
  emits read_only w w' ∧
  match r with
  | Ok s => ∃ f now, fulfillment w w' s f ∧
      w_db w' = with_orders (update_rows (at_order order) (f now)) (w_db w)
  | _ => w_db w' = w_db w
  end.

Lemma update_rows_id {R} (p : R → bool) t : update_rows p (λ r, r) t = t.
Proof.
  unfold update_rows. induction t as [|r t IH]; [done|]. rewrite fmap_cons, IH. by destruct (p r).
Qed.

Lemma wp_UpdateFulfillmentStatus w :
  wp (UpdateFulfillmentStatus cfg order) (λ r w', status_post r w w') w.
Proof.
  unfold UpdateFulfillmentStatus, set_order_status, SetFillTx, SetRefundTx, SetOrderStatus.
  wp_steps; try (split; [by solve_emits|done]).
  all: try match goal with Hu : (update_order ?a ?b ?c ?f ?d).1 = _ |- _ =>
    destruct (update_order_cases a b c f d) as [(?&Hx&Hy)|(?&Hx&Hy)]; rewrite Hx in Hu;
    try discriminate Hu; (split; [by solve_emits|]); simpl; rewrite ?Hy; try done end.
  all: try match goal with Hn : negb (isOrderExpired _ _) = _ |- _ =>
    unfold isOrderExpired in Hn end.
  - eexists _, _. split; [eapply ff_filled; eexists; solve_asked|done].
  - split; [by solve_emits|]. exists (λ _ o, o), 0. split.
    + eapply ff_pending; [eexists; solve_asked|]. destruct (Z.ltb_spec (o_TimeoutTimestamp order) t); [done|lia].
    + simpl. unfold with_orders. rewrite update_rows_id. by destruct (w_db w).
  - eexists _, _. split; [eapply ff_refunded; [eexists; solve_asked| |unfold refund_answer; solve_asked]|done].
    destruct (Z.ltb_spec (o_TimeoutTimestamp order) t); [lia|done].
  - eexists _, _. split; [eapply ff_expired; [eexists; solve_asked| |unfold refund_answer; solve_asked]|done].
    destruct (Z.ltb_spec (o_TimeoutTimestamp order) t); [lia|done].
Qed.
End status.

(** ** Lemmas: timeouts *)

Definition order_txs (order : Order) (type : string) (d : Database) : list SubmittedTx :=
  List.filter (λ t, null_eqb (st_OrderID t) (Some (o_ID order)) && bool_decide (st_TxType t = type))
    (submitted_txs d).

(** Why an order is timed out, in the answers [asked]: it expired on the
    destination chain unfilled and was not refunded on the source chain. *)
Definition expired_unfilled (order : Order) (asked : list event) : Prop :=
  ∃ gateway t tx, o_TimeoutTimestamp order < t ∧
    existT (QueryOrderFillEvent (o_DestinationChainID order) gateway (o_OrderID order))
      (inr (None, t)) ∈ asked ∧
    existT (IsOrderRefunded (o_SourceChainID order) (o_SourceChainGatewayContractAddress order)
              (o_OrderID order)) (inr (false, tx)) ∈ asked.

Section timeouts.
Context {E : Type} `{Env E}.
Context (cfg : configReader) (order : Order).
Implicit Types w : World E.

Lemma order_txs_query type c d :
  (GetSubmittedTxsByOrderIdAndType (Some (o_ID order)) type c d).1
  = Ok (order_txs order type d).
Proof. done. Qed.

(** At most one timeout is sent, and none when one is recorded. *)
Definition timeout_sent w w' : Prop :=
  emits read_only w w' ∨
  ∃ pre gateway a post,
    w_trace w' = w_trace w ++ pre
                 ++ existT (InitiateTimeoutTx (o_DestinationChainID order) order gateway) a :: post ∧
    Forall (λ ev, read_only (projT1 ev)) (pre ++ post) ∧
    order_txs order TxTypeInitiateTimeout (w_db w) = [].

Definition timeout_post (r : result string) w w' : Prop :=
  timeout_sent w w' ∧
  ∀ h, r = Ok h → ∃ tx, order_txs order TxTypeInitiateTimeout (w_db w') = [tx] ∧ st_TxHash tx = h.

Lemma wp_send_timeout gateway w w1 :
  emits read_only w w1 → w_db w1 = w_db w →
  order_txs order TxTypeInitiateTimeout (w_db w) = [] →
  wp (send_timeout order gateway) (λ r w', timeout_post r w w') w1.
Proof.
  intros Hem Hdb Hnone.
  assert (∀ a post w', w_trace w' = (w_trace w1
      ++ [existT (InitiateTimeoutTx (o_DestinationChainID order) order gateway) a]) ++ post →
      Forall (λ ev, read_only (projT1 ev)) post → timeout_sent w w') as Hsent.
  { intros a post w' Hw' Hpost. right.
    destruct (sent_between _ _ _ _ _ _ _ Hem Hw' Hpost) as (pre&Hpre&?&?).
    by exists pre, gateway, a, post. }
  unfold send_timeout. wp_steps.
  1,2: split; [eapply (Hsent _ []); [rewrite app_nil_r; reflexivity|done]|done].
  all: split; [eapply (Hsent _ [_]); [reflexivity|by repeat constructor]|]; try done.
  intros h [= <-]. match goal with Hi : (InsertSubmittedTx _ _ _).1 = Ok _ |- _ =>
    apply InsertSubmittedTx_ok in Hi as [-> ->] end.
  eexists. unfold order_txs in *. simpl. rewrite List.filter_app, Hdb, Hnone. simpl.
  by rewrite !bool_decide_eq_true_2 by done.
Qed.

Lemma wp_InitiateTimeout w : wp (InitiateTimeout cfg order) (λ r w', timeout_post r w w') w.
Proof.
  unfold InitiateTimeout. wp_steps; try (split; [left; by solve_emits|done]).
  all: match goal with Hg : (GetSubmittedTxsByOrderIdAndType _ _ _ _).1 = Ok _ |- _ =>
    rewrite order_txs_query in Hg; injection Hg as Hg end.
  - apply wp_send_timeout; [by solve_emits|done|done].
  - split; [left; by solve_emits|]. intros h [= <-]. by eexists.
Qed.

Lemma wp_InitiateTimeout_again w tx :
  order_txs order TxTypeInitiateTimeout (w_db w) = [tx] →
  wp (InitiateTimeout cfg order)
    (λ r w', emits read_only w w' ∧ ∀ h, r = Ok h → h = st_TxHash tx) w.
Proof.
  intros Htx. unfold InitiateTimeout. wp_steps; try (split; [by solve_emits|done]).
  all: match goal with Hg : (GetSubmittedTxsByOrderIdAndType _ _ _ _).1 = Ok _ |- _ =>
    rewrite order_txs_query in Hg; simpl w_db in Hg; rewrite Htx in Hg; injection Hg as Hg end.
  - done.
  - split; [by solve_emits|]. subst. by intros h [= <-].
Qed.

Lemma fulfillment_expired w w' f new :
  fulfillment order w w' OrderStatusExpiredPendingRefund f → w_trace w' = w_trace w ++ new →
  expired_unfilled order new.
Proof.
  intros Hf Ht. inversion Hf as [| | |t tx [gw Hq] Hlt Hr]; try discriminate.
  exists gw, t, tx. split; [done|]. split; eapply asked_new; eauto.
Qed.
End timeouts.

Section workers.
Context {E : Type} `{Env E, !RelayService E, !RelayServiceLaws E}.
Context (cfg : configReader) (order : Order).
Implicit Types w : World E.

(** A pass over an expired order: at most one transaction, the timeout of this
    order, after the answers that justify it. *)
Definition times_out_expired w w' : Prop :=
  emits read_only w w' ∨
  ∃ pre gateway a post,
    w_trace w' = w_trace w ++ pre
                 ++ existT (InitiateTimeoutTx (o_DestinationChainID order) order gateway) a :: post ∧
    Forall (λ ev, read_only (projT1 ev)) (pre ++ post) ∧ expired_unfilled order pre.

Lemma SubmitTimeoutForRelay_reads tx :
  frame (emits (E := E) read_only) (SubmitTimeoutForRelay order tx).
Proof. unfold SubmitTimeoutForRelay. solve_io. Qed.

Lemma times_out_after w w1 w2 :
  times_out_expired w w1 → emits read_only w1 w2 → times_out_expired w w2.
Proof.
  intros [?|(pre&gw&a&post&Ht&Hf&He)] Hem; [left; by etransitivity|right].
  destruct Hem as (new&Ht'&Hnew). exists pre, gw, a, (post ++ new).
  split; [rewrite Ht', Ht, <-!app_assoc; done|].
  split; [rewrite app_assoc; by apply Forall_app|done].
Qed.

Lemma wp_timeout_order refund w :
  wp (timeout_order cfg refund order) (λ _ w', times_out_expired w w') w.
Proof.
  unfold timeout_order. apply wp_bind, wp_attempt.
  eapply wp_mono; [|apply wp_UpdateFulfillmentStatus]. intros r w1 [Hem1 Hr].
  destruct r as [s|err|p]; [|by apply wp_ret; left|by left].
  destruct Hr as (f&now&Hf&_). wp_step; [by apply wp_ret; left|].
  match goal with Ho : _ || _ = false |- _ => apply orb_false_iff in Ho as [_ Hs] end.
  apply negb_false_iff, String.eqb_eq in Hs. subst s.
  apply wp_bind, wp_attempt. eapply wp_mono; [|apply wp_InitiateTimeout].
  intros r w2 [Hsent _].
  assert (times_out_expired w w2) as Hw2.
  { destruct Hem1 as (new&Ht&Hnew). destruct Hsent as [Hem2|(pre&gw&a&post&Ht2&Hf2&_)].
    - left. transitivity w1; [by exists new|done].
    - right. exists (new ++ pre), gw, a, post. split; [by rewrite Ht2, Ht, <-!app_assoc|].
      split; [rewrite <-app_assoc; by apply Forall_app|].
      destruct (fulfillment_expired _ _ _ _ _ Hf Ht) as (gw'&t&tx&?&?&?).
      exists gw', t, tx. split_and!; [done|apply elem_of_app; by left..]. }
  destruct r as [h|err|p]; [|by apply wp_ret|done].
  apply wp_bind, wp_attempt. apply (wp_conseq (emits read_only)).
  { apply SubmitTimeoutForRelay_reads. }
  intros r w3 _ Hem3. wp_steps; by eapply times_out_after.
Qed.
End workers.

(** ** Lemmas: reorganisations *)

(** The environment answers [r] with [v]; the database takes statements. *)
Definition answers {E} `{Env E} (r : request) (v : response r) : Prop :=
  ∀ e, (env_answer r e).1 = inr v.
Definition db_up {E} `{Env E} : Prop := ∀ e, ∃ c, (env_answer DbStmt e).1 = inr c.

(** [SetOrderStatus] to ABANDONED on a row. *)
Definition abandoned (now : Time) (reason : string) (o : Order) : Order :=
  order_set now (o_Filler o) (o_FillTx o) (o_RefundTx o) OrderStatusAbandoned (Some reason) o.

(** The source chain is past the confirmations of an order the solver knows, and
    says that the order does not exist. *)
Definition reorged_away {E} `{Env E} (order : Order) (src : ChainConfig) (w : World E) : Prop :=
  db_up ∧ existsb (at_order order) (orders (w_db w)) = true ∧
  (∃ height, confirmation_height src order ≤ height ∧
     answers (BlockHeight (o_SourceChainID order)) height) ∧
  ∃ amount, answers (OrderExists (o_SourceChainID order) (o_SourceChainGatewayContractAddress order)
                       (o_OrderID order) (o_OrderCreationTxBlockHeight order)) (false, amount).

(** The other guards of [FillOrder] pass. *)
Definition otherwise_fillable {E} `{Env E} (cfg : configReader) (order : Order)
    (src dst : ChainConfig) (w : World E) : Prop :=
  GetChainConfig cfg (o_SourceChainID order) = Ok src ∧
  GetChainConfig cfg (o_DestinationChainID order) = Ok dst ∧
  answers (GetClient (o_SourceChainID order)) tt ∧
  answers (GetClient (o_DestinationChainID order)) tt ∧
  (∃ gateway, GetGatewayContractAddress cfg (o_DestinationChainID order) = Ok gateway) ∧
  transfer_size dst order = Ok None ∧
  (∃ bps, IsWithinBpsRange (MinFeeBps src) (o_AmountIn order) (o_AmountOut order)
          = Ok (true, bps)) ∧
  (∃ balance amount, strconv_ParseUint (o_AmountOut order) = Ok amount ∧ amount ≤ balance ∧
     answers (Balance (o_DestinationChainID order) (SolverAddress dst) (USDCDenom dst)) balance) ∧
  order_txs order TxTypeOrderFill (w_db w) = [].

Section reorg.
Context {E : Type} `{Env E}.
Context (cfg : configReader) (order : Order) (src dst : ChainConfig).
Implicit Types w : World E.

Lemma wp_ask_answer r v Q w :
  answers r v → (∀ e, Q (Ok v) (after r (inr v) e w)) → wp (ask r) Q w.
Proof.
  intros Hv HQ. refine (wp_ask r Q w _). intros a e Ha. specialize (Hv (w_env w)).
  rewrite Ha in Hv. simpl in Hv. subst a. apply HQ.
Qed.

Lemma wp_db_up {A} (q : query A) Q w :
  db_up → (∀ c e, Q (q c (w_db w)).1 (set_db (q c (w_db w)).2 (after DbStmt (inr c) e w))) →
  wp (db_exec q) Q w.
Proof.
  intros Hup HQ. destruct (Hup (w_env w)) as [c0 Hc0].
  apply wp_bind, wp_attempt. refine (wp_ask DbStmt _ w _). intros a e Ha.
  rewrite Ha in Hc0. simpl in Hc0. subst a. unfold wp, run_query. simpl.
  specialize (HQ c0 e). by destruct (q c0 (w_db w)).
Qed.

Lemma update_order_found (f : Order → Order) w :
  existsb (at_order order) (orders (w_db w)) = true →
  ∃ o, update_order (o_SourceChainID order) (o_OrderID order)
         (o_SourceChainGatewayContractAddress order) f (w_db w)
       = (Ok o, with_orders (update_rows (at_order order) f) (w_db w)).
Proof.
  intros Hin. unfold update_order, returned_rows. fold (at_order order).
  destruct (List.filter (at_order order) (orders (w_db w))) as [|o l] eqn:Hf; [|by eexists].
  apply existsb_exists in Hin as (o&Hin&Ho). exfalso. eapply (in_nil (a := o)).
  rewrite <-Hf. by apply List.filter_In.
Qed.

(** The check, run in any later world with the same rows. *)
Lemma wp_confirmations_gone w0 w :
  reorged_away order src w0 → orders (w_db w) = orders (w_db w0) →
  wp (checkBlockConfirmations src order) (λ r w1,
    r = Ok true ∧ emits read_only w w1 ∧
    ∃ now, w_db w1 = with_orders (update_rows (at_order order) (abandoned now "reorged")) (w_db w))
    w.
Proof.
  intros (Hup&Hrow&(height&Hh&Hheight)&amount&Hex) Hsame. rewrite <-Hsame in Hrow.
  unfold checkBlockConfirmations. apply wp_bind, wp_wrap_err, (wp_ask_answer _ _ _ _ Hheight).
  intros e. rewrite (proj2 (Z.ltb_ge _ _) Hh). apply wp_bind, (wp_ask_answer _ _ _ _ Hex).
  intros e1. unfold abandon, set_order_status, SetOrderStatus.
  apply wp_bind, wp_bind, wp_wrap_err, wp_db_up; [done|]. intros c e2. cbn beta.
  lazymatch goal with |- context [update_order _ _ _ _ (w_db ?w1)] =>
    change (w_db w1) with (w_db w) end.
  destruct (update_order_found (abandoned (stmt_ts c) "reorged") w Hrow) as [o Ho].
  unfold abandoned in Ho. rewrite Ho. simpl. apply wp_ret, wp_ret.
  split_and!; [done|by solve_emits|]. by eexists.
Qed.

Lemma checkBlockConfirmations_gone w :
  reorged_away order src w →
  ∃ now w1, checkBlockConfirmations src order w = (Ok true, w1) ∧ emits read_only w w1 ∧
    w_db w1 = with_orders (update_rows (at_order order) (abandoned now "reorged")) (w_db w).
Proof.
  intros Hgone. destruct (wp_confirmations_gone w w Hgone eq_refl) as (Hr&Hem&now&Hdb).
  exists now, (checkBlockConfirmations src order w).2. split_and!; [|done..].
  by rewrite <-Hr, <-surjective_pairing.
Qed.

(** The order is filled with its row abandoned. *)
Definition filled_gone w w' : Prop :=
  ∃ now gateway a, GetGatewayContractAddress cfg (o_DestinationChainID order) = Ok gateway ∧
    asked w w' (existT (FillOrderTx (o_DestinationChainID order) order gateway) a) ∧
    orders (w_db w') = update_rows (at_order order) (abandoned now "reorged") (orders (w_db w)).

Lemma InsertSubmittedTx_orders arg c d : orders (InsertSubmittedTx arg c d).2 = orders d.
Proof. unfold InsertSubmittedTx. by destruct (existsb _ _). Qed.

Lemma wp_send_fill_gone gateway now w w1 :
  emits read_only w w1 → GetGatewayContractAddress cfg (o_DestinationChainID order) = Ok gateway →
  orders (w_db w1) = update_rows (at_order order) (abandoned now "reorged") (orders (w_db w)) →
  wp (send_fill order gateway) (λ _ w', filled_gone w w') w1.
Proof.
  intros Hem Hgw Hrows. unfold send_fill. wp_steps.
  all: eexists now, gateway, _; split_and!; [done|..].
  all: try (refine (asked_earlier read_only _ _ _ _ Hem _); solve_asked).
  all: simpl; rewrite ?InsertSubmittedTx_orders; done.
Qed.

Lemma wp_FillOrder_gone w :
  reorged_away order src w → otherwise_fillable cfg order src dst w →
  wp (FillOrder cfg order) (λ _ w', filled_gone w w') w.
Proof.
  intros Hgone (Hsrc&Hdst&Hc1&Hc2&(gateway&Hgw)&Hsize&(bps&Hbps)&Hbal&Hnone).
  pose proof (proj1 Hgone) as Hup. destruct Hbal as (balance&amount&Hamt&Hle&Hbal).
  unfold FillOrder, checkTransferSize, checkFeeAmount, checkOrderAssetBalance.
  repeat first
    [ rewrite Hsrc | rewrite Hdst | rewrite Hgw | rewrite Hsize | rewrite Hbps | rewrite Hamt
    | rewrite (proj2 (Z.leb_le _ _) Hle) | progress cbn [negb]
    | lazymatch goal with
      | Ha : answers ?r ?v |- wp (ask ?r) ?Q ?w1 => refine (wp_ask_answer r v Q w1 Ha _); intros ?
      | |- wp (db_exec _) _ _ => apply wp_db_up; [assumption|intros ? ?]
      | |- wp (checkBlockConfirmations _ _) _ _ => fail
      | |- _ => wp_step
      end ].
  all: rewrite order_txs_query in *; simpl in *; simplify_eq.
  { rewrite Hnone in *. done. }
  eapply wp_mono; [|apply (wp_confirmations_gone w); done].
  intros r w1 (->&Hem&now&Hdb). cbn [negb]. eapply wp_send_fill_gone; [|done|].
  - etransitivity; [|exact Hem]. by solve_emits.
  - rewrite Hdb. reflexivity.
Qed.
End reorg.

(** ** Properties *)

(** C34. The fee check is exact: for a positive amount in and an amount out not above
    it, an order is accepted exactly when its fee, in whole basis points of the
    amount in, is at least the configured minimum; the difference reported for a
    rejected order is positive. *)
Theorem IsWithinBpsRange_exact minFeeBps in_ out :
  0 ≤ minFeeBps < 2 ^ 31 → 0 < in_ → 0 ≤ out ≤ in_ →
  let actualBps := (in_ - out) * 10000 / in_ in
  IsWithinBpsRange minFeeBps (bigint_String in_) (bigint_String out)
    = Ok (minFeeBps <=? actualBps, minFeeBps - actualBps) ∧ 0 ≤ actualBps ≤ 10000.
Proof.
  intros Hm Hin Hout actualBps. unfold IsWithinBpsRange. rewrite !bigint_SetString_String.
  assert (0 ≤ actualBps ≤ 10000) as Hb.
  { subst actualBps. split; [apply Z.div_pos; lia|].
    apply Z.div_le_upper_bound; [done|]. nia. }
  rewrite (proj2 (Z.eqb_neq in_ 0)) by lia. rewrite bigint_Div_pos by done. fold actualBps.
  unfold bigint_Int64. rewrite !i64_id by (rewrite ?i64_id by lia; lia).
  split; [|done]. do 2 f_equal. apply Bool.eq_iff_eq_true. rewrite !Z.leb_le. by apply bps_le.
Qed.

(** C1. A fill is sent only when it is allowed: whatever the chains answer, a run of
    [FillOrder] sends at most one transaction; when it sends one, it is the fill
    of this order on its destination chain through the configured gateway, the
    amount is within the configured fill sizes, the fee is at least the
    configured minimum, the solver's balance as answered covers the amount out,
    the order has the configured number of confirmations at the height answered,
    the source chain was asked for the order, and no fill of it is on record. *)
Theorem FillOrder_guarded {E} `{Env E} cfg order (w : World E) :
  fills_at_most_once cfg order w (FillOrder cfg order w).2.
Proof. apply (wp_FillOrder cfg order w). Qed.

(** C2. No second fill: once a run of [FillOrder] sent a fill and returned without an
    error, the fill is on record, and every later run on any database that
    extends that one sends nothing. *)
Theorem FillOrder_once {E} `{Env E} cfg order (w w1 w2 : World E) h :
  FillOrder cfg order w = (Ok h, w1) → ¬ emits read_only w w1 →
  db_le (w_db w1) (w_db w2) →
  fill_recorded order h (w_db w) (w_db w1) ∧ emits read_only w2 (FillOrder cfg order w2).2.
Proof.
  intros Hrun Hsent (_&_&Hle&_).
  destruct (wp_run _ _ _ _ _ Hrun (wp_FillOrder cfg order w)) as [_ Hrec].
  destruct (Hrec h eq_refl) as [?|[Hr _]]; [done|]. split; [done|].
  destruct (wp_FillOrder cfg order w2) as [[?|(pre&gw&a&post&_&_&_&Hg)] _]; [done|].
  destruct Hr as (tx&Htxs&Hid&_&_&Hty&_). destruct Hle as (kept&new&Hkept&Hf2).
  rewrite Htxs in Hf2. apply Forall2_app_inv_l in Hf2 as (k1&k2&_&Hk2&->).
  inversion Hk2 as [|? tx' ? ? (_&_&_&Hbase) _]; subst.
  destruct Hg as (?&?&?&?&?&?&?&?&?&?&?&?&?&?&?&?&?&?&?&Hno).
  exfalso. apply (Hno tx').
  - rewrite Hkept. set_solver.
  - rewrite <-Hid. injection Hbase. congruence.
  - rewrite <-Hty. injection Hbase. congruence.
Qed.

(** C22. The status of an order follows the chains: [UpdateFulfillmentStatus] sends no
    transaction; when it returns a status, the answers it got justify it (a fill
    event for FILLED; no fill event and a block time up to the timeout for
    PENDING, past it for the others; a refund on the source chain for REFUNDED,
    none for EXPIRED_PENDING_REFUND), and the only change to the database is the
    corresponding update of this order's row; when it fails, nothing changed. *)
Theorem UpdateFulfillmentStatus_justified {E} `{Env E} cfg order (w w' : World E) r :
  UpdateFulfillmentStatus cfg order w = (r, w') → status_post order r w w'.
Proof. intros Hrun. exact (wp_run _ _ _ _ _ Hrun (wp_UpdateFulfillmentStatus cfg order w)). Qed.

(** Timeouts are initiated once: a run of [InitiateTimeout] that returns a hash
    leaves exactly one timeout transaction on record, the one with this hash, and
    a following run returns the same hash if it returns one and sends nothing. *)
Theorem InitiateTimeout_idempotent {E} `{Env E} cfg order (w w1 : World E) h :
  InitiateTimeout cfg order w = (Ok h, w1) →
  (∃ tx, order_txs order TxTypeInitiateTimeout (w_db w1) = [tx] ∧ st_TxHash tx = h) ∧
  emits read_only w1 (InitiateTimeout cfg order w1).2 ∧
  ∀ h', (InitiateTimeout cfg order w1).1 = Ok h' → h' = h.
Proof.
  intros Hrun. destruct (wp_run _ _ _ _ _ Hrun (wp_InitiateTimeout cfg order w)) as [_ Hh].
  destruct (Hh h eq_refl) as (tx&Htx&<-). split; [by exists tx|].
  exact (wp_InitiateTimeout_again cfg order w1 tx Htx).
Qed.

(** C23. Only expired orders are timed out: a pass of the timeout worker over an order
    sends at most one transaction, the timeout of this order, and only after the
    destination chain answered, past the order's timeout, that it is not filled,
    and the source chain that it is not refunded. *)
Theorem timeout_order_guarded {E} `{Env E, !RelayService E, !RelayServiceLaws E} cfg refund order
    (w : World E) :
  times_out_expired order w (timeout_order cfg refund order w).2.
Proof. apply wp_timeout_order. Qed.

(** C40. An order that a reorganisation removed is abandoned and filled all the same:
    when the order has its confirmations and the source chain answers that it does
    not exist, [checkBlockConfirmations] returns true; all it does is mark the
    order's row ABANDONED ("reorged").  [FillOrder], when the order passes the other
    guards and no fill of it is on record, then sends the fill of this order on its
    destination chain, through the configured gateway, with the row ABANDONED. *)
Theorem FillOrder_fills_reorged {E} `{Env E} cfg order src dst (w : World E) :
  reorged_away order src w → otherwise_fillable cfg order src dst w →
  (∃ now w1, checkBlockConfirmations src order w = (Ok true, w1) ∧ emits read_only w w1 ∧
     w_db w1 = with_orders (update_rows (at_order order) (abandoned now "reorged")) (w_db w)) ∧
  ∃ now gateway a,
    let w' := (FillOrder cfg order w).2 in
    GetGatewayContractAddress cfg (o_DestinationChainID order) = Ok gateway ∧
    asked w w' (existT (FillOrderTx (o_DestinationChainID order) order gateway) a) ∧
    orders (w_db w')
      = update_rows (at_order order) (abandoned now "reorged") (orders (w_db w)).
Proof.
  intros Hgone Hfill. split; [by apply checkBlockConfirmations_gone|].
  exact (wp_FillOrder_gone cfg order src dst w Hgone Hfill).
Qed.

(** ** Witnesses *)

(** An order of 100 USDC with a fee of 30 basis points, from Arbitrum to Osmosis. *)
Definition fill_db : Database :=
  (InsertOrder {| iop_SourceChainID := "42161"; iop_DestinationChainID := "osmosis-1";
     iop_SourceChainGatewayContractAddress := "0xgateway"; iop_Sender := []; iop_Recipient := [];
     iop_AmountIn := "100000000"; iop_AmountOut := "99700000"; iop_Nonce := 1; iop_OrderID := "aa";
     iop_OrderCreationTx := "0xc"; iop_OrderCreationTxBlockHeight := 500;
     iop_OrderStatus := OrderStatusPending; iop_TimeoutTimestamp := 3600 * Second;
     iop_Data := None |} (mkStmt 0 0) empty_db).2.
Definition fill_order : Order :=
  mkOrder 1 0 0 "42161" "osmosis-1" "0xgateway" [] [] "100000000" "99700000" 1 "aa"
    (3600 * Second) "0xc" 500 None None None None OrderStatusPending None.

(** Chains at height 1000 on which the order exists or not, unfilled at [now]. *)
Definition fill_env (exists_ : bool) (now : Time) : Env unit := sim_env (λ r,
  match r as r return error + response r with
  | GetClient _ => inr tt
  | BlockHeight _ => inr 1000
  | Balance _ _ _ => inr 5000000000
  | OrderExists _ _ _ _ => inr (exists_, Some 100000000)
  | QueryOrderFillEvent _ _ _ => inr (None, now)
  | IsOrderRefunded _ _ _ => inr (false, "")
  | FillOrderTx _ _ _ => inr ("0xfill", "raw")
  | InitiateTimeoutTx _ _ _ => inr ("0xtimeout", "raw")
  | r => offline r
  end)%string.
Definition fill_world : World unit := sim_world fill_db.

Lemma IsWithinBpsRange_exact_witness :
  IsWithinBpsRange 20 "100000000" "99700000" = Ok (true, -10).
Proof. apply (IsWithinBpsRange_exact 20 100000000 99700000); lia. Defined.

Lemma FillOrder_once_witness :
  ∃ w1, @FillOrder unit (fill_env true 0) sample_reader fill_order fill_world
          = (Ok "0xfill"%string, w1) ∧
    fill_recorded fill_order "0xfill" fill_db (w_db w1) ∧
    emits read_only w1 (@FillOrder unit (fill_env true 0) sample_reader fill_order w1).2.
Proof.
  destruct (@FillOrder unit (fill_env true 0) sample_reader fill_order fill_world)
    as [r w1] eqn:Hrun.
  assert (r = Ok "0xfill"%string) as -> by (vm_compute in Hrun; congruence).
  exists w1. split; [reflexivity|].
  apply (@FillOrder_once unit (fill_env true 0) sample_reader fill_order fill_world w1 w1 "0xfill"
           Hrun); [|reflexivity].
  intros (new&Ht&Hnew). vm_compute in Hrun. injection Hrun as <-. simpl in Ht. subst new.
  rewrite Forall_forall in Hnew.
  specialize (Hnew (existT (FillOrderTx "osmosis-1" fill_order "osmo1gateway")
                      (inr ("0xfill", "raw"))%string)).
  discriminate Hnew. vm_compute. repeat first [left | right].
Defined.

Lemma UpdateFulfillmentStatus_justified_witness :
  ∃ w', @UpdateFulfillmentStatus unit (fill_env true (4000 * Second)) sample_reader fill_order
          fill_world = (Ok OrderStatusExpiredPendingRefund, w') ∧
    status_post fill_order (Ok OrderStatusExpiredPendingRefund) fill_world w'.
Proof.
  destruct (@UpdateFulfillmentStatus unit (fill_env true (4000 * Second)) sample_reader fill_order
              fill_world) as [r w'] eqn:Hrun.
  pose proof (@UpdateFulfillmentStatus_justified unit (fill_env true (4000 * Second)) _ _ _ _ _
                Hrun) as Hpost.
  assert (r = Ok OrderStatusExpiredPendingRefund) as Hr by (vm_compute in Hrun |- *; congruence).
  rewrite Hr in *. exists w'. split; [reflexivity|exact Hpost].
Defined.

Lemma InitiateTimeout_idempotent_witness :
  ∃ w1, @InitiateTimeout unit (fill_env true 0) sample_reader fill_order fill_world
          = (Ok "0xtimeout"%string, w1) ∧
    emits read_only w1 (@InitiateTimeout unit (fill_env true 0) sample_reader fill_order w1).2.
Proof.
  destruct (@InitiateTimeout unit (fill_env true 0) sample_reader fill_order fill_world)
    as [r w1] eqn:Hrun.
  assert (r = Ok "0xtimeout"%string) as -> by (vm_compute in Hrun; congruence).
  exists w1. split; [reflexivity|].
  apply (@InitiateTimeout_idempotent unit (fill_env true 0) _ _ _ _ _ Hrun).
Defined.

Definition relay_offline : RelayService unit := {|
  relay_SubmitTxToRelay _ _ _ := throw (ErrNew "relayer down");
  relay_CancelRelay _ _ := throw (ErrNew "relayer down") |}.
Lemma relay_offline_laws env : @RelayServiceLaws unit env relay_offline.
Proof. split; intros; intros w; reflexivity. Qed.

Lemma timeout_order_guarded_witness :
  times_out_expired fill_order fill_world
    (@timeout_order unit (fill_env true (4000 * Second)) relay_offline sample_reader true
       fill_order fill_world).2.
Proof.
  exact (@timeout_order_guarded unit (fill_env true (4000 * Second)) relay_offline
           (relay_offline_laws _) sample_reader true fill_order fill_world).
Defined.

(** The order was reorged away; the solver abandons it and fills it. *)
Lemma FillOrder_fills_reorged_witness :
  ∃ now gateway a,
    let w' := (@FillOrder unit (fill_env false 0) sample_reader fill_order fill_world).2 in
    asked fill_world w' (existT (FillOrderTx "osmosis-1" fill_order gateway) a) ∧
    orders (w_db w') = update_rows (at_order fill_order) (abandoned now "reorged") (orders fill_db).
Proof.
  destruct (@FillOrder_fills_reorged unit (fill_env false 0) sample_reader fill_order
              sample_arbitrum sample_osmosis fill_world) as [_ (now&gateway&a&_&Ha&Ho)].
  - split_and!; [intros e; eexists; reflexivity|reflexivity| |].
    + exists 1000. split; [vm_compute; discriminate|intros e; reflexivity].
    + exists (Some 100000000). intros e. reflexivity.
  - split_and!; [reflexivity|reflexivity|intros e; reflexivity|intros e; reflexivity| |reflexivity| |
      |reflexivity].
    + eexists. reflexivity.
    + eexists. vm_compute. reflexivity.
    + exists 5000000000, 99700000. split_and!; [vm_compute; reflexivity|lia|intros e; reflexivity].
  - exists now, gateway, a. split; [exact Ha|exact Ho].
Defined.
