(* ===== verification/TxVerifier.v ===== *)
(** * TxVerifier: txverifier/txverifier.go

    Following submitted transactions on their chains: each pending transaction is
    looked up, and marked SUCCESS or FAILED with its cost in uusdc, or ABANDONED
    when its chain does not know it for ten minutes.  The goroutines of the
    errgroup are run one after the other in an arbitrary order; metrics and logging
    are left out. *)
From S2P Require Import Prelude GoLib Database World Interfaces.

Definition txAbandonedTimeout : Duration := 10 * Minute.

Section verifier.
Context {E : Type} `{Env E}.
Notation IO := (M (World E)).

Definition set_tx_status (tx : SubmittedTx) (status : string) (msg cost : option string) :
    IO SubmittedTx :=
  db_exec (SetSubmittedTxStatus status msg cost (st_TxHash tx) (st_ChainID tx)).

Definition handleTxResultNotFound (submittedTx : SubmittedTx) : IO unit :=
  age ← time_Since (st_CreatedAt submittedTx);
  if txAbandonedTimeout <? age then
    _ ← wrap_err "failed to set tx status to abandoned: "
      (set_tx_status submittedTx TxStatusAbandoned None None);
    mret tt
  else mret tt.

Definition VerifyTx (submittedTx : SubmittedTx) : IO unit :=
  let chainID := st_ChainID submittedTx in
  let txHash := st_TxHash submittedTx in
  _ ← wrap_err "failed to get client: " (ask (GetClient chainID));
  r ← attempt (ask (GetTxResult chainID txHash));
  match r with
  | inl err =>
      if errors_as_tx_result_not_found err then handleTxResultNotFound submittedTx
      else throw (ErrWrap "failed to get tx result: " err)
  | inr (gasCost, Some failure) =>
      cost ← wrap_err ("getting gas cost in uusdc for failed tx " +:+ txHash +:+ " on chain "
                       +:+ chainID +:+ ": ")
        (ask (GasCostUUSDC gasCost chainID));
      _ ← wrap_err "failed to set tx status to failed: "
        (set_tx_status submittedTx TxStatusFailed (Some (TxFailure_String failure))
           (Some (bigint_String cost)));
      throw (ErrNew ("tx failed: " +:+ TxFailure_String failure))
  | inr (gasCost, None) =>
      cost ← wrap_err ("getting gas cost in uusdc for tx " +:+ txHash +:+ " on chain "
                       +:+ chainID +:+ ": ")
        (ask (GasCostUUSDC gasCost chainID));
      _ ← wrap_err "failed to set tx status to success: "
        (set_tx_status submittedTx TxStatusSuccess None (Some (bigint_String cost)));
      mret tt
  end.

Definition verifyTxs : IO unit :=
  r ← attempt (db_exec (GetSubmittedTxsWithStatus TxStatusPending));
  match r with
  | inl _ => mret tt
  | inr submittedTxs =>
      tasks ← range submittedTxs;
      for_each tasks (λ tx, _ ← attempt (VerifyTx tx); mret tt)
  end.
End verifier.

(** ** Lemmas *)

Definition at_tx (tx : SubmittedTx) (t : SubmittedTx) : bool :=
  bool_decide (st_TxHash t = st_TxHash tx) && bool_decide (st_ChainID t = st_ChainID tx).

Section verdicts.
Context {E : Type} `{Env E}.
Context (tx : SubmittedTx).
Implicit Types w : World E.

(** Why a transaction gets a status, with the message and the cost recorded. *)
Inductive verdict w w' : string → option string → option string → Prop :=
  | tx_succeeded gas cost :
      asked w w' (existT (GetTxResult (st_ChainID tx) (st_TxHash tx)) (inr (gas, None))) →
      asked w w' (existT (GasCostUUSDC gas (st_ChainID tx)) (inr cost)) →
      verdict w w' TxStatusSuccess None (Some (bigint_String cost))
  | tx_failed gas failure cost :
      asked w w' (existT (GetTxResult (st_ChainID tx) (st_TxHash tx)) (inr (gas, Some failure))) →
      asked w w' (existT (GasCostUUSDC gas (st_ChainID tx)) (inr cost)) →
      verdict w w' TxStatusFailed (Some (TxFailure_String failure)) (Some (bigint_String cost))
  | tx_lost err now :
      asked w w' (existT (GetTxResult (st_ChainID tx) (st_TxHash tx)) (inl err)) →
      errors_as_tx_result_not_found err = true →
      asked w w' (existT TimeNow now) →
      txAbandonedTimeout < time_since (clock_reading now) (st_CreatedAt tx) →
      verdict w w' TxStatusAbandoned None None.

Definition verified w w' : Prop :=
  emits read_only w w' ∧
  (w_db w' = w_db w ∨
   ∃ status msg cost now, verdict w w' status msg cost ∧
     w_db w' = with_submitted_txs (update_rows (at_tx tx) (submitted_set now status msg cost))
                 (w_db w)).

Lemma verdict_later w w1 w2 s m c :
  verdict w w1 s m c → emits read_only w1 w2 → verdict w w2 s m c.
Proof.
  intros Hv Hem. destruct Hv; econstructor; eauto using asked_later.
Qed.

(** Recording a justified verdict. *)
Lemma wp_set_tx_status s m c w w1 (Q : result SubmittedTx → World E → Prop) :
  emits read_only w w1 → w_db w1 = w_db w → verdict w w1 s m c →
  (∀ r w', verified w w' → Q r w') →
  wp (set_tx_status tx s m c) Q w1.
Proof.
  intros Hem Hdb Hv HQ. apply wp_db_exec; intros; apply HQ.
  - split; [by apply emits_after|by left].
  - split; [by apply emits_stmt|]. right. exists s, m, c, (stmt_ts c0). split.
    + eapply verdict_later; [exact Hv|]. by solve_emits.
    + simpl. by rewrite Hdb.
Qed.

Lemma wp_VerifyTx w : wp (VerifyTx tx) (λ _ w', verified w w') w.
Proof.
  assert (∀ w', emits read_only w w' → w_db w' = w_db w → verified w w') as Hsame
    by (intros; split; [done|by left]).
  unfold VerifyTx. wp_steps; try (apply Hsame; [by solve_emits|done]).
  - unfold handleTxResultNotFound, time_Since. apply wp_bind, wp_bind, wp_time_now_answer.
    intros a e'. apply wp_ret. destruct (Z.ltb_spec txAbandonedTimeout
      (time_since (clock_reading a) (st_CreatedAt tx))) as [Hlt|_].
    + apply wp_bind, wp_wrap_err. eapply (wp_set_tx_status _ _ _ w);
        [by solve_emits|done| |by intros [] w' Hw'; wp_steps].
      eapply tx_lost; [solve_asked|done| |exact Hlt].
      eapply (asked_here read_only). by solve_emits.
    + apply wp_ret, Hsame; [by solve_emits|done].
  - eapply (wp_set_tx_status _ _ _ w); [by solve_emits|done| |by intros [] w' Hw'; wp_steps].
    eapply tx_failed; solve_asked.
  - eapply (wp_set_tx_status _ _ _ w); [by solve_emits|done| |by intros [] w' Hw'; wp_steps].
    eapply tx_succeeded; solve_asked.
Qed.
End verdicts.

(** *** One round settles everything *)

Section progress.
Context {E : Type} `{Env E} (t0 : Time).
Implicit Types w : World E.

(** The network is up: the database and the clients answer, a chain reports the
    result of a transaction or says that it does not know it, and the clock shows
    [t0] or later.  Nothing is said of the results, of the costs, or of the order
    of the goroutines. *)
Definition up (r : request) : error + response r → Prop :=
  match r with
  | DbStmt | GetClient _ | GasCostUUSDC _ _ => λ a, ∃ v, a = inr v
  | GetTxResult _ _ => λ a, ∀ err, a = inl err → errors_as_tx_result_not_found err = true
  | TimeNow => λ a, t0 ≤ clock_reading a
  | _ => λ _, True
  end.

Definition network_up : Prop := ∀ r (e : E), up r (env_answer r e).1.

Definition pending (d : Database) (t : SubmittedTx) : Prop :=
  t ∈ submitted_txs d ∧ st_TxStatus t = TxStatusPending.

(** The rows still pending after the rows of [tx] got a final status. *)
Definition settles (tx : SubmittedTx) (d d' : Database) : Prop :=
  ∀ t, pending d' t → pending d t ∧ at_tx tx t = false.

Context (Hup : network_up).

Lemma wp_ask_up r Q w :
  (∀ a e, up r a → Q (match a with inl err => Err err | inr v => Ok v end) (after r a e w)) →
  wp (ask r) Q w.
Proof.
  intros HQ. apply wp_ask. intros a e Ha. apply HQ.
  pose proof (Hup r (w_env w)) as Hr. by rewrite Ha in Hr.
Qed.

Lemma wp_db_exec_up {A} (q : query A) (Q : result A → World E → Prop) w :
  (∀ c e, Q (q c (w_db w)).1 (set_db (q c (w_db w)).2 (after DbStmt (inr c) e w))) →
  wp (db_exec q) Q w.
Proof.
  intros HQ. apply wp_bind, wp_attempt. refine (wp_ask_up DbStmt _ w _).
  intros a e [c ->]. unfold wp, run_query. simpl. specialize (HQ c e).
  by destruct (q c (w_db w)).
Qed.

Lemma settles_update tx now s m c d :
  s ≠ TxStatusPending →
  settles tx d (with_submitted_txs (update_rows (at_tx tx) (submitted_set now s m c)) d).
Proof.
  intros Hs t [Hin Hp]. simpl in Hin. apply list_elem_of_fmap in Hin as (t'&->&Hin).
  destruct (at_tx tx t') eqn:Hat; [by simpl in Hp|by repeat split].
Qed.

Lemma wp_set_tx_status_up tx s m c w (Q : result SubmittedTx → World E → Prop) :
  s ≠ TxStatusPending →
  (∀ r w', (∀ p, r ≠ Panic p) → settles tx (w_db w) (w_db w') → Q r w') →
  wp (set_tx_status tx s m c) Q w.
Proof.
  intros Hs HQ. apply wp_db_exec_up. intros ctx e. apply HQ.
  - intros p. simpl. unfold one_row. by case_match.
  - by apply (settles_update tx (stmt_ts ctx) s m c).
Qed.

Lemma wp_VerifyTx_up tx w :
  txAbandonedTimeout < time_since t0 (st_CreatedAt tx) →
  wp (VerifyTx tx) (λ r w', (∀ p, r ≠ Panic p) ∧ settles tx (w_db w) (w_db w')) w.
Proof.
  intros Hold. unfold VerifyTx.
  apply wp_bind, wp_wrap_err. refine (wp_ask_up (GetClient _) _ w _). intros a e [v ->].
  apply wp_bind, wp_attempt. refine (wp_ask_up (GetTxResult _ _) _ _ _).
  intros [err|[gas [f|]]] e1 Hnf.
  - rewrite (Hnf err eq_refl). unfold handleTxResultNotFound, time_Since.
    apply wp_bind, wp_bind, wp_bind, wp_attempt. refine (wp_ask_up TimeNow _ _ _).
    intros a e2 Ht0. destruct a as [|now]; apply wp_ret, wp_ret; cbn -[Z.ltb] in Ht0 |- *.
    all: rewrite (proj2 (Z.ltb_lt _ _)) by (unfold time_since, time_sub in *; lia).
    all: apply wp_bind, wp_wrap_err, wp_set_tx_status_up; [done|].
    all: intros [] w' Hp Hw'; first [by destruct (Hp _ eq_refl)|apply wp_ret|idtac]; by split.
  - apply wp_bind, wp_wrap_err. refine (wp_ask_up (GasCostUUSDC _ _) _ _ _). intros a e2 [v2 ->].
    apply wp_bind, wp_wrap_err, wp_set_tx_status_up; [done|].
    intros [] w' Hp Hw'; first [by destruct (Hp _ eq_refl)|apply wp_throw|idtac]; by split.
  - apply wp_bind, wp_wrap_err. refine (wp_ask_up (GasCostUUSDC _ _) _ _ _). intros a e2 [v2 ->].
    apply wp_bind, wp_wrap_err, wp_set_tx_status_up; [done|].
    intros [] w' Hp Hw'; first [by destruct (Hp _ eq_refl)|apply wp_ret|idtac]; by split.
Qed.

Lemma wp_verifyTxs_up w :
  (∀ t, pending (w_db w) t → txAbandonedTimeout < time_since t0 (st_CreatedAt t)) →
  wp verifyTxs (λ r w', r = Ok tt ∧ ∀ t, ¬ pending (w_db w') t) w.
Proof.
  intros Hold. unfold verifyTxs. apply wp_bind, wp_attempt, wp_db_exec_up. intros c e. simpl.
  apply wp_bind, wp_range. intros l a e1 Hl.
  assert (∀ t, t ∈ l ↔ pending (w_db w) t) as Hmem.
  { intros t. rewrite Hl, list_elem_of_In, List.filter_In, <-list_elem_of_In.
    unfold pending. by rewrite bool_decide_eq_true. }
  apply (wp_for_each (λ pre w', ∀ t, pending (w_db w') t →
           pending (w_db w) t ∧ ∀ x, x ∈ pre → at_tx x t = false)).
  - intros t Ht. split; [done|]. by intros x ?%not_elem_of_nil.
  - intros pre x post w' Hsplit HI. apply wp_bind, wp_attempt.
    eapply wp_mono; [|apply (wp_VerifyTx_up x w')].
    + intros r w1 [Hp Hs]. assert (∀ t, pending (w_db w1) t →
        pending (w_db w) t ∧ ∀ y, y ∈ pre ++ [x] → at_tx y t = false) as Hnext.
      { intros t Ht. destruct (Hs t Ht) as [Ht' Hx]. destruct (HI t Ht') as [Hw Hpre].
        split; [done|]. intros y [?| ->%list_elem_of_singleton]%elem_of_app; auto. }
      destruct r; first [by destruct (Hp _ eq_refl)|by apply wp_ret].
    + apply Hold, Hmem. rewrite Hsplit. set_solver.
  - intros w' HI. split; [done|]. intros t Ht. destruct (HI t Ht) as [Hw Hx].
    specialize (Hx t (proj2 (Hmem t) Hw)). unfold at_tx in Hx.
    by rewrite !bool_decide_eq_true_2 in Hx.
Qed.
End progress.

(** ** Properties *)

(** C8. No transaction stays pending forever: when the database and the clients answer,
    every chain either reports a result or says that it does not know the
    transaction, and the clock is more than ten minutes past the creation of every
    pending transaction, one round of the verifier ends without an error and leaves
    no transaction pending, whatever the results are and in whatever order the
    goroutines run. *)
Theorem verifyTxs_settles_all {E} `{Env E} (t0 : Time) (w : World E) :
  network_up t0 →
  (∀ t, pending (w_db w) t → txAbandonedTimeout < time_since t0 (st_CreatedAt t)) →
  (verifyTxs w).1 = Ok tt ∧ ∀ t, ¬ pending (w_db (verifyTxs w).2) t.
Proof. intros Hup Hold. exact (wp_verifyTxs_up t0 Hup w Hold). Qed.

(** A transaction's status follows its chain: one verification sends no
    transaction and changes at most the status, message and cost of the rows with
    this hash on this chain.  The status becomes SUCCESS or FAILED only after the
    chain reported that result, with the cost the oracle gave for the gas the
    chain reported, and ABANDONED only after the chain answered that it does not
    know the transaction more than ten minutes after it was recorded. *)
Theorem VerifyTx_evidence {E} `{Env E} (tx : SubmittedTx) (w : World E) :
  verified tx w (VerifyTx tx w).2.
Proof. apply wp_VerifyTx. Qed.

(** A chain that knows one of two transactions; the clock shows an hour. *)
Definition chain_answer (r : request) : error + response r :=
  match r with
  | GetClient _ => inr tt
  | GetTxResult _ hash =>
      if bool_decide (hash = "0xaa") then inr (Some 21000, None)
      else inl (ErrSentinel (ErrTxResultNotFound hash))
  | GasCostUUSDC _ _ => inr 7
  | r => offline r
  end.

Definition chain_env : Env unit := λ r e,
  match r as r return (error + response r) * unit with
  | TimeNow => (inr (60 * Minute), e)
  | r => sim_env chain_answer r e
  end.

Definition sent_tx (id : Z) (hash : string) : SubmittedTx :=
  mkSubmittedTx id 0 0 None None None "42161" hash "" TxTypeOrderFill TxStatusPending None None
    None.

Definition two_pending : World unit :=
  sim_world (with_submitted_txs (λ _, [sent_tx 1 "0xaa"; sent_tx 2 "0xbb"]) empty_db).

Lemma verifyTxs_settles_all_witness :
  let w' := (verifyTxs (H := chain_env) two_pending).2 in
  st_TxStatus <$> submitted_txs (w_db w') = [TxStatusSuccess; TxStatusAbandoned] ∧
  ∀ t, ¬ pending (w_db w') t.
Proof.
  split; [vm_compute; reflexivity|].
  apply (verifyTxs_settles_all (H := chain_env) (60 * Minute) two_pending).
  - intros [] []; try exact I; try (by eexists); [done|].
    intros err. simpl. by case_bool_decide; intros [= <-].
  - intros t [Hin _]. simpl in Hin. rewrite !elem_of_cons in Hin.
    destruct Hin as [->|[->|?%not_elem_of_nil]]; done.
Defined.
