(* ===== verification/SkipGo.v ===== *)
(** * SkipGo: shared/clients/skipgo/client.go

    The client of the Skip Go API: six calls, each one HTTP request whose JSON body
    or query carries the arguments.  The rebalancer and the transfer tracker see it
    through the requests [SkipBalance], [SkipRoute], [SkipMsgs], [SkipTrackTx] and
    [SkipStatus] of the world.  How [fmt] prints the [Details] of an error is a
    parameter: it only enters the text of the error. *)
From Stdlib Require Import Strings.Byte Ascii.
From Stdlib Require String.
From S2P Require Import Prelude GoLib Json Network SkipGoTypes Database World.

Record skipGoClient := mkSkipGoClient { sg_baseURL : string }.

(** [url.JoinPath(base, endpoint)], for a base without dot segments and an endpoint
    that starts with a slash: one slash between the two. *)
Fixpoint trim_slashes (s : string) : string :=
  match s with
  | EmptyString => EmptyString
  | String c s' =>
      match trim_slashes s' with
      | EmptyString => if Ascii.eqb c "/" then EmptyString else String c EmptyString
      | t => String c t
      end
  end.
Definition url_JoinPath (base endpoint : string) : string := trim_slashes base +:+ endpoint.

(** ** What the calls send *)

Definition j_strings (l : list string) : Json :=
  match l with [] => JNull | _ => JArr (JStr <$> l) end.

(** A slice of denoms is never nil: the callers write it as a literal. *)
Definition enc_ChainRequest (q : ChainRequest) : Json :=
  JObj [("address", JStr (cq_Address q)); ("denoms", JArr (JStr <$> cq_Denoms q))].

(** [json.Marshal] writes the keys of a map in order. *)
Definition key_le (a b : string * Json) : Prop := String.leb a.1 b.1 = true.
#[local] Instance key_le_dec a b : Decision (key_le a b).
Proof. unfold key_le. apply _. Defined.

Definition balance_body (request : BalancesRequest) : Json :=
  JObj [("chains", JObj (merge_sort key_le (map_to_list (enc_ChainRequest <$> request))))].

Definition route_body (sourceDenom sourceChain destDenom destChain : string) (amountIn : Z) : Json :=
  JObj [("source_asset_denom", JStr sourceDenom); ("source_asset_chain_id", JStr sourceChain);
        ("dest_asset_denom", JStr destDenom); ("dest_asset_chain_id", JStr destChain);
        ("amount_in", JStr (bigint_String amountIn)); ("allow_multi_tx", JBool true);
        ("bridges", JArr [JStr "CCTP"; JStr "IBC"]); ("allow_unsafe", JBool true);
        ("smart_swap_options",
          JObj [("evm_swaps", JBool false); ("split_routes", JBool true)])].

(** A nil slice is written as null; the callers build the address list by appending
    to a nil slice. *)
Definition msgs_body (sourceDenom sourceChain destDenom destChain : string)
    (amountIn amountOut : Z) (addressList : list string) (operations : option (list Json)) : Json :=
  JObj [("source_asset_denom", JStr sourceDenom); ("source_asset_chain_id", JStr sourceChain);
        ("dest_asset_denom", JStr destDenom); ("dest_asset_chain_id", JStr destChain);
        ("amount_in", JStr (bigint_String amountIn));
        ("amount_out", JStr (bigint_String amountOut));
        ("slippage_tolerance_percent", JStr "3"); ("address_list", j_strings addressList);
        ("operations", match operations with None => JNull | Some l => JArr l end)].

Definition submit_body (encodedTx chainID : string) : Json :=
  JObj [("tx", JStr encodedTx); ("chain_id", JStr chainID)].
Definition track_body (txHash chainID : string) : Json :=
  JObj [("tx_hash", JStr txHash); ("chain_id", JStr chainID)].

Definition post (s : skipGoClient) (endpoint : string) (body : Json) : HttpRequest :=
  mkHttpRequest "POST" (url_JoinPath (sg_baseURL s) endpoint) [] (Some body).

(** [query.Encode()] sorts by key. *)
Definition status_request (s : skipGoClient) (txHash chainID : string) : HttpRequest :=
  mkHttpRequest "GET" (url_JoinPath (sg_baseURL s) "/v2/tx/status")
    [("chain_id", chainID); ("tx_hash", txHash)] None.

(** ** What they read *)

Definition dec_txs : Decoder (list Tx) := struct (λ field, field _ "txs" (dec_list dec_Tx)).
Definition dec_tx_hash : Decoder string := struct (λ field, field _ "tx_hash" dec_string).

Record SkipGoError := mkSkipGoError {
  sge_Code : Z;
  sge_Message : string;
  sge_Details : Json
}.
Definition dec_SkipGoError : Decoder SkipGoError := struct (λ field,
  code ← field _ "code" dec_int;
  message ← field _ "message" dec_string;
  details ← field _ "details" dec_any;
  Some (mkSkipGoError code message details)).

Section client.
Context {E : Type} `{Env E}.
Notation IO := (M (World E)).
Context (fmt_any : Json → string).
Context (s : skipGoClient).

Definition SkipGoError_Error (e : SkipGoError) : string :=
  "Skip Go Error: Code " +:+ bigint_String (sge_Code e) +:+ ", Message " +:+ sge_Message e
  +:+ ", Details " +:+ fmt_any (sge_Details e).

(** [json.NewDecoder(body).Decode(&v)] *)
Definition decode_body {A} (d : Decoder A) (body : error + (string * Json)) : result A :=
  match body with
  | inl err => Err err
  | inr (_, j) => json_Unmarshal d j
  end.

Definition handleError (body : error + (string * Json)) : error :=
  match decode_body dec_SkipGoError body with
  | Ok e => ErrNew (SkipGoError_Error e)
  | Err err => ErrWrap "decoding skip go error: " err
  | Panic p => ErrNew p
  end.

(** The request, the status check and the decoding the calls share; [refused] is
    the error for another status than 200. *)
Definition do_json {A} (d : Decoder A) (refused : Z → error → error) (req : HttpRequest) : IO A :=
  resp ← wrap_err "making http request: " (ask (Net (HttpDo req)));
  if negb (hs_StatusCode resp =? 200)
  then throw (refused (hs_StatusCode resp) (handleError (hs_Body resp)))
  else wrap_err "decoding response body: " (lift_result (decode_body d (hs_Body resp))).

Definition plain : Z → error → error := λ _ err, err.

Definition Skip_Balance (request : BalancesRequest) : IO BalancesResponse :=
  do_json dec_BalancesResponse plain (post s "/v2/info/balances" (balance_body request)).

Definition Skip_Route (sourceAssetDenom sourceAssetChainID destAssetDenom destAssetChainID : string)
    (amountIn : Z) : IO RouteResponse :=
  do_json dec_RouteResponse plain
    (post s "/v2/fungible/route"
       (route_body sourceAssetDenom sourceAssetChainID destAssetDenom destAssetChainID amountIn)).

(** The addresses of the source and the destination are not sent. *)
Definition Skip_Msgs (sourceAssetDenom sourceAssetChainID sourceChainAddress destAssetDenom
      destAssetChainID destChainAddress : string) (amountIn amountOut : Z)
    (addressList : list string) (operations : option (list Json)) : IO (list Tx) :=
  do_json dec_txs plain
    (post s "/v2/fungible/msgs"
       (msgs_body sourceAssetDenom sourceAssetChainID destAssetDenom destAssetChainID amountIn
          amountOut addressList operations)).

Definition Skip_SubmitTx (tx : list byte) (chainID : string) : IO string :=
  let encodedTx := base64_EncodeToString (String.string_of_list_byte tx) in
  do_json dec_tx_hash
    (λ code, ErrWrap ("status code " +:+ bigint_String code
       +:+ " returned from Skip Go when submitting transaction " +:+ encodedTx +:+ ": "))
    (post s "/v2/tx/submit" (submit_body encodedTx chainID)).

Definition Skip_TrackTx (txHash chainID : string) : IO string :=
  do_json dec_tx_hash
    (λ code, ErrWrap ("status code " +:+ bigint_String code
       +:+ " returned from Skip Go when submitting transaction to /track " +:+ txHash +:+ ": "))
    (post s "/v2/tx/track" (track_body txHash chainID)).

Definition Skip_Status (tx chainID : string) : IO (list Transfer) :=
  do_json dec_StatusResponse plain (status_request s tx chainID).

(** ** The calls of the interface [SkipGoClient], uniformly *)

Inductive skipgo_call : Type → Type :=
  | CallBalance (request : BalancesRequest) : skipgo_call BalancesResponse
  | CallRoute (fromDenom fromChain toDenom toChain : string) (amount : Z) :
      skipgo_call RouteResponse
  | CallMsgs (fromDenom fromChain fromAddr toDenom toChain toAddr : string)
      (amount amountOut : Z) (addresses : list string) (operations : option (list Json)) :
      skipgo_call (list Tx)
  | CallSubmitTx (tx : list byte) (chainID : string) : skipgo_call string
  | CallTrackTx (txHash chainID : string) : skipgo_call string
  | CallStatus (txHash chainID : string) : skipgo_call (list Transfer).

Definition run_call {A} (c : skipgo_call A) : IO A :=
  match c with
  | CallBalance request => Skip_Balance request
  | CallRoute fd fc td tc amount => Skip_Route fd fc td tc amount
  | CallMsgs fd fc fa td tc ta amount out addrs ops => Skip_Msgs fd fc fa td tc ta amount out addrs ops
  | CallSubmitTx tx chain => Skip_SubmitTx tx chain
  | CallTrackTx hash chain => Skip_TrackTx hash chain
  | CallStatus hash chain => Skip_Status hash chain
  end.

(** Endpoint and arguments of a call, on the wire. *)
Definition call_request {A} (c : skipgo_call A) : HttpRequest :=
  match c with
  | CallBalance request => post s "/v2/info/balances" (balance_body request)
  | CallRoute fd fc td tc amount => post s "/v2/fungible/route" (route_body fd fc td tc amount)
  | CallMsgs fd fc _ td tc _ amount out addrs ops =>
      post s "/v2/fungible/msgs" (msgs_body fd fc td tc amount out addrs ops)
  | CallSubmitTx tx chain =>
      post s "/v2/tx/submit" (submit_body (base64_EncodeToString (String.string_of_list_byte tx)) chain)
  | CallTrackTx hash chain => post s "/v2/tx/track" (track_body hash chain)
  | CallStatus hash chain => status_request s hash chain
  end.

Definition call_decoder {A} (c : skipgo_call A) : Decoder A :=
  match c with
  | CallBalance _ => dec_BalancesResponse
  | CallRoute _ _ _ _ _ => dec_RouteResponse
  | CallMsgs _ _ _ _ _ _ _ _ _ _ => dec_txs
  | CallSubmitTx _ _ | CallTrackTx _ _ => dec_tx_hash
  | CallStatus _ _ => dec_StatusResponse
  end.

(** The service answered with [v]. *)
Definition answered {A} (d : Decoder A) (a : error + HttpResponse) (v : A) : Prop :=
  ∃ resp text j, a = inr resp ∧ hs_StatusCode resp = 200 ∧ hs_Body resp = inr (text, j) ∧
    d j = Some v.

(** One request on the wire, and success exactly when the service answered. *)
Definition one_exchange {A} (d : Decoder A) (req : HttpRequest) (w : World E)
    (r : result A) (w' : World E) : Prop :=
  ∃ (a : error + HttpResponse) e, w' = after (Net (HttpDo req)) a e w ∧
    match r with
    | Ok v => answered d a v
    | Err _ => ∀ v, ¬ answered d a v
    | Panic _ => False
    end.

Lemma wp_do_json {A} (d : Decoder A) refused req w :
  wp (do_json d refused req) (one_exchange d req w) w.
Proof.
  unfold do_json. apply wp_bind, wp_wrap_err. refine (wp_ask (Net (HttpDo req)) _ w _).
  intros [err|resp] e _; [by exists (inl err), e; split; [|intros v (?&?&?&?&_)]|].
  destruct (Z.eqb_spec (hs_StatusCode resp) 200) as [Hok|Hno]; simpl.
  - apply wp_wrap_err. unfold wp, lift_result, decode_body, json_Unmarshal.
    destruct (hs_Body resp) as [err|[text j]] eqn:Hb; simpl.
    + exists (inr resp), e. split; [done|]. intros v (?&?&?&[= <-]&_&Hb'&_).
      by rewrite Hb in Hb'.
    + destruct (d j) as [v|] eqn:Hd; simpl; exists (inr resp), e; (split; [done|]);
        [by exists resp, text, j|].
      intros v (?&?&?&[= <-]&_&Hb'&Hd'). rewrite Hb in Hb'. by simplify_eq.
  - apply wp_throw. exists (inr resp), e. split; [done|]. intros v (?&?&?&[= <-]&?&_). done.
Qed.
End client.

(** ** Properties *)

(** A call of the Skip Go client is one exchange: exactly one HTTP request goes out,
    to the endpoint of the call and with its arguments, nothing is retried, and the
    call succeeds exactly when the service answered with status 200 and a body that
    decodes to the value returned; it never panics and leaves the database and the
    memory alone. *)
Theorem skipgo_call_exchange {E} `{Env E} fmt_any (s : skipGoClient) {A} (c : skipgo_call A)
    (w : World E) :
  let '(r, w') := run_call fmt_any s c w in
  one_exchange (call_decoder c) (call_request s c) w r w'.
Proof.
  destruct (run_call fmt_any s c w) as [r w'] eqn:Hrun.
  refine (wp_run _ (one_exchange _ _ w) _ _ _ Hrun _). destruct c; apply wp_do_json.
Qed.

(** An answer without transfers (an empty object, say) is a status without
    transfers, not an error. *)
Example empty_status : dec_StatusResponse (JObj []) = Some [].
Proof. reflexivity. Qed.

(** A field the solver never reads makes the whole answer undecodable. *)
Example unread_field :
  dec_StatusResponse (JObj [("transfers", JArr [JObj [("state", JStr "STATE_PENDING");
    ("transfer_asset_release", JStr "none")]])]) = None.
Proof. reflexivity. Qed.

Example joined : url_JoinPath "https://api.skip.build" "/v2/tx/status"
                 = "https://api.skip.build/v2/tx/status"%string.
Proof. reflexivity. Qed.
