(* ===== verification/FundRebalancer.v ===== *)
(** * FundRebalancer: fundrebalancer/fundrebalancer.go and fundrebalancer/transfermonitor.go

    Keeping the solver's USDC where it is needed: chains below their minimum are
    filled up to their target from chains above theirs, within the configured limits
    on gas cost, and the transfers under way are tracked until Skip Go reports them
    done.  The map of first profitability failures lives in the world's memory.
    Address arguments are passed as they are configured ([common.HexToAddress] is
    left to the callee); metrics and logging are left out. *)
From Stdlib Require Import Strings.Byte.
From S2P Require Import Prelude GoLib SkipGoTypes Config Database World Interfaces.

Definition transferTimeout : Duration := 10 * Minute.

Definition nil_pointer : string := "invalid memory address or nil pointer dereference".

(** skipgo.TransactionState *)
Definition STATE_COMPLETED_SUCCESS : string := "STATE_COMPLETED_SUCCESS".
Definition STATE_COMPLETED_ERROR : string := "STATE_COMPLETED_ERROR".
Definition STATE_ABANDONED : string := "STATE_ABANDONED".
Definition STATE_PENDING_ERROR : string := "STATE_PENDING_ERROR".

Definition IsCompleted (s : string) : bool :=
  (s =? STATE_COMPLETED_SUCCESS)%string || (s =? STATE_COMPLETED_ERROR)%string
  || (s =? STATE_ABANDONED)%string || (s =? STATE_PENDING_ERROR)%string.
Definition IsCompletedError (s : string) : bool :=
  (s =? STATE_COMPLETED_ERROR)%string || (s =? STATE_ABANDONED)%string
  || (s =? STATE_PENDING_ERROR)%string.

(** The error of the last failed transfer, or the empty string. *)
Definition transfer_error (transfers : list Transfer) : string :=
  foldl (λ acc transfer,
    if IsCompletedError (tr_State transfer)
    then match tr_Error transfer with
         | Some e => e
         | None => "error occurred during transfer but reason could not be found. state is "
                   +:+ tr_State transfer
         end
    else acc) ""%string transfers.

(** The sum of the amounts of pending transfers. *)
Definition add_pending (acc : result Z) (t : RebalanceTransfer) : result Z :=
  rbind acc (λ balance,
    match bigint_SetString (rt_Amount t) with
    | None => Err (ErrNew ("could not convert pending transfer amount " +:+ rt_Amount t
                           +:+ " from db to *big.Int"))
    | Some inboundAmount => Ok (balance + inboundAmount)
    end).
Definition sum_pending (transfers : list RebalanceTransfer) : result Z :=
  foldl add_pending (Ok 0) transfers.

Record SkipGoTxnWithMetadata := mkSkipGoTxnWithMetadata {
  stm_tx : Tx;
  stm_sourceChainID : string;
  stm_destinationChainID : string;
  stm_amount : Z;
  stm_gasEstimate : Z
}.

Definition set_failure (chainID : string) (t : Time) (m : Memory) : Memory :=
  mkMemory (ordersSeen m) (<[chainID := t]> (profitabilityFailures m)) (didQuickStart m) (clients m).
Definition clear_failure (chainID : string) (m : Memory) : Memory :=
  mkMemory (ordersSeen m) (delete chainID (profitabilityFailures m)) (didQuickStart m) (clients m).

Definition zero_rebalancer_config : FundRebalancerConfig := mkFundRebalancerConfig "" "" "" 0 "".

Section rebalancer.
Context {E : Type} `{Env E}.
Notation IO := (M (World E)).
Context (cfg : configReader).

(** [r.config]: nil when no chain is configured; a missing key is the zero value. *)
Definition rebalancer_config : gmap string FundRebalancerConfig :=
  default ∅ (FundRebalancer (config cfg)).
Definition chain_rebalancing (chainID : string) : FundRebalancerConfig :=
  default zero_rebalancer_config (rebalancer_config !! chainID).

(** ** Balances *)

Definition balance_request (chainID address denom : string) : BalancesRequest :=
  {[ chainID := mkChainRequest address [denom] ]}.

(** [None] is the nil pointer left for a chain that is neither EVM nor Cosmos. *)
Definition usdcBalance (chainID : string) : IO (option Z) :=
  usdcDenom ← wrap_err ("getting usdc denom for chain " +:+ chainID +:+ ": ")
    (lift_result (GetUSDCDenom cfg chainID));
  chainConfig ← wrap_err ("getting chain type for chain id " +:+ chainID +:+ ": ")
    (lift_result (GetChainConfig cfg chainID));
  let fetching := "fetching balance for address " +:+ SolverAddress chainConfig +:+ " on chain "
                  +:+ chainID +:+ " for denom " +:+ usdcDenom +:+ ": " in
  if (Type_ chainConfig =? ChainType_EVM)%string then
    _ ← wrap_err ("getting evm client for chain " +:+ chainID +:+ ": ") (ask (EvmGetClient chainID));
    b ← wrap_err fetching (ask (EvmUSDCBalance chainID usdcDenom (SolverAddress chainConfig)));
    mret (Some b)
  else if (Type_ chainConfig =? ChainType_COSMOS)%string then
    resp ← wrap_err fetching
      (ask (SkipBalance (balance_request chainID (SolverAddress chainConfig) usdcDenom)));
    chainResp ← or_throw (resp !! chainID) ("no balance found for chain " +:+ chainID);
    denomDetail ← or_throw (cr_Denoms chainResp !! usdcDenom)
      ("no balance found for denom " +:+ usdcDenom +:+ " on chain " +:+ chainID);
    b ← or_throw (bigint_SetString (dd_Amount denomDetail))
      ("could not convert balance " +:+ dd_Amount denomDetail +:+ " to *big.Int");
    mret (Some b)
  else mret None.

Definition deref {A} (p : option A) : IO A :=
  match p with Some a => mret a | None => go_panic nil_pointer end.

Definition pendingUSDCBalance (chainID : string) : IO Z :=
  pendingTransfers ← wrap_err "getting pending rebalance transfers to chain from db: "
    (db_exec (GetPendingRebalanceTransfersToChain chainID));
  lift_result (sum_pending pendingTransfers).

Definition USDCNeeded (chainID : string) : IO Z :=
  b ← wrap_err ("getting usdc balance on chain " +:+ chainID +:+ ": ") (usdcBalance chainID);
  pendingBalance ← wrap_err ("getting pending balance on chain " +:+ chainID +:+ ": ")
    (pendingUSDCBalance chainID);
  onChain ← deref b;
  let currentBalance := onChain + pendingBalance in
  let conf := chain_rebalancing chainID in
  minAllowedAmount ← or_throw (bigint_SetString (MinAllowedAmount conf))
    ("could not convert min allowed amount " +:+ MinAllowedAmount conf +:+ " to *big.Int for chain "
     +:+ chainID);
  if minAllowedAmount <=? currentBalance then mret 0 else
  targetAmount ← or_throw (bigint_SetString (TargetAmount conf))
    ("could not convert target amount " +:+ TargetAmount conf +:+ " to *big.Int for chain "
     +:+ chainID);
  mret (targetAmount - currentBalance).

Definition USDCToSpare (chainID : string) : IO Z :=
  b ← wrap_err ("getting usdc balance on chain " +:+ chainID +:+ ": ") (usdcBalance chainID);
  targetAmount ← or_throw (bigint_SetString (TargetAmount (chain_rebalancing chainID)))
    "converting target amount to *big.Int";
  currentBalance ← deref b;
  mret (if currentBalance <=? targetAmount then 0 else currentBalance - targetAmount).

(** ** Transactions *)

Definition GetRebalanceTxns (amount : Z) (sourceChainID destChainID : string) : IO (list Tx) :=
  rebalanceFromDenom ← wrap_err ("getting usdc denom for chain " +:+ sourceChainID +:+ ": ")
    (lift_result (GetUSDCDenom cfg sourceChainID));
  rebalanceToDenom ← wrap_err ("getting usdc denom for chain " +:+ destChainID +:+ ": ")
    (lift_result (GetUSDCDenom cfg destChainID));
  sourceChainConfig ← wrap_err ("getting source chain config for chain " +:+ sourceChainID +:+ ": ")
    (lift_result (GetChainConfig cfg sourceChainID));
  destinationChainConfig ← wrap_err ("getting destination chain config for chain " +:+ destChainID
                                     +:+ ": ")
    (lift_result (GetChainConfig cfg destChainID));
  route ← wrap_err "getting rebalancing route from Skip Go: "
    (ask (SkipRoute rebalanceFromDenom sourceChainID rebalanceToDenom destChainID amount));
  addresses ← fold_m (λ addresses requiredChainAddress,
      chainConfig ← wrap_err ("getting chain config for chain " +:+ requiredChainAddress +:+ ": ")
        (lift_result (GetChainConfig cfg requiredChainAddress));
      mret (addresses ++ [SolverAddress chainConfig])) [] (rr_RequiredChainAddresses route);
  amountOut ← or_throw (bigint_SetString (rr_AmountOut route))
    ("converting amount out " +:+ rr_AmountOut route +:+ " to *bit.Int");
  wrap_err "getting rebalancing txn operations from Skip Go: "
    (ask (SkipMsgs rebalanceFromDenom sourceChainID (SolverAddress sourceChainConfig)
            rebalanceToDenom destChainID (SolverAddress destinationChainConfig) amount amountOut
            addresses (rr_Operations route))).

(** The approval of a transaction that needs exactly one; [None] when it needs
    none. *)
Definition required_approval (txn : Tx) : result (option (EVMTx * ERC20Approval)) :=
  match tx_EVMTx txn with
  | None => Ok None
  | Some evmTx =>
      match etx_RequiredERC20Approvals evmTx with
      | [] => Ok None
      | [approval] => Ok (Some (evmTx, approval))
      | l => Err (ErrNew ("expected 1 required erc20 approval but got "
                          +:+ strconv_Itoa (Z.of_nat (length l))))
      end
  end.

Definition unexpected_token (usdcDenom token : string) : error :=
  ErrNew ("expected required approval for usdc token contract " +:+ usdcDenom +:+ ", but got "
          +:+ token).

Definition NeedsERC20Approval (txn : Tx) : IO bool :=
  required ← lift_result (required_approval txn);
  match required with
  | None => mret false
  | Some (evmTx, approval) =>
      let chainID := etx_ChainID evmTx in
      chainConfig ← wrap_err ("getting config for chain " +:+ chainID +:+ ": ")
        (lift_result (GetChainConfig cfg chainID));
      usdcDenom ← wrap_err ("fetching usdc denom on chain " +:+ chainID +:+ ": ")
        (lift_result (GetUSDCDenom cfg chainID));
      _ ← wrap_err ("getting evm rpc client for chain " +:+ chainID +:+ ": ")
        (ask (EvmGetClient chainID));
      if negb (strings_EqualFold (ap_TokenContract approval) usdcDenom)
      then throw (unexpected_token usdcDenom (ap_TokenContract approval)) else
      allowance ← wrap_err ("querying for erc20 allowance for solver " +:+ SolverAddress chainConfig
                            +:+ " at contract " +:+ ap_TokenContract approval +:+ " for spender "
                            +:+ ap_Spender approval +:+ ": ")
        (ask (EvmAllowance chainID (ap_TokenContract approval) (SolverAddress chainConfig)
                (ap_Spender approval)));
      necessaryApprovalAmount ← or_throw (bigint_SetString (ap_Amount approval))
        ("converting approval amount " +:+ ap_Amount approval +:+ " to *big.Int");
      mret (allowance <? necessaryApprovalAmount)
  end.

(** [ERC20Approval] of the source; the name is taken by the approval record. *)
Definition ERC20Approval_ (txn : Tx) : IO (string * string) :=
  required ← lift_result (required_approval txn);
  match required with
  | None => mret (""%string, ""%string)
  | Some (evmTx, approval) =>
      let chainID := etx_ChainID evmTx in
      chainConfig ← wrap_err ("getting config for chain " +:+ chainID +:+ ": ")
        (lift_result (GetChainConfig cfg chainID));
      usdcDenom ← wrap_err ("fetching usdc denom on chain " +:+ chainID +:+ ": ")
        (lift_result (GetUSDCDenom cfg chainID));
      if negb (strings_EqualFold (ap_TokenContract approval) usdcDenom)
      then throw (unexpected_token usdcDenom (ap_TokenContract approval)) else
      _ ← wrap_err ("creating signer for chain " +:+ chainID +:+ ": ") (ask (NewSigner chainID));
      amount ← or_throw (bigint_SetString (ap_Amount approval))
        ("error converting erc20 approval amount " +:+ ap_Amount approval +:+ " on chain "
         +:+ chainID +:+ " to *big.Int");
      input ← wrap_err "packing input to erc20 approval tx: "
        (ask (PackApprove (ap_Spender approval) amount));
      wrap_err ("executing erc20 approve for " +:+ bigint_String amount +:+ " at contract "
                +:+ ap_TokenContract approval +:+ " for spender " +:+ ap_Spender approval +:+ " on "
                +:+ chainID +:+ ": ")
        (ask (ExecuteTx chainID (SolverAddress chainConfig) input "0" (ap_TokenContract approval)))
  end.

Definition ApproveTxn (chainID : string) (txn : Tx) : IO (string * string) :=
  needsApproval ← wrap_err ("checking if ERC20 approval is necessary for rebalance txn from "
                            +:+ chainID +:+ ": ") (NeedsERC20Approval txn);
  if negb needsApproval then mret (""%string, ""%string) else
  wrap_err ("handling ERC20 approval for rebalance txn from " +:+ chainID +:+ ": ")
    (ERC20Approval_ txn).

(** The call data is read through the EVM transaction, which is nil for a Cosmos
    one. *)
Definition TxnWithMetadata (sourceChainID destinationChainID : string) (amount : Z) (txn : Tx) :
    IO SkipGoTxnWithMetadata :=
  sourceChainConfig ← wrap_err ("getting source chain config for chain " +:+ sourceChainID +:+ ": ")
    (lift_result (GetChainConfig cfg sourceChainID));
  evmTx ← deref (tx_EVMTx txn);
  decodedData ← wrap_err "hex decoding evm call data: "
    (lift_result (hex_DecodeString (etx_Data evmTx)));
  _ ← wrap_err ("getting evm rpc client for chain " +:+ sourceChainID +:+ ": ")
    (ask (EvmGetClient sourceChainID));
  estimate ← wrap_err "estimating gas: "
    (ask (EvmEstimateGas sourceChainID (SolverAddress sourceChainConfig) (etx_To evmTx)
            (etx_Value evmTx) decodedData));
  mret (mkSkipGoTxnWithMetadata txn sourceChainID destinationChainID amount estimate).

Definition SignAndSubmitTxn (txn : SkipGoTxnWithMetadata) : IO (string * string) :=
  match tx_EVMTx (stm_tx txn), tx_CosmosTx (stm_tx txn) with
  | Some evmTx, _ =>
      _ ← wrap_err ("creating signer for chain " +:+ stm_sourceChainID txn +:+ ": ")
        (ask (NewSigner (stm_sourceChainID txn)));
      txData ← wrap_err "decoding hex data from Skip Go: "
        (lift_result (hex_DecodeString (etx_Data evmTx)));
      wrap_err ("submitting evm txn to chain " +:+ stm_sourceChainID txn +:+ ": ")
        (ask (ExecuteTx (stm_sourceChainID txn) (etx_SignerAddress evmTx) txData (etx_Value evmTx)
                (etx_To evmTx)))
  | None, Some _ => throw (ErrNew "cosmos txns not supported yet")
  | None, None => throw (ErrNew "no valid txHash types returned from Skip Go")
  end.

(** ** Gas *)

Definition isGasAcceptable (txn : SkipGoTxnWithMetadata) (chainID : string) : IO (bool * string) :=
  _ ← wrap_err "getting evm client: " (ask (EvmGetClient chainID));
  gasPrice ← wrap_err "getting gas price: " (ask (EvmSuggestGasPrice chainID));
  conf ← wrap_err "getting chain fund rebalancing config: "
    (lift_result (GetFundRebalancingConfig cfg chainID));
  chainIDBigInt ← or_throw (bigint_SetString chainID)
    ("could not convert chainID " +:+ chainID +:+ " to *big.Int");
  gasCostUUSDC ← wrap_err "calculating total fund rebalancing gas cost in UUSDC: "
    (ask (TxFeeUUSDC (stm_gasEstimate txn) gasPrice chainIDBigInt));
  maxCost ← or_throw (bigint_SetString (MaxRebalancingGasCostUUSDC conf))
    "parsing max gas cost threshold";
  let cost := bigint_String gasCostUUSDC in
  if gasCostUUSDC <=? maxCost then
    _ ← update_mem (clear_failure chainID); mret (true, cost)
  else if ProfitabilityTimeout conf =? -1 then mret (false, cost)
  else
    mem ← get_mem;
    match profitabilityFailures mem !! chainID with
    | None =>
        now ← time_now;
        _ ← update_mem (set_failure chainID now);
        mret (false, cost)
    | Some firstFailureTime =>
        age ← time_Since firstFailureTime;
        if ProfitabilityTimeout conf <? age then
          costCap ← or_throw (bigint_SetString (TransferCostCapUUSDC conf))
            "parsing rebalancing cost cap";
          mret (gasCostUUSDC <=? costCap, cost)
        else mret (false, cost)
    end.

(** ** Moving funds *)

Definition moving (amount : Z) (from to : string) : string :=
  bigint_String amount +:+ " uusdc from chain " +:+ from +:+ " to chain " +:+ to.

(** The approval, when one is needed, submitted and recorded. *)
Definition approve_and_record (amount : Z) (from to : string) (txn : Tx) : IO unit :=
  r ← wrap_err ("approving txn for rebalance of " +:+ moving amount from to +:+ ": ")
    (ApproveTxn from txn);
  let '(approvalHash, rawTx) := r : string * string in
  if (approvalHash =? "")%string then mret tt else
  _ ← wrap_err ("inserting submitted tx for erc20 approval with hash " +:+ approvalHash
                +:+ " on chain " +:+ from +:+ " into db: ")
    (db_exec (InsertSubmittedTx (mkInsertSubmittedTxParams None None None None from approvalHash
                rawTx TxTypeERC20Approval TxStatusPending)));
  mret tt.

(** Whether the configured limit on the gas cost allows the transaction. *)
Definition gas_allows (from : string) (txn : SkipGoTxnWithMetadata) : IO bool :=
  conf ← wrap_err "getting fund rebalancer config for gas threshold check: "
    (lift_result (GetFundRebalancingConfig cfg from));
  if (MaxRebalancingGasCostUUSDC conf =? "")%string then mret true else
  r ← wrap_err ("checking if total rebalancing gas cost is acceptable on chain " +:+ from +:+ ": ")
    (isGasAcceptable txn from);
  let '(gasAcceptable, _) := r : bool * string in
  if gasAcceptable then mret true else
  _ ← or_throw (bigint_SetString (MaxRebalancingGasCostUUSDC conf))
    ("parsing max rebalancing gas cost uusdc " +:+ MaxRebalancingGasCostUUSDC conf +:+ " for chain "
     +:+ from +:+ " to *big.Int");
  mret false.

(** The transfer and its transaction in the database. *)
Definition record_rebalance (from to : string) (txn : SkipGoTxnWithMetadata)
    (rebalanceHash rawTx : string) : IO unit :=
  rebalanceID ← wrap_err ("updating rebalance transfer with hash " +:+ rebalanceHash +:+ ": ")
    (db_exec (InsertRebalanceTransfer rebalanceHash from to (bigint_String (stm_amount txn))));
  _ ← wrap_err ("inserting submitted tx for rebalance transfer with hash " +:+ rebalanceHash
                +:+ " into db: ")
    (db_exec (InsertSubmittedTx (mkInsertSubmittedTxParams None None None (Some rebalanceID)
                (stm_sourceChainID txn) rebalanceHash rawTx TxTypeFundRebalnance TxStatusPending)));
  mret tt.

(** The state of the loop: the hashes, the total moved and what is still needed. *)
Definition move_state : Type := list string * Z * Z.

(** One chain of the loop of [MoveFundsToChain]. *)
Definition move_from (to : string) (st : move_state) (from : string) :
    IO (ctl move_state (list string * Z)) :=
  let '(hashes, totalUSDCMoved, remainingUSDCNeeded) := st in
  if (from =? to)%string then mret (Next st) else
  usdcToSpare ← wrap_err ("could not get amount of usdc to spare from chain " +:+ from +:+ ": ")
    (USDCToSpare from);
  if usdcToSpare =? 0 then mret (Next st) else
  let neededVsSpareDiff := remainingUSDCNeeded - usdcToSpare in
  let usdcToRebalance := if neededVsSpareDiff <=? 0 then remainingUSDCNeeded else usdcToSpare in
  txns ← wrap_err ("getting txns required for fund rebalancing " +:+ moving usdcToRebalance from to
                   +:+ ": ")
    (GetRebalanceTxns usdcToRebalance from to);
  match txns with
  | [txn] =>
      _ ← approve_and_record usdcToRebalance from to txn;
      txnWithMetadata ← wrap_err ("getting transaction metadata to rebalance funds from chain "
                                  +:+ from +:+ ": ")
        (TxnWithMetadata from to usdcToRebalance txn);
      allowed ← gas_allows from txnWithMetadata;
      if negb allowed then mret (Next st) else
      r ← wrap_err "signing and submitting transaction: " (SignAndSubmitTxn txnWithMetadata);
      let '(rebalanceHash, rawTx) := r : string * string in
      _ ← record_rebalance from to txnWithMetadata rebalanceHash rawTx;
      let st' := (hashes ++ [rebalanceHash], totalUSDCMoved + usdcToRebalance,
                  remainingUSDCNeeded - usdcToRebalance) in
      mret (if remainingUSDCNeeded - usdcToRebalance <=? 0
            then Return (hashes ++ [rebalanceHash], totalUSDCMoved + usdcToRebalance)
            else Next st')
  | l => throw (ErrNew ("only single transaction transfers are supported to rebalance "
                        +:+ moving usdcToRebalance from to +:+ ", instead got a "
                        +:+ strconv_Itoa (Z.of_nat (length l)) +:+ " tx transfer"))
  end.

Definition MoveFundsToChain (rebalanceToChainID : string) (usdcToReachTarget : Z) :
    IO (list string * Z) :=
  chains ← range (map_to_list rebalancer_config).*1;
  r ← loop chains ([], 0, usdcToReachTarget) (move_from rebalanceToChainID);
  mret match r with
       | inl (hashes, totalUSDCMoved, _) => (hashes, totalUSDCMoved)
       | inr res => res
       end.

(** One chain of the loop of [Rebalance]: errors are logged. *)
Definition rebalance_chain (chainID : string) : IO unit :=
  match GetChainConfig cfg chainID with
  | Panic p => go_panic p
  | Err _ => mret tt
  | Ok chainConfig =>
      if negb (Type_ chainConfig =? ChainType_COSMOS)%string then mret tt else
      r ← attempt (USDCNeeded chainID);
      match r with
      | inl _ => mret tt
      | inr usdcNeeded =>
          if usdcNeeded <=? 0 then mret tt else
          _ ← attempt (MoveFundsToChain chainID usdcNeeded); mret tt
      end
  end.

Definition Rebalance : IO unit :=
  chains ← range (map_to_list rebalancer_config).*1;
  for_each chains rebalance_chain.

(** ** Tracking transfers: TransferTracker *)

Definition set_transfer_status (status : string) (t : RebalanceTransfer) (what : string) : IO unit :=
  wrap_err ("updating transfer status to " +:+ what +:+ " for hash " +:+ rt_TxHash t +:+ " on chain "
            +:+ rt_SourceChainID t +:+ ": ")
    (db_exec (UpdateTransferStatus status (rt_ID t))).

Definition updateTransferStatus (t : RebalanceTransfer) : IO unit :=
  age ← time_Since (rt_CreatedAt t);
  if transferTimeout <? age
  then set_transfer_status RebalanceTransferStatusAbandoned t "abandoned" else
  txHash ← wrap_err ("failed to track transaction " +:+ rt_TxHash t +:+ " on chain "
                     +:+ rt_SourceChainID t +:+ ": ")
    (ask (SkipTrackTx (rt_TxHash t) (rt_SourceChainID t)));
  transfers ← wrap_err ("getting status for transaction " +:+ rt_TxHash t +:+ " on chain "
                        +:+ rt_SourceChainID t +:+ ": ")
    (ask (SkipStatus txHash (rt_SourceChainID t)));
  if negb (forallb (λ transfer, IsCompleted (tr_State transfer)) transfers) then mret tt else
  if negb (transfer_error transfers =? "")%string
  then set_transfer_status RebalanceTransferStatusFailed t "failed"
  else set_transfer_status RebalanceTransferStatusSuccess t "completed".

Definition UpdateTransfers : IO unit :=
  pendingTransfers ← wrap_err "getting all pending rebalance transfers: "
    (db_exec GetAllPendingRebalanceTransfers);
  for_each pendingTransfers (λ t, _ ← attempt (updateTransferStatus t); mret tt).
End rebalancer.

(** ** Lemmas: balances *)

(** The balance of the solver on a chain, as the chain (or Skip Go) answered. *)
Definition balance_answer {E} (cfg : configReader) (chainID : string) (w w' : World E) (b : Z) : Prop :=
  ∃ c, GetChainConfig cfg chainID = Ok c ∧
    (asked w w' (existT (EvmUSDCBalance chainID (USDCDenom c) (SolverAddress c)) (inr b)) ∨
     ∃ resp chainResp detail,
       asked w w' (existT (SkipBalance (balance_request chainID (SolverAddress c) (USDCDenom c)))
                     (inr resp)) ∧
       resp !! chainID = Some chainResp ∧ cr_Denoms chainResp !! USDCDenom c = Some detail ∧
       bigint_SetString (dd_Amount detail) = Some b).

(** Runs that leave the rebalance transfers alone. *)
Definition keeps_transfers {E} (w w' : World E) : Prop :=
  emits (λ _, True) w w' ∧ rebalance_transfers (w_db w') = rebalance_transfers (w_db w).

Definition same_rebalances (d d' : Database) : Prop :=
  rebalance_transfers d' = rebalance_transfers d.
#[export] Instance same_rebalances_preorder : PreOrder same_rebalances.
Proof. split; [done|]. unfold same_rebalances. intros ???; congruence. Qed.

Lemma frame_keeps_transfers {E A} (m : M (World E) A) :
  frame (emits (λ _, True)) m → frame (db_rel same_rebalances) m → frame keeps_transfers m.
Proof. apply frame_and. Qed.

#[export] Instance keeps_transfers_preorder E : PreOrder (keeps_transfers (E := E)).
Proof.
  split; [by intros w|]. intros w1 w2 w3 [] []. split; [by etransitivity|congruence].
Qed.

Lemma add_pending_shift l acc z :
  foldl add_pending (Ok (acc + z)) l = rbind (foldl add_pending (Ok z) l) (λ s, Ok (acc + s)).
Proof.
  revert acc z. induction l as [|t l IH]; intros acc z; simpl; [done|].
  destruct (bigint_SetString (rt_Amount t)) as [a|].
  - rewrite <-IH. do 2 f_equal. lia.
  - clear IH. by induction l.
Qed.

Lemma sum_pending_app l1 l2 s1 s2 :
  sum_pending l1 = Ok s1 → sum_pending l2 = Ok s2 → sum_pending (l1 ++ l2) = Ok (s1 + s2).
Proof.
  intros H1 H2. unfold sum_pending in *.
  rewrite foldl_app, H1, <-(Z.add_0_r s1) at 1. rewrite add_pending_shift, H2. done.
Qed.

Section balances.
Context {E : Type} `{Env E}.
Context (cfg : configReader).
Implicit Types w : World E.

Lemma wp_usdcBalance chainID w :
  wp (usdcBalance cfg chainID)
    (λ r w', emits read_only w w' ∧ w_db w' = w_db w ∧
       ∀ b, r = Ok (Some b) → balance_answer cfg chainID w w' b) w.
Proof.
  unfold usdcBalance, GetUSDCDenom, GetChainConfig.
  destruct (chainIDIndex cfg !! chainID) as [c|] eqn:Hc; wp_steps;
    try (split_and!; [by solve_emits|done|done]).
  all: simplify_eq; split_and!; [by solve_emits|done|]; intros b' [= <-].
  all: eexists; unfold GetChainConfig; rewrite Hc; split; [done|].
  - left. solve_asked.
  - right. do 3 eexists. split_and!; [solve_asked|eassumption..].
Qed.

Lemma wp_USDCToSpare chainID w :
  wp (USDCToSpare cfg chainID)
    (λ r w', emits read_only w w' ∧ w_db w' = w_db w ∧
       ∀ s, r = Ok s → 0 ≤ s ∧ (s ≠ 0 → ∃ b target,
         balance_answer cfg chainID w w' b ∧
         bigint_SetString (TargetAmount (chain_rebalancing cfg chainID)) = Some target ∧
         s = b - target)) w.
Proof.
  unfold USDCToSpare. apply wp_bind, wp_wrap_err. eapply wp_mono; [|apply wp_usdcBalance].
  intros [b|err|p] w1 (Hem&Hdb&Hb); [|by split_and!..].
  wp_steps; try by split_and!.
  destruct b as [b|]; simpl; wp_steps; [|by split_and!].
  split_and!; [done..|]. intros s [= <-]. destruct (Z.leb_spec b z); [done|].
  split; [lia|]. intros _. exists b, z. split_and!; [by apply Hb|done..].
Qed.
End balances.

(** ** Lemmas: moving funds *)

Section moving.
Context {E : Type} `{Env E}.
Implicit Types w : World E.
Context (cfg : configReader) (to : string) (w : World E).

(** A transfer recorded since [w]: bound for [to], from another chain, of a
    positive amount that the balance answered for that chain exceeds its target
    by. *)
Definition moved_row w' (t : RebalanceTransfer) : Prop :=
  rt_DestinationChainID t = to ∧ rt_SourceChainID t ≠ to ∧
  rt_Status t = RebalanceTransferStatusPending ∧
  ∃ amount b target, rt_Amount t = bigint_String amount ∧ 0 < amount ≤ b - target ∧
    bigint_SetString (TargetAmount (chain_rebalancing cfg (rt_SourceChainID t))) = Some target ∧
    balance_answer cfg (rt_SourceChainID t) w w' b.

(** The transfers recorded since [w] amount to [total]. *)
Definition moved w' (hashes : list string) (total : Z) : Prop :=
  emits (λ _, True) w w' ∧
  ∃ new, rebalance_transfers (w_db w') = rebalance_transfers (w_db w) ++ new ∧
    Forall (moved_row w') new ∧ rt_TxHash <$> new = hashes ∧ sum_pending new = Ok total.

Lemma balance_answer_later chainID w' w'' b :
  balance_answer cfg chainID w w' b → emits (λ _, True) w' w'' →
  balance_answer cfg chainID w w'' b.
Proof.
  intros (c&Hc&Ha) Hem. exists c. split; [done|].
  destruct Ha as [Ha|(r&d&a&Ha&?&?&?)]; [left; by eapply asked_later|right].
  exists r, d, a. split_and!; [by eapply asked_later|done..].
Qed.

Lemma balance_answer_earlier chainID w0 w' b :
  emits (λ _, True) w w0 → balance_answer cfg chainID w0 w' b → balance_answer cfg chainID w w' b.
Proof.
  intros Hem (c&Hc&Ha). exists c. split; [done|].
  destruct Ha as [Ha|(r&d&a&Ha&?&?&?)]; [left; by eapply asked_earlier|right].
  exists r, d, a. split_and!; [by eapply asked_earlier|done..].
Qed.

Lemma moved_keeps w' w'' hashes total :
  moved w' hashes total → keeps_transfers w' w'' → moved w'' hashes total.
Proof.
  intros (Hem&new&Ht&Hf&Hh&Hs) [Hem' Hsame]. split; [by etransitivity|].
  exists new. rewrite Hsame. split_and!; [done| |done..].
  eapply Forall_impl; [exact Hf|]. intros t (?&?&?&a&b&tg&?&?&?&Hb).
  split_and!; [done..|]. exists a, b, tg. split_and!; try done; try lia. by eapply balance_answer_later.
Qed.

(** The loop invariant: what is still needed is positive, and what was moved is
    the rest. *)
Definition move_inv (needed : Z) (st : move_state) w' : Prop :=
  let '(hashes, total, remaining) := st in
  moved w' hashes total ∧ remaining = needed - total ∧ 0 < remaining ∧ 0 ≤ total.

(** At most [needed] was moved. *)
Definition moved_at_most (needed : Z) w' : Prop :=
  ∃ hashes total, moved w' hashes total ∧ 0 ≤ total ≤ needed.

Lemma move_inv_at_most needed st w' w'' :
  move_inv needed st w' → keeps_transfers w' w'' → moved_at_most needed w''.
Proof.
  destruct st as [[hashes total] remaining]. intros (Hm&->&?&?) Hk.
  exists hashes, total. split; [by eapply moved_keeps|lia].
Qed.

Local Ltac keeps :=
  apply frame_keeps_transfers; solve_io; try done;
  try (apply db_rel_exec; [typeclasses eauto|]; intros ? ?; unfold same_rebalances;
       unfold InsertSubmittedTx; by destruct (existsb _ _)).

Lemma GetRebalanceTxns_keeps amount from : frame (keeps_transfers (E := E)) (GetRebalanceTxns cfg amount from to).
Proof. unfold GetRebalanceTxns. keeps. Qed.
Lemma approve_keeps amount from txn :
  frame (keeps_transfers (E := E)) (approve_and_record cfg amount from to txn).
Proof.
  unfold approve_and_record, ApproveTxn, NeedsERC20Approval, ERC20Approval_. keeps.
Qed.
Lemma TxnWithMetadata_keeps amount from txn :
  frame (keeps_transfers (E := E)) (TxnWithMetadata cfg from to amount txn).
Proof. unfold TxnWithMetadata, deref. keeps. Qed.
Lemma gas_allows_keeps from txn : frame (keeps_transfers (E := E)) (gas_allows cfg from txn).
Proof. unfold gas_allows, isGasAcceptable, time_Since. keeps. Qed.
Lemma SignAndSubmitTxn_keeps txn : frame (keeps_transfers (E := E)) (SignAndSubmitTxn txn).
Proof. unfold SignAndSubmitTxn. keeps. Qed.

(** Recording a move. *)
Lemma wp_record_rebalance from txn hash raw w1 hashes total b target :
  moved w1 hashes total → from ≠ to →
  0 < stm_amount txn ≤ b - target →
  bigint_SetString (TargetAmount (chain_rebalancing cfg from)) = Some target →
  balance_answer cfg from w w1 b →
  wp (record_rebalance from to txn hash raw)
    (λ r w', match r with
             | Ok _ => moved w' (hashes ++ [hash]) (total + stm_amount txn)
             | _ => moved w' hashes total ∨ moved w' (hashes ++ [hash]) (total + stm_amount txn)
             end) w1.
Proof.
  intros Hm Hne Hamt Htgt Hb.
  assert (∀ w', emits (λ _, True) w1 w' →
    (∃ id now now', rebalance_transfers (w_db w') = rebalance_transfers (w_db w1)
       ++ [mkRebalanceTransfer id now now' hash from to (bigint_String (stm_amount txn))
             RebalanceTransferStatusPending]) →
    moved w' (hashes ++ [hash]) (total + stm_amount txn)) as Hrec.
  { intros w' Hem (id&now&now'&Hrows). destruct Hm as (Hem1&new&Ht&Hf&Hh&Hs).
    split; [by etransitivity|]. eexists. rewrite Hrows, Ht, <-app_assoc. split_and!; [done|..].
    - apply Forall_app. split.
      + assert (moved w1 hashes total) as Hm1 by (by split; [|exists new]).
        eapply Forall_impl; [exact Hf|]. intros t (?&?&?&a&b'&tg&?&?&?&?).
        split_and!; [done..|]. exists a, b', tg. split_and!; try done; try lia.
        by eapply balance_answer_later.
      + constructor; [|done]. split_and!; [done..|]. simpl.
        exists (stm_amount txn), b, target. split_and!; try done; try lia.
        by eapply balance_answer_later.
    - rewrite fmap_app, Hh. done.
    - eapply sum_pending_app; [done|]. unfold sum_pending. simpl.
      by rewrite bigint_SetString_String. }
  unfold record_rebalance. wp_steps.
  - left. eapply moved_keeps; [exact Hm|]. split; [by solve_emits|done].
  - right. apply Hrec; [by solve_emits|]. by do 3 eexists.
  - apply Hrec; [by solve_emits|]. simpl. unfold InsertSubmittedTx.
    destruct (existsb _ _); by do 3 eexists.
  - right. apply Hrec; [by solve_emits|]. simpl. unfold InsertSubmittedTx.
    destruct (existsb _ _); by do 3 eexists.
  - right. apply Hrec; [by solve_emits|]. simpl. unfold InsertSubmittedTx.
    destruct (existsb _ _); by do 3 eexists.
  - discriminate.
  - discriminate.
Qed.

Lemma TxnWithMetadata_amount amount from txn w1 t w2 :
  TxnWithMetadata cfg from to amount txn w1 = (Ok t, w2) → stm_amount t = amount.
Proof.
  intros Hrun. run_wp Hrun. unfold TxnWithMetadata, deref. wp_steps; intros; by simplify_eq.
Qed.

Definition move_result (needed : Z) (r : result (ctl move_state (list string * Z))) w' : Prop :=
  match r with
  | Ok (Next st) => move_inv needed st w'
  | Ok (Break _) => False
  | Ok (Return (hashes, total)) => moved w' hashes total ∧ 0 ≤ total ≤ needed
  | _ => moved_at_most needed w'
  end.

(** Sending and recording the move once it was decided. *)
Lemma wp_move_send needed hashes total remaining from txn w1 w2 b target :
  move_inv needed (hashes, total, remaining) w1 → keeps_transfers w1 w2 → from ≠ to →
  0 < stm_amount txn ≤ b - target → stm_amount txn ≤ remaining →
  bigint_SetString (TargetAmount (chain_rebalancing cfg from)) = Some target →
  balance_answer cfg from w w2 b →
  wp (r ← wrap_err "signing and submitting transaction: " (SignAndSubmitTxn txn);
      let '(rebalanceHash, rawTx) := r : string * string in
      _ ← record_rebalance from to txn rebalanceHash rawTx;
      let st' := (hashes ++ [rebalanceHash], total + stm_amount txn,
                  remaining - stm_amount txn) in
      mret (if remaining - stm_amount txn <=? 0
            then Return (hashes ++ [rebalanceHash], total + stm_amount txn)
            else Next st')) (move_result needed) w2.
Proof.
  intros Hinv Hk Hne Hamt Hrem Htgt Hb.
  apply wp_bind, wp_wrap_err, (wp_conseq keeps_transfers); [apply SignAndSubmitTxn_keeps|].
  intros r w3 _ Hk3. assert (keeps_transfers w1 w3) as Hk13 by (by etransitivity).
  destruct r as [[hash raw]|err|p]; [|by eapply move_inv_at_most..].
  destruct Hinv as (Hm&->&?&?).
  apply wp_bind. eapply wp_mono; [|eapply wp_record_rebalance; [by eapply moved_keeps|exact Hne|
    exact Hamt|exact Htgt|eapply balance_answer_later; [exact Hb|apply Hk3]]].
  intros [[]|err|p] w4 Hw4.
  - apply wp_ret. unfold move_result. destruct (Z.leb_spec (needed - total - stm_amount txn) 0).
    + split; [done|lia].
    + split_and!; [done|lia..].
  - destruct Hw4 as [?|?]; eexists _, _; (split; [eassumption|lia]).
  - destruct Hw4 as [?|?]; eexists _, _; (split; [eassumption|lia]).
Qed.

Lemma wp_move_from needed st from w1 :
  move_inv needed st w1 → wp (move_from cfg to st from) (move_result needed) w1.
Proof.
  intros Hinv. unfold move_from. destruct st as [[hashes total] remaining].
  assert (0 < remaining) as Hpos by (by destruct Hinv as (_&_&?&_)).
  destruct (String.eqb_spec from to) as [|Hne]; [by apply wp_ret|].
  assert (∀ w', keeps_transfers w1 w' → moved_at_most needed w') as Hstop
    by (intros; by eapply move_inv_at_most).
  apply wp_bind, wp_wrap_err. eapply wp_mono; [|apply wp_USDCToSpare].
  intros r w2 (Hem2&Hdb2&Hr).
  assert (keeps_transfers w1 w2) as Hk2.
  { split; [|by rewrite Hdb2]. destruct Hem2 as (new&?&_). exists new.
    split; [done|by apply Forall_true]. }
  destruct r as [spare|err|p]; [|by apply Hstop..]. destruct (Hr spare eq_refl) as [H0 Hsp].
  destruct (Z.eqb_spec spare 0) as [|Hnz].
  { apply wp_ret. destruct Hinv as (Hm&?&?&?). split_and!; [by eapply moved_keeps|done..]. }
  destruct (Hsp Hnz) as (b&target&Hb&Htgt&->). clear Hsp Hr. cbv zeta.
  set (amount := if remaining - (b - target) <=? 0 then remaining else b - target).
  assert (0 < amount ≤ b - target ∧ amount ≤ remaining) as [Hamt Hrem]
    by (subst amount; destruct (Z.leb_spec (remaining - (b - target)) 0); lia).
  apply wp_bind, wp_wrap_err, (wp_conseq keeps_transfers); [apply GetRebalanceTxns_keeps|].
  intros r w3 _ Hk3. assert (keeps_transfers w1 w3) by (by etransitivity).
  destruct r as [[|txn [|]]|err|p]; try by apply Hstop.
  apply wp_bind, (wp_conseq keeps_transfers); [apply approve_keeps|].
  intros r w4 _ Hk4. assert (keeps_transfers w1 w4) by (by etransitivity).
  destruct r as [[]|err|p]; try by apply Hstop.
  apply wp_bind, wp_wrap_err, (wp_conseq keeps_transfers); [apply TxnWithMetadata_keeps|].
  intros r w5 Hrun Hk5. assert (keeps_transfers w1 w5) by (by etransitivity).
  destruct r as [t|err|p]; try by apply Hstop. apply TxnWithMetadata_amount in Hrun.
  apply wp_bind, (wp_conseq keeps_transfers); [apply gas_allows_keeps|].
  intros r w6 _ Hk6. assert (keeps_transfers w1 w6) by (by etransitivity).
  destruct r as [[]|err|p]; try by apply Hstop; cbn [negb].
  - rewrite <-Hrun in *. eapply wp_move_send; try eassumption.
    eapply balance_answer_later; [eapply balance_answer_earlier; [|exact Hb]|].
    + by destruct Hinv as ((?&_)&_).
    + transitivity w3; [apply Hk3|]. transitivity w4; [apply Hk4|].
      transitivity w5; [apply Hk5|apply Hk6].
  - apply wp_ret. destruct Hinv as (Hm&?&?&?). split_and!; [by eapply moved_keeps|done..].
Qed.
End moving.

Section rebalancing.
Context {E : Type} `{Env E}.
Context (cfg : configReader).
Implicit Types w : World E.

Lemma wp_MoveFundsToChain to needed w :
  0 < needed →
  wp (MoveFundsToChain cfg to needed)
    (λ r w', match r with
             | Ok (hashes, total) => moved cfg to w w' hashes total ∧ 0 ≤ total ≤ needed
             | _ => moved_at_most cfg to w needed w'
             end) w.
Proof.
  intros Hpos. unfold MoveFundsToChain. apply wp_bind, wp_range. intros chains a e _. apply wp_bind.
  apply (wp_loop (λ _ st w1, move_inv cfg to w needed st w1)).
  - split_and!; [|lia..]. split; [by solve_emits|]. exists []. rewrite app_nil_r.
    split_and!; done.
  - intros _ from _ st w1 _ Hinv. eapply wp_mono; [|by apply wp_move_from].
    intros [[st'|st'|[hashes total]]|err|p] w2 Hw2; done.
  - intros [[hashes total] remaining] w1 (Hm&->&?&?). apply wp_ret. split; [done|lia].
Qed.
End rebalancing.

(** ** Lemmas: tracking *)

Section tracking.
Context {E : Type} `{Env E}.
Context (t : RebalanceTransfer).
Implicit Types w : World E.

(** What Skip Go answered for the transfer. *)
Definition status_answer w w' (transfers : list Transfer) : Prop :=
  ∃ txHash, asked w w' (existT (SkipTrackTx (rt_TxHash t) (rt_SourceChainID t)) (inr txHash)) ∧
    asked w w' (existT (SkipStatus txHash (rt_SourceChainID t)) (inr transfers)).

Inductive transfer_verdict w w' : string → Prop :=
  | transfer_timed_out now :
      asked w w' (existT TimeNow now) →
      transferTimeout < time_since (clock_reading now) (rt_CreatedAt t) →
      transfer_verdict w w' RebalanceTransferStatusAbandoned
  | transfer_failed transfers :
      status_answer w w' transfers →
      (∀ x, x ∈ transfers → IsCompleted (tr_State x) = true) →
      (∃ x, x ∈ transfers ∧ IsCompletedError (tr_State x) = true) →
      transfer_verdict w w' RebalanceTransferStatusFailed
  | transfer_succeeded transfers :
      status_answer w w' transfers →
      (∀ x, x ∈ transfers → IsCompleted (tr_State x) = true) →
      ((∀ x, x ∈ transfers → IsCompletedError (tr_State x) = false) ∨
       (∃ x, x ∈ transfers ∧ IsCompletedError (tr_State x) = true ∧
          tr_Error x = Some ""%string)) →
      transfer_verdict w w' RebalanceTransferStatusSuccess.

(** At most the status of the transfer changes, for a reason. *)
Definition tracked w w' : Prop :=
  emits read_only w w' ∧
  (w_db w' = w_db w ∨
   ∃ status now, transfer_verdict w w' status ∧
     w_db w' = with_rebalance_transfers (update_rows (λ r, bool_decide (rt_ID r = rt_ID t))
                 (rebalance_set now status)) (w_db w)).

Lemma transfer_error_app l x :
  transfer_error (l ++ [x]) =
    (if IsCompletedError (tr_State x)
     then match tr_Error x with
          | Some e => e
          | None => "error occurred during transfer but reason could not be found. state is "
                    +:+ tr_State x
          end
     else transfer_error l).
Proof. unfold transfer_error. by rewrite foldl_app. Qed.

(** A reported error comes from a failed transfer, and no error is reported only
    when none failed or the last failure came with an empty message. *)
Lemma transfer_error_some l :
  transfer_error l ≠ ""%string → ∃ x, x ∈ l ∧ IsCompletedError (tr_State x) = true.
Proof.
  induction l as [|x l IH] using rev_ind; [done|]. rewrite transfer_error_app.
  destruct (IsCompletedError (tr_State x)) eqn:Hx; intros Hne.
  - exists x. split; [|done]. apply elem_of_app. right. by left.
  - destruct (IH Hne) as (y&?&?). exists y. split; [|done]. apply elem_of_app. by left.
Qed.

Lemma transfer_error_none l :
  transfer_error l = ""%string →
  (∀ x, x ∈ l → IsCompletedError (tr_State x) = false) ∨
  ∃ y, y ∈ l ∧ IsCompletedError (tr_State y) = true ∧ tr_Error y = Some ""%string.
Proof.
  induction l as [|x l IH] using rev_ind; [left; by intros x ?%not_elem_of_nil|].
  rewrite transfer_error_app. destruct (IsCompletedError (tr_State x)) eqn:Hx; intros He.
  - right. exists x. split; [apply elem_of_app; right; by left|]. split; [done|].
    destruct (tr_Error x); [by subst|done].
  - destruct (IH He) as [Hl|(y&?&?&?)].
    + left. intros y [Hy|Hy%list_elem_of_singleton]%elem_of_app; [by apply Hl|by subst].
    + right. exists y. split; [apply elem_of_app; by left|done].
Qed.

Lemma transfer_verdict_later w w1 w2 s :
  transfer_verdict w w1 s → emits read_only w1 w2 → transfer_verdict w w2 s.
Proof.
  intros Hv Hem.
  assert (∀ ts, status_answer w w1 ts → status_answer w w2 ts) as Hs
    by (intros ts (h&?&?); exists h; split; by eapply asked_later).
  destruct Hv; [eapply transfer_timed_out|eapply transfer_failed|eapply transfer_succeeded];
    eauto using asked_later.
Qed.

(** Writing a justified status. *)
Lemma wp_set_transfer_status status what w w1 :
  emits read_only w w1 → w_db w1 = w_db w → transfer_verdict w w1 status →
  rebalance_status_ok status = true →
  wp (set_transfer_status status t what) (λ _ w', tracked w w') w1.
Proof.
  intros Hem Hdb Hv Hok. unfold set_transfer_status. apply wp_wrap_err, wp_db_exec.
  - intros err e. split; [by apply emits_after|by left].
  - intros c e. unfold UpdateTransferStatus. rewrite Hok, andb_false_r. cbn [fst snd].
    split; [by apply emits_stmt|]. right. exists status, (stmt_ts c). split.
    + eapply transfer_verdict_later; [exact Hv|]. by solve_emits.
    + simpl. by rewrite Hdb.
Qed.

Lemma wp_updateTransferStatus w : wp (updateTransferStatus t) (λ _ w', tracked w w') w.
Proof.
  assert (∀ w', emits read_only w w' → w_db w' = w_db w → tracked w w') as Hsame
    by (intros; split; [done|by left]).
  unfold updateTransferStatus, time_Since. apply wp_bind, wp_bind, wp_time_now_answer.
  intros a e. apply wp_ret.
  destruct (Z.ltb_spec transferTimeout (time_since (clock_reading a) (rt_CreatedAt t))) as [Hlt|_].
  { apply wp_set_transfer_status; [by solve_emits|done| |done].
    eapply transfer_timed_out; [|exact Hlt]. eapply (asked_here read_only). reflexivity. }
  wp_steps; try (apply Hsame; [by solve_emits|done]).
  all: match goal with Hc : negb (forallb _ ?ts) = false |- _ =>
    apply negb_false_iff in Hc; rewrite forallb_forall in Hc;
    assert (∀ x, x ∈ ts → IsCompleted (tr_State x) = true) as Hall
      by (intros x Hx; apply Hc; by apply list_elem_of_In) end.
  all: (apply wp_set_transfer_status; [by solve_emits|done| |done]).
  - eapply transfer_failed; [eexists; split; solve_asked|exact Hall|].
    apply transfer_error_some.
    match goal with He : negb (_ =? "")%string = true |- _ =>
      apply negb_true_iff, String.eqb_neq in He; exact He end.
  - eapply transfer_succeeded; [eexists; split; solve_asked|exact Hall|].
    apply transfer_error_none.
    match goal with He : negb (_ =? "")%string = false |- _ =>
      apply negb_false_iff, String.eqb_eq in He; exact He end.
Qed.
End tracking.

(** ** Properties *)

(** What a chain needs: [USDCNeeded] returns nothing when the balance answered
    for the chain plus the pending transfers to it reaches the configured minimum,
    and the difference to the target otherwise; it writes nothing. *)
Theorem USDCNeeded_spec {E} `{Env E} cfg chainID (w w' : World E) n :
  USDCNeeded cfg chainID w = (Ok n, w') →
  w_db w' = w_db w ∧ emits read_only w w' ∧
  ∃ b pending minimum,
    balance_answer cfg chainID w w' b ∧
    sum_pending (List.filter (λ r, bool_decide (rt_DestinationChainID r = chainID)
                                   && pending_rebalance r) (rebalance_transfers (w_db w)))
      = Ok pending ∧
    bigint_SetString (MinAllowedAmount (chain_rebalancing cfg chainID)) = Some minimum ∧
    (minimum ≤ b + pending ∧ n = 0 ∨
     b + pending < minimum ∧ ∃ target,
       bigint_SetString (TargetAmount (chain_rebalancing cfg chainID)) = Some target ∧
       n = target - (b + pending)).
Proof.
  intros Hrun. run_wp Hrun. unfold USDCNeeded, pendingUSDCBalance, deref.
  apply wp_bind, wp_wrap_err. eapply wp_mono; [|apply wp_usdcBalance].
  intros [b|err|p] w1 (Hem&Hdb&Hb); [|done..]. wp_steps; try (intros; discriminate).
  all: intros [= <-]; split_and!; [done|by solve_emits|].
  all: match goal with Hq : (GetPendingRebalanceTransfersToChain _ _ _).1 = Ok _ |- _ =>
    injection Hq as <- end.
  all: eexists _, _, _; split_and!;
    [eapply balance_answer_later; [by apply Hb|by solve_emits]|rewrite <-Hdb; eassumption|
     first [reflexivity|eassumption]|].
  - left. split; [by apply Z.leb_le|done].
  - right. split; [by apply Z.leb_gt|]. by eexists.
Qed.

(** C4. Moving funds never overshoots: whatever the chains answer, the transfers a
    call of [MoveFundsToChain] records are bound for the chain in need, come from
    other chains, take from each at most what its answered balance exceeds its
    target by, and together do not exceed what was needed; when the call returns,
    they are exactly the hashes and the total it returns. *)
Theorem MoveFundsToChain_bounded {E} `{Env E} cfg to needed (w w' : World E) r :
  0 < needed → MoveFundsToChain cfg to needed w = (r, w') →
  match r with
  | Ok (hashes, total) => moved cfg to w w' hashes total ∧ 0 ≤ total ≤ needed
  | _ => moved_at_most cfg to w needed w'
  end.
Proof. intros Hpos Hrun. exact (wp_run _ _ _ _ _ Hrun (wp_MoveFundsToChain cfg to needed w Hpos)). Qed.

(** C5. What was moved is accounted for: after [MoveFundsToChain] returned a total,
    the pending balance of the chain is the one before plus that total, so that
    the next pass asks for that much less. *)
Theorem MoveFundsToChain_accounted {E} `{Env E} cfg to needed (w w' : World E) hashes total s :
  let pending d := sum_pending (List.filter (λ r,
    bool_decide (rt_DestinationChainID r = to) && pending_rebalance r) (rebalance_transfers d)) in
  0 < needed → MoveFundsToChain cfg to needed w = (Ok (hashes, total), w') →
  pending (w_db w) = Ok s → pending (w_db w') = Ok (s + total).
Proof.
  intros pending Hpos Hrun Hs.
  destruct (wp_run _ _ _ _ _ Hrun (wp_MoveFundsToChain cfg to needed w Hpos))
    as [(_&new&Ht&Hf&_&Hsum) _].
  subst pending. cbv beta in *. rewrite Ht, List.filter_app. apply sum_pending_app; [done|].
  rewrite <-Hsum. f_equal. clear -Hf. induction Hf as [|t new (Hto&_&Hst&_) _ IH]; [done|].
  simpl. unfold pending_rebalance at 1. rewrite Hto, Hst, !bool_decide_eq_true_2 by done.
  simpl. by rewrite IH.
Qed.

(** Gas is paid within the limits: [isGasAcceptable] accepts a transaction only
    when the oracle's fee is at most the configured maximum (and then it forgets
    the chain's failures), or when an earlier failure of this chain is on record,
    the configured timeout since then has passed, and the fee is at most the
    configured cap. *)
Theorem isGasAcceptable_sound {E} `{Env E} cfg txn chainID (w w' : World E) cost :
  isGasAcceptable cfg txn chainID w = (Ok (true, cost), w') →
  w_db w' = w_db w ∧ emits read_only w w' ∧
  ∃ conf gasPrice id fee maxCost,
    GetFundRebalancingConfig cfg chainID = Ok conf ∧
    asked w w' (existT (TxFeeUUSDC (stm_gasEstimate txn) gasPrice id) (inr fee)) ∧
    bigint_SetString (MaxRebalancingGasCostUUSDC conf) = Some maxCost ∧
    cost = bigint_String fee ∧
    (fee ≤ maxCost ∧ profitabilityFailures (w_mem w') !! chainID = None ∨
     maxCost < fee ∧ ProfitabilityTimeout conf ≠ -1 ∧
     ∃ first now costCap, profitabilityFailures (w_mem w) !! chainID = Some first ∧
       ProfitabilityTimeout conf < time_since now first ∧
       bigint_SetString (TransferCostCapUUSDC conf) = Some costCap ∧ fee ≤ costCap).
Proof.
  intros Hrun. run_wp Hrun. unfold isGasAcceptable, time_Since.
  wp_steps; try (intros; discriminate).
  - intros [= <-]. split_and!; [done|by solve_emits|]. do 5 eexists.
    split_and!; [first [reflexivity|eassumption]|solve_asked|first [reflexivity|eassumption]|done|].
    left. split; [by apply Z.leb_le|]. simpl. apply lookup_delete_eq.
  - intros [= Hok <-]. split_and!; [done|by solve_emits|]. do 5 eexists.
    split_and!; [first [reflexivity|eassumption]|solve_asked|first [reflexivity|eassumption]|done|].
    right. split; [by apply Z.leb_gt|]. split; [by apply Z.eqb_neq|].
    eexists _, _, _. split_and!; [first [reflexivity|eassumption]|by apply Z.ltb_lt|first [reflexivity|eassumption]|
      by apply Z.leb_le].
Qed.

(** A rebalance from a Cosmos chain cannot be sent: Skip Go answers with a Cosmos
    transaction, and [TxnWithMetadata] panics on its nil EVM transaction before
    [SignAndSubmitTxn] could refuse it. *)
Theorem TxnWithMetadata_cosmos_panics {E} `{Env E} cfg from to amount txn (w : World E) c :
  GetChainConfig cfg from = Ok c → tx_EVMTx txn = None →
  TxnWithMetadata cfg from to amount txn w = (Panic nil_pointer, w).
Proof.
  intros Hc Htx. unfold TxnWithMetadata, wrap_err, lift_result, deref, mbind, M_bind.
  by rewrite Hc, Htx.
Qed.

(** A rebalance transfer's status follows Skip Go: a check of a transfer sends no
    transaction and changes at most the status of this transfer, to ABANDONED only
    more than ten minutes after it was recorded, to FAILED only when Skip Go
    reported every part of it as completed and one of them as failed, and to
    SUCCESS only when every part was reported as completed and none as failed, or
    one as failed with an empty error message. *)
Theorem updateTransferStatus_evidence {E} `{Env E} (t : RebalanceTransfer) (w : World E) :
  tracked t w (updateTransferStatus t w).2.
Proof. apply wp_updateTransferStatus. Qed.

(** ** Witnesses *)

(** Osmosis has 100 uusdc and needs 900 to reach its target of 1000; Arbitrum has
    700 and can spare 400. *)
Definition rebalance_env : Env unit := sim_env (λ r,
  match r as r return error + response r with
  | SkipBalance request =>
      inr ((λ q, mkChainResponse (cq_Address q) (list_to_map
             ((λ denom, (denom, mkDenomDetail "100" 6 "0.0001" "1" "0")) <$> cq_Denoms q)))
           <$> request)
  | EvmGetClient _ => inr tt
  | EvmUSDCBalance _ _ _ => inr 700
  | SkipRoute _ _ _ _ _ => inr (mkRouteResponse "400" "399" "" "" "" "" (Some []) [] ["42161"; "osmosis-1"] false "399" 1
             "" "" "")
  | SkipMsgs _ _ _ _ _ _ _ _ _ _ =>
      inr [mkTx (Some (mkEVMTx "42161" "0xbridge" "0" "" "0xsolver" [])) None [0]]
  | EvmEstimateGas _ _ _ _ _ => inr 21000
  | EvmSuggestGasPrice _ => inr 1
  | TxFeeUUSDC _ _ _ => inr 50
  | NewSigner _ => inr tt
  | ExecuteTx _ _ _ _ _ => inr ("0xmove", "raw")
  | r => offline r
  end)%string.
Definition rebalance_world : World unit := sim_world empty_db.

Lemma USDCNeeded_spec_witness :
  ∃ w', @USDCNeeded unit rebalance_env sample_reader "osmosis-1" rebalance_world = (Ok 900, w') ∧
    w_db w' = empty_db.
Proof.
  destruct (@USDCNeeded unit rebalance_env sample_reader "osmosis-1" rebalance_world)
    as [r w'] eqn:Hrun.
  assert (r = Ok 900) as -> by (vm_compute in Hrun; congruence).
  exists w'. split; [reflexivity|].
  apply (@USDCNeeded_spec unit rebalance_env sample_reader "osmosis-1" rebalance_world w' 900 Hrun).
Defined.

Lemma MoveFundsToChain_bounded_witness :
  ∃ w', @MoveFundsToChain unit rebalance_env sample_reader "osmosis-1" 900 rebalance_world
          = (Ok (["0xmove"%string], 400), w') ∧
    moved sample_reader "osmosis-1" rebalance_world w' ["0xmove"%string] 400.
Proof.
  destruct (@MoveFundsToChain unit rebalance_env sample_reader "osmosis-1" 900 rebalance_world)
    as [r w'] eqn:Hrun.
  pose proof (@MoveFundsToChain_bounded unit rebalance_env sample_reader "osmosis-1" 900
                rebalance_world w' r ltac:(lia) Hrun) as Hm.
  assert (r = Ok (["0xmove"%string], 400)) as Hr by (vm_compute in Hrun; congruence).
  rewrite Hr in *. exists w'. split; [reflexivity|apply Hm].
Defined.

Lemma MoveFundsToChain_accounted_witness :
  ∃ w', @MoveFundsToChain unit rebalance_env sample_reader "osmosis-1" 900 rebalance_world
          = (Ok (["0xmove"%string], 400), w') ∧
    sum_pending (List.filter (λ r, bool_decide (rt_DestinationChainID r = "osmosis-1"%string)
      && pending_rebalance r) (rebalance_transfers (w_db w'))) = Ok (0 + 400).
Proof.
  destruct (@MoveFundsToChain unit rebalance_env sample_reader "osmosis-1" 900 rebalance_world)
    as [r w'] eqn:Hrun.
  assert (r = Ok (["0xmove"%string], 400)) as Hr by (vm_compute in Hrun; congruence).
  rewrite Hr in *. exists w'. split; [reflexivity|].
  apply (@MoveFundsToChain_accounted unit rebalance_env sample_reader "osmosis-1" 900
           rebalance_world w' ["0xmove"%string] 400 0); [lia|exact Hrun|reflexivity].
Defined.

Definition sample_txn : SkipGoTxnWithMetadata :=
  mkSkipGoTxnWithMetadata (mkTx None (Some (mkCosmosTx "osmosis-1" [] "osmo1solver" [])) []) "42161"
    "osmosis-1" 400 21000.

Lemma isGasAcceptable_sound_witness :
  ∃ w', @isGasAcceptable unit rebalance_env sample_reader sample_txn "42161" rebalance_world
          = (Ok (true, "50"%string), w') ∧ w_db w' = empty_db.
Proof.
  destruct (@isGasAcceptable unit rebalance_env sample_reader sample_txn "42161" rebalance_world)
    as [r w'] eqn:Hrun.
  assert (r = Ok (true, "50"%string)) as Hr by (vm_compute in Hrun; congruence).
  rewrite Hr in *. exists w'. split; [reflexivity|].
  apply (@isGasAcceptable_sound unit rebalance_env sample_reader sample_txn "42161"
           rebalance_world w' "50" Hrun).
Defined.

Lemma TxnWithMetadata_cosmos_panics_witness :
  @TxnWithMetadata unit rebalance_env sample_reader "osmosis-1" "42161" 400 (stm_tx sample_txn)
    rebalance_world = (Panic nil_pointer, rebalance_world).
Proof.
  apply (@TxnWithMetadata_cosmos_panics unit rebalance_env sample_reader "osmosis-1" "42161" 400
           (stm_tx sample_txn) rebalance_world sample_osmosis); vm_compute; reflexivity.
Defined.
