(* ===== verification/TransferMonitor.v ===== *)
(** * TransferMonitor: transfermonitor/transfermonitor.go and
      shared/contracts/fast_transfer_gateway/utils.go

    Finding new orders on the EVM source chains and recording them: the polling
    monitor, which scans the gateway's event log from the last block seen in chunks
    of a thousand blocks, and the websocket monitor, which handles headers and logs
    as they arrive.  The goroutines that fetch the chunks run when they are started
    or after the loop that starts them, as the scheduler says; clients are dialled
    by the environment; metrics and logging are left out. *)
From Stdlib Require Import Strings.Byte.
From S2P Require Import Prelude GoLib Config Database World Interfaces.

Definition maxBlocksProcessedPerIteration : Z := 100000.
Definition destinationChainID : string := "osmosis-1".

(** ** Decoding orders *)

Record FastTransferOrder := mkFastTransferOrder {
  fto_Sender : list byte;
  fto_Recipient : list byte;
  fto_AmountIn : Z;
  fto_AmountOut : Z;
  fto_Nonce : Z;
  fto_SourceDomain : Z;
  fto_DestinationDomain : Z;
  fto_TimeoutTimestamp : Z;
  fto_Data : list byte
}.

Definition slice (from to : nat) (bs : list byte) : list byte := take (to - from) (drop from bs).

(** Panics on fewer than 148 bytes (the last slice expression does, whatever the
    capacity of the slice). *)
Definition DecodeOrder (bytes : list byte) : result FastTransferOrder :=
  if (length bytes <? 148)%nat then Panic "slice bounds out of range" else
  Ok (mkFastTransferOrder
        (slice 0 32 bytes) (slice 32 64 bytes)
        (be_decode (slice 64 96 bytes)) (be_decode (slice 96 128 bytes))
        (u32 (bigint_Uint64 (be_decode (slice 128 132 bytes))))
        (u32 (bigint_Uint64 (be_decode (slice 132 136 bytes))))
        (u32 (bigint_Uint64 (be_decode (slice 136 140 bytes))))
        (bigint_Uint64 (be_decode (slice 140 148 bytes)))
        (drop 148 bytes)).

(** The type [Order] of the monitor. *)
Record MonitoredOrder := mkMonitoredOrder {
  mo_TxHash : string;
  mo_TxBlockHeight : Z;
  mo_ChainID : string;
  mo_DestinationChainID : string;
  mo_ChainEnvironment : ChainEnvironment;
  mo_OrderEvent : FastTransferOrder;
  mo_OrderID : string;
  mo_TimeoutTimestamp : Z
}.

Definition order_of_log (chain : ChainConfig) (log : OrderSubmittedLog) : result MonitoredOrder :=
  rbind (DecodeOrder (log_Order log)) (λ orderData,
  Ok (mkMonitoredOrder (log_TxHash log) (log_BlockNumber log) (ChainID chain) destinationChainID
        (Environment chain) orderData (hex_EncodeToString (log_OrderID log))
        (i64 (fto_TimeoutTimestamp orderData)))).

(** The row to insert. *)
Definition order_params (gateway : string) (order : MonitoredOrder) : InsertOrderParams := {|
  iop_SourceChainID := mo_ChainID order;
  iop_DestinationChainID := mo_DestinationChainID order;
  iop_SourceChainGatewayContractAddress := gateway;
  iop_Sender := fto_Sender (mo_OrderEvent order);
  iop_Recipient := fto_Recipient (mo_OrderEvent order);
  iop_AmountIn := bigint_String (fto_AmountIn (mo_OrderEvent order));
  iop_AmountOut := bigint_String (fto_AmountOut (mo_OrderEvent order));
  iop_Nonce := fto_Nonce (mo_OrderEvent order);
  iop_Data := match fto_Data (mo_OrderEvent order) with
              | [] => None
              | data => Some (hex_EncodeToString data)
              end;
  iop_OrderCreationTx := mo_TxHash order;
  iop_OrderCreationTxBlockHeight := i64 (mo_TxBlockHeight order);
  iop_OrderID := mo_OrderID order;
  iop_OrderStatus := OrderStatusPending;
  iop_TimeoutTimestamp := mo_TimeoutTimestamp order * Second
|}.

(** ** Chunks of blocks *)

Definition chunk_limit : Z := 1000.

(** The ranges [start, end] the loop of [findTransferIntents] starts a goroutine
    for, in [uint64] arithmetic.  [fuel] bounds the iterations; [chunk_fuel] is one
    more than [maxBlocksProcessedPerIteration] needs. *)
Fixpoint chunks (fuel : nat) (startBlock endBlock offset : Z) : list (Z * Z) :=
  match fuel with
  | O => []
  | S fuel' =>
      let start := u64 (startBlock + offset) in
      let end_ := u64 (startBlock + offset + chunk_limit) in
      if endBlock <? start then [] else
      (start, if endBlock <? end_ then endBlock else end_)
        :: chunks fuel' startBlock endBlock (u64 (offset + chunk_limit))
  end.
Definition chunk_fuel : nat := 102.

Section monitor.
Context {E : Type} `{Env E}.
Notation IO := (M (World E)).
Context (cfg : configReader).

(** ** Polling *)

(** The goroutine of one chunk: the orders it found, or the error it returned with
    the orders appended before it. *)
Definition fetch_chunk (chain : ChainConfig) (chunk : Z * Z) :
    IO (list MonitoredOrder * option error) :=
  let '(start, end_) := chunk in
  r ← retry_last 4 (ask (FilterOrderSubmitted (ChainID chain) (FastTransferContractAddress chain)
                           start end_));
  match r with
  | inl err => mret ([], Some err)
  | inr (logs, iterError) =>
      orders ← fold_m (λ orders log,
          order ← lift_result (order_of_log chain log); mret (orders ++ [order])) [] logs;
      mret (orders, iterError)
  end.

(** The orders found so far, the first error of the group, and the goroutines that
    did not run yet. *)
Definition search_state : Type := list MonitoredOrder * option error * list (Z * Z).

Definition run_chunk (chain : ChainConfig) (st : list MonitoredOrder * option error)
    (chunk : Z * Z) : IO (list MonitoredOrder * option error) :=
  let '(orders, firstErr) := st in
  r ← fetch_chunk chain chunk;
  let '(found, err) := r : list MonitoredOrder * option error in
  mret (orders ++ found, match firstErr with Some e => Some e | None => err end).

(** One iteration of the loop that starts the goroutines; it returns as soon as it
    notices that one of them failed. *)
Definition start_chunk (chain : ChainConfig) (st : search_state) (chunk : Z * Z) :
    IO (ctl search_state unit) :=
  let '(orders, firstErr, waiting) := st in
  match firstErr with
  | Some _ => mret (Return tt)
  | None =>
      now ← attempt (ask RunsNow);
      if match now with inr b => b | inl _ => false end then
        r ← run_chunk chain (orders, firstErr) chunk;
        let '(orders', firstErr') := r : list MonitoredOrder * option error in
        mret (Next (orders', firstErr', waiting))
      else mret (Next (orders, firstErr, waiting ++ [chunk]))
  end.

(** The loop ends after the last chunk was started and looks at the group once
    more, so a failure noticed there is also returned as no orders and no error. *)
Definition findTransferIntents (chain : ChainConfig) (startBlock endBlock : Z) :
    IO (list MonitoredOrder) :=
  r ← loop (chunks chunk_fuel startBlock endBlock 0) ([], None, []) (start_chunk chain);
  match r with
  | inr _ => mret []
  | inl (orders, Some _, _) => mret []
  | inl (orders, None, waiting) =>
      rest ← range waiting;
      r ← fold_m (run_chunk chain) (orders, None) rest;
      match r with
      | (_, Some err) => throw err
      | (orders, None) => mret orders
      end
  end.

(** The client and the gateway contract. *)
Definition findNewTransferIntentsOnEVMChain (chain : ChainConfig) (startBlockHeight : Z) :
    IO (list MonitoredOrder * Z) :=
  _ ← ask (EthGetClient (ChainID chain));
  header ← ask (HeaderByNumber (ChainID chain));
  let endBlockHeight :=
    Z.min (bigint_Uint64 header) (u64 (startBlockHeight + maxBlocksProcessedPerIteration)) in
  _ ← ask (NewGateway (ChainID chain) (FastTransferContractAddress chain));
  orders ← findTransferIntents chain startBlockHeight endBlockHeight;
  mret (orders, endBlockHeight).

Definition getChainID (chain : ChainConfig) : result string :=
  if (Type_ chain =? ChainType_COSMOS)%string then Ok (ChainID chain)
  else if (Type_ chain =? ChainType_EVM)%string then Ok (ChainID chain)
  else Err (ErrNew "unknown chain type").

Definition getLatestBlockHeight (chain : ChainConfig) : IO Z :=
  if (Type_ chain =? ChainType_EVM)%string then
    _ ← ask (EthGetClient (ChainID chain));
    header ← ask (HeaderByNumber (ChainID chain));
    mret (bigint_Uint64 header)
  else if (Type_ chain =? ChainType_COSMOS)%string then
    _ ← ask (TmGetClient (ChainID chain));
    height ← ask (TmLatestBlockHeight (ChainID chain));
    mret (u64 height)
  else throw (ErrNew ("unsupported chain type: " +:+ Type_ chain)).

Definition mark_quick_start (chainID : string) (m : Memory) : Memory :=
  mkMemory (ordersSeen m) (profitabilityFailures m) ({[ chainID ]} ∪ didQuickStart m) (clients m).

(** The height to scan from, in [uint64] arithmetic. *)
Definition start_height (quickStart : bool) (chain : ChainConfig) (chainID : string)
    (lastSeen : Z) : IO Z :=
  mem ← get_mem;
  if quickStart && negb (bool_decide (chainID ∈ didQuickStart mem)) then
    latestBlock ← getLatestBlockHeight chain;
    let quickStartBlockHeight := u64 (latestBlock - QuickStartNumBlocksBack chain) in
    _ ← update_mem (mark_quick_start chainID);
    mret (if lastSeen <? quickStartBlockHeight then quickStartBlockHeight else lastSeen)
  else mret lastSeen.

(** Inserting the orders, up to the first real error. *)
Fixpoint insert_orders (gateway : string) (orders : list MonitoredOrder) : IO bool :=
  match orders with
  | [] => mret true
  | order :: orders' =>
      r ← attempt (db_exec (InsertOrder (order_params gateway order)));
      match r with
      | inl err =>
          if strings_Contains (error_msg err) "sql: no rows in result set"
          then insert_orders gateway orders' else mret false
      | inr _ => insert_orders gateway orders'
      end
  end.

(** One chain of a polling iteration; errors are logged and the chain skipped. *)
Definition poll_chain (quickStart : bool) (chain : ChainConfig) : IO unit :=
  match getChainID chain with
  | Panic p => go_panic p
  | Err _ => mret tt
  | Ok chainID =>
      m ← attempt (db_exec (GetTransferMonitorMetadata chainID));
      match (match m with
             | inr row => Some (u64 (tm_HeightLastSeen row))
             | inl err => if strings_Contains (error_msg err) "no rows in result set"
                          then Some 0 else None
             end) with
      | None => mret tt
      | Some lastSeen =>
          s ← attempt (start_height quickStart chain chainID lastSeen);
          match s with
          | inl _ => mret tt
          | inr startBlockHeight =>
              if negb (Type_ chain =? ChainType_EVM)%string then mret tt else
              f ← attempt (findNewTransferIntentsOnEVMChain chain startBlockHeight);
              match f with
              | inl _ => mret tt
              | inr (orders, endBlockHeight) =>
                  ok ← insert_orders (FastTransferContractAddress chain) orders;
                  if ok : bool then
                    _ ← attempt (db_exec (InsertTransferMonitorMetadata chainID
                                            (i64 endBlockHeight)));
                    mret tt
                  else mret tt
              end
          end
      end
  end.

(** The chains [Start] monitors: EVM chains with a gateway. *)
Definition monitored_chains (entries : list (string * ChainConfig)) : list ChainConfig :=
  List.filter (λ chain, negb (FastTransferContractAddress chain =? "")%string)
    (GetAllChainConfigsOfType entries ChainType_EVM).

(** One tick of the polling loop. *)
Definition poll_tick (quickStart : bool) (chains : list ChainConfig) : IO unit :=
  for_each chains (poll_chain quickStart).

(** ** Websockets *)

(** What the subscriptions deliver: a header, a log with what parsing it gave, or
    the end of a subscription. *)
Inductive ws_event :=
  | WsHeader (number : Z)
  | WsLog (parsed : error + OrderSubmittedLog)
  | WsHeadersError (err : error)
  | WsLogsError (err : error)
  | WsDone.

(** Recording a height; the new [lastProcessedHeight]. *)
Definition record_height (chainID : string) (height last : Z) : IO Z :=
  r ← attempt (db_exec (InsertTransferMonitorMetadata chainID (i64 height)));
  mret match r with inr _ => height | inl _ => last end.

Definition ws_header (chainID : string) (last number : Z) : IO Z :=
  let latestBlockHeight := bigint_Uint64 number in
  if (last <? latestBlockHeight) && (100 <=? latestBlockHeight - last)
  then record_height chainID latestBlockHeight last else mret last.

Definition ws_log (chain : ChainConfig) (chainID : string) (last : Z) (log : OrderSubmittedLog) :
    IO Z :=
  order ← lift_result (order_of_log chain log);
  r ← attempt (db_exec (InsertOrder (order_params (FastTransferContractAddress chain) order)));
  match r with
  | inl _ => mret last
  | inr _ => if last <? log_BlockNumber log then record_height chainID (log_BlockNumber log) last
             else mret last
  end.

(** The event loop of [startWebSocketMonitor]: [last] is [lastProcessedHeight]. *)
Definition ws_step (chain : ChainConfig) (chainID : string) (last : Z) (ev : ws_event) :
    IO (ctl Z (option error)) :=
  match ev with
  | WsHeader number => last' ← ws_header chainID last number; mret (Next last')
  | WsLog (inl _) => mret (Next last)
  | WsLog (inr log) => last' ← ws_log chain chainID last log; mret (Next last')
  | WsHeadersError err =>
      mret (Return (Some (ErrWrap ("headers subscription error for chain " +:+ chainID +:+ ": ") err)))
  | WsLogsError err =>
      mret (Return (Some (ErrWrap ("events subscription error for chain " +:+ chainID +:+ ": ") err)))
  | WsDone => mret (Return None)
  end.

Definition ws_loop (chain : ChainConfig) (chainID : string) (last : Z) (events : list ws_event) :
    IO (Z + option error) :=
  loop events last (ws_step chain chainID).

(** The height the websocket monitor starts from. *)
Definition ws_last_seen (chainID : string) : IO Z :=
  m ← attempt (db_exec (GetTransferMonitorMetadata chainID));
  mret match m with inr row => u64 (tm_HeightLastSeen row) | inl _ => 0 end.

(** The monitor of one chain, on the events its subscriptions deliver.  [Some last]:
    it still waits for events; [None]: it returned [nil]. *)
Definition startWebSocketMonitor (chain : ChainConfig) (events : list ws_event) : IO (option Z) :=
  chainID ← wrap_err "error getting chain id: " (lift_result (getChainID chain));
  _ ← wrap_err "error getting websocket endpoint: " (lift_result (GetWSEndpoint cfg (ChainID chain)));
  client ← attempt (ask (WsGetClient (ChainID chain)));
  match client with
  | inl err =>
      if strings_Contains (error_msg err) "dial tcp"
         || strings_Contains (error_msg err) "not supported" then mret None
      else throw (ErrWrap "error getting websocket client: " err)
  | inr _ =>
      _ ← wrap_err "error creating contract instance: "
            (ask (NewGateway (ChainID chain) (FastTransferContractAddress chain)));
      _ ← wrap_err "error subscribing to block headers: " (ask (SubscribeNewHead (ChainID chain)));
      last ← ws_last_seen chainID;
      sub ← attempt (ask (SubscribeFilterLogs (ChainID chain) (FastTransferContractAddress chain)));
      match sub with
      | inl _ => mret None
      | inr _ =>
          r ← ws_loop chain chainID last events;
          match r with
          | inl last' => mret (Some last')
          | inr (Some err) => throw err
          | inr None => mret None
          end
      end
  end.
End monitor.

(** ** Lemmas: decoding *)

(** The packed encoding the gateway contract emits. *)
Definition encode_order (o : FastTransferOrder) : list byte :=
  fto_Sender o ++ fto_Recipient o ++ be_encode 32 (fto_AmountIn o)
  ++ be_encode 32 (fto_AmountOut o) ++ be_encode 4 (fto_Nonce o)
  ++ be_encode 4 (fto_SourceDomain o) ++ be_encode 4 (fto_DestinationDomain o)
  ++ be_encode 8 (fto_TimeoutTimestamp o) ++ fto_Data o.

Definition order_wf (o : FastTransferOrder) : Prop :=
  length (fto_Sender o) = 32%nat ∧ length (fto_Recipient o) = 32%nat ∧
  0 ≤ fto_AmountIn o < 2 ^ 256 ∧ 0 ≤ fto_AmountOut o < 2 ^ 256 ∧
  0 ≤ fto_Nonce o < 2 ^ 32 ∧ 0 ≤ fto_SourceDomain o < 2 ^ 32 ∧
  0 ≤ fto_DestinationDomain o < 2 ^ 32 ∧ 0 ≤ fto_TimeoutTimestamp o < 2 ^ 64.

(** Reading the next field of a concatenation. *)
Lemma slice_app from to (l1 l2 : list byte) :
  (length l1 ≤ from)%nat → slice from to (l1 ++ l2) = slice (from - length l1) (to - length l1) l2.
Proof.
  intros Hle. unfold slice. rewrite drop_app_ge by done. f_equal. lia.
Qed.

Lemma slice_head to (l1 l2 : list byte) : length l1 = to → slice 0 to (l1 ++ l2) = l1.
Proof. intros <-. unfold slice. rewrite drop_0, Nat.sub_0_r. apply take_app_length. Qed.

Lemma be_field n z rest :
  0 ≤ z < 256 ^ Z.of_nat n → be_decode (slice 0 n (be_encode n z ++ rest)) = z.
Proof.
  intros Hz. rewrite slice_head by apply length_be_encode.
  rewrite be_decode_encode. by apply Z.mod_small.
Qed.

(** A slice of known length is recovered from its number. *)
Lemma slice_encode from to bs :
  (from ≤ to ≤ length bs)%nat → be_encode (to - from) (be_decode (slice from to bs)) = slice from to bs.
Proof.
  intros Hle. assert (length (slice from to bs) = (to - from)%nat) as Hlen
    by (unfold slice; rewrite length_take, length_drop; lia).
  rewrite <-Hlen at 1. apply be_encode_decode.
Qed.

Lemma be_decode_slice_bounds from to bs :
  (from ≤ to ≤ length bs)%nat →
  0 ≤ be_decode (slice from to bs) < 256 ^ Z.of_nat (to - from).
Proof.
  intros Hle. assert (length (slice from to bs) = (to - from)%nat) as <-
    by (unfold slice; rewrite length_take, length_drop; lia).
  apply be_decode_bounds.
Qed.

Lemma u32_Uint64_id z : 0 ≤ z < 2 ^ 32 → u32 (bigint_Uint64 z) = z.
Proof.
  intros. unfold bigint_Uint64, u64, u32. rewrite Z.abs_eq by lia.
  rewrite (Z.mod_small z (2 ^ 64)) by lia. by apply Z.mod_small.
Qed.
Lemma Uint64_id z : 0 ≤ z < 2 ^ 64 → bigint_Uint64 z = z.
Proof. intros. unfold bigint_Uint64, u64. rewrite Z.abs_eq by lia. by apply Z.mod_small. Qed.

Lemma slice_slice from mid to bs :
  (from ≤ mid ≤ to)%nat → slice from mid bs ++ drop mid bs = drop from bs.
Proof.
  intros Hle. unfold slice. replace (drop mid bs) with (drop (mid - from) (drop from bs)).
  - apply take_drop.
  - rewrite drop_drop. f_equal. lia.
Qed.

(** ** Lemmas: chunks *)

Lemma chunks_cover_from fuel s e off :
  0 ≤ s → 0 ≤ off → s + off + 1000 * (Z.of_nat fuel + 1) < 2 ^ 64 →
  e < s + off + 1000 * Z.of_nat fuel →
  (∀ b, s + off ≤ b ≤ e → ∃ x y, (x, y) ∈ chunks fuel s e off ∧ x ≤ b ≤ y) ∧
  (∀ x y, (x, y) ∈ chunks fuel s e off → s + off ≤ x ≤ y ∧ y ≤ e).
Proof.
  intros Hs. revert off. induction fuel as [|fuel IH]; intros off Hoff Hb Hcov.
  { simpl. split; [intros b ?; lia|]. by intros x y ?%not_elem_of_nil. }
  rewrite Nat2Z.inj_succ in *. cbn [chunks]. unfold chunk_limit.
  rewrite !u64_id by lia. destruct (Z.ltb_spec e (s + off)) as [Hlt|Hle].
  { split; [intros b ?; lia|]. by intros x y ?%not_elem_of_nil. }
  destruct (IH (off + 1000)) as [IHc IHr]; [lia..|].
  set (y0 := if e <? s + off + 1000 then e else s + off + 1000).
  assert (s + off ≤ y0 ≤ e ∧ (y0 = e ∨ y0 = s + off + 1000)) as [Hy0 Hy0'].
  { subst y0. destruct (Z.ltb_spec e (s + off + 1000)); lia. }
  split.
  - intros b Hrange. destruct (decide (b ≤ y0)).
    + exists (s + off), y0. split; [by left|lia].
    + destruct (IHc b) as (x&y&Hin&?); [lia|]. exists x, y. split; [by right|done].
  - intros x y [[= -> ->]|Hin]%elem_of_cons; [lia|]. apply IHr in Hin. lia.
Qed.

(** The iterations [chunk_fuel] allows are enough for the range of one poll. *)
Lemma chunks_cover_poll s e :
  0 ≤ s < 2 ^ 63 → e ≤ s + maxBlocksProcessedPerIteration →
  (∀ b, s ≤ b ≤ e → ∃ x y, (x, y) ∈ chunks chunk_fuel s e 0 ∧ x ≤ b ≤ y) ∧
  (∀ x y, (x, y) ∈ chunks chunk_fuel s e 0 → s ≤ x ≤ y ∧ y ≤ e).
Proof.
  unfold maxBlocksProcessedPerIteration. intros Hs He.
  pose proof (chunks_cover_from chunk_fuel s e 0) as Hc. unfold chunk_fuel in *.
  rewrite Z.add_0_r in Hc. apply Hc; lia.
Qed.

(** Moves past the first field of a concatenation. *)
Ltac skip_field :=
  rewrite slice_app by (rewrite ?length_be_encode; lia);
  rewrite ?length_be_encode;
  repeat match goal with Hl : length _ = _ |- _ => rewrite Hl end; cbn [Nat.sub].

Lemma DecodeOrder_encode o : order_wf o → DecodeOrder (encode_order o) = Ok o.
Proof.
  intros (HS&HR&?&?&?&?&?&?). unfold DecodeOrder.
  assert (length (encode_order o) = (148 + length (fto_Data o))%nat) as Hlen
    by (unfold encode_order; rewrite !length_app, !length_be_encode; lia).
  rewrite (proj2 (Nat.ltb_ge _ _)) by lia. clear Hlen.
  destruct o as [S R ai ao n sd dd ts data]; unfold encode_order;
    cbn [fto_Sender fto_Recipient fto_AmountIn fto_AmountOut fto_Nonce fto_SourceDomain
         fto_DestinationDomain fto_TimeoutTimestamp fto_Data] in *.
  f_equal. f_equal.
  - by apply slice_head.
  - skip_field. by apply slice_head.
  - do 2 skip_field. by apply be_field.
  - do 3 skip_field. by apply be_field.
  - do 4 skip_field. rewrite (be_field 4) by done. by apply u32_Uint64_id.
  - do 5 skip_field. rewrite (be_field 4) by done. by apply u32_Uint64_id.
  - do 6 skip_field. rewrite (be_field 4) by done. by apply u32_Uint64_id.
  - do 7 skip_field. rewrite (be_field 8) by done. by apply Uint64_id.
  - rewrite !app_assoc. rewrite drop_app_length'; [done|].
    rewrite !length_app, !length_be_encode. lia.
Qed.

Lemma encode_DecodeOrder bs o : DecodeOrder bs = Ok o → encode_order o = bs ∧ order_wf o.
Proof.
  unfold DecodeOrder. destruct (Nat.ltb_spec (length bs) 148) as [|Hlen]; [done|].
  intros [= <-].
  assert (∀ from to, (from ≤ to ≤ 148)%nat →
    0 ≤ be_decode (slice from to bs) < 256 ^ Z.of_nat (to - from)) as Hb
    by (intros; apply be_decode_slice_bounds; lia).
  pose proof (Hb 64 96 ltac:(lia))%nat. pose proof (Hb 96 128 ltac:(lia))%nat.
  pose proof (Hb 128 132 ltac:(lia))%nat. pose proof (Hb 132 136 ltac:(lia))%nat.
  pose proof (Hb 136 140 ltac:(lia))%nat. pose proof (Hb 140 148 ltac:(lia))%nat.
  rewrite !u32_Uint64_id, Uint64_id by done. clear Hb. split.
  - unfold encode_order. cbn [fto_Sender fto_Recipient fto_AmountIn fto_AmountOut fto_Nonce
      fto_SourceDomain fto_DestinationDomain fto_TimeoutTimestamp fto_Data].
    pose proof (slice_encode 64 96 bs ltac:(lia)) as E1.
    pose proof (slice_encode 96 128 bs ltac:(lia)) as E2.
    pose proof (slice_encode 128 132 bs ltac:(lia)) as E3.
    pose proof (slice_encode 132 136 bs ltac:(lia)) as E4.
    pose proof (slice_encode 136 140 bs ltac:(lia)) as E5.
    pose proof (slice_encode 140 148 bs ltac:(lia)) as E6.
    cbn [Nat.sub] in *. rewrite E1, E2, E3, E4, E5, E6.
    rewrite !(slice_slice _ _ 148) by lia. apply drop_0.
  - unfold order_wf. cbn [fto_Sender fto_Recipient fto_AmountIn fto_AmountOut fto_Nonce
      fto_SourceDomain fto_DestinationDomain fto_TimeoutTimestamp].
    unfold slice at 1 2. rewrite !length_take, !length_drop.
    split; [lia|]. split; [lia|]. repeat (split; [assumption|]). assumption.
Qed.

(** ** Lemmas: the orders found *)

Section found.
Context {E : Type} `{Env E}.
Context (chain : ChainConfig).
Implicit Types w : World E.

(** A log that the chain returned between [w] and [w']. *)
Definition found_log w w' (log : OrderSubmittedLog) : Prop :=
  ∃ start end_ logs err,
    asked w w' (existT (FilterOrderSubmitted (ChainID chain) (FastTransferContractAddress chain)
                          start end_) (inr (logs, err))) ∧ log ∈ logs.

(** A search of the log that failed. *)
Definition failed_search w w' : Prop :=
  ∃ start end_ a,
    asked w w' (existT (FilterOrderSubmitted (ChainID chain) (FastTransferContractAddress chain)
                          start end_) a) ∧ ∀ logs, a ≠ inr (logs, None).

(** The orders [found] are those of the logs returned. *)
Definition covers w w' (found : list MonitoredOrder) : Prop :=
  ∀ log, found_log w w' log → ∃ o, o ∈ found ∧ order_of_log chain log = Ok o.

(** A range the solver asked the chain for. *)
Definition searched w w' (chunk : Z * Z) : Prop :=
  ∃ a, asked w w' (existT (FilterOrderSubmitted (ChainID chain) (FastTransferContractAddress chain)
                             chunk.1 chunk.2) a).

Lemma searched_later w w1 w2 P c : searched w w1 c → emits P w1 w2 → searched w w2 c.
Proof. intros [a ?] ?. exists a. by eapply asked_later. Qed.
Lemma searched_earlier w0 w w1 P c : emits P w0 w → searched w w1 c → searched w0 w1 c.
Proof. intros ? [a ?]. exists a. by eapply asked_earlier. Qed.

(** A block inside such a range. *)
Definition searched_block w w' (b : Z) : Prop :=
  ∃ chunk, searched w w' chunk ∧ chunk.1 ≤ b ≤ chunk.2.

(** Between two worlds either one of the steps made the call. *)
Lemma asked_split P w w1 w2 ev :
  emits P w w1 → asked w w2 ev → emits P w1 w2 → asked w w1 ev ∨ asked w1 w2 ev.
Proof.
  intros (n1&H1&_) (n&Hn&Hin) (n2&H2&_). rewrite H2, H1, <-app_assoc in Hn.
  apply app_inv_head in Hn as <-. apply elem_of_app in Hin as [?|?]; [left|right]; by eexists.
Qed.

Lemma covers_app w w1 w2 f1 f2 :
  emits read_only w w1 → emits read_only w1 w2 → covers w w1 f1 → covers w1 w2 f2 →
  covers w w2 (f1 ++ f2).
Proof.
  intros He1 He2 H1 H2 log (s&e&logs&err&Ha&Hin).
  destruct (asked_split read_only w w1 w2 _ He1 Ha He2) as [Ha'|Ha'].
  - destruct (H1 log) as (o&?&?); [by exists s, e, logs, err|]. exists o.
    split; [|done]. apply elem_of_app. by left.
  - destruct (H2 log) as (o&?&?); [by exists s, e, logs, err|]. exists o.
    split; [|done]. apply elem_of_app. by right.
Qed.

Lemma covers_refl w : covers w w [].
Proof.
  intros log (s&e&logs&err&(new&Hn&Hin)&_). rewrite <-(app_nil_r (w_trace w)) in Hn at 1.
  apply app_inv_head in Hn as <-. by apply not_elem_of_nil in Hin.
Qed.

Lemma failed_search_later w w1 w2 P : failed_search w w1 → emits P w1 w2 → failed_search w w2.
Proof. intros (s&e&a&?&?) ?. exists s, e, a. split; [by eapply asked_later|done]. Qed.
Lemma failed_search_earlier w0 w w1 P : emits P w0 w → failed_search w w1 → failed_search w0 w1.
Proof. intros ? (s&e&a&?&?). exists s, e, a. split; [by eapply asked_earlier|done]. Qed.

(** A call that found nothing new. *)
Lemma covers_other w r a e :
  match r with FilterOrderSubmitted _ _ _ _ => False | _ => True end →
  covers w (after r a e w) [].
Proof.
  intros Hr log (s&e'&logs&err&(new&Hn&Hin)&_). simpl in Hn. apply app_inv_head in Hn as <-.
  apply list_elem_of_singleton in Hin. apply (f_equal projT1) in Hin. simpl in Hin. by subst r.
Qed.

Lemma covers_none w w' :
  (∀ log, ¬ found_log w w' log) → covers w w' [].
Proof. intros Hno log Hf. by destruct (Hno log). Qed.

(** The answers to one search. *)
Lemma search_answer w s e a env log :
  found_log w (after (FilterOrderSubmitted (ChainID chain) (FastTransferContractAddress chain) s e)
                 a env w) log →
  ∃ logs err, a = inr (logs, err) ∧ log ∈ logs.
Proof.
  intros (s'&e'&logs&err&(new&Hn&Hin)&Hlog). simpl in Hn. apply app_inv_head in Hn as <-.
  apply list_elem_of_singleton in Hin.
  set (proj := λ ev : event,
    match ev return option (error + (list OrderSubmittedLog * option error)) with
    | existT (FilterOrderSubmitted _ _ _ _) a => Some a
    | _ => None
    end).
  assert (proj (existT (FilterOrderSubmitted (ChainID chain) (FastTransferContractAddress chain)
            s' e') (inr (logs, err)))
          = proj (existT (FilterOrderSubmitted (ChainID chain) (FastTransferContractAddress chain)
            s e) a)) as Hp by (by rewrite Hin).
  simpl in Hp. injection Hp as <-. by exists logs, err.
Qed.

(** Five attempts to search a range: when they all fail, nothing was found. *)
Lemma wp_search n s e w :
  wp (retry_last n (ask (FilterOrderSubmitted (ChainID chain) (FastTransferContractAddress chain)
                           s e)))
    (λ r w', emits read_only w w' ∧ w_db w' = w_db w ∧ searched w w' (s, e) ∧
       match r with
       | Ok (inl _) => failed_search w w' ∧ ∀ log, ¬ found_log w w' log
       | Ok (inr (logs, err)) => (∀ log, found_log w w' log → log ∈ logs) ∧
           (err ≠ None → failed_search w w')
       | _ => False
       end) w.
Proof.
  revert w. induction n as [|n IH]; intros w; cbn [retry_last]; apply wp_bind, wp_attempt;
    refine (wp_ask (FilterOrderSubmitted _ _ s e) _ w _); intros [err|[logs ierr]] env Ha; cbn beta iota;
    try apply wp_ret.
  - split_and!; [by solve_emits|done|..].
    + eexists. solve_asked.
    + exists s, e, (inl err). split; [solve_asked|done].
    + intros log Hf. apply search_answer in Hf as (?&?&?&?). done.
  - split_and!; [by solve_emits|done|..].
    + eexists. solve_asked.
    + intros log Hf. apply search_answer in Hf as (?&?&[= <- <-]&?). done.
    + intros Hne. exists s, e, (inr (logs, ierr)). split; [solve_asked|]. intros l [= <- ->]. done.
  - eapply wp_mono; [|apply IH].
    set (w1 := after _ _ _ w). assert (emits read_only w w1) as Hw1 by (subst w1; by solve_emits).
    intros r w2 (Hem&Hdb&Hs&Hr).
    split_and!; [by etransitivity|done|by eapply searched_earlier|].
    assert (∀ log, found_log w w2 log → found_log w1 w2 log) as Hlog.
    { intros log (s'&e'&logs&er&Hask&Hin).
      destruct (asked_split read_only w w1 w2 _ Hw1 Hask Hem) as [Hbad|?];
        [|by exists s', e', logs, er].
      assert (found_log w w1 log) as Hf by (by exists s', e', logs, er).
      apply search_answer in Hf as (?&?&?&?). done. }
    destruct r as [[er|[logs ierr]]|er|p]; [|..|done|done].
    + destruct Hr as [Hfail Hno]. split; [by eapply failed_search_earlier|].
      intros log Hf. by apply (Hno log), Hlog.
    + destruct Hr as [Hl Hf]. split; [intros log ?; by apply Hl, Hlog|].
      intros Hne. eapply failed_search_earlier; eauto.
  - split_and!; [by solve_emits|done|..].
    + eexists. solve_asked.
    + intros log Hf. apply search_answer in Hf as (?&?&[= <- <-]&?). done.
    + intros Hne. exists s, e, (inr (logs, ierr)). split; [solve_asked|]. intros l [= <- ->]. done.
Qed.

(** A searched range: the orders of all logs returned for it. *)
Lemma wp_fetch_chunk chunk w :
  wp (fetch_chunk chain chunk)
    (λ r w', emits read_only w w' ∧ w_db w' = w_db w ∧
       ∀ found err, r = Ok (found, err) →
         searched w w' chunk ∧ covers w w' found ∧ (err ≠ None → failed_search w w')) w.
Proof.
  unfold fetch_chunk. destruct chunk as [s e]. apply wp_bind.
  eapply wp_mono; [|apply wp_search]. intros r w1 (Hem&Hdb&Hs&Hr).
  destruct r as [[er|[logs ierr]]|er|p]; [|..|done|done].
  - apply wp_ret. split_and!; [done..|]. intros found err [= <- <-].
    destruct Hr as [Hfail Hno]. split_and!; [done|by apply covers_none|done].
  - apply wp_bind. destruct Hr as [Hlogs Hfail].
    apply (wp_fold_m (λ pre found w2, w2 = w1 ∧
      ∀ log, log ∈ pre → ∃ o, o ∈ found ∧ order_of_log chain log = Ok o)).
    + split; [done|]. by intros log ?%not_elem_of_nil.
    + intros pre log post found w2 _ [-> Hpre].
      apply wp_bind. change (wp (lift_result (order_of_log chain log))) with
        (λ (Q : result MonitoredOrder → World E → Prop) w0, Q (order_of_log chain log) w0).
      cbn beta. destruct (order_of_log chain log) as [o|er|p] eqn:Ho; [|by split_and!..].
      apply wp_ret. split; [done|]. intros l [Hl|Hl%list_elem_of_singleton]%elem_of_app.
      * destruct (Hpre l Hl) as (o'&?&?). exists o'. split; [|done]. apply elem_of_app. by left.
      * subst l. exists o. split; [|done]. apply elem_of_app. right. by left.
    + intros found w2 [-> Hfound]. apply wp_ret. split_and!; [done..|].
      intros f er [= <- <-]. split_and!; [done| |done]. intros log Hlog. by apply Hfound, Hlogs.
Qed.

(** The state of the search since [w], with the goroutines of [ran] finished. *)
Definition search_inv w (ran : list (Z * Z)) (st : list MonitoredOrder * option error) w1 : Prop :=
  emits read_only w w1 ∧ w_db w1 = w_db w ∧ covers w w1 st.1 ∧
  (st.2 ≠ None → failed_search w w1) ∧ ∀ c, c ∈ ran → searched w w1 c.

Lemma search_inv_other w ran st w1 r a e :
  match r with FilterOrderSubmitted _ _ _ _ => False | _ => sends_tx r = false end →
  search_inv w ran st w1 → search_inv w ran st (after r a e w1).
Proof.
  intros Hr (Hem&Hdb&Hc&Hf&Hs).
  assert (emits read_only w1 (after r a e w1)) as He
    by (apply emits_after; [done|by destruct r]).
  split_and!; [by etransitivity|done| | |].
  - rewrite <-(app_nil_r st.1). apply (covers_app w w1); [done..|].
    apply covers_other. by destruct r.
  - intros Hne. eapply failed_search_later; eauto.
  - intros c Hc'. eapply searched_later; [by apply Hs|exact He].
Qed.

Lemma wp_run_chunk w ran st chunk w1 :
  search_inv w ran st w1 →
  wp (run_chunk chain st chunk)
    (λ r w2, emits read_only w w2 ∧ w_db w2 = w_db w ∧ 
       ∀ st', r = Ok st' → search_inv w (ran ++ [chunk]) st' w2) w1.
Proof.
  destruct st as [orders err]. intros (Hem&Hdb&Hc&Hf&Hs). unfold run_chunk. apply wp_bind.
  eapply wp_mono; [|apply wp_fetch_chunk]. intros r w2 (Hem2&Hdb2&Hr).
  assert (emits read_only w w2) by (by etransitivity).
  destruct r as [[found err']|e|p]; [|split_and!; [done|congruence|done]..].
  destruct (Hr found err' eq_refl) as (Hs2&Hc2&Hf2). apply wp_ret. split_and!; [done|congruence|].
  intros st' [= <-]. split_and!;
    [done|congruence|exact (covers_app w w1 w2 orders found Hem Hem2 Hc Hc2)|..]; simpl.
  - intros Hne. destruct err as [e|].
    + eapply failed_search_later; [by apply Hf|done].
    + eapply failed_search_earlier; [exact Hem|by apply Hf2].
  - intros c [Hran|Hc0%list_elem_of_singleton]%elem_of_app; [|subst c].
    + eapply searched_later; [by apply Hs|exact Hem2].
    + eapply searched_earlier; [exact Hem|exact Hs2].
Qed.

(** Every chunk started so far either ran or waits. *)
Definition started_inv w (started : list (Z * Z)) (st : search_state) w1 : Prop :=
  ∃ ran, search_inv w ran st.1 w1 ∧ ∀ c, c ∈ started → c ∈ ran ∨ c ∈ st.2.

Lemma started_inv_ran w started st waiting w1 ran chunk :
  search_inv w (ran ++ [chunk]) st w1 → (∀ c, c ∈ started → c ∈ ran ∨ c ∈ waiting) →
  started_inv w (started ++ [chunk]) (st, waiting) w1.
Proof.
  intros Hinv Hst. exists (ran ++ [chunk]). split; [done|].
  intros c [Hc|Hc]%elem_of_app; [|left; set_solver]. destruct (Hst c Hc); set_solver.
Qed.

Definition start_post w started chunk (r : result (ctl search_state unit)) w2 : Prop :=
  emits read_only w w2 ∧ w_db w2 = w_db w ∧
  match r with
  | Ok (Next st) => started_inv w (started ++ [chunk]) st w2
  | Ok (Return _) => failed_search w w2
  | Ok (Break _) => False
  | _ => True
  end.

Lemma wp_start_chunk w started st chunk w1 :
  started_inv w started st w1 →
  wp (start_chunk chain st chunk) (start_post w started chunk) w1.
Proof.
  destruct st as [[orders err] waiting]. intros (ran&Hinv&Hst). unfold start_chunk.
  destruct err as [e|].
  { apply wp_ret. destruct Hinv as (?&?&_&Hf&_). split_and!; [done..|]. by apply Hf. }
  apply wp_bind, wp_attempt. refine (wp_ask RunsNow _ w1 _). intros a env _.
  assert (search_inv w ran (orders, None) (after RunsNow a env w1)) as Hinv'
    by (by apply search_inv_other).
  revert Hinv'. generalize (after RunsNow a env w1). intros w2 Hinv'.
  assert (wp (mret (Next (orders, None, waiting ++ [chunk])) : M (World E) (ctl search_state unit))
    (start_post w started chunk) w2) as Hlater.
  { apply wp_ret. split_and!; [apply Hinv'..|]. exists ran. split; [done|]. simpl in *.
    set_solver. }
  destruct a as [er|[]]; cbn beta iota; [exact Hlater| |exact Hlater].
  apply wp_bind. eapply wp_mono; [|by apply wp_run_chunk]. intros r w3 (Hem3&Hdb3&Hr).
  destruct r as [[orders' err']|er|p]; [|by split_and!..].
  apply wp_ret. split_and!; [done..|]. eapply started_inv_ran; [by apply Hr|done].
Qed.

(** The goroutines that waited run in some order. *)
Lemma wp_run_waiting w started orders waiting rest w1 :
  rest ≡ₚ waiting → started_inv w started (orders, None, waiting) w1 →
  wp (r ← fold_m (run_chunk chain) (orders, None) rest;
      match r with
      | (_, Some err) => throw err
      | (orders, None) => mret orders
      end)
    (λ r w', emits read_only w w' ∧ w_db w' = w_db w ∧
       ∀ orders, r = Ok orders → covers w w' orders ∧ ∀ c, c ∈ started → searched w w' c) w1.
Proof.
  intros Hperm (ran&Hinv&Hst). apply wp_bind.
  apply (wp_fold_m (λ pre st w2, search_inv w (ran ++ pre) st w2)).
  - by rewrite app_nil_r.
  - intros pre chunk _ st w2 _ Hinv2. eapply wp_mono; [|by apply wp_run_chunk].
    intros r w3 (Hem&Hdb&Hr). destruct r as [st'|er|p]; [|by split_and!..].
    rewrite app_assoc. by apply Hr.
  - intros [os [er|]] w2 (Hem&Hdb&Hc&_&Hs); [apply wp_throw; by split_and!|].
    apply wp_ret. split_and!; [done..|]. intros os' [= <-]. split; [exact Hc|].
    intros c Hin. apply Hs, elem_of_app. destruct (Hst c Hin) as [?|Hw]; [by left|right].
    by rewrite Hperm.
Qed.

Lemma wp_findTransferIntents start end_ w :
  wp (findTransferIntents chain start end_)
    (λ r w', emits read_only w w' ∧ w_db w' = w_db w ∧
       ∀ orders, r = Ok orders →
         (covers w w' orders ∧ ∀ c, c ∈ chunks chunk_fuel start end_ 0 → searched w w' c)
         ∨ failed_search w w') w.
Proof.
  unfold findTransferIntents. apply wp_bind. apply (wp_loop (started_inv w)).
  - exists []. split; [|by intros c ?%not_elem_of_nil].
    split_and!; [by solve_emits|done|apply covers_refl|done|by intros c ?%not_elem_of_nil].
  - intros pre chunk post st w1 _ Hinv.
    eapply wp_mono; [|by apply wp_start_chunk]. intros r w2 (Hem&Hdb&Hr).
    destruct r as [[st'|st'|u]|er|p]; [done|done| |by split_and!..].
    apply wp_ret. split_and!; [done..|]. intros orders' [= <-]. by right.
  - intros [[orders [er|]] waiting] w1 (ran&Hinv&Hst).
    { apply wp_ret. destruct Hinv as (?&?&_&Hf&_). split_and!; [done..|].
      intros os [= <-]. right. by apply Hf. }
    apply wp_bind, wp_range. intros rest a env Hperm.
    eapply wp_mono; [|apply (wp_run_waiting w (chunks chunk_fuel start end_ 0) _ waiting);
      [done|exists ran; split; [by apply search_inv_other|done]]].
    intros r w2 (?&?&Hr). split_and!; [done..|]. intros os Hos. left. by apply Hr.
Qed.

(** Requests that neither search the log nor send a transaction. *)
Definition not_search (r : request) : Prop :=
  match r with FilterOrderSubmitted _ _ _ _ => False | _ => sends_tx r = false end.

Lemma not_search_reads w w' : emits not_search w w' → emits read_only w w'.
Proof.
  intros (new&Ht&Hf). exists new. split; [done|]. eapply Forall_impl; [exact Hf|].
  intros [[] ?]; done.
Qed.

Lemma covers_quiet w w' : emits not_search w w' → covers w w' [].
Proof.
  intros (new&Ht&Hf). apply covers_none. intros log (s&e&logs&err&Ha&_).
  eapply asked_new in Ha; [|exact Ht]. rewrite Forall_forall in Hf. by apply Hf in Ha.
Qed.

(** ** Recording the orders *)

Definition recorded (d : Database) (log : OrderSubmittedLog) : Prop :=
  ∃ o row, order_of_log chain log = Ok o ∧ row ∈ orders d ∧
    order_key row = (ChainID chain, FastTransferContractAddress chain, mo_OrderID o).

(** The driver's own errors are not taken for a conflict. *)
Definition driver_honest w w' : Prop :=
  ∀ err, asked w w' (existT DbStmt (inl err)) →
    strings_Contains (error_msg err) "sql: no rows in result set" = false.

(** Orders are only added, and nothing else changes. *)
Definition adds_orders w w' : Prop :=
  emits not_search w w' ∧ orders (w_db w) `prefix_of` orders (w_db w') ∧
  transfer_monitor_metadata (w_db w') = transfer_monitor_metadata (w_db w).

#[export] Instance adds_orders_preorder : PreOrder adds_orders.
Proof.
  split; [by intros w|]. intros w1 w2 w3 (?&?&?) (?&?&?).
  split_and!; [by etransitivity..|congruence].
Qed.

Definition present (d : Database) (o : MonitoredOrder) : Prop :=
  ∃ row, row ∈ orders d ∧
    order_key row = (mo_ChainID o, FastTransferContractAddress chain, mo_OrderID o).

Lemma present_mono w w' o : adds_orders w w' → present (w_db w) o → present (w_db w') o.
Proof.
  intros (_&(l&Hl)&_) (row&?&?). exists row. rewrite Hl. split; [|done].
  apply elem_of_app. by left.
Qed.

Lemma wp_insert_orders os w :
  wp (insert_orders (FastTransferContractAddress chain) os)
    (λ r w', adds_orders w w' ∧
       (r = Ok true → driver_honest w w' → ∀ o, o ∈ os → present (w_db w') o)) w.
Proof.
  revert w. induction os as [|o os IH]; intros w; cbn [insert_orders].
  { apply wp_ret. split; [done|]. by intros _ _ o ?%not_elem_of_nil. }
  assert (∀ w1, adds_orders w w1 → (driver_honest w w1 → present (w_db w1) o) →
    wp (insert_orders (FastTransferContractAddress chain) os)
      (λ r w', adds_orders w w' ∧
         (r = Ok true → driver_honest w w' → ∀ x, x ∈ o :: os → present (w_db w') x)) w1) as Hnext.
  { intros w1 Hadd Hp. eapply wp_mono; [|apply IH]. intros r w2 [Hadd2 Hr].
    split; [by etransitivity|]. intros Hok Hd x [->|Hx]%elem_of_cons.
    - eapply present_mono; [exact Hadd2|]. apply Hp. intros err Ha. apply Hd.
      eapply asked_later; [exact Ha|apply Hadd2].
    - apply Hr; [done| |done]. intros err Ha. apply Hd.
      eapply asked_earlier; [apply Hadd|exact Ha]. }
  apply wp_bind, wp_attempt, wp_db_exec.
  - intros err e. set (w1 := after _ _ _ w).
    assert (adds_orders w w1) as Hadd by (subst w1; split_and!; [by solve_emits|done|done]).
    cbn [error_msg]. destruct (strings_Contains (error_msg err) _) eqn:Hc.
    + apply Hnext; [done|]. intros Hd. specialize (Hd err).
      rewrite Hd in Hc; [done|]. subst w1. apply (asked_here not_search). reflexivity.
    + apply wp_ret. by split.
  - intros c e. destruct (InsertOrder_cases
      (order_params (FastTransferContractAddress chain) o) c (w_db w))
      as [(row&->&Hkey&->)|(row&->&->&Hin&Hkey)].
    + apply Hnext.
      * split_and!; [by solve_emits|simpl; by eexists|done].
      * intros _. exists row. split; [|exact Hkey]. simpl. apply elem_of_app. right. by left.
    + cbn beta iota. destruct (strings_Contains _ _).
      * apply Hnext; [split_and!; [by solve_emits|done|done]|]. intros _. by exists row.
      * apply wp_ret. split; [|done]. split_and!; [by solve_emits|done|done].
Qed.

(** The height recorded for a chain, and 0 for a chain without a row. *)
Definition last_seen (d : Database) (id : string) : Z :=
  match List.filter (monitored_chain id) (transfer_monitor_metadata d) with
  | row :: _ => tm_HeightLastSeen row
  | [] => 0
  end.

(** A poll that moved the recorded height. *)
Definition poll_complete (quickStart : bool) (id : string) w w' : Prop :=
  (∀ log, found_log w w' log → recorded (w_db w') log) ∧
  (quickStart = false → 0 ≤ last_seen (w_db w) id < 2 ^ 63 →
   ∀ b, last_seen (w_db w) id ≤ b ≤ last_seen (w_db w') id → searched_block w w' b).

Definition poll_post quickStart id w w' : Prop :=
  emits read_only w w' ∧ orders (w_db w) `prefix_of` orders (w_db w') ∧
  (transfer_monitor_metadata (w_db w') ≠ transfer_monitor_metadata (w_db w) →
   driver_honest w w' → ¬ failed_search w w' → poll_complete quickStart id w w').

Lemma poll_post_same q id w w' : emits read_only w w' → w_db w' = w_db w → poll_post q id w w'.
Proof. intros Hem Hdb. split_and!; [done|by rewrite Hdb|by rewrite Hdb]. Qed.

Lemma order_of_log_chain log o : order_of_log chain log = Ok o → mo_ChainID o = ChainID chain.
Proof. unfold order_of_log. intros Ho. apply result_bind_ok in Ho as (d&_&[= <-]). done. Qed.

Lemma start_height_quiet q id last :
  frame (emits (E := E) not_search) (start_height q chain id last).
Proof. unfold start_height, getLatestBlockHeight. by solve_io. Qed.
Lemma start_height_db q id last : frame (db_rel (E := E) eq) (start_height q chain id last).
Proof. unfold start_height, getLatestBlockHeight. by solve_io. Qed.

Lemma wp_findNew start w :
  wp (findNewTransferIntentsOnEVMChain chain start)
    (λ r w', emits read_only w w' ∧ w_db w' = w_db w ∧
       ∀ orders end_, r = Ok (orders, end_) →
         (covers w w' orders ∧ 0 ≤ end_ ∧
          (0 ≤ start < 2 ^ 63 → ∀ b, start ≤ b ≤ end_ → searched_block w w' b))
         ∨ failed_search w w') w.
Proof.
  unfold findNewTransferIntentsOnEVMChain.
  wp_steps; try (split_and!; [by solve_emits|done|done]).
  match goal with |- wp _ _ ?w0 =>
    assert (emits not_search w w0) as Hq by (by solve_emits);
    assert (w_db w0 = w_db w) as Hdb by done;
    revert Hq Hdb; generalize w0 end.
  intros w1 Hq Hdb. eapply wp_mono; [|apply wp_findTransferIntents].
  intros r' w2 (Hem&Hdb2&Hr). pose proof (not_search_reads _ _ Hq) as Hem1.
  assert (emits read_only w w2) by (by etransitivity).
  destruct r' as [os|er|p]; [|split_and!; [done|congruence|done]..].
  apply wp_ret. split_and!; [done|congruence|]. intros os' end_ [= <- <-].
  destruct (Hr os eq_refl) as [[Hc Hs]|Hf]; [left; split_and!|right].
  - exact (covers_app w w1 w2 [] os Hem1 Hem (covers_quiet _ _ Hq) Hc).
  - apply Z.min_glb; apply Z.mod_pos_bound; lia.
  - intros Hst b Hb. edestruct chunks_cover_poll as [(x&y&Hin&Hxy) _]; [done| |exact Hb|].
    { etransitivity; [apply Z.le_min_r|]. rewrite u64_id; [done|].
      unfold maxBlocksProcessedPerIteration. lia. }
    exists (x, y). split; [|done]. eapply searched_earlier; [exact Hem1|by apply Hs].
  - exact (failed_search_earlier w w1 w2 _ Hem1 Hf).
Qed.

(** Recording the height of a chain. *)
Lemma last_seen_insert id h c d :
  last_seen (InsertTransferMonitorMetadata id h c d).2 id = h.
Proof.
  unfold InsertTransferMonitorMetadata, last_seen.
  destruct (existsb (monitored_chain id) (transfer_monitor_metadata d)) eqn:Hex; simpl.
  - induction (transfer_monitor_metadata d) as [|row t IH]; [done|]. simpl in *.
    destruct (monitored_chain id row) eqn:Hrow; simpl.
    + assert (monitored_chain id (monitor_set (stmt_ts c) h row) = true) as -> by exact Hrow. done.
    + rewrite Hrow. by apply IH.
  - generalize (next_id tm_ID c (transfer_monitor_metadata d)). intros n.
    induction (transfer_monitor_metadata d) as [|row t IH]; simpl in *.
    + unfold monitored_chain. simpl. by rewrite bool_decide_eq_true_2.
    + apply orb_false_elim in Hex as [Hrow Hex]. rewrite Hrow. by apply IH.
Qed.

(** The logs found up to [w3] are recorded once their orders were inserted. *)
Lemma found_recorded w w3 w4 w5 os :
  emits read_only w w3 → covers w w3 os → emits not_search w3 w4 → emits not_search w4 w5 →
  orders (w_db w5) = orders (w_db w4) →
  (driver_honest w3 w4 → ∀ o, o ∈ os → present (w_db w4) o) → driver_honest w w5 →
  ∀ log, found_log w w5 log → recorded (w_db w5) log.
Proof.
  intros Hw3 Hc Hq4 Hq5 Ho Hok Hd log Hlog.
  assert (emits not_search w3 w5) as Hq35 by (by etransitivity).
  assert (driver_honest w3 w4) as Hd34.
  { intros er Ha. apply Hd. eapply asked_later; [|exact Hq5].
    exact (asked_earlier read_only w w3 w4 _ Hw3 Ha). }
  assert (covers w w5 (os ++ [])) as Hcov.
  { apply (covers_app w w3); [done|by apply not_search_reads|done|by apply covers_quiet]. }
  destruct (Hcov log Hlog) as (o&Hin&Ho'). rewrite app_nil_r in Hin.
  destruct (Hok Hd34 o Hin) as (row&Hrow&Hkey). exists o, row. rewrite Ho.
  split_and!; [done..|]. by rewrite Hkey, (order_of_log_chain _ _ Ho').
Qed.

(** Searching from [start] and recording what was found. *)
Definition poll_range id start : M (World E) unit :=
  f ← attempt (findNewTransferIntentsOnEVMChain chain start);
  match f with
  | inl _ => mret tt
  | inr (orders, endBlockHeight) =>
      ok ← insert_orders (FastTransferContractAddress chain) orders;
      if ok : bool then
        _ ← attempt (db_exec (InsertTransferMonitorMetadata id (i64 endBlockHeight)));
        mret tt
      else mret tt
  end.

Lemma wp_poll_range q id start w w2 :
  emits not_search w w2 → w_db w2 = w_db w →
  (q = false → 0 ≤ last_seen (w_db w) id < 2 ^ 63 → 0 ≤ start ≤ last_seen (w_db w) id) →
  wp (poll_range id start) (λ _ w', poll_post q id w w') w2.
Proof.
  intros Hq Hdb Hstart. pose proof (not_search_reads _ _ Hq) as Hem2. unfold poll_range.
  apply wp_bind, wp_attempt. eapply wp_mono; [|apply wp_findNew]. intros f w3 (Hem3&Hdb3&Hf).
  assert (emits read_only w w3) as Hw3 by (by etransitivity).
  assert (w_db w3 = w_db w) as Hdbw by congruence.
  destruct f as [[os end_]|er|p]; [|try apply wp_ret; by apply poll_post_same..].
  specialize (Hf os end_ eq_refl).
  apply wp_bind. eapply wp_mono; [|apply wp_insert_orders]. intros ok w4 [(Hq4&Hpre&Hmeta) Hok].
  pose proof (not_search_reads _ _ Hq4) as Hem4.
  rewrite Hdbw in Hpre, Hmeta.
  assert (∀ w5, emits not_search w4 w5 → orders (w_db w5) = orders (w_db w4) →
    ok = Ok true ∧ last_seen (w_db w5) id = i64 end_ ∨
    transfer_monitor_metadata (w_db w5) = transfer_monitor_metadata (w_db w) →
    poll_post q id w w5) as Hend.
  { intros w5 Hq5 Ho Hm5. assert (emits not_search w3 w5) as Hq35 by (by etransitivity).
    pose proof (not_search_reads _ _ Hq35) as Hem5. split_and!.
    - by etransitivity.
    - by rewrite Ho.
    - intros Hch Hd Hnf. destruct Hm5 as [[Hm5 Hh]|?]; [|done].
      destruct Hf as [(Hc&Hend&Hs)|Hfail].
      2: { destruct Hnf. exact (failed_search_later w w3 w5 _
             (failed_search_earlier w w2 w3 _ Hem2 Hfail) Hem5). }
      split.
      + apply (found_recorded w w3 w4 w5 os); auto.
        exact (covers_app w w2 w3 [] os Hem2 Hem3 (covers_quiet _ _ Hq) Hc).
      + intros Hqs Hr b Hb. destruct (Hstart Hqs Hr).
        destruct (Hs ltac:(lia) b) as (c&Hsc&?); [pose proof (i64_le end_ Hend); lia|].
        exists c. split; [|done].
        eapply searched_later; [exact (searched_earlier w w2 w3 _ c Hem2 Hsc)|exact Hem5]. }
  destruct ok as [[]|er|p].
  - apply wp_bind, wp_attempt, wp_db_exec.
    + intros er e. apply wp_ret. apply Hend; [by solve_emits|done|by right].
    + intros c e. destruct (InsertTransferMonitorMetadata _ _ c _).1; try apply wp_ret.
      all: apply Hend; [by solve_emits| |left; split; [done|apply last_seen_insert]].
      all: simpl; unfold InsertTransferMonitorMetadata.
      all: by destruct (existsb _ _).
  - apply wp_ret, Hend; [reflexivity|done|by right].
  - apply Hend; [reflexivity|done|by right].
  - apply Hend; [reflexivity|done|by right].
Qed.

Lemma start_height_slow id last w : start_height (E := E) false chain id last w = (Ok last, w).
Proof. done. Qed.

(** Polling from the height found in the database. *)
Definition poll_from q id last : M (World E) unit :=
  s ← attempt (start_height q chain id last);
  match s with
  | inl _ => mret tt
  | inr startBlockHeight =>
      if negb (Type_ chain =? ChainType_EVM)%string then mret tt
      else poll_range id startBlockHeight
  end.

Lemma wp_poll_from q id last w w1 :
  emits not_search w w1 → w_db w1 = w_db w →
  (0 ≤ last_seen (w_db w) id < 2 ^ 63 → 0 ≤ last ≤ last_seen (w_db w) id) →
  wp (poll_from q id last) (λ _ w', poll_post q id w w') w1.
Proof.
  intros Hem1 Hdb1 Hlast. unfold poll_from. apply wp_bind, wp_attempt.
  apply (wp_conseq (λ w0 w1, emits not_search w0 w1 ∧ w_db w1 = w_db w0)).
  { split; [apply start_height_quiet|symmetry; apply start_height_db]. }
  intros sh w2 Hsh [Hem2 Hdb2].
  assert (emits not_search w w2) as Hem12 by (by etransitivity).
  assert (w_db w2 = w_db w) as Hdb12 by congruence.
  assert (poll_post q id w w2) as Hsame
    by (apply poll_post_same; [by apply not_search_reads|done]).
  destruct sh as [start|er'|p]; [|by try apply wp_ret..].
  destruct (negb _); [by apply wp_ret|]. apply wp_poll_range; [done..|].
  intros -> Hr. rewrite start_height_slow in Hsh. injection Hsh as <- <-. by apply Hlast.
Qed.

Lemma getChainID_cases :
  getChainID chain = Ok (ChainID chain) ∨ ∃ err, getChainID chain = Err err.
Proof. unfold getChainID. repeat case_match; eauto. Qed.

Lemma wp_poll_chain q w :
  wp (poll_chain q chain) (λ _ w', poll_post q (ChainID chain) w w') w.
Proof.
  unfold poll_chain. destruct getChainID_cases as [->|[err ->]];
    [|by apply wp_ret, poll_post_same].
  assert (∀ w0, emits not_search w w0 → w_db w0 = w_db w → poll_post q (ChainID chain) w w0)
    as Hsame by (intros; apply poll_post_same; [by apply not_search_reads|done]).
  apply wp_bind, wp_attempt, wp_db_exec.
  - intros er e. cbn beta iota. destruct (strings_Contains _ _).
    + apply wp_poll_from; [by solve_emits|done|lia].
    + apply wp_ret, Hsame; [by solve_emits|done].
  - intros c e. unfold GetTransferMonitorMetadata, last_seen, one_row. simpl fst. simpl snd.
    destruct (List.filter _ _) as [|row rows] eqn:Hrows; cbn beta iota.
    + destruct (strings_Contains _ _).
      * apply wp_poll_from; [by solve_emits|done|lia].
      * apply wp_ret, Hsame; [by solve_emits|done].
    + apply wp_poll_from; [by solve_emits|done|].
      unfold last_seen. rewrite Hrows. intros Hr. rewrite u64_id; lia.
Qed.
(** ** Lemmas: websockets *)

(** A statement the driver refused. *)
Definition db_failure w w' : Prop := ∃ err, asked w w' (existT DbStmt (inl err)).

(** Orders are only added, the log is not searched and nothing is sent. *)
Definition ws_rel w w' : Prop :=
  emits not_search w w' ∧ orders (w_db w) `prefix_of` orders (w_db w').

#[export] Instance ws_rel_preorder : PreOrder ws_rel.
Proof. split; [by intros w|]. intros w1 w2 w3 [] []. split; by etransitivity. Qed.

Lemma recorded_mono w w' log : ws_rel w w' → recorded (w_db w) log → recorded (w_db w') log.
Proof.
  intros [_ [l Hl]] (o&row&?&?&?). exists o, row. rewrite Hl. split_and!; [done| |done].
  apply elem_of_app. by left.
Qed.

Lemma wp_record_height id height last w :
  last ≤ height →
  wp (record_height id height last) (λ r w', ws_rel w w' ∧ ∃ h, r = Ok h ∧ last ≤ h) w.
Proof.
  intros Hle. unfold record_height. apply wp_bind, wp_attempt, wp_db_exec.
  - intros er e. apply wp_ret. split; [split; [by solve_emits|done]|]. exists last. split; [done|lia].
  - intros c e.
    assert (ws_rel w (set_db (InsertTransferMonitorMetadata id (i64 height) c (w_db w)).2
      (after DbStmt (inr c) e w))) as Hrel.
    { split; [by solve_emits|]. simpl. unfold InsertTransferMonitorMetadata.
      by destruct (existsb _ _). }
    destruct (InsertTransferMonitorMetadata _ _ c _) as [[x|er|p] d] eqn:Hins;
      cbn [fst snd] in *; try apply wp_ret; (split; [exact Hrel|]).
    + by exists height.
    + exists last. split; [done|lia].
    + exfalso. unfold InsertTransferMonitorMetadata, one_row in Hins. by repeat case_match.
Qed.

Lemma wp_ws_header id last number w :
  wp (ws_header id last number) (λ r w', ws_rel w w' ∧ ∃ h, r = Ok h ∧ last ≤ h) w.
Proof.
  unfold ws_header. destruct (Z.ltb_spec last (bigint_Uint64 number)); simpl.
  - destruct (100 <=? _); [apply wp_record_height; lia|].
    apply wp_ret. split; [reflexivity|]. by exists last.
  - apply wp_ret. split; [reflexivity|]. by exists last.
Qed.

Lemma wp_ws_log id last log w :
  wp (ws_log chain id last log)
    (λ r w', ws_rel w w' ∧
       ∀ h, r = Ok h → last ≤ h ∧ (¬ db_failure w w' → recorded (w_db w') log)) w.
Proof.
  unfold ws_log. apply wp_bind. change (wp (lift_result (order_of_log chain log))) with
    (λ (Q : result MonitoredOrder → World E → Prop) w0, Q (order_of_log chain log) w0).
  cbn beta. destruct (order_of_log chain log) as [o|er|p] eqn:Ho; [|by split..].
  pose proof (order_of_log_chain _ _ Ho) as Hch.
  apply wp_bind, wp_attempt, wp_db_exec.
  - intros er e. apply wp_ret. split; [split; [by solve_emits|done]|]. intros h [= <-].
    split; [done|]. intros Hno. destruct Hno. exists er. apply (asked_here not_search). reflexivity.
  - intros c e. destruct (InsertOrder_cases
      (order_params (FastTransferContractAddress chain) o) c (w_db w))
      as [(row&->&Hkey&->)|(row&->&->&Hin&Hkey)]; simpl in Hkey; rewrite Hch in Hkey.
    + match goal with |- wp _ _ ?w0 => set (w1 := w0) end.
      assert (ws_rel w w1) as Hrel by (split; [subst w1; by solve_emits|simpl; by eexists]).
      assert (recorded (w_db w1) log) as Hrec.
      { exists o, row. split_and!; [done| |done]. simpl. apply elem_of_app. right. by left. }
      destruct (Z.ltb_spec last (log_BlockNumber log)).
      * eapply wp_mono; [|apply wp_record_height; lia]. intros r w2 (Hrel2&h&->&?).
        split; [by etransitivity|]. intros h' [= <-]. split; [done|]. intros _.
        by eapply recorded_mono.
      * apply wp_ret. split; [done|]. intros h [= <-]. done.
    + apply wp_ret. split; [split; [by solve_emits|done]|]. intros h [= <-].
      split; [done|]. intros _. by exists o, row.
Qed.

(** What the loop did so far: [seen] are the events it handled. *)
Definition ws_inv w last (seen : list ws_event) last1 w1 : Prop :=
  ws_rel w w1 ∧ last ≤ last1 ∧
  (¬ db_failure w w1 → ∀ log, WsLog (inr log) ∈ seen → recorded (w_db w1) log).

Lemma ws_inv_step w last seen last1 w1 ev last2 w2 :
  ws_inv w last seen last1 w1 → ws_rel w1 w2 → last1 ≤ last2 →
  (∀ log, ev = WsLog (inr log) → ¬ db_failure w1 w2 → recorded (w_db w2) log) →
  ws_inv w last (seen ++ [ev]) last2 w2.
Proof.
  intros (Hrel&Hle&Hrec) Hrel2 Hle2 Hev. split_and!; [by etransitivity|lia|].
  intros Hno log [Hin|Hin%list_elem_of_singleton]%elem_of_app.
  - eapply recorded_mono; [exact Hrel2|]. apply Hrec; [|done]. intros [err Ha]. apply Hno.
    exists err. eapply asked_later; [exact Ha|apply Hrel2].
  - apply Hev; [done|]. intros [err Ha]. apply Hno.
    exists err. eapply asked_earlier; [apply Hrel|exact Ha].
Qed.

Lemma wp_ws_loop id last events w :
  wp (ws_loop chain id last events)
    (λ r w', ws_rel w w' ∧ ∀ last', r = Ok (inl last') → ws_inv w last events last' w') w.
Proof.
  unfold ws_loop. apply (wp_loop (ws_inv w last)).
  - split_and!; [reflexivity|done|]. by intros _ log ?%not_elem_of_nil.
  - intros seen ev _ last1 w1 _ Hinv. pose proof Hinv as (Hrel&_&_).
    destruct ev as [number|[er|log]|er|er|]; simpl.
    + apply wp_bind. eapply wp_mono; [|apply wp_ws_header]. intros r w2 (Hrel2&h&->&?).
      apply wp_ret. by eapply ws_inv_step.
    + apply wp_ret. by eapply ws_inv_step.
    + apply wp_bind. eapply wp_mono; [|apply wp_ws_log]. intros r w2 [Hrel2 Hr].
      destruct r as [h|er|p]; [|by split; [etransitivity|]..].
      destruct (Hr h eq_refl). apply wp_ret. eapply ws_inv_step; [done..|].
      intros log' [= <-]. done.
    + apply wp_ret. by split.
    + apply wp_ret. by split.
    + apply wp_ret. by split.
  - intros last1 w1 Hinv. pose proof Hinv as (Hrel&_&_). split; [done|]. by intros l [= <-].
Qed.
End found.

(** ** Lemmas: a goroutine that fails *)

(** A search that fails at once, in an environment whose goroutines run when they are
    started. *)
Lemma start_chunk_fails chain chunk err (f : ∀ r, error + response r) (w : World unit) :
  f (FilterOrderSubmitted (ChainID chain) (FastTransferContractAddress chain) chunk.1 chunk.2)
    = inr ([], Some err) →
  (@start_chunk unit (sim_env f) chain ([], None, []) chunk w).1 = Ok (Next ([], Some err, [])).
Proof.
  intros Hf. destruct chunk as [s e]. simpl in Hf.
  unfold start_chunk, run_chunk, fetch_chunk, retry_last, ask, attempt, mbind, M_bind, mret.
  simpl. unfold env_answer, sim_env. simpl. rewrite Hf. done.
Qed.

Lemma chunks_first s e :
  0 ≤ s ≤ e → e < 2 ^ 64 → ∃ c rest, chunks chunk_fuel s e 0 = c :: rest.
Proof.
  intros Hs He. unfold chunk_fuel. cbn [chunks]. rewrite Z.add_0_r, u64_id by lia.
  rewrite (proj2 (Z.ltb_ge e s)) by lia. eauto.
Qed.

(** The next iteration notices the failure, or the loop ends and notices it. *)
Lemma failed_loop {B} chain c rest err (f : ∀ r, error + response r)
    (k : search_state + unit → M (World unit) B) out (w : World unit) :
  f (FilterOrderSubmitted (ChainID chain) (FastTransferContractAddress chain) c.1 c.2)
    = inr ([], Some err) →
  (∀ w, (k (inr tt) w).1 = out) → (∀ w, (k (inl ([], Some err, [])) w).1 = out) →
  ((r ← loop (c :: rest) ([], None, []) (@start_chunk unit (sim_env f) chain); k r) w).1 = out.
Proof.
  intros Hf Hret Hend. pose proof (start_chunk_fails chain c err f w Hf) as Hc.
  apply (wp_bind _ _ (λ r _, r = out)). cbn [loop]. apply wp_bind. apply wp_intro.
  intros r w1 Hr. rewrite Hr in Hc. simpl in Hc. subst r.
  destruct rest as [|c' rest]; cbn [loop start_chunk]; [apply wp_ret, Hend|].
  apply wp_bind, wp_ret, wp_ret, Hret.
Qed.

(** ** Properties *)

(** C36. Decoding is exact: [DecodeOrder] accepts precisely the packed encodings of orders
    whose fields fit their widths and inverts the encoding, and it panics on the byte
    strings shorter than the fixed part. *)
Theorem DecodeOrder_roundtrip bs o :
  (DecodeOrder bs = Ok o ↔ order_wf o ∧ bs = encode_order o) ∧
  (no_panic (DecodeOrder bs) ↔ (148 ≤ length bs)%nat).
Proof.
  split; [split|].
  - intros Hd. by apply encode_DecodeOrder in Hd as [<- ?].
  - intros [Hwf ->]. by apply DecodeOrder_encode.
  - unfold DecodeOrder, no_panic. destruct (Nat.ltb_spec (length bs) 148); split; intros; try lia; try done.
Qed.

(** C6. One poll of a chain never sends a transaction and never removes or changes a
    recorded order.  When it moves the recorded height, no search of the log failed
    and the driver's errors are no conflicts, then every log the chain returned is
    recorded as an order, and (without quick start) every block from the old height
    to the new one was searched: no block is skipped. *)
Theorem poll_chain_complete {E} `{Env E} quickStart chain (w w' : World E) r :
  poll_chain quickStart chain w = (r, w') →
  emits read_only w w' ∧ orders (w_db w) `prefix_of` orders (w_db w') ∧
  (transfer_monitor_metadata (w_db w') ≠ transfer_monitor_metadata (w_db w) →
   driver_honest w w' → ¬ failed_search chain w w' →
   (∀ log, found_log chain w w' log → recorded chain (w_db w') log) ∧
   (quickStart = false → 0 ≤ last_seen (w_db w) (ChainID chain) < 2 ^ 63 →
    ∀ b, last_seen (w_db w) (ChainID chain) ≤ b ≤ last_seen (w_db w') (ChainID chain) →
         searched_block chain w w' b)).
Proof.
  intros Hrun. pose proof (wp_poll_chain chain quickStart w) as Hp.
  unfold wp in Hp. by rewrite Hrun in Hp.
Qed.

(** The websocket monitor never searches the log and never sends a transaction, and it
    never removes or changes a recorded order.  While its subscriptions last and the
    driver answers, the height only grows and every log delivered is recorded. *)
Theorem ws_loop_records {E} `{Env E} chain chainID last events (w w' : World E) r :
  ws_loop chain chainID last events w = (r, w') →
  emits not_search w w' ∧ orders (w_db w) `prefix_of` orders (w_db w') ∧
  ∀ last', r = Ok (inl last') →
    last ≤ last' ∧
    (¬ db_failure w w' → ∀ log, WsLog (inr log) ∈ events → recorded chain (w_db w') log).
Proof.
  intros Hrun. pose proof (wp_ws_loop chain chainID last events w) as Hp.
  unfold wp in Hp. rewrite Hrun in Hp. destruct Hp as [[Hem Hpre] Hr]. split_and!; [done..|]. intros last' Hl.
  by destruct (Hr last' Hl) as (_&?&?).
Qed.

(** The errors of the goroutines that search the log are lost when the loop that starts
    them notices one first: whatever range was asked for, the search then returns no
    orders and no error. *)
Theorem findTransferIntents_drops_error chain start end_ err
    (f : ∀ r, error + response r) (w : World unit) :
  0 ≤ start ≤ end_ → end_ < 2 ^ 64 →
  (∀ s e, f (FilterOrderSubmitted (ChainID chain) (FastTransferContractAddress chain) s e)
          = inr ([], Some err)) →
  (@findTransferIntents unit (sim_env f) chain start end_ w).1 = Ok [].
Proof.
  intros Hs He Hf. destruct (chunks_first start end_ Hs He) as (c&rest&Hc).
  unfold findTransferIntents. rewrite Hc. by apply (failed_loop chain c rest err).
Qed.

(** ** Witnesses *)

Definition sample_event : FastTransferOrder :=
  mkFastTransferOrder (replicate 32 "001"%byte) (replicate 32 "002"%byte) 100000000 99700000 1
    42161 875 3600 ["007"%byte].
Definition sample_log : OrderSubmittedLog :=
  mkOrderSubmittedLog "0xc" 700 ["170"%byte] (encode_order sample_event).

(** Arbitrum at height 1500, with an order in block 700; [broken] iterators end in an
    error. *)
Definition monitor_answers (broken : bool) : ∀ r, error + response r := λ r,
  match r as r return error + response r with
  | EthGetClient _ => inr tt
  | HeaderByNumber _ => inr 1500
  | NewGateway _ _ => inr tt
  | FilterOrderSubmitted _ _ s e =>
      if broken then inr ([], Some (ErrNew "timeout"))
      else if (s <=? 700) && (700 <=? e) then inr ([sample_log], None) else inr ([], None)
  | r => offline r
  end.
Definition monitor_env (broken : bool) : Env unit := sim_env (monitor_answers broken).
Definition monitor_world : World unit := sim_world empty_db.

(** Whether the events of a trace satisfy what [poll_chain_complete] assumes. *)
Definition quiet_event (ev : event) : bool :=
  match ev with
  | existT DbStmt (inl _) => false
  | existT (FilterOrderSubmitted _ _ _ _) (inr (_, None)) => true
  | existT (FilterOrderSubmitted _ _ _ _) _ => false
  | _ => true
  end.

Lemma quiet_trace {E} chain (w w' : World E) :
  w_trace w = [] → forallb quiet_event (w_trace w') = true →
  driver_honest w w' ∧ ¬ failed_search chain w w' ∧ ¬ db_failure w w'.
Proof.
  intros Ht Hall. rewrite forallb_forall in Hall.
  assert (∀ ev, asked w w' ev → quiet_event ev = true) as Hq.
  { intros ev (new&Hn&Hin). apply Hall. rewrite Hn, Ht. by apply list_elem_of_In. }
  split_and!.
  - intros err Ha. by apply Hq in Ha.
  - intros (s&e&a&Ha&Hne). apply Hq in Ha. simpl in Ha.
    destruct a as [|[logs [err|]]]; [done|done|]. by apply (Hne logs).
  - intros [err Ha]. by apply Hq in Ha.
Qed.

Lemma poll_chain_complete_witness :
  ∃ w', @poll_chain unit (monitor_env false) false sample_arbitrum monitor_world = (Ok tt, w') ∧
    last_seen (w_db w') "42161" = 1500 ∧ recorded sample_arbitrum (w_db w') sample_log ∧
    ∀ b, 0 ≤ b ≤ 1500 → searched_block sample_arbitrum monitor_world w' b.
Proof.
  destruct (@poll_chain unit (monitor_env false) false sample_arbitrum monitor_world)
    as [r w'] eqn:Hrun.
  pose proof (@poll_chain_complete unit (monitor_env false) false sample_arbitrum _ _ _ Hrun)
    as (_&_&Hp).
  assert (w' = (@poll_chain unit (monitor_env false) false sample_arbitrum monitor_world).2) as Hw'
    by (by rewrite Hrun).
  assert (r = Ok tt) as -> by (vm_compute in Hrun; congruence).
  destruct (quiet_trace sample_arbitrum monitor_world w') as (Hd&Hf&_);
    [done|rewrite Hw'; vm_compute; reflexivity|].
  assert (last_seen (w_db w') "42161" = 1500) as Hlast by (rewrite Hw'; vm_compute; reflexivity).
  destruct Hp as [Hrec Hsearch]; [rewrite Hw'; vm_compute; discriminate|done..|].
  exists w'. split_and!; [done..| |].
  - apply Hrec. exists 0, 1000, [sample_log], None. split; [|by left].
    exists (w_trace w'). split; [done|]. rewrite Hw'. vm_compute.
    repeat first [by left | right].
  - intros b Hb. apply Hsearch; [done|vm_compute; split; congruence|].
    simpl. rewrite Hlast. done.
Defined.

Lemma ws_loop_records_witness :
  ∃ w', @ws_loop unit (monitor_env false) sample_arbitrum "42161" 0
          [WsHeader 150; WsLog (inr sample_log); WsHeader 650] monitor_world
        = (Ok (inl 700), w') ∧ recorded sample_arbitrum (w_db w') sample_log.
Proof.
  destruct (@ws_loop unit (monitor_env false) sample_arbitrum "42161" 0
    [WsHeader 150; WsLog (inr sample_log); WsHeader 650] monitor_world) as [r w'] eqn:Hrun.
  pose proof (@ws_loop_records unit (monitor_env false) sample_arbitrum "42161" 0 _ _ _ _ Hrun)
    as (_&_&Hr).
  assert (w' = (@ws_loop unit (monitor_env false) sample_arbitrum "42161" 0
    [WsHeader 150; WsLog (inr sample_log); WsHeader 650] monitor_world).2) as Hw'
    by (by rewrite Hrun).
  assert (r = Ok (inl 700)) as -> by (vm_compute in Hrun |- *; congruence).
  exists w'. split; [done|]. apply (Hr 700 eq_refl).
  - apply (quiet_trace sample_arbitrum); [done|rewrite Hw'; vm_compute; reflexivity].
  - right. by left.
Defined.

(** The order in block 700 is lost: the height moves past it. *)
Lemma findTransferIntents_drops_error_witness :
  (@findTransferIntents unit (monitor_env true) sample_arbitrum 0 1500 monitor_world).1 = Ok [] ∧
  let w' := (@poll_chain unit (monitor_env true) false sample_arbitrum monitor_world).2 in
  last_seen (w_db w') "42161" = 1500 ∧ orders (w_db w') = [].
Proof.
  split; [|vm_compute; done].
  apply (findTransferIntents_drops_error sample_arbitrum 0 1500 (ErrNew "timeout")
           (monitor_answers true)); [lia|lia|done].
Defined.
