(* ===== verification/EvmBridge.v ===== *)
(** * EvmBridge: the bridge client of an EVM chain

    shared/bridges/cctp/evm_bridge_client.go.  The client answers the calls of the
    [BridgeClient] interface that make sense on a source chain (the result of a
    transaction, the state of an order in the gateway contract) and refuses the
    others.  An operation is a computation over the calls of [Network]. *)
From Stdlib Require Import Strings.Byte.
From S2P Require Import Prelude GoLib Config Json Network Database World Keys TransferMonitor.

(** The chain the client was made for and the signer's address. *)
Record EVMBridgeClient := mkEVMBridgeClient { eb_chainID : string; eb_fromAddress : list byte }.

Definition NewEVMBridgeClient (chainID : string) (signer : option Signer) : EVMBridgeClient :=
  mkEVMBridgeClient chainID (signer_Address (default NopSigner signer)).

(** The status values of the gateway contract, as
    shared/contracts/fast_transfer_gateway/constants.go numbers them. *)
Definition GatewayStatusFilled : Z := 1.
Definition GatewayStatusRefunded : Z := 2.

(** [types.ReceiptStatusFailed] *)
Definition ReceiptStatusFailed : Z := 0.

(** [ethereum.NotFound] *)
Definition eth_not_found : string := "not found".

Definition not_implemented {S A} : M S A := throw (ErrNew "not implemented").

(** The conversion [[32]byte(bs)] panics on a shorter slice. *)
Definition bytes32 (bs : list byte) : result (list byte) :=
  if (length bs <? 32)%nat then Panic "cannot convert slice to array" else Ok (take 32 bs).

Section evm_bridge.
Context {E : Type} `{Env E}.
Notation IO := (M (World E)).
Context (c : EVMBridgeClient).
Let chainID := eb_chainID c.

(** [errors.Is(err, ethereum.NotFound)]: the client wraps nothing around it. *)
Definition is_not_found (e : error) : bool :=
  match e with ErrNew m => String.eqb m eth_not_found | _ => false end.

Definition EVM_USDCBalance (usdc address : string) : IO Z :=
  ask (Net (UsdcBalanceOf chainID usdc address)).

Definition EVM_SignerGasTokenBalance : IO (option Z) :=
  b ← ask (Net (EthBalanceAt chainID (eb_fromAddress c))); mret (Some b).

Definition EVM_GetTxResult (txHash : string) : IO (option Z * option string) :=
  r ← attempt (ask (Net (EthTransactionReceipt chainID txHash)));
  match r with
  | inl err =>
      if is_not_found err then throw (ErrSentinel (ErrTxResultNotFound txHash)) else throw err
  | inr None => throw (ErrNew "receipt is nil")
  | inr (Some receipt) =>
      match rcpt_EffectiveGasPrice receipt with
      | None => throw (ErrNew "effective gas price is nil")
      | Some price =>
          let gasCost := price * i64 (rcpt_GasUsed receipt) in
          if rcpt_Status receipt =? ReceiptStatusFailed
          then mret (Some gasCost, Some "transaction failed")
          else mret (Some gasCost, None)
      end
  end.

(** The contract binding and the order id, as every query of the gateway starts. *)
Definition gateway_order (gateway orderID : string) : IO (list byte) :=
  _ ← ask (Net (BindContract chainID gateway));
  orderIDBytes ← lift_result (hex_DecodeString orderID);
  lift_result (bytes32 orderIDBytes).

Definition EVM_IsSettlementComplete (gateway orderID : string) : IO bool :=
  id ← gateway_order gateway orderID;
  orderStatus ← ask (Net (GwOrderStatuses chainID gateway id));
  mret (orderStatus =? GatewayStatusFilled).

Definition EVM_OrderExists (gateway orderID : string) (blockNumber : option Z) : IO (bool * option Z) :=
  id ← gateway_order gateway orderID;
  details ← wrap_err "querying fast transfer gateway for orders settlement details: "
    (ask (Net (GwSettlementDetails chainID gateway id blockNumber)));
  mret (bool_decide (is_Some (sd_Nonce details)) && negb (sd_DestinationDomain details =? 0)
          && bool_decide (is_Some (sd_Amount details)), sd_Amount details).

(** The last event of an iterator that is not nil. *)
Definition last_event {A} (events : list (option A)) : option A :=
  foldl (λ acc ev, match ev with Some x => Some x | None => acc end) None events.

Definition EVM_IsOrderRefunded (gateway orderID : string) : IO (bool * string) :=
  id ← gateway_order gateway orderID;
  status ← wrap_err ("querying orderID " +:+ orderID +:+ " status: ")
    (ask (Net (GwOrderStatuses chainID gateway id)));
  if status =? GatewayStatusRefunded then
    events ← wrap_err "filtering OrderRefunded events: "
      (ask (Net (GwFilterOrderRefunded chainID gateway id)));
    match last_event events with
    | None => throw (ErrNew ("no refund event found for orderID " +:+ orderID +:+
                ", but the order is reported as refunded from fast gateway contract"))
    | Some txHash => mret (true, txHash)
    end
  else mret (false, "").

Definition EVM_OrderStatus (gateway orderID : string) : IO Z :=
  id ← gateway_order gateway orderID;
  wrap_err ("querying orderID " +:+ orderID +:+ " status: ")
    (ask (Net (GwOrderStatuses chainID gateway id))).

(** The order of the last event; an event whose order is too short panics. *)
Definition EVM_QueryOrderSubmittedEvent (gateway orderID : string) : IO (option FastTransferOrder) :=
  id ← gateway_order gateway orderID;
  events ← wrap_err "filtering OrderSubmitted events: "
    (ask (Net (GwFilterOrderSubmitted chainID gateway id)));
  fold_m (λ acc ev,
    match ev with
    | None => mret acc
    | Some raw => order ← lift_result (DecodeOrder raw); mret (Some order)
    end) None events.

(** The receipt, asked for up to twenty times. *)
Definition EVM_WaitForTx (txHash : string) : IO unit :=
  r ← retry_last 19 (ask (Net (EthTransactionReceipt chainID txHash)));
  match r with inl err => throw err | inr _ => mret tt end.

Definition EVM_BlockHeight : IO Z :=
  head ← ask (Net (EthHeader chainID)); mret (bigint_Uint64 head.1).

(** The operations of the interface an EVM chain does not have. *)
Definition EVM_FillOrder (order : Order) (gateway : string) : IO (string * string) := not_implemented.
Definition EVM_InitiateTimeout (order : Order) (gateway : string) : IO (string * string) := not_implemented.
Definition EVM_InitiateBatchSettlement (batch : list OrderSettlement) : IO (string * string) := not_implemented.
Definition EVM_QueryOrderFillEvent (gateway orderID : string) : IO (option OrderFillEvent * Time) := not_implemented.
Definition EVM_OrderFillsByFiller (gateway filler : string) : IO (list Fill) := not_implemented.
Definition EVM_Balance (address denom : string) : IO Z := not_implemented.
End evm_bridge.

(** ** Theorems *)

Lemma last_event_app {A} (l : list (option A)) ev :
  last_event (l ++ [ev]) = match ev with Some x => Some x | None => last_event l end.
Proof. unfold last_event. by rewrite foldl_app. Qed.

(** The last event: nothing but nil events come after it. *)
Lemma last_event_spec {A} (l : list (option A)) x :
  last_event l = Some x → ∃ pre post, l = pre ++ Some x :: post ∧ Forall (.= None) post.
Proof.
  induction l as [|ev l IH] using rev_ind; [done|]. rewrite last_event_app.
  destruct ev as [y|]; [intros [= <-]; by exists l, []|].
  intros (pre&post&->&Hpost)%IH. exists pre, (post ++ [None]).
  rewrite <-app_assoc. split; [done|]. apply Forall_app. by repeat constructor.
Qed.

Section theorems.
Context {E : Type} `{Env E}.
Implicit Types w : World E.
Context (c : EVMBridgeClient).

(** The evidence behind every answer of [GetTxResult]: the cost is price times gas
    used of the receipt, a failure is the receipt's, and "not found" (and nothing
    else) is reported as the sentinel the verifier waits on. *)
Theorem EVM_GetTxResult_spec txHash w r w' :
  EVM_GetTxResult c txHash w = (r, w') →
  ∃ a, asked w w' (existT (Net (EthTransactionReceipt (eb_chainID c) txHash)) a) ∧
    w_db w' = w_db w ∧ w_mem w' = w_mem w ∧
    match r with
    | Ok (cost, failure) =>
        ∃ receipt price, a = inr (Some receipt) ∧ rcpt_EffectiveGasPrice receipt = Some price ∧
          cost = Some (price * i64 (rcpt_GasUsed receipt)) ∧
          (is_Some failure ↔ rcpt_Status receipt = ReceiptStatusFailed)
    | Err err =>
        (errors_as_tx_result_not_found err = true → a = inl (ErrNew "not found") ∨
           ∃ e, a = inl e ∧ errors_as_tx_result_not_found e = true) ∧
        (a = inl (ErrNew "not found") → err = ErrSentinel (ErrTxResultNotFound txHash))
    | Panic _ => False
    end.
Proof.
  intros Hrun. run_wp Hrun. unfold EVM_GetTxResult.
  wp_steps; intros <-; eexists; (split; [solve_asked|]); (split; [done|]); (split; [done|]).
  all: try (split; [done|done]).
  - unfold is_not_found in *. case_match; try done. apply String.eqb_eq in Heqb as ->.
    split; [by left|done].
  - split; [by eauto|]. intros [= ->]. done.
  - do 2 eexists. split_and!; try done. split; [intros _; by apply Z.eqb_eq|by eauto].
  - do 2 eexists. split_and!; try done. split; [by intros []|intros Hs].
    apply Z.eqb_neq in Heqb. by rewrite Hs in Heqb.
Qed.

(** An order is reported refunded only when the contract says so and an event names
    the refund; the transaction is the one of the latest event. *)
Theorem EVM_IsOrderRefunded_evidence gateway orderID w txHash w' :
  EVM_IsOrderRefunded c gateway orderID w = (Ok (true, txHash), w') →
  ∃ id pre post,
    hex_DecodeString orderID = Ok id ∧ (32 ≤ length id)%nat ∧
    asked w w' (existT (Net (GwOrderStatuses (eb_chainID c) gateway (take 32 id))) (inr 2)) ∧
    asked w w' (existT (Net (GwFilterOrderRefunded (eb_chainID c) gateway (take 32 id)))
      (inr (pre ++ Some txHash :: post))) ∧ Forall (.= None) post.
Proof.
  intros Hrun. run_wp Hrun. unfold EVM_IsOrderRefunded, gateway_order, bytes32.
  wp_steps; intros [=]; subst. apply Z.eqb_eq in Heqb as ->.
  apply last_event_spec in Heqo as (pre&post&->&Hpost).
  exists a, pre, post. destruct (Nat.ltb_spec (length a) 32); simplify_eq.
  split_and!; try done; try lia; solve_asked.
Qed.

(** An order id of fewer than 32 bytes panics before the contract is asked. *)
Theorem EVM_gateway_short_id gateway orderID id w r w' :
  hex_DecodeString orderID = Ok id → (length id < 32)%nat →
  EVM_IsSettlementComplete c gateway orderID w = (r, w') →
  (∃ e, r = Err e) ∨ (∃ p, r = Panic p).
Proof.
  intros Hid Hlen Hrun. run_wp Hrun.
  unfold EVM_IsSettlementComplete, gateway_order, bytes32. rewrite Hid.
  apply Nat.ltb_lt in Hlen. wp_steps; intros <-; rewrite ?Hlen in *; simplify_eq; eauto.
Qed.
End theorems.
