(* ===== verification/CosmosBridge.v ===== *)
(** * CosmosBridge: the bridge client of a Cosmos chain

    shared/bridges/cctp/cosmos_bridge_client.go: the messages that fill, time out and
    settle orders, how they are submitted (through the transaction executor, with
    retries), and the queries of the gateway contract and of the node.  Bech32, the
    parser of coins and the conversion of the gas price are parameters; the contract's
    answers are JSON trees. *)
From Stdlib Require Import Strings.Byte Ascii.
From Stdlib Require String.
From S2P Require Import Prelude GoLib Config Json Network Database World Settlements Keys TxExecutor.

Record CosmosBridgeClient := mkCosmosBridgeClient {
  cb_chainID : string;
  cb_prefix : string;
  cb_signer : Signer;
  cb_gasPrice : bigfloat;
  cb_gasDenom : string
}.

Definition NewCosmosBridgeClient (chainID prefix : string) (signer : option Signer)
    (gasPrice : bigfloat) (gasDenom : string) : CosmosBridgeClient :=
  mkCosmosBridgeClient chainID prefix (default NopSigner signer) gasPrice gasDenom.

(** ** The messages *)

(** The order as the gateway contract reads it; "data" is left out when empty. *)
Definition json_num (z : Z) : Json := JNum (bigint_String z).

Record WasmOrder := mkWasmOrder {
  wo_Sender : string;
  wo_Recipient : string;
  wo_AmountIn : string;
  wo_AmountOut : string;
  wo_Nonce : Z;
  wo_SourceDomain : Z;
  wo_DestinationDomain : Z;
  wo_TimeoutTimestamp : Z;
  wo_Data : string
}.

Definition WasmOrder_json (o : WasmOrder) : Json :=
  JObj ([ ("sender", JStr (wo_Sender o)); ("recipient", JStr (wo_Recipient o));
          ("amount_in", JStr (wo_AmountIn o)); ("amount_out", JStr (wo_AmountOut o));
          ("nonce", json_num (wo_Nonce o)); ("source_domain", json_num (wo_SourceDomain o));
          ("destination_domain", json_num (wo_DestinationDomain o));
          ("timeout_timestamp", json_num (wo_TimeoutTimestamp o)) ] ++
        (if (wo_Data o =? "")%string then [] else [("data", JStr (wo_Data o))])).

Definition FillOrderEnvelope (filler : string) (o : WasmOrder) : Json :=
  JObj [("fill_order", JObj [("order", WasmOrder_json o); ("filler", JStr filler)])].

Definition InitiateTimeoutEnvelope (o : WasmOrder) : Json :=
  JObj [("initiate_timeout", JObj [("orders", JArr [WasmOrder_json o])])].

Definition InitiateSettlementEnvelope (ids : list string) (repayment : string) : Json :=
  JObj [("initiate_settlement",
         JObj [("order_ids", JArr (JStr <$> ids)); ("repayment_address", JStr repayment)])].

(** The denom of the funds of a fill, written in the code. *)
Definition fill_denom : string :=
  "ibc/498A0751C798A0D9A389AA3691123DADA57DAA4FE165D5C75894505B876BA6E4".

(** [math.NewIntFromString]: in the base its prefix says, at most 256 bits. *)
Definition NewIntFromString (s : string) : option Z :=
  match bigint_SetString_base0 s with
  | Some z => if Z.abs z <? 2 ^ 256 then Some z else None
  | None => None
  end.

(** [t.UTC().Unix()] *)
Definition unix (t : Time) : Z := t / Second.

(** [strings.ToUpper] on hex digits *)
Definition upper_ascii (c : ascii) : ascii :=
  let n := nat_of_ascii c in
  if ((97 <=? n) && (n <=? 122))%nat then ascii_of_nat (n - 32) else c.
Fixpoint strings_ToUpper (s : string) : string :=
  match s with
  | EmptyString => EmptyString
  | String c s' => String (upper_ascii c) (strings_ToUpper s')
  end.

(** [strings.HasSuffix] *)
Definition strings_HasSuffix (s suffix : string) : bool :=
  String.eqb (String.substring (String.length s - String.length suffix) (String.length suffix) s) suffix
  && (String.length suffix <=? String.length s)%nat.

Section cosmos_bridge.
Context `{KeyLib} {E : Type} `{Env E}.
Notation IO := (M (World E)).
Context (reader : configReader) (lookupEnv : string → option string) (c : CosmosBridgeClient).
(** The gas price as a decimal, [sdk.ParseCoinNormalized], go-ethereum's address
    conversions and the JSON encoder of a transaction. *)
Context (gas_price_dec : bigfloat → error + Z) (parse_coin : string → error + Coin)
        (HexToAddress : string → list byte) (BytesToHash : list byte → list byte)
        (tx_json : CosmosTxBody → error + string).
Let chainID := cb_chainID c.

(** [bech32.ConvertAndEncode(c.prefix, c.signer.Address())] *)
Definition from_address : result string :=
  of_sum (bech32_encode (cb_prefix c) (signer_Address (cb_signer c))).

(** *** Submission *)

(** A node whose answer names a sequence mismatch is asked again after a second, five
    times in all. *)
Definition submit_once (from : string) (msgs : list MsgExecuteContract) :
    IO (option (string * CosmosTxBody)) :=
  '(result, tx) ← Cosmos_ExecuteTx reader lookupEnv gas_price_dec chainID from msgs
                    (cb_gasPrice c) (cb_gasDenom c);
  if negb (rb_Code result =? 0) then
    if strings_Contains (rb_Log result) "account sequence mismatch" then
      _ ← attempt (ask (Net (Sleep Second))); mret None
    else throw (abciError (rb_Codespace result) (rb_Code result) (rb_Log result))
  else mret (Some (strings_ToUpper (hex_EncodeToString (rb_Hash result)), tx)).

Fixpoint submit_retrying (n : nat) (from : string) (msgs : list MsgExecuteContract) :
    IO (string * CosmosTxBody) :=
  match n with
  | O => throw (ErrNew "failed to submit tx")
  | S n' =>
      r ← submit_once from msgs;
      match r with
      | Some res => mret res
      | None => submit_retrying n' from msgs
      end
  end.

Definition submitTx (msgs : list MsgExecuteContract) : IO (string * CosmosTxBody) :=
  bech32Address ← lift_result from_address;
  submit_retrying 5 bech32Address msgs.

(** [c.txConfig.TxJSONEncoder()(tx)] in base64 *)
Definition submitted (r : string * CosmosTxBody) : IO (string * string) :=
  txBytes ← lift_sum (tx_json r.2);
  mret (r.1, base64_EncodeToString txBytes).

(** *** Filling and timing out *)

(** [strconv.ParseUint] of the chain's domain, cut to 32 bits. *)
Definition hyperlane_domain (which id : string) : IO Z :=
  cfg ← wrap_err ("getting config for " +:+ which +:+ " chainID " +:+ id +:+ ": ")
    (lift_result (GetChainConfig reader id));
  domain ← wrap_err ("converting " +:+ which +:+ " hyperlane domain " +:+ HyperlaneDomain cfg +:+ " to uint: ")
    (lift_result (strconv_ParseUint (HyperlaneDomain cfg)));
  mret (u32 domain).

Definition wasm_order (order : Order) (sourceDomain destDomain : Z) : WasmOrder :=
  mkWasmOrder (hex_EncodeToString (o_Sender order)) (hex_EncodeToString (o_Recipient order))
    (o_AmountIn order) (o_AmountOut order) (u32 (o_Nonce order)) sourceDomain destDomain
    (u64 (unix (o_TimeoutTimestamp order))) (default "" (o_Data order)).

Definition Cosmos_FillOrder (order : Order) (gateway : string) : IO (string * string) :=
  fromAddress ← lift_result from_address;
  sourceDomain ← hyperlane_domain "source" (o_SourceChainID order);
  destDomain ← hyperlane_domain "destination" (o_DestinationChainID order);
  let msg := FillOrderEnvelope fromAddress (wasm_order order sourceDomain destDomain) in
  amount ← or_throw (NewIntFromString (o_AmountOut order)) "invalid amount";
  r ← submitTx [mkMsgExecuteContract fromAddress gateway msg [mkCoin fill_denom amount]];
  submitted r.

Definition Cosmos_InitiateTimeout (order : Order) (gateway : string) : IO (string * string) :=
  fromAddress ← lift_result from_address;
  sourceDomain ← hyperlane_domain "source" (o_SourceChainID order);
  destDomain ← hyperlane_domain "destination" (o_DestinationChainID order);
  let msg := InitiateTimeoutEnvelope (wasm_order order sourceDomain destDomain) in
  r ← submitTx [mkMsgExecuteContract fromAddress gateway msg []];
  submitted r.

(** *** Settling *)

Definition Cosmos_InitiateBatchSettlement (batch : SettlementBatch) : IO (string * string) :=
  match batch with
  | [] => mret ("", "")
  | _ =>
      repayment ← wrap_err "getting batch repayment address: "
        (lift_result (RepaymentAddress HexToAddress BytesToHash reader batch));
      let msg := InitiateSettlementEnvelope (OrderIDs batch) (hex_EncodeToString repayment) in
      fromAddress ← lift_result from_address;
      gateway ← wrap_err "getting batch gateway contract address: "
        (lift_result (DestinationGatewayContractAddress reader batch));
      r ← wrap_err "submitting tx: " (submitTx [mkMsgExecuteContract fromAddress gateway msg []]);
      wrap_err "json encoding tx: " (submitted r)
  end.

(** *** Node queries *)

Definition Cosmos_Balance (address denom : string) : IO Z :=
  resp ← ask (Net (QueryBalance chainID address denom));
  if negb (abci_Code resp =? 0) then
    throw (abciError (abci_Codespace resp) (abci_Code resp) (abci_Log resp))
  else lift_sum (abci_Value resp).

Definition Cosmos_SignerGasTokenBalance : IO (option Z) :=
  fromAddress ← wrap_err "converting signer address to bech32: " (lift_result from_address);
  b ← wrap_err "querying gas token balance: " (Cosmos_Balance fromAddress (cb_gasDenom c));
  mret (Some b).

(** [coins.AmountOf(denom)] *)
Definition AmountOf (coins : list Coin) (denom : string) : Z :=
  match list_find (λ co, coin_Denom co = denom) coins with
  | Some (_, co) => coin_Amount co
  | None => 0
  end.

(** The comparison [fee == math.ZeroInt()] is of two structs that hold distinct
    pointers, so it is never true and the error behind it never returned. *)
Definition Cosmos_GetTxResult (txHash : string) : IO (option Z * option string) :=
  hash ← lift_result (hex_DecodeString txHash);
  r ← attempt (ask (Net (TmTx chainID hash)));
  match r with
  | inl err =>
      if strings_HasSuffix (error_msg err) "not found"
      then throw (ErrSentinel (ErrTxResultNotFound txHash)) else throw err
  | inr result =>
      tx ← wrap_err "decoding tx bytes: " (lift_sum (rt_Fee result));
      match tx with
      | None => throw (ErrNew "could not convert decoded tx to sdk.FeeTx")
      | Some coins =>
          let fee := AmountOf coins (cb_gasDenom c) in
          if negb (rt_Code result =? 0)
          then mret (Some fee, Some ("tx failed with code: " +:+ bigint_String (rt_Code result) +:+
                                     " and log: " +:+ rt_Log result))
          else mret (Some fee, None)
      end
  end.

Definition Cosmos_BlockHeight : IO Z :=
  head ← ask (Net (TmHeader chainID None)); mret (u64 head.1).

(** A failed transaction is not asked for again; otherwise up to twenty times. *)
Fixpoint Cosmos_WaitForTx (n : nat) (txHash : string) : IO unit :=
  r ← attempt (hash ← lift_result (hex_DecodeString txHash); ask (Net (TmTx chainID hash)));
  match r with
  | inr result =>
      if rt_Code result =? 0 then mret tt
      else throw (abciError (rt_Codespace result) (rt_Code result) (rt_Log result))
  | inl err =>
      match n with
      | S n' => Cosmos_WaitForTx n' txHash
      | O => throw err
      end
  end.

(** *** Order fills *)

(** [header.Get(...)[0]] panics when the node sent no block height header. *)
Definition blockTimeFromHeightHeader (header : list string) : IO Time :=
  match header with
  | [] => go_panic "index out of range [0] with length 0"
  | h :: _ =>
      match bigint_SetString h with
      | Some height =>
          if (- 2 ^ 63 <=? height) && (height <? 2 ^ 63) then
            resp ← wrap_err ("fetching block header at height " +:+ bigint_String height +:+ ": ")
              (ask (Net (TmHeader chainID (Some height))));
            mret resp.2
          else throw (ErrWrap "parsing block height: " (num_error "ParseInt" h "value out of range"))
      | None => throw (ErrWrap "parsing block height: " (num_error "ParseInt" h "invalid syntax"))
      end
  end.

Definition containsKV (ev : AbciEvent) (key value : string) : bool :=
  existsb (λ kv, (kv.1 =? key)%string && (kv.2 =? value)%string) (ev_Attributes ev).

(** The amount of the first transfer from the filler to the gateway. *)
Fixpoint parseAmountFromFillTx (events : list AbciEvent) (filler gateway : string) : result Z :=
  match events with
  | [] => Err (ErrNew ("could not find transfer event where recipient is " +:+ gateway +:+
                       " and sender is " +:+ filler))
  | ev :: rest =>
      if (ev_Type ev =? "transfer")%string && containsKV ev "recipient" gateway
           && containsKV ev "sender" filler then
        match list_find (λ kv, kv.1 = "amount") (ev_Attributes ev) with
        | None => Err (ErrNew "found event with correct recipient and sender but no amount transferred")
        | Some (_, (_, text)) =>
            result_map coin_Amount
              (result_wrap ("parsing amount string " +:+ text +:+ " to coin: ") (of_sum (parse_coin text)))
        end
      else parseAmountFromFillTx rest filler gateway
  end.

Definition order_fill_query (orderID : string) : WasmQuery :=
  inl ("{" +:+ dquote +:+ "order_fill" +:+ dquote +:+ ":{" +:+ dquote +:+ "order_id" +:+ dquote +:+
       ":" +:+ dquote +:+ orderID +:+ dquote +:+ "}}").

Definition dec_filler : Decoder string := λ j, fs ← dec_fields j; dec_field fs "filler" dec_string.

(** The data of a contract's answer; nil data does not parse. *)
Definition wasm_data {A} (d : Decoder A) (data : option (error + Json)) : result A :=
  match data with
  | None => Err (ErrNew "unexpected end of JSON input")
  | Some (inl err) => Err err
  | Some (inr j) => json_Unmarshal d j
  end.

(** [SmartContractState] with its response headers; a failed call may come with
    headers or without. *)
Definition smart_query (contract : string) (q : WasmQuery) :
    IO (list string * (error + option (error + Json))) :=
  a ← attempt (ask (Net (SmartContractState chainID contract q)));
  mret (match a with inl err => ([], inl err) | inr x => x end).

Definition fill_search (orderID : string) : string :=
  "wasm.action='order_filled' AND wasm.order_id='" +:+ orderID +:+ "'".

(** The second half of [QueryOrderFillEvent]: the transaction that filled the order. *)
Definition fill_transaction (header : list string) (gateway orderID filler : string) :
    IO (option OrderFillEvent * Time) :=
  '(total, txs) ← wrap_err ("searching for order fill tx for order " +:+ orderID +:+ " at gateway " +:+ gateway +:+ ": ")
    (ask (Net (TmTxSearch chainID (fill_search orderID))));
  if total =? 0 then throw (ErrSentinel (ErrOrderFillEventNotFound orderID))
  else if negb (total =? 1) then
    throw (ErrNew ("expected only 1 tx to be returned from search for order filled events with order id "
      +:+ orderID +:+ " at gateway " +:+ gateway +:+ ", but instead got " +:+ bigint_String total))
  else
    match txs with
    | [] => go_panic "index out of range [0] with length 0"
    | tx :: _ =>
        fillAmount ← wrap_err ("parsing fill amount from fill tx with hash " +:+ rt_Hash tx +:+ ": ")
          (lift_result (parseAmountFromFillTx (rt_Events tx) filler gateway));
        ts ← wrap_err "fetching time stamp from query header: " (blockTimeFromHeightHeader header);
        mret (Some (mkOrderFillEvent filler fillAmount (rt_Hash tx)), ts)
    end.

Definition Cosmos_QueryOrderFillEvent (gateway orderID : string) : IO (option OrderFillEvent * Time) :=
  '(header, resp) ← smart_query gateway (order_fill_query orderID);
  match resp with
  | inl err =>
      if strings_Contains (error_msg err) "not found" then
        ts ← wrap_err "fetching time stamp from query header: " (blockTimeFromHeightHeader header);
        mret (None, ts)
      else throw (ErrWrap ("querying for order fill of order " +:+ orderID +:+ " at gateway " +:+ gateway +:+ ": ") err)
  | inr data =>
      filler ← wrap_err "failed to unmarshal response: " (lift_result (wasm_data dec_filler data));
      fill_transaction header gateway orderID filler
  end.

(** *** Pages of fills *)

Definition fills_limit : nat := 100.

Definition fills_query (filler : string) (startAfter : option string) : WasmQuery :=
  inr (JObj [("order_fills_by_filler",
    JObj ([("filler", JStr filler)] ++
          (match startAfter with Some s => [("start_after", JStr s)] | None => [] end) ++
          [("limit", json_num (Z.of_nat fills_limit))]))]).

Definition dec_fill : Decoder Fill := λ j,
  fs ← dec_fields j;
  id ← dec_field fs "order_id" dec_string;
  domain ← dec_field fs "source_domain" (dec_uint 32);
  Some (mkFill id domain).

(** The pages, at most [fuel] of them; [None] when there would be more. *)
Fixpoint fills_pages (fuel : nat) (gateway filler : string) (startAfter : option string)
    (fills : list Fill) : IO (option (list Fill)) :=
  match fuel with
  | O => mret None
  | S f =>
      '(_, answer) ← smart_query gateway (fills_query filler startAfter);
      data ← wrap_err "failed to query smart contract state: " (lift_sum answer);
      page ← wrap_err "failed to unmarshal response: " (lift_result (wasm_data (dec_list dec_fill) data));
      if (length page <? fills_limit)%nat then mret (Some (fills ++ page))
      else fills_pages f gateway filler (fill_OrderID <$> last page) (fills ++ page)
  end.

Definition Cosmos_OrderFillsByFiller (fuel : nat) (gateway filler : string) : IO (option (list Fill)) :=
  fills_pages fuel gateway filler None [].

(** *** The operations a Cosmos chain does not have *)

Definition Cosmos_IsSettlementComplete (gateway orderID : string) : IO bool :=
  throw (ErrNew "settlement complete event is not supported on Noble").
Definition Cosmos_OrderExists (gateway orderID : string) (blockNumber : option Z) : IO (bool * option Z) :=
  throw (ErrNew "not implemented").
Definition Cosmos_IsOrderRefunded (gateway orderID : string) : IO (bool * string) :=
  throw (ErrNew "not implemented").
Definition Cosmos_OrderStatus (gateway orderID : string) : IO Z := throw (ErrNew "not implemented").
End cosmos_bridge.

(** ** Submission *)

(** A transaction the node accepted into its mempool. *)
Definition accepts (ev : event) : nat :=
  match projT1 ev as r return error + response r → nat with
  | Net r => match r as r return error + net_response r → nat with
             | BroadcastTxSync _ _ => λ a,
                 match a with inr res => if rb_Code res =? 0 then 1%nat else 0%nat | inl _ => 0%nat end
             | _ => λ _, 0%nat
             end
  | _ => λ _, 0%nat
  end (projT2 ev).

(** The number of transactions accepted between two worlds. *)
Definition accepted {E} (n : nat) (w w' : World E) : Prop :=
  ∃ new, w_trace w' = w_trace w ++ new ∧ sum_list_with accepts new = n.

Section submission.
Context `{KeyLib} {E : Type} `{Env E}.
Implicit Types w : World E.
Context (reader : configReader) (lookupEnv : string → option string) (c : CosmosBridgeClient).
Context (gas_price_dec : bigfloat → error + Z).

Lemma accepted_refl w : accepted 0 w w.
Proof. exists []. by rewrite app_nil_r. Qed.

Lemma accepted_trans n1 n2 w1 w2 w3 :
  accepted n1 w1 w2 → accepted n2 w2 w3 → accepted (n1 + n2) w1 w3.
Proof.
  intros (l1&Ht1&<-) (l2&Ht2&<-). exists (l1 ++ l2).
  rewrite Ht2, Ht1, app_assoc. split; [done|]. apply sum_list_with_app.
Qed.

Lemma accepted_none w w' : emits_ev unbroadcast w w' → accepted 0 w w'.
Proof.
  intros (new&Ht&Hnew). exists new. split; [done|]. clear Ht.
  induction Hnew as [|[r a] new Hev Hnew IH]; [done|]. cbn. rewrite IH.
  destruct r; try done. destruct r; try done. by destruct a.
Qed.

(** Connecting accepts nothing. *)
Lemma accepts_connects l :
  Forall (λ ev : event, connects (projT1 ev)) l → sum_list_with accepts l = 0%nat.
Proof.
  induction 1 as [|[r a] l [url [?|?]] Hl IH]; [done|..]; simpl in *; subst; exact IH.
Qed.

(** Exactly one transaction was accepted: [tx], signed, under [hash]. *)
Definition put_on_chain (hash : string) (tx : CosmosTxBody) w w' : Prop :=
  accepted 1 w w' ∧ ∃ account bytes res,
    asked w w' (existT (Net (CosmosSign (cb_chainID c) tx account)) (inr bytes)) ∧
    asked w w' (existT (Net (BroadcastTxSync (cb_chainID c) bytes)) (inr res)) ∧
    rb_Code res = 0 ∧ hash = strings_ToUpper (hex_EncodeToString (rb_Hash res)).

Lemma put_on_chain_within hash tx w w1 w2 w' :
  accepted 0 w w1 → accepted 0 w2 w' → put_on_chain hash tx w1 w2 → put_on_chain hash tx w w'.
Proof.
  intros Hw1 Hw2 (Hacc&account&bytes&res&Hs&Hb&Hc).
  assert (∀ w w', accepted 0 w w' → emits (λ _, True) w w') as Hem.
  { intros ?? (new&Ht&_). exists new. split; [done|]. by apply Forall_true. }
  split; [apply (accepted_trans 0 1 w w1 w'), (accepted_trans 1 0 w1 w2 w'); done|].
  exists account, bytes, res. split_and!; [..|apply Hc|apply Hc];
    (eapply asked_later; [eapply asked_earlier; [by apply Hem|done]|by apply Hem]).
Qed.

Definition submit_post (msgs : list MsgExecuteContract) (r : result (string * CosmosTxBody)) w w' : Prop :=
  match r with
  | Ok (hash, tx) => put_on_chain hash tx w w' ∧ ctb_Msgs tx = msgs
  | _ => accepted 0 w w'
  end.

Lemma submit_once_accepts from msgs w :
  wp (submit_once reader lookupEnv c gas_price_dec from msgs) (λ r w',
    match r with
    | Ok (Some (hash, tx)) => put_on_chain hash tx w w' ∧ ctb_Msgs tx = msgs
    | _ => accepted 0 w w'
    end) w.
Proof.
  unfold submit_once. apply wp_bind, wp_intro. intros r1 w1 Hrun.
  apply Cosmos_ExecuteTx_run in Hrun.
  destruct r1 as [[res tx]|e|p]; [|by apply accepted_none..].
  destruct Hrun as (resp&account&simBytes&gasUsed&bytes&c1&c2&price&pre&mid&_&_&Ht&Hcon&_&Hm&_).
  assert (accepted (if rb_Code res =? 0 then 1 else 0) w w1) as Hacc.
  { eexists. split; [exact Ht|]. apply Forall_app in Hcon as [Hpre Hmid].
    rewrite !sum_list_with_app, (accepts_connects pre), (accepts_connects mid) by done. cbn. lia. }
  destruct (rb_Code res =? 0) eqn:Hcode; cbn [negb].
  - apply wp_ret. split; [|done]. split; [done|]. apply Z.eqb_eq in Hcode.
    exists account, bytes, res. split_and!; [..|done|done];
      (eexists; split; [exact Ht|]); unfold broadcasts; set_solver.
  - assert (∀ w2, emits_ev unbroadcast w1 w2 → accepted 0 w w2) as Hlater.
    { intros w2 Hw2. apply (accepted_trans 0 0 w w1 w2); [done|by apply accepted_none]. }
    wp_steps; apply Hlater; by solve_emits_ev.
Qed.

Lemma submit_retrying_accepts n from msgs w :
  wp (submit_retrying reader lookupEnv c gas_price_dec n from msgs)
    (λ r w', submit_post msgs r w w') w.
Proof.
  revert w. induction n as [|n IH]; intros w; simpl; [apply accepted_refl|].
  apply wp_bind. eapply wp_mono; [|apply submit_once_accepts].
  intros [[[hash tx]|]|e|p] w1 Hw1; [by apply wp_ret| |done..].
  eapply wp_mono; [|apply IH]. intros [[hash tx]|e|p] w2 Hw2.
  - destruct Hw2 as [Hw2 Hm]. split; [|done].
    eapply put_on_chain_within; [done|apply accepted_refl|done].
  - by apply (accepted_trans 0 0 w w1 w2).
  - by apply (accepted_trans 0 0 w w1 w2).
Qed.

Lemma submitTx_accepts msgs w :
  wp (submitTx reader lookupEnv c gas_price_dec msgs) (λ r w', submit_post msgs r w w') w.
Proof.
  unfold submitTx. apply wp_bind. wp_step.
  destruct (from_address c) as [from|e|p]; [|apply accepted_refl..].
  apply submit_retrying_accepts.
Qed.
End submission.

(** ** Filling *)

Section filling.
Context `{KeyLib} {E : Type} `{Env E}.
Implicit Types w : World E.
Context (reader : configReader) (lookupEnv : string → option string) (c : CosmosBridgeClient).
Context (gas_price_dec : bigfloat → error + Z) (tx_json : CosmosTxBody → error + string).

(** What a fill asks the contract for: the order with the domains of its chains, and
    its output amount in the fill denom. *)
Definition fill_message (order : Order) (gateway from : string) (srcDomain dstDomain amount : Z) :
    MsgExecuteContract :=
  mkMsgExecuteContract from gateway (FillOrderEnvelope from (wasm_order order srcDomain dstDomain))
    [mkCoin fill_denom amount].

Definition domain_of (id : string) (d : Z) : Prop :=
  ∃ cfg n, GetChainConfig reader id = Ok cfg ∧ strconv_ParseUint (HyperlaneDomain cfg) = Ok n ∧ d = u32 n.

Lemma hyperlane_domain_quiet which id w :
  wp (hyperlane_domain reader which id) (λ r w', w' = w ∧ ∀ d, r = Ok d → domain_of id d) w.
Proof.
  unfold hyperlane_domain. wp_steps; (split; [done|]); intros d [= <-]. by do 2 eexists.
Qed.

(** At most one transaction accepted, and on success the one returned, with [msgs]. *)
Definition sent_once (msgs : list MsgExecuteContract) (r : result (string * string)) (w w' : World E) : Prop :=
  (accepted 0 w w' ∨ accepted 1 w w') ∧
  ∀ hash raw, r = Ok (hash, raw) →
    ∃ tx text, put_on_chain c hash tx w w' ∧ ctb_Msgs tx = msgs ∧ tx_json tx = inr text ∧
      raw = base64_EncodeToString text.

Lemma submitTx_sent_once msgs w :
  wp (r ← submitTx reader lookupEnv c gas_price_dec msgs; submitted tx_json r) (λ r w', sent_once msgs r w w') w.
Proof.
  apply wp_bind. eapply wp_mono; [|apply submitTx_accepts].
  intros [[hash tx]|e|p] w1; [|intros Hw1; split; [by left|done]..].
  intros [Hw1 Hm]. unfold submitted, lift_sum. cbn [fst snd].
  wp_steps; (split; [right; apply Hw1|]); [done|]. intros ?? [= <- <-]. by do 2 eexists.
Qed.

Lemma Cosmos_FillOrder_run order gateway w r w' :
  Cosmos_FillOrder reader lookupEnv c gas_price_dec tx_json order gateway w = (r, w') →
  (accepted 0 w w' ∨ accepted 1 w w') ∧
  ∀ hash raw, r = Ok (hash, raw) →
    ∃ from src dst amount,
      from_address c = Ok from ∧ domain_of (o_SourceChainID order) src ∧
      domain_of (o_DestinationChainID order) dst ∧ NewIntFromString (o_AmountOut order) = Some amount ∧
      sent_once [fill_message order gateway from src dst amount] r w w'.
Proof.
  intros Hrun. run_wp Hrun. unfold Cosmos_FillOrder. apply wp_bind. wp_step.
  assert (accepted 0 w w) as Hw by apply accepted_refl.
  destruct (from_address c) as [from|e|p] eqn:Hfrom; [|by intros <-; split; [left|]..].
  apply wp_bind. eapply wp_mono; [|apply hyperlane_domain_quiet].
  intros [src|e|p] w1 [-> Hsrc]; [|by intros <-; split; [left|]..].
  apply wp_bind. eapply wp_mono; [|apply hyperlane_domain_quiet].
  intros [dst|e|p] w1 [-> Hdst]; [|by intros <-; split; [left|]..].
  apply wp_bind. destruct (NewIntFromString (o_AmountOut order)) as [amount|] eqn:Ha; simpl or_throw.
  2: { apply wp_throw. intros <-. by split; [left|]. }
  apply wp_ret. eapply wp_mono; [|apply submitTx_sent_once].
  intros r1 w1 Hs <-. split; [apply Hs|]. intros hash raw ->. exists from, src, dst, amount.
  split_and!; auto.
Qed.

(** A fill sends at most one accepted transaction, retries included, and succeeds
    only with one: it asks the gateway to fill exactly this order, from the domains
    its chains are configured with, and pays exactly the order's output amount. *)
Theorem Cosmos_FillOrder_sends_once order gateway w r w' :
  Cosmos_FillOrder reader lookupEnv c gas_price_dec tx_json order gateway w = (r, w') →
  (accepted 0 w w' ∨ accepted 1 w w') ∧
  ∀ hash raw, r = Ok (hash, raw) →
    ∃ from src dst amount,
      from_address c = Ok from ∧ domain_of (o_SourceChainID order) src ∧
      domain_of (o_DestinationChainID order) dst ∧ NewIntFromString (o_AmountOut order) = Some amount ∧
      sent_once [fill_message order gateway from src dst amount] r w w'.
Proof. apply Cosmos_FillOrder_run. Qed.

(** A batch settlement names every order of the batch once, in order, and repays to
    the solver's address on the source chain. *)
Theorem Cosmos_InitiateBatchSettlement_sends_once HexToAddress BytesToHash batch w r w' :
  Cosmos_InitiateBatchSettlement reader lookupEnv c gas_price_dec HexToAddress BytesToHash tx_json batch w = (r, w') →
  (accepted 0 w w' ∨ accepted 1 w w') ∧
  ∀ hash raw, r = Ok (hash, raw) → batch ≠ [] →
    ∃ from gateway repayment,
      from_address c = Ok from ∧ DestinationGatewayContractAddress reader batch = Ok gateway ∧
      RepaymentAddress HexToAddress BytesToHash reader batch = Ok repayment ∧
      sent_once [mkMsgExecuteContract from gateway
        (InitiateSettlementEnvelope (OrderIDs batch) (hex_EncodeToString repayment)) []] r w w'.
Proof.
  assert (accepted 0 w w) as Hw by apply accepted_refl.
  intros Hrun. run_wp Hrun. unfold Cosmos_InitiateBatchSettlement.
  destruct batch as [|s batch]; [apply wp_ret; intros <-; by split; [left|]|].
  set (b := s :: batch). clearbody b.
  apply wp_bind, wp_wrap_err. wp_step.
  destruct (RepaymentAddress _ _ reader b) as [rep|e|p]; [|by intros <-; split; [left|]..].
  apply wp_bind. wp_step.
  destruct (from_address c) as [from|e|p]; [|by intros <-; split; [left|]..].
  apply wp_bind, wp_wrap_err. wp_step.
  destruct (DestinationGatewayContractAddress reader b) as [gw|e|p]; [|by intros <-; split; [left|]..].
  apply wp_bind, wp_wrap_err.
  eapply wp_mono; [|apply submitTx_accepts].
  intros [[hash tx]|e|p] w1; [|intros Hw1 <-; split; [by left|done]..].
  intros [Hw1 Hm]. unfold submitted, lift_sum. apply wp_wrap_err. cbn [fst snd]. wp_steps; intros <-;
    (split; [right; apply Hw1|]); [done|].
  intros ?? [= <- <-] _. exists from, gw, rep. split_and!; try done.
  split; [right; apply Hw1|]. intros ?? [= <- <-]. by do 2 eexists.
Qed.
End filling.

(** ** The order on the wire *)

(** The contract's view of the order: the fields under their tags. *)
Definition dec_wasm_order : Decoder WasmOrder := λ j,
  fs ← dec_fields j;
  sender ← dec_field fs "sender" dec_string;
  recipient ← dec_field fs "recipient" dec_string;
  amountIn ← dec_field fs "amount_in" dec_string;
  amountOut ← dec_field fs "amount_out" dec_string;
  nonce ← dec_field fs "nonce" (dec_uint 32);
  src ← dec_field fs "source_domain" (dec_uint 32);
  dst ← dec_field fs "destination_domain" (dec_uint 32);
  timeout ← dec_field fs "timeout_timestamp" (dec_uint 64);
  data ← dec_field fs "data" dec_string;
  Some (mkWasmOrder sender recipient amountIn amountOut nonce src dst timeout data).

Definition wasm_order_wf (o : WasmOrder) : Prop :=
  0 ≤ wo_Nonce o < 2 ^ 32 ∧ 0 ≤ wo_SourceDomain o < 2 ^ 32 ∧
  0 ≤ wo_DestinationDomain o < 2 ^ 32 ∧ 0 ≤ wo_TimeoutTimestamp o < 2 ^ 64.

Lemma dec_field_num fs name w z :
  foldl (λ acc kv, if strings_EqualFold kv.1 name then kv.2 else acc) JNull fs = json_num z →
  0 ≤ z < 2 ^ w → dec_field fs name (dec_uint w) = Some z.
Proof. unfold dec_field. intros ->. apply dec_uint_print. Qed.

(** Whatever row is filled or timed out, its message is well formed and reads back as
    the same order: sender and recipient in hex, amounts as recorded, nonce and
    domains in 32 bits, the timeout in seconds. *)
Theorem wasm_order_roundtrip (order : Order) (src dst : Z) :
  let o := wasm_order order (u32 src) (u32 dst) in
  wasm_order_wf o ∧ dec_wasm_order (WasmOrder_json o) = Some o.
Proof.
  intros o. assert (wasm_order_wf o) as Hwf.
  { unfold wasm_order_wf, o, wasm_order. cbn.
    pose proof (u32_bounds (o_Nonce order)). pose proof (u32_bounds src). pose proof (u32_bounds dst).
    pose proof (u64_bounds (unix (o_TimeoutTimestamp order))). lia. }
  split; [done|]. clearbody o. destruct Hwf as (?&?&?&?).
  unfold dec_wasm_order, WasmOrder_json. cbn [dec_fields mbind option_bind].
  destruct (String.eqb_spec (wo_Data o) "") as [Hd|Hd]; cbn [app];
  rewrite (dec_field_num _ "nonce" 32 (wo_Nonce o)), (dec_field_num _ "source_domain" 32 (wo_SourceDomain o)),
    (dec_field_num _ "destination_domain" 32 (wo_DestinationDomain o)),
    (dec_field_num _ "timeout_timestamp" 64 (wo_TimeoutTimestamp o)) by done;
  destruct o; cbn in *; by rewrite ?Hd.
Qed.

(** ** Reading all pages *)

(** How the gateway contract prints a fill. *)
Definition fill_json (f : Fill) : Json :=
  JObj [("order_id", JStr (fill_OrderID f)); ("source_domain", json_num (fill_SourceDomain f))].

(** The fills after the one named, all of them for [None]. *)
Definition fills_after (all : list Fill) (startAfter : option string) : list Fill :=
  match startAfter with
  | None => all
  | Some id => match list_find (λ f, fill_OrderID f = id) all with
               | Some (i, _) => drop (S i) all
               | None => []
               end
  end.

Definition fills_wf (all : list Fill) : Prop :=
  NoDup (fill_OrderID <$> all) ∧ Forall (λ f, 0 ≤ fill_SourceDomain f < 2 ^ 32) all.

(** A contract that holds the fills [all] and pages through them as its interface
    says: at most a hundred, in order, after the one named. *)
Definition serves_fills {E} `{Env E} (chainID gateway filler : string) (all : list Fill) : Prop :=
  ∀ startAfter e,
    (env_answer (Net (SmartContractState chainID gateway (fills_query filler startAfter))) e).1 =
    inr ([], inr (Some (inr (JArr (fill_json <$> take fills_limit (fills_after all startAfter)))))).

Section pages.
Context {E : Type} `{Env E}.
Implicit Types w : World E.
Context (c : CosmosBridgeClient) (gateway filler : string) (all : list Fill).

Lemma dec_fill_json f : 0 ≤ fill_SourceDomain f < 2 ^ 32 → dec_fill (fill_json f) = Some f.
Proof.
  intros Hf. unfold dec_fill, fill_json. cbn [dec_fields mbind option_bind].
  rewrite (dec_field_num _ "source_domain" 32 (fill_SourceDomain f)) by done. by destruct f.
Qed.

Lemma dec_page l : Forall (λ f, 0 ≤ fill_SourceDomain f < 2 ^ 32) l →
  wasm_data (dec_list dec_fill) (Some (inr (JArr (fill_json <$> l)))) = Ok l.
Proof.
  intros Hl. unfold wasm_data, json_Unmarshal, dec_list. rewrite mapM_fmap_Forall_Some; [done|].
  eapply Forall_impl; [exact Hl|]. apply dec_fill_json.
Qed.

(** After the fill at position [i] come those from [i + 1] on. *)
Lemma fills_after_lookup i f :
  NoDup (fill_OrderID <$> all) → all !! i = Some f →
  fills_after all (Some (fill_OrderID f)) = drop (S i) all.
Proof.
  intros Hnd Hi. simpl. rewrite (proj2 (list_find_Some _ _ i f)); [done|].
  split_and!; [done|done|]. intros j g Hj Hlt Heq.
  assert (i = j); [|lia]. eapply NoDup_lookup; [exact Hnd|..]; rewrite list_lookup_fmap.
  - by rewrite Hi.
  - rewrite Hj. simpl. by rewrite Heq.
Qed.

(** One page. *)
Lemma fills_pages_step fuel start fills w :
  fills_wf all → serves_fills (cb_chainID c) gateway filler all →
  let page := take fills_limit (fills_after all start) in
  ∃ w1, fills_pages c (S fuel) gateway filler start fills w =
    if (length page <? fills_limit)%nat then (Ok (Some (fills ++ page)), w1)
    else fills_pages c fuel gateway filler (fill_OrderID <$> last page) (fills ++ page) w1.
Proof.
  intros [_ Hdom] Hserves page. cbn [fills_pages].
  assert (Forall (λ f, 0 ≤ fill_SourceDomain f < 2 ^ 32) page) as Hpage.
  { apply Forall_take. unfold fills_after. repeat case_match; try done. by apply Forall_drop. }
  unfold smart_query, mbind, M_bind, attempt, ask.
  specialize (Hserves start (w_env w)).
  destruct (env_answer _ (w_env w)) as [a e]. simpl in Hserves. subst a. fold page. cbn -[fills_limit wasm_data Nat.ltb].
  unfold wrap_err, lift_result. rewrite dec_page by done.
  eexists. by destruct (length page <? fills_limit)%nat.
Qed.

(** C27. Reading the fills terminates and misses none: with one page more than the number
    of full pages the loop returns every fill of the contract, in order. *)
Theorem OrderFillsByFiller_complete fuel w :
  fills_wf all → serves_fills (cb_chainID c) gateway filler all →
  (length all / fills_limit < fuel)%nat →
  (Cosmos_OrderFillsByFiller c fuel gateway filler w).1 = Ok (Some all).
Proof.
  intros Hwf Hserves. unfold Cosmos_OrderFillsByFiller.
  enough (∀ k w start, (k ≤ length all)%nat → fills_after all start = drop k all →
    (length (drop k all) / fills_limit < fuel)%nat →
    (fills_pages c fuel gateway filler start (take k all) w).1 = Ok (Some all)) as Hgo.
  { intros Hfuel. apply (Hgo 0%nat w None); [lia|done|done]. }
  clear w. induction fuel as [|fuel IH]; intros k w start Hk Hstart Hfuel; [lia|].
  destruct (fills_pages_step fuel start (take k all) w Hwf Hserves) as [w1 ->].
  rewrite Hstart. destruct (Nat.ltb_spec (length (take fills_limit (drop k all))) fills_limit) as [Hlt|Hge].
  - rewrite length_take in Hlt. rewrite (take_ge (drop k all)) by lia. simpl. by rewrite take_drop.
  - rewrite length_take, length_drop in Hge.
    assert (k + fills_limit ≤ length all)%nat as Hle by (unfold fills_limit in *; lia).
    rewrite take_take_drop.
    destruct (lookup_lt_is_Some_2 all (k + fills_limit - 1)) as [f Hf]; [unfold fills_limit in *; lia|].
    assert (last (take fills_limit (drop k all)) = Some f) as ->.
    { rewrite last_lookup, length_take, length_drop, Nat.min_l by lia.
      rewrite lookup_take_lt, lookup_drop by (unfold fills_limit; lia).
      rewrite <-Hf. f_equal. unfold fills_limit. lia. }
    apply IH; [lia|..].
    + change (fill_OrderID <$> Some f) with (Some (fill_OrderID f)).
      rewrite (fills_after_lookup (k + fills_limit - 1)) by (by try apply Hwf).
      f_equal. unfold fills_limit. lia.
    + rewrite length_drop in *. unfold fills_limit in *.
      replace (length all - k)%nat with (length all - (k + 100) + 1 * 100)%nat in Hfuel by lia.
      rewrite Nat.div_add in Hfuel by lia. lia.
Qed.
End pages.

(** ** What a fill query answers *)

Section fill_event.
Context {E : Type} `{Env E}.
Implicit Types w : World E.
Context (c : CosmosBridgeClient) (parse_coin : string → error + Coin).

(** The time of the block at the height the node answered at. *)
Definition answered_at (w w' : World E) (header : list string) (ts : Time) : Prop :=
  ∃ h rest height n, header = h :: rest ∧ bigint_SetString h = Some height ∧
    asked w w' (existT (Net (TmHeader (cb_chainID c) (Some height))) (inr (n, ts))).

Lemma blockTimeFromHeightHeader_spec header w0 w :
  emits (λ _, True) w0 w →
  wp (blockTimeFromHeightHeader c header) (λ r w',
    (∀ ts, r = Ok ts → answered_at w0 w' header ts) ∧
    (∀ p, r = Panic p → header = []) ∧ emits (λ _, True) w w') w.
Proof.
  intros Hw0. unfold blockTimeFromHeightHeader. wp_steps; (split_and!; [intros ts [= <-]|done|by solve_emits]).
  destruct r as [n ts]. do 4 eexists. split_and!; [done|done|solve_asked].
Qed.

(** A transfer of [amount] from the filler to the gateway, the first such event. *)
Definition transfers_amount (events : list AbciEvent) (filler gateway : string) (amount : Z) : Prop :=
  ∃ ev k text coin, ev ∈ events ∧ ev_Type ev = "transfer" ∧
    ("recipient", gateway) ∈ ev_Attributes ev ∧ ("sender", filler) ∈ ev_Attributes ev ∧
    ev_Attributes ev !! k = Some ("amount", text) ∧ parse_coin text = inr coin ∧ coin_Amount coin = amount.

Lemma containsKV_elem ev k v : containsKV ev k v = true → (k, v) ∈ ev_Attributes ev.
Proof.
  unfold containsKV. rewrite existsb_exists. intros ([k' v']&Hin&Heq). simpl in Heq.
  apply andb_true_iff in Heq as [->%String.eqb_eq ->%String.eqb_eq]. by apply list_elem_of_In.
Qed.

Lemma parseAmountFromFillTx_spec events filler gateway amount :
  parseAmountFromFillTx parse_coin events filler gateway = Ok amount →
  transfers_amount events filler gateway amount.
Proof.
  induction events as [|ev events IH]; simpl; [done|].
  destruct ((ev_Type ev =? "transfer")%string && containsKV ev "recipient" gateway
    && containsKV ev "sender" filler) eqn:Hev.
  - apply andb_true_iff in Hev as [[Ht%String.eqb_eq Hr%containsKV_elem]%andb_true_iff Hs%containsKV_elem].
    destruct (list_find _ (ev_Attributes ev)) as [[k [key text]]|] eqn:Hf; [|done].
    apply list_find_Some in Hf as (Hk&Hkey&_). simpl in Hkey. subst key.
    destruct (parse_coin text) as [e|coin] eqn:Hc; simpl; [done|]. intros [= <-].
    exists ev, k, text, coin. split_and!; try done. by left.
  - intros (ev'&k&text&coin&Hin&Hrest)%IH. exists ev', k, text, coin. split; [by right|done].
Qed.

Lemma parseAmountFromFillTx_no_panic events filler gateway p :
  parseAmountFromFillTx parse_coin events filler gateway ≠ Panic p.
Proof.
  induction events as [|ev events IH]; simpl; [done|]. case_match; [|done].
  destruct (list_find _ (ev_Attributes ev)) as [[k [key text]]|]; [|done].
  by destruct (parse_coin text).
Qed.

(** What the second half says of the fill. *)
Definition fill_evidence (w w' : World E) gateway orderID filler header
    (r : result (option OrderFillEvent * Time)) : Prop :=
  match r with
  | Ok (None, _) => False
  | Ok (Some ev, ts) => ∃ tx rest,
      asked w w' (existT (Net (TmTxSearch (cb_chainID c) (fill_search orderID))) (inr (1, tx :: rest))) ∧
      ofe_Filler ev = filler ∧ ofe_TxHash ev = rt_Hash tx ∧
      transfers_amount (rt_Events tx) filler gateway (ofe_FillAmount ev) ∧
      answered_at w w' header ts
  | Err _ => True
  | Panic _ => header = [] ∨
      asked w w' (existT (Net (TmTxSearch (cb_chainID c) (fill_search orderID))) (inr (1, [])))
  end.

Lemma fill_transaction_spec header gateway orderID filler w0 w :
  emits (λ _, True) w0 w →
  wp (fill_transaction c parse_coin header gateway orderID filler) (λ r w',
    fill_evidence w0 w' gateway orderID filler header r ∧ emits (λ _, True) w w') w.
Proof.
  intros Hw0. apply wp_bind, wp_wrap_err.
  refine (wp_ask (Net (TmTxSearch (cb_chainID c) (fill_search orderID))) _ w _).
  intros [err|[total txs]] e _; cbn beta iota; [split; [done|by solve_emits]|].
  set (w2 := after _ _ e w). assert (emits (λ _, True) w w2) as Hw2 by (by unfold w2; solve_emits).
  assert (emits (λ _, True) w0 w2) as Hw02 by (by etransitivity).
  assert (asked w0 w2 (existT (Net (TmTxSearch (cb_chainID c) (fill_search orderID))) (inr (total, txs)))) as Hs
    by (unfold w2; solve_asked).
  clearbody w2. destruct (Z.eqb_spec total 0); [by split|].
  destruct (Z.eqb_spec total 1) as [->|]; cbn [negb]; [|by split].
  destruct txs as [|tx rest]; [split; [by right|done]|].
  apply wp_bind, wp_wrap_err. wp_step.
  destruct (parseAmountFromFillTx parse_coin (rt_Events tx) filler gateway) as [amount|e1|p] eqn:Hp;
    [|by split|by exfalso; apply parseAmountFromFillTx_no_panic in Hp].
  apply parseAmountFromFillTx_spec in Hp.
  apply wp_bind, wp_wrap_err. eapply wp_mono; [|by apply (blockTimeFromHeightHeader_spec header w0)].
  intros [ts|e1|p] w3 (Hts&Hpan&Hw3).
  - apply wp_ret. split; [|by etransitivity]. exists tx, rest. split_and!; auto.
    by eapply asked_later.
  - split; [done|by etransitivity].
  - split; [left; by eapply Hpan|by etransitivity].
Qed.

(** The evidence behind the answer about an order's fill.  "Not filled" means that the
    contract answered "not found" and comes with the time of the block it answered at;
    a fill names the filler the contract recorded, the only transaction that emitted
    the fill event, and the amount that transaction moved from the filler to the
    gateway.  It panics only when the node sends no block height, or counts a
    transaction it does not list. *)
Theorem QueryOrderFillEvent_evidence gateway orderID w r w' :
  Cosmos_QueryOrderFillEvent c parse_coin gateway orderID w = (r, w') →
  ∃ a, asked w w' (existT (Net (SmartContractState (cb_chainID c) gateway (order_fill_query orderID))) a) ∧
  match a with
  | inl err | inr ([], inl err) => ∀ ev ts, r ≠ Ok (ev, ts)
  | inr (header, inl err) => ∀ ev ts, r = Ok (ev, ts) →
      ev = None ∧ strings_Contains (error_msg err) "not found" = true ∧ answered_at w w' header ts
  | inr (header, inr data) =>
      match wasm_data dec_filler data with
      | Ok filler => fill_evidence w w' gateway orderID filler header r
      | _ => ∀ ev ts, r ≠ Ok (ev, ts)
      end
  end.
Proof.
  intros Hrun. run_wp Hrun. unfold Cosmos_QueryOrderFillEvent, smart_query.
  apply wp_bind, wp_bind, wp_attempt.
  refine (wp_ask (Net (SmartContractState (cb_chainID c) gateway (order_fill_query orderID))) _ w _).
  intros a e _. set (w1 := after _ a e w).
  assert (emits (λ _, True) w w1) as Hw1 by (by unfold w1; solve_emits).
  assert (asked w w1 (existT (Net (SmartContractState (cb_chainID c) gateway
    (order_fill_query orderID))) a)) as Ha by (unfold w1; solve_asked).
  clearbody w1. destruct a as [err|[header [err|data]]]; cbn beta iota; apply wp_ret; cbn beta iota.
  - destruct (strings_Contains (error_msg err) "not found");
      unfold blockTimeFromHeightHeader; wp_steps; intros <-; eexists; (split; [done|]); by intros ?? [=].
  - destruct (strings_Contains (error_msg err) "not found") eqn:Hnf.
    2: { apply wp_throw. intros <-. eexists. split; [done|]. by destruct header. }
    apply wp_bind, wp_wrap_err. eapply wp_mono; [|by apply (blockTimeFromHeightHeader_spec header w)].
    intros [ts|e1|p] w2 (Hts&Hp&Hw2); try apply wp_ret; intros <-;
      (eexists; split; [by eapply asked_later|]); destruct header as [|h header];
      try (by intros ?? [=]).
    + specialize (Hts ts eq_refl). by destruct Hts as (?&?&?&?&?&_).
    + intros ev ts' [= <- <-]. auto.
  - apply wp_bind, wp_wrap_err. wp_step.
    destruct (wasm_data dec_filler data) as [filler|e1|p] eqn:Hd;
      [|intros <-; eexists; (split; [done|]); cbn beta iota; rewrite Hd; by destruct header..].
    eapply wp_mono; [|by apply (fill_transaction_spec header gateway orderID filler w)].
    intros r1 w2 [Hev Hw2] <-. eexists. split; [by eapply asked_later|].
    cbn beta iota. rewrite Hd. by destruct header.
Qed.
End fill_event.

(** ** Results of transactions *)

Section tx_result.
Context {E : Type} `{Env E}.
Implicit Types w : World E.
Context (c : CosmosBridgeClient).

(** The cost is the fee in the gas denom, zero when the transaction paid none in it; a
    failure is a code other than zero; an error that ends in "not found" is the
    sentinel the verifier waits on. *)
Theorem Cosmos_GetTxResult_spec txHash w r w' :
  Cosmos_GetTxResult c txHash w = (r, w') →
  match r with
  | Ok (cost, failure) => ∃ hash result coins,
      hex_DecodeString txHash = Ok hash ∧
      asked w w' (existT (Net (TmTx (cb_chainID c) hash)) (inr result)) ∧
      rt_Fee result = inr (Some coins) ∧ cost = Some (AmountOf coins (cb_gasDenom c)) ∧
      (is_Some failure ↔ rt_Code result ≠ 0)
  | Err err =>
      hex_DecodeString txHash = Err err ∨
      ∃ hash a, hex_DecodeString txHash = Ok hash ∧
        asked w w' (existT (Net (TmTx (cb_chainID c) hash)) a) ∧
        match a with
        | inl e => err = if strings_HasSuffix (error_msg e) "not found"
                         then ErrSentinel (ErrTxResultNotFound txHash) else e
        | inr result => ∀ coins, rt_Fee result ≠ inr (Some coins)
        end
  | Panic _ => False
  end.
Proof.
  intros Hrun. run_wp Hrun. unfold Cosmos_GetTxResult, lift_sum.
  wp_steps; intros <-; try (by exfalso; eapply hex_DecodeString_no_panic);
    try (right; do 2 eexists; (split; [done|]); (split; [solve_asked|]); cbn beta iota;
         try match goal with Hs : strings_HasSuffix _ _ = _ |- _ => by rewrite Hs end; congruence).
  - do 3 eexists. split_and!; [done|solve_asked|done|done|].
    apply negb_true_iff, Z.eqb_neq in Heqb. split; [done|by eauto].
  - do 3 eexists. split_and!; [done|solve_asked|done|done|].
    apply negb_false_iff, Z.eqb_eq in Heqb. split; [by intros []|done].
  - by left.
Qed.
End tx_result.

(** ** Examples *)

#[local] Instance toy_bech32 : KeyLib := {|
  json_tree := λ _, inl (ErrNew "no text");
  cosmos_key := λ bs, inr bs;
  evm_key := λ _, inr [];
  bech32_encode := λ p _, inr (p +:+ "1solver");
  gcm_check := λ _, None;
  gcm_open := λ _ _ _, inl (ErrNew "no text") |}.

Definition sample_cosmos : CosmosBridgeClient :=
  NewCosmosBridgeClient "osmosis-1" "osmo" None (BF 1 0) "uosmo".

Definition sample_fill_order : Order :=
  mkOrder 1 0 0 "42161" "osmosis-1" "0xgateway" [x01] [x02] "1000000" "998000" 3 "aa" (7200 * Second)
    "0xtx" 10 None None None None "PENDING" None.

Definition sample_fill :=
  Cosmos_FillOrder (H0 := node (inr 0)) sample_reader (λ _, None) sample_cosmos (λ _, inr (10 ^ 17)) (λ _, inr "{}")
    sample_fill_order "osmo1gateway" (sim_world empty_db).

Lemma Cosmos_FillOrder_sends_once_witness :
  sample_fill.1 = Ok ("AB", "e30=") ∧ ∃ n, accepted n (sim_world empty_db) sample_fill.2 ∧ (n ≤ 1)%nat.
Proof.
  split; [vm_compute; reflexivity|].
  pose proof (Cosmos_FillOrder_sends_once (H0 := node (inr 0)) sample_reader (λ _, None) sample_cosmos
    (λ _, inr (10 ^ 17)) (λ _, inr "{}") sample_fill_order "osmo1gateway" (sim_world empty_db)
    sample_fill.1 sample_fill.2 (surjective_pairing _)) as [[H|H] _]; eauto.
Defined.

(** A contract that holds [all], whatever the gateway. *)
Definition fills_contract (all : list Fill) : Env unit := sim_env (λ r,
  match r as r return error + response r with
  | Net (SmartContractState _ _ (inr (JObj [(_, JObj fs)]))) =>
      let start := match fs with [_; (_, JStr s); _] => Some s | _ => None end in
      inr ([], inr (Some (inr (JArr (fill_json <$> take fills_limit (fills_after all start))))))
  | r => offline r
  end).

(** A fill per domain, 150 of them: two pages. *)
Definition many_fills : list Fill :=
  (λ n, mkFill (bigint_String (Z.of_nat n)) (Z.of_nat n)) <$> seq 0 150.

Lemma OrderFillsByFiller_complete_witness :
  (Cosmos_OrderFillsByFiller (H0 := fills_contract many_fills) sample_cosmos 2 "osmo1gateway" "osmo1solver"
     (sim_world empty_db)).1 = Ok (Some many_fills).
Proof.
  apply (OrderFillsByFiller_complete (H := fills_contract many_fills)).
  - split.
    + apply (bool_decide_unpack _). vm_compute. reflexivity.
    + apply (bool_decide_unpack _). vm_compute. reflexivity.
  - intros [start|] []; reflexivity.
  - vm_compute. lia.
Defined.
