(* ===== verification/ClientManager.v ===== *)
(** * ClientManager: one bridge client per chain

    shared/clientmanager/clientmanager.go.  The manager keeps the clients it made; a
    client is a function of the configuration and the keys, so the memory holds the
    chains it has one for.  The two critical sections of [GetClient] (the lookup under
    the read lock, the second lookup and the creation under the write lock) are
    separate computations, so that calls may interleave between them. *)
From Stdlib Require Import Strings.Byte.
From S2P Require Import Prelude GoLib Config Json Network Database World Settlements Keys TxExecutor.
From S2P Require Import EvmBridge CosmosBridge.

(** A client of the [BridgeClient] interface. *)
Inductive BridgeClient :=
  | EVMClient (c : EVMBridgeClient)
  | CosmosClient (c : CosmosBridgeClient).

Definition add_bridge_client (chainID : string) : Clients → Clients := λ c,
  mkClients (priceCache c) (lastBalanceCheck c) (evmLastSubmissionTime c)
    (cosmosLastSubmissionTime c) ({[ chainID ]} ∪ bridgeClients c) (wsClients c) (evmClients c) (ismAddress c)
    (tmClients c) (grpcClients c).
Definition add_ws_client (chainID : string) : Clients → Clients := λ c,
  mkClients (priceCache c) (lastBalanceCheck c) (evmLastSubmissionTime c)
    (cosmosLastSubmissionTime c) (bridgeClients c) ({[ chainID ]} ∪ wsClients c) (evmClients c) (ismAddress c)
    (tmClients c) (grpcClients c).

Section manager.
Context `{KeyLib} {E : Type} `{Env E}.
Notation IO := (M (World E)).
Context (reader : configReader) (lookupEnv : string → option string) (keys : KeyStore).

(** The private key of a chain, without its prefix. *)
Definition private_key (chainID : string) : result string :=
  match keys !! chainID with
  | None => Err (ErrNew ("solver private key not found for chainID " +:+ chainID))
  | Some key => strip_0x key
  end.

Definition cosmos_config (cfg : ChainConfig) : result CosmosConfig :=
  match Cosmos cfg with Some cc => Ok cc | None => Panic "nil dereference" end.

(** The client itself, without the connections. *)
Definition cosmos_client (chainID : string) (cc : CosmosConfig) : result BridgeClient :=
  rbind (private_key chainID) (λ hexKey,
  rbind (hex_DecodeString hexKey) (λ bytes,
  rbind (of_sum (cosmos_key bytes)) (λ address,
  rbind (of_sum (bech32_encode (cosmos_AddressPrefix cc) address)) (λ bech32,
    Ok (CosmosClient (NewCosmosBridgeClient chainID (cosmos_AddressPrefix cc)
          (Some (LocalCosmosSigner address bech32)) (cosmos_GasPrice cc) (cosmos_GasDenom cc))))))).

Definition evm_client (chainID : string) : result BridgeClient :=
  rbind (private_key chainID) (λ hexKey,
  rbind (of_sum (evm_key hexKey)) (λ address,
    Ok (EVMClient (NewEVMBridgeClient chainID (Some (LocalEthereumSigner address)))))).

Definition createCosmosClient (chainID : string) : IO BridgeClient :=
  chainCfg ← lift_result (GetChainConfig reader chainID);
  rpc ← lift_result (GetRPCEndpoint reader chainID);
  _ ← lift_result (GetBasicAuth lookupEnv reader chainID);
  _ ← ask (Net (TmDial rpc));
  cc ← lift_result (cosmos_config chainCfg);
  _ ← ask (Net (GrpcDial (cosmos_GRPC cc) (cosmos_GRPCTLSEnabled cc)));
  lift_result (cosmos_client chainID cc).

Definition createEVMClient (chainID : string) : IO BridgeClient :=
  rpc ← lift_result (GetRPCEndpoint reader chainID);
  _ ← lift_result (GetBasicAuth lookupEnv reader chainID);
  _ ← ask (Net (EthDial rpc));
  lift_result (evm_client chainID).

(** The client the manager keeps for a chain. *)
Definition kept_client (chainID : string) (cfg : ChainConfig) : result BridgeClient :=
  if (Type_ cfg =? ChainType_COSMOS)%string then rbind (cosmos_config cfg) (cosmos_client chainID)
  else if (Type_ cfg =? ChainType_EVM)%string then evm_client chainID
  else Err (ErrNew "unsupported cctp domain").

(** Under the read lock: the client, if there is one. *)
Definition lookup_client (chainID : string) (cfg : ChainConfig) : IO (option BridgeClient) :=
  mem ← get_mem;
  if bool_decide (chainID ∈ bridgeClients (clients mem))
  then client ← lift_result (kept_client chainID cfg); mret (Some client)
  else mret None.

(** Under the write lock: the second lookup, else the creation. *)
Definition create_client (chainID : string) (cfg : ChainConfig) : IO BridgeClient :=
  found ← lookup_client chainID cfg;
  match found with
  | Some client => mret client
  | None =>
      newClient ← (if (Type_ cfg =? ChainType_COSMOS)%string then createCosmosClient chainID
                   else if (Type_ cfg =? ChainType_EVM)%string then createEVMClient chainID
                   else throw (ErrNew "unsupported cctp domain"));
      _ ← update_mem (set_clients (add_bridge_client chainID));
      mret newClient
  end.

Definition ClientManager_GetClient (chainID : string) : IO BridgeClient :=
  chainCfg ← lift_result (GetChainConfig reader chainID);
  found ← lookup_client chainID chainCfg;
  match found with
  | Some client => mret client
  | None => create_client chainID chainCfg
  end.

Definition ClientManager_GetWebSocketClient (chainID : string) : IO unit :=
  mem ← get_mem;
  if bool_decide (chainID ∈ wsClients (clients mem)) then mret tt
  else
    wsEndpoint ← lift_result (GetWSEndpoint reader chainID);
    _ ← lift_result (GetBasicAuth lookupEnv reader chainID);
    _ ← ask (Net (EthDial wsEndpoint));
    update_mem (set_clients (add_ws_client chainID)).
End manager.

(** ** Theorems *)

Section theorems.
Context `{KeyLib} {E : Type} `{Env E}.
Implicit Types w : World E.
Context (reader : configReader) (lookupEnv : string → option string) (keys : KeyStore).

Definition has_client (chainID : string) (w : World E) : Prop :=
  chainID ∈ bridgeClients (clients (w_mem w)).

(** A client is only kept when it can be made. *)
Definition clients_ok (w : World E) : Prop :=
  ∀ chainID cfg, has_client chainID w → GetChainConfig reader chainID = Ok cfg →
    ∃ client, kept_client keys chainID cfg = Ok client.

(** A created client is the one kept: nothing else than the configuration and the
    keys goes into it. *)
Lemma create_client_kept chainID cfg w :
  GetChainConfig reader chainID = Ok cfg → ¬ has_client chainID w →
  wp (create_client reader lookupEnv keys chainID cfg) (λ r w',
    match r with
    | Ok client => kept_client keys chainID cfg = Ok client ∧
        w_mem w' = set_clients (add_bridge_client chainID) (w_mem w)
    | _ => w_mem w' = w_mem w
    end) w.
Proof.
  intros Hcfg Hno. unfold create_client, lookup_client, createCosmosClient, createEVMClient, kept_client.
  rewrite Hcfg.
  apply wp_bind, wp_bind. wp_step. rewrite bool_decide_false by done. apply wp_ret. cbn beta iota.
  apply wp_bind. destruct (Type_ cfg =? ChainType_COSMOS)%string.
  - wp_steps; done || (cbn; split; [|done]; rewrite ?Heqr; simpl; congruence).
  - destruct (Type_ cfg =? ChainType_EVM)%string; wp_steps; done.
Qed.

(** A chain that has a client makes no connection, in either critical section: a call
    that lost the race to the write lock finds the other's client. *)
Lemma lookup_client_hit chainID cfg client w :
  has_client chainID w → kept_client keys chainID cfg = Ok client →
  lookup_client keys chainID cfg w = (Ok (Some client), w) ∧
  create_client reader lookupEnv keys chainID cfg w = (Ok client, w).
Proof.
  intros Hin Hk.
  assert (lookup_client keys chainID cfg w = (Ok (Some client), w)) as Hl.
  { unfold lookup_client, mbind, M_bind, get_mem. rewrite bool_decide_true by done.
    unfold lift_result. by rewrite Hk. }
  split; [done|]. unfold create_client, mbind, M_bind. by rewrite Hl.
Qed.

(** [GetClient] makes a client at most once: a chain that has one gets it back without
    any connection, also when another call made it between the two lookups; a new
    client is kept, is of the chain's type and is the same from then on; a failure is
    not kept, so the next call tries again. *)
Theorem GetClient_once chainID cfg w r w' :
  GetChainConfig reader chainID = Ok cfg → clients_ok w →
  ClientManager_GetClient reader lookupEnv keys chainID w = (r, w') →
  clients_ok w' ∧
  (has_client chainID w → w' = w) ∧
  match r with
  | Ok client =>
      has_client chainID w' ∧ kept_client keys chainID cfg = Ok client ∧
      create_client reader lookupEnv keys chainID cfg w' = (Ok client, w') ∧
      ClientManager_GetClient reader lookupEnv keys chainID w' = (Ok client, w')
  | _ => w_mem w' = w_mem w
  end.
Proof.
  intros Hcfg Hok.
  assert (∀ w0 client, has_client chainID w0 → kept_client keys chainID cfg = Ok client →
    ClientManager_GetClient reader lookupEnv keys chainID w0 = (Ok client, w0)) as Hhit.
  { intros w0 client Hin Hk. unfold ClientManager_GetClient. rewrite Hcfg, bind_lift_ok.
    unfold mbind, M_bind. by rewrite (proj1 (lookup_client_hit chainID cfg client w0 Hin Hk)). }
  destruct (decide (chainID ∈ bridgeClients (clients (w_mem w)))) as [Hin|Hno].
  - destruct (Hok chainID cfg Hin Hcfg) as [client Hk]. rewrite (Hhit w client Hin Hk). intros [= <- <-].
    split_and!; auto. by apply lookup_client_hit.
  - intros Hrun. run_wp Hrun. unfold ClientManager_GetClient. rewrite Hcfg, bind_lift_ok.
    apply wp_bind. unfold lookup_client at 1. apply wp_bind. wp_step.
    rewrite bool_decide_false by done. apply wp_ret. cbn beta iota.
    eapply wp_mono; [|by apply create_client_kept].
    intros [client|e|p] w1; [intros [Hk Hm] <-|intros Hm <-..].
    2,3: unfold clients_ok, has_client; rewrite Hm; by split_and!.
    assert (has_client chainID w1) as Hin.
    { unfold has_client. rewrite Hm. cbn. set_solver. }
    specialize (Hhit w1 client Hin Hk). unfold ClientManager_GetClient in Hhit.
    rewrite Hcfg, bind_lift_ok in Hhit.
    split_and!; [|done|done|done|by apply lookup_client_hit|exact Hhit].
    intros c' cfg' Hc' Hcfg'. unfold has_client in Hc'. rewrite Hm in Hc'. cbn in Hc'.
    apply elem_of_union in Hc' as [->%elem_of_singleton|Hc']; [|by apply Hok].
    rewrite Hcfg in Hcfg'. injection Hcfg' as <-. eauto.
Qed.

(** The kept client is of the chain's type and speaks to it. *)
Lemma kept_client_type chainID cfg client :
  kept_client keys chainID cfg = Ok client →
  match client with
  | CosmosClient c => Type_ cfg = ChainType_COSMOS ∧ cb_chainID c = chainID
  | EVMClient c => Type_ cfg = ChainType_EVM ∧ eb_chainID c = chainID
  end.
Proof.
  unfold kept_client. destruct (String.eqb_spec (Type_ cfg) ChainType_COSMOS) as [Ht|_].
  - unfold cosmos_client. intros (cc&_&Hc)%result_bind_ok.
    repeat (apply result_bind_ok in Hc as (?&_&Hc)). by injection Hc as <-.
  - destruct (String.eqb_spec (Type_ cfg) ChainType_EVM) as [Ht|_]; [|done].
    unfold evm_client. intros Hc. repeat (apply result_bind_ok in Hc as (?&_&Hc)).
    by injection Hc as <-.
Qed.
End theorems.

(** ** Example *)

#[local] Instance toy_keys : KeyLib := {|
  json_tree := λ _, inl (ErrNew "no text");
  cosmos_key := λ bs, inr bs;
  evm_key := λ _, inr [x07];
  bech32_encode := λ p _, inr (p +:+ "1solver");
  gcm_check := λ _, None;
  gcm_open := λ _ _ _, inl (ErrNew "no text") |}.

Definition sample_keys : KeyStore := {[ "42161" := "0xabcd"; "osmosis-1" := "ab" ]}.

Definition sample_get_client :=
  ClientManager_GetClient (H0 := node (inr 0)) sample_reader (λ _, None) sample_keys "42161" (sim_world empty_db).

Lemma GetClient_once_witness :
  ∃ client w', sample_get_client = (Ok client, w') ∧
    ClientManager_GetClient (H0 := node (inr 0)) sample_reader (λ _, None) sample_keys "42161" w' = (Ok client, w').
Proof.
  assert (sample_get_client = (Ok (EVMClient (mkEVMBridgeClient "42161" [x07])), sample_get_client.2)) as Hrun
    by (vm_compute; reflexivity).
  assert (clients_ok sample_reader sample_keys (sim_world empty_db)) as Hok.
  { intros chainID cfg Hin. exfalso. revert Hin. exact (not_elem_of_empty (C := gset string) chainID). }
  do 2 eexists. split; [exact Hrun|].
  pose proof (GetClient_once (H0 := node (inr 0)) sample_reader (λ _, None) sample_keys "42161"
    sample_arbitrum _ _ _ ltac:(vm_compute; reflexivity)
    Hok Hrun) as (_&_&_&_&_&Hget).
  exact Hget.
Defined.
