(* ===== verification/HyperlaneClients.v ===== *)
(** * HyperlaneClients: the Hyperlane clients of the two chain families

    hyperlane/client.go (the dispatch by domain), hyperlane/ethereum/client.go (the
    mailbox and the security module of a destination chain) and hyperlane/cosmos (the
    dispatch events of an origin chain and its validator announce and Merkle tree
    contracts).  An operation a family does not have panics, as in the code. *)
From Stdlib Require Import Strings.Byte.
From S2P Require Import Prelude GoLib Config Json Network Database World Prices Oracle Keys TxExecutor.
From S2P Require Import CosmosBridge.

(** ** Events of a dispatch *)

Definition dispatchEventType : string := "wasm-mailbox_dispatch".
Definition dispatchIDEventType : string := "wasm-mailbox_dispatch_id".
Definition merkleHookPostDispatchEventType : string := "wasm-hpl_hook_merkle::post_dispatch".

Definition set_dispatch_attribute (d : MailboxDispatchEvent) (kv : string * string) : MailboxDispatchEvent :=
  let '(k, v) := kv in
  let '(mkMailboxDispatchEvent recipient message domain mailbox sender id) := d in
  if (k =? "recipient")%string then mkMailboxDispatchEvent v message domain mailbox sender id
  else if (k =? "sender")%string then mkMailboxDispatchEvent recipient message domain mailbox v id
  else if (k =? "destination")%string then mkMailboxDispatchEvent recipient message v mailbox sender id
  else if (k =? "_contract_address")%string then mkMailboxDispatchEvent recipient message domain v sender id
  else if (k =? "message")%string then mkMailboxDispatchEvent recipient v domain mailbox sender id
  else d.

Definition set_dispatch_id (d : MailboxDispatchEvent) (kv : string * string) : MailboxDispatchEvent :=
  let '(k, v) := kv in
  let '(mkMailboxDispatchEvent recipient message domain mailbox sender id) := d in
  if (k =? "message_id")%string then mkMailboxDispatchEvent recipient message domain mailbox sender v else d.

(** The loop of [ParseDispatch]: the event so far and which of the two were found. *)
Definition dispatch_step (acc : result (MailboxDispatchEvent * bool * bool)) (ev : AbciEvent) :
    result (MailboxDispatchEvent * bool * bool) :=
  rbind acc (λ '(d, dispatchFound, idFound),
    if (ev_Type ev =? dispatchEventType)%string then
      if (dispatchFound : bool) then Err (ErrNew "found multiple dispatch events in tx results")
      else Ok (foldl set_dispatch_attribute d (ev_Attributes ev), true, idFound)
    else if (ev_Type ev =? dispatchIDEventType)%string then
      if (idFound : bool) then Err (ErrNew "found multiple dispatch message id events in tx results")
      else Ok (foldl set_dispatch_id d (ev_Attributes ev), dispatchFound, true)
    else Ok (d, dispatchFound, idFound)).

Definition empty_dispatch : MailboxDispatchEvent := mkMailboxDispatchEvent "" "" "" "" "" "".

Definition ParseDispatch (events : list AbciEvent) : result MailboxDispatchEvent :=
  rbind (foldl dispatch_step (Ok (empty_dispatch, false, false)) events)
    (λ '(d, dispatchFound, idFound),
      if negb dispatchFound then
        Err (ErrNew ("could not find dispatch event type " +:+ dispatchEventType))
      else if negb idFound then
        Err (ErrNew ("could not find dipatch message id event type " +:+ dispatchIDEventType))
      else Ok d).

Definition merkle_attribute (acc : result MailboxMerkleHookPostDispatchEvent) (kv : string * string) :
    result MailboxMerkleHookPostDispatchEvent :=
  rbind acc (λ d,
    if (kv.1 =? "message_id")%string then Ok (mkMailboxMerkleHookPostDispatchEvent kv.2 (mh_Index d))
    else if (kv.1 =? "index")%string then
      result_map (λ idx, mkMailboxMerkleHookPostDispatchEvent (mh_MessageID d) (u64 idx))
        (result_wrap ("converting index value " +:+ kv.2 +:+ " to int: ") (strconv_Atoi kv.2))
    else Ok d).

Definition merkle_step (acc : result (MailboxMerkleHookPostDispatchEvent * bool)) (ev : AbciEvent) :
    result (MailboxMerkleHookPostDispatchEvent * bool) :=
  rbind acc (λ '(d, found),
    if (ev_Type ev =? merkleHookPostDispatchEventType)%string then
      if (found : bool) then Err (ErrNew "found multiple merkle hook post dispatch events in tx results")
      else result_map (λ d', (d', true)) (foldl merkle_attribute (Ok d) (ev_Attributes ev))
    else Ok (d, found)).

Definition ParseMerkleHookPostDispatch (events : list AbciEvent) :
    result MailboxMerkleHookPostDispatchEvent :=
  rbind (foldl merkle_step (Ok (mkMailboxMerkleHookPostDispatchEvent "" 0, false)) events)
    (λ '(d, found),
      if (found : bool) then Ok d
      else Err (ErrNew ("could not find merkle hook post dispatch event type " +:+ merkleHookPostDispatchEventType))).

Definition ParseTxResults (tx : ResultTx) :
    result (MailboxDispatchEvent * MailboxMerkleHookPostDispatchEvent) :=
  rbind (result_wrap ("parsing dispatch event from tx " +:+ rt_Hash tx +:+ " results: ")
           (ParseDispatch (rt_Events tx))) (λ dispatch,
  rbind (result_wrap ("parsing merkle hook post dispatch event from tx " +:+ rt_Hash tx +:+ " results: ")
           (ParseMerkleHookPostDispatch (rt_Events tx))) (λ merkle, Ok (dispatch, merkle))).

(** ** Validator storage locations *)

(** One entry of the answer: a validator and the locations it announced, of which the
    last counts. *)
Definition storage_location (entry : list Json) : result ValidatorStorageLocation :=
  match entry with
  | [validator; locations] =>
      match validator with
      | JStr v =>
          match locations with
          | JArr ls =>
              match last ls with
              | None => Err (ErrNew ("expected at least one storage location for validator " +:+ v +:+ ", got none"))
              | Some (JStr l) => Ok (mkValidatorStorageLocation v l)
              | Some _ => Err (ErrNew "got unexpected type for second element of validator storage location, expected string")
              end
          | _ => Err (ErrNew "got unexpected type for second element of validator storage location, expected []any")
          end
      | _ => Err (ErrNew "got unexpected type for first element of validator storage location, expected string")
      end
  | _ => Err (ErrNew ("expected two elements in validator location array, instead got " +:+
                      strconv_Itoa (Z.of_nat (length entry))))
  end.

Fixpoint storage_locations (entries : list (list Json)) : result (list ValidatorStorageLocation) :=
  match entries with
  | [] => Ok []
  | e :: es => rbind (storage_location e) (λ l, rbind (storage_locations es) (λ ls, Ok (l :: ls)))
  end.

Definition dec_storage_locations : Decoder (list (list Json)) := λ j,
  fs ← dec_fields j; dec_field fs "storage_locations" (dec_list (dec_list dec_any)).

Definition announce_query (validators : list string) : WasmQuery :=
  inr (JObj [("get_announce_storage_locations", JObj [("validators", JArr (JStr <$> validators))])]).

Definition count_query : WasmQuery := inr (JObj [("merkle_hook", JObj [("count", JObj [])])]).

Definition dec_count : Decoder Z := λ j, fs ← dec_fields j; dec_field fs "count" (dec_uint 64).

(** ** The clients *)

Record CosmosHyperlaneClient := mkCosmosHyperlaneClient {
  hc_chainID : string;
  hc_domain : string;
  hc_validatorAnnounce : string;
  hc_merkleHook : string
}.

Record EthHyperlaneClient := mkEthHyperlaneClient {
  he_chainID : string;
  he_domain : string;
  he_mailbox : string
}.

Inductive HyperlaneClient :=
  | CosmosHyperlane (c : CosmosHyperlaneClient)
  | EthHyperlane (c : EthHyperlaneClient).

Definition ismTypeMessageIDMultisig : Z := 5.

Definition set_ism_address (domain ism : string) : Clients → Clients := λ c,
  mkClients (priceCache c) (lastBalanceCheck c) (evmLastSubmissionTime c)
    (cosmosLastSubmissionTime c) (bridgeClients c) (wsClients c) (evmClients c)
    (<[domain := ism]> (ismAddress c)) (tmClients c) (grpcClients c).

(** [copy(id[:], bs)] into a zeroed array of 32 bytes *)
Definition copy32 (bs : list byte) : list byte := take 32 (bs ++ replicate 32 x00).

(** [big.NewFloat(1.5)] *)
Definition float_1_5 : bigfloat := BF 3 (-1).

Definition wrong_domain (expected got : string) : error :=
  ErrNew ("expected domain " +:+ expected +:+ " but got " +:+ got).

Definition unimplemented {S A} : M S A := go_panic "not implemented".

Section clients.
Context `{KeyLib} {E : Type} `{Env E}.
Notation IO := (M (World E)).
Context (reader : configReader) (lookupEnv : string → option string) (keys : KeyStore)
        (coingecko : PriceClient (E := E)).

(** The chain of a domain: the first of the index, in the order it is ranged. *)
Definition chain_of_domain (domain : string) : IO string :=
  entries ← range (map_to_list (chainIDIndex reader));
  lift_result (GetChainIDByHyperlaneDomain entries domain).

(** *** Cosmos *)

Section cosmos.
Context (c : CosmosHyperlaneClient).

Definition Cosmos_GetHyperlaneDispatch (domain originChainID txHash : string) :
    IO (MailboxDispatchEvent * MailboxMerkleHookPostDispatchEvent) :=
  _ ← wrap_err ("getting tendermint rpc client for chain " +:+ originChainID +:+ ": ")
    (ask (TmGetClient originChainID));
  hash ← wrap_err ("decoding tx hash " +:+ txHash +:+ ": ") (lift_result (hex_DecodeString txHash));
  tx ← wrap_err ("fetching tx results, hash: " +:+ txHash +:+ ": ") (ask (Net (TmTx originChainID hash)));
  lift_result (ParseTxResults tx).

Definition wasm_query (contract what : string) (q : WasmQuery) : IO Json :=
  answer ← wrap_err ("querying smart contract " +:+ contract +:+ " for " +:+ what +:+ ": ")
    ('(_, r) ← ask (Net (SmartContractState (hc_chainID c) contract q)); lift_sum r);
  match answer with
  | None => throw (ErrNew ("got nil response when querying for " +:+ what))
  | Some (inl err) => throw err
  | Some (inr j) => mret j
  end.

Definition GetAnnouncedValidatorStorageLocations (validators : list string) :
    IO (list ValidatorStorageLocation) :=
  let stripped := (λ v, strings_TrimPrefix v "0x") <$> validators in
  j ← wasm_query (hc_validatorAnnounce c) "announced validator storage locations" (announce_query stripped);
  entries ← wrap_err "unmarshaling response bytes into storage locations json: "
    (lift_result (json_Unmarshal dec_storage_locations j));
  lift_result (storage_locations entries).

Definition Cosmos_ValidatorStorageLocations (domain : string) (validators : list string) :
    IO (list ValidatorStorageLocation) :=
  if negb (domain =? hc_domain c)%string then throw (wrong_domain (hc_domain c) domain)
  else wrap_err "getting storage locations for validators: " (GetAnnouncedValidatorStorageLocations validators).

Definition Cosmos_MerkleTreeLeafCount (domain : string) : IO Z :=
  if negb (domain =? hc_domain c)%string then throw (wrong_domain (hc_domain c) domain)
  else
    j ← wasm_query (hc_merkleHook c) "merkle hook count" count_query;
    wrap_err "unmarshaling query bytes into formatted data: " (lift_result (json_Unmarshal dec_count j)).

(** The operations with a domain check before their panic. *)
Definition Cosmos_unimplemented {A} (domain : string) : IO A :=
  if negb (domain =? hc_domain c)%string then throw (wrong_domain (hc_domain c) domain) else unimplemented.
End cosmos.

(** *** Ethereum *)

Section ethereum.
Context (c : EthHyperlaneClient).
Let chainID := he_chainID c.
Let mailbox := he_mailbox c.

Definition bind_mailbox : IO unit :=
  wrap_err ("creating mailbox contract caller for address " +:+ mailbox +:+ ": ")
    (ask (Net (BindContract chainID mailbox))).

Definition Eth_HasBeenDelivered (domain messageID : string) : IO bool :=
  if negb (domain =? he_domain c)%string then throw (wrong_domain (he_domain c) domain)
  else
    _ ← bind_mailbox;
    messageIDBytes ← wrap_err ("decoding messageID " +:+ messageID +:+ ": ")
      (lift_result (hex_DecodeString messageID));
    wrap_err ("querying destination mailbox at " +:+ mailbox +:+ " to see if message " +:+ messageID +:+ " was delivered: ")
      (ask (Net (MbDelivered chainID mailbox (copy32 messageIDBytes)))).

(** The address is kept from the first recipient asked for on. *)
Definition getISMAddress (recipient : string) : IO string :=
  mem ← get_mem;
  match ismAddress (clients mem) !! he_domain c with
  | Some ism => mret ism
  | None =>
      _ ← bind_mailbox;
      ism ← wrap_err ("getting ism address for recipient " +:+ recipient +:+ ": ")
        (ask (Net (MbRecipientIsm chainID mailbox recipient)));
      _ ← update_mem (set_clients (set_ism_address (he_domain c) ism));
      mret ism
  end.

Definition Eth_ISMType (domain recipient : string) : IO Z :=
  if negb (domain =? he_domain c)%string then throw (wrong_domain (he_domain c) domain)
  else
    ism ← wrap_err ("getting ism address for recipeint " +:+ recipient +:+ " on domain " +:+ domain +:+ ": ")
      (getISMAddress recipient);
    _ ← wrap_err ("creating ism contract caller for address " +:+ ism +:+ ": ") (ask (Net (BindContract chainID ism)));
    wrap_err ("getting ism type for ism address " +:+ ism +:+ ": ") (ask (Net (IsmModuleType chainID ism))).

Definition Eth_ValidatorsAndThreshold (domain recipient message : string) : IO (list string * Z) :=
  if negb (domain =? he_domain c)%string then throw (wrong_domain (he_domain c) domain)
  else
    ism ← wrap_err ("getting ism address for recipeint " +:+ recipient +:+ " on domain " +:+ domain +:+ ": ")
      (getISMAddress recipient);
    ismType ← wrap_err ("getting ism type for recipient " +:+ recipient +:+ " on domain " +:+ domain +:+ ": ")
      (Eth_ISMType domain recipient);
    if ismType =? ismTypeMessageIDMultisig then
      _ ← wrap_err ("creating multisign ism contract caller for address " +:+ ism +:+ ": ")
        (ask (Net (BindContract chainID ism)));
      wrap_err ("fetching validators and threshold from multisig ism at address " +:+ ism +:+ ": ")
        (ask (Net (IsmValidatorsAndThreshold chainID ism message)))
    else throw (ErrNew ("ism type " +:+ bigint_String ismType +:+ " not supported")).

(** [address]: the solver's address on the domain's chain. *)
Definition eth_address (domain : string) : IO string :=
  destinationChainID ← wrap_err ("getting chainID for hyperlane domain " +:+ domain +:+ ": ") (chain_of_domain domain);
  cfg ← wrap_err ("getting chain config for chainID " +:+ destinationChainID +:+ ": ")
    (lift_result (GetChainConfig reader destinationChainID));
  mret (SolverAddress cfg).

Definition eth_signer (domain : string) : IO Signer :=
  destinationChainID ← wrap_err ("getting chainID for hyperlane domain " +:+ domain +:+ ": ") (chain_of_domain domain);
  match keys !! destinationChainID with
  | None => throw (ErrNew ("relayer private key not found for chainID " +:+ destinationChainID))
  | Some key =>
      hexKey ← lift_result (strip_0x key);
      address ← wrap_err "creating private key from string: " (lift_sum (evm_key hexKey));
      mret (LocalEthereumSigner address)
  end.

Definition Eth_Process (domain : string) (message metadata : list byte) : IO (list byte * string) :=
  _ ← bind_mailbox;
  destinationChainID ← wrap_err ("getting chainID for hyperlane domain " +:+ domain +:+ ": ") (chain_of_domain domain);
  cfg ← wrap_err ("getting destination chain " +:+ destinationChainID +:+ " config: ")
    (lift_result (GetChainConfig reader destinationChainID));
  _ ← wrap_err "getting signer: " (eth_signer domain);
  addr ← wrap_err "getting address: " (eth_address domain);
  '(data, value, to) ← wrap_err "creating process transaction: "
    (ask (Net (MbProcess chainID mailbox addr metadata message)));
  '(txHash, rawTx) ← wrap_err "processing message on destination mailbox: "
    (EVM_ExecuteTx reader lookupEnv LocalEthereumSigner_Sign destinationChainID (SolverAddress cfg) data
       (bigint_String value) to);
  txHashBytes ← wrap_err ("decoding process tx hash " +:+ txHash +:+ ": ")
    (lift_result (hex_DecodeString (strings_TrimPrefix txHash "0x")));
  mret (txHashBytes, rawTx).

Definition Eth_QuoteProcessUUSDC (domain : string) (message metadata : list byte) : IO Z :=
  destChainID ← wrap_err ("getting chainID for hyperlane domain " +:+ domain +:+ ": ") (chain_of_domain domain);
  addr ← wrap_err "getting address: " (eth_address domain);
  data ← wrap_err "packing mailbox process call: " (ask (Net (MbPackProcess metadata message)));
  tx ← wrap_err "building process tx to simulate: " (TxBuilder_Build
    [ WithData data; WithValue "0"; WithTo mailbox; WithChainID destChainID;
      WithNonceOfSigner chainID addr; WithEstimatedGasLimit chainID addr mailbox "0" data;
      WithEstimatedGasTipCap chainID None; WithEstimatedGasFeeCap chainID None float_1_5 ]);
  wrap_err "getting tx fee in uusdc from gas oracle: " (Oracle_TxFeeUUSDC reader coingecko tx).

Definition Eth_IsContract (domain address : string) : IO bool :=
  code ← ask (Net (EthCodeAt chainID address));
  mret (bool_decide (code ≠ [])).
End ethereum.

(** *** Dispatch by domain *)

Definition MultiClient : Type := gmap string HyperlaneClient.

(** The client of one chain of the configuration, if its type has one. *)
Definition NewHyperlaneClient (cfg : ChainConfig) : IO (option HyperlaneClient) :=
  let domain := HyperlaneDomain cfg in
  if (Type_ cfg =? ChainType_COSMOS)%string then
    wrap_err ("creating cosmos hyperlane client for domain " +:+ domain +:+ ": ")
      (id ← wrap_err ("getting chainID from hyperlane domain " +:+ domain +:+ ": ") (chain_of_domain domain);
       chainCfg ← wrap_err ("getting config for chain " +:+ id +:+ ": ") (lift_result (GetChainConfig reader id));
       match Cosmos chainCfg with
       | None => go_panic "nil dereference"
       | Some cc =>
           _ ← wrap_err ("dialing grpc address " +:+ cosmos_GRPC cc +:+ ": ")
             (ask (Net (GrpcDial (cosmos_GRPC cc) (cosmos_GRPCTLSEnabled cc))));
           mret (Some (CosmosHyperlane (mkCosmosHyperlaneClient id domain
             (ValidatorAnnounceContractAddress (Relayer chainCfg))
             (MerkleHookContractAddress (Relayer chainCfg)))))
       end)
  else if (Type_ cfg =? ChainType_EVM)%string then
    wrap_err ("creating cosmos hyperlane client for domain " +:+ domain +:+ ": ")
      (id ← wrap_err ("getting chainID from hyperlane domain " +:+ domain +:+ ": ") (chain_of_domain domain);
       chainCfg ← wrap_err ("getting config for chain " +:+ id +:+ ": ") (lift_result (GetChainConfig reader id));
       _ ← wrap_err ("getting rpc client for chainID " +:+ id +:+ ": ") (EVMRPC_GetClient reader lookupEnv id);
       mret (Some (EthHyperlane (mkEthHyperlaneClient id domain (MailboxAddress (Relayer chainCfg))))))
  else mret None.

Definition NewMultiClientFromConfig : IO MultiClient :=
  entries ← range (map_to_list (Chains (config reader)));
  fold_m (λ clients '(_, cfg),
    if (HyperlaneDomain cfg =? "")%string then mret clients
    else
      client ← NewHyperlaneClient cfg;
      mret (match client with
            | Some cl => <[HyperlaneDomain cfg := cl]> clients
            | None => clients
            end)) ∅ entries.

Definition with_client {A} (mc : MultiClient) (domain : string) (f : HyperlaneClient → IO A) : IO A :=
  match mc !! domain with
  | None => throw (ErrNew ("no configured client for domain " +:+ domain))
  | Some cl => f cl
  end.

Context (mc : MultiClient).

Definition Multi_HasBeenDelivered (domain messageID : string) : IO bool :=
  with_client mc domain (λ cl, match cl with
    | EthHyperlane c => Eth_HasBeenDelivered c domain messageID
    | CosmosHyperlane c => Cosmos_unimplemented c domain end).
Definition Multi_ISMType (domain recipient : string) : IO Z :=
  with_client mc domain (λ cl, match cl with
    | EthHyperlane c => Eth_ISMType c domain recipient
    | CosmosHyperlane c => Cosmos_unimplemented c domain end).
Definition Multi_ValidatorsAndThreshold (domain recipient message : string) : IO (list string * Z) :=
  with_client mc domain (λ cl, match cl with
    | EthHyperlane c => Eth_ValidatorsAndThreshold c domain recipient message
    | CosmosHyperlane c => Cosmos_unimplemented c domain end).
Definition Multi_ValidatorStorageLocations (domain : string) (validators : list string) :
    IO (list ValidatorStorageLocation) :=
  with_client mc domain (λ cl, match cl with
    | EthHyperlane _ => unimplemented
    | CosmosHyperlane c => Cosmos_ValidatorStorageLocations c domain validators end).
Definition Multi_MerkleTreeLeafCount (domain : string) : IO Z :=
  with_client mc domain (λ cl, match cl with
    | EthHyperlane _ => unimplemented
    | CosmosHyperlane c => Cosmos_MerkleTreeLeafCount c domain end).
Definition Multi_Process (domain : string) (message metadata : list byte) : IO (list byte * string) :=
  with_client mc domain (λ cl, match cl with
    | EthHyperlane c => Eth_Process c domain message metadata
    | CosmosHyperlane _ => unimplemented end).
Definition Multi_QuoteProcessUUSDC (domain : string) (message metadata : list byte) : IO Z :=
  with_client mc domain (λ cl, match cl with
    | EthHyperlane c => Eth_QuoteProcessUUSDC c domain message metadata
    | CosmosHyperlane _ => unimplemented end).
Definition Multi_IsContract (domain address : string) : IO bool :=
  with_client mc domain (λ cl, match cl with
    | EthHyperlane c => Eth_IsContract c domain address
    | CosmosHyperlane _ => unimplemented end).
Definition Multi_GetHyperlaneDispatch (domain originChainID txHash : string) :
    IO (MailboxDispatchEvent * MailboxMerkleHookPostDispatchEvent) :=
  with_client mc domain (λ cl, match cl with
    | EthHyperlane _ => unimplemented
    | CosmosHyperlane _ => Cosmos_GetHyperlaneDispatch domain originChainID txHash end).
End clients.

(** ** Parsing a dispatch *)

(** The value of the last attribute with a key, [def] without one. *)
Definition attr_or (key def : string) (attrs : list (string * string)) : string :=
  foldl (λ acc kv, if (kv.1 =? key)%string then kv.2 else acc) def attrs.

Definition of_type (t : string) (events : list AbciEvent) : list AbciEvent :=
  filter (λ ev, ev_Type ev = t) events.

(** The attributes of the only event of a list. *)
Definition only_attrs (evs : list AbciEvent) : list (string * string) :=
  match evs with ev :: _ => ev_Attributes ev | [] => [] end.

(** The dispatch the attributes of the two events describe. *)
Definition dispatch_of (dispatch id : list (string * string)) : MailboxDispatchEvent :=
  mkMailboxDispatchEvent (attr_or "recipient" "" dispatch) (attr_or "message" "" dispatch)
    (attr_or "destination" "" dispatch) (attr_or "_contract_address" "" dispatch)
    (attr_or "sender" "" dispatch) (attr_or "message_id" "" id).

Lemma set_dispatch_attributes d attrs :
  foldl set_dispatch_attribute d attrs =
  mkMailboxDispatchEvent (attr_or "recipient" (de_Recipient d) attrs)
    (attr_or "message" (de_Message d) attrs) (attr_or "destination" (de_DestinationDomain d) attrs)
    (attr_or "_contract_address" (de_SenderMailbox d) attrs) (attr_or "sender" (de_Sender d) attrs)
    (de_MessageID d).
Proof.
  revert d. induction attrs as [|[k v] attrs IH]; intros d; [by destruct d|].
  unfold attr_or in *. cbn [foldl]. rewrite IH. destruct d. cbn.
  repeat (match goal with |- context [String.eqb k ?s] => destruct (String.eqb_spec k s) as [->|] end; try done).
Qed.

Lemma set_dispatch_ids d attrs :
  foldl set_dispatch_id d attrs =
  mkMailboxDispatchEvent (de_Recipient d) (de_Message d) (de_DestinationDomain d) (de_SenderMailbox d)
    (de_Sender d) (attr_or "message_id" (de_MessageID d) attrs).
Proof.
  revert d. induction attrs as [|[k v] attrs IH]; intros d; [by destruct d|].
  unfold attr_or in *. cbn [foldl]. rewrite IH. destruct d. cbn. by destruct (k =? "message_id")%string.
Qed.

(** The state of the loop after the events [pre]. *)
Definition dispatch_inv (pre : list AbciEvent) (st : result (MailboxDispatchEvent * bool * bool)) : Prop :=
  let ds := of_type dispatchEventType pre in
  let ids := of_type dispatchIDEventType pre in
  match st with
  | Ok (d, b1, b2) =>
      (length ds ≤ 1)%nat ∧ (length ids ≤ 1)%nat ∧ b1 = bool_decide (ds ≠ []) ∧
      b2 = bool_decide (ids ≠ []) ∧ d = dispatch_of (only_attrs ds) (only_attrs ids)
  | Err _ => (2 ≤ length ds)%nat ∨ (2 ≤ length ids)%nat
  | Panic _ => False
  end.

Lemma of_type_snoc t pre ev :
  of_type t (pre ++ [ev]) = of_type t pre ++ (if decide (ev_Type ev = t) then [ev] else []).
Proof. unfold of_type. rewrite filter_app, filter_cons, filter_nil. done. Qed.

Lemma dispatch_inv_run events :
  dispatch_inv events (foldl dispatch_step (Ok (empty_dispatch, false, false)) events).
Proof.
  induction events as [|ev pre IH] using rev_ind; [by split_and!; simpl; try lia|].
  rewrite foldl_app. cbn [foldl]. set (st := foldl _ _ pre) in *. clearbody st.
  unfold dispatch_inv in *. rewrite !of_type_snoc.
  set (ds := of_type dispatchEventType pre) in *. set (ids := of_type dispatchIDEventType pre) in *.
  clearbody ds ids. rewrite !length_app.
  destruct st as [[[d b1] b2]|e|p]; simpl; [|destruct IH; [left|right]; lia|done].
  destruct IH as (H1&H2&->&->&->).
  destruct (String.eqb_spec (ev_Type ev) dispatchEventType) as [Ht|Ht].
  - rewrite (decide_True _ _ Ht), decide_False by (rewrite Ht; done). cbn [length].
    destruct ds as [|x [|]]; simpl in *; [|left; lia|lia].
    rewrite Nat.add_0_r, app_nil_r. split_and!; try done; try lia.
    rewrite set_dispatch_attributes. done.
  - rewrite decide_False by done.
    destruct (String.eqb_spec (ev_Type ev) dispatchIDEventType) as [Hi|Hi].
    + rewrite (decide_True _ _ Hi). cbn [length]. rewrite app_nil_r, Nat.add_0_r.
      destruct ids as [|x [|]]; simpl in *; [|right; lia|lia].
      split_and!; try done; try lia. rewrite set_dispatch_ids. done.
    + rewrite decide_False by done. cbn [length]. rewrite !app_nil_r, !Nat.add_0_r. by split_and!.
Qed.

(** C28. Parsing the dispatch of a transaction succeeds exactly when it has one dispatch
    event and one id event, and then gives the attributes of these two. *)
Theorem ParseDispatch_spec events d :
  ParseDispatch events = Ok d ↔
  ∃ ev id, of_type dispatchEventType events = [ev] ∧ of_type dispatchIDEventType events = [id] ∧
    d = dispatch_of (ev_Attributes ev) (ev_Attributes id).
Proof.
  pose proof (dispatch_inv_run events) as Hinv. unfold ParseDispatch.
  destruct (foldl _ _ events) as [[[d' b1] b2]|e|p]; unfold dispatch_inv in Hinv; simpl; [|split..|done].
  - destruct Hinv as (H1&H2&->&->&->).
    destruct (of_type dispatchEventType events) as [|ev [|]], (of_type dispatchIDEventType events) as [|id [|]];
      simpl in *; try lia; split; try done; try (by intros (?&?&?&?&?)).
    + intros [= <-]. eauto.
    + by intros (?&?&[= ->]&[= ->]&->).
  - done.
  - intros (ev&id&Hd&Hi&_). rewrite Hd, Hi in Hinv. simpl in Hinv. lia.
Qed.

(** ** Storage locations *)

(** Each validator's location is the last it announced. *)
Theorem storage_locations_last entries ls :
  storage_locations entries = Ok ls ↔
  Forall2 (λ entry l, ∃ locations, entry = [JStr (vsl_Validator l); JArr locations] ∧
    last locations = Some (JStr (vsl_StorageLocation l))) entries ls.
Proof.
  assert (∀ entry l, storage_location entry = Ok l ↔
    ∃ locations, entry = [JStr (vsl_Validator l); JArr locations] ∧
      last locations = Some (JStr (vsl_StorageLocation l))) as Hone.
  { intros entry l. split.
    - unfold storage_location. repeat case_match; try done. intros [= <-]. eauto.
    - intros (locations&->&Hl). simpl. rewrite Hl. by destruct l. }
  revert ls. induction entries as [|e es IH]; intros ls; simpl.
  - split; [by intros [= <-]|by inversion 1].
  - split.
    + intros (l&Hl&(ls'&Hls&[= <-])%result_bind_ok)%result_bind_ok.
      constructor; [by apply Hone|by apply IH].
    + inversion 1 as [|? l ? ls' Hl Hls]; subst. apply Hone in Hl as ->. simpl.
      by apply IH in Hls as ->.
Qed.

(** ** The Ethereum client *)

Section eth_theorems.
Context `{KeyLib} {E : Type} `{Env E}.
Implicit Types w : World E.
Context (reader : configReader) (lookupEnv : string → option string) (keys : KeyStore).
Context (c : EthHyperlaneClient).

Definition cached_ism (w : World E) : option string := ismAddress (clients (w_mem w)) !! he_domain c.

(** The security module is looked up once: after the first answer every recipient of
    the domain gets the module of the first one, without a call. *)
Theorem getISMAddress_first_recipient recipient recipient' w ism w' :
  getISMAddress c recipient w = (Ok ism, w') →
  getISMAddress c recipient' w' = (Ok ism, w').
Proof.
  intros Hrun. assert (cached_ism w' = Some ism) as Hc.
  { run_wp Hrun. unfold getISMAddress, bind_mailbox. wp_steps; intros [= ->]; [done|].
    unfold cached_ism. cbn. by rewrite lookup_insert_eq. }
  unfold getISMAddress, mbind, M_bind, get_mem. unfold cached_ism in Hc. by rewrite Hc.
Qed.

Lemma getISMAddress_cached recipient w :
  wp (getISMAddress c recipient) (λ r w',
    (∀ ism, r = Ok ism → cached_ism w' = Some ism) ∧ emits (λ _, True) w w') w.
Proof.
  unfold getISMAddress, bind_mailbox. wp_steps; (split; [intros ? [= <-]|by solve_emits]); [done|].
  unfold cached_ism. cbn. by rewrite lookup_insert_eq.
Qed.

(** The validators and the threshold that guard a relay are the answer, for this
    message, of one module that has just said it is a message id multisig; other
    domains and other modules are refused. *)
Theorem ValidatorsAndThreshold_evidence domain recipient message w vs t w' :
  Eth_ValidatorsAndThreshold c domain recipient message w = (Ok (vs, t), w') →
  domain = he_domain c ∧ ∃ ism,
    asked w w' (existT (Net (IsmModuleType (he_chainID c) ism)) (inr 5)) ∧
    asked w w' (existT (Net (IsmValidatorsAndThreshold (he_chainID c) ism message)) (inr (vs, t))).
Proof.
  intros Hrun. run_wp Hrun. unfold Eth_ValidatorsAndThreshold, Eth_ISMType.
  destruct (String.eqb_spec domain (he_domain c)) as [->|]; cbn [negb]; [|by wp_steps].
  apply wp_bind, wp_wrap_err. eapply wp_mono; [|apply getISMAddress_cached].
  intros [ism|e|p] w1 [Hism Hw1]; [|done..]. specialize (Hism ism eq_refl).
  apply wp_bind, wp_wrap_err, wp_bind, wp_wrap_err.
  unfold getISMAddress. apply wp_bind. wp_step. unfold cached_ism in Hism. rewrite Hism. apply wp_ret.
  cbn beta iota. wp_steps; intros [= ->]. apply Z.eqb_eq in Heqb as ->.
  split; [done|]. exists ism. split.
  - refine (asked_earlier (λ _, True) w w1 _ _ Hw1 _). solve_asked.
  - refine (asked_earlier (λ _, True) w w1 _ _ Hw1 _). solve_asked.
Qed.

(** Asking whether a message was delivered pads or cuts its id to 32 bytes and trusts
    the mailbox. *)
Theorem HasBeenDelivered_evidence domain messageID w b w' :
  Eth_HasBeenDelivered c domain messageID w = (Ok b, w') →
  domain = he_domain c ∧ ∃ id, hex_DecodeString messageID = Ok id ∧ length (copy32 id) = 32%nat ∧
    asked w w' (existT (Net (MbDelivered (he_chainID c) (he_mailbox c) (copy32 id))) (inr b)).
Proof.
  intros Hrun. run_wp Hrun. unfold Eth_HasBeenDelivered, bind_mailbox. wp_steps; intros [= ->].
  apply negb_false_iff, String.eqb_eq in Heqb0. split; [done|]. eexists. split_and!; [done| |solve_asked].
  unfold copy32. rewrite length_take, length_app, length_replicate. lia.
Qed.

Lemma asked_before w w1 w2 ev new :
  asked w w1 ev → w_trace w2 = w_trace w1 ++ new → asked w w2 ev.
Proof.
  intros (l&Hl&Hin) Ht. exists (l ++ new). rewrite Ht, Hl, app_assoc.
  split; [done|]. apply elem_of_app. by left.
Qed.

(** C18. Relaying a message sends at most one transaction.  On success exactly one was
    accepted, the call of the mailbox with this metadata and message as the binding
    packed it, and its hash is returned; otherwise none was accepted, or one was and
    its hash did not parse. *)
Theorem Process_sends_once domain message metadata w r w' :
  Eth_Process reader lookupEnv keys c domain message metadata w = (r, w') →
  match r with
  | Ok (hash, raw) => ∃ chainID addr data value to tx signed text,
      asked w w' (existT (Net (MbProcess (he_chainID c) (he_mailbox c) addr metadata message))
        (inr (data, value, to))) ∧
      eth_Data tx = data ∧ eth_To tx = Some to ∧ eth_Value tx = bigint_SetString (bigint_String value) ∧
      asked w w' (existT (Net (SignEthTx chainID tx)) (inr signed)) ∧
      sent_one w w' chainID (ste_Binary signed) text ∧
      hex_DecodeString (strings_TrimPrefix text "0x") = Ok hash
  | _ => emits_ev unsent w w' ∨ ∃ chainID bytes text err,
      sent_one w w' chainID bytes text ∧
      hex_DecodeString (strings_TrimPrefix text "0x") = Err err
  end.
Proof.
  intros Hrun. run_wp Hrun. unfold Eth_Process, bind_mailbox, eth_signer, eth_address, chain_of_domain, lift_sum.
  wp_steps; try (intros <-; left; by solve_emits_ev).
  rename a0 into chainID, l0 into data, z into value, s0 into to.
  match goal with |- wp _ _ ?ww => set (w1 := ww) end.
  assert (∃ addr, asked w w1 (existT (Net (MbProcess (he_chainID c) (he_mailbox c) addr metadata message))
      (inr (data, value, to)))) as [addr Hmb] by (eexists; unfold w1; solve_asked).
  assert (emits_ev unsent w w1) as Hun by (unfold w1; by solve_emits_ev).
  assert (emits (λ _, True) w w1) as Hw1 by (unfold w1; by solve_emits).
  clearbody w1. apply wp_intro. intros r9 w2 Hx%EVM_ExecuteTx_run.
  destruct r9 as [[text raw]|e9|p9]; [|intros <-; left; etransitivity; [exact Hun|apply Hx]..].
  destruct Hx as (cfg&evm&id&v&nonce&gas&tip&num&base&signed&c1&c2&pre&_&_&_&Hv&_&Ht&Hpre&_).
  eapply asked_before in Hmb; [|exact Ht].
  pose proof (sent_one_earlier _ _ _ _ _ _ Hun (sends_sent_one _ _ _ _ _ _ _ _ _ _ _ _ _ _ _ _ _ _ _ Ht Hpre))
    as Hsent.
  wp_steps; intros <-.
  - exists chainID, addr, data, value, to,
      (executor_tx id nonce v gas tip base (evm_MinGasTipCap evm) to data), signed, text.
    split_and!; [exact Hmb|done|done|by rewrite Hv| |exact Hsent|done].
    refine (asked_earlier (λ _, True) w w1 w2 _ Hw1 _). eexists. split; [exact Ht|].
    apply elem_of_app. right. unfold sends. do 6 apply list_elem_of_further. apply list_elem_of_here.
  - right. by do 4 eexists.
  - by exfalso; eapply hex_DecodeString_no_panic.
Qed.
End eth_theorems.

(** ** Example *)

#[local] Instance relay_keys : KeyLib := {|
  json_tree := λ _, inl (ErrNew "no text");
  cosmos_key := λ bs, inr bs;
  evm_key := λ _, inr [x07];
  bech32_encode := λ p _, inr (p +:+ "1solver");
  gcm_check := λ _, None;
  gcm_open := λ _ _ _, inl (ErrNew "no text") |}.

(** A node with a mailbox. *)
Definition mailbox_node : Env unit := λ r e,
  match r as r return (error + response r) * unit with
  | Net n =>
      match n as n return (error + net_response n) * unit with
      | BindContract _ _ => (inr tt, e)
      | MbProcess _ _ _ metadata message => (inr (metadata ++ message, 0, "0xmailbox"%string), e)
      | EthSendTransaction _ _ => (inr "0xab"%string, e)
      | n => node (inr 100000) (Net n) e
      end
  | r => node (inr 100000) r e
  end.

Definition sample_eth : EthHyperlaneClient := mkEthHyperlaneClient "42161" "42161" "0xmailbox".
Definition sample_process :=
  Eth_Process (H0 := mailbox_node) sample_reader (λ _, None) {[ "42161" := "0xabcd" ]} sample_eth
    "42161" [x01] [x02] (sim_world empty_db).

Lemma Process_sends_once_witness :
  ∃ raw chainID bytes text, sample_process.1 = Ok ([xab], raw) ∧
    sent_one (sim_world empty_db) sample_process.2 chainID bytes text.
Proof.
  assert (sample_process = (Ok ([xab], "e30="%string), sample_process.2)) as Hrun
    by (vm_compute; reflexivity).
  apply (Process_sends_once (H0 := mailbox_node)) in Hrun
    as (chainID&addr&data&value&to&tx&signed&text&_&_&_&_&_&Hone&_).
  exists "e30="%string, chainID, (ste_Binary signed), text.
  split; [vm_compute; reflexivity|exact Hone].
Defined.
