(* ===== verification/Stack.v ===== *)
(** * Stack: the components on top of their clients

    cmd/solver/main.go builds the clients and hands them to the components.  Here the
    requests of the interfaces ([cctp.BridgeClient], [hyperlane.Client],
    [skipgo.SkipGoClient], the EVM executor, the price oracle) are answered by the
    models of the clients that implement them, which in turn call an arbitrary lower
    environment: the nodes, contracts and services.  The result is again an
    environment, whose hidden state is the clients' world, so the theorems of the
    components apply to it and speak of what reaches the network.

    A component keeps the client [GetClient] returned and calls its methods; the
    model looks the client up again, which returns the kept one.  A panic of a client
    ends the process; as the answer of an environment it is an error. *)
From Stdlib Require Import Strings.Byte.
From S2P Require Import Prelude GoLib Config Json Network SkipGoTypes Database World.
From S2P Require Import Prices Oracle Keys TxExecutor Settlements Interfaces OrderSettler.
From S2P Require Import Fulfillment TxVerifier.
From S2P Require Import SkipGo EvmBridge CosmosBridge ClientManager HyperlaneClients.

(** ** What a run asked of its environment *)

Section history.
Context {E : Type} `{Env E}.
Implicit Types w : World E.

(** The environment goes from [e] to [e'] answering these calls in turn. *)
Fixpoint history (e : E) (l : list event) (e' : E) : Prop :=
  match l with
  | [] => e' = e
  | ev :: l => ∃ e1, env_answer (projT1 ev) e = (projT2 ev, e1) ∧ history e1 l e'
  end.

Lemma history_app e l1 l2 e' :
  history e (l1 ++ l2) e' ↔ ∃ e1, history e l1 e1 ∧ history e1 l2 e'.
Proof.
  revert e. induction l1 as [|ev l1 IH]; intros e; simpl.
  - split; [by intros; exists e|]. by intros (?&->&?).
  - setoid_rewrite IH. naive_solver.
Qed.

(** The trace is the history of the environment. *)
Definition linked w w' : Prop :=
  ∃ new, w_trace w' = w_trace w ++ new ∧ history (w_env w) new (w_env w').

#[export] Instance linked_preorder : PreOrder linked.
Proof.
  split.
  - intros w. exists []. by rewrite app_nil_r.
  - intros w1 w2 w3 (n1&Ht1&Hh1) (n2&Ht2&Hh2). exists (n1 ++ n2).
    split; [by rewrite Ht2, Ht1, app_assoc|]. apply history_app. by exists (w_env w2).
Qed.

Lemma linked_ask r : frame linked (ask r).
Proof.
  intros w. unfold ask. destruct (env_answer r (w_env w)) as [a e] eqn:Ha.
  exists [existT r a]. split; [done|]. by exists e.
Qed.

Lemma linked_db_exec {A} (q : query A) : frame linked (db_exec q).
Proof.
  apply frame_bind; [apply _|apply frame_attempt; exact (linked_ask DbStmt)|].
  intros [err|c] w; [reflexivity|]. unfold run_query. destruct (q c (w_db w)).
  exists []. by rewrite app_nil_r.
Qed.

Lemma linked_time_now : frame linked time_now.
Proof.
  apply frame_bind; [apply _|apply frame_attempt; exact (linked_ask TimeNow)|].
  intros. apply frame_ret, _.
Qed.

Lemma linked_InTx {A} (m : M (World E) A) : frame linked m → frame linked (InTx m).
Proof.
  intros Hm. apply frame_bind; [apply _|apply frame_wrap_err; exact (linked_ask DbBegin)|].
  intros _ w. unfold in_tx, wrap_err. specialize (Hm w).
  destruct (m w) as [[a|e|p] w1]; simpl in *; [|done..].
  pose proof (linked_ask DbCommit w1) as Hc.
  destruct (ask DbCommit w1) as [[u|e|p] w2]; simpl in *; by (etransitivity; [exact Hm|]).
Qed.

Lemma linked_asked w w' r a :
  linked w w' → asked w w' (existT r a) →
  ∃ pre post e1 e2, w_trace w' = w_trace w ++ pre ++ existT r a :: post ∧
    history (w_env w) pre e1 ∧ env_answer r e1 = (a, e2) ∧ history e2 post (w_env w').
Proof.
  intros (new&Ht&Hh) Hasked. pose proof (asked_new _ _ _ _ Hasked Ht) as Hin.
  apply list_elem_of_split in Hin as (pre&post&->).
  apply history_app in Hh as (e1&Hpre&e2&Ha&Hpost). by exists pre, post, e1, e2.
Qed.
End history.

(** The components are walked by the rules of [World]. *)
Ltac solve_linked :=
  repeat first
    [ progress intros
    | lazymatch goal with
      | |- frame linked (ask ?r) => refine (linked_ask r)
      | |- frame linked (db_exec ?q) => refine (linked_db_exec q)
      | |- frame linked (InTx ?m) => refine (linked_InTx m _)
      | |- frame linked time_now => exact linked_time_now
      end
    | progress solve_io ].

Lemma frame_lift_sum {S A} (R : S → S → Prop) `{!PreOrder R} (x : error + A) :
  frame R (lift_sum x).
Proof. destruct x; [by apply frame_throw|by apply frame_ret]. Qed.
#[local] Hint Extern 0 (frame _ (lift_sum _)) => apply frame_lift_sum, _ : frame.

(** ** The clients as an environment *)

Section stack.
Context `{KeyLib} {El : Type} `{Env El}.
Notation IO := (M (World El)).
Context (reader : configReader) (lookupEnv : string → option string) (keys : KeyStore).
Context (coingecko : CoingeckoClient) (cacheRefreshInterval : Duration).
Context (mc : MultiClient) (skip : skipGoClient).
(** How many pages of fills are read. *)
Context (fuel : nat).
Context (gas_price_dec : bigfloat → error + Z) (parse_coin : string → error + Coin)
        (HexToAddress : string → list byte) (BytesToHash : list byte → list byte)
        (tx_json : CosmosTxBody → error + string) (fmt_any : Json → string).

(** The cached CoinGecko client the oracle is made with. *)
Definition price : PriceClient (E := El) :=
  CachedPriceClient_GetSimplePrice (CoingeckoClient_GetSimplePrice coingecko) cacheRefreshInterval.

Definition with_bridge {A} (chainID : string) (cosmos : CosmosBridgeClient → IO A)
    (evm : EVMBridgeClient → IO A) : IO A :=
  client ← ClientManager_GetClient reader lookupEnv keys chainID;
  match client with CosmosClient c => cosmos c | EVMClient c => evm c end.

(** The transaction [TxFeeUUSDC] is asked about. *)
Definition dry_run_tx (gas gasFeeCap chainID : Z) : EthTx :=
  mkEthTx 2 (Some chainID) 0 None (Some gasFeeCap) gas None None [].

Definition client_answer (r : request) : IO (response r) :=
  match r with
  | GetClient chainID =>
      _ ← ClientManager_GetClient reader lookupEnv keys chainID; mret tt
  | BlockHeight chainID => with_bridge chainID Cosmos_BlockHeight EVM_BlockHeight
  | Balance chainID address denom =>
      with_bridge chainID (λ c, Cosmos_Balance c address denom) (λ _, EVM_Balance address denom)
  | FillOrderTx chainID order gateway =>
      with_bridge chainID
        (λ c, Cosmos_FillOrder reader lookupEnv c gas_price_dec tx_json order gateway)
        (λ _, EVM_FillOrder order gateway)
  | InitiateTimeoutTx chainID order gateway =>
      with_bridge chainID
        (λ c, Cosmos_InitiateTimeout reader lookupEnv c gas_price_dec tx_json order gateway)
        (λ _, EVM_InitiateTimeout order gateway)
  | InitiateBatchSettlement chainID batch =>
      with_bridge chainID
        (λ c, Cosmos_InitiateBatchSettlement reader lookupEnv c gas_price_dec HexToAddress
                BytesToHash tx_json batch)
        (λ _, EVM_InitiateBatchSettlement batch)
  | GetTxResult chainID txHash =>
      with_bridge chainID (λ c, Cosmos_GetTxResult c txHash) (λ c, EVM_GetTxResult c txHash)
  | IsSettlementComplete chainID gateway orderID =>
      with_bridge chainID (λ _, Cosmos_IsSettlementComplete gateway orderID)
        (λ c, EVM_IsSettlementComplete c gateway orderID)
  | OrderFillsByFiller chainID gateway filler =>
      with_bridge chainID
        (λ c, fills ← Cosmos_OrderFillsByFiller c fuel gateway filler;
              match fills with
              | Some fills => mret fills
              | None => throw (ErrNew "more pages of fills than the model reads")
              end)
        (λ _, EVM_OrderFillsByFiller gateway filler)
  | QueryOrderFillEvent chainID gateway orderID =>
      with_bridge chainID (λ c, Cosmos_QueryOrderFillEvent c parse_coin gateway orderID)
        (λ _, EVM_QueryOrderFillEvent gateway orderID)
  | OrderExists chainID gateway orderID blockNumber =>
      with_bridge chainID (λ _, Cosmos_OrderExists gateway orderID (Some blockNumber))
        (λ c, EVM_OrderExists c gateway orderID (Some blockNumber))
  | IsOrderRefunded chainID gateway orderID =>
      with_bridge chainID (λ _, Cosmos_IsOrderRefunded gateway orderID)
        (λ c, EVM_IsOrderRefunded c gateway orderID)
  | OrderStatusOnChain chainID gateway orderID =>
      with_bridge chainID (λ _, Cosmos_OrderStatus gateway orderID)
        (λ c, EVM_OrderStatus c gateway orderID)
  | SignerGasTokenBalance chainID =>
      with_bridge chainID Cosmos_SignerGasTokenBalance EVM_SignerGasTokenBalance
  | HasBeenDelivered domain messageID => Multi_HasBeenDelivered mc domain messageID
  | IsContract domain address => Multi_IsContract mc domain address
  | ValidatorsAndThreshold domain recipient message =>
      Multi_ValidatorsAndThreshold mc domain recipient message
  | ValidatorStorageLocations domain validators =>
      Multi_ValidatorStorageLocations mc domain validators
  | GetHyperlaneDispatch domain originChainID txHash =>
      Multi_GetHyperlaneDispatch mc domain originChainID txHash
  | QuoteProcessUUSDC domain message metadata =>
      Multi_QuoteProcessUUSDC reader price mc domain message metadata
  | Process domain message metadata =>
      Multi_Process reader lookupEnv keys mc domain message metadata
  | SkipBalance request => Skip_Balance fmt_any skip request
  | SkipRoute fd fc td tc amount => Skip_Route fmt_any skip fd fc td tc amount
  | SkipMsgs fd fc fa td tc ta amount out addrs ops =>
      Skip_Msgs fmt_any skip fd fc fa td tc ta amount out addrs ops
  | SkipTrackTx txHash chainID => Skip_TrackTx fmt_any skip txHash chainID
  | SkipStatus txHash chainID => Skip_Status fmt_any skip txHash chainID
  | EvmGetClient chainID => EVMRPC_GetClient reader lookupEnv chainID
  | EvmUSDCBalance chainID denom address => EVMRPC_GetUSDCBalance chainID denom address
  | NewSigner chainID => _ ← lift_result (signing_NewSigner reader chainID keys); mret tt
  | ExecuteTx chainID signerAddress data value to =>
      EVM_ExecuteTx reader lookupEnv LocalEthereumSigner_Sign chainID signerAddress data value to
  | GasCostUUSDC txFee chainID => Oracle_GasCostUUSDC reader price txFee chainID
  | TxFeeUUSDC gas gasFeeCap chainID =>
      Oracle_TxFeeUUSDC reader price (dry_run_tx gas gasFeeCap chainID)
  | r => ask r
  end.

Definition client_env : Env (World El) := λ r lw,
  let '(res, lw') := client_answer r lw in
  (match res with
   | Ok a => inr a
   | Err err => inl err
   | Panic p => inl (ErrNew ("panic: " +:+ p))
   end, lw').

(** ** What reaches the network *)

(** Calls that give no transaction to a node. *)
Definition quiet (r : request) : Prop :=
  match r with
  | Net (BroadcastTxSync _ _) | Net (EthSendTransaction _ _) => False
  | Net (UsdcApprove _ _ _ _ _) | Net (GwSubmitOrder _ _ _ _ _ _ _ _ _ _) => False
  | _ => True
  end.

Lemma price_quiet id currency : frame (emits quiet) (price id currency).
Proof.
  unfold price, CachedPriceClient_GetSimplePrice, CoingeckoClient_GetSimplePrice, get_json,
    RateLimitedHTTPClient_Do, time_Since.
  solve_io; done.
Qed.

Lemma GasCostUUSDC_quiet fee chainID :
  frame (emits quiet) (Oracle_GasCostUUSDC reader price fee chainID).
Proof. unfold Oracle_GasCostUUSDC. solve_io; apply price_quiet. Qed.

Lemma GetClient_quiet chainID :
  frame (emits quiet) (ClientManager_GetClient reader lookupEnv keys chainID).
Proof.
  unfold ClientManager_GetClient, create_client, lookup_client, createCosmosClient,
    createEVMClient.
  solve_io; done.
Qed.

Lemma with_bridge_quiet {A} chainID (cosmos : CosmosBridgeClient → IO A) evm :
  (∀ c, frame (emits quiet) (cosmos c)) → (∀ c, frame (emits quiet) (evm c)) →
  frame (emits quiet) (with_bridge chainID cosmos evm).
Proof.
  intros Hc He. apply frame_bind; [apply _|apply GetClient_quiet|]. intros []; auto.
Qed.

Lemma fills_pages_quiet c n gateway filler start acc :
  frame (emits quiet) (fills_pages c n gateway filler start acc : IO _).
Proof.
  revert start acc. induction n as [|n IH]; intros start acc; cbn [fills_pages].
  - solve_io.
  - unfold smart_query. solve_io; try done; apply IH.
Qed.

Lemma build_quiet rpc addr to value data chainID minTip jitter :
  frame (emits quiet) (TxBuilder_Build
    [ WithData data; WithValue value; WithTo to; WithChainID chainID; WithNonceOfSigner rpc addr;
      WithEstimatedGasLimit rpc addr to value data; WithEstimatedGasTipCap rpc minTip;
      WithEstimatedGasFeeCap rpc minTip jitter ] : IO _).
Proof.
  unfold TxBuilder_Build. cbn [fold_m].
  unfold WithData, WithTo, WithValue, WithChainID, WithNonceOfSigner, WithEstimatedGasLimit,
    WithEstimatedGasFeeCap, WithEstimatedGasTipCap.
  solve_io; done.
Qed.

(** Only the requests that send a transaction give one to a node. *)
Lemma client_answer_quiet r : read_only r → frame (emits quiet) (client_answer r).
Proof.
  intros Hr. destruct r; cbn [client_answer]; try done;
    try (apply with_bridge_quiet; intros c).
  all: unfold Cosmos_BlockHeight, EVM_BlockHeight, Cosmos_Balance, EVM_Balance, Cosmos_GetTxResult,
    EVM_GetTxResult, Cosmos_IsSettlementComplete, EVM_IsSettlementComplete, gateway_order,
    Cosmos_OrderFillsByFiller, EVM_OrderFillsByFiller, Cosmos_QueryOrderFillEvent,
    fill_transaction, blockTimeFromHeightHeader, smart_query, EVM_QueryOrderFillEvent,
    Cosmos_OrderExists, EVM_OrderExists, Cosmos_IsOrderRefunded, EVM_IsOrderRefunded,
    Cosmos_OrderStatus, EVM_OrderStatus, Cosmos_SignerGasTokenBalance, EVM_SignerGasTokenBalance,
    Multi_HasBeenDelivered, Multi_IsContract, Multi_ValidatorsAndThreshold,
    Multi_ValidatorStorageLocations, Multi_GetHyperlaneDispatch, Multi_QuoteProcessUUSDC,
    with_client, Eth_HasBeenDelivered, bind_mailbox, Cosmos_unimplemented, Eth_IsContract,
    Eth_ValidatorsAndThreshold, Eth_ISMType, getISMAddress, Cosmos_ValidatorStorageLocations,
    GetAnnouncedValidatorStorageLocations, wasm_query, Cosmos_GetHyperlaneDispatch,
    Eth_QuoteProcessUUSDC, eth_address, chain_of_domain, unimplemented, not_implemented,
    Skip_Balance, Skip_Route, Skip_Msgs, Skip_TrackTx, Skip_Status, do_json, EVMRPC_GetClient,
    EVMRPC_GetUSDCBalance, Oracle_TxFeeUUSDC.
  all: solve_io; first
    [ done | apply GetClient_quiet | apply fills_pages_quiet | apply GasCostUUSDC_quiet | apply build_quiet
    | unfold gateway_order, bind_mailbox, wasm_query, Cosmos_Balance; solve_io; done ].
Qed.

Notation stack := (client_env : Env (World El)).

(** Answering requests that send nothing gives no transaction to a node. *)
Lemma history_quiet lw l lw' :
  Forall (λ ev : event, read_only (projT1 ev)) l → history (H := stack) lw l lw' →
  emits quiet lw lw'.
Proof.
  intros Hl. revert lw. induction Hl as [|[r a] l Hr Hl IH]; intros lw; simpl; [by intros ->|].
  intros (lw1&Ha&Hh). etransitivity; [|by apply IH].
  pose proof (client_answer_quiet r Hr lw) as Hq. unfold env_answer, client_env in Ha.
  by destruct (client_answer r lw) as [res lw2]; simplify_eq/=.
Qed.

(** The answer to a request is that of its client. *)
Lemma env_answer_ok r lw a lw' :
  env_answer (Env := stack) r lw = (inr a, lw') → client_answer r lw = (Ok a, lw').
Proof.
  unfold env_answer, client_env. destruct (client_answer r lw) as [[]]; by intros [= -> ->].
Qed.

Lemma linked_quiet (w w' : World (World El)) :
  linked (H := stack) w w' → emits read_only w w' → emits quiet (w_env w) (w_env w').
Proof.
  intros (new&Ht&Hh) (new'&Ht'&Hro). rewrite Ht in Ht'. apply app_inv_head in Ht' as <-.
  by apply (history_quiet _ new).
Qed.

Lemma quiet_accepted (lw lw' : World El) : emits quiet lw lw' → accepted 0 lw lw'.
Proof.
  intros (new&Ht&Hnew). apply accepted_none. exists new. split; [done|].
  eapply Forall_impl; [exact Hnew|]. intros [r a] Hr. destruct r; try done. by destruct r.
Qed.

Lemma accepted_within n (lw lw1 lw2 lw' : World El) :
  accepted 0 lw lw1 → accepted 0 lw2 lw' → accepted n lw1 lw2 → accepted n lw lw'.
Proof.
  intros Hn1 Hn2 Hn. replace n with (0 + (n + 0))%nat by lia.
  apply (accepted_trans _ _ _ lw1); [done|]. by apply (accepted_trans _ _ _ lw2).
Qed.

(** The client a request goes to is the one made from the configuration and the keys. *)
Lemma GetClient_kept chainID (lw : World El) :
  wp (ClientManager_GetClient reader lookupEnv keys chainID) (λ r lw',
    emits quiet lw lw' ∧ ∀ client, r = Ok client →
      ∃ cfg, GetChainConfig reader chainID = Ok cfg ∧ kept_client keys chainID cfg = Ok client) lw.
Proof.
  apply wp_intro. intros r lw' Hrun. split.
  { pose proof (GetClient_quiet chainID lw) as Hq. by rewrite Hrun in Hq. }
  run_wp Hrun. unfold ClientManager_GetClient. apply wp_bind. wp_step.
  destruct (GetChainConfig reader chainID) as [cfg|e|p] eqn:Hcfg; [|by intros <-..].
  apply wp_bind. unfold lookup_client at 1. apply wp_bind. wp_step.
  case_bool_decide as Hin.
  - apply wp_bind. wp_step. destruct (kept_client keys chainID cfg) as [client|e|p] eqn:Hk.
    + apply wp_ret. intros <- ? [= <-]. eauto.
    + by intros <-.
    + by intros <-.
  - apply wp_ret. cbn beta iota. eapply wp_mono; [|by apply create_client_kept].
    intros [client|e|p] w1; [|by intros _ <-..]. intros [Hk _] <- ? [= <-]. eauto.
Qed.

(** ** Filling an order *)

(** [tx] asks the gateway to fill [order], through the client [c] the destination
    chain is configured with. *)
Definition fill_of (order : Order) (gateway : string) (c : CosmosBridgeClient)
    (tx : CosmosTxBody) : Prop :=
  ∃ cfg from src dst amount,
    GetChainConfig reader (o_DestinationChainID order) = Ok cfg ∧
    kept_client keys (o_DestinationChainID order) cfg = Ok (CosmosClient c) ∧
    from_address c = Ok from ∧
    domain_of reader (o_SourceChainID order) src ∧ domain_of reader (o_DestinationChainID order) dst ∧
    NewIntFromString (o_AmountOut order) = Some amount ∧
    ctb_Msgs tx = [fill_message order gateway from src dst amount].

(** What the answer to a fill request says of the nodes. *)
Lemma fill_answer order gateway lw a lw' :
  env_answer (Env := stack) (FillOrderTx (o_DestinationChainID order) order gateway) lw = (a, lw') →
  (accepted 0 lw lw' ∨ accepted 1 lw lw') ∧
  ∀ hash raw, a = inr (hash, raw) →
    ∃ c tx, fill_of order gateway c tx ∧ put_on_chain c hash tx lw lw'.
Proof.
  unfold env_answer, client_env. cbn [client_answer].
  destruct (with_bridge _ _ _ lw) as [r lw1] eqn:Hrun. intros Heq. injection Heq as <- <-.
  run_wp Hrun. unfold with_bridge. apply wp_bind. eapply wp_mono; [|apply GetClient_kept].
  intros [client|e|p] lw2 [Hq Hkept]; [|by intros <-; split; [left; by apply quiet_accepted|]..].
  destruct (Hkept client eq_refl) as (cfg&Hcfg&Hk). apply quiet_accepted in Hq.
  destruct client as [c|c].
  { unfold EVM_FillOrder, not_implemented. wp_steps. intros <-. split; [by left|done]. }
  apply wp_intro. intros r1 lw3 Hfill <-. apply Cosmos_FillOrder_run in Hfill as [Hacc Hok].
  split.
  { destruct Hacc as [Hacc|Hacc]; [left|right]; by apply (accepted_trans 0 _ _ lw2). }
  intros hash raw Ha. destruct r1 as [[h' raw']|e|p]; [|done..]. injection Ha as -> ->.
  destruct (Hok hash raw eq_refl) as (from&src&dst&amount&?&?&?&?&_&Hs).
  destruct (Hs hash raw eq_refl) as (tx&text&Hput&?&_). exists c, tx.
  split; [by do 5 eexists|]. eapply put_on_chain_within; [done|apply accepted_refl|done].
Qed.

Lemma FillOrder_linked order : frame (linked (H := stack)) (FillOrder (H := stack) reader order).
Proof.
  unfold FillOrder, send_fill, checkTransferSize, transfer_size, checkFeeAmount, IsWithinBpsRange,
    checkOrderAssetBalance, checkBlockConfirmations, abandon, set_order_status.
  solve_linked.
Qed.

(** A run with one request that is not read-only leaves on the nodes what that
    request left. *)
Lemma sent_history lw pre ev post lw' :
  Forall (λ ev : event, read_only (projT1 ev)) (pre ++ post) →
  history (H := stack) lw (pre ++ ev :: post) lw' →
  ∃ lw1 lw2, env_answer (Env := stack) (projT1 ev) lw1 = (projT2 ev, lw2) ∧
    accepted 0 lw lw1 ∧ accepted 0 lw2 lw'.
Proof.
  intros [Hpre Hpost]%Forall_app (lw1&Hh1&lw2&Ha&Hh2)%history_app. exists lw1, lw2. split; [done|].
  by apply history_quiet, quiet_accepted in Hh1, Hh2.
Qed.

Lemma only_sent r a pre ev post :
  Forall (λ ev : event, read_only (projT1 ev)) (pre ++ post) → existT r a ∈ pre ++ ev :: post →
  ¬ read_only r → existT r a = ev.
Proof.
  intros Hro Hin Hr. rewrite Forall_forall in Hro. specialize (Hro (existT r a)). set_solver.
Qed.

(** C13. An order is filled on chain at most once, end to end: a run of [FillOrder] over the
    real clients gets at most one transaction accepted by the nodes, and that one after
    its guards; when it returns a hash, either no transaction was accepted or exactly
    one was, the signed transaction that asks the configured gateway to fill this order
    and pays its output amount, under the recorded hash. *)
Theorem fill_order_on_chain order (w : World (World El)) r w' :
  FillOrder (H := stack) reader order w = (r, w') →
  (accepted 0 (w_env w) (w_env w') ∨
   accepted 1 (w_env w) (w_env w') ∧
   ∃ pre, w_trace w ++ pre `prefix_of` w_trace w' ∧ fill_guards reader order (w_db w) pre) ∧
  ∀ h, r = Ok h →
    accepted 0 (w_env w) (w_env w') ∨
    (fill_recorded order h (w_db w) (w_db w') ∧
     ∃ gateway c tx, GetGatewayContractAddress reader (o_DestinationChainID order) = Ok gateway ∧
       fill_of order gateway c tx ∧ put_on_chain c h tx (w_env w) (w_env w')).
Proof.
  intros Hrun. pose proof (FillOrder_linked order w) as (new&Ht&Hh). rewrite Hrun in Ht, Hh.
  destruct (wp_run _ _ _ _ _ Hrun (wp_FillOrder reader order w)) as [Hsent Hok]. simpl in Ht, Hh.
  assert (emits read_only w w' → accepted 0 (w_env w) (w_env w')) as Hquiet.
  { intros Hro. apply quiet_accepted, linked_quiet; [by exists new|done]. }
  destruct Hsent as [Hro|(pre&gateway&a&post&Ht'&Hro&Hg&Hguards)].
  { split; [left; by apply Hquiet|]. intros. left. by apply Hquiet. }
  assert (new = pre ++ existT (FillOrderTx (o_DestinationChainID order) order gateway) a :: post) as ->.
  { rewrite Ht in Ht'. by apply app_inv_head in Ht'. }
  destruct (sent_history _ _ _ _ _ Hro Hh) as (lw1&lw2&Ha&Hn1&Hn2).
  destruct (fill_answer _ _ _ _ _ Ha) as [Hacc Hsome]. split.
  - destruct Hacc as [Hacc|Hacc]; [left; by eapply accepted_within|right].
    split; [by eapply accepted_within|].
    exists pre. rewrite Ht'. split; [|done]. rewrite app_assoc. by apply prefix_app_r.
  - intros h ->. destruct (Hok h eq_refl) as [?|[Hrec (gw&raw&Hasked)]]; [left; by apply Hquiet|].
    pose proof (only_sent _ _ _ _ _ Hro (asked_new _ _ _ _ Hasked Ht) ltac:(done)) as Hev.
    pose proof (f_equal (@projT1 _ _) Hev) as Hgw. injection Hgw as ->.
    destruct (fill_answer order gateway lw1 (inr (h, raw)) lw2) as [_ Hone]; [by rewrite <-Hev in Ha|].
    destruct (Hone h raw eq_refl) as (c&tx&?&Hput). right. split; [done|]. exists gateway, c, tx.
    split_and!; [done..|by eapply put_on_chain_within].
Qed.

(** ** Settling a batch *)

(** [tx] asks the gateway to settle the orders of [batch] and to repay the solver's
    address on the source chain. *)
Definition settlement_of (chain : string) (batch : SettlementBatch) (c : CosmosBridgeClient)
    (tx : CosmosTxBody) : Prop :=
  ∃ cfg from gateway repayment,
    GetChainConfig reader chain = Ok cfg ∧ kept_client keys chain cfg = Ok (CosmosClient c) ∧
    from_address c = Ok from ∧ DestinationGatewayContractAddress reader batch = Ok gateway ∧
    RepaymentAddress HexToAddress BytesToHash reader batch = Ok repayment ∧
    ctb_Msgs tx = [mkMsgExecuteContract from gateway
      (InitiateSettlementEnvelope (OrderIDs batch) (hex_EncodeToString repayment)) []].

Lemma settle_answer chain batch lw a lw' :
  env_answer (Env := stack) (InitiateBatchSettlement chain batch) lw = (a, lw') →
  (accepted 0 lw lw' ∨ accepted 1 lw lw') ∧
  ∀ hash raw, a = inr (hash, raw) → batch ≠ [] →
    ∃ c tx, settlement_of chain batch c tx ∧ put_on_chain c hash tx lw lw'.
Proof.
  unfold env_answer, client_env. cbn [client_answer].
  destruct (with_bridge _ _ _ lw) as [r lw1] eqn:Hrun. intros Heq. injection Heq as <- <-.
  run_wp Hrun. unfold with_bridge. apply wp_bind. eapply wp_mono; [|apply GetClient_kept].
  intros [client|e|p] lw2 [Hq Hkept]; [|by intros <-; split; [left; by apply quiet_accepted|]..].
  destruct (Hkept client eq_refl) as (cfg&Hcfg&Hk). apply quiet_accepted in Hq.
  destruct client as [c|c].
  { unfold EVM_InitiateBatchSettlement, not_implemented. wp_steps. intros <-. split; [by left|done]. }
  apply wp_intro. intros r1 lw3 Hs <-. apply Cosmos_InitiateBatchSettlement_sends_once in Hs as [Hacc Hok].
  split.
  { destruct Hacc as [Hacc|Hacc]; [left|right]; by apply (accepted_trans 0 _ _ lw2). }
  intros hash raw Ha Hne. destruct r1 as [[h' raw']|e|p]; [|done..]. injection Ha as -> ->.
  destruct (Hok hash raw eq_refl Hne) as (from&gw&rep&?&?&?&_&Hsent).
  destruct (Hsent hash raw eq_refl) as (tx&text&Hput&?&_). exists c, tx.
  split; [by do 4 eexists|]. eapply put_on_chain_within; [done|apply accepted_refl|done].
Qed.

Lemma SettleBatch_linked batch : frame (linked (H := stack)) (SettleBatch (H := stack) batch).
Proof. unfold SettleBatch, record_batch. solve_linked. Qed.

(** C14. A batch is settled on chain at most once, end to end: a run of [SettleBatch] over
    the real clients gets at most one transaction accepted by the nodes; when it returns
    a hash, exactly one was, the signed transaction that asks the gateway to settle the
    orders of this batch and to repay the solver on their source chain, and the batch is
    recorded under its hash; when it fails, the database is what it was. *)
Theorem settle_batch_on_chain batch (w : World (World El)) r w' :
  SettleBatch (H := stack) batch w = (r, w') →
  (accepted 0 (w_env w) (w_env w') ∨ accepted 1 (w_env w) (w_env w')) ∧
  match r with
  | Ok h => ∃ chain raw c tx,
      batch_DestinationChainID batch = Ok chain ∧ batch_recorded h raw batch (w_db w) (w_db w') ∧
      settlement_of chain batch c tx ∧ put_on_chain c h tx (w_env w) (w_env w')
  | _ => w_db w' = w_db w
  end.
Proof.
  intros Hrun. pose proof (SettleBatch_linked batch w) as (new&Ht&Hh). rewrite Hrun in Ht, Hh.
  pose proof (SettleBatch_run _ _ _ _ Hrun) as Hdb. simpl in Ht, Hh.
  destruct (wp_run _ _ _ _ _ Hrun (wp_SettleBatch_sends batch w))
    as [[Hro Hno]|(pre&chain&a&post&Ht'&Hro&Hchain&Hhash)].
  { split; [left; apply quiet_accepted, linked_quiet; [by exists new|done]|].
    destruct r as [h|e|p]; [by destruct (Hno h)|done..]. }
  assert (new = pre ++ existT (InitiateBatchSettlement chain batch) a :: post) as ->.
  { rewrite Ht in Ht'. by apply app_inv_head in Ht'. }
  destruct (sent_history _ _ _ _ _ Hro Hh) as (lw1&lw2&Ha&Hn1&Hn2).
  destruct (settle_answer _ _ _ _ _ Ha) as [Hacc Hsome]. split.
  - destruct Hacc; [left|right]; by eapply accepted_within.
  - destruct r as [h|e|p]; [|done..]. destruct Hdb as (chain'&raw&Hchain'&_&_&Hrec).
    destruct (Hhash h eq_refl) as [raw' ->].
    destruct (Hsome h raw' eq_refl) as (c&tx&?&?); [by intros ->|].
    exists chain, raw, c, tx. split_and!; [done..|by eapply put_on_chain_within].
Qed.

(** ** Verifying a transaction *)

(** A node of the chain reported the outcome of the transaction. *)
Definition chain_outcome (chainID txHash : string) (failed : bool) (lw lw' : World El) : Prop :=
  (∃ receipt,
     asked lw lw' (existT (Net (EthTransactionReceipt chainID txHash)) (inr (Some receipt))) ∧
     failed = bool_decide (rcpt_Status receipt = ReceiptStatusFailed)) ∨
  (∃ hash result, hex_DecodeString txHash = Ok hash ∧
     asked lw lw' (existT (Net (TmTx chainID hash)) (inr result)) ∧ failed = bool_decide (rt_Code result ≠ 0)).

Lemma result_answer chainID txHash cost failure lw lw' :
  env_answer (Env := stack) (GetTxResult chainID txHash) lw = (inr (cost, failure), lw') →
  chain_outcome chainID txHash (bool_decide (is_Some failure)) lw lw'.
Proof.
  intros Hrun%env_answer_ok. cbn [client_answer] in Hrun. run_wp Hrun. unfold with_bridge.
  apply wp_bind. eapply wp_mono; [|apply GetClient_kept]. intros [client|e|p] lw1 [Hq Hkept]; [|done..].
  destruct (Hkept client eq_refl) as (cfg&_&Hk). apply kept_client_type in Hk.
  destruct client as [c|c]; destruct Hk as [_ <-]; apply wp_intro.
  - intros r1 lw2 (a&Ha&_&_&Hr)%EVM_GetTxResult_spec ->. destruct Hr as (receipt&price&->&_&_&Hf).
    left. exists receipt. split; [by eapply asked_earlier|by apply bool_decide_ext].
  - intros r1 lw2 Hr%Cosmos_GetTxResult_spec ->. destruct Hr as (hash&result&coins&?&Ha&_&_&Hf).
    right. exists hash, result. split_and!; [done|by eapply asked_earlier|by apply bool_decide_ext].
Qed.

Lemma asked_outcome (w w' : World (World El)) chainID txHash cost failure :
  linked (H := stack) w w' → emits read_only w w' →
  asked w w' (existT (GetTxResult chainID txHash) (inr (cost, failure))) →
  chain_outcome chainID txHash (bool_decide (is_Some failure)) (w_env w) (w_env w').
Proof.
  intros Hl (new&Ht&Hro) Hasked.
  destruct (linked_asked _ _ _ _ Hl Hasked) as (pre&post&lw1&lw2&Ht'&Hpre&Ha&Hpost).
  rewrite Ht in Ht'. apply app_inv_head in Ht' as ->.
  apply Forall_app in Hro as [Hro1 [_ Hro2]%Forall_cons]. apply history_quiet in Hpre, Hpost; [|done..].
  apply result_answer in Ha as [(receipt&Ha&?)|(hash&result&?&Ha&?)]; [left|right].
  - exists receipt. split; [|done]. eapply asked_later; [by eapply asked_earlier|done].
  - exists hash, result. split_and!; [done| |done]. eapply asked_later; [by eapply asked_earlier|done].
Qed.

Lemma VerifyTx_linked tx : frame (linked (H := stack)) (VerifyTx (H := stack) tx).
Proof.
  unfold VerifyTx, handleTxResultNotFound, time_Since, set_tx_status. solve_linked.
Qed.

(** C12. A verdict is the chain's, end to end: a run of [VerifyTx] over the real clients
    gives no transaction to a node, and it records SUCCESS or FAILED only when a node
    of the transaction's chain reported, for its hash, a receipt or a result that
    succeeded or failed. *)
Theorem verified_on_chain tx (w : World (World El)) r w' :
  VerifyTx (H := stack) tx w = (r, w') →
  emits quiet (w_env w) (w_env w') ∧
  (w_db w' = w_db w ∨
   ∃ status msg cost now,
     w_db w' = with_submitted_txs (update_rows (at_tx tx) (submitted_set now status msg cost))
                 (w_db w) ∧
     (status = TxStatusAbandoned ∨
      ∃ failed : bool, status = (if failed then TxStatusFailed else TxStatusSuccess) ∧
        chain_outcome (st_ChainID tx) (st_TxHash tx) failed (w_env w) (w_env w'))).
Proof.
  intros Hrun. pose proof (VerifyTx_linked tx w) as Hl. rewrite Hrun in Hl. cbn in Hl.
  destruct (wp_run _ _ _ _ _ Hrun (wp_VerifyTx tx w)) as [Hro Hdb].
  split; [by eapply linked_quiet|].
  destruct Hdb as [?|(status&msg&cost&now&Hv&Hdb)]; [by left|right].
  exists status, msg, cost, now. split; [done|]. destruct Hv as [gas c Ha _|gas f c Ha _|err t _ _ _ _].
  - right. exists false. split; [done|]. by eapply (asked_outcome _ _ _ _ gas None).
  - right. exists true. split; [done|]. by eapply (asked_outcome _ _ _ _ gas (Some f)).
  - by left.
Qed.
End stack.

(** ** Examples *)

(** The solver's keys, the chains of [sample_config], and nodes that hold the order
    and report the outcomes of transactions. *)
#[local] Instance stack_keylib : KeyLib := {|
  json_tree := λ _, inl (ErrNew "no text");
  cosmos_key := λ bs, inr bs;
  evm_key := λ _, inr [x07];
  bech32_encode := λ p _, inr (p +:+ "1solver");
  gcm_check := λ _, None;
  gcm_open := λ _ _ _, inl (ErrNew "no text") |}.

Definition stack_net (n : net_request) : error + net_response n :=
  match n as n return error + net_response n with
  | Sleep _ | EthDial _ | TmDial _ | GrpcDial _ _ | BindContract _ _ => inr tt
  | EthHeader _ => inr (1000, Some 30)
  | GwSettlementDetails _ _ _ _ => inr (mkSettlementDetails (Some 1) 875 (Some 99700000))
  | QueryBalance _ _ _ => inr (mkAbciResponse 0 "" "" (inr 5000000000))
  | QueryAccount _ _ => inr (mkAbciResponse 0 "" "" (inr (mkAccount 5 9)))
  | CosmosSign _ _ _ => inr [x02]
  | CosmosSimulate _ _ => inr 100001
  | BroadcastTxSync _ _ => inr (mkResultBroadcastTx 0 "" "" [xab])
  | LimiterWait => inr tt
  | HttpDo _ => inr (mkHttpResponse 200 "" (inr ("", JObj [("ethereum", JObj [("usd", JNum "2500")])])))
  | EthTransactionReceipt _ _ => inr (Some (mkReceipt 1 (Some 7) 21000 []))
  | n => inl (ErrNew "connection refused")
  end.

Definition stack_nodes : Env unit := sim_env (λ r,
  match r as r return error + response r with Net n => stack_net n | r => offline r end).

Definition stack_order : Order :=
  mkOrder 1 0 0 "42161" "osmosis-1" "0xgateway" [] [] "100000000" "99700000" 1
    (hex_EncodeToString (repeat xaa 32)) (3600 * Second) "0xc" 500 None None None None
    OrderStatusPending None.

Definition sample_stack : Env (World unit) :=
  client_env (H0 := stack_nodes) sample_reader (λ _, None) sample_keys (mkCoingeckoClient "" "") Hour ∅
    (mkSkipGoClient "") 1 (λ _, inr (10 ^ 17)) (λ _, inl (ErrNew "no coin")) (λ _, []) id
    (λ _, inr "{}") (λ _, "").

Definition stack_start : World (World unit) := mkWorld empty_db empty_memory (sim_world empty_db) [].

Definition stack_fill := FillOrder (H := sample_stack) sample_reader stack_order stack_start.

Lemma fill_order_on_chain_witness :
  stack_fill.1 = Ok "AB"%string ∧
  accepted 1 (w_env stack_start) (w_env stack_fill.2) ∧
  fill_recorded stack_order "AB" empty_db (w_db stack_fill.2).
Proof.
  assert (stack_fill = (Ok "AB"%string, stack_fill.2)) as Hrun by (vm_compute; reflexivity).
  split; [by rewrite Hrun|]. apply fill_order_on_chain in Hrun as [_ Hok].
  destruct (Hok "AB"%string eq_refl) as [(new&Ht&Hn)|(Hrec&gateway&c&tx&_&_&Hput)].
  - exfalso. vm_compute in Ht. subst new. vm_compute in Hn. discriminate Hn.
  - split; [exact (proj1 Hput)|exact Hrec].
Defined.

Definition stack_settle :=
  SettleBatch (H := sample_stack) [settler_row]
    (mkWorld settler_db empty_memory (sim_world empty_db) []).

Lemma settle_batch_on_chain_witness :
  stack_settle.1 = Ok "AB"%string ∧
  accepted 1 (sim_world empty_db) (w_env stack_settle.2) ∧
  ∃ raw, batch_recorded "AB" raw [settler_row] settler_db (w_db stack_settle.2).
Proof.
  assert (stack_settle.1 = Ok "AB"%string) as Hr by (vm_compute; reflexivity).
  split; [exact Hr|].
  pose proof (settle_batch_on_chain _ _ _ _ _ _ _ _ _ _ _ _ _ _ _ _ _ _
    (surjective_pairing stack_settle)) as [_ Hok].
  rewrite Hr in Hok. destruct Hok as (chain&raw&c&tx&_&Hrec&_&Hput).
  split; [exact (proj1 Hput)|]. exists raw. exact Hrec.
Defined.

(** A pending transaction on Arbitrum, whose receipt says that it succeeded. *)
Definition stack_verify :=
  VerifyTx (H := sample_stack) (sent_tx 1 "0xsettle")
    (mkWorld (with_submitted_txs (λ _, [sent_tx 1 "0xsettle"]) empty_db) empty_memory (sim_world empty_db) []).

Lemma verified_on_chain_witness :
  st_TxStatus <$> submitted_txs (w_db stack_verify.2) = [TxStatusSuccess] ∧
  emits quiet (sim_world empty_db) (w_env stack_verify.2).
Proof.
  split; [vm_compute; reflexivity|].
  exact (proj1 (verified_on_chain _ _ _ _ _ _ _ _ _ _ _ _ _ _ _ _ _ _ (surjective_pairing stack_verify))).
Defined.
