(* ===== verification/CliReports.v ===== *)
(** * CliReports: the reports of the command line tool

    cmd/solvercli/cmd: the commands that only read (profit, balances, inventory,
    settlements, rebalances) and the printing of amounts they share (utils.go).  A
    command is a computation that returns the lines it prints, without the empty ones and
    the rules; a fatal log line, or an
    error line followed by a return, ends it with an error.  Reading the flags, the
    configuration, the keys and the database connection comes before: the commands
    take the configuration reader and the flags. *)
From Stdlib Require Import Ascii.
From S2P Require Import Prelude GoLib Config Json Network SkipGoTypes Database World.
From S2P Require Import Prices Oracle Keys Settlements Interfaces OrderSettler.

(** ** Printing amounts *)

(** [strings.TrimRight(s, c)] for one character *)
Fixpoint trim_right (c : ascii) (s : string) : string :=
  match s with
  | EmptyString => EmptyString
  | String a s' =>
      match trim_right c s' with
      | EmptyString => if Ascii.eqb a c then EmptyString else String a EmptyString
      | t => String a t
      end
  end.

(** The largest [prec]-bit float that is at most [n / d], for [n >= 0] and [d > 0]:
    rounding in the mode [big.ToNegativeInf]. *)
Definition bf_floor (prec n d : Z) : bigfloat :=
  if n =? 0 then BF 0 0
  else
    let e0 := Z.log2 n - Z.log2 d - prec in
    let '(n0, d0) := scaled n d e0 in
    let e := if 2 ^ prec * d0 <=? n0 then e0 + 1 else e0 in
    let '(n1, d1) := scaled n d e in
    BF (n1 / d1) e.

(** [z] thousandths, millionths, ...: the integer [z] with [k] decimals. *)
Definition decimal_text (k z : Z) : string :=
  bigint_String (z / 10 ^ k) +:+ "." +:+ pad k (z mod 10 ^ k).

(** [x.Text('f', k)] for [k > 0]: the nearest decimal, ties to even. *)
Definition bf_Text_f (k : Z) (x : bigfloat) : string :=
  (if bf_num x <? 0 then "-" else "") +:+
  decimal_text k (round_half_even (Z.abs (bf_num x) * 10 ^ k) (bf_den x)).

Definition CCTP_TOKEN_DECIMALS : Z := 6.

(** [balance.Bytes()] are those of the absolute value. *)
Definition normalizeBalance (balance : option Z) (decimals : Z) : string :=
  match balance with
  | None => "0"
  | Some b =>
      let normalizedBalance := bf_floor 53 (Z.abs b) (10 ^ decimals) in
      trim_right "." (trim_right "0" (bf_Text_f 18 normalizedBalance))
  end.

Definition usdc_text (z : Z) : string := normalizeBalance (Some z) CCTP_TOKEN_DECIMALS.

(** [fmt.Printf("%s", x)]: [*big.Float] has no format for this verb. *)
Definition bf_percent_s (x : bigfloat) : string := "%!s(*big.Float=" +:+ bf_String x +:+ ")".

(** [new(big.Float).Quo(new(big.Float).SetInt(z), usdcMultiplier)]: the precision is the
    larger of the two, 64 bits or those of [z]. *)
Definition in_usdc (z : Z) : bigfloat :=
  bf_Quo (Z.max 64 (Z.log2 (Z.abs z) + 1)) (bf_SetInt z) (bf_SetInt 1000000).

(** [x.Add(x, y)], 64 bits. *)
Definition bf_Add (x y : bigfloat) : bigfloat :=
  bf_round 64 (bf_num x * bf_den y + bf_num y * bf_den x) (bf_den x * bf_den y).

(** ** Records *)

Record ChainBalance := mkChainBalance {
  bal_ChainID : string;
  bal_AssetDenom : string;
  bal_Balance : Z;
  bal_Symbol : string;
  bal_Decimals : Z;
  bal_PriceUSD : option bigfloat;
  bal_ValueUSD : option bigfloat
}.

Record ChainGasBalance := mkChainGasBalance {
  gb_ChainID : string;
  gb_Balance : Z;
  gb_Symbol : string;
  gb_Decimals : Z;
  gb_WarningThreshold : Z;
  gb_CriticalThreshold : Z
}.

(** What [getBalances] fills in. *)
Record Balances := mkBalances {
  usdcBalances : gmap string ChainBalance;
  gasBalances : gmap string ChainGasBalance;
  customBalances : gmap string (list ChainBalance);
  totalUSDCBalance : Z;
  totalCustomAssetsUSDValue : bigfloat
}.

Definition no_balances : Balances := mkBalances ∅ ∅ ∅ 0 (BF 0 0).

(** The flags of a command: [None] for a flag it does not declare. *)
Definition Flags : Type := string → option string.

(** [cmd.Flags().Lookup(name).Value.String()] *)
Definition flag_value (flags : Flags) (name : string) : result string :=
  match flags name with
  | Some v => Ok v
  | None => Panic "invalid memory address or nil pointer dereference"
  end.

Section reports.
Context `{KeyLib} {E : Type} `{Env E}.
Notation IO := (M (World E)).
Context (reader : configReader).
(** [new(big.Float).SetString] *)
Context (bigfloat_SetString : string → option bigfloat).

(** ** Profit *)

(** The sum of the texts that are integers. *)
Definition sum_texts (texts : list string) : Z :=
  foldl (λ total text, match bigint_SetString text with
                       | Some z => total + z
                       | None => total
                       end) 0 texts.

Definition calculateProfit : IO (list string) :=
  settlements ← db_exec (GetAllOrderSettlementsWithSettlementStatus SettlementStatusComplete);
  let totalProfit := sum_texts (os_Profit <$> settlements) in
  submittedTxs ← db_exec GetAllSubmittedTxs;
  let totalTxCosts := sum_texts (omap st_TxCostUusdc submittedTxs) in
  let netProfit := totalProfit - totalTxCosts in
  mret [ "Solver Profit Summary:";
         "Total Settlement Profit: " +:+ bf_percent_s (in_usdc totalProfit) +:+ " USDC";
         "Total Transaction Costs: " +:+ bf_percent_s (in_usdc totalTxCosts) +:+ " USDC";
         "Net Profit: " +:+ bf_Text_f 6 (in_usdc netProfit) +:+ " USDC" ]%string.

(** ** Balances *)

Definition gas_token_denom (chainConfig : ChainConfig) : result string :=
  if (Type_ chainConfig =? ChainType_COSMOS)%string then
    match Cosmos chainConfig with
    | Some c => Ok (cosmos_GasDenom c)
    | None => Panic "nil dereference"
    end
  else if (Type_ chainConfig =? ChainType_EVM)%string then
    Ok (ChainName chainConfig +:+ "-native")
  else Ok "".

(** The address the balances of a chain are asked for. *)
Definition balance_address (chainConfig : ChainConfig) (evmAddress osmosisAddress : string) :
    string :=
  if (Type_ chainConfig =? ChainType_EVM)%string && negb (evmAddress =? "")%string then evmAddress
  else if (Type_ chainConfig =? ChainType_COSMOS)%string && negb (osmosisAddress =? "")%string
  then osmosisAddress
  else SolverAddress chainConfig.

Definition custom_assets (flag : string) : result (gmap string (list string)) :=
  if (flag =? "")%string then Ok ∅
  else result_wrap "parsing custom-assets JSON: "
         (rbind (of_sum (json_tree flag)) (json_Unmarshal (dec_map (dec_list dec_string)))).

Definition buildBalancesRequest (flags : Flags) : IO BalancesRequest :=
  customAssetMap ← lift_result (rbind (flag_value flags "custom-assets") custom_assets);
  evmAddress ← lift_result (flag_value flags "evm-address");
  osmosisAddress ← lift_result (flag_value flags "osmosis-address");
  entries ← range (map_to_list (Chains (config reader)));
  fold_m (λ (request : BalancesRequest) '(_, chain),
    chainConfig ← wrap_err ("getting chain config for " +:+ ChainID chain +:+ ": ")
      (lift_result (GetChainConfig reader (ChainID chain)));
    gasTokenDenom ← lift_result (gas_token_denom chainConfig);
    let denoms := [USDCDenom chainConfig; gasTokenDenom]
                  ++ default [] (customAssetMap !! ChainID chain) in
    mret (<[ChainID chain := mkChainRequest
              (balance_address chainConfig evmAddress osmosisAddress) denoms]> request)) ∅ entries.

Definition processUSDCBalance (chainID : string) (chainConfig : ChainConfig)
    (chainResp : ChainResponse) (b : Balances) : result Balances :=
  match cr_Denoms chainResp !! USDCDenom chainConfig with
  | None => Ok b
  | Some usdcDetail =>
      match bigint_SetString (dd_Amount usdcDetail) with
      | None => Err (ErrNew ("invalid USDC amount for chain " +:+ chainID))
      | Some balance =>
          Ok (mkBalances
                (<[chainID := mkChainBalance chainID (USDCDenom chainConfig) balance "USDC"
                                CCTP_TOKEN_DECIMALS None None]> (usdcBalances b))
                (gasBalances b) (customBalances b) (totalUSDCBalance b + balance)
                (totalCustomAssetsUSDValue b))
      end
  end.

Definition processGasBalance (chainID : string) (chainConfig : ChainConfig)
    (chainResp : ChainResponse) (b : Balances) : result Balances :=
  rbind (gas_token_denom chainConfig) (λ gasTokenDenom,
  match cr_Denoms chainResp !! gasTokenDenom with
  | None => Ok b
  | Some gasDetail =>
      match bigint_SetString (dd_Amount gasDetail) with
      | None => Err (ErrNew ("invalid gas token amount for chain " +:+ chainID))
      | Some balance =>
          rbind (result_wrap ("getting gas alert thresholds for " +:+ chainID +:+ ": ")
                   (GetGasAlertThresholds reader chainID)) (λ '(warning, critical),
          Ok (mkBalances (usdcBalances b)
                (<[chainID := mkChainGasBalance chainID balance (GasTokenSymbol chainConfig)
                                (GasTokenDecimals chainConfig) warning critical]> (gasBalances b))
                (customBalances b) (totalUSDCBalance b) (totalCustomAssetsUSDValue b)))
      end
  end).

(** One denom: the USDC denom and the denom equal to the gas token's symbol are
    skipped. *)
Definition process_custom (chainID : string) (chainConfig : ChainConfig) (b : Balances)
    (entry : string * DenomDetail) : result Balances :=
  let '(denom, detail) := entry in
  if (denom =? USDCDenom chainConfig)%string || (denom =? GasTokenSymbol chainConfig)%string
  then Ok b else
  match bigint_SetString (dd_Amount detail), bigfloat_SetString (dd_ValueUSD detail),
        bigfloat_SetString (dd_Price detail) with
  | None, _, _ =>
      Err (ErrNew ("invalid amount for chain " +:+ chainID +:+ " denom " +:+ denom))
  | _, None, _ =>
      Err (ErrNew ("invalid USD value for chain " +:+ chainID +:+ " denom " +:+ denom))
  | _, _, None =>
      Err (ErrNew ("invalid price for chain " +:+ chainID +:+ " denom " +:+ denom))
  | Some balance, Some valueUSD, Some price =>
      Ok (mkBalances (usdcBalances b) (gasBalances b)
            (<[chainID := default [] (customBalances b !! chainID)
                 ++ [mkChainBalance chainID denom balance "" (dd_Decimals detail) (Some price)
                       (Some valueUSD)]]> (customBalances b))
            (totalUSDCBalance b) (bf_Add (totalCustomAssetsUSDValue b) valueUSD))
  end.

Definition processCustomBalances (chainID : string) (chainConfig : ChainConfig)
    (chainResp : ChainResponse) (b : Balances) : IO Balances :=
  entries ← range (map_to_list (cr_Denoms chainResp));
  fold_m (λ b entry, lift_result (process_custom chainID chainConfig b entry)) b entries.

Definition process_chain (b : Balances) (entry : string * ChainResponse) : IO Balances :=
  let '(chainID, chainResp) := entry in
  chainConfig ← wrap_err ("getting chain config for " +:+ chainID +:+ ": ")
    (lift_result (GetChainConfig reader chainID));
  b ← wrap_err "processing USDC balance: "
    (lift_result (processUSDCBalance chainID chainConfig chainResp b));
  b ← wrap_err "processing gas balance: "
    (lift_result (processGasBalance chainID chainConfig chainResp b));
  wrap_err "processing custom balances: " (processCustomBalances chainID chainConfig chainResp b).

Definition getBalances (flags : Flags) : IO Balances :=
  request ← wrap_err "building balances request: " (buildBalancesRequest flags);
  skipResp ← wrap_err "fetching balances: " (ask (SkipBalance request));
  entries ← range (map_to_list (skipResp : BalancesResponse));
  fold_m process_chain no_balances entries.

(** The lines on a chain both commands print; a chain without a gas balance has a nil
    entry in the map. *)
Definition chain_lines (b : Balances) (chainID : string) (usdc : ChainBalance) :
    result (list string) :=
  match gasBalances b !! chainID with
  | None => Panic "invalid memory address or nil pointer dereference"
  | Some gas =>
      Ok ([ "Chain: " +:+ chainID;
            "  USDC Balance: " +:+ usdc_text (bal_Balance usdc) +:+ " USDC";
            "  Gas Balance: " +:+ normalizeBalance (Some (gb_Balance gas)) (gb_Decimals gas)
              +:+ " " +:+ gb_Symbol gas ]%string
          ++ (if gb_Balance gas <? gb_CriticalThreshold gas
              then ["  ⚠️  Gas balance below critical threshold!"]%string
              else if gb_Balance gas <? gb_WarningThreshold gas
              then ["  ⚠️  Gas balance below warning threshold"]%string else []))
  end.

(** [%.2f] of a [*big.Float] *)
Definition usd_text (value : option bigfloat) : string :=
  match value with Some x => bf_Text_f 2 x | None => "<nil>" end.

Definition custom_lines (b : Balances) (chainID : string) : list string :=
  (λ asset, "  " +:+ bal_AssetDenom asset +:+ " Balance: "
            +:+ normalizeBalance (Some (bal_Balance asset)) (bal_Decimals asset) +:+ " "
            +:+ bal_AssetDenom asset +:+ " (" +:+ usd_text (bal_ValueUSD asset) +:+ " USD)")%string
  <$> default [] (customBalances b !! chainID).

Definition balancesCmd (flags : Flags) : IO (list string) :=
  b ← getBalances flags;
  entries ← range (map_to_list (usdcBalances b));
  chains ← fold_m (λ lines '(chainID, usdc),
    new ← lift_result (chain_lines b chainID usdc);
    mret (lines ++ new ++ custom_lines b chainID)) [] entries;
  mret (["On-Chain Balances:"]%string ++ chains
        ++ ["Totals Across All Chains:";
            "Total USDC Balance: " +:+ usdc_text (totalUSDCBalance b) +:+ " USDC"]%string
        ++ (if 0 <? bf_num (totalCustomAssetsUSDValue b)
            then ["Total Custom Assets USD Value: " +:+ bf_Text_f 2 (totalCustomAssetsUSDValue b)
                    +:+ " USD"]%string else [])).

(** ** Settlements *)

(** The groups by chain pair: the amount and the number of settlements. *)
Definition group_settlement (groups : gmap (string * string) (Z * Z)) (p : PendingSettlement) :
    gmap (string * string) (Z * Z) :=
  let pair := (ps_SourceChainID p, ps_DestinationChainID p) in
  let '(amount, count) := default (0, 0) (groups !! pair) in
  <[pair := (amount + ps_Amount p, count + 1)]> groups.

Definition group_lines (entries : list (string * string * (Z * Z))) : list string * Z :=
  foldl (λ '(lines, total) '(chains, (amount, count)),
    (lines ++ ["From " +:+ chains.1 +:+ " to " +:+ chains.2 +:+ ":";
               "  Amount: " +:+ usdc_text amount +:+ " USDC (" +:+ bigint_String count
                 +:+ " settlements)"]%string, total + amount)) ([], 0) entries.

Definition settlementsCmd : IO (list string) :=
  pendingSettlements ← DetectPendingSettlements reader false;
  entries ← range (map_to_list (foldl group_settlement ∅ pendingSettlements));
  let '(lines, totalPending) := group_lines entries in
  mret (["Pending Settlements:"]%string ++ lines
        ++ ["Total Pending Settlements: " +:+ usdc_text totalPending +:+ " USDC"]%string).

(** ** Rebalances *)

Definition rebalance_lines (transfer : RebalanceTransfer) (amount : Z) : list string :=
  [ "From " +:+ rt_SourceChainID transfer +:+ " to " +:+ rt_DestinationChainID transfer +:+ ":";
    "  Amount: " +:+ usdc_text amount +:+ " USDC";
    "  Tx Hash: " +:+ rt_TxHash transfer ]%string.

(** The lines on the transfers and their total; [bad] is what an amount that is no
    integer does. *)
Definition rebalance_report (bad : result (list string * Z)) (transfers : list RebalanceTransfer) :
    result (list string * Z) :=
  foldl (λ acc transfer,
    rbind acc (λ '(lines, total),
    match bigint_SetString (rt_Amount transfer) with
    | None => bad
    | Some amount => Ok (lines ++ rebalance_lines transfer amount, total + amount)
    end)) (Ok ([], 0)) transfers.

Definition rebalancesCmd : IO (list string) :=
  transfers ← db_exec GetAllPendingRebalanceTransfers;
  '(lines, total) ← lift_result (rebalance_report
    (Err (ErrNew "Failed to get transfer amount big.Int")) transfers);
  mret (["Pending Rebalance Transfers:"]%string ++ lines
        ++ ["Total Pending Rebalances: " +:+ usdc_text total +:+ " USDC"]%string).

(** ** Inventory *)

Definition inventoryCmd (flags : Flags) : IO (list string) :=
  pendingSettlements ← DetectPendingSettlements reader false;
  pendingRebalances ← db_exec GetAllPendingRebalanceTransfers;
  b ← getBalances flags;
  entries ← range (map_to_list (usdcBalances b));
  chains ← fold_m (λ lines '(chainID, usdc),
    new ← lift_result (chain_lines b chainID usdc); mret (lines ++ new)) [] entries;
  let settlements := concat ((λ p,
    [ "From " +:+ ps_SourceChainID p +:+ " to " +:+ ps_DestinationChainID p +:+ ":";
      "  Amount: " +:+ usdc_text (ps_Amount p) +:+ " USDC" ]%string) <$> pendingSettlements) in
  let totalPendingSettlements := foldl (λ t p, t + ps_Amount p) 0 pendingSettlements in
  '(rebalances, totalPendingRebalances) ← lift_result (rebalance_report
    (Panic "invalid memory address or nil pointer dereference") pendingRebalances);
  let totalUSDCPosition := totalUSDCBalance b + totalPendingSettlements + totalPendingRebalances in
  mret (["Complete Solver Inventory:"; "On-Chain Balances:"]%string ++ chains
        ++ ["Pending Settlements:"]%string ++ settlements
        ++ ["Pending Rebalance Transfers:"]%string ++ rebalances
        ++ ["Totals Across All Chains:";
            "  Available USDC Inventory: " +:+ usdc_text (totalUSDCBalance b) +:+ " USDC";
            "  Pending Settlements: " +:+ usdc_text totalPendingSettlements +:+ " USDC";
            "  Pending Rebalances: " +:+ usdc_text totalPendingRebalances +:+ " USDC";
            "  Total USDC Position: " +:+ usdc_text totalUSDCPosition +:+ " USDC"]%string
        ++ (if bool_decide (customBalances b = ∅) then []
            else ["Total Custom Assets Value: " +:+ bf_Text_f 2 (totalCustomAssetsUSDValue b)
                    +:+ " USD"]%string)).
End reports.

(** The flags the commands declare: their own, then those of the root command. *)
Definition root_flags : list string :=
  ["config"; "keys"; "key-store-type"; "aes-key-hex"; "sqlite-db-path"; "migrations-path"]%string.
Definition balances_flags : list string :=
  ["custom-assets"; "evm-address"; "osmosis-address"]%string ++ root_flags.
Definition inventory_flags : list string := ["custom-assets"]%string ++ root_flags.

(** A command declares exactly these flags. *)
Definition declares (flags : Flags) (names : list string) : Prop :=
  ∀ name, is_Some (flags name) ↔ name ∈ names.

(** ** Theorems *)

Section theorems.
Context `{KeyLib} {E : Type} `{Env E}.
Implicit Types w : World E.
Context (reader : configReader) (bigfloat_SetString : string → option bigfloat).

(** *** Inventory *)

(** Balances cannot be asked for under a command that has no flag for the addresses. *)
Lemma getBalances_no_flag flags w :
  flags "evm-address"%string = None →
  wp (getBalances reader bigfloat_SetString flags) (λ r _, ∀ b, r ≠ Ok b) w.
Proof.
  intros Hno. unfold getBalances, buildBalancesRequest. apply wp_bind, wp_wrap_err, wp_bind.
  wp_step. destruct (rbind _ custom_assets) as [assets|e|p]; [|done..].
  apply wp_bind. wp_step. unfold flag_value. by rewrite Hno.
Qed.

(** The inventory command never prints its report: it reads the balances with a flag
    it does not declare. *)
Theorem inventory_never_reports flags w lines :
  declares flags inventory_flags →
  (inventoryCmd reader bigfloat_SetString flags w).1 ≠ Ok lines.
Proof.
  intros Hf. assert (flags "evm-address"%string = None) as Hno.
  { destruct (flags "evm-address"%string) eqn:Hv; [|done].
    assert ("evm-address"%string ∈ inventory_flags) as Hin by (apply Hf; eauto).
    unfold inventory_flags, root_flags in Hin. set_solver. }
  destruct (inventoryCmd _ _ _ w) as [r w'] eqn:Hrun. run_wp Hrun. unfold inventoryCmd.
  apply wp_bind, wp_intro. intros [ps|e|p] w1 _; [|by intros <-..].
  apply wp_bind, wp_intro. intros [rs|e|p] w2 _; [|by intros <-..].
  apply wp_bind. eapply wp_mono; [|by apply getBalances_no_flag].
  intros [b|e|p] w3 Hb; [by destruct (Hb b)|by intros <-..].
Qed.

(** *** Settlements *)

(** The amounts of the groups add up to those of the settlements. *)
Definition groups_total (groups : gmap (string * string) (Z * Z)) : Z :=
  sum_list_Z ((λ g, g.2.1) <$> map_to_list groups).

Lemma group_settlement_total groups p :
  groups_total (group_settlement groups p) = groups_total groups + ps_Amount p.
Proof.
  unfold group_settlement, groups_total.
  set (pair := (ps_SourceChainID p, ps_DestinationChainID p)).
  destruct (groups !! pair) as [[amount count]|] eqn:Hp; cbn [default from_option id].
  - rewrite <-insert_delete_eq.
    rewrite (map_to_list_insert (delete pair groups)) by apply lookup_delete_eq.
    rewrite <-(map_to_list_delete groups pair (amount, count) Hp). simpl. lia.
  - rewrite map_to_list_insert by done. rewrite fmap_cons. unfold sum_list_Z. cbn [foldr fst snd]. lia.
Qed.

Lemma groups_total_spec ps :
  groups_total (foldl group_settlement ∅ ps) = sum_list_Z (ps_Amount <$> ps).
Proof.
  induction ps as [|p ps IH] using rev_ind; [done|].
  rewrite foldl_snoc, group_settlement_total, IH, fmap_app, sum_list_Z_app. simpl. lia.
Qed.

Lemma group_lines_total entries : (group_lines entries).2 = sum_list_Z ((λ g, g.2.1) <$> entries).
Proof.
  unfold group_lines. induction entries as [|[ch [a c]] entries IH] using rev_ind; [done|].
  rewrite foldl_snoc, fmap_app, sum_list_Z_app. destruct (foldl _ _ entries) as [ls t].
  simpl in *. lia.
Qed.

(** The report of settlements sends nothing and changes nothing, and its total is the sum
    of the amounts of the pending settlements, whatever the order of the groups. *)
Theorem settlements_total w lines w' :
  settlementsCmd reader w = (Ok lines, w') →
  emits read_only w w' ∧ w_db w' = w_db w ∧
  ∃ ps, (DetectPendingSettlements reader false w).1 = Ok ps ∧
    last lines = Some ("Total Pending Settlements: "
      +:+ usdc_text (sum_list_Z (ps_Amount <$> ps)) +:+ " USDC")%string.
Proof.
  intros Hrun. run_wp Hrun. unfold settlementsCmd. apply wp_bind, wp_intro.
  intros r1 w1 Hd. pose proof Hd as (Hem&Hdb&_)%DetectPendingSettlements_run.
  destruct r1 as [ps|e|p]; [|done..].
  apply wp_bind, wp_range. intros entries a e Hentries.
  destruct (group_lines entries) as [ls total] eqn:Hg. apply wp_ret. intros [= <-].
  split; [by solve_emits|]. split; [done|]. exists ps. split; [by rewrite Hd|].
  rewrite app_comm_cons, last_snoc. do 3 f_equal.
  rewrite <-groups_total_spec. pose proof (group_lines_total entries) as Ht. rewrite Hg in Ht.
  simpl in Ht. rewrite Ht. unfold groups_total. by rewrite Hentries.
Qed.

(** *** Settled orders *)

(** No source chain said that an order does not exist or is not unfilled. *)
Definition unsettled (ev : event) : Prop :=
  match projT1 ev as r return error + response r → Prop with
  | OrderExists _ _ _ _ => λ a, ∀ exists_ amount, a = inr (exists_, amount) → exists_ = true
  | OrderStatusOnChain _ _ _ => λ a, ∀ status, a = inr status → status = GatewayOrderStatusUnfilled
  | _ => λ _, True
  end (projT2 ev).

Definition unsettled_post {A} (r : result A) w w' : Prop :=
  (∀ p, r ≠ Panic p) → emits_ev unsettled w w'.

Lemma detect_fill_nil chain pending fill w :
  wp (detect_fill reader false chain pending fill) (λ r w', unsettled_post r w w') w.
Proof.
  unfold detect_fill, mark_and_skip. cbn [andb]. wp_steps; intros Hnp.
  all: try (by destruct (Hnp _ eq_refl)).
  all: solve_emits_ev; intros ? [= <-] || intros ?? [= <- <-].
  all: first [by apply negb_false_iff|apply Z.eqb_eq; by apply negb_false_iff].
Qed.

Lemma detect_chain_nil pending chain w :
  wp (detect_chain reader false pending chain) (λ r w', unsettled_post r w w') w.
Proof.
  unfold detect_chain. wp_steps; try (intros _; by solve_emits_ev).
  apply (wp_fold_m (λ _ _ w', emits_ev unsettled w w')); [by solve_emits_ev| |by intros ? w1 Hw1 _].
  intros _ fill _ ps w1 _ Hw1. eapply wp_mono; [|apply detect_fill_nil].
  intros [ps'|err|p'] w2 Hw2; [|intros _|by intros Hnp; destruct (Hnp p' eq_refl)];
    (etransitivity; [exact Hw1|by apply Hw2]).
Qed.

Lemma detect_nil w :
  wp (DetectPendingSettlements reader false) (λ r w', unsettled_post r w w') w.
Proof.
  unfold DetectPendingSettlements. wp_steps.
  apply (wp_fold_m (λ _ _ w', emits_ev unsettled w w')); [by solve_emits_ev| |by intros ? w1 Hw1 _].
  intros _ chain _ ps w1 _ Hw1. eapply wp_mono; [|apply detect_chain_nil].
  intros [ps'|err|p'] w2 Hw2; [|intros _|by intros Hnp; destruct (Hnp p' eq_refl)];
    (etransitivity; [exact Hw1|by apply Hw2]).
Qed.

(** A settled order breaks the report: as soon as a source chain answers that an order
    the solver filled is no longer unfilled, the commands that pass a nil map of seen
    orders panic, so the settlements report ends there. *)
Theorem settlements_panics w r w' chainID gateway orderID status :
  settlementsCmd reader w = (r, w') →
  asked w w' (existT (OrderStatusOnChain chainID gateway orderID) (inr status)) →
  status ≠ GatewayOrderStatusUnfilled → ∃ p, r = Panic p.
Proof.
  intros Hrun Hasked Hst. revert Hasked. run_wp Hrun. unfold settlementsCmd. apply wp_bind.
  eapply wp_mono; [|apply detect_nil]. intros [ps|err|p] w1 Hw1; [| |by intros <- _; eauto].
  - apply wp_bind, wp_range. intros entries a e _. destruct (group_lines entries). apply wp_ret.
    intros <- Hasked. exfalso. apply Hst.
    assert (emits_ev unsettled w (after MapOrder a e w1)) as Hev
      by (apply emits_ev_after; [by apply Hw1|done]).
    exact (emits_ev_asked _ _ _ _ Hev Hasked status eq_refl).
  - intros <- Hasked. exfalso. apply Hst.
    exact (emits_ev_asked _ _ _ _ (Hw1 ltac:(done)) Hasked status eq_refl).
Qed.

(** *** Balances *)

(** The USDC balance the service reported for a chain. *)
Definition usdc_of (chainID : string) (chainResp : ChainResponse) : option Z :=
  match GetChainConfig reader chainID with
  | Ok chainConfig =>
      cr_Denoms chainResp !! USDCDenom chainConfig ≫= λ detail, bigint_SetString (dd_Amount detail)
  | _ => None
  end.

(** [b'] is [b] with the balance [z] of [chainID] entered and added. *)
Definition usdc_entered (chainID : string) (z : option Z) (b b' : Balances) : Prop :=
  match z with
  | Some z => ∃ entry, bal_Balance entry = z ∧
      usdcBalances b' = <[chainID := entry]> (usdcBalances b) ∧
      totalUSDCBalance b' = totalUSDCBalance b + z
  | None => usdcBalances b' = usdcBalances b ∧ totalUSDCBalance b' = totalUSDCBalance b
  end.

Definition same_usdc (b b' : Balances) : Prop :=
  usdcBalances b' = usdcBalances b ∧ totalUSDCBalance b' = totalUSDCBalance b.

Lemma processUSDCBalance_entered chainID cfg resp b b' :
  GetChainConfig reader chainID = Ok cfg → processUSDCBalance chainID cfg resp b = Ok b' →
  usdc_entered chainID (usdc_of chainID resp) b b'.
Proof.
  intros Hcfg. unfold processUSDCBalance, usdc_of. rewrite Hcfg.
  destruct (cr_Denoms resp !! _) as [d|]; simpl; [|by intros [= <-]].
  destruct (bigint_SetString (dd_Amount d)) as [z|]; [|done]. intros [= <-].
  by refine (ex_intro _ _ (conj _ (conj eq_refl eq_refl))).
Qed.

Lemma processGasBalance_same chainID cfg resp b b' :
  processGasBalance reader chainID cfg resp b = Ok b' → same_usdc b b'.
Proof.
  unfold processGasBalance. intros (denom&_&Hp)%result_bind_ok.
  destruct (cr_Denoms resp !! denom) as [d|]; [|by injection Hp as <-].
  destruct (bigint_SetString (dd_Amount d)) as [z|]; [|done].
  apply result_bind_ok in Hp as ([warning critical]&_&Hp). by injection Hp as <-.
Qed.

Lemma process_custom_same chainID cfg b entry b' :
  process_custom bigfloat_SetString chainID cfg b entry = Ok b' → same_usdc b b'.
Proof. destruct entry. unfold process_custom. repeat case_match; intros; simplify_eq; by split. Qed.

Lemma processCustomBalances_same chainID cfg resp b w :
  wp (processCustomBalances bigfloat_SetString chainID cfg resp b)
    (λ r w', emits read_only w w' ∧ w_db w' = w_db w ∧ ∀ b', r = Ok b' → same_usdc b b') w.
Proof.
  unfold processCustomBalances. apply wp_bind, wp_range. intros entries a e _.
  apply (wp_fold_m (λ _ b' w', emits read_only w w' ∧ w_db w' = w_db w ∧ same_usdc b b')).
  - split_and!; [by solve_emits|done|done].
  - intros _ entry _ b1 w1 _ (Hem&Hdb&Hsame). wp_step.
    destruct (process_custom _ _ _ b1 entry) as [b2|err|p] eqn:Hp; [|by split_and!..].
    apply process_custom_same in Hp. split_and!; [done..|]. unfold same_usdc in *. intuition congruence.
  - intros b1 w1 (?&?&?). split_and!; [done..|]. by intros ? [= <-].
Qed.

Lemma process_chain_entered b chainID resp w :
  wp (process_chain reader bigfloat_SetString b (chainID, resp))
    (λ r w', emits read_only w w' ∧ w_db w' = w_db w ∧
       ∀ b', r = Ok b' → usdc_entered chainID (usdc_of chainID resp) b b') w.
Proof.
  unfold process_chain. apply wp_bind, wp_wrap_err. wp_step.
  destruct (GetChainConfig reader chainID) as [cfg|err|p] eqn:Hcfg; [|by split_and!..].
  apply wp_bind, wp_wrap_err. wp_step.
  destruct (processUSDCBalance _ _ _ b) as [b1|err|p] eqn:H1; [|by split_and!..].
  apply wp_bind, wp_wrap_err. wp_step.
  destruct (processGasBalance _ _ _ _ b1) as [b2|err|p] eqn:H2; [|by split_and!..].
  apply wp_wrap_err. eapply wp_mono; [|apply processCustomBalances_same].
  intros r w1 (?&?&Hsame). destruct r as [b3|err|p]; (split_and!; [done..|]); [|done..].
  intros ? [= <-]. pose proof (processUSDCBalance_entered _ _ _ _ _ Hcfg H1) as He.
  apply processGasBalance_same in H2. specialize (Hsame b3 eq_refl).
  unfold usdc_entered, same_usdc in *. destruct (usdc_of chainID resp); naive_solver congruence.
Qed.

Definition usdc_sum (m : gmap string ChainBalance) : Z :=
  sum_list_Z ((λ entry, bal_Balance entry.2) <$> map_to_list m).

(** The balances after the chains of [pre]. *)
Definition usdc_done (pre : list (string * ChainResponse)) (b : Balances) : Prop :=
  (∀ chainID, bal_Balance <$> usdcBalances b !! chainID
              = (list_to_map pre : gmap string ChainResponse) !! chainID ≫= usdc_of chainID) ∧
  totalUSDCBalance b = usdc_sum (usdcBalances b).

Lemma usdc_done_snoc pre chainID resp b b' :
  chainID ∉ pre.*1 → usdc_done pre b → usdc_entered chainID (usdc_of chainID resp) b b' →
  usdc_done (pre ++ [(chainID, resp)]) b'.
Proof.
  intros Hno [Hmap Htotal] He.
  assert ((list_to_map pre : gmap string ChainResponse) !! chainID = None) as Hpre
    by by apply not_elem_of_list_to_map_1.
  assert ((list_to_map (pre ++ [(chainID, resp)]) : gmap string ChainResponse)
          = <[chainID := resp]> (list_to_map pre)) as Hsnoc by by apply list_to_map_snoc.
  assert (usdcBalances b !! chainID = None) as Hb.
  { specialize (Hmap chainID). rewrite Hpre in Hmap. by destruct (usdcBalances b !! chainID). }
  split.
  - intros id. rewrite Hsnoc. destruct (decide (id = chainID)) as [->|Hne].
    + rewrite lookup_insert_eq. simpl. destruct (usdc_of chainID resp) as [z|]; simpl in He.
      * destruct He as (entry&<-&->&_). by rewrite lookup_insert_eq.
      * destruct He as [-> _]. by rewrite Hb.
    + rewrite lookup_insert_ne by done. rewrite <-Hmap.
      destruct (usdc_of chainID resp) as [z|]; simpl in He.
      * destruct He as (entry&_&->&_). by rewrite lookup_insert_ne.
      * by destruct He as [-> _].
  - destruct (usdc_of chainID resp) as [z|]; simpl in He.
    + destruct He as (entry&<-&->&->). unfold usdc_sum in *.
      rewrite map_to_list_insert, fmap_cons, Htotal by done. unfold sum_list_Z. cbn [foldr snd]. lia.
    + by destruct He as [-> ->].
Qed.

Lemma buildBalancesRequest_quiet flags w :
  wp (buildBalancesRequest reader flags) (λ _ w', emits read_only w w' ∧ w_db w' = w_db w) w.
Proof.
  assert (frame (emits read_only) (buildBalancesRequest (E := E) reader flags)) as H1
    by (unfold buildBalancesRequest; by solve_io).
  assert (frame (db_rel eq) (buildBalancesRequest (E := E) reader flags)) as H2
    by (unfold buildBalancesRequest; by solve_io).
  apply wp_intro. intros r w' Hrun. specialize (H1 w). specialize (H2 w). rewrite Hrun in H1, H2.
  split; [done|]. symmetry. exact H2.
Qed.

(** The balances are the service's: each chain the report shows has the USDC balance the
    service answered for the denom the chain is configured with, no answered balance is
    left out, and the total is their sum, whatever the order of Go's maps; reading them
    sends no transaction and changes nothing. *)
Theorem getBalances_usdc flags w b w' :
  getBalances reader bigfloat_SetString flags w = (Ok b, w') →
  emits read_only w w' ∧ w_db w' = w_db w ∧
  ∃ request resp, asked w w' (existT (SkipBalance request) (inr resp)) ∧
    (∀ chainID, bal_Balance <$> usdcBalances b !! chainID
                = (resp : gmap string ChainResponse) !! chainID ≫= usdc_of chainID) ∧
    totalUSDCBalance b = usdc_sum (usdcBalances b).
Proof.
  intros Hrun. run_wp Hrun. unfold getBalances. apply wp_bind, wp_wrap_err.
  eapply wp_mono; [|apply buildBalancesRequest_quiet]. intros [request|err|p] w1 [Hem1 Hdb1]; [|done..].
  apply wp_bind, wp_wrap_err. refine (wp_ask (SkipBalance request) _ w1 _).
  intros [err|resp] e1 _; [done|].
  apply wp_bind, wp_range. intros entries a e2 Hentries.
  set (w2 := after _ _ _ _).
  assert (NoDup entries.*1) as Hnd.
  { rewrite Hentries. apply NoDup_fst_map_to_list. }
  apply (wp_fold_m (λ pre b w', emits read_only w2 w' ∧ w_db w' = w_db w2 ∧ usdc_done pre b)).
  - split_and!; [done|done|]. split; [|done]. intros id. simpl. by rewrite lookup_empty.
  - intros pre [chainID cr] post b1 w3 Hl (Hem&Hdb&Hdone).
    eapply wp_mono; [|apply process_chain_entered].
    intros [b2|err|p] w4 (Hem4&Hdb4&Hb2); [|done..].
    split_and!; [by etransitivity|by rewrite Hdb4|].
    eapply usdc_done_snoc; [|done|by apply Hb2].
    rewrite Hl, fmap_app, fmap_cons in Hnd. apply NoDup_app in Hnd as (_&Hnd&_).
    intros Hin. apply (Hnd _ Hin). by left.
  - intros b3 w3 (Hem&Hdb&Hmap&Htotal) [= <-].
    assert (emits read_only w w3) as Hw3 by (etransitivity; [exact Hem1|etransitivity; [|exact Hem]];
      unfold w2; by solve_emits).
    split_and!; [done|by rewrite Hdb|]. exists request, resp. split_and!; [|intros id|done].
    + eapply asked_later; [|exact Hem]. unfold w2. eapply asked_later; [exact (asked_here read_only _ _ _ _ e1 Hem1)|].
      apply (emits_after read_only); [reflexivity|done].
    + rewrite Hmap. f_equal. rewrite <-(list_to_map_to_list (resp : gmap string ChainResponse)).
      by rewrite (list_to_map_proper _ (map_to_list (resp : gmap string ChainResponse))).
Qed.
End theorems.

(** ** Examples *)

(** A tenth of a USDC: the quotient is rounded down to a float below it, and the
    eighteen decimals show the difference. *)
Example normalizeBalance_tenth : normalizeBalance (Some 100000) 6 = "0.099999999999999992"%string.
Proof. by vm_compute. Qed.

Example normalizeBalance_samples :
  normalizeBalance (Some 1500000) 6 = "1.5"%string ∧ normalizeBalance (Some 0) 6 = "0"%string ∧
  normalizeBalance (Some (-2000000)) 6 = "2"%string ∧ normalizeBalance None 6 = "0"%string.
Proof. by vm_compute. Qed.

Example profit_totals_text : bf_percent_s (in_usdc 1500000) = "%!s(*big.Float=1.5)"%string ∧
  bf_Text_f 6 (in_usdc (-1234567)) = "-1.234567"%string.
Proof. by vm_compute. Qed.

#[local] Instance cli_keylib : KeyLib := {|
  json_tree := λ _, inl (ErrNew "no text");
  cosmos_key := λ bs, inr bs;
  evm_key := λ _, inr [];
  bech32_encode := λ p _, inr p;
  gcm_check := λ _, None;
  gcm_open := λ _ _ _, inl (ErrNew "no text") |}.

Definition flags_of (names : list string) : Flags := λ name,
  if bool_decide (name ∈ names) then Some ""%string else None.

Lemma flags_of_declares names : declares (flags_of names) names.
Proof.
  intros name. unfold flags_of. case_bool_decide; split; intros Hx; naive_solver.
Qed.

(** One USDC and ten OSMO on Osmosis. *)
Definition osmosis_balances : BalancesResponse :=
  {[ "osmosis-1" := mkChainResponse "osmo1solver"
       {[ "ibc/usdc" := mkDenomDetail "1000000" 6 "1" "1" "1";
          "uosmo" := mkDenomDetail "10000000" 6 "10" "1" "10" ]} ]}%string.

Definition balances_env : Env unit := sim_env (λ r,
  match r as r return error + response r with
  | SkipBalance _ => inr osmosis_balances
  | r => offline r
  end).

(** A parser of the texts above. *)
Definition toy_float (s : string) : option bigfloat := (λ z, BF z 0) <$> bigint_SetString s.

Definition sample_balances :=
  getBalances (H0 := balances_env) sample_reader toy_float (flags_of balances_flags)
    (sim_world empty_db).

Lemma getBalances_usdc_witness :
  ∃ b, sample_balances.1 = Ok b ∧ totalUSDCBalance b = 1000000 ∧
    totalUSDCBalance b = usdc_sum (usdcBalances b).
Proof.
  assert (∃ b, sample_balances = (Ok b, sample_balances.2) ∧ totalUSDCBalance b = 1000000) as (b&Hrun&Hb)
    by (eexists; split; vm_compute; reflexivity).
  exists b. rewrite Hrun. split; [reflexivity|]. split; [exact Hb|].
  apply getBalances_usdc in Hrun as (_&_&_&_&_&_&Ht). exact Ht.
Defined.

(** The gas token is reported as a custom asset too: the denom is compared with the
    token's symbol. *)
Example gas_token_is_custom :
  match sample_balances.1 with
  | Ok b => Some (gb_Balance <$> gasBalances b !! "osmosis-1",
                  bal_AssetDenom <$> default [] (customBalances b !! "osmosis-1"),
                  bf_Text_f 2 (totalCustomAssetsUSDValue b))
  | _ => None
  end = Some (Some 10000000, ["uosmo"], "10.00")%string.
Proof. vm_compute. reflexivity. Qed.

Definition sample_inventory :=
  inventoryCmd (H0 := settler_env) sample_reader toy_float (flags_of inventory_flags) (sim_world empty_db).

Lemma inventory_never_reports_witness :
  sample_inventory.1 = Panic "invalid memory address or nil pointer dereference" ∧
  ∀ lines, sample_inventory.1 ≠ Ok lines.
Proof.
  split; [vm_compute; reflexivity|]. intros lines.
  apply (inventory_never_reports (H0 := settler_env)), flags_of_declares.
Defined.

Lemma settlements_total_witness :
  ∃ lines w', settlementsCmd (H0 := settler_env) sample_reader (sim_world empty_db) = (Ok lines, w') ∧
    last lines = Some "Total Pending Settlements: 6000 USDC" ∧ emits read_only (sim_world empty_db) w'.
Proof.
  destruct (settlementsCmd (H0 := settler_env) sample_reader (sim_world empty_db)) as [r w'] eqn:Hrun.
  assert (∃ lines, r = Ok lines ∧ last lines = Some "Total Pending Settlements: 6000 USDC") as (lines&->&Hl).
  { vm_compute in Hrun. injection Hrun as <- _. eexists. split; reflexivity. }
  exists lines, w'. split; [reflexivity|]. split; [exact Hl|].
  exact (proj1 (settlements_total (H0 := settler_env) _ _ _ _ Hrun)).
Defined.

(** The same order, settled on Arbitrum. *)
Definition settled_env : Env unit := λ r e,
  match r as r return (error + response r) * unit with
  | OrderStatusOnChain _ _ _ => (inr 1, e)
  | r => settler_env r e
  end.

Lemma settlements_panics_witness :
  ∃ p, (settlementsCmd (H0 := settled_env) sample_reader (sim_world empty_db)).1 = Panic p.
Proof.
  set (run := settlementsCmd (H0 := settled_env) sample_reader (sim_world empty_db)).
  apply (settlements_panics (H0 := settled_env) sample_reader (sim_world empty_db) run.1 run.2 "42161"
    "0xgateway" "aa" 1).
  - apply surjective_pairing.
  - exists (w_trace run.2). split; [reflexivity|]. vm_compute. repeat first [left|right].
  - done.
Defined.
