(* ===== verification/CliOrders.v ===== *)
(** * CliOrders: the commands of the command line tool that send transactions

    cmd/solvercli/cmd: settle-orders, which settles every fill of the solver that its
    source chain reports as unfilled, submit-transfer, which submits an order, and relay,
    which relays one message.  As in [CliReports] a command takes its flags and the
    configuration reader, a line in the log that ends it is an error, and the result is
    what it prints.  The contract bindings sign and send by themselves: [UsdcApprove] and
    [GwSubmitOrder] are calls of the lower boundary. *)
From Stdlib Require Import Ascii Strings.Byte.
From S2P Require Import Prelude GoLib Config Json Network SkipGoTypes Database World.
From S2P Require Import Prices Keys Settlements Interfaces OrderSettler Hyperlane CosmosBridge.

(** ** settle-orders *)

Section settle.
Context {E : Type} `{Env E}.
Notation IO := (M (World E)).
Context (reader : configReader).

(** The settlement of a fill, with the fields the command sets. *)
Definition cli_settlement (sourceChainID destinationChainID gateway orderID : string) :
    OrderSettlement :=
  mkOrderSettlement 0 zero_time zero_time sourceChainID destinationChainID gateway "" "" orderID
    None None "" None None None.

(** Whether one fill needs settlement; an error is logged and the fill skipped. *)
Definition check_fill (chain : ChainConfig) (fill : Fill) : IO (option OrderSettlement) :=
  entries ← range (map_to_list (chainIDIndex reader));
  sourceChainID ← lift_result
    (GetChainIDByHyperlaneDomain entries (strconv_Itoa (fill_SourceDomain fill)));
  sourceGatewayAddress ← lift_result (GetGatewayContractAddress reader sourceChainID);
  _ ← ask (GetClient sourceChainID);
  status ← ask (OrderStatusOnChain sourceChainID sourceGatewayAddress (fill_OrderID fill));
  if negb (status =? GatewayOrderStatusUnfilled) then mret None
  else mret (Some (cli_settlement sourceChainID (ChainID chain) sourceGatewayAddress
                     (fill_OrderID fill))).

Definition collect_fill (chain : ChainConfig) (pending : list OrderSettlement) (fill : Fill) :
    IO (list OrderSettlement) :=
  r ← attempt (check_fill chain fill);
  mret match r with
       | inr (Some settlement) => pending ++ [settlement]
       | _ => pending
       end.

Definition collect_chain (pending : list OrderSettlement) (chain : ChainConfig) :
    IO (list OrderSettlement) :=
  if (FastTransferContractAddress chain =? "")%string then mret pending else
  r ← attempt (_ ← ask (GetClient (ChainID chain));
               ask (OrderFillsByFiller (ChainID chain) (FastTransferContractAddress chain)
                      (SolverAddress chain)));
  match r with
  | inl _ => mret pending
  | inr fills => fold_m (collect_fill chain) pending fills
  end.

(** One batch: the transaction hash, if it was sent. *)
Definition settle_batch (batch : SettlementBatch) : IO (option string) :=
  destinationChainID ← lift_result (batch_DestinationChainID batch);
  r ← attempt (_ ← ask (GetClient destinationChainID);
               ask (InitiateBatchSettlement destinationChainID batch));
  mret match r with inl _ => None | inr (txHash, _) => Some txHash end.

(** The printed hashes, one for each batch that was sent. *)
Definition cli_settleOrders : IO (list (SettlementBatch * string)) :=
  entries ← range (map_to_list (Chains (config reader)));
  pendingSettlements ← fold_m collect_chain [] (GetAllChainConfigsOfType entries ChainType_COSMOS);
  if (length pendingSettlements =? 0)%nat then mret [] else
  batches ← IntoSettlementBatchesByChains pendingSettlements;
  fold_m (λ sent batch,
    r ← settle_batch batch;
    mret match r with Some txHash => sent ++ [(batch, txHash)] | None => sent end) [] batches.
End settle.

(** *** What is settled *)

Section settle_theorems.
Context {E : Type} `{Env E}.
Implicit Types w : World E.
Context (reader : configReader).

(** A Cosmos chain of the configuration with a gateway. *)
Definition cosmos_gateway (chain : ChainConfig) : Prop :=
  (∃ key, Chains (config reader) !! key = Some chain) ∧ Type_ chain = ChainType_COSMOS ∧
  FastTransferContractAddress chain ≠ ""%string.

(** The fills of the chain's configured solver at its configured gateway, asked since [w]. *)
Definition solver_fills w w' (chain : ChainConfig) (fills : list Fill) : Prop :=
  asked w w' (existT (OrderFillsByFiller (ChainID chain) (FastTransferContractAddress chain)
                        (SolverAddress chain)) (inr fills)).

(** The destination chain said that its configured solver filled the order at its
    configured gateway; the source chain is the one with the fill's domain, and said at its
    configured gateway that the order is unfilled. *)
Definition unfilled_fill w w' (s : OrderSettlement) : Prop :=
  ∃ chain fills fill source,
    cosmos_gateway chain ∧ os_DestinationChainID s = ChainID chain ∧
    solver_fills w w' chain fills ∧ fill ∈ fills ∧ fill_OrderID fill = os_OrderID s ∧
    chainIDIndex reader !! os_SourceChainID s = Some source ∧
    HyperlaneDomain source = strconv_Itoa (fill_SourceDomain fill) ∧
    FastTransferContractAddress source = os_SourceChainGatewayContractAddress s ∧
    asked w w' (existT (OrderStatusOnChain (os_SourceChainID s)
      (os_SourceChainGatewayContractAddress s) (os_OrderID s)) (inr GatewayOrderStatusUnfilled)).

Lemma unfilled_fill_later w w1 w2 s :
  unfilled_fill w w1 s → emits (λ _, True) w1 w2 → unfilled_fill w w2 s.
Proof.
  intros (c&fs&f&src&?&?&Hf&?&?&?&?&?&Hs) Hem. exists c, fs, f, src.
  split_and!; [done|done|by eapply asked_later|done..|by eapply asked_later].
Qed.

(** Finding a chain by its domain, and its gateway. *)
Lemma chain_of_domain entries domain chainID gateway :
  entries ≡ₚ map_to_list (chainIDIndex reader) →
  GetChainIDByHyperlaneDomain entries domain = Ok chainID →
  GetGatewayContractAddress reader chainID = Ok gateway →
  ∃ source, chainIDIndex reader !! chainID = Some source ∧ HyperlaneDomain source = domain ∧
    FastTransferContractAddress source = gateway.
Proof.
  intros Hperm Hfind Hgw. unfold GetChainIDByHyperlaneDomain in Hfind.
  destruct (list_find _ entries) as [[i [id source]]|] eqn:Hl; [|done]. injection Hfind as ->.
  apply list_find_Some in Hl as (Hi&Hdom&_). apply list_elem_of_lookup_2 in Hi.
  rewrite Hperm in Hi. apply elem_of_map_to_list in Hi.
  exists source. split_and!; [done..|]. unfold GetGatewayContractAddress in Hgw.
  rewrite Hi in Hgw. repeat case_match; congruence.
Qed.

Lemma emits_weaken (P Q : request → Prop) w w' :
  (∀ r, P r → Q r) → emits P w w' → emits Q w w'.
Proof.
  intros HPQ (new&Ht&Hnew). exists new. split; [done|].
  eapply Forall_impl; [exact Hnew|]. intros ev. apply HPQ.
Qed.

Lemma emits_any (P : request → Prop) w w' : emits P w w' → emits (λ _, True) w w'.
Proof. by apply emits_weaken. Qed.

(** What collecting leaves: nothing sent, nothing changed, and evidence for each. *)
Definition collected w w' (pending : list OrderSettlement) : Prop :=
  emits read_only w w' ∧ w_db w' = w_db w ∧ Forall (unfilled_fill w w') pending.

Lemma collected_later w w1 w2 pending :
  collected w w1 pending → emits read_only w1 w2 → w_db w2 = w_db w1 → collected w w2 pending.
Proof.
  intros (Hem&Hdb&Hp) Hem2 Hdb2. split_and!; [by etransitivity|congruence|].
  eapply Forall_impl; [exact Hp|]. intros s Hs. by eapply unfilled_fill_later, emits_any.
Qed.

Lemma wp_check_fill chain fill w :
  wp (check_fill reader chain fill) (λ r w', emits read_only w w' ∧ w_db w' = w_db w ∧
    ∀ s, r = Ok (Some s) → os_OrderID s = fill_OrderID fill ∧ os_DestinationChainID s = ChainID chain ∧
      (∃ source, chainIDIndex reader !! os_SourceChainID s = Some source ∧
         HyperlaneDomain source = strconv_Itoa (fill_SourceDomain fill) ∧
         FastTransferContractAddress source = os_SourceChainGatewayContractAddress s) ∧
      asked w w' (existT (OrderStatusOnChain (os_SourceChainID s)
        (os_SourceChainGatewayContractAddress s) (os_OrderID s)) (inr GatewayOrderStatusUnfilled))) w.
Proof.
  unfold check_fill. wp_steps; (split_and!; [by solve_emits|done|]); try done.
  intros s [= <-]. simpl. split_and!; [done..| |].
  - by eapply chain_of_domain.
  - match goal with Hs : negb (_ =? _) = false |- _ =>
      apply negb_false_iff, Z.eqb_eq in Hs; simpl in Hs; subst end.
    solve_asked.
Qed.

Lemma wp_collect_fill chain fills fill pending w w1 :
  cosmos_gateway chain → solver_fills w w1 chain fills → fill ∈ fills →
  collected w w1 pending →
  wp (collect_fill reader chain pending fill)
    (λ r w', match r with
             | Ok pending' => collected w w' pending' ∧ solver_fills w w' chain fills
             | _ => emits read_only w w' ∧ w_db w' = w_db w
             end) w1.
Proof.
  intros Hcos Hasked Hin Hc. unfold collect_fill. apply wp_bind, wp_attempt.
  eapply wp_mono; [|apply wp_check_fill]. intros r w2 (Hem&Hdb&Hs).
  assert (collected w w2 pending) as Hc2 by by eapply collected_later.
  assert (solver_fills w w2 chain fills) as Ha2 by by eapply asked_later.
  destruct r as [[s|]|e|p]; [|by apply wp_ret..|by destruct Hc2 as (?&?&_)].
  apply wp_ret. split; [|done]. destruct Hc2 as (?&?&Hf). split_and!; [done..|].
  apply Forall_app. split; [done|]. constructor; [|done].
  destruct (Hs s eq_refl) as (Hid&Hd&(source&?&?&?)&Hst). exists chain, fills, fill, source.
  split_and!; [done..|]. refine (asked_earlier read_only _ _ _ _ _ Hst). apply Hc.
Qed.

Lemma wp_collect_chain pending chain w w1 :
  (∃ key, Chains (config reader) !! key = Some chain) → Type_ chain = ChainType_COSMOS →
  collected w w1 pending →
  wp (collect_chain reader pending chain)
    (λ r w', match r with
             | Ok pending' => collected w w' pending'
             | _ => emits read_only w w' ∧ w_db w' = w_db w
             end) w1.
Proof.
  intros Hkey Hty Hc. unfold collect_chain.
  destruct (String.eqb_spec (FastTransferContractAddress chain) "") as [|Hne]; [by apply wp_ret|].
  assert (∀ w2, emits read_only w1 w2 → w_db w2 = w_db w1 → collected w w2 pending) as Hkeep
    by by intros; eapply collected_later.
  wp_steps; try (by apply Hkeep; [solve_emits|]).
  lazymatch goal with |- wp (fold_m _ _ ?fills) _ _ =>
    apply (wp_fold_m (λ _ pending' w', collected w w' pending' ∧ solver_fills w w' chain fills)) end.
  - split; [by apply Hkeep; [solve_emits|]|]. refine (asked_earlier read_only _ w1 _ _ _ _); [apply Hc|].
    solve_asked.
  - intros pre fill post p2 w2 Hl [Hc2 Ha2].
    eapply wp_mono; [|eapply wp_collect_fill; [done|exact Ha2| |exact Hc2]]; [by intros [] ?|].
    rewrite Hl. set_solver.
  - by intros p2 w2 [? _].
Qed.

(** Calls that send nothing but batches of [bs], each to the destination of its orders. *)
Definition sends_batches (bs : list SettlementBatch) (r : request) : Prop :=
  match r with
  | InitiateBatchSettlement chainID batch =>
      batch ∈ bs ∧ batch_DestinationChainID batch = Ok chainID
  | r => read_only r
  end.

Lemma read_only_sends_batches bs r : read_only r → sends_batches bs r.
Proof. by destruct r. Qed.

(** The batches requested between two worlds, in order. *)
Definition batch_of (ev : event) : option SettlementBatch :=
  match projT1 ev with InitiateBatchSettlement _ batch => Some batch | _ => None end.
Definition requested (bs : list SettlementBatch) w w' : Prop :=
  ∃ new, w_trace w' = w_trace w ++ new ∧ omap batch_of new = bs.

Lemma requested_trans bs1 bs2 w1 w2 w3 :
  requested bs1 w1 w2 → requested bs2 w2 w3 → requested (bs1 ++ bs2) w1 w3.
Proof.
  intros (n1&Ht1&<-) (n2&Ht2&<-). exists (n1 ++ n2). rewrite Ht2, Ht1, app_assoc.
  split; [done|]. apply omap_app.
Qed.

Lemma requested_none w w' : emits read_only w w' → requested [] w w'.
Proof.
  intros (new&Ht&Hro). exists new. split; [done|]. clear Ht.
  induction Hro as [|[r a] new Hr _ IH]; [done|]. by destruct r.
Qed.

Lemma settle_batch_sends bs batch w :
  batch ∈ bs →
  wp (settle_batch batch) (λ _ w', (emits (sends_batches bs) w w' ∧ w_db w' = w_db w) ∧
    ∃ l, requested l w w' ∧ l `sublist_of` [batch]) w.
Proof.
  intros Hin. unfold settle_batch. wp_steps; (split; [split; [|done]; solve_emits; by try done|]).
  all: eexists; (split; [first [apply requested_none; by solve_emits|trace_new; reflexivity]|]).
  all: first [apply sublist_nil_l|reflexivity].
Qed.

Definition settled_safely w w' : Prop :=
  ∃ pending bs sent, Forall (unfilled_fill w w') pending ∧ batches_by_chains pending bs ∧ [] ∉ bs ∧
    emits (sends_batches bs) w w' ∧ requested sent w w' ∧ sent `sublist_of` bs.

Lemma settled_safely_none w w' : emits read_only w w' → settled_safely w w'.
Proof.
  intros Hem. exists [], [], []. split_and!; [done| |by apply not_elem_of_nil| |by apply requested_none|done].
  - split; [done|]. by intros b s ?%not_elem_of_nil.
  - eapply emits_weaken; [|exact Hem]. apply read_only_sends_batches.
Qed.

(** The chains the command looks at. *)
Lemma configured_of_type entries ty pre chain post :
  GetAllChainConfigsOfType entries ty = pre ++ chain :: post →
  entries ≡ₚ map_to_list (Chains (config reader)) →
  (∃ key, Chains (config reader) !! key = Some chain) ∧ Type_ chain = ty.
Proof.
  intros Hl Hperm. assert (chain ∈ GetAllChainConfigsOfType entries ty) as Hin
    by (rewrite Hl; set_solver).
  apply list_elem_of_filter in Hin as [Hty Hin]. split; [|done].
  apply list_elem_of_fmap in Hin as ([key c]&->&Hin). exists key.
  rewrite Hperm in Hin. by apply elem_of_map_to_list in Hin.
Qed.

(** C35. settle-orders sends batches only, and only what may be settled: the database is
    unchanged, and each batch that is sent is not empty, goes to the destination chain
    of all its orders, and holds orders of which the destination chain, a configured
    Cosmos chain asked at its configured gateway for the fills of its configured solver,
    reported the fill, and the source chain, found by the fill's domain and asked at its
    configured gateway, that they are still unfilled; the batches split the orders found
    by their chains, and each is sent at most once. *)
Theorem settle_orders_cmd_safe w r w' :
  cli_settleOrders reader w = (r, w') → w_db w' = w_db w ∧ settled_safely w w'.
Proof.
  assert (∀ w', emits read_only w w' → w_db w' = w_db w → w_db w' = w_db w ∧ settled_safely w w') as Hnone
    by (intros; split; [done|by apply settled_safely_none]).
  intros Hrun. run_wp Hrun. unfold cli_settleOrders. apply wp_bind, wp_range. intros entries a e Hentries.
  apply wp_bind. eapply (wp_fold_m (λ _ pending w', collected w w' pending)).
  { split_and!; [by solve_emits|done|done]. }
  { intros pre chain post p1 w1 Hl Hc. apply configured_of_type in Hl as [? ?]; [|done].
    eapply wp_mono; [|by apply wp_collect_chain].
    intros [p2|err|p] w2 Hw2; [done|..]; intros _; destruct Hw2; by apply Hnone. }
  intros pending w1 (Hem1&Hdb1&Hp).
  destruct (length pending =? 0)%nat; [by apply wp_ret; intros _; apply Hnone|].
  apply wp_bind. unfold IntoSettlementBatchesByChains. apply wp_range. intros bs a2 e2 Hbs.
  apply group_batches_by_chains in Hbs as [Hby Hne].
  assert (∀ w2 sent, (emits (sends_batches bs) w1 w2 ∧ w_db w2 = w_db w1) → requested sent w1 w2 →
    sent `sublist_of` bs → w_db w2 = w_db w ∧ settled_safely w w2) as Hdone.
  { intros w2 sent [Hem2 Hdb2] Hreq Hsub. split; [congruence|]. exists pending, bs, sent.
    split_and!; [|done|done| |by apply (requested_trans [] _ _ w1); [apply requested_none|]|done].
    - eapply Forall_impl; [exact Hp|]. intros s Hs. by eapply unfilled_fill_later, emits_any.
    - etransitivity; [|exact Hem2]. eapply emits_weaken; [|exact Hem1]. apply read_only_sends_batches. }
  apply (wp_fold_m (λ pre _ w', (emits (sends_batches bs) w1 w' ∧ w_db w' = w_db w1) ∧
    ∃ sent, requested sent w1 w' ∧ sent `sublist_of` pre)).
  - split; [split; [by solve_emits|done]|]. exists []. split; [apply requested_none; by solve_emits|done].
  - intros pre batch post sent w2 Hl [[Hem2 Hdb2] (s2&Hr2&Hs2)]. apply wp_bind.
    eapply wp_mono; [|apply (settle_batch_sends bs); rewrite Hl; set_solver].
    intros r3 w3 [[Hem3 Hdb3] (s3&Hr3&Hs3)].
    assert (emits (sends_batches bs) w1 w3 ∧ w_db w3 = w_db w1) as Hw3
      by (split; [by etransitivity|congruence]).
    pose proof (requested_trans _ _ _ _ _ Hr2 Hr3) as Hr. pose proof (sublist_app _ _ _ _ Hs2 Hs3) as Hs.
    destruct r3 as [h|err|p]; [apply wp_ret; eauto|..].
    all: intros _; apply (Hdone w3 _ Hw3 Hr); rewrite Hl.
    all: etransitivity; [exact Hs|]; apply sublist_app; [done|].
    all: apply sublist_skip, sublist_nil_l.
  - intros sent w2 [Hw2 (s2&Hr2&Hs2)] _. by eapply Hdone.
Qed.
End settle_theorems.

(** ** submit-transfer *)

Record submitFlags := mkSubmitFlags {
  sf_token : string;
  sf_recipient : string;
  sf_amountIn : string;
  sf_amountOut : string;
  sf_destinationChainId : string;
  sf_deadlineHours : Z;
  sf_gatewayAddr : string;
  sf_sourceChainID : string;
  sf_privateKey : string
}.

(** An empty amount out is the amount in. *)
Definition parseFlags (flags : submitFlags) : submitFlags :=
  mkSubmitFlags (sf_token flags) (sf_recipient flags) (sf_amountIn flags)
    (if (sf_amountOut flags =? "")%string then sf_amountIn flags else sf_amountOut flags)
    (sf_destinationChainId flags) (sf_deadlineHours flags) (sf_gatewayAddr flags)
    (sf_sourceChainID flags) (sf_privateKey flags).

(** [strconv.ParseUint(s, 10, 32)] *)
Definition strconv_ParseUint32 (s : string) : result Z :=
  rbind (strconv_ParseUint s) (λ n,
    if n <? 2 ^ 32 then Ok n else Err (num_error "ParseUint" s "value out of range")).

(** [copy(dst, src)]: as many bytes as fit. *)
Definition go_copy (dst src : list byte) : list byte :=
  let n := Nat.min (length dst) (length src) in take n src ++ drop n dst.

(** A zeroed array of 32 bytes with [src] copied to its last twenty. *)
Definition bytes32_from_12 (src : list byte) : list byte :=
  repeat x00 12 ++ go_copy (repeat x00 20) src.

Section submit.
Context `{KeyLib} {E : Type} `{Env E}.
Notation IO := (M (World E)).
Context (reader : configReader).
(** go-ethereum's [common.HexToAddress] and [Address.Hex], and
    [bech32.DecodeAndConvert]. *)
Context (HexToAddress : string → list byte) (address_Hex : list byte → string)
        (bech32_decode : string → error + (string * list byte)).
(** The value [SetString] leaves when the text is no integer. *)
Context (undefined_int : string → Z).

Definition addressTo32Bytes (addr : string) : result (list byte) :=
  match addr with
  | String "0" (String "x" rest) => Ok (bytes32_from_12 (HexToAddress rest))
  | _ => match bech32_decode addr with
         | inl err => Err err
         | inr (_, bz) => Ok (bytes32_from_12 bz)
         end
  end.

Definition amount_of (text : string) : Z := default (undefined_int text) (bigint_SetString text).

(** The address of the key that signs. *)
Definition setupGatewayAndAuth (flags : submitFlags) : IO (list byte) :=
  _ ← ask (Net (BindContract (sf_sourceChainID flags) (sf_gatewayAddr flags)));
  _ ← ask (Net (EthChainID (sf_sourceChainID flags)));
  privateKeyStr ← lift_result (strip_0x (sf_privateKey flags));
  lift_result (of_sum (evm_key privateKeyStr)).

Definition submitTransferOrder (from : list byte) (flags : submitFlags) (destDomain : Z) :
    IO string :=
  now ← time_now;
  let deadline := now + i64 (sf_deadlineHours flags * Hour) in
  senderBytes ← wrap_err "converting sender address: "
    (lift_result (addressTo32Bytes (address_Hex from)));
  recipientBytes ← wrap_err "converting recipient address: "
    (lift_result (addressTo32Bytes (sf_recipient flags)));
  ask (Net (GwSubmitOrder (sf_sourceChainID flags) (sf_gatewayAddr flags) from senderBytes
    recipientBytes (amount_of (sf_amountIn flags)) (amount_of (sf_amountOut flags)) destDomain
    (u64 (unix deadline)) [])).

Definition submitTransfer (cmd : submitFlags) : IO string :=
  let flags := parseFlags cmd in
  sourceChainConfig ← lift_result (GetChainConfig reader (sf_sourceChainID flags));
  if negb (Type_ sourceChainConfig =? ChainType_EVM)%string
  then throw (ErrNew "source chain must be of type evm") else
  evm ← lift_result (match EVM sourceChainConfig with
                     | Some c => Ok c
                     | None => Panic "nil dereference"
                     end);
  _ ← ask (Net (EthDial (evm_RPC evm)));
  from ← setupGatewayAndAuth flags;
  _ ← ask (Net (BindContract (sf_sourceChainID flags) (sf_token flags)));
  approval ← ask (Net (UsdcApprove (sf_sourceChainID flags) (sf_token flags) from
                         (sf_gatewayAddr flags) (amount_of (sf_amountIn flags))));
  _ ← ask (Net (WaitMined (sf_sourceChainID flags) approval));
  destChainConfig ← lift_result (GetChainConfig reader (sf_destinationChainId flags));
  destDomain ← lift_result (strconv_ParseUint32 (HyperlaneDomain destChainConfig));
  submitTransferOrder from flags destDomain.
End submit.

(** ** relay *)

Section relay.
Context {E : Type} `{Env E} `{Crypto}.
Notation IO := (M (World E)).
Context (reader : configReader) (storageOverrideMap : gmap string string).

(** [hype] is the result of [hyperlane.NewMultiClientFromConfig]: its error is logged and
    the command goes on with a nil client, which [Relay] calls after it looked up the
    origin chain. *)
Definition relayCmd (hype : error + unit) (originChainID originTxHash : string) :
    IO (string * string) :=
  match hype with
  | inl _ =>
      _ ← wrap_err ("getting chain config for chainID " +:+ originChainID +:+ ": ")
        (lift_result (GetChainConfig reader originChainID));
      go_panic "invalid memory address or nil pointer dereference"
  | inr _ =>
      '(destinationTxHash, destinationChainID, _) ←
        Relay reader storageOverrideMap originChainID originTxHash None;
      mret (destinationTxHash, destinationChainID)
  end.
End relay.

(** *** What is submitted *)

Lemma bytes32_from_12_length src : length (bytes32_from_12 src) = 32%nat.
Proof.
  unfold bytes32_from_12, go_copy. rewrite length_app, length_app, length_take, length_drop, !repeat_length.
  lia.
Qed.

(** The recipient an order carries is the address in its last twenty bytes, for an
    address of twenty bytes; of a longer one, as those of contracts on Cosmos chains,
    only the first twenty bytes are kept. *)
Lemma bytes32_from_12_long src :
  (20 ≤ length src)%nat → bytes32_from_12 src = repeat x00 12 ++ take 20 src.
Proof.
  intros Hl. unfold bytes32_from_12, go_copy. rewrite repeat_length, Nat.min_l by done.
  rewrite (drop_ge (repeat x00 20)) by (by rewrite repeat_length). by rewrite app_nil_r.
Qed.

Section submit_theorems.
Context `{KeyLib} {E : Type} `{Env E}.
Implicit Types w : World E.
Context (reader : configReader).
Context (HexToAddress : string → list byte) (address_Hex : list byte → string)
        (bech32_decode : string → error + (string * list byte)) (undefined_int : string → Z).

Notation to32 := (addressTo32Bytes HexToAddress bech32_decode).
Notation amount := (amount_of undefined_int).

Definition no_order (r : request) : Prop :=
  match r with Net (GwSubmitOrder _ _ _ _ _ _ _ _ _ _) => False | _ => True end.

(** The order of the flags was submitted after its approval was mined. *)
Definition order_submitted (flags : submitFlags) (r : result string) w w' : Prop :=
  let chain := sf_sourceChainID flags in
  ∃ w1 from sender recipient approval receipt cfg domain c1 a e,
    emits no_order w w1 ∧
    asked w w1 (existT (Net (UsdcApprove chain (sf_token flags) from (sf_gatewayAddr flags)
                               (amount (sf_amountIn flags)))) (inr approval)) ∧
    asked w w1 (existT (Net (WaitMined chain approval)) (inr receipt)) ∧
    asked w w1 (existT TimeNow c1) ∧
    to32 (address_Hex from) = Ok sender ∧ to32 (sf_recipient flags) = Ok recipient ∧
    GetChainConfig reader (sf_destinationChainId flags) = Ok cfg ∧
    strconv_ParseUint32 (HyperlaneDomain cfg) = Ok domain ∧
    w' = after (Net (GwSubmitOrder chain (sf_gatewayAddr flags) from sender recipient
           (amount (sf_amountIn flags)) (amount (sf_amountOut flags)) domain
           (u64 (unix (clock_reading c1 + i64 (sf_deadlineHours flags * Hour)))) [])) a e w1 ∧
    match r with Ok h => a = inr h | Err err => a = inl err | Panic _ => False end.

(** submit-transfer submits at most one order, as its last step, and succeeds only with
    one: the order goes to the gateway of the flags after an approval of exactly the
    amount in for that gateway was sent and mined, it names the sender's and the
    recipient's addresses, both amounts, the domain the destination chain is configured
    with, no data, and the deadline computed from the clock. *)
Theorem submit_transfer_once cmd w r w' :
  submitTransfer reader HexToAddress address_Hex bech32_decode undefined_int cmd w = (r, w') →
  (emits no_order w w' ∧ (∀ h, r ≠ Ok h)) ∨ order_submitted (parseFlags cmd) r w w'.
Proof.
  intros Hrun. run_wp Hrun. unfold submitTransfer, setupGatewayAndAuth, submitTransferOrder.
  set (flags := parseFlags cmd). clearbody flags.
  wp_clock; intros <-; try (left; split; [by solve_emits|done]).
  all: right; do 11 eexists; split_and!; [..|reflexivity|reflexivity];
    first [eassumption|by solve_emits|solve_asked].
Qed.

(** Up to 2562047 hours the deadline is the clock plus the hours, in seconds; one hour
    more overflows the duration. *)
Lemma deadline_exact hours t :
  0 ≤ hours ≤ 2562047 → 0 ≤ t → unix (t + i64 (hours * Hour)) = unix t + 3600 * hours.
Proof.
  intros Hh Ht. unfold i64, unix. replace Hour with (3600 * Second) by done.
  rewrite Z.mod_small by (unfold Second; lia).
  replace (t + _) with (t + 3600 * hours * Second) by lia. by rewrite Z.div_add.
Qed.
End submit_theorems.

(** ** Examples *)

Example deadline_overflows : i64 (2562048 * Hour) < 0.
Proof. by vm_compute. Qed.

(** Two contracts whose addresses agree in twenty of their 32 bytes are one recipient. *)
Example recipients_collide :
  bytes32_from_12 (repeat x01 20 ++ repeat x02 12) = bytes32_from_12 (repeat x01 20 ++ repeat x03 12).
Proof. by vm_compute. Qed.

#[local] Instance submit_keylib : KeyLib := {|
  json_tree := λ _, inl (ErrNew "no text");
  cosmos_key := λ bs, inr bs;
  evm_key := λ _, inr (repeat x07 20);
  bech32_encode := λ p _, inr p;
  gcm_check := λ _, None;
  gcm_open := λ _ _ _, inl (ErrNew "no text") |}.

Definition submit_env : Env unit := sim_env (λ r,
  match r as r return error + response r with
  | Net n =>
      match n as n return error + net_response n with
      | EthDial _ | BindContract _ _ => inr tt
      | EthChainID _ => inr 42161
      | UsdcApprove _ _ _ _ _ => inr "0xapprove"
      | WaitMined _ _ => inr (mkReceipt 1 None 0 [])
      | GwSubmitOrder _ _ _ _ _ _ _ _ _ _ => inr "0xorder"
      | n => inl (ErrNew "connection refused")
      end
  | r => offline r
  end)%string.

Definition sample_flags : submitFlags :=
  mkSubmitFlags "0xusdc" "osmo1recipient" "1000000" "" "osmosis-1" 24 "0xgateway" "42161" "0xabcd".

Definition sample_submit :=
  submitTransfer (H0 := submit_env) sample_reader (λ _, repeat x07 20) (λ _, "0x07")%string
    (λ _, inr ("osmo"%string, repeat x05 20)) (λ _, 0) sample_flags (sim_world empty_db).

Lemma submit_transfer_once_witness :
  sample_submit.1 = Ok "0xorder"%string ∧
  order_submitted sample_reader (λ _, repeat x07 20) (λ _, "0x07")%string
    (λ _, inr ("osmo"%string, repeat x05 20)) (λ _, 0) (parseFlags sample_flags) sample_submit.1
    (sim_world empty_db) sample_submit.2.
Proof.
  split; [vm_compute; reflexivity|].
  destruct (submit_transfer_once (H0 := submit_env) _ _ _ _ _ _ _ _ _ (surjective_pairing sample_submit))
    as [[_ Hno]|Hsub]; [|exact Hsub].
  exfalso. apply (Hno "0xorder"%string). vm_compute. reflexivity.
Defined.

Definition sample_settle :=
  cli_settleOrders (H := settler_env) sample_reader (sim_world empty_db).

Lemma settle_orders_cmd_safe_witness :
  (λ s, s.2) <$> (match sample_settle.1 with Ok l => l | _ => [] end) = ["0xsettle"]%string ∧
  settled_safely sample_reader (sim_world empty_db) sample_settle.2.
Proof.
  split; [vm_compute; reflexivity|].
  apply (settle_orders_cmd_safe (H := settler_env) sample_reader (sim_world empty_db) sample_settle.1).
  apply surjective_pairing.
Defined.
