(* ===== verification/Workers.v ===== *)
(** * Workers: the goroutines of the order fulfiller, step by step

    orderfulfiller.go starts several fill workers and one timeout worker on one queue
    and one database.  [Fulfillment] models what each of them does from start to end;
    here a goroutine is cut at its accesses to what it shares with the others (the query
    for a transaction on record, the sending, the row that records it), so that the
    others can run in between.  The cuts put together again are the functions of
    [Fulfillment] ([FillOrder_phases], [InitiateTimeout_phases], [worker_alone]).

    Nothing but the queue keeps two workers from handling one order: [exclusive] is the
    invariant, and it holds as long as every worker is done with an order before the
    queue takes that order again ([prompt]). *)
From S2P Require Import Prelude GoLib Config Database World Interfaces OrderQueue Fulfillment.

(** The constants of orderfulfiller.go. *)
Definition requeueDelay : Duration := 30 * Second.
Definition orderQueueCapacity : nat := 100.

(** ** Phases *)

Section phases.
Context {E : Type} `{Env E, !RelayService E}.
Notation IO := (M (World E)).
Context (cfg : configReader) (shouldFillOrders shouldRefundOrders : bool).

(** [FillOrder] up to the query for a fill on record; [None] when it returns there,
    otherwise the configuration of the source chain and the gateway. *)
Definition fill_checks (order : Order) : IO (option (ChainConfig * string)) :=
  _ ← wrap_err "failed to get client: " (ask (GetClient (o_SourceChainID order)));
  _ ← wrap_err "failed to get client: " (ask (GetClient (o_DestinationChainID order)));
  sourceChainConfig ← lift_result (GetChainConfig cfg (o_SourceChainID order));
  destinationChainConfig ← lift_result (GetChainConfig cfg (o_DestinationChainID order));
  gateway ← lift_result (GetGatewayContractAddress cfg (o_DestinationChainID order));
  withinTransferLimits ← wrap_err ("checking transfer size for order " +:+ o_OrderID order +:+ ": ")
    (checkTransferSize destinationChainConfig order);
  if negb withinTransferLimits then mret None else
  acceptableFee ← wrap_err ("checking fee amount for order " +:+ o_OrderID order +:+ ": ")
    (checkFeeAmount cfg order);
  if negb acceptableFee then mret None else
  adequateBalance ← wrap_err "failed to check balance: "
    (checkOrderAssetBalance destinationChainConfig order);
  if negb adequateBalance then throw (ErrNew "insufficient balance") else
  submittedTxs ← wrap_err "failed to get submitted txs: "
    (db_exec (GetSubmittedTxsByOrderIdAndType (Some (o_ID order)) TxTypeOrderFill));
  if (0 <? length submittedTxs)%nat then mret None else mret (Some (sourceChainConfig, gateway)).

Definition fill_confirms (sourceChainConfig : ChainConfig) (order : Order) : IO bool :=
  wrap_err "failed to check block confirmations: " (checkBlockConfirmations sourceChainConfig order).

Definition fill_call (order : Order) (gateway : string) : IO (string * string) :=
  wrap_err ("filling order on destination chain at address " +:+ gateway +:+ ": ")
    (ask (FillOrderTx (o_DestinationChainID order) order gateway)).

Definition fill_record (order : Order) (txHash rawTx : string) : IO string :=
  _ ← wrap_err "failed to insert raw tx "
    (db_exec (InsertSubmittedTx (submitted_order_tx order txHash rawTx TxTypeOrderFill)));
  mret txHash.

(** [InitiateTimeout] up to its query: the hash on record, or the gateway. *)
Definition timeout_checks (order : Order) : IO (string + string) :=
  _ ← wrap_err "failed to get client: " (ask (GetClient (o_DestinationChainID order)));
  gateway ← lift_result (GetGatewayContractAddress cfg (o_DestinationChainID order));
  submittedTxs ← wrap_err "failed to get submitted txs: "
    (db_exec (GetSubmittedTxsByOrderIdAndType (Some (o_ID order)) TxTypeInitiateTimeout));
  match submittedTxs with
  | _ :: _ :: _ =>
      throw (ErrNew ("got more " +:+ strconv_Itoa (Z.of_nat (length submittedTxs))
                     +:+ " submitted tx's for order "
                     +:+ default ""%string (o_OrderStatusMessage order) +:+ " with type "
                     +:+ TxTypeInitiateTimeout +:+ ", expected only 1"))
  | [tx] => mret (inl (st_TxHash tx))
  | [] => mret (inr gateway)
  end.

Definition timeout_call (order : Order) (gateway : string) : IO (string * string) :=
  r ← wrap_err "initiating timeout: "
    (ask (InitiateTimeoutTx (o_DestinationChainID order) order gateway));
  let '(txHash, rawTx) := r : string * string in
  if (txHash =? "")%string then
    throw (ErrNew ("empty tx hash after submitting order for timeout to address " +:+ gateway))
  else mret (txHash, rawTx).

Definition timeout_record (order : Order) (txHash rawTx : string) : IO string :=
  _ ← wrap_err "failed to insert raw tx "
    (db_exec (InsertSubmittedTx (submitted_order_tx order txHash rawTx TxTypeInitiateTimeout)));
  mret txHash.

(** ** Goroutines *)

(** Where a fill worker stands, with the order it received and when (on the queue's
    clock): it has the order; the order's status is PENDING; no fill of it was on record;
    the order has its confirmations; the fill is sent; or the worker panicked. *)
Inductive worker :=
  | Idle
  | Popped (order : Order) (t : Time)
  | Pending (order : Order) (t : Time)
  | Unfilled (order : Order) (sourceChainConfig : ChainConfig) (gateway : string) (t : Time)
  | Confirmed (order : Order) (gateway : string) (t : Time)
  | Sent (order : Order) (txHash rawTx : string) (t : Time)
  | Crashed.

(** Runs [m] and goes on where its outcome says. *)
Definition goto {A X} (m : IO A) (crashed failed : X) (next : A → X) (w : World E) : X * World E :=
  match m w with
  | (Ok a, w') => (next a, w')
  | (Err _, w') => (failed, w')
  | (Panic _, w') => (crashed, w')
  end.

Definition worker_next (wk : worker) : World E → worker * World E :=
  match wk with
  | Idle | Crashed => λ w, (wk, w)
  | Popped order t => goto (UpdateFulfillmentStatus cfg order) Crashed Idle (λ status,
      if (status =? OrderStatusPending)%string && shouldFillOrders then Pending order t else Idle)
  | Pending order t => goto (fill_checks order) Crashed Idle (λ r,
      match r with Some (src, gateway) => Unfilled order src gateway t | None => Idle end)
  | Unfilled order src gateway t => goto (fill_confirms src order) Crashed Idle (λ confirmed,
      if confirmed : bool then Confirmed order gateway t else Idle)
  | Confirmed order gateway t => goto (fill_call order gateway) Crashed Idle (λ r,
      Sent order r.1 r.2 t)
  | Sent order txHash rawTx t => goto (fill_record order txHash rawTx) Crashed Idle (λ _, Idle)
  end.

(** Where the timeout worker stands, with the orders left of its pass. *)
Inductive refunder :=
  | Resting
  | Pass (rest : list Order)
  | Expired (order : Order) (rest : list Order)
  | Unsubmitted (order : Order) (gateway : string) (rest : list Order)
  | TimedOut (order : Order) (txHash rawTx : string) (rest : list Order)
  | Relaying (order : Order) (txHash : string) (rest : list Order)
  | RefunderCrashed.

Definition refunder_next (rf : refunder) : World E → refunder * World E :=
  match rf with
  | Resting => goto (db_exec (GetAllOrdersWithOrderStatus OrderStatusExpiredPendingRefund))
      RefunderCrashed Resting Pass
  | Pass [] => λ w, (Resting, w)
  | Pass (order :: rest) => goto (UpdateFulfillmentStatus cfg order) RefunderCrashed (Pass rest)
      (λ status, if negb shouldRefundOrders || negb (status =? OrderStatusExpiredPendingRefund)%string
                 then Pass rest else Expired order rest)
  | Expired order rest => goto (timeout_checks order) RefunderCrashed (Pass rest) (λ r,
      match r with inl txHash => Relaying order txHash rest
                 | inr gateway => Unsubmitted order gateway rest end)
  | Unsubmitted order gateway rest => goto (timeout_call order gateway) RefunderCrashed (Pass rest)
      (λ r, TimedOut order r.1 r.2 rest)
  | TimedOut order txHash rawTx rest => goto (timeout_record order txHash rawTx) RefunderCrashed
      (Pass rest) (λ _, Relaying order txHash rest)
  | Relaying order txHash rest => goto (SubmitTimeoutForRelay order txHash) RefunderCrashed
      (Pass rest) (λ _, Pass rest)
  | RefunderCrashed => λ w, (RefunderCrashed, w)
  end.

(** ** The phases are the program *)

Lemma FillOrder_phases order w :
  FillOrder cfg order w =
  (r ← fill_checks order;
   match r with
   | None => mret ""%string
   | Some (src, gateway) =>
       confirmed ← fill_confirms src order;
       if negb confirmed then mret ""%string else
       r ← fill_call order gateway; fill_record order r.1 r.2
   end) w.
Proof.
  unfold FillOrder, fill_checks, fill_confirms, fill_call, fill_record, send_fill, mbind, M_bind.
  repeat (case_match; simplify_eq/=; try done).
Qed.

Lemma InitiateTimeout_phases order w :
  InitiateTimeout cfg order w =
  (r ← timeout_checks order;
   match r with
   | inl txHash => mret txHash
   | inr gateway => r ← timeout_call order gateway; timeout_record order r.1 r.2
   end) w.
Proof.
  unfold InitiateTimeout, timeout_checks, timeout_call, timeout_record, send_timeout, mbind, M_bind.
  repeat (case_match; simplify_eq/=; try done).
Qed.

(** A worker that nobody interrupts runs [fill_worker]. *)
Definition worker_run (n : nat) : worker * World E → worker * World E :=
  Nat.iter n (λ s, worker_next s.1 s.2).

Lemma worker_run_S n wk w : worker_run (S n) (wk, w) = worker_run n (worker_next wk w).
Proof. unfold worker_run. apply (Nat.iter_succ_r n). Qed.

Lemma worker_run_ended n wk w : wk = Idle ∨ wk = Crashed → worker_run n (wk, w) = (wk, w).
Proof. intros Hwk. induction n as [|n IH]; [done|]. rewrite worker_run_S. by destruct Hwk; subst. Qed.

Lemma worker_alone order t w :
  (worker_run 5 (Popped order t, w)).2 = (fill_worker cfg shouldFillOrders order w).2.
Proof.
  unfold fill_worker, mbind, M_bind, attempt. rewrite worker_run_S. cbn [worker_next]. unfold goto.
  destruct (UpdateFulfillmentStatus cfg order w) as [[status|e|p] w1];
    [|rewrite worker_run_ended by auto; done..].
  destruct (_ && shouldFillOrders); [|rewrite worker_run_ended by auto; done].
  rewrite worker_run_S, FillOrder_phases. cbn [worker_next]. unfold goto, mbind, M_bind.
  destruct (fill_checks order w1) as [[[[src gateway]|]|e|p] w2];
    [|rewrite worker_run_ended by auto; done..].
  rewrite worker_run_S. cbn [worker_next]. unfold goto.
  destruct (fill_confirms src order w2) as [[[]|e|p] w3];
    [|rewrite worker_run_ended by auto; done..].
  rewrite worker_run_S. cbn [worker_next negb]. unfold goto.
  destruct (fill_call order gateway w3) as [[[h raw]|e|p] w4];
    [|rewrite worker_run_ended by auto; done..].
  rewrite worker_run_S. cbn [worker_next fst snd]. unfold goto.
  destruct (fill_record order h raw w4) as [[h'|e|p] w5];
    rewrite worker_run_ended by auto; done.
Qed.
End phases.

(** ** One worker per order *)

(** The order a worker handles, and since when. *)
Definition handled (wk : worker) : option (Order * Time) :=
  match wk with
  | Idle | Crashed => None
  | Popped order t | Pending order t | Unfilled order _ _ t | Confirmed order _ t
  | Sent order _ _ t => Some (order, t)
  end.

Definition held (p : popper) : option Order := match p with Holding o => Some o | _ => None end.
Definition delivered (p : popper) : option Order :=
  match p with Delivered o => Some o | _ => None end.

(** The ids of the orders in the queue's channel, between the channel and a worker, and at
    the workers. *)
Definition claims (q : OrderQueue) (ws : list worker) : list Z :=
  (o_ID <$> orderChan q) ++ (o_ID <$> omap held (poppers q)) ++ (o_ID ∘ fst <$> omap handled ws).

(** No order is claimed twice; and an order at a worker is still known to the queue, or
    locked out of it until [requeueDelay] after the worker got it. *)
Definition exclusive (q : OrderQueue) (ws : list worker) : Prop :=
  NoDup (claims q ws) ∧
  ∀ order t, (order, t) ∈ omap handled ws →
    t ≤ clock q ∧
    (o_ID order ∈ o_ID <$> omap delivered (poppers q) ∨
     ∃ t', orderRequeueTime q !! o_ID order = Some t' ∧ t + requeueDelay ≤ t').

(** No worker has been at an order for [requeueDelay]. *)
Definition prompt (q : OrderQueue) (ws : list worker) : Prop :=
  ∀ order t, (order, t) ∈ omap handled ws → clock q < t + requeueDelay.

Lemma NoDup_perm {A} (l l' : list A) : l ≡ₚ l' → NoDup l → NoDup l'.
Proof. by intros ->. Qed.

Lemma popper_outstanding p o ps :
  p ∈ ps → o ∈ popper_order p → o ∈ concat (popper_order <$> ps).
Proof. induction 1; simpl; intros; apply elem_of_app; auto. Qed.

Lemma claims_outstanding q ws id :
  id ∈ claims q ws →
  id ∈ o_ID <$> outstanding q ∨ id ∈ o_ID ∘ fst <$> omap handled ws.
Proof.
  unfold claims, outstanding. rewrite fmap_app, !elem_of_app. intros [?|[Hin|?]]; [auto| |auto].
  left. right. apply list_elem_of_fmap in Hin as (o&->&Hin).
  apply list_elem_of_omap in Hin as (p&Hp&Ho). apply list_elem_of_fmap. exists o.
  split; [done|]. eapply popper_outstanding; [done|]. destruct p; simplify_eq/=. by left.
Qed.

Lemma delivered_outstanding q id :
  id ∈ o_ID <$> omap delivered (poppers q) → id ∈ o_ID <$> outstanding q.
Proof.
  unfold outstanding. intros (o&->&Hin)%list_elem_of_fmap.
  apply list_elem_of_omap in Hin as (p&Hp&Ho). rewrite fmap_app, elem_of_app. right.
  apply list_elem_of_fmap. exists o. split; [done|].
  eapply popper_outstanding; [done|]. destruct p; simplify_eq/=. by left.
Qed.

(** An order the queue takes is at no worker. *)
Lemma queued_unclaimed order q q' ws :
  QueueOrder orderQueueCapacity order q = (true, q') →
  queue_inv orderQueueCapacity q → prompt q ws → exclusive q ws → o_ID order ∉ claims q ws.
Proof.
  intros Hq (_&Hin&_) Hprompt [_ Hlock] Hid.
  apply QueueOrder_true in Hq as (Hno&_&Htime&_).
  apply claims_outstanding in Hid as [Hid|Hid]; [by apply Hno, Hin|].
  apply list_elem_of_fmap in Hid as ([o t]&Heq&Ho). simpl in Heq.
  destruct (Hlock o t Ho) as [_ [Hd|(t'&Ht'&Hle)]].
  - apply Hno, Hin. rewrite Heq. by apply delivered_outstanding.
  - rewrite Heq in Htime. specialize (Htime _ Ht'). specialize (Hprompt _ _ Ho). lia.
Qed.

Definition not_delivered (ev : queue_event) : Prop :=
  match ev with EvDelivered _ => False | _ => True end.

(** The steps of the queue other than handing an order to a worker. *)
Lemma exclusive_queue q evs q' ws :
  queue_step requeueDelay orderQueueCapacity q evs q' → Forall not_delivered evs →
  queue_inv orderQueueCapacity q → prompt q ws → prompt q' ws →
  exclusive q ws → exclusive q' ws.
Proof.
  intros Hstep Hevs Hinv Hp Hp' Hex. pose proof Hex as [Hnd Hlock].
  destruct Hstep as [o q q' Hq|o q q' Hq|q|q l1 l2 o rest Hpop Hc|q l1 l2 o Hpop|q l1 l2 o Hpop
    |q at_ t' Hat|q t' Ht].
  - pose proof (queued_unclaimed _ _ _ _ Hq Hinv Hp Hex) as Hno.
    apply QueueOrder_true in Hq as (_&_&_&->). split; [|exact Hlock].
    unfold claims in *. cbn. rewrite fmap_app, <-app_assoc. simpl.
    rewrite <-Permutation_middle. by apply NoDup_cons.
  - by apply QueueOrder_false in Hq as ->.
  - split; unfold claims in *; cbn; by rewrite omap_app; cbn; rewrite ?app_nil_r.
  - split; unfold claims in *; cbn.
    + rewrite Hpop, Hc in Hnd. rewrite omap_app in Hnd |- *. cbn in Hnd |- *.
      rewrite !fmap_app in Hnd |- *. cbn in Hnd |- *.
      eapply NoDup_perm; [|exact Hnd]. solve_Permutation.
    + rewrite Hpop in Hlock. rewrite omap_app in Hlock |- *. exact Hlock.
  - by inversion Hevs.
  - split.
    + unfold claims in *. cbn. by rewrite Hpop, omap_app in Hnd; cbn in Hnd; rewrite omap_app.
    + intros o' t Ho'. destruct (Hlock o' t Ho') as [Hle Hor]. split; [done|]. cbn.
      destruct (decide (o_ID o' = o_ID o)) as [->|Hne].
      * right. eexists. rewrite lookup_insert_eq. split; [done|lia].
      * rewrite lookup_insert_ne by done. destruct Hor as [Hd|Hr]; [left|by right].
        rewrite Hpop, omap_app, fmap_app, elem_of_app in Hd. cbn in Hd.
        rewrite omap_app, fmap_app, elem_of_app. set_solver.
  - split; [exact Hnd|]. intros o t Ho. destruct (Hlock o t Ho) as [Hle Hor].
    specialize (Hat (o_ID o)). specialize (Hp' o t Ho). cbn in *. split; [lia|].
    destruct Hor as [?|(r&Hr&?)]; [by left|right]. exists r. split; [|done].
    apply map_lookup_filter_Some. split; [done|]. simpl. lia.
  - split; [exact Hnd|]. intros o t Ho. destruct (Hlock o t Ho) as [Hle Hor]. cbn. split; [lia|done].
Qed.

(** An idle worker receives an order from the queue. *)
Lemma exclusive_take q l1 l2 ws1 ws2 order :
  poppers q = l1 ++ Holding order :: l2 →
  exclusive q (ws1 ++ Idle :: ws2) →
  exclusive (with_poppers (l1 ++ Delivered order :: l2) q) (ws1 ++ Popped order (clock q) :: ws2).
Proof.
  intros Hp [Hnd Hlock]. split.
  - unfold claims in *. cbn. rewrite Hp in Hnd. rewrite !omap_app in Hnd |- *. cbn in Hnd |- *.
    rewrite !fmap_app in Hnd |- *. cbn in Hnd |- *.
    eapply NoDup_perm; [|exact Hnd]. solve_Permutation.
  - intros o t. rewrite omap_app. cbn. intros [Ho|[[= -> ->]|Ho]%elem_of_cons]%elem_of_app.
    2: { cbn. split; [lia|]. left. rewrite omap_app, fmap_app. cbn. set_solver. }
    all: destruct (Hlock o t) as [Hle Hor]; [rewrite omap_app; cbn; set_solver|].
    all: cbn; (split; [done|]); destruct Hor as [Hd|Hr]; [left|by right].
    all: rewrite Hp, omap_app, fmap_app in Hd; cbn in Hd; rewrite omap_app, fmap_app; cbn; set_solver.
Qed.

(** A worker goes on with its order or is done with it. *)
Lemma exclusive_move q ws1 ws2 wk wk' :
  handled wk' = handled wk ∨ handled wk' = None →
  exclusive q (ws1 ++ wk :: ws2) → exclusive q (ws1 ++ wk' :: ws2).
Proof.
  intros Hmove [Hnd Hlock]. unfold exclusive, claims in *. rewrite !omap_app in *. cbn in *.
  destruct Hmove as [->| ->]; [done|]. destruct (handled wk) as [[o t]|]; [|done].
  rewrite !fmap_app in *. cbn in *. split.
  - rewrite !app_assoc in Hnd |- *. by rewrite <-Permutation_middle, NoDup_cons in Hnd; destruct Hnd.
  - intros o' t' Ho'. apply Hlock. set_solver.
Qed.

(** Two workers handle two orders. *)
Lemma exclusive_distinct q ws1 ws2 wk wk' order t order' t' :
  exclusive q (ws1 ++ wk :: ws2) → wk' ∈ ws1 ++ ws2 →
  handled wk = Some (order, t) → handled wk' = Some (order', t') → o_ID order' ≠ o_ID order.
Proof.
  intros [Hnd _] Hin Hw Hw' Heq. unfold claims in Hnd. rewrite omap_app in Hnd. cbn in Hnd.
  rewrite Hw in Hnd. rewrite fmap_app, !app_assoc in Hnd. cbn in Hnd.
  rewrite <-Permutation_middle in Hnd. apply NoDup_cons in Hnd as [Hno _]. apply Hno.
  rewrite <-Heq, !elem_of_app, !list_elem_of_fmap. apply elem_of_app in Hin as [Hin|Hin].
  - left. right. exists (order', t'). split; [done|]. apply list_elem_of_omap. eauto.
  - right. exists (order', t'). split; [done|]. apply list_elem_of_omap. eauto.
Qed.

(** ** What goes on record *)

(** The fill or timeout of an order a request sends, by the kind it is recorded under. *)
Definition sends_for (r : request) : option (Z * string) :=
  match r with
  | FillOrderTx _ order _ => Some (o_ID order, TxTypeOrderFill)
  | InitiateTimeoutTx _ order _ => Some (o_ID order, TxTypeInitiateTimeout)
  | _ => None
  end.

Definition on_record (id : Z) (type : string) (d : Database) : Prop :=
  ∃ tx, tx ∈ submitted_txs d ∧ st_OrderID tx = Some id ∧ st_TxType tx = type.

Lemma on_record_le id type d d' : db_le d d' → on_record id type d → on_record id type d'.
Proof.
  intros (_&_&(kept&new&Ht&Hkept)&_) (tx&Hin&Hid&Hty).
  apply list_elem_of_lookup in Hin as [i Hi].
  destruct (Forall2_lookup_l _ _ _ _ _ Hkept Hi) as (tx'&Hi'&_&_&_&Hbase).
  exists tx'. split_and!.
  - rewrite Ht. apply elem_of_app. left. by eapply list_elem_of_lookup_2.
  - rewrite <-Hid. injection Hbase. congruence.
  - rewrite <-Hty. injection Hbase. congruence.
Qed.

(** Nothing but [p] comes on record. *)
Definition adds (p : option (Z * string)) (d d' : Database) : Prop :=
  ∀ id type, on_record id type d' → on_record id type d ∨ p = Some (id, type).

#[export] Instance adds_preorder p : PreOrder (adds p).
Proof.
  split; [by intros d; left|]. intros d1 d2 d3 H12 H23 id type Hr.
  destruct (H23 _ _ Hr) as [?|?]; [by apply H12|by right].
Qed.

Lemma adds_same p d d' : submitted_txs d' = submitted_txs d → adds p d d'.
Proof. intros Heq id type (tx&Hin&?). left. exists tx. by rewrite <-Heq. Qed.

Lemma adds_insert arg c d :
  adds ((λ id, (id, istp_TxType arg)) <$> istp_OrderID arg) d (InsertSubmittedTx arg c d).2.
Proof.
  unfold InsertSubmittedTx. destruct (existsb _ _); [reflexivity|]. simpl.
  intros id type (tx&Hin&Hid&Hty). simpl in Hin.
  apply elem_of_app in Hin as [?|Hin%list_elem_of_singleton]; [left; by exists tx|right].
  subst tx.
  simpl in *. by rewrite Hid, Hty.
Qed.

Lemma adds_status s m u h i p c d : adds p d (SetSubmittedTxStatus s m u h i c d).2.
Proof.
  intros id type (tx&Hin&Hid&Hty). left. simpl in Hin. unfold update_rows in Hin.
  apply list_elem_of_fmap in Hin as (tx0&->&Hin). exists tx0. split; [done|].
  by case_match.
Qed.

Lemma not_on_record order type d : order_txs order type d = [] → ¬ on_record (o_ID order) type d.
Proof.
  intros Hnil (tx&Hin&Hid&Hty). eapply (in_nil (a := tx)). rewrite <-Hnil.
  apply List.filter_In. split; [by apply list_elem_of_In|]. rewrite Hid, Hty. simpl.
  by rewrite !bool_decide_eq_true_2.
Qed.

Section effects.
Context {E : Type} `{Env E, !RelayService E, !RelayServiceLaws E}.
Context (cfg : configReader) (shouldFillOrders shouldRefundOrders : bool).
Implicit Types w : World E.

(** Requests that send [p] at most. *)
Definition sends_only (p : option (Z * string)) (r : request) : Prop :=
  sends_for r = None ∨ sends_for r = p.

Lemma read_only_sends p w w' : emits read_only w w' → emits (sends_only p) w w'.
Proof.
  intros (new&Ht&Hf). exists new. split; [done|]. eapply Forall_impl; [exact Hf|].
  intros [[] ?]; try done; by left.
Qed.

Lemma wp_status w order :
  wp (UpdateFulfillmentStatus cfg order) (λ _ w', emits read_only w w' ∧
    submitted_txs (w_db w') = submitted_txs (w_db w)) w.
Proof.
  eapply wp_mono; [|apply wp_UpdateFulfillmentStatus]. intros r w' [Hem Hdb]. split; [done|].
  destruct r; [destruct Hdb as (f&now&_&->); done|by rewrite Hdb..].
Qed.

Lemma wp_fill_checks w order :
  wp (fill_checks cfg order) (λ r w', emits read_only w w' ∧
    submitted_txs (w_db w') = submitted_txs (w_db w) ∧
    ∀ x, r = Ok (Some x) → ¬ on_record (o_ID order) TxTypeOrderFill (w_db w)) w.
Proof.
  unfold fill_checks. wp_steps; try (split_and!; [by solve_emits|done|done]).
  eapply wp_mono; [|apply wp_checkTransferSize]. intros r1 w1 (Hem1&Htx1&_).
  match type of Hem1 with emits _ ?w0 _ =>
    assert (emits read_only w w0) as Hem0 by solve_emits end.
  assert (emits read_only w w1) as Hw1 by (by etransitivity).
  destruct r1 as [[]|err|p]; try (by try apply wp_ret). cbn [negb]. wp_steps.
  eapply wp_mono; [|apply wp_checkFeeAmount]. intros r2 w2 (Hem2&Htx2&_).
  assert (emits read_only w w2) as Hw2 by (by etransitivity).
  assert (submitted_txs (w_db w2) = submitted_txs (w_db w)) as Ht2 by (by rewrite Htx2, Htx1).
  destruct r2 as [[]|err|p]; try (by try apply wp_ret). cbn [negb]. wp_steps.
  eapply wp_mono; [|apply wp_checkOrderAssetBalance]. intros r3 w3 (Hem3&Hdb3&_).
  assert (emits read_only w w3) as Hw3 by (by etransitivity).
  assert (submitted_txs (w_db w3) = submitted_txs (w_db w)) as Ht3 by (by rewrite Hdb3).
  destruct r3 as [[]|err|p]; try (by try apply wp_ret). cbn [negb].
  wp_steps; (split_and!; [by solve_emits|done|]); try done.
  intros x _ Hrec. rewrite order_txs_query in *. simplify_eq/=.
  eapply not_on_record; [|unfold on_record in *; by rewrite Ht3].
  by apply nil_length_inv; apply Nat.ltb_ge in Heqb; lia.
Qed.

Lemma wp_timeout_checks w order :
  wp (timeout_checks cfg order) (λ r w', emits read_only w w' ∧ w_db w' = w_db w ∧
    ∀ gateway, r = Ok (inr gateway) → ¬ on_record (o_ID order) TxTypeInitiateTimeout (w_db w)) w.
Proof.
  unfold timeout_checks. wp_steps; (split_and!; [by solve_emits|done|]); try done.
  intros gateway [= ->]. rewrite order_txs_query in *. simplify_eq/=. by apply not_on_record.
Qed.

(** Recording the fill or the timeout of an order. *)
Lemma wp_record order txHash rawTx type w :
  wp (_ ← wrap_err "failed to insert raw tx "
        (db_exec (InsertSubmittedTx (submitted_order_tx order txHash rawTx type))); mret txHash)
    (λ _ w', emits read_only w w' ∧ adds (Some (o_ID order, type)) (w_db w) (w_db w')) w.
Proof.
  wp_steps; (split; [by solve_emits|]); try reflexivity.
  all: exact (adds_insert (submitted_order_tx order txHash rawTx type) c (w_db w)).
Qed.

(** *** The fill workers *)

(** What the next step of a worker records and sends; and the order it is past the check
    for. *)
Definition worker_records (wk : worker) : option (Z * string) :=
  match wk with Sent order _ _ _ => Some (o_ID order, TxTypeOrderFill) | _ => None end.
Definition worker_sends (wk : worker) : option (Z * string) :=
  match wk with Confirmed order _ _ => Some (o_ID order, TxTypeOrderFill) | _ => None end.
Definition cleared (wk : worker) : option Z :=
  match wk with
  | Unfilled order _ _ _ | Confirmed order _ _ | Sent order _ _ _ => Some (o_ID order)
  | _ => None
  end.

Lemma cleared_handled wk id :
  cleared wk = Some id → ∃ order t, handled wk = Some (order, t) ∧ o_ID order = id.
Proof. destruct wk; intros [= <-]; eauto. Qed.

Definition worker_effect (wk : worker) w (s : worker * World E) : Prop :=
  (handled s.1 = handled wk ∨ handled s.1 = None) ∧
  adds (worker_records wk) (w_db w) (w_db s.2) ∧ emits (sends_only (worker_sends wk)) w s.2 ∧
  ∀ id, cleared s.1 = Some id →
    cleared wk = Some id ∧ worker_records wk = None ∨ ¬ on_record id TxTypeOrderFill (w_db s.2).

Lemma goto_wp {A X} (m : M (World E) A) crashed failed next w (Q : X * World E → Prop) :
  wp m (λ r w', Q (match r with Ok a => next a | Err _ => failed | Panic _ => crashed end, w')) w →
  Q (goto m crashed failed next w).
Proof. unfold wp, goto. by destruct (m w) as [[] ?]. Qed.

Lemma worker_next_effect wk w :
  worker_effect wk w (worker_next cfg shouldFillOrders wk w).
Proof.
  destruct wk as [|order t|order t|order src gateway t|order gateway t|order h raw t|]; cbn [worker_next].
  1,7: split_and!; [by left|reflexivity|reflexivity|done].
  all: apply goto_wp.
  - eapply wp_mono; [|apply wp_status]. intros r w' [Hem Htx].
    split_and!; [|by apply adds_same|by apply read_only_sends|]; destruct r as [s|e|p]; cbn;
      try case_match; try done; auto.
  - eapply wp_mono; [|apply wp_fill_checks]. intros r w' (Hem&Htx&Hno).
    split_and!; [|by apply adds_same|by apply read_only_sends|];
      destruct r as [[[src gateway]|]|e|p]; cbn; auto; try done.
    intros id [= <-]. right. unfold on_record. rewrite Htx. by eapply Hno.
  - unfold fill_confirms. apply wp_wrap_err. eapply wp_mono; [|apply wp_checkBlockConfirmations].
    intros r w' (Hem&Htx&_). destruct r as [[]|e|p]; (split_and!; cbn;
      [|by apply adds_same|by apply read_only_sends|]); auto; done.
  - unfold fill_call. wp_steps; (split_and!; [auto|reflexivity| |]); cbn; try done; auto.
    all: solve_emits; by right.
  - eapply wp_mono; [|apply wp_record]. intros r w' [Hem Hadds].
    split_and!; [|done|by apply read_only_sends|]; destruct r; cbn; auto; done.
Qed.

(** *** The timeout worker *)

Definition refunder_records (rf : refunder) : option (Z * string) :=
  match rf with TimedOut order _ _ _ => Some (o_ID order, TxTypeInitiateTimeout) | _ => None end.
Definition refunder_sends (rf : refunder) : option (Z * string) :=
  match rf with Unsubmitted order _ _ => Some (o_ID order, TxTypeInitiateTimeout) | _ => None end.
Definition refunder_cleared (rf : refunder) : option Z :=
  match rf with
  | Unsubmitted order _ _ | TimedOut order _ _ _ => Some (o_ID order)
  | _ => None
  end.

Definition refunder_effect (rf : refunder) w (s : refunder * World E) : Prop :=
  adds (refunder_records rf) (w_db w) (w_db s.2) ∧ emits (sends_only (refunder_sends rf)) w s.2 ∧
  ∀ id, refunder_cleared s.1 = Some id →
    refunder_cleared rf = Some id ∧ refunder_records rf = None ∨
    ¬ on_record id TxTypeInitiateTimeout (w_db s.2).

Lemma refunder_next_effect rf w :
  refunder_effect rf w (refunder_next cfg shouldRefundOrders rf w).
Proof.
  destruct rf as [|[|order rest]|order rest|order gateway rest|order h raw rest|order h rest|];
    cbn [refunder_next].
  2,8: split_and!; [reflexivity|reflexivity|done].
  all: apply goto_wp.
  - wp_steps; (split_and!; cbn; [reflexivity| |]); try (by apply read_only_sends; solve_emits);
      repeat case_match; done.
  - eapply wp_mono; [|apply wp_status]. intros r w' [Hem Htx].
    split_and!; [by apply adds_same|by apply read_only_sends|]; destruct r; cbn; try case_match; done.
  - eapply wp_mono; [|apply wp_timeout_checks]. intros r w' (Hem&Hdb&Hno).
    split_and!; [by apply adds_same; cbn; rewrite Hdb|by apply read_only_sends|];
      destruct r as [[h|gateway]|e|p]; cbn; try done.
    intros id [= <-]. right. rewrite Hdb. by eapply Hno.
  - unfold timeout_call. wp_steps; (split_and!; cbn; [reflexivity| |]); try done; auto.
    all: solve_emits; by right.
  - eapply wp_mono; [|apply wp_record]. intros r w' [Hem Hadds].
    split_and!; [done|by apply read_only_sends|]; destruct r; done.
  - apply (wp_conseq (λ w w', db_rel only_transfers w w' ∧ emits read_only w w')).
    + split; unfold SubmitTimeoutForRelay; [|apply SubmitTimeoutForRelay_reads].
      enough (frame (db_rel (E := E) only_transfers) (SubmitTimeoutForRelay order h)) as Hf by exact (Hf w).
      unfold SubmitTimeoutForRelay. solve_io.
    + intros r w' _ [(_&_&Htx&_) Hem].
      split_and!; [by apply adds_same|by apply read_only_sends|]; destruct r; done.
Qed.
End effects.
