(* ===== verification/System.v ===== *)
(** * System: cmd/solver/main.go

    The solver as a whole: the components run concurrently on one database and one
    world.  The goroutines of the order fulfiller, of which several send transactions for
    the same orders, are interleaved step by step as in [Workers], together with the
    steps of their queue.  Every other component is one loop; a step is one of its
    rounds (a tick, an event of a subscription), with the relayer runner as the relay
    service of the others.  The steps come in any order.  Starting the processes, the
    metrics server and the gas monitor are left out. *)
From S2P Require Import Prelude GoLib Config Database World Settlements Hyperlane Interfaces.
From S2P Require Import RelayerRunner OrderSettler OrderQueue Fulfillment TxVerifier.
From S2P Require Import FundRebalancer TransferMonitor Workers.

(** The world, the order queue, the fill workers and the timeout worker. *)
Record solver (E : Type) := mkSolver {
  s_world : World E;
  s_queue : OrderQueue;
  s_workers : list worker;
  s_refunder : refunder
}.
Arguments mkSolver {E} _ _ _ _.
Arguments s_world {E} _.
Arguments s_queue {E} _.
Arguments s_workers {E} _.
Arguments s_refunder {E} _.

(** [NewOrderFulfiller] and [Run]: an empty queue, [workers] fill workers. *)
Definition started {E} (w : World E) (now : Time) (workers : nat) : solver E :=
  mkSolver w (NewOrderQueue now) (replicate workers Idle) Resting.

Section solver.
Context {E : Type} `{Env E} `{Crypto}.
Context (cfg : configReader) (overrides : gmap string string).
Context (quickStart shouldFillOrders shouldRefundOrders : bool) (chains : list ChainConfig).
Implicit Types w : World E.

#[local] Instance solver_relay : RelayService E := runner_RelayService cfg.
#[local] Instance solver_relay_laws : RelayServiceLaws E := runner_RelayServiceLaws cfg.

(** One round of one of the other components. *)
Inductive round : World E → World E → Prop :=
  | round_settler w : round w (settler_tick cfg w).2
  | round_runner w : round w (runner_tick cfg overrides w).2
  | round_verifier w : round w (verifyTxs w).2
  | round_rebalance w : round w (Rebalance cfg w).2
  | round_transfers w : round w (UpdateTransfers w).2
  | round_poll w : round w (poll_tick quickStart chains w).2
  | round_websocket chain events w : round w (startWebSocketMonitor cfg chain events w).2.

(** One step of the solver: a round; a step of the queue (the dispatcher, a [PopOrder], the
    cleanup, the clock); an idle worker receiving an order; a step of a fill worker; a step
    of the timeout worker, which runs with its flag only. *)
Inductive solver_step : solver E → solver E → Prop :=
  | solver_round w w' q ws rf :
      round w w' → solver_step (mkSolver w q ws rf) (mkSolver w' q ws rf)
  | solver_queue w q evs q' ws rf :
      queue_step requeueDelay orderQueueCapacity q evs q' → Forall not_delivered evs →
      solver_step (mkSolver w q ws rf) (mkSolver w q' ws rf)
  | solver_take w q l1 l2 order ws1 ws2 rf :
      poppers q = l1 ++ Holding order :: l2 →
      solver_step (mkSolver w q (ws1 ++ Idle :: ws2) rf)
        (mkSolver w (with_poppers (l1 ++ Delivered order :: l2) q)
           (ws1 ++ Popped order (clock q) :: ws2) rf)
  | solver_fill w q ws1 wk ws2 rf :
      let next := worker_next cfg shouldFillOrders wk w in
      solver_step (mkSolver w q (ws1 ++ wk :: ws2) rf)
        (mkSolver next.2 q (ws1 ++ next.1 :: ws2) rf)
  | solver_refund w q ws rf :
      shouldRefundOrders = true →
      let next := refunder_next cfg shouldRefundOrders rf w in
      solver_step (mkSolver w q ws rf) (mkSolver next.2 q ws next.1).

(** A step after which no worker has been at an order for as long as the queue keeps the
    order out: the requests of a worker are answered in time. *)
Definition prompt_step (s s' : solver E) : Prop :=
  solver_step s s' ∧ prompt (s_queue s') (s_workers s').

(** The text of the components, down to calls and queries.  [unfold] fails on no
    occurrence, so one tactic serves all rounds. *)
Local Ltac component_text :=
  unfold
    (* orderfulfiller *)
    UpdateFulfillmentStatus, fill_checks, fill_confirms, fill_call, fill_record, timeout_checks,
    timeout_call, timeout_record, checkTransferSize, checkFeeAmount, checkOrderAssetBalance, checkBlockConfirmations, abandon,
    set_order_status, SubmitTimeoutForRelay,
    (* ordersettler *)
    settler_tick, submitInitiatedSettlementsForRelay, submit_batch_for_relay, relayBatch,
    relaySettlement, createPendingSettlements, create_settlement, cancelSettlementRelays,
    cancel_settlement, settleOrders, PendingSettlementBatches, SettleBatches, settle_task,
    SettleBatch, record_batch, verifyOrderSettlements, IncompleteSettlements,
    verifyOrderSettlement, verify_initiation, verify_completion, set_status,
    IntoSettlementBatchesByHash, IntoSettlementBatchesByChains,
    (* hyperlane *)
    runner_tick, run_transfer, checkHyperlaneTransferStatus, relayTransfer, on_relay_error,
    (* txverifier *)
    verifyTxs, VerifyTx, handleTxResultNotFound, set_tx_status,
    (* fundrebalancer *)
    Rebalance, rebalance_chain, MoveFundsToChain, move_from, record_rebalance, gas_allows,
    approve_and_record, isGasAcceptable, SignAndSubmitTxn, TxnWithMetadata, ApproveTxn,
    ERC20Approval_, NeedsERC20Approval, GetRebalanceTxns, USDCToSpare, USDCNeeded,
    pendingUSDCBalance, deref, usdcBalance, UpdateTransfers, updateTransferStatus,
    set_transfer_status,
    (* transfermonitor *)
    poll_tick, poll_chain, start_height, getLatestBlockHeight, findNewTransferIntentsOnEVMChain,
    findTransferIntents, start_chunk, run_chunk, fetch_chunk, startWebSocketMonitor, ws_last_seen,
    ws_loop, ws_step, ws_header, ws_log, record_height, time_Since.

(** ** Lemmas: the database *)

(** What every step does to the database: it keeps the invariant and the history of
    all tables, and transfers that are no longer pending. *)
Definition solver_rel (d d' : Database) : Prop := db_ok_step d d' ∧ transfers_step d d'.

#[local] Instance solver_rel_preorder : PreOrder solver_rel.
Proof. split; [by intros d|]. intros d1 d2 d3 [] []. split; by etransitivity. Qed.

Lemma solver_rel_exec {A} (q : query A) :
  db_query q → (∀ c d, hyperlane_transfers (q c d).2 = hyperlane_transfers d) →
  frame (db_rel (E := E) solver_rel) (db_exec q).
Proof.
  intros Hq Hsame. apply db_rel_exec; [apply _|]. intros c d.
  split; [by apply query_step|by apply transfers_step_same].
Qed.

(** The queries of the program other than those of the runner leave the transfers
    alone. *)
Local Ltac solve_query :=
  apply solver_rel_exec; [constructor|]; intros c d; simpl; try done;
  unfold InsertSubmittedTx, InsertOrder, InsertOrderSettlement, InsertTransferMonitorMetadata,
    InsertRebalanceTransfer, UpdateTransferStatus;
  repeat case_match; done.

Lemma submit_solver_rel tx chain fee :
  frame (db_rel (E := E) solver_rel) (SubmitTxToRelay cfg tx chain fee).
Proof. intros w. split; [apply SubmitTxToRelay_ok|apply SubmitTxToRelay_final]. Qed.

Lemma cancel_solver_rel chain tx : frame (db_rel (E := E) solver_rel) (CancelRelay chain tx).
Proof.
  intros w. split; [|apply CancelRelay_final].
  exact (relay_cancel_ok (RelayServiceLaws := runner_RelayServiceLaws cfg) chain tx w).
Qed.

Lemma insert_orders_solver_rel gateway os :
  frame (db_rel (E := E) solver_rel) (insert_orders gateway os).
Proof. induction os as [|o os IH]; cbn [insert_orders]; solve_io; solve_query. Qed.

Lemma runner_db_ok : frame (db_rel (E := E) db_ok_step) (runner_tick cfg overrides).
Proof.
  component_text; solve_io; first
    [ apply updateTransferStatusIfPending_ok
    | apply getRelayCostCap_frame; [apply _|apply db_rel_time_now, _]
    | apply db_rel_eq; [apply _|apply Relay_db] ].
Qed.

(** The rounds, as one walk over their text. *)
Lemma frame_run {A} (R : World E → World E → Prop) (m : M (World E) A) w : frame R m → R w (m w).2.
Proof. intros Hm. apply Hm. Qed.

Local Ltac round_frame :=
  lazymatch goal with |- ?R ?w (?m ?w).2 => apply (frame_run R m w) end; component_text; solve_io.

Lemma round_solver_rel w w' : round w w' → db_rel (E := E) solver_rel w w'.
Proof.
  destruct 1.
  2: split; [apply runner_db_ok|apply runner_tick_final].
  all: round_frame.
  all: first [ solve_query | apply submit_solver_rel | apply cancel_solver_rel
             | apply detect_db, _ | apply insert_orders_solver_rel ].
Qed.

Lemma goto_frame {A X} (R : World E → World E → Prop) (m : M (World E) A) crashed failed
    (next : A → X) w : frame R m → R w (goto m crashed failed next w).2.
Proof. intros Hm. specialize (Hm w). unfold goto. by destruct (m w) as [[] ?]. Qed.

Lemma worker_solver_rel wk w :
  db_rel (E := E) solver_rel w (worker_next cfg shouldFillOrders wk w).2.
Proof.
  destruct wk; cbn [worker_next]; try reflexivity;
    apply (goto_frame (db_rel solver_rel)).
  all: component_text; solve_io; solve_query.
Qed.

Lemma refunder_solver_rel rf w :
  db_rel (E := E) solver_rel w (refunder_next cfg shouldRefundOrders rf w).2.
Proof.
  destruct rf as [|[|order rest]|order rest|order gateway rest|order h raw rest|order h rest|];
    cbn [refunder_next]; try reflexivity;
    apply (goto_frame (db_rel solver_rel)).
  all: component_text; solve_io; first [solve_query | apply submit_solver_rel].
Qed.

Lemma step_solver_rel s s' :
  solver_step s s' → db_rel (E := E) solver_rel (s_world s) (s_world s').
Proof.
  destruct 1; cbn; [by apply round_solver_rel|reflexivity|reflexivity
    |apply worker_solver_rel|apply refunder_solver_rel].
Qed.

Lemma run_solver_rel s s' :
  rtc solver_step s s' → db_rel (E := E) solver_rel (s_world s) (s_world s').
Proof.
  induction 1 as [|s s1 s2 Hstep _ IH]; [reflexivity|].
  etransitivity; [by apply step_solver_rel|exact IH].
Qed.

(** ** Lemmas: the rounds send no fill or timeout and record none *)

Lemma reads_send_none {A} (m : M (World E) A) :
  frame (emits read_only) m → frame (emits (sends_only None)) m.
Proof. intros Hm w. by apply read_only_sends. Qed.

Lemma Relay_sends_none origin tx max :
  frame (emits (E := E) (sends_only None)) (Relay cfg overrides origin tx max).
Proof.
  unfold Relay, guard_fee, isRelayFeeLessThanMax, checkpointAtIndex, collect_checkpoint, make_fetchers.
  solve_io; try (by left). apply fetcher_frames; by left.
Qed.

Lemma insert_orders_sends_none gateway os :
  frame (emits (E := E) (sends_only None)) (insert_orders gateway os).
Proof. induction os as [|o os IH]; cbn [insert_orders]; solve_io; by left. Qed.

Lemma detect_sends_none :
  frame (emits (E := E) (sends_only None)) (DetectPendingSettlements cfg true).
Proof.
  unfold DetectPendingSettlements, detect_chain, detect_fill, mark_and_skip. solve_io; by left.
Qed.

Lemma round_sends_none w w' : round w w' → emits (E := E) (sends_only None) w w'.
Proof.
  destruct 1; round_frame; try (by left).
  all: first
    [ apply reads_send_none; first [ apply SubmitTxToRelay_reads
        | exact (relay_cancel_reads (E := E) _ _) | apply updateTransferStatusIfPending_reads ]
    | apply detect_sends_none | apply Relay_sends_none | apply insert_orders_sends_none
    | apply getRelayCostCap_frame; [apply _|apply emits_time_now; by left] ].
Qed.

Local Ltac solve_adds :=
  apply db_rel_exec; [apply _|]; intros c d;
  first [ exact (adds_insert _ c d) | apply adds_status
        | apply adds_same; simpl; try done;
          unfold InsertOrder, InsertOrderSettlement, InsertTransferMonitorMetadata,
            InsertRebalanceTransfer, UpdateTransferStatus, InsertHyperlaneTransfer;
          repeat case_match; done ].

Lemma only_transfers_adds {A} (m : M (World E) A) :
  frame (db_rel only_transfers) m → frame (db_rel (adds None)) m.
Proof. intros Hm w. destruct (Hm w) as (_&_&Htx&_). by apply adds_same. Qed.

Lemma insert_orders_adds gateway os : frame (db_rel (E := E) (adds None)) (insert_orders gateway os).
Proof. induction os as [|o os IH]; cbn [insert_orders]; solve_io; solve_adds. Qed.

Lemma round_adds_none w w' : round w w' → db_rel (E := E) (adds None) w w'.
Proof.
  destruct 1; round_frame; first
    [ solve_adds
    | apply only_transfers_adds; first [ exact (relay_submit_only (E := E) _ _ _)
        | exact (relay_cancel_only (E := E) _ _) | apply updateTransferStatusIfPending_only ]
    | apply getRelayCostCap_frame; [apply _|apply db_rel_time_now, _]
    | apply db_rel_eq; [apply _|apply Relay_db]
    | apply detect_db, _ | apply insert_orders_adds ].
Qed.

(** ** Lemmas: the flags *)

(** The requests the command-line flags allow. *)
Definition allowed (r : request) : Prop :=
  match r with
  | FillOrderTx _ _ _ => shouldFillOrders = true
  | InitiateTimeoutTx _ _ _ => shouldRefundOrders = true
  | _ => True
  end.

(** A worker goes on with a pending order only when it may fill it. *)
Definition flagged (wk : worker) : Prop :=
  match wk with Idle | Crashed | Popped _ _ => True | _ => shouldFillOrders = true end.

Lemma worker_next_flagged wk w :
  flagged wk → flagged (worker_next cfg shouldFillOrders wk w).1.
Proof.
  destruct wk; cbn [worker_next]; intros Hf; try done; unfold goto;
    lazymatch goal with |- context [match ?m w with _ => _ end] =>
      destruct (m w) as [[a|e|p] w'] end; cbn; try done.
  - destruct (_ =? _)%string; [|done]. destruct shouldFillOrders eqn:Heq; cbn; [exact Heq|done].
  - by destruct a as [[]|].
  - by destruct a.
Qed.

Lemma sends_only_allowed p w w' :
  (∀ id, p = Some (id, TxTypeOrderFill) → shouldFillOrders = true) →
  (∀ id, p = Some (id, TxTypeInitiateTimeout) → shouldRefundOrders = true) →
  emits (sends_only p) w w' → emits allowed w w'.
Proof.
  intros Hfill Hrefund (new&Ht&Hf). exists new. split; [done|].
  eapply Forall_impl; [exact Hf|]. intros [r a] [Hs|Hs]; destruct r; try done; simpl in *.
  - by eapply Hfill.
  - by eapply Hrefund.
Qed.

Lemma step_allowed s s' :
  Forall flagged (s_workers s) → solver_step s s' →
  Forall flagged (s_workers s') ∧ emits (E := E) allowed (s_world s) (s_world s').
Proof.
  intros Hfl. destruct 1 as [w w' q ws rf Hr|w q evs q' ws rf _ _|w q l1 l2 o ws1 ws2 rf _
    |w q ws1 wk ws2 rf next|w q ws rf Hflag next]; cbn in *.
  - split; [done|]. by eapply (sends_only_allowed None), round_sends_none.
  - by split.
  - split; [|reflexivity]. apply Forall_app in Hfl as [? Hfl]. apply Forall_cons in Hfl as [_ ?].
    apply Forall_app. split; [done|]. by constructor.
  - apply Forall_app in Hfl as [? Hfl]. apply Forall_cons in Hfl as [Hwk ?]. split.
    + apply Forall_app. split; [done|]. constructor; [by apply worker_next_flagged|done].
    + destruct (worker_next_effect cfg shouldFillOrders wk w) as (_&_&Hem&_).
      eapply sends_only_allowed; [| |exact Hem]; by destruct wk.
  - split; [done|]. destruct (refunder_next_effect cfg shouldRefundOrders rf w) as (_&Hem&_).
    eapply sends_only_allowed; [| |exact Hem]; by destruct rf.
Qed.

Lemma run_allowed s s' :
  Forall flagged (s_workers s) → rtc solver_step s s' →
  emits (E := E) allowed (s_world s) (s_world s').
Proof.
  intros Hfl Hrun. induction Hrun as [|s s1 s2 Hstep _ IH]; [reflexivity|].
  destruct (step_allowed _ _ Hfl Hstep) as [Hfl1 Hem]. etransitivity; [exact Hem|by apply IH].
Qed.

(** ** Lemmas: nothing is sent twice *)

(** The queue keeps its bookkeeping and one worker per order; and whoever is past the
    check for a transaction on record still finds none. *)
Definition solver_inv (s : solver E) : Prop :=
  queue_inv orderQueueCapacity (s_queue s) ∧ exclusive (s_queue s) (s_workers s) ∧
  prompt (s_queue s) (s_workers s) ∧
  (∀ wk id, wk ∈ s_workers s → cleared wk = Some id →
     ¬ on_record id TxTypeOrderFill (w_db (s_world s))) ∧
  (∀ id, refunder_cleared (s_refunder s) = Some id →
     ¬ on_record id TxTypeInitiateTimeout (w_db (s_world s))).

Lemma started_inv w now n : solver_inv (started w now n).
Proof.
  assert (omap handled (replicate n Idle) = []) as Hnone by (by induction n).
  split_and!; cbn.
  - apply new_inv.
  - split; [unfold claims; cbn; rewrite Hnone; constructor|]. rewrite Hnone. set_solver.
  - unfold prompt. rewrite Hnone. set_solver.
  - intros wk id Hwk. apply elem_of_replicate in Hwk as [-> _]. done.
  - done.
Qed.

(** The others stay as they are when nothing of theirs comes on record. *)
Lemma still_cleared d d' p id type :
  adds p d d' → p ≠ Some (id, type) → ¬ on_record id type d → ¬ on_record id type d'.
Proof. intros Hadds Hp Hno Hr. by destruct (Hadds id type Hr). Qed.

(** The worker that moves, and the others. *)
Lemma fill_cleared q ws1 wk ws2 w :
  exclusive q (ws1 ++ wk :: ws2) →
  (∀ wk' id, wk' ∈ ws1 ++ wk :: ws2 → cleared wk' = Some id →
     ¬ on_record id TxTypeOrderFill (w_db w)) →
  let next := worker_next cfg shouldFillOrders wk w in
  ∀ wk' id, wk' ∈ ws1 ++ next.1 :: ws2 → cleared wk' = Some id →
    ¬ on_record id TxTypeOrderFill (w_db next.2).
Proof.
  intros Hex Hcl next wk' id Hin Hid.
  destruct (worker_next_effect cfg shouldFillOrders wk w) as (_&Hadds&_&Hnext). fold next in Hadds, Hnext.
  assert (wk' = next.1 ∨ wk' ∈ ws1 ++ ws2) as [->|Hother] by set_solver.
  - destruct (Hnext id Hid) as [[Hwk Hrec]|]; [|done].
    eapply still_cleared; [exact Hadds|by rewrite Hrec|]. by apply (Hcl wk); [set_solver|].
  - eapply still_cleared; [exact Hadds| |by apply (Hcl wk'); [set_solver|]].
    intros Hrec. apply cleared_handled in Hid as (order'&t'&Hh'&Hid).
    destruct wk; try discriminate Hrec. injection Hrec as Heq.
    eapply (exclusive_distinct q ws1 ws2 _ wk'); [exact Hex|done|reflexivity|exact Hh'|congruence].
Qed.

Lemma step_inv_prompt s s' : prompt_step s s' → solver_inv s → solver_inv s'.
Proof.
  intros [Hstep Hp'] (Hq&Hex&Hp&Hcl&Hrf). destruct Hstep as [w w' q ws rf Hr|w q evs q' ws rf Hqs Hevs
    |w q l1 l2 o ws1 ws2 rf Hpop|w q ws1 wk ws2 rf next|w q ws rf Hflag next]; cbn in *.
  - pose proof (round_adds_none _ _ Hr) as Hadds. split_and!; try done; cbn.
    + intros wk id Hin Hid. eapply still_cleared; [exact Hadds|done|by eapply Hcl].
    + intros id Hid. eapply still_cleared; [exact Hadds|done|by apply Hrf].
  - split_and!; try done; [by eapply step_inv|by eapply exclusive_queue].
  - split_and!; try done.
    + eapply step_inv; [by eapply (step_deliver requeueDelay orderQueueCapacity q)|done].
    + by apply exclusive_take.
    + intros wk id. cbn. intros [Hin|[->|Hin]%elem_of_cons]%elem_of_app Hid; [|done|];
        (eapply Hcl; [|exact Hid]; set_solver).
  - destruct (worker_next_effect cfg shouldFillOrders wk w) as (Hh&Hadds&_&_).
    split_and!; try done; [by eapply exclusive_move|by eapply fill_cleared|].
    intros id Hid. eapply still_cleared; [exact Hadds| |by apply Hrf]. by destruct wk.
  - destruct (refunder_next_effect cfg shouldRefundOrders rf w) as (Hadds&_&Hnext).
    split_and!; try done; cbn.
    + intros wk id Hin Hid. eapply still_cleared; [exact Hadds| |by eapply Hcl]. by destruct rf.
    + intros id Hid. destruct (Hnext id Hid) as [[Hc Hrec]|]; [|done].
      eapply still_cleared; [exact Hadds|by rewrite Hrec|by apply Hrf].
Qed.

Lemma run_inv_prompt s s' : rtc prompt_step s s' → solver_inv s → solver_inv s'.
Proof. induction 1; eauto using step_inv_prompt. Qed.

Definition not_again (id : Z) (type : string) (r : request) : Prop := sends_for r ≠ Some (id, type).

Lemma sends_only_not_again p id type w w' :
  p ≠ Some (id, type) → emits (sends_only p) w w' → emits (not_again id type) w w'.
Proof.
  intros Hp (new&Ht&Hf). exists new. split; [done|]. eapply Forall_impl; [exact Hf|].
  intros ev [Hs|Hs]; unfold not_again; simpl in *; congruence.
Qed.

(** What is on record is not sent in the next step. *)
Lemma step_not_again id type s s' :
  solver_inv s → on_record id type (w_db (s_world s)) → solver_step s s' →
  emits (not_again id type) (s_world s) (s_world s').
Proof.
  intros (_&_&_&Hcl&Hrf) Hrec. destruct 1 as [w w' q ws rf Hr|w q evs q' ws rf _ _
    |w q l1 l2 o ws1 ws2 rf _|w q ws1 wk ws2 rf next|w q ws rf _ next]; cbn in *; try reflexivity.
  - by eapply (sends_only_not_again None), round_sends_none.
  - destruct (worker_next_effect cfg shouldFillOrders wk w) as (_&_&Hem&_).
    eapply sends_only_not_again; [|exact Hem]. intros Hs. destruct wk; try discriminate Hs.
    injection Hs as <- <-. refine (Hcl (Confirmed order gateway t) _ _ eq_refl Hrec). set_solver.
  - destruct (refunder_next_effect cfg shouldRefundOrders rf w) as (_&Hem&_).
    eapply sends_only_not_again; [|exact Hem]. intros Hs. destruct rf; try discriminate Hs.
    injection Hs as <- <-. exact (Hrf _ eq_refl Hrec).
Qed.

Lemma run_not_again id type s s' :
  solver_inv s → db_wf (w_db (s_world s)) → on_record id type (w_db (s_world s)) →
  rtc prompt_step s s' → emits (not_again id type) (s_world s) (s_world s').
Proof.
  intros Hinv Hwf Hrec Hrun. induction Hrun as [|s s1 s2 Hstep _ IH]; [reflexivity|].
  destruct (step_solver_rel _ _ (proj1 Hstep)) as [Hok _]. destruct (Hok Hwf) as [Hwf1 Hle].
  etransitivity; [apply (step_not_again id type s s1 Hinv Hrec), Hstep|].
  apply IH; [by eapply step_inv_prompt|done|by eapply on_record_le].
Qed.
End solver.

(** ** Properties *)

(** C15. However the goroutines of the order fulfiller and the rounds of the other
    components interleave, and whatever the chains, the services and the driver answer:
    a well-formed database stays well formed (primary keys and UNIQUE constraints hold),
    no row of any table is ever deleted or changes its identity, and a hyperlane transfer
    that is no longer pending never changes again. *)
Theorem solver_invariant {E} `{Env E} `{Crypto} cfg overrides quickStart shouldFill shouldRefund
    chains (s s' : solver E) :
  db_wf (w_db (s_world s)) →
  rtc (solver_step cfg overrides quickStart shouldFill shouldRefund chains) s s' →
  db_wf (w_db (s_world s')) ∧ db_le (w_db (s_world s)) (w_db (s_world s')) ∧
  ∀ i h, hyperlane_transfers (w_db (s_world s)) !! i = Some h →
         ht_TransferStatus h ≠ TransferStatusPending →
         hyperlane_transfers (w_db (s_world s')) !! i = Some h.
Proof.
  intros Hwf Hrun. apply run_solver_rel in Hrun as [Hok Hfinal].
  destruct (Hok Hwf) as [Hwf' Hle]. split_and!; [done..|]. intros i h Hi Hne.
  destruct (Hfinal Hwf) as (_&kept&new&->&Hkept).
  destruct (Forall2_lookup_l _ _ _ _ _ Hkept Hi) as (h'&Hh'&_&Heq).
  apply lookup_app_l_Some. by rewrite Hh', Heq.
Qed.

(** The flags of the command line are respected: without [fill-orders] the solver never
    sends a fill, without [refund-orders] it never sends a timeout, whatever the other
    components do. *)
Theorem solver_flags {E} `{Env E} `{Crypto} cfg overrides quickStart shouldFill shouldRefund chains
    (w : World E) now n (s' : solver E) ev :
  rtc (solver_step cfg overrides quickStart shouldFill shouldRefund chains) (started w now n) s' →
  asked w (s_world s') ev →
  match projT1 ev with
  | FillOrderTx _ _ _ => shouldFill = true
  | InitiateTimeoutTx _ _ _ => shouldRefund = true
  | _ => True
  end.
Proof.
  intros Hrun Ha. apply run_allowed in Hrun as (new&Ht&Hall); [|by apply Forall_replicate].
  eapply asked_new in Ha; [|exact Ht]. rewrite Forall_forall in Hall. exact (Hall _ Ha).
Qed.

(** C16. With any number of fill workers interleaved at their accesses to the database and
    the chains, and with the timeout worker and the other components, and whatever the
    chains and the driver answer: as long as every worker is done with an order within the
    queue's requeue delay, a fill (a timeout) of an order that is on record is never sent
    again.  The database's check alone does not give this, since a worker looks for a fill
    on record first and sends later; the queue does, by handing an order to one worker at a
    time. *)
Theorem solver_sends_once {E} `{Env E} `{Crypto} cfg overrides quickStart shouldFill shouldRefund
    chains (w : World E) now n (s s' : solver E) id type ev :
  let step := prompt_step cfg overrides quickStart shouldFill shouldRefund chains in
  db_wf (w_db w) → rtc step (started w now n) s → on_record id type (w_db (s_world s)) →
  rtc step s s' → asked (s_world s) (s_world s') ev → sends_for (projT1 ev) ≠ Some (id, type).
Proof.
  intros step Hwf Hrun Hrec Hrun' Ha.
  assert (rtc (solver_step cfg overrides quickStart shouldFill shouldRefund chains)
            (started w now n) s) as Hsteps.
  { eapply rtc_subrel; [|exact Hrun]. by intros s1 s2 [? _]. }
  apply run_solver_rel in Hsteps as [Hok _]. destruct (Hok Hwf) as [Hwf' _].
  pose proof (run_inv_prompt _ _ _ _ _ _ _ _ Hrun (started_inv w now n)) as Hinv.
  destruct (run_not_again _ _ _ _ _ _ id type _ _ Hinv Hwf' Hrec Hrun') as (new&Ht&Hall).
  eapply asked_new in Ha; [|exact Ht]. rewrite Forall_forall in Hall. exact (Hall _ Ha).
Qed.

(** ** Schedules *)

(** A way to write runs down: who makes the next step. *)
Inductive act :=
  | Enqueue (order : Order)
  | StartPop
  | Receive (popper : nat)
  | Take (popper worker : nat)
  | FinishPop (popper : nat)
  | Work (worker : nat)
  | Wait (until : Time)
  | RunnerRound.

Section schedules.
Context {E : Type} `{Env E} `{Crypto}.
Context (cfg : configReader) (overrides : gmap string string).
Context (quickStart shouldFillOrders shouldRefundOrders : bool) (chains : list ChainConfig).

Definition perform (a : act) (s : solver E) : option (solver E) :=
  let '(mkSolver w q ws rf) := s in
  match a with
  | Enqueue order =>
      let '(ok, q') := QueueOrder orderQueueCapacity order q in
      if ok : bool then Some (mkSolver w q' ws rf) else None
  | StartPop => Some (mkSolver w (with_poppers (poppers q ++ [Waiting]) q) ws rf)
  | Receive i =>
      match poppers q !! i, orderChan q with
      | Some Waiting, order :: rest =>
          Some (mkSolver w (with_chan rest (with_poppers
            (take i (poppers q) ++ Holding order :: drop (S i) (poppers q)) q)) ws rf)
      | _, _ => None
      end
  | Take i j =>
      match poppers q !! i, ws !! j with
      | Some (Holding order), Some Idle =>
          Some (mkSolver w (with_poppers (take i (poppers q) ++ Delivered order :: drop (S i) (poppers q)) q)
                  (take j ws ++ Popped order (clock q) :: drop (S j) ws) rf)
      | _, _ => None
      end
  | FinishPop i =>
      match poppers q !! i with
      | Some (Delivered order) =>
          Some (mkSolver w (pop_done requeueDelay order
            (with_poppers (take i (poppers q) ++ drop (S i) (poppers q)) q)) ws rf)
      | _ => None
      end
  | Work j =>
      match ws !! j with
      | Some wk =>
          let next := worker_next cfg shouldFillOrders wk w in
          Some (mkSolver next.2 q (take j ws ++ next.1 :: drop (S j) ws) rf)
      | None => None
      end
  | Wait t => if clock q <=? t then Some (mkSolver w (with_clock t q) ws rf) else None
  | RunnerRound => Some (mkSolver (runner_tick cfg overrides w).2 q ws rf)
  end.

Lemma perform_step a s s' :
  perform a s = Some s' →
  solver_step cfg overrides quickStart shouldFillOrders shouldRefundOrders chains s s'.
Proof.
  destruct s as [w q ws rf], a as [order| |i|i j|i|j|t|]; cbn [perform].
  - destruct (QueueOrder orderQueueCapacity order q) as [[] q'] eqn:Hq; intros [= <-].
    eapply solver_queue; [by apply step_queue|by repeat constructor].
  - intros [= <-]. eapply solver_queue; [apply step_pop|constructor].
  - destruct (poppers q !! i) as [[]|] eqn:Hi; try done.
    destruct (orderChan q) as [|order rest] eqn:Hc; [done|]. intros [= <-].
    eapply solver_queue; [eapply step_receive; [|done]|by repeat constructor].
    by rewrite take_drop_middle.
  - destruct (poppers q !! i) as [[|order|]|] eqn:Hi; try done.
    destruct (ws !! j) as [[]|] eqn:Hj; try done. intros [= <-].
    rewrite <-(take_drop_middle ws j Idle) at 1 by done. apply solver_take.
    by rewrite take_drop_middle.
  - destruct (poppers q !! i) as [[| |order]|] eqn:Hi; try done. intros [= <-].
    eapply solver_queue; [eapply step_done|by repeat constructor]. by rewrite take_drop_middle.
  - destruct (ws !! j) as [wk|] eqn:Hj; [|done]. intros [= <-].
    rewrite <-(take_drop_middle ws j wk) at 1 by done. apply solver_fill.
  - destruct (Z.leb_spec (clock q) t); intros [= <-].
    eapply solver_queue; [by apply step_time|constructor].
  - intros [= <-]. apply solver_round, round_runner.
Qed.

Fixpoint schedule (acts : list act) (s : solver E) : option (solver E) :=
  match acts with
  | [] => Some s
  | a :: acts' => perform a s ≫= schedule acts'
  end.

Lemma schedule_run acts s s' :
  schedule acts s = Some s' →
  rtc (solver_step cfg overrides quickStart shouldFillOrders shouldRefundOrders chains) s s'.
Proof.
  revert s. induction acts as [|a acts IH]; cbn; intros s Hs.
  - injection Hs as ->. apply rtc_refl.
  - apply bind_Some in Hs as (s1&Ha&Hs). eapply rtc_l; [by eapply perform_step|by apply IH].
Qed.

(** The same for prompt schedules. *)
Definition promptb (q : OrderQueue) (ws : list worker) : bool :=
  forallb (λ h, clock q <? h.2 + requeueDelay) (omap handled ws).

Lemma promptb_prompt q ws : promptb q ws = true → prompt q ws.
Proof.
  intros Hb order t Ho. unfold promptb in Hb. rewrite forallb_forall in Hb.
  apply list_elem_of_In, Hb in Ho. by apply Z.ltb_lt in Ho.
Qed.

Fixpoint prompt_schedule (acts : list act) (s : solver E) : option (solver E) :=
  match acts with
  | [] => Some s
  | a :: acts' =>
      s1 ← perform a s;
      if promptb (s_queue s1) (s_workers s1) then prompt_schedule acts' s1 else None
  end.

Lemma prompt_schedule_run acts s s' :
  prompt_schedule acts s = Some s' →
  rtc (prompt_step cfg overrides quickStart shouldFillOrders shouldRefundOrders chains) s s'.
Proof.
  revert s. induction acts as [|a acts IH]; cbn; intros s Hs.
  - injection Hs as ->. apply rtc_refl.
  - apply bind_Some in Hs as (s1&Ha&Hs). destruct (promptb _ _) eqn:Hp; [|done].
    eapply rtc_l; [|by apply IH]. split; [by eapply perform_step|by apply promptb_prompt].
Qed.
End schedules.

(** ** A slow worker *)

(** The order goes to a worker; [i] is its number. *)
Definition hand_out (order : Order) (i : nat) : list act :=
  [Enqueue order; StartPop; Receive 0; Take 0 i; FinishPop 0].

Definition two_workers : solver unit := started fill_world 0 2.

Definition sample_perform := @schedule unit (fill_env true 0) toy_crypto sample_reader ∅ true.

(** A worker gets the order, finds no fill on record, and is then held up for longer than
    the requeue delay; the other worker gets the order, too, finds none either; the first
    fills and records it. *)
Definition both_cleared : option (solver unit) :=
  sample_perform (hand_out fill_order 0 ++ [Work 0; Work 0; Work 0; Wait (31 * Second)] ++
    hand_out fill_order 1 ++ [Work 1; Work 1; Work 1; Work 0; Work 0]) two_workers.

(** Promptness is needed: in this run the second worker sends the fill again although it is
    on record. *)
Theorem slow_worker_sends_again :
  ∃ s s' : solver unit,
    let step := @solver_step unit (fill_env true 0) toy_crypto sample_reader ∅ false true true [] in
    rtc step two_workers s ∧ on_record (o_ID fill_order) TxTypeOrderFill (w_db (s_world s)) ∧
    rtc step s s' ∧
    ∃ ev, asked (s_world s) (s_world s') ev ∧
      sends_for (projT1 ev) = Some (o_ID fill_order, TxTypeOrderFill).
Proof.
  destruct both_cleared as [s|] eqn:Hs; [|vm_compute in Hs; discriminate].
  destruct (sample_perform [Work 1] s) as [s'|] eqn:Hs';
    [|vm_compute in Hs; injection Hs as <-; vm_compute in Hs'; discriminate].
  exists s, s'. cbv zeta. split_and!; [by eapply schedule_run| |by eapply schedule_run|].
  - vm_compute in Hs. injection Hs as <-. unfold on_record. vm_compute.
    eexists. split; [left|split; reflexivity].
  - exists (existT (FillOrderTx "osmosis-1" fill_order "osmo1gateway")
              (inr ("0xfill", "raw")%string)).
    split; [|reflexivity].
    vm_compute in Hs. injection Hs as <-. vm_compute in Hs'. injection Hs' as <-.
    eexists. split; [reflexivity|]. vm_compute. left.
Qed.

(** ** Witnesses *)

(** A worker filled the sample order; the order is handed out again after the requeue
    delay, to the other worker, and the runner has its round: the fill is not repeated. *)
Definition sample_prompt := @prompt_schedule unit (fill_env true 0) toy_crypto sample_reader ∅ true.
Definition filled_once : option (solver unit) :=
  sample_prompt (hand_out fill_order 0 ++ [Work 0; Work 0; Work 0; Work 0; Work 0]) two_workers.
Definition handed_out_again (s : solver unit) : option (solver unit) :=
  sample_prompt ([Wait (31 * Second)] ++ hand_out fill_order 1 ++
    [Work 1; Work 1; Work 1; Work 1; Work 1; RunnerRound]) s.

Lemma fill_db_wf : db_wf fill_db.
Proof. apply reachable_wf. repeat (apply reachable_query; [|constructor]). constructor. Qed.

Lemma solver_sends_once_witness :
  ∃ s s', filled_once = Some s ∧ handed_out_again s = Some s' ∧
    on_record (o_ID fill_order) TxTypeOrderFill (w_db (s_world s)) ∧
    ∀ ev, asked (s_world s) (s_world s') ev →
      sends_for (projT1 ev) ≠ Some (o_ID fill_order, TxTypeOrderFill).
Proof.
  destruct filled_once as [s|] eqn:Hs; [|vm_compute in Hs; discriminate].
  destruct (handed_out_again s) as [s'|] eqn:Hs';
    [|vm_compute in Hs; injection Hs as <-; vm_compute in Hs'; discriminate].
  assert (on_record (o_ID fill_order) TxTypeOrderFill (w_db (s_world s))) as Hrec.
  { clear Hs'. vm_compute in Hs. injection Hs as <-. unfold on_record. vm_compute.
    eexists. split; [left|split; reflexivity]. }
  exists s, s'. split_and!; [reflexivity|exact Hs'|exact Hrec|]. intros ev.
  apply (@solver_sends_once unit (fill_env true 0) toy_crypto sample_reader ∅ false true true []
           fill_world 0 2 s s' (o_ID fill_order) TxTypeOrderFill ev fill_db_wf).
  - eapply prompt_schedule_run. exact Hs.
  - exact Hrec.
  - eapply prompt_schedule_run. exact Hs'.
Defined.

(** The runner and then the settler, on a database with a cancelled transfer. *)
Lemma solver_invariant_witness :
  let w1 := (@runner_tick unit runner_env toy_crypto sample_reader ∅ runner_world).2 in
  let w2 := (@settler_tick unit runner_env (@runner_RelayService unit runner_env sample_reader)
              sample_reader w1).2 in
  db_wf (w_db w2) ∧ hyperlane_transfers (w_db w2) !! 1%nat = Some cancelled_row.
Proof.
  intros w1 w2. set (at_ w := mkSolver w (NewOrderQueue 0) [Idle] Resting : solver unit).
  assert (rtc (@solver_step unit runner_env toy_crypto sample_reader ∅ false true true
                 [sample_arbitrum]) (at_ runner_world) (at_ w2)) as Hrun.
  { eapply rtc_l; [apply solver_round, round_runner|].
    eapply rtc_l; [apply solver_round, round_settler|]. apply rtc_refl. }
  destruct (@solver_invariant unit runner_env toy_crypto sample_reader ∅ false true true
              [sample_arbitrum] (at_ runner_world) (at_ w2) runner_db_wf Hrun) as (Hwf&_&Hfinal).
  split; [exact Hwf|]. apply Hfinal; [reflexivity|discriminate].
Defined.

(** With the flag set, a worker fills the sample order. *)
Lemma solver_flags_witness :
  ∃ s ev, filled_once = Some s ∧ asked fill_world (s_world s) ev ∧
    match projT1 ev with
    | FillOrderTx _ _ _ => true = true
    | InitiateTimeoutTx _ _ _ => false = true
    | _ => True
    end ∧ projT1 ev = FillOrderTx "osmosis-1" fill_order "osmo1gateway".
Proof.
  destruct filled_once as [s|] eqn:Hs; [|vm_compute in Hs; discriminate].
  set (ev := existT (FillOrderTx "osmosis-1" fill_order "osmo1gateway")
               (inr ("0xfill", "raw")%string) : event).
  assert (asked fill_world (s_world s) ev) as Ha.
  { exists (w_trace (s_world s)). split; [reflexivity|]. vm_compute in Hs. injection Hs as <-.
    vm_compute. repeat first [by left | right]. }
  exists s, ev. split; [reflexivity|]. split; [exact Ha|]. split; [|reflexivity].
  apply (@solver_flags unit (fill_env true 0) toy_crypto sample_reader ∅ false true false []
           fill_world 0 2 s ev); [|exact Ha].
  eapply rtc_subrel; [|eapply prompt_schedule_run; exact Hs]. by intros s1 s2 [? _].
Defined.
