(* ===== verification/Sha256.v ===== *)
(** * Sha256: the hash behind Anchor's discriminators

    SHA-256 (FIPS 180-4) as an executable function on bytes.  Anchor identifies the
    instructions and accounts of a Solana program by the first eight bytes of the
    SHA-256 hash of a name; the constants the bindings under
    shared/svm/contracts/cctp carry are compared with it in [MessageTransmitter] and
    [TokenMessengerMinter]. *)
From Stdlib Require Import Strings.Byte.
From S2P Require Import Prelude GoLib.

(** ** Words *)

Definition word (z : Z) : Z := z mod 2 ^ 32.
Definition rotr (n x : Z) : Z := Z.lor (Z.shiftr x n) (word (Z.shiftl x (32 - n))).
Definition ch (e f g : Z) : Z := Z.lxor g (Z.land e (Z.lxor f g)).
Definition maj (a b c : Z) : Z := Z.lor (Z.land a b) (Z.land c (Z.lor a b)).
Definition big_sigma (r1 r2 r3 x : Z) : Z := Z.lxor (rotr r1 x) (Z.lxor (rotr r2 x) (rotr r3 x)).
Definition small_sigma (r1 r2 s x : Z) : Z :=
  Z.lxor (rotr r1 x) (Z.lxor (rotr r2 x) (Z.shiftr x s)).

(** ** Constants: fractional parts of roots of the first primes *)

Definition primes64 : list Z :=
  [2; 3; 5; 7; 11; 13; 17; 19; 23; 29; 31; 37; 41; 43; 47; 53; 59; 61; 67; 71; 73; 79; 83; 89; 97;
   101; 103; 107; 109; 113; 127; 131; 137; 139; 149; 151; 157; 163; 167; 173; 179; 181; 191; 193;
   197; 199; 211; 223; 227; 229; 233; 239; 241; 251; 257; 263; 269; 271; 277; 281; 283; 293; 307;
   311].

(** The largest [r < acc + 2 ^ n], [r >= acc], with [r ^ 3 <= z], bit by bit. *)
Fixpoint cbrt_from (n : nat) (z acc : Z) : Z :=
  match n with
  | O => acc
  | S n' =>
      let next := acc + 2 ^ Z.of_nat n' in
      cbrt_from n' z (if next ^ 3 <=? z then next else acc)
  end.

(** 36 bits are enough: the cube root of 311 is below 2 ^ 3. *)
Definition round_constants : list Z :=
  Eval vm_compute in (λ p, word (cbrt_from 36 (p * 2 ^ 96) 0)) <$> primes64.

Definition initial_hash : list Z :=
  Eval vm_compute in (λ p, word (Z.sqrt (p * 2 ^ 64))) <$> take 8 primes64.

(** ** The hash *)

(** The message, a one bit, zeros up to 56 bytes modulo 64, and the length in bits. *)
Definition padded (msg : list byte) : list byte :=
  let len := Z.of_nat (length msg) in
  msg ++ [x80] ++ replicate (Z.to_nat ((55 - len) mod 64)) x00 ++ be_encode 8 (8 * len).

Fixpoint chunks {A} (fuel n : nat) (l : list A) : list (list A) :=
  match fuel, l with
  | S fuel', _ :: _ => take n l :: chunks fuel' n (drop n l)
  | _, _ => []
  end.

(** The message schedule, extended by one word from a window of the last sixteen. *)
Fixpoint schedule (n : nat) (window : list Z) : list Z :=
  match n, window with
  | S n', w0 :: w1 :: _ =>
      let next := word (small_sigma 17 19 10 (nth 14 window 0) + nth 9 window 0
                        + small_sigma 7 18 3 w1 + w0) in
      w0 :: schedule n' (tail window ++ [next])
  | _, _ => []
  end.

Definition round (h : list Z) (kw : Z * Z) : list Z :=
  match h with
  | [a; b; c; d; e; f; g; h] =>
      let t1 := h + big_sigma 6 11 25 e + ch e f g + kw.1 + kw.2 in
      let t2 := big_sigma 2 13 22 a + maj a b c in
      [word (t1 + t2); a; b; c; word (d + t1); e; f; g]
  | _ => h
  end.

Definition compress (h : list Z) (block : list byte) : list Z :=
  let words := schedule 64 (be_decode <$> chunks 16 4 block) in
  zip_with (λ a b, word (a + b)) h (foldl round h (zip round_constants words)).

Definition sha256 (msg : list byte) : list byte :=
  let bs := padded msg in
  mbind (be_encode 4) (foldl compress initial_hash (chunks (length bs) 64 bs)).

Definition string_bytes (s : string) : list byte := String.list_byte_of_string s.

(** Anchor's identifier of [name] in [namespace]. *)
Definition sighash (namespace name : string) : list byte :=
  take 8 (sha256 (string_bytes (namespace +:+ ":" +:+ name))).

(** ** The standard's test vectors *)

Example sha256_abc :
  hex_EncodeToString (sha256 (string_bytes "abc")) =
    "ba7816bf8f01cfea414140de5dae2223b00361a396177a9cb410ff61f20015ad"%string.
Proof. vm_compute. reflexivity. Qed.

Example sha256_two_blocks :
  hex_EncodeToString
    (sha256 (string_bytes "abcdbcdecdefdefgefghfghighijhijkijkljklmklmnlmnomnopnopq")) =
    "248d6a61d20638b8e5c026930c3e6039a33ce45964ff2167f6ecedd419db06c1"%string.
Proof. vm_compute. reflexivity. Qed.

(** A digest has 32 bytes, whatever the message. *)
Lemma compress_length h block : length (compress h block) = length h ∨ length h ≠ 8%nat.
Proof.
  destruct (decide (length h = 8%nat)) as [Hh|]; [left|by right].
  unfold compress. rewrite length_zip_with.
  enough (∀ l h', length h' = 8%nat → length (foldl round h' l) = 8%nat) as Hr by (rewrite Hr; lia).
  induction l as [|x l IH]; intros h' Hh'; simpl; [done|]. apply IH.
  do 9 (destruct h' as [|? h']; try done).
Qed.

Lemma sha256_length msg : length (sha256 msg) = 32%nat.
Proof.
  unfold sha256.
  assert (∀ l h, length h = 8%nat → length (foldl compress h l) = 8%nat) as Hc.
  { induction l as [|x l IH]; intros h Hh; simpl; [done|]. apply IH.
    destruct (compress_length h x); [congruence|done]. }
  specialize (Hc (chunks (length (padded msg)) 64 (padded msg)) initial_hash eq_refl).
  destruct (foldl _ _ _) as [|a h]; [done|]. do 8 (destruct h as [|? h]; try done).
Qed.

Lemma sighash_length namespace name : length (sighash namespace name) = 8%nat.
Proof. unfold sighash. rewrite length_take, sha256_length. reflexivity. Qed.
