(* ===== verification/Anchor.v ===== *)
(** * Anchor: the libraries under the Solana bindings, and instruction builders

    The bindings of shared/svm/contracts/cctp are generated over two libraries the
    repository does not contain: gagliardetto/binary ([ag_binary], Borsh encoding) and
    gagliardetto/solana-go ([ag_solanago], account metas).  Both are parameters here, as
    classes; what the bindings rely on is stated as laws.  The builder half of each
    instruction file (the account slots, [Validate], [New...Instruction]) is the same
    text over a table of accounts, so it is defined once over the table.
    Instructions are values: that a built instruction shares its account slice with the
    builder it came from is not modelled.  [EncodeToTree] (pretty printing) is left
    out. *)
From Stdlib Require Import Strings.Byte.
From S2P Require Import Prelude GoLib Sha256.

(** An encoder's state is what it has written, a decoder's what is left to read. *)
Notation Encoder := (M (list byte)) (only parsing).
Notation Decoder := (M (list byte)) (only parsing).

(** How the library encodes and decodes a Go type. *)
Record wire (A : Type) := Wire {
  Encode : A → Encoder unit;
  Decode : Decoder A;
}.
Arguments Wire {A}.
Arguments Encode {A}.
Arguments Decode {A}.

(** ** gagliardetto/binary *)

Class AgBinary := {
  PublicKey : Type;
  Uint128 : Type;
  t_uint8 : wire Z;
  t_uint32 : wire Z;
  t_uint64 : wire Z;
  t_Uint128 : wire Uint128;
  t_bool : wire bool;
  t_bytes : wire (list byte);
  t_PublicKey : wire PublicKey;
  t_slice {A} : wire A → wire (list A);
  t_array {A} : nat → wire A → wire (list A);
  t_ptr {A} : wire A → wire (option A);
  (** [encoder.WriteBytes(b, false)] *)
  WriteBytes : list byte → Encoder unit;
  ReadTypeID : Decoder (list byte);
  (** The identifier [NewVariantDefinition(AnchorTypeIDEncoding, ...)] gives a name. *)
  AnchorTypeID : string → list byte;
  (** [UnmarshalBinaryVariant(decoder, def)]: the type id read and the decoded value. *)
  UnmarshalBinaryVariant {I} : list (string * Decoder I) → Decoder (list byte * I);
}.

(** [m] appends [bs]; [m] consumes exactly [bs] and returns [a]. *)
Definition writes (m : Encoder unit) (bs : list byte) : Prop :=
  ∀ buf, m buf = (Ok tt, buf ++ bs).
Definition reads {A} (m : Decoder A) (bs : list byte) (a : A) : Prop :=
  ∀ rest, m (bs ++ rest) = (Ok a, rest).

(** What is written for [a] is read back as [a], whatever follows. *)
Definition roundtrips {A} (t : wire A) (a : A) : Prop :=
  ∃ bs, writes (Encode t a) bs ∧ reads (Decode t) bs a.

Definition uint (bits n : Z) : Prop := 0 ≤ n < 2 ^ bits.

Class AgBinaryLaws `{AgBinary} := {
  uint8_roundtrips n : uint 8 n → roundtrips t_uint8 n;
  uint32_roundtrips n : uint 32 n → roundtrips t_uint32 n;
  uint64_roundtrips n : uint 64 n → roundtrips t_uint64 n;
  Uint128_roundtrips n : roundtrips t_Uint128 n;
  bool_roundtrips b : roundtrips t_bool b;
  bytes_roundtrips bs : uint 32 (Z.of_nat (length bs)) → roundtrips t_bytes bs;
  PublicKey_roundtrips k : roundtrips t_PublicKey k;
  slice_roundtrips {A} (t : wire A) l :
    uint 32 (Z.of_nat (length l)) → Forall (roundtrips t) l → roundtrips (t_slice t) l;
  array_roundtrips {A} (t : wire A) l : Forall (roundtrips t) l → roundtrips (t_array (length l) t) l;
  ptr_roundtrips {A} (t : wire A) a : roundtrips t a → roundtrips (t_ptr t) (Some a);
  WriteBytes_writes bs : writes (WriteBytes bs) bs;
  ReadTypeID_reads bs : length bs = 8%nat → reads ReadTypeID bs bs;
  AnchorTypeID_sighash name : AnchorTypeID name = sighash "global" name;
  (** A known identifier selects its variant ... *)
  variant_known {I} (vs : list (string * Decoder I)) name dec bs i :
    NoDup (AnchorTypeID ∘ fst <$> vs) → (name, dec) ∈ vs → reads dec bs i →
    reads (UnmarshalBinaryVariant vs) (AnchorTypeID name ++ bs) (AnchorTypeID name, i);
  (** ... an unknown one is an error. *)
  variant_unknown {I} (vs : list (string * Decoder I)) id rest :
    length id = 8%nat → id ∉ (AnchorTypeID ∘ fst <$> vs) →
    ∃ e rest', UnmarshalBinaryVariant vs (id ++ rest) = (Err e, rest');
}.

(** *** Sequences of writes and reads *)

Create HintDb wire discriminated.

Lemma writes_ret : writes (mret tt) [].
Proof. intros buf. by rewrite app_nil_r. Qed.

Lemma writes_bind m k bs bs' :
  writes m bs → writes k bs' → writes (_ ← m; k) (bs ++ bs').
Proof.
  intros Hm Hk buf. unfold mbind, M_bind. rewrite (Hm buf), (Hk (buf ++ bs)).
  by rewrite <-(assoc_L app).
Qed.

Lemma writes_wrap p m bs : writes m bs → writes (wrap_err p m) bs.
Proof. intros Hm buf. unfold wrap_err. by rewrite (Hm buf). Qed.

Lemma reads_ret {A} (a : A) : reads (mret a) [] a.
Proof. intros rest. reflexivity. Qed.

Lemma reads_bind {A B} (m : Decoder A) (f : A → Decoder B) bs bs' a b :
  reads m bs a → reads (f a) bs' b → reads (m ≫= f) (bs ++ bs') b.
Proof.
  intros Hm Hf rest. unfold mbind, M_bind. rewrite <-(assoc_L app), (Hm (bs' ++ rest)). apply Hf.
Qed.

#[export] Hint Resolve writes_ret writes_bind writes_wrap reads_ret reads_bind : wire.
#[export] Hint Resolve uint8_roundtrips uint32_roundtrips uint64_roundtrips Uint128_roundtrips
  bool_roundtrips bytes_roundtrips PublicKey_roundtrips slice_roundtrips ptr_roundtrips
  WriteBytes_writes : wire.

(** The two methods of a struct, seen together: [m] writes what [d] reads as [b]. *)
Definition codec {B} (m : Encoder unit) (d : Decoder B) (b : B) : Prop :=
  ∃ bs, writes m bs ∧ reads d bs b.

Lemma codec_ret {B} (b : B) : codec (mret tt) (mret b) b.
Proof. exists []. eauto with wire. Qed.

Lemma keys_roundtrip `{AgBinaryLaws} l : Forall (roundtrips t_PublicKey) l.
Proof. apply Forall_true. eauto with wire. Qed.
#[export] Hint Resolve keys_roundtrip : wire.

Lemma codec_field {A B} (t : wire A) a m (f : A → Decoder B) b :
  roundtrips t a → codec m (f a) b → codec (_ ← Encode t a; m) (Decode t ≫= f) b.
Proof. intros (bs&?&?) (bs'&?&?). exists (bs ++ bs'). eauto with wire. Qed.

(** ** Account discriminators *)

#[export] Instance byte_eq_decision : EqDecision byte := Byte.byte_eq_dec.

(** [fmt.Sprint(b[:])] *)
Definition sprint_bytes (bs : list byte) : string :=
  "[" +:+ String.concat " " ((λ b, strconv_Itoa (byte_to_Z b)) <$> bs) +:+ "]".

(** [[8]byte{...}] *)
Definition byte_array (l : list Z) : list byte := Z_to_byte <$> l.

Section accounts.
Context `{AgBinary}.

(** The block that opens every [UnmarshalWithDecoder] of an account. *)
Definition check_discriminator (want : list byte) : Decoder unit :=
  discriminator ← ReadTypeID;
  if bool_decide (discriminator = want) then mret tt
  else throw (ErrNew ("wrong discriminator: wanted " +:+ sprint_bytes want +:+ ", got "
                      +:+ sprint_bytes discriminator)).

Lemma check_discriminator_reads `{!AgBinaryLaws} want :
  length want = 8%nat → reads (check_discriminator want) want tt.
Proof.
  intros Hlen. rewrite <-(app_nil_r want) at 2. eapply reads_bind; [by apply ReadTypeID_reads|].
  rewrite bool_decide_eq_true_2 by done. apply reads_ret.
Qed.

Lemma codec_discriminator `{!AgBinaryLaws} {B} want m (d : Decoder B) b :
  length want = 8%nat → codec m d b →
  codec (_ ← WriteBytes want; m) (_ ← check_discriminator want; d) b.
Proof.
  intros Hlen (bs&?&?). exists (want ++ bs). split; [eauto with wire|].
  eapply reads_bind; [by apply check_discriminator_reads|done].
Qed.

Lemma check_discriminator_other `{!AgBinaryLaws} want id rest :
  length id = 8%nat → id ≠ want → ∃ e, check_discriminator want (id ++ rest) = (Err e, rest).
Proof.
  intros Hlen Hne. unfold check_discriminator, mbind, M_bind. rewrite (ReadTypeID_reads _ Hlen).
  rewrite bool_decide_eq_false_2 by done. by eexists.
Qed.
End accounts.

(** Follows the text of the two methods of a struct, field by field. *)
Ltac solve_codec :=
  repeat first
    [ apply codec_ret
    | apply codec_field; [by eauto with wire|cbn beta]
    | apply codec_discriminator; [reflexivity|] ].

(** [roundtrips] of a struct whose fields fit, from its two methods. *)
Ltac solve_struct :=
  lazymatch goal with
  | |- roundtrips ?t ?obj =>
      let w := eval red in t in
      lazymatch w with
      | Wire ?m ?u =>
          let m' := eval red in (m obj) in
          let u' := eval red in u in
          change (codec m' u' obj)
      end
  end;
  solve_codec.

(** ** gagliardetto/solana-go *)

Class SolanaGo `{AgBinary} := {
  AccountMeta : Type;
  Meta : PublicKey → AccountMeta;
  WRITE : AccountMeta → AccountMeta;
  SIGNER : AccountMeta → AccountMeta;
  (** The methods of [AccountMetaSlice]; a slot may be nil. *)
  AccountMetaSlice_Get : list (option AccountMeta) → nat → option AccountMeta;
  GetAccounts : list (option AccountMeta) → list (option AccountMeta);
  SetAccounts : list (option AccountMeta) → result (list (option AccountMeta));
}.

Class SolanaGoLaws `{SolanaGo} := {
  Get_lookup l n m : l !! n = Some m → AccountMetaSlice_Get l n = m;
  GetAccounts_set l : Forall is_Some l → GetAccounts l = l;
  SetAccounts_all l : SetAccounts l = Ok l;
}.

(** ** Instruction builders *)

(** How a setter marks its account: [Meta(k)], [.WRITE()], [.SIGNER()], both. *)
Inductive access := Readonly | Writable | Signer | WritableSigner.

(** The accounts of an instruction in the order of their slots, by the name
    [Validate] reports. *)
Notation account_table := (list (string * access)) (only parsing).

Section builders.
Context `{SolanaGo}.

Record Inst (P : Type) := mkInst {
  Params : option P;
  AccountMetaSlice : list (option AccountMeta);
}.
Arguments mkInst {P}.
Arguments Params {P}.
Arguments AccountMetaSlice {P}.

Definition meta_for (a : access) (key : PublicKey) : AccountMeta :=
  match a with
  | Readonly => Meta key
  | Writable => WRITE (Meta key)
  | Signer => SIGNER (Meta key)
  | WritableSigner => SIGNER (WRITE (Meta key))
  end.

Context {P : Type}.
Implicit Types (accts : account_table) (inst : Inst P).

Definition NewInstructionBuilder accts : Inst P := mkInst None (replicate (length accts) None).

Definition SetParams (params : P) inst : Inst P := mkInst (Some params) (AccountMetaSlice inst).

(** [inst.AccountMetaSlice[n] = ...] of the setter of slot [n]. *)
Definition SetAccount accts (n : nat) (key : PublicKey) inst : result (Inst P) :=
  match accts !! n, AccountMetaSlice inst !! n with
  | Some (_, a), Some _ =>
      Ok (mkInst (Params inst) (<[n := Some (meta_for a key)]> (AccountMetaSlice inst)))
  | _, _ => Panic "index out of range"
  end.

Definition GetAccount (n : nat) inst : option AccountMeta :=
  AccountMetaSlice_Get (AccountMetaSlice inst) n.

(** The checks of [Validate] from slot [n] on. *)
Fixpoint validate_accounts accts (n : nat) (slice : list (option AccountMeta)) : result unit :=
  match accts with
  | [] => Ok tt
  | (name, _) :: accts' =>
      match slice !! n with
      | None => Panic "index out of range"
      | Some None => Err (ErrNew ("accounts." +:+ name +:+ " is not set"))
      | Some (Some _) => validate_accounts accts' (S n) slice
      end
  end.

Definition Validate accts inst : result unit :=
  match Params inst with
  | None => Err (ErrNew "Params parameter is not set")
  | Some _ => validate_accounts accts 0 (AccountMetaSlice inst)
  end.

(** The setters [New...Instruction] chains, from slot [n] on. *)
Fixpoint set_accounts accts (n : nat) (keys : list PublicKey) inst : result (Inst P) :=
  match keys with
  | [] => Ok inst
  | key :: keys' => rbind (SetAccount accts n key inst) (set_accounts accts (S n) keys')
  end.

Definition NewInstruction accts (params : P) (keys : list PublicKey) : result (Inst P) :=
  set_accounts accts 0 keys (SetParams params (NewInstructionBuilder accts)).
End builders.
Arguments Inst {_ _} P.
Arguments mkInst {_ _ P}.
Arguments Params {_ _ P}.
Arguments AccountMetaSlice {_ _ P}.

(** *** Lemmas: builders *)

Section builder_lemmas.
Context `{SolanaGo} {P : Type}.
Implicit Types (accts : account_table) (inst : Inst P).

(** The slots an instruction made from [keys] has. *)
Definition metas accts (keys : list PublicKey) : list (option AccountMeta) :=
  zip_with (λ a key, Some (meta_for a.2 key)) accts keys.

Lemma set_accounts_ok done accts keys inst pre :
  length keys = length accts → length done = length pre →
  AccountMetaSlice inst = pre ++ replicate (length accts) None →
  set_accounts (done ++ accts) (length done) keys inst =
    Ok (mkInst (Params inst) (pre ++ metas accts keys)).
Proof.
  revert done accts inst pre. induction keys as [|key keys IH]; intros done [|[name a] accts] inst pre
    Hkeys Hpre Hslice; simplify_eq/=.
  { rewrite <-Hslice. by destruct inst. }
  unfold SetAccount. rewrite list_lookup_middle by done.
  rewrite Hslice, list_lookup_middle by done. simpl.
  replace (done ++ (name, a) :: accts) with ((done ++ [(name, a)]) ++ accts)
    by (by rewrite <-(assoc_L app)).
  replace (S (length done)) with (length (done ++ [(name, a)])) by (rewrite length_app; simpl; lia).
  rewrite (IH _ accts _ (pre ++ [Some (meta_for a key)])); simpl; [|lia|rewrite !length_app; simpl; lia|].
  - by rewrite <-(assoc_L app).
  - rewrite Hpre, insert_app_r_alt by lia. rewrite Nat.sub_diag. simpl. by rewrite <-(assoc_L app).
Qed.

Lemma NewInstruction_ok accts (params : P) keys :
  length keys = length accts →
  NewInstruction accts params keys = Ok (mkInst (Some params) (metas accts keys)).
Proof. intros Hlen. by apply (set_accounts_ok [] accts keys (SetParams params _) []). Qed.

Definition slots_set (n : nat) (slice : list (option AccountMeta)) : Prop :=
  ∀ k, (k < n)%nat → ∃ m, slice !! k = Some (Some m).

(** The checks pass exactly when every slot holds an account. *)
Lemma validate_accounts_ok accts n slice :
  slots_set n slice →
  validate_accounts accts n slice = Ok tt ↔ slots_set (n + length accts) slice.
Proof.
  revert n. induction accts as [|[name a] accts IH]; intros n Hn; simpl.
  { by rewrite Nat.add_0_r. }
  split.
  - destruct (slice !! n) as [[m|]|] eqn:Hs; [|done..]. rewrite IH, Nat.add_succ_r.
    + done.
    + intros k Hk. destruct (decide (k = n)) as [->|]; [by eexists|]. apply Hn. lia.
  - intros Hall. destruct (Hall n) as [m Hm]; [lia|]. rewrite Hm. apply IH.
    + intros k Hk. apply Hall. lia.
    + by rewrite Nat.add_succ_comm.
Qed.

Lemma Validate_ok accts inst :
  Validate accts inst = Ok tt ↔
  is_Some (Params inst) ∧ slots_set (length accts) (AccountMetaSlice inst).
Proof.
  unfold Validate. destruct (Params inst) as [p|].
  - rewrite validate_accounts_ok by (intros k Hk; lia). naive_solver.
  - split; [done|]. intros [[? ?] _]. done.
Qed.

(** The first slot that is not set decides: nil is an error that names the account,
    a slice that is too short (as [DecodeInstruction] makes it from too few accounts)
    panics. *)
Lemma validate_accounts_first accts n k name a slice :
  (∀ j, (n ≤ j < n + k)%nat → ∃ m, slice !! j = Some (Some m)) →
  accts !! k = Some (name, a) →
  (slice !! (n + k)%nat = Some None →
     validate_accounts accts n slice = Err (ErrNew ("accounts." +:+ name +:+ " is not set"))) ∧
  (slice !! (n + k)%nat = None → validate_accounts accts n slice = Panic "index out of range").
Proof.
  revert n k. induction accts as [|[name' a'] accts IH]; intros n k Hset Hk; [done|].
  destruct k as [|k]; simplify_eq/=.
  { rewrite Nat.add_0_r. split; by intros ->. }
  destruct (Hset n) as [m ->]; [lia|].
  destruct (IH (S n) k) as [Herr Hpanic]; [intros j Hj; apply Hset; lia|done|].
  rewrite Nat.add_succ_comm in Herr, Hpanic. done.
Qed.

Lemma NewInstruction_valid accts (params : P) keys :
  length keys = length accts →
  ∃ inst, NewInstruction accts params keys = Ok inst ∧ Validate accts inst = Ok tt.
Proof.
  intros Hlen. eexists. split; [by apply NewInstruction_ok|]. apply Validate_ok.
  split; [by eexists|]. intros k Hk. simpl. unfold metas. rewrite lookup_zip_with.
  destruct (lookup_lt_is_Some_2 accts k) as [x ->]; [lia|].
  destruct (lookup_lt_is_Some_2 keys k) as [y ->]; [lia|]. by eexists.
Qed.
End builder_lemmas.

(** ** Programs: instructions.go *)

Record Instruction (I : Type) := mkInstruction {
  TypeID : list byte;
  Impl : I;
}.
Arguments mkInstruction {I}.
Arguments TypeID {I}.
Arguments Impl {I}.

(** The entry of a variant in [InstructionImplDef]: a fresh struct, decoded. *)
Definition variant_decoder {P I : Type} `{SolanaGo} (mk : Inst P → I) (d : Decoder (Inst P)) :
    Decoder I :=
  inst ← d; mret (mk inst).

(** The methods of an instruction encode its parameters only. *)
Lemma instruction_codec `{SolanaGo} `{!AgBinaryLaws} {P I} (t : wire P) p (mk : Inst P → I) :
  roundtrips t p →
  codec (_ ← Encode (t_ptr t) (Some p); mret tt)
    (variant_decoder mk (vParams ← Decode (t_ptr t); mret (mkInst vParams [])))
    (mk (mkInst (Some p) [])).
Proof.
  intros (bs&Hw&Hr)%ptr_roundtrips. exists (bs ++ []). split; [eauto with wire|].
  rewrite <-(app_nil_r (_ ++ _)). unfold variant_decoder. eauto with wire.
Qed.

(** What a program's instructions offer to instructions.go: the methods it calls on
    [inst.Impl], and the variants of [InstructionImplDef]. *)
Class AnchorProgram `{SolanaGo} (I : Type) := {
  impl_MarshalWithEncoder : I → Encoder unit;
  impl_accounts : I → list (option AccountMeta);
  impl_with_accounts : list (option AccountMeta) → I → I;
  InstructionImplDef : list (string * Decoder I);
}.

Section programs.
Context {I : Type} `{AnchorProgram I}.
Implicit Types inst : Instruction I.

Definition Instruction_MarshalWithEncoder inst : Encoder unit :=
  _ ← wrap_err "unable to write variant type: " (WriteBytes (TypeID inst));
  impl_MarshalWithEncoder (Impl inst).

Definition Instruction_UnmarshalWithDecoder : Decoder (Instruction I) :=
  v ← UnmarshalBinaryVariant InstructionImplDef;
  mret (mkInstruction v.1 v.2).

Definition Accounts inst : list (option AccountMeta) := GetAccounts (impl_accounts (Impl inst)).

Definition Data inst : result (list byte) :=
  match Instruction_MarshalWithEncoder inst [] with
  | (Ok _, buf) => Ok buf
  | (Err e, _) => Err (ErrWrap "unable to encode instruction: " e)
  | (Panic p, _) => Panic p
  end.

Definition DecodeInstruction (accounts : list (option AccountMeta)) (data : list byte) :
    result (Instruction I) :=
  rbind (result_wrap "unable to decode instruction: " (Instruction_UnmarshalWithDecoder data).1)
    (λ inst, rbind (result_wrap "unable to set accounts for instruction: " (SetAccounts accounts))
      (λ slice, Ok (mkInstruction (TypeID inst) (impl_with_accounts slice (Impl inst))))).

Definition registryDecodeInstruction (accounts : list (option AccountMeta)) (data : list byte) :
    result (Instruction I) :=
  DecodeInstruction accounts data.

(** [name] is the variant of [inst]: its identifier is the type id, and what the
    implementation writes is read back without its accounts. *)
Definition variant_of (name : string) inst : Prop :=
  ∃ dec, (name, dec) ∈ InstructionImplDef ∧ sighash "global" name = TypeID inst ∧
    codec (impl_MarshalWithEncoder (Impl inst)) dec (impl_with_accounts [] (Impl inst)).

(** The names of the variants have distinct identifiers. *)
Definition distinct_variants : Prop :=
  NoDup ((λ v, sighash "global" v.1) <$> InstructionImplDef).

Context `{!AgBinaryLaws} `{!SolanaGoLaws}.

Lemma variant_ids :
  AnchorTypeID ∘ fst <$> InstructionImplDef = (λ v, sighash "global" v.1) <$> InstructionImplDef.
Proof. apply list_fmap_ext. intros i v _. apply AnchorTypeID_sighash. Qed.

Lemma DecodeInstruction_Data name inst accounts :
  distinct_variants → variant_of name inst →
  (∀ i l, impl_with_accounts l (impl_with_accounts [] i) = impl_with_accounts l i) →
  ∃ data, Data inst = Ok data ∧
    DecodeInstruction accounts data =
      Ok (mkInstruction (TypeID inst) (impl_with_accounts accounts (Impl inst))).
Proof.
  intros Hdistinct (dec&Hin&Hid&bs&Hw&Hr) Hover. exists (TypeID inst ++ bs).
  assert (writes (Instruction_MarshalWithEncoder inst) (TypeID inst ++ bs)) as Hm
    by (unfold Instruction_MarshalWithEncoder; eauto with wire).
  split; [unfold Data; by rewrite (Hm [])|].
  assert (reads Instruction_UnmarshalWithDecoder (TypeID inst ++ bs)
    (mkInstruction (TypeID inst) (impl_with_accounts [] (Impl inst)))) as Hd.
  { rewrite <-(app_nil_r (_ ++ _)). eapply (reads_bind _ _ _ _ (TypeID inst, _)); [|apply reads_ret].
    rewrite <-Hid, <-AnchorTypeID_sighash. eapply variant_known; [|exact Hin|exact Hr].
    by rewrite variant_ids. }
  unfold DecodeInstruction. specialize (Hd []). rewrite app_nil_r in Hd. rewrite Hd. simpl.
  by rewrite SetAccounts_all; simpl; rewrite Hover.
Qed.

(** ... with its own accounts, the instruction itself. *)
Lemma DecodeInstruction_self name inst :
  distinct_variants → variant_of name inst →
  (∀ i l, impl_with_accounts l (impl_with_accounts [] i) = impl_with_accounts l i) →
  impl_with_accounts (impl_accounts (Impl inst)) (Impl inst) = Impl inst →
  slots_set (length (impl_accounts (Impl inst))) (impl_accounts (Impl inst)) →
  ∃ data, Data inst = Ok data ∧ DecodeInstruction (Accounts inst) data = Ok inst.
Proof.
  intros Hdistinct Hvar Hover Hself Hset. unfold Accounts. rewrite GetAccounts_set.
  - destruct (DecodeInstruction_Data name inst (impl_accounts (Impl inst))) as (data&Hd&Hr); [done..|].
    exists data. split; [done|]. rewrite Hr, Hself. by destruct inst.
  - apply Forall_lookup. intros k m Hk. destruct (Hset k) as [m' Hk'].
    { by eapply lookup_lt_Some. }
    rewrite Hk in Hk'. injection Hk' as ->. by eexists.
Qed.

(** Data that does not start with the identifier of a variant is rejected. *)
Lemma DecodeInstruction_unknown accounts id rest :
  length id = 8%nat → id ∉ ((λ v, sighash "global" v.1) <$> InstructionImplDef) →
  ∃ e, DecodeInstruction accounts (id ++ rest) = Err e.
Proof.
  intros Hlen Hid. rewrite <-variant_ids in Hid.
  destruct (variant_unknown InstructionImplDef id rest Hlen Hid) as (e&rest'&Hrun).
  unfold DecodeInstruction, Instruction_UnmarshalWithDecoder, mbind, M_bind. rewrite Hrun. by eexists.
Qed.
End programs.

(** Finds a name among the variants. *)
Ltac in_variants := repeat first [apply list_elem_of_here | apply list_elem_of_further].
