(* ===== verification/Borsh.v ===== *)
(** * Borsh: a concrete library under the bindings

    Borsh as its specification describes it (little-endian integers, length-prefixed
    sequences, fixed arrays), with Anchor's eight-byte identifiers, as an instance of the
    classes of [Anchor].  It shows that the laws the bindings rely on can hold together,
    and makes the witnesses of the bindings' theorems executable. *)
From Stdlib Require Import Strings.Byte.
From stdpp Require Import vector.
From S2P Require Import Prelude GoLib Sha256 Anchor.

(** ** Reading and writing *)

Definition put (bs : list byte) : Encoder unit := λ buf, (Ok tt, buf ++ bs).

Definition read_n (n : nat) : Decoder (list byte) := λ s,
  if (length s <? n)%nat then (Err (ErrNew "unexpected EOF"), s) else (Ok (take n s), drop n s).

Lemma put_writes bs : writes (put bs) bs.
Proof. done. Qed.

Lemma read_n_reads n bs : length bs = n → reads (read_n n) bs bs.
Proof.
  intros Hlen rest. unfold read_n. rewrite length_app.
  destruct (Nat.ltb_spec (length bs + length rest) n); [lia|].
  by rewrite take_app_length', drop_app_length' by done.
Qed.

(** ** Integers, booleans and fixed arrays of bytes *)

Definition le_wire (n : nat) : wire Z :=
  Wire (λ z, put (rev (be_encode n z))) (bs ← read_n n; mret (be_decode (rev bs))).

Lemma le_wire_ok n bits z :
  bits = 8 * Z.of_nat n → uint bits z → roundtrips (le_wire n) z.
Proof.
  intros -> Hz. exists (rev (be_encode n z)). split; [done|]. simpl.
  rewrite <-(app_nil_r (rev _)). eapply reads_bind.
  - apply read_n_reads. by rewrite length_rev, length_be_encode.
  - rewrite rev_involutive, be_decode_encode, Z.mod_small; [apply reads_ret|].
    replace 256 with (2 ^ 8) by done. by rewrite <-Z.pow_mul_r by lia.
Qed.

Definition bool_wire : wire bool :=
  Wire (λ b : bool, put [if b then x01 else x00]) (bs ← read_n 1; mret (bool_decide (bs ≠ [x00]))).

Lemma bool_wire_ok b : roundtrips bool_wire b.
Proof.
  exists ([if b then x01 else x00] ++ []). split; [done|]. eapply reads_bind.
  - by apply read_n_reads.
  - destruct b; apply reads_ret.
Qed.

Definition vec_of_bytes (n : nat) (bs : list byte) : vec byte n :=
  fun_to_vec (λ i, nth (fin_to_nat i) bs x00).

Definition vec_wire (n : nat) : wire (vec byte n) :=
  Wire (λ v : vec byte n, put (vec_to_list v)) (bs ← read_n n; mret (vec_of_bytes n bs)).

Lemma vec_of_bytes_of n (v : vec byte n) : vec_of_bytes n (vec_to_list v) = v.
Proof.
  apply vec_eq. intros i. unfold vec_of_bytes. rewrite lookup_fun_to_vec.
  apply nth_lookup_Some, vlookup_lookup. done.
Qed.

Lemma vec_wire_ok n (v : vec byte n) : roundtrips (vec_wire n) v.
Proof.
  exists (vec_to_list v ++ []). split; [by rewrite app_nil_r|]. eapply reads_bind.
  - apply read_n_reads, length_vec_to_list.
  - rewrite vec_of_bytes_of. apply reads_ret.
Qed.

(** ** Sequences and pointers *)

Definition array_wire {A} (n : nat) (t : wire A) : wire (list A) :=
  Wire (λ l, for_each l (Encode t))
    ((fix go n := match n with
                  | O => mret []
                  | S n' => a ← Decode t; l ← go n'; mret (a :: l)
                  end) n).

Lemma array_wire_ok {A} (t : wire A) l :
  Forall (roundtrips t) l → roundtrips (array_wire (length l) t) l.
Proof.
  induction 1 as [|a l (bs&Hw&Hr) _ (bss&Hws&Hrs)].
  { exists []. split; [apply writes_ret|apply reads_ret]. }
  exists (bs ++ bss). split; [by apply writes_bind|].
  simpl. eapply reads_bind; [exact Hr|]. rewrite <-(app_nil_r bss).
  eapply reads_bind; [exact Hrs|apply reads_ret].
Qed.

Definition slice_wire {A} (t : wire A) : wire (list A) :=
  Wire (λ l, _ ← Encode (le_wire 4) (Z.of_nat (length l)); Encode (array_wire (length l) t) l)
    (n ← Decode (le_wire 4); Decode (array_wire (Z.to_nat n) t)).

Lemma slice_wire_ok {A} (t : wire A) l :
  uint 32 (Z.of_nat (length l)) → Forall (roundtrips t) l → roundtrips (slice_wire t) l.
Proof.
  intros (bs&Hw&Hr)%(le_wire_ok 4 32) (bss&Hws&Hrs)%array_wire_ok; [|done].
  exists (bs ++ bss). split; [by apply writes_bind|].
  simpl. eapply reads_bind; [exact Hr|]. by rewrite Nat2Z.id.
Qed.

Definition byte_wire : wire byte :=
  Wire (λ b, put [b]) (bs ← read_n 1; mret (nth 0 bs x00)).

Lemma byte_wire_ok b : roundtrips byte_wire b.
Proof.
  exists ([b] ++ []). split; [done|]. eapply reads_bind; [by apply read_n_reads|apply reads_ret].
Qed.

Definition ptr_wire {A} (t : wire A) : wire (option A) :=
  Wire (λ o, match o with
             | Some a => Encode t a
             | None => go_panic "nil pointer dereference"
             end)
    (a ← Decode t; mret (Some a)).

Lemma ptr_wire_ok {A} (t : wire A) a : roundtrips t a → roundtrips (ptr_wire t) (Some a).
Proof.
  intros (bs&Hw&Hr). exists (bs ++ []). rewrite app_nil_r at 1. split; [done|].
  eapply reads_bind; [exact Hr|apply reads_ret].
Qed.

(** ** The library *)

Definition borsh_variant {I} (vs : list (string * Decoder I)) : Decoder (list byte * I) :=
  id ← read_n 8;
  match List.find (λ v, bool_decide (sighash "global" v.1 = id)) vs with
  | Some v => i ← v.2; mret (id, i)
  | None => throw (ErrNew "no known type")
  end.

#[local] Instance borsh : AgBinary := {|
  PublicKey := vec byte 32;
  Uint128 := vec byte 16;
  t_uint8 := le_wire 1;
  t_uint32 := le_wire 4;
  t_uint64 := le_wire 8;
  t_Uint128 := vec_wire 16;
  t_bool := bool_wire;
  t_bytes := slice_wire byte_wire;
  t_PublicKey := vec_wire 32;
  t_slice _ := slice_wire;
  t_array _ := array_wire;
  t_ptr _ := ptr_wire;
  WriteBytes := put;
  ReadTypeID := read_n 8;
  AnchorTypeID := sighash "global";
  UnmarshalBinaryVariant _ := borsh_variant;
|}.

Lemma find_variant {I} (vs : list (string * Decoder I)) v :
  NoDup (sighash "global" ∘ fst <$> vs) → v ∈ vs →
  List.find (λ v', bool_decide (sighash "global" v'.1 = sighash "global" v.1)) vs = Some v.
Proof.
  induction vs as [|v' vs IH]; simpl; [set_solver|]. rewrite NoDup_cons. intros [Hnot Hnd] Hin.
  case_bool_decide as Heq.
  - apply elem_of_cons in Hin as [->|Hin]; [done|]. destruct Hnot. simpl. rewrite Heq.
    by apply (list_elem_of_fmap_2 (sighash "global" ∘ fst) vs v).
  - apply elem_of_cons in Hin as [->|Hin]; [done|]. by apply IH.
Qed.

#[local] Instance borsh_laws : AgBinaryLaws.
Proof.
  split; simpl.
  1-3: intros n; by apply le_wire_ok.
  1, 4: intros; apply vec_wire_ok.
  - apply bool_wire_ok.
  - intros bs Hlen. apply slice_wire_ok; [done|]. apply Forall_true, byte_wire_ok.
  - intros A t l. apply slice_wire_ok.
  - intros A t l. apply array_wire_ok.
  - intros A t a. apply ptr_wire_ok.
  - apply put_writes.
  - intros bs. apply read_n_reads.
  - done.
  - intros I vs name dec bs i Hnd Hin Hr. eapply reads_bind; [apply read_n_reads, sighash_length|].
    pose proof (find_variant vs (name, dec) Hnd Hin) as Hf. simpl in Hf. rewrite Hf. simpl.
    rewrite <-(app_nil_r bs). eapply reads_bind; [exact Hr|apply reads_ret].
  - intros I vs id rest Hlen Hnot. unfold borsh_variant, mbind, M_bind.
    rewrite (read_n_reads 8 id Hlen). destruct (List.find _ vs) as [v|] eqn:Hf; [|by do 2 eexists].
    apply List.find_some in Hf as [Hin Heq%bool_decide_eq_true]. destruct Hnot.
    rewrite <-Heq. apply (list_elem_of_fmap_2 (sighash "global" ∘ fst)). by apply list_elem_of_In.
Qed.

(** An account meta: the key, and whether it is writable and a signer. *)
#[local] Instance solana : SolanaGo := {|
  AccountMeta := vec byte 32 * bool * bool;
  Meta key := (key, false, false);
  WRITE m := (m.1.1, true, m.2);
  SIGNER m := (m.1.1, m.1.2, true);
  AccountMetaSlice_Get l n := mjoin (l !! n);
  GetAccounts l := List.filter (λ m, bool_decide (is_Some m)) l;
  SetAccounts l := Ok l;
|}.

#[local] Instance solana_laws : SolanaGoLaws.
Proof.
  split; simpl; [| |done].
  - by intros l n m ->.
  - induction 1 as [|m l Hm _ IH]; simpl; [done|]. rewrite bool_decide_eq_true_2 by done. by rewrite IH.
Qed.
