(* ===== verification/MessageTransmitter.v ===== *)
(** * MessageTransmitter: shared/svm/contracts/cctp/message_transmitter

    The bindings of the CCTP message transmitter on Solana.
    The structs of types.go and accounts.go with their Borsh methods, the builders of
    the 18 instructions (each over its table of accounts, see [Anchor]), and
    instructions.go.  Theorems: what is built and validated is decoded from its data
    and accounts unchanged, and every identifier and discriminator in the source is the
    one Anchor derives from the name. *)
From Stdlib Require Import Strings.Byte.
From S2P Require Import Prelude GoLib Sha256 Anchor Borsh.

Section message_transmitter.
Context `{AgBinary}.

(** ** types.go *)

Record AcceptOwnershipParams := mkAcceptOwnershipParams {}.
Definition AcceptOwnershipParams_MarshalWithEncoder (_ : AcceptOwnershipParams) : Encoder unit :=
  mret tt.
Definition AcceptOwnershipParams_UnmarshalWithDecoder : Decoder AcceptOwnershipParams :=
  mret (mkAcceptOwnershipParams).
Definition t_AcceptOwnershipParams : wire AcceptOwnershipParams :=
  Wire AcceptOwnershipParams_MarshalWithEncoder AcceptOwnershipParams_UnmarshalWithDecoder.

Record DisableAttesterParams := mkDisableAttesterParams {
  DisableAttesterParams_Attester : PublicKey;
}.
Definition DisableAttesterParams_MarshalWithEncoder (obj : DisableAttesterParams) : Encoder unit :=
  _ ← Encode t_PublicKey (DisableAttesterParams_Attester obj);
  mret tt.
Definition DisableAttesterParams_UnmarshalWithDecoder : Decoder DisableAttesterParams :=
  vAttester ← Decode t_PublicKey;
  mret (mkDisableAttesterParams vAttester).
Definition t_DisableAttesterParams : wire DisableAttesterParams :=
  Wire DisableAttesterParams_MarshalWithEncoder DisableAttesterParams_UnmarshalWithDecoder.

Record EnableAttesterParams := mkEnableAttesterParams {
  EnableAttesterParams_NewAttester : PublicKey;
}.
Definition EnableAttesterParams_MarshalWithEncoder (obj : EnableAttesterParams) : Encoder unit :=
  _ ← Encode t_PublicKey (EnableAttesterParams_NewAttester obj);
  mret tt.
Definition EnableAttesterParams_UnmarshalWithDecoder : Decoder EnableAttesterParams :=
  vNewAttester ← Decode t_PublicKey;
  mret (mkEnableAttesterParams vNewAttester).
Definition t_EnableAttesterParams : wire EnableAttesterParams :=
  Wire EnableAttesterParams_MarshalWithEncoder EnableAttesterParams_UnmarshalWithDecoder.

Record GetNoncePDAParams := mkGetNoncePDAParams {
  GetNoncePDAParams_Nonce : Z;
  GetNoncePDAParams_SourceDomain : Z;
}.
Definition GetNoncePDAParams_MarshalWithEncoder (obj : GetNoncePDAParams) : Encoder unit :=
  _ ← Encode t_uint64 (GetNoncePDAParams_Nonce obj);
  _ ← Encode t_uint32 (GetNoncePDAParams_SourceDomain obj);
  mret tt.
Definition GetNoncePDAParams_UnmarshalWithDecoder : Decoder GetNoncePDAParams :=
  vNonce ← Decode t_uint64;
  vSourceDomain ← Decode t_uint32;
  mret (mkGetNoncePDAParams vNonce vSourceDomain).
Definition t_GetNoncePDAParams : wire GetNoncePDAParams :=
  Wire GetNoncePDAParams_MarshalWithEncoder GetNoncePDAParams_UnmarshalWithDecoder.
Definition GetNoncePDAParams_fits (obj : GetNoncePDAParams) : Prop :=
  uint 64 (GetNoncePDAParams_Nonce obj) ∧
  uint 32 (GetNoncePDAParams_SourceDomain obj).

Record InitializeParams := mkInitializeParams {
  InitializeParams_LocalDomain : Z;
  InitializeParams_Attester : PublicKey;
  InitializeParams_MaxMessageBodySize : Z;
  InitializeParams_Version : Z;
}.
Definition InitializeParams_MarshalWithEncoder (obj : InitializeParams) : Encoder unit :=
  _ ← Encode t_uint32 (InitializeParams_LocalDomain obj);
  _ ← Encode t_PublicKey (InitializeParams_Attester obj);
  _ ← Encode t_uint64 (InitializeParams_MaxMessageBodySize obj);
  _ ← Encode t_uint32 (InitializeParams_Version obj);
  mret tt.
Definition InitializeParams_UnmarshalWithDecoder : Decoder InitializeParams :=
  vLocalDomain ← Decode t_uint32;
  vAttester ← Decode t_PublicKey;
  vMaxMessageBodySize ← Decode t_uint64;
  vVersion ← Decode t_uint32;
  mret (mkInitializeParams vLocalDomain vAttester vMaxMessageBodySize vVersion).
Definition t_InitializeParams : wire InitializeParams :=
  Wire InitializeParams_MarshalWithEncoder InitializeParams_UnmarshalWithDecoder.
Definition InitializeParams_fits (obj : InitializeParams) : Prop :=
  uint 32 (InitializeParams_LocalDomain obj) ∧
  uint 64 (InitializeParams_MaxMessageBodySize obj) ∧
  uint 32 (InitializeParams_Version obj).

Record IsNonceUsedParams := mkIsNonceUsedParams {
  IsNonceUsedParams_Nonce : Z;
}.
Definition IsNonceUsedParams_MarshalWithEncoder (obj : IsNonceUsedParams) : Encoder unit :=
  _ ← Encode t_uint64 (IsNonceUsedParams_Nonce obj);
  mret tt.
Definition IsNonceUsedParams_UnmarshalWithDecoder : Decoder IsNonceUsedParams :=
  vNonce ← Decode t_uint64;
  mret (mkIsNonceUsedParams vNonce).
Definition t_IsNonceUsedParams : wire IsNonceUsedParams :=
  Wire IsNonceUsedParams_MarshalWithEncoder IsNonceUsedParams_UnmarshalWithDecoder.
Definition IsNonceUsedParams_fits (obj : IsNonceUsedParams) : Prop :=
  uint 64 (IsNonceUsedParams_Nonce obj).

Record PauseParams := mkPauseParams {}.
Definition PauseParams_MarshalWithEncoder (_ : PauseParams) : Encoder unit :=
  mret tt.
Definition PauseParams_UnmarshalWithDecoder : Decoder PauseParams :=
  mret (mkPauseParams).
Definition t_PauseParams : wire PauseParams :=
  Wire PauseParams_MarshalWithEncoder PauseParams_UnmarshalWithDecoder.

Record ReceiveMessageParams := mkReceiveMessageParams {
  ReceiveMessageParams_Message : list byte;
  ReceiveMessageParams_Attestation : list byte;
}.
Definition ReceiveMessageParams_MarshalWithEncoder (obj : ReceiveMessageParams) : Encoder unit :=
  _ ← Encode t_bytes (ReceiveMessageParams_Message obj);
  _ ← Encode t_bytes (ReceiveMessageParams_Attestation obj);
  mret tt.
Definition ReceiveMessageParams_UnmarshalWithDecoder : Decoder ReceiveMessageParams :=
  vMessage ← Decode t_bytes;
  vAttestation ← Decode t_bytes;
  mret (mkReceiveMessageParams vMessage vAttestation).
Definition t_ReceiveMessageParams : wire ReceiveMessageParams :=
  Wire ReceiveMessageParams_MarshalWithEncoder ReceiveMessageParams_UnmarshalWithDecoder.
Definition ReceiveMessageParams_fits (obj : ReceiveMessageParams) : Prop :=
  uint 32 (Z.of_nat (length (ReceiveMessageParams_Message obj))) ∧
  uint 32 (Z.of_nat (length (ReceiveMessageParams_Attestation obj))).

Record HandleReceiveMessageParams := mkHandleReceiveMessageParams {
  HandleReceiveMessageParams_RemoteDomain : Z;
  HandleReceiveMessageParams_Sender : PublicKey;
  HandleReceiveMessageParams_MessageBody : list byte;
  HandleReceiveMessageParams_AuthorityBump : Z;
}.
Definition HandleReceiveMessageParams_MarshalWithEncoder (obj : HandleReceiveMessageParams)
    : Encoder unit :=
  _ ← Encode t_uint32 (HandleReceiveMessageParams_RemoteDomain obj);
  _ ← Encode t_PublicKey (HandleReceiveMessageParams_Sender obj);
  _ ← Encode t_bytes (HandleReceiveMessageParams_MessageBody obj);
  _ ← Encode t_uint8 (HandleReceiveMessageParams_AuthorityBump obj);
  mret tt.
Definition HandleReceiveMessageParams_UnmarshalWithDecoder : Decoder HandleReceiveMessageParams :=
  vRemoteDomain ← Decode t_uint32;
  vSender ← Decode t_PublicKey;
  vMessageBody ← Decode t_bytes;
  vAuthorityBump ← Decode t_uint8;
  mret (mkHandleReceiveMessageParams vRemoteDomain vSender vMessageBody vAuthorityBump).
Definition t_HandleReceiveMessageParams : wire HandleReceiveMessageParams :=
  Wire HandleReceiveMessageParams_MarshalWithEncoder
    HandleReceiveMessageParams_UnmarshalWithDecoder.
Definition HandleReceiveMessageParams_fits (obj : HandleReceiveMessageParams) : Prop :=
  uint 32 (HandleReceiveMessageParams_RemoteDomain obj) ∧
  uint 32 (Z.of_nat (length (HandleReceiveMessageParams_MessageBody obj))) ∧
  uint 8 (HandleReceiveMessageParams_AuthorityBump obj).

Record ReclaimEventAccountParams := mkReclaimEventAccountParams {
  ReclaimEventAccountParams_Attestation : list byte;
}.
Definition ReclaimEventAccountParams_MarshalWithEncoder (obj : ReclaimEventAccountParams)
    : Encoder unit :=
  _ ← Encode t_bytes (ReclaimEventAccountParams_Attestation obj);
  mret tt.
Definition ReclaimEventAccountParams_UnmarshalWithDecoder : Decoder ReclaimEventAccountParams :=
  vAttestation ← Decode t_bytes;
  mret (mkReclaimEventAccountParams vAttestation).
Definition t_ReclaimEventAccountParams : wire ReclaimEventAccountParams :=
  Wire ReclaimEventAccountParams_MarshalWithEncoder ReclaimEventAccountParams_UnmarshalWithDecoder.
Definition ReclaimEventAccountParams_fits (obj : ReclaimEventAccountParams) : Prop :=
  uint 32 (Z.of_nat (length (ReclaimEventAccountParams_Attestation obj))).

Record ReplaceMessageParams := mkReplaceMessageParams {
  ReplaceMessageParams_OriginalMessage : list byte;
  ReplaceMessageParams_OriginalAttestation : list byte;
  ReplaceMessageParams_NewMessageBody : list byte;
  ReplaceMessageParams_NewDestinationCaller : PublicKey;
}.
Definition ReplaceMessageParams_MarshalWithEncoder (obj : ReplaceMessageParams) : Encoder unit :=
  _ ← Encode t_bytes (ReplaceMessageParams_OriginalMessage obj);
  _ ← Encode t_bytes (ReplaceMessageParams_OriginalAttestation obj);
  _ ← Encode t_bytes (ReplaceMessageParams_NewMessageBody obj);
  _ ← Encode t_PublicKey (ReplaceMessageParams_NewDestinationCaller obj);
  mret tt.
Definition ReplaceMessageParams_UnmarshalWithDecoder : Decoder ReplaceMessageParams :=
  vOriginalMessage ← Decode t_bytes;
  vOriginalAttestation ← Decode t_bytes;
  vNewMessageBody ← Decode t_bytes;
  vNewDestinationCaller ← Decode t_PublicKey;
  mret (mkReplaceMessageParams vOriginalMessage vOriginalAttestation vNewMessageBody
          vNewDestinationCaller).
Definition t_ReplaceMessageParams : wire ReplaceMessageParams :=
  Wire ReplaceMessageParams_MarshalWithEncoder ReplaceMessageParams_UnmarshalWithDecoder.
Definition ReplaceMessageParams_fits (obj : ReplaceMessageParams) : Prop :=
  uint 32 (Z.of_nat (length (ReplaceMessageParams_OriginalMessage obj))) ∧
  uint 32 (Z.of_nat (length (ReplaceMessageParams_OriginalAttestation obj))) ∧
  uint 32 (Z.of_nat (length (ReplaceMessageParams_NewMessageBody obj))).

Record SendMessageWithCallerParams := mkSendMessageWithCallerParams {
  SendMessageWithCallerParams_DestinationDomain : Z;
  SendMessageWithCallerParams_Recipient : PublicKey;
  SendMessageWithCallerParams_MessageBody : list byte;
  SendMessageWithCallerParams_DestinationCaller : PublicKey;
}.
Definition SendMessageWithCallerParams_MarshalWithEncoder (obj : SendMessageWithCallerParams)
    : Encoder unit :=
  _ ← Encode t_uint32 (SendMessageWithCallerParams_DestinationDomain obj);
  _ ← Encode t_PublicKey (SendMessageWithCallerParams_Recipient obj);
  _ ← Encode t_bytes (SendMessageWithCallerParams_MessageBody obj);
  _ ← Encode t_PublicKey (SendMessageWithCallerParams_DestinationCaller obj);
  mret tt.
Definition SendMessageWithCallerParams_UnmarshalWithDecoder : Decoder SendMessageWithCallerParams :=
  vDestinationDomain ← Decode t_uint32;
  vRecipient ← Decode t_PublicKey;
  vMessageBody ← Decode t_bytes;
  vDestinationCaller ← Decode t_PublicKey;
  mret (mkSendMessageWithCallerParams vDestinationDomain vRecipient vMessageBody
          vDestinationCaller).
Definition t_SendMessageWithCallerParams : wire SendMessageWithCallerParams :=
  Wire SendMessageWithCallerParams_MarshalWithEncoder
    SendMessageWithCallerParams_UnmarshalWithDecoder.
Definition SendMessageWithCallerParams_fits (obj : SendMessageWithCallerParams) : Prop :=
  uint 32 (SendMessageWithCallerParams_DestinationDomain obj) ∧
  uint 32 (Z.of_nat (length (SendMessageWithCallerParams_MessageBody obj))).

Record SendMessageParams := mkSendMessageParams {
  SendMessageParams_DestinationDomain : Z;
  SendMessageParams_Recipient : PublicKey;
  SendMessageParams_MessageBody : list byte;
}.
Definition SendMessageParams_MarshalWithEncoder (obj : SendMessageParams) : Encoder unit :=
  _ ← Encode t_uint32 (SendMessageParams_DestinationDomain obj);
  _ ← Encode t_PublicKey (SendMessageParams_Recipient obj);
  _ ← Encode t_bytes (SendMessageParams_MessageBody obj);
  mret tt.
Definition SendMessageParams_UnmarshalWithDecoder : Decoder SendMessageParams :=
  vDestinationDomain ← Decode t_uint32;
  vRecipient ← Decode t_PublicKey;
  vMessageBody ← Decode t_bytes;
  mret (mkSendMessageParams vDestinationDomain vRecipient vMessageBody).
Definition t_SendMessageParams : wire SendMessageParams :=
  Wire SendMessageParams_MarshalWithEncoder SendMessageParams_UnmarshalWithDecoder.
Definition SendMessageParams_fits (obj : SendMessageParams) : Prop :=
  uint 32 (SendMessageParams_DestinationDomain obj) ∧
  uint 32 (Z.of_nat (length (SendMessageParams_MessageBody obj))).

Record SetMaxMessageBodySizeParams := mkSetMaxMessageBodySizeParams {
  SetMaxMessageBodySizeParams_NewMaxMessageBodySize : Z;
}.
Definition SetMaxMessageBodySizeParams_MarshalWithEncoder (obj : SetMaxMessageBodySizeParams)
    : Encoder unit :=
  _ ← Encode t_uint64 (SetMaxMessageBodySizeParams_NewMaxMessageBodySize obj);
  mret tt.
Definition SetMaxMessageBodySizeParams_UnmarshalWithDecoder : Decoder SetMaxMessageBodySizeParams :=
  vNewMaxMessageBodySize ← Decode t_uint64;
  mret (mkSetMaxMessageBodySizeParams vNewMaxMessageBodySize).
Definition t_SetMaxMessageBodySizeParams : wire SetMaxMessageBodySizeParams :=
  Wire SetMaxMessageBodySizeParams_MarshalWithEncoder
    SetMaxMessageBodySizeParams_UnmarshalWithDecoder.
Definition SetMaxMessageBodySizeParams_fits (obj : SetMaxMessageBodySizeParams) : Prop :=
  uint 64 (SetMaxMessageBodySizeParams_NewMaxMessageBodySize obj).

Record SetSignatureThresholdParams := mkSetSignatureThresholdParams {
  SetSignatureThresholdParams_NewSignatureThreshold : Z;
}.
Definition SetSignatureThresholdParams_MarshalWithEncoder (obj : SetSignatureThresholdParams)
    : Encoder unit :=
  _ ← Encode t_uint32 (SetSignatureThresholdParams_NewSignatureThreshold obj);
  mret tt.
Definition SetSignatureThresholdParams_UnmarshalWithDecoder : Decoder SetSignatureThresholdParams :=
  vNewSignatureThreshold ← Decode t_uint32;
  mret (mkSetSignatureThresholdParams vNewSignatureThreshold).
Definition t_SetSignatureThresholdParams : wire SetSignatureThresholdParams :=
  Wire SetSignatureThresholdParams_MarshalWithEncoder
    SetSignatureThresholdParams_UnmarshalWithDecoder.
Definition SetSignatureThresholdParams_fits (obj : SetSignatureThresholdParams) : Prop :=
  uint 32 (SetSignatureThresholdParams_NewSignatureThreshold obj).

Record TransferOwnershipParams := mkTransferOwnershipParams {
  TransferOwnershipParams_NewOwner : PublicKey;
}.
Definition TransferOwnershipParams_MarshalWithEncoder (obj : TransferOwnershipParams)
    : Encoder unit :=
  _ ← Encode t_PublicKey (TransferOwnershipParams_NewOwner obj);
  mret tt.
Definition TransferOwnershipParams_UnmarshalWithDecoder : Decoder TransferOwnershipParams :=
  vNewOwner ← Decode t_PublicKey;
  mret (mkTransferOwnershipParams vNewOwner).
Definition t_TransferOwnershipParams : wire TransferOwnershipParams :=
  Wire TransferOwnershipParams_MarshalWithEncoder TransferOwnershipParams_UnmarshalWithDecoder.

Record UnpauseParams := mkUnpauseParams {}.
Definition UnpauseParams_MarshalWithEncoder (_ : UnpauseParams) : Encoder unit :=
  mret tt.
Definition UnpauseParams_UnmarshalWithDecoder : Decoder UnpauseParams :=
  mret (mkUnpauseParams).
Definition t_UnpauseParams : wire UnpauseParams :=
  Wire UnpauseParams_MarshalWithEncoder UnpauseParams_UnmarshalWithDecoder.

Record UpdateAttesterManagerParams := mkUpdateAttesterManagerParams {
  UpdateAttesterManagerParams_NewAttesterManager : PublicKey;
}.
Definition UpdateAttesterManagerParams_MarshalWithEncoder (obj : UpdateAttesterManagerParams)
    : Encoder unit :=
  _ ← Encode t_PublicKey (UpdateAttesterManagerParams_NewAttesterManager obj);
  mret tt.
Definition UpdateAttesterManagerParams_UnmarshalWithDecoder : Decoder UpdateAttesterManagerParams :=
  vNewAttesterManager ← Decode t_PublicKey;
  mret (mkUpdateAttesterManagerParams vNewAttesterManager).
Definition t_UpdateAttesterManagerParams : wire UpdateAttesterManagerParams :=
  Wire UpdateAttesterManagerParams_MarshalWithEncoder
    UpdateAttesterManagerParams_UnmarshalWithDecoder.

Record UpdatePauserParams := mkUpdatePauserParams {
  UpdatePauserParams_NewPauser : PublicKey;
}.
Definition UpdatePauserParams_MarshalWithEncoder (obj : UpdatePauserParams) : Encoder unit :=
  _ ← Encode t_PublicKey (UpdatePauserParams_NewPauser obj);
  mret tt.
Definition UpdatePauserParams_UnmarshalWithDecoder : Decoder UpdatePauserParams :=
  vNewPauser ← Decode t_PublicKey;
  mret (mkUpdatePauserParams vNewPauser).
Definition t_UpdatePauserParams : wire UpdatePauserParams :=
  Wire UpdatePauserParams_MarshalWithEncoder UpdatePauserParams_UnmarshalWithDecoder.

(** The values of [MathError], a Borsh enumeration. *)
Definition MathErrorMathOverflow : Z := 0.
Definition MathErrorMathUnderflow : Z := 1.
Definition MathErrorErrorInDivision : Z := 2.
Definition MathError_String (value : Z) : string :=
  (if (value =? MathErrorMathOverflow)%Z then "MathOverflow" else
   if (value =? MathErrorMathUnderflow)%Z then "MathUnderflow" else
   if (value =? MathErrorErrorInDivision)%Z then "ErrorInDivision" else "")%string.

(** ** accounts.go *)

Record MessageSent := mkMessageSent {
  MessageSent_RentPayer : PublicKey;
  MessageSent_Message : list byte;
}.
Definition MessageSentDiscriminator : list byte :=
  byte_array [131; 100; 133; 56; 166; 225; 151; 60].
Definition MessageSent_MarshalWithEncoder (obj : MessageSent) : Encoder unit :=
  _ ← WriteBytes MessageSentDiscriminator;
  _ ← Encode t_PublicKey (MessageSent_RentPayer obj);
  _ ← Encode t_bytes (MessageSent_Message obj);
  mret tt.
Definition MessageSent_UnmarshalWithDecoder : Decoder MessageSent :=
  _ ← check_discriminator MessageSentDiscriminator;
  vRentPayer ← Decode t_PublicKey;
  vMessage ← Decode t_bytes;
  mret (mkMessageSent vRentPayer vMessage).
Definition t_MessageSent : wire MessageSent :=
  Wire MessageSent_MarshalWithEncoder MessageSent_UnmarshalWithDecoder.
Definition MessageSent_fits (obj : MessageSent) : Prop :=
  uint 32 (Z.of_nat (length (MessageSent_Message obj))).

Record MessageTransmitter := mkMessageTransmitter {
  MessageTransmitter_Owner : PublicKey;
  MessageTransmitter_PendingOwner : PublicKey;
  MessageTransmitter_AttesterManager : PublicKey;
  MessageTransmitter_Pauser : PublicKey;
  MessageTransmitter_Paused : bool;
  MessageTransmitter_LocalDomain : Z;
  MessageTransmitter_Version : Z;
  MessageTransmitter_SignatureThreshold : Z;
  MessageTransmitter_EnabledAttesters : list PublicKey;
  MessageTransmitter_MaxMessageBodySize : Z;
  MessageTransmitter_NextAvailableNonce : Z;
}.
Definition MessageTransmitterDiscriminator : list byte :=
  byte_array [71; 40; 180; 142; 19; 203; 35; 252].
Definition MessageTransmitter_MarshalWithEncoder (obj : MessageTransmitter) : Encoder unit :=
  _ ← WriteBytes MessageTransmitterDiscriminator;
  _ ← Encode t_PublicKey (MessageTransmitter_Owner obj);
  _ ← Encode t_PublicKey (MessageTransmitter_PendingOwner obj);
  _ ← Encode t_PublicKey (MessageTransmitter_AttesterManager obj);
  _ ← Encode t_PublicKey (MessageTransmitter_Pauser obj);
  _ ← Encode t_bool (MessageTransmitter_Paused obj);
  _ ← Encode t_uint32 (MessageTransmitter_LocalDomain obj);
  _ ← Encode t_uint32 (MessageTransmitter_Version obj);
  _ ← Encode t_uint32 (MessageTransmitter_SignatureThreshold obj);
  _ ← Encode (t_slice t_PublicKey) (MessageTransmitter_EnabledAttesters obj);
  _ ← Encode t_uint64 (MessageTransmitter_MaxMessageBodySize obj);
  _ ← Encode t_uint64 (MessageTransmitter_NextAvailableNonce obj);
  mret tt.
Definition MessageTransmitter_UnmarshalWithDecoder : Decoder MessageTransmitter :=
  _ ← check_discriminator MessageTransmitterDiscriminator;
  vOwner ← Decode t_PublicKey;
  vPendingOwner ← Decode t_PublicKey;
  vAttesterManager ← Decode t_PublicKey;
  vPauser ← Decode t_PublicKey;
  vPaused ← Decode t_bool;
  vLocalDomain ← Decode t_uint32;
  vVersion ← Decode t_uint32;
  vSignatureThreshold ← Decode t_uint32;
  vEnabledAttesters ← Decode (t_slice t_PublicKey);
  vMaxMessageBodySize ← Decode t_uint64;
  vNextAvailableNonce ← Decode t_uint64;
  mret (mkMessageTransmitter vOwner vPendingOwner vAttesterManager vPauser vPaused vLocalDomain
          vVersion vSignatureThreshold vEnabledAttesters vMaxMessageBodySize
          vNextAvailableNonce).
Definition t_MessageTransmitter : wire MessageTransmitter :=
  Wire MessageTransmitter_MarshalWithEncoder MessageTransmitter_UnmarshalWithDecoder.
Definition MessageTransmitter_fits (obj : MessageTransmitter) : Prop :=
  uint 32 (MessageTransmitter_LocalDomain obj) ∧
  uint 32 (MessageTransmitter_Version obj) ∧
  uint 32 (MessageTransmitter_SignatureThreshold obj) ∧
  uint 32 (Z.of_nat (length (MessageTransmitter_EnabledAttesters obj))) ∧
  uint 64 (MessageTransmitter_MaxMessageBodySize obj) ∧
  uint 64 (MessageTransmitter_NextAvailableNonce obj).

Record UsedNonces := mkUsedNonces {
  UsedNonces_RemoteDomain : Z;
  UsedNonces_FirstNonce : Z;
  UsedNonces_UsedNonces : list Z;
}.
Definition UsedNoncesDiscriminator : list byte :=
  byte_array [60; 112; 18; 72; 138; 181; 100; 138].
Definition UsedNonces_MarshalWithEncoder (obj : UsedNonces) : Encoder unit :=
  _ ← WriteBytes UsedNoncesDiscriminator;
  _ ← Encode t_uint32 (UsedNonces_RemoteDomain obj);
  _ ← Encode t_uint64 (UsedNonces_FirstNonce obj);
  _ ← Encode (t_array 100 t_uint64) (UsedNonces_UsedNonces obj);
  mret tt.
Definition UsedNonces_UnmarshalWithDecoder : Decoder UsedNonces :=
  _ ← check_discriminator UsedNoncesDiscriminator;
  vRemoteDomain ← Decode t_uint32;
  vFirstNonce ← Decode t_uint64;
  vUsedNonces ← Decode (t_array 100 t_uint64);
  mret (mkUsedNonces vRemoteDomain vFirstNonce vUsedNonces).
Definition t_UsedNonces : wire UsedNonces :=
  Wire UsedNonces_MarshalWithEncoder UsedNonces_UnmarshalWithDecoder.
Definition UsedNonces_fits (obj : UsedNonces) : Prop :=
  uint 32 (UsedNonces_RemoteDomain obj) ∧
  uint 64 (UsedNonces_FirstNonce obj) ∧
  length (UsedNonces_UsedNonces obj) = 100%nat ∧ Forall (uint 64) (UsedNonces_UsedNonces obj).

(** ** Lemmas: the structs *)

Section roundtrips.
Context `{!AgBinaryLaws}.

Lemma mt_AcceptOwnershipParams_roundtrips obj : roundtrips t_AcceptOwnershipParams obj.
Proof. destruct obj; solve_struct. Qed.
Lemma mt_DisableAttesterParams_roundtrips obj : roundtrips t_DisableAttesterParams obj.
Proof. destruct obj; solve_struct. Qed.
Lemma mt_EnableAttesterParams_roundtrips obj : roundtrips t_EnableAttesterParams obj.
Proof. destruct obj; solve_struct. Qed.
Lemma mt_GetNoncePDAParams_roundtrips obj :
  GetNoncePDAParams_fits obj → roundtrips t_GetNoncePDAParams obj.
Proof. destruct obj; intros (?&?); solve_struct. Qed.
Lemma mt_InitializeParams_roundtrips obj :
  InitializeParams_fits obj → roundtrips t_InitializeParams obj.
Proof. destruct obj; intros (?&?&?); solve_struct. Qed.
Lemma mt_IsNonceUsedParams_roundtrips obj :
  IsNonceUsedParams_fits obj → roundtrips t_IsNonceUsedParams obj.
Proof. destruct obj; intros ?; solve_struct. Qed.
Lemma mt_PauseParams_roundtrips obj : roundtrips t_PauseParams obj.
Proof. destruct obj; solve_struct. Qed.
Lemma mt_ReceiveMessageParams_roundtrips obj :
  ReceiveMessageParams_fits obj → roundtrips t_ReceiveMessageParams obj.
Proof. destruct obj; intros (?&?); solve_struct. Qed.
Lemma mt_HandleReceiveMessageParams_roundtrips obj :
  HandleReceiveMessageParams_fits obj → roundtrips t_HandleReceiveMessageParams obj.
Proof. destruct obj; intros (?&?&?); solve_struct. Qed.
Lemma mt_ReclaimEventAccountParams_roundtrips obj :
  ReclaimEventAccountParams_fits obj → roundtrips t_ReclaimEventAccountParams obj.
Proof. destruct obj; intros ?; solve_struct. Qed.
Lemma mt_ReplaceMessageParams_roundtrips obj :
  ReplaceMessageParams_fits obj → roundtrips t_ReplaceMessageParams obj.
Proof. destruct obj; intros (?&?&?); solve_struct. Qed.
Lemma mt_SendMessageWithCallerParams_roundtrips obj :
  SendMessageWithCallerParams_fits obj → roundtrips t_SendMessageWithCallerParams obj.
Proof. destruct obj; intros (?&?); solve_struct. Qed.
Lemma mt_SendMessageParams_roundtrips obj :
  SendMessageParams_fits obj → roundtrips t_SendMessageParams obj.
Proof. destruct obj; intros (?&?); solve_struct. Qed.
Lemma mt_SetMaxMessageBodySizeParams_roundtrips obj :
  SetMaxMessageBodySizeParams_fits obj → roundtrips t_SetMaxMessageBodySizeParams obj.
Proof. destruct obj; intros ?; solve_struct. Qed.
Lemma mt_SetSignatureThresholdParams_roundtrips obj :
  SetSignatureThresholdParams_fits obj → roundtrips t_SetSignatureThresholdParams obj.
Proof. destruct obj; intros ?; solve_struct. Qed.
Lemma mt_TransferOwnershipParams_roundtrips obj : roundtrips t_TransferOwnershipParams obj.
Proof. destruct obj; solve_struct. Qed.
Lemma mt_UnpauseParams_roundtrips obj : roundtrips t_UnpauseParams obj.
Proof. destruct obj; solve_struct. Qed.
Lemma mt_UpdateAttesterManagerParams_roundtrips obj : roundtrips t_UpdateAttesterManagerParams obj.
Proof. destruct obj; solve_struct. Qed.
Lemma mt_UpdatePauserParams_roundtrips obj : roundtrips t_UpdatePauserParams obj.
Proof. destruct obj; solve_struct. Qed.
Lemma mt_MessageSent_roundtrips obj : MessageSent_fits obj → roundtrips t_MessageSent obj.
Proof. destruct obj; intros ?; solve_struct. Qed.
Lemma mt_MessageTransmitter_roundtrips obj :
  MessageTransmitter_fits obj → roundtrips t_MessageTransmitter obj.
Proof. destruct obj; intros (?&?&?&?&?&?); solve_struct. Qed.
Lemma mt_UsedNonces_roundtrips obj : UsedNonces_fits obj → roundtrips t_UsedNonces obj.
Proof.
  destruct obj as [domain first nonces]. intros (?&?&Hlen&Hall).
  assert (roundtrips (t_array 100 t_uint64) nonces).
  { rewrite <-Hlen. apply array_roundtrips. eapply Forall_impl; [exact Hall|]. eauto with wire. }
  change (codec (UsedNonces_MarshalWithEncoder (mkUsedNonces domain first nonces))
    UsedNonces_UnmarshalWithDecoder (mkUsedNonces domain first nonces)). solve_codec.
Qed.

End roundtrips.

(** ** Instructions *)

Context `{!SolanaGo}.

(** *** Initialize *)

Definition Initialize_accounts : account_table :=
  [("Payer", WritableSigner); ("UpgradeAuthority", Signer); ("MessageTransmitter", Writable);
   ("MessageTransmitterProgramData", Readonly); ("MessageTransmitterProgram", Readonly);
   ("SystemProgram", Readonly); ("EventAuthority", Readonly); ("Program", Readonly)]%string.
Definition NewInitializeInstruction (params : InitializeParams)
    (payer upgradeAuthority messageTransmitter messageTransmitterProgramData
     messageTransmitterProgram systemProgram eventAuthority program_ : PublicKey) :
    result (Inst InitializeParams) :=
  NewInstruction Initialize_accounts params
    [payer; upgradeAuthority; messageTransmitter; messageTransmitterProgramData;
     messageTransmitterProgram; systemProgram; eventAuthority; program_].
Definition Initialize_Validate
    : Inst InitializeParams → result unit := Validate Initialize_accounts.
Definition Initialize_MarshalWithEncoder (obj : Inst InitializeParams) : Encoder unit :=
  _ ← Encode (t_ptr t_InitializeParams) (Params obj);
  mret tt.
Definition Initialize_UnmarshalWithDecoder : Decoder (Inst InitializeParams) :=
  vParams ← Decode (t_ptr t_InitializeParams);
  mret (mkInst vParams []).

(** *** TransferOwnership *)

Definition TransferOwnership_accounts : account_table :=
  [("Owner", Signer); ("MessageTransmitter", Writable); ("EventAuthority", Readonly);
   ("Program", Readonly)]%string.
Definition NewTransferOwnershipInstruction (params : TransferOwnershipParams)
    (owner messageTransmitter eventAuthority program_ : PublicKey) :
    result (Inst TransferOwnershipParams) :=
  NewInstruction TransferOwnership_accounts params
    [owner; messageTransmitter; eventAuthority; program_].
Definition TransferOwnership_Validate
    : Inst TransferOwnershipParams → result unit := Validate TransferOwnership_accounts.
Definition TransferOwnership_MarshalWithEncoder (obj : Inst TransferOwnershipParams)
    : Encoder unit :=
  _ ← Encode (t_ptr t_TransferOwnershipParams) (Params obj);
  mret tt.
Definition TransferOwnership_UnmarshalWithDecoder : Decoder (Inst TransferOwnershipParams) :=
  vParams ← Decode (t_ptr t_TransferOwnershipParams);
  mret (mkInst vParams []).

(** *** AcceptOwnership *)

Definition AcceptOwnership_accounts : account_table :=
  [("PendingOwner", Signer); ("MessageTransmitter", Writable); ("EventAuthority", Readonly);
   ("Program", Readonly)]%string.
Definition NewAcceptOwnershipInstruction (params : AcceptOwnershipParams)
    (pendingOwner messageTransmitter eventAuthority program_ : PublicKey) :
    result (Inst AcceptOwnershipParams) :=
  NewInstruction AcceptOwnership_accounts params
    [pendingOwner; messageTransmitter; eventAuthority; program_].
Definition AcceptOwnership_Validate
    : Inst AcceptOwnershipParams → result unit := Validate AcceptOwnership_accounts.
Definition AcceptOwnership_MarshalWithEncoder (obj : Inst AcceptOwnershipParams) : Encoder unit :=
  _ ← Encode (t_ptr t_AcceptOwnershipParams) (Params obj);
  mret tt.
Definition AcceptOwnership_UnmarshalWithDecoder : Decoder (Inst AcceptOwnershipParams) :=
  vParams ← Decode (t_ptr t_AcceptOwnershipParams);
  mret (mkInst vParams []).

(** *** UpdatePauser *)

Definition UpdatePauser_accounts : account_table :=
  [("Owner", Signer); ("MessageTransmitter", Writable); ("EventAuthority", Readonly);
   ("Program", Readonly)]%string.
Definition NewUpdatePauserInstruction (params : UpdatePauserParams)
    (owner messageTransmitter eventAuthority program_ : PublicKey) :
    result (Inst UpdatePauserParams) :=
  NewInstruction UpdatePauser_accounts params
    [owner; messageTransmitter; eventAuthority; program_].
Definition UpdatePauser_Validate
    : Inst UpdatePauserParams → result unit := Validate UpdatePauser_accounts.
Definition UpdatePauser_MarshalWithEncoder (obj : Inst UpdatePauserParams) : Encoder unit :=
  _ ← Encode (t_ptr t_UpdatePauserParams) (Params obj);
  mret tt.
Definition UpdatePauser_UnmarshalWithDecoder : Decoder (Inst UpdatePauserParams) :=
  vParams ← Decode (t_ptr t_UpdatePauserParams);
  mret (mkInst vParams []).

(** *** UpdateAttesterManager *)

Definition UpdateAttesterManager_accounts : account_table :=
  [("Owner", Signer); ("MessageTransmitter", Writable); ("EventAuthority", Readonly);
   ("Program", Readonly)]%string.
Definition NewUpdateAttesterManagerInstruction (params : UpdateAttesterManagerParams)
    (owner messageTransmitter eventAuthority program_ : PublicKey) :
    result (Inst UpdateAttesterManagerParams) :=
  NewInstruction UpdateAttesterManager_accounts params
    [owner; messageTransmitter; eventAuthority; program_].
Definition UpdateAttesterManager_Validate
    : Inst UpdateAttesterManagerParams → result unit := Validate UpdateAttesterManager_accounts.
Definition UpdateAttesterManager_MarshalWithEncoder (obj : Inst UpdateAttesterManagerParams)
    : Encoder unit :=
  _ ← Encode (t_ptr t_UpdateAttesterManagerParams) (Params obj);
  mret tt.
Definition UpdateAttesterManager_UnmarshalWithDecoder
    : Decoder (Inst UpdateAttesterManagerParams) :=
  vParams ← Decode (t_ptr t_UpdateAttesterManagerParams);
  mret (mkInst vParams []).

(** *** Pause *)

Definition Pause_accounts : account_table :=
  [("Pauser", Signer); ("MessageTransmitter", Writable); ("EventAuthority", Readonly);
   ("Program", Readonly)]%string.
Definition NewPauseInstruction (params : PauseParams)
    (pauser messageTransmitter eventAuthority program_ : PublicKey) :
    result (Inst PauseParams) :=
  NewInstruction Pause_accounts params
    [pauser; messageTransmitter; eventAuthority; program_].
Definition Pause_Validate : Inst PauseParams → result unit := Validate Pause_accounts.
Definition Pause_MarshalWithEncoder (obj : Inst PauseParams) : Encoder unit :=
  _ ← Encode (t_ptr t_PauseParams) (Params obj);
  mret tt.
Definition Pause_UnmarshalWithDecoder : Decoder (Inst PauseParams) :=
  vParams ← Decode (t_ptr t_PauseParams);
  mret (mkInst vParams []).

(** *** Unpause *)

Definition Unpause_accounts : account_table :=
  [("Pauser", Signer); ("MessageTransmitter", Writable); ("EventAuthority", Readonly);
   ("Program", Readonly)]%string.
Definition NewUnpauseInstruction (params : UnpauseParams)
    (pauser messageTransmitter eventAuthority program_ : PublicKey) :
    result (Inst UnpauseParams) :=
  NewInstruction Unpause_accounts params
    [pauser; messageTransmitter; eventAuthority; program_].
Definition Unpause_Validate : Inst UnpauseParams → result unit := Validate Unpause_accounts.
Definition Unpause_MarshalWithEncoder (obj : Inst UnpauseParams) : Encoder unit :=
  _ ← Encode (t_ptr t_UnpauseParams) (Params obj);
  mret tt.
Definition Unpause_UnmarshalWithDecoder : Decoder (Inst UnpauseParams) :=
  vParams ← Decode (t_ptr t_UnpauseParams);
  mret (mkInst vParams []).

(** *** SetMaxMessageBodySize *)

Definition SetMaxMessageBodySize_accounts : account_table :=
  [("Owner", Signer); ("MessageTransmitter", Writable); ("EventAuthority", Readonly);
   ("Program", Readonly)]%string.
Definition NewSetMaxMessageBodySizeInstruction (params : SetMaxMessageBodySizeParams)
    (owner messageTransmitter eventAuthority program_ : PublicKey) :
    result (Inst SetMaxMessageBodySizeParams) :=
  NewInstruction SetMaxMessageBodySize_accounts params
    [owner; messageTransmitter; eventAuthority; program_].
Definition SetMaxMessageBodySize_Validate
    : Inst SetMaxMessageBodySizeParams → result unit := Validate SetMaxMessageBodySize_accounts.
Definition SetMaxMessageBodySize_MarshalWithEncoder (obj : Inst SetMaxMessageBodySizeParams)
    : Encoder unit :=
  _ ← Encode (t_ptr t_SetMaxMessageBodySizeParams) (Params obj);
  mret tt.
Definition SetMaxMessageBodySize_UnmarshalWithDecoder
    : Decoder (Inst SetMaxMessageBodySizeParams) :=
  vParams ← Decode (t_ptr t_SetMaxMessageBodySizeParams);
  mret (mkInst vParams []).

(** *** EnableAttester *)

Definition EnableAttester_accounts : account_table :=
  [("Payer", WritableSigner); ("AttesterManager", Signer); ("MessageTransmitter", Writable);
   ("SystemProgram", Readonly); ("EventAuthority", Readonly); ("Program", Readonly)]%string.
Definition NewEnableAttesterInstruction (params : EnableAttesterParams)
    (payer attesterManager messageTransmitter systemProgram eventAuthority program_ : PublicKey) :
    result (Inst EnableAttesterParams) :=
  NewInstruction EnableAttester_accounts params
    [payer; attesterManager; messageTransmitter; systemProgram; eventAuthority; program_].
Definition EnableAttester_Validate
    : Inst EnableAttesterParams → result unit := Validate EnableAttester_accounts.
Definition EnableAttester_MarshalWithEncoder (obj : Inst EnableAttesterParams) : Encoder unit :=
  _ ← Encode (t_ptr t_EnableAttesterParams) (Params obj);
  mret tt.
Definition EnableAttester_UnmarshalWithDecoder : Decoder (Inst EnableAttesterParams) :=
  vParams ← Decode (t_ptr t_EnableAttesterParams);
  mret (mkInst vParams []).

(** *** DisableAttester *)

Definition DisableAttester_accounts : account_table :=
  [("Payer", WritableSigner); ("AttesterManager", Signer); ("MessageTransmitter", Writable);
   ("SystemProgram", Readonly); ("EventAuthority", Readonly); ("Program", Readonly)]%string.
Definition NewDisableAttesterInstruction (params : DisableAttesterParams)
    (payer attesterManager messageTransmitter systemProgram eventAuthority program_ : PublicKey) :
    result (Inst DisableAttesterParams) :=
  NewInstruction DisableAttester_accounts params
    [payer; attesterManager; messageTransmitter; systemProgram; eventAuthority; program_].
Definition DisableAttester_Validate
    : Inst DisableAttesterParams → result unit := Validate DisableAttester_accounts.
Definition DisableAttester_MarshalWithEncoder (obj : Inst DisableAttesterParams) : Encoder unit :=
  _ ← Encode (t_ptr t_DisableAttesterParams) (Params obj);
  mret tt.
Definition DisableAttester_UnmarshalWithDecoder : Decoder (Inst DisableAttesterParams) :=
  vParams ← Decode (t_ptr t_DisableAttesterParams);
  mret (mkInst vParams []).

(** *** SetSignatureThreshold *)

Definition SetSignatureThreshold_accounts : account_table :=
  [("AttesterManager", Signer); ("MessageTransmitter", Writable); ("EventAuthority", Readonly);
   ("Program", Readonly)]%string.
Definition NewSetSignatureThresholdInstruction (params : SetSignatureThresholdParams)
    (attesterManager messageTransmitter eventAuthority program_ : PublicKey) :
    result (Inst SetSignatureThresholdParams) :=
  NewInstruction SetSignatureThreshold_accounts params
    [attesterManager; messageTransmitter; eventAuthority; program_].
Definition SetSignatureThreshold_Validate
    : Inst SetSignatureThresholdParams → result unit := Validate SetSignatureThreshold_accounts.
Definition SetSignatureThreshold_MarshalWithEncoder (obj : Inst SetSignatureThresholdParams)
    : Encoder unit :=
  _ ← Encode (t_ptr t_SetSignatureThresholdParams) (Params obj);
  mret tt.
Definition SetSignatureThreshold_UnmarshalWithDecoder
    : Decoder (Inst SetSignatureThresholdParams) :=
  vParams ← Decode (t_ptr t_SetSignatureThresholdParams);
  mret (mkInst vParams []).

(** *** SendMessage *)

Definition SendMessage_accounts : account_table :=
  [("EventRentPayer", WritableSigner); ("SenderAuthorityPda", Signer);
   ("MessageTransmitter", Writable); ("MessageSentEventData", WritableSigner);
   ("SenderProgram", Readonly); ("SystemProgram", Readonly)]%string.
Definition NewSendMessageInstruction (params : SendMessageParams)
    (eventRentPayer senderAuthorityPda messageTransmitter messageSentEventData senderProgram
     systemProgram : PublicKey) :
    result (Inst SendMessageParams) :=
  NewInstruction SendMessage_accounts params
    [eventRentPayer; senderAuthorityPda; messageTransmitter; messageSentEventData; senderProgram;
     systemProgram].
Definition SendMessage_Validate
    : Inst SendMessageParams → result unit := Validate SendMessage_accounts.
Definition SendMessage_MarshalWithEncoder (obj : Inst SendMessageParams) : Encoder unit :=
  _ ← Encode (t_ptr t_SendMessageParams) (Params obj);
  mret tt.
Definition SendMessage_UnmarshalWithDecoder : Decoder (Inst SendMessageParams) :=
  vParams ← Decode (t_ptr t_SendMessageParams);
  mret (mkInst vParams []).

(** *** SendMessageWithCaller *)

Definition SendMessageWithCaller_accounts : account_table :=
  [("EventRentPayer", WritableSigner); ("SenderAuthorityPda", Signer);
   ("MessageTransmitter", Writable); ("MessageSentEventData", WritableSigner);
   ("SenderProgram", Readonly); ("SystemProgram", Readonly)]%string.
Definition NewSendMessageWithCallerInstruction (params : SendMessageWithCallerParams)
    (eventRentPayer senderAuthorityPda messageTransmitter messageSentEventData senderProgram
     systemProgram : PublicKey) :
    result (Inst SendMessageWithCallerParams) :=
  NewInstruction SendMessageWithCaller_accounts params
    [eventRentPayer; senderAuthorityPda; messageTransmitter; messageSentEventData; senderProgram;
     systemProgram].
Definition SendMessageWithCaller_Validate
    : Inst SendMessageWithCallerParams → result unit := Validate SendMessageWithCaller_accounts.
Definition SendMessageWithCaller_MarshalWithEncoder (obj : Inst SendMessageWithCallerParams)
    : Encoder unit :=
  _ ← Encode (t_ptr t_SendMessageWithCallerParams) (Params obj);
  mret tt.
Definition SendMessageWithCaller_UnmarshalWithDecoder
    : Decoder (Inst SendMessageWithCallerParams) :=
  vParams ← Decode (t_ptr t_SendMessageWithCallerParams);
  mret (mkInst vParams []).

(** *** ReplaceMessage *)

Definition ReplaceMessage_accounts : account_table :=
  [("EventRentPayer", WritableSigner); ("SenderAuthorityPda", Signer);
   ("MessageTransmitter", Writable); ("MessageSentEventData", WritableSigner);
   ("SenderProgram", Readonly); ("SystemProgram", Readonly)]%string.
Definition NewReplaceMessageInstruction (params : ReplaceMessageParams)
    (eventRentPayer senderAuthorityPda messageTransmitter messageSentEventData senderProgram
     systemProgram : PublicKey) :
    result (Inst ReplaceMessageParams) :=
  NewInstruction ReplaceMessage_accounts params
    [eventRentPayer; senderAuthorityPda; messageTransmitter; messageSentEventData; senderProgram;
     systemProgram].
Definition ReplaceMessage_Validate
    : Inst ReplaceMessageParams → result unit := Validate ReplaceMessage_accounts.
Definition ReplaceMessage_MarshalWithEncoder (obj : Inst ReplaceMessageParams) : Encoder unit :=
  _ ← Encode (t_ptr t_ReplaceMessageParams) (Params obj);
  mret tt.
Definition ReplaceMessage_UnmarshalWithDecoder : Decoder (Inst ReplaceMessageParams) :=
  vParams ← Decode (t_ptr t_ReplaceMessageParams);
  mret (mkInst vParams []).

(** *** ReceiveMessage *)

Definition ReceiveMessage_accounts : account_table :=
  [("Payer", WritableSigner); ("Caller", Signer); ("AuthorityPda", Readonly);
   ("MessageTransmitter", Readonly); ("UsedNonces", Writable); ("Receiver", Readonly);
   ("SystemProgram", Readonly); ("EventAuthority", Readonly); ("Program", Readonly)]%string.
Definition NewReceiveMessageInstruction (params : ReceiveMessageParams)
    (payer caller authorityPda messageTransmitter usedNonces receiver systemProgram
     eventAuthority program_ : PublicKey) :
    result (Inst ReceiveMessageParams) :=
  NewInstruction ReceiveMessage_accounts params
    [payer; caller; authorityPda; messageTransmitter; usedNonces; receiver; systemProgram;
     eventAuthority; program_].
Definition ReceiveMessage_Validate
    : Inst ReceiveMessageParams → result unit := Validate ReceiveMessage_accounts.
Definition ReceiveMessage_MarshalWithEncoder (obj : Inst ReceiveMessageParams) : Encoder unit :=
  _ ← Encode (t_ptr t_ReceiveMessageParams) (Params obj);
  mret tt.
Definition ReceiveMessage_UnmarshalWithDecoder : Decoder (Inst ReceiveMessageParams) :=
  vParams ← Decode (t_ptr t_ReceiveMessageParams);
  mret (mkInst vParams []).

(** *** ReclaimEventAccount *)

Definition ReclaimEventAccount_accounts : account_table :=
  [("Payee", WritableSigner); ("MessageTransmitter", Writable);
   ("MessageSentEventData", Writable)]%string.
Definition NewReclaimEventAccountInstruction (params : ReclaimEventAccountParams)
    (payee messageTransmitter messageSentEventData : PublicKey) :
    result (Inst ReclaimEventAccountParams) :=
  NewInstruction ReclaimEventAccount_accounts params
    [payee; messageTransmitter; messageSentEventData].
Definition ReclaimEventAccount_Validate
    : Inst ReclaimEventAccountParams → result unit := Validate ReclaimEventAccount_accounts.
Definition ReclaimEventAccount_MarshalWithEncoder (obj : Inst ReclaimEventAccountParams)
    : Encoder unit :=
  _ ← Encode (t_ptr t_ReclaimEventAccountParams) (Params obj);
  mret tt.
Definition ReclaimEventAccount_UnmarshalWithDecoder : Decoder (Inst ReclaimEventAccountParams) :=
  vParams ← Decode (t_ptr t_ReclaimEventAccountParams);
  mret (mkInst vParams []).

(** *** GetNoncePda *)

Definition GetNoncePda_accounts : account_table :=
  [("MessageTransmitter", Readonly)]%string.
Definition NewGetNoncePdaInstruction (params : GetNoncePDAParams)
    (messageTransmitter : PublicKey) :
    result (Inst GetNoncePDAParams) :=
  NewInstruction GetNoncePda_accounts params
    [messageTransmitter].
Definition GetNoncePda_Validate
    : Inst GetNoncePDAParams → result unit := Validate GetNoncePda_accounts.
Definition GetNoncePda_MarshalWithEncoder (obj : Inst GetNoncePDAParams) : Encoder unit :=
  _ ← Encode (t_ptr t_GetNoncePDAParams) (Params obj);
  mret tt.
Definition GetNoncePda_UnmarshalWithDecoder : Decoder (Inst GetNoncePDAParams) :=
  vParams ← Decode (t_ptr t_GetNoncePDAParams);
  mret (mkInst vParams []).

(** *** IsNonceUsed *)

Definition IsNonceUsed_accounts : account_table :=
  [("UsedNonces", Readonly)]%string.
Definition NewIsNonceUsedInstruction (params : IsNonceUsedParams)
    (usedNonces : PublicKey) :
    result (Inst IsNonceUsedParams) :=
  NewInstruction IsNonceUsed_accounts params
    [usedNonces].
Definition IsNonceUsed_Validate
    : Inst IsNonceUsedParams → result unit := Validate IsNonceUsed_accounts.
Definition IsNonceUsed_MarshalWithEncoder (obj : Inst IsNonceUsedParams) : Encoder unit :=
  _ ← Encode (t_ptr t_IsNonceUsedParams) (Params obj);
  mret tt.
Definition IsNonceUsed_UnmarshalWithDecoder : Decoder (Inst IsNonceUsedParams) :=
  vParams ← Decode (t_ptr t_IsNonceUsedParams);
  mret (mkInst vParams []).

(** ** instructions.go *)

Definition Instruction_Initialize : list byte := byte_array [175; 175; 109; 31; 13; 152; 155; 237].
Definition Instruction_TransferOwnership
    : list byte := byte_array [65; 177; 215; 73; 53; 45; 99; 47].
Definition Instruction_AcceptOwnership
    : list byte := byte_array [172; 23; 43; 13; 238; 213; 85; 150].
Definition Instruction_UpdatePauser
    : list byte := byte_array [140; 171; 211; 132; 57; 201; 16; 254].
Definition Instruction_UpdateAttesterManager
    : list byte := byte_array [175; 245; 178; 104; 85; 179; 71; 16].
Definition Instruction_Pause : list byte := byte_array [211; 22; 221; 251; 74; 121; 193; 47].
Definition Instruction_Unpause : list byte := byte_array [169; 144; 4; 38; 10; 141; 188; 255].
Definition Instruction_SetMaxMessageBodySize
    : list byte := byte_array [168; 178; 8; 117; 217; 167; 219; 31].
Definition Instruction_EnableAttester : list byte := byte_array [2; 11; 193; 115; 5; 148; 4; 198].
Definition Instruction_DisableAttester
    : list byte := byte_array [61; 171; 131; 95; 172; 15; 227; 229].
Definition Instruction_SetSignatureThreshold
    : list byte := byte_array [163; 19; 154; 168; 82; 209; 214; 219].
Definition Instruction_SendMessage : list byte := byte_array [57; 40; 34; 178; 189; 10; 65; 26].
Definition Instruction_SendMessageWithCaller
    : list byte := byte_array [212; 47; 34; 52; 91; 32; 176; 204].
Definition Instruction_ReplaceMessage
    : list byte := byte_array [189; 189; 210; 163; 149; 205; 69; 229].
Definition Instruction_ReceiveMessage
    : list byte := byte_array [38; 144; 127; 225; 31; 225; 238; 25].
Definition Instruction_ReclaimEventAccount
    : list byte := byte_array [94; 198; 180; 159; 131; 236; 15; 174].
Definition Instruction_GetNoncePda : list byte := byte_array [114; 70; 229; 212; 223; 50; 33; 39].
Definition Instruction_IsNonceUsed : list byte := byte_array [144; 72; 107; 148; 35; 218; 31; 187].

(** What [inst.Impl] holds: one of the instruction structs. *)
Inductive InstructionImpl :=
  | Initialize (inst : Inst InitializeParams)
  | TransferOwnership (inst : Inst TransferOwnershipParams)
  | AcceptOwnership (inst : Inst AcceptOwnershipParams)
  | UpdatePauser (inst : Inst UpdatePauserParams)
  | UpdateAttesterManager (inst : Inst UpdateAttesterManagerParams)
  | Pause (inst : Inst PauseParams)
  | Unpause (inst : Inst UnpauseParams)
  | SetMaxMessageBodySize (inst : Inst SetMaxMessageBodySizeParams)
  | EnableAttester (inst : Inst EnableAttesterParams)
  | DisableAttester (inst : Inst DisableAttesterParams)
  | SetSignatureThreshold (inst : Inst SetSignatureThresholdParams)
  | SendMessage (inst : Inst SendMessageParams)
  | SendMessageWithCaller (inst : Inst SendMessageWithCallerParams)
  | ReplaceMessage (inst : Inst ReplaceMessageParams)
  | ReceiveMessage (inst : Inst ReceiveMessageParams)
  | ReclaimEventAccount (inst : Inst ReclaimEventAccountParams)
  | GetNoncePda (inst : Inst GetNoncePDAParams)
  | IsNonceUsed (inst : Inst IsNonceUsedParams).

(** [Build] and [ValidateAndBuild] of the instruction files. *)
Definition Initialize_Build (inst : Inst InitializeParams) : Instruction InstructionImpl :=
  mkInstruction Instruction_Initialize (Initialize inst).
Definition Initialize_ValidateAndBuild (inst : Inst InitializeParams)
    : result (Instruction InstructionImpl) :=
  rbind (Initialize_Validate inst) (λ _, Ok (Initialize_Build inst)).
Definition TransferOwnership_Build (inst : Inst TransferOwnershipParams)
    : Instruction InstructionImpl :=
  mkInstruction Instruction_TransferOwnership (TransferOwnership inst).
Definition TransferOwnership_ValidateAndBuild (inst : Inst TransferOwnershipParams)
    : result (Instruction InstructionImpl) :=
  rbind (TransferOwnership_Validate inst) (λ _, Ok (TransferOwnership_Build inst)).
Definition AcceptOwnership_Build (inst : Inst AcceptOwnershipParams)
    : Instruction InstructionImpl :=
  mkInstruction Instruction_AcceptOwnership (AcceptOwnership inst).
Definition AcceptOwnership_ValidateAndBuild (inst : Inst AcceptOwnershipParams)
    : result (Instruction InstructionImpl) :=
  rbind (AcceptOwnership_Validate inst) (λ _, Ok (AcceptOwnership_Build inst)).
Definition UpdatePauser_Build (inst : Inst UpdatePauserParams) : Instruction InstructionImpl :=
  mkInstruction Instruction_UpdatePauser (UpdatePauser inst).
Definition UpdatePauser_ValidateAndBuild (inst : Inst UpdatePauserParams)
    : result (Instruction InstructionImpl) :=
  rbind (UpdatePauser_Validate inst) (λ _, Ok (UpdatePauser_Build inst)).
Definition UpdateAttesterManager_Build (inst : Inst UpdateAttesterManagerParams)
    : Instruction InstructionImpl :=
  mkInstruction Instruction_UpdateAttesterManager (UpdateAttesterManager inst).
Definition UpdateAttesterManager_ValidateAndBuild (inst : Inst UpdateAttesterManagerParams)
    : result (Instruction InstructionImpl) :=
  rbind (UpdateAttesterManager_Validate inst) (λ _, Ok (UpdateAttesterManager_Build inst)).
Definition Pause_Build (inst : Inst PauseParams) : Instruction InstructionImpl :=
  mkInstruction Instruction_Pause (Pause inst).
Definition Pause_ValidateAndBuild (inst : Inst PauseParams)
    : result (Instruction InstructionImpl) :=
  rbind (Pause_Validate inst) (λ _, Ok (Pause_Build inst)).
Definition Unpause_Build (inst : Inst UnpauseParams) : Instruction InstructionImpl :=
  mkInstruction Instruction_Unpause (Unpause inst).
Definition Unpause_ValidateAndBuild (inst : Inst UnpauseParams)
    : result (Instruction InstructionImpl) :=
  rbind (Unpause_Validate inst) (λ _, Ok (Unpause_Build inst)).
Definition SetMaxMessageBodySize_Build (inst : Inst SetMaxMessageBodySizeParams)
    : Instruction InstructionImpl :=
  mkInstruction Instruction_SetMaxMessageBodySize (SetMaxMessageBodySize inst).
Definition SetMaxMessageBodySize_ValidateAndBuild (inst : Inst SetMaxMessageBodySizeParams)
    : result (Instruction InstructionImpl) :=
  rbind (SetMaxMessageBodySize_Validate inst) (λ _, Ok (SetMaxMessageBodySize_Build inst)).
Definition EnableAttester_Build (inst : Inst EnableAttesterParams) : Instruction InstructionImpl :=
  mkInstruction Instruction_EnableAttester (EnableAttester inst).
Definition EnableAttester_ValidateAndBuild (inst : Inst EnableAttesterParams)
    : result (Instruction InstructionImpl) :=
  rbind (EnableAttester_Validate inst) (λ _, Ok (EnableAttester_Build inst)).
Definition DisableAttester_Build (inst : Inst DisableAttesterParams)
    : Instruction InstructionImpl :=
  mkInstruction Instruction_DisableAttester (DisableAttester inst).
Definition DisableAttester_ValidateAndBuild (inst : Inst DisableAttesterParams)
    : result (Instruction InstructionImpl) :=
  rbind (DisableAttester_Validate inst) (λ _, Ok (DisableAttester_Build inst)).
Definition SetSignatureThreshold_Build (inst : Inst SetSignatureThresholdParams)
    : Instruction InstructionImpl :=
  mkInstruction Instruction_SetSignatureThreshold (SetSignatureThreshold inst).
Definition SetSignatureThreshold_ValidateAndBuild (inst : Inst SetSignatureThresholdParams)
    : result (Instruction InstructionImpl) :=
  rbind (SetSignatureThreshold_Validate inst) (λ _, Ok (SetSignatureThreshold_Build inst)).
Definition SendMessage_Build (inst : Inst SendMessageParams) : Instruction InstructionImpl :=
  mkInstruction Instruction_SendMessage (SendMessage inst).
Definition SendMessage_ValidateAndBuild (inst : Inst SendMessageParams)
    : result (Instruction InstructionImpl) :=
  rbind (SendMessage_Validate inst) (λ _, Ok (SendMessage_Build inst)).
Definition SendMessageWithCaller_Build (inst : Inst SendMessageWithCallerParams)
    : Instruction InstructionImpl :=
  mkInstruction Instruction_SendMessageWithCaller (SendMessageWithCaller inst).
Definition SendMessageWithCaller_ValidateAndBuild (inst : Inst SendMessageWithCallerParams)
    : result (Instruction InstructionImpl) :=
  rbind (SendMessageWithCaller_Validate inst) (λ _, Ok (SendMessageWithCaller_Build inst)).
Definition ReplaceMessage_Build (inst : Inst ReplaceMessageParams) : Instruction InstructionImpl :=
  mkInstruction Instruction_ReplaceMessage (ReplaceMessage inst).
Definition ReplaceMessage_ValidateAndBuild (inst : Inst ReplaceMessageParams)
    : result (Instruction InstructionImpl) :=
  rbind (ReplaceMessage_Validate inst) (λ _, Ok (ReplaceMessage_Build inst)).
Definition ReceiveMessage_Build (inst : Inst ReceiveMessageParams) : Instruction InstructionImpl :=
  mkInstruction Instruction_ReceiveMessage (ReceiveMessage inst).
Definition ReceiveMessage_ValidateAndBuild (inst : Inst ReceiveMessageParams)
    : result (Instruction InstructionImpl) :=
  rbind (ReceiveMessage_Validate inst) (λ _, Ok (ReceiveMessage_Build inst)).
Definition ReclaimEventAccount_Build (inst : Inst ReclaimEventAccountParams)
    : Instruction InstructionImpl :=
  mkInstruction Instruction_ReclaimEventAccount (ReclaimEventAccount inst).
Definition ReclaimEventAccount_ValidateAndBuild (inst : Inst ReclaimEventAccountParams)
    : result (Instruction InstructionImpl) :=
  rbind (ReclaimEventAccount_Validate inst) (λ _, Ok (ReclaimEventAccount_Build inst)).
Definition GetNoncePda_Build (inst : Inst GetNoncePDAParams) : Instruction InstructionImpl :=
  mkInstruction Instruction_GetNoncePda (GetNoncePda inst).
Definition GetNoncePda_ValidateAndBuild (inst : Inst GetNoncePDAParams)
    : result (Instruction InstructionImpl) :=
  rbind (GetNoncePda_Validate inst) (λ _, Ok (GetNoncePda_Build inst)).
Definition IsNonceUsed_Build (inst : Inst IsNonceUsedParams) : Instruction InstructionImpl :=
  mkInstruction Instruction_IsNonceUsed (IsNonceUsed inst).
Definition IsNonceUsed_ValidateAndBuild (inst : Inst IsNonceUsedParams)
    : result (Instruction InstructionImpl) :=
  rbind (IsNonceUsed_Validate inst) (λ _, Ok (IsNonceUsed_Build inst)).

Definition InstructionIDToName (id : list byte) : string :=
  (if bool_decide (id = Instruction_Initialize) then "Initialize" else
   if bool_decide (id = Instruction_TransferOwnership) then "TransferOwnership" else
   if bool_decide (id = Instruction_AcceptOwnership) then "AcceptOwnership" else
   if bool_decide (id = Instruction_UpdatePauser) then "UpdatePauser" else
   if bool_decide (id = Instruction_UpdateAttesterManager) then "UpdateAttesterManager" else
   if bool_decide (id = Instruction_Pause) then "Pause" else
   if bool_decide (id = Instruction_Unpause) then "Unpause" else
   if bool_decide (id = Instruction_SetMaxMessageBodySize) then "SetMaxMessageBodySize" else
   if bool_decide (id = Instruction_EnableAttester) then "EnableAttester" else
   if bool_decide (id = Instruction_DisableAttester) then "DisableAttester" else
   if bool_decide (id = Instruction_SetSignatureThreshold) then "SetSignatureThreshold" else
   if bool_decide (id = Instruction_SendMessage) then "SendMessage" else
   if bool_decide (id = Instruction_SendMessageWithCaller) then "SendMessageWithCaller" else
   if bool_decide (id = Instruction_ReplaceMessage) then "ReplaceMessage" else
   if bool_decide (id = Instruction_ReceiveMessage) then "ReceiveMessage" else
   if bool_decide (id = Instruction_ReclaimEventAccount) then "ReclaimEventAccount" else
   if bool_decide (id = Instruction_GetNoncePda) then "GetNoncePda" else
   if bool_decide (id = Instruction_IsNonceUsed) then "IsNonceUsed" else "")%string.

Definition mt_InstructionImplDef : list (string * Decoder InstructionImpl) :=
  [("initialize"%string, variant_decoder Initialize Initialize_UnmarshalWithDecoder);
   ("transfer_ownership"%string,
      variant_decoder TransferOwnership TransferOwnership_UnmarshalWithDecoder);
   ("accept_ownership"%string,
      variant_decoder AcceptOwnership AcceptOwnership_UnmarshalWithDecoder);
   ("update_pauser"%string, variant_decoder UpdatePauser UpdatePauser_UnmarshalWithDecoder);
   ("update_attester_manager"%string,
      variant_decoder UpdateAttesterManager UpdateAttesterManager_UnmarshalWithDecoder);
   ("pause"%string, variant_decoder Pause Pause_UnmarshalWithDecoder);
   ("unpause"%string, variant_decoder Unpause Unpause_UnmarshalWithDecoder);
   ("set_max_message_body_size"%string,
      variant_decoder SetMaxMessageBodySize SetMaxMessageBodySize_UnmarshalWithDecoder);
   ("enable_attester"%string, variant_decoder EnableAttester EnableAttester_UnmarshalWithDecoder);
   ("disable_attester"%string,
      variant_decoder DisableAttester DisableAttester_UnmarshalWithDecoder);
   ("set_signature_threshold"%string,
      variant_decoder SetSignatureThreshold SetSignatureThreshold_UnmarshalWithDecoder);
   ("send_message"%string, variant_decoder SendMessage SendMessage_UnmarshalWithDecoder);
   ("send_message_with_caller"%string,
      variant_decoder SendMessageWithCaller SendMessageWithCaller_UnmarshalWithDecoder);
   ("replace_message"%string, variant_decoder ReplaceMessage ReplaceMessage_UnmarshalWithDecoder);
   ("receive_message"%string, variant_decoder ReceiveMessage ReceiveMessage_UnmarshalWithDecoder);
   ("reclaim_event_account"%string,
      variant_decoder ReclaimEventAccount ReclaimEventAccount_UnmarshalWithDecoder);
   ("get_nonce_pda"%string, variant_decoder GetNoncePda GetNoncePda_UnmarshalWithDecoder);
   ("is_nonce_used"%string, variant_decoder IsNonceUsed IsNonceUsed_UnmarshalWithDecoder)].

#[export] Instance mt_program : AnchorProgram InstructionImpl := {|
  impl_MarshalWithEncoder i := match i with
    | Initialize inst => Initialize_MarshalWithEncoder inst
    | TransferOwnership inst => TransferOwnership_MarshalWithEncoder inst
    | AcceptOwnership inst => AcceptOwnership_MarshalWithEncoder inst
    | UpdatePauser inst => UpdatePauser_MarshalWithEncoder inst
    | UpdateAttesterManager inst => UpdateAttesterManager_MarshalWithEncoder inst
    | Pause inst => Pause_MarshalWithEncoder inst
    | Unpause inst => Unpause_MarshalWithEncoder inst
    | SetMaxMessageBodySize inst => SetMaxMessageBodySize_MarshalWithEncoder inst
    | EnableAttester inst => EnableAttester_MarshalWithEncoder inst
    | DisableAttester inst => DisableAttester_MarshalWithEncoder inst
    | SetSignatureThreshold inst => SetSignatureThreshold_MarshalWithEncoder inst
    | SendMessage inst => SendMessage_MarshalWithEncoder inst
    | SendMessageWithCaller inst => SendMessageWithCaller_MarshalWithEncoder inst
    | ReplaceMessage inst => ReplaceMessage_MarshalWithEncoder inst
    | ReceiveMessage inst => ReceiveMessage_MarshalWithEncoder inst
    | ReclaimEventAccount inst => ReclaimEventAccount_MarshalWithEncoder inst
    | GetNoncePda inst => GetNoncePda_MarshalWithEncoder inst
    | IsNonceUsed inst => IsNonceUsed_MarshalWithEncoder inst
    end;
  impl_accounts i := match i with
    | Initialize inst => AccountMetaSlice inst
    | TransferOwnership inst => AccountMetaSlice inst
    | AcceptOwnership inst => AccountMetaSlice inst
    | UpdatePauser inst => AccountMetaSlice inst
    | UpdateAttesterManager inst => AccountMetaSlice inst
    | Pause inst => AccountMetaSlice inst
    | Unpause inst => AccountMetaSlice inst
    | SetMaxMessageBodySize inst => AccountMetaSlice inst
    | EnableAttester inst => AccountMetaSlice inst
    | DisableAttester inst => AccountMetaSlice inst
    | SetSignatureThreshold inst => AccountMetaSlice inst
    | SendMessage inst => AccountMetaSlice inst
    | SendMessageWithCaller inst => AccountMetaSlice inst
    | ReplaceMessage inst => AccountMetaSlice inst
    | ReceiveMessage inst => AccountMetaSlice inst
    | ReclaimEventAccount inst => AccountMetaSlice inst
    | GetNoncePda inst => AccountMetaSlice inst
    | IsNonceUsed inst => AccountMetaSlice inst
    end;
  impl_with_accounts slice i := match i with
    | Initialize inst => Initialize (mkInst (Params inst) slice)
    | TransferOwnership inst => TransferOwnership (mkInst (Params inst) slice)
    | AcceptOwnership inst => AcceptOwnership (mkInst (Params inst) slice)
    | UpdatePauser inst => UpdatePauser (mkInst (Params inst) slice)
    | UpdateAttesterManager inst => UpdateAttesterManager (mkInst (Params inst) slice)
    | Pause inst => Pause (mkInst (Params inst) slice)
    | Unpause inst => Unpause (mkInst (Params inst) slice)
    | SetMaxMessageBodySize inst => SetMaxMessageBodySize (mkInst (Params inst) slice)
    | EnableAttester inst => EnableAttester (mkInst (Params inst) slice)
    | DisableAttester inst => DisableAttester (mkInst (Params inst) slice)
    | SetSignatureThreshold inst => SetSignatureThreshold (mkInst (Params inst) slice)
    | SendMessage inst => SendMessage (mkInst (Params inst) slice)
    | SendMessageWithCaller inst => SendMessageWithCaller (mkInst (Params inst) slice)
    | ReplaceMessage inst => ReplaceMessage (mkInst (Params inst) slice)
    | ReceiveMessage inst => ReceiveMessage (mkInst (Params inst) slice)
    | ReclaimEventAccount inst => ReclaimEventAccount (mkInst (Params inst) slice)
    | GetNoncePda inst => GetNoncePda (mkInst (Params inst) slice)
    | IsNonceUsed inst => IsNonceUsed (mkInst (Params inst) slice)
    end;
  InstructionImplDef := mt_InstructionImplDef;
|}.

(** ** Lemmas: the instructions *)

Definition mt_Validate (i : InstructionImpl) : result unit :=
  match i with
  | Initialize inst => Initialize_Validate inst
  | TransferOwnership inst => TransferOwnership_Validate inst
  | AcceptOwnership inst => AcceptOwnership_Validate inst
  | UpdatePauser inst => UpdatePauser_Validate inst
  | UpdateAttesterManager inst => UpdateAttesterManager_Validate inst
  | Pause inst => Pause_Validate inst
  | Unpause inst => Unpause_Validate inst
  | SetMaxMessageBodySize inst => SetMaxMessageBodySize_Validate inst
  | EnableAttester inst => EnableAttester_Validate inst
  | DisableAttester inst => DisableAttester_Validate inst
  | SetSignatureThreshold inst => SetSignatureThreshold_Validate inst
  | SendMessage inst => SendMessage_Validate inst
  | SendMessageWithCaller inst => SendMessageWithCaller_Validate inst
  | ReplaceMessage inst => ReplaceMessage_Validate inst
  | ReceiveMessage inst => ReceiveMessage_Validate inst
  | ReclaimEventAccount inst => ReclaimEventAccount_Validate inst
  | GetNoncePda inst => GetNoncePda_Validate inst
  | IsNonceUsed inst => IsNonceUsed_Validate inst
  end.

Definition mt_Build (i : InstructionImpl) : Instruction InstructionImpl :=
  match i with
  | Initialize inst => Initialize_Build inst
  | TransferOwnership inst => TransferOwnership_Build inst
  | AcceptOwnership inst => AcceptOwnership_Build inst
  | UpdatePauser inst => UpdatePauser_Build inst
  | UpdateAttesterManager inst => UpdateAttesterManager_Build inst
  | Pause inst => Pause_Build inst
  | Unpause inst => Unpause_Build inst
  | SetMaxMessageBodySize inst => SetMaxMessageBodySize_Build inst
  | EnableAttester inst => EnableAttester_Build inst
  | DisableAttester inst => DisableAttester_Build inst
  | SetSignatureThreshold inst => SetSignatureThreshold_Build inst
  | SendMessage inst => SendMessage_Build inst
  | SendMessageWithCaller inst => SendMessageWithCaller_Build inst
  | ReplaceMessage inst => ReplaceMessage_Build inst
  | ReceiveMessage inst => ReceiveMessage_Build inst
  | ReclaimEventAccount inst => ReclaimEventAccount_Build inst
  | GetNoncePda inst => GetNoncePda_Build inst
  | IsNonceUsed inst => IsNonceUsed_Build inst
  end.

(** The number of accounts an instruction has, and the name it has on chain. *)
Definition mt_slots (i : InstructionImpl) : nat :=
  match i with
  | Initialize _ => length Initialize_accounts
  | TransferOwnership _ => length TransferOwnership_accounts
  | AcceptOwnership _ => length AcceptOwnership_accounts
  | UpdatePauser _ => length UpdatePauser_accounts
  | UpdateAttesterManager _ => length UpdateAttesterManager_accounts
  | Pause _ => length Pause_accounts
  | Unpause _ => length Unpause_accounts
  | SetMaxMessageBodySize _ => length SetMaxMessageBodySize_accounts
  | EnableAttester _ => length EnableAttester_accounts
  | DisableAttester _ => length DisableAttester_accounts
  | SetSignatureThreshold _ => length SetSignatureThreshold_accounts
  | SendMessage _ => length SendMessage_accounts
  | SendMessageWithCaller _ => length SendMessageWithCaller_accounts
  | ReplaceMessage _ => length ReplaceMessage_accounts
  | ReceiveMessage _ => length ReceiveMessage_accounts
  | ReclaimEventAccount _ => length ReclaimEventAccount_accounts
  | GetNoncePda _ => length GetNoncePda_accounts
  | IsNonceUsed _ => length IsNonceUsed_accounts
  end.

Definition mt_name (i : InstructionImpl) : string :=
  match i with
  | Initialize _ => "initialize"
  | TransferOwnership _ => "transfer_ownership"
  | AcceptOwnership _ => "accept_ownership"
  | UpdatePauser _ => "update_pauser"
  | UpdateAttesterManager _ => "update_attester_manager"
  | Pause _ => "pause"
  | Unpause _ => "unpause"
  | SetMaxMessageBodySize _ => "set_max_message_body_size"
  | EnableAttester _ => "enable_attester"
  | DisableAttester _ => "disable_attester"
  | SetSignatureThreshold _ => "set_signature_threshold"
  | SendMessage _ => "send_message"
  | SendMessageWithCaller _ => "send_message_with_caller"
  | ReplaceMessage _ => "replace_message"
  | ReceiveMessage _ => "receive_message"
  | ReclaimEventAccount _ => "reclaim_event_account"
  | GetNoncePda _ => "get_nonce_pda"
  | IsNonceUsed _ => "is_nonce_used"
  end.

(** The parameters are in the range of their Go types. *)
Definition mt_fits (i : InstructionImpl) : Prop :=
  match i with
  | Initialize inst => from_option InitializeParams_fits True (Params inst)
  | SetMaxMessageBodySize inst => from_option SetMaxMessageBodySizeParams_fits True (Params inst)
  | SetSignatureThreshold inst => from_option SetSignatureThresholdParams_fits True (Params inst)
  | SendMessage inst => from_option SendMessageParams_fits True (Params inst)
  | SendMessageWithCaller inst => from_option SendMessageWithCallerParams_fits True (Params inst)
  | ReplaceMessage inst => from_option ReplaceMessageParams_fits True (Params inst)
  | ReceiveMessage inst => from_option ReceiveMessageParams_fits True (Params inst)
  | ReclaimEventAccount inst => from_option ReclaimEventAccountParams_fits True (Params inst)
  | GetNoncePda inst => from_option GetNoncePDAParams_fits True (Params inst)
  | IsNonceUsed inst => from_option IsNonceUsedParams_fits True (Params inst)
  | _ => True
  end.

Lemma mt_type_ids :
  (λ v, sighash "global" v.1) <$> InstructionImplDef =
    [Instruction_Initialize; Instruction_TransferOwnership; Instruction_AcceptOwnership;
     Instruction_UpdatePauser; Instruction_UpdateAttesterManager; Instruction_Pause;
     Instruction_Unpause; Instruction_SetMaxMessageBodySize; Instruction_EnableAttester;
     Instruction_DisableAttester; Instruction_SetSignatureThreshold; Instruction_SendMessage;
     Instruction_SendMessageWithCaller; Instruction_ReplaceMessage; Instruction_ReceiveMessage;
     Instruction_ReclaimEventAccount; Instruction_GetNoncePda; Instruction_IsNonceUsed].
Proof. vm_compute. reflexivity. Qed.

Lemma mt_distinct : distinct_variants.
Proof.
  unfold distinct_variants. rewrite mt_type_ids. apply (bool_decide_unpack _). vm_compute. exact I.
Qed.

Lemma mt_valid i :
  mt_Validate i = Ok tt → slots_set (mt_slots i) (impl_accounts i).
Proof. by destruct i; intros [_ ?]%Validate_ok. Qed.

Lemma mt_variant `{!AgBinaryLaws} i :
  mt_Validate i = Ok tt → mt_fits i → variant_of (mt_name i) (mt_Build i).
Proof.
  destruct i as [[p slice]|[p slice]|[p slice]|[p slice]|[p slice]|[p slice]|[p slice]|[p slice]|
    [p slice]|[p slice]|[p slice]|[p slice]|[p slice]|[p slice]|[p slice]|[p slice]|[p slice]|
    [p slice]]; intros [[v Hv] _]%Validate_ok Hfits; simpl in Hv; subst p;
    simpl in Hfits.
  all: eexists; split_and!; [in_variants|vm_compute; reflexivity|apply instruction_codec].
  all: first [by apply mt_AcceptOwnershipParams_roundtrips
    | by apply mt_DisableAttesterParams_roundtrips
    | by apply mt_EnableAttesterParams_roundtrips
    | by apply mt_GetNoncePDAParams_roundtrips
    | by apply mt_InitializeParams_roundtrips
    | by apply mt_IsNonceUsedParams_roundtrips
    | by apply mt_PauseParams_roundtrips
    | by apply mt_ReceiveMessageParams_roundtrips
    | by apply mt_ReclaimEventAccountParams_roundtrips
    | by apply mt_ReplaceMessageParams_roundtrips
    | by apply mt_SendMessageParams_roundtrips
    | by apply mt_SendMessageWithCallerParams_roundtrips
    | by apply mt_SetMaxMessageBodySizeParams_roundtrips
    | by apply mt_SetSignatureThresholdParams_roundtrips
    | by apply mt_TransferOwnershipParams_roundtrips
    | by apply mt_UnpauseParams_roundtrips
    | by apply mt_UpdateAttesterManagerParams_roundtrips
    | by apply mt_UpdatePauserParams_roundtrips ].
Qed.

(** ** Properties *)

(** The identifiers in the source are Anchor's: each [Instruction_...] is the hash of
    its variant's name, each account discriminator the hash of the account's name, and
    [InstructionIDToName] names every instruction. *)
Theorem mt_identifiers :
  (λ v, sighash "global" v.1) <$> InstructionImplDef =
    [Instruction_Initialize; Instruction_TransferOwnership; Instruction_AcceptOwnership;
     Instruction_UpdatePauser; Instruction_UpdateAttesterManager; Instruction_Pause;
     Instruction_Unpause; Instruction_SetMaxMessageBodySize; Instruction_EnableAttester;
     Instruction_DisableAttester; Instruction_SetSignatureThreshold; Instruction_SendMessage;
     Instruction_SendMessageWithCaller; Instruction_ReplaceMessage; Instruction_ReceiveMessage;
     Instruction_ReclaimEventAccount; Instruction_GetNoncePda; Instruction_IsNonceUsed] ∧
  [MessageSentDiscriminator; MessageTransmitterDiscriminator; UsedNoncesDiscriminator] =
    sighash "account" <$> ["MessageSent"; "MessageTransmitter"; "UsedNonces"]%string ∧
    InstructionIDToName <$> [Instruction_Initialize; Instruction_TransferOwnership;
     Instruction_AcceptOwnership;
     Instruction_UpdatePauser; Instruction_UpdateAttesterManager; Instruction_Pause;
     Instruction_Unpause; Instruction_SetMaxMessageBodySize; Instruction_EnableAttester;
     Instruction_DisableAttester; Instruction_SetSignatureThreshold; Instruction_SendMessage;
     Instruction_SendMessageWithCaller; Instruction_ReplaceMessage; Instruction_ReceiveMessage;
     Instruction_ReclaimEventAccount; Instruction_GetNoncePda; Instruction_IsNonceUsed] =
    ["Initialize"; "TransferOwnership"; "AcceptOwnership"; "UpdatePauser";
     "UpdateAttesterManager"; "Pause"; "Unpause"; "SetMaxMessageBodySize"; "EnableAttester";
     "DisableAttester"; "SetSignatureThreshold"; "SendMessage"; "SendMessageWithCaller";
     "ReplaceMessage"; "ReceiveMessage"; "ReclaimEventAccount"; "GetNoncePda"; "IsNonceUsed"]%string.
Proof. split_and!; [apply mt_type_ids|vm_compute; reflexivity..]. Qed.

(** An instruction that passes [Validate], with one account per slot and parameters in
    the range of their types, is encoded by [Data], and [DecodeInstruction] on that
    data and the accounts of the instruction returns the instruction itself. *)
Theorem mt_instruction_roundtrip `{!AgBinaryLaws} `{!SolanaGoLaws} i :
  mt_Validate i = Ok tt → mt_fits i → length (impl_accounts i) = mt_slots i →
  ∃ data, Data (mt_Build i) = Ok data ∧
    DecodeInstruction (Accounts (mt_Build i)) data = Ok (mt_Build i).
Proof.
  intros Hvalid Hfits Hlen. eapply DecodeInstruction_self.
  - apply mt_distinct.
  - by apply mt_variant.
  - by intros [] l.
  - by destruct i as [[]|[]|[]|[]|[]|[]|[]|[]|[]|[]|[]|[]|[]|[]|[]|[]|[]|[]].
  - apply mt_valid in Hvalid. rewrite <-Hlen in Hvalid. by destruct i.
Qed.

(** The accounts' data: what an account's [MarshalWithEncoder] writes is read back, and
    the data of another account is refused. *)
Theorem mt_account_data `{!AgBinaryLaws} :
  (∀ obj, MessageSent_fits obj → roundtrips t_MessageSent obj) ∧
  (∀ obj, MessageTransmitter_fits obj → roundtrips t_MessageTransmitter obj) ∧
  (∀ obj, UsedNonces_fits obj → roundtrips t_UsedNonces obj) ∧
  ∀ id rest, length id = 8%nat → id ≠ MessageSentDiscriminator →
    ∃ e, (Decode t_MessageSent (id ++ rest)).1 = Err e.
Proof.
  split_and!; [apply mt_MessageSent_roundtrips|
    apply mt_MessageTransmitter_roundtrips|
    apply mt_UsedNonces_roundtrips|].
  intros id rest Hlen Hne. simpl. unfold MessageSent_UnmarshalWithDecoder, mbind, M_bind.
  destruct (check_discriminator_other _ _ rest Hlen Hne) as [e ->]. by eexists.
Qed.
End message_transmitter.

(** ** Witnesses *)

#[local] Existing Instance borsh.
#[local] Existing Instance solana.
#[local] Existing Instance borsh_laws.
#[local] Existing Instance solana_laws.

Definition sample_key (n : Z) : PublicKey (AgBinary := borsh) := vec_of_bytes 32 (be_encode 32 n).

Definition sample_nonce : Inst GetNoncePDAParams :=
  match NewGetNoncePdaInstruction (mkGetNoncePDAParams 7 3) (sample_key 1) with
  | Ok inst => inst
  | _ => NewInstructionBuilder []
  end.

Lemma mt_instruction_roundtrip_witness :
  ∃ data, Data (mt_Build (GetNoncePda sample_nonce)) = Ok data ∧
    DecodeInstruction (Accounts (mt_Build (GetNoncePda sample_nonce))) data =
      Ok (mt_Build (GetNoncePda sample_nonce)).
Proof.
  apply (mt_instruction_roundtrip (GetNoncePda sample_nonce)); [reflexivity| |reflexivity].
  simpl. unfold GetNoncePDAParams_fits, uint. simpl. lia.
Defined.

(** The bytes: Anchor's identifier, then the nonce and the domain in little endian. *)
Example nonce_data :
  result_map hex_EncodeToString (Data (mt_Build (GetNoncePda sample_nonce))) =
    Ok "7246e5d4df322127070000000000000003000000"%string.
Proof. vm_compute. reflexivity. Qed.

(** Decoded without its account, the instruction makes [Validate] panic. *)
Example nonce_without_account :
  match rbind (Data (mt_Build (GetNoncePda sample_nonce))) (DecodeInstruction []) with
  | Ok inst => mt_Validate (Impl inst)
  | r => Ok tt
  end = Panic "index out of range".
Proof. vm_compute. reflexivity. Qed.
