(* ===== verification/TokenMessengerMinter.v ===== *)
(** * TokenMessengerMinter: shared/svm/contracts/cctp/token_messenger_minter

    The bindings of the CCTP token messenger minter on Solana.
    The structs of types.go and accounts.go with their Borsh methods, the builders of
    the 19 instructions (each over its table of accounts, see [Anchor]), and
    instructions.go.  Theorems: what is built and validated is decoded from its data
    and accounts unchanged, and every identifier and discriminator in the source is the
    one Anchor derives from the name. *)
From Stdlib Require Import Strings.Byte.
From S2P Require Import Prelude GoLib Sha256 Anchor Borsh.

Section token_messenger_minter.
Context `{AgBinary}.

(** ** types.go *)

Record AcceptOwnershipParams := mkAcceptOwnershipParams {}.
Definition AcceptOwnershipParams_MarshalWithEncoder (_ : AcceptOwnershipParams) : Encoder unit :=
  mret tt.
Definition AcceptOwnershipParams_UnmarshalWithDecoder : Decoder AcceptOwnershipParams :=
  mret (mkAcceptOwnershipParams).
Definition t_AcceptOwnershipParams : wire AcceptOwnershipParams :=
  Wire AcceptOwnershipParams_MarshalWithEncoder AcceptOwnershipParams_UnmarshalWithDecoder.

Record AddRemoteTokenMessengerParams := mkAddRemoteTokenMessengerParams {
  AddRemoteTokenMessengerParams_Domain : Z;
  AddRemoteTokenMessengerParams_TokenMessenger : PublicKey;
}.
Definition AddRemoteTokenMessengerParams_MarshalWithEncoder (obj : AddRemoteTokenMessengerParams)
    : Encoder unit :=
  _ ← Encode t_uint32 (AddRemoteTokenMessengerParams_Domain obj);
  _ ← Encode t_PublicKey (AddRemoteTokenMessengerParams_TokenMessenger obj);
  mret tt.
Definition AddRemoteTokenMessengerParams_UnmarshalWithDecoder
    : Decoder AddRemoteTokenMessengerParams :=
  vDomain ← Decode t_uint32;
  vTokenMessenger ← Decode t_PublicKey;
  mret (mkAddRemoteTokenMessengerParams vDomain vTokenMessenger).
Definition t_AddRemoteTokenMessengerParams : wire AddRemoteTokenMessengerParams :=
  Wire AddRemoteTokenMessengerParams_MarshalWithEncoder
    AddRemoteTokenMessengerParams_UnmarshalWithDecoder.
Definition AddRemoteTokenMessengerParams_fits (obj : AddRemoteTokenMessengerParams) : Prop :=
  uint 32 (AddRemoteTokenMessengerParams_Domain obj).

Record DepositForBurnWithCallerParams := mkDepositForBurnWithCallerParams {
  DepositForBurnWithCallerParams_Amount : Z;
  DepositForBurnWithCallerParams_DestinationDomain : Z;
  DepositForBurnWithCallerParams_MintRecipient : PublicKey;
  DepositForBurnWithCallerParams_DestinationCaller : PublicKey;
}.
Definition DepositForBurnWithCallerParams_MarshalWithEncoder (obj : DepositForBurnWithCallerParams)
    : Encoder unit :=
  _ ← Encode t_uint64 (DepositForBurnWithCallerParams_Amount obj);
  _ ← Encode t_uint32 (DepositForBurnWithCallerParams_DestinationDomain obj);
  _ ← Encode t_PublicKey (DepositForBurnWithCallerParams_MintRecipient obj);
  _ ← Encode t_PublicKey (DepositForBurnWithCallerParams_DestinationCaller obj);
  mret tt.
Definition DepositForBurnWithCallerParams_UnmarshalWithDecoder
    : Decoder DepositForBurnWithCallerParams :=
  vAmount ← Decode t_uint64;
  vDestinationDomain ← Decode t_uint32;
  vMintRecipient ← Decode t_PublicKey;
  vDestinationCaller ← Decode t_PublicKey;
  mret (mkDepositForBurnWithCallerParams vAmount vDestinationDomain vMintRecipient
          vDestinationCaller).
Definition t_DepositForBurnWithCallerParams : wire DepositForBurnWithCallerParams :=
  Wire DepositForBurnWithCallerParams_MarshalWithEncoder
    DepositForBurnWithCallerParams_UnmarshalWithDecoder.
Definition DepositForBurnWithCallerParams_fits (obj : DepositForBurnWithCallerParams) : Prop :=
  uint 64 (DepositForBurnWithCallerParams_Amount obj) ∧
  uint 32 (DepositForBurnWithCallerParams_DestinationDomain obj).

Record DepositForBurnParams := mkDepositForBurnParams {
  DepositForBurnParams_Amount : Z;
  DepositForBurnParams_DestinationDomain : Z;
  DepositForBurnParams_MintRecipient : PublicKey;
}.
Definition DepositForBurnParams_MarshalWithEncoder (obj : DepositForBurnParams) : Encoder unit :=
  _ ← Encode t_uint64 (DepositForBurnParams_Amount obj);
  _ ← Encode t_uint32 (DepositForBurnParams_DestinationDomain obj);
  _ ← Encode t_PublicKey (DepositForBurnParams_MintRecipient obj);
  mret tt.
Definition DepositForBurnParams_UnmarshalWithDecoder : Decoder DepositForBurnParams :=
  vAmount ← Decode t_uint64;
  vDestinationDomain ← Decode t_uint32;
  vMintRecipient ← Decode t_PublicKey;
  mret (mkDepositForBurnParams vAmount vDestinationDomain vMintRecipient).
Definition t_DepositForBurnParams : wire DepositForBurnParams :=
  Wire DepositForBurnParams_MarshalWithEncoder DepositForBurnParams_UnmarshalWithDecoder.
Definition DepositForBurnParams_fits (obj : DepositForBurnParams) : Prop :=
  uint 64 (DepositForBurnParams_Amount obj) ∧
  uint 32 (DepositForBurnParams_DestinationDomain obj).

Record HandleReceiveMessageParams := mkHandleReceiveMessageParams {
  HandleReceiveMessageParams_RemoteDomain : Z;
  HandleReceiveMessageParams_Sender : PublicKey;
  HandleReceiveMessageParams_MessageBody : list byte;
  HandleReceiveMessageParams_AuthorityBump : Z;
}.
Definition HandleReceiveMessageParams_MarshalWithEncoder (obj : HandleReceiveMessageParams)
    : Encoder unit :=
  _ ← Encode t_uint32 (HandleReceiveMessageParams_RemoteDomain obj);
  _ ← Encode t_PublicKey (HandleReceiveMessageParams_Sender obj);
  _ ← Encode t_bytes (HandleReceiveMessageParams_MessageBody obj);
  _ ← Encode t_uint8 (HandleReceiveMessageParams_AuthorityBump obj);
  mret tt.
Definition HandleReceiveMessageParams_UnmarshalWithDecoder : Decoder HandleReceiveMessageParams :=
  vRemoteDomain ← Decode t_uint32;
  vSender ← Decode t_PublicKey;
  vMessageBody ← Decode t_bytes;
  vAuthorityBump ← Decode t_uint8;
  mret (mkHandleReceiveMessageParams vRemoteDomain vSender vMessageBody vAuthorityBump).
Definition t_HandleReceiveMessageParams : wire HandleReceiveMessageParams :=
  Wire HandleReceiveMessageParams_MarshalWithEncoder
    HandleReceiveMessageParams_UnmarshalWithDecoder.
Definition HandleReceiveMessageParams_fits (obj : HandleReceiveMessageParams) : Prop :=
  uint 32 (HandleReceiveMessageParams_RemoteDomain obj) ∧
  uint 32 (Z.of_nat (length (HandleReceiveMessageParams_MessageBody obj))) ∧
  uint 8 (HandleReceiveMessageParams_AuthorityBump obj).

Record InitializeParams := mkInitializeParams {
  InitializeParams_TokenController : PublicKey;
  InitializeParams_LocalMessageTransmitter : PublicKey;
  InitializeParams_MessageBodyVersion : Z;
}.
Definition InitializeParams_MarshalWithEncoder (obj : InitializeParams) : Encoder unit :=
  _ ← Encode t_PublicKey (InitializeParams_TokenController obj);
  _ ← Encode t_PublicKey (InitializeParams_LocalMessageTransmitter obj);
  _ ← Encode t_uint32 (InitializeParams_MessageBodyVersion obj);
  mret tt.
Definition InitializeParams_UnmarshalWithDecoder : Decoder InitializeParams :=
  vTokenController ← Decode t_PublicKey;
  vLocalMessageTransmitter ← Decode t_PublicKey;
  vMessageBodyVersion ← Decode t_uint32;
  mret (mkInitializeParams vTokenController vLocalMessageTransmitter vMessageBodyVersion).
Definition t_InitializeParams : wire InitializeParams :=
  Wire InitializeParams_MarshalWithEncoder InitializeParams_UnmarshalWithDecoder.
Definition InitializeParams_fits (obj : InitializeParams) : Prop :=
  uint 32 (InitializeParams_MessageBodyVersion obj).

Record RemoveRemoteTokenMessengerParams := mkRemoveRemoteTokenMessengerParams {}.
Definition RemoveRemoteTokenMessengerParams_MarshalWithEncoder (_ : RemoveRemoteTokenMessengerParams)
    : Encoder unit :=
  mret tt.
Definition RemoveRemoteTokenMessengerParams_UnmarshalWithDecoder
    : Decoder RemoveRemoteTokenMessengerParams :=
  mret (mkRemoveRemoteTokenMessengerParams).
Definition t_RemoveRemoteTokenMessengerParams : wire RemoveRemoteTokenMessengerParams :=
  Wire RemoveRemoteTokenMessengerParams_MarshalWithEncoder
    RemoveRemoteTokenMessengerParams_UnmarshalWithDecoder.

Record ReplaceDepositForBurnParams := mkReplaceDepositForBurnParams {
  ReplaceDepositForBurnParams_OriginalMessage : list byte;
  ReplaceDepositForBurnParams_OriginalAttestation : list byte;
  ReplaceDepositForBurnParams_NewDestinationCaller : PublicKey;
  ReplaceDepositForBurnParams_NewMintRecipient : PublicKey;
}.
Definition ReplaceDepositForBurnParams_MarshalWithEncoder (obj : ReplaceDepositForBurnParams)
    : Encoder unit :=
  _ ← Encode t_bytes (ReplaceDepositForBurnParams_OriginalMessage obj);
  _ ← Encode t_bytes (ReplaceDepositForBurnParams_OriginalAttestation obj);
  _ ← Encode t_PublicKey (ReplaceDepositForBurnParams_NewDestinationCaller obj);
  _ ← Encode t_PublicKey (ReplaceDepositForBurnParams_NewMintRecipient obj);
  mret tt.
Definition ReplaceDepositForBurnParams_UnmarshalWithDecoder : Decoder ReplaceDepositForBurnParams :=
  vOriginalMessage ← Decode t_bytes;
  vOriginalAttestation ← Decode t_bytes;
  vNewDestinationCaller ← Decode t_PublicKey;
  vNewMintRecipient ← Decode t_PublicKey;
  mret (mkReplaceDepositForBurnParams vOriginalMessage vOriginalAttestation
          vNewDestinationCaller vNewMintRecipient).
Definition t_ReplaceDepositForBurnParams : wire ReplaceDepositForBurnParams :=
  Wire ReplaceDepositForBurnParams_MarshalWithEncoder
    ReplaceDepositForBurnParams_UnmarshalWithDecoder.
Definition ReplaceDepositForBurnParams_fits (obj : ReplaceDepositForBurnParams) : Prop :=
  uint 32 (Z.of_nat (length (ReplaceDepositForBurnParams_OriginalMessage obj))) ∧
  uint 32 (Z.of_nat (length (ReplaceDepositForBurnParams_OriginalAttestation obj))).

Record TransferOwnershipParams := mkTransferOwnershipParams {
  TransferOwnershipParams_NewOwner : PublicKey;
}.
Definition TransferOwnershipParams_MarshalWithEncoder (obj : TransferOwnershipParams)
    : Encoder unit :=
  _ ← Encode t_PublicKey (TransferOwnershipParams_NewOwner obj);
  mret tt.
Definition TransferOwnershipParams_UnmarshalWithDecoder : Decoder TransferOwnershipParams :=
  vNewOwner ← Decode t_PublicKey;
  mret (mkTransferOwnershipParams vNewOwner).
Definition t_TransferOwnershipParams : wire TransferOwnershipParams :=
  Wire TransferOwnershipParams_MarshalWithEncoder TransferOwnershipParams_UnmarshalWithDecoder.

Record AddLocalTokenParams := mkAddLocalTokenParams {}.
Definition AddLocalTokenParams_MarshalWithEncoder (_ : AddLocalTokenParams) : Encoder unit :=
  mret tt.
Definition AddLocalTokenParams_UnmarshalWithDecoder : Decoder AddLocalTokenParams :=
  mret (mkAddLocalTokenParams).
Definition t_AddLocalTokenParams : wire AddLocalTokenParams :=
  Wire AddLocalTokenParams_MarshalWithEncoder AddLocalTokenParams_UnmarshalWithDecoder.

Record BurnTokenCustodyParams := mkBurnTokenCustodyParams {
  BurnTokenCustodyParams_Amount : Z;
}.
Definition BurnTokenCustodyParams_MarshalWithEncoder (obj : BurnTokenCustodyParams)
    : Encoder unit :=
  _ ← Encode t_uint64 (BurnTokenCustodyParams_Amount obj);
  mret tt.
Definition BurnTokenCustodyParams_UnmarshalWithDecoder : Decoder BurnTokenCustodyParams :=
  vAmount ← Decode t_uint64;
  mret (mkBurnTokenCustodyParams vAmount).
Definition t_BurnTokenCustodyParams : wire BurnTokenCustodyParams :=
  Wire BurnTokenCustodyParams_MarshalWithEncoder BurnTokenCustodyParams_UnmarshalWithDecoder.
Definition BurnTokenCustodyParams_fits (obj : BurnTokenCustodyParams) : Prop :=
  uint 64 (BurnTokenCustodyParams_Amount obj).

Record LinkTokenPairParams := mkLinkTokenPairParams {
  LinkTokenPairParams_LocalToken : PublicKey;
  LinkTokenPairParams_RemoteDomain : Z;
  LinkTokenPairParams_RemoteToken : PublicKey;
}.
Definition LinkTokenPairParams_MarshalWithEncoder (obj : LinkTokenPairParams) : Encoder unit :=
  _ ← Encode t_PublicKey (LinkTokenPairParams_LocalToken obj);
  _ ← Encode t_uint32 (LinkTokenPairParams_RemoteDomain obj);
  _ ← Encode t_PublicKey (LinkTokenPairParams_RemoteToken obj);
  mret tt.
Definition LinkTokenPairParams_UnmarshalWithDecoder : Decoder LinkTokenPairParams :=
  vLocalToken ← Decode t_PublicKey;
  vRemoteDomain ← Decode t_uint32;
  vRemoteToken ← Decode t_PublicKey;
  mret (mkLinkTokenPairParams vLocalToken vRemoteDomain vRemoteToken).
Definition t_LinkTokenPairParams : wire LinkTokenPairParams :=
  Wire LinkTokenPairParams_MarshalWithEncoder LinkTokenPairParams_UnmarshalWithDecoder.
Definition LinkTokenPairParams_fits (obj : LinkTokenPairParams) : Prop :=
  uint 32 (LinkTokenPairParams_RemoteDomain obj).

Record PauseParams := mkPauseParams {}.
Definition PauseParams_MarshalWithEncoder (_ : PauseParams) : Encoder unit :=
  mret tt.
Definition PauseParams_UnmarshalWithDecoder : Decoder PauseParams :=
  mret (mkPauseParams).
Definition t_PauseParams : wire PauseParams :=
  Wire PauseParams_MarshalWithEncoder PauseParams_UnmarshalWithDecoder.

Record RemoveLocalTokenParams := mkRemoveLocalTokenParams {}.
Definition RemoveLocalTokenParams_MarshalWithEncoder (_ : RemoveLocalTokenParams) : Encoder unit :=
  mret tt.
Definition RemoveLocalTokenParams_UnmarshalWithDecoder : Decoder RemoveLocalTokenParams :=
  mret (mkRemoveLocalTokenParams).
Definition t_RemoveLocalTokenParams : wire RemoveLocalTokenParams :=
  Wire RemoveLocalTokenParams_MarshalWithEncoder RemoveLocalTokenParams_UnmarshalWithDecoder.

Record SetMaxBurnAmountPerMessageParams := mkSetMaxBurnAmountPerMessageParams {
  SetMaxBurnAmountPerMessageParams_BurnLimitPerMessage : Z;
}.
Definition SetMaxBurnAmountPerMessageParams_MarshalWithEncoder (obj : SetMaxBurnAmountPerMessageParams)
    : Encoder unit :=
  _ ← Encode t_uint64 (SetMaxBurnAmountPerMessageParams_BurnLimitPerMessage obj);
  mret tt.
Definition SetMaxBurnAmountPerMessageParams_UnmarshalWithDecoder
    : Decoder SetMaxBurnAmountPerMessageParams :=
  vBurnLimitPerMessage ← Decode t_uint64;
  mret (mkSetMaxBurnAmountPerMessageParams vBurnLimitPerMessage).
Definition t_SetMaxBurnAmountPerMessageParams : wire SetMaxBurnAmountPerMessageParams :=
  Wire SetMaxBurnAmountPerMessageParams_MarshalWithEncoder
    SetMaxBurnAmountPerMessageParams_UnmarshalWithDecoder.
Definition SetMaxBurnAmountPerMessageParams_fits (obj : SetMaxBurnAmountPerMessageParams) : Prop :=
  uint 64 (SetMaxBurnAmountPerMessageParams_BurnLimitPerMessage obj).

Record SetTokenControllerParams := mkSetTokenControllerParams {
  SetTokenControllerParams_TokenController : PublicKey;
}.
Definition SetTokenControllerParams_MarshalWithEncoder (obj : SetTokenControllerParams)
    : Encoder unit :=
  _ ← Encode t_PublicKey (SetTokenControllerParams_TokenController obj);
  mret tt.
Definition SetTokenControllerParams_UnmarshalWithDecoder : Decoder SetTokenControllerParams :=
  vTokenController ← Decode t_PublicKey;
  mret (mkSetTokenControllerParams vTokenController).
Definition t_SetTokenControllerParams : wire SetTokenControllerParams :=
  Wire SetTokenControllerParams_MarshalWithEncoder SetTokenControllerParams_UnmarshalWithDecoder.

Record UninkTokenPairParams := mkUninkTokenPairParams {}.
Definition UninkTokenPairParams_MarshalWithEncoder (_ : UninkTokenPairParams) : Encoder unit :=
  mret tt.
Definition UninkTokenPairParams_UnmarshalWithDecoder : Decoder UninkTokenPairParams :=
  mret (mkUninkTokenPairParams).
Definition t_UninkTokenPairParams : wire UninkTokenPairParams :=
  Wire UninkTokenPairParams_MarshalWithEncoder UninkTokenPairParams_UnmarshalWithDecoder.

Record UnpauseParams := mkUnpauseParams {}.
Definition UnpauseParams_MarshalWithEncoder (_ : UnpauseParams) : Encoder unit :=
  mret tt.
Definition UnpauseParams_UnmarshalWithDecoder : Decoder UnpauseParams :=
  mret (mkUnpauseParams).
Definition t_UnpauseParams : wire UnpauseParams :=
  Wire UnpauseParams_MarshalWithEncoder UnpauseParams_UnmarshalWithDecoder.

Record UpdatePauserParams := mkUpdatePauserParams {
  UpdatePauserParams_NewPauser : PublicKey;
}.
Definition UpdatePauserParams_MarshalWithEncoder (obj : UpdatePauserParams) : Encoder unit :=
  _ ← Encode t_PublicKey (UpdatePauserParams_NewPauser obj);
  mret tt.
Definition UpdatePauserParams_UnmarshalWithDecoder : Decoder UpdatePauserParams :=
  vNewPauser ← Decode t_PublicKey;
  mret (mkUpdatePauserParams vNewPauser).
Definition t_UpdatePauserParams : wire UpdatePauserParams :=
  Wire UpdatePauserParams_MarshalWithEncoder UpdatePauserParams_UnmarshalWithDecoder.

(** The values of [TokenMinterError], a Borsh enumeration. *)
Definition TokenMinterErrorInvalidAuthority : Z := 0.
Definition TokenMinterErrorInvalidTokenMinterState : Z := 1.
Definition TokenMinterErrorProgramPaused : Z := 2.
Definition TokenMinterErrorInvalidTokenPairState : Z := 3.
Definition TokenMinterErrorInvalidLocalTokenState : Z := 4.
Definition TokenMinterErrorInvalidPauser : Z := 5.
Definition TokenMinterErrorInvalidTokenController : Z := 6.
Definition TokenMinterErrorBurnAmountExceeded : Z := 7.
Definition TokenMinterErrorInvalidAmount : Z := 8.
Definition TokenMinterError_String (value : Z) : string :=
  (if (value =? TokenMinterErrorInvalidAuthority)%Z then "InvalidAuthority" else
   if (value =? TokenMinterErrorInvalidTokenMinterState)%Z then "InvalidTokenMinterState" else
   if (value =? TokenMinterErrorProgramPaused)%Z then "ProgramPaused" else
   if (value =? TokenMinterErrorInvalidTokenPairState)%Z then "InvalidTokenPairState" else
   if (value =? TokenMinterErrorInvalidLocalTokenState)%Z then "InvalidLocalTokenState" else
   if (value =? TokenMinterErrorInvalidPauser)%Z then "InvalidPauser" else
   if (value =? TokenMinterErrorInvalidTokenController)%Z then "InvalidTokenController" else
   if (value =? TokenMinterErrorBurnAmountExceeded)%Z then "BurnAmountExceeded" else
   if (value =? TokenMinterErrorInvalidAmount)%Z then "InvalidAmount" else "")%string.

(** ** accounts.go *)

Record TokenMessenger := mkTokenMessenger {
  TokenMessenger_Owner : PublicKey;
  TokenMessenger_PendingOwner : PublicKey;
  TokenMessenger_LocalMessageTransmitter : PublicKey;
  TokenMessenger_MessageBodyVersion : Z;
  TokenMessenger_AuthorityBump : Z;
}.
Definition TokenMessengerDiscriminator : list byte :=
  byte_array [162; 4; 242; 52; 147; 243; 221; 96].
Definition TokenMessenger_MarshalWithEncoder (obj : TokenMessenger) : Encoder unit :=
  _ ← WriteBytes TokenMessengerDiscriminator;
  _ ← Encode t_PublicKey (TokenMessenger_Owner obj);
  _ ← Encode t_PublicKey (TokenMessenger_PendingOwner obj);
  _ ← Encode t_PublicKey (TokenMessenger_LocalMessageTransmitter obj);
  _ ← Encode t_uint32 (TokenMessenger_MessageBodyVersion obj);
  _ ← Encode t_uint8 (TokenMessenger_AuthorityBump obj);
  mret tt.
Definition TokenMessenger_UnmarshalWithDecoder : Decoder TokenMessenger :=
  _ ← check_discriminator TokenMessengerDiscriminator;
  vOwner ← Decode t_PublicKey;
  vPendingOwner ← Decode t_PublicKey;
  vLocalMessageTransmitter ← Decode t_PublicKey;
  vMessageBodyVersion ← Decode t_uint32;
  vAuthorityBump ← Decode t_uint8;
  mret (mkTokenMessenger vOwner vPendingOwner vLocalMessageTransmitter vMessageBodyVersion
          vAuthorityBump).
Definition t_TokenMessenger : wire TokenMessenger :=
  Wire TokenMessenger_MarshalWithEncoder TokenMessenger_UnmarshalWithDecoder.
Definition TokenMessenger_fits (obj : TokenMessenger) : Prop :=
  uint 32 (TokenMessenger_MessageBodyVersion obj) ∧
  uint 8 (TokenMessenger_AuthorityBump obj).

Record RemoteTokenMessenger := mkRemoteTokenMessenger {
  RemoteTokenMessenger_Domain : Z;
  RemoteTokenMessenger_TokenMessenger : PublicKey;
}.
Definition RemoteTokenMessengerDiscriminator : list byte :=
  byte_array [105; 115; 174; 34; 95; 233; 138; 252].
Definition RemoteTokenMessenger_MarshalWithEncoder (obj : RemoteTokenMessenger) : Encoder unit :=
  _ ← WriteBytes RemoteTokenMessengerDiscriminator;
  _ ← Encode t_uint32 (RemoteTokenMessenger_Domain obj);
  _ ← Encode t_PublicKey (RemoteTokenMessenger_TokenMessenger obj);
  mret tt.
Definition RemoteTokenMessenger_UnmarshalWithDecoder : Decoder RemoteTokenMessenger :=
  _ ← check_discriminator RemoteTokenMessengerDiscriminator;
  vDomain ← Decode t_uint32;
  vTokenMessenger ← Decode t_PublicKey;
  mret (mkRemoteTokenMessenger vDomain vTokenMessenger).
Definition t_RemoteTokenMessenger : wire RemoteTokenMessenger :=
  Wire RemoteTokenMessenger_MarshalWithEncoder RemoteTokenMessenger_UnmarshalWithDecoder.
Definition RemoteTokenMessenger_fits (obj : RemoteTokenMessenger) : Prop :=
  uint 32 (RemoteTokenMessenger_Domain obj).

Record TokenMinter := mkTokenMinter {
  TokenMinter_TokenController : PublicKey;
  TokenMinter_Pauser : PublicKey;
  TokenMinter_Paused : bool;
  TokenMinter_Bump : Z;
}.
Definition TokenMinterDiscriminator : list byte :=
  byte_array [122; 133; 84; 63; 57; 159; 171; 206].
Definition TokenMinter_MarshalWithEncoder (obj : TokenMinter) : Encoder unit :=
  _ ← WriteBytes TokenMinterDiscriminator;
  _ ← Encode t_PublicKey (TokenMinter_TokenController obj);
  _ ← Encode t_PublicKey (TokenMinter_Pauser obj);
  _ ← Encode t_bool (TokenMinter_Paused obj);
  _ ← Encode t_uint8 (TokenMinter_Bump obj);
  mret tt.
Definition TokenMinter_UnmarshalWithDecoder : Decoder TokenMinter :=
  _ ← check_discriminator TokenMinterDiscriminator;
  vTokenController ← Decode t_PublicKey;
  vPauser ← Decode t_PublicKey;
  vPaused ← Decode t_bool;
  vBump ← Decode t_uint8;
  mret (mkTokenMinter vTokenController vPauser vPaused vBump).
Definition t_TokenMinter : wire TokenMinter :=
  Wire TokenMinter_MarshalWithEncoder TokenMinter_UnmarshalWithDecoder.
Definition TokenMinter_fits (obj : TokenMinter) : Prop :=
  uint 8 (TokenMinter_Bump obj).

Record TokenPair := mkTokenPair {
  TokenPair_RemoteDomain : Z;
  TokenPair_RemoteToken : PublicKey;
  TokenPair_LocalToken : PublicKey;
  TokenPair_Bump : Z;
}.
Definition TokenPairDiscriminator : list byte :=
  byte_array [17; 214; 45; 176; 229; 149; 197; 71].
Definition TokenPair_MarshalWithEncoder (obj : TokenPair) : Encoder unit :=
  _ ← WriteBytes TokenPairDiscriminator;
  _ ← Encode t_uint32 (TokenPair_RemoteDomain obj);
  _ ← Encode t_PublicKey (TokenPair_RemoteToken obj);
  _ ← Encode t_PublicKey (TokenPair_LocalToken obj);
  _ ← Encode t_uint8 (TokenPair_Bump obj);
  mret tt.
Definition TokenPair_UnmarshalWithDecoder : Decoder TokenPair :=
  _ ← check_discriminator TokenPairDiscriminator;
  vRemoteDomain ← Decode t_uint32;
  vRemoteToken ← Decode t_PublicKey;
  vLocalToken ← Decode t_PublicKey;
  vBump ← Decode t_uint8;
  mret (mkTokenPair vRemoteDomain vRemoteToken vLocalToken vBump).
Definition t_TokenPair : wire TokenPair :=
  Wire TokenPair_MarshalWithEncoder TokenPair_UnmarshalWithDecoder.
Definition TokenPair_fits (obj : TokenPair) : Prop :=
  uint 32 (TokenPair_RemoteDomain obj) ∧
  uint 8 (TokenPair_Bump obj).

Record LocalToken := mkLocalToken {
  LocalToken_Custody : PublicKey;
  LocalToken_Mint : PublicKey;
  LocalToken_BurnLimitPerMessage : Z;
  LocalToken_MessagesSent : Z;
  LocalToken_MessagesReceived : Z;
  LocalToken_AmountSent : Uint128;
  LocalToken_AmountReceived : Uint128;
  LocalToken_Bump : Z;
  LocalToken_CustodyBump : Z;
}.
Definition LocalTokenDiscriminator : list byte :=
  byte_array [159; 131; 58; 170; 193; 84; 128; 182].
Definition LocalToken_MarshalWithEncoder (obj : LocalToken) : Encoder unit :=
  _ ← WriteBytes LocalTokenDiscriminator;
  _ ← Encode t_PublicKey (LocalToken_Custody obj);
  _ ← Encode t_PublicKey (LocalToken_Mint obj);
  _ ← Encode t_uint64 (LocalToken_BurnLimitPerMessage obj);
  _ ← Encode t_uint64 (LocalToken_MessagesSent obj);
  _ ← Encode t_uint64 (LocalToken_MessagesReceived obj);
  _ ← Encode t_Uint128 (LocalToken_AmountSent obj);
  _ ← Encode t_Uint128 (LocalToken_AmountReceived obj);
  _ ← Encode t_uint8 (LocalToken_Bump obj);
  _ ← Encode t_uint8 (LocalToken_CustodyBump obj);
  mret tt.
Definition LocalToken_UnmarshalWithDecoder : Decoder LocalToken :=
  _ ← check_discriminator LocalTokenDiscriminator;
  vCustody ← Decode t_PublicKey;
  vMint ← Decode t_PublicKey;
  vBurnLimitPerMessage ← Decode t_uint64;
  vMessagesSent ← Decode t_uint64;
  vMessagesReceived ← Decode t_uint64;
  vAmountSent ← Decode t_Uint128;
  vAmountReceived ← Decode t_Uint128;
  vBump ← Decode t_uint8;
  vCustodyBump ← Decode t_uint8;
  mret (mkLocalToken vCustody vMint vBurnLimitPerMessage vMessagesSent vMessagesReceived
          vAmountSent vAmountReceived vBump vCustodyBump).
Definition t_LocalToken : wire LocalToken :=
  Wire LocalToken_MarshalWithEncoder LocalToken_UnmarshalWithDecoder.
Definition LocalToken_fits (obj : LocalToken) : Prop :=
  uint 64 (LocalToken_BurnLimitPerMessage obj) ∧
  uint 64 (LocalToken_MessagesSent obj) ∧
  uint 64 (LocalToken_MessagesReceived obj) ∧
  uint 8 (LocalToken_Bump obj) ∧
  uint 8 (LocalToken_CustodyBump obj).

(** ** Lemmas: the structs *)

Section roundtrips.
Context `{!AgBinaryLaws}.

Lemma tmm_AcceptOwnershipParams_roundtrips obj : roundtrips t_AcceptOwnershipParams obj.
Proof. destruct obj; solve_struct. Qed.
Lemma tmm_AddRemoteTokenMessengerParams_roundtrips obj :
  AddRemoteTokenMessengerParams_fits obj → roundtrips t_AddRemoteTokenMessengerParams obj.
Proof. destruct obj; intros ?; solve_struct. Qed.
Lemma tmm_DepositForBurnWithCallerParams_roundtrips obj :
  DepositForBurnWithCallerParams_fits obj → roundtrips t_DepositForBurnWithCallerParams obj.
Proof. destruct obj; intros (?&?); solve_struct. Qed.
Lemma tmm_DepositForBurnParams_roundtrips obj :
  DepositForBurnParams_fits obj → roundtrips t_DepositForBurnParams obj.
Proof. destruct obj; intros (?&?); solve_struct. Qed.
Lemma tmm_HandleReceiveMessageParams_roundtrips obj :
  HandleReceiveMessageParams_fits obj → roundtrips t_HandleReceiveMessageParams obj.
Proof. destruct obj; intros (?&?&?); solve_struct. Qed.
Lemma tmm_InitializeParams_roundtrips obj :
  InitializeParams_fits obj → roundtrips t_InitializeParams obj.
Proof. destruct obj; intros ?; solve_struct. Qed.
Lemma tmm_RemoveRemoteTokenMessengerParams_roundtrips obj :
  roundtrips t_RemoveRemoteTokenMessengerParams obj.
Proof. destruct obj; solve_struct. Qed.
Lemma tmm_ReplaceDepositForBurnParams_roundtrips obj :
  ReplaceDepositForBurnParams_fits obj → roundtrips t_ReplaceDepositForBurnParams obj.
Proof. destruct obj; intros (?&?); solve_struct. Qed.
Lemma tmm_TransferOwnershipParams_roundtrips obj : roundtrips t_TransferOwnershipParams obj.
Proof. destruct obj; solve_struct. Qed.
Lemma tmm_AddLocalTokenParams_roundtrips obj : roundtrips t_AddLocalTokenParams obj.
Proof. destruct obj; solve_struct. Qed.
Lemma tmm_BurnTokenCustodyParams_roundtrips obj :
  BurnTokenCustodyParams_fits obj → roundtrips t_BurnTokenCustodyParams obj.
Proof. destruct obj; intros ?; solve_struct. Qed.
Lemma tmm_LinkTokenPairParams_roundtrips obj :
  LinkTokenPairParams_fits obj → roundtrips t_LinkTokenPairParams obj.
Proof. destruct obj; intros ?; solve_struct. Qed.
Lemma tmm_PauseParams_roundtrips obj : roundtrips t_PauseParams obj.
Proof. destruct obj; solve_struct. Qed.
Lemma tmm_RemoveLocalTokenParams_roundtrips obj : roundtrips t_RemoveLocalTokenParams obj.
Proof. destruct obj; solve_struct. Qed.
Lemma tmm_SetMaxBurnAmountPerMessageParams_roundtrips obj :
  SetMaxBurnAmountPerMessageParams_fits obj → roundtrips t_SetMaxBurnAmountPerMessageParams obj.
Proof. destruct obj; intros ?; solve_struct. Qed.
Lemma tmm_SetTokenControllerParams_roundtrips obj : roundtrips t_SetTokenControllerParams obj.
Proof. destruct obj; solve_struct. Qed.
Lemma tmm_UninkTokenPairParams_roundtrips obj : roundtrips t_UninkTokenPairParams obj.
Proof. destruct obj; solve_struct. Qed.
Lemma tmm_UnpauseParams_roundtrips obj : roundtrips t_UnpauseParams obj.
Proof. destruct obj; solve_struct. Qed.
Lemma tmm_UpdatePauserParams_roundtrips obj : roundtrips t_UpdatePauserParams obj.
Proof. destruct obj; solve_struct. Qed.
Lemma tmm_TokenMessenger_roundtrips obj : TokenMessenger_fits obj → roundtrips t_TokenMessenger obj.
Proof. destruct obj; intros (?&?); solve_struct. Qed.
Lemma tmm_RemoteTokenMessenger_roundtrips obj :
  RemoteTokenMessenger_fits obj → roundtrips t_RemoteTokenMessenger obj.
Proof. destruct obj; intros ?; solve_struct. Qed.
Lemma tmm_TokenMinter_roundtrips obj : TokenMinter_fits obj → roundtrips t_TokenMinter obj.
Proof. destruct obj; intros ?; solve_struct. Qed.
Lemma tmm_TokenPair_roundtrips obj : TokenPair_fits obj → roundtrips t_TokenPair obj.
Proof. destruct obj; intros (?&?); solve_struct. Qed.
Lemma tmm_LocalToken_roundtrips obj : LocalToken_fits obj → roundtrips t_LocalToken obj.
Proof. destruct obj; intros (?&?&?&?&?); solve_struct. Qed.
End roundtrips.

(** ** Instructions *)

Context `{!SolanaGo}.

(** *** Initialize *)

Definition Initialize_accounts : account_table :=
  [("Payer", WritableSigner); ("UpgradeAuthority", Signer); ("AuthorityPda", Readonly);
   ("TokenMessenger", Writable); ("TokenMinter", Writable);
   ("TokenMessengerMinterProgramData", Readonly); ("TokenMessengerMinterProgram", Readonly);
   ("SystemProgram", Readonly); ("EventAuthority", Readonly); ("Program", Readonly)]%string.
Definition NewInitializeInstruction (params : InitializeParams)
    (payer upgradeAuthority authorityPda tokenMessenger tokenMinter
     tokenMessengerMinterProgramData tokenMessengerMinterProgram systemProgram eventAuthority
     program_ : PublicKey) :
    result (Inst InitializeParams) :=
  NewInstruction Initialize_accounts params
    [payer; upgradeAuthority; authorityPda; tokenMessenger; tokenMinter;
     tokenMessengerMinterProgramData; tokenMessengerMinterProgram; systemProgram; eventAuthority;
     program_].
Definition Initialize_Validate
    : Inst InitializeParams → result unit := Validate Initialize_accounts.
Definition Initialize_MarshalWithEncoder (obj : Inst InitializeParams) : Encoder unit :=
  _ ← Encode (t_ptr t_InitializeParams) (Params obj);
  mret tt.
Definition Initialize_UnmarshalWithDecoder : Decoder (Inst InitializeParams) :=
  vParams ← Decode (t_ptr t_InitializeParams);
  mret (mkInst vParams []).

(** *** TransferOwnership *)

Definition TransferOwnership_accounts : account_table :=
  [("Owner", Signer); ("TokenMessenger", Writable); ("EventAuthority", Readonly);
   ("Program", Readonly)]%string.
Definition NewTransferOwnershipInstruction (params : TransferOwnershipParams)
    (owner tokenMessenger eventAuthority program_ : PublicKey) :
    result (Inst TransferOwnershipParams) :=
  NewInstruction TransferOwnership_accounts params
    [owner; tokenMessenger; eventAuthority; program_].
Definition TransferOwnership_Validate
    : Inst TransferOwnershipParams → result unit := Validate TransferOwnership_accounts.
Definition TransferOwnership_MarshalWithEncoder (obj : Inst TransferOwnershipParams)
    : Encoder unit :=
  _ ← Encode (t_ptr t_TransferOwnershipParams) (Params obj);
  mret tt.
Definition TransferOwnership_UnmarshalWithDecoder : Decoder (Inst TransferOwnershipParams) :=
  vParams ← Decode (t_ptr t_TransferOwnershipParams);
  mret (mkInst vParams []).

(** *** AcceptOwnership *)

Definition AcceptOwnership_accounts : account_table :=
  [("PendingOwner", Signer); ("TokenMessenger", Writable); ("EventAuthority", Readonly);
   ("Program", Readonly)]%string.
Definition NewAcceptOwnershipInstruction (params : AcceptOwnershipParams)
    (pendingOwner tokenMessenger eventAuthority program_ : PublicKey) :
    result (Inst AcceptOwnershipParams) :=
  NewInstruction AcceptOwnership_accounts params
    [pendingOwner; tokenMessenger; eventAuthority; program_].
Definition AcceptOwnership_Validate
    : Inst AcceptOwnershipParams → result unit := Validate AcceptOwnership_accounts.
Definition AcceptOwnership_MarshalWithEncoder (obj : Inst AcceptOwnershipParams) : Encoder unit :=
  _ ← Encode (t_ptr t_AcceptOwnershipParams) (Params obj);
  mret tt.
Definition AcceptOwnership_UnmarshalWithDecoder : Decoder (Inst AcceptOwnershipParams) :=
  vParams ← Decode (t_ptr t_AcceptOwnershipParams);
  mret (mkInst vParams []).

(** *** AddRemoteTokenMessenger *)

Definition AddRemoteTokenMessenger_accounts : account_table :=
  [("Payer", WritableSigner); ("Owner", Signer); ("TokenMessenger", Readonly);
   ("RemoteTokenMessenger", Writable); ("SystemProgram", Readonly);
   ("EventAuthority", Readonly); ("Program", Readonly)]%string.
Definition NewAddRemoteTokenMessengerInstruction (params : AddRemoteTokenMessengerParams)
    (payer owner tokenMessenger remoteTokenMessenger systemProgram eventAuthority program_ : PublicKey) :
    result (Inst AddRemoteTokenMessengerParams) :=
  NewInstruction AddRemoteTokenMessenger_accounts params
    [payer; owner; tokenMessenger; remoteTokenMessenger; systemProgram; eventAuthority; program_].
Definition AddRemoteTokenMessenger_Validate
    : Inst AddRemoteTokenMessengerParams → result unit := Validate AddRemoteTokenMessenger_accounts.
Definition AddRemoteTokenMessenger_MarshalWithEncoder (obj : Inst AddRemoteTokenMessengerParams)
    : Encoder unit :=
  _ ← Encode (t_ptr t_AddRemoteTokenMessengerParams) (Params obj);
  mret tt.
Definition AddRemoteTokenMessenger_UnmarshalWithDecoder
    : Decoder (Inst AddRemoteTokenMessengerParams) :=
  vParams ← Decode (t_ptr t_AddRemoteTokenMessengerParams);
  mret (mkInst vParams []).

(** *** RemoveRemoteTokenMessenger *)

Definition RemoveRemoteTokenMessenger_accounts : account_table :=
  [("Payee", WritableSigner); ("Owner", Signer); ("TokenMessenger", Readonly);
   ("RemoteTokenMessenger", Writable); ("EventAuthority", Readonly); ("Program", Readonly)]%string.
Definition NewRemoveRemoteTokenMessengerInstruction (params : RemoveRemoteTokenMessengerParams)
    (payee owner tokenMessenger remoteTokenMessenger eventAuthority program_ : PublicKey) :
    result (Inst RemoveRemoteTokenMessengerParams) :=
  NewInstruction RemoveRemoteTokenMessenger_accounts params
    [payee; owner; tokenMessenger; remoteTokenMessenger; eventAuthority; program_].
Definition RemoveRemoteTokenMessenger_Validate
    : Inst RemoveRemoteTokenMessengerParams → result unit := Validate RemoveRemoteTokenMessenger_accounts.
Definition RemoveRemoteTokenMessenger_MarshalWithEncoder (obj : Inst RemoveRemoteTokenMessengerParams)
    : Encoder unit :=
  _ ← Encode (t_ptr t_RemoveRemoteTokenMessengerParams) (Params obj);
  mret tt.
Definition RemoveRemoteTokenMessenger_UnmarshalWithDecoder
    : Decoder (Inst RemoveRemoteTokenMessengerParams) :=
  vParams ← Decode (t_ptr t_RemoveRemoteTokenMessengerParams);
  mret (mkInst vParams []).

(** *** DepositForBurn *)

Definition DepositForBurn_accounts : account_table :=
  [("Owner", Signer); ("EventRentPayer", WritableSigner); ("SenderAuthorityPda", Readonly);
   ("BurnTokenAccount", Writable); ("MessageTransmitter", Writable);
   ("TokenMessenger", Readonly); ("RemoteTokenMessenger", Readonly); ("TokenMinter", Readonly);
   ("LocalToken", Writable); ("BurnTokenMint", Writable);
   ("MessageSentEventData", WritableSigner); ("MessageTransmitterProgram", Readonly);
   ("TokenMessengerMinterProgram", Readonly); ("TokenProgram", Readonly);
   ("SystemProgram", Readonly); ("EventAuthority", Readonly); ("Program", Readonly)]%string.
Definition NewDepositForBurnInstruction (params : DepositForBurnParams)
    (owner eventRentPayer senderAuthorityPda burnTokenAccount messageTransmitter tokenMessenger
     remoteTokenMessenger tokenMinter localToken burnTokenMint messageSentEventData
     messageTransmitterProgram tokenMessengerMinterProgram tokenProgram systemProgram
     eventAuthority program_ : PublicKey) :
    result (Inst DepositForBurnParams) :=
  NewInstruction DepositForBurn_accounts params
    [owner; eventRentPayer; senderAuthorityPda; burnTokenAccount; messageTransmitter;
     tokenMessenger; remoteTokenMessenger; tokenMinter; localToken; burnTokenMint;
     messageSentEventData; messageTransmitterProgram; tokenMessengerMinterProgram; tokenProgram;
     systemProgram; eventAuthority; program_].
Definition DepositForBurn_Validate
    : Inst DepositForBurnParams → result unit := Validate DepositForBurn_accounts.
Definition DepositForBurn_MarshalWithEncoder (obj : Inst DepositForBurnParams) : Encoder unit :=
  _ ← Encode (t_ptr t_DepositForBurnParams) (Params obj);
  mret tt.
Definition DepositForBurn_UnmarshalWithDecoder : Decoder (Inst DepositForBurnParams) :=
  vParams ← Decode (t_ptr t_DepositForBurnParams);
  mret (mkInst vParams []).

(** *** DepositForBurnWithCaller *)

Definition DepositForBurnWithCaller_accounts : account_table :=
  [("Owner", Signer); ("EventRentPayer", WritableSigner); ("SenderAuthorityPda", Readonly);
   ("BurnTokenAccount", Writable); ("MessageTransmitter", Writable);
   ("TokenMessenger", Readonly); ("RemoteTokenMessenger", Readonly); ("TokenMinter", Readonly);
   ("LocalToken", Writable); ("BurnTokenMint", Writable);
   ("MessageSentEventData", WritableSigner); ("MessageTransmitterProgram", Readonly);
   ("TokenMessengerMinterProgram", Readonly); ("TokenProgram", Readonly);
   ("SystemProgram", Readonly); ("EventAuthority", Readonly); ("Program", Readonly)]%string.
Definition NewDepositForBurnWithCallerInstruction (params : DepositForBurnWithCallerParams)
    (owner eventRentPayer senderAuthorityPda burnTokenAccount messageTransmitter tokenMessenger
     remoteTokenMessenger tokenMinter localToken burnTokenMint messageSentEventData
     messageTransmitterProgram tokenMessengerMinterProgram tokenProgram systemProgram
     eventAuthority program_ : PublicKey) :
    result (Inst DepositForBurnWithCallerParams) :=
  NewInstruction DepositForBurnWithCaller_accounts params
    [owner; eventRentPayer; senderAuthorityPda; burnTokenAccount; messageTransmitter;
     tokenMessenger; remoteTokenMessenger; tokenMinter; localToken; burnTokenMint;
     messageSentEventData; messageTransmitterProgram; tokenMessengerMinterProgram; tokenProgram;
     systemProgram; eventAuthority; program_].
Definition DepositForBurnWithCaller_Validate
    : Inst DepositForBurnWithCallerParams → result unit := Validate DepositForBurnWithCaller_accounts.
Definition DepositForBurnWithCaller_MarshalWithEncoder (obj : Inst DepositForBurnWithCallerParams)
    : Encoder unit :=
  _ ← Encode (t_ptr t_DepositForBurnWithCallerParams) (Params obj);
  mret tt.
Definition DepositForBurnWithCaller_UnmarshalWithDecoder
    : Decoder (Inst DepositForBurnWithCallerParams) :=
  vParams ← Decode (t_ptr t_DepositForBurnWithCallerParams);
  mret (mkInst vParams []).

(** *** ReplaceDepositForBurn *)

Definition ReplaceDepositForBurn_accounts : account_table :=
  [("Owner", Signer); ("EventRentPayer", WritableSigner); ("SenderAuthorityPda", Readonly);
   ("MessageTransmitter", Writable); ("TokenMessenger", Readonly);
   ("MessageSentEventData", WritableSigner); ("MessageTransmitterProgram", Readonly);
   ("TokenMessengerMinterProgram", Readonly); ("SystemProgram", Readonly);
   ("EventAuthority", Readonly); ("Program", Readonly)]%string.
Definition NewReplaceDepositForBurnInstruction (params : ReplaceDepositForBurnParams)
    (owner eventRentPayer senderAuthorityPda messageTransmitter tokenMessenger
     messageSentEventData messageTransmitterProgram tokenMessengerMinterProgram systemProgram
     eventAuthority program_ : PublicKey) :
    result (Inst ReplaceDepositForBurnParams) :=
  NewInstruction ReplaceDepositForBurn_accounts params
    [owner; eventRentPayer; senderAuthorityPda; messageTransmitter; tokenMessenger;
     messageSentEventData; messageTransmitterProgram; tokenMessengerMinterProgram; systemProgram;
     eventAuthority; program_].
Definition ReplaceDepositForBurn_Validate
    : Inst ReplaceDepositForBurnParams → result unit := Validate ReplaceDepositForBurn_accounts.
Definition ReplaceDepositForBurn_MarshalWithEncoder (obj : Inst ReplaceDepositForBurnParams)
    : Encoder unit :=
  _ ← Encode (t_ptr t_ReplaceDepositForBurnParams) (Params obj);
  mret tt.
Definition ReplaceDepositForBurn_UnmarshalWithDecoder
    : Decoder (Inst ReplaceDepositForBurnParams) :=
  vParams ← Decode (t_ptr t_ReplaceDepositForBurnParams);
  mret (mkInst vParams []).

(** *** HandleReceiveMessage *)

Definition HandleReceiveMessage_accounts : account_table :=
  [("AuthorityPda", Signer); ("TokenMessenger", Readonly); ("RemoteTokenMessenger", Readonly);
   ("TokenMinter", Readonly); ("LocalToken", Writable); ("TokenPair", Readonly);
   ("RecipientTokenAccount", Writable); ("CustodyTokenAccount", Writable);
   ("TokenProgram", Readonly); ("EventAuthority", Readonly); ("Program", Readonly)]%string.
Definition NewHandleReceiveMessageInstruction (params : HandleReceiveMessageParams)
    (authorityPda tokenMessenger remoteTokenMessenger tokenMinter localToken tokenPair
     recipientTokenAccount custodyTokenAccount tokenProgram eventAuthority program_ : PublicKey) :
    result (Inst HandleReceiveMessageParams) :=
  NewInstruction HandleReceiveMessage_accounts params
    [authorityPda; tokenMessenger; remoteTokenMessenger; tokenMinter; localToken; tokenPair;
     recipientTokenAccount; custodyTokenAccount; tokenProgram; eventAuthority; program_].
Definition HandleReceiveMessage_Validate
    : Inst HandleReceiveMessageParams → result unit := Validate HandleReceiveMessage_accounts.
Definition HandleReceiveMessage_MarshalWithEncoder (obj : Inst HandleReceiveMessageParams)
    : Encoder unit :=
  _ ← Encode (t_ptr t_HandleReceiveMessageParams) (Params obj);
  mret tt.
Definition HandleReceiveMessage_UnmarshalWithDecoder : Decoder (Inst HandleReceiveMessageParams) :=
  vParams ← Decode (t_ptr t_HandleReceiveMessageParams);
  mret (mkInst vParams []).

(** *** SetTokenController *)

Definition SetTokenController_accounts : account_table :=
  [("Owner", Signer); ("TokenMessenger", Readonly); ("TokenMinter", Writable);
   ("EventAuthority", Readonly); ("Program", Readonly)]%string.
Definition NewSetTokenControllerInstruction (params : SetTokenControllerParams)
    (owner tokenMessenger tokenMinter eventAuthority program_ : PublicKey) :
    result (Inst SetTokenControllerParams) :=
  NewInstruction SetTokenController_accounts params
    [owner; tokenMessenger; tokenMinter; eventAuthority; program_].
Definition SetTokenController_Validate
    : Inst SetTokenControllerParams → result unit := Validate SetTokenController_accounts.
Definition SetTokenController_MarshalWithEncoder (obj : Inst SetTokenControllerParams)
    : Encoder unit :=
  _ ← Encode (t_ptr t_SetTokenControllerParams) (Params obj);
  mret tt.
Definition SetTokenController_UnmarshalWithDecoder : Decoder (Inst SetTokenControllerParams) :=
  vParams ← Decode (t_ptr t_SetTokenControllerParams);
  mret (mkInst vParams []).

(** *** Pause *)

Definition Pause_accounts : account_table :=
  [("Pauser", Signer); ("TokenMinter", Writable); ("EventAuthority", Readonly);
   ("Program", Readonly)]%string.
Definition NewPauseInstruction (params : PauseParams)
    (pauser tokenMinter eventAuthority program_ : PublicKey) :
    result (Inst PauseParams) :=
  NewInstruction Pause_accounts params
    [pauser; tokenMinter; eventAuthority; program_].
Definition Pause_Validate : Inst PauseParams → result unit := Validate Pause_accounts.
Definition Pause_MarshalWithEncoder (obj : Inst PauseParams) : Encoder unit :=
  _ ← Encode (t_ptr t_PauseParams) (Params obj);
  mret tt.
Definition Pause_UnmarshalWithDecoder : Decoder (Inst PauseParams) :=
  vParams ← Decode (t_ptr t_PauseParams);
  mret (mkInst vParams []).

(** *** Unpause *)

Definition Unpause_accounts : account_table :=
  [("Pauser", Signer); ("TokenMinter", Writable); ("EventAuthority", Readonly);
   ("Program", Readonly)]%string.
Definition NewUnpauseInstruction (params : UnpauseParams)
    (pauser tokenMinter eventAuthority program_ : PublicKey) :
    result (Inst UnpauseParams) :=
  NewInstruction Unpause_accounts params
    [pauser; tokenMinter; eventAuthority; program_].
Definition Unpause_Validate : Inst UnpauseParams → result unit := Validate Unpause_accounts.
Definition Unpause_MarshalWithEncoder (obj : Inst UnpauseParams) : Encoder unit :=
  _ ← Encode (t_ptr t_UnpauseParams) (Params obj);
  mret tt.
Definition Unpause_UnmarshalWithDecoder : Decoder (Inst UnpauseParams) :=
  vParams ← Decode (t_ptr t_UnpauseParams);
  mret (mkInst vParams []).

(** *** UpdatePauser *)

Definition UpdatePauser_accounts : account_table :=
  [("Owner", Signer); ("TokenMessenger", Readonly); ("TokenMinter", Writable);
   ("EventAuthority", Readonly); ("Program", Readonly)]%string.
Definition NewUpdatePauserInstruction (params : UpdatePauserParams)
    (owner tokenMessenger tokenMinter eventAuthority program_ : PublicKey) :
    result (Inst UpdatePauserParams) :=
  NewInstruction UpdatePauser_accounts params
    [owner; tokenMessenger; tokenMinter; eventAuthority; program_].
Definition UpdatePauser_Validate
    : Inst UpdatePauserParams → result unit := Validate UpdatePauser_accounts.
Definition UpdatePauser_MarshalWithEncoder (obj : Inst UpdatePauserParams) : Encoder unit :=
  _ ← Encode (t_ptr t_UpdatePauserParams) (Params obj);
  mret tt.
Definition UpdatePauser_UnmarshalWithDecoder : Decoder (Inst UpdatePauserParams) :=
  vParams ← Decode (t_ptr t_UpdatePauserParams);
  mret (mkInst vParams []).

(** *** SetMaxBurnAmountPerMessage *)

Definition SetMaxBurnAmountPerMessage_accounts : account_table :=
  [("TokenController", Signer); ("TokenMinter", Readonly); ("LocalToken", Writable);
   ("EventAuthority", Readonly); ("Program", Readonly)]%string.
Definition NewSetMaxBurnAmountPerMessageInstruction (params : SetMaxBurnAmountPerMessageParams)
    (tokenController tokenMinter localToken eventAuthority program_ : PublicKey) :
    result (Inst SetMaxBurnAmountPerMessageParams) :=
  NewInstruction SetMaxBurnAmountPerMessage_accounts params
    [tokenController; tokenMinter; localToken; eventAuthority; program_].
Definition SetMaxBurnAmountPerMessage_Validate
    : Inst SetMaxBurnAmountPerMessageParams → result unit := Validate SetMaxBurnAmountPerMessage_accounts.
Definition SetMaxBurnAmountPerMessage_MarshalWithEncoder (obj : Inst SetMaxBurnAmountPerMessageParams)
    : Encoder unit :=
  _ ← Encode (t_ptr t_SetMaxBurnAmountPerMessageParams) (Params obj);
  mret tt.
Definition SetMaxBurnAmountPerMessage_UnmarshalWithDecoder
    : Decoder (Inst SetMaxBurnAmountPerMessageParams) :=
  vParams ← Decode (t_ptr t_SetMaxBurnAmountPerMessageParams);
  mret (mkInst vParams []).

(** *** AddLocalToken *)

Definition AddLocalToken_accounts : account_table :=
  [("Payer", WritableSigner); ("TokenController", Signer); ("TokenMinter", Readonly);
   ("LocalToken", Writable); ("CustodyTokenAccount", Writable); ("LocalTokenMint", Readonly);
   ("TokenProgram", Readonly); ("SystemProgram", Readonly); ("EventAuthority", Readonly);
   ("Program", Readonly)]%string.
Definition NewAddLocalTokenInstruction (params : AddLocalTokenParams)
    (payer tokenController tokenMinter localToken custodyTokenAccount localTokenMint
     tokenProgram systemProgram eventAuthority program_ : PublicKey) :
    result (Inst AddLocalTokenParams) :=
  NewInstruction AddLocalToken_accounts params
    [payer; tokenController; tokenMinter; localToken; custodyTokenAccount; localTokenMint;
     tokenProgram; systemProgram; eventAuthority; program_].
Definition AddLocalToken_Validate
    : Inst AddLocalTokenParams → result unit := Validate AddLocalToken_accounts.
Definition AddLocalToken_MarshalWithEncoder (obj : Inst AddLocalTokenParams) : Encoder unit :=
  _ ← Encode (t_ptr t_AddLocalTokenParams) (Params obj);
  mret tt.
Definition AddLocalToken_UnmarshalWithDecoder : Decoder (Inst AddLocalTokenParams) :=
  vParams ← Decode (t_ptr t_AddLocalTokenParams);
  mret (mkInst vParams []).

(** *** RemoveLocalToken *)

Definition RemoveLocalToken_accounts : account_table :=
  [("Payee", WritableSigner); ("TokenController", Signer); ("TokenMinter", Readonly);
   ("LocalToken", Writable); ("CustodyTokenAccount", Writable); ("TokenProgram", Readonly);
   ("EventAuthority", Readonly); ("Program", Readonly)]%string.
Definition NewRemoveLocalTokenInstruction (params : RemoveLocalTokenParams)
    (payee tokenController tokenMinter localToken custodyTokenAccount tokenProgram
     eventAuthority program_ : PublicKey) :
    result (Inst RemoveLocalTokenParams) :=
  NewInstruction RemoveLocalToken_accounts params
    [payee; tokenController; tokenMinter; localToken; custodyTokenAccount; tokenProgram;
     eventAuthority; program_].
Definition RemoveLocalToken_Validate
    : Inst RemoveLocalTokenParams → result unit := Validate RemoveLocalToken_accounts.
Definition RemoveLocalToken_MarshalWithEncoder (obj : Inst RemoveLocalTokenParams) : Encoder unit :=
  _ ← Encode (t_ptr t_RemoveLocalTokenParams) (Params obj);
  mret tt.
Definition RemoveLocalToken_UnmarshalWithDecoder : Decoder (Inst RemoveLocalTokenParams) :=
  vParams ← Decode (t_ptr t_RemoveLocalTokenParams);
  mret (mkInst vParams []).

(** *** LinkTokenPair *)

Definition LinkTokenPair_accounts : account_table :=
  [("Payer", WritableSigner); ("TokenController", Signer); ("TokenMinter", Readonly);
   ("TokenPair", Writable); ("SystemProgram", Readonly); ("EventAuthority", Readonly);
   ("Program", Readonly)]%string.
Definition NewLinkTokenPairInstruction (params : LinkTokenPairParams)
    (payer tokenController tokenMinter tokenPair systemProgram eventAuthority program_ : PublicKey) :
    result (Inst LinkTokenPairParams) :=
  NewInstruction LinkTokenPair_accounts params
    [payer; tokenController; tokenMinter; tokenPair; systemProgram; eventAuthority; program_].
Definition LinkTokenPair_Validate
    : Inst LinkTokenPairParams → result unit := Validate LinkTokenPair_accounts.
Definition LinkTokenPair_MarshalWithEncoder (obj : Inst LinkTokenPairParams) : Encoder unit :=
  _ ← Encode (t_ptr t_LinkTokenPairParams) (Params obj);
  mret tt.
Definition LinkTokenPair_UnmarshalWithDecoder : Decoder (Inst LinkTokenPairParams) :=
  vParams ← Decode (t_ptr t_LinkTokenPairParams);
  mret (mkInst vParams []).

(** *** UnlinkTokenPair *)

Definition UnlinkTokenPair_accounts : account_table :=
  [("Payee", WritableSigner); ("TokenController", Signer); ("TokenMinter", Readonly);
   ("TokenPair", Writable); ("EventAuthority", Readonly); ("Program", Readonly)]%string.
Definition NewUnlinkTokenPairInstruction (params : UninkTokenPairParams)
    (payee tokenController tokenMinter tokenPair eventAuthority program_ : PublicKey) :
    result (Inst UninkTokenPairParams) :=
  NewInstruction UnlinkTokenPair_accounts params
    [payee; tokenController; tokenMinter; tokenPair; eventAuthority; program_].
Definition UnlinkTokenPair_Validate
    : Inst UninkTokenPairParams → result unit := Validate UnlinkTokenPair_accounts.
Definition UnlinkTokenPair_MarshalWithEncoder (obj : Inst UninkTokenPairParams) : Encoder unit :=
  _ ← Encode (t_ptr t_UninkTokenPairParams) (Params obj);
  mret tt.
Definition UnlinkTokenPair_UnmarshalWithDecoder : Decoder (Inst UninkTokenPairParams) :=
  vParams ← Decode (t_ptr t_UninkTokenPairParams);
  mret (mkInst vParams []).

(** *** BurnTokenCustody *)

Definition BurnTokenCustody_accounts : account_table :=
  [("Payee", WritableSigner); ("TokenController", Signer); ("TokenMinter", Readonly);
   ("LocalToken", Readonly); ("CustodyTokenAccount", Writable); ("CustodyTokenMint", Writable);
   ("TokenProgram", Readonly); ("EventAuthority", Readonly); ("Program", Readonly)]%string.
Definition NewBurnTokenCustodyInstruction (params : BurnTokenCustodyParams)
    (payee tokenController tokenMinter localToken custodyTokenAccount custodyTokenMint
     tokenProgram eventAuthority program_ : PublicKey) :
    result (Inst BurnTokenCustodyParams) :=
  NewInstruction BurnTokenCustody_accounts params
    [payee; tokenController; tokenMinter; localToken; custodyTokenAccount; custodyTokenMint;
     tokenProgram; eventAuthority; program_].
Definition BurnTokenCustody_Validate
    : Inst BurnTokenCustodyParams → result unit := Validate BurnTokenCustody_accounts.
Definition BurnTokenCustody_MarshalWithEncoder (obj : Inst BurnTokenCustodyParams) : Encoder unit :=
  _ ← Encode (t_ptr t_BurnTokenCustodyParams) (Params obj);
  mret tt.
Definition BurnTokenCustody_UnmarshalWithDecoder : Decoder (Inst BurnTokenCustodyParams) :=
  vParams ← Decode (t_ptr t_BurnTokenCustodyParams);
  mret (mkInst vParams []).

(** ** instructions.go *)

Definition Instruction_Initialize : list byte := byte_array [175; 175; 109; 31; 13; 152; 155; 237].
Definition Instruction_TransferOwnership
    : list byte := byte_array [65; 177; 215; 73; 53; 45; 99; 47].
Definition Instruction_AcceptOwnership
    : list byte := byte_array [172; 23; 43; 13; 238; 213; 85; 150].
Definition Instruction_AddRemoteTokenMessenger
    : list byte := byte_array [12; 149; 172; 165; 111; 202; 24; 33].
Definition Instruction_RemoveRemoteTokenMessenger
    : list byte := byte_array [65; 114; 66; 85; 169; 98; 177; 146].
Definition Instruction_DepositForBurn
    : list byte := byte_array [215; 60; 61; 46; 114; 55; 128; 176].
Definition Instruction_DepositForBurnWithCaller
    : list byte := byte_array [167; 222; 19; 114; 85; 21; 14; 118].
Definition Instruction_ReplaceDepositForBurn
    : list byte := byte_array [7; 27; 93; 132; 1; 80; 19; 163].
Definition Instruction_HandleReceiveMessage
    : list byte := byte_array [133; 102; 1; 180; 145; 11; 138; 180].
Definition Instruction_SetTokenController : list byte := byte_array [88; 6; 98; 10; 79; 59; 15; 24].
Definition Instruction_Pause : list byte := byte_array [211; 22; 221; 251; 74; 121; 193; 47].
Definition Instruction_Unpause : list byte := byte_array [169; 144; 4; 38; 10; 141; 188; 255].
Definition Instruction_UpdatePauser
    : list byte := byte_array [140; 171; 211; 132; 57; 201; 16; 254].
Definition Instruction_SetMaxBurnAmountPerMessage
    : list byte := byte_array [30; 128; 145; 240; 70; 237; 109; 207].
Definition Instruction_AddLocalToken
    : list byte := byte_array [213; 199; 205; 18; 98; 124; 73; 198].
Definition Instruction_RemoveLocalToken
    : list byte := byte_array [27; 43; 66; 170; 188; 44; 109; 97].
Definition Instruction_LinkTokenPair : list byte := byte_array [68; 162; 24; 104; 125; 46; 130; 12].
Definition Instruction_UnlinkTokenPair
    : list byte := byte_array [52; 198; 100; 114; 104; 174; 85; 58].
Definition Instruction_BurnTokenCustody
    : list byte := byte_array [233; 136; 180; 175; 112; 41; 62; 71].

(** What [inst.Impl] holds: one of the instruction structs. *)
Inductive InstructionImpl :=
  | Initialize (inst : Inst InitializeParams)
  | TransferOwnership (inst : Inst TransferOwnershipParams)
  | AcceptOwnership (inst : Inst AcceptOwnershipParams)
  | AddRemoteTokenMessenger (inst : Inst AddRemoteTokenMessengerParams)
  | RemoveRemoteTokenMessenger (inst : Inst RemoveRemoteTokenMessengerParams)
  | DepositForBurn (inst : Inst DepositForBurnParams)
  | DepositForBurnWithCaller (inst : Inst DepositForBurnWithCallerParams)
  | ReplaceDepositForBurn (inst : Inst ReplaceDepositForBurnParams)
  | HandleReceiveMessage (inst : Inst HandleReceiveMessageParams)
  | SetTokenController (inst : Inst SetTokenControllerParams)
  | Pause (inst : Inst PauseParams)
  | Unpause (inst : Inst UnpauseParams)
  | UpdatePauser (inst : Inst UpdatePauserParams)
  | SetMaxBurnAmountPerMessage (inst : Inst SetMaxBurnAmountPerMessageParams)
  | AddLocalToken (inst : Inst AddLocalTokenParams)
  | RemoveLocalToken (inst : Inst RemoveLocalTokenParams)
  | LinkTokenPair (inst : Inst LinkTokenPairParams)
  | UnlinkTokenPair (inst : Inst UninkTokenPairParams)
  | BurnTokenCustody (inst : Inst BurnTokenCustodyParams).

(** [Build] and [ValidateAndBuild] of the instruction files. *)
Definition Initialize_Build (inst : Inst InitializeParams) : Instruction InstructionImpl :=
  mkInstruction Instruction_Initialize (Initialize inst).
Definition Initialize_ValidateAndBuild (inst : Inst InitializeParams)
    : result (Instruction InstructionImpl) :=
  rbind (Initialize_Validate inst) (λ _, Ok (Initialize_Build inst)).
Definition TransferOwnership_Build (inst : Inst TransferOwnershipParams)
    : Instruction InstructionImpl :=
  mkInstruction Instruction_TransferOwnership (TransferOwnership inst).
Definition TransferOwnership_ValidateAndBuild (inst : Inst TransferOwnershipParams)
    : result (Instruction InstructionImpl) :=
  rbind (TransferOwnership_Validate inst) (λ _, Ok (TransferOwnership_Build inst)).
Definition AcceptOwnership_Build (inst : Inst AcceptOwnershipParams)
    : Instruction InstructionImpl :=
  mkInstruction Instruction_AcceptOwnership (AcceptOwnership inst).
Definition AcceptOwnership_ValidateAndBuild (inst : Inst AcceptOwnershipParams)
    : result (Instruction InstructionImpl) :=
  rbind (AcceptOwnership_Validate inst) (λ _, Ok (AcceptOwnership_Build inst)).
Definition AddRemoteTokenMessenger_Build (inst : Inst AddRemoteTokenMessengerParams)
    : Instruction InstructionImpl :=
  mkInstruction Instruction_AddRemoteTokenMessenger (AddRemoteTokenMessenger inst).
Definition AddRemoteTokenMessenger_ValidateAndBuild (inst : Inst AddRemoteTokenMessengerParams)
    : result (Instruction InstructionImpl) :=
  rbind (AddRemoteTokenMessenger_Validate inst) (λ _, Ok (AddRemoteTokenMessenger_Build inst)).
Definition RemoveRemoteTokenMessenger_Build (inst : Inst RemoveRemoteTokenMessengerParams)
    : Instruction InstructionImpl :=
  mkInstruction Instruction_RemoveRemoteTokenMessenger (RemoveRemoteTokenMessenger inst).
Definition RemoveRemoteTokenMessenger_ValidateAndBuild (inst : Inst RemoveRemoteTokenMessengerParams)
    : result (Instruction InstructionImpl) :=
  rbind (RemoveRemoteTokenMessenger_Validate inst) (λ _, Ok (RemoveRemoteTokenMessenger_Build inst)).
Definition DepositForBurn_Build (inst : Inst DepositForBurnParams) : Instruction InstructionImpl :=
  mkInstruction Instruction_DepositForBurn (DepositForBurn inst).
Definition DepositForBurn_ValidateAndBuild (inst : Inst DepositForBurnParams)
    : result (Instruction InstructionImpl) :=
  rbind (DepositForBurn_Validate inst) (λ _, Ok (DepositForBurn_Build inst)).
Definition DepositForBurnWithCaller_Build (inst : Inst DepositForBurnWithCallerParams)
    : Instruction InstructionImpl :=
  mkInstruction Instruction_DepositForBurnWithCaller (DepositForBurnWithCaller inst).
Definition DepositForBurnWithCaller_ValidateAndBuild (inst : Inst DepositForBurnWithCallerParams)
    : result (Instruction InstructionImpl) :=
  rbind (DepositForBurnWithCaller_Validate inst) (λ _, Ok (DepositForBurnWithCaller_Build inst)).
Definition ReplaceDepositForBurn_Build (inst : Inst ReplaceDepositForBurnParams)
    : Instruction InstructionImpl :=
  mkInstruction Instruction_ReplaceDepositForBurn (ReplaceDepositForBurn inst).
Definition ReplaceDepositForBurn_ValidateAndBuild (inst : Inst ReplaceDepositForBurnParams)
    : result (Instruction InstructionImpl) :=
  rbind (ReplaceDepositForBurn_Validate inst) (λ _, Ok (ReplaceDepositForBurn_Build inst)).
Definition HandleReceiveMessage_Build (inst : Inst HandleReceiveMessageParams)
    : Instruction InstructionImpl :=
  mkInstruction Instruction_HandleReceiveMessage (HandleReceiveMessage inst).
Definition HandleReceiveMessage_ValidateAndBuild (inst : Inst HandleReceiveMessageParams)
    : result (Instruction InstructionImpl) :=
  rbind (HandleReceiveMessage_Validate inst) (λ _, Ok (HandleReceiveMessage_Build inst)).
Definition SetTokenController_Build (inst : Inst SetTokenControllerParams)
    : Instruction InstructionImpl :=
  mkInstruction Instruction_SetTokenController (SetTokenController inst).
Definition SetTokenController_ValidateAndBuild (inst : Inst SetTokenControllerParams)
    : result (Instruction InstructionImpl) :=
  rbind (SetTokenController_Validate inst) (λ _, Ok (SetTokenController_Build inst)).
Definition Pause_Build (inst : Inst PauseParams) : Instruction InstructionImpl :=
  mkInstruction Instruction_Pause (Pause inst).
Definition Pause_ValidateAndBuild (inst : Inst PauseParams)
    : result (Instruction InstructionImpl) :=
  rbind (Pause_Validate inst) (λ _, Ok (Pause_Build inst)).
Definition Unpause_Build (inst : Inst UnpauseParams) : Instruction InstructionImpl :=
  mkInstruction Instruction_Unpause (Unpause inst).
Definition Unpause_ValidateAndBuild (inst : Inst UnpauseParams)
    : result (Instruction InstructionImpl) :=
  rbind (Unpause_Validate inst) (λ _, Ok (Unpause_Build inst)).
Definition UpdatePauser_Build (inst : Inst UpdatePauserParams) : Instruction InstructionImpl :=
  mkInstruction Instruction_UpdatePauser (UpdatePauser inst).
Definition UpdatePauser_ValidateAndBuild (inst : Inst UpdatePauserParams)
    : result (Instruction InstructionImpl) :=
  rbind (UpdatePauser_Validate inst) (λ _, Ok (UpdatePauser_Build inst)).
Definition SetMaxBurnAmountPerMessage_Build (inst : Inst SetMaxBurnAmountPerMessageParams)
    : Instruction InstructionImpl :=
  mkInstruction Instruction_SetMaxBurnAmountPerMessage (SetMaxBurnAmountPerMessage inst).
Definition SetMaxBurnAmountPerMessage_ValidateAndBuild (inst : Inst SetMaxBurnAmountPerMessageParams)
    : result (Instruction InstructionImpl) :=
  rbind (SetMaxBurnAmountPerMessage_Validate inst) (λ _, Ok (SetMaxBurnAmountPerMessage_Build inst)).
Definition AddLocalToken_Build (inst : Inst AddLocalTokenParams) : Instruction InstructionImpl :=
  mkInstruction Instruction_AddLocalToken (AddLocalToken inst).
Definition AddLocalToken_ValidateAndBuild (inst : Inst AddLocalTokenParams)
    : result (Instruction InstructionImpl) :=
  rbind (AddLocalToken_Validate inst) (λ _, Ok (AddLocalToken_Build inst)).
Definition RemoveLocalToken_Build (inst : Inst RemoveLocalTokenParams)
    : Instruction InstructionImpl :=
  mkInstruction Instruction_RemoveLocalToken (RemoveLocalToken inst).
Definition RemoveLocalToken_ValidateAndBuild (inst : Inst RemoveLocalTokenParams)
    : result (Instruction InstructionImpl) :=
  rbind (RemoveLocalToken_Validate inst) (λ _, Ok (RemoveLocalToken_Build inst)).
Definition LinkTokenPair_Build (inst : Inst LinkTokenPairParams) : Instruction InstructionImpl :=
  mkInstruction Instruction_LinkTokenPair (LinkTokenPair inst).
Definition LinkTokenPair_ValidateAndBuild (inst : Inst LinkTokenPairParams)
    : result (Instruction InstructionImpl) :=
  rbind (LinkTokenPair_Validate inst) (λ _, Ok (LinkTokenPair_Build inst)).
Definition UnlinkTokenPair_Build (inst : Inst UninkTokenPairParams) : Instruction InstructionImpl :=
  mkInstruction Instruction_UnlinkTokenPair (UnlinkTokenPair inst).
Definition UnlinkTokenPair_ValidateAndBuild (inst : Inst UninkTokenPairParams)
    : result (Instruction InstructionImpl) :=
  rbind (UnlinkTokenPair_Validate inst) (λ _, Ok (UnlinkTokenPair_Build inst)).
Definition BurnTokenCustody_Build (inst : Inst BurnTokenCustodyParams)
    : Instruction InstructionImpl :=
  mkInstruction Instruction_BurnTokenCustody (BurnTokenCustody inst).
Definition BurnTokenCustody_ValidateAndBuild (inst : Inst BurnTokenCustodyParams)
    : result (Instruction InstructionImpl) :=
  rbind (BurnTokenCustody_Validate inst) (λ _, Ok (BurnTokenCustody_Build inst)).

Definition InstructionIDToName (id : list byte) : string :=
  (if bool_decide (id = Instruction_Initialize) then "Initialize" else
   if bool_decide (id = Instruction_TransferOwnership) then "TransferOwnership" else
   if bool_decide (id = Instruction_AcceptOwnership) then "AcceptOwnership" else
   if bool_decide (id = Instruction_AddRemoteTokenMessenger) then "AddRemoteTokenMessenger" else
   if bool_decide (id = Instruction_RemoveRemoteTokenMessenger) then "RemoveRemoteTokenMessenger" else
   if bool_decide (id = Instruction_DepositForBurn) then "DepositForBurn" else
   if bool_decide (id = Instruction_DepositForBurnWithCaller) then "DepositForBurnWithCaller" else
   if bool_decide (id = Instruction_ReplaceDepositForBurn) then "ReplaceDepositForBurn" else
   if bool_decide (id = Instruction_HandleReceiveMessage) then "HandleReceiveMessage" else
   if bool_decide (id = Instruction_SetTokenController) then "SetTokenController" else
   if bool_decide (id = Instruction_Pause) then "Pause" else
   if bool_decide (id = Instruction_Unpause) then "Unpause" else
   if bool_decide (id = Instruction_UpdatePauser) then "UpdatePauser" else
   if bool_decide (id = Instruction_SetMaxBurnAmountPerMessage) then "SetMaxBurnAmountPerMessage" else
   if bool_decide (id = Instruction_AddLocalToken) then "AddLocalToken" else
   if bool_decide (id = Instruction_RemoveLocalToken) then "RemoveLocalToken" else
   if bool_decide (id = Instruction_LinkTokenPair) then "LinkTokenPair" else
   if bool_decide (id = Instruction_UnlinkTokenPair) then "UnlinkTokenPair" else
   if bool_decide (id = Instruction_BurnTokenCustody) then "BurnTokenCustody" else "")%string.

Definition tmm_InstructionImplDef : list (string * Decoder InstructionImpl) :=
  [("initialize"%string, variant_decoder Initialize Initialize_UnmarshalWithDecoder);
   ("transfer_ownership"%string,
      variant_decoder TransferOwnership TransferOwnership_UnmarshalWithDecoder);
   ("accept_ownership"%string,
      variant_decoder AcceptOwnership AcceptOwnership_UnmarshalWithDecoder);
   ("add_remote_token_messenger"%string,
      variant_decoder AddRemoteTokenMessenger AddRemoteTokenMessenger_UnmarshalWithDecoder);
   ("remove_remote_token_messenger"%string,
      variant_decoder RemoveRemoteTokenMessenger RemoveRemoteTokenMessenger_UnmarshalWithDecoder);
   ("deposit_for_burn"%string, variant_decoder DepositForBurn DepositForBurn_UnmarshalWithDecoder);
   ("deposit_for_burn_with_caller"%string,
      variant_decoder DepositForBurnWithCaller DepositForBurnWithCaller_UnmarshalWithDecoder);
   ("replace_deposit_for_burn"%string,
      variant_decoder ReplaceDepositForBurn ReplaceDepositForBurn_UnmarshalWithDecoder);
   ("handle_receive_message"%string,
      variant_decoder HandleReceiveMessage HandleReceiveMessage_UnmarshalWithDecoder);
   ("set_token_controller"%string,
      variant_decoder SetTokenController SetTokenController_UnmarshalWithDecoder);
   ("pause"%string, variant_decoder Pause Pause_UnmarshalWithDecoder);
   ("unpause"%string, variant_decoder Unpause Unpause_UnmarshalWithDecoder);
   ("update_pauser"%string, variant_decoder UpdatePauser UpdatePauser_UnmarshalWithDecoder);
   ("set_max_burn_amount_per_message"%string,
      variant_decoder SetMaxBurnAmountPerMessage SetMaxBurnAmountPerMessage_UnmarshalWithDecoder);
   ("add_local_token"%string, variant_decoder AddLocalToken AddLocalToken_UnmarshalWithDecoder);
   ("remove_local_token"%string,
      variant_decoder RemoveLocalToken RemoveLocalToken_UnmarshalWithDecoder);
   ("link_token_pair"%string, variant_decoder LinkTokenPair LinkTokenPair_UnmarshalWithDecoder);
   ("unlink_token_pair"%string,
      variant_decoder UnlinkTokenPair UnlinkTokenPair_UnmarshalWithDecoder);
   ("burn_token_custody"%string,
      variant_decoder BurnTokenCustody BurnTokenCustody_UnmarshalWithDecoder)].

#[export] Instance tmm_program : AnchorProgram InstructionImpl := {|
  impl_MarshalWithEncoder i := match i with
    | Initialize inst => Initialize_MarshalWithEncoder inst
    | TransferOwnership inst => TransferOwnership_MarshalWithEncoder inst
    | AcceptOwnership inst => AcceptOwnership_MarshalWithEncoder inst
    | AddRemoteTokenMessenger inst => AddRemoteTokenMessenger_MarshalWithEncoder inst
    | RemoveRemoteTokenMessenger inst => RemoveRemoteTokenMessenger_MarshalWithEncoder inst
    | DepositForBurn inst => DepositForBurn_MarshalWithEncoder inst
    | DepositForBurnWithCaller inst => DepositForBurnWithCaller_MarshalWithEncoder inst
    | ReplaceDepositForBurn inst => ReplaceDepositForBurn_MarshalWithEncoder inst
    | HandleReceiveMessage inst => HandleReceiveMessage_MarshalWithEncoder inst
    | SetTokenController inst => SetTokenController_MarshalWithEncoder inst
    | Pause inst => Pause_MarshalWithEncoder inst
    | Unpause inst => Unpause_MarshalWithEncoder inst
    | UpdatePauser inst => UpdatePauser_MarshalWithEncoder inst
    | SetMaxBurnAmountPerMessage inst => SetMaxBurnAmountPerMessage_MarshalWithEncoder inst
    | AddLocalToken inst => AddLocalToken_MarshalWithEncoder inst
    | RemoveLocalToken inst => RemoveLocalToken_MarshalWithEncoder inst
    | LinkTokenPair inst => LinkTokenPair_MarshalWithEncoder inst
    | UnlinkTokenPair inst => UnlinkTokenPair_MarshalWithEncoder inst
    | BurnTokenCustody inst => BurnTokenCustody_MarshalWithEncoder inst
    end;
  impl_accounts i := match i with
    | Initialize inst => AccountMetaSlice inst
    | TransferOwnership inst => AccountMetaSlice inst
    | AcceptOwnership inst => AccountMetaSlice inst
    | AddRemoteTokenMessenger inst => AccountMetaSlice inst
    | RemoveRemoteTokenMessenger inst => AccountMetaSlice inst
    | DepositForBurn inst => AccountMetaSlice inst
    | DepositForBurnWithCaller inst => AccountMetaSlice inst
    | ReplaceDepositForBurn inst => AccountMetaSlice inst
    | HandleReceiveMessage inst => AccountMetaSlice inst
    | SetTokenController inst => AccountMetaSlice inst
    | Pause inst => AccountMetaSlice inst
    | Unpause inst => AccountMetaSlice inst
    | UpdatePauser inst => AccountMetaSlice inst
    | SetMaxBurnAmountPerMessage inst => AccountMetaSlice inst
    | AddLocalToken inst => AccountMetaSlice inst
    | RemoveLocalToken inst => AccountMetaSlice inst
    | LinkTokenPair inst => AccountMetaSlice inst
    | UnlinkTokenPair inst => AccountMetaSlice inst
    | BurnTokenCustody inst => AccountMetaSlice inst
    end;
  impl_with_accounts slice i := match i with
    | Initialize inst => Initialize (mkInst (Params inst) slice)
    | TransferOwnership inst => TransferOwnership (mkInst (Params inst) slice)
    | AcceptOwnership inst => AcceptOwnership (mkInst (Params inst) slice)
    | AddRemoteTokenMessenger inst => AddRemoteTokenMessenger (mkInst (Params inst) slice)
    | RemoveRemoteTokenMessenger inst => RemoveRemoteTokenMessenger (mkInst (Params inst) slice)
    | DepositForBurn inst => DepositForBurn (mkInst (Params inst) slice)
    | DepositForBurnWithCaller inst => DepositForBurnWithCaller (mkInst (Params inst) slice)
    | ReplaceDepositForBurn inst => ReplaceDepositForBurn (mkInst (Params inst) slice)
    | HandleReceiveMessage inst => HandleReceiveMessage (mkInst (Params inst) slice)
    | SetTokenController inst => SetTokenController (mkInst (Params inst) slice)
    | Pause inst => Pause (mkInst (Params inst) slice)
    | Unpause inst => Unpause (mkInst (Params inst) slice)
    | UpdatePauser inst => UpdatePauser (mkInst (Params inst) slice)
    | SetMaxBurnAmountPerMessage inst => SetMaxBurnAmountPerMessage (mkInst (Params inst) slice)
    | AddLocalToken inst => AddLocalToken (mkInst (Params inst) slice)
    | RemoveLocalToken inst => RemoveLocalToken (mkInst (Params inst) slice)
    | LinkTokenPair inst => LinkTokenPair (mkInst (Params inst) slice)
    | UnlinkTokenPair inst => UnlinkTokenPair (mkInst (Params inst) slice)
    | BurnTokenCustody inst => BurnTokenCustody (mkInst (Params inst) slice)
    end;
  InstructionImplDef := tmm_InstructionImplDef;
|}.

(** ** Lemmas: the instructions *)

Definition tmm_Validate (i : InstructionImpl) : result unit :=
  match i with
  | Initialize inst => Initialize_Validate inst
  | TransferOwnership inst => TransferOwnership_Validate inst
  | AcceptOwnership inst => AcceptOwnership_Validate inst
  | AddRemoteTokenMessenger inst => AddRemoteTokenMessenger_Validate inst
  | RemoveRemoteTokenMessenger inst => RemoveRemoteTokenMessenger_Validate inst
  | DepositForBurn inst => DepositForBurn_Validate inst
  | DepositForBurnWithCaller inst => DepositForBurnWithCaller_Validate inst
  | ReplaceDepositForBurn inst => ReplaceDepositForBurn_Validate inst
  | HandleReceiveMessage inst => HandleReceiveMessage_Validate inst
  | SetTokenController inst => SetTokenController_Validate inst
  | Pause inst => Pause_Validate inst
  | Unpause inst => Unpause_Validate inst
  | UpdatePauser inst => UpdatePauser_Validate inst
  | SetMaxBurnAmountPerMessage inst => SetMaxBurnAmountPerMessage_Validate inst
  | AddLocalToken inst => AddLocalToken_Validate inst
  | RemoveLocalToken inst => RemoveLocalToken_Validate inst
  | LinkTokenPair inst => LinkTokenPair_Validate inst
  | UnlinkTokenPair inst => UnlinkTokenPair_Validate inst
  | BurnTokenCustody inst => BurnTokenCustody_Validate inst
  end.

Definition tmm_Build (i : InstructionImpl) : Instruction InstructionImpl :=
  match i with
  | Initialize inst => Initialize_Build inst
  | TransferOwnership inst => TransferOwnership_Build inst
  | AcceptOwnership inst => AcceptOwnership_Build inst
  | AddRemoteTokenMessenger inst => AddRemoteTokenMessenger_Build inst
  | RemoveRemoteTokenMessenger inst => RemoveRemoteTokenMessenger_Build inst
  | DepositForBurn inst => DepositForBurn_Build inst
  | DepositForBurnWithCaller inst => DepositForBurnWithCaller_Build inst
  | ReplaceDepositForBurn inst => ReplaceDepositForBurn_Build inst
  | HandleReceiveMessage inst => HandleReceiveMessage_Build inst
  | SetTokenController inst => SetTokenController_Build inst
  | Pause inst => Pause_Build inst
  | Unpause inst => Unpause_Build inst
  | UpdatePauser inst => UpdatePauser_Build inst
  | SetMaxBurnAmountPerMessage inst => SetMaxBurnAmountPerMessage_Build inst
  | AddLocalToken inst => AddLocalToken_Build inst
  | RemoveLocalToken inst => RemoveLocalToken_Build inst
  | LinkTokenPair inst => LinkTokenPair_Build inst
  | UnlinkTokenPair inst => UnlinkTokenPair_Build inst
  | BurnTokenCustody inst => BurnTokenCustody_Build inst
  end.

(** The number of accounts an instruction has, and the name it has on chain. *)
Definition tmm_slots (i : InstructionImpl) : nat :=
  match i with
  | Initialize _ => length Initialize_accounts
  | TransferOwnership _ => length TransferOwnership_accounts
  | AcceptOwnership _ => length AcceptOwnership_accounts
  | AddRemoteTokenMessenger _ => length AddRemoteTokenMessenger_accounts
  | RemoveRemoteTokenMessenger _ => length RemoveRemoteTokenMessenger_accounts
  | DepositForBurn _ => length DepositForBurn_accounts
  | DepositForBurnWithCaller _ => length DepositForBurnWithCaller_accounts
  | ReplaceDepositForBurn _ => length ReplaceDepositForBurn_accounts
  | HandleReceiveMessage _ => length HandleReceiveMessage_accounts
  | SetTokenController _ => length SetTokenController_accounts
  | Pause _ => length Pause_accounts
  | Unpause _ => length Unpause_accounts
  | UpdatePauser _ => length UpdatePauser_accounts
  | SetMaxBurnAmountPerMessage _ => length SetMaxBurnAmountPerMessage_accounts
  | AddLocalToken _ => length AddLocalToken_accounts
  | RemoveLocalToken _ => length RemoveLocalToken_accounts
  | LinkTokenPair _ => length LinkTokenPair_accounts
  | UnlinkTokenPair _ => length UnlinkTokenPair_accounts
  | BurnTokenCustody _ => length BurnTokenCustody_accounts
  end.

Definition tmm_name (i : InstructionImpl) : string :=
  match i with
  | Initialize _ => "initialize"
  | TransferOwnership _ => "transfer_ownership"
  | AcceptOwnership _ => "accept_ownership"
  | AddRemoteTokenMessenger _ => "add_remote_token_messenger"
  | RemoveRemoteTokenMessenger _ => "remove_remote_token_messenger"
  | DepositForBurn _ => "deposit_for_burn"
  | DepositForBurnWithCaller _ => "deposit_for_burn_with_caller"
  | ReplaceDepositForBurn _ => "replace_deposit_for_burn"
  | HandleReceiveMessage _ => "handle_receive_message"
  | SetTokenController _ => "set_token_controller"
  | Pause _ => "pause"
  | Unpause _ => "unpause"
  | UpdatePauser _ => "update_pauser"
  | SetMaxBurnAmountPerMessage _ => "set_max_burn_amount_per_message"
  | AddLocalToken _ => "add_local_token"
  | RemoveLocalToken _ => "remove_local_token"
  | LinkTokenPair _ => "link_token_pair"
  | UnlinkTokenPair _ => "unlink_token_pair"
  | BurnTokenCustody _ => "burn_token_custody"
  end.

(** The parameters are in the range of their Go types. *)
Definition tmm_fits (i : InstructionImpl) : Prop :=
  match i with
  | Initialize inst => from_option InitializeParams_fits True (Params inst)
  | AddRemoteTokenMessenger inst => from_option AddRemoteTokenMessengerParams_fits True (Params inst)
  | DepositForBurn inst => from_option DepositForBurnParams_fits True (Params inst)
  | DepositForBurnWithCaller inst => from_option DepositForBurnWithCallerParams_fits True (Params inst)
  | ReplaceDepositForBurn inst => from_option ReplaceDepositForBurnParams_fits True (Params inst)
  | HandleReceiveMessage inst => from_option HandleReceiveMessageParams_fits True (Params inst)
  | SetMaxBurnAmountPerMessage inst => from_option SetMaxBurnAmountPerMessageParams_fits True (Params inst)
  | LinkTokenPair inst => from_option LinkTokenPairParams_fits True (Params inst)
  | BurnTokenCustody inst => from_option BurnTokenCustodyParams_fits True (Params inst)
  | _ => True
  end.

Lemma tmm_type_ids :
  (λ v, sighash "global" v.1) <$> InstructionImplDef =
    [Instruction_Initialize; Instruction_TransferOwnership; Instruction_AcceptOwnership;
     Instruction_AddRemoteTokenMessenger; Instruction_RemoveRemoteTokenMessenger;
     Instruction_DepositForBurn; Instruction_DepositForBurnWithCaller;
     Instruction_ReplaceDepositForBurn; Instruction_HandleReceiveMessage;
     Instruction_SetTokenController; Instruction_Pause; Instruction_Unpause;
     Instruction_UpdatePauser; Instruction_SetMaxBurnAmountPerMessage; Instruction_AddLocalToken;
     Instruction_RemoveLocalToken; Instruction_LinkTokenPair; Instruction_UnlinkTokenPair;
     Instruction_BurnTokenCustody].
Proof. vm_compute. reflexivity. Qed.

Lemma tmm_distinct : distinct_variants.
Proof.
  unfold distinct_variants. rewrite tmm_type_ids. apply (bool_decide_unpack _). vm_compute. exact I.
Qed.

Lemma tmm_valid i :
  tmm_Validate i = Ok tt → slots_set (tmm_slots i) (impl_accounts i).
Proof. by destruct i; intros [_ ?]%Validate_ok. Qed.

Lemma tmm_variant `{!AgBinaryLaws} i :
  tmm_Validate i = Ok tt → tmm_fits i → variant_of (tmm_name i) (tmm_Build i).
Proof.
  destruct i as [[p slice]|[p slice]|[p slice]|[p slice]|[p slice]|[p slice]|[p slice]|[p slice]|
    [p slice]|[p slice]|[p slice]|[p slice]|[p slice]|[p slice]|[p slice]|[p slice]|[p slice]|
    [p slice]|[p slice]]; intros [[v Hv] _]%Validate_ok Hfits; simpl in Hv; subst p;
    simpl in Hfits.
  all: eexists; split_and!; [in_variants|vm_compute; reflexivity|apply instruction_codec].
  all: first [by apply tmm_AcceptOwnershipParams_roundtrips
    | by apply tmm_AddLocalTokenParams_roundtrips
    | by apply tmm_AddRemoteTokenMessengerParams_roundtrips
    | by apply tmm_BurnTokenCustodyParams_roundtrips
    | by apply tmm_DepositForBurnParams_roundtrips
    | by apply tmm_DepositForBurnWithCallerParams_roundtrips
    | by apply tmm_HandleReceiveMessageParams_roundtrips
    | by apply tmm_InitializeParams_roundtrips
    | by apply tmm_LinkTokenPairParams_roundtrips
    | by apply tmm_PauseParams_roundtrips
    | by apply tmm_RemoveLocalTokenParams_roundtrips
    | by apply tmm_RemoveRemoteTokenMessengerParams_roundtrips
    | by apply tmm_ReplaceDepositForBurnParams_roundtrips
    | by apply tmm_SetMaxBurnAmountPerMessageParams_roundtrips
    | by apply tmm_SetTokenControllerParams_roundtrips
    | by apply tmm_TransferOwnershipParams_roundtrips
    | by apply tmm_UninkTokenPairParams_roundtrips
    | by apply tmm_UnpauseParams_roundtrips
    | by apply tmm_UpdatePauserParams_roundtrips ].
Qed.

(** ** Properties *)

(** The identifiers in the source are Anchor's: each [Instruction_...] is the hash of
    its variant's name, each account discriminator the hash of the account's name, and
    [InstructionIDToName] names every instruction. *)
Theorem tmm_identifiers :
  (λ v, sighash "global" v.1) <$> InstructionImplDef =
    [Instruction_Initialize; Instruction_TransferOwnership; Instruction_AcceptOwnership;
     Instruction_AddRemoteTokenMessenger; Instruction_RemoveRemoteTokenMessenger;
     Instruction_DepositForBurn; Instruction_DepositForBurnWithCaller;
     Instruction_ReplaceDepositForBurn; Instruction_HandleReceiveMessage;
     Instruction_SetTokenController; Instruction_Pause; Instruction_Unpause;
     Instruction_UpdatePauser; Instruction_SetMaxBurnAmountPerMessage; Instruction_AddLocalToken;
     Instruction_RemoveLocalToken; Instruction_LinkTokenPair; Instruction_UnlinkTokenPair;
     Instruction_BurnTokenCustody] ∧
  [TokenMessengerDiscriminator; RemoteTokenMessengerDiscriminator; TokenMinterDiscriminator;
   TokenPairDiscriminator; LocalTokenDiscriminator] =
    sighash "account" <$> ["TokenMessenger"; "RemoteTokenMessenger"; "TokenMinter"; "TokenPair"; "LocalToken"]%string ∧
    InstructionIDToName <$> [Instruction_Initialize; Instruction_TransferOwnership;
     Instruction_AcceptOwnership;
     Instruction_AddRemoteTokenMessenger; Instruction_RemoveRemoteTokenMessenger;
     Instruction_DepositForBurn; Instruction_DepositForBurnWithCaller;
     Instruction_ReplaceDepositForBurn; Instruction_HandleReceiveMessage;
     Instruction_SetTokenController; Instruction_Pause; Instruction_Unpause;
     Instruction_UpdatePauser; Instruction_SetMaxBurnAmountPerMessage; Instruction_AddLocalToken;
     Instruction_RemoveLocalToken; Instruction_LinkTokenPair; Instruction_UnlinkTokenPair;
     Instruction_BurnTokenCustody] =
    ["Initialize"; "TransferOwnership"; "AcceptOwnership"; "AddRemoteTokenMessenger";
     "RemoveRemoteTokenMessenger"; "DepositForBurn"; "DepositForBurnWithCaller";
     "ReplaceDepositForBurn"; "HandleReceiveMessage"; "SetTokenController"; "Pause"; "Unpause";
     "UpdatePauser"; "SetMaxBurnAmountPerMessage"; "AddLocalToken"; "RemoveLocalToken";
     "LinkTokenPair"; "UnlinkTokenPair"; "BurnTokenCustody"]%string.
Proof. split_and!; [apply tmm_type_ids|vm_compute; reflexivity..]. Qed.

(** C37. An instruction that passes [Validate], with one account per slot and parameters in
    the range of their types, is encoded by [Data], and [DecodeInstruction] on that
    data and the accounts of the instruction returns the instruction itself. *)
Theorem tmm_instruction_roundtrip `{!AgBinaryLaws} `{!SolanaGoLaws} i :
  tmm_Validate i = Ok tt → tmm_fits i → length (impl_accounts i) = tmm_slots i →
  ∃ data, Data (tmm_Build i) = Ok data ∧
    DecodeInstruction (Accounts (tmm_Build i)) data = Ok (tmm_Build i).
Proof.
  intros Hvalid Hfits Hlen. eapply DecodeInstruction_self.
  - apply tmm_distinct.
  - by apply tmm_variant.
  - by intros [] l.
  - by destruct i as [[]|[]|[]|[]|[]|[]|[]|[]|[]|[]|[]|[]|[]|[]|[]|[]|[]|[]|[]].
  - apply tmm_valid in Hvalid. rewrite <-Hlen in Hvalid. by destruct i.
Qed.

(** The accounts' data: what an account's [MarshalWithEncoder] writes is read back, and
    the data of another account is refused. *)
Theorem tmm_account_data `{!AgBinaryLaws} :
  (∀ obj, TokenMessenger_fits obj → roundtrips t_TokenMessenger obj) ∧
  (∀ obj, RemoteTokenMessenger_fits obj → roundtrips t_RemoteTokenMessenger obj) ∧
  (∀ obj, TokenMinter_fits obj → roundtrips t_TokenMinter obj) ∧
  (∀ obj, TokenPair_fits obj → roundtrips t_TokenPair obj) ∧
  (∀ obj, LocalToken_fits obj → roundtrips t_LocalToken obj) ∧
  ∀ id rest, length id = 8%nat → id ≠ TokenMessengerDiscriminator →
    ∃ e, (Decode t_TokenMessenger (id ++ rest)).1 = Err e.
Proof.
  split_and!; [apply tmm_TokenMessenger_roundtrips|
    apply tmm_RemoteTokenMessenger_roundtrips|
    apply tmm_TokenMinter_roundtrips|
    apply tmm_TokenPair_roundtrips|
    apply tmm_LocalToken_roundtrips|].
  intros id rest Hlen Hne. simpl. unfold TokenMessenger_UnmarshalWithDecoder, mbind, M_bind.
  destruct (check_discriminator_other _ _ rest Hlen Hne) as [e ->]. by eexists.
Qed.
End token_messenger_minter.

(** ** Witnesses *)

#[local] Existing Instance borsh.
#[local] Existing Instance solana.
#[local] Existing Instance borsh_laws.
#[local] Existing Instance solana_laws.

Definition sample_key (n : Z) : PublicKey (AgBinary := borsh) := vec_of_bytes 32 (be_encode 32 n).

Definition sample_burn : Inst DepositForBurnParams :=
  match NewDepositForBurnInstruction (mkDepositForBurnParams 1000000 3 (sample_key 99))
          (sample_key 0) (sample_key 1) (sample_key 2) (sample_key 3) (sample_key 4) (sample_key 5)
          (sample_key 6) (sample_key 7) (sample_key 8) (sample_key 9) (sample_key 10)
          (sample_key 11) (sample_key 12) (sample_key 13) (sample_key 14) (sample_key 15)
          (sample_key 16) with
  | Ok inst => inst
  | _ => NewInstructionBuilder []
  end.

Lemma tmm_instruction_roundtrip_witness :
  ∃ data, Data (tmm_Build (DepositForBurn sample_burn)) = Ok data ∧
    DecodeInstruction (Accounts (tmm_Build (DepositForBurn sample_burn))) data =
      Ok (tmm_Build (DepositForBurn sample_burn)).
Proof.
  apply (tmm_instruction_roundtrip (DepositForBurn sample_burn)); [vm_compute; reflexivity| |reflexivity].
  simpl. unfold DepositForBurnParams_fits, uint. simpl. lia.
Defined.

(** The owner signs, the burned account is written, the program is only read. *)
Example burn_metas :
  (λ n, (λ m, (m.1.2, m.2)) <$> GetAccount n sample_burn) <$> [0; 3; 16]%nat =
    [Some (false, true); Some (true, false); Some (false, false)].
Proof. vm_compute. reflexivity. Qed.

(** A builder with an empty slot is refused, by the name of the account. *)
Example burn_without_owner :
  result_map (λ _, tt) (DepositForBurn_ValidateAndBuild
    (SetParams (mkDepositForBurnParams 1 1 (sample_key 0))
       (NewInstructionBuilder DepositForBurn_accounts))) =
  Err (ErrNew "accounts.Owner is not set").
Proof. vm_compute. reflexivity. Qed.
