(* ===== verification/Keccak.v ===== *)
(** * Keccak: the hash behind Ethereum's selectors and topics

    Keccak-256 as Ethereum uses it, as an executable function on bytes.  A contract's
    methods are selected by the first four bytes of the hash of their signature, its
    events by the whole hash; the constants the program and its bindings carry are
    compared with it in the files that model them. *)
From Stdlib Require Import Strings.Byte.
From S2P Require Import Prelude GoLib Sha256.

(** ** Lanes: 64-bit words, lane [(x, y)] at [x + 5 * y] *)

Definition ones : Z := 0xffffffffffffffff.
Definition lane (z : Z) : Z := Z.land z ones.
Definition rotl (n x : Z) : Z := Z.lor (lane (Z.shiftl x n)) (Z.shiftr x (64 - n)).
Definition at_ (a : list Z) (i : nat) : Z := nth i a 0.

(** [f x y] for all lanes, row by row. *)
Definition lanes (f : nat → nat → Z) : list Z :=
  mbind (λ y, (λ x, f x y) <$> seq 0 5) (seq 0 5).

(** ** The permutation *)

Definition theta (a : list Z) : list Z :=
  let c := (λ x, foldl Z.lxor 0 ((λ y, at_ a (x + 5 * y)) <$> seq 0 5)) <$> seq 0 5 in
  let d := (λ x, Z.lxor (at_ c ((x + 4) mod 5)) (rotl 1 (at_ c ((x + 1) mod 5)))) <$> seq 0 5 in
  lanes (λ x y, Z.lxor (at_ a (x + 5 * y)) (at_ d x)).

(** The rotation of each lane: the walk of [(x, y)] to [(y, 2x + 3y)] from [(1, 0)], with
    the triangular numbers. *)
Fixpoint offsets_from (n t : nat) (x y : nat) : list (nat * Z) :=
  match n with
  | O => []
  | S n' =>
      ((x + 5 * y)%nat, Z.of_nat ((t + 1) * (t + 2) / 2) mod 64)
        :: offsets_from n' (S t) y ((2 * x + 3 * y) mod 5)
  end.

Definition offsets : list Z :=
  Eval vm_compute in
    (λ i, default 0 (snd <$> List.find (λ p, (p.1 =? i)%nat) (offsets_from 24 0 1 0))) <$> seq 0 25.

(** Lane [(x, y)] comes from [(x + 3y, x)]. *)
Definition rho_pi (a : list Z) : list Z :=
  lanes (λ x y, let i := ((x + 3 * y) mod 5 + 5 * x)%nat in rotl (at_ offsets i) (at_ a i)).

Definition chi (a : list Z) : list Z :=
  lanes (λ x y,
    Z.lxor (at_ a (x + 5 * y))
      (Z.land (Z.lxor ones (at_ a ((x + 1) mod 5 + 5 * y)))
         (at_ a ((x + 2) mod 5 + 5 * y)))).

(** The round constants: bit [2 ^ j - 1] of constant [i] is the output at [7 i + j] of a
    shift register over x^8 + x^6 + x^5 + x^4 + 1. *)
Fixpoint lfsr (n : nat) (r : Z) : list bool :=
  match n with
  | O => []
  | S n' =>
      let r' := Z.shiftl r 1 in
      Z.testbit r 0 :: lfsr n' (if Z.testbit r' 8 then Z.lxor r' 0x171 else r')
  end.

Definition round_constants : list Z :=
  Eval vm_compute in
    let bits := lfsr 168 1 in
    (λ i, foldl (λ acc j, if nth (7 * i + j) bits false
                          then Z.lor acc (2 ^ (2 ^ Z.of_nat j - 1)) else acc) 0 (seq 0 7))
      <$> seq 0 24.

Definition iota (rc : Z) (a : list Z) : list Z :=
  match a with
  | l :: a' => Z.lxor l rc :: a'
  | [] => []
  end.

Definition keccak_f (a : list Z) : list Z :=
  foldl (λ a rc, iota rc (chi (rho_pi (theta a)))) a round_constants.

(** ** The sponge, with a rate of 136 bytes *)

Definition rate : nat := 136.

Definition keccak_padded (msg : list byte) : list byte :=
  let q := (rate - length msg mod rate)%nat in
  if (q =? 1)%nat then msg ++ [x81] else msg ++ [x01] ++ replicate (q - 2) x00 ++ [x80].

Definition le_lane (bs : list byte) : Z := be_decode (rev bs).
Definition lane_bytes (z : Z) : list byte := rev (be_encode 8 z).

Definition absorb (a : list Z) (block : list byte) : list Z :=
  let ls := le_lane <$> chunks 17 8 block in
  keccak_f (zip_with Z.lxor a (ls ++ replicate 8 0)).

Definition keccak256 (msg : list byte) : list byte :=
  let bs := keccak_padded msg in
  let a := foldl absorb (replicate 25 0) (chunks (length bs) rate bs) in
  take 32 (mbind lane_bytes (take 4 a)).

(** The identifier of a method and the topic of an event. *)
Definition selector (signature : string) : list byte := take 4 (keccak256 (string_bytes signature)).
Definition topic (signature : string) : list byte := keccak256 (string_bytes signature).

(** ** Known hashes *)

Example keccak_empty :
  hex_EncodeToString (keccak256 []) =
    "c5d2460186f7233c927e7db2dcc703c0e500b653ca82273b7bfad8045d85a470"%string.
Proof. vm_compute. reflexivity. Qed.

Example selector_transfer :
  hex_EncodeToString (selector "transfer(address,uint256)") = "a9059cbb"%string.
Proof. vm_compute. reflexivity. Qed.

(** A message of two blocks: the abstract of a 200-byte string of 'a'. *)
Example keccak_blocks :
  length (chunks (length (keccak_padded (replicate 200 x61))) rate (keccak_padded (replicate 200 x61)))
    = 2%nat ∧
  length (keccak256 (replicate 200 x61)) = 32%nat.
Proof. vm_compute. split; reflexivity. Qed.
