(* ===== verification/Abigen.v ===== *)
(** * Abigen: the runtime of the generated Ethereum bindings

    The files of shared/contracts are generated by abigen from the contracts' ABIs over
    go-ethereum's [bind.BoundContract].  A method of a binding packs its arguments, makes
    one call and converts the results; an event has an iterator over the logs of a
    filter, a loop that watches new logs, and a parser.  The text is the same for every
    method and event, so it is defined here once, over the name and the Go types in the
    text; [GatewayBinding], [UsdcBinding] and [HyperlaneBindings] instantiate it.

    [bind.BoundContract] is a parameter, a class with laws.  The channels of an iterator
    and of a watch are modelled with the goroutine that feeds them: a [select] may take
    any case that is ready, and the feeder may run at any moment. *)
From Stdlib Require Import Strings.Byte Eqdep_dec.
From S2P Require Import Prelude GoLib Sha256 Keccak.

(** ** Types *)

(** The Go types the bindings use. *)
Inductive gotype :=
  | GUint8 | GUint32 | GUint64 | GBigInt | GBool | GString | GBytes
  | GByteArray (n : nat)
  | GAddress
  | GSlice (t : gotype)
  | GArray (n : nat) (t : gotype)
  | GStruct (ts : list gotype).

Fixpoint go_val (t : gotype) : Type :=
  match t with
  | GUint8 | GUint32 | GUint64 | GBigInt => Z
  | GBool => bool
  | GString => string
  | GBytes | GByteArray _ | GAddress => list byte
  | GSlice t | GArray _ t => list (go_val t)
  | GStruct ts =>
      (fix fields ts : Type := match ts with [] => unit | t :: ts => (go_val t * fields ts)%type end) ts
  end.

(** Several results, or the fields of a struct. *)
Definition go_tuple (ts : list gotype) : Type := go_val (GStruct ts).

#[export] Instance gotype_eq_dec : EqDecision gotype.
Proof.
  refine (fix go (t t' : gotype) : {t = t'} + {t ≠ t'} := _).
  decide equality; solve [apply Nat.eq_dec | exact (List.list_eq_dec go ts ts0)].
Defined.

(** A value in an [interface{}]. *)
Definition dyn : Type := sigT go_val.
Definition to_dyn (t : gotype) (v : go_val t) : dyn := existT t v.

(** The types of an ABI, the Go type go-ethereum gives each, and its canonical name. *)
Inductive abi_type :=
  | AUint (bits : Z) | AAddress | ABool | AString | ABytes | AFixedBytes (n : nat)
  | ASlice (t : abi_type)
  | AArray (n : nat) (t : abi_type)
  | ATuple (ts : list abi_type).

Fixpoint go_type (t : abi_type) : gotype :=
  match t with
  | AUint bits => if bits =? 8 then GUint8 else if bits =? 32 then GUint32
                  else if bits =? 64 then GUint64 else GBigInt
  | AAddress => GAddress
  | ABool => GBool
  | AString => GString
  | ABytes => GBytes
  | AFixedBytes n => GByteArray n
  | ASlice t => GSlice (go_type t)
  | AArray n t => GArray n (go_type t)
  | ATuple ts => GStruct (go_type <$> ts)
  end.

Fixpoint type_name (t : abi_type) : string :=
  match t with
  | AUint bits => "uint" +:+ strconv_Itoa bits
  | AAddress => "address"
  | ABool => "bool"
  | AString => "string"
  | ABytes => "bytes"
  | AFixedBytes n => "bytes" +:+ strconv_Itoa (Z.of_nat n)
  | ASlice t => type_name t +:+ "[]"
  | AArray n t => type_name t +:+ "[" +:+ strconv_Itoa (Z.of_nat n) +:+ "]"
  | ATuple ts => "(" +:+ String.concat "," (type_name <$> ts) +:+ ")"
  end.

Definition signature (name : string) (inputs : list abi_type) : string :=
  name +:+ "(" +:+ String.concat "," (type_name <$> inputs) +:+ ")".

(** An entry of an ABI; [am_key] is its name among overloads ([dispatch0]). *)
Record abi_method := mkAbiMethod {
  am_key : string; am_name : string; am_inputs : list abi_type; am_outputs : list abi_type;
  am_view : bool;
}.
Record abi_event := mkAbiEvent { ae_name : string; ae_inputs : list (abi_type * bool) }.
Record contract_abi := mkAbi { abi_methods : list abi_method; abi_events : list abi_event }.

(** ** Bindings *)

(** What the text of a method says: the name it calls, the types of its arguments and
    of the results it converts. *)
Record method := mkMethod { m_key : string; m_args : list gotype; m_rets : list gotype }.

(** What the text of an event says: its name, the fields of its struct, and whether
    [Filter...] takes a rule for them. *)
Record event_binding := mkEvent { e_name : string; e_fields : list (gotype * bool) }.
Definition e_types (e : event_binding) : list gotype := fst <$> e_fields e.
Definition e_indexed (e : event_binding) : list gotype :=
  fst <$> List.filter snd (e_fields e).

(** [bind.BoundContract] of one deployed contract: its calls over some state. *)
Class BoundContract (St : Type) := {
  CallOpts : Type; TransactOpts : Type; FilterOpts : Type; WatchOpts : Type;
  Transaction : Type;
  Log : Type;
  Call : CallOpts → string → list dyn → M St (list dyn);
  Transact : TransactOpts → string → list dyn → M St Transaction;
  (** [contract.FilterLogs(opts, name, rules...)]: the logs the node returns, which a
      goroutine then feeds to the iterator. *)
  FilterLogs : FilterOpts → string → list (list dyn) → M St (list Log);
  (** [contract.WatchLogs(opts, name, rules...)]: the logs its subscription delivers. *)
  WatchLogs : WatchOpts → string → list (list dyn) → M St (list Log);
  (** [contract.UnpackLog(event, name, log)] into a struct with these fields. *)
  UnpackLog : string → ∀ ts, Log → error + go_tuple ts;
}.

(** Functions of several arguments, as Go declares them. *)
Fixpoint go_func (ts : list gotype) (R : Type) : Type :=
  match ts with
  | [] => R
  | t :: ts => go_val t → go_func ts R
  end.

(** Collects the arguments of a call. *)
Fixpoint collect {R} (ts : list gotype) (k : list dyn → R) : go_func ts R :=
  match ts with
  | [] => k []
  | t :: ts => λ v, collect ts (λ args, k (to_dyn t v :: args))
  end.

(** [*abi.ConvertType(x, new(T)).( *T)] *)
Definition ConvertType (x : dyn) (t : gotype) : result (go_val t) :=
  match decide (projT1 x = t) with
  | left e => Ok (eq_rect _ go_val (projT2 x) _ e)
  | right _ => Panic "interface conversion"
  end.

(** [out0 := ...out[0]...; out1 := ...out[1]...] *)
Fixpoint convert (ts : list gotype) (out : list dyn) : result (go_tuple ts) :=
  match ts, out with
  | [], _ => Ok tt
  | t :: ts, x :: out => rbind (ConvertType x t) (λ v, rbind (convert ts out) (λ vs, Ok (v, vs)))
  | _ :: _, [] => Panic "index out of range"
  end.

Section bindings.
Context {St : Type} `{BoundContract St}.

(** [func (_C *CCaller) Method(opts, args...) (rets..., error)] *)
Definition caller (m : method) (opts : CallOpts) : go_func (m_args m) (M St (go_tuple (m_rets m))) :=
  collect (m_args m) (λ args,
    out ← Call opts (m_key m) args;
    lift_result (convert (m_rets m) out)).

(** [func (_C *CTransactor) Method(opts, args...)] *)
Definition transactor (m : method) (opts : TransactOpts) : go_func (m_args m) (M St Transaction) :=
  collect (m_args m) (λ args, Transact opts (m_key m) args).

(** The sessions fix the options. *)
Record Session := mkSession { s_CallOpts : CallOpts; s_TransactOpts : TransactOpts }.
Definition session_call (m : method) (s : Session) := caller m (s_CallOpts s).
Definition session_transact (m : method) (s : Session) := transactor m (s_TransactOpts s).

(** *** Events *)

(** An event as the program gets it: the fields and the raw log. *)
Definition Event (e : event_binding) : Type := go_tuple (e_types e) * Log.

(** [func (_C *CFilterer) ParseEvent(log)] *)
Definition ParseEvent (e : event_binding) (log : Log) : result (Event e) :=
  match UnpackLog (e_name e) (e_types e) log with
  | inl err => Err err
  | inr fields => Ok (fields, log)
  end.

(** One rule per indexed field. *)
Fixpoint collect_rules {R} (ts : list gotype) (k : list (list dyn) → R) :
    go_func (GSlice <$> ts) R :=
  match ts with
  | [] => k []
  | t :: ts => λ items, collect_rules ts (λ rules, k ((to_dyn t <$> items) :: rules))
  end.

End bindings.

(** ** Iterators *)

Section iterators.
Context {L Ev : Type} (unpack : L → error + Ev).

(** The channels of an iterator with the goroutine that feeds them: the logs in the
    channel, those still to be sent, and what [sub.Err()] delivers once the goroutine
    has returned (nil when it has sent everything). *)
Record feed := mkFeed {
  f_logs : list L;
  f_rest : list L;
  f_err : option (option error);
}.

Inductive feed_step : feed → feed → Prop :=
  | feed_send logs log rest :
      feed_step (mkFeed logs (log :: rest) None) (mkFeed (logs ++ [log]) rest None)
  | feed_return logs : feed_step (mkFeed logs [] None) (mkFeed logs [] (Some None))
  | feed_fail logs rest err :
      feed_step (mkFeed logs rest None) (mkFeed logs rest (Some (Some err))).

(** [type ...Iterator struct]: the current event with its raw log ([None] before the first
    one, and for the half filled struct of a log that did not unpack), and the flags. *)
Record Iterator := mkIterator {
  it_Event : option (Ev * L);
  it_done : bool;
  it_fail : option error;
}.

Definition new_iterator : Iterator := mkIterator None false None.

(** [case log := <-it.logs: ...] *)
Definition take_log (it : Iterator) (log : L) : bool * Iterator :=
  match unpack log with
  | inl err => (false, mkIterator None (it_done it) (Some err))
  | inr ev => (true, mkIterator (Some (ev, log)) (it_done it) None)
  end.

(** [Next] once the iterator failed or completed. *)
Definition next_settled (it : Iterator) (f : feed) : bool * Iterator * feed :=
  match it_fail it with
  | Some _ => (false, it, f)
  | None =>
      match f_logs f with
      | log :: logs => (take_log it log, mkFeed logs (f_rest f) (f_err f))
      | [] => (false, it, f)
      end
  end.

(** [it.done = true; it.fail = err; return it.Next()] *)
Definition next_ended (it : Iterator) (f : feed) (err : option error) : bool * Iterator * feed :=
  next_settled (mkIterator (it_Event it) true err) f.

(** [Next]; [pick_err] is the choice of the [select] when both cases are ready, and
    [None] means that it waits. *)
Definition Next (pick_err : bool) (it : Iterator) (f : feed) : option (bool * Iterator * feed) :=
  match it_fail it, it_done it with
  | None, false =>
      match f_logs f, f_err f with
      | [], None => None
      | [], Some err => Some (next_ended it f err)
      | log :: logs, Some err =>
          if pick_err then Some (next_ended it f err)
          else Some (take_log it log, mkFeed logs (f_rest f) (f_err f))
      | log :: logs, None => Some (take_log it log, mkFeed logs (f_rest f) None)
      end
  | _, _ => Some (next_settled it f)
  end.

Definition Error (it : Iterator) : option error := it_fail it.

(** *** The loop of a caller: [for it.Next() { ... it.Event ... }] *)

Record iter_loop := mkLoop {
  l_it : Iterator;
  l_feed : feed;
  l_seen : list (Ev * L);
  l_ended : bool;
}.

Inductive loop_step : iter_loop → iter_loop → Prop :=
  | step_feed it f f' seen :
      feed_step f f' → loop_step (mkLoop it f seen false) (mkLoop it f' seen false)
  | step_event pick it f it' f' seen ev :
      Next pick it f = Some (true, it', f') → it_Event it' = Some ev →
      loop_step (mkLoop it f seen false) (mkLoop it' f' (seen ++ [ev]) false)
  | step_stop pick it f it' f' seen :
      Next pick it f = Some (false, it', f') →
      loop_step (mkLoop it f seen false) (mkLoop it' f' seen true).

Definition loop_start (logs : list L) : iter_loop :=
  mkLoop new_iterator (mkFeed [] logs None) [] false.

(** These logs unpack to these events. *)
Definition unpacked (logs : list L) (evs : list (Ev * L)) : Prop :=
  Forall2 (λ log ev, unpack log = inr ev.1 ∧ ev.2 = log) logs evs.

(** *** Lemmas *)

(** What holds of a loop over the iterator for [logs]: the events seen are those of a
    prefix; as long as nothing failed the rest is still to come; a nil end of the
    subscription means that everything was sent. *)
Definition loop_inv (logs : list L) (st : iter_loop) : Prop :=
  ∃ pre post, logs = pre ++ post ∧ unpacked pre (l_seen st) ∧
    (it_fail (l_it st) = None → post = f_logs (l_feed st) ++ f_rest (l_feed st)) ∧
    (f_err (l_feed st) = Some None → f_rest (l_feed st) = []) ∧
    (it_done (l_it st) = true → it_fail (l_it st) = None → f_err (l_feed st) = Some None) ∧
    (l_ended st = true → it_fail (l_it st) = None →
       it_done (l_it st) = true ∧ f_logs (l_feed st) = []) ∧
    (∀ err, it_fail (l_it st) = Some err →
       f_err (l_feed st) = Some (Some err) ∨ ∃ log, log ∈ logs ∧ unpack log = inl err).

Lemma unpacked_snoc pre log ev evs :
  unpacked pre evs → unpack log = inr ev → unpacked (pre ++ [log]) (evs ++ [(ev, log)]).
Proof. intros Hpre Hlog. apply Forall2_app; [done|]. by repeat constructor. Qed.

(** One log taken from the channel keeps the invariant. *)
Lemma take_log_inv logs it f seen log ls b it' :
  loop_inv logs (mkLoop it f seen false) → it_fail it = None → f_logs f = log :: ls →
  take_log it log = (b, it') →
  loop_inv logs (mkLoop it' (mkFeed ls (f_rest f) (f_err f))
    (if b then seen ++ option_list (it_Event it') else seen) (negb b)).
Proof.
  intros (pre&post&->&Hseen&Hrest&Hnil&Hdone&_&_) Hfail Hlogs Htake. simpl in *.
  specialize (Hrest Hfail). rewrite Hlogs in Hrest. simpl in Hrest. unfold take_log in Htake.
  destruct (unpack log) as [err|ev] eqn:Hu; simplify_eq/=.
  - exists pre, (log :: ls ++ f_rest f). split_and!; try done.
    intros ? [= <-]. right. exists log. split; [set_solver|done].
  - exists (pre ++ [log]), (ls ++ f_rest f). split_and!; try done.
    + by rewrite <-(assoc_L app).
    + by apply unpacked_snoc.
    + intros Hd _. by apply Hdone.
Qed.

(** What the loop sees after a call of [Next]. *)
Definition loop_after (it : Iterator) (f : feed) (seen : list (Ev * L)) (b : bool) : iter_loop :=
  mkLoop it f (if b then seen ++ option_list (it_Event it) else seen) (negb b).

Lemma settled_inv logs it f seen b it' f' :
  loop_inv logs (mkLoop it f seen false) → (it_fail it = None → it_done it = true) →
  next_settled it f = (b, it', f') → loop_inv logs (loop_after it' f' seen b).
Proof.
  intros Hinv Hset Hnext. unfold next_settled in Hnext.
  destruct (it_fail it) as [err|] eqn:Hfail.
  { injection Hnext as <- <- <-. destruct Hinv as (pre&post&?&?&?&?&?&_&?). simpl in *.
    exists pre, post. split_and!; try done; simpl; congruence. }
  destruct (f_logs f) as [|log ls] eqn:Hlogs.
  - injection Hnext as <- <- <-. destruct Hinv as (pre&post&?&?&?&?&?&_&?). simpl in *.
    exists pre, post. split_and!; try done. intros _ _. auto.
  - destruct (take_log it log) as [b1 it1] eqn:Ht. injection Hnext as <- <- <-.
    by eapply take_log_inv.
Qed.

Lemma Next_inv logs pick it f seen b it' f' :
  loop_inv logs (mkLoop it f seen false) → Next pick it f = Some (b, it', f') →
  loop_inv logs (loop_after it' f' seen b).
Proof.
  intros Hinv Hnext.
  assert (∀ err, it_fail it = None → f_err f = Some err →
    Some (next_ended it f err) = Some (b, it', f') → loop_inv logs (loop_after it' f' seen b)) as Hend.
  { intros err Hfail Herr Heq. injection Heq as Heq. eapply (settled_inv _ (mkIterator (it_Event it) true err)); [|done|exact Heq].
    destruct Hinv as (pre&post&?&?&?&?&_&_&_). simpl in *. exists pre, post.
    split_and!; simpl; try done; [naive_solver|naive_solver|naive_solver]. }
  unfold Next in Hnext. destruct (it_fail it) as [err|] eqn:Hfail.
  { injection Hnext as Hnext. eapply settled_inv; [done|congruence|done]. }
  destruct (it_done it) eqn:Hdone.
  { injection Hnext as Hnext. eapply settled_inv; [done|done|done]. }
  destruct (f_logs f) as [|log ls] eqn:Hlogs.
  - destruct (f_err f) as [err|] eqn:Herr; [|done]. by eapply Hend.
  - assert (∀ e, f_err f = e → Some (take_log it log, mkFeed ls (f_rest f) e) = Some (b, it', f') →
      loop_inv logs (loop_after it' f' seen b)) as Htake.
    { intros e <- Heq. destruct (take_log it log) as [b1 it1] eqn:Ht. injection Heq as <- <- <-.
      by eapply take_log_inv. }
    destruct (f_err f) as [err|] eqn:Herr; [destruct pick|]; by eauto.
Qed.

Lemma loop_step_inv logs st st' : loop_inv logs st → loop_step st st' → loop_inv logs st'.
Proof.
  intros Hinv Hstep. destruct Hstep as [it f f' seen Hf|pick it f it' f' seen ev Hn He|pick it f it' f' seen Hn].
  - destruct Hinv as (pre&post&->&?&Hrest&?&Hdone&_&Hf2). simpl in *.
    destruct Hf as [ls log rest|ls|ls rest err]; simpl in *; exists pre, post;
      (split_and!; [done|done|simpl; intros Hn; by rewrite Hrest, <-?(assoc_L app)| |..]); simpl; try done;
      naive_solver.
  - pose proof (Next_inv _ _ _ _ _ _ _ _ Hinv Hn) as Hinv'. unfold loop_after in Hinv'.
    by rewrite He in Hinv'.
  - exact (Next_inv _ _ _ _ _ _ _ _ Hinv Hn).
Qed.

Lemma loop_start_inv logs : loop_inv logs (loop_start logs).
Proof. exists [], logs. split_and!; simpl; try done. constructor. Qed.

(** Every step consumes something: a run has at most two steps per log and two more. *)
Definition loop_measure (st : iter_loop) : nat :=
  if l_ended st then 0 else
    S (length (f_logs (l_feed st)) + 2 * length (f_rest (l_feed st))
       + (if f_err (l_feed st) then 0 else 1)).

Lemma next_settled_measure it f it' f' :
  next_settled it f = (true, it', f') →
  (length (f_logs f') < length (f_logs f))%nat ∧ f_rest f' = f_rest f ∧ f_err f' = f_err f.
Proof.
  unfold next_settled. destruct (it_fail it); [done|]. destruct (f_logs f) as [|log ls]; [done|].
  intros [= _ <-]. simpl. auto.
Qed.

Lemma Next_measure pick it f it' f' :
  Next pick it f = Some (true, it', f') →
  (length (f_logs f') < length (f_logs f))%nat ∧ f_rest f' = f_rest f ∧ f_err f' = f_err f.
Proof.
  unfold Next, next_ended. intros Hn.
  destruct (it_fail it), (it_done it); try (by injection Hn as Hn; eapply next_settled_measure).
  destruct (f_logs f) as [|log ls] eqn:Hl, (f_err f) as [e|] eqn:He; try destruct pick; try done;
    injection Hn as Hn; try (apply next_settled_measure in Hn; by rewrite Hl, He in Hn).
  all: inversion Hn; subst; simpl; auto.
Qed.

Lemma loop_step_measure st st' : loop_step st st' → (loop_measure st' < loop_measure st)%nat.
Proof.
  destruct 1 as [it f f' seen Hf|pick it f it' f' seen ev Hn _|]; unfold loop_measure; simpl.
  - destruct Hf; simpl; rewrite ?length_app; simpl; lia.
  - apply Next_measure in Hn as (?&->&->). destruct (f_err f); lia.
  - lia.
Qed.

(** A loop that has not ended can always go on. *)
Lemma loop_progress st : l_ended st = false → ∃ st', loop_step st st'.
Proof.
  destruct st as [it f seen ended]. simpl. intros ->.
  destruct (Next false it f) as [[[[|] it'] f']|] eqn:Hn.
  - assert (∃ ev, it_Event it' = Some ev) as [ev Hev]; [|eexists; by eapply step_event].
    revert Hn. unfold Next, next_ended, next_settled, take_log. repeat case_match; naive_solver.
  - eexists. by eapply step_stop.
  - destruct f as [ls [|log rest] err]; revert Hn; unfold Next; repeat case_match; simplify_eq/=;
      intros; simplify_eq; eexists; apply step_feed; constructor.
Qed.

Lemma loop_run_inv n logs st :
  nsteps loop_step n (loop_start logs) st →
  loop_inv logs st ∧ (n + loop_measure st ≤ 2 * length logs + 2)%nat.
Proof.
  intros Hrun. remember (loop_start logs) as st0 eqn:Hst0.
  assert (loop_inv logs st0) as Hinv by (subst; apply loop_start_inv).
  assert (loop_measure st0 = (2 * length logs + 2)%nat) as Hm
    by (subst; unfold loop_measure; simpl; lia).
  rewrite <-Hm. clear Hst0 Hm. induction Hrun as [|n st1 st2 st3 Hstep Hrun IH]; [split; [done|lia]|].
  destruct IH as [? Hle]; [by eapply loop_step_inv|]. apply loop_step_measure in Hstep.
  split; [done|lia].
Qed.

(** What a caller that checks [Error] knows when its loop is over. *)
Definition loop_outcome (logs : list L) (st : iter_loop) : Prop :=
  match Error (l_it st) with
  | None => unpacked logs (l_seen st)
  | Some err =>
      (∃ pre post, logs = pre ++ post ∧ unpacked pre (l_seen st)) ∧
      (f_err (l_feed st) = Some (Some err) ∨ ∃ log, log ∈ logs ∧ unpack log = inl err)
  end.

Lemma loop_inv_outcome logs st : loop_inv logs st → l_ended st = true → loop_outcome logs st.
Proof.
  intros (pre&post&Hlogs&Hseen&Hrest&Hnil&Hdone&Hend&Hfail) Hended. unfold loop_outcome, Error.
  destruct (it_fail (l_it st)) as [err|] eqn:Hf.
  { split; [by exists pre, post|by apply Hfail]. }
  destruct (Hend Hended eq_refl) as [Hd Hls]. rewrite Hls, (Hnil (Hdone Hd eq_refl)) in Hrest.
  rewrite (Hrest eq_refl), app_nil_r in Hlogs. by subst.
Qed.
End iterators.
Arguments feed : clear implicits.
Arguments Iterator : clear implicits.
Arguments iter_loop : clear implicits.
Arguments loop_start {L Ev} logs.

(** ** Watching: the goroutine of [Watch...] *)

Section watching.
Context {L Ev : Type} (unpack : L → error + Ev).

(** The goroutine waits for a log, or holds an event it offers to the sink; [w_result]
    is what it returned. *)
Record watch := mkWatch {
  w_feed : feed L;
  w_held : option (Ev * L);
  w_sink : list (Ev * L);
  w_result : option (option error);
}.

Inductive watch_step : watch → watch → Prop :=
  | watch_feed f f' held sink :
      feed_step f f' → watch_step (mkWatch f held sink None) (mkWatch f' held sink None)
  | watch_log log logs rest err ev sink :
      unpack log = inr ev →
      watch_step (mkWatch (mkFeed (log :: logs) rest err) None sink None)
                 (mkWatch (mkFeed logs rest err) (Some (ev, log)) sink None)
  | watch_bad log logs rest err e sink :
      unpack log = inl e →
      watch_step (mkWatch (mkFeed (log :: logs) rest err) None sink None)
                 (mkWatch (mkFeed logs rest err) None sink (Some (Some e)))
  | watch_forward f ev sink :
      watch_step (mkWatch f (Some ev) sink None) (mkWatch f None (sink ++ [ev]) None)
  | watch_err logs rest err held sink :
      watch_step (mkWatch (mkFeed logs rest (Some err)) held sink None)
                 (mkWatch (mkFeed logs rest (Some err)) held sink (Some err))
  | watch_quit f held sink :
      watch_step (mkWatch f held sink None) (mkWatch f held sink (Some None)).

Definition watch_start (logs : list L) : watch := mkWatch (mkFeed [] logs None) None [] None.

(** The events forwarded and the one held are those of a prefix of the logs, in order;
    while the goroutine runs the other logs are still to come. *)
Definition watch_inv (logs : list L) (st : watch) : Prop :=
  ∃ pre post, logs = pre ++ post ∧
    unpacked unpack pre (w_sink st ++ option_list (w_held st)) ∧
    (w_result st = None → post = f_logs (w_feed st) ++ f_rest (w_feed st)).

Lemma watch_step_inv logs st st' : watch_inv logs st → watch_step st st' → watch_inv logs st'.
Proof.
  intros (pre&post&->&Hseen&Hrest) Hstep. destruct Hstep; simpl in *.
  - exists pre, post. split_and!; [done..|]. intros _. rewrite (Hrest eq_refl).
    destruct H; simpl; [by rewrite <-(assoc_L app)|done..].
  - specialize (Hrest eq_refl). simplify_eq/=. exists (pre ++ [log]), (logs ++ rest).
    rewrite app_nil_r in Hseen. split_and!; [by rewrite <-(assoc_L app)|by apply unpacked_snoc|done].
  - by exists pre, post.
  - exists pre, post. split_and!; [done| |done]. by rewrite app_nil_r.
  - by exists pre, post.
  - by exists pre, post.
Qed.
End watching.

(** ** Filtering and watching an event *)

Section events.
Context {St : Type} `{BoundContract St}.

(** [func (_C *CFilterer) FilterEvent(opts, rules...)]: an iterator and its channels. *)
Definition FilterEvent (e : event_binding) (opts : FilterOpts) :
    go_func (GSlice <$> e_indexed e)
      (M St (Iterator Log (go_tuple (e_types e)) * feed Log)) :=
  collect_rules (e_indexed e) (λ rules,
    logs ← FilterLogs opts (e_name e) rules;
    mret (new_iterator, mkFeed [] logs None)).

(** [func (_C *CFilterer) WatchEvent(opts, sink, rules...)]: a goroutine that forwards to
    the sink; [watch_step] is what it does. *)
Definition WatchEvent (e : event_binding) (opts : WatchOpts) :
    go_func (GSlice <$> e_indexed e) (M St (watch (L := Log) (Ev := go_tuple (e_types e)))) :=
  collect_rules (e_indexed e) (λ rules,
    logs ← WatchLogs opts (e_name e) rules;
    mret (watch_start logs)).
End events.

(** ** Conformance to an ABI *)

(** A method of the text is one of the ABI: same key, the Go types of its inputs, and for
    a [Caller] those of its outputs. *)
Definition method_conforms (abi : contract_abi) (view : bool) (m : method) : bool :=
  existsb (λ am, (am_key am =? m_key m)%string && Bool.eqb (am_view am) view
                 && bool_decide (go_type <$> am_inputs am = m_args m)
                 && (negb view || bool_decide (go_type <$> am_outputs am = m_rets m)))
    (abi_methods abi).

(** An event of the text is one of the ABI: same name, fields and indexed fields. *)
Definition event_conforms (abi : contract_abi) (e : event_binding) : bool :=
  existsb (λ ae, (ae_name ae =? e_name e)%string
                 && bool_decide ((λ p, (go_type p.1, p.2)) <$> ae_inputs ae = e_fields e))
    (abi_events abi).

(** The binding covers the ABI: every method and event of one is in the other. *)
Definition covers (abi : contract_abi) (calls transacts : list method) (events : list event_binding) :
    bool :=
  forallb (method_conforms abi true) calls && forallb (method_conforms abi false) transacts
  && forallb (event_conforms abi) events
  && forallb (λ am, existsb (λ m, (m_key m =? am_key am)%string) (calls ++ transacts)) (abi_methods abi)
  && forallb (λ ae, existsb (λ e, (e_name e =? ae_name ae)%string) events) (abi_events abi).

Lemma covers_call abi calls transacts events m :
  covers abi calls transacts events = true → m ∈ calls → method_conforms abi true m = true.
Proof.
  unfold covers. rewrite !andb_true_iff, forallb_forall. intros ((((Hcalls&_)&_)&_)&_) Hm.
  by apply Hcalls, list_elem_of_In.
Qed.

(** What a call of a contract with this ABI answers: it does not panic, and its results
    have the types of the outputs. *)
Class BoundContractLaws {St : Type} `{BoundContract St} (abi : contract_abi) := {
  Call_no_panic opts key args s why : (Call opts key args s).1 ≠ Panic why;
  Call_typed am opts args s out s' :
    am ∈ abi_methods abi → projT1 <$> args = go_type <$> am_inputs am →
    Call opts (am_key am) args s = (Ok out, s') → projT1 <$> out = go_type <$> am_outputs am;
}.

(** [P] of every application to arguments, with the arguments. *)
Fixpoint for_args {R} (ts : list gotype) (P : list dyn → R → Prop) : go_func ts R → Prop :=
  match ts with
  | [] => P []
  | t :: ts => λ f, ∀ v, for_args ts (λ args, P (to_dyn t v :: args)) (f v)
  end.

Lemma for_args_collect {R} ts (P : list dyn → R → Prop) (k : list dyn → R) :
  (∀ args, projT1 <$> args = ts → P args (k args)) → for_args ts P (collect ts k).
Proof.
  revert P k. induction ts as [|t ts IH]; intros P k Hk; simpl; [by apply Hk|].
  intros v. apply (IH (λ args, P (to_dyn t v :: args))). intros args <-. by apply Hk.
Qed.

(** The results of a call as the contract gave them. *)
Fixpoint tuple_dyns (ts : list gotype) : go_tuple ts → list dyn :=
  match ts with
  | [] => λ _, []
  | t :: ts => λ vs, to_dyn t vs.1 :: tuple_dyns ts vs.2
  end.

Lemma convert_ok ts out :
  projT1 <$> out = ts → ∃ vs, convert ts out = Ok vs ∧ tuple_dyns ts vs = out.
Proof.
  revert out. induction ts as [|t ts IH]; intros [|[t' x] out] Hout; simplify_eq/=; [by exists tt|].
  unfold ConvertType. destruct (decide _) as [e|]; [|done]. simpl in *.
  rewrite (UIP_dec gotype_eq_dec e eq_refl). simpl.
  destruct (IH out eq_refl) as (vs&->&Hvs). eexists. split; [done|]. simpl. by f_equal.
Qed.

(** A method returns what the contract answered: all results in order, or the error. *)
Definition returns_answer {St} `{BoundContract St} (m : method) (opts : CallOpts)
    (args : list dyn) (call : M St (go_tuple (m_rets m))) : Prop :=
  ∀ s, match Call opts (m_key m) args s with
       | (Ok out, s') => ∃ vs, call s = (Ok vs, s') ∧ tuple_dyns (m_rets m) vs = out
       | (Err err, s') => call s = (Err err, s')
       | (Panic _, _) => False
       end.

Lemma caller_safe {St} `{BoundContract St} abi `{!BoundContractLaws abi} m opts :
  method_conforms abi true m = true → for_args (m_args m) (returns_answer m opts) (caller m opts).
Proof.
  intros (am&Hin%list_elem_of_In&Hm)%existsb_exists.
  apply andb_prop in Hm as [Hm Hrets]. apply andb_prop in Hm as [Hm Hargs].
  apply andb_prop in Hm as [Hkey%String.eqb_eq _].
  apply bool_decide_eq_true in Hargs, Hrets. apply for_args_collect. intros args Hts s.
  unfold mbind, M_bind. rewrite <-Hkey.
  destruct (Call opts (am_key am) args s) as [[out|e|p] s'] eqn:Hcall; [|done|].
  - assert (projT1 <$> out = m_rets m) as Hout.
    { rewrite <-Hrets. eapply Call_typed; [done| |done]. congruence. }
    destruct (convert_ok _ _ Hout) as (vs&Hvs&?). exists vs. by unfold lift_result; rewrite Hvs.
  - apply (Call_no_panic opts (am_key am) args s p). by rewrite Hcall.
Qed.

(** *** A contract that answers with zero values *)

Fixpoint zero_val (t : gotype) : go_val t :=
  match t with
  | GUint8 | GUint32 | GUint64 | GBigInt => 0
  | GBool => false
  | GString => ""%string
  | GBytes => []
  | GByteArray n => replicate n x00
  | GAddress => replicate 20 x00
  | GSlice _ => []
  | GArray n t => replicate n (zero_val t)
  | GStruct ts =>
      (fix fields ts : go_tuple ts :=
         match ts with [] => tt | t :: ts => (zero_val t, fields ts) end) ts
  end.

Definition zero_dyn (t : gotype) : dyn := to_dyn t (zero_val t).

(** It has no logs, and its transactions do nothing. *)
Definition zero_contract (abi : contract_abi) : BoundContract unit := {|
  CallOpts := unit; TransactOpts := unit; FilterOpts := unit; WatchOpts := unit;
  Transaction := unit;
  Log := unit;
  Call _ key _ :=
    match List.find (λ am, (am_key am =? key)%string) (abi_methods abi) with
    | Some am => mret (zero_dyn <$> (go_type <$> am_outputs am))
    | None => throw (ErrNew "method not found")
    end;
  Transact _ _ _ := mret tt;
  FilterLogs _ _ _ := mret [];
  WatchLogs _ _ _ := mret [];
  UnpackLog _ ts _ := inr (zero_val (GStruct ts));
|}.

Lemma find_key am (ams : list abi_method) :
  NoDup (am_key <$> ams) → am ∈ ams →
  List.find (λ am', (am_key am' =? am_key am)%string) ams = Some am.
Proof.
  intros Hnodup Hin. destruct (List.find _ ams) as [am'|] eqn:Hf.
  - apply find_some in Hf as [Hin' Hkey%String.eqb_eq]. f_equal.
    apply list_elem_of_In, list_elem_of_lookup in Hin' as [i Hi].
    apply list_elem_of_lookup in Hin as [j Hj].
    assert (i = j) as ->; [|by simplify_eq].
    eapply (NoDup_lookup _ _ _ _ Hnodup); rewrite list_lookup_fmap; [by rewrite Hi|].
    by rewrite Hj; simpl; f_equal.
  - eapply find_none in Hf; [|by apply list_elem_of_In]. by rewrite String.eqb_refl in Hf.
Qed.

Lemma zero_contract_laws abi :
  NoDup (am_key <$> abi_methods abi) → @BoundContractLaws unit (zero_contract abi) abi.
Proof.
  intros Hnodup. split; simpl.
  - intros opts key args s why. by case_match.
  - intros am opts args s out s' Hin _. rewrite (find_key am _ Hnodup Hin).
    intros [= <- _]. rewrite <-list_fmap_compose. exact (list_fmap_id _).
Qed.

(** ** Properties *)

(** C20. Iterating over the events of a filter: however the goroutine that feeds the
    iterator and the [select]s of [Next] interleave, the loop is over after at most two
    steps per log and two more; it never blocks for good; when it is over, the events
    it saw are those of all logs, in order and each once, if [Error] is nil, and
    otherwise those of a prefix, the error being the subscription's or that of a log
    that does not unpack. *)
Theorem iterator_complete {L Ev} (unpack : L → error + Ev) logs n st :
  nsteps (loop_step unpack) n (loop_start logs) st →
  (n ≤ 2 * length logs + 2)%nat ∧
  (nf (loop_step unpack) st → l_ended st = true ∧ loop_outcome unpack logs st).
Proof.
  intros [Hinv Hn]%loop_run_inv. split; [lia|]. intros Hnf.
  destruct (l_ended st) eqn:He; [split; [done|by apply loop_inv_outcome]|].
  destruct Hnf. exact (loop_progress unpack st He).
Qed.

(** A watch forwards the events of the logs in order, each once, and loses at most the
    one it holds when it returns. *)
Theorem watch_in_order {L Ev} (unpack : L → error + Ev) logs st :
  rtc (watch_step unpack) (watch_start logs) st →
  ∃ pre post, logs = pre ++ post ∧ unpacked unpack pre (w_sink st ++ option_list (w_held st)) ∧
    (w_result st = None → post = f_logs (w_feed st) ++ f_rest (w_feed st)).
Proof.
  intros Hrun. change (watch_inv unpack logs st).
  assert (watch_inv unpack logs (watch_start logs)) as Hinv
    by (exists [], logs; split_and!; try done; constructor).
  induction Hrun as [|st1 st2 st3 Hstep _ IH]; [done|]. apply IH. by eapply watch_step_inv.
Qed.

Lemma iterator_complete_witness :
  let unpack (n : nat) := if (n =? 3)%nat then inl (ErrNew "bad log") else inr (Z.of_nat n) in
  let st := mkLoop (mkIterator (Some (2, 2%nat)) true None) (mkFeed [] [] (Some None))
              [(1, 1%nat); (2, 2%nat)] true in
  nsteps (loop_step unpack) 6 (loop_start [1%nat; 2%nat]) st ∧
  loop_outcome unpack [1%nat; 2%nat] st.
Proof.
  intros unpack st.
  assert (nsteps (loop_step unpack) 6 (loop_start [1%nat; 2%nat]) st) as Hrun.
  { eapply nsteps_l; [apply step_feed, feed_send|]. eapply nsteps_l; [by eapply (step_event _ true)|].
    eapply nsteps_l; [apply step_feed, feed_send|]. eapply nsteps_l; [apply step_feed, feed_return|].
    eapply nsteps_l; [by eapply (step_event _ false)|].
    eapply nsteps_l; [by eapply (step_stop _ true)|]. apply nsteps_O. }
  split; [exact Hrun|]. apply (iterator_complete unpack _ _ _ Hrun).
  intros [st' Hstep]. inversion Hstep.
Defined.
