(* ===== verification/UsdcBinding.v ===== *)
(** * UsdcBinding: shared/contracts/usdc

    The binding of the USDC token: its ABI, and for every method and event what its text
    calls, converts, filters and parses (see [Abigen]). *)
From Stdlib Require Import Strings.Byte.
From S2P Require Import Prelude GoLib TxExecutor Keccak Abigen.

(** ** Usdc *)

(** The ABI in [UsdcMetaData]. *)
Definition UsdcABI : contract_abi := mkAbi
  [mkAbiMethod "CANCEL_AUTHORIZATION_TYPEHASH" "CANCEL_AUTHORIZATION_TYPEHASH" [] [AFixedBytes
    32] true;
   mkAbiMethod "DOMAIN_SEPARATOR" "DOMAIN_SEPARATOR" [] [AFixedBytes 32] true;
   mkAbiMethod "PERMIT_TYPEHASH" "PERMIT_TYPEHASH" [] [AFixedBytes 32] true;
   mkAbiMethod "RECEIVE_WITH_AUTHORIZATION_TYPEHASH" "RECEIVE_WITH_AUTHORIZATION_TYPEHASH" []
     [AFixedBytes 32] true;
   mkAbiMethod "TRANSFER_WITH_AUTHORIZATION_TYPEHASH" "TRANSFER_WITH_AUTHORIZATION_TYPEHASH" []
     [AFixedBytes 32] true;
   mkAbiMethod "allowance" "allowance" [AAddress; AAddress] [AUint 256] true;
   mkAbiMethod "approve" "approve" [AAddress; AUint 256] [ABool] false;
   mkAbiMethod "authorizationState" "authorizationState" [AAddress; AFixedBytes 32] [ABool] true;
   mkAbiMethod "balanceOf" "balanceOf" [AAddress] [AUint 256] true;
   mkAbiMethod "blacklist" "blacklist" [AAddress] [] false;
   mkAbiMethod "blacklister" "blacklister" [] [AAddress] true;
   mkAbiMethod "burn" "burn" [AUint 256] [] false;
   mkAbiMethod "cancelAuthorization" "cancelAuthorization" [AAddress; AFixedBytes 32; AUint 8;
     AFixedBytes 32; AFixedBytes 32] [] false;
   mkAbiMethod "configureMinter" "configureMinter" [AAddress; AUint 256] [ABool] false;
   mkAbiMethod "currency" "currency" [] [AString] true;
   mkAbiMethod "decimals" "decimals" [] [AUint 8] true;
   mkAbiMethod "decreaseAllowance" "decreaseAllowance" [AAddress; AUint 256] [ABool] false;
   mkAbiMethod "increaseAllowance" "increaseAllowance" [AAddress; AUint 256] [ABool] false;
   mkAbiMethod "initialize" "initialize" [AString; AString; AString; AUint 8; AAddress; AAddress;
     AAddress; AAddress] [] false;
   mkAbiMethod "initializeV2" "initializeV2" [AString] [] false;
   mkAbiMethod "initializeV2_1" "initializeV2_1" [AAddress] [] false;
   mkAbiMethod "isBlacklisted" "isBlacklisted" [AAddress] [ABool] true;
   mkAbiMethod "isMinter" "isMinter" [AAddress] [ABool] true;
   mkAbiMethod "masterMinter" "masterMinter" [] [AAddress] true;
   mkAbiMethod "mint" "mint" [AAddress; AUint 256] [ABool] false;
   mkAbiMethod "minterAllowance" "minterAllowance" [AAddress] [AUint 256] true;
   mkAbiMethod "name" "name" [] [AString] true;
   mkAbiMethod "nonces" "nonces" [AAddress] [AUint 256] true;
   mkAbiMethod "owner" "owner" [] [AAddress] true;
   mkAbiMethod "pause" "pause" [] [] false;
   mkAbiMethod "paused" "paused" [] [ABool] true;
   mkAbiMethod "pauser" "pauser" [] [AAddress] true;
   mkAbiMethod "permit" "permit" [AAddress; AAddress; AUint 256; AUint 256; AUint 8; AFixedBytes
     32; AFixedBytes 32] [] false;
   mkAbiMethod "receiveWithAuthorization" "receiveWithAuthorization" [AAddress; AAddress; AUint
     256; AUint 256; AUint 256; AFixedBytes 32; AUint 8;
   AFixedBytes 32; AFixedBytes 32] [] false;
   mkAbiMethod "removeMinter" "removeMinter" [AAddress] [ABool] false;
   mkAbiMethod "rescueERC20" "rescueERC20" [AAddress; AAddress; AUint 256] [] false;
   mkAbiMethod "rescuer" "rescuer" [] [AAddress] true;
   mkAbiMethod "symbol" "symbol" [] [AString] true;
   mkAbiMethod "totalSupply" "totalSupply" [] [AUint 256] true;
   mkAbiMethod "transfer" "transfer" [AAddress; AUint 256] [ABool] false;
   mkAbiMethod "transferFrom" "transferFrom" [AAddress; AAddress; AUint 256] [ABool] false;
   mkAbiMethod "transferOwnership" "transferOwnership" [AAddress] [] false;
   mkAbiMethod "transferWithAuthorization" "transferWithAuthorization" [AAddress; AAddress; AUint
     256; AUint 256; AUint 256; AFixedBytes 32; AUint 8;
   AFixedBytes 32; AFixedBytes 32] [] false;
   mkAbiMethod "unBlacklist" "unBlacklist" [AAddress] [] false;
   mkAbiMethod "unpause" "unpause" [] [] false;
   mkAbiMethod "updateBlacklister" "updateBlacklister" [AAddress] [] false;
   mkAbiMethod "updateMasterMinter" "updateMasterMinter" [AAddress] [] false;
   mkAbiMethod "updatePauser" "updatePauser" [AAddress] [] false;
   mkAbiMethod "updateRescuer" "updateRescuer" [AAddress] [] false;
   mkAbiMethod "version" "version" [] [AString] true]
  [mkAbiEvent "Approval" [(AAddress, true); (AAddress, true); (AUint 256, false)];
   mkAbiEvent "AuthorizationCanceled" [(AAddress, true); (AFixedBytes 32, true)];
   mkAbiEvent "AuthorizationUsed" [(AAddress, true); (AFixedBytes 32, true)];
   mkAbiEvent "Blacklisted" [(AAddress, true)];
   mkAbiEvent "BlacklisterChanged" [(AAddress, true)];
   mkAbiEvent "Burn" [(AAddress, true); (AUint 256, false)];
   mkAbiEvent "MasterMinterChanged" [(AAddress, true)];
   mkAbiEvent "Mint" [(AAddress, true); (AAddress, true); (AUint 256, false)];
   mkAbiEvent "MinterConfigured" [(AAddress, true); (AUint 256, false)];
   mkAbiEvent "MinterRemoved" [(AAddress, true)];
   mkAbiEvent "OwnershipTransferred" [(AAddress, false); (AAddress, false)];
   mkAbiEvent "Pause" [];
   mkAbiEvent "PauserChanged" [(AAddress, true)];
   mkAbiEvent "RescuerChanged" [(AAddress, true)];
   mkAbiEvent "Transfer" [(AAddress, true); (AAddress, true); (AUint 256, false)];
   mkAbiEvent "UnBlacklisted" [(AAddress, true)];
   mkAbiEvent "Unpause" []]%string.

Definition Usdc_CANCELAUTHORIZATIONTYPEHASH_method : method :=
  mkMethod "CANCEL_AUTHORIZATION_TYPEHASH" [] [GByteArray 32].
Definition Usdc_CANCELAUTHORIZATIONTYPEHASH `{BoundContract St} (opts : CallOpts) :=
  caller Usdc_CANCELAUTHORIZATIONTYPEHASH_method opts.
Definition UsdcSession_CANCELAUTHORIZATIONTYPEHASH `{BoundContract St} (s : Session) :=
  session_call Usdc_CANCELAUTHORIZATIONTYPEHASH_method s.
Definition Usdc_DOMAINSEPARATOR_method : method :=
  mkMethod "DOMAIN_SEPARATOR" [] [GByteArray 32].
Definition Usdc_DOMAINSEPARATOR `{BoundContract St} (opts : CallOpts) :=
  caller Usdc_DOMAINSEPARATOR_method opts.
Definition UsdcSession_DOMAINSEPARATOR `{BoundContract St} (s : Session) :=
  session_call Usdc_DOMAINSEPARATOR_method s.
Definition Usdc_PERMITTYPEHASH_method : method :=
  mkMethod "PERMIT_TYPEHASH" [] [GByteArray 32].
Definition Usdc_PERMITTYPEHASH `{BoundContract St} (opts : CallOpts) :=
  caller Usdc_PERMITTYPEHASH_method opts.
Definition UsdcSession_PERMITTYPEHASH `{BoundContract St} (s : Session) :=
  session_call Usdc_PERMITTYPEHASH_method s.
Definition Usdc_RECEIVEWITHAUTHORIZATIONTYPEHASH_method : method :=
  mkMethod "RECEIVE_WITH_AUTHORIZATION_TYPEHASH" [] [GByteArray 32].
Definition Usdc_RECEIVEWITHAUTHORIZATIONTYPEHASH `{BoundContract St} (opts : CallOpts) :=
  caller Usdc_RECEIVEWITHAUTHORIZATIONTYPEHASH_method opts.
Definition UsdcSession_RECEIVEWITHAUTHORIZATIONTYPEHASH `{BoundContract St} (s : Session) :=
  session_call Usdc_RECEIVEWITHAUTHORIZATIONTYPEHASH_method s.
Definition Usdc_TRANSFERWITHAUTHORIZATIONTYPEHASH_method : method :=
  mkMethod "TRANSFER_WITH_AUTHORIZATION_TYPEHASH" [] [GByteArray 32].
Definition Usdc_TRANSFERWITHAUTHORIZATIONTYPEHASH `{BoundContract St} (opts : CallOpts) :=
  caller Usdc_TRANSFERWITHAUTHORIZATIONTYPEHASH_method opts.
Definition UsdcSession_TRANSFERWITHAUTHORIZATIONTYPEHASH `{BoundContract St} (s : Session) :=
  session_call Usdc_TRANSFERWITHAUTHORIZATIONTYPEHASH_method s.
Definition Usdc_Allowance_method : method :=
  mkMethod "allowance" [GAddress; GAddress] [GBigInt].
Definition Usdc_Allowance `{BoundContract St} (opts : CallOpts) :=
  caller Usdc_Allowance_method opts.
Definition UsdcSession_Allowance `{BoundContract St} (s : Session) :=
  session_call Usdc_Allowance_method s.
Definition Usdc_AuthorizationState_method : method :=
  mkMethod "authorizationState" [GAddress; GByteArray 32] [GBool].
Definition Usdc_AuthorizationState `{BoundContract St} (opts : CallOpts) :=
  caller Usdc_AuthorizationState_method opts.
Definition UsdcSession_AuthorizationState `{BoundContract St} (s : Session) :=
  session_call Usdc_AuthorizationState_method s.
Definition Usdc_BalanceOf_method : method :=
  mkMethod "balanceOf" [GAddress] [GBigInt].
Definition Usdc_BalanceOf `{BoundContract St} (opts : CallOpts) :=
  caller Usdc_BalanceOf_method opts.
Definition UsdcSession_BalanceOf `{BoundContract St} (s : Session) :=
  session_call Usdc_BalanceOf_method s.
Definition Usdc_Blacklister_method : method :=
  mkMethod "blacklister" [] [GAddress].
Definition Usdc_Blacklister `{BoundContract St} (opts : CallOpts) :=
  caller Usdc_Blacklister_method opts.
Definition UsdcSession_Blacklister `{BoundContract St} (s : Session) :=
  session_call Usdc_Blacklister_method s.
Definition Usdc_Currency_method : method :=
  mkMethod "currency" [] [GString].
Definition Usdc_Currency `{BoundContract St} (opts : CallOpts) :=
  caller Usdc_Currency_method opts.
Definition UsdcSession_Currency `{BoundContract St} (s : Session) :=
  session_call Usdc_Currency_method s.
Definition Usdc_Decimals_method : method :=
  mkMethod "decimals" [] [GUint8].
Definition Usdc_Decimals `{BoundContract St} (opts : CallOpts) :=
  caller Usdc_Decimals_method opts.
Definition UsdcSession_Decimals `{BoundContract St} (s : Session) :=
  session_call Usdc_Decimals_method s.
Definition Usdc_IsBlacklisted_method : method :=
  mkMethod "isBlacklisted" [GAddress] [GBool].
Definition Usdc_IsBlacklisted `{BoundContract St} (opts : CallOpts) :=
  caller Usdc_IsBlacklisted_method opts.
Definition UsdcSession_IsBlacklisted `{BoundContract St} (s : Session) :=
  session_call Usdc_IsBlacklisted_method s.
Definition Usdc_IsMinter_method : method :=
  mkMethod "isMinter" [GAddress] [GBool].
Definition Usdc_IsMinter `{BoundContract St} (opts : CallOpts) :=
  caller Usdc_IsMinter_method opts.
Definition UsdcSession_IsMinter `{BoundContract St} (s : Session) :=
  session_call Usdc_IsMinter_method s.
Definition Usdc_MasterMinter_method : method :=
  mkMethod "masterMinter" [] [GAddress].
Definition Usdc_MasterMinter `{BoundContract St} (opts : CallOpts) :=
  caller Usdc_MasterMinter_method opts.
Definition UsdcSession_MasterMinter `{BoundContract St} (s : Session) :=
  session_call Usdc_MasterMinter_method s.
Definition Usdc_MinterAllowance_method : method :=
  mkMethod "minterAllowance" [GAddress] [GBigInt].
Definition Usdc_MinterAllowance `{BoundContract St} (opts : CallOpts) :=
  caller Usdc_MinterAllowance_method opts.
Definition UsdcSession_MinterAllowance `{BoundContract St} (s : Session) :=
  session_call Usdc_MinterAllowance_method s.
Definition Usdc_Name_method : method :=
  mkMethod "name" [] [GString].
Definition Usdc_Name `{BoundContract St} (opts : CallOpts) := caller Usdc_Name_method opts.
Definition UsdcSession_Name `{BoundContract St} (s : Session) := session_call Usdc_Name_method s.
Definition Usdc_Nonces_method : method :=
  mkMethod "nonces" [GAddress] [GBigInt].
Definition Usdc_Nonces `{BoundContract St} (opts : CallOpts) := caller Usdc_Nonces_method opts.
Definition UsdcSession_Nonces `{BoundContract St} (s : Session) :=
  session_call Usdc_Nonces_method s.
Definition Usdc_Owner_method : method :=
  mkMethod "owner" [] [GAddress].
Definition Usdc_Owner `{BoundContract St} (opts : CallOpts) := caller Usdc_Owner_method opts.
Definition UsdcSession_Owner `{BoundContract St} (s : Session) :=
  session_call Usdc_Owner_method s.
Definition Usdc_Paused_method : method :=
  mkMethod "paused" [] [GBool].
Definition Usdc_Paused `{BoundContract St} (opts : CallOpts) := caller Usdc_Paused_method opts.
Definition UsdcSession_Paused `{BoundContract St} (s : Session) :=
  session_call Usdc_Paused_method s.
Definition Usdc_Pauser_method : method :=
  mkMethod "pauser" [] [GAddress].
Definition Usdc_Pauser `{BoundContract St} (opts : CallOpts) := caller Usdc_Pauser_method opts.
Definition UsdcSession_Pauser `{BoundContract St} (s : Session) :=
  session_call Usdc_Pauser_method s.
Definition Usdc_Rescuer_method : method :=
  mkMethod "rescuer" [] [GAddress].
Definition Usdc_Rescuer `{BoundContract St} (opts : CallOpts) := caller Usdc_Rescuer_method opts.
Definition UsdcSession_Rescuer `{BoundContract St} (s : Session) :=
  session_call Usdc_Rescuer_method s.
Definition Usdc_Symbol_method : method :=
  mkMethod "symbol" [] [GString].
Definition Usdc_Symbol `{BoundContract St} (opts : CallOpts) := caller Usdc_Symbol_method opts.
Definition UsdcSession_Symbol `{BoundContract St} (s : Session) :=
  session_call Usdc_Symbol_method s.
Definition Usdc_TotalSupply_method : method :=
  mkMethod "totalSupply" [] [GBigInt].
Definition Usdc_TotalSupply `{BoundContract St} (opts : CallOpts) :=
  caller Usdc_TotalSupply_method opts.
Definition UsdcSession_TotalSupply `{BoundContract St} (s : Session) :=
  session_call Usdc_TotalSupply_method s.
Definition Usdc_Version_method : method :=
  mkMethod "version" [] [GString].
Definition Usdc_Version `{BoundContract St} (opts : CallOpts) := caller Usdc_Version_method opts.
Definition UsdcSession_Version `{BoundContract St} (s : Session) :=
  session_call Usdc_Version_method s.
Definition Usdc_Approve_method : method :=
  mkMethod "approve" [GAddress; GBigInt] [].
Definition Usdc_Approve `{BoundContract St} (opts : TransactOpts) :=
  transactor Usdc_Approve_method opts.
Definition UsdcSession_Approve `{BoundContract St} (s : Session) :=
  session_transact Usdc_Approve_method s.
Definition Usdc_Blacklist_method : method :=
  mkMethod "blacklist" [GAddress] [].
Definition Usdc_Blacklist `{BoundContract St} (opts : TransactOpts) :=
  transactor Usdc_Blacklist_method opts.
Definition UsdcSession_Blacklist `{BoundContract St} (s : Session) :=
  session_transact Usdc_Blacklist_method s.
Definition Usdc_Burn_method : method :=
  mkMethod "burn" [GBigInt] [].
Definition Usdc_Burn `{BoundContract St} (opts : TransactOpts) :=
  transactor Usdc_Burn_method opts.
Definition UsdcSession_Burn `{BoundContract St} (s : Session) :=
  session_transact Usdc_Burn_method s.
Definition Usdc_CancelAuthorization_method : method :=
  mkMethod "cancelAuthorization" [GAddress; GByteArray 32; GUint8; GByteArray 32; GByteArray 32]
    [].
Definition Usdc_CancelAuthorization `{BoundContract St} (opts : TransactOpts) :=
  transactor Usdc_CancelAuthorization_method opts.
Definition UsdcSession_CancelAuthorization `{BoundContract St} (s : Session) :=
  session_transact Usdc_CancelAuthorization_method s.
Definition Usdc_ConfigureMinter_method : method :=
  mkMethod "configureMinter" [GAddress; GBigInt] [].
Definition Usdc_ConfigureMinter `{BoundContract St} (opts : TransactOpts) :=
  transactor Usdc_ConfigureMinter_method opts.
Definition UsdcSession_ConfigureMinter `{BoundContract St} (s : Session) :=
  session_transact Usdc_ConfigureMinter_method s.
Definition Usdc_DecreaseAllowance_method : method :=
  mkMethod "decreaseAllowance" [GAddress; GBigInt] [].
Definition Usdc_DecreaseAllowance `{BoundContract St} (opts : TransactOpts) :=
  transactor Usdc_DecreaseAllowance_method opts.
Definition UsdcSession_DecreaseAllowance `{BoundContract St} (s : Session) :=
  session_transact Usdc_DecreaseAllowance_method s.
Definition Usdc_IncreaseAllowance_method : method :=
  mkMethod "increaseAllowance" [GAddress; GBigInt] [].
Definition Usdc_IncreaseAllowance `{BoundContract St} (opts : TransactOpts) :=
  transactor Usdc_IncreaseAllowance_method opts.
Definition UsdcSession_IncreaseAllowance `{BoundContract St} (s : Session) :=
  session_transact Usdc_IncreaseAllowance_method s.
Definition Usdc_Initialize_method : method :=
  mkMethod "initialize" [GString; GString; GString; GUint8; GAddress; GAddress; GAddress;
    GAddress] [].
Definition Usdc_Initialize `{BoundContract St} (opts : TransactOpts) :=
  transactor Usdc_Initialize_method opts.
Definition UsdcSession_Initialize `{BoundContract St} (s : Session) :=
  session_transact Usdc_Initialize_method s.
Definition Usdc_InitializeV2_method : method :=
  mkMethod "initializeV2" [GString] [].
Definition Usdc_InitializeV2 `{BoundContract St} (opts : TransactOpts) :=
  transactor Usdc_InitializeV2_method opts.
Definition UsdcSession_InitializeV2 `{BoundContract St} (s : Session) :=
  session_transact Usdc_InitializeV2_method s.
Definition Usdc_InitializeV21_method : method :=
  mkMethod "initializeV2_1" [GAddress] [].
Definition Usdc_InitializeV21 `{BoundContract St} (opts : TransactOpts) :=
  transactor Usdc_InitializeV21_method opts.
Definition UsdcSession_InitializeV21 `{BoundContract St} (s : Session) :=
  session_transact Usdc_InitializeV21_method s.
Definition Usdc_Mint_method : method :=
  mkMethod "mint" [GAddress; GBigInt] [].
Definition Usdc_Mint `{BoundContract St} (opts : TransactOpts) :=
  transactor Usdc_Mint_method opts.
Definition UsdcSession_Mint `{BoundContract St} (s : Session) :=
  session_transact Usdc_Mint_method s.
Definition Usdc_Pause_method : method :=
  mkMethod "pause" [] [].
Definition Usdc_Pause `{BoundContract St} (opts : TransactOpts) :=
  transactor Usdc_Pause_method opts.
Definition UsdcSession_Pause `{BoundContract St} (s : Session) :=
  session_transact Usdc_Pause_method s.
Definition Usdc_Permit_method : method :=
  mkMethod "permit" [GAddress; GAddress; GBigInt; GBigInt; GUint8; GByteArray 32; GByteArray 32]
    [].
Definition Usdc_Permit `{BoundContract St} (opts : TransactOpts) :=
  transactor Usdc_Permit_method opts.
Definition UsdcSession_Permit `{BoundContract St} (s : Session) :=
  session_transact Usdc_Permit_method s.
Definition Usdc_ReceiveWithAuthorization_method : method :=
  mkMethod "receiveWithAuthorization" [GAddress; GAddress; GBigInt; GBigInt; GBigInt; GByteArray
    32; GUint8; GByteArray 32;
   GByteArray 32] [].
Definition Usdc_ReceiveWithAuthorization `{BoundContract St} (opts : TransactOpts) :=
  transactor Usdc_ReceiveWithAuthorization_method opts.
Definition UsdcSession_ReceiveWithAuthorization `{BoundContract St} (s : Session) :=
  session_transact Usdc_ReceiveWithAuthorization_method s.
Definition Usdc_RemoveMinter_method : method :=
  mkMethod "removeMinter" [GAddress] [].
Definition Usdc_RemoveMinter `{BoundContract St} (opts : TransactOpts) :=
  transactor Usdc_RemoveMinter_method opts.
Definition UsdcSession_RemoveMinter `{BoundContract St} (s : Session) :=
  session_transact Usdc_RemoveMinter_method s.
Definition Usdc_RescueERC20_method : method :=
  mkMethod "rescueERC20" [GAddress; GAddress; GBigInt] [].
Definition Usdc_RescueERC20 `{BoundContract St} (opts : TransactOpts) :=
  transactor Usdc_RescueERC20_method opts.
Definition UsdcSession_RescueERC20 `{BoundContract St} (s : Session) :=
  session_transact Usdc_RescueERC20_method s.
Definition Usdc_Transfer_method : method :=
  mkMethod "transfer" [GAddress; GBigInt] [].
Definition Usdc_Transfer `{BoundContract St} (opts : TransactOpts) :=
  transactor Usdc_Transfer_method opts.
Definition UsdcSession_Transfer `{BoundContract St} (s : Session) :=
  session_transact Usdc_Transfer_method s.
Definition Usdc_TransferFrom_method : method :=
  mkMethod "transferFrom" [GAddress; GAddress; GBigInt] [].
Definition Usdc_TransferFrom `{BoundContract St} (opts : TransactOpts) :=
  transactor Usdc_TransferFrom_method opts.
Definition UsdcSession_TransferFrom `{BoundContract St} (s : Session) :=
  session_transact Usdc_TransferFrom_method s.
Definition Usdc_TransferOwnership_method : method :=
  mkMethod "transferOwnership" [GAddress] [].
Definition Usdc_TransferOwnership `{BoundContract St} (opts : TransactOpts) :=
  transactor Usdc_TransferOwnership_method opts.
Definition UsdcSession_TransferOwnership `{BoundContract St} (s : Session) :=
  session_transact Usdc_TransferOwnership_method s.
Definition Usdc_TransferWithAuthorization_method : method :=
  mkMethod "transferWithAuthorization" [GAddress; GAddress; GBigInt; GBigInt; GBigInt; GByteArray
    32; GUint8; GByteArray 32;
   GByteArray 32] [].
Definition Usdc_TransferWithAuthorization `{BoundContract St} (opts : TransactOpts) :=
  transactor Usdc_TransferWithAuthorization_method opts.
Definition UsdcSession_TransferWithAuthorization `{BoundContract St} (s : Session) :=
  session_transact Usdc_TransferWithAuthorization_method s.
Definition Usdc_UnBlacklist_method : method :=
  mkMethod "unBlacklist" [GAddress] [].
Definition Usdc_UnBlacklist `{BoundContract St} (opts : TransactOpts) :=
  transactor Usdc_UnBlacklist_method opts.
Definition UsdcSession_UnBlacklist `{BoundContract St} (s : Session) :=
  session_transact Usdc_UnBlacklist_method s.
Definition Usdc_Unpause_method : method :=
  mkMethod "unpause" [] [].
Definition Usdc_Unpause `{BoundContract St} (opts : TransactOpts) :=
  transactor Usdc_Unpause_method opts.
Definition UsdcSession_Unpause `{BoundContract St} (s : Session) :=
  session_transact Usdc_Unpause_method s.
Definition Usdc_UpdateBlacklister_method : method :=
  mkMethod "updateBlacklister" [GAddress] [].
Definition Usdc_UpdateBlacklister `{BoundContract St} (opts : TransactOpts) :=
  transactor Usdc_UpdateBlacklister_method opts.
Definition UsdcSession_UpdateBlacklister `{BoundContract St} (s : Session) :=
  session_transact Usdc_UpdateBlacklister_method s.
Definition Usdc_UpdateMasterMinter_method : method :=
  mkMethod "updateMasterMinter" [GAddress] [].
Definition Usdc_UpdateMasterMinter `{BoundContract St} (opts : TransactOpts) :=
  transactor Usdc_UpdateMasterMinter_method opts.
Definition UsdcSession_UpdateMasterMinter `{BoundContract St} (s : Session) :=
  session_transact Usdc_UpdateMasterMinter_method s.
Definition Usdc_UpdatePauser_method : method :=
  mkMethod "updatePauser" [GAddress] [].
Definition Usdc_UpdatePauser `{BoundContract St} (opts : TransactOpts) :=
  transactor Usdc_UpdatePauser_method opts.
Definition UsdcSession_UpdatePauser `{BoundContract St} (s : Session) :=
  session_transact Usdc_UpdatePauser_method s.
Definition Usdc_UpdateRescuer_method : method :=
  mkMethod "updateRescuer" [GAddress] [].
Definition Usdc_UpdateRescuer `{BoundContract St} (opts : TransactOpts) :=
  transactor Usdc_UpdateRescuer_method opts.
Definition UsdcSession_UpdateRescuer `{BoundContract St} (s : Session) :=
  session_transact Usdc_UpdateRescuer_method s.

Definition Usdc_Approval_event : event_binding :=
  mkEvent "Approval" [(GAddress, true); (GAddress, true); (GBigInt, false)].
Definition Usdc_ApprovalIterator `{BoundContract St} : Type :=
  Iterator Log (go_tuple (e_types Usdc_Approval_event)).
Definition Usdc_ApprovalIterator_Error `{BoundContract St} (it : Usdc_ApprovalIterator) :=
  Error it.
Definition Usdc_ApprovalIterator_Next `{BoundContract St} :=
  Next (UnpackLog (e_name Usdc_Approval_event) (e_types Usdc_Approval_event)).
Definition Usdc_FilterApproval `{BoundContract St} (opts : FilterOpts) :=
  FilterEvent Usdc_Approval_event opts.
Definition Usdc_WatchApproval `{BoundContract St} (opts : WatchOpts) :=
  WatchEvent Usdc_Approval_event opts.
Definition Usdc_WatchApproval_step `{BoundContract St} :=
  watch_step (UnpackLog (e_name Usdc_Approval_event) (e_types Usdc_Approval_event)).
Definition Usdc_ParseApproval `{BoundContract St} (log : Log) :=
  ParseEvent Usdc_Approval_event log.
Definition Usdc_AuthorizationCanceled_event : event_binding :=
  mkEvent "AuthorizationCanceled" [(GAddress, true); (GByteArray 32, true)].
Definition Usdc_AuthorizationCanceledIterator `{BoundContract St} : Type :=
  Iterator Log (go_tuple (e_types Usdc_AuthorizationCanceled_event)).
Definition Usdc_AuthorizationCanceledIterator_Error `{BoundContract St} (it :
  Usdc_AuthorizationCanceledIterator) := Error it.
Definition Usdc_AuthorizationCanceledIterator_Next `{BoundContract St} :=
  Next (UnpackLog (e_name Usdc_AuthorizationCanceled_event) (e_types
    Usdc_AuthorizationCanceled_event)).
Definition Usdc_FilterAuthorizationCanceled `{BoundContract St} (opts : FilterOpts) :=
  FilterEvent Usdc_AuthorizationCanceled_event opts.
Definition Usdc_WatchAuthorizationCanceled `{BoundContract St} (opts : WatchOpts) :=
  WatchEvent Usdc_AuthorizationCanceled_event opts.
Definition Usdc_WatchAuthorizationCanceled_step `{BoundContract St} :=
  watch_step (UnpackLog (e_name Usdc_AuthorizationCanceled_event) (e_types
    Usdc_AuthorizationCanceled_event)).
Definition Usdc_ParseAuthorizationCanceled `{BoundContract St} (log : Log) :=
  ParseEvent Usdc_AuthorizationCanceled_event log.
Definition Usdc_AuthorizationUsed_event : event_binding :=
  mkEvent "AuthorizationUsed" [(GAddress, true); (GByteArray 32, true)].
Definition Usdc_AuthorizationUsedIterator `{BoundContract St} : Type :=
  Iterator Log (go_tuple (e_types Usdc_AuthorizationUsed_event)).
Definition Usdc_AuthorizationUsedIterator_Error `{BoundContract St} (it :
  Usdc_AuthorizationUsedIterator) := Error it.
Definition Usdc_AuthorizationUsedIterator_Next `{BoundContract St} :=
  Next (UnpackLog (e_name Usdc_AuthorizationUsed_event) (e_types Usdc_AuthorizationUsed_event)).
Definition Usdc_FilterAuthorizationUsed `{BoundContract St} (opts : FilterOpts) :=
  FilterEvent Usdc_AuthorizationUsed_event opts.
Definition Usdc_WatchAuthorizationUsed `{BoundContract St} (opts : WatchOpts) :=
  WatchEvent Usdc_AuthorizationUsed_event opts.
Definition Usdc_WatchAuthorizationUsed_step `{BoundContract St} :=
  watch_step (UnpackLog (e_name Usdc_AuthorizationUsed_event) (e_types
    Usdc_AuthorizationUsed_event)).
Definition Usdc_ParseAuthorizationUsed `{BoundContract St} (log : Log) :=
  ParseEvent Usdc_AuthorizationUsed_event log.
Definition Usdc_Blacklisted_event : event_binding :=
  mkEvent "Blacklisted" [(GAddress, true)].
Definition Usdc_BlacklistedIterator `{BoundContract St} : Type :=
  Iterator Log (go_tuple (e_types Usdc_Blacklisted_event)).
Definition Usdc_BlacklistedIterator_Error `{BoundContract St} (it : Usdc_BlacklistedIterator) :=
  Error it.
Definition Usdc_BlacklistedIterator_Next `{BoundContract St} :=
  Next (UnpackLog (e_name Usdc_Blacklisted_event) (e_types Usdc_Blacklisted_event)).
Definition Usdc_FilterBlacklisted `{BoundContract St} (opts : FilterOpts) :=
  FilterEvent Usdc_Blacklisted_event opts.
Definition Usdc_WatchBlacklisted `{BoundContract St} (opts : WatchOpts) :=
  WatchEvent Usdc_Blacklisted_event opts.
Definition Usdc_WatchBlacklisted_step `{BoundContract St} :=
  watch_step (UnpackLog (e_name Usdc_Blacklisted_event) (e_types Usdc_Blacklisted_event)).
Definition Usdc_ParseBlacklisted `{BoundContract St} (log : Log) :=
  ParseEvent Usdc_Blacklisted_event log.
Definition Usdc_BlacklisterChanged_event : event_binding :=
  mkEvent "BlacklisterChanged" [(GAddress, true)].
Definition Usdc_BlacklisterChangedIterator `{BoundContract St} : Type :=
  Iterator Log (go_tuple (e_types Usdc_BlacklisterChanged_event)).
Definition Usdc_BlacklisterChangedIterator_Error `{BoundContract St} (it :
  Usdc_BlacklisterChangedIterator) := Error it.
Definition Usdc_BlacklisterChangedIterator_Next `{BoundContract St} :=
  Next (UnpackLog (e_name Usdc_BlacklisterChanged_event) (e_types Usdc_BlacklisterChanged_event)).
Definition Usdc_FilterBlacklisterChanged `{BoundContract St} (opts : FilterOpts) :=
  FilterEvent Usdc_BlacklisterChanged_event opts.
Definition Usdc_WatchBlacklisterChanged `{BoundContract St} (opts : WatchOpts) :=
  WatchEvent Usdc_BlacklisterChanged_event opts.
Definition Usdc_WatchBlacklisterChanged_step `{BoundContract St} :=
  watch_step (UnpackLog (e_name Usdc_BlacklisterChanged_event) (e_types
    Usdc_BlacklisterChanged_event)).
Definition Usdc_ParseBlacklisterChanged `{BoundContract St} (log : Log) :=
  ParseEvent Usdc_BlacklisterChanged_event log.
Definition Usdc_Burn_event : event_binding :=
  mkEvent "Burn" [(GAddress, true); (GBigInt, false)].
Definition Usdc_BurnIterator `{BoundContract St} : Type :=
  Iterator Log (go_tuple (e_types Usdc_Burn_event)).
Definition Usdc_BurnIterator_Error `{BoundContract St} (it : Usdc_BurnIterator) := Error it.
Definition Usdc_BurnIterator_Next `{BoundContract St} :=
  Next (UnpackLog (e_name Usdc_Burn_event) (e_types Usdc_Burn_event)).
Definition Usdc_FilterBurn `{BoundContract St} (opts : FilterOpts) :=
  FilterEvent Usdc_Burn_event opts.
Definition Usdc_WatchBurn `{BoundContract St} (opts : WatchOpts) :=
  WatchEvent Usdc_Burn_event opts.
Definition Usdc_WatchBurn_step `{BoundContract St} :=
  watch_step (UnpackLog (e_name Usdc_Burn_event) (e_types Usdc_Burn_event)).
Definition Usdc_ParseBurn `{BoundContract St} (log : Log) := ParseEvent Usdc_Burn_event log.
Definition Usdc_MasterMinterChanged_event : event_binding :=
  mkEvent "MasterMinterChanged" [(GAddress, true)].
Definition Usdc_MasterMinterChangedIterator `{BoundContract St} : Type :=
  Iterator Log (go_tuple (e_types Usdc_MasterMinterChanged_event)).
Definition Usdc_MasterMinterChangedIterator_Error `{BoundContract St} (it :
  Usdc_MasterMinterChangedIterator) := Error it.
Definition Usdc_MasterMinterChangedIterator_Next `{BoundContract St} :=
  Next (UnpackLog (e_name Usdc_MasterMinterChanged_event) (e_types
    Usdc_MasterMinterChanged_event)).
Definition Usdc_FilterMasterMinterChanged `{BoundContract St} (opts : FilterOpts) :=
  FilterEvent Usdc_MasterMinterChanged_event opts.
Definition Usdc_WatchMasterMinterChanged `{BoundContract St} (opts : WatchOpts) :=
  WatchEvent Usdc_MasterMinterChanged_event opts.
Definition Usdc_WatchMasterMinterChanged_step `{BoundContract St} :=
  watch_step (UnpackLog (e_name Usdc_MasterMinterChanged_event) (e_types
    Usdc_MasterMinterChanged_event)).
Definition Usdc_ParseMasterMinterChanged `{BoundContract St} (log : Log) :=
  ParseEvent Usdc_MasterMinterChanged_event log.
Definition Usdc_Mint_event : event_binding :=
  mkEvent "Mint" [(GAddress, true); (GAddress, true); (GBigInt, false)].
Definition Usdc_MintIterator `{BoundContract St} : Type :=
  Iterator Log (go_tuple (e_types Usdc_Mint_event)).
Definition Usdc_MintIterator_Error `{BoundContract St} (it : Usdc_MintIterator) := Error it.
Definition Usdc_MintIterator_Next `{BoundContract St} :=
  Next (UnpackLog (e_name Usdc_Mint_event) (e_types Usdc_Mint_event)).
Definition Usdc_FilterMint `{BoundContract St} (opts : FilterOpts) :=
  FilterEvent Usdc_Mint_event opts.
Definition Usdc_WatchMint `{BoundContract St} (opts : WatchOpts) :=
  WatchEvent Usdc_Mint_event opts.
Definition Usdc_WatchMint_step `{BoundContract St} :=
  watch_step (UnpackLog (e_name Usdc_Mint_event) (e_types Usdc_Mint_event)).
Definition Usdc_ParseMint `{BoundContract St} (log : Log) := ParseEvent Usdc_Mint_event log.
Definition Usdc_MinterConfigured_event : event_binding :=
  mkEvent "MinterConfigured" [(GAddress, true); (GBigInt, false)].
Definition Usdc_MinterConfiguredIterator `{BoundContract St} : Type :=
  Iterator Log (go_tuple (e_types Usdc_MinterConfigured_event)).
Definition Usdc_MinterConfiguredIterator_Error `{BoundContract St} (it :
  Usdc_MinterConfiguredIterator) := Error it.
Definition Usdc_MinterConfiguredIterator_Next `{BoundContract St} :=
  Next (UnpackLog (e_name Usdc_MinterConfigured_event) (e_types Usdc_MinterConfigured_event)).
Definition Usdc_FilterMinterConfigured `{BoundContract St} (opts : FilterOpts) :=
  FilterEvent Usdc_MinterConfigured_event opts.
Definition Usdc_WatchMinterConfigured `{BoundContract St} (opts : WatchOpts) :=
  WatchEvent Usdc_MinterConfigured_event opts.
Definition Usdc_WatchMinterConfigured_step `{BoundContract St} :=
  watch_step (UnpackLog (e_name Usdc_MinterConfigured_event) (e_types
    Usdc_MinterConfigured_event)).
Definition Usdc_ParseMinterConfigured `{BoundContract St} (log : Log) :=
  ParseEvent Usdc_MinterConfigured_event log.
Definition Usdc_MinterRemoved_event : event_binding :=
  mkEvent "MinterRemoved" [(GAddress, true)].
Definition Usdc_MinterRemovedIterator `{BoundContract St} : Type :=
  Iterator Log (go_tuple (e_types Usdc_MinterRemoved_event)).
Definition Usdc_MinterRemovedIterator_Error `{BoundContract St} (it : Usdc_MinterRemovedIterator)
  := Error it.
Definition Usdc_MinterRemovedIterator_Next `{BoundContract St} :=
  Next (UnpackLog (e_name Usdc_MinterRemoved_event) (e_types Usdc_MinterRemoved_event)).
Definition Usdc_FilterMinterRemoved `{BoundContract St} (opts : FilterOpts) :=
  FilterEvent Usdc_MinterRemoved_event opts.
Definition Usdc_WatchMinterRemoved `{BoundContract St} (opts : WatchOpts) :=
  WatchEvent Usdc_MinterRemoved_event opts.
Definition Usdc_WatchMinterRemoved_step `{BoundContract St} :=
  watch_step (UnpackLog (e_name Usdc_MinterRemoved_event) (e_types Usdc_MinterRemoved_event)).
Definition Usdc_ParseMinterRemoved `{BoundContract St} (log : Log) :=
  ParseEvent Usdc_MinterRemoved_event log.
Definition Usdc_OwnershipTransferred_event : event_binding :=
  mkEvent "OwnershipTransferred" [(GAddress, false); (GAddress, false)].
Definition Usdc_OwnershipTransferredIterator `{BoundContract St} : Type :=
  Iterator Log (go_tuple (e_types Usdc_OwnershipTransferred_event)).
Definition Usdc_OwnershipTransferredIterator_Error `{BoundContract St} (it :
  Usdc_OwnershipTransferredIterator) := Error it.
Definition Usdc_OwnershipTransferredIterator_Next `{BoundContract St} :=
  Next (UnpackLog (e_name Usdc_OwnershipTransferred_event) (e_types
    Usdc_OwnershipTransferred_event)).
Definition Usdc_FilterOwnershipTransferred `{BoundContract St} (opts : FilterOpts) :=
  FilterEvent Usdc_OwnershipTransferred_event opts.
Definition Usdc_WatchOwnershipTransferred `{BoundContract St} (opts : WatchOpts) :=
  WatchEvent Usdc_OwnershipTransferred_event opts.
Definition Usdc_WatchOwnershipTransferred_step `{BoundContract St} :=
  watch_step (UnpackLog (e_name Usdc_OwnershipTransferred_event) (e_types
    Usdc_OwnershipTransferred_event)).
Definition Usdc_ParseOwnershipTransferred `{BoundContract St} (log : Log) :=
  ParseEvent Usdc_OwnershipTransferred_event log.
Definition Usdc_Pause_event : event_binding :=
  mkEvent "Pause" [].
Definition Usdc_PauseIterator `{BoundContract St} : Type :=
  Iterator Log (go_tuple (e_types Usdc_Pause_event)).
Definition Usdc_PauseIterator_Error `{BoundContract St} (it : Usdc_PauseIterator) := Error it.
Definition Usdc_PauseIterator_Next `{BoundContract St} :=
  Next (UnpackLog (e_name Usdc_Pause_event) (e_types Usdc_Pause_event)).
Definition Usdc_FilterPause `{BoundContract St} (opts : FilterOpts) :=
  FilterEvent Usdc_Pause_event opts.
Definition Usdc_WatchPause `{BoundContract St} (opts : WatchOpts) :=
  WatchEvent Usdc_Pause_event opts.
Definition Usdc_WatchPause_step `{BoundContract St} :=
  watch_step (UnpackLog (e_name Usdc_Pause_event) (e_types Usdc_Pause_event)).
Definition Usdc_ParsePause `{BoundContract St} (log : Log) := ParseEvent Usdc_Pause_event log.
Definition Usdc_PauserChanged_event : event_binding :=
  mkEvent "PauserChanged" [(GAddress, true)].
Definition Usdc_PauserChangedIterator `{BoundContract St} : Type :=
  Iterator Log (go_tuple (e_types Usdc_PauserChanged_event)).
Definition Usdc_PauserChangedIterator_Error `{BoundContract St} (it : Usdc_PauserChangedIterator)
  := Error it.
Definition Usdc_PauserChangedIterator_Next `{BoundContract St} :=
  Next (UnpackLog (e_name Usdc_PauserChanged_event) (e_types Usdc_PauserChanged_event)).
Definition Usdc_FilterPauserChanged `{BoundContract St} (opts : FilterOpts) :=
  FilterEvent Usdc_PauserChanged_event opts.
Definition Usdc_WatchPauserChanged `{BoundContract St} (opts : WatchOpts) :=
  WatchEvent Usdc_PauserChanged_event opts.
Definition Usdc_WatchPauserChanged_step `{BoundContract St} :=
  watch_step (UnpackLog (e_name Usdc_PauserChanged_event) (e_types Usdc_PauserChanged_event)).
Definition Usdc_ParsePauserChanged `{BoundContract St} (log : Log) :=
  ParseEvent Usdc_PauserChanged_event log.
Definition Usdc_RescuerChanged_event : event_binding :=
  mkEvent "RescuerChanged" [(GAddress, true)].
Definition Usdc_RescuerChangedIterator `{BoundContract St} : Type :=
  Iterator Log (go_tuple (e_types Usdc_RescuerChanged_event)).
Definition Usdc_RescuerChangedIterator_Error `{BoundContract St} (it :
  Usdc_RescuerChangedIterator) := Error it.
Definition Usdc_RescuerChangedIterator_Next `{BoundContract St} :=
  Next (UnpackLog (e_name Usdc_RescuerChanged_event) (e_types Usdc_RescuerChanged_event)).
Definition Usdc_FilterRescuerChanged `{BoundContract St} (opts : FilterOpts) :=
  FilterEvent Usdc_RescuerChanged_event opts.
Definition Usdc_WatchRescuerChanged `{BoundContract St} (opts : WatchOpts) :=
  WatchEvent Usdc_RescuerChanged_event opts.
Definition Usdc_WatchRescuerChanged_step `{BoundContract St} :=
  watch_step (UnpackLog (e_name Usdc_RescuerChanged_event) (e_types Usdc_RescuerChanged_event)).
Definition Usdc_ParseRescuerChanged `{BoundContract St} (log : Log) :=
  ParseEvent Usdc_RescuerChanged_event log.
Definition Usdc_Transfer_event : event_binding :=
  mkEvent "Transfer" [(GAddress, true); (GAddress, true); (GBigInt, false)].
Definition Usdc_TransferIterator `{BoundContract St} : Type :=
  Iterator Log (go_tuple (e_types Usdc_Transfer_event)).
Definition Usdc_TransferIterator_Error `{BoundContract St} (it : Usdc_TransferIterator) :=
  Error it.
Definition Usdc_TransferIterator_Next `{BoundContract St} :=
  Next (UnpackLog (e_name Usdc_Transfer_event) (e_types Usdc_Transfer_event)).
Definition Usdc_FilterTransfer `{BoundContract St} (opts : FilterOpts) :=
  FilterEvent Usdc_Transfer_event opts.
Definition Usdc_WatchTransfer `{BoundContract St} (opts : WatchOpts) :=
  WatchEvent Usdc_Transfer_event opts.
Definition Usdc_WatchTransfer_step `{BoundContract St} :=
  watch_step (UnpackLog (e_name Usdc_Transfer_event) (e_types Usdc_Transfer_event)).
Definition Usdc_ParseTransfer `{BoundContract St} (log : Log) :=
  ParseEvent Usdc_Transfer_event log.
Definition Usdc_UnBlacklisted_event : event_binding :=
  mkEvent "UnBlacklisted" [(GAddress, true)].
Definition Usdc_UnBlacklistedIterator `{BoundContract St} : Type :=
  Iterator Log (go_tuple (e_types Usdc_UnBlacklisted_event)).
Definition Usdc_UnBlacklistedIterator_Error `{BoundContract St} (it : Usdc_UnBlacklistedIterator)
  := Error it.
Definition Usdc_UnBlacklistedIterator_Next `{BoundContract St} :=
  Next (UnpackLog (e_name Usdc_UnBlacklisted_event) (e_types Usdc_UnBlacklisted_event)).
Definition Usdc_FilterUnBlacklisted `{BoundContract St} (opts : FilterOpts) :=
  FilterEvent Usdc_UnBlacklisted_event opts.
Definition Usdc_WatchUnBlacklisted `{BoundContract St} (opts : WatchOpts) :=
  WatchEvent Usdc_UnBlacklisted_event opts.
Definition Usdc_WatchUnBlacklisted_step `{BoundContract St} :=
  watch_step (UnpackLog (e_name Usdc_UnBlacklisted_event) (e_types Usdc_UnBlacklisted_event)).
Definition Usdc_ParseUnBlacklisted `{BoundContract St} (log : Log) :=
  ParseEvent Usdc_UnBlacklisted_event log.
Definition Usdc_Unpause_event : event_binding :=
  mkEvent "Unpause" [].
Definition Usdc_UnpauseIterator `{BoundContract St} : Type :=
  Iterator Log (go_tuple (e_types Usdc_Unpause_event)).
Definition Usdc_UnpauseIterator_Error `{BoundContract St} (it : Usdc_UnpauseIterator) := Error it.
Definition Usdc_UnpauseIterator_Next `{BoundContract St} :=
  Next (UnpackLog (e_name Usdc_Unpause_event) (e_types Usdc_Unpause_event)).
Definition Usdc_FilterUnpause `{BoundContract St} (opts : FilterOpts) :=
  FilterEvent Usdc_Unpause_event opts.
Definition Usdc_WatchUnpause `{BoundContract St} (opts : WatchOpts) :=
  WatchEvent Usdc_Unpause_event opts.
Definition Usdc_WatchUnpause_step `{BoundContract St} :=
  watch_step (UnpackLog (e_name Usdc_Unpause_event) (e_types Usdc_Unpause_event)).
Definition Usdc_ParseUnpause `{BoundContract St} (log : Log) := ParseEvent Usdc_Unpause_event log.

Definition Usdc_calls : list method :=
  [Usdc_CANCELAUTHORIZATIONTYPEHASH_method; Usdc_DOMAINSEPARATOR_method;
   Usdc_PERMITTYPEHASH_method; Usdc_RECEIVEWITHAUTHORIZATIONTYPEHASH_method;
   Usdc_TRANSFERWITHAUTHORIZATIONTYPEHASH_method; Usdc_Allowance_method;
   Usdc_AuthorizationState_method; Usdc_BalanceOf_method; Usdc_Blacklister_method;
   Usdc_Currency_method; Usdc_Decimals_method; Usdc_IsBlacklisted_method; Usdc_IsMinter_method;
   Usdc_MasterMinter_method; Usdc_MinterAllowance_method; Usdc_Name_method; Usdc_Nonces_method;
   Usdc_Owner_method; Usdc_Paused_method; Usdc_Pauser_method; Usdc_Rescuer_method;
   Usdc_Symbol_method; Usdc_TotalSupply_method; Usdc_Version_method].
Definition Usdc_transacts : list method :=
  [Usdc_Approve_method; Usdc_Blacklist_method; Usdc_Burn_method;
   Usdc_CancelAuthorization_method; Usdc_ConfigureMinter_method; Usdc_DecreaseAllowance_method;
   Usdc_IncreaseAllowance_method; Usdc_Initialize_method; Usdc_InitializeV2_method;
   Usdc_InitializeV21_method; Usdc_Mint_method; Usdc_Pause_method; Usdc_Permit_method;
   Usdc_ReceiveWithAuthorization_method; Usdc_RemoveMinter_method; Usdc_RescueERC20_method;
   Usdc_Transfer_method; Usdc_TransferFrom_method; Usdc_TransferOwnership_method;
   Usdc_TransferWithAuthorization_method; Usdc_UnBlacklist_method; Usdc_Unpause_method;
   Usdc_UpdateBlacklister_method; Usdc_UpdateMasterMinter_method; Usdc_UpdatePauser_method;
   Usdc_UpdateRescuer_method].
Definition Usdc_events : list event_binding :=
  [Usdc_Approval_event; Usdc_AuthorizationCanceled_event; Usdc_AuthorizationUsed_event;
   Usdc_Blacklisted_event; Usdc_BlacklisterChanged_event; Usdc_Burn_event;
   Usdc_MasterMinterChanged_event; Usdc_Mint_event; Usdc_MinterConfigured_event;
   Usdc_MinterRemoved_event; Usdc_OwnershipTransferred_event; Usdc_Pause_event;
   Usdc_PauserChanged_event; Usdc_RescuerChanged_event; Usdc_Transfer_event;
   Usdc_UnBlacklisted_event; Usdc_Unpause_event].

(** ** Properties *)

(** The binding covers the ABI: every method and event of one is in the other, with the
    Go types of its inputs and outputs. *)
Theorem usdc_covers : covers UsdcABI Usdc_calls Usdc_transacts Usdc_events = true.
Proof. vm_compute. reflexivity. Qed.

(** The selectors and topics in the comments are those of the ABI. *)
Theorem usdc_identifiers :
  (λ am, hex_EncodeToString (selector (signature (am_name am) (am_inputs am)))) <$> abi_methods
    UsdcABI =
    ["d9169487"; "3644e515"; "30adf81f"; "7f2eecc3"; "a0cc6a68"; "dd62ed3e"; "095ea7b3";
     "e94a0102"; "70a08231"; "f9f92be4"; "bd102430"; "42966c68"; "5a049a70"; "4e44d956";
     "e5a6b10f"; "313ce567"; "a457c2d7"; "39509351"; "3357162b"; "d608ea64"; "2fc81e09";
     "fe575a87"; "aa271e1a"; "35d99f35"; "40c10f19"; "8a6db9c3"; "06fdde03"; "7ecebe00";
     "8da5cb5b"; "8456cb59"; "5c975abb"; "9fd0506d"; "d505accf"; "ef55bec6"; "3092afd5";
     "b2118a8d"; "38a63183"; "95d89b41"; "18160ddd"; "a9059cbb"; "23b872dd"; "f2fde38b";
     "e3ee160e"; "1a895266"; "3f4ba83a"; "ad38bf22"; "aa20e1e4"; "554bab3c"; "2ab60045";
     "54fd4d50"]%string ∧
  (λ ae, hex_EncodeToString (topic (signature (ae_name ae) (fst <$> ae_inputs ae)))) <$>
    abi_events UsdcABI =
    ["8c5be1e5ebec7d5bd14f71427d1e84f3dd0314c0f7b2291e5b200ac8c7c3b925";
     "1cdd46ff242716cdaa72d159d339a485b3438398348d68f09d7c8c0a59353d81";
     "98de503528ee59b575ef0c0a2576a82497bfc029a5685b209e9ec333479b10a5";
     "ffa4e6181777692565cf28528fc88fd1516ea86b56da075235fa575af6a4b855";
     "c67398012c111ce95ecb7429b933096c977380ee6c421175a71a4a4c6c88c06e";
     "cc16f5dbb4873280815c1ee09dbd06736cffcc184412cf7a71a0fdb75d397ca5";
     "db66dfa9c6b8f5226fe9aac7e51897ae8ee94ac31dc70bb6c9900b2574b707e6";
     "ab8530f87dc9b59234c4623bf917212bb2536d647574c8e7e5da92c2ede0c9f8";
     "46980fca912ef9bcdbd36877427b6b90e860769f604e89c0e67720cece530d20";
     "e94479a9f7e1952cc78f2d6baab678adc1b772d936c6583def489e524cb66692";
     "8be0079c531659141344cd1fd0a4f28419497f9722a3daafe3b4186f6b6457e0";
     "6985a02210a168e66602d3235cb6db0e70f92b3ba4d376a33c0f3d9434bff625";
     "b80482a293ca2e013eda8683c9bd7fc8347cfdaeea5ede58cba46df502c2a604";
     "e475e580d85111348e40d8ca33cfdd74c30fe1655c2d8537a13abc10065ffa5a";
     "ddf252ad1be2c89b69c2b068fc378daa952ba7f163c4a11628f55a4df523b3ef";
     "117e3210bb9aa7d9baff172026820255c6f6c30ba8999d1c2fd88e2848137c4e";
     "7805862f689e2f13df9f062ff482ad3ad112aca9e0847911ed832e158c525b33"]%string.
Proof. vm_compute. split; reflexivity. Qed.

(** A call of the binding returns what the contract answered: of a contract that
    answers as its ABI says, every method returns all results, in order and with their
    types, or the error of the call, and none panics. *)
Theorem usdc_calls_safe `{BoundContract St} `{!BoundContractLaws UsdcABI} m opts :
  m ∈ Usdc_calls → for_args (m_args m) (returns_answer m opts) (caller m opts).
Proof.
  intros Hm. apply (caller_safe UsdcABI). by eapply covers_call; [apply usdc_covers|].
Qed.

(** The topic by which the program finds the transfers in a receipt
    (shared/evmrpc/rpcquerier.go) is that of the event. *)
Theorem usdc_transfer_topic :
  ("0x" +:+ hex_EncodeToString (topic "Transfer(address,address,uint256)"))%string =
    transferSignature ∧
  (λ ae, signature (ae_name ae) (fst <$> ae_inputs ae)) <$>
    List.filter (λ ae, (ae_name ae =? "Transfer")%string) (abi_events UsdcABI)
    = ["Transfer(address,address,uint256)"%string].
Proof. vm_compute. split; reflexivity. Qed.
