(* ===== verification/GatewayBinding.v ===== *)
(** * GatewayBinding: shared/contracts/fast_transfer_gateway/fast_transfer_gateway.go

    The binding of the fast transfer gateway: its ABI, and for every method and event what
    its text calls, converts, filters and parses (see [Abigen]). *)
From Stdlib Require Import Strings.Byte.
From S2P Require Import Prelude GoLib Keccak Abigen.

(** ** FastTransferGateway *)

(** The ABI in [FastTransferGatewayMetaData]. *)
Definition GatewayABI : contract_abi := mkAbi
  [mkAbiMethod "PERMIT2" "PERMIT2" [] [AAddress] true;
   mkAbiMethod "UPGRADE_INTERFACE_VERSION" "UPGRADE_INTERFACE_VERSION" [] [AString] true;
   mkAbiMethod "fillOrder" "fillOrder" [AAddress;
   ATuple [AFixedBytes 32; AFixedBytes 32; AUint 256; AUint 256; AUint 32; AUint 32; AUint 32;
     AUint 64; ABytes]] [] false;
   mkAbiMethod "goFastCaller" "goFastCaller" [] [AAddress] true;
   mkAbiMethod "handle" "handle" [AUint 32; AFixedBytes 32; ABytes] [] false;
   mkAbiMethod "initialize" "initialize" [AUint 32; AAddress; AAddress; AAddress; AAddress;
     AAddress; AAddress] [] false;
   mkAbiMethod "initiateSettlement" "initiateSettlement" [AFixedBytes 32; ABytes] [] false;
   mkAbiMethod "initiateTimeout" "initiateTimeout" [ASlice (ATuple [AFixedBytes 32; AFixedBytes
     32; AUint 256; AUint 256; AUint 32; AUint 32; AUint 32; AUint 64; ABytes])] [] false;
   mkAbiMethod "interchainSecurityModule" "interchainSecurityModule" [] [AAddress] true;
   mkAbiMethod "localDomain" "localDomain" [] [AUint 32] true;
   mkAbiMethod "mailbox" "mailbox" [] [AAddress] true;
   mkAbiMethod "nonce" "nonce" [] [AUint 32] true;
   mkAbiMethod "orderFills" "orderFills" [AFixedBytes 32] [AFixedBytes 32; AAddress; AUint 32]
     true;
   mkAbiMethod "orderStatuses" "orderStatuses" [AFixedBytes 32] [AUint 8] true;
   mkAbiMethod "owner" "owner" [] [AAddress] true;
   mkAbiMethod "proxiableUUID" "proxiableUUID" [] [AFixedBytes 32] true;
   mkAbiMethod "quoteInitiateSettlement" "quoteInitiateSettlement" [AUint 32; AFixedBytes 32;
     ABytes] [AUint 256] true;
   mkAbiMethod "quoteInitiateTimeout" "quoteInitiateTimeout" [AUint 32;
   ASlice (ATuple [AFixedBytes 32; AFixedBytes 32; AUint 256; AUint 256; AUint 32; AUint 32;
     AUint 32; AUint 64; ABytes])] [AUint 256] true;
   mkAbiMethod "remoteDomains" "remoteDomains" [AUint 32] [AFixedBytes 32] true;
   mkAbiMethod "renounceOwnership" "renounceOwnership" [] [] false;
   mkAbiMethod "setInterchainSecurityModule" "setInterchainSecurityModule" [AAddress] [] false;
   mkAbiMethod "setMailbox" "setMailbox" [AAddress] [] false;
   mkAbiMethod "setRemoteDomain" "setRemoteDomain" [AUint 32; AFixedBytes 32] [] false;
   mkAbiMethod "settlementDetails" "settlementDetails" [AFixedBytes 32] [AFixedBytes 32; AUint
     256; AUint 32; AUint 256] true;
   mkAbiMethod "submitOrder" "submitOrder" [AFixedBytes 32; AFixedBytes 32; AUint 256; AUint 256;
     AUint 32; AUint 64; ABytes] [AFixedBytes 32] false;
   mkAbiMethod "submitOrderWithPermit" "submitOrderWithPermit" [AFixedBytes 32; AFixedBytes 32;
     AUint 256; AUint 256; AUint 32; AUint 64; AUint 256; ABytes;
   ABytes] [AFixedBytes 32] false;
   mkAbiMethod "token" "token" [] [AAddress] true;
   mkAbiMethod "transferOwnership" "transferOwnership" [AAddress] [] false;
   mkAbiMethod "upgradeToAndCall" "upgradeToAndCall" [AAddress; ABytes] [] false]
  [mkAbiEvent "Initialized" [(AUint 64, false)];
   mkAbiEvent "OrderAlreadySettled" [(AFixedBytes 32, true)];
   mkAbiEvent "OrderRefunded" [(AFixedBytes 32, true)];
   mkAbiEvent "OrderSettled" [(AFixedBytes 32, true)];
   mkAbiEvent "OrderSubmitted" [(AFixedBytes 32, true); (ABytes, false)];
   mkAbiEvent "OwnershipTransferred" [(AAddress, true); (AAddress, true)];
   mkAbiEvent "Upgraded" [(AAddress, true)]]%string.

Definition Gateway_PERMIT2_method : method :=
  mkMethod "PERMIT2" [] [GAddress].
Definition Gateway_PERMIT2 `{BoundContract St} (opts : CallOpts) :=
  caller Gateway_PERMIT2_method opts.
Definition GatewaySession_PERMIT2 `{BoundContract St} (s : Session) :=
  session_call Gateway_PERMIT2_method s.
Definition Gateway_UPGRADEINTERFACEVERSION_method : method :=
  mkMethod "UPGRADE_INTERFACE_VERSION" [] [GString].
Definition Gateway_UPGRADEINTERFACEVERSION `{BoundContract St} (opts : CallOpts) :=
  caller Gateway_UPGRADEINTERFACEVERSION_method opts.
Definition GatewaySession_UPGRADEINTERFACEVERSION `{BoundContract St} (s : Session) :=
  session_call Gateway_UPGRADEINTERFACEVERSION_method s.
Definition Gateway_GoFastCaller_method : method :=
  mkMethod "goFastCaller" [] [GAddress].
Definition Gateway_GoFastCaller `{BoundContract St} (opts : CallOpts) :=
  caller Gateway_GoFastCaller_method opts.
Definition GatewaySession_GoFastCaller `{BoundContract St} (s : Session) :=
  session_call Gateway_GoFastCaller_method s.
Definition Gateway_InterchainSecurityModule_method : method :=
  mkMethod "interchainSecurityModule" [] [GAddress].
Definition Gateway_InterchainSecurityModule `{BoundContract St} (opts : CallOpts) :=
  caller Gateway_InterchainSecurityModule_method opts.
Definition GatewaySession_InterchainSecurityModule `{BoundContract St} (s : Session) :=
  session_call Gateway_InterchainSecurityModule_method s.
Definition Gateway_LocalDomain_method : method :=
  mkMethod "localDomain" [] [GUint32].
Definition Gateway_LocalDomain `{BoundContract St} (opts : CallOpts) :=
  caller Gateway_LocalDomain_method opts.
Definition GatewaySession_LocalDomain `{BoundContract St} (s : Session) :=
  session_call Gateway_LocalDomain_method s.
Definition Gateway_Mailbox_method : method :=
  mkMethod "mailbox" [] [GAddress].
Definition Gateway_Mailbox `{BoundContract St} (opts : CallOpts) :=
  caller Gateway_Mailbox_method opts.
Definition GatewaySession_Mailbox `{BoundContract St} (s : Session) :=
  session_call Gateway_Mailbox_method s.
Definition Gateway_Nonce_method : method :=
  mkMethod "nonce" [] [GUint32].
Definition Gateway_Nonce `{BoundContract St} (opts : CallOpts) :=
  caller Gateway_Nonce_method opts.
Definition GatewaySession_Nonce `{BoundContract St} (s : Session) :=
  session_call Gateway_Nonce_method s.
Definition Gateway_OrderFills_method : method :=
  mkMethod "orderFills" [GByteArray 32] [GByteArray 32; GAddress; GUint32].
Definition Gateway_OrderFills `{BoundContract St} (opts : CallOpts) :=
  caller Gateway_OrderFills_method opts.
Definition GatewaySession_OrderFills `{BoundContract St} (s : Session) :=
  session_call Gateway_OrderFills_method s.
Definition Gateway_OrderStatuses_method : method :=
  mkMethod "orderStatuses" [GByteArray 32] [GUint8].
Definition Gateway_OrderStatuses `{BoundContract St} (opts : CallOpts) :=
  caller Gateway_OrderStatuses_method opts.
Definition GatewaySession_OrderStatuses `{BoundContract St} (s : Session) :=
  session_call Gateway_OrderStatuses_method s.
Definition Gateway_Owner_method : method :=
  mkMethod "owner" [] [GAddress].
Definition Gateway_Owner `{BoundContract St} (opts : CallOpts) :=
  caller Gateway_Owner_method opts.
Definition GatewaySession_Owner `{BoundContract St} (s : Session) :=
  session_call Gateway_Owner_method s.
Definition Gateway_ProxiableUUID_method : method :=
  mkMethod "proxiableUUID" [] [GByteArray 32].
Definition Gateway_ProxiableUUID `{BoundContract St} (opts : CallOpts) :=
  caller Gateway_ProxiableUUID_method opts.
Definition GatewaySession_ProxiableUUID `{BoundContract St} (s : Session) :=
  session_call Gateway_ProxiableUUID_method s.
Definition Gateway_QuoteInitiateSettlement_method : method :=
  mkMethod "quoteInitiateSettlement" [GUint32; GByteArray 32; GBytes] [GBigInt].
Definition Gateway_QuoteInitiateSettlement `{BoundContract St} (opts : CallOpts) :=
  caller Gateway_QuoteInitiateSettlement_method opts.
Definition GatewaySession_QuoteInitiateSettlement `{BoundContract St} (s : Session) :=
  session_call Gateway_QuoteInitiateSettlement_method s.
Definition Gateway_QuoteInitiateTimeout_method : method :=
  mkMethod "quoteInitiateTimeout" [GUint32;
   GSlice (GStruct [GByteArray 32; GByteArray 32; GBigInt; GBigInt; GUint32; GUint32; GUint32;
     GUint64; GBytes])] [GBigInt].
Definition Gateway_QuoteInitiateTimeout `{BoundContract St} (opts : CallOpts) :=
  caller Gateway_QuoteInitiateTimeout_method opts.
Definition GatewaySession_QuoteInitiateTimeout `{BoundContract St} (s : Session) :=
  session_call Gateway_QuoteInitiateTimeout_method s.
Definition Gateway_RemoteDomains_method : method :=
  mkMethod "remoteDomains" [GUint32] [GByteArray 32].
Definition Gateway_RemoteDomains `{BoundContract St} (opts : CallOpts) :=
  caller Gateway_RemoteDomains_method opts.
Definition GatewaySession_RemoteDomains `{BoundContract St} (s : Session) :=
  session_call Gateway_RemoteDomains_method s.
Definition Gateway_SettlementDetails_method : method :=
  mkMethod "settlementDetails" [GByteArray 32] [GByteArray 32; GBigInt; GUint32; GBigInt].
Definition Gateway_SettlementDetails `{BoundContract St} (opts : CallOpts) :=
  caller Gateway_SettlementDetails_method opts.
Definition GatewaySession_SettlementDetails `{BoundContract St} (s : Session) :=
  session_call Gateway_SettlementDetails_method s.
Definition Gateway_Token_method : method :=
  mkMethod "token" [] [GAddress].
Definition Gateway_Token `{BoundContract St} (opts : CallOpts) :=
  caller Gateway_Token_method opts.
Definition GatewaySession_Token `{BoundContract St} (s : Session) :=
  session_call Gateway_Token_method s.
Definition Gateway_FillOrder_method : method :=
  mkMethod "fillOrder" [GAddress;
   GStruct [GByteArray 32; GByteArray 32; GBigInt; GBigInt; GUint32; GUint32; GUint32; GUint64;
     GBytes]] [].
Definition Gateway_FillOrder `{BoundContract St} (opts : TransactOpts) :=
  transactor Gateway_FillOrder_method opts.
Definition GatewaySession_FillOrder `{BoundContract St} (s : Session) :=
  session_transact Gateway_FillOrder_method s.
Definition Gateway_Handle_method : method :=
  mkMethod "handle" [GUint32; GByteArray 32; GBytes] [].
Definition Gateway_Handle `{BoundContract St} (opts : TransactOpts) :=
  transactor Gateway_Handle_method opts.
Definition GatewaySession_Handle `{BoundContract St} (s : Session) :=
  session_transact Gateway_Handle_method s.
Definition Gateway_Initialize_method : method :=
  mkMethod "initialize" [GUint32; GAddress; GAddress; GAddress; GAddress; GAddress; GAddress] [].
Definition Gateway_Initialize `{BoundContract St} (opts : TransactOpts) :=
  transactor Gateway_Initialize_method opts.
Definition GatewaySession_Initialize `{BoundContract St} (s : Session) :=
  session_transact Gateway_Initialize_method s.
Definition Gateway_InitiateSettlement_method : method :=
  mkMethod "initiateSettlement" [GByteArray 32; GBytes] [].
Definition Gateway_InitiateSettlement `{BoundContract St} (opts : TransactOpts) :=
  transactor Gateway_InitiateSettlement_method opts.
Definition GatewaySession_InitiateSettlement `{BoundContract St} (s : Session) :=
  session_transact Gateway_InitiateSettlement_method s.
Definition Gateway_InitiateTimeout_method : method :=
  mkMethod "initiateTimeout" [GSlice (GStruct [GByteArray 32; GByteArray 32; GBigInt; GBigInt;
    GUint32; GUint32; GUint32; GUint64; GBytes])] [].
Definition Gateway_InitiateTimeout `{BoundContract St} (opts : TransactOpts) :=
  transactor Gateway_InitiateTimeout_method opts.
Definition GatewaySession_InitiateTimeout `{BoundContract St} (s : Session) :=
  session_transact Gateway_InitiateTimeout_method s.
Definition Gateway_RenounceOwnership_method : method :=
  mkMethod "renounceOwnership" [] [].
Definition Gateway_RenounceOwnership `{BoundContract St} (opts : TransactOpts) :=
  transactor Gateway_RenounceOwnership_method opts.
Definition GatewaySession_RenounceOwnership `{BoundContract St} (s : Session) :=
  session_transact Gateway_RenounceOwnership_method s.
Definition Gateway_SetInterchainSecurityModule_method : method :=
  mkMethod "setInterchainSecurityModule" [GAddress] [].
Definition Gateway_SetInterchainSecurityModule `{BoundContract St} (opts : TransactOpts) :=
  transactor Gateway_SetInterchainSecurityModule_method opts.
Definition GatewaySession_SetInterchainSecurityModule `{BoundContract St} (s : Session) :=
  session_transact Gateway_SetInterchainSecurityModule_method s.
Definition Gateway_SetMailbox_method : method :=
  mkMethod "setMailbox" [GAddress] [].
Definition Gateway_SetMailbox `{BoundContract St} (opts : TransactOpts) :=
  transactor Gateway_SetMailbox_method opts.
Definition GatewaySession_SetMailbox `{BoundContract St} (s : Session) :=
  session_transact Gateway_SetMailbox_method s.
Definition Gateway_SetRemoteDomain_method : method :=
  mkMethod "setRemoteDomain" [GUint32; GByteArray 32] [].
Definition Gateway_SetRemoteDomain `{BoundContract St} (opts : TransactOpts) :=
  transactor Gateway_SetRemoteDomain_method opts.
Definition GatewaySession_SetRemoteDomain `{BoundContract St} (s : Session) :=
  session_transact Gateway_SetRemoteDomain_method s.
Definition Gateway_SubmitOrder_method : method :=
  mkMethod "submitOrder" [GByteArray 32; GByteArray 32; GBigInt; GBigInt; GUint32; GUint64;
    GBytes] [].
Definition Gateway_SubmitOrder `{BoundContract St} (opts : TransactOpts) :=
  transactor Gateway_SubmitOrder_method opts.
Definition GatewaySession_SubmitOrder `{BoundContract St} (s : Session) :=
  session_transact Gateway_SubmitOrder_method s.
Definition Gateway_SubmitOrderWithPermit_method : method :=
  mkMethod "submitOrderWithPermit" [GByteArray 32; GByteArray 32; GBigInt; GBigInt; GUint32;
    GUint64; GBigInt; GBytes; GBytes] [].
Definition Gateway_SubmitOrderWithPermit `{BoundContract St} (opts : TransactOpts) :=
  transactor Gateway_SubmitOrderWithPermit_method opts.
Definition GatewaySession_SubmitOrderWithPermit `{BoundContract St} (s : Session) :=
  session_transact Gateway_SubmitOrderWithPermit_method s.
Definition Gateway_TransferOwnership_method : method :=
  mkMethod "transferOwnership" [GAddress] [].
Definition Gateway_TransferOwnership `{BoundContract St} (opts : TransactOpts) :=
  transactor Gateway_TransferOwnership_method opts.
Definition GatewaySession_TransferOwnership `{BoundContract St} (s : Session) :=
  session_transact Gateway_TransferOwnership_method s.
Definition Gateway_UpgradeToAndCall_method : method :=
  mkMethod "upgradeToAndCall" [GAddress; GBytes] [].
Definition Gateway_UpgradeToAndCall `{BoundContract St} (opts : TransactOpts) :=
  transactor Gateway_UpgradeToAndCall_method opts.
Definition GatewaySession_UpgradeToAndCall `{BoundContract St} (s : Session) :=
  session_transact Gateway_UpgradeToAndCall_method s.

Definition Gateway_Initialized_event : event_binding :=
  mkEvent "Initialized" [(GUint64, false)].
Definition Gateway_InitializedIterator `{BoundContract St} : Type :=
  Iterator Log (go_tuple (e_types Gateway_Initialized_event)).
Definition Gateway_InitializedIterator_Error `{BoundContract St} (it :
  Gateway_InitializedIterator) := Error it.
Definition Gateway_InitializedIterator_Next `{BoundContract St} :=
  Next (UnpackLog (e_name Gateway_Initialized_event) (e_types Gateway_Initialized_event)).
Definition Gateway_FilterInitialized `{BoundContract St} (opts : FilterOpts) :=
  FilterEvent Gateway_Initialized_event opts.
Definition Gateway_WatchInitialized `{BoundContract St} (opts : WatchOpts) :=
  WatchEvent Gateway_Initialized_event opts.
Definition Gateway_WatchInitialized_step `{BoundContract St} :=
  watch_step (UnpackLog (e_name Gateway_Initialized_event) (e_types Gateway_Initialized_event)).
Definition Gateway_ParseInitialized `{BoundContract St} (log : Log) :=
  ParseEvent Gateway_Initialized_event log.
Definition Gateway_OrderAlreadySettled_event : event_binding :=
  mkEvent "OrderAlreadySettled" [(GByteArray 32, true)].
Definition Gateway_OrderAlreadySettledIterator `{BoundContract St} : Type :=
  Iterator Log (go_tuple (e_types Gateway_OrderAlreadySettled_event)).
Definition Gateway_OrderAlreadySettledIterator_Error `{BoundContract St} (it :
  Gateway_OrderAlreadySettledIterator) := Error it.
Definition Gateway_OrderAlreadySettledIterator_Next `{BoundContract St} :=
  Next (UnpackLog (e_name Gateway_OrderAlreadySettled_event) (e_types
    Gateway_OrderAlreadySettled_event)).
Definition Gateway_FilterOrderAlreadySettled `{BoundContract St} (opts : FilterOpts) :=
  FilterEvent Gateway_OrderAlreadySettled_event opts.
Definition Gateway_WatchOrderAlreadySettled `{BoundContract St} (opts : WatchOpts) :=
  WatchEvent Gateway_OrderAlreadySettled_event opts.
Definition Gateway_WatchOrderAlreadySettled_step `{BoundContract St} :=
  watch_step (UnpackLog (e_name Gateway_OrderAlreadySettled_event) (e_types
    Gateway_OrderAlreadySettled_event)).
Definition Gateway_ParseOrderAlreadySettled `{BoundContract St} (log : Log) :=
  ParseEvent Gateway_OrderAlreadySettled_event log.
Definition Gateway_OrderRefunded_event : event_binding :=
  mkEvent "OrderRefunded" [(GByteArray 32, true)].
Definition Gateway_OrderRefundedIterator `{BoundContract St} : Type :=
  Iterator Log (go_tuple (e_types Gateway_OrderRefunded_event)).
Definition Gateway_OrderRefundedIterator_Error `{BoundContract St} (it :
  Gateway_OrderRefundedIterator) := Error it.
Definition Gateway_OrderRefundedIterator_Next `{BoundContract St} :=
  Next (UnpackLog (e_name Gateway_OrderRefunded_event) (e_types Gateway_OrderRefunded_event)).
Definition Gateway_FilterOrderRefunded `{BoundContract St} (opts : FilterOpts) :=
  FilterEvent Gateway_OrderRefunded_event opts.
Definition Gateway_WatchOrderRefunded `{BoundContract St} (opts : WatchOpts) :=
  WatchEvent Gateway_OrderRefunded_event opts.
Definition Gateway_WatchOrderRefunded_step `{BoundContract St} :=
  watch_step (UnpackLog (e_name Gateway_OrderRefunded_event) (e_types
    Gateway_OrderRefunded_event)).
Definition Gateway_ParseOrderRefunded `{BoundContract St} (log : Log) :=
  ParseEvent Gateway_OrderRefunded_event log.
Definition Gateway_OrderSettled_event : event_binding :=
  mkEvent "OrderSettled" [(GByteArray 32, true)].
Definition Gateway_OrderSettledIterator `{BoundContract St} : Type :=
  Iterator Log (go_tuple (e_types Gateway_OrderSettled_event)).
Definition Gateway_OrderSettledIterator_Error `{BoundContract St} (it :
  Gateway_OrderSettledIterator) := Error it.
Definition Gateway_OrderSettledIterator_Next `{BoundContract St} :=
  Next (UnpackLog (e_name Gateway_OrderSettled_event) (e_types Gateway_OrderSettled_event)).
Definition Gateway_FilterOrderSettled `{BoundContract St} (opts : FilterOpts) :=
  FilterEvent Gateway_OrderSettled_event opts.
Definition Gateway_WatchOrderSettled `{BoundContract St} (opts : WatchOpts) :=
  WatchEvent Gateway_OrderSettled_event opts.
Definition Gateway_WatchOrderSettled_step `{BoundContract St} :=
  watch_step (UnpackLog (e_name Gateway_OrderSettled_event) (e_types Gateway_OrderSettled_event)).
Definition Gateway_ParseOrderSettled `{BoundContract St} (log : Log) :=
  ParseEvent Gateway_OrderSettled_event log.
Definition Gateway_OrderSubmitted_event : event_binding :=
  mkEvent "OrderSubmitted" [(GByteArray 32, true); (GBytes, false)].
Definition Gateway_OrderSubmittedIterator `{BoundContract St} : Type :=
  Iterator Log (go_tuple (e_types Gateway_OrderSubmitted_event)).
Definition Gateway_OrderSubmittedIterator_Error `{BoundContract St} (it :
  Gateway_OrderSubmittedIterator) := Error it.
Definition Gateway_OrderSubmittedIterator_Next `{BoundContract St} :=
  Next (UnpackLog (e_name Gateway_OrderSubmitted_event) (e_types Gateway_OrderSubmitted_event)).
Definition Gateway_FilterOrderSubmitted `{BoundContract St} (opts : FilterOpts) :=
  FilterEvent Gateway_OrderSubmitted_event opts.
Definition Gateway_WatchOrderSubmitted `{BoundContract St} (opts : WatchOpts) :=
  WatchEvent Gateway_OrderSubmitted_event opts.
Definition Gateway_WatchOrderSubmitted_step `{BoundContract St} :=
  watch_step (UnpackLog (e_name Gateway_OrderSubmitted_event) (e_types
    Gateway_OrderSubmitted_event)).
Definition Gateway_ParseOrderSubmitted `{BoundContract St} (log : Log) :=
  ParseEvent Gateway_OrderSubmitted_event log.
Definition Gateway_OwnershipTransferred_event : event_binding :=
  mkEvent "OwnershipTransferred" [(GAddress, true); (GAddress, true)].
Definition Gateway_OwnershipTransferredIterator `{BoundContract St} : Type :=
  Iterator Log (go_tuple (e_types Gateway_OwnershipTransferred_event)).
Definition Gateway_OwnershipTransferredIterator_Error `{BoundContract St} (it :
  Gateway_OwnershipTransferredIterator) := Error it.
Definition Gateway_OwnershipTransferredIterator_Next `{BoundContract St} :=
  Next (UnpackLog (e_name Gateway_OwnershipTransferred_event) (e_types
    Gateway_OwnershipTransferred_event)).
Definition Gateway_FilterOwnershipTransferred `{BoundContract St} (opts : FilterOpts) :=
  FilterEvent Gateway_OwnershipTransferred_event opts.
Definition Gateway_WatchOwnershipTransferred `{BoundContract St} (opts : WatchOpts) :=
  WatchEvent Gateway_OwnershipTransferred_event opts.
Definition Gateway_WatchOwnershipTransferred_step `{BoundContract St} :=
  watch_step (UnpackLog (e_name Gateway_OwnershipTransferred_event) (e_types
    Gateway_OwnershipTransferred_event)).
Definition Gateway_ParseOwnershipTransferred `{BoundContract St} (log : Log) :=
  ParseEvent Gateway_OwnershipTransferred_event log.
Definition Gateway_Upgraded_event : event_binding :=
  mkEvent "Upgraded" [(GAddress, true)].
Definition Gateway_UpgradedIterator `{BoundContract St} : Type :=
  Iterator Log (go_tuple (e_types Gateway_Upgraded_event)).
Definition Gateway_UpgradedIterator_Error `{BoundContract St} (it : Gateway_UpgradedIterator) :=
  Error it.
Definition Gateway_UpgradedIterator_Next `{BoundContract St} :=
  Next (UnpackLog (e_name Gateway_Upgraded_event) (e_types Gateway_Upgraded_event)).
Definition Gateway_FilterUpgraded `{BoundContract St} (opts : FilterOpts) :=
  FilterEvent Gateway_Upgraded_event opts.
Definition Gateway_WatchUpgraded `{BoundContract St} (opts : WatchOpts) :=
  WatchEvent Gateway_Upgraded_event opts.
Definition Gateway_WatchUpgraded_step `{BoundContract St} :=
  watch_step (UnpackLog (e_name Gateway_Upgraded_event) (e_types Gateway_Upgraded_event)).
Definition Gateway_ParseUpgraded `{BoundContract St} (log : Log) :=
  ParseEvent Gateway_Upgraded_event log.

Definition Gateway_calls : list method :=
  [Gateway_PERMIT2_method; Gateway_UPGRADEINTERFACEVERSION_method; Gateway_GoFastCaller_method;
   Gateway_InterchainSecurityModule_method; Gateway_LocalDomain_method; Gateway_Mailbox_method;
   Gateway_Nonce_method; Gateway_OrderFills_method; Gateway_OrderStatuses_method;
   Gateway_Owner_method; Gateway_ProxiableUUID_method; Gateway_QuoteInitiateSettlement_method;
   Gateway_QuoteInitiateTimeout_method; Gateway_RemoteDomains_method;
   Gateway_SettlementDetails_method; Gateway_Token_method].
Definition Gateway_transacts : list method :=
  [Gateway_FillOrder_method; Gateway_Handle_method; Gateway_Initialize_method;
   Gateway_InitiateSettlement_method; Gateway_InitiateTimeout_method;
   Gateway_RenounceOwnership_method; Gateway_SetInterchainSecurityModule_method;
   Gateway_SetMailbox_method; Gateway_SetRemoteDomain_method; Gateway_SubmitOrder_method;
   Gateway_SubmitOrderWithPermit_method; Gateway_TransferOwnership_method;
   Gateway_UpgradeToAndCall_method].
Definition Gateway_events : list event_binding :=
  [Gateway_Initialized_event; Gateway_OrderAlreadySettled_event; Gateway_OrderRefunded_event;
   Gateway_OrderSettled_event; Gateway_OrderSubmitted_event;
   Gateway_OwnershipTransferred_event; Gateway_Upgraded_event].

(** ** Properties *)

(** The binding covers the ABI: every method and event of one is in the other, with the
    Go types of its inputs and outputs. *)
Theorem gateway_covers : covers GatewayABI Gateway_calls Gateway_transacts Gateway_events = true.
Proof. vm_compute. reflexivity. Qed.

(** The selectors and topics in the comments are those of the ABI. *)
Theorem gateway_identifiers :
  (λ am, hex_EncodeToString (selector (signature (am_name am) (am_inputs am)))) <$> abi_methods
    GatewayABI =
    ["6afdd850"; "ad3cb1cc"; "b549117c"; "c87d1240"; "56d5d475"; "0b5e0b68"; "30c5b926";
     "88efb875"; "de523cf3"; "8d3638f4"; "d5438eae"; "affed0e0"; "f7213db6"; "7f665ee5";
     "8da5cb5b"; "52d1902d"; "e88787c2"; "4eae2607"; "1ea9e2e3"; "715018a6"; "0e72cc06";
     "f3c61d6b"; "e5dc8496"; "85cf3f93"; "6ad1b6ac"; "061b32c9"; "fc0c546a"; "f2fde38b";
     "4f1ef286"]%string ∧
  (λ ae, hex_EncodeToString (topic (signature (ae_name ae) (fst <$> ae_inputs ae)))) <$>
    abi_events GatewayABI =
    ["c7f505b2f371ae2175ee4913f4499e1f2633a7b5936321eed1cdaeb6115181d2";
     "0349d9fa752b33cd4d30f97058afcf8e7b9d5c3c7a20056699a8947fedf73138";
     "a60671d8537ed193e567f86ddf28cf35dc67073b5ad80a2d41359cfa78db0a1e";
     "d4250d6114a611e75d68b1c6f14c61e967863d8ac20bc8ebfa4e5f28f6647366";
     "59f858504f8d8ad967dd7453df850e265270474e364b7e2fbd3333e06efdbfc0";
     "8be0079c531659141344cd1fd0a4f28419497f9722a3daafe3b4186f6b6457e0";
     "bc7cd75a20ee27fd9adebab32041f755214dbc6bffa90cc0225b39da2e5c2d3b"]%string.
Proof. vm_compute. split; reflexivity. Qed.

(** C39. A call of the binding returns what the contract answered: of a contract that
    answers as its ABI says, every method returns all results, in order and with their
    types, or the error of the call, and none panics. *)
Theorem gateway_calls_safe `{BoundContract St} `{!BoundContractLaws GatewayABI} m opts :
  m ∈ Gateway_calls → for_args (m_args m) (returns_answer m opts) (caller m opts).
Proof.
  intros Hm. apply (caller_safe GatewayABI). by eapply covers_call; [apply gateway_covers|].
Qed.

Lemma gateway_calls_safe_witness :
  Gateway_OrderFills_method ∈ Gateway_calls ∧
  ∀ id s, Gateway_OrderFills (H := zero_contract GatewayABI) tt id s =
    (Ok (replicate 32 x00, (replicate 20 x00, (0, tt))), s).
Proof.
  assert (Gateway_OrderFills_method ∈ Gateway_calls) as Hm
    by (apply list_elem_of_In; vm_compute; tauto).
  split; [exact Hm|]. intros id s.
  assert (@BoundContractLaws unit (zero_contract GatewayABI) GatewayABI) as Hlaws.
  { apply zero_contract_laws, (bool_decide_unpack _). vm_compute. exact I. }
  destruct (@gateway_calls_safe unit (zero_contract GatewayABI) Hlaws _ tt Hm id s)
    as (vs&Hcall&Hvs).
  etrans; [exact Hcall|]. destruct s, vs as [a [b [c []]]]. simpl in Hvs. by simplify_eq.
Defined.
