(* ===== verification/HyperlaneBindings.v ===== *)
(** * HyperlaneBindings: shared/contracts/hyperlane

    The bindings of the Hyperlane contracts: mailbox, merkle tree hook, gas paymaster,
    security modules and validator announcements (see [Abigen]). *)
From Stdlib Require Import Strings.Byte.
From S2P Require Import Prelude GoLib Keccak Abigen.

(** ** Mailbox *)

(** The ABI in [MailboxMetaData]. *)
Definition MailboxABI : contract_abi := mkAbi
  [mkAbiMethod "VERSION" "VERSION" [] [AUint 8] true;
   mkAbiMethod "defaultHook" "defaultHook" [] [AAddress] true;
   mkAbiMethod "defaultIsm" "defaultIsm" [] [AAddress] true;
   mkAbiMethod "delivered" "delivered" [AFixedBytes 32] [ABool] true;
   mkAbiMethod "deployedBlock" "deployedBlock" [] [AUint 256] true;
   mkAbiMethod "dispatch" "dispatch" [AUint 32; AFixedBytes 32; ABytes; ABytes; AAddress]
     [AFixedBytes 32] false;
   mkAbiMethod "dispatch0" "dispatch" [AUint 32; AFixedBytes 32; ABytes; ABytes] [AFixedBytes 32]
     false;
   mkAbiMethod "dispatch1" "dispatch" [AUint 32; AFixedBytes 32; ABytes] [AFixedBytes 32] false;
   mkAbiMethod "initialize" "initialize" [AAddress; AAddress; AAddress; AAddress] [] false;
   mkAbiMethod "latestDispatchedId" "latestDispatchedId" [] [AFixedBytes 32] true;
   mkAbiMethod "localDomain" "localDomain" [] [AUint 32] true;
   mkAbiMethod "nonce" "nonce" [] [AUint 32] true;
   mkAbiMethod "owner" "owner" [] [AAddress] true;
   mkAbiMethod "process" "process" [ABytes; ABytes] [] false;
   mkAbiMethod "processedAt" "processedAt" [AFixedBytes 32] [AUint 48] true;
   mkAbiMethod "processor" "processor" [AFixedBytes 32] [AAddress] true;
   mkAbiMethod "quoteDispatch" "quoteDispatch" [AUint 32; AFixedBytes 32; ABytes; ABytes;
     AAddress] [AUint 256] true;
   mkAbiMethod "quoteDispatch0" "quoteDispatch" [AUint 32; AFixedBytes 32; ABytes] [AUint 256]
     true;
   mkAbiMethod "quoteDispatch1" "quoteDispatch" [AUint 32; AFixedBytes 32; ABytes; ABytes] [AUint
     256] true;
   mkAbiMethod "recipientIsm" "recipientIsm" [AAddress] [AAddress] true;
   mkAbiMethod "renounceOwnership" "renounceOwnership" [] [] false;
   mkAbiMethod "requiredHook" "requiredHook" [] [AAddress] true;
   mkAbiMethod "setDefaultHook" "setDefaultHook" [AAddress] [] false;
   mkAbiMethod "setDefaultIsm" "setDefaultIsm" [AAddress] [] false;
   mkAbiMethod "setRequiredHook" "setRequiredHook" [AAddress] [] false;
   mkAbiMethod "transferOwnership" "transferOwnership" [AAddress] [] false]
  [mkAbiEvent "DefaultHookSet" [(AAddress, true)];
   mkAbiEvent "DefaultIsmSet" [(AAddress, true)];
   mkAbiEvent "Dispatch" [(AAddress, true); (AUint 32, true); (AFixedBytes 32, true); (ABytes,
     false)];
   mkAbiEvent "DispatchId" [(AFixedBytes 32, true)];
   mkAbiEvent "Initialized" [(AUint 8, false)];
   mkAbiEvent "OwnershipTransferred" [(AAddress, true); (AAddress, true)];
   mkAbiEvent "Process" [(AUint 32, true); (AFixedBytes 32, true); (AAddress, true)];
   mkAbiEvent "ProcessId" [(AFixedBytes 32, true)];
   mkAbiEvent "RequiredHookSet" [(AAddress, true)]]%string.

Definition Mailbox_VERSION_method : method :=
  mkMethod "VERSION" [] [GUint8].
Definition Mailbox_VERSION `{BoundContract St} (opts : CallOpts) :=
  caller Mailbox_VERSION_method opts.
Definition MailboxSession_VERSION `{BoundContract St} (s : Session) :=
  session_call Mailbox_VERSION_method s.
Definition Mailbox_DefaultHook_method : method :=
  mkMethod "defaultHook" [] [GAddress].
Definition Mailbox_DefaultHook `{BoundContract St} (opts : CallOpts) :=
  caller Mailbox_DefaultHook_method opts.
Definition MailboxSession_DefaultHook `{BoundContract St} (s : Session) :=
  session_call Mailbox_DefaultHook_method s.
Definition Mailbox_DefaultIsm_method : method :=
  mkMethod "defaultIsm" [] [GAddress].
Definition Mailbox_DefaultIsm `{BoundContract St} (opts : CallOpts) :=
  caller Mailbox_DefaultIsm_method opts.
Definition MailboxSession_DefaultIsm `{BoundContract St} (s : Session) :=
  session_call Mailbox_DefaultIsm_method s.
Definition Mailbox_Delivered_method : method :=
  mkMethod "delivered" [GByteArray 32] [GBool].
Definition Mailbox_Delivered `{BoundContract St} (opts : CallOpts) :=
  caller Mailbox_Delivered_method opts.
Definition MailboxSession_Delivered `{BoundContract St} (s : Session) :=
  session_call Mailbox_Delivered_method s.
Definition Mailbox_DeployedBlock_method : method :=
  mkMethod "deployedBlock" [] [GBigInt].
Definition Mailbox_DeployedBlock `{BoundContract St} (opts : CallOpts) :=
  caller Mailbox_DeployedBlock_method opts.
Definition MailboxSession_DeployedBlock `{BoundContract St} (s : Session) :=
  session_call Mailbox_DeployedBlock_method s.
Definition Mailbox_LatestDispatchedId_method : method :=
  mkMethod "latestDispatchedId" [] [GByteArray 32].
Definition Mailbox_LatestDispatchedId `{BoundContract St} (opts : CallOpts) :=
  caller Mailbox_LatestDispatchedId_method opts.
Definition MailboxSession_LatestDispatchedId `{BoundContract St} (s : Session) :=
  session_call Mailbox_LatestDispatchedId_method s.
Definition Mailbox_LocalDomain_method : method :=
  mkMethod "localDomain" [] [GUint32].
Definition Mailbox_LocalDomain `{BoundContract St} (opts : CallOpts) :=
  caller Mailbox_LocalDomain_method opts.
Definition MailboxSession_LocalDomain `{BoundContract St} (s : Session) :=
  session_call Mailbox_LocalDomain_method s.
Definition Mailbox_Nonce_method : method :=
  mkMethod "nonce" [] [GUint32].
Definition Mailbox_Nonce `{BoundContract St} (opts : CallOpts) :=
  caller Mailbox_Nonce_method opts.
Definition MailboxSession_Nonce `{BoundContract St} (s : Session) :=
  session_call Mailbox_Nonce_method s.
Definition Mailbox_Owner_method : method :=
  mkMethod "owner" [] [GAddress].
Definition Mailbox_Owner `{BoundContract St} (opts : CallOpts) :=
  caller Mailbox_Owner_method opts.
Definition MailboxSession_Owner `{BoundContract St} (s : Session) :=
  session_call Mailbox_Owner_method s.
Definition Mailbox_ProcessedAt_method : method :=
  mkMethod "processedAt" [GByteArray 32] [GBigInt].
Definition Mailbox_ProcessedAt `{BoundContract St} (opts : CallOpts) :=
  caller Mailbox_ProcessedAt_method opts.
Definition MailboxSession_ProcessedAt `{BoundContract St} (s : Session) :=
  session_call Mailbox_ProcessedAt_method s.
Definition Mailbox_Processor_method : method :=
  mkMethod "processor" [GByteArray 32] [GAddress].
Definition Mailbox_Processor `{BoundContract St} (opts : CallOpts) :=
  caller Mailbox_Processor_method opts.
Definition MailboxSession_Processor `{BoundContract St} (s : Session) :=
  session_call Mailbox_Processor_method s.
Definition Mailbox_QuoteDispatch_method : method :=
  mkMethod "quoteDispatch" [GUint32; GByteArray 32; GBytes; GBytes; GAddress] [GBigInt].
Definition Mailbox_QuoteDispatch `{BoundContract St} (opts : CallOpts) :=
  caller Mailbox_QuoteDispatch_method opts.
Definition MailboxSession_QuoteDispatch `{BoundContract St} (s : Session) :=
  session_call Mailbox_QuoteDispatch_method s.
Definition Mailbox_QuoteDispatch0_method : method :=
  mkMethod "quoteDispatch0" [GUint32; GByteArray 32; GBytes] [GBigInt].
Definition Mailbox_QuoteDispatch0 `{BoundContract St} (opts : CallOpts) :=
  caller Mailbox_QuoteDispatch0_method opts.
Definition MailboxSession_QuoteDispatch0 `{BoundContract St} (s : Session) :=
  session_call Mailbox_QuoteDispatch0_method s.
Definition Mailbox_QuoteDispatch1_method : method :=
  mkMethod "quoteDispatch1" [GUint32; GByteArray 32; GBytes; GBytes] [GBigInt].
Definition Mailbox_QuoteDispatch1 `{BoundContract St} (opts : CallOpts) :=
  caller Mailbox_QuoteDispatch1_method opts.
Definition MailboxSession_QuoteDispatch1 `{BoundContract St} (s : Session) :=
  session_call Mailbox_QuoteDispatch1_method s.
Definition Mailbox_RecipientIsm_method : method :=
  mkMethod "recipientIsm" [GAddress] [GAddress].
Definition Mailbox_RecipientIsm `{BoundContract St} (opts : CallOpts) :=
  caller Mailbox_RecipientIsm_method opts.
Definition MailboxSession_RecipientIsm `{BoundContract St} (s : Session) :=
  session_call Mailbox_RecipientIsm_method s.
Definition Mailbox_RequiredHook_method : method :=
  mkMethod "requiredHook" [] [GAddress].
Definition Mailbox_RequiredHook `{BoundContract St} (opts : CallOpts) :=
  caller Mailbox_RequiredHook_method opts.
Definition MailboxSession_RequiredHook `{BoundContract St} (s : Session) :=
  session_call Mailbox_RequiredHook_method s.
Definition Mailbox_Dispatch_method : method :=
  mkMethod "dispatch" [GUint32; GByteArray 32; GBytes; GBytes; GAddress] [].
Definition Mailbox_Dispatch `{BoundContract St} (opts : TransactOpts) :=
  transactor Mailbox_Dispatch_method opts.
Definition MailboxSession_Dispatch `{BoundContract St} (s : Session) :=
  session_transact Mailbox_Dispatch_method s.
Definition Mailbox_Dispatch0_method : method :=
  mkMethod "dispatch0" [GUint32; GByteArray 32; GBytes; GBytes] [].
Definition Mailbox_Dispatch0 `{BoundContract St} (opts : TransactOpts) :=
  transactor Mailbox_Dispatch0_method opts.
Definition MailboxSession_Dispatch0 `{BoundContract St} (s : Session) :=
  session_transact Mailbox_Dispatch0_method s.
Definition Mailbox_Dispatch1_method : method :=
  mkMethod "dispatch1" [GUint32; GByteArray 32; GBytes] [].
Definition Mailbox_Dispatch1 `{BoundContract St} (opts : TransactOpts) :=
  transactor Mailbox_Dispatch1_method opts.
Definition MailboxSession_Dispatch1 `{BoundContract St} (s : Session) :=
  session_transact Mailbox_Dispatch1_method s.
Definition Mailbox_Initialize_method : method :=
  mkMethod "initialize" [GAddress; GAddress; GAddress; GAddress] [].
Definition Mailbox_Initialize `{BoundContract St} (opts : TransactOpts) :=
  transactor Mailbox_Initialize_method opts.
Definition MailboxSession_Initialize `{BoundContract St} (s : Session) :=
  session_transact Mailbox_Initialize_method s.
Definition Mailbox_Process_method : method :=
  mkMethod "process" [GBytes; GBytes] [].
Definition Mailbox_Process `{BoundContract St} (opts : TransactOpts) :=
  transactor Mailbox_Process_method opts.
Definition MailboxSession_Process `{BoundContract St} (s : Session) :=
  session_transact Mailbox_Process_method s.
Definition Mailbox_RenounceOwnership_method : method :=
  mkMethod "renounceOwnership" [] [].
Definition Mailbox_RenounceOwnership `{BoundContract St} (opts : TransactOpts) :=
  transactor Mailbox_RenounceOwnership_method opts.
Definition MailboxSession_RenounceOwnership `{BoundContract St} (s : Session) :=
  session_transact Mailbox_RenounceOwnership_method s.
Definition Mailbox_SetDefaultHook_method : method :=
  mkMethod "setDefaultHook" [GAddress] [].
Definition Mailbox_SetDefaultHook `{BoundContract St} (opts : TransactOpts) :=
  transactor Mailbox_SetDefaultHook_method opts.
Definition MailboxSession_SetDefaultHook `{BoundContract St} (s : Session) :=
  session_transact Mailbox_SetDefaultHook_method s.
Definition Mailbox_SetDefaultIsm_method : method :=
  mkMethod "setDefaultIsm" [GAddress] [].
Definition Mailbox_SetDefaultIsm `{BoundContract St} (opts : TransactOpts) :=
  transactor Mailbox_SetDefaultIsm_method opts.
Definition MailboxSession_SetDefaultIsm `{BoundContract St} (s : Session) :=
  session_transact Mailbox_SetDefaultIsm_method s.
Definition Mailbox_SetRequiredHook_method : method :=
  mkMethod "setRequiredHook" [GAddress] [].
Definition Mailbox_SetRequiredHook `{BoundContract St} (opts : TransactOpts) :=
  transactor Mailbox_SetRequiredHook_method opts.
Definition MailboxSession_SetRequiredHook `{BoundContract St} (s : Session) :=
  session_transact Mailbox_SetRequiredHook_method s.
Definition Mailbox_TransferOwnership_method : method :=
  mkMethod "transferOwnership" [GAddress] [].
Definition Mailbox_TransferOwnership `{BoundContract St} (opts : TransactOpts) :=
  transactor Mailbox_TransferOwnership_method opts.
Definition MailboxSession_TransferOwnership `{BoundContract St} (s : Session) :=
  session_transact Mailbox_TransferOwnership_method s.

Definition Mailbox_DefaultHookSet_event : event_binding :=
  mkEvent "DefaultHookSet" [(GAddress, true)].
Definition Mailbox_DefaultHookSetIterator `{BoundContract St} : Type :=
  Iterator Log (go_tuple (e_types Mailbox_DefaultHookSet_event)).
Definition Mailbox_DefaultHookSetIterator_Error `{BoundContract St} (it :
  Mailbox_DefaultHookSetIterator) := Error it.
Definition Mailbox_DefaultHookSetIterator_Next `{BoundContract St} :=
  Next (UnpackLog (e_name Mailbox_DefaultHookSet_event) (e_types Mailbox_DefaultHookSet_event)).
Definition Mailbox_FilterDefaultHookSet `{BoundContract St} (opts : FilterOpts) :=
  FilterEvent Mailbox_DefaultHookSet_event opts.
Definition Mailbox_WatchDefaultHookSet `{BoundContract St} (opts : WatchOpts) :=
  WatchEvent Mailbox_DefaultHookSet_event opts.
Definition Mailbox_WatchDefaultHookSet_step `{BoundContract St} :=
  watch_step (UnpackLog (e_name Mailbox_DefaultHookSet_event) (e_types
    Mailbox_DefaultHookSet_event)).
Definition Mailbox_ParseDefaultHookSet `{BoundContract St} (log : Log) :=
  ParseEvent Mailbox_DefaultHookSet_event log.
Definition Mailbox_DefaultIsmSet_event : event_binding :=
  mkEvent "DefaultIsmSet" [(GAddress, true)].
Definition Mailbox_DefaultIsmSetIterator `{BoundContract St} : Type :=
  Iterator Log (go_tuple (e_types Mailbox_DefaultIsmSet_event)).
Definition Mailbox_DefaultIsmSetIterator_Error `{BoundContract St} (it :
  Mailbox_DefaultIsmSetIterator) := Error it.
Definition Mailbox_DefaultIsmSetIterator_Next `{BoundContract St} :=
  Next (UnpackLog (e_name Mailbox_DefaultIsmSet_event) (e_types Mailbox_DefaultIsmSet_event)).
Definition Mailbox_FilterDefaultIsmSet `{BoundContract St} (opts : FilterOpts) :=
  FilterEvent Mailbox_DefaultIsmSet_event opts.
Definition Mailbox_WatchDefaultIsmSet `{BoundContract St} (opts : WatchOpts) :=
  WatchEvent Mailbox_DefaultIsmSet_event opts.
Definition Mailbox_WatchDefaultIsmSet_step `{BoundContract St} :=
  watch_step (UnpackLog (e_name Mailbox_DefaultIsmSet_event) (e_types
    Mailbox_DefaultIsmSet_event)).
Definition Mailbox_ParseDefaultIsmSet `{BoundContract St} (log : Log) :=
  ParseEvent Mailbox_DefaultIsmSet_event log.
Definition Mailbox_Dispatch_event : event_binding :=
  mkEvent "Dispatch" [(GAddress, true); (GUint32, true); (GByteArray 32, true); (GBytes, false)].
Definition Mailbox_DispatchIterator `{BoundContract St} : Type :=
  Iterator Log (go_tuple (e_types Mailbox_Dispatch_event)).
Definition Mailbox_DispatchIterator_Error `{BoundContract St} (it : Mailbox_DispatchIterator) :=
  Error it.
Definition Mailbox_DispatchIterator_Next `{BoundContract St} :=
  Next (UnpackLog (e_name Mailbox_Dispatch_event) (e_types Mailbox_Dispatch_event)).
Definition Mailbox_FilterDispatch `{BoundContract St} (opts : FilterOpts) :=
  FilterEvent Mailbox_Dispatch_event opts.
Definition Mailbox_WatchDispatch `{BoundContract St} (opts : WatchOpts) :=
  WatchEvent Mailbox_Dispatch_event opts.
Definition Mailbox_WatchDispatch_step `{BoundContract St} :=
  watch_step (UnpackLog (e_name Mailbox_Dispatch_event) (e_types Mailbox_Dispatch_event)).
Definition Mailbox_ParseDispatch `{BoundContract St} (log : Log) :=
  ParseEvent Mailbox_Dispatch_event log.
Definition Mailbox_DispatchId_event : event_binding :=
  mkEvent "DispatchId" [(GByteArray 32, true)].
Definition Mailbox_DispatchIdIterator `{BoundContract St} : Type :=
  Iterator Log (go_tuple (e_types Mailbox_DispatchId_event)).
Definition Mailbox_DispatchIdIterator_Error `{BoundContract St} (it : Mailbox_DispatchIdIterator)
  := Error it.
Definition Mailbox_DispatchIdIterator_Next `{BoundContract St} :=
  Next (UnpackLog (e_name Mailbox_DispatchId_event) (e_types Mailbox_DispatchId_event)).
Definition Mailbox_FilterDispatchId `{BoundContract St} (opts : FilterOpts) :=
  FilterEvent Mailbox_DispatchId_event opts.
Definition Mailbox_WatchDispatchId `{BoundContract St} (opts : WatchOpts) :=
  WatchEvent Mailbox_DispatchId_event opts.
Definition Mailbox_WatchDispatchId_step `{BoundContract St} :=
  watch_step (UnpackLog (e_name Mailbox_DispatchId_event) (e_types Mailbox_DispatchId_event)).
Definition Mailbox_ParseDispatchId `{BoundContract St} (log : Log) :=
  ParseEvent Mailbox_DispatchId_event log.
Definition Mailbox_Initialized_event : event_binding :=
  mkEvent "Initialized" [(GUint8, false)].
Definition Mailbox_InitializedIterator `{BoundContract St} : Type :=
  Iterator Log (go_tuple (e_types Mailbox_Initialized_event)).
Definition Mailbox_InitializedIterator_Error `{BoundContract St} (it :
  Mailbox_InitializedIterator) := Error it.
Definition Mailbox_InitializedIterator_Next `{BoundContract St} :=
  Next (UnpackLog (e_name Mailbox_Initialized_event) (e_types Mailbox_Initialized_event)).
Definition Mailbox_FilterInitialized `{BoundContract St} (opts : FilterOpts) :=
  FilterEvent Mailbox_Initialized_event opts.
Definition Mailbox_WatchInitialized `{BoundContract St} (opts : WatchOpts) :=
  WatchEvent Mailbox_Initialized_event opts.
Definition Mailbox_WatchInitialized_step `{BoundContract St} :=
  watch_step (UnpackLog (e_name Mailbox_Initialized_event) (e_types Mailbox_Initialized_event)).
Definition Mailbox_ParseInitialized `{BoundContract St} (log : Log) :=
  ParseEvent Mailbox_Initialized_event log.
Definition Mailbox_OwnershipTransferred_event : event_binding :=
  mkEvent "OwnershipTransferred" [(GAddress, true); (GAddress, true)].
Definition Mailbox_OwnershipTransferredIterator `{BoundContract St} : Type :=
  Iterator Log (go_tuple (e_types Mailbox_OwnershipTransferred_event)).
Definition Mailbox_OwnershipTransferredIterator_Error `{BoundContract St} (it :
  Mailbox_OwnershipTransferredIterator) := Error it.
Definition Mailbox_OwnershipTransferredIterator_Next `{BoundContract St} :=
  Next (UnpackLog (e_name Mailbox_OwnershipTransferred_event) (e_types
    Mailbox_OwnershipTransferred_event)).
Definition Mailbox_FilterOwnershipTransferred `{BoundContract St} (opts : FilterOpts) :=
  FilterEvent Mailbox_OwnershipTransferred_event opts.
Definition Mailbox_WatchOwnershipTransferred `{BoundContract St} (opts : WatchOpts) :=
  WatchEvent Mailbox_OwnershipTransferred_event opts.
Definition Mailbox_WatchOwnershipTransferred_step `{BoundContract St} :=
  watch_step (UnpackLog (e_name Mailbox_OwnershipTransferred_event) (e_types
    Mailbox_OwnershipTransferred_event)).
Definition Mailbox_ParseOwnershipTransferred `{BoundContract St} (log : Log) :=
  ParseEvent Mailbox_OwnershipTransferred_event log.
Definition Mailbox_Process_event : event_binding :=
  mkEvent "Process" [(GUint32, true); (GByteArray 32, true); (GAddress, true)].
Definition Mailbox_ProcessIterator `{BoundContract St} : Type :=
  Iterator Log (go_tuple (e_types Mailbox_Process_event)).
Definition Mailbox_ProcessIterator_Error `{BoundContract St} (it : Mailbox_ProcessIterator) :=
  Error it.
Definition Mailbox_ProcessIterator_Next `{BoundContract St} :=
  Next (UnpackLog (e_name Mailbox_Process_event) (e_types Mailbox_Process_event)).
Definition Mailbox_FilterProcess `{BoundContract St} (opts : FilterOpts) :=
  FilterEvent Mailbox_Process_event opts.
Definition Mailbox_WatchProcess `{BoundContract St} (opts : WatchOpts) :=
  WatchEvent Mailbox_Process_event opts.
Definition Mailbox_WatchProcess_step `{BoundContract St} :=
  watch_step (UnpackLog (e_name Mailbox_Process_event) (e_types Mailbox_Process_event)).
Definition Mailbox_ParseProcess `{BoundContract St} (log : Log) :=
  ParseEvent Mailbox_Process_event log.
Definition Mailbox_ProcessId_event : event_binding :=
  mkEvent "ProcessId" [(GByteArray 32, true)].
Definition Mailbox_ProcessIdIterator `{BoundContract St} : Type :=
  Iterator Log (go_tuple (e_types Mailbox_ProcessId_event)).
Definition Mailbox_ProcessIdIterator_Error `{BoundContract St} (it : Mailbox_ProcessIdIterator)
  := Error it.
Definition Mailbox_ProcessIdIterator_Next `{BoundContract St} :=
  Next (UnpackLog (e_name Mailbox_ProcessId_event) (e_types Mailbox_ProcessId_event)).
Definition Mailbox_FilterProcessId `{BoundContract St} (opts : FilterOpts) :=
  FilterEvent Mailbox_ProcessId_event opts.
Definition Mailbox_WatchProcessId `{BoundContract St} (opts : WatchOpts) :=
  WatchEvent Mailbox_ProcessId_event opts.
Definition Mailbox_WatchProcessId_step `{BoundContract St} :=
  watch_step (UnpackLog (e_name Mailbox_ProcessId_event) (e_types Mailbox_ProcessId_event)).
Definition Mailbox_ParseProcessId `{BoundContract St} (log : Log) :=
  ParseEvent Mailbox_ProcessId_event log.
Definition Mailbox_RequiredHookSet_event : event_binding :=
  mkEvent "RequiredHookSet" [(GAddress, true)].
Definition Mailbox_RequiredHookSetIterator `{BoundContract St} : Type :=
  Iterator Log (go_tuple (e_types Mailbox_RequiredHookSet_event)).
Definition Mailbox_RequiredHookSetIterator_Error `{BoundContract St} (it :
  Mailbox_RequiredHookSetIterator) := Error it.
Definition Mailbox_RequiredHookSetIterator_Next `{BoundContract St} :=
  Next (UnpackLog (e_name Mailbox_RequiredHookSet_event) (e_types Mailbox_RequiredHookSet_event)).
Definition Mailbox_FilterRequiredHookSet `{BoundContract St} (opts : FilterOpts) :=
  FilterEvent Mailbox_RequiredHookSet_event opts.
Definition Mailbox_WatchRequiredHookSet `{BoundContract St} (opts : WatchOpts) :=
  WatchEvent Mailbox_RequiredHookSet_event opts.
Definition Mailbox_WatchRequiredHookSet_step `{BoundContract St} :=
  watch_step (UnpackLog (e_name Mailbox_RequiredHookSet_event) (e_types
    Mailbox_RequiredHookSet_event)).
Definition Mailbox_ParseRequiredHookSet `{BoundContract St} (log : Log) :=
  ParseEvent Mailbox_RequiredHookSet_event log.

Definition Mailbox_calls : list method :=
  [Mailbox_VERSION_method; Mailbox_DefaultHook_method; Mailbox_DefaultIsm_method;
   Mailbox_Delivered_method; Mailbox_DeployedBlock_method; Mailbox_LatestDispatchedId_method;
   Mailbox_LocalDomain_method; Mailbox_Nonce_method; Mailbox_Owner_method;
   Mailbox_ProcessedAt_method; Mailbox_Processor_method; Mailbox_QuoteDispatch_method;
   Mailbox_QuoteDispatch0_method; Mailbox_QuoteDispatch1_method; Mailbox_RecipientIsm_method;
   Mailbox_RequiredHook_method].
Definition Mailbox_transacts : list method :=
  [Mailbox_Dispatch_method; Mailbox_Dispatch0_method; Mailbox_Dispatch1_method;
   Mailbox_Initialize_method; Mailbox_Process_method; Mailbox_RenounceOwnership_method;
   Mailbox_SetDefaultHook_method; Mailbox_SetDefaultIsm_method; Mailbox_SetRequiredHook_method;
   Mailbox_TransferOwnership_method].
Definition Mailbox_events : list event_binding :=
  [Mailbox_DefaultHookSet_event; Mailbox_DefaultIsmSet_event; Mailbox_Dispatch_event;
   Mailbox_DispatchId_event; Mailbox_Initialized_event; Mailbox_OwnershipTransferred_event;
   Mailbox_Process_event; Mailbox_ProcessId_event; Mailbox_RequiredHookSet_event].

(** ** MerkleTreeHook *)

(** The ABI in [MerkleTreeHookMetaData]. *)
Definition MerkleTreeHookABI : contract_abi := mkAbi
  [mkAbiMethod "count" "count" [] [AUint 32] true;
   mkAbiMethod "deployedBlock" "deployedBlock" [] [AUint 256] true;
   mkAbiMethod "latestCheckpoint" "latestCheckpoint" [] [AFixedBytes 32; AUint 32] true;
   mkAbiMethod "postDispatch" "postDispatch" [ABytes; ABytes] [] false;
   mkAbiMethod "quoteDispatch" "quoteDispatch" [ABytes; ABytes] [AUint 256] true;
   mkAbiMethod "root" "root" [] [AFixedBytes 32] true;
   mkAbiMethod "tree" "tree" [] [ATuple [AArray 32 (AFixedBytes 32); AUint 256]] true]
  [mkAbiEvent "InsertedIntoTree" [(AFixedBytes 32, false); (AUint 32, false)]]%string.

Definition MerkleTreeHook_Count_method : method :=
  mkMethod "count" [] [GUint32].
Definition MerkleTreeHook_Count `{BoundContract St} (opts : CallOpts) :=
  caller MerkleTreeHook_Count_method opts.
Definition MerkleTreeHookSession_Count `{BoundContract St} (s : Session) :=
  session_call MerkleTreeHook_Count_method s.
Definition MerkleTreeHook_DeployedBlock_method : method :=
  mkMethod "deployedBlock" [] [GBigInt].
Definition MerkleTreeHook_DeployedBlock `{BoundContract St} (opts : CallOpts) :=
  caller MerkleTreeHook_DeployedBlock_method opts.
Definition MerkleTreeHookSession_DeployedBlock `{BoundContract St} (s : Session) :=
  session_call MerkleTreeHook_DeployedBlock_method s.
Definition MerkleTreeHook_LatestCheckpoint_method : method :=
  mkMethod "latestCheckpoint" [] [GByteArray 32; GUint32].
Definition MerkleTreeHook_LatestCheckpoint `{BoundContract St} (opts : CallOpts) :=
  caller MerkleTreeHook_LatestCheckpoint_method opts.
Definition MerkleTreeHookSession_LatestCheckpoint `{BoundContract St} (s : Session) :=
  session_call MerkleTreeHook_LatestCheckpoint_method s.
Definition MerkleTreeHook_QuoteDispatch_method : method :=
  mkMethod "quoteDispatch" [GBytes; GBytes] [GBigInt].
Definition MerkleTreeHook_QuoteDispatch `{BoundContract St} (opts : CallOpts) :=
  caller MerkleTreeHook_QuoteDispatch_method opts.
Definition MerkleTreeHookSession_QuoteDispatch `{BoundContract St} (s : Session) :=
  session_call MerkleTreeHook_QuoteDispatch_method s.
Definition MerkleTreeHook_Root_method : method :=
  mkMethod "root" [] [GByteArray 32].
Definition MerkleTreeHook_Root `{BoundContract St} (opts : CallOpts) :=
  caller MerkleTreeHook_Root_method opts.
Definition MerkleTreeHookSession_Root `{BoundContract St} (s : Session) :=
  session_call MerkleTreeHook_Root_method s.
Definition MerkleTreeHook_Tree_method : method :=
  mkMethod "tree" [] [GStruct [GArray 32 (GByteArray 32); GBigInt]].
Definition MerkleTreeHook_Tree `{BoundContract St} (opts : CallOpts) :=
  caller MerkleTreeHook_Tree_method opts.
Definition MerkleTreeHookSession_Tree `{BoundContract St} (s : Session) :=
  session_call MerkleTreeHook_Tree_method s.
Definition MerkleTreeHook_PostDispatch_method : method :=
  mkMethod "postDispatch" [GBytes; GBytes] [].
Definition MerkleTreeHook_PostDispatch `{BoundContract St} (opts : TransactOpts) :=
  transactor MerkleTreeHook_PostDispatch_method opts.
Definition MerkleTreeHookSession_PostDispatch `{BoundContract St} (s : Session) :=
  session_transact MerkleTreeHook_PostDispatch_method s.

Definition MerkleTreeHook_InsertedIntoTree_event : event_binding :=
  mkEvent "InsertedIntoTree" [(GByteArray 32, false); (GUint32, false)].
Definition MerkleTreeHook_InsertedIntoTreeIterator `{BoundContract St} : Type :=
  Iterator Log (go_tuple (e_types MerkleTreeHook_InsertedIntoTree_event)).
Definition MerkleTreeHook_InsertedIntoTreeIterator_Error `{BoundContract St} (it :
  MerkleTreeHook_InsertedIntoTreeIterator) := Error it.
Definition MerkleTreeHook_InsertedIntoTreeIterator_Next `{BoundContract St} :=
  Next (UnpackLog (e_name MerkleTreeHook_InsertedIntoTree_event) (e_types
    MerkleTreeHook_InsertedIntoTree_event)).
Definition MerkleTreeHook_FilterInsertedIntoTree `{BoundContract St} (opts : FilterOpts) :=
  FilterEvent MerkleTreeHook_InsertedIntoTree_event opts.
Definition MerkleTreeHook_WatchInsertedIntoTree `{BoundContract St} (opts : WatchOpts) :=
  WatchEvent MerkleTreeHook_InsertedIntoTree_event opts.
Definition MerkleTreeHook_WatchInsertedIntoTree_step `{BoundContract St} :=
  watch_step (UnpackLog (e_name MerkleTreeHook_InsertedIntoTree_event) (e_types
    MerkleTreeHook_InsertedIntoTree_event)).
Definition MerkleTreeHook_ParseInsertedIntoTree `{BoundContract St} (log : Log) :=
  ParseEvent MerkleTreeHook_InsertedIntoTree_event log.

Definition MerkleTreeHook_calls : list method :=
  [MerkleTreeHook_Count_method; MerkleTreeHook_DeployedBlock_method;
   MerkleTreeHook_LatestCheckpoint_method; MerkleTreeHook_QuoteDispatch_method;
   MerkleTreeHook_Root_method; MerkleTreeHook_Tree_method].
Definition MerkleTreeHook_transacts : list method :=
  [MerkleTreeHook_PostDispatch_method].
Definition MerkleTreeHook_events : list event_binding :=
  [MerkleTreeHook_InsertedIntoTree_event].

(** ** InterchainGasPaymaster *)

(** The ABI in [InterchainGasPaymasterMetaData]. *)
Definition InterchainGasPaymasterABI : contract_abi := mkAbi
  [mkAbiMethod "payForGas" "payForGas" [AFixedBytes 32; AUint 32; AUint 256; AAddress] [] false;
   mkAbiMethod "quoteGasPayment" "quoteGasPayment" [AUint 32; AUint 256] [AUint 256] true]
  [mkAbiEvent "GasPayment" [(AFixedBytes 32, true); (AUint 32, true); (AUint 256, false); (AUint
    256, false)]]%string.

Definition InterchainGasPaymaster_QuoteGasPayment_method : method :=
  mkMethod "quoteGasPayment" [GUint32; GBigInt] [GBigInt].
Definition InterchainGasPaymaster_QuoteGasPayment `{BoundContract St} (opts : CallOpts) :=
  caller InterchainGasPaymaster_QuoteGasPayment_method opts.
Definition InterchainGasPaymasterSession_QuoteGasPayment `{BoundContract St} (s : Session) :=
  session_call InterchainGasPaymaster_QuoteGasPayment_method s.
Definition InterchainGasPaymaster_PayForGas_method : method :=
  mkMethod "payForGas" [GByteArray 32; GUint32; GBigInt; GAddress] [].
Definition InterchainGasPaymaster_PayForGas `{BoundContract St} (opts : TransactOpts) :=
  transactor InterchainGasPaymaster_PayForGas_method opts.
Definition InterchainGasPaymasterSession_PayForGas `{BoundContract St} (s : Session) :=
  session_transact InterchainGasPaymaster_PayForGas_method s.

Definition InterchainGasPaymaster_GasPayment_event : event_binding :=
  mkEvent "GasPayment" [(GByteArray 32, true); (GUint32, true); (GBigInt, false); (GBigInt,
    false)].
Definition InterchainGasPaymaster_GasPaymentIterator `{BoundContract St} : Type :=
  Iterator Log (go_tuple (e_types InterchainGasPaymaster_GasPayment_event)).
Definition InterchainGasPaymaster_GasPaymentIterator_Error `{BoundContract St} (it :
  InterchainGasPaymaster_GasPaymentIterator) := Error it.
Definition InterchainGasPaymaster_GasPaymentIterator_Next `{BoundContract St} :=
  Next (UnpackLog (e_name InterchainGasPaymaster_GasPayment_event) (e_types
    InterchainGasPaymaster_GasPayment_event)).
Definition InterchainGasPaymaster_FilterGasPayment `{BoundContract St} (opts : FilterOpts) :=
  FilterEvent InterchainGasPaymaster_GasPayment_event opts.
Definition InterchainGasPaymaster_WatchGasPayment `{BoundContract St} (opts : WatchOpts) :=
  WatchEvent InterchainGasPaymaster_GasPayment_event opts.
Definition InterchainGasPaymaster_WatchGasPayment_step `{BoundContract St} :=
  watch_step (UnpackLog (e_name InterchainGasPaymaster_GasPayment_event) (e_types
    InterchainGasPaymaster_GasPayment_event)).
Definition InterchainGasPaymaster_ParseGasPayment `{BoundContract St} (log : Log) :=
  ParseEvent InterchainGasPaymaster_GasPayment_event log.

Definition InterchainGasPaymaster_calls : list method :=
  [InterchainGasPaymaster_QuoteGasPayment_method].
Definition InterchainGasPaymaster_transacts : list method :=
  [InterchainGasPaymaster_PayForGas_method].
Definition InterchainGasPaymaster_events : list event_binding :=
  [InterchainGasPaymaster_GasPayment_event].

(** ** InterchainSecurityModule *)

(** The ABI in [InterchainSecurityModuleMetaData]. *)
Definition InterchainSecurityModuleABI : contract_abi := mkAbi
  [mkAbiMethod "moduleType" "moduleType" [] [AUint 8] true;
   mkAbiMethod "verify" "verify" [ABytes; ABytes] [ABool] false]
  [].

Definition InterchainSecurityModule_ModuleType_method : method :=
  mkMethod "moduleType" [] [GUint8].
Definition InterchainSecurityModule_ModuleType `{BoundContract St} (opts : CallOpts) :=
  caller InterchainSecurityModule_ModuleType_method opts.
Definition InterchainSecurityModuleSession_ModuleType `{BoundContract St} (s : Session) :=
  session_call InterchainSecurityModule_ModuleType_method s.
Definition InterchainSecurityModule_Verify_method : method :=
  mkMethod "verify" [GBytes; GBytes] [].
Definition InterchainSecurityModule_Verify `{BoundContract St} (opts : TransactOpts) :=
  transactor InterchainSecurityModule_Verify_method opts.
Definition InterchainSecurityModuleSession_Verify `{BoundContract St} (s : Session) :=
  session_transact InterchainSecurityModule_Verify_method s.


Definition InterchainSecurityModule_calls : list method :=
  [InterchainSecurityModule_ModuleType_method].
Definition InterchainSecurityModule_transacts : list method :=
  [InterchainSecurityModule_Verify_method].
Definition InterchainSecurityModule_events : list event_binding :=
  [].

(** ** MultisigIsm *)

(** The ABI in [MultisigIsmMetaData]. *)
Definition MultisigIsmABI : contract_abi := mkAbi
  [mkAbiMethod "moduleType" "moduleType" [] [AUint 8] true;
   mkAbiMethod "validatorsAndThreshold" "validatorsAndThreshold" [ABytes] [ASlice AAddress; AUint
     8] true;
   mkAbiMethod "verify" "verify" [ABytes; ABytes] [ABool] false]
  [].

Definition MultisigIsm_ModuleType_method : method :=
  mkMethod "moduleType" [] [GUint8].
Definition MultisigIsm_ModuleType `{BoundContract St} (opts : CallOpts) :=
  caller MultisigIsm_ModuleType_method opts.
Definition MultisigIsmSession_ModuleType `{BoundContract St} (s : Session) :=
  session_call MultisigIsm_ModuleType_method s.
Definition MultisigIsm_ValidatorsAndThreshold_method : method :=
  mkMethod "validatorsAndThreshold" [GBytes] [GSlice GAddress; GUint8].
Definition MultisigIsm_ValidatorsAndThreshold `{BoundContract St} (opts : CallOpts) :=
  caller MultisigIsm_ValidatorsAndThreshold_method opts.
Definition MultisigIsmSession_ValidatorsAndThreshold `{BoundContract St} (s : Session) :=
  session_call MultisigIsm_ValidatorsAndThreshold_method s.
Definition MultisigIsm_Verify_method : method :=
  mkMethod "verify" [GBytes; GBytes] [].
Definition MultisigIsm_Verify `{BoundContract St} (opts : TransactOpts) :=
  transactor MultisigIsm_Verify_method opts.
Definition MultisigIsmSession_Verify `{BoundContract St} (s : Session) :=
  session_transact MultisigIsm_Verify_method s.


Definition MultisigIsm_calls : list method :=
  [MultisigIsm_ModuleType_method; MultisigIsm_ValidatorsAndThreshold_method].
Definition MultisigIsm_transacts : list method :=
  [MultisigIsm_Verify_method].
Definition MultisigIsm_events : list event_binding :=
  [].

(** ** AggregationIsm *)

(** The ABI in [AggregationIsmMetaData]. *)
Definition AggregationIsmABI : contract_abi := mkAbi
  [mkAbiMethod "moduleType" "moduleType" [] [AUint 8] true;
   mkAbiMethod "modulesAndThreshold" "modulesAndThreshold" [ABytes] [ASlice AAddress; AUint 8]
     true;
   mkAbiMethod "verify" "verify" [ABytes; ABytes] [ABool] false]
  [].

Definition AggregationIsm_ModuleType_method : method :=
  mkMethod "moduleType" [] [GUint8].
Definition AggregationIsm_ModuleType `{BoundContract St} (opts : CallOpts) :=
  caller AggregationIsm_ModuleType_method opts.
Definition AggregationIsmSession_ModuleType `{BoundContract St} (s : Session) :=
  session_call AggregationIsm_ModuleType_method s.
Definition AggregationIsm_ModulesAndThreshold_method : method :=
  mkMethod "modulesAndThreshold" [GBytes] [GSlice GAddress; GUint8].
Definition AggregationIsm_ModulesAndThreshold `{BoundContract St} (opts : CallOpts) :=
  caller AggregationIsm_ModulesAndThreshold_method opts.
Definition AggregationIsmSession_ModulesAndThreshold `{BoundContract St} (s : Session) :=
  session_call AggregationIsm_ModulesAndThreshold_method s.
Definition AggregationIsm_Verify_method : method :=
  mkMethod "verify" [GBytes; GBytes] [].
Definition AggregationIsm_Verify `{BoundContract St} (opts : TransactOpts) :=
  transactor AggregationIsm_Verify_method opts.
Definition AggregationIsmSession_Verify `{BoundContract St} (s : Session) :=
  session_transact AggregationIsm_Verify_method s.


Definition AggregationIsm_calls : list method :=
  [AggregationIsm_ModuleType_method; AggregationIsm_ModulesAndThreshold_method].
Definition AggregationIsm_transacts : list method :=
  [AggregationIsm_Verify_method].
Definition AggregationIsm_events : list event_binding :=
  [].

(** ** ValidatorAnnounce *)

(** The ABI in [ValidatorAnnounceMetaData]. *)
Definition ValidatorAnnounceABI : contract_abi := mkAbi
  [mkAbiMethod "announce" "announce" [AAddress; AString; ABytes] [ABool] false;
   mkAbiMethod "getAnnouncedStorageLocations" "getAnnouncedStorageLocations" [ASlice AAddress]
     [ASlice (ASlice AString)] true;
   mkAbiMethod "getAnnouncedValidators" "getAnnouncedValidators" [] [ASlice AAddress] true;
   mkAbiMethod "localDomain" "localDomain" [] [AUint 32] true;
   mkAbiMethod "mailbox" "mailbox" [] [AAddress] true]
  [].

Definition ValidatorAnnounce_GetAnnouncedStorageLocations_method : method :=
  mkMethod "getAnnouncedStorageLocations" [GSlice GAddress] [GSlice (GSlice GString)].
Definition ValidatorAnnounce_GetAnnouncedStorageLocations `{BoundContract St} (opts : CallOpts)
  := caller ValidatorAnnounce_GetAnnouncedStorageLocations_method opts.
Definition ValidatorAnnounceSession_GetAnnouncedStorageLocations `{BoundContract St} (s :
  Session) := session_call ValidatorAnnounce_GetAnnouncedStorageLocations_method s.
Definition ValidatorAnnounce_GetAnnouncedValidators_method : method :=
  mkMethod "getAnnouncedValidators" [] [GSlice GAddress].
Definition ValidatorAnnounce_GetAnnouncedValidators `{BoundContract St} (opts : CallOpts) :=
  caller ValidatorAnnounce_GetAnnouncedValidators_method opts.
Definition ValidatorAnnounceSession_GetAnnouncedValidators `{BoundContract St} (s : Session) :=
  session_call ValidatorAnnounce_GetAnnouncedValidators_method s.
Definition ValidatorAnnounce_LocalDomain_method : method :=
  mkMethod "localDomain" [] [GUint32].
Definition ValidatorAnnounce_LocalDomain `{BoundContract St} (opts : CallOpts) :=
  caller ValidatorAnnounce_LocalDomain_method opts.
Definition ValidatorAnnounceSession_LocalDomain `{BoundContract St} (s : Session) :=
  session_call ValidatorAnnounce_LocalDomain_method s.
Definition ValidatorAnnounce_Mailbox_method : method :=
  mkMethod "mailbox" [] [GAddress].
Definition ValidatorAnnounce_Mailbox `{BoundContract St} (opts : CallOpts) :=
  caller ValidatorAnnounce_Mailbox_method opts.
Definition ValidatorAnnounceSession_Mailbox `{BoundContract St} (s : Session) :=
  session_call ValidatorAnnounce_Mailbox_method s.
Definition ValidatorAnnounce_Announce_method : method :=
  mkMethod "announce" [GAddress; GString; GBytes] [].
Definition ValidatorAnnounce_Announce `{BoundContract St} (opts : TransactOpts) :=
  transactor ValidatorAnnounce_Announce_method opts.
Definition ValidatorAnnounceSession_Announce `{BoundContract St} (s : Session) :=
  session_transact ValidatorAnnounce_Announce_method s.


Definition ValidatorAnnounce_calls : list method :=
  [ValidatorAnnounce_GetAnnouncedStorageLocations_method;
   ValidatorAnnounce_GetAnnouncedValidators_method; ValidatorAnnounce_LocalDomain_method;
   ValidatorAnnounce_Mailbox_method].
Definition ValidatorAnnounce_transacts : list method :=
  [ValidatorAnnounce_Announce_method].
Definition ValidatorAnnounce_events : list event_binding :=
  [].

(** ** Properties *)

(** The binding covers the ABI: every method and event of one is in the other, with the
    Go types of its inputs and outputs. *)
Theorem mailbox_covers : covers MailboxABI Mailbox_calls Mailbox_transacts Mailbox_events = true.
Proof. vm_compute. reflexivity. Qed.

(** The selectors and topics in the comments are those of the ABI. *)
Theorem mailbox_identifiers :
  (λ am, hex_EncodeToString (selector (signature (am_name am) (am_inputs am)))) <$> abi_methods
    MailboxABI =
    ["ffa1ad74"; "3d1250b7"; "6e5f516e"; "e495f1d4"; "82ea7bfe"; "10b83dc0"; "48aee8d4";
     "fa31de01"; "f8c8765e"; "134fbb4f"; "8d3638f4"; "affed0e0"; "8da5cb5b"; "7c39d130";
     "07a2fda1"; "5d1fe5a9"; "81d2ea95"; "9c42bd18"; "f7ccd321"; "e70f48ac"; "715018a6";
     "d6d08a09"; "99b04809"; "f794687a"; "1426b7f4"; "f2fde38b"]%string ∧
  (λ ae, hex_EncodeToString (topic (signature (ae_name ae) (fst <$> ae_inputs ae)))) <$>
    abi_events MailboxABI =
    ["65a63e5066ee2fcdf9d32a7f1bf7ce71c76066f19d0609dddccd334ab87237d7";
     "a76ad0adbf45318f8633aa0210f711273d50fbb6fef76ed95bbae97082c75daa";
     "769f711d20c679153d382254f59892613b58a97cc876b249134ac25c80f9c814";
     "788dbc1b7152732178210e7f4d9d010ef016f9eafbe66786bd7169f56e0c353a";
     "7f26b83ff96e1f2b6a682f133852f6798a09c465da95921460cefb3847402498";
     "8be0079c531659141344cd1fd0a4f28419497f9722a3daafe3b4186f6b6457e0";
     "0d381c2a574ae8f04e213db7cfb4df8df712cdbd427d9868ffef380660ca6574";
     "1cae38cdd3d3919489272725a5ae62a4f48b2989b0dae843d3c279fee18073a9";
     "329ec8e2438a73828ecf31a6568d7a91d7b1d79e342b0692914fd053d1a002b1"]%string.
Proof. vm_compute. split; reflexivity. Qed.

(** A call of the binding returns what the contract answered: of a contract that
    answers as its ABI says, every method returns all results, in order and with their
    types, or the error of the call, and none panics. *)
Theorem mailbox_calls_safe `{BoundContract St} `{!BoundContractLaws MailboxABI} m opts :
  m ∈ Mailbox_calls → for_args (m_args m) (returns_answer m opts) (caller m opts).
Proof.
  intros Hm. apply (caller_safe MailboxABI). by eapply covers_call; [apply mailbox_covers|].
Qed.

(** The binding covers the ABI: every method and event of one is in the other, with the
    Go types of its inputs and outputs. *)
Theorem merkletreehook_covers : covers MerkleTreeHookABI MerkleTreeHook_calls
  MerkleTreeHook_transacts MerkleTreeHook_events = true.
Proof. vm_compute. reflexivity. Qed.

(** The selectors and topics in the comments are those of the ABI. *)
Theorem merkletreehook_identifiers :
  (λ am, hex_EncodeToString (selector (signature (am_name am) (am_inputs am)))) <$> abi_methods
    MerkleTreeHookABI =
    ["06661abd"; "82ea7bfe"; "907c0f92"; "086011b9"; "aaccd230"; "ebf0c717"; "fd54b228"]%string ∧
  (λ ae, hex_EncodeToString (topic (signature (ae_name ae) (fst <$> ae_inputs ae)))) <$>
    abi_events MerkleTreeHookABI =
    ["253a3a04cab70d47c1504809242d9350cd81627b4f1d50753e159cf8cd76ed33"]%string.
Proof. vm_compute. split; reflexivity. Qed.

(** A call of the binding returns what the contract answered: of a contract that
    answers as its ABI says, every method returns all results, in order and with their
    types, or the error of the call, and none panics. *)
Theorem merkletreehook_calls_safe `{BoundContract St} `{!BoundContractLaws MerkleTreeHookABI} m
  opts :
  m ∈ MerkleTreeHook_calls → for_args (m_args m) (returns_answer m opts) (caller m opts).
Proof.
  intros Hm. apply (caller_safe MerkleTreeHookABI). by eapply covers_call; [apply
    merkletreehook_covers|].
Qed.

(** The binding covers the ABI: every method and event of one is in the other, with the
    Go types of its inputs and outputs. *)
Theorem interchaingaspaymaster_covers : covers InterchainGasPaymasterABI
  InterchainGasPaymaster_calls InterchainGasPaymaster_transacts InterchainGasPaymaster_events =
  true.
Proof. vm_compute. reflexivity. Qed.

(** The selectors and topics in the comments are those of the ABI. *)
Theorem interchaingaspaymaster_identifiers :
  (λ am, hex_EncodeToString (selector (signature (am_name am) (am_inputs am)))) <$> abi_methods
    InterchainGasPaymasterABI =
    ["11bf2c18"; "a6929793"]%string ∧
  (λ ae, hex_EncodeToString (topic (signature (ae_name ae) (fst <$> ae_inputs ae)))) <$>
    abi_events InterchainGasPaymasterABI =
    ["65695c3748edae85a24cc2c60b299b31f463050bc259150d2e5802ec8d11720a"]%string.
Proof. vm_compute. split; reflexivity. Qed.

(** A call of the binding returns what the contract answered: of a contract that
    answers as its ABI says, every method returns all results, in order and with their
    types, or the error of the call, and none panics. *)
Theorem interchaingaspaymaster_calls_safe `{BoundContract St} `{!BoundContractLaws
  InterchainGasPaymasterABI} m opts :
  m ∈ InterchainGasPaymaster_calls → for_args (m_args m) (returns_answer m opts) (caller m opts).
Proof.
  intros Hm. apply (caller_safe InterchainGasPaymasterABI). by eapply covers_call; [apply
    interchaingaspaymaster_covers|].
Qed.

(** The binding covers the ABI: every method and event of one is in the other, with the
    Go types of its inputs and outputs. *)
Theorem interchainsecuritymodule_covers : covers InterchainSecurityModuleABI
  InterchainSecurityModule_calls InterchainSecurityModule_transacts
  InterchainSecurityModule_events = true.
Proof. vm_compute. reflexivity. Qed.

(** The selectors and topics in the comments are those of the ABI. *)
Theorem interchainsecuritymodule_identifiers :
  (λ am, hex_EncodeToString (selector (signature (am_name am) (am_inputs am)))) <$> abi_methods
    InterchainSecurityModuleABI =
    ["6465e69f"; "f7e83aee"]%string.
Proof. vm_compute. reflexivity. Qed.

(** A call of the binding returns what the contract answered: of a contract that
    answers as its ABI says, every method returns all results, in order and with their
    types, or the error of the call, and none panics. *)
Theorem interchainsecuritymodule_calls_safe `{BoundContract St} `{!BoundContractLaws
  InterchainSecurityModuleABI} m opts :
  m ∈ InterchainSecurityModule_calls → for_args (m_args m) (returns_answer m opts) (caller m
    opts).
Proof.
  intros Hm. apply (caller_safe InterchainSecurityModuleABI). by eapply covers_call; [apply
    interchainsecuritymodule_covers|].
Qed.

(** The binding covers the ABI: every method and event of one is in the other, with the
    Go types of its inputs and outputs. *)
Theorem multisigism_covers : covers MultisigIsmABI MultisigIsm_calls MultisigIsm_transacts
  MultisigIsm_events = true.
Proof. vm_compute. reflexivity. Qed.

(** The selectors and topics in the comments are those of the ABI. *)
Theorem multisigism_identifiers :
  (λ am, hex_EncodeToString (selector (signature (am_name am) (am_inputs am)))) <$> abi_methods
    MultisigIsmABI =
    ["6465e69f"; "2e0ed234"; "f7e83aee"]%string.
Proof. vm_compute. reflexivity. Qed.

(** A call of the binding returns what the contract answered: of a contract that
    answers as its ABI says, every method returns all results, in order and with their
    types, or the error of the call, and none panics. *)
Theorem multisigism_calls_safe `{BoundContract St} `{!BoundContractLaws MultisigIsmABI} m opts :
  m ∈ MultisigIsm_calls → for_args (m_args m) (returns_answer m opts) (caller m opts).
Proof.
  intros Hm. apply (caller_safe MultisigIsmABI). by eapply covers_call; [apply
    multisigism_covers|].
Qed.

(** The binding covers the ABI: every method and event of one is in the other, with the
    Go types of its inputs and outputs. *)
Theorem aggregationism_covers : covers AggregationIsmABI AggregationIsm_calls
  AggregationIsm_transacts AggregationIsm_events = true.
Proof. vm_compute. reflexivity. Qed.

(** The selectors and topics in the comments are those of the ABI. *)
Theorem aggregationism_identifiers :
  (λ am, hex_EncodeToString (selector (signature (am_name am) (am_inputs am)))) <$> abi_methods
    AggregationIsmABI =
    ["6465e69f"; "6f72df75"; "f7e83aee"]%string.
Proof. vm_compute. reflexivity. Qed.

(** A call of the binding returns what the contract answered: of a contract that
    answers as its ABI says, every method returns all results, in order and with their
    types, or the error of the call, and none panics. *)
Theorem aggregationism_calls_safe `{BoundContract St} `{!BoundContractLaws AggregationIsmABI} m
  opts :
  m ∈ AggregationIsm_calls → for_args (m_args m) (returns_answer m opts) (caller m opts).
Proof.
  intros Hm. apply (caller_safe AggregationIsmABI). by eapply covers_call; [apply
    aggregationism_covers|].
Qed.

(** The binding covers the ABI: every method and event of one is in the other, with the
    Go types of its inputs and outputs. *)
Theorem validatorannounce_covers : covers ValidatorAnnounceABI ValidatorAnnounce_calls
  ValidatorAnnounce_transacts ValidatorAnnounce_events = true.
Proof. vm_compute. reflexivity. Qed.

(** The selectors and topics in the comments are those of the ABI. *)
Theorem validatorannounce_identifiers :
  (λ am, hex_EncodeToString (selector (signature (am_name am) (am_inputs am)))) <$> abi_methods
    ValidatorAnnounceABI =
    ["21f71781"; "51abe7cc"; "690cb786"; "8d3638f4"; "d5438eae"]%string.
Proof. vm_compute. reflexivity. Qed.

(** A call of the binding returns what the contract answered: of a contract that
    answers as its ABI says, every method returns all results, in order and with their
    types, or the error of the call, and none panics. *)
Theorem validatorannounce_calls_safe `{BoundContract St} `{!BoundContractLaws
  ValidatorAnnounceABI} m opts :
  m ∈ ValidatorAnnounce_calls → for_args (m_args m) (returns_answer m opts) (caller m opts).
Proof.
  intros Hm. apply (caller_safe ValidatorAnnounceABI). by eapply covers_call; [apply
    validatorannounce_covers|].
Qed.
