(* ===== verification/Metrics.v ===== *)
(** * Metrics: shared/metrics/metrics.go

    The 23 metrics of the solver with their labels, the operations of the [Metrics]
    interface on them, the implementation that does nothing, and how a context carries one.
    The metrics library (go-kit over the Prometheus client) is a parameter, a class with
    laws: a metric can be registered once; an update is recorded when it names exactly the
    labels that were declared, with valid text as values, and panics otherwise. *)
From S2P Require Import Prelude GoLib.

(** ** Labels *)

Definition chainIDLabel : string := "chain_id".
Definition sourceChainIDLabel : string := "source_chain_id".
Definition destinationChainIDLabel : string := "destination_chain_id".
Definition successLabel : string := "success".
Definition orderStatusLabel : string := "order_status".
Definition transferStatusLabel : string := "transfer_status".
Definition settlementStatusLabel : string := "settlement_status".
Definition transactionTypeLabel : string := "transaction_type".
Definition gasBalanceLevelLabel : string := "gas_balance_level".
Definition gasTokenSymbolLabel : string := "gas_token_symbol".
Definition chainNameLabel : string := "chain_name".

Definition ConnectionTypeWebSocket : string := "websocket".
Definition ConnectionTypeRPC : string := "rpc".

(** ** The metrics library *)

Inductive metric_kind := KCounter | KGauge | KHistogram (buckets : list Z).

(** What a metric is registered with. *)
Record desc := mkDesc {
  d_kind : metric_kind; d_namespace : string; d_name : string; d_help : string;
  d_labels : list string;
}.
Definition fq_name (d : desc) : string := d_namespace d +:+ "_" +:+ d_name d.

(** [.Add(v)], [.Set(v)], [.Observe(v)] *)
Inductive metric_op := Add (v : bigfloat) | Set_ (v : bigfloat) | Observe (v : bigfloat).

(** [v.With(labelValues...)] followed by an operation. *)
Class Prometheus (St : Type) := {
  vec : Type;
  NewFrom : desc → M St vec;
  Update : vec → list string → metric_op → M St unit;
}.

(** The label values of [With] in pairs. *)
Fixpoint pairs (lvs : list string) : list (string * string) :=
  match lvs with
  | l :: v :: lvs => (l, v) :: pairs lvs
  | _ => []
  end.

Definition ascii_only (s : string) : bool :=
  forallb (λ c, (Z.of_nat (Ascii.nat_of_ascii c) <? 128)%Z) (String.list_ascii_of_string s).

(** Names of metrics and labels. *)
Definition letter (c : Ascii.ascii) : bool :=
  let n := Z.of_nat (Ascii.nat_of_ascii c) in
  ((97 <=? n) && (n <=? 122)) || ((65 <=? n) && (n <=? 90)) || (n =? 95).
Definition digit (c : Ascii.ascii) : bool :=
  let n := Z.of_nat (Ascii.nat_of_ascii c) in (48 <=? n) && (n <=? 57).
Definition valid_name (s : string) : bool :=
  match String.list_ascii_of_string s with
  | [] => false
  | c :: cs => letter c && forallb (λ c, letter c || digit c) cs
  end.

Fixpoint increasing (l : list Z) : bool :=
  match l with
  | x :: ((y :: _) as l') => (x <? y) && increasing l'
  | _ => true
  end.

(** What the library accepts at registration, and at an update. *)
Definition valid_desc (d : desc) : bool :=
  valid_name (fq_name d)
  && forallb (λ l, valid_name l && negb (String.prefix "__" l)) (d_labels d)
  && bool_decide (NoDup (d_labels d))
  && match d_kind d with
     | KHistogram bs => increasing bs && negb (existsb (String.eqb "le") (d_labels d))
     | _ => true
     end.

Definition valid_update (d : desc) (lvs : list string) (op : metric_op) : bool :=
  (length lvs =? 2 * length (d_labels d))%nat
  && forallb (λ l, existsb (String.eqb l) (fst <$> pairs lvs)) (d_labels d)
  && forallb (λ p, ascii_only p.2) (pairs lvs)
  && match d_kind d, op with
     | KCounter, Add v => 0 <=? bf_num v
     | KGauge, Set_ _ | KHistogram _, Observe _ => true
     | _, _ => false
     end.

(** A recorded value: the metric, its labels, the operation. *)
Definition sample : Type := string * list (string * string) * metric_op.

Class PrometheusLaws (St : Type) `{Prometheus St} := {
  registered : St → list string;
  samples : St → list sample;
  vec_desc : vec → desc;
  NewFrom_ok d s : valid_desc d = true → fq_name d ∉ registered s →
    ∃ v s', NewFrom d s = (Ok v, s') ∧ vec_desc v = d ∧
      registered s' = fq_name d :: registered s ∧ samples s' = samples s;
  NewFrom_again d s : fq_name d ∈ registered s → ∃ why, (NewFrom d s).1 = Panic why;
  Update_ok v lvs op s : valid_update (vec_desc v) lvs op = true →
    ∃ s', Update v lvs op s = (Ok tt, s') ∧ registered s' = registered s ∧
      samples s' = samples s ++ [(fq_name (vec_desc v), pairs lvs, op)];
}.

(** ** float64 *)

Definition float64_add (x y : bigfloat) : bigfloat :=
  bf_round 53 (bf_num x * bf_den y + bf_num y * bf_den x) (bf_den x * bf_den y).
Definition float64_div (x y : bigfloat) : bigfloat := bf_Quo 53 x y.

(** [d.Seconds()], [d.Minutes()] *)
Definition Seconds (d : Duration) : bigfloat :=
  float64_add (float64_of_int (Z.quot d Second))
    (float64_div (float64_of_int (Z.rem d Second)) (float64_of_int (10 ^ 9))).
Definition Minutes (d : Duration) : bigfloat :=
  float64_add (float64_of_int (Z.quot d Minute))
    (float64_div (float64_of_int (Z.rem d Minute)) (float64_of_int (60 * 10 ^ 9))).

(** [math.Pow10(n)] for [0 <= n <= 308]: a product of two entries of its tables. *)
Definition math_Pow10 (n : Z) : bigfloat :=
  float64_mul (float64_of_int (10 ^ (32 * (n / 32)))) (float64_of_int (10 ^ (n mod 32))).

(** ** The metrics *)

Definition fillOrderStatusChange_desc : desc :=
  mkDesc KCounter "solver" "fill_order_status_change_counter"
  ("numbers of fill order status changes, paginated by source and destination " +:+
   "chain, and status")%string
  [sourceChainIDLabel; destinationChainIDLabel; orderStatusLabel].
Definition excessiveOrderFulfillmentLatency_desc : desc :=
  mkDesc KCounter "solver" "excessive_order_fulfillment_latency_counter"
  ("number of observations of excessive order fulfillment latency, paginated by " +:+
   "source and destination chain and status")%string
  [sourceChainIDLabel; destinationChainIDLabel; orderStatusLabel].
Definition excessiveOrderSettlementLatency_desc : desc :=
  mkDesc KCounter "solver" "excessive_order_settlement_latency_counter"
  ("number of observations of excessive order settlement latency, paginated by " +:+
   "source and destination chain and status")%string
  [sourceChainIDLabel; destinationChainIDLabel; settlementStatusLabel].
Definition orderSettlementStatusChange_desc : desc :=
  mkDesc KCounter "solver" "order_settlement_status_change_counter"
  ("numbers of order settlement status changes, paginated by source and destination " +:+
   "chain, and status")%string
  [sourceChainIDLabel; destinationChainIDLabel; settlementStatusLabel].
Definition fundRebalanceTransferStatusChange_desc : desc :=
  mkDesc KCounter "solver" "funds_rebalance_transfer_status_change_counter"
  ("numbers of funds rebalance transfer status changes, paginated by source and " +:+
   "destination chain, and status")%string
  [sourceChainIDLabel; destinationChainIDLabel; transferStatusLabel].
Definition totalTransactionSubmitted_desc : desc :=
  mkDesc KCounter "solver" "total_transactions_submitted_counter"
  ("number of transactions submitted, paginated by success status and source and " +:+
   "destination chain id")%string
  [successLabel; chainIDLabel; transactionTypeLabel].
Definition totalTransactionsVerified_desc : desc :=
  mkDesc KCounter "solver" "total_transactions_verified_counter"
  "number of transactions verified, paginated by success status and chain id"%string
  [successLabel; chainIDLabel].
Definition fillLatency_desc : desc :=
  mkDesc (KHistogram [1; 5; 10; 15; 20; 30; 40; 50; 60; 120; 300; 600]) "solver"
    "latency_per_fill_seconds"
  ("latency from source transaction to fill completion, paginated by source and " +:+
   "destination chain id (in seconds)")%string
  [sourceChainIDLabel; destinationChainIDLabel; orderStatusLabel].
Definition settlementLatency_desc : desc :=
  mkDesc (KHistogram [1; 5; 15; 30; 60; 120; 180; 240; 300]) "solver"
    "latency_per_settlement_minutes"
  ("latency from source transaction to fill completion, paginated by source and " +:+
   "destination chain id (in minutes)")%string
  [sourceChainIDLabel; destinationChainIDLabel; settlementStatusLabel].
Definition hplMessageStatusChange_desc : desc :=
  mkDesc KCounter "solver" "hyperlane_message_status_change_counter"
  ("number of hyperlane messages status changes, paginated by source and " +:+
   "destination chain, and message status")%string
  [sourceChainIDLabel; destinationChainIDLabel; transferStatusLabel].
Definition hplCheckpointingErrors_desc : desc :=
  mkDesc KCounter "solver" "hyperlane_checkpointing_errors"
  "number of hyperlane checkpointing errors"%string
  [].
Definition hplLatency_desc : desc :=
  mkDesc (KHistogram [1; 5; 10; 15; 20; 30; 40; 50; 60; 120; 300; 600]) "solver"
    "latency_per_hyperlane_message_seconds"
  ("latency for hyperlane message relaying, paginated by status, source and " +:+
   "destination chain id (in seconds)")%string
  [sourceChainIDLabel; destinationChainIDLabel; transferStatusLabel].
Definition hplRelayTooExpensive_desc : desc :=
  mkDesc KCounter "solver" "hyperlane_relay_too_expensive_counter"
  "counter of relay attempts that were aborted due to being too expensive"%string
  [sourceChainIDLabel; destinationChainIDLabel].
Definition excessiveHyperlaneRelayLatency_desc : desc :=
  mkDesc KCounter "solver" "excessive_hyperlane_relay_latency_counter"
  ("number of observations of excessive hyperlane relay latency, paginated by " +:+
   "source and destination chain")%string
  [sourceChainIDLabel; destinationChainIDLabel].
Definition transferSizeOutOfRange_desc : desc :=
  mkDesc (KHistogram [-1000000000; -100000000; -10000000; 100000000; 1000000000; 10000000000;
    100000000000;
   1000000000000]) "solver" "transfer_size_out_of_range"
  "histogram of transfer sizes that were out of min/max fill size constraints"%string
  [sourceChainIDLabel; destinationChainIDLabel].
Definition feeBpsRejections_desc : desc :=
  mkDesc (KHistogram [1; 5; 10; 25; 50; 100; 200; 500; 1000]) "solver" "fee_bps_rejections"
  "histogram of fee bps that were rejected for being too low"%string
  [sourceChainIDLabel; destinationChainIDLabel].
Definition insufficientBalanceErrors_desc : desc :=
  mkDesc (KHistogram [100000000; 1000000000; 10000000000; 100000000000; 1000000000000]) "solver"
    "insufficient_balance_errors"
  "histogram of fill orders that exceeded available balance"%string
  [chainIDLabel].
Definition gasBalance_desc : desc :=
  mkDesc KGauge "solver" "gas_balance_gauge"
  "gas balances, paginated by chain id"%string
  [chainIDLabel; chainNameLabel; gasTokenSymbolLabel].
Definition gasBalanceState_desc : desc :=
  mkDesc KGauge "solver" "gas_balance_state_gauge"
  "gas balance states (0=ok 1=warning 2=critical), paginated by chain id"%string
  [chainIDLabel; chainNameLabel].
Definition connectionType_desc : desc :=
  mkDesc KGauge "solver" "chain_connection_type"
  "Current connection type (0=RPC, 1=WebSocket) for each chain and monitor"%string
  ["chain_id"%string; "monitor"%string].
Definition blocksReceived_desc : desc :=
  mkDesc KCounter "solver" "websocket_blocks_received_total"
  "Number of blocks received via WebSocket per chain and monitor"%string
  ["chain_id"%string; "monitor"%string].
Definition subscriptionErrors_desc : desc :=
  mkDesc KCounter "solver" "websocket_subscription_errors_total"
  "Number of WebSocket subscription errors per chain, monitor, and error type"%string
  ["chain_id"%string; "monitor"%string; "error_type"%string].
Definition connectionSwitches_desc : desc :=
  mkDesc KCounter "solver" "connection_type_switches_total"
  "Number of switches between connection types per chain and monitor"%string
  ["chain_id"%string; "monitor"%string; "from_type"%string; "to_type"%string].

Definition prom_descs : list desc :=
  [fillOrderStatusChange_desc; excessiveOrderFulfillmentLatency_desc;
   excessiveOrderSettlementLatency_desc; orderSettlementStatusChange_desc;
   fundRebalanceTransferStatusChange_desc; totalTransactionSubmitted_desc;
   totalTransactionsVerified_desc; fillLatency_desc; settlementLatency_desc;
   hplMessageStatusChange_desc; hplCheckpointingErrors_desc; hplLatency_desc;
   hplRelayTooExpensive_desc; excessiveHyperlaneRelayLatency_desc; transferSizeOutOfRange_desc;
   feeBpsRejections_desc; insufficientBalanceErrors_desc; gasBalance_desc;
   gasBalanceState_desc; connectionType_desc; blocksReceived_desc; subscriptionErrors_desc;
   connectionSwitches_desc].

(** ** The operations *)

Section metrics.
Context {St : Type} `{Prometheus St}.

Record PromMetrics := mkPromMetrics {
  totalTransactionSubmitted : vec;
  totalTransactionsVerified : vec;
  fillOrderStatusChange : vec;
  fillLatency : vec;
  orderSettlementStatusChange : vec;
  settlementLatency : vec;
  excessiveOrderSettlementLatency : vec;
  excessiveOrderFulfillmentLatency : vec;
  fundRebalanceTransferStatusChange : vec;
  hplMessageStatusChange : vec;
  hplCheckpointingErrors : vec;
  hplLatency : vec;
  hplRelayTooExpensive : vec;
  excessiveHyperlaneRelayLatency : vec;
  transferSizeOutOfRange : vec;
  feeBpsRejections : vec;
  insufficientBalanceErrors : vec;
  gasBalance : vec;
  gasBalanceState : vec;
  connectionType : vec;
  blocksReceived : vec;
  subscriptionErrors : vec;
  connectionSwitches : vec;
}.

Definition NewPromMetrics : M St PromMetrics :=
  v_fillOrderStatusChange ← NewFrom fillOrderStatusChange_desc;
  v_excessiveOrderFulfillmentLatency ← NewFrom excessiveOrderFulfillmentLatency_desc;
  v_excessiveOrderSettlementLatency ← NewFrom excessiveOrderSettlementLatency_desc;
  v_orderSettlementStatusChange ← NewFrom orderSettlementStatusChange_desc;
  v_fundRebalanceTransferStatusChange ← NewFrom fundRebalanceTransferStatusChange_desc;
  v_totalTransactionSubmitted ← NewFrom totalTransactionSubmitted_desc;
  v_totalTransactionsVerified ← NewFrom totalTransactionsVerified_desc;
  v_fillLatency ← NewFrom fillLatency_desc;
  v_settlementLatency ← NewFrom settlementLatency_desc;
  v_hplMessageStatusChange ← NewFrom hplMessageStatusChange_desc;
  v_hplCheckpointingErrors ← NewFrom hplCheckpointingErrors_desc;
  v_hplLatency ← NewFrom hplLatency_desc;
  v_hplRelayTooExpensive ← NewFrom hplRelayTooExpensive_desc;
  v_excessiveHyperlaneRelayLatency ← NewFrom excessiveHyperlaneRelayLatency_desc;
  v_transferSizeOutOfRange ← NewFrom transferSizeOutOfRange_desc;
  v_feeBpsRejections ← NewFrom feeBpsRejections_desc;
  v_insufficientBalanceErrors ← NewFrom insufficientBalanceErrors_desc;
  v_gasBalance ← NewFrom gasBalance_desc;
  v_gasBalanceState ← NewFrom gasBalanceState_desc;
  v_connectionType ← NewFrom connectionType_desc;
  v_blocksReceived ← NewFrom blocksReceived_desc;
  v_subscriptionErrors ← NewFrom subscriptionErrors_desc;
  v_connectionSwitches ← NewFrom connectionSwitches_desc;
  mret {|
    totalTransactionSubmitted := v_totalTransactionSubmitted;
    totalTransactionsVerified := v_totalTransactionsVerified;
    fillOrderStatusChange := v_fillOrderStatusChange;
    fillLatency := v_fillLatency;
    orderSettlementStatusChange := v_orderSettlementStatusChange;
    settlementLatency := v_settlementLatency;
    excessiveOrderSettlementLatency := v_excessiveOrderSettlementLatency;
    excessiveOrderFulfillmentLatency := v_excessiveOrderFulfillmentLatency;
    fundRebalanceTransferStatusChange := v_fundRebalanceTransferStatusChange;
    hplMessageStatusChange := v_hplMessageStatusChange;
    hplCheckpointingErrors := v_hplCheckpointingErrors;
    hplLatency := v_hplLatency;
    hplRelayTooExpensive := v_hplRelayTooExpensive;
    excessiveHyperlaneRelayLatency := v_excessiveHyperlaneRelayLatency;
    transferSizeOutOfRange := v_transferSizeOutOfRange;
    feeBpsRejections := v_feeBpsRejections;
    insufficientBalanceErrors := v_insufficientBalanceErrors;
    gasBalance := v_gasBalance;
    gasBalanceState := v_gasBalanceState;
    connectionType := v_connectionType;
    blocksReceived := v_blocksReceived;
    subscriptionErrors := v_subscriptionErrors;
    connectionSwitches := v_connectionSwitches;
  |}.

(** [fmt.Sprint(success)] *)
Definition sprint_bool (b : bool) : string := if b then "true" else "false".

Definition one : bigfloat := float64_of_int 1.

Definition PromMetrics_IncTransactionSubmitted (m : PromMetrics)
    (success : bool) (chainID transactionType : string) : M St unit :=
  Update (totalTransactionSubmitted m)
    [successLabel; sprint_bool success; chainIDLabel; chainID; transactionTypeLabel;
     transactionType] (Add one).

Definition PromMetrics_IncTransactionVerified (m : PromMetrics)
    (success : bool) (chainID : string) : M St unit :=
  Update (totalTransactionsVerified m)
    [successLabel; sprint_bool success; chainIDLabel; chainID] (Add one).

Definition PromMetrics_ObserveFillLatency (m : PromMetrics)
    (sourceChainID destinationChainID orderStatus : string) (latency : Duration) : M St unit :=
  Update (fillLatency m)
    [sourceChainIDLabel; sourceChainID; destinationChainIDLabel; destinationChainID;
     orderStatusLabel; orderStatus] (Observe (Seconds latency)).

Definition PromMetrics_ObserveSettlementLatency (m : PromMetrics)
    (sourceChainID destinationChainID settlementStatus : string) (latency : Duration) : M St unit
      :=
  Update (settlementLatency m)
    [sourceChainIDLabel; sourceChainID; destinationChainIDLabel; destinationChainID;
     settlementStatusLabel; settlementStatus] (Observe (Minutes latency)).

Definition PromMetrics_ObserveHyperlaneLatency (m : PromMetrics)
    (sourceChainID destinationChainID transferStatus : string) (latency : Duration) : M St unit :=
  Update (hplLatency m)
    [sourceChainIDLabel; sourceChainID; destinationChainIDLabel; destinationChainID;
     transferStatusLabel; transferStatus] (Observe (Seconds latency)).

Definition PromMetrics_IncFillOrderStatusChange (m : PromMetrics)
    (sourceChainID destinationChainID orderStatus : string) : M St unit :=
  Update (fillOrderStatusChange m)
    [sourceChainIDLabel; sourceChainID; destinationChainIDLabel; destinationChainID;
     orderStatusLabel; orderStatus] (Add one).

Definition PromMetrics_IncOrderSettlementStatusChange (m : PromMetrics)
    (sourceChainID destinationChainID settlementStatus : string) : M St unit :=
  Update (orderSettlementStatusChange m)
    [sourceChainIDLabel; sourceChainID; destinationChainIDLabel; destinationChainID;
     settlementStatusLabel; settlementStatus] (Add one).

Definition PromMetrics_IncFundsRebalanceTransferStatusChange (m : PromMetrics)
    (sourceChainID destinationChainID transferStatus : string) : M St unit :=
  Update (fundRebalanceTransferStatusChange m)
    [sourceChainIDLabel; sourceChainID; destinationChainIDLabel; destinationChainID;
     transferStatusLabel; transferStatus] (Add one).

Definition PromMetrics_IncHyperlaneCheckpointingErrors (m : PromMetrics) : M St unit :=
  Update (hplCheckpointingErrors m)
    [] (Add one).

Definition PromMetrics_IncHyperlaneMessages (m : PromMetrics)
    (sourceChainID destinationChainID messageStatus : string) : M St unit :=
  Update (hplMessageStatusChange m)
    [sourceChainIDLabel; sourceChainID; destinationChainIDLabel; destinationChainID;
     transferStatusLabel; messageStatus] (Add one).

Definition PromMetrics_IncHyperlaneRelayTooExpensive (m : PromMetrics)
    (sourceChainID destinationChainID : string) : M St unit :=
  Update (hplRelayTooExpensive m)
    [sourceChainIDLabel; sourceChainID; destinationChainIDLabel; destinationChainID] (Add one).

Definition PromMetrics_ObserveTransferSizeOutOfRange (m : PromMetrics)
    (sourceChainID destinationChainID : string) (amountOutOfRange : Z) : M St unit :=
  Update (transferSizeOutOfRange m)
    [sourceChainIDLabel; sourceChainID; destinationChainIDLabel; destinationChainID] (Observe
      (float64_of_int amountOutOfRange)).

Definition PromMetrics_ObserveFeeBpsRejection (m : PromMetrics)
    (sourceChainID destinationChainID : string) (feeBps : Z) : M St unit :=
  Update (feeBpsRejections m)
    [sourceChainIDLabel; sourceChainID; destinationChainIDLabel; destinationChainID] (Observe
      (float64_of_int feeBps)).

Definition PromMetrics_ObserveInsufficientBalanceError (m : PromMetrics)
    (chainID : string) (difference : Z) : M St unit :=
  Update (insufficientBalanceErrors m)
    [chainIDLabel; chainID] (Observe (float64_of_int difference)).

(** 0 = ok, 1 = warning, 2 = critical. *)
Definition gas_balance_state (gasBalance warningThreshold criticalThreshold : Z) : Z :=
  if gasBalance <? criticalThreshold then 2
  else if gasBalance <? warningThreshold then 1 else 0.

Definition gas_token_amount (gasBalance gasTokenDecimals : Z) : bigfloat :=
  float64_div (float64_of_int gasBalance) (math_Pow10 gasTokenDecimals).

Definition PromMetrics_SetGasBalance (m : PromMetrics) (chainID chainName gasTokenSymbol : string)
    (gasBalance_ warningThreshold criticalThreshold gasTokenDecimals : Z) : M St unit :=
  _ ← Update (gasBalanceState m) [chainIDLabel; chainID; chainNameLabel; chainName]
        (Set_ (float64_of_int (gas_balance_state gasBalance_ warningThreshold
          criticalThreshold)));
  Update (gasBalance m)
    [chainIDLabel; chainID; chainNameLabel; chainName; gasTokenSymbolLabel; gasTokenSymbol]
    (Set_ (gas_token_amount gasBalance_ gasTokenDecimals)).

Definition PromMetrics_IncExcessiveOrderFulfillmentLatency (m : PromMetrics)
    (sourceChainID destinationChainID orderStatus : string) : M St unit :=
  Update (excessiveOrderFulfillmentLatency m)
    [sourceChainIDLabel; sourceChainID; destinationChainIDLabel; destinationChainID;
     orderStatusLabel; orderStatus] (Add one).

Definition PromMetrics_IncExcessiveOrderSettlementLatency (m : PromMetrics)
    (sourceChainID destinationChainID settlementStatus : string) : M St unit :=
  Update (excessiveOrderSettlementLatency m)
    [sourceChainIDLabel; sourceChainID; destinationChainIDLabel; destinationChainID;
     settlementStatusLabel; settlementStatus] (Add one).

Definition PromMetrics_IncExcessiveHyperlaneRelayLatency (m : PromMetrics)
    (sourceChainID destinationChainID : string) : M St unit :=
  Update (excessiveHyperlaneRelayLatency m)
    [sourceChainIDLabel; sourceChainID; destinationChainIDLabel; destinationChainID] (Add one).

Definition connection_value (connType : string) : bigfloat :=
  float64_of_int (if (connType =? ConnectionTypeWebSocket)%string then 1 else 0).

Definition PromMetrics_SetConnectionType (m : PromMetrics) (chainID monitor connType : string) :
    M St unit :=
  Update (connectionType m) ["chain_id"; chainID; "monitor"; monitor]%string
    (Set_ (connection_value connType)).

Definition PromMetrics_IncrementBlocksReceived (m : PromMetrics)
    (chainID monitor : string) : M St unit :=
  Update (blocksReceived m)
    ["chain_id"; chainID; "monitor"; monitor]%string (Add one).

Definition PromMetrics_RecordSubscriptionError (m : PromMetrics)
    (chainID monitor errorType : string) : M St unit :=
  Update (subscriptionErrors m)
    ["chain_id"; chainID; "monitor"; monitor; "error_type"; errorType]%string (Add one).

Definition PromMetrics_RecordConnectionSwitch (m : PromMetrics)
    (chainID monitor fromType toType : string) : M St unit :=
  Update (connectionSwitches m)
    ["chain_id"; chainID; "monitor"; monitor; "from_type"; fromType; "to_type"; toType]%string
      (Add one).

(** The interface. *)
Record Metrics := mkMetrics {
  IncTransactionSubmitted : bool → string → string → M St unit;
  IncTransactionVerified : bool → string → M St unit;
  IncFillOrderStatusChange : string → string → string → M St unit;
  ObserveFillLatency : string → string → string → Duration → M St unit;
  IncOrderSettlementStatusChange : string → string → string → M St unit;
  ObserveSettlementLatency : string → string → string → Duration → M St unit;
  IncFundsRebalanceTransferStatusChange : string → string → string → M St unit;
  IncHyperlaneCheckpointingErrors : M St unit;
  IncHyperlaneMessages : string → string → string → M St unit;
  ObserveHyperlaneLatency : string → string → string → Duration → M St unit;
  IncHyperlaneRelayTooExpensive : string → string → M St unit;
  ObserveTransferSizeOutOfRange : string → string → Z → M St unit;
  ObserveFeeBpsRejection : string → string → Z → M St unit;
  ObserveInsufficientBalanceError : string → Z → M St unit;
  SetGasBalance : string → string → string → Z → Z → Z → Z → M St unit;
  IncExcessiveOrderFulfillmentLatency : string → string → string → M St unit;
  IncExcessiveOrderSettlementLatency : string → string → string → M St unit;
  IncExcessiveHyperlaneRelayLatency : string → string → M St unit;
  SetConnectionType : string → string → string → M St unit;
  IncrementBlocksReceived : string → string → M St unit;
  RecordSubscriptionError : string → string → string → M St unit;
  RecordConnectionSwitch : string → string → string → string → M St unit;
}.

Definition PromMetrics_Metrics (m : PromMetrics) : Metrics := {|
  IncTransactionSubmitted := PromMetrics_IncTransactionSubmitted m;
  IncTransactionVerified := PromMetrics_IncTransactionVerified m;
  IncFillOrderStatusChange := PromMetrics_IncFillOrderStatusChange m;
  ObserveFillLatency := PromMetrics_ObserveFillLatency m;
  IncOrderSettlementStatusChange := PromMetrics_IncOrderSettlementStatusChange m;
  ObserveSettlementLatency := PromMetrics_ObserveSettlementLatency m;
  IncFundsRebalanceTransferStatusChange := PromMetrics_IncFundsRebalanceTransferStatusChange m;
  IncHyperlaneCheckpointingErrors := PromMetrics_IncHyperlaneCheckpointingErrors m;
  IncHyperlaneMessages := PromMetrics_IncHyperlaneMessages m;
  ObserveHyperlaneLatency := PromMetrics_ObserveHyperlaneLatency m;
  IncHyperlaneRelayTooExpensive := PromMetrics_IncHyperlaneRelayTooExpensive m;
  ObserveTransferSizeOutOfRange := PromMetrics_ObserveTransferSizeOutOfRange m;
  ObserveFeeBpsRejection := PromMetrics_ObserveFeeBpsRejection m;
  ObserveInsufficientBalanceError := PromMetrics_ObserveInsufficientBalanceError m;
  SetGasBalance := PromMetrics_SetGasBalance m;
  IncExcessiveOrderFulfillmentLatency := PromMetrics_IncExcessiveOrderFulfillmentLatency m;
  IncExcessiveOrderSettlementLatency := PromMetrics_IncExcessiveOrderSettlementLatency m;
  IncExcessiveHyperlaneRelayLatency := PromMetrics_IncExcessiveHyperlaneRelayLatency m;
  SetConnectionType := PromMetrics_SetConnectionType m;
  IncrementBlocksReceived := PromMetrics_IncrementBlocksReceived m;
  RecordSubscriptionError := PromMetrics_RecordSubscriptionError m;
  RecordConnectionSwitch := PromMetrics_RecordConnectionSwitch m;
|}.

(** The implementation that does nothing. *)
Definition NoOpMetrics : Metrics := {|
  IncTransactionSubmitted := λ _ _ _, mret tt;
  IncTransactionVerified := λ _ _, mret tt;
  IncFillOrderStatusChange := λ _ _ _, mret tt;
  ObserveFillLatency := λ _ _ _ _, mret tt;
  IncOrderSettlementStatusChange := λ _ _ _, mret tt;
  ObserveSettlementLatency := λ _ _ _ _, mret tt;
  IncFundsRebalanceTransferStatusChange := λ _ _ _, mret tt;
  IncHyperlaneCheckpointingErrors := mret tt;
  IncHyperlaneMessages := λ _ _ _, mret tt;
  ObserveHyperlaneLatency := λ _ _ _ _, mret tt;
  IncHyperlaneRelayTooExpensive := λ _ _, mret tt;
  ObserveTransferSizeOutOfRange := λ _ _ _, mret tt;
  ObserveFeeBpsRejection := λ _ _ _, mret tt;
  ObserveInsufficientBalanceError := λ _ _, mret tt;
  SetGasBalance := λ _ _ _ _ _ _ _, mret tt;
  IncExcessiveOrderFulfillmentLatency := λ _ _ _, mret tt;
  IncExcessiveOrderSettlementLatency := λ _ _ _, mret tt;
  IncExcessiveHyperlaneRelayLatency := λ _ _, mret tt;
  SetConnectionType := λ _ _ _, mret tt;
  IncrementBlocksReceived := λ _ _, mret tt;
  RecordSubscriptionError := λ _ _ _, mret tt;
  RecordConnectionSwitch := λ _ _ _ _, mret tt;
|}.

(** A context, of which only the metrics are looked at here. *)
Record Context := mkContext { ctx_metrics : option Metrics }.

Definition ContextWithMetrics (ctx : Context) (m : Metrics) : Context := mkContext (Some m).

Definition FromContext (ctx : Context) : Metrics :=
  match ctx_metrics ctx with
  | None => NoOpMetrics
  | Some m => m
  end.

(** *** Calls of the interface *)

Inductive metrics_call :=
  | DoIncTransactionSubmitted (success : bool) (chainID transactionType : string)
  | DoIncTransactionVerified (success : bool) (chainID : string)
  | DoIncFillOrderStatusChange (sourceChainID destinationChainID orderStatus : string)
  | DoObserveFillLatency (sourceChainID destinationChainID : string) (orderStatus : string)
    (latency : Duration)
  | DoIncOrderSettlementStatusChange (sourceChainID destinationChainID settlementStatus : string)
  | DoObserveSettlementLatency (sourceChainID destinationChainID : string) (settlementStatus :
    string) (latency : Duration)
  | DoIncFundsRebalanceTransferStatusChange (sourceChainID destinationChainID : string)
    (transferStatus : string)
  | DoIncHyperlaneCheckpointingErrors
  | DoIncHyperlaneMessages (sourceChainID destinationChainID : string) (messageStatus : string)
  | DoObserveHyperlaneLatency (sourceChainID destinationChainID transferStatus : string) (latency
    : Duration)
  | DoIncHyperlaneRelayTooExpensive (sourceChainID destinationChainID : string)
  | DoObserveTransferSizeOutOfRange (sourceChainID destinationChainID : string) (amountOutOfRange
    : Z)
  | DoObserveFeeBpsRejection (sourceChainID destinationChainID : string) (feeBpsExceededBy : Z)
  | DoObserveInsufficientBalanceError (chainID : string) (amountInsufficientBy : Z)
  | DoSetGasBalance (chainID chainName gasTokenSymbol : string) (gasBalance warningThreshold
    criticalThreshold : Z) (gasTokenDecimals : Z)
  | DoIncExcessiveOrderFulfillmentLatency (sourceChainID destinationChainID orderStatus : string)
  | DoIncExcessiveOrderSettlementLatency (sourceChainID destinationChainID settlementStatus :
    string)
  | DoIncExcessiveHyperlaneRelayLatency (sourceChainID destinationChainID : string)
  | DoSetConnectionType (chainID monitor connType : string)
  | DoIncrementBlocksReceived (chainID monitor : string)
  | DoRecordSubscriptionError (chainID monitor errorType : string)
  | DoRecordConnectionSwitch (chainID monitor fromType toType : string).

Definition perform (m : Metrics) (c : metrics_call) : M St unit :=
  match c with
  | DoIncTransactionSubmitted a b c => IncTransactionSubmitted m a b c
  | DoIncTransactionVerified a b => IncTransactionVerified m a b
  | DoIncFillOrderStatusChange a b c => IncFillOrderStatusChange m a b c
  | DoObserveFillLatency a b c d => ObserveFillLatency m a b c d
  | DoIncOrderSettlementStatusChange a b c => IncOrderSettlementStatusChange m a b c
  | DoObserveSettlementLatency a b c d => ObserveSettlementLatency m a b c d
  | DoIncFundsRebalanceTransferStatusChange a b c => IncFundsRebalanceTransferStatusChange m a b c
  | DoIncHyperlaneCheckpointingErrors => IncHyperlaneCheckpointingErrors m
  | DoIncHyperlaneMessages a b c => IncHyperlaneMessages m a b c
  | DoObserveHyperlaneLatency a b c d => ObserveHyperlaneLatency m a b c d
  | DoIncHyperlaneRelayTooExpensive a b => IncHyperlaneRelayTooExpensive m a b
  | DoObserveTransferSizeOutOfRange a b c => ObserveTransferSizeOutOfRange m a b c
  | DoObserveFeeBpsRejection a b c => ObserveFeeBpsRejection m a b c
  | DoObserveInsufficientBalanceError a b => ObserveInsufficientBalanceError m a b
  | DoSetGasBalance a b c d e f g => SetGasBalance m a b c d e f g
  | DoIncExcessiveOrderFulfillmentLatency a b c => IncExcessiveOrderFulfillmentLatency m a b c
  | DoIncExcessiveOrderSettlementLatency a b c => IncExcessiveOrderSettlementLatency m a b c
  | DoIncExcessiveHyperlaneRelayLatency a b => IncExcessiveHyperlaneRelayLatency m a b
  | DoSetConnectionType a b c => SetConnectionType m a b c
  | DoIncrementBlocksReceived a b => IncrementBlocksReceived m a b
  | DoRecordSubscriptionError a b c => RecordSubscriptionError m a b c
  | DoRecordConnectionSwitch a b c d => RecordConnectionSwitch m a b c d
  end.

(** The texts of a call. *)
Definition call_texts (c : metrics_call) : list string :=
  match c with
  | DoIncTransactionSubmitted _ b c => [b; c]
  | DoIncTransactionVerified _ b => [b]
  | DoIncFillOrderStatusChange a b c => [a; b; c]
  | DoObserveFillLatency a b c _ => [a; b; c]
  | DoIncOrderSettlementStatusChange a b c => [a; b; c]
  | DoObserveSettlementLatency a b c _ => [a; b; c]
  | DoIncFundsRebalanceTransferStatusChange a b c => [a; b; c]
  | DoIncHyperlaneCheckpointingErrors => []
  | DoIncHyperlaneMessages a b c => [a; b; c]
  | DoObserveHyperlaneLatency a b c _ => [a; b; c]
  | DoIncHyperlaneRelayTooExpensive a b => [a; b]
  | DoObserveTransferSizeOutOfRange a b _ => [a; b]
  | DoObserveFeeBpsRejection a b _ => [a; b]
  | DoObserveInsufficientBalanceError a _ => [a]
  | DoSetGasBalance a b c _ _ _ _ => [a; b; c]
  | DoIncExcessiveOrderFulfillmentLatency a b c => [a; b; c]
  | DoIncExcessiveOrderSettlementLatency a b c => [a; b; c]
  | DoIncExcessiveHyperlaneRelayLatency a b => [a; b]
  | DoSetConnectionType a b _ => [a; b]
  | DoIncrementBlocksReceived a b => [a; b]
  | DoRecordSubscriptionError a b c => [a; b; c]
  | DoRecordConnectionSwitch a b c d => [a; b; c; d]
  end.

(** What a call records: which metric, under which labels, which value. *)
Definition recorded (c : metrics_call) : list sample :=
  match c with
  | DoIncTransactionSubmitted a b c =>
      [("solver_total_transactions_submitted_counter", [("success", sprint_bool a); ("chain_id",
        b); ("transaction_type", c)], Add one)]
  | DoIncTransactionVerified a b =>
      [("solver_total_transactions_verified_counter", [("success", sprint_bool a); ("chain_id",
        b)], Add one)]
  | DoIncFillOrderStatusChange a b c =>
      [("solver_fill_order_status_change_counter", [("source_chain_id", a);
        ("destination_chain_id", b); ("order_status", c)], Add one)]
  | DoObserveFillLatency a b c d =>
      [("solver_latency_per_fill_seconds", [("source_chain_id", a); ("destination_chain_id", b);
        ("order_status", c)], Observe (Seconds d))]
  | DoIncOrderSettlementStatusChange a b c =>
      [("solver_order_settlement_status_change_counter", [("source_chain_id", a);
        ("destination_chain_id", b); ("settlement_status", c)], Add one)]
  | DoObserveSettlementLatency a b c d =>
      [("solver_latency_per_settlement_minutes", [("source_chain_id", a);
        ("destination_chain_id", b); ("settlement_status", c)], Observe (Minutes d))]
  | DoIncFundsRebalanceTransferStatusChange a b c =>
      [("solver_funds_rebalance_transfer_status_change_counter", [("source_chain_id", a);
        ("destination_chain_id", b); ("transfer_status", c)], Add one)]
  | DoIncHyperlaneCheckpointingErrors =>
      [("solver_hyperlane_checkpointing_errors", [], Add one)]
  | DoIncHyperlaneMessages a b c =>
      [("solver_hyperlane_message_status_change_counter", [("source_chain_id", a);
        ("destination_chain_id", b); ("transfer_status", c)], Add one)]
  | DoObserveHyperlaneLatency a b c d =>
      [("solver_latency_per_hyperlane_message_seconds", [("source_chain_id", a);
        ("destination_chain_id", b); ("transfer_status", c)], Observe (Seconds d))]
  | DoIncHyperlaneRelayTooExpensive a b =>
      [("solver_hyperlane_relay_too_expensive_counter", [("source_chain_id", a);
        ("destination_chain_id", b)], Add one)]
  | DoObserveTransferSizeOutOfRange a b c =>
      [("solver_transfer_size_out_of_range", [("source_chain_id", a); ("destination_chain_id",
        b)], Observe (float64_of_int c))]
  | DoObserveFeeBpsRejection a b c =>
      [("solver_fee_bps_rejections", [("source_chain_id", a); ("destination_chain_id", b)],
        Observe (float64_of_int c))]
  | DoObserveInsufficientBalanceError a b =>
      [("solver_insufficient_balance_errors", [("chain_id", a)], Observe (float64_of_int b))]
  | DoSetGasBalance a b c d e f g =>
      [("solver_gas_balance_state_gauge", [("chain_id", a); ("chain_name", b)],
          Set_ (float64_of_int (gas_balance_state d e f)));
       ("solver_gas_balance_gauge", [("chain_id", a); ("chain_name", b); ("gas_token_symbol", c)],
          Set_ (gas_token_amount d g))]
  | DoIncExcessiveOrderFulfillmentLatency a b c =>
      [("solver_excessive_order_fulfillment_latency_counter", [("source_chain_id", a);
        ("destination_chain_id", b); ("order_status", c)], Add one)]
  | DoIncExcessiveOrderSettlementLatency a b c =>
      [("solver_excessive_order_settlement_latency_counter", [("source_chain_id", a);
        ("destination_chain_id", b); ("settlement_status", c)], Add one)]
  | DoIncExcessiveHyperlaneRelayLatency a b =>
      [("solver_excessive_hyperlane_relay_latency_counter", [("source_chain_id", a);
        ("destination_chain_id", b)], Add one)]
  | DoSetConnectionType a b c =>
      [("solver_chain_connection_type", [("chain_id", a); ("monitor", b)],
          Set_ (connection_value c))]
  | DoIncrementBlocksReceived a b =>
      [("solver_websocket_blocks_received_total", [("chain_id", a); ("monitor", b)], Add one)]
  | DoRecordSubscriptionError a b c =>
      [("solver_websocket_subscription_errors_total", [("chain_id", a); ("monitor", b);
        ("error_type", c)], Add one)]
  | DoRecordConnectionSwitch a b c d =>
      [("solver_connection_type_switches_total", [("chain_id", a); ("monitor", b); ("from_type",
        c); ("to_type", d)], Add one)]
  end%string.
End metrics.
Arguments Metrics St : clear implicits.
Arguments Context St : clear implicits.

Create HintDb metrics.
#[export] Hint Unfold PromMetrics_IncTransactionSubmitted PromMetrics_IncTransactionVerified
   PromMetrics_IncFillOrderStatusChange PromMetrics_ObserveFillLatency
   PromMetrics_IncOrderSettlementStatusChange PromMetrics_ObserveSettlementLatency
   PromMetrics_IncFundsRebalanceTransferStatusChange
   PromMetrics_IncHyperlaneCheckpointingErrors PromMetrics_IncHyperlaneMessages
   PromMetrics_ObserveHyperlaneLatency PromMetrics_IncHyperlaneRelayTooExpensive
   PromMetrics_ObserveTransferSizeOutOfRange PromMetrics_ObserveFeeBpsRejection
   PromMetrics_ObserveInsufficientBalanceError PromMetrics_SetGasBalance
   PromMetrics_IncExcessiveOrderFulfillmentLatency
   PromMetrics_IncExcessiveOrderSettlementLatency
   PromMetrics_IncExcessiveHyperlaneRelayLatency PromMetrics_SetConnectionType
   PromMetrics_IncrementBlocksReceived PromMetrics_RecordSubscriptionError
   PromMetrics_RecordConnectionSwitch : metrics.

(** ** Lemmas *)

Section proofs.
Context {St : Type} `{PrometheusLaws St}.

(** Every field holds the metric it was registered as. *)
Record prom_ok (m : PromMetrics) : Prop := {
  ok_totalTransactionSubmitted : vec_desc (totalTransactionSubmitted m) =
    totalTransactionSubmitted_desc;
  ok_totalTransactionsVerified : vec_desc (totalTransactionsVerified m) =
    totalTransactionsVerified_desc;
  ok_fillOrderStatusChange : vec_desc (fillOrderStatusChange m) = fillOrderStatusChange_desc;
  ok_fillLatency : vec_desc (fillLatency m) = fillLatency_desc;
  ok_orderSettlementStatusChange : vec_desc (orderSettlementStatusChange m) =
    orderSettlementStatusChange_desc;
  ok_settlementLatency : vec_desc (settlementLatency m) = settlementLatency_desc;
  ok_excessiveOrderSettlementLatency : vec_desc (excessiveOrderSettlementLatency m) =
    excessiveOrderSettlementLatency_desc;
  ok_excessiveOrderFulfillmentLatency : vec_desc (excessiveOrderFulfillmentLatency m) =
    excessiveOrderFulfillmentLatency_desc;
  ok_fundRebalanceTransferStatusChange : vec_desc (fundRebalanceTransferStatusChange m) =
    fundRebalanceTransferStatusChange_desc;
  ok_hplMessageStatusChange : vec_desc (hplMessageStatusChange m) = hplMessageStatusChange_desc;
  ok_hplCheckpointingErrors : vec_desc (hplCheckpointingErrors m) = hplCheckpointingErrors_desc;
  ok_hplLatency : vec_desc (hplLatency m) = hplLatency_desc;
  ok_hplRelayTooExpensive : vec_desc (hplRelayTooExpensive m) = hplRelayTooExpensive_desc;
  ok_excessiveHyperlaneRelayLatency : vec_desc (excessiveHyperlaneRelayLatency m) =
    excessiveHyperlaneRelayLatency_desc;
  ok_transferSizeOutOfRange : vec_desc (transferSizeOutOfRange m) = transferSizeOutOfRange_desc;
  ok_feeBpsRejections : vec_desc (feeBpsRejections m) = feeBpsRejections_desc;
  ok_insufficientBalanceErrors : vec_desc (insufficientBalanceErrors m) =
    insufficientBalanceErrors_desc;
  ok_gasBalance : vec_desc (gasBalance m) = gasBalance_desc;
  ok_gasBalanceState : vec_desc (gasBalanceState m) = gasBalanceState_desc;
  ok_connectionType : vec_desc (connectionType m) = connectionType_desc;
  ok_blocksReceived : vec_desc (blocksReceived m) = blocksReceived_desc;
  ok_subscriptionErrors : vec_desc (subscriptionErrors m) = subscriptionErrors_desc;
  ok_connectionSwitches : vec_desc (connectionSwitches m) = connectionSwitches_desc;
}.

(** The metrics [done] have been registered next to the [old] ones. *)
Definition registering (old : list string) (rec : list sample) (done : list desc) (s : St) : Prop
  :=
  registered s = (fq_name <$> done) ++ old ∧ samples s = rec.

Definition can_register (done : list desc) (d : desc) : bool :=
  valid_desc d && existsb (λ d', (fq_name d' =? fq_name d)%string) prom_descs
  && negb (existsb (λ d', (fq_name d' =? fq_name d)%string) done).

Lemma wp_register {A} old rec done d (k : vec → M St A) Q s :
  Forall (λ d, fq_name d ∉ old) prom_descs →
  registering old rec done s → can_register done d = true →
  (∀ v s', vec_desc v = d → registering old rec (d :: done) s' → wp (k v) Q s') →
  wp (v ← NewFrom d; k v) Q s.
Proof.
  intros Hold [Hr Hs]. unfold can_register. rewrite !andb_true_iff, negb_true_iff.
  intros [[Hd (d'&Hin%list_elem_of_In&Heq%String.eqb_eq)%existsb_exists] Hdone] Hk.
  assert (fq_name d ∉ registered s) as Hnew.
  { rewrite Hr, elem_of_app, list_elem_of_fmap. intros [(d1&Heq1&Hin1)|Hin1].
    - apply not_true_iff_false in Hdone. apply Hdone, existsb_exists. exists d1.
      rewrite <-Heq1, String.eqb_refl. by split; [apply list_elem_of_In|].
    - rewrite Forall_forall in Hold. apply (Hold d'); [done|]. by rewrite Heq. }
  destruct (NewFrom_ok d s Hd Hnew) as (v&s'&Hv&Hdesc&Hr'&Hs').
  unfold wp, mbind, M_bind. rewrite Hv. apply Hk; [done|]. split; [by rewrite Hr', Hr|by rewrite
    Hs'].
Qed.

Lemma NewPromMetrics_wp s :
  Forall (λ d, fq_name d ∉ registered s) prom_descs →
  wp NewPromMetrics (λ r s', ∃ m, r = Ok m ∧ prom_ok m ∧
    registering (registered s) (samples s) (reverse prom_descs) s') s.
Proof.
  intros Hold. assert (registering (registered s) (samples s) [] s) as Hreg by done.
  unfold NewPromMetrics.
  do 23 (eapply wp_register; [exact Hold|exact Hreg|vm_compute; reflexivity|];
         clear Hreg; intros ? ? ? Hreg).
  apply wp_ret. eexists. split; [done|]. split; [by split|exact Hreg].
Qed.

Lemma wp_update v d lvs op s rec :
  vec_desc v = d → samples s = rec → valid_update d lvs op = true →
  wp (Update v lvs op)
    (λ r s', r = Ok tt ∧ samples s' = rec ++ [(fq_name d, pairs lvs, op)]) s.
Proof.
  intros <- <- Hvalid. destruct (Update_ok v lvs op s Hvalid) as (s'&Hu&_&Hs).
  unfold wp. by rewrite Hu.
Qed.

(** The labels of an update are closed terms; its values are known to be plain. *)
Ltac valid_labels :=
  unfold valid_update; cbn -[ascii_only float64_of_int Seconds Minutes one];
  repeat match goal with Ht : ascii_only _ = true |- _ => rewrite Ht; clear Ht end;
  reflexivity.

(** A call with plain texts is recorded. *)
Lemma perform_wp m c s :
  prom_ok m → forallb ascii_only (call_texts c) = true →
  wp (perform (PromMetrics_Metrics m) c)
    (λ r s', r = Ok tt ∧ samples s' = samples s ++ recorded c) s.
Proof.
  intros Hm Htexts.
  pose proof (eq_refl : ascii_only (sprint_bool true) = true) as Hyes.
  pose proof (eq_refl : ascii_only (sprint_bool false) = true) as Hno.
  destruct c; try match goal with b : bool |- _ => destruct b end; simpl in Htexts; rewrite
    ?andb_true_iff in Htexts; destruct_and?;
    cbn -[recorded Update].
  all: autounfold with metrics.
  all: try (eapply wp_mono; [|eapply wp_update; [apply Hm|reflexivity|valid_labels]]; done).
  apply wp_bind. eapply wp_mono; [|eapply wp_update; [apply Hm|reflexivity|valid_labels]].
  intros ? s1 [-> Hs1]. eapply wp_mono; [|eapply wp_update; [apply Hm|exact Hs1|valid_labels]].
  intros r s2 [-> Hs2]. split; [done|]. by rewrite Hs2, <-(assoc_L app).
Qed.

Lemma performs_wp m calls s :
  prom_ok m → Forall (λ c, forallb ascii_only (call_texts c) = true) calls →
  wp (for_each calls (perform (PromMetrics_Metrics m)))
    (λ r s', r = Ok tt ∧ samples s' = samples s ++ mbind recorded calls) s.
Proof.
  intros Hm Hcalls. eapply (wp_for_each (λ pre s', samples s' = samples s ++ mbind recorded pre)).
  - simpl. by rewrite app_nil_r.
  - intros pre c post s1 -> Hs1. apply Forall_app in Hcalls as [_ [Hc _]%Forall_cons].
    eapply wp_mono; [|by apply perform_wp]. intros r s2 [-> Hs2].
    rewrite Hs2, Hs1, bind_app, <-(assoc_L app). simpl. by rewrite app_nil_r.
  - done.
Qed.

(** Nothing happens without metrics in the context. *)
Lemma NoOp_nothing c s : perform (St := St) NoOpMetrics c s = (Ok tt, s).
Proof. by destruct c. Qed.
End proofs.

(** *** A registry in memory *)

Definition Registry : Type := list string * list sample.

#[export] Instance registry_prometheus : Prometheus Registry := {|
  vec := desc;
  NewFrom d s :=
    if valid_desc d && negb (existsb (String.eqb (fq_name d)) s.1)
    then (Ok d, (fq_name d :: s.1, s.2)) else (Panic "duplicate metrics collector registration",
      s);
  Update d lvs op s :=
    if valid_update d lvs op then (Ok tt, (s.1, s.2 ++ [(fq_name d, pairs lvs, op)]))
    else (Panic "inconsistent label cardinality", s);
|}.

#[export] Instance registry_laws : PrometheusLaws Registry.
Proof.
  refine {| registered s := s.1; samples s := s.2; vec_desc v := v |}.
  - intros d [names rec] Hd Hnew. simpl in *. rewrite Hd.
    destruct (existsb _ names) eqn:He; [|by eexists _, _].
    apply existsb_exists in He as (n&Hin%list_elem_of_In&Heq%String.eqb_eq). by destruct Hnew;
      rewrite Heq.
  - intros d [names rec] Hin. simpl in *.
    assert (existsb (String.eqb (fq_name d)) names = true) as ->.
    { apply existsb_exists. exists (fq_name d). by rewrite String.eqb_refl, <-list_elem_of_In. }
    rewrite andb_false_r. by eexists.
  - intros d lvs op [names rec] Hu. simpl in *. rewrite Hu. by eexists.
Defined.

(** ** Properties *)

(** C38. The metrics do not get in the way of the program, and record what they say: on a
    registry that does not have them [NewPromMetrics] succeeds; then no sequence of calls of
    the interface with plain texts panics, since each names exactly the labels its metric was
    declared with, and each adds its value to its metric, under its labels. *)
Theorem PromMetrics_records `{PrometheusLaws St} (s : St) :
  Forall (λ d, fq_name d ∉ registered s) prom_descs →
  ∃ m s', NewPromMetrics s = (Ok m, s') ∧ samples s' = samples s ∧
    ∀ calls, Forall (λ c, forallb ascii_only (call_texts c) = true) calls →
      ∃ s'', for_each calls (perform (PromMetrics_Metrics m)) s' = (Ok tt, s'') ∧
        samples s'' = samples s ++ mbind recorded calls.
Proof.
  intros Hold. pose proof (NewPromMetrics_wp s Hold) as Hnew. unfold wp in Hnew.
  destruct (NewPromMetrics s) as [r s']. simpl in Hnew. destruct Hnew as (m&->&Hm&[_ Hs]). simpl
    in Hs.
  exists m, s'. split_and!; [done..|]. intros calls Hcalls.
  pose proof (performs_wp m calls s' Hm Hcalls) as Hrun. unfold wp in Hrun.
  destruct (for_each _ _ s') as [r s'']. simpl in Hrun. destruct Hrun as [-> Hs'']. exists s''.
  split; [done|]. by rewrite Hs'', Hs.
Qed.

Lemma PromMetrics_records_witness :
  ∃ m s', NewPromMetrics ([], []) = (Ok m, s') ∧
    ∃ s'', for_each [DoIncTransactionVerified true "osmosis-1"; DoIncHyperlaneCheckpointingErrors]
             (perform (PromMetrics_Metrics m)) s' = (Ok tt, s'') ∧
      snd s'' = [("solver_total_transactions_verified_counter",
                  [("success", "true"); ("chain_id", "osmosis-1")], Add one);
                 ("solver_hyperlane_checkpointing_errors", [], Add one)]%string.
Proof.
  destruct (PromMetrics_records (St := Registry) ([], [])) as (m&s'&Hnew&_&Hrun).
  { apply Forall_true. intros d. apply not_elem_of_nil. }
  exists m, s'. split; [exact Hnew|].
  apply (Hrun [DoIncTransactionVerified true "osmosis-1"; DoIncHyperlaneCheckpointingErrors]).
  by repeat constructor.
Defined.

(** A second set of metrics in the same process panics. *)
Theorem NewPromMetrics_once `{PrometheusLaws St} (s : St) :
  Forall (λ d, fq_name d ∉ registered s) prom_descs →
  ∃ m s' why, NewPromMetrics s = (Ok m, s') ∧ (NewPromMetrics s').1 = Panic why.
Proof.
  intros Hold. pose proof (NewPromMetrics_wp s Hold) as Hnew. unfold wp in Hnew.
  destruct (NewPromMetrics s) as [r s']. simpl in Hnew. destruct Hnew as (m&->&_&[Hr _]). simpl
    in Hr.
  destruct (NewFrom_again fillOrderStatusChange_desc s') as [why Hwhy].
  { rewrite Hr. repeat first [apply list_elem_of_here|apply list_elem_of_further]. }
  exists m, s', why. split; [done|]. unfold NewPromMetrics, mbind, M_bind.
  destruct (NewFrom fillOrderStatusChange_desc s') as [r s1]. simpl in Hwhy. by subst.
Qed.

(** The context gives back the metrics put into it; without any, calls do nothing. *)
Theorem FromContext_spec `{Prometheus St} (ctx : Context St) m c (s : St) :
  FromContext (ContextWithMetrics ctx m) = m ∧
  perform (FromContext (mkContext (St := St) None)) c s = (Ok tt, s).
Proof. split; [done|apply NoOp_nothing]. Qed.

(** The exported state of a gas balance: critical below the critical threshold, else a
    warning below the warning threshold, compared as integers. *)
Theorem gas_balance_state_spec balance warning critical :
  let state := gas_balance_state balance warning critical in
  (state = 2 ↔ balance < critical) ∧
  (state = 1 ↔ critical ≤ balance < warning) ∧
  (state = 0 ↔ critical ≤ balance ∧ warning ≤ balance).
Proof.
  unfold gas_balance_state. destruct (Z.ltb_spec balance critical), (Z.ltb_spec balance warning);
    simpl; lia.
Qed.
