(* ===== verification/Signers.v ===== *)
(** * Signers: signing transactions

    shared/signing beyond the creation of the signers ([Keys]): how a Cosmos transaction
    is signed, the transaction type with its encodings, the console, Solana and no-op
    signers, the adapter for the contract bindings, and [LogSolverAddresses] of
    shared/keys.

    The Cosmos SDK is a parameter, a class with laws.  A builder is passed along where the
    code mutates it; the transaction the code stores back into the caller's object is the
    result. *)
From Stdlib Require Import Strings.Byte Ascii.
From Stdlib Require String.
From S2P Require Import Prelude GoLib Config Json Network Database World Keys.

(** ** The Cosmos SDK *)

(** [signing.SignatureV2] with a [SingleSignatureData]; a nil signature is [None]. *)
Record SignatureV2 (PubKey SignMode Signature : Type) := mkSignatureV2 {
  sv_PubKey : PubKey;
  sv_SignMode : SignMode;
  sv_Signature : option Signature;
  sv_Sequence : Z;
}.
Arguments mkSignatureV2 {_ _ _} _ _ _ _.
Arguments sv_PubKey {_ _ _} _.
Arguments sv_SignMode {_ _ _} _.
Arguments sv_Signature {_ _ _} _.
Arguments sv_Sequence {_ _ _} _.

(** [authsigning.SignerData] *)
Record SignerData (PubKey : Type) := mkSignerData {
  sg_Address : string;
  sg_ChainID : string;
  sg_AccountNumber : Z;
  sg_Sequence : Z;
  sg_PubKey : PubKey;
}.
Arguments mkSignerData {_} _ _ _ _ _.

Class CosmosSdk := {
  SdkTx : Type; TxBuilder : Type; TxConfig : Type; SignMode : Type; Signature : Type;
  PrivKey : Type; PubKey : Type;
  priv_PubKey : PrivKey → PubKey;
  pub_Address : PubKey → list byte;
  (* [txConfig.SignModeHandler().DefaultMode()] *)
  DefaultMode : TxConfig → SignMode;
  WrapTxBuilder : TxConfig → option SdkTx → error + TxBuilder;
  SetSignatures : TxBuilder → SignatureV2 PubKey SignMode Signature → error + TxBuilder;
  GetTx : TxBuilder → SdkTx;
  SignWithPrivKey : SignMode → SignerData PubKey → TxBuilder → PrivKey → TxConfig → Z →
    error + SignatureV2 PubKey SignMode Signature;
  TxEncoder : TxConfig → option SdkTx → error + list byte;
  TxDecoder : TxConfig → list byte → error + SdkTx;
  TxJSONEncoder : TxConfig → option SdkTx → error + list byte;
  TxJSONDecoder : TxConfig → list byte → error + SdkTx;
}.

(** What a signature says of its signer besides the signature itself: part of what is
    signed. *)
Definition signer_info `{CosmosSdk} (sig : SignatureV2 PubKey SignMode Signature) :
    SignatureV2 PubKey SignMode Signature :=
  mkSignatureV2 (sv_PubKey sig) (sv_SignMode sig) None (sv_Sequence sig).

Class CosmosSdkLaws `{CosmosSdk} := {
  TxBody : Type;
  tx_body : SdkTx → TxBody;
  tx_signatures : SdkTx → list (SignatureV2 PubKey SignMode Signature);
  (* the signature is one of the key over the body, the signer infos and the signer data *)
  verifies : TxBody → list (SignatureV2 PubKey SignMode Signature) → SignerData PubKey →
    SignatureV2 PubKey SignMode Signature → Prop;
  WrapTxBuilder_body cfg tx b :
    WrapTxBuilder cfg (Some tx) = inr b → tx_body (GetTx b) = tx_body tx;
  SetSignatures_ok b sig b' :
    SetSignatures b sig = inr b' →
    tx_body (GetTx b') = tx_body (GetTx b) ∧ tx_signatures (GetTx b') = [sig];
  SignWithPrivKey_ok mode data b key cfg seq sig :
    SignWithPrivKey mode data b key cfg seq = inr sig →
    sv_PubKey sig = priv_PubKey key ∧ sv_SignMode sig = mode ∧ sv_Sequence sig = seq ∧
    verifies (tx_body (GetTx b)) (signer_info <$> tx_signatures (GetTx b)) data sig;
  TxDecoder_encoder cfg tx bs : TxEncoder cfg (Some tx) = inr bs → TxDecoder cfg bs = inr tx;
  TxJSONDecoder_encoder cfg tx bs :
    TxJSONEncoder cfg (Some tx) = inr bs → TxJSONDecoder cfg bs = inr tx;
}.

(** ** Transactions *)

Section transactions.
Context `{CosmosSdk}.

Record CosmosTransaction := mkCosmosTransaction {
  ct_Tx : option SdkTx;
  ct_AccountNumber : Z;
  ct_Sequence : Z;
  ct_TxConfig : TxConfig;
}.

Definition NewCosmosTransaction (tx : SdkTx) (accountNumber sequence : Z) (txConfig : TxConfig) :
    CosmosTransaction := mkCosmosTransaction (Some tx) accountNumber sequence txConfig.

Definition set_Tx (t : CosmosTransaction) (tx : option SdkTx) : CosmosTransaction :=
  mkCosmosTransaction tx (ct_AccountNumber t) (ct_Sequence t) (ct_TxConfig t).

Definition MarshalBinary (t : CosmosTransaction) : error + list byte :=
  TxEncoder (ct_TxConfig t) (ct_Tx t).
Definition MarshalJSON (t : CosmosTransaction) : error + list byte :=
  TxJSONEncoder (ct_TxConfig t) (ct_Tx t).

(** [t.Tx, err = ...]: a failure clears the transaction. *)
Definition decoded (t : CosmosTransaction) (r : error + SdkTx) :
    option error * CosmosTransaction :=
  match r with
  | inl err => (Some err, set_Tx t None)
  | inr tx => (None, set_Tx t (Some tx))
  end.
Definition UnmarshalBinary (t : CosmosTransaction) (data : list byte) :=
  decoded t (TxDecoder (ct_TxConfig t) data).
Definition UnmarshalJSON (t : CosmosTransaction) (data : list byte) :=
  decoded t (TxJSONDecoder (ct_TxConfig t) data).

(** A value of the interface [Transaction]: a Cosmos transaction, a [*types.Transaction]
    (which may be nil) with its encodings once it is signed, or nil. *)
Inductive Transaction :=
  | TxCosmos (t : CosmosTransaction)
  | TxEthereum (t : option EthTx) (signed : option SignedEthTx)
  | TxNil.

(** ** Signing a Cosmos transaction *)

Definition SignCosmosTx (privateKey : PrivKey) (txConfig : TxConfig) (chainID : string)
    (accountNumber sequence : Z) (tx : option SdkTx) (signerAddress : string) : result SdkTx :=
  rbind (of_sum (WrapTxBuilder txConfig tx)) (λ txBuilder,
  rbind (of_sum (SetSignatures txBuilder
    (mkSignatureV2 (priv_PubKey privateKey) (DefaultMode txConfig) None sequence))) (λ txBuilder,
  rbind (of_sum (SignWithPrivKey (DefaultMode txConfig)
    (mkSignerData signerAddress chainID accountNumber sequence (priv_PubKey privateKey))
    txBuilder privateKey txConfig sequence)) (λ signature,
  rbind (of_sum (SetSignatures txBuilder signature)) (λ txBuilder,
  Ok (GetTx txBuilder))))).

Definition LocalCosmosSigner_Sign (privateKey : PrivKey) (signerAddress chainID : string)
    (tx : Transaction) : result Transaction :=
  match tx with
  | TxCosmos cosmosTx =>
      rbind (SignCosmosTx privateKey (ct_TxConfig cosmosTx) chainID (ct_AccountNumber cosmosTx)
               (ct_Sequence cosmosTx) (ct_Tx cosmosTx) signerAddress) (λ signedTx,
      Ok (TxCosmos (set_Tx cosmosTx (Some signedTx))))
  | _ => Err (ErrNew "unsupported transaction type")
  end.

(** ** The other signers *)

(** A value of the interface [Signer]. *)
Inductive AnySigner :=
  | SLocalCosmos (privateKey : PrivKey) (signerAddress : string)
  | SLocalEthereum (address : list byte)
  | SLocalSolana (address : list byte)
  | SNop.

(** [solana.PrivateKeyFromBase58] and the address of the key are a parameter. *)
Definition NewLocalSolanaSigner (from_base58 : string → error + list byte)
    (privateKeyBase58 : string) : result AnySigner :=
  rbind (result_wrap "failed to parse private key: " (of_sum (from_base58 privateKeyBase58)))
    (λ address, Ok (SLocalSolana address)).

Definition AnySigner_Address (s : AnySigner) : list byte :=
  match s with
  | SLocalCosmos privateKey _ => pub_Address (priv_PubKey privateKey)
  | SLocalEthereum address | SLocalSolana address => address
  | SNop => []
  end.

Context {E : Type} `{Env E}.
Notation IO := (M (World E)).

Definition ethereum_Sign (chainID : string) (tx : Transaction) : IO Transaction :=
  match tx with
  | TxEthereum t _ =>
      signed ← LocalEthereumSigner_Sign chainID t; mret (TxEthereum t (Some signed))
  | _ => throw (ErrNew "unsupported transaction type")
  end.

Definition AnySigner_Sign (s : AnySigner) (chainID : string) (tx : Transaction) : IO Transaction :=
  match s with
  | SLocalCosmos privateKey signerAddress =>
      lift_result (LocalCosmosSigner_Sign privateKey signerAddress chainID tx)
  | SLocalEthereum _ => ethereum_Sign chainID tx
  | SLocalSolana _ => mret TxNil
  | SNop => mret tx
  end.

(** [EthereumSignerToBindSignerFn(signer, chainID)]: what the bindings call to sign. *)
Definition EthereumSignerToBindSignerFn (s : AnySigner) (chainID : string) (tx : option EthTx) :
    IO (option EthTx * option SignedEthTx) :=
  signedTx ← AnySigner_Sign s chainID (TxEthereum tx None);
  match signedTx with
  | TxEthereum t signed => mret (t, signed)
  | _ => throw (ErrNew "invalid transaction type")
  end.

(** ** The console signer *)

(** [strings.TrimSpace] and [strings.ToLower], on ASCII text. *)
Definition is_space (c : ascii) : bool :=
  let n := nat_of_ascii c in (n =? 32)%nat || ((9 <=? n)%nat && (n <=? 13)%nat).
Fixpoint trim_left (s : string) : string :=
  match s with
  | String c s' => if is_space c then trim_left s' else s
  | EmptyString => ""
  end.
Fixpoint trim_end (s : string) : string :=
  match s with
  | String c s' =>
      match trim_end s' with
      | EmptyString => if is_space c then "" else String c ""
      | t => String c t
      end
  | EmptyString => ""
  end.
Definition TrimSpace (s : string) : string := trim_end (trim_left s).
Fixpoint ToLower (s : string) : string :=
  match s with
  | String c s' => String (lower_ascii c) (ToLower s')
  | EmptyString => ""
  end.

(** The answer in one line, if it is one. *)
Definition yes_no (line : string) : option bool :=
  let response := ToLower (TrimSpace line) in
  if ((response =? "y") || (response =? "yes"))%string then Some true
  else if ((response =? "n") || (response =? "no"))%string then Some false
  else None.

(** [promptYesNo] over what the reads of standard input return; [None] while it still
    asks. *)
Fixpoint promptYesNo (reads : list (error + string)) : option bool :=
  match reads with
  | [] => None
  | inl _ :: reads => promptYesNo reads
  | inr line :: reads =>
      match yes_no line with
      | Some answer => Some answer
      | None => promptYesNo reads
      end
  end.

(** [tx.MarshalJSON()] of an Ethereum transaction is a parameter. *)
Context (eth_json : option EthTx → option SignedEthTx → error + list byte).

Definition tx_MarshalJSON (tx : Transaction) : result (list byte) :=
  match tx with
  | TxCosmos t => of_sum (MarshalJSON t)
  | TxEthereum t signed => of_sum (eth_json t signed)
  | TxNil => Panic "nil dereference"
  end.

(** [ConsoleSigner.Sign]; the outer [None]: it still waits for an answer. *)
Definition ConsoleSigner_Sign (s : AnySigner) (reads : list (error + string)) (chainID : string)
    (tx : Transaction) : IO (option Transaction) :=
  _ ← lift_result (tx_MarshalJSON tx);
  match promptYesNo reads with
  | None => mret None
  | Some false => throw (ErrNew "user abandoned transaction")
  | Some true => signed ← AnySigner_Sign s chainID tx; mret (Some signed)
  end.
End transactions.
Arguments CosmosTransaction : clear implicits.
Arguments CosmosTransaction {_}.
Arguments Transaction : clear implicits.
Arguments Transaction {_}.
Arguments AnySigner : clear implicits.
Arguments AnySigner {_}.

(** ** shared/keys: LogSolverAddresses *)

(** What it logs. *)
Inductive address_log :=
  | SolverAddress (chainID address : string)
  | AddressError (what chainID : string).

Section log_addresses.
Context `{KeyLib} (reader : configReader).
(** [common.Address.Hex()] *)
Context (address_Hex : list byte → string).

Definition log (l : address_log) : M (list address_log) unit := modify (λ ls, ls ++ [l]).

(** [if err != nil { log; continue }] *)
Definition or_log {A} (r : result A) (what chainID : string) (k : A → M (list address_log) unit) :
    M (list address_log) unit :=
  match r with
  | Ok a => k a
  | Err _ => log (AddressError what chainID)
  | Panic p => go_panic p
  end.

Definition log_address (entry : string * string) : M (list address_log) unit :=
  let '(chainID, privateKeyHex) := entry in
  or_log (GetChainConfig reader chainID) "error getting chain config" chainID (λ chainCfg,
  privateKeyHex ← lift_result (strip_0x privateKeyHex);
  if (Type_ chainCfg =? ChainType_COSMOS)%string then
    or_log (hex_DecodeString privateKeyHex) "error decoding private key" chainID (λ bytes,
    or_log (of_sum (cosmos_key bytes)) "error unmarshaling private key" chainID (λ address,
    prefix ← lift_result (address_prefix chainCfg);
    or_log (of_sum (bech32_encode prefix address)) "error converting address to bech32" chainID
      (λ bech32Address, log (SolverAddress chainID bech32Address))))
  else if (Type_ chainCfg =? ChainType_EVM)%string then
    or_log (of_sum (evm_key privateKeyHex)) "error decoding private key" chainID (λ address,
    log (SolverAddress chainID (address_Hex address)))
  else log (AddressError "unknown chain type" chainID)).

(** The entries of the map in the order of the [range]. *)
Definition LogSolverAddresses (entries : list (string * string)) : M (list address_log) unit :=
  for_each entries log_address.

(** The address of a signer as it is logged. *)
Definition signer_text (s : Signer) : string :=
  match s with
  | LocalCosmosSigner _ signerAddress => signerAddress
  | LocalEthereumSigner address => address_Hex address
  | NopSigner => ""
  end.

(** *** Lemmas *)

(** The entry of a chain for which a signer can be made logs the signer's address. *)
Lemma log_address_signer chainID key keys s signer :
  keys !! chainID = Some key → signing_NewSigner reader chainID keys = Ok signer →
  log_address (chainID, key) s = (Ok tt, s ++ [SolverAddress chainID (signer_text signer)]).
Proof.
  intros Hkey Hs. unfold signing_NewSigner in Hs.
  destruct (GetChainConfig reader chainID) as [cfg| |] eqn:Hcfg; [|done..].
  unfold log_address. rewrite Hcfg. unfold or_log at 1. unfold mbind, M_bind.
  destruct (Type_ cfg =? ChainType_COSMOS)%string eqn:Hc.
  - unfold newCosmosSigner in Hs. rewrite Hkey in Hs.
    destruct (strip_0x key) as [k| |]; [|done..]. simpl in *.
    destruct (hex_DecodeString k) as [bs| |]; [|done..]. simpl in *.
    destruct (cosmos_key bs) as [|addr]; [done|]. simpl in *. rewrite Hcfg in Hs. simpl in Hs.
    destruct (address_prefix cfg) as [prefix| |]; [|done..]. simpl in *.
    destruct (bech32_encode prefix addr); [done|]. by simplify_eq/=.
  - destruct (Type_ cfg =? ChainType_EVM)%string; [|done].
    unfold newEVMSigner in Hs. rewrite Hkey in Hs.
    destruct (strip_0x key) as [k| |]; [|done..]. simpl in *.
    destruct (evm_key k); [done|]. by simplify_eq/=.
Qed.

(** A loop that ends normally went through each of its elements. *)
Lemma for_each_split {S A} (pre : list A) x post (body : A → M S unit) s s' :
  for_each (pre ++ x :: post) body s = (Ok tt, s') →
  ∃ s1 s2, body x s1 = (Ok tt, s2) ∧ for_each post body s2 = (Ok tt, s').
Proof.
  revert s. induction pre as [|y pre IH]; intros s Hrun; apply bind_ok_inv in Hrun as ([]&s1&Hx&Hrun);
    [by eexists _, _|by apply IH in Hrun].
Qed.

(** The log only grows. *)
Lemma frame_log l : frame prefix (log l).
Proof. intros s. by exists [l]. Qed.

Lemma frame_or_log {A} (r : result A) what chainID k :
  (∀ a, frame prefix (k a)) → frame prefix (or_log r what chainID k).
Proof. intros Hk. destruct r; simpl; [done|apply frame_log|apply frame_panic; apply _]. Qed.

Lemma LogSolverAddresses_appends entries : frame prefix (LogSolverAddresses entries).
Proof.
  apply frame_for_each; [apply _|]. intros [chainID key]. unfold log_address.
  repeat first [apply frame_or_log; intros ?|apply frame_log|apply frame_bind; [apply _| |intros ?]
               |apply frame_lift_result; apply _|case_match].
Qed.
End log_addresses.

(** *** A small SDK: the signature is what it signs *)

Definition ToySig : Type := string * list (string * Z) * SignerData string.

Definition toy_info (sig : SignatureV2 string unit ToySig) : string * Z :=
  (sv_PubKey sig, sv_Sequence sig).

#[local] Instance toy_sdk : CosmosSdk := {|
  SdkTx := string * list (SignatureV2 string unit ToySig);
  TxBuilder := string * list (SignatureV2 string unit ToySig);
  TxConfig := unit; SignMode := unit; Signature := ToySig;
  PrivKey := string; PubKey := string;
  priv_PubKey := λ key, "pub" +:+ key;
  pub_Address := λ _, [];
  DefaultMode := λ _, tt;
  WrapTxBuilder := λ _ tx, match tx with Some t => inr t | None => inl (ErrNew "no transaction") end;
  SetSignatures := λ b sig, inr (b.1, [sig]);
  GetTx := λ b, b;
  SignWithPrivKey := λ mode data b key _ seq,
    inr (mkSignatureV2 ("pub" +:+ key) mode (Some (b.1, toy_info <$> b.2, data)) seq);
  TxEncoder := λ _ _, inl (ErrNew "no encoding");
  TxDecoder := λ _ _, inl (ErrNew "no encoding");
  TxJSONEncoder := λ _ _, inl (ErrNew "no encoding");
  TxJSONDecoder := λ _ _, inl (ErrNew "no encoding");
|}.

#[local] Instance toy_sdk_laws : CosmosSdkLaws.
Proof.
  refine {| tx_body := (fst : SdkTx → string); tx_signatures := snd;
    verifies body infos data sig := sv_Signature sig = Some (body, toy_info <$> infos, data) |}.
  - by intros cfg [] [] [= <- <-].
  - by intros [] sig ? [= <-].
  - intros mode data b key cfg seq sig [= <-]. split_and!; try done. simpl. do 3 f_equal.
    rewrite <-list_fmap_compose. by apply list_fmap_ext.
  - done.
  - done.
Defined.

(** ** Properties *)

(** C21. A signed Cosmos transaction is the one that was given: its body is unchanged, it
    carries one signature, by the signer's key, with the sequence of the account, and that
    signature verifies over the body, over the signer info the transaction ends up with,
    and over the chain, account number, sequence and address it was meant for. *)
Theorem SignCosmosTx_signs `{CosmosSdkLaws} key cfg chainID acc seq tx addr tx' :
  SignCosmosTx key cfg chainID acc seq (Some tx) addr = Ok tx' →
  tx_body tx' = tx_body tx ∧
  ∃ sig, tx_signatures tx' = [sig] ∧ sv_PubKey sig = priv_PubKey key ∧ sv_Sequence sig = seq ∧
    verifies (tx_body tx') (signer_info <$> tx_signatures tx')
      (mkSignerData addr chainID acc seq (priv_PubKey key)) sig.
Proof.
  unfold SignCosmosTx.
  destruct (WrapTxBuilder cfg (Some tx)) as [|b] eqn:Hw; [done|]; simpl.
  destruct (SetSignatures b _) as [|b1] eqn:Hs1; [done|]; simpl.
  destruct (SignWithPrivKey _ _ b1 key cfg seq) as [|sig] eqn:Hsig; [done|]; simpl.
  destruct (SetSignatures b1 sig) as [|b2] eqn:Hs2; [done|]. intros [= <-].
  apply WrapTxBuilder_body in Hw. apply SetSignatures_ok in Hs1 as [Hb1 Hsigs1], Hs2 as [Hb2 Hsigs2].
  apply SignWithPrivKey_ok in Hsig as (Hkey&Hmode&Hseq&Hver). split; [congruence|].
  exists sig. split_and!; [done..|]. rewrite Hb2, Hsigs2. rewrite Hsigs1 in Hver. simpl in *.
  unfold signer_info in *. simpl in *. by rewrite Hkey, Hmode, Hseq.
Qed.

Lemma SignCosmosTx_signs_witness :
  ∃ tx', SignCosmosTx (H := toy_sdk) "key" tt "osmosis-1" 7 42 (Some ("body", [])) "osmo1" = Ok tx' ∧
    fst tx' = "body"%string ∧ length (snd tx') = 1%nat.
Proof.
  eexists. split; [vm_compute; reflexivity|].
  destruct (SignCosmosTx_signs (H := toy_sdk) "key" tt "osmosis-1" 7 42 ("body", []) "osmo1" _ eq_refl)
    as [Hbody (sig&Hsig&_)].
  split; [exact Hbody|]. exact (f_equal length Hsig).
Defined.

(** The two encodings of a transaction read back. *)
Theorem CosmosTransaction_roundtrip `{CosmosSdkLaws} (t : CosmosTransaction) tx other bs :
  ct_Tx t = Some tx →
  (MarshalBinary t = inr bs → UnmarshalBinary (set_Tx t other) bs = (None, t)) ∧
  (MarshalJSON t = inr bs → UnmarshalJSON (set_Tx t other) bs = (None, t)).
Proof.
  destruct t as [? acc seq cfg]. simpl. intros ->.
  unfold MarshalBinary, UnmarshalBinary, MarshalJSON, UnmarshalJSON. simpl.
  split; intros He; [apply TxDecoder_encoder in He|apply TxJSONDecoder_encoder in He]; by rewrite He.
Qed.

(** What a binding gets to send is its own transaction: signed by the node's key with the
    Ethereum signer, unsigned with the no-op signer, and an error with the others. *)
Theorem bind_signer_own_tx `{CosmosSdk} {E} `{Env E} s chainID tx (w : World E) t signed w' :
  EthereumSignerToBindSignerFn s chainID tx w = (Ok (t, signed), w') →
  t = tx ∧
  ((∃ a, s = SLocalEthereum a) ∧ is_Some signed ∧ (∃ t', tx = Some t') ∨ s = SNop ∧ signed = None).
Proof.
  unfold EthereumSignerToBindSignerFn. intros (signedTx&w1&Hs&Ht)%bind_ok_inv.
  destruct s as [key a|a|a|]; simpl in Hs; [done| | |].
  - unfold ethereum_Sign in Hs. apply bind_ok_inv in Hs as (st&w2&Hst&[= <- <-]).
    injection Ht as <- <- <-. split; [done|]. left. split_and!; [by eexists..|].
    unfold LocalEthereumSigner_Sign in Hst. destruct (bigint_SetString chainID); [|done].
    destruct tx; [by eexists|done].
  - by injection Hs as <- <-.
  - injection Hs as <- <-. injection Ht as <- <- <-. auto.
Qed.

(** The prompt takes the first line that is an answer, and only such a line. *)
Theorem promptYesNo_first reads answer :
  promptYesNo reads = Some answer ↔
  ∃ pre line post, reads = pre ++ inr line :: post ∧ yes_no line = Some answer ∧
    Forall (λ r, match r with inl _ => True | inr l => yes_no l = None end) pre.
Proof.
  split.
  - induction reads as [|[e|line] reads IH]; simpl; [done| |].
    + intros (pre&l&post&->&?&?)%IH. exists (inl e :: pre), l, post. by repeat constructor.
    + destruct (yes_no line) as [b|] eqn:Hl.
      * intros [= ->]. by exists [], line, reads.
      * intros (pre&l&post&->&?&?)%IH. exists (inr line :: pre), l, post. by repeat constructor.
  - intros (pre&line&post&->&Hl&Hpre). induction Hpre as [|[e|l] pre Hx _ IH]; simpl; [by rewrite Hl|done|].
    by rewrite Hx.
Qed.

(** At the end of the input every read fails: the prompt is asked for ever. *)
Theorem promptYesNo_eof err n : promptYesNo (replicate n (inl err)) = None.
Proof. by induction n. Qed.

(** The address logged for a chain is the one its signer signs for: if
    [LogSolverAddresses] goes through the whole key store, every chain for which a signer
    can be made has the signer's address in the log. *)
Theorem LogSolverAddresses_signers `{KeyLib} reader hex (keys : KeyStore) entries ls ls' chainID signer :
  entries ≡ₚ map_to_list keys →
  LogSolverAddresses reader hex entries ls = (Ok tt, ls') →
  signing_NewSigner reader chainID keys = Ok signer →
  SolverAddress chainID (signer_text hex signer) ∈ ls'.
Proof.
  intros Hent Hrun Hs. destruct (keys !! chainID) as [key|] eqn:Hkey.
  2: { unfold signing_NewSigner, newCosmosSigner, newEVMSigner in Hs. rewrite Hkey in Hs.
       repeat case_match; done. }
  assert ((chainID, key) ∈ entries) as Hin by (rewrite Hent; by apply elem_of_map_to_list).
  pose proof (log_address_signer reader hex chainID key keys) as Hlog.
  apply list_elem_of_split in Hin as (pre&post&->). unfold LogSolverAddresses in Hrun.
  apply for_each_split in Hrun as (l1&l2&Hl2&Hrest). rewrite (Hlog l1 signer Hkey Hs) in Hl2.
  injection Hl2 as <-.
  assert (l1 ++ [SolverAddress chainID (signer_text hex signer)] `prefix_of` ls') as [k ->].
  { change ls' with (Ok tt, ls').2. rewrite <-Hrest. apply LogSolverAddresses_appends. }
  set_solver.
Qed.
