(* ===== verification/Startup.v ===== *)
(** * Startup: cmd/solver/main.go and db/connect

    The start of the solver: flags, configuration, key store, database with its
    migrations, the clients, and then the eight workers in an errgroup.  A [Fatal] log
    exits the process: here it is a [Panic], which no code recovers from.  What the workers do is the
    subject of the other files ([System] composes them); here a worker is what it
    returns.

    Parameters: the YAML decoder, SQLite with golang-migrate, the environment variables. *)
From Stdlib Require Import Ascii.
From Stdlib Require String.
From S2P Require Import Prelude GoLib Config Json Network Database World Keys.
From S2P Require Import TxExecutor HyperlaneClients SkipGo.

(** ** Flags *)

Record Flags := mkFlags {
  configPath : string; keysPath : string; keyStoreType : string; sqliteDBPath : string;
  migrationsPath : string; quickStart : bool; refundOrders : bool; fillOrders : bool;
}.

Definition default_flags : Flags := {|
  configPath := "./config/local/config.yml"; keysPath := "./config/local/keys.json";
  keyStoreType := "plaintext-file"; sqliteDBPath := "./solver.db";
  migrationsPath := "./db/migrations"; quickStart := true; refundOrders := false;
  fillOrders := true;
|}.

(** ** The database *)

(** [(&url.URL{Scheme: "file", Path: path}).String()]: a path keeps letters, digits and
    some marks, everything else is written as [%XX]. *)
Definition path_char (c : ascii) : bool :=
  let n := Z.of_nat (nat_of_ascii c) in
  ((97 <=? n) && (n <=? 122)) || ((65 <=? n) && (n <=? 90)) || ((48 <=? n) && (n <=? 57))
  || existsb (Ascii.eqb c) ["-"; "_"; "."; "~"; "$"; "&"; "+"; ","; "/"; ":"; ";"; "="; "@"]%char.

Definition hex_upper (n : nat) : ascii :=
  match String.get n "0123456789ABCDEF" with Some c => c | None => "0"%char end.

Fixpoint escape_path (s : string) : string :=
  match s with
  | EmptyString => ""
  | String c s' =>
      if path_char c then String c (escape_path s')
      else
        let n := nat_of_ascii c in
        String "%" (String (hex_upper (n / 16)) (String (hex_upper (n mod 16)) (escape_path s')))
  end.

Definition file_url (path : string) : string := "file://" +:+ escape_path path.

(** database/sql, the SQLite driver and golang-migrate; [migrate_Up] is what applying the
    migrations returns and makes of the database, which it may leave half migrated when it
    fails. *)
Class Migrate := {
  sql_Open : string → option error;
  sqlite3_WithInstance : option error;
  filepath_Abs : string → error + string;
  NewWithDatabaseInstance : string → option error;
  migrate_Up : Database → option error * Database;
  ErrNoChange : error;
}.

(** [if err != nil { Fatal(msg, err) }]: the process exits. *)
Definition fatal {S A} (msg : string) (m : M S A) : M S A := λ s,
  match m s with
  | (Err e, s') => (Panic ("fatal: " +:+ msg +:+ ": " +:+ error_msg e), s')
  | rs => rs
  end.
Definition check {S} (err : option error) : M S unit :=
  match err with None => mret tt | Some e => throw e end.

Section startup.
Context `{KeyLib} `{Migrate} {E : Type} `{Env E}.
Notation IO := (M (World E)).

(** [m.Up()] *)
Definition migration : IO (option error) := λ w,
  let '(err, d) := migrate_Up (w_db w) in (Ok err, set_db d w).

Definition ConnectAndMigrate (sqliteDBPath migrationsPath : string) : IO unit :=
  _ ← fatal "Error connecting to db" (check (sql_Open sqliteDBPath));
  _ ← fatal "Error creating migration driver" (check sqlite3_WithInstance);
  absPath ← fatal "Error determining migrations filepath" (lift_sum (filepath_Abs migrationsPath));
  _ ← fatal "Error creating migration" (check (NewWithDatabaseInstance (file_url absPath)));
  up ← migration;
  match up with
  | Some err =>
      if bool_decide (err = ErrNoChange) then mret tt
      else fatal "Error applying migration" (throw err)
  | None => mret tt
  end.

(** ** The configuration *)

Context (yaml_Unmarshal : string → error + Config).

Definition LoadConfig (path : string) : IO Config :=
  text ← ask (Net (ReadFile path));
  config ← lift_sum (yaml_Unmarshal text);
  entries ← range (map_to_list (Chains config));
  lift_result (LoadConfig_validate config entries).

(** ** main *)

(** What the workers are started with. *)
Record Services := mkServices {
  sv_config : Config;
  sv_reader : configReader;
  sv_keyStore : KeyStore;
  sv_skipgo : skipGoClient;
  sv_hype : MultiClient;
}.

Context (lookupEnv : string → option string).

(** [main] up to the first [eg.Go]. *)
Definition start (flags : Flags) : IO Services :=
  cfg ← fatal "Unable to load config" (LoadConfig (configPath flags));
  entries ← range (map_to_list (Chains cfg));
  let reader := NewConfigReader cfg entries in
  keyStore ← fatal "Unable to load keystore" (GetKeyStore (keyStoreType flags) (keysPath flags));
  _ ← fatal "Unable to connect to db" (ConnectAndMigrate (sqliteDBPath flags) (migrationsPath flags));
  hype ← fatal "creating hyperlane multi client from config"
    (NewMultiClientFromConfig reader lookupEnv);
  mret (mkServices cfg reader keyStore (mkSkipGoClient "https://api.skip.build") hype).
End startup.

(** ** The workers *)

Inductive worker :=
  | WPrometheus | WOrderFulfiller | WOrderSettler | WFundRebalancer | WTxVerifier
  | WTransferMonitor | WGasMonitor | WRelayerRunner.
#[export] Instance worker_eq_dec : EqDecision worker.
Proof. solve_decision. Defined.

(** In the order of the [eg.Go]. *)
Definition workers : list worker :=
  [WPrometheus; WOrderFulfiller; WOrderSettler; WFundRebalancer; WTxVerifier;
   WTransferMonitor; WGasMonitor; WRelayerRunner].

(** [errors.Is(err, target)]: the error or one it wraps. *)
Fixpoint errors_Is (err target : error) : bool :=
  bool_decide (err = target) || match err with ErrWrap _ err' => errors_Is err' target | _ => false end.

(** [StartPrometheus], from what [ListenAndServe] returns. *)
Definition StartPrometheus (ErrServerClosed : error) (served : option error) : option error :=
  match served with
  | Some err => if errors_Is err ErrServerClosed then None else Some err
  | None => None
  end.

(** What the function of a worker returns, from what its component returned: the
    constructors of the order filler, the settler, the rebalancer and the verifier do
    not fail, and their [Run] returns nothing. *)
Definition worker_returns (w : worker) (err : option error) : option error :=
  match w with
  | WPrometheus => err
  | WOrderFulfiller | WOrderSettler | WFundRebalancer | WTxVerifier => None
  | WTransferMonitor => ErrWrap "creating transfer monitor: " <$> err
  | WGasMonitor => ErrWrap "creating gas monitor: " <$> err
  | WRelayerRunner => ErrWrap "relayer runner: " <$> err
  end.

(** The errgroup: who still runs, who returned what, whether the context is cancelled,
    and the first error. *)
Record group := mkGroup {
  g_running : list worker;
  g_returned : list (worker * option error);
  g_cancelled : bool;
  g_err : option error;
}.

Definition group_start : group := mkGroup workers [] false None.

(** A worker returns; the first error cancels the context; so does a signal. *)
Inductive group_step : group → group → Prop :=
  | worker_return pre w post ret c e err :
      group_step (mkGroup (pre ++ w :: post) ret c e)
        (mkGroup (pre ++ post) (ret ++ [(w, worker_returns w err)])
           (c || bool_decide (is_Some (worker_returns w err)))
           (match e with Some _ => e | None => worker_returns w err end))
  | interrupt run ret c e : group_step (mkGroup run ret c e) (mkGroup run ret true e).

(** [if err := eg.Wait(); err != nil { Fatal }], once nobody runs. *)
Definition main_exit (g : group) : result unit :=
  (fatal "error running solver" (check (g_err g)) tt).1.

(** ** Lemmas *)

Lemma fatal_ok_inv {S A} msg (m : M S A) s a s' : fatal msg m s = (Ok a, s') → m s = (Ok a, s').
Proof. unfold fatal. by destruct (m s) as [[] ?]. Qed.

Lemma frame_fatal {S A} (R : S → S → Prop) msg (m : M S A) : frame R m → frame R (fatal msg m).
Proof. intros Hm s. specialize (Hm s). unfold fatal. by destruct (m s) as [[] ?]. Qed.

(** Like [solve_io], with [fatal]. *)
Ltac solve_start := repeat first [progress solve_io | apply frame_fatal].

(** What the start asks the environment for. *)
Definition start_request (r : request) : Prop :=
  match r with
  | MapOrder => True
  | Net (ReadFile _) | Net (Getenv _) | Net (EthDial _) | Net (GrpcDial _ _) => True
  | _ => False
  end.

Section emits.
Context `{KeyLib} `{Migrate} {E : Type} `{Env E}.

Lemma LoadConfig_emits yaml path : frame (emits start_request) (LoadConfig yaml path).
Proof. unfold LoadConfig, lift_sum. solve_io; done. Qed.

Lemma GetKeyStore_emits ty path : frame (emits start_request) (GetKeyStore ty path).
Proof.
  unfold GetKeyStore, LoadKeyStoreFromPlaintextFile, LoadKeyStoreFromEncryptedFile,
    LoadKeyStoreFromEnv, parse_keys, os_Getenv, lift_sum, slice_to, slice_from.
  solve_io; done.
Qed.

Lemma ConnectAndMigrate_emits path dir :
  frame (emits start_request) (ConnectAndMigrate path dir : M (World E) unit).
Proof.
  unfold ConnectAndMigrate, check, lift_sum. solve_start. intros w. unfold migration.
  destruct (migrate_Up (w_db w)). apply (emits_set_db start_request w w). reflexivity.
Qed.

Lemma NewMultiClient_emits reader lookupEnv :
  frame (emits start_request) (NewMultiClientFromConfig reader lookupEnv).
Proof.
  unfold NewMultiClientFromConfig, NewHyperlaneClient, chain_of_domain, EVMRPC_GetClient.
  solve_io; done.
Qed.

#[local] Hint Resolve LoadConfig_emits GetKeyStore_emits ConnectAndMigrate_emits
  NewMultiClient_emits : frame.

Lemma start_emits yaml lookupEnv flags : frame (emits start_request) (start yaml lookupEnv flags).
Proof. unfold start. solve_start; done. Qed.
End emits.
#[export] Hint Resolve LoadConfig_emits GetKeyStore_emits ConnectAndMigrate_emits
  NewMultiClient_emits : frame.

Lemma LoadConfig_ok {E} `{Env E} yaml path (w : World E) :
  wp (LoadConfig yaml path) (λ r _, match r with
    | Ok cfg => ∀ id chain, Chains cfg !! id = Some chain → ValidateChainConfig chain = None
    | _ => True
    end) w.
Proof.
  apply wp_intro. intros [cfg| |] w' Hrun; [|done..].
  apply bind_ok_inv in Hrun as (text&w1&_&Hrun). apply bind_ok_inv in Hrun as (cfg'&w2&_&Hrun).
  apply bind_ok_inv in Hrun as (entries&w3&Hrange&Hval).
  assert (entries ≡ₚ map_to_list (Chains cfg')) as Hent.
  { refine (wp_run _ (λ r _, match r with Ok l => l ≡ₚ _ | _ => True end) _ _ _ Hrange _).
    apply wp_range. auto. }
  unfold lift_result, LoadConfig_validate in Hval.
  destruct (first_error _) eqn:Hfe in Hval; [done|]. injection Hval as -> ->.
  apply first_error_None in Hfe. rewrite Forall_fmap, Forall_forall in Hfe. intros id chain Hc.
  specialize (Hfe (id, chain)). rewrite Hent in Hfe. simpl in Hfe.
  specialize (Hfe (proj2 (elem_of_map_to_list _ _ _) Hc)). by destruct (ValidateChainConfig chain).
Qed.

(** The migrations were applied to [d], or there was nothing to apply, and left [d']. *)
Definition migrated `{Migrate} (d d' : Database) : Prop :=
  migrate_Up d = (None, d') ∨ migrate_Up d = (Some ErrNoChange, d').

Lemma ConnectAndMigrate_ok `{Migrate} {E} `{Env E} path dir (w w' : World E) :
  ConnectAndMigrate path dir w = (Ok tt, w') → migrated (w_db w) (w_db w').
Proof.
  unfold ConnectAndMigrate, fatal, check, lift_sum, migrated, migration, mbind, M_bind.
  destruct (sql_Open path); [done|]. destruct sqlite3_WithInstance; [done|].
  destruct (filepath_Abs dir) as [|abs]; [done|]. simpl.
  destruct (NewWithDatabaseInstance (file_url abs)); [done|].
  simpl. destruct (migrate_Up (w_db w)) as [[e|] d]; [|intros [= <-]; by auto].
  case_bool_decide; [|done]. intros [= <-]. subst. auto.
Qed.

(** The rest of the start leaves the database alone. *)
Section databases.
Context `{KeyLib} {E : Type} `{Env E}.

Lemma LoadConfig_db yaml path : frame (db_rel (E := E) eq) (LoadConfig yaml path).
Proof. unfold LoadConfig, lift_sum. solve_io. Qed.

Lemma GetKeyStore_db ty path : frame (db_rel (E := E) eq) (GetKeyStore ty path).
Proof.
  unfold GetKeyStore, LoadKeyStoreFromPlaintextFile, LoadKeyStoreFromEncryptedFile,
    LoadKeyStoreFromEnv, parse_keys, os_Getenv, lift_sum, slice_to, slice_from.
  solve_io.
Qed.

Lemma NewMultiClient_db reader lookupEnv :
  frame (db_rel (E := E) eq) (NewMultiClientFromConfig reader lookupEnv).
Proof.
  unfold NewMultiClientFromConfig, NewHyperlaneClient, chain_of_domain, EVMRPC_GetClient.
  solve_io.
Qed.

Lemma run_same_db {A} (m : M (World E) A) w r w' :
  frame (db_rel eq) m → m w = (r, w') → w_db w' = w_db w.
Proof. intros Hm Hrun. specialize (Hm w). rewrite Hrun in Hm. by symmetry. Qed.
End databases.

(** The errors returned so far. *)
Definition errors (ret : list (worker * option error)) : list error := omap snd ret.

Definition group_inv (g : group) : Prop :=
  (g_returned g).*1 ++ g_running g ≡ₚ workers ∧
  g_err g = head (errors (g_returned g)) ∧
  (is_Some (g_err g) → g_cancelled g = true) ∧
  Forall (λ p, ∃ err, p.2 = worker_returns p.1 err) (g_returned g).

Lemma group_step_inv g g' : group_inv g → group_step g g' → group_inv g'.
Proof.
  intros (Hperm&Herr&Hcan&Hret) Hstep. destruct Hstep as [pre w post ret c e err|run ret c e];
    [|by repeat split]. unfold group_inv in *. simpl in *. split_and!.
  - rewrite fmap_app, <-Hperm. simpl. rewrite <-(assoc_L app). apply Permutation_app_head.
    simpl. by rewrite Permutation_middle.
  - unfold errors in *. rewrite omap_app, Herr. simpl.
    destruct (omap snd ret), (worker_returns w err); done.
  - intros He. apply orb_true_iff. destruct e; [left; by apply Hcan|right]. by apply bool_decide_eq_true.
  - apply Forall_app. split; [done|]. repeat constructor. simpl. eauto.
Qed.

Lemma group_run_inv g : rtc group_step group_start g → group_inv g.
Proof.
  assert (group_inv group_start) as Hinv by (split_and!; [done|done|by intros []|constructor]).
  revert Hinv. generalize group_start as g0. intros g0 Hinv Hrun.
  induction Hrun as [|g1 g2 g3 Hstep _ IH]; [done|]. apply IH. by eapply group_step_inv.
Qed.

(** ** Properties *)

(** C19. Nothing runs on a half made start: whatever the outcome, the start only reads files
    and environment variables and dials nodes, so that it sends no transaction; and if it
    gets to the workers, every chain of their configuration is valid, their database is what
    applying the migrations made of it, and nothing else changed it, and the reader they
    share has the chains of that configuration. *)
Theorem start_before_workers `{KeyLib} `{Migrate} {E} `{Env E} yaml lookupEnv flags (w : World E) :
  emits start_request w (start yaml lookupEnv flags w).2 ∧
  ∀ sv w', start yaml lookupEnv flags w = (Ok sv, w') →
    migrated (w_db w) (w_db w') ∧
    (∀ id chain, Chains (sv_config sv) !! id = Some chain → ValidateChainConfig chain = None) ∧
    ∃ entries, entries ≡ₚ map_to_list (Chains (sv_config sv)) ∧
      sv_reader sv = NewConfigReader (sv_config sv) entries.
Proof.
  split; [apply start_emits|]. intros sv w' Hrun. unfold start in Hrun.
  apply bind_ok_inv in Hrun as (cfg&w1&Hcfg&Hrun). apply fatal_ok_inv in Hcfg.
  pose proof (wp_run _ _ _ _ _ Hcfg (LoadConfig_ok yaml _ w)) as Hvalid.
  apply bind_ok_inv in Hrun as (entries&w2&Hrange&Hrun).
  assert (entries ≡ₚ map_to_list (Chains cfg)) as Hent.
  { refine (wp_run _ (λ r _, match r with Ok l => l ≡ₚ _ | _ => True end) _ _ _ Hrange _).
    apply wp_range. auto. }
  apply bind_ok_inv in Hrun as (keys&w3&Hkeys&Hrun). apply bind_ok_inv in Hrun as ([]&w4&Hdb&Hrun).
  apply fatal_ok_inv, ConnectAndMigrate_ok in Hdb.
  apply bind_ok_inv in Hrun as (hype&w5&Hhype&[= <- <-]). simpl. split_and!; eauto.
  apply fatal_ok_inv in Hkeys, Hhype.
  apply run_same_db in Hcfg; [|apply LoadConfig_db]. apply run_same_db in Hkeys; [|apply GetKeyStore_db].
  apply run_same_db in Hhype; [|apply NewMultiClient_db].
  apply run_same_db in Hrange; [|apply db_rel_range, _]. congruence.
Qed.

(** A regular shutdown of the metrics server is no error. *)
Theorem StartPrometheus_shutdown closed served :
  StartPrometheus closed served = None ↔
  served = None ∨ ∃ err, served = Some err ∧ errors_Is err closed = true.
Proof.
  unfold StartPrometheus. destruct served as [err|]; [|by split; auto].
  destruct (errors_Is err closed) eqn:He; split; [eauto|done|done|].
  intros [?|(?&[= <-]&?)]; congruence.
Qed.

(** The process ends when all workers have returned, each once; with status 0 if and only if
    none returned an error, else with the first error, which comes from the metrics server,
    one of the two monitors or the relayer runner. *)
Theorem main_waits_for_all g :
  rtc group_step group_start g → g_running g = [] →
  (g_returned g).*1 ≡ₚ workers ∧
  (main_exit g = Ok tt ↔ errors (g_returned g) = []) ∧
  (∀ err, g_err g = Some err →
     head (errors (g_returned g)) = Some err ∧
     ∃ w, (w, Some err) ∈ g_returned g ∧
       w ∈ [WPrometheus; WTransferMonitor; WGasMonitor; WRelayerRunner]).
Proof.
  intros (Hperm&Herr&_&Hret)%group_run_inv Hdone. rewrite Hdone, app_nil_r in Hperm.
  split; [done|]. unfold main_exit, fatal, check. rewrite Herr. split.
  { destruct (errors (g_returned g)); simpl; naive_solver. }
  intros err He. split; [done|].
  destruct (errors (g_returned g)) as [|e es] eqn:Hes; [done|]. injection He as ->.
  assert (err ∈ errors (g_returned g)) as Hin by (rewrite Hes; left).
  apply list_elem_of_omap in Hin as ([w r]&Hin&Hr). simpl in Hr. subst r. exists w.
  split; [done|]. rewrite Forall_forall in Hret. destruct (Hret _ Hin) as [err' Herr']. simpl in Herr'.
  destruct w; simpl in Herr'; try done; set_solver.
Qed.

(** ** Example: a start on a new machine *)

#[local] Instance start_keys : KeyLib := {|
  json_tree := λ _, inr (JObj [("42161", JObj [("private_key", JStr "0xab")])]);
  cosmos_key := λ bs, inr bs;
  evm_key := λ s, inr [];
  bech32_encode := λ p bs, inr p;
  gcm_check := λ _, None;
  gcm_open := λ _ _ _, inl (ErrNew "cipher: message authentication failed") |}.

#[local] Instance start_db : Migrate := {|
  sql_Open := λ _, None;
  sqlite3_WithInstance := None;
  filepath_Abs := λ p, inr ("/srv/" +:+ p);
  NewWithDatabaseInstance := λ url,
    if (url =? "file:///srv/./db/migrations")%string then None else Some (ErrNew "no such directory");
  migrate_Up := λ d, (Some (ErrNew "no change"), d);
  ErrNoChange := ErrNew "no change" |}.

Definition start_env : Env unit := sim_env (λ r,
  match r as r return error + response r with
  | Net (ReadFile _) => inr "text"
  | Net (EthDial _) => inr tt
  | Net (GrpcDial _ _) => inr tt
  | r => offline r
  end).

Definition start_sample : result Services :=
  (start (H1 := start_env) (λ _, inr (config sample_reader)) (λ _, None) default_flags
     (sim_world empty_db)).1.

Lemma start_before_workers_witness :
  ∃ sv, start_sample = Ok sv ∧ Chains (sv_config sv) = Chains (config sample_reader) ∧
    ∀ id chain, Chains (sv_config sv) !! id = Some chain → ValidateChainConfig chain = None.
Proof.
  destruct start_sample as [sv| |] eqn:Hs; [|by vm_compute in Hs..].
  exists sv. split; [reflexivity|]. unfold start_sample in Hs.
  destruct (start _ _ _ _) as [r w'] eqn:Hrun in Hs. simpl in Hs. subst r.
  pose proof (proj2 (start_before_workers (H1 := start_env) _ _ _ _) sv w' Hrun) as (_&Hvalid&_).
  split; [|exact Hvalid]. vm_compute in Hrun. by simplify_eq.
Defined.

(** A relayer error ends the process with an error once the others have returned. *)
Example relayer_failure :
  ∃ g, rtc group_step group_start g ∧ g_running g = [] ∧
    main_exit g = Panic "fatal: error running solver: relayer runner: database is locked".
Proof.
  set (e := ErrNew "database is locked").
  eexists. split; [|split; [|]].
  - eapply rtc_l; [apply (worker_return
      [WPrometheus; WOrderFulfiller; WOrderSettler; WFundRebalancer; WTxVerifier;
       WTransferMonitor; WGasMonitor] WRelayerRunner [] _ _ _ (Some e))|].
    do 7 (eapply rtc_l; [apply (worker_return []) with (err := None)|]). apply rtc_refl.
  - reflexivity.
  - reflexivity.
Qed.
