(* ===== verification/EvmRpc.v ===== *)
(** * EvmRpc: the RPC client of an EVM chain, and the HTTP transports

    shared/evmrpc/rpcquerier.go and ws_client.go over go-ethereum's client, a parameter
    ([EthClient]); [GetUSDCBalance] goes through the binding of the USDC token
    ([UsdcBinding]).  shared/utils/http.go and shared/http/client.go: the transports that
    add credentials to a request.  A transport changes the request it is given, so a
    request is returned with what became of it. *)
From Stdlib Require Import Strings.Byte.
From S2P Require Import Prelude GoLib TxExecutor Abigen UsdcBinding.

(** ** shared/evmrpc/rpcquerier.go *)

(** [ethclient.Client] *)
Class EthClient (St : Type) := {
  eth_Tx : Type; eth_Receipt : Type; eth_Log : Type; eth_Block : Type; eth_Header : Type;
  eth_CallMsg : Type;
  (* (&types.Transaction{}).UnmarshalBinary and tx.Hash().Hex() *)
  tx_UnmarshalBinary : list byte → error + eth_Tx;
  tx_Hash : eth_Tx → string;
  SendTransaction : eth_Tx → M St unit;
  TransactionReceipt : list byte → M St eth_Receipt;
  TransactionByHash : list byte → M St (eth_Tx * bool);
  eth_FilterLogs : list (list (list byte)) → list (list byte) → M St (list eth_Log);
  eth_BlockByHash : list byte → M St eth_Block;
  eth_HeaderByHash : list byte → M St eth_Header;
  eth_HeaderByNumber : option Z → M St eth_Header;
  eth_PendingNonceAt : list byte → M St Z;
  eth_EstimateGas : eth_CallMsg → M St Z;
  eth_SuggestGasPrice : M St Z;
  eth_SuggestGasTipCap : M St Z;
  eth_CodeAt : list byte → option Z → M St (list byte);
  eth_CallContract : eth_CallMsg → option Z → M St (list byte);
  (* common.HexToAddress and common.HexToHash *)
  HexToAddress : string → list byte;
  HexToHash : string → list byte;
}.

Section chainRPCImpl.
Context {St : Type} `{EthClient St} `{BoundContract St}.

(** [usdc.NewUsdcCaller(address, cr.cc)] makes the binding the calls go to, or fails;
    [ctxOpts] is [&bind.CallOpts{Context: ctx}]. *)
Context (NewUsdcCaller : list byte → option error) (ctxOpts : CallOpts).

Definition GetUSDCBalance (contractAddress account : string) : M St Z :=
  _ ← wrap_err "creating usdc contract binding: "
    (match NewUsdcCaller (HexToAddress contractAddress) with
     | Some err => throw err
     | None => mret tt
     end);
  '(balance, _) ← wrap_err ("getting balance from usdc erc20 contract for account " +:+ account +:+ ": ")
    (Usdc_BalanceOf ctxOpts (HexToAddress account));
  mret balance.

Definition SendTx (txBytes : list byte) : M St string :=
  match tx_UnmarshalBinary txBytes with
  | inl err => throw err
  | inr tx => _ ← SendTransaction tx; mret (tx_Hash tx)
  end.

Definition GetTxReceipt (txHash : string) : M St eth_Receipt :=
  TransactionReceipt (HexToHash txHash).
Definition GetTxByHash (txHash : string) : M St (eth_Tx * bool) :=
  TransactionByHash (HexToHash txHash).
Definition GetLogs (topics : list (list (list byte))) (addresses : list (list byte)) :
    M St (list eth_Log) := eth_FilterLogs topics addresses.
Definition BlockByHash (hash : list byte) : M St eth_Block := eth_BlockByHash hash.
Definition HeaderByHash (hash : list byte) : M St eth_Header := eth_HeaderByHash hash.
Definition HeaderByNumber (number : option Z) : M St eth_Header := eth_HeaderByNumber number.
Definition PendingNonceAt (address : list byte) : M St Z := eth_PendingNonceAt address.
Definition EstimateGas (msg : eth_CallMsg) : M St Z := eth_EstimateGas msg.
Definition SuggestGasPrice : M St Z := eth_SuggestGasPrice.
Definition SuggestGasTipCap : M St Z := eth_SuggestGasTipCap.
Definition CodeAt (address : list byte) (blockHeight : option Z) : M St (list byte) :=
  eth_CodeAt address blockHeight.
Definition CallContract (call : eth_CallMsg) (blockNumber : option Z) : M St (list byte) :=
  eth_CallContract call blockNumber.

(** The balance is the one number the token answered for the account; its errors are
    passed on, and nothing panics. *)
Theorem GetUSDCBalance_answer `{!BoundContractLaws UsdcABI} contractAddress account s :
  match NewUsdcCaller (HexToAddress contractAddress) with
  | Some err => ∃ pre, GetUSDCBalance contractAddress account s = (Err (ErrWrap pre err), s)
  | None =>
      match Call ctxOpts "balanceOf" [to_dyn GAddress (HexToAddress account)] s with
      | (Ok out, s') => ∃ balance, out = [to_dyn GBigInt balance] ∧
          GetUSDCBalance contractAddress account s = (Ok balance, s')
      | (Err err, s') => ∃ pre, GetUSDCBalance contractAddress account s = (Err (ErrWrap pre err), s')
      | (Panic _, _) => False
      end
  end.
Proof.
  unfold GetUSDCBalance, wrap_err, mbind, M_bind.
  destruct (NewUsdcCaller _) as [err|]; [by eexists|]. simpl.
  assert (Usdc_BalanceOf_method ∈ Usdc_calls) as Hm by (apply list_elem_of_In; vm_compute; tauto).
  pose proof (usdc_calls_safe Usdc_BalanceOf_method ctxOpts Hm (HexToAddress account) s) as Hsafe.
  change (caller Usdc_BalanceOf_method ctxOpts) with (Usdc_BalanceOf ctxOpts) in Hsafe.
  simpl m_key in Hsafe.
  destruct (Call ctxOpts _ _ s) as [[out|err|p] s']; [|rewrite Hsafe; by eexists|done].
  destruct Hsafe as ([balance []]&Hcall&<-). exists balance. by rewrite Hcall.
Qed.

(** A transaction is sent at most once, as the bytes say, and never when they do not
    decode. *)
Theorem SendTx_sends txBytes s :
  match tx_UnmarshalBinary txBytes with
  | inl err => SendTx txBytes s = (Err err, s)
  | inr tx =>
      (SendTx txBytes s).2 = (SendTransaction tx s).2 ∧
      (∀ hash, (SendTx txBytes s).1 = Ok hash → hash = tx_Hash tx ∧ (SendTransaction tx s).1 = Ok tt)
  end.
Proof.
  unfold SendTx, mbind, M_bind. destruct (tx_UnmarshalBinary txBytes) as [|tx]; [done|].
  destruct (SendTransaction tx s) as [[[]| |] s'] eqn:Hs; simpl; naive_solver.
Qed.
End chainRPCImpl.

(** ** shared/evmrpc/ws_client.go *)

(** [rpc.Client] and its subscriptions. *)
Class WsNode (St : Type) := {
  ws_Conn : Type; ws_Sub : Type;
  rpc_Dial : string → M St ws_Conn;
  SubscribeNewHead : ws_Conn → M St ws_Sub;
  Unsubscribe : ws_Sub → M St unit;
  rpc_Close : ws_Conn → M St unit;
}.

Section ws_client.
Context {St : Type} `{WsNode St}.

Record WSClient := mkWSClient { ws_rpcClient : ws_Conn; ws_sub : option ws_Sub }.

Definition NewWSClient (wsURL : string) : M St WSClient :=
  rpcClient ← rpc_Dial wsURL; mret (mkWSClient rpcClient None).

Definition SubscribeNewHeads (w : WSClient) : M St WSClient :=
  sub ← SubscribeNewHead (ws_rpcClient w);
  mret (mkWSClient (ws_rpcClient w) (Some sub)).

Definition WSClient_Close (w : WSClient) : M St unit :=
  _ ← (match ws_sub w with Some sub => Unsubscribe sub | None => mret tt end);
  rpc_Close (ws_rpcClient w).
End ws_client.
Arguments WSClient St {_}.

(** ** Transports *)

Definition Header : Type := gmap string (list string).
Definition header_Add (h : Header) (key value : string) : Header :=
  <[key := default [] (h !! key) ++ [value]]> h.
Definition header_Set (h : Header) (key value : string) : Header := <[key := [value]]> h.

(** A request: its headers and the rest. *)
Record HttpReq (R : Type) := mkHttpReq { req_Header : Header; req_rest : R }.
Arguments mkHttpReq {R} _ _.
Arguments req_Header {R} _.
Arguments req_rest {R} _.

Section transports.
Context {St R Resp : Type}.
Definition RoundTripper : Type := HttpReq R → M St Resp.
Context (DefaultTransport : RoundTripper).

(** *** shared/utils/http.go *)

Record BasicAuthTransport := mkBasicAuthTransport {
  bat_basicAuth : option string;
  bat_transport : option RoundTripper;
}.

Definition NewBasicAuthTransport (basicAuth : option string) (transport : option RoundTripper) :
    BasicAuthTransport := mkBasicAuthTransport basicAuth transport.

(** The request as it is sent, which the caller's request has become. *)
Definition basic_auth_request (t : BasicAuthTransport) (req : HttpReq R) : HttpReq R :=
  match bat_basicAuth t with
  | Some auth =>
      mkHttpReq (header_Add (req_Header req) "Authorization" ("Basic " +:+ auth)) (req_rest req)
  | None => req
  end.

Definition BasicAuthTransport_RoundTrip (t : BasicAuthTransport) (req : HttpReq R) :
    M St Resp :=
  let req := basic_auth_request t req in
  match bat_transport t with
  | Some transport => transport req
  | None => DefaultTransport req
  end.

(** *** shared/http/client.go *)

Record AuthenticatedTransport := mkAuthenticatedTransport {
  at_UnderlyingTransport : RoundTripper;
  at_Username : string;
  at_Password : string;
}.

(** [req.SetBasicAuth(username, password)] *)
Definition authenticated_request (at_ : AuthenticatedTransport) (req : HttpReq R) : HttpReq R :=
  mkHttpReq (header_Set (req_Header req) "Authorization"
    ("Basic " +:+ base64_EncodeToString (at_Username at_ +:+ ":" +:+ at_Password at_)))
    (req_rest req).

Definition AuthenticatedTransport_RoundTrip (at_ : AuthenticatedTransport) (req : HttpReq R) :
    M St Resp := at_UnderlyingTransport at_ (authenticated_request at_ req).

Definition DefaultAuthenticatedTransport (username password : string) : AuthenticatedTransport :=
  mkAuthenticatedTransport DefaultTransport username password.

(** A request sent [n] times carries the credentials [n] times through the one transport,
    and once through the other. *)
Theorem credentials_per_send (bt : BasicAuthTransport) (at_ : AuthenticatedTransport) auth n req :
  bat_basicAuth bt = Some auth →
  req_Header (Nat.iter n (basic_auth_request bt) req) !! "Authorization" =
    (if (n =? 0)%nat then req_Header req !! "Authorization"
     else Some (default [] (req_Header req !! "Authorization") ++ replicate n ("Basic " +:+ auth))) ∧
  req_Header (Nat.iter (S n) (authenticated_request at_) req) !! "Authorization" =
    Some ["Basic " +:+ base64_EncodeToString (at_Username at_ +:+ ":" +:+ at_Password at_)].
Proof.
  intros Hauth. split; [|apply lookup_insert_eq].
  induction n as [|n IH]; [done|]. simpl Nat.iter. unfold basic_auth_request at 1.
  rewrite Hauth. etrans; [apply lookup_insert_eq|]. f_equal. rewrite IH.
  destruct n as [|n]; simpl; [done|]. rewrite <-(assoc_L app). f_equal.
  exact (eq_sym (replicate_S_end (S n) _)).
Qed.

(** Other headers are left alone. *)
Theorem credentials_only (bt : BasicAuthTransport) (at_ : AuthenticatedTransport) req key :
  key ≠ "Authorization"%string →
  req_Header (basic_auth_request bt req) !! key = req_Header req !! key ∧
  req_Header (authenticated_request at_ req) !! key = req_Header req !! key.
Proof.
  intros Hk. unfold basic_auth_request, authenticated_request, header_Add, header_Set.
  split; [destruct (bat_basicAuth bt); [|done]|]; by apply lookup_insert_ne.
Qed.
End transports.
