(* ===== verification/CliSetup.v ===== *)
(** * CliSetup: the commands of the solver's tool from their flags on

    cmd/solvercli/cmd/utils.go and the set-up of the commands whose work is modelled in
    [CliReports] and [CliOrders]: reading flags, the configuration, the key store and the
    database.  A flag that is not declared is an error; an error that is logged ends
    the command, and [Fatal] the process. *)
From Stdlib Require Import Strings.Byte.
From S2P Require Import Prelude GoLib Config Json Network Database World Keys.
From S2P Require Import Settlements Hyperlane OrderSettler HyperlaneClients CliReports CliOrders Startup.

Notation Flags := CliReports.Flags.

Section setup.
Context `{KeyLib} `{Migrate} `{Crypto} {E : Type} `{Env E}.
Notation IO := (M (World E)).
Context (yaml_Unmarshal : string → error + Config) (lookupEnv : string → option string).
Context (bigfloat_SetString : string → option bigfloat).

(** [cmd.Flags().GetString(name)] *)
Definition flags_GetString (flags : Flags) (name : string) : IO string :=
  match flags name with
  | Some v => mret v
  | None => throw (ErrNew ("flag accessed but not defined: " +:+ name))
  end.

(** [config.LoadConfig] and the reader in the context *)
Definition load_reader (path : string) : IO configReader :=
  cfg ← LoadConfig yaml_Unmarshal path;
  entries ← range (map_to_list (Chains cfg));
  mret (NewConfigReader cfg entries).

(** ** utils.go *)

Definition setupContext (flags : Flags) : IO configReader :=
  configPath ← fatal "Failed to get config path" (flags_GetString flags "config");
  fatal "Failed to load config" (load_reader configPath).

Definition setupClients (flags : Flags) : IO KeyStore :=
  keysPath ← fatal "Error reading keys path" (flags_GetString flags "keys");
  keyStoreType ← fatal "Error reading key-store-type" (flags_GetString flags "key-store-type");
  fatal "Unable to load keystore" (GetKeyStore keyStoreType keysPath).

Definition setupDatabase (flags : Flags) : IO unit :=
  sqliteDBPath ← wrap_err "getting sqlite-db-path: " (flags_GetString flags "sqlite-db-path");
  migrationsPath ← wrap_err "getting migrations-path: " (flags_GetString flags "migrations-path");
  wrap_err "connecting to database: " (ConnectAndMigrate sqliteDBPath migrationsPath).

(** ** The commands *)

Definition rebalances_run (flags : Flags) : IO (list string) :=
  _ ← setupContext flags;
  _ ← fatal "Failed to setup database" (setupDatabase flags);
  rebalancesCmd.

Definition inventory_run (flags : Flags) : IO (list string) :=
  reader ← setupContext flags;
  _ ← fatal "Failed to setup database" (setupDatabase flags);
  _ ← setupClients flags;
  inventoryCmd reader bigfloat_SetString flags.

Definition settlements_run (flags : Flags) : IO (list string) :=
  reader ← setupContext flags;
  _ ← setupClients flags;
  settlementsCmd reader.

Definition settle_orders_run (flags : Flags) : IO (list (SettlementBatch * string)) :=
  keyStoreType ← flags_GetString flags "key-store-type";
  keysPath ← flags_GetString flags "keys";
  configPath ← flags_GetString flags "config";
  reader ← load_reader configPath;
  _ ← fatal "Unable to load keystore" (GetKeyStore keyStoreType keysPath);
  cli_settleOrders reader.

(** [keys.GetKeyStoreOpts] *)
Record GetKeyStoreOpts := mkGetKeyStoreOpts { KeyFilePath : string; AESKeyHex : string }.
Definition GetKeyStore_opts (keyStoreType : string) (opts : GetKeyStoreOpts) : IO KeyStore :=
  GetKeyStore keyStoreType (KeyFilePath opts).

Definition relay_run (flags : Flags) : IO (string * string) :=
  keysPath ← flags_GetString flags "keys";
  keyStoreType ← flags_GetString flags "key-store-type";
  aesKeyHex ← flags_GetString flags "aes-key-hex";
  configPath ← flags_GetString flags "config";
  originChainID ← flags_GetString flags "origin-chain-id";
  originTxHash ← flags_GetString flags "origin-tx-hash";
  storageOverrideMapJson ← flags_GetString flags "checkpoint-storage-location-override";
  tree ← lift_sum (json_tree storageOverrideMapJson);
  storageOverrideMap ← lift_result (json_Unmarshal (dec_map dec_string) tree);
  reader ← load_reader configPath;
  _ ← GetKeyStore_opts keyStoreType (mkGetKeyStoreOpts keysPath aesKeyHex);
  hype ← attempt (NewMultiClientFromConfig reader lookupEnv);
  relayCmd reader storageOverrideMap
    (match hype with inl err => inl err | inr _ => inr tt end) originChainID originTxHash.

(** ** Properties *)

(** The flag "aes-key-hex", declared as the key of an encrypted key file, changes nothing:
    the command only asks that it exists. *)
Theorem relay_ignores_aes_key (flags flags' : Flags) :
  (∀ name, name ≠ "aes-key-hex"%string → flags' name = flags name) →
  is_Some (flags "aes-key-hex"%string) → is_Some (flags' "aes-key-hex"%string) →
  ∀ w, relay_run flags' w = relay_run flags w.
Proof.
  intros Hsame [v Hv] [v' Hv'] w. unfold relay_run, flags_GetString.
  rewrite Hv, Hv'. rewrite !Hsame by done. reflexivity.
Qed.

Lemma createIndexes_elem entries id chain :
  createIndexes entries !! id = Some chain → ∃ key, (key, chain) ∈ entries ∧ ChainID chain = id.
Proof.
  induction entries as [|[key c] entries IH] using rev_ind; [done|]. rewrite createIndexes_snoc.
  intros [[<- ->]|[_ (k&?&?)%IH]]%lookup_insert_Some; [exists key|exists k]; set_solver.
Qed.

(** The reader of a command has only chains that passed validation, each under its own
    chain id. *)
Lemma load_reader_valid path w :
  wp (load_reader path) (λ r _, match r with
    | Ok reader => ∀ id chain, chainIDIndex reader !! id = Some chain →
        ChainID chain = id ∧ ValidateChainConfig chain = None
    | _ => True
    end) w.
Proof.
  apply wp_intro. intros [reader| |] w' Hrun; [|done..].
  apply bind_ok_inv in Hrun as (cfg&w1&Hcfg&Hrun).
  pose proof (wp_run _ _ _ _ _ Hcfg (LoadConfig_ok yaml_Unmarshal path w)) as Hvalid. simpl in Hvalid.
  apply bind_ok_inv in Hrun as (entries&w2&Hrange&[= <- _]).
  assert (entries ≡ₚ map_to_list (Chains cfg)) as Hent.
  { refine (wp_run _ (λ r _, match r with Ok l => l ≡ₚ _ | _ => True end) _ _ _ Hrange _).
    apply wp_range. auto. }
  simpl. intros id chain Hc.
  destruct (createIndexes_elem _ _ _ Hc) as (key&Hin&Hid).
  split; [done|]. eapply Hvalid. apply elem_of_map_to_list. by rewrite <-Hent.
Qed.

(** Before a command does its work it only reads files and environment variables: whatever
    the flags, the set-up sends nothing. *)
Theorem setup_reads_only flags :
  frame (emits start_request) (setupContext flags) ∧
  frame (emits start_request) (setupClients flags) ∧
  frame (emits start_request) (setupDatabase flags).
Proof.
  unfold setupContext, setupClients, setupDatabase, load_reader, flags_GetString.
  split_and!; solve_start; done.
Qed.
End setup.
