(* ===== verification/Supervision.v ===== *)
(** * Supervision: how the workers run their goroutines

    The parts of transfermonitor/transfermonitor.go and fundrebalancer/fundrebalancer.go
    around the rounds modelled in [TransferMonitor] and [FundRebalancer]: the clients a
    monitor keeps, the errgroup of the websocket monitors in [Start], and the loops of the
    rebalancer.  The errgroup is a step relation like the one of [Startup], to which its
    outcome is passed. *)
From S2P Require Import Prelude GoLib Config Json Network Database World.
From S2P Require Import FundRebalancer TransferMonitor Startup.

(** ** The transfer monitor *)

(** [NewTransferMonitor]: the poll interval, five seconds unless it is set. *)
Definition monitor_poll_interval (pollInterval : option Duration) : Duration :=
  default (5 * Second) pollInterval.

Section clients.
Context {E : Type} `{Env E}.
Notation IO := (M (World E)).
Context (reader : configReader) (lookupEnv : string → option string).

(** [t.clients] and [t.wsClients], as the chains they have a connection for; the header
    with the credentials is set on a new connection. *)
Record connection := mkConnection { conn_endpoint : string; conn_auth : option string }.

Definition getClient (clients : gmap string connection) (chainID : string) :
    IO (connection * gmap string connection) :=
  match clients !! chainID with
  | Some client => mret (client, clients)
  | None =>
      rpc ← lift_result (GetRPCEndpoint reader chainID);
      basicAuth ← lift_result (GetBasicAuth lookupEnv reader chainID);
      _ ← ask (Net (EthDial rpc));
      let client := mkConnection rpc ((λ auth, "Basic " +:+ auth) <$> basicAuth) in
      mret (client, <[chainID := client]> clients)
  end.

Definition getWebSocketClient (wsClients : gmap string connection) (chain : ChainConfig) :
    IO (connection * gmap string connection) :=
  wsEndpoint ← lift_result (GetWSEndpoint reader (ChainID chain));
  match wsClients !! ChainID chain with
  | Some client => mret (client, wsClients)
  | None =>
      basicAuth ← lift_result (GetBasicAuth lookupEnv reader (ChainID chain));
      _ ← ask (Net (EthDial wsEndpoint));
      let client := mkConnection wsEndpoint ((λ auth, "Basic " +:+ auth) <$> basicAuth) in
      mret (client, <[ChainID chain := client]> wsClients)
  end.
End clients.

(** The websocket branch of [Start]: who still watches, the context of the group, and what
    [Start] returned. *)
Record ws_group := mkWsGroup {
  wg_running : list string;
  wg_cancelled : bool;
  wg_returned : option (option error);
}.

Definition ws_start (chains : list string) : ws_group := mkWsGroup chains false None.

(** The monitor of a chain returns an error, which cancels the group; or it returns nil,
    and when it was the last, [eg.Wait] cancels the group; the solver is interrupted;
    [<-ctx.Done()] is the group's context, and [Start] returns nil. *)
Inductive ws_group_step : ws_group → ws_group → Prop :=
  | ws_fails pre c post can ret (err : error) :
      ws_group_step (mkWsGroup (pre ++ c :: post) can ret) (mkWsGroup (pre ++ post) true ret)
  | ws_ends pre c post can ret :
      ws_group_step (mkWsGroup (pre ++ c :: post) can ret)
        (mkWsGroup (pre ++ post) (can || bool_decide (pre ++ post = [])) ret)
  | ws_interrupt run ret : ws_group_step (mkWsGroup run false ret) (mkWsGroup run true ret)
  | ws_start_returns run : ws_group_step (mkWsGroup run true None) (mkWsGroup run true (Some None)).

Definition ws_measure (g : ws_group) : nat :=
  length (wg_running g) + (if wg_cancelled g then 0 else 1) + (if wg_returned g then 0 else 1).

Lemma ws_step_measure g g' : ws_group_step g g' → (ws_measure g' < ws_measure g)%nat.
Proof.
  destruct 1 as [pre c post can ret err|pre c post can ret|run ret|run]; unfold ws_measure; simpl;
    rewrite ?length_app; simpl; try destruct can; try destruct (bool_decide _); simpl;
    destruct ret || idtac; simpl; lia.
Qed.

(** A group that has been cancelled stays so, and [Start] returns nothing but nil. *)
Definition ws_inv (g : ws_group) : Prop :=
  (∀ r, wg_returned g = Some r → r = None) ∧ (is_Some (wg_returned g) → wg_cancelled g = true).

Lemma ws_step_inv g g' : ws_inv g → ws_group_step g g' → ws_inv g'.
Proof.
  intros [Hnil Hcan] Hstep. destruct Hstep; split; simpl in *; try done; try naive_solver.
Qed.

Lemma ws_step_cancelled g g' :
  ws_group_step g g' → wg_cancelled g = true → wg_cancelled g' = true.
Proof. destruct 1; simpl; try done. by intros ->. Qed.

Lemma ws_cancelled_run n g g' :
  nsteps ws_group_step n g g' → ws_inv g → wg_cancelled g = true →
  ws_inv g' ∧ wg_cancelled g' = true ∧ (n + ws_measure g' ≤ ws_measure g)%nat.
Proof.
  induction 1 as [|n g1 g2 g3 Hstep _ IH]; intros Hinv Hcan; [split_and!; [done..|lia]|].
  destruct IH as (?&?&?); [by eapply ws_step_inv|by eapply ws_step_cancelled|].
  apply ws_step_measure in Hstep. split_and!; [done..|lia].
Qed.

(** ** The fund rebalancer *)

Inductive rebalancer_event := RebalanceTick | TrackerTick | RebalancerDone.

Section rebalancer.
Context {E : Type} `{Env E}.
Notation IO := (M (World E)).
Context (reader : configReader).

(** The two loops over the ticks they receive; an error of the tracker is logged.  The
    result says whether [Run] returned. *)
Fixpoint rebalancer_loop (events : list rebalancer_event) : IO bool :=
  match events with
  | [] => mret false
  | RebalancerDone :: _ => mret true
  | RebalanceTick :: events => _ ← Rebalance reader; rebalancer_loop events
  | TrackerTick :: events => _ ← attempt UpdateTransfers; rebalancer_loop events
  end.

Definition FundRebalancer_Run (events : list rebalancer_event) : IO bool :=
  match FundRebalancer (config reader) with
  | None => mret true
  | Some _ => rebalancer_loop events
  end.
End rebalancer.

(** ** Properties *)

(** One chain stops them all: after the subscription of one chain failed, the monitors of
    all chains end within as many steps as there are, and [Start] returns nil, so that the
    solver goes on without monitoring any chain and its worker reports no error. *)
Theorem ws_failure_stops_all pre c post n g :
  nsteps ws_group_step n (mkWsGroup (pre ++ post) true None) g →
  ws_group_step (ws_start (pre ++ c :: post)) (mkWsGroup (pre ++ post) true None) ∧
  (n ≤ length (pre ++ post) + 1)%nat ∧
  (nf ws_group_step g → wg_running g = [] ∧ wg_returned g = Some None ∧
     ∀ r, wg_returned g = Some r → worker_returns WTransferMonitor r = None).
Proof.
  intros Hrun. split; [apply (ws_fails _ _ _ _ _ (ErrNew "subscription error"))|].
  apply ws_cancelled_run in Hrun as ((Hnil&_)&Hcan&Hn); [|by split; [|intros []]|done].
  split; [unfold ws_measure at 2 in Hn; simpl in Hn; lia|]. intros Hnf.
  destruct g as [[|c' run] can ret]; simpl in *; subst can.
  - destruct ret as [r|]; [rewrite (Hnil r eq_refl); split_and!; [done..|by intros ? [= <-]]|].
    destruct Hnf. eexists. apply ws_start_returns.
  - destruct Hnf. eexists. apply (ws_ends []).
Qed.

Lemma ws_failure_stops_all_witness :
  ∃ g, nsteps ws_group_step 3 (mkWsGroup ["1"; "10"]%string true None) g ∧
    wg_running g = [] ∧ wg_returned g = Some None.
Proof.
  eexists. assert (nsteps ws_group_step 3 (mkWsGroup ["1"; "10"]%string true None)
    (mkWsGroup [] true (Some None))) as Hrun.
  { eapply nsteps_l; [apply ws_start_returns|]. eapply nsteps_l; [apply (ws_ends [])|].
    eapply nsteps_l; [apply (ws_ends [])|]. apply nsteps_O. }
  split; [exact Hrun|].
  destruct (ws_failure_stops_all [] "42161"%string ["1"; "10"]%string 3 _ Hrun) as (_&_&Hend).
  destruct Hend as (?&?&_); [|by split].
  intros [g' Hstep]. inversion Hstep; by destruct pre.
Defined.

(** Without a configuration the rebalancer does nothing, not even follow the transfers that
    are on their way. *)
Theorem rebalancer_unconfigured {E} `{Env E} reader events (w : World E) :
  FundRebalancer (config reader) = None → FundRebalancer_Run reader events w = (Ok true, w).
Proof. unfold FundRebalancer_Run. by intros ->. Qed.

(** A monitor dials a chain once: the client it keeps is used again, without a call. *)
Theorem getClient_once {E} `{Env E} reader lookupEnv clients chainID (w : World E) client clients' w' :
  getClient reader lookupEnv clients chainID w = (Ok (client, clients'), w') →
  ∀ w1, getClient reader lookupEnv clients' chainID w1 = (Ok (client, clients'), w1).
Proof.
  intros Hrun w1. assert (clients' !! chainID = Some client) as Hkept.
  { unfold getClient in Hrun. destruct (clients !! chainID) as [cl|] eqn:Hc.
    - by injection Hrun as <- <- <-.
    - apply bind_ok_inv in Hrun as (rpc&w2&_&Hrun). apply bind_ok_inv in Hrun as (auth&w3&_&Hrun).
      apply bind_ok_inv in Hrun as (u&w4&_&Hrun). injection Hrun as <- <- _. apply lookup_insert_eq. }
  unfold getClient. by rewrite Hkept.
Qed.
